(* ===== verification/_CoqProject ===== *)
-Q . S2P
Prelude.v
LuaApi.v
Arrays.v
Registry.v
Machine.v
Capi.v
Samples.v
Threads.v
Refcount.v
Utils.v
Modules.v
Cmem.v
Wrapper.v
UnistdCalls.v
Cpuset.v
PthreadCopy.v
PthreadSync.v
PthreadThread.v
PthreadLife.v
PthreadRendezvous.v
Pthread.v
Xor.v
Uio.v
Signal.v
Unistd.v
UnistdProps.v
Acl.v
Aio.v
AioState.v
AioLife.v
AioFree.v
AioBuffers.v
Guards.v
Nv.v
NvLib.v
NvGuards.v
NvProps.v
NvRefs.v
Nvpair.v
NvpairProps.v
ZfsBase.v
Libzfs.v
Zfs.v
Zpool.v
ZfsIter.v
ZfsOpen.v
ZfsIterProps.v
Extattr.v
Capsicum.v
Libc.v
Kernel.v
Passwd.v
Files.v
Descriptors.v
Mqueue.v
Mac.v
Sysctl.v
Net.v
Netinet.v
Event.v
Magic.v
Casper.v
Be.v
ZfsCore.v
Foreign.v
Kvm.v
Ifconfig.v
Fetch.v
Sctp.v
Dpv.v
Bsddialog.v
CmemProps.v
ExtattrProps.v
KernelProps.v
SystemProps.v
NetProps.v
IfconfigProps.v
BsddialogProps.v
Lifecycle.v
Contracts.v
