(* ===== verification/Prelude.v ===== *)
(** * flualibs, verified: root of the development

    flualibs is a collection of Lua modules, written in C, for the libraries and
    system calls of FreeBSD (sources under [src/]).  A module is a set of C
    functions that check their arguments on a Lua stack, call the system, and push
    results; the modules with logic of their own share C objects between threads
    that each run their own Lua state, or keep trees of objects alive from Lua.

    ** The parts and where they are modelled

    - [Prelude]: C integer conversions, C strings, lists, tactics.
    - [LuaApi], [Arrays], [Registry]: the Lua C API as its manual documents it
      ([doc], partial: what the manual leaves open is [Unspec], what it forbids is
      [UB]); arrays; method tables.
    - [Machine], [Threads], [Capi], [Samples]: a C function is a [prog], a finite
      tree of calls (Lua API, memory, system libraries); [run] gives it meaning in
      a [world] (Lua states, memory, system state); [executes] quantifies over every
      implementation of the Lua API that conforms to the manual; [Threads]
      interleaves programs call by call.  [Samples] has the instances that show the
      hypotheses of theorems can hold.
    - [Utils] is [src/utils.h] (results, cookies, references, descriptors, arrays as
      stacks); [Refcount] is [src/libpthread/refcount.h]; [Modules] is what every
      [luaopen_] function does; [Cmem] is C arrays and strings built from Lua tables.
    - [Wrapper] describes a function that is one call by data: the arguments it
      reads with their conversions, their order in the call, and what is done with
      the result.  [wrapper] is the program of a description, [contract] its
      meaning.  The functions themselves are translated one by one in the module
      files; a table [<module>_wrappers] pairs each with its description.
    - [Cpuset] is [src/sys/cpuset/]: sets of CPUs.
    - [PthreadCopy], [PthreadSync], [PthreadThread], [PthreadRendezvous], [Pthread]
      are [src/libpthread/lua_pthread.c]: copying values between states ([copyn]);
      mutexes, condition variables, locks, barriers, once objects, keys and their
      attributes; threads, attributes, cleanup handlers; rendezvous; registration.
      [PthreadLife] proves what the thread operations do.
    - [Xor] is [src/xor/lua_xor.c].
    - [Aio] is [src/aio/lua_aio.c]: asynchronous I/O control blocks.  [AioState] has
      the competition for a buffer and a race; [AioLife] submission and completion;
      [AioFree] destruction; [AioBuffers] buffers and lists.
    - [Uio] is [src/sys/uio/], [Signal] is [src/signal/]: the I/O vectors and signal
      events of [aio], and the modules around them.
    - [UnistdCalls] (one call each) and [Unistd] (the others, constants,
      registration) are [src/unistd/lua_unistd.c]; [UnistdProps] has its theorems and
      what they assume of the system calls.
    - [Acl] is [src/sys/acl/lua_acl.c].
    - [Nv] is [src/libnv/]: name/value lists with owning, constant and borrowed
      handles.  [NvLib] is the abstract library (lists of pairs with an error state)
      and the class of its laws, with an instance; [Guards] and [NvGuards] the
      argument checks; [NvProps] round trips; [NvRefs] ownership and iteration.
    - [Nvpair] is [src/libnvpair/], [NvpairProps] its arrays and nested lists.
    - [ZfsBase] (errors, handles, properties, flags), [Libzfs] (the library handle),
      [Zfs] (datasets), [Zpool] (pools), [ZfsIter] (iteration with callbacks,
      sending) and [ZfsOpen] (constants, registration) are
      [src/libzfs/lua_zfs.c]; [ZfsIterProps] their theorems.
    - [ZfsCore] is [src/libzfs/core/], [Be] is [src/libbe/]: libzfs_core and boot
      environments.
    - [Extattr] and [Mac] are [src/sys/extattr/] and [src/sys/mac/]; [Capsicum] is
      [src/sys/capsicum/] and [src/capsicum_helpers/]; [Kernel] is [src/sys/module/],
      [src/sys/linker/], [src/sys/limits/] and [src/sys/reboot/].
    - [Files] is [src/sys/stat/], [src/fcntl/] and [src/dirent/]; [Descriptors] is
      [src/sys/eventfd/], [src/sys/procdesc/] and [src/sys/inotify/]; [Event] is
      [src/sys/event/], [Mqueue] is [src/mqueue/].
    - [Sysctl] is [src/sys/sysctl/], with the functions of a node that the casper
      service has too.
    - [Net] is [src/sys/socket/] and [src/netdb/], [Netinet] the modules under
      [src/netinet/] but sctp, which is [Sctp].
    - [Libc] is the modules for parts of libc and small libraries: [src/syslog/],
      [src/libutil/], [src/libpathconv/], [src/readpassphrase/], [src/b64/],
      [src/libmd/], [src/time/], [src/stdio/]; [Passwd] is [src/pwd/] and [src/grp/];
      [Magic] is [src/libmagic/].
    - [Casper] is [src/libcasper/]: channels and the services.
    - [Kvm] is [src/libkvm/], [Ifconfig] is [src/libifconfig/], [Fetch] is
      [src/libfetch/], [Dpv] is [src/libdpv/], [Bsddialog] is [src/libbsddialog/];
      [Foreign] has what they share: members of structures of the system, asked for by
      name, and library functions that call back.
    - The files whose names end in Props hold the theorems about the modules in their
      titles; [KernelProps] is about [Sysctl] and [Descriptors], [SystemProps] about
      [Libc], [Mqueue] and [Passwd], [NetProps] about [Net] and [Sctp]; [CmemProps] has
      the lemmas on buffers and tables they share.  [Lifecycle] is about the handles of
      several libraries.
    - [Contracts] collects the descriptions and the registration tables of the
      modules.
    A definition has the name of the C function it translates and the same
    structure; helpers whose name is not in the source name a part of a function.

    ** What the theorems show

    - memory safety and life time: [Refcount.shared_object_safe] (any interleaving of
      retains and releases), [Pthread.object_references], [PthreadSync.object_new],
      [AioFree.free_waits], [NvRefs.move_nvlist_owner],
      [Lifecycle.handle_closed_once] (any sequence of calls, which may fail, and other
      events),
      [BsddialogProps.menu_items] (every block freed once, whatever the dialog writes);
    - no abort of libnv can be reached, but through seven functions that omit a check:
      [NvGuards.nv_never_aborts], [NvGuards.unguarded_abort];
    - exclusion between threads: [AioState.begin_exclusive];
    - functional behaviour with errors: [PthreadLife], [PthreadRendezvous],
      [AioLife], [Cpuset], [Xor];
    - equivalence with a reference: [Contracts.wrappers_contract], for every function
      that is one call, every argument list and every behaviour of the library;
    - refinement and round trips: [PthreadCopy.copyn_copies] against the abstract
      [copy_values]; [Utils.new_checkcookie], [Utils.tpack_tunpack],
      [Utils.tpush_tpop], [Xor.xor_apply], [NvProps.number_roundtrip],
      [NvProps.number_array_roundtrip], [KernelProps.value_roundtrip],
      [KernelProps.inotify_read_events], [ExtattrProps.list_file_names],
      [NetProps.addr_roundtrip], [NetProps.addrs_roundtrip],
      [SystemProps.b64_roundtrip], [IfconfigProps.capabilities_again];
    - termination: [AioFree.free_waits], [UnistdProps.confstr_value],
      [UnistdProps.getgrouplist_value], [UnistdProps.getgroups_ends],
      [ZfsIterProps.iter_children_calls], [SystemProps.getpwnam_value],
      [SystemProps.getgrgid_value], [ExtattrProps.get_file_value];
    - guards: [Pthread.methods_guard]; registration: [Pthread.pthread_open],
      [Contracts.modules_open];
    - what the code does against its intention, each proved of the code as it is:
      [AioFree.close_then_gc], [AioFree.return_in_progress],
      [AioState.rollback_race], [AioBuffers.listio_list], [AioBuffers.index_buf],
      [PthreadLife.create_nomem], [PthreadLife.exit_closes_state],
      [PthreadLife.once_call_aborts], [PthreadRendezvous.timedexchange_status],
      [PthreadCopy.copyn_overflow], [PthreadCopy.copyn_nested_function],
      [NvRefs.owned_list_refused], [NvRefs.next_cookie_expired],
      [NvRefs.reference_dangles], [NvRefs.list_arrays_fail],
      [UnistdProps.setgroups_unset], [UnistdProps.strtofflags_free],
      [UnistdProps.getgroups_shrinks], [NvpairProps.add_array_limit],
      [NvpairProps.lookup_nested_free], [ZfsIterProps.iter_snapshots_calls_number],
      [ZfsIterProps.prop_number_lost],
      [ExtattrProps.list_file_long], [SystemProps.open_attr_raises],
      [SystemProps.receive_leaks], [NetProps.addr_overflow],
      [NetProps.closer_leaks], [IfconfigProps.set_metric_refused].

    ** Bounds

    [LUA_MINSTACK] is 20, the free slots Lua promises a C function.  [copyn] calls
    itself on upvalues; [PthreadCopy] bounds the nesting by [COPY_DEPTH] = 32 and
    the upvalues by Lua's own limit of 255; its theorems ask for a nesting below the
    bound.  Loops that depend on the system have their fuel as an argument, and the
    theorems hold for every fuel above the number of rounds they prove: the
    interruptions of [l_aiocb_free], two rounds of [l_confstr] and
    [l_getgrouplist], one more than the number of times the kernel changes its mind
    in [l_getgroups], one more than the number of callbacks in an iteration of
    [ZfsIter].  [SystemProps] needs one round more than doublings of a
    page; two rounds are enough in [ExtattrProps] and [KernelProps].

    ** Not modelled

    Parameters: the Lua library ([LuaSem]), the C library and the system calls
    ([clib]), the constants ([Consts], [SConsts]) and layouts ([SigLayout]) of the
    system headers.  Weak memory: the C11 atomics interleave sequentially
    consistently, which is stronger than the relaxed and release orders the code asks
    for.  Allocation failure inside Lua.  Collection of Lua objects is a call of the
    [__gc] function, not an event of its own.  The callbacks of
    [zfs_foreach_mountpoint], which libzfs runs on several threads on one Lua state,
    run one after the other.  The rule that a [luaL_Buffer] may be used only with the
    stack as it was: [PthreadCopy] has the slot a buffer occupies, not the requirement.
    The strings of an entry of [Passwd] are results of the call; that they lie in the
    buffer is an access to the buffer before they are used.  Values that are marked to be closed
    ([lua_toclose] in [Sctp]): the function Lua calls for them is modelled, the call is
    not.  The coroutines that [Event] passes as user data.  A resolver of [Kvm] that
    libkvm calls after [kvm_open2] has returned.  [src/luaerror.h] and the build, the tests, the examples and the
    manuals.  The manifest lists each. *)

From stdpp Require Export base list gmap strings option.
From Stdlib Require Export ZArith Lia.
From Stdlib Require Import SpecFloat.

#[global] Open Scope Z_scope.
#[global] Set Default Goal Selector "!".

(** ** C integer conversions

    A C conversion to an unsigned type of [w] bits reduces modulo [2^w]; to a
    signed type it reduces into [-2^(w-1), 2^(w-1)) (the behaviour of every
    compiler FreeBSD supports). *)

Definition wrapu (w z : Z) : Z := z mod 2 ^ w.
Definition wraps (w z : Z) : Z := (z + 2 ^ (w - 1)) mod 2 ^ w - 2 ^ (w - 1).

Definition to_int (z : Z) : Z := wraps 32 z.
Definition to_uint (z : Z) : Z := wrapu 32 z.
Definition to_size (z : Z) : Z := wrapu 64 z.
Definition to_long (z : Z) : Z := wraps 64 z.
Definition to_ushort (z : Z) : Z := wrapu 16 z.
Definition to_uchar (z : Z) : Z := wrapu 8 z.

Lemma wrapu_range (w z : Z) : 0 <= w -> 0 <= wrapu w z < 2 ^ w.
Proof. intros Hw. apply Z.mod_pos_bound. apply Z.pow_pos_nonneg; lia. Qed.

Lemma wrapu_small (w z : Z) : 0 <= z < 2 ^ w -> wrapu w z = z.
Proof. intros H. by apply Z.mod_small. Qed.

Lemma wraps_range (w z : Z) : 0 < w -> - 2 ^ (w - 1) <= wraps w z < 2 ^ (w - 1).
Proof.
  intros Hw. unfold wraps.
  assert (Hp : 2 ^ w = 2 * 2 ^ (w - 1)).
  { rewrite <- Z.pow_succ_r by lia. f_equal. lia. }
  pose proof (Z.mod_pos_bound (z + 2 ^ (w - 1)) (2 ^ w)) as Hb.
  assert (0 < 2 ^ w) by (apply Z.pow_pos_nonneg; lia). lia.
Qed.

Lemma wraps_small (w z : Z) : 0 < w -> - 2 ^ (w - 1) <= z < 2 ^ (w - 1) -> wraps w z = z.
Proof.
  intros Hw Hz. unfold wraps.
  assert (Hp : 2 ^ w = 2 * 2 ^ (w - 1)).
  { rewrite <- Z.pow_succ_r by lia. f_equal. lia. }
  rewrite Z.mod_small by lia. lia.
Qed.

Lemma to_int_small (z : Z) : - 2 ^ 31 <= z < 2 ^ 31 -> to_int z = z.
Proof. intros H. apply wraps_small; [lia|exact H]. Qed.

Lemma to_int_range (z : Z) : - 2 ^ 31 <= to_int z < 2 ^ 31.
Proof. apply (wraps_range 32). lia. Qed.

Lemma to_size_small (z : Z) : 0 <= z < 2 ^ 64 -> to_size z = z.
Proof. apply wrapu_small. Qed.

Lemma to_size_range (z : Z) : 0 <= to_size z < 2 ^ 64.
Proof. apply (wrapu_range 64). lia. Qed.

Lemma to_long_small (z : Z) : - 2 ^ 63 <= z < 2 ^ 63 -> to_long z = z.
Proof. intros H. apply wraps_small; [lia|exact H]. Qed.

Create Rewrite HintDb cint.
#[export] Hint Rewrite to_int_small to_size_small to_long_small using lia : cint.

(** ** C strings: what a [const char *] shows of a byte string *)

Definition NUL : Ascii.ascii := Ascii.Ascii false false false false false false false false.

Fixpoint cstr (s : string) : string :=
  match s with
  | EmptyString => EmptyString
  | String c s => if Ascii.eqb c NUL then EmptyString else String c (cstr s)
  end.

Lemma cstr_idemp (s : string) : cstr (cstr s) = cstr s.
Proof.
  induction s as [|c s IH]; cbn; [done|]. destruct (Ascii.eqb c NUL) eqn:E; cbn; [done|].
  by rewrite E, IH.
Qed.

Lemma substring_all (s : string) : String.substring 0 (String.length s) s = s.
Proof. induction s as [|c s IH]; [done|]. cbn. by rewrite IH. Qed.

Lemma string_app_length (a b : string) : String.length (a +:+ b) = (String.length a + String.length b)%nat.
Proof. induction a as [|c a IH]; [done|]. change (String.length (String c a +:+ b)) with (Datatypes.S (String.length (a +:+ b))). by rewrite IH. Qed.

(** ** Lists *)

Section lists.
Context {A : Type}.
Implicit Types (l k : list A) (x : A) (n : nat).

(** the element [n] places below the head survives a push *)
Lemma lookup_cons_sub (x : A) l n :
  (1 <= n <= length l)%nat ->
  (x :: l) !! (S (length l) - n)%nat = l !! (length l - n)%nat.
Proof. intros H. replace (S (length l) - n)%nat with (S (length l - n)) by lia. done. Qed.

Lemma take_app_len l k : take (length l) (l ++ k) = l.
Proof. by rewrite take_app_length. Qed.

Lemma drop_app_len l k : drop (length l) (l ++ k) = k.
Proof. by rewrite drop_app_length. Qed.

Lemma rev_take_snoc l x : rev (l ++ [x]) = x :: rev l.
Proof. by rewrite rev_app_distr. Qed.

Lemma filter_ext_in (P Q : A -> Prop) `{!forall x, Decision (P x), !forall x, Decision (Q x)} l :
  (forall x, x ∈ l -> P x <-> Q x) -> filter P l = filter Q l.
Proof.
  intros Hpq. induction l as [|x l IH]; [done|]. rewrite !filter_cons.
  pose proof (Hpq x ltac:(left)) as Hx. rewrite IH by (intros y Hy; apply Hpq; by right).
  by destruct (decide (P x)), (decide (Q x)); naive_solver.
Qed.

Lemma filter_all (P : A -> Prop) `{!forall x, Decision (P x)} l :
  (forall x, x ∈ l -> P x) -> filter P l = l.
Proof.
  intros Hp. induction l as [|x l IH]; [done|]. rewrite filter_cons_True by (apply Hp; left).
  rewrite IH; [done|]. intros y Hy. apply Hp. by right.
Qed.

Lemma filter_none (P : A -> Prop) `{!forall x, Decision (P x)} l :
  (forall x, x ∈ l -> ~ P x) -> filter P l = [].
Proof.
  intros Hp. induction l as [|x l IH]; [done|]. rewrite filter_cons_False by (apply Hp; left).
  apply IH. intros y Hy. apply Hp. by right.
Qed.
End lists.

(** ** Tactics shared by the components *)

(** split a boolean or propositional conjunction of the goal *)
Ltac split_all := repeat match goal with |- _ /\ _ => split end.

(** case analysis on the innermost scrutinee of the goal *)
Ltac case_goal :=
  match goal with
  | |- context [match ?x with _ => _ end] =>
      lazymatch x with context [match _ with _ => _ end] => fail | _ => destruct x eqn:? end
  end.
