(* ===== verification/LuaApi.v ===== *)
(** * The Lua C API as its reference manual documents it

    Everything the modules know of Lua they know through [lua.h] and
    [lauxlib.h], which are not part of the repository.  This file writes down
    the part of the Lua 5.4 reference manual (chapters 4 and 5) the modules
    rely on: the values, the state of a [lua_State] as a C function sees it (its
    own stack frame, the number of free stack slots it may still use, and the
    heap), the API calls as an inductive family [luaE], and [doc], the
    documented effect of each call.

    [doc] is partial on purpose.  [Halt (UB _)] is a violation of the API's
    stated requirements by the caller (an invalid index, a push without a free
    slot); [Halt (Unspec _)] is a use whose effect the manual leaves open or
    that goes through code of the user (metamethods, string to number
    coercions, the border of an array with holes).  Nothing is claimed of an
    implementation in either case: see [Machine.conforms]. *)

From stdpp Require Import pretty.
From S2P Require Import Prelude.
From Stdlib Require Import SpecFloat.

(** ** Values *)

(** the tags of [lua.h] ([LUA_TNONE] ... [LUA_TTHREAD]) *)
Inductive ltype :=
  | TNONE | TNIL | TBOOLEAN | TLIGHTUSERDATA | TNUMBER | TSTRING | TTABLE
  | TFUNCTION | TUSERDATA | TTHREAD.

(** Tables, functions and full userdata are references into the heap; a light
    userdata is a C pointer, with 0 for [NULL]. *)
Inductive value :=
  | VNil
  | VBool (b : bool)
  | VInt (z : Z)
  | VNum (f : spec_float)
  | VStr (s : string)
  | VLud (p : Z)
  | VTab (t : nat)
  | VFun (f : nat)
  | VUd (u : nat).

#[export] Instance spec_float_eq_dec : EqDecision spec_float.
Proof. solve_decision. Defined.
#[export] Instance ltype_eq_dec : EqDecision ltype.
Proof. solve_decision. Defined.
#[export] Instance value_eq_dec : EqDecision value.
Proof. solve_decision. Defined.

Definition type_of (v : value) : ltype :=
  match v with
  | VNil => TNIL
  | VBool _ => TBOOLEAN
  | VInt _ | VNum _ => TNUMBER
  | VStr _ => TSTRING
  | VLud _ => TLIGHTUSERDATA
  | VTab _ => TTABLE
  | VFun _ => TFUNCTION
  | VUd _ => TUSERDATA
  end.

(** the numbers of the tags; [is_type] compares them *)
Definition ltype_tag (t : ltype) : Z :=
  match t with
  | TNONE => -1 | TNIL => 0 | TBOOLEAN => 1 | TLIGHTUSERDATA => 2 | TNUMBER => 3
  | TSTRING => 4 | TTABLE => 5 | TFUNCTION => 6 | TUSERDATA => 7 | TTHREAD => 8
  end.
Definition is_type (t t' : ltype) : bool := ltype_tag t =? ltype_tag t'.

Lemma is_type_spec t t' : is_type t t' = true <-> t = t'.
Proof. unfold is_type. rewrite Z.eqb_eq. split; [|by intros ->]. by destruct t, t'. Qed.

(** [luaL_typename] *)
Definition typename (t : ltype) : string :=
  match t with
  | TNONE => "no value" | TNIL => "nil" | TBOOLEAN => "boolean"
  | TLIGHTUSERDATA => "light userdata" | TNUMBER => "number" | TSTRING => "string"
  | TTABLE => "table" | TFUNCTION => "function" | TUSERDATA => "userdata"
  | TTHREAD => "thread"
  end.

(** only nil and false are false *)
Definition truthy (v : value) : bool :=
  match v with VNil | VBool false => false | _ => true end.

(** a float with an exact integer value in the range of [lua_Integer] *)
Definition float_to_integer (f : spec_float) : option Z :=
  let chk (z : Z) := if (- 2 ^ 63 <=? z) && (z <? 2 ^ 63) then Some z else None in
  match f with
  | S754_zero _ => Some 0
  | S754_finite s m e =>
      let m := if s then Z.neg m else Z.pos m in
      if 0 <=? e then chk (m * 2 ^ e)
      else if m mod 2 ^ (- e) =? 0 then chk (m / 2 ^ (- e)) else None
  | _ => None
  end.

(** C's conversion of a [lua_Integer] to [lua_Number] (binary64) *)
Definition integer_to_float (z : Z) : spec_float := binary_normalize 53 1024 z 0 false.

(** ** The heap *)

(** The keys the modules use: integers and strings. *)
Abbreviation key := (Z + string)%type.
Abbreviation KInt := (@inl Z string).
Abbreviation KStr := (@inr Z string).

Record table := Table { tmap : gmap key value; tmeta : option nat }.

(** A Lua function is a prototype (its bytecode, kept opaque) with named
    upvalues; a C function is known by its C symbol. *)
Inductive func :=
  | LuaF (proto : string) (ups : list (string * value))
  | CF (symbol : string)
  | CC (symbol : string) (ups : list value).   (** a C closure with its upvalues *)

(** A full userdata: metatable, user values, and the address of its block. *)
Record udata := Udata { ud_meta : option nat; ud_uv : list value; ud_blk : Z }.

(** The registry is keyed by names ([luaL_newmetatable]) and by addresses of C
    symbols ([lua_rawsetp]), here [inl name] and [inr symbol]. *)
Record heap := Heap {
  tabs : gmap nat table;
  funs : gmap nat func;
  uds : gmap nat udata;
  reg : gmap (string + string) value;
  globals : nat;           (** the table of globals *)
  fresh : nat              (** identities below are taken *)
}.

(** [lua_State] as the running C function sees it: the top of the stack is the
    head of [stk]; [room] counts the free slots ([LUA_MINSTACK] on entry). *)
Record lstate := LS { stk : list value; room : nat; hp : heap }.

Definition LUA_MINSTACK : nat := 20.

Definition set_tab (t : nat) (x : table) (h : heap) : heap :=
  Heap (<[t := x]> (tabs h)) (funs h) (uds h) (reg h) (globals h) (fresh h).
Definition set_fun (f : nat) (x : func) (h : heap) : heap :=
  Heap (tabs h) (<[f := x]> (funs h)) (uds h) (reg h) (globals h) (fresh h).
Definition set_ud (u : nat) (x : udata) (h : heap) : heap :=
  Heap (tabs h) (funs h) (<[u := x]> (uds h)) (reg h) (globals h) (fresh h).
Definition set_reg (k : string + string) (v : value) (h : heap) : heap :=
  Heap (tabs h) (funs h) (uds h) (<[k := v]> (reg h)) (globals h) (fresh h).
Definition bump (h : heap) : heap :=
  Heap (tabs h) (funs h) (uds h) (reg h) (globals h) (S (fresh h)).

(** ** Tables as maps and as arrays *)

Definition raw_get (k : key) (x : table) : value := default VNil (tmap x !! k).

(** assigning nil removes the entry *)
Definition raw_set (k : key) (v : value) (x : table) : table :=
  Table (match v with VNil => delete k (tmap x) | _ => <[k := v]> (tmap x) end) (tmeta x).

Definition is_pos_key (k : key) : bool := match k with inl z => 0 <? z | inr _ => false end.

(** The number of positive integer keys; when they are exactly [1..n] the table
    is a sequence and [#t] is [n].  Otherwise any border may be returned. *)
Definition pos_keys (x : table) : nat :=
  size (filter (fun kv => is_pos_key kv.1 = true) (tmap x)).

Definition seq_len (x : table) : option Z :=
  let n := pos_keys x in
  if forallb (fun i => bool_decide (is_Some (tmap x !! KInt (Z.of_nat i)))) (seq 1 n)
  then Some (Z.of_nat n) else None.

(** ** Outcomes *)

(** The errors the API raises, kept structured: [luaL_argerror],
    [luaL_typeerror], [luaL_error] (without the position prefix), [lua_error]
    with any value, and an operation on a value without that operation. *)
Inductive lerr :=
  | EArg (arg : Z) (msg : string)
  | EType (arg : Z) (tname : string)
  | EMsg (msg : string)
  | EVal (v : value)
  | EOp (what : string).

Inductive halt :=
  | Raise (e : lerr)        (** a Lua error: control leaves the C function *)
  | Aborted (why : string)  (** [abort2] or a failed [assert] *)
  | ThreadExit (L : nat)    (** [pthread_exit(L)] *)
  | Diverge                 (** the fuel of a loop or recursion ran out *)
  | UB (why : string)       (** undefined behaviour of C or misuse of an API *)
  | Unspec (why : string).  (** outside of what the documentation fixes *)

Inductive outcome (A : Type) :=
  | Ok (a : A)
  | Halt (h : halt).
Arguments Ok {A} a.
Arguments Halt {A} h.

#[export] Instance lerr_eq_dec : EqDecision lerr.
Proof. solve_decision. Defined.
#[export] Instance halt_eq_dec : EqDecision halt.
Proof. solve_decision. Defined.

(** ** Stack indices *)

Inductive slot :=
  | Val (v : value)
  | Absent                  (** an acceptable index above the top *)
  | Bad.                    (** 0, or a negative index below the frame *)

(** where index [i] lies, counted from the top *)
Definition pos (vs : list value) (i : Z) : option nat :=
  match i with
  | Z0 => None
  | Zpos p => let n := Pos.to_nat p in
              if (n <=? length vs)%nat then Some (length vs - n)%nat else None
  | Zneg p => let n := Pos.to_nat p in
              if (n <=? length vs)%nat then Some (pred n) else None
  end.

Definition at_ (vs : list value) (i : Z) : slot :=
  match pos vs i with
  | Some n => match vs !! n with Some v => Val v | None => Bad end
  | None => if 0 <? i then Absent else Bad
  end.

Arguments pos vs i : simpl nomatch.
Arguments at_ vs i : simpl nomatch.

(** ** The calls

    One constructor per API function (macros such as [lua_pop] and [lua_isnil]
    are defined from them in [Machine]), with the type of its C result.  [Push]
    stands for the functions that push a value that lives outside the heap. *)

Inductive luaE : Type -> Type :=
  | Gettop : luaE Z
  | Settop (i : Z) : luaE unit
  | Pushvalue (i : Z) : luaE unit
  | Insert (i : Z) : luaE unit
  | Remove (i : Z) : luaE unit
  | Replace (i : Z) : luaE unit
  | Type_ (i : Z) : luaE ltype
  | Toboolean (i : Z) : luaE bool
  | Tointeger (i : Z) : luaE Z
  | Isinteger (i : Z) : luaE bool
  | Tonumber (i : Z) : luaE spec_float
  | Tolstring (i : Z) : luaE string
  | Touserdata (i : Z) : luaE Z
  | Push (v : value) : luaE unit
  | Pushcfunction (sym : string) : luaE unit
  | Newtable : luaE unit
  | Rawgeti (i n : Z) : luaE ltype
  | Rawseti (i n : Z) : luaE unit
  | Geti (i n : Z) : luaE ltype
  | Getfield (i : Z) (k : string) : luaE ltype
  | Setfield (i : Z) (k : string) : luaE unit
  | Rawequal (i j : Z) : luaE bool
  | Getmetatable (i : Z) : luaE bool
  | Setmetatable (i : Z) : luaE unit
  | LGetmetatable (tname : string) : luaE ltype
  | LSetmetatable (tname : string) : luaE unit
  | LNewmetatable (tname : string) : luaE bool
  | Newuserdatauv (blk : Z) (nuv : nat) : luaE unit
  | Getiuservalue (i : Z) (n : nat) : luaE ltype
  | Setiuservalue (i : Z) (n : nat) : luaE bool
  | LLen (i : Z) : luaE Z
  | Checktype (i : Z) (t : ltype) : luaE unit
  | Checkinteger (i : Z) : luaE Z
  | Checknumber (i : Z) : luaE spec_float
  | Optinteger (i d : Z) : luaE Z
  | Checklstring (i : Z) : luaE string
  | Checkudata (i : Z) (tname : string) : luaE Z
  | Argerror (i : Z) (msg : string) : luaE Empty_set
  | Typeerror (i : Z) (tname : string) : luaE Empty_set
  | LError (msg : string) : luaE Empty_set
  | LuaError : luaE Empty_set
  | Rawgetp (sym : string) : luaE ltype
  | Rawsetp (sym : string) : luaE unit
  | Ref : luaE Z
  | Unref (r : Z) : luaE unit
  | Setfuncs (l : list (string * string)) : luaE unit
  | Getglobal (k : string) : luaE ltype
  | Dump : luaE (option (list string))
  | Buffinit : luaE unit
  | Bufresult (s : string) : luaE unit
  | Loadbuffer (chunk : string) : luaE bool
  | Getupvalue (i : Z) (n : nat) : luaE (option string)
  | Setupvalue (i : Z) (n : nat) : luaE (option string)
  | Openlibs : luaE unit
  | Next (i : Z) : luaE bool
  | Rawset (i : Z) : luaE unit
  | Tolstr (i : Z) : luaE (option string)
  | Gettable (i : Z) : luaE ltype
  | Settable (i : Z) : luaE unit
  | Pushcclosure (sym : string) (n : nat) : luaE unit
  | Popcall (nargs : Z) : luaE (value * list value)
  | Pushresults (vs : list value) : luaE unit.

(** [lua_next] visits the fields of a table in an order the manual leaves open: [ls_order].
    Precompiled chunks are opaque: [ls_dump] is what [lua_dump] writes for a
    prototype with the given upvalue names (debug information kept), and loading
    such a chunk gives the prototype back.  [ls_openlibs] is what opening the
    standard libraries does to the heap.  A string buffer "uses a variable number
    of stack slots": [ls_bufslots] is how many an initialised one occupies (none
    up to Lua 5.4.2, one placeholder since 5.4.3).  [ls_quiet_gc] tells the
    finalizers of the standard libraries, which touch nothing outside of the state
    that is closed. *)
Class LuaSem := {
  ls_quiet_gc : string -> bool;
  ls_bufslots : nat;
  ls_dump : string -> list string -> list string;
  ls_undump : string -> option (string * list string);
  ls_roundtrip : forall p ns, ls_undump (String.concat "" (ls_dump p ns)) = Some (p, ns);
  ls_openlibs : heap -> heap;
  ls_order : gmap key value -> list key;
  ls_order_keys : forall m, ls_order m ≡ₚ (map_to_list m).*1
}.

Section doc.
Context `{LuaSem}.

Definition D (R : Type) : Type := lstate -> outcome R * lstate.

Definition misuse {R} : D R := fun s => (Halt (UB "Lua API misuse"), s).
Definition unspec {R} (why : string) : D R := fun s => (Halt (Unspec why), s).
Definition raise {R} (e : lerr) : D R := fun s => (Halt (Raise e), s).

Definition push {R} (r : R) (v : value) : D R := fun s =>
  match room s with
  | O => (Halt (UB "Lua stack overflow"), s)
  | S n => (Ok r, LS (v :: stk s) n (hp s))
  end.

(** consume the value on top *)
Definition pop {R} (f : value -> D R) : D R := fun s =>
  match stk s with
  | v :: vs => f v (LS vs (S (room s)) (hp s))
  | [] => misuse s
  end.

(** read an acceptable index *)
Definition at_index {R} (i : Z) (f : slot -> D R) : D R := fun s =>
  match at_ (stk s) i with Bad => misuse s | x => f x s end.

(** read the value at an acceptable index: above the top there is what "behaves like a nil value" *)
Definition at_value {R} (i : Z) (f : value -> D R) : D R := fun s =>
  match at_ (stk s) i with Val v => f v s | Absent => f VNil s | Bad => misuse s end.

(** read a valid index, for a call that has popped its operands already *)
Definition at_valid {R} (i : Z) (f : value -> D R) : D R := fun s =>
  match at_ (stk s) i with Val v => f v s | _ => misuse s end.

Definition with_heap {R} (r : R) (h : heap) : D R := fun s => (Ok r, LS (stk s) (room s) h).

Definition get_tab {R} (t : nat) (f : table -> D R) : D R := fun s =>
  match tabs (hp s) !! t with Some x => f x s | None => misuse s end.

Definition doc_settop (i : Z) : D unit := fun s =>
  let n := length (stk s) in
  let m := if i <? 0 then Z.of_nat n + i + 1 else i in
  if m <? 0 then misuse s
  else
    let m := Z.to_nat m in
    if (m <=? n)%nat then (Ok tt, LS (drop (n - m) (stk s)) (room s + (n - m)) (hp s))
    else if (m - n <=? room s)%nat
    then (Ok tt, LS (replicate (m - n) VNil ++ stk s) (room s - (m - n)) (hp s))
    else misuse s.

Definition doc_insert (i : Z) : D unit := fun s =>
  match pos (stk s) i, stk s with
  | Some p, x :: r => (Ok tt, LS (take p r ++ x :: drop p r) (room s) (hp s))
  | _, _ => misuse s
  end.

Definition doc_remove (i : Z) : D unit := fun s =>
  match pos (stk s) i with
  | Some p => (Ok tt, LS (take p (stk s) ++ drop (S p) (stk s)) (S (room s)) (hp s))
  | None => misuse s
  end.

(** the value on top moves into the place of another *)
Definition doc_replace (i : Z) : D unit := fun s =>
  match pos (stk s) i, stk s with
  | Some p, x :: r => (Ok tt, LS (match p with O => r | S q => <[q := x]> r end) (S (room s)) (hp s))
  | _, _ => misuse s
  end.

Definition doc_type (i : Z) : D ltype :=
  at_index i (fun x s => (Ok match x with Val v => type_of v | _ => TNONE end, s)).

Definition doc_toboolean (i : Z) : D bool :=
  at_index i (fun x s => (Ok match x with Val v => truthy v | _ => false end, s)).

Definition doc_tointeger (i : Z) : D Z :=
  at_index i (fun x =>
    match x with
    | Val (VInt z) => fun s => (Ok z, s)
    | Val (VNum f) => fun s => (Ok (default 0 (float_to_integer f)), s)
    | Val (VStr _) => unspec "string to number coercion"
    | _ => fun s => (Ok 0, s)
    end).

Definition doc_tonumber (i : Z) : D spec_float :=
  at_index i (fun x =>
    match x with
    | Val (VInt z) => fun s => (Ok (integer_to_float z), s)
    | Val (VNum f) => fun s => (Ok f, s)
    | Val (VStr _) => unspec "string to number coercion"
    | _ => fun s => (Ok (S754_zero false), s)
    end).

Definition doc_isinteger (i : Z) : D bool :=
  at_index i (fun x s => (Ok match x with Val (VInt _) => true | _ => false end, s)).

(** an integer becomes a string, also on the stack *)
Definition doc_tolstring (i : Z) : D string :=
  at_index i (fun x =>
    match x with
    | Val (VStr b) => fun s => (Ok b, s)
    | Val (VInt z) => fun s =>
        match pos (stk s) i with
        | Some n => (Ok (pretty z), LS (<[n := VStr (pretty z)]> (stk s)) (room s) (hp s))
        | None => misuse s
        end
    | _ => unspec "lua_tolstring of neither a string nor an integer"
    end).

(** [NULL] for anything but userdata *)
(** [lua_tolstring] where the code asks whether it gives NULL *)
Definition doc_tolstr (i : Z) : D (option string) :=
  at_index i (fun x =>
    match x with
    | Val (VStr b) => fun s => (Ok (Some b), s)
    | Val (VInt z) => fun s =>
        match pos (stk s) i with
        | Some n => (Ok (Some (pretty z)), LS (<[n := VStr (pretty z)]> (stk s)) (room s) (hp s))
        | None => misuse s
        end
    | Val (VNum _) => unspec "lua_tolstring of a float"
    | _ => fun s => (Ok None, s)
    end).

Definition doc_touserdata (i : Z) : D Z :=
  at_index i (fun x =>
    match x with
    | Val (VLud p) => fun s => (Ok p, s)
    | Val (VUd u) => fun s =>
        match uds (hp s) !! u with Some d => (Ok (ud_blk d), s) | None => misuse s end
    | _ => fun s => (Ok 0, s)
    end).

Definition doc_newtable : D unit := fun s =>
  let h := hp s in
  push tt (VTab (fresh h)) (LS (stk s) (room s) (bump (set_tab (fresh h) (Table ∅ None) h))).

Definition doc_pushcfunction (sym : string) : D unit := fun s =>
  let h := hp s in
  push tt (VFun (fresh h)) (LS (stk s) (room s) (bump (set_fun (fresh h) (CF sym) h))).

Definition doc_rawget (i : Z) (k : key) : D ltype :=
  at_value i (fun v =>
    match v with
    | VTab t => get_tab t (fun x => let r := raw_get k x in push (type_of r) r)
    | _ => misuse
    end).

Definition doc_rawset (i : Z) (k : key) : D unit :=
  at_value i (fun v =>
    match v with
    | VTab t => get_tab t (fun x => pop (fun w s =>
        with_heap tt (set_tab t (raw_set k w x) (hp s)) s))
    | _ => misuse
    end).

(** the key a value is, where the model has it: other keys are not in its tables *)
Definition key_of (v : value) : option key :=
  match v with VInt z => Some (KInt z) | VStr s => Some (KStr s) | _ => None end.
Definition val_of_key (k : key) : value := match k with inl z => VInt z | inr s => VStr s end.

(** [lua_rawset]: the value [w] is popped already, the key is below it; [i] counts both *)
Definition doc_rawset_key (i : Z) (w : value) : D unit := fun s =>
  at_valid (if i <? 0 then i + 1 else i) (fun v =>
    match v with
    | VTab t => get_tab t (fun x => pop (fun kv s =>
        match key_of kv with
        | Some k => with_heap tt (set_tab t (raw_set k w x) (hp s)) s
        | None => unspec "lua_rawset of such a key" s
        end))
    | _ => misuse
    end) s.

(** [lua_gettable] pops a key, [lua_settable] a key and a value *)
Definition doc_gettable (i : Z) : D ltype :=
  at_value i (fun v =>
    match v with
    | VTab t => get_tab t (fun x => pop (fun kv s =>
        match key_of kv with
        | Some k =>
            match tmap x !! k, tmeta x with
            | None, Some _ => unspec "__index metamethod" s
            | _, _ => let r := raw_get k x in push (type_of r) r s
            end
        | None => unspec "lua_gettable of such a key" s
        end))
    | VUd _ | VStr _ => unspec "__index metamethod"
    | _ => raise (EOp "index")
    end).

Definition doc_settable (i : Z) (w : value) : D unit := fun s =>
  at_valid (if i <? 0 then i + 1 else i) (fun v =>
    match v with
    | VTab t => get_tab t (fun x => pop (fun kv s =>
        match key_of kv with
        | Some k =>
            match tmap x !! k, tmeta x with
            | None, Some _ => unspec "__newindex metamethod" s
            | _, _ => with_heap tt (set_tab t (raw_set k w x) (hp s)) s
            end
        | None => unspec "lua_settable of such a key" s
        end))
    | VUd _ | VStr _ => unspec "__newindex metamethod"
    | _ => raise (EOp "index")
    end) s.

(** [lua_pushcclosure] pops [n] values, the upvalues *)
Definition doc_pushcclosure (sym : string) (n : nat) : D unit := fun s =>
  if (n <=? length (stk s))%nat then
    let h := hp s in
    push tt (VFun (fresh h)) (LS (drop n (stk s)) (room s + n)
      (bump (set_fun (fresh h) (CC sym (rev (take n (stk s)))) h)))
  else misuse s.

(** the keys of a table that follow a key *)
Fixpoint after (k : key) (ks : list key) : option (list key) :=
  match ks with
  | [] => None
  | k' :: ks => if bool_decide (k = k') then Some ks else after k ks
  end.

(** [lua_next] pops a key and pushes the next one with its value, if there is one; a key that is not
    in the table is an error *)
Definition doc_next (i : Z) : D bool := fun s =>
  at_value i (fun v =>
    match v with
    | VTab t => get_tab t (fun x => pop (fun kv s =>
        let rest := match kv with
                    | VNil => Some (ls_order (tmap x))
                    | _ => k ← key_of kv; after k (ls_order (tmap x))
                    end in
        match rest with
        | Some [] => (Ok false, s)
        | Some (k :: _) =>
            match room s with
            | S (S n) => (Ok true, LS (raw_get k x :: val_of_key k :: stk s) n (hp s))
            | _ => (Halt (UB "Lua stack overflow"), s)
            end
        | None => raise (EMsg "invalid key to 'next'") s
        end))
    | _ => misuse
    end) s.

(** [t[k]] and [t[k] = v] with metamethods: fixed for a table without metatable,
    and for a present key *)
Definition doc_get (i : Z) (k : key) : D ltype :=
  at_value i (fun v =>
    match v with
    | VTab t => get_tab t (fun x =>
        match tmap x !! k, tmeta x with
        | None, Some _ => unspec "__index metamethod"
        | _, _ => let r := raw_get k x in push (type_of r) r
        end)
    | VUd _ | VStr _ => unspec "__index metamethod"
    | _ => raise (EOp "index")
    end).

Definition doc_set (i : Z) (k : key) : D unit :=
  at_value i (fun v =>
    match v with
    | VTab t => get_tab t (fun x =>
        match tmap x !! k, tmeta x with
        | None, Some _ => unspec "__newindex metamethod"
        | _, _ => pop (fun w s => with_heap tt (set_tab t (raw_set k w x) (hp s)) s)
        end)
    | VUd _ | VStr _ => unspec "__newindex metamethod"
    | _ => raise (EOp "index")
    end).

Definition doc_rawequal (i j : Z) : D bool :=
  at_index i (fun x => at_index j (fun y s =>
    match x, y with
    | Val (VNum _), Val (VInt _) | Val (VInt _), Val (VNum _) => unspec "number comparison" s
    | Val v, Val w => (Ok (bool_decide (v = w)), s)
    | _, _ => (Ok false, s)
    end)).

Definition ud_at {R} (i : Z) (f : nat -> udata -> D R) : D R :=
  at_value i (fun v s =>
    match v with
    | VUd u => match uds (hp s) !! u with Some d => f u d s | None => misuse s end
    | _ => misuse s
    end).

(** pushes nothing when there is no metatable; the metatable of strings is
    whatever the string library installed *)
Definition doc_getmetatable (i : Z) : D bool :=
  at_value i (fun v s =>
    let m := match v with
             | VTab t => tmeta <$> (tabs (hp s) !! t)
             | VUd u => ud_meta <$> (uds (hp s) !! u)
             | VStr _ => None
             | _ => Some None
             end in
    match m with
    | Some (Some t) => push true (VTab t) s
    | Some None => (Ok false, s)
    | None => unspec "metatable of strings" s
    end).

Definition reg_get (k : string + string) (h : heap) : value := default VNil (reg h !! k).

Definition doc_lgetmetatable (tname : string) : D ltype := fun s =>
  let v := reg_get (inl tname) (hp s) in push (type_of v) v s.

(** the table or nil on the top becomes the metatable *)
Definition doc_setmetatable (i : Z) : D unit :=
  pop (fun m =>
    match m with
    | VTab _ | VNil =>
        let meta := match m with VTab t => Some t | _ => None end in
        at_valid (if i <? 0 then i + 1 else i) (fun v =>
          match v with
          | VTab t => get_tab t (fun x s => with_heap tt (set_tab t (Table (tmap x) meta) (hp s)) s)
          | VUd u => fun s =>
              match uds (hp s) !! u with
              | Some d => with_heap tt (set_ud u (Udata meta (ud_uv d) (ud_blk d)) (hp s)) s
              | None => misuse s
              end
          | _ => unspec "lua_setmetatable of a basic type"
          end)
    | _ => misuse
    end).

Definition doc_lsetmetatable (tname : string) : D unit := fun s =>
  match stk s, reg_get (inl tname) (hp s) with
  | VUd u :: _, VTab t =>
      match uds (hp s) !! u with
      | Some d => with_heap tt (set_ud u (Udata (Some t) (ud_uv d) (ud_blk d)) (hp s)) s
      | None => misuse s
      end
  | VUd u :: _, VNil =>
      match uds (hp s) !! u with
      | Some d => with_heap tt (set_ud u (Udata None (ud_uv d) (ud_blk d)) (hp s)) s
      | None => misuse s
      end
  | _, _ => unspec "luaL_setmetatable" s
  end.

(** false, with the existing value pushed, when the name is in use *)
Definition doc_lnewmetatable (tname : string) : D bool := fun s =>
  match reg_get (inl tname) (hp s) with
  | VNil =>
      let h := hp s in
      let mt := Table {[ KStr "__name" := VStr tname ]} None in
      push true (VTab (fresh h))
        (LS (stk s) (room s)
           (bump (set_reg (inl tname) (VTab (fresh h)) (set_tab (fresh h) mt h))))
  | v => push false v s
  end.

Definition doc_newuserdatauv (blk : Z) (nuv : nat) : D unit := fun s =>
  let h := hp s in
  push tt (VUd (fresh h))
    (LS (stk s) (room s) (bump (set_ud (fresh h) (Udata None (replicate nuv VNil) blk) h))).

(** user values are counted from 1 *)
Definition uv_get (n : nat) (l : list value) : option value := match n with O => None | S n => l !! n end.
Definition uv_set (n : nat) (v : value) (l : list value) : list value := match n with O => l | S n => <[n := v]> l end.

Definition doc_getiuservalue (i : Z) (n : nat) : D ltype :=
  ud_at i (fun _ d =>
    match uv_get n (ud_uv d) with
    | Some v => push (type_of v) v
    | None => push TNONE VNil
    end).

Definition doc_setiuservalue (i : Z) (n : nat) : D bool :=
  ud_at i (fun u d => pop (fun v s =>
    with_heap (bool_decide (is_Some (uv_get n (ud_uv d))))
      (set_ud u (Udata (ud_meta d) (uv_set n v (ud_uv d)) (ud_blk d)) (hp s)) s)).

Definition doc_len (i : Z) : D Z :=
  at_value i (fun v =>
    match v with
    | VStr b => fun s => (Ok (Z.of_nat (String.length b)), s)
    | VTab t => get_tab t (fun x s =>
        match tmeta x, seq_len x with
        | None, Some n => (Ok n, s)
        | None, None => unspec "border of a table that is not a sequence" s
        | Some _, _ => unspec "__len metamethod" s
        end)
    | VUd _ => unspec "__len metamethod"
    | _ => raise (EOp "length")
    end).

Definition doc_checktype (i : Z) (t : ltype) : D unit :=
  at_index i (fun x s =>
    let t' := match x with Val v => type_of v | _ => TNONE end in
    if is_type t' t then (Ok tt, s) else raise (EType i (typename t)) s).

Definition doc_checkinteger (i : Z) : D Z :=
  at_index i (fun x =>
    match x with
    | Val (VInt z) => fun s => (Ok z, s)
    | Val (VNum f) =>
        match float_to_integer f with
        | Some z => fun s => (Ok z, s)
        | None => raise (EArg i "number has no integer representation")
        end
    | Val (VStr _) => unspec "string to number coercion"
    | _ => raise (EType i "number")
    end).

Definition doc_checknumber (i : Z) : D spec_float :=
  at_index i (fun x =>
    match x with
    | Val (VInt z) => fun s => (Ok (integer_to_float z), s)
    | Val (VNum f) => fun s => (Ok f, s)
    | Val (VStr _) => unspec "string to number coercion"
    | _ => raise (EType i "number")
    end).

Definition doc_optinteger (i d : Z) : D Z :=
  at_index i (fun x =>
    match x with
    | Val VNil | Absent => fun s => (Ok d, s)
    | _ => doc_checkinteger i
    end).

Definition doc_checklstring (i : Z) : D string :=
  at_index i (fun x =>
    match x with
    | Val (VStr b) => fun s => (Ok b, s)
    | Val (VInt _) | Val (VNum _) => unspec "number to string coercion"
    | _ => raise (EType i "string")
    end).

(** the block address of a userdata of the named type *)
Definition udata_of (vs : list value) (h : heap) (i : Z) (tname : string) : option (nat * udata) :=
  match at_ vs i with
  | Val (VUd u) =>
      match uds h !! u with
      | Some d =>
          match ud_meta d, reg_get (inl tname) h with
          | Some t, VTab t' => if decide (t = t') then Some (u, d) else None
          | _, _ => None
          end
      | None => None
      end
  | _ => None
  end.

Definition doc_checkudata (i : Z) (tname : string) : D Z :=
  at_index i (fun _ s =>
    match udata_of (stk s) (hp s) i tname with
    | Some (_, d) => (Ok (ud_blk d), s)
    | None => raise (EType i tname) s
    end).

(** registers C functions in the table on top *)
Fixpoint add_funcs (t : nat) (l : list (string * string)) (h : heap) : heap :=
  match l with
  | [] => h
  | (name, sym) :: l =>
      let f := fresh h in
      let h := bump (set_fun f (CF sym) h) in
      let x := default (Table ∅ None) (tabs h !! t) in
      add_funcs t l (set_tab t (raw_set (KStr name) (VFun f) x) h)
  end.

(** [luaL_ref(L, LUA_REGISTRYINDEX)]: the value on top, under a new integer key of the registry *)
Definition ref_name (r : Z) : string := "ref " +:+ pretty r.
Definition ref_key (r : Z) : string + string := inr (ref_name r).
Definition LUA_REFNIL : Z := -1.

Definition doc_ref : D Z :=
  pop (fun v s =>
    match v with
    | VNil => (Ok LUA_REFNIL, s)
    | _ => let r := Z.of_nat (fresh (hp s)) in with_heap r (bump (set_reg (ref_key r) v (hp s))) s
    end).

Definition doc_unref (r : Z) : D unit := fun s =>
  with_heap tt (if r <? 0 then hp s else set_reg (ref_key r) VNil (hp s)) s.

Definition doc_setfuncs (l : list (string * string)) : D unit :=
  at_value (-1) (fun v =>
    match v with
    | VTab t => get_tab t (fun x s =>
        match tmeta x with
        | None => with_heap tt (add_funcs t l (hp s)) s
        | Some _ => unspec "__newindex metamethod" s
        end)
    | _ => misuse
    end).

Definition doc_getglobal (k : string) : D ltype := fun s =>
  get_tab (globals (hp s)) (fun x =>
    match tmap x !! KStr k, tmeta x with
    | None, Some _ => unspec "__index metamethod"
    | _, _ => let r := raw_get (KStr k) x in push (type_of r) r
    end) s.

(** [None]: the value on top cannot be dumped (it is not a Lua function) *)
Definition doc_dump : D (option (list string)) :=
  at_value (-1) (fun v s =>
    match v with
    | VFun f =>
        match funs (hp s) !! f with
        | Some (LuaF p ups) => (Ok (Some (ls_dump p (fst <$> ups))), s)
        | Some (CF _ | CC _ _) => (Ok None, s)
        | None => misuse s
        end
    | _ => (Ok None, s)
    end).

(** [luaL_buffinit] takes the slots of the buffer; [luaL_pushresult] pushes the
    contents in place of as many values at the top *)
Definition doc_buffinit : D unit := fun s =>
  if (ls_bufslots <=? room s)%nat
  then (Ok tt, LS (replicate ls_bufslots (VLud 1) ++ stk s) (room s - ls_bufslots) (hp s))
  else (Halt (UB "Lua stack overflow"), s).

Definition doc_bufresult (b : string) : D unit := fun s =>
  if (ls_bufslots <=? length (stk s))%nat
  then push tt (VStr b) (LS (drop ls_bufslots (stk s)) (room s + ls_bufslots) (hp s))
  else misuse s.

(** a loaded function has fresh upvalues, nil but for the first, which is the
    table of globals; on failure the error message is pushed *)
Definition load_ups (g : nat) (names : list string) : list (string * value) :=
  imap (fun i n => (n, if (i =? 0)%nat then VTab g else VNil)) names.

Definition doc_loadbuffer (chunk : string) : D bool := fun s =>
  match ls_undump chunk with
  | Some (p, names) =>
      let h := hp s in
      push true (VFun (fresh h))
        (LS (stk s) (room s)
           (bump (set_fun (fresh h) (LuaF p (load_ups (globals h) names)) h)))
  | None => unspec "loading something else than a dumped function" s
  end.

Definition func_at {R} (i : Z) (f : nat -> func -> D R) : D R :=
  at_value i (fun v s =>
    match v with
    | VFun n => match funs (hp s) !! n with Some x => f n x s | None => misuse s end
    | _ => misuse s
    end).

(** upvalues count from 1; past the last one nothing is pushed or popped *)
Definition doc_getupvalue (i : Z) (n : nat) : D (option string) :=
  func_at i (fun _ x =>
    match x with
    | LuaF _ ups =>
        match ups !! pred n with
        | Some (name, v) => push (Some name) v
        | None => fun s => (Ok None, s)
        end
    | CC _ ups =>
        match ups !! pred n with
        | Some v => push (Some "") v
        | None => fun s => (Ok None, s)
        end
    | CF _ => fun s => (Ok None, s)
    end).

Definition doc_setupvalue (i : Z) (n : nat) : D (option string) :=
  func_at i (fun f x =>
    match x with
    | LuaF p ups =>
        match ups !! pred n with
        | Some (name, _) => pop (fun v s =>
            with_heap (Some name) (set_fun f (LuaF p (<[pred n := (name, v)]> ups)) (hp s)) s)
        | None => fun s => (Ok None, s)
        end
    | CC sym ups =>
        match ups !! pred n with
        | Some _ => pop (fun v s =>
            with_heap (Some "") (set_fun f (CC sym (<[pred n := v]> ups)) (hp s)) s)
        | None => fun s => (Ok None, s)
        end
    | CF _ => fun s => (Ok None, s)
    end).

(** [lua_pcall] first takes the arguments and the function off the stack ... *)
Definition doc_popcall (nargs : Z) : D (value * list value) := fun s =>
  let n := Z.to_nat nargs in
  match stk s !! n with
  | Some f =>
      if 0 <=? nargs then
        (Ok (f, rev (take n (stk s))), LS (drop (S n) (stk s)) (room s + S n) (hp s))
      else misuse s
  | None => misuse s
  end.

(** ... and at the end pushes the results, for which Lua makes space itself *)
Definition doc_pushresults (vs : list value) : D unit := fun s =>
  (Ok tt, LS (rev vs ++ stk s) (room s - length vs) (hp s)).

Definition doc {R} (e : luaE R) : D R :=
  match e with
  | Gettop => fun s => (Ok (Z.of_nat (length (stk s))), s)
  | Settop i => doc_settop i
  | Pushvalue i => at_value i (push tt)
  | Insert i => doc_insert i
  | Remove i => doc_remove i
  | Replace i => doc_replace i
  | Type_ i => doc_type i
  | Toboolean i => doc_toboolean i
  | Tointeger i => doc_tointeger i
  | Isinteger i => doc_isinteger i
  | Tonumber i => doc_tonumber i
  | Tolstring i => doc_tolstring i
  | Touserdata i => doc_touserdata i
  | Push v => push tt v
  | Pushcfunction sym => doc_pushcfunction sym
  | Newtable => doc_newtable
  | Rawgeti i n => doc_rawget i (KInt n)
  | Rawseti i n => doc_rawset i (KInt n)
  | Geti i n => doc_get i (KInt n)
  | Getfield i k => doc_get i (KStr k)
  | Setfield i k => doc_set i (KStr k)
  | Rawequal i j => doc_rawequal i j
  | Getmetatable i => doc_getmetatable i
  | Setmetatable i => doc_setmetatable i
  | LGetmetatable n => doc_lgetmetatable n
  | LSetmetatable n => doc_lsetmetatable n
  | LNewmetatable n => doc_lnewmetatable n
  | Newuserdatauv b n => doc_newuserdatauv b n
  | Getiuservalue i n => doc_getiuservalue i n
  | Setiuservalue i n => doc_setiuservalue i n
  | LLen i => doc_len i
  | Checktype i t => doc_checktype i t
  | Checkinteger i => doc_checkinteger i
  | Checknumber i => doc_checknumber i
  | Optinteger i d => doc_optinteger i d
  | Checklstring i => doc_checklstring i
  | Checkudata i n => doc_checkudata i n
  | Argerror i m => raise (EArg i m)
  | Typeerror i n => raise (EType i n)
  | LError m => raise (EMsg m)
  | LuaError => pop (fun v => raise (EVal v))
  | Rawgetp sym => fun s => let v := reg_get (inr sym) (hp s) in push (type_of v) v s
  | Rawsetp sym => pop (fun v s => with_heap tt (set_reg (inr sym) v (hp s)) s)
  | Ref => doc_ref
  | Unref r => doc_unref r
  | Setfuncs l => doc_setfuncs l
  | Getglobal k => doc_getglobal k
  | Dump => doc_dump
  | Buffinit => doc_buffinit
  | Bufresult b => doc_bufresult b
  | Loadbuffer c => doc_loadbuffer c
  | Getupvalue i n => doc_getupvalue i n
  | Setupvalue i n => doc_setupvalue i n
  | Openlibs => fun s => with_heap tt (ls_openlibs (hp s)) s
  | Next i => doc_next i
  | Rawset i => pop (fun v s => doc_rawset_key i v s)
  | Tolstr i => doc_tolstr i
  | Gettable i => doc_gettable i
  | Settable i => pop (fun v s => doc_settable i v s)
  | Pushcclosure sym n => doc_pushcclosure sym n
  | Popcall n => doc_popcall n
  | Pushresults vs => doc_pushresults vs
  end.
End doc.

(** a new state ([luaL_newstate]): an empty stack and an empty heap *)
Definition new_lstate : lstate :=
  LS [] LUA_MINSTACK (Heap {[ 0%nat := Table ∅ None ]} ∅ ∅ ∅ 0 1).
