(* ===== verification/Arrays.v ===== *)
(** * Lua arrays

    [arr vs] is the table content [{vs[0], ..., vs[n-1]}]: keys [1..n].  The
    lemmas say what the length operator, reads, and assignments at either side
    of the border do to it. *)

From S2P Require Import Prelude LuaApi.

Definition arr (vs : list value) : gmap key value := kmap KInt (map_seqZ 1 vs : gmap Z value).

Definition no_nil (vs : list value) : Prop := Forall (fun v => v ≠ VNil) vs.

#[export] Instance KInt_inj : Inj (=) (=) KInt.
Proof. by intros x y [= ->]. Qed.

Section arrays.
Implicit Types (vs : list value) (v : value) (mt : option nat).

Lemma arr_nil : arr [] = ∅.
Proof. unfold arr. cbn. apply kmap_empty. Qed.

Lemma arr_lookup vs i :
  arr vs !! KInt i = (guard (1 <= i);; vs !! Z.to_nat (i - 1)).
Proof. unfold arr. by rewrite (lookup_kmap KInt), lookup_map_seqZ. Qed.

Lemma arr_lookup_nat vs (i : nat) : arr vs !! KInt (Z.of_nat i + 1) = vs !! i.
Proof.
  rewrite arr_lookup, option_guard_True by lia. f_equal. lia.
Qed.

Lemma arr_lookup_str vs k : arr vs !! KStr k = None.
Proof. unfold arr. apply (lookup_kmap_None KInt). intros i Hi. done. Qed.

Lemma arr_snoc vs v :
  arr (vs ++ [v]) = <[KInt (Z.of_nat (length vs) + 1) := v]> (arr vs).
Proof.
  unfold arr. rewrite map_seqZ_snoc, (kmap_insert KInt). do 2 f_equal. lia.
Qed.

Lemma arr_border vs : arr vs !! KInt (Z.of_nat (length vs) + 1) = None.
Proof. rewrite arr_lookup_nat. by apply lookup_ge_None. Qed.

Lemma arr_size vs : size (arr vs) = length vs.
Proof.
  induction vs as [|v vs IH] using rev_ind; [by rewrite arr_nil|].
  rewrite arr_snoc, map_size_insert_None by apply arr_border.
  rewrite length_app, IH. cbn. lia.
Qed.

Lemma arr_pos_keys vs mt : pos_keys (Table (arr vs) mt) = length vs.
Proof.
  unfold pos_keys; cbn. rewrite map_filter_id; [apply arr_size|].
  intros [i|k] v Hv; cbn.
  - rewrite arr_lookup in Hv. case_guard; [|done]. by apply Z.ltb_lt; lia.
  - by rewrite arr_lookup_str in Hv.
Qed.

(** [#t] of an array is its number of elements *)
Lemma seq_len_arr vs mt : seq_len (Table (arr vs) mt) = Some (Z.of_nat (length vs)).
Proof.
  unfold seq_len. rewrite arr_pos_keys.
  destruct (forallb _ _) eqn:E; [done|].
  exfalso. apply not_true_iff_false in E. apply E, forallb_forall.
  intros i Hi%in_seq. apply bool_decide_eq_true_2. cbn.
  replace (Z.of_nat i) with (Z.of_nat (i - 1) + 1) by lia.
  rewrite arr_lookup_nat. apply lookup_lt_is_Some. lia.
Qed.

Lemma raw_get_arr vs mt (i : nat) v :
  vs !! i = Some v -> raw_get (KInt (Z.of_nat i + 1)) (Table (arr vs) mt) = v.
Proof. intros Hv. unfold raw_get; cbn. by rewrite arr_lookup_nat, Hv. Qed.

(** appending *)
Lemma raw_set_arr vs mt v :
  v ≠ VNil ->
  raw_set (KInt (Z.of_nat (length vs) + 1)) v (Table (arr vs) mt) =
  Table (arr (vs ++ [v])) mt.
Proof. intros Hv. unfold raw_set; cbn. rewrite arr_snoc. by destruct v. Qed.

(** an array whose first elements are not there yet, and the next one down *)
Definition arr_from (k : nat) (vs : list value) : gmap key value :=
  kmap KInt (map_seqZ (Z.of_nat k + 1) vs : gmap Z value).

Lemma arr_from_0 vs : arr_from 0 vs = arr vs.
Proof. done. Qed.

Lemma raw_set_arr_from k vs mt v :
  v ≠ VNil ->
  raw_set (KInt (Z.of_nat k + 1)) v (Table (arr_from (1 + k) vs) mt) = Table (arr_from k (v :: vs)) mt.
Proof.
  intros Hv. unfold raw_set, arr_from; cbn [tmap tmeta map_seqZ].
  rewrite (kmap_insert KInt). replace (Z.of_nat (1 + k) + 1) with (Z.succ (Z.of_nat k + 1)) by lia.
  by destruct v.
Qed.

(** removing the last element *)
Lemma raw_set_arr_last vs mt v :
  raw_set (KInt (Z.of_nat (length vs) + 1)) VNil (Table (arr (vs ++ [v])) mt) =
  Table (arr vs) mt.
Proof.
  unfold raw_set; cbn. rewrite arr_snoc, delete_insert_id; [done|apply arr_border].
Qed.
End arrays.
