(* ===== verification/Registry.v ===== *)
(** * Method tables

    What [luaL_setfuncs] does with a [luaL_Reg] array: every name of the array
    is bound to a new C function, and nothing else changes. *)

From S2P Require Import Prelude LuaApi.

(** table [t] binds every name of [l] to its C function *)
Definition binds (h : heap) (t : nat) (l : list (string * string)) : Prop :=
  exists x, tabs h !! t = Some x /\
    forall name sym, In (name, sym) l ->
    exists f, tmap x !! KStr name = Some (VFun f) /\ funs h !! f = Some (CF sym) /\
      (f < fresh h)%nat.

(** [h'] is [h] with more functions, and with table [t] changed at the names of [l] only *)
Record extends (t : nat) (l : list (string * string)) (h h' : heap) : Prop := {
  ext_tab : forall x, tabs h !! t = Some x -> exists x', tabs h' !! t = Some x' /\
    tmeta x' = tmeta x /\
    forall k, (forall name, k = KStr name -> name ∉ l.*1) -> tmap x' !! k = tmap x !! k;
  ext_tabs : forall t', t' ≠ t -> tabs h' !! t' = tabs h !! t';
  ext_funs : forall f, (f < fresh h)%nat -> funs h' !! f = funs h !! f;
  ext_rest : reg h' = reg h /\ uds h' = uds h /\ globals h' = globals h;
  ext_fresh : (fresh h <= fresh h')%nat
}.

Lemma add_funcs_extends t l h x :
  tabs h !! t = Some x -> extends t l h (add_funcs t l h).
Proof.
  revert h x. induction l as [|[name sym] l IH]; intros h x Ht; cbn [add_funcs].
  - split; try done. intros y Hy. rewrite Ht in Hy. injection Hy as <-. by exists x.
  - change (tabs (bump (set_fun (fresh h) (CF sym) h))) with (tabs h). rewrite Ht.
    change (default (Table ∅ None) (Some x)) with x.
    set (x1 := raw_set (KStr name) (VFun (fresh h)) x).
    set (h1 := set_tab t x1 (bump (set_fun (fresh h) (CF sym) h))).
    assert (Ht1 : tabs h1 !! t = Some x1) by apply lookup_insert_eq.
    destruct (IH h1 x1 Ht1) as [Htab Htabs Hfuns (Hr & Hu & Hg) Hfr]. split.
    + intros y Hy. rewrite Ht in Hy. injection Hy as <-.
      destruct (Htab x1 Ht1) as (x' & Hx' & Hm & Hk). exists x'. split_all; [done|done|].
      intros k Hn. cbn in Hn. rewrite Hk by (intros ? Hk' Hin; eapply Hn; [done|by right]).
      cbn. apply lookup_insert_ne. intros <-. eapply Hn; [done|by left].
    + intros t' Hne. rewrite Htabs by done. cbn. by apply lookup_insert_ne.
    + intros f Hf. rewrite Hfuns by (cbn; lia). cbn. apply lookup_insert_ne. lia.
    + by rewrite Hr, Hu, Hg.
    + cbn in Hfr. lia.
Qed.

Lemma add_funcs_binds t l h x :
  tabs h !! t = Some x -> NoDup l.*1 -> binds (add_funcs t l h) t l.
Proof.
  revert h x. induction l as [|[name sym] l IH]; intros h x Ht Hnd; cbn [add_funcs].
  - exists x. split; [done|]. intros ? ? [].
  - cbn in Hnd. apply list.NoDup_cons in Hnd as [Hni Hnd].
    change (tabs (bump (set_fun (fresh h) (CF sym) h))) with (tabs h). rewrite Ht.
    change (default (Table ∅ None) (Some x)) with x.
    set (x1 := raw_set (KStr name) (VFun (fresh h)) x).
    set (h1 := set_tab t x1 (bump (set_fun (fresh h) (CF sym) h))).
    assert (Ht1 : tabs h1 !! t = Some x1) by apply lookup_insert_eq.
    destruct (IH h1 x1 Ht1 Hnd) as (x' & Hx' & Hb). exists x'. split; [done|].
    intros n s [Heq|Hin]; [|by apply Hb]. injection Heq as <- <-. exists (fresh h).
    destruct (add_funcs_extends t l h1 x1 Ht1) as [Htab _ Hfuns _ Hfr].
    destruct (Htab x1 Ht1) as (x'' & Hx'' & _ & Hk). rewrite Hx' in Hx''. injection Hx'' as <-.
    rewrite Hk by (intros ? [= <-]; done). rewrite Hfuns by (cbn; lia).
    split_all; [cbn; apply lookup_insert_eq..|]. cbn in Hfr. lia.
Qed.

(** what a table binds survives the creation of functions and other tables *)
Lemma binds_extends t t' l l' h h' :
  binds h t l -> extends t' l' h h' -> t ≠ t' -> binds h' t l.
Proof.
  intros (x & Hx & Hb) [_ Htabs Hfuns _ Hfr] Hne. exists x. split; [by rewrite Htabs|].
  intros n s Hin. destruct (Hb n s Hin) as (f & Hf & Hg & Hlt). exists f. split_all; [done| |lia].
  by rewrite Hfuns.
Qed.

Lemma binds_alloc t l h x : binds h t l -> t ≠ fresh h -> binds (bump (set_tab (fresh h) x h)) t l.
Proof.
  intros (y & Hy & Hb) Hne. exists y. split; [cbn; by rewrite lookup_insert_ne|].
  intros n s Hin. destruct (Hb n s Hin) as (f & Hf & Hg & Hlt). exists f. cbn.
  split_all; [done..|lia].
Qed.

(** a new field *)
Lemma binds_field t l h x k v :
  binds h t l -> tabs h !! t = Some x -> k ∉ l.*1 -> v ≠ VNil ->
  binds (set_tab t (raw_set (KStr k) v x) h) t l.
Proof.
  intros (y & Hy & Hb) Hx Hk Hv. rewrite Hx in Hy. injection Hy as <-.
  exists (raw_set (KStr k) v x). split; [cbn; apply lookup_insert_eq|].
  intros n s Hin. destruct (Hb n s Hin) as (f & Hf & Hg & Hlt). exists f. split_all; [|done..].
  assert (k ≠ n). { intros ->. apply Hk. by apply (list_elem_of_fmap_2 fst _ (n, s)), list_elem_of_In. }
  destruct v; [done|..]; cbn; rewrite lookup_insert_ne by congruence; exact Hf.
Qed.

Lemma binds_other t t' l h x : binds h t l -> t ≠ t' -> binds (set_tab t' x h) t l.
Proof.
  intros (y & Hy & Hb) Hne. exists y. split; [cbn; by rewrite lookup_insert_ne|].
  intros n s Hin. destruct (Hb n s Hin) as (f & Hf & Hg & Hlt). by exists f.
Qed.
