(* ===== verification/Machine.v ===== *)
(** * Programs and the machine that runs them

    A C function of the modules is a [prog]: a finite tree of the calls it makes
    (the Lua API, [malloc] and the memory it manages, the system libraries),
    each followed by what the function does with the result.  [run] interprets
    such a tree over a [world] with a [handler], which says what the calls do.
    The Lua API and the system libraries are arguments of the model: a theorem
    fixes the system library by a [clib] of which it assumes what it needs, and
    holds of every implementation of the Lua API that [conforms] to the manual
    ([executes]); [executes_intro] reduces that to a run under [doc]. *)

From Stdlib Require Import SpecFloat.
From S2P Require Import Prelude LuaApi.

(** ** C memory

    The structures the modules keep in memory they allocate (or in the block of
    a full userdata); an address holds one object, and [NULL] is 0. *)

(** what a reference counted object of [lua_pthread.c] holds beside its count:
    [struct rcthread], [rconce], [rcmutex], [rccond], [rcrwlock], [rckey],
    [rcbarrier] and [rcrendezvous].  The system objects are known by the address
    they live at; a thread and a key by the handle the library returned. *)
Inductive pbody :=
  | BThread (t : Z)
  | BOnce
  | BMutex
  | BCond
  | BRwlock
  | BKey (k : Z)
  | BBarrier
  | BRendezvous (waiter : option nat).

(** [enum aiocb_state] of [lua_aio.c] *)
Inductive aiocb_state := CB_UNINIT | CB_INIT | CB_PENDING | CB_RETURNING.

(** [struct sigevent]: what was stored in its members since it was zeroed, the
    latest first; see [Signal] *)
Definition sigevent : Type := list (string * Z).

(** [struct rcaiocb]: the fields of [struct aiocb] the module uses
    ([aio_buf]/[aio_nbytes] double as [aio_iov]/[aio_iovcnt]), with [aio_flags]
    and [aio_state] in its spare words, then [refs] and [state]. *)
Record rcaiocb := RcAiocb {
  aio_fildes : Z; aio_offset : Z; aio_lio_opcode : Z;
  aio_buf : Z; aio_nbytes : Z; aio_flags : Z; aio_state : aiocb_state;
  aio_sigevent : sigevent; aio_refs : Z; cb_state : aiocb_state }.

(** arguments and results of a library call: integers and addresses, strings, [double]s *)
Inductive carg := AZ (z : Z) | AS (s : string) | AD (f : spec_float).

(** [struct mib] of sys/sysctl/lua_sysctl.c, and [struct cap_mib] of the casper service, which
    has [chan] too *)
Record mib := Mib {
  mib_chan : Z; mib_oid : list Z; mib_oidlen : Z; mib_prefix : Z; mib_kind : Z;
  mib_format : Z; mib_name : Z; mib_description : Z }.

Inductive obj :=
  | ORc (refs : Z) (b : pbody)
  | OAio (a : rcaiocb)
  | OBuf (len : Z) (init : string)        (** [len] bytes, the first ones initialised *)
  | OIov (l : list (Z * Z))               (** an array of [struct iovec] (base, len) *)
  | OPtrs (l : list (option Z)) (st : list (option aiocb_state))
                                          (** an array of pointers, and one of states *)
  | OArr (l : list (option carg))         (** an array of integers or pointers *)
  | OCset (bits : Z)                      (** [cpuset_t] *)
  | OStream (f : Z)                       (** [luaL_Stream] *)
  | OMib (m : mib)
  | OStruct (l : list (string * carg)).   (** a structure of integers, pointers and strings *)

#[export] Instance pbody_eq_dec : EqDecision pbody.
Proof. solve_decision. Defined.
#[export] Instance aiocb_state_eq_dec : EqDecision aiocb_state.
Proof. solve_decision. Defined.

(** ** Calls out of the module *)

(** the C result, and what was stored through the out parameters *)
Record cret := Cret { rc : Z; outs : list carg }.

Definition out_int (i : nat) (r : cret) : Z :=
  match outs r !! i with Some (AZ z) => z | _ => 0 end.
Definition out_str (i : nat) (r : cret) : string :=
  match outs r !! i with Some (AS s) => s | _ => "" end.
Definition out_num (i : nat) (r : cret) : spec_float :=
  match outs r !! i with Some (AD f) => f | _ => S754_zero false end.

(** macros and enumerators of the system headers *)
Class Consts := cst : string -> Z.

Inductive ev : Type -> Type :=
  | ELua {R} (L : nat) (e : luaE R) : ev R
  | ENewstate : ev (option nat)
  | EClose (L : nat) : ev unit
  | EMalloc (size : Z) (o : obj) : ev Z
  | EFree (p : Z) : ev unit
  | EMem {R} (p : Z) (f : obj -> option (R * obj)) : ev R
      (** one atomic access; [f] is [None] on an object of another kind *)
  | ECall (f : string) (args : list carg) : ev cret
  | EErrno : ev Z
  | EStrerror (e : Z) : ev string
  | ECallfn (L : nat) (f : value) (args : list value) : ev (bool * list value)
  | EHalt (h : halt) : ev Empty_set.

(** ** Programs *)

Inductive prog (A : Type) : Type :=
  | Ret (a : A)
  | Vis {R : Type} (e : ev R) (k : R -> prog A).
Arguments Ret {A} a.
Arguments Vis {A R} e k.

Fixpoint prog_bind {A B} (k : A -> prog B) (p : prog A) : prog B :=
  match p with
  | Ret a => k a
  | Vis e c => Vis e (fun x => prog_bind k (c x))
  end.

#[export] Instance prog_mret : MRet prog := @Ret.
#[export] Instance prog_mbind : MBind prog := @prog_bind.

Definition trigger {R} (e : ev R) : prog R := Vis e Ret.

(** a call that does not return *)
Definition halts {A} (e : ev Empty_set) : prog A := Vis e (fun x => match x with end).

(** ** Worlds *)

Record world (S T : Type) := World {
  wl : gmap nat T;           (** the Lua states *)
  wln : nat;                 (** the name of the next one *)
  wm : gmap Z obj;           (** allocated memory *)
  wnext : Z;                 (** the next address *)
  woom : Z -> Z -> bool;     (** does the allocation (size, address) fail? *)
  wx : S                     (** the state of the system libraries *)
}.
Arguments World {S T}.
Arguments wl {S T}. Arguments wln {S T}. Arguments wm {S T}.
Arguments wnext {S T}. Arguments woom {S T}. Arguments wx {S T}.

Section world.
Context {S T : Type}.
Implicit Types w : world S T.

Definition put (L : nat) (t : T) w : world S T :=
  World (<[L := t]> (wl w)) (wln w) (wm w) (wnext w) (woom w) (wx w).
Definition set_mem (m : gmap Z obj) w : world S T :=
  World (wl w) (wln w) m (wnext w) (woom w) (wx w).
Definition set_next (n : Z) w : world S T :=
  World (wl w) (wln w) (wm w) n (woom w) (wx w).
Definition set_wl (m : gmap nat T) w : world S T :=
  World m (wln w) (wm w) (wnext w) (woom w) (wx w).
Definition set_wln (n : nat) w : world S T :=
  World (wl w) n (wm w) (wnext w) (woom w) (wx w).
Definition poke (p : Z) (o : obj) w : world S T := set_mem (<[p := o]> (wm w)) w.
Definition release (p : Z) w : world S T := set_mem (delete p (wm w)) w.
End world.

(** ** Handlers *)

Class Libc (S : Type) := { c_errno : S -> Z; c_strerror : Z -> string }.

Record handler (S T : Type) := Handler {
  h_lua : forall R, luaE R -> T -> outcome R * T;
  h_new : T;
  h_closable : T -> bool;
  h_call : string -> list carg -> world S T -> outcome cret * world S T;
  h_fn : nat -> value -> list value -> world S T -> outcome (bool * list value) * world S T
}.
Arguments Handler {S T}.
Arguments h_lua {S T} _ {R}. Arguments h_new {S T}. Arguments h_closable {S T}.
Arguments h_call {S T}. Arguments h_fn {S T}.

Section run.
Context {S T : Type} `{Libc S} (hd : handler S T).

Definition step {R} (e : ev R) (w : world S T) : outcome R * world S T :=
  match e with
  | ELua L e =>
      match wl w !! L with
      | Some t => let '(r, t') := h_lua hd e t in (r, put L t' w)
      | None => (Halt (UB "use of a closed Lua state"), w)
      end
  | ENewstate =>
      if woom w 0 (wnext w) then (Ok None, set_next (wnext w + 1) w)
      else (Ok (Some (wln w)),
            put (wln w) (h_new hd) (set_wln (1 + wln w)%nat (set_next (wnext w + 1) w)))
  | EClose L =>
      match wl w !! L with
      | Some t => if h_closable hd t then (Ok tt, set_wl (delete L (wl w)) w)
                  else (Halt (Unspec "__gc metamethods run by lua_close"), w)
      | None => (Halt (UB "lua_close of a closed Lua state"), w)
      end
  | EMalloc size o =>
      let p := wnext w in
      if woom w size p then (Ok 0, set_next (p + 1) w)
      else (Ok p, poke p o (set_next (p + 1) w))
  | EFree p =>
      if p =? 0 then (Ok tt, w)
      else match wm w !! p with
           | Some _ => (Ok tt, release p w)
           | None => (Halt (UB "free of memory that is not allocated"), w)
           end
  | EMem p f =>
      match wm w !! p with
      | Some o => match f o with
                  | Some (r, o') => (Ok r, poke p o' w)
                  | None => (Halt (UB "access to an object of another kind"), w)
                  end
      | None => (Halt (UB "access to memory that is not allocated"), w)
      end
  | ECall f args => h_call hd f args w
  | EErrno => (Ok (c_errno (wx w)), w)
  | EStrerror e => (Ok (c_strerror e), w)
  | ECallfn L f args => h_fn hd L f args w
  | EHalt h => (Halt h, w)
  end.

Fixpoint run {A} (p : prog A) (w : world S T) : outcome A * world S T :=
  match p with
  | Ret a => (Ok a, w)
  | Vis e k =>
      match step e w with
      | (Ok x, w') => run (k x) w'
      | (Halt h, w') => (Halt h, w')
      end
  end.

(** sequencing of outcomes *)
Definition andthen {A B} (r : outcome A * world S T) (k : A -> world S T -> outcome B * world S T) :
  outcome B * world S T :=
  match r with
  | (Ok a, w) => k a w
  | (Halt h, w) => (Halt h, w)
  end.

Lemma run_bind {A B} (p : prog A) (k : A -> prog B) (w : world S T) :
  run (p ≫= k) w = andthen (run p w) (fun a => run (k a)).
Proof.
  unfold mbind, prog_mbind. revert w.
  induction p as [a|R e c IH]; intros w; cbn; [done|].
  destruct (step e w) as [[x|h] w']; cbn; [apply IH|done].
Qed.

Lemma run_ret {A} (a : A) (w : world S T) : run (mret a) w = (Ok a, w).
Proof. done. Qed.

Lemma run_trigger {R} (e : ev R) (w : world S T) : run (trigger e) w = step e w.
Proof. cbn. by destruct (step e w) as [[]]. Qed.

Lemma run_halts {A} (e : ev Empty_set) (w : world S T) :
  run (A := A) (halts e) w =
  match step e w with (Halt h, w') => (Halt h, w') | (Ok x, _) => match x with end end.
Proof. cbn. destruct (step e w) as [[[]|] ?]. done. Qed.
End run.

(** ** The system libraries, and the documented machine *)

(** what the calls out of the module do to the world *)
Record clib (S : Type) := Clib {
  c_call : string -> list carg -> world S lstate -> outcome cret * world S lstate;
  c_fn : nat -> value -> list value -> world S lstate -> outcome (bool * list value) * world S lstate
}.
Arguments Clib {S}. Arguments c_call {S}. Arguments c_fn {S}.

(** [lua_close] runs the [__gc] metamethods of the userdata that have one: known
    here only for those of the standard libraries *)
Definition has_gc `{LuaSem} (h : heap) (d : udata) : bool :=
  match ud_meta d with
  | Some t =>
      match tabs h !! t with
      | Some x =>
          match tmap x !! KStr "__gc" with
          | None => false
          | Some (VFun f) => match funs h !! f with Some (CF s) => negb (ls_quiet_gc s) | _ => true end
          | Some _ => true
          end
      | None => false
      end
  | None => false
  end.

Definition closable `{LuaSem} (s : lstate) : bool :=
  forallb (fun kv => negb (has_gc (hp s) kv.2)) (map_to_list (uds (hp s))).

Definition documented `{LuaSem} {S} (C : clib S) : handler S lstate :=
  Handler (@doc _) new_lstate closable (c_call C) (c_fn C).

(** ** Implementations of the Lua API *)

Definition defined {A} (o : outcome A) : Prop :=
  match o with Halt (UB _) | Halt (Unspec _) => False | _ => True end.

Definition map_world {S T T'} (f : T -> T') (w : world S T) : world S T' :=
  World (f <$> wl w) (wln w) (wm w) (wnext w) (woom w) (wx w).

(** An implementation represents a state in its own way ([view] forgets how);
    wherever the documentation fixes the effect of a call, that is its effect. *)
Record conforms {S T} (view : T -> lstate) (hd : handler S T) (hd0 : handler S lstate) : Prop := {
  conf_lua : forall R (e : luaE R) t,
    defined (h_lua hd0 e (view t)).1 ->
    (h_lua hd e t).1 = (h_lua hd0 e (view t)).1 /\ view (h_lua hd e t).2 = (h_lua hd0 e (view t)).2;
  conf_new : view (h_new hd) = h_new hd0;
  conf_closable : forall t, h_closable hd t = h_closable hd0 (view t);
  conf_call : forall f args w,
    defined (h_call hd0 f args (map_world view w)).1 ->
    (h_call hd f args w).1 = (h_call hd0 f args (map_world view w)).1 /\
    map_world view (h_call hd f args w).2 = (h_call hd0 f args (map_world view w)).2;
  conf_fn : forall L f args w,
    defined (h_fn hd0 L f args (map_world view w)).1 ->
    (h_fn hd L f args w).1 = (h_fn hd0 L f args (map_world view w)).1 /\
    map_world view (h_fn hd L f args w).2 = (h_fn hd0 L f args (map_world view w)).2
}.

Section adequacy.
Context {S T : Type} `{Libc S} (view : T -> lstate).
Context (hd : handler S T) (hd0 : handler S lstate) (Hc : conforms view hd hd0).

Lemma map_world_put L t (w : world S T) :
  map_world view (put L t w) = put L (view t) (map_world view w).
Proof. unfold map_world, put; cbn. by rewrite fmap_insert. Qed.

Lemma step_adequate {R} (e : ev R) (w : world S T) :
  defined (step hd0 e (map_world view w)).1 ->
  (step hd e w).1 = (step hd0 e (map_world view w)).1 /\
  map_world view (step hd e w).2 = (step hd0 e (map_world view w)).2.
Proof.
  destruct e as [R L e| |L|size o|p|R p f|f args| |z|L f args|h]; cbn; intros Hd.
  - rewrite lookup_fmap in Hd |- *. destruct (wl w !! L) as [t|] eqn:Hl; cbn in *; [|done].
    pose proof (conf_lua _ _ _ Hc R e t) as Hlua.
    destruct (h_lua hd0 e (view t)) as [r s'], (h_lua hd e t) as [r1 t1]. cbn in *.
    destruct (Hlua Hd) as [-> <-]. split; [done|apply map_world_put].
  - destruct (woom w 0 (wnext w)); cbn; [done|]. split; [done|].
    rewrite map_world_put. by rewrite (conf_new _ _ _ Hc).
  - rewrite lookup_fmap in Hd |- *. destruct (wl w !! L) as [t|] eqn:Hl; cbn in *; [|done].
    rewrite (conf_closable _ _ _ Hc). rewrite <- (conf_closable _ _ _ Hc) in Hd |- *.
    destruct (h_closable hd t); cbn in *; [|done]. split; [done|].
    unfold map_world, set_wl; cbn. by rewrite fmap_delete.
  - destruct (woom w size (wnext w)); done.
  - destruct (p =? 0); [done|]. destruct (wm w !! p); done.
  - destruct (wm w !! p); [|done]. destruct (f o) as [[r o']|]; done.
  - by apply (conf_call _ _ _ Hc).
  - done.
  - done.
  - by apply (conf_fn _ _ _ Hc).
  - done.
Qed.

Lemma run_adequate {A} (p : prog A) (w : world S T) :
  defined (run hd0 p (map_world view w)).1 ->
  (run hd p w).1 = (run hd0 p (map_world view w)).1 /\
  map_world view (run hd p w).2 = (run hd0 p (map_world view w)).2.
Proof.
  revert w. induction p as [a|R e k IH]; intros w Hd; [done|]. cbn in *.
  pose proof (step_adequate e w) as Hs.
  destruct (step hd0 e (map_world view w)) as [o0 w0] eqn:E0.
  destruct (step hd e w) as [o1 w1] eqn:E1. cbn in Hs.
  destruct o0 as [x|h]; cbn in *.
  - destruct (Hs I) as [-> Hw]. subst w0. by apply IH.
  - destruct (Hs Hd) as [-> Hw]. done.
Qed.
End adequacy.

(** ** Calling a C function from Lua

    Lua gives the function a fresh frame holding the arguments and
    [LUA_MINSTACK] free slots; the function returns how many of the topmost
    values are its results.  The frame is then gone. *)

Definition frame (args : list value) (h : heap) : lstate := LS (rev args) LUA_MINSTACK h.
Definition idle (h : heap) : lstate := LS [] LUA_MINSTACK h.

Section invoke.
Context {S : Type} `{Libc S}.

Definition finish (L : nat) (r : outcome Z * world S lstate) :
  outcome (list value) * world S lstate :=
  let '(o, w) := r in
  match wl w !! L with
  | None => (Halt (UB "use of a closed Lua state"), w)
  | Some s =>
      let w' := put L (idle (hp s)) w in
      match o with
      | Ok n => if (0 <=? n) && (n <=? Z.of_nat (length (stk s)))
                then (Ok (rev (take (Z.to_nat n) (stk s))), w')
                else (Halt (UB "more results than values"), w')
      | Halt h => (Halt h, w')
      end
  end.

Definition invoke `{LuaSem} (C : clib S) (L : nat) (f : nat -> prog Z) (args : list value)
  (h : heap) (w : world S lstate) : outcome (list value) * world S lstate :=
  finish L (run (documented C) (f L) (put L (frame args h) w)).

(** [f], called on state [L] with these arguments, this heap and this world, ends
    with outcome [o] in world [w'], under every conforming implementation *)
Definition executes `{LuaSem} (C : clib S) (L : nat) (f : nat -> prog Z) (args : list value)
  (h : heap) (w : world S lstate) (o : outcome (list value)) (w' : world S lstate) : Prop :=
  forall T (view : T -> lstate) (hd : handler S T) (iw : world S T),
    conforms view hd (documented C) ->
    map_world view iw = put L (frame args h) w ->
    let '(r, iw') := run hd (f L) iw in
    finish L (r, map_world view iw') = (o, w').

Lemma finish_defined L (r : outcome Z) (w : world S lstate) :
  defined (finish L (r, w)).1 -> defined r.
Proof.
  unfold finish. destruct (wl w !! L); [|done]. destruct r as [n|h]; [done|].
  by destruct h.
Qed.

Lemma executes_intro `{LuaSem} (C : clib S) L f args h w o w' :
  invoke C L f args h w = (o, w') -> defined o -> executes C L f args h w o w'.
Proof.
  unfold invoke, executes. intros Hi Hd T view hd iw Hc Hw.
  pose proof (run_adequate view hd (documented C) Hc (f L) iw) as Ha.
  rewrite Hw in Ha. destruct (run (documented C) (f L) (put L (frame args h) w)) as [r0 w0].
  destruct (run hd (f L) iw) as [r1 w1]. cbn in Ha.
  assert (Hd0 : defined r0).
  { apply (finish_defined L r0 w0). by rewrite Hi. }
  destruct (Ha Hd0) as [-> ->]. done.
Qed.
End invoke.
