(* ===== verification/Capi.v ===== *)
(** * The C side: API names, memory and library calls, and how they run

    The names [lua.h], [lauxlib.h] and the C library give the calls, so that the
    components read like their source, and the equations that run them: each
    call has one, in the rewrite database [run].  [lua_step] runs one call. *)

From S2P Require Import Prelude LuaApi Machine.
From Stdlib Require Import SpecFloat.

(** ** Lua API *)

Abbreviation lua L e := (trigger (ELua L e)).

Abbreviation lua_gettop L := (lua L Gettop).
Abbreviation lua_settop L i := (lua L (Settop i)).
Abbreviation lua_pop L n := (lua L (Settop (- (n) - 1))).
Abbreviation lua_pushvalue L i := (lua L (Pushvalue i)).
Abbreviation lua_insert L i := (lua L (Insert i)).
Abbreviation lua_replace L i := (lua L (Replace i)).
Abbreviation lua_remove L i := (lua L (Remove i)).
Abbreviation lua_type L i := (lua L (Type_ i)).
Abbreviation lua_toboolean L i := (lua L (Toboolean i)).
Abbreviation lua_tointeger L i := (lua L (Tointeger i)).
Abbreviation lua_isinteger L i := (lua L (Isinteger i)).
Abbreviation lua_tonumber L i := (lua L (Tonumber i)).
Abbreviation lua_tolstring L i := (lua L (Tolstring i)).
Abbreviation lua_touserdata L i := (lua L (Touserdata i)).
Abbreviation lua_pushnil L := (lua L (Push VNil)).
Abbreviation lua_pushboolean L b := (lua L (Push (VBool b))).
Abbreviation lua_pushinteger L n := (lua L (Push (VInt n))).
Abbreviation lua_pushnumber L n := (lua L (Push (VNum n))).
Abbreviation lua_pushlstring L s := (lua L (Push (VStr s))).
Abbreviation lua_pushstring L s := (lua L (Push (VStr (cstr s)))).
Abbreviation lua_pushlightuserdata L p := (lua L (Push (VLud p))).
Abbreviation luaL_pushfail L := (lua L (Push VNil)).
Abbreviation lua_newtable L := (lua L Newtable).
Abbreviation lua_createtable L n m := (lua L Newtable) (only parsing).
Abbreviation lua_rawgeti L i n := (lua L (Rawgeti i n)).
Abbreviation lua_rawseti L i n := (lua L (Rawseti i n)).
Abbreviation lua_geti L i n := (lua L (Geti i n)).
Abbreviation lua_getfield L i k := (lua L (Getfield i k)).
Abbreviation lua_setfield L i k := (lua L (Setfield i k)).
Abbreviation lua_rawequal L i j := (lua L (Rawequal i j)).
Abbreviation lua_getmetatable L i := (lua L (Getmetatable i)).
Abbreviation luaL_getmetatable L n := (lua L (LGetmetatable n)).
Abbreviation luaL_setmetatable L n := (lua L (LSetmetatable n)).
Abbreviation luaL_newmetatable L n := (lua L (LNewmetatable n)).
Abbreviation lua_getiuservalue L i n := (lua L (Getiuservalue i n)).
Abbreviation lua_setiuservalue L i n := (lua L (Setiuservalue i n)).
Abbreviation luaL_len L i := (lua L (LLen i)).
Abbreviation luaL_checktype L i t := (lua L (Checktype i t)).
Abbreviation luaL_checkinteger L i := (lua L (Checkinteger i)).
Abbreviation luaL_checknumber L i := (lua L (Checknumber i)).
Abbreviation lua_pushcfunction L f := (lua L (Pushcfunction f)).
Abbreviation luaL_optinteger L i d := (lua L (Optinteger i d)).
Abbreviation luaL_checklstring L i := (lua L (Checklstring i)).
Abbreviation luaL_checkudata L i n := (lua L (Checkudata i n)).
Abbreviation luaL_argerror L i m := (halts (ELua L (Argerror i m))).
Abbreviation luaL_typeerror L i n := (halts (ELua L (Typeerror i n))).
Abbreviation luaL_error L m := (halts (ELua L (LError m))).
Abbreviation lua_error L := (halts (ELua L LuaError)).
Abbreviation luaL_setfuncs L l := (lua L (Setfuncs l)).
Abbreviation lua_getglobal L k := (lua L (Getglobal k)).
Abbreviation lua_loadbuffer L s := (lua L (Loadbuffer s)).
Abbreviation luaL_buffinit L := (lua L Buffinit).
Abbreviation luaL_pushresult L s := (lua L (Bufresult s)).
Abbreviation lua_getupvalue L i n := (lua L (Getupvalue i n)).
Abbreviation lua_setupvalue L i n := (lua L (Setupvalue i n)).
Abbreviation lua_rawgetp L p := (lua L (Rawgetp p)).
(** [lua_rawgeti(L, LUA_REGISTRYINDEX, ref)] *)
Abbreviation lua_rawgetref L r := (lua L (Rawgetp (ref_name r))).
Abbreviation lua_rawsetp L p := (lua L (Rawsetp p)).
(** references in the registry *)
Abbreviation luaL_ref L := (lua L Ref).
Abbreviation lua_next L i := (lua L (Next i)).
Abbreviation lua_rawset L i := (lua L (Rawset i)).
Abbreviation lua_gettable L i := (lua L (Gettable i)).
Abbreviation lua_settable L i := (lua L (Settable i)).
Abbreviation lua_setmetatable L i := (lua L (Setmetatable i)).
Abbreviation lua_pushcclosure L f n := (lua L (Pushcclosure f n)).
Abbreviation lua_tolstring_null L i := (lua L (Tolstr i)).
Abbreviation luaL_unref L r := (lua L (Unref r)).
Abbreviation luaL_openlibs L := (lua L Openlibs).
Abbreviation luaL_newstate := (trigger ENewstate).
Abbreviation lua_close L := (trigger (EClose L)).

(** a macro of two calls *)
Abbreviation luaL_newlib L l := (lua_newtable L ;; luaL_setfuncs L l).

Definition luaL_checkstring (L : nat) (i : Z) : prog string :=
  s ← luaL_checklstring L i; mret (cstr s).

Definition luaL_argcheck (L : nat) (cond : bool) (i : Z) (msg : string) : prog unit :=
  if cond then mret tt else luaL_argerror L i msg.

Definition luaL_argexpected (L : nat) (cond : bool) (i : Z) (tname : string) : prog unit :=
  if cond then mret tt else luaL_typeerror L i tname.

Definition lua_absindex (L : nat) (i : Z) : prog Z :=
  if 0 <? i then mret i else n ← lua_gettop L; mret (n + i + 1).

Definition is_noneornil (t : ltype) : bool := match t with TNONE | TNIL => true | _ => false end.

Definition lua_isnoneornil (L : nat) (i : Z) : prog bool :=
  t ← lua_type L i; mret (is_noneornil t).
(** [luaL_optstring(L, i, NULL)] *)
Definition luaL_optstring (L : nat) (i : Z) : prog (option string) :=
  none ← lua_isnoneornil L i;
  if none : bool then mret None else s ← luaL_checklstring L i; mret (Some (cstr s)).

(** [lua_pushstring(L, f(...))] of a call that returns [NULL] or a string *)
Definition push_ret_string (L : nat) (r : cret) : prog unit :=
  if rc r =? 0 then lua_pushnil L else lua_pushstring L (out_str 0 r).

(** [errno = e] *)
Abbreviation set_errno e := (trigger (ECall "errno=" [AZ e])).

Definition lua_is (L : nat) (i : Z) (t : ltype) : prog bool :=
  t' ← lua_type L i; mret (is_type t' t).

(** the block of a userdata comes from the allocator of the Lua state *)
Definition lua_newuserdatauv (L : nat) (size : Z) (o : obj) (nuv : nat) : prog Z :=
  p ← trigger (EMalloc size o);
  if p =? 0 then luaL_error L "not enough memory"
  else lua L (Newuserdatauv p nuv);; mret p.

(** of lauxlib, for a positive index; NULL for anything but such a userdata *)
Definition luaL_testudata (L : nat) (i : Z) (tname : string) : prog Z :=
  p ← lua_touserdata L i;
  if p =? 0 then mret 0
  else
    has ← lua_getmetatable L i;
    if has : bool then
      luaL_getmetatable L tname;;
      eq ← lua_rawequal L (-1) (-2);
      lua_pop L 2;;
      mret (if eq : bool then p else 0)
    else mret 0.

Definition lua_isstring (L : nat) (i : Z) : prog bool :=
  t ← lua_type L i; mret (is_type t TSTRING || is_type t TNUMBER).

(** [lua_tostring] of a string or an integer *)
Definition lua_tostring (L : nat) (i : Z) : prog string :=
  s ← lua_tolstring L i; mret (cstr s).

(** a userdata without block *)
Abbreviation lua_newuserdata0 L nuv := (lua L (Newuserdatauv 0 nuv)).

(** true is [LUA_OK]; the results, or the error value, are left on the stack *)
Definition lua_pcall (L : nat) (nargs : Z) : prog bool :=
  fa ← lua L (Popcall nargs);
  r ← trigger (ECallfn L fa.1 fa.2);
  lua L (Pushresults r.2);;
  mret r.1.

(** [lua_pcall(L, nargs, 0, 0)]: only an error value is left on the stack *)
Definition lua_pcall_none (L : nat) (nargs : Z) : prog bool :=
  fa ← lua L (Popcall nargs);
  r ← trigger (ECallfn L fa.1 fa.2);
  let '(ok, vs) := r : bool * list value in
  lua L (Pushresults (if ok then [] else vs));;
  mret ok.

(** [lua_pcall(L, nargs, 1, 0)]: one result, nil if there is none, or the error value *)
Definition lua_pcall1 (L : nat) (nargs : Z) : prog bool :=
  fa ← lua L (Popcall nargs);
  r ← trigger (ECallfn L fa.1 fa.2);
  lua L (Pushresults [default VNil (head r.2)]);;
  mret r.1.

(** [lua_call(L, nargs, 0)] *)
Definition lua_call0 (L : nat) (nargs : Z) : prog unit :=
  fa ← lua L (Popcall nargs);
  r ← trigger (ECallfn L fa.1 fa.2);
  if r.1 : bool then mret tt else lua L (Pushresults r.2);; lua_error L.

(** ** C *)

Abbreviation malloc size o := (trigger (EMalloc size o)).
Abbreviation calloc size o := (trigger (EMalloc size o)).
Abbreviation free p := (trigger (EFree p)).
Abbreviation load p f := (trigger (EMem p f)).
Abbreviation call f args := (trigger (ECall f args)).
Abbreviation errno := (trigger EErrno).
Abbreviation strerror_r e := (trigger (EStrerror e)).

Definition Z_of_bool (b : bool) : Z := if b then 1 else 0.

(** [assert] *)
Definition assert_ (b : bool) (what : string) : prog unit :=
  if b then mret tt else halts (EHalt (Aborted what)).

Definition undefined {A} (why : string) : prog A := halts (EHalt (UB why)).

(** [for (i = lo; i < lo + n; i++) body(i)] *)
Fixpoint for_ (n : nat) (lo : Z) (body : Z -> prog unit) : prog unit :=
  match n with
  | O => mret tt
  | S n => body lo;; for_ n (lo + 1) body
  end.

(** ** How the calls run *)

Section run.
Context `{LuaSem} {S : Type} `{Libc S} (C : clib S).
Implicit Types (w : world S lstate) (s : lstate) (L : nat) (p : Z).
Abbreviation rn := (run (documented C)).

Lemma put_put L s s' w : put L s (put L s' w) = put L s w.
Proof. unfold put; cbn. by rewrite insert_insert_eq. Qed.

Lemma put_comm L L' s s' w : L ≠ L' -> put L s (put L' s' w) = put L' s' (put L s w).
Proof. intros Hne. unfold put; cbn. by rewrite insert_insert_ne. Qed.

Lemma wl_put L s w : wl (put L s w) !! L = Some s.
Proof. cbn. apply lookup_insert_eq. Qed.

Lemma poke_put p o L s w : poke p o (put L s w) = put L s (poke p o w).
Proof. done. Qed.
Lemma release_put p L s w : release p (put L s w) = put L s (release p w).
Proof. done. Qed.
Lemma set_next_put n L s w : set_next n (put L s w) = put L s (set_next n w).
Proof. done. Qed.
Lemma poke_poke p o o' w : poke p o (poke p o' w) = poke p o w.
Proof. unfold poke, set_mem; cbn. by rewrite insert_insert_eq. Qed.
Lemma wm_put L s w : wm (put L s w) = wm w.
Proof. done. Qed.

(** two presentations of a world agree when the states do *)
Lemma put_id L s w : wl w !! L = Some s -> put L s w = w.
Proof. intros Hl. unfold put. rewrite insert_id by done. by destruct w. Qed.

Lemma run_lua {R} (e : luaE R) L s w :
  rn (lua L e) (put L s w) = let '(r, s') := doc e s in (r, put L s' w).
Proof.
  rewrite run_trigger. cbn [step]. rewrite wl_put. cbn [h_lua documented].
  destruct (doc e s) as [r s']. by rewrite put_put.
Qed.

(** [lua_pop] *)
Lemma doc_settop_neg k vs n h :
  (k <= length vs)%nat ->
  doc_settop (- Z.of_nat k - 1) (LS vs n h) = (Ok tt, LS (drop k vs) (n + k) h).
Proof.
  intros Hk. unfold doc_settop; cbn [stk room hp].
  destruct (Z.ltb_spec (- Z.of_nat k - 1) 0); [|lia].
  destruct (Z.ltb_spec (Z.of_nat (length vs) + (- Z.of_nat k - 1) + 1) 0); [lia|].
  replace (Z.to_nat (Z.of_nat (length vs) + (- Z.of_nat k - 1) + 1)) with (length vs - k)%nat by lia.
  destruct (Nat.leb_spec (length vs - k) (length vs)); [|lia].
  by replace (length vs - (length vs - k))%nat with k by lia.
Qed.

(** cutting the stack down to its lowest values *)
Lemma doc_settop_to pre below n h :
  doc_settop (Z.of_nat (length below)) (LS (pre ++ below) n h) =
  (Ok tt, LS below (n + length pre) h).
Proof.
  unfold doc_settop; cbn [stk room hp].
  destruct (Z.ltb_spec (Z.of_nat (length below)) 0); [lia|].
  rewrite Nat2Z.id, length_app. rewrite (proj2 (Nat.leb_le _ _)) by lia.
  replace (length pre + length below - length below)%nat with (length pre) by lia.
  rewrite (proj2 (Z.ltb_ge _ _)) by lia. by rewrite drop_app_length.
Qed.

Lemma run_pop1 L x vs n h w :
  rn (lua_pop L 1) (put L (LS (x :: vs) n h) w) = (Ok tt, put L (LS vs (1 + n) h) w).
Proof.
  rewrite run_lua. cbn [doc]. rewrite (doc_settop_neg 1) by (cbn; lia).
  cbn. by rewrite Nat.add_1_r.
Qed.
Lemma run_pop2 L x y vs n h w :
  rn (lua_pop L 2) (put L (LS (x :: y :: vs) n h) w) = (Ok tt, put L (LS vs (2 + n) h) w).
Proof.
  rewrite run_lua. cbn [doc]. rewrite (doc_settop_neg 2) by (cbn; lia).
  by rewrite Nat.add_comm.
Qed.
Lemma run_pop3 L x y z vs n h w :
  rn (lua_pop L 3) (put L (LS (x :: y :: z :: vs) n h) w) = (Ok tt, put L (LS vs (3 + n) h) w).
Proof.
  rewrite run_lua. cbn [doc]. rewrite (doc_settop_neg 3) by (cbn; lia).
  by rewrite Nat.add_comm.
Qed.

Lemma run_lua_halts {A} (e : luaE Empty_set) L s w :
  rn (halts (A := A) (ELua L e)) (put L s w) =
  match doc e s with
  | (Halt h, s') => (Halt h, put L s' w)
  | (Ok x, _) => match x with end
  end.
Proof.
  rewrite run_halts. cbn [step]. rewrite wl_put. cbn [h_lua documented].
  destruct (doc e s) as [[[]|h] s']. by rewrite put_put.
Qed.

Lemma run_halt {A} h w : rn (halts (A := A) (EHalt h)) w = (Halt h, w).
Proof. done. Qed.

Lemma run_undefined {A} why w : rn (undefined (A := A) why) w = (Halt (UB why), w).
Proof. done. Qed.

Lemma run_malloc_ok size o L s w :
  woom w size (wnext w) = false ->
  rn (malloc size o) (put L s w) =
  (Ok (wnext w), put L s (poke (wnext w) o (set_next (wnext w + 1) w))).
Proof. intros Ho. rewrite run_trigger. cbn. by rewrite Ho. Qed.

Lemma run_malloc_fail size o L s w :
  woom w size (wnext w) = true ->
  rn (malloc size o) (put L s w) = (Ok 0, put L s (set_next (wnext w + 1) w)).
Proof. intros Ho. rewrite run_trigger. cbn. by rewrite Ho. Qed.

Lemma run_free p o L s w :
  p ≠ 0 -> wm w !! p = Some o -> rn (free p) (put L s w) = (Ok tt, put L s (release p w)).
Proof.
  intros Hp Ho. rewrite run_trigger. cbn.
  destruct (Z.eqb_spec p 0); [done|]. by rewrite Ho.
Qed.

Lemma run_free_null L s w : rn (free 0) (put L s w) = (Ok tt, put L s w).
Proof. done. Qed.

Lemma run_load {R} p (f : obj -> option (R * obj)) o r o' L s w :
  wm w !! p = Some o -> f o = Some (r, o') ->
  rn (load p f) (put L s w) = (Ok r, put L s (poke p o' w)).
Proof. intros Ho Hf. rewrite run_trigger. cbn. by rewrite Ho, Hf. Qed.

(** a read leaves memory as it is *)
Lemma run_read {R} p (f : obj -> option (R * obj)) o r L s w :
  wm w !! p = Some o -> f o = Some (r, o) -> rn (load p f) (put L s w) = (Ok r, put L s w).
Proof.
  intros Ho Hf. rewrite (run_load _ _ _ _ _ _ _ _ Ho Hf). unfold poke, set_mem.
  rewrite insert_id by done. by destruct w.
Qed.

Lemma run_call f args w : rn (call f args) w = c_call C f args w.
Proof. rewrite run_trigger. done. Qed.

Lemma run_errno w : rn errno w = (Ok (c_errno (wx w)), w).
Proof. done. Qed.

Lemma run_strerror e w : rn (strerror_r e) w = (Ok (c_strerror e), w).
Proof. done. Qed.

(** a loop, by an invariant that gives the world before each iteration *)
Lemma run_for n lo (body : Z -> prog unit) (I : nat -> world S lstate) :
  (forall i, (i < n)%nat -> rn (body (lo + Z.of_nat i)) (I i) = (Ok tt, I (1 + i)%nat)) ->
  rn (for_ n lo body) (I 0%nat) = (Ok tt, I n).
Proof.
  revert lo I. induction n as [|n IH]; intros lo I Hb; [done|].
  cbn [for_]. rewrite run_bind. pose proof (Hb 0%nat ltac:(lia)) as Hz.
  change (Z.of_nat 0) with 0 in Hz. rewrite Z.add_0_r in Hz. rewrite Hz. cbn [andthen].
  apply (IH (lo + 1) (fun i => I (1 + i)%nat)). intros i Hi.
  replace (lo + 1 + Z.of_nat i) with (lo + Z.of_nat (1 + i)) by lia. apply Hb. lia.
Qed.

Lemma run_callfn L f args w : rn (trigger (ECallfn L f args)) w = c_fn C L f args w.
Proof. rewrite run_trigger. done. Qed.

(** calling a function with its arguments, which lie on top of the stack *)
Lemma run_popcall L f (a below : list value) n h w :
  rn (lua L (Popcall (Z.of_nat (length a)))) (put L (LS (rev a ++ f :: below) n h) w) =
  (Ok (f, a), put L (LS below (n + Datatypes.S (length a)) h) w).
Proof.
  rewrite run_lua. cbn [doc]. unfold doc_popcall. cbn [stk room hp]. rewrite Nat2Z.id.
  rewrite <- (length_rev a), list_lookup_middle by done. rewrite (proj2 (Z.leb_le 0 _)) by lia.
  rewrite take_app_length, rev_involutive.
  replace (drop (Datatypes.S (length (rev a))) (rev a ++ f :: below)) with below; [done|].
  by rewrite (cons_middle f), app_assoc, drop_app_length' by (rewrite length_app; cbn; lia).
Qed.

Lemma run_pcall L f a below n h w ok rs m h' w' :
  c_fn C L f a (put L (LS below (n + Datatypes.S (length a)) h) w) =
    (Ok (ok, rs), put L (LS below m h') w') ->
  rn (lua_pcall L (Z.of_nat (length a))) (put L (LS (rev a ++ f :: below) n h) w) =
  (Ok ok, put L (LS (rev rs ++ below) (m - length rs) h') w').
Proof.
  intros Hf. unfold lua_pcall. rewrite run_bind, run_popcall. cbn [andthen fst snd].
  rewrite run_bind, run_callfn, Hf. cbn [andthen fst snd]. rewrite run_bind, run_lua. done.
Qed.

Lemma run_pcall_none L f a below n h w ok rs m h' w' :
  c_fn C L f a (put L (LS below (n + Datatypes.S (length a)) h) w) =
    (Ok (ok, rs), put L (LS below m h') w') ->
  let vs := if ok then [] else rs in
  rn (lua_pcall_none L (Z.of_nat (length a))) (put L (LS (rev a ++ f :: below) n h) w) =
  (Ok ok, put L (LS (rev vs ++ below) (m - length vs) h') w').
Proof.
  intros Hf. cbn zeta. unfold lua_pcall_none. rewrite run_bind, run_popcall. cbn [andthen fst snd].
  rewrite run_bind, run_callfn, Hf. cbn [andthen]. rewrite run_bind, run_lua. done.
Qed.
End run.

(** ** Library calls that return

    [external C fns lib]: the calls of the functions [fns] return, and touch
    neither the Lua states nor the memory of the modules; [lib] gives their
    result and what they do to the state of the library. *)

Definition set_x {S T} (s : S) (w : world S T) : world S T :=
  World (wl w) (wln w) (wm w) (wnext w) (woom w) s.

Definition external {S} (C : clib S) (fns : list string)
  (lib : string -> list carg -> S -> cret * S) : Prop :=
  forall fn args w, In fn fns ->
  c_call C fn args w = (Ok (lib fn args (wx w)).1, set_x (lib fn args (wx w)).2 w).

Section external.
Context `{LuaSem} {S : Type} `{Libc S} (C : clib S).
Implicit Types (w : world S lstate) (L : nat).

Lemma set_x_put x L s w : set_x x (put L s w) = put L s (set_x x w).
Proof. done. Qed.

Lemma set_x_id w : set_x (wx w) w = w.
Proof. by destruct w. Qed.

Lemma run_external fns lib fn args L s w :
  external C fns lib -> In fn fns ->
  run (documented C) (call fn args) (put L s w) =
  (Ok (lib fn args (wx w)).1, put L s (set_x (lib fn args (wx w)).2 w)).
Proof. intros He Hin. by rewrite run_call, He. Qed.
End external.

Create Rewrite HintDb run.
#[export] Hint Rewrite @run_bind @run_lua @run_lua_halts @run_ret @run_strerror @run_errno
  @run_halt @run_undefined @poke_put @release_put @set_next_put @put_put : run.
Create Rewrite HintDb run_pop.
#[export] Hint Rewrite @run_bind @run_pop1 @run_pop2 @run_pop3 : run_pop.

(** read a stack index whose value is determined by what is known of the stack *)
Ltac eval_at :=
  repeat match goal with
  | |- context [at_ ?vs ?i] =>
      let t := eval lazy beta iota zeta delta
        [at_ pos Pos.to_nat Pos.iter_op Init.Nat.add Nat.add Nat.leb Nat.sub pred length lookup
         list_lookup Z.ltb Z.compare Pos.compare Pos.compare_cont app rev] in (at_ vs i) in
      lazymatch t with
      | Val _ => change (at_ vs i) with t
      | Absent => change (at_ vs i) with t
      | Bad => change (at_ vs i) with t
      end
  end.

(** evaluate the documented effect of a call on a stack whose top is known *)
Ltac doc_eval :=
  cbv beta iota zeta delta
      [doc push pop at_index at_value at_valid with_heap get_tab doc_insert doc_remove doc_replace
       doc_type doc_toboolean doc_tointeger doc_tonumber doc_isinteger doc_tolstring
       doc_touserdata doc_newtable doc_rawget doc_rawset doc_get doc_set doc_rawequal
       doc_getmetatable doc_setmetatable doc_lgetmetatable doc_lsetmetatable doc_lnewmetatable
       doc_newuserdatauv doc_getiuservalue doc_setiuservalue uv_get uv_set doc_len doc_checktype
       doc_checkinteger doc_checknumber doc_pushcfunction doc_ref doc_unref doc_optinteger doc_checklstring doc_checkudata doc_setfuncs
       doc_getglobal doc_dump doc_buffinit doc_bufresult doc_loadbuffer doc_getupvalue doc_setupvalue doc_popcall
       doc_pushresults ud_at func_at misuse unspec raise andthen];
  cbn [stk room hp]; eval_at;
  cbn [stk room hp length pred drop take app rev replicate fst snd type_of Nat.add Init.Nat.add LUA_MINSTACK
       is_type ltype_tag Z.eqb Pos.eqb Z.ltb Z.compare is_noneornil].

(** run the calls up to one whose outcome needs a fact of the context *)
Ltac lua_step := progress (autorewrite with run_pop; autorewrite with run; doc_eval).
Ltac lua_run := repeat lua_step.

(** use what is known of a value the run is stuck on *)
Tactic Notation "know" constr(H) := rewrite H; doc_eval.
Tactic Notation "know" constr(H1) "," constr(H2) := know H1; know H2.

(** ** Runs under any conforming implementation *)

Section yields.
Context `{LuaSem} {S : Type} `{Libc S} (C : clib S).

(** [p], run from [w], ends with outcome [o] in [w'], under every conforming
    implementation of the Lua API *)
Definition yields {A} (p : prog A) (w : world S lstate) (o : outcome A) (w' : world S lstate) : Prop :=
  forall T (view : T -> lstate) (hd : handler S T) (iw : world S T),
    conforms view hd (documented C) ->
    map_world view iw = w ->
    (run hd p iw).1 = o /\ map_world view (run hd p iw).2 = w'.

Lemma yields_intro {A} (p : prog A) w o w' :
  run (documented C) p w = (o, w') -> defined o -> yields p w o w'.
Proof.
  intros Hr Hd T view hd iw Hc <-.
  pose proof (run_adequate view hd (documented C) Hc p iw) as Ha.
  rewrite Hr in Ha. by apply Ha.
Qed.

(** the run under the documentation itself *)
Lemma conforms_refl (hd : handler S lstate) : conforms (fun s => s) hd hd.
Proof.
  assert (Hid : forall w : world S lstate, map_world (fun s => s) w = w).
  { intros []. unfold map_world; cbn. by rewrite map_fmap_id. }
  split; intros; rewrite ?Hid; done.
Qed.
End yields.
