(* ===== verification/Samples.v ===== *)
(** * Concrete instances

    A small implementation of each parameter of the model, used to evaluate the
    definitions and to show that the hypotheses of the theorems can hold: a
    dump format for functions, a C library whose state is [errno], and heaps
    with the metatables a module has registered. *)

From S2P Require Import Prelude LuaApi Arrays Machine Capi.

(** ** A dump format: every character preceded by 1, every string ended by 0 *)

Definition one : Ascii.ascii := Ascii.Ascii true false false false true true false false.
Definition zero : Ascii.ascii := Ascii.Ascii false false false false true true false false.

Fixpoint enc (s : string) : string :=
  match s with
  | EmptyString => String zero EmptyString
  | String c s => String one (String c (enc s))
  end.

Fixpoint dec (s acc : string) : list string :=
  match s with
  | EmptyString => []
  | String t s =>
      if Ascii.eqb t zero then acc :: dec s ""
      else match s with
           | EmptyString => []
           | String c s => dec s (acc +:+ String c "")
           end
  end.

Lemma string_app_assoc (a b c : string) : (a +:+ b) +:+ c = a +:+ (b +:+ c).
Proof.
  induction a as [|x a IH]; [done|].
  change (String x ((a +:+ b) +:+ c) = String x (a +:+ (b +:+ c))). by rewrite IH.
Qed.

Lemma string_app_nil_r (a : string) : a +:+ "" = a.
Proof.
  induction a as [|x a IH]; [done|]. change (String x (a +:+ "") = String x a). by rewrite IH.
Qed.

Lemma dec_enc (s rest acc : string) : dec (enc s +:+ rest) acc = (acc +:+ s) :: dec rest "".
Proof.
  revert acc. induction s as [|c s IH]; intros acc; cbn [enc].
  - change (dec (String zero "" +:+ rest) acc) with (acc :: dec rest "").
    by rewrite string_app_nil_r.
  - change (dec (String one (String c (enc s)) +:+ rest) acc)
      with (dec (enc s +:+ rest) (acc +:+ String c "")).
    rewrite IH. by rewrite string_app_assoc.
Qed.

Definition sample_dump (p : string) (ns : list string) : list string := enc <$> (p :: ns).
Definition sample_undump (s : string) : option (string * list string) :=
  match dec s "" with p :: ns => Some (p, ns) | [] => None end.

Lemma concat_cons (s : string) (l : list string) :
  String.concat "" (s :: l) = s +:+ String.concat "" l.
Proof. destruct l; [by rewrite string_app_nil_r|done]. Qed.

Lemma dec_concat (l : list string) : dec (String.concat "" (enc <$> l)) "" = l.
Proof.
  induction l as [|s l IH]; [done|]. cbn [fmap list_fmap].
  rewrite concat_cons, dec_enc. f_equal. exact IH.
Qed.

Lemma sample_roundtrip p ns :
  sample_undump (String.concat "" (sample_dump p ns)) = Some (p, ns).
Proof. unfold sample_undump, sample_dump. by rewrite dec_concat. Qed.

#[export] Instance sample_sem : LuaSem := {|
  ls_quiet_gc := fun s => String.eqb s "io_gc";
  ls_bufslots := 1;
  ls_dump := sample_dump; ls_undump := sample_undump; ls_roundtrip := sample_roundtrip;
  ls_openlibs := fun h => h;
  ls_order := fun m => (map_to_list m).*1;
  ls_order_keys := fun m => reflexivity _ |}.

(** ** A C library whose state is [errno] and whose calls return what a table says *)

#[export] Instance sample_libc : Libc Z := {|
  c_errno := fun e => e; c_strerror := fun e => if e =? 12 then "Cannot allocate memory" else "Error" |}.

#[export] Instance sample_consts : Consts := fun name =>
  if String.eqb name "ENOMEM" then 12
  else if String.eqb name "EINTR" then 4
  else if String.eqb name "EINVAL" then 22
  else if String.eqb name "ETIMEDOUT" then 60
  else if String.eqb name "CPU_SETSIZE" then 1024
  else if String.eqb name "AIO_CANCELED" then 1
  else if String.eqb name "AIO_NOTCANCELED" then 2
  else if String.eqb name "AIO_ALLDONE" then 3
  else if String.eqb name "LIO_READ" then 2
  else if String.eqb name "PTHREAD_CANCELED" then 1
  else if String.eqb name "PTHREAD_BARRIER_SERIAL_THREAD" then -1
  else 0.

(** the table gives the result and the errno of a function; others return 0 *)
Definition sample_clib (t : list (string * (cret * Z))) : clib Z := {|
  c_call := fun f _ w =>
    match list_find (fun x => x.1 = f) t with
    | Some (_, (_, (r, e))) => (Ok r, World (wl w) (wln w) (wm w) (wnext w) (woom w) e)
    | None => (Ok (Cret 0 []), w)
    end;
  c_fn := fun _ _ args w => (Ok (true, args), w) |}.

Definition sample_world (m : gmap Z obj) : world Z lstate :=
  World ∅ 10 m 4096 (fun _ _ => false) 0.

(** memory is exhausted *)
Definition oom_world (m : gmap Z obj) : world Z lstate :=
  World ∅ 10 m 4096 (fun _ _ => true) 0.

(** ** Heaps: table 0 holds the globals, table 1 is the metatable registered as
    [name], userdata 2 is an object of that type *)
Definition sample_heap (name : string) (uv : list value) (blk : Z) : heap :=
  Heap {[ 0%nat := Table ∅ None; 1%nat := Table ∅ None ]} ∅ {[ 2%nat := Udata (Some 1%nat) uv blk ]}
    {[ inl name := VTab 1 ]} 0 10.

(** the library without a table: every call returns 0 and changes nothing *)
Lemma sample_external fns : external (sample_clib []) fns (fun _ _ s => (Cret 0 [], s)).
Proof. intros fn args [] Hin. reflexivity. Qed.
