(* ===== verification/Threads.v ===== *)
(** * Threads

    The modules share objects between threads, each running its own Lua state.
    A pool of programs runs by interleaving: one step performs one call of one
    thread.  An access to memory ([EMem]) is one step, so it is atomic, as the
    C11 atomics the modules use for shared fields are. *)

From stdpp Require Import relations.
From S2P Require Import Prelude LuaApi Machine.

Section threads.
Context {S T : Type} `{Libc S} (hd : handler S T) {A : Type}.

Definition pool : Type := list (prog A) * world S T.

(** the next call of a thread, if it has not returned, and what is left of it *)
Definition thread_step (p : prog A) (w : world S T) : option (outcome (prog A) * world S T) :=
  match p with
  | Ret _ => None
  | Vis e k => match step hd e w with
               | (Ok x, w') => Some (Ok (k x), w')
               | (Halt h, w') => Some (Halt h, w')
               end
  end.

Inductive tstep : pool -> pool -> Prop :=
  | tstep_call i p p' (ps : list (prog A)) w w' :
      ps !! i = Some p -> thread_step p w = Some (Ok p', w') ->
      tstep (ps, w) (<[i := p']> ps, w').

(** some thread's next call does not return *)
Inductive stops (h : halt) : pool -> Prop :=
  | stops_call i p (ps : list (prog A)) w w' :
      ps !! i = Some p -> thread_step p w = Some (Halt h, w') ->
      stops h (ps, w).

Definition reaches : pool -> pool -> Prop := rtc tstep.

(** all threads have returned *)
Definition finished (c : pool) : Prop := Forall (fun p => exists a, p = Ret a) c.1.

(** an invariant of the steps holds of everything reachable *)
Lemma reaches_inv (I : pool -> Prop) c c' :
  (forall c1 c2, I c1 -> tstep c1 c2 -> I c2) -> I c -> reaches c c' -> I c'.
Proof. intros Hs Hi Hr. induction Hr as [|c1 c2 c3 H1 _ IH]; [done|]. apply IH. by eapply Hs. Qed.

(** ** Running a given schedule *)

Fixpoint schedule (turns : list nat) (c : pool) : option pool :=
  match turns with
  | [] => Some c
  | i :: turns =>
      match c.1 !! i with
      | Some p => match thread_step p c.2 with
                  | Some (Ok p', w') => schedule turns (<[i := p']> c.1, w')
                  | _ => None
                  end
      | None => None
      end
  end.

Lemma schedule_reaches turns c c' : schedule turns c = Some c' -> reaches c c'.
Proof.
  revert c. induction turns as [|i turns IH]; intros [ps w] Hs; cbn in Hs.
  - injection Hs as <-. apply rtc_refl.
  - destruct (ps !! i) as [p|] eqn:Hi; [|done].
    destruct (thread_step p w) as [[[p'|h] w']|] eqn:Hp; [|done..].
    eapply rtc_l; [|by apply IH]. by eapply tstep_call.
Qed.
End threads.
