(* ===== verification/Refcount.v ===== *)
(** * refcount.h

    The reference counts of the shared objects, and what they are for: whatever
    the interleaving of the threads that hold references, nobody touches a freed
    object and the last release, and only it, frees it. *)

From stdpp Require Import relations.
From S2P Require Import Prelude LuaApi Machine Capi Threads Samples.

(** ** Operations *)

(** where the structures keep their [atomic_refcount] *)
Definition get_refs (o : obj) : option Z :=
  match o with ORc r _ => Some r | OAio a => Some (aio_refs a) | _ => None end.

Definition set_refs (r : Z) (o : obj) : obj :=
  match o with
  | ORc _ b => ORc r b
  | OAio a => OAio (RcAiocb (aio_fildes a) (aio_offset a) (aio_lio_opcode a) (aio_buf a)
                (aio_nbytes a) (aio_flags a) (aio_state a) (aio_sigevent a) r (cb_state a))
  | _ => o
  end.

(** an atomic update of the count, an [unsigned long], returning the old value *)
Definition fetch_update (f : Z -> Z) (o : obj) : option (Z * obj) :=
  match get_refs o with Some r => Some (r, set_refs (wrapu 64 (f r)) o) | None => None end.

Definition refcount_init (refs : Z) (value : Z) : prog unit :=
  load refs (fetch_update (fun _ => value));; mret tt.

Definition refcount_retain (refs : Z) : prog unit :=
  load refs (fetch_update (fun r => r + 1));; mret tt.

Definition refcount_release (refs : Z) : prog bool :=
  old ← load refs (fetch_update (fun r => r - 1));
  mret (old =? 1).

(** ** Sequential runs *)

Section run.
Context `{LuaSem} {S : Type} `{Libc S} (C : clib S).
Implicit Types (w : world S lstate) (L : nat) (p : Z).
Abbreviation rn := (run (documented C)).

Lemma get_set_refs r r' o : get_refs o = Some r -> get_refs (set_refs r' o) = Some r'.
Proof. by destruct o. Qed.

Lemma fetch_update_eq f o r :
  get_refs o = Some r -> fetch_update f o = Some (r, set_refs (wrapu 64 (f r)) o).
Proof. unfold fetch_update. by intros ->. Qed.

Lemma run_refcount_init p v o r L s w :
  wm w !! p = Some o -> get_refs o = Some r ->
  rn (refcount_init p v) (put L s w) = (Ok tt, put L s (poke p (set_refs (wrapu 64 v) o) w)).
Proof.
  intros Ho Hr. unfold refcount_init. rewrite run_bind.
  by rewrite (run_load C _ _ _ _ _ _ _ _ Ho (fetch_update_eq _ _ _ Hr)).
Qed.

Lemma run_refcount_retain p o r L s w :
  wm w !! p = Some o -> get_refs o = Some r ->
  rn (refcount_retain p) (put L s w) = (Ok tt, put L s (poke p (set_refs (wrapu 64 (r + 1)) o) w)).
Proof.
  intros Ho Hr. unfold refcount_retain. rewrite run_bind.
  by rewrite (run_load C _ _ _ _ _ _ _ _ Ho (fetch_update_eq _ _ _ Hr)).
Qed.

Lemma run_refcount_release p o r L s w :
  wm w !! p = Some o -> get_refs o = Some r ->
  rn (refcount_release p) (put L s w) =
  (Ok (r =? 1), put L s (poke p (set_refs (wrapu 64 (r - 1)) o) w)).
Proof.
  intros Ho Hr. unfold refcount_release. rewrite run_bind.
  by rewrite (run_load C _ _ _ _ _ _ _ _ Ho (fetch_update_eq _ _ _ Hr)).
Qed.
End run.

(** ** Threads sharing an object *)

(** what a thread does with its references, and the code that does it: a release
    that turns out to be the last frees the object *)
Inductive rop := Retain | Release.

Fixpoint perform (p : Z) (l : list rop) : prog unit :=
  match l with
  | [] => mret tt
  | Retain :: l => refcount_retain p;; perform p l
  | Release :: l =>
      last ← refcount_release p;
      if last : bool then free p;; perform p l else perform p l
  end.

(** a thread that owns [c] references only uses the object while it owns one,
    and gives all of them back *)
Fixpoint balanced (c : nat) (l : list rop) : bool :=
  match l, c with
  | [], O => true
  | [], _ | _ :: _, O => false
  | Retain :: l, _ => balanced (1 + c) l
  | Release :: l, Datatypes.S c => balanced c l
  end.

Fixpoint retains (l : list rop) : nat :=
  match l with [] => 0 | Retain :: l => 1 + retains l | Release :: l => retains l end.

Lemma balanced_zero l : balanced 0 l = true -> l = [].
Proof. by destruct l as [|[] l]. Qed.

Section sharing.
Context `{LuaSem} {S : Type} `{Libc S} (C : clib S) (p : Z) (Hp : p ≠ 0).

(** what is known of each thread: the references it owns, what it still does,
    and whether it is about to free the object *)
Record owner := Owner { owned : nat; todo : list rop; freeing : bool }.

Definition runs_as (prg : prog unit) (g : owner) : Prop :=
  balanced (owned g) (todo g) = true /\
  prg = (if freeing g then free p;; perform p (todo g) else perform p (todo g)) /\
  (freeing g = true -> owned g = 0%nat).

Definition total (gs : list owner) : nat := sum_list_with owned gs.
Definition frees (gs : list owner) : nat := sum_list_with (fun g => Nat.b2n (freeing g)) gs.
Definition budget (gs : list owner) : nat := sum_list_with (fun g => owned g + retains (todo g))%nat gs.

(** the object is alive and counts the references; or its last reference is gone
    and exactly one thread is about to free it; or it is freed *)
Definition object_inv (gs : list owner) (w : world S lstate) : Prop :=
  (exists o, wm w !! p = Some o /\ get_refs o = Some (Z.of_nat (total gs)) /\
     (0 < total gs)%nat /\ frees gs = 0%nat) \/
  (is_Some (wm w !! p) /\ total gs = 0%nat /\ frees gs = 1%nat) \/
  (wm w !! p = None /\ total gs = 0%nat /\ frees gs = 0%nat).

Definition pool_inv (c : pool (S := S) (T := lstate) (A := unit)) : Prop :=
  exists gs, Forall2 runs_as c.1 gs /\ Z.of_nat (budget gs) < 2 ^ 64 /\ object_inv gs c.2.

Lemma sum_insert {A} (f : A -> nat) (l : list A) i x y :
  l !! i = Some x -> (sum_list_with f (<[i := y]> l) + f x = sum_list_with f l + f y)%nat.
Proof.
  revert i. induction l as [|z l IH]; intros [|i] Hi; [done|done| |].
  - injection Hi as ->. change (<[0%nat := y]> (x :: l)) with (y :: l). cbn. lia.
  - change (<[Datatypes.S i := y]> (z :: l)) with (z :: <[i := y]> l).
    specialize (IH i Hi). cbn. lia.
Qed.

Lemma sum_lookup {A} (f : A -> nat) (l : list A) i x :
  l !! i = Some x -> (f x <= sum_list_with f l)%nat.
Proof.
  revert i. induction l as [|z l IH]; intros [|i] Hi; cbn in *; simplify_eq; [lia|].
  specialize (IH i Hi). lia.
Qed.

(** what one step of one thread does *)
Lemma owner_step prg g w r w' :
  runs_as prg g -> thread_step (documented C) prg w = Some (r, w') ->
  (freeing g = true /\ todo g = [] /\
     (wm w !! p = None \/ (r = Ok (mret tt) /\ wm w' = delete p (wm w)))) \/
  (freeing g = false /\ exists o l f, todo g = o :: l /\
     f = (fun n => match o with Retain => n + 1 | Release => n - 1 end) /\
     (forall ob n, wm w !! p = Some ob -> get_refs ob = Some n ->
        wm w' = <[p := set_refs (wrapu 64 (f n)) ob]> (wm w) /\
        r = Ok (if match o with Retain => false | Release => n =? 1 end
                then free p;; perform p l else perform p l))).
Proof.
  intros (Hb & -> & Hf) Hs. destruct (freeing g) eqn:Eg.
  - left. rewrite (Hf eq_refl) in Hb. apply balanced_zero in Hb.
    split_all; [done..|]. rewrite Hb in Hs. cbn in Hs.
    destruct (Z.eqb_spec p 0); [done|].
    destruct (wm w !! p) eqn:E; [|by left]. right. by simplify_eq.
  - right. split; [done|]. destruct (todo g) as [|[] l] eqn:El; [done| |].
    + exists Retain, l, (fun n => n + 1). split_all; [done..|].
      intros ob n Ho Hn. cbn in Hs. rewrite Ho in Hs. cbn in Hs.
      unfold fetch_update in Hs. rewrite Hn in Hs. by simplify_eq.
    + exists Release, l, (fun n => n - 1). split_all; [done..|].
      intros ob n Ho Hn. cbn in Hs. rewrite Ho in Hs. cbn in Hs.
      unfold fetch_update in Hs. rewrite Hn in Hs. simplify_eq. split; [done|].
      by destruct (n =? 1).
Qed.

Lemma total_budget gs : (total gs <= budget gs)%nat.
Proof. unfold total, budget. induction gs as [|g gs IH]; cbn; lia. Qed.

(** changing what one thread owns *)
Lemma ghost_update gs i g g' :
  gs !! i = Some g ->
  (total (<[i := g']> gs) + owned g = total gs + owned g' /\
   frees (<[i := g']> gs) + Nat.b2n (freeing g) = frees gs + Nat.b2n (freeing g') /\
   budget (<[i := g']> gs) + (owned g + retains (todo g)) =
     budget gs + (owned g' + retains (todo g')) /\
   owned g <= total gs /\ Nat.b2n (freeing g) <= frees gs)%nat.
Proof.
  intros Hg. unfold total, frees, budget. split_all.
  - exact (sum_insert _ _ _ _ g' Hg).
  - exact (sum_insert _ _ _ _ g' Hg).
  - exact (sum_insert _ _ _ _ g' Hg).
  - exact (sum_lookup _ _ _ _ Hg).
  - exact (sum_lookup _ _ _ _ Hg).
Qed.

Lemma free_step gs i g ps prg' w w' :
  Forall2 runs_as ps gs -> Z.of_nat (budget gs) < 2 ^ 64 -> object_inv gs w ->
  gs !! i = Some g -> owned g = 0%nat -> freeing g = true -> todo g = [] ->
  (wm w !! p = None \/ (Ok prg' = Ok (mret tt) /\ wm w' = delete p (wm w))) ->
  pool_inv (<[i := prg']> ps, w').
Proof.
  intros Hall Hbud Hobj Hg Hown Hfree Htodo Hw.
  destruct (ghost_update gs i g (Owner 0 [] false) Hg) as (Ht & Hf & Hb & _ & Hle).
  rewrite Hown, Hfree, Htodo in *. cbn in *.
  destruct Hobj as [(?&?&?&?&?)|[((ob & Hob) & Ht0 & Hf0)|(?&?&?)]]; [lia| |lia].
  destruct Hw as [Hw|[Heq Hw]]; [by rewrite Hw in Hob|]. injection Heq as ->.
  exists (<[i := Owner 0 [] false]> gs). split_all; [by apply Forall2_insert|cbn; lia|].
  right. right. cbn. rewrite Hw, lookup_delete_eq. split_all; [done|lia|lia].
Qed.

Lemma use_step gs i g o l ps prg' w w' :
  Forall2 runs_as ps gs -> Z.of_nat (budget gs) < 2 ^ 64 -> object_inv gs w ->
  gs !! i = Some g -> balanced (owned g) (todo g) = true -> freeing g = false -> todo g = o :: l ->
  (forall ob n, wm w !! p = Some ob -> get_refs ob = Some n ->
     wm w' = <[p := set_refs (wrapu 64 (match o with Retain => n + 1 | Release => n - 1 end)) ob]> (wm w) /\
     prg' = if match o with Retain => false | Release => n =? 1 end
            then free p;; perform p l else perform p l) ->
  pool_inv (<[i := prg']> ps, w').
Proof.
  intros Hall Hbud Hobj Hg Hbal Hfree Htodo Hmem. rewrite Htodo in Hbal.
  assert (Hc : (0 < owned g)%nat) by (destruct (owned g); [by destruct o|lia]).
  pose (last := match o with Retain => false | Release => (total gs =? 1)%nat end).
  assert (exists g', owned g' = match o with Retain => 1 + owned g | Release => owned g - 1 end%nat /\
    todo g' = l /\ freeing g' = last) as (g' & Eo & El & Ef) by by eexists (Owner _ _ _).
  destruct (ghost_update gs i g g' Hg) as (Ht & Hf & Hb & Hle & _).
  destruct Hobj as [(ob & Hob & Hrefs & Hpos & Hf0)|[(_ & ? & _)|(_ & ? & _)]]; [|lia..].
  destruct (Hmem _ _ Hob Hrefs) as [Hw ->]. clear Hmem.
  rewrite Hfree, Htodo, Eo, El, Ef in *. cbn in Ht, Hf, Hb.
  assert (Hlast : match o with Retain => false | Release => Z.of_nat (total gs) =? 1 end = last).
  { unfold last. destruct o; [done|]. destruct (Nat.eqb_spec (total gs) 1); lia. }
  exists (<[i := g']> gs). split_all.
  - apply Forall2_insert; [done|]. unfold runs_as; cbn. rewrite Eo, El, Ef, Hlast. split_all.
    + destruct (owned g) as [|c]; [lia|]. destruct o; cbn in Hbal |- *; [done|].
      by rewrite Nat.sub_0_r.
    + done.
    + unfold last. destruct o; [done|]. intros Hl%Nat.eqb_eq. lia.
  - destruct o; cbn in Hb; lia.
  - unfold object_inv; cbn. rewrite Hw, lookup_insert_eq. destruct last eqn:Ela.
    + right. left. unfold last in Ela. destruct o; [done|]. apply Nat.eqb_eq in Ela.
      cbn in Hf. split_all; [by eexists|lia|lia].
    + left. eexists. split; [done|].
      rewrite (get_set_refs (Z.of_nat (total gs))) by done. cbn in Hf.
      assert (Hn : total (<[i := g']> gs) =
                   match o with Retain => 1 + total gs | Release => total gs - 1 end%nat)
        by (destruct o; lia).
      pose proof (total_budget (<[i := g']> gs)) as Hlt. rewrite wrapu_small by (destruct o; lia).
      split_all; [f_equal; destruct o; lia| |lia].
      destruct o; [lia|]. unfold last in Ela. apply Nat.eqb_neq in Ela. lia.
Qed.

Lemma pool_inv_step c c' : pool_inv c -> tstep (documented C) c c' -> pool_inv c'.
Proof.
  intros Hinv Hs. pose proof Hinv as (gs & Hall & Hbud & Hobj).
  destruct Hs as [i prg prg' ps w w' Hi Hst]. cbn in *.
  destruct (Forall2_lookup_l _ _ _ _ _ Hall Hi) as (g & Hg & Hr).
  pose proof Hr as (Hbal & _ & Hown).
  destruct (owner_step _ _ _ _ _ Hr Hst) as [(Hfree & Htodo & Hw)|(Hfree & o & l & f & Htodo & -> & Hmem)].
  - apply (free_step gs i g ps prg' w w'); try done. by apply Hown.
  - apply (use_step gs i g o l ps prg' w w'); try done.
    intros ob n Hob Hn. destruct (Hmem ob n Hob Hn) as [-> Heq]. split; [done|]. by injection Heq.
Qed.

(** no thread is stopped: an access finds the object *)
Lemma pool_inv_go c i prg w' r :
  pool_inv c -> c.1 !! i = Some prg -> thread_step (documented C) prg c.2 = Some (r, w') ->
  exists prg', r = Ok prg'.
Proof.
  intros (gs & Hall & Hbud & Hobj) Hi Hst.
  destruct (Forall2_lookup_l _ _ _ _ _ Hall Hi) as (g & Hg & Hr).
  pose proof Hr as (Hbal & _ & Hown).
  destruct (ghost_update gs i g g Hg) as (_ & _ & _ & Hle & Hfl).
  destruct (owner_step _ _ _ _ _ Hr Hst) as
    [(Hf & Ht & [Hw|[-> _]])|(Hf & o & l & f & Ht & -> & Hm)]; [|by eexists|].
  - rewrite Hf in Hfl. cbn in Hfl.
    destruct Hobj as [(?&?&?&?&?)|[([? Ho]&_)|(_&_&?)]]; [lia|by rewrite Ho in Hw|lia].
  - rewrite Ht in Hbal. destruct (owned g) eqn:Eo; [by destruct o|].
    destruct Hobj as [(ob&Hob&Hrefs&_)|[(_&?&_)|(_&?&_)]]; [|lia..].
    destruct (Hm _ _ Hob Hrefs) as [_ ->]. by eexists.
Qed.

Lemma runs_as_done prg g :
  runs_as prg g -> (exists a, prg = Ret a) <-> owned g = 0%nat /\ freeing g = false.
Proof.
  intros (Hb & -> & Hf). split.
  - intros [a Ha]. destruct (freeing g); [done|]. destruct (todo g) as [|[] l]; [|done..].
    by destruct (owned g).
  - intros [Ho ->]. rewrite Ho in Hb. apply balanced_zero in Hb. rewrite Hb. by eexists.
Qed.

Lemma sum_zero {A} (f : A -> nat) (l : list A) :
  sum_list_with f l = 0%nat <-> Forall (fun x => f x = 0%nat) l.
Proof.
  induction l as [|x l IH]; cbn; [done|]. rewrite Forall_cons_iff.
  split; [intros; split; [lia|apply IH; lia]|intros [? ?%IH]; lia].
Qed.

(** every thread has returned exactly when nothing is owned and nothing is being freed *)
Lemma finished_total ps gs (w : world S lstate) :
  Forall2 runs_as ps gs -> finished (ps, w) <-> total gs = 0%nat /\ frees gs = 0%nat.
Proof.
  intros Hall. unfold finished, total, frees. rewrite !sum_zero. cbn. induction Hall as [|prg g ps gs Hr _ IH].
  - done.
  - rewrite !Forall_cons_iff. pose proof (runs_as_done _ _ Hr) as Hd.
    destruct (freeing g); cbn; intuition lia.
Qed.

Lemma pool_inv_end c : pool_inv c -> finished c <-> wm c.2 !! p = None.
Proof.
  destruct c as [ps w]. intros (gs & Hall & _ & Hobj). cbn in *.
  rewrite (finished_total _ _ _ Hall). unfold object_inv in Hobj. split.
  - intros [Ht Hf]. destruct Hobj as [(?&?&?&?&?)|[(?&?&?)|(?&?&?)]]; [lia..|done].
  - intros Hn. rewrite Hn in Hobj. destruct Hobj as [(?&?&?)|[([? ?]&?)|(?&?&?)]]; done.
Qed.

Lemma pool_inv_progress c : pool_inv c -> ~ finished c -> exists c', tstep (documented C) c c'.
Proof.
  destruct c as [ps w]. intros Hinv Hn.
  assert (Hex : Exists (fun prg => ~ exists a, prg = Ret a) ps).
  { unfold finished in Hn. cbn in Hn. clear Hinv. induction ps as [|prg ps IH]; [by destruct Hn|].
    destruct prg as [a|R e k]; [|apply Exists_cons_hd; by intros [? ?]].
    apply Exists_cons_tl, IH. intros Hf. apply Hn. constructor; [by eexists|done]. }
  apply list.Exists_exists in Hex as (prg & [i Hi]%list_elem_of_lookup & Hr).
  destruct prg as [a|R e k]; [by destruct Hr; eexists|].
  destruct (step (documented C) e w) as [[x|h] w'] eqn:Es.
  - exists (<[i := k x]> ps, w'). apply (tstep_call _ i (Vis e k)); [done|]. cbn. by rewrite Es.
  - destruct (pool_inv_go (ps, w) i (Vis e k) w' (Halt h) Hinv Hi) as [? ?]; [|done].
    cbn. by rewrite Es.
Qed.

Lemma pool_inv_safe c h : pool_inv c -> ~ stops (documented C) h c.
Proof.
  intros Hinv Hs. destruct Hs as [i prg ps w w' Hi Hst].
  by destruct (pool_inv_go (ps, w) i prg w' (Halt h) Hinv Hi Hst).
Qed.

Lemma pool_inv_init (ths : list (nat * list rop)) o (w : world S lstate) :
  wm w !! p = Some o -> get_refs o = Some (Z.of_nat (sum_list_with fst ths)) ->
  (0 < sum_list_with fst ths)%nat -> Forall (fun th => balanced th.1 th.2 = true) ths ->
  Z.of_nat (sum_list_with (fun th => th.1 + retains th.2)%nat ths) < 2 ^ 64 ->
  pool_inv (map (fun th => perform p th.2) ths, w).
Proof.
  intros Ho Hr Hpos Hbal Hbud. exists (map (fun th => Owner th.1 th.2 false) ths).
  assert (Hsum : forall f, sum_list_with f (map (fun th => Owner th.1 th.2 false) ths) =
    sum_list_with (fun th => f (Owner th.1 th.2 false)) ths).
  { intros f. clear. induction ths as [|th ths IH]; cbn; [done|]. by rewrite IH. }
  unfold object_inv, total, frees, budget. rewrite !Hsum. cbn. split_all.
  - clear -Hbal. induction Hbal as [|th ths Hb _ IH]; cbn; constructor; [|done].
    by split_all.
  - exact Hbud.
  - left. exists o. split_all; [done..|]. apply sum_zero. by apply Forall_true.
Qed.
End sharing.

(** C1. Threads that each own some of the references counted by an object, retain and release
    in any interleaving, and free it when a release was the last: no access touches freed
    memory, some thread can always go on, and the object is freed exactly when every thread
    has given back all it owned. *)
Theorem shared_object_safe `{LuaSem} {S : Type} `{Libc S} (C : clib S) p
  (ths : list (nat * list rop)) o (w : world S lstate) c :
  p ≠ 0 -> wm w !! p = Some o -> get_refs o = Some (Z.of_nat (sum_list_with fst ths)) ->
  (0 < sum_list_with fst ths)%nat -> Forall (fun th => balanced th.1 th.2 = true) ths ->
  Z.of_nat (sum_list_with (fun th => th.1 + retains th.2)%nat ths) < 2 ^ 64 ->
  reaches (documented C) (map (fun th => perform p th.2) ths, w) c ->
  (forall h, ~ stops (documented C) h c) /\
  (finished c \/ exists c', tstep (documented C) c c') /\
  (finished c <-> wm c.2 !! p = None).
Proof.
  intros Hp Ho Hr Hpos Hbal Hbud Hreach.
  assert (Hinv : pool_inv p c).
  { eapply (reaches_inv _ (pool_inv p)); [|by eapply pool_inv_init|done].
    intros c1 c2. by apply pool_inv_step. }
  split_all.
  - intros h. by eapply pool_inv_safe.
  - destruct (decide (wm c.2 !! p = None)) as [Hd|Hd]; [left; by eapply pool_inv_end|].
    right. apply (pool_inv_progress C p Hp); [done|]. intros Hf. by apply Hd, (pool_inv_end p).
  - by apply (pool_inv_end p).
Qed.

(** ** Witnesses *)

(** two threads share an object: one retains and releases twice, the other releases *)
Lemma shared_object_safe_witness :
  let w := sample_world {[ 512 := ORc 2 BMutex ]} in
  let ths := [(1%nat, [Retain; Release; Release]); (1%nat, [Release])] in
  let c := (map (fun th => perform 512 th.2) ths, w) in
  (forall h, ~ stops (documented (sample_clib [])) h c) /\
  (finished c \/ exists c', tstep (documented (sample_clib [])) c c') /\
  (finished c <-> wm c.2 !! 512 = None).
Proof.
  intros w ths c.
  apply (shared_object_safe (sample_clib []) 512 ths (ORc 2 BMutex) (sample_world {[ 512 := ORc 2 BMutex ]}));
    [done|reflexivity|reflexivity|cbn; lia|repeat constructor|reflexivity|apply rtc_refl].
Defined.
