(* ===== verification/Utils.v ===== *)
(** * utils.h

    The helpers every module includes: result conventions, cookies (light
    userdata kept in the first user value of a typed userdata), references,
    file descriptors, and arrays used as stacks. *)

From S2P Require Import Prelude LuaApi Arrays Machine Capi Samples.

(** ** Operations *)

Definition success (L : nat) : prog Z :=
  lua_pushinteger L (Z_of_bool true);;
  mret 1.

Definition fail (L : nat) (error : Z) : prog Z :=
  msg ← strerror_r error;
  luaL_pushfail L;;
  lua_pushstring L msg;;
  lua_pushinteger L error;;
  mret 3.

Definition fatal {A} (L : nat) (source : string) (error : Z) : prog A :=
  msg ← strerror_r error;
  luaL_error L (source +:+ ": " +:+ cstr msg).

(** [enum wrapperuv] *)
Definition COOKIE : nat := 1.
Definition REF : nat := 2.

Definition setcookie (L : nat) (idx cookie : Z) : prog unit :=
  idx ← lua_absindex L idx;
  lua_pushlightuserdata L cookie;;
  lua_setiuservalue L idx COOKIE;;
  mret tt.

Definition getcookie (L : nat) (idx : Z) : prog ltype := lua_getiuservalue L idx COOKIE.

Definition setref (L : nat) (idx ref : Z) : prog unit :=
  idx ← lua_absindex L idx;
  lua_pushvalue L ref;;
  lua_setiuservalue L idx REF;;
  mret tt.

Definition getref (L : nat) (idx : Z) : prog ltype := lua_getiuservalue L idx REF.

Definition new (L : nat) (cookie : Z) (metatable : string) : prog Z :=
  lua_newuserdata0 L 1%nat;;
  luaL_setmetatable L metatable;;
  setcookie L (-1) cookie;;
  mret 1.

Definition newref (L : nat) (idx cookie : Z) (metatable : string) : prog Z :=
  idx ← lua_absindex L idx;
  lua_newuserdata0 L 2%nat;;
  luaL_setmetatable L metatable;;
  setcookie L (-1) cookie;;
  setref L (-1) idx;;
  mret 1.

Definition checklightuserdata (L : nat) (idx : Z) : prog Z :=
  luaL_checktype L idx TLIGHTUSERDATA;;
  lua_touserdata L idx.

Definition checkcookieuv (L : nat) (idx : Z) (metatable : string) : prog unit :=
  luaL_checkudata L idx metatable;;
  t ← getcookie L idx;
  luaL_argcheck L (is_type t TLIGHTUSERDATA) idx "invalid cookie".

Definition checkcookienull (L : nat) (idx : Z) (metatable : string) : prog Z :=
  checkcookieuv L idx metatable;;
  cookie ← lua_touserdata L (-1);
  lua_pop L 1;;
  mret cookie.

Definition checkcookie (L : nat) (idx : Z) (metatable : string) : prog Z :=
  cookie ← checkcookienull L idx metatable;
  luaL_argcheck L (negb (cookie =? 0)) idx "cookie expired";;
  mret cookie.

Definition testcookie (L : nat) (idx : Z) (metatable : string) : prog Z :=
  has ← lua_getmetatable L idx;
  if has : bool then
    luaL_getmetatable L metatable;;
    eq ← lua_rawequal L (-1) (-2);
    if eq : bool then
      t ← getcookie L idx;
      cookie ← (if is_type t TLIGHTUSERDATA then lua_touserdata L (-1) else mret 0);
      lua_pop L 3;;
      mret cookie
    else
      lua_pop L 2;;
      mret 0
  else mret 0.

(** [LUA_FILEHANDLE] *)
Definition LUA_FILEHANDLE : string := "FILE*".

Definition stream_f (o : obj) : option (Z * obj) :=
  match o with OStream f => Some (f, o) | _ => None end.

Definition checkfd (L : nat) (idx : Z) : prog Z :=
  isint ← lua_isinteger L idx;
  if isint : bool then
    n ← lua_tointeger L idx;
    mret (to_int n)
  else
    s ← luaL_checkudata L idx LUA_FILEHANDLE;
    f ← load s stream_f;
    luaL_argcheck L (negb (f =? 0)) idx "invalid file handle (closed)";;
    r ← call "fileno" [AZ f];
    if rc r =? -1 then
      e ← errno;
      fatal L "fileno" e
    else mret (rc r).

Definition tpush (L : nat) (idx : Z) : prog unit :=
  n ← luaL_len L idx;
  let len := to_int n in
  lua_rawseti L idx (len + 1).

Definition tpop (L : nat) (idx : Z) : prog unit :=
  idx ← lua_absindex L idx;
  n ← luaL_len L idx;
  let len := to_int n in
  lua_rawgeti L idx len;;
  lua_pushnil L;;
  lua_rawseti L idx len.

Definition tpack (L : nat) (n : Z) : prog unit :=
  lua_createtable L n 0;;
  if 0 <? n then
    top ← lua_gettop L;
    let idx := top - n in
    lua_insert L idx;;
    for_ (Z.to_nat n) 1 (fun i =>
      lua_pushvalue L (idx + i);;
      lua_rawseti L idx i);;
    lua_settop L idx
  else mret tt.

Definition tunpack (L : nat) (idx : Z) : prog Z :=
  idx ← lua_absindex L idx;
  n ← luaL_len L idx;
  let len := to_int n in
  for_ (Z.to_nat len) 1 (fun i => lua_rawgeti L idx i;; mret tt);;
  lua_remove L idx;;
  mret len.

(** ** Facts about stacks *)

Section stack.
Implicit Types (vs : list value) (i : Z) (v : value).

Lemma at_pos vs i v :
  at_ vs i = Val v -> 0 < i ->
  (Z.to_nat i <= length vs)%nat /\ vs !! (length vs - Z.to_nat i)%nat = Some v.
Proof.
  destruct i as [|p|p]; cbn; try lia. unfold at_, pos; cbn. intros Ha _.
  destruct (Nat.leb_spec (Pos.to_nat p) (length vs)) as [Hl|]; [|done].
  destruct (vs !! _) eqn:E; simplify_eq. done.
Qed.

Lemma at_intro vs i v :
  0 < i -> (Z.to_nat i <= length vs)%nat -> vs !! (length vs - Z.to_nat i)%nat = Some v ->
  at_ vs i = Val v.
Proof.
  destruct i as [|p|p]; cbn; try lia. intros _ Hl Hv. unfold at_, pos; cbn.
  destruct (Nat.leb_spec (Pos.to_nat p) (length vs)); [|lia]. change (Z.to_nat (Z.pos p)) with (Pos.to_nat p) in Hv. by rewrite Hv.
Qed.

(** a positive index is not disturbed by a push *)
Lemma at_cons vs i v x : 0 < i -> at_ vs i = Val v -> at_ (x :: vs) i = Val v.
Proof.
  intros Hi Ha. destruct (at_pos _ _ _ Ha Hi) as [Hl Hv].
  apply at_intro; [done|cbn; lia|]. cbn [length].
  rewrite lookup_cons_sub; [done|lia].
Qed.

Lemma at_app vs vs' i v : 0 < i -> at_ vs i = Val v -> at_ (vs' ++ vs) i = Val v.
Proof. intros Hi Ha. induction vs' as [|x vs' IH]; cbn; [done|]. by apply at_cons. Qed.

(** arguments are counted from the bottom of the frame *)
Lemma at_frame (args : list value) i v :
  0 < i -> args !! Z.to_nat (i - 1) = Some v -> at_ (rev args) i = Val v.
Proof.
  intros Hi Hv. pose proof (lookup_lt_Some _ _ _ Hv) as Hl.
  apply at_intro; [done|rewrite length_rev; lia|].
  rewrite length_rev, rev_alt. change (rev_append args []) with (reverse args).
  rewrite reverse_lookup by lia. rewrite <- Hv. f_equal. lia.
Qed.
End stack.

(** ** How the helpers run

    [handle vs h idx mt p]: the value at [idx] is a userdata of type [mt] whose
    cookie is the address [p]. *)

Definition handle (vs : list value) (h : heap) (idx : Z) (mt : string) (p : Z) : Prop :=
  exists u d, udata_of vs h idx mt = Some (u, d) /\ ud_uv d !! 0%nat = Some (VLud p).

Section run.
Context `{LuaSem} {S : Type} `{Libc S} (C : clib S).
Implicit Types (w : world S lstate) (L : nat) (vs : list value) (h : heap).
Abbreviation rn := (run (documented C)).

Lemma udata_of_at vs h i mt u d :
  udata_of vs h i mt = Some (u, d) ->
  at_ vs i = Val (VUd u) /\ uds h !! u = Some d.
Proof.
  unfold udata_of. intros Hu. repeat case_match; by simplify_eq.
Qed.

Lemma doc_checkudata_ok vs n h i mt u d :
  udata_of vs h i mt = Some (u, d) ->
  doc_checkudata i mt (LS vs n h) = (Ok (ud_blk d), LS vs n h).
Proof.
  intros Hu. destruct (udata_of_at _ _ _ _ _ _ Hu) as [Ha _].
  unfold doc_checkudata, at_index; cbn. by rewrite Ha, Hu.
Qed.

Lemma run_success L vs n h w :
  rn (success L) (put L (LS vs (1 + n) h) w) = (Ok 1, put L (LS (VInt 1 :: vs) n h) w).
Proof. unfold success. lua_run. done. Qed.

Lemma run_fail L e vs n h w :
  rn (fail L e) (put L (LS vs (3 + n) h) w) =
  (Ok 3, put L (LS (VInt e :: VStr (cstr (c_strerror e)) :: VNil :: vs) n h) w).
Proof. unfold fail. lua_run. done. Qed.

Lemma run_fatal {A} L src e s w :
  rn (fatal (A := A) L src e) (put L s w) =
  (Halt (Raise (EMsg (src +:+ ": " +:+ cstr (c_strerror e)))), put L s w).
Proof. unfold fatal. lua_run. done. Qed.

Lemma run_argcheck_true L i msg w : rn (luaL_argcheck L true i msg) w = (Ok tt, w).
Proof. done. Qed.

Lemma run_argcheck_false L i msg s w :
  rn (luaL_argcheck L false i msg) (put L s w) = (Halt (Raise (EArg i msg)), put L s w).
Proof. unfold luaL_argcheck. lua_run. done. Qed.

Lemma run_getcookie L i u d v vs n h w :
  at_ vs i = Val (VUd u) -> uds h !! u = Some d -> ud_uv d !! 0%nat = Some v ->
  rn (getcookie L i) (put L (LS vs (1 + n) h) w) =
  (Ok (type_of v), put L (LS (v :: vs) n h) w).
Proof.
  intros Ha Hu Hv. unfold getcookie, COOKIE. lua_run. rewrite Ha, Hu. doc_eval.
  by rewrite Hv.
Qed.

Lemma run_checkcookieuv L i mt p vs n h w :
  handle vs h i mt p ->
  rn (checkcookieuv L i mt) (put L (LS vs (1 + n) h) w) =
  (Ok tt, put L (LS (VLud p :: vs) n h) w).
Proof.
  intros (u & d & Hu & Hc). destruct (udata_of_at _ _ _ _ _ _ Hu) as [Ha Hd].
  unfold checkcookieuv. rewrite run_bind, run_lua. cbn [doc].
  erewrite doc_checkudata_ok by exact Hu. cbn [andthen].
  rewrite run_bind. erewrite run_getcookie by done. cbn [andthen type_of].
  apply run_argcheck_true.
Qed.

(** the receiver checks: [checkcookie] on a live handle gives the cookie and
    leaves the stack as it was ... *)
Lemma run_checkcookienull L i mt p vs n h w :
  handle vs h i mt p ->
  rn (checkcookienull L i mt) (put L (LS vs (1 + n) h) w) =
  (Ok p, put L (LS vs (1 + n) h) w).
Proof.
  intros Hh. unfold checkcookienull. rewrite run_bind.
  erewrite run_checkcookieuv by done. cbn [andthen]. lua_run. done.
Qed.

Lemma run_checkcookie L i mt p vs n h w :
  handle vs h i mt p -> p ≠ 0 ->
  rn (checkcookie L i mt) (put L (LS vs (1 + n) h) w) = (Ok p, put L (LS vs (1 + n) h) w).
Proof.
  intros Hh Hp. unfold checkcookie. rewrite run_bind.
  erewrite run_checkcookienull by done. cbn [andthen].
  destruct (Z.eqb_spec p 0); [done|]. lua_run. done.
Qed.

Lemma run_checkcookie_frame L i mt p args h w :
  handle (rev args) h i mt p -> p ≠ 0 ->
  rn (checkcookie L i mt) (put L (frame args h) w) = (Ok p, put L (frame args h) w).
Proof. apply (run_checkcookie L i mt p (rev args) 19 h w). Qed.

Lemma run_checkcookienull_frame L i mt p args h w :
  handle (rev args) h i mt p ->
  rn (checkcookienull L i mt) (put L (frame args h) w) = (Ok p, put L (frame args h) w).
Proof. apply (run_checkcookienull L i mt p (rev args) 19 h w). Qed.

(** ... refuses a handle whose object is gone ... *)
Lemma run_checkcookie_expired L i mt vs n h w :
  handle vs h i mt 0 ->
  rn (checkcookie L i mt) (put L (LS vs (1 + n) h) w) =
  (Halt (Raise (EArg i "cookie expired")), put L (LS vs (1 + n) h) w).
Proof.
  intros Hh. unfold checkcookie. rewrite run_bind.
  erewrite run_checkcookienull by done. cbn [andthen Z.eqb negb].
  rewrite run_bind, run_argcheck_false. done.
Qed.

(** ... and a value of another type *)
Lemma run_checkudata_wrong L i mt vs n h w :
  at_ vs i ≠ Bad -> udata_of vs h i mt = None ->
  rn (luaL_checkudata L i mt) (put L (LS vs n h) w) =
  (Halt (Raise (EType i mt)), put L (LS vs n h) w).
Proof.
  intros Ha Hu. rewrite run_lua. doc_eval. destruct (at_ vs i) eqn:E; [| |done].
  all: by rewrite Hu.
Qed.

Lemma run_checkcookie_wrong L i mt vs n h w :
  at_ vs i ≠ Bad -> udata_of vs h i mt = None ->
  rn (checkcookie L i mt) (put L (LS vs n h) w) =
  (Halt (Raise (EType i mt)), put L (LS vs n h) w).
Proof.
  intros Ha Hu. unfold checkcookie, checkcookienull, checkcookieuv.
  rewrite !run_bind. by rewrite run_checkudata_wrong.
Qed.

Lemma run_checklightuserdata L i p vs n h w :
  at_ vs i = Val (VLud p) ->
  rn (checklightuserdata L i) (put L (LS vs n h) w) = (Ok p, put L (LS vs n h) w).
Proof. intros Ha. unfold checklightuserdata. lua_run. rewrite Ha. lua_run. by rewrite Ha. Qed.

(** ** Making cookies *)

Lemma set_ud_set_ud u d d' h : set_ud u d (set_ud u d' h) = set_ud u d h.
Proof. unfold set_ud; cbn. by rewrite insert_insert_eq. Qed.
Lemma set_ud_bump u d d' h : set_ud u d (bump (set_ud u d' h)) = bump (set_ud u d h).
Proof. unfold set_ud, bump; cbn. by rewrite insert_insert_eq. Qed.
Lemma set_tab_set_tab t x x' h : set_tab t x (set_tab t x' h) = set_tab t x h.
Proof. unfold set_tab; cbn. by rewrite insert_insert_eq. Qed.
Lemma set_tab_bump t x x' h : set_tab t x (bump (set_tab t x' h)) = bump (set_tab t x h).
Proof. unfold set_tab, bump; cbn. by rewrite insert_insert_eq. Qed.
Lemma uds_set_ud u d h : uds (set_ud u d h) !! u = Some d.
Proof. cbn. apply lookup_insert_eq. Qed.
Lemma tabs_set_tab t x h : tabs (set_tab t x h) !! t = Some x.
Proof. cbn. apply lookup_insert_eq. Qed.

(** the heap after [new] *)
Definition alloc_handle (mt : nat) (p : Z) (h : heap) : heap :=
  bump (set_ud (fresh h) (Udata (Some mt) [VLud p] 0) h).

Lemma run_new L p name mt vs n h w :
  reg_get (inl name) h = VTab mt ->
  rn (new L p name) (put L (LS vs (2 + n) h) w) =
  (Ok 1, put L (LS (VUd (fresh h) :: vs) (1 + n) (alloc_handle mt p h)) w).
Proof.
  intros Hr. unfold new, setcookie, lua_absindex, COOKIE. lua_run.
  change (reg_get (inl name) (bump _)) with (reg_get (inl name) h). rewrite Hr.
  cbn [uds bump]. rewrite uds_set_ud. lua_run. cbn [Z.ltb Z.compare]. lua_run.
  erewrite (at_intro _ _ (VUd (fresh h))); [|lia|cbn; lia|].
  2:{ cbn [length]. replace (_ - _)%nat with 1%nat by lia. done. }
  cbn. rewrite lookup_insert_eq. cbn. unfold alloc_handle.
  unfold bump, set_ud; cbn. by rewrite !insert_insert_eq.
Qed.

(** storing another cookie *)
Definition with_cookie (c : Z) (d : udata) : udata :=
  Udata (ud_meta d) (<[0%nat := VLud c]> (ud_uv d)) (ud_blk d).

Lemma run_setcookie L i c u d vs n h w :
  0 < i -> at_ vs i = Val (VUd u) -> uds h !! u = Some d ->
  rn (setcookie L i c) (put L (LS vs (1 + n) h) w) =
  (Ok tt, put L (LS vs (1 + n) (set_ud u (with_cookie c d) h)) w).
Proof.
  intros Hi Ha Hd. unfold setcookie, lua_absindex, COOKIE. rewrite (proj2 (Z.ltb_lt 0 i)) by done.
  lua_run. know (at_cons _ _ _ (VLud c) Hi Ha), Hd. lua_run. done.
Qed.

(** the heap after [newref]: the object keeps a value alive *)
Definition alloc_ref (mt : nat) (p : Z) (v : value) (h : heap) : heap :=
  bump (set_ud (fresh h) (Udata (Some mt) [VLud p; v] 0) h).

Lemma run_newref L i p name mt v vs n h w :
  0 < i -> at_ vs i = Val v -> reg_get (inl name) h = VTab mt ->
  rn (newref L i p name) (put L (LS vs (2 + n) h) w) =
  (Ok 1, put L (LS (VUd (fresh h) :: vs) (1 + n) (alloc_ref mt p v h)) w).
Proof.
  intros Hi Ha Hr. unfold newref, setcookie, setref, lua_absindex, COOKIE, REF.
  rewrite (proj2 (Z.ltb_lt 0 i)) by done. lua_run.
  change (reg_get (inl name) (bump _)) with (reg_get (inl name) h). rewrite Hr.
  cbn [uds bump]. rewrite uds_set_ud. lua_run. cbn [Z.ltb Z.compare]. lua_run.
  set (u := fresh h). assert (Htop : forall x, at_ (x :: VUd u :: vs) (Z.of_nat (Datatypes.S (length vs)) + -1 + 1) = Val (VUd u)).
  { intros x. apply at_intro; [lia|cbn; lia|]. cbn [length]. by replace (_ - _)%nat with 1%nat by lia. }
  rewrite Htop. cbn [uds set_ud bump]. rewrite lookup_insert_eq. doc_eval. lua_run. cbn [Z.ltb Z.compare].
  lua_run. know (at_cons _ _ _ (VUd u) Hi Ha). lua_run. rewrite Htop. cbn [uds set_ud bump].
  rewrite lookup_insert_eq. doc_eval. cbn [ud_uv ud_meta ud_blk replicate insert list_insert pred].
  unfold alloc_ref, bump, set_ud; cbn. by rewrite !insert_insert_eq.
Qed.

(** ** Registering functions *)

Lemma run_setfuncs L l t x vs n h w :
  tabs h !! t = Some x -> tmeta x = None ->
  rn (luaL_setfuncs L l) (put L (LS (VTab t :: vs) n h) w) =
  (Ok tt, put L (LS (VTab t :: vs) n (add_funcs t l h)) w).
Proof. intros Ht Hm. rewrite run_lua. doc_eval. rewrite Ht. doc_eval. by rewrite Hm. Qed.

Lemma run_setfield L k v t x vs n h w :
  tabs h !! t = Some x -> tmeta x = None ->
  rn (lua_setfield L (-2) k) (put L (LS (v :: VTab t :: vs) n h) w) =
  (Ok tt, put L (LS (VTab t :: vs) (1 + n) (set_tab t (raw_set (KStr k) v x) h)) w).
Proof.
  intros Ht Hm. rewrite run_lua. doc_eval. rewrite Ht. doc_eval. rewrite Hm.
  by destruct (tmap x !! KStr k).
Qed.

(** ** Arrays as stacks *)

(** the heap after the creation of a table *)
Definition alloc_tab (x : table) (h : heap) : heap := bump (set_tab (fresh h) x h).

Lemma at_arg (args below : list value) (i : nat) v :
  args !! i = Some v -> at_ (rev args ++ below) (Z.of_nat (length below + 1 + i)) = Val v.
Proof.
  intros Hv. pose proof (lookup_lt_Some _ _ _ Hv) as Hl.
  apply at_intro; [lia|rewrite length_app, length_rev; lia|].
  rewrite length_app, length_rev, lookup_app_l by (rewrite length_rev; lia).
  rewrite rev_alt. change (rev_append args []) with (reverse args).
  rewrite reverse_lookup by lia. rewrite <- Hv. f_equal. lia.
Qed.

Lemma at_bottom (pre below : list value) v :
  at_ (pre ++ v :: below) (Z.of_nat (length below + 1)) = Val v.
Proof.
  apply at_intro; [lia|rewrite length_app; cbn; lia|].
  rewrite length_app, lookup_app_r by (cbn; lia). cbn [length].
  by replace (_ - _)%nat with 0%nat by lia.
Qed.

Lemma run_tpush L idx t xs v vs n h w :
  at_ (v :: vs) idx = Val (VTab t) -> v ≠ VNil ->
  tabs h !! t = Some (Table (arr xs) None) -> (Z.of_nat (length xs) < 2 ^ 31) ->
  rn (tpush L idx) (put L (LS (v :: vs) n h) w) =
  (Ok tt, put L (LS vs (1 + n) (set_tab t (Table (arr (xs ++ [v])) None) h)) w).
Proof.
  intros Ha Hv Ht Hlen. unfold tpush. lua_run. know Ha, Ht. cbn [tmeta].
  rewrite seq_len_arr. lua_run. know Ha, Ht.
  rewrite to_int_small by lia. by rewrite raw_set_arr.
Qed.

Lemma run_tpop L idx t xs v vs n h w :
  0 < idx -> at_ vs idx = Val (VTab t) ->
  tabs h !! t = Some (Table (arr (xs ++ [v])) None) -> (Z.of_nat (length xs) < 2 ^ 31 - 1) ->
  rn (tpop L idx) (put L (LS vs (2 + n) h) w) =
  (Ok tt, put L (LS (v :: vs) (1 + n) (set_tab t (Table (arr xs) None) h)) w).
Proof.
  intros Hi Ha Ht Hlen. unfold tpop, lua_absindex.
  destruct (Z.ltb_spec 0 idx); [|lia]. lua_run. know Ha, Ht. cbn [tmeta].
  rewrite seq_len_arr, length_app. cbn [length]. lua_run. know Ha, Ht.
  rewrite to_int_small by lia.
  replace (Z.of_nat (length xs + 1)) with (Z.of_nat (length xs) + 1) by lia.
  rewrite (raw_get_arr _ _ _ v) by (rewrite lookup_app_r, Nat.sub_diag by lia; done).
  lua_run. erewrite at_cons; [|done|erewrite at_cons; [done|done|done]]. cbn. rewrite Ht.
  lua_run. by rewrite raw_set_arr_last.
Qed.

Lemma set_tab_id t x h : tabs h !! t = Some x -> set_tab t x h = h.
Proof. intros Ht. unfold set_tab. rewrite insert_id by done. by destruct h. Qed.

Lemma run_tpack_loop L (args below : list value) t n h w :
  no_nil args -> tabs h !! t = Some (Table ∅ None) ->
  let idx := Z.of_nat (length below + 1) in
  rn (for_ (length args) 1 (fun i => lua_pushvalue L (idx + i);; lua_rawseti L idx i))
     (put L (LS (rev args ++ VTab t :: below) (1 + n) h) w) =
  (Ok tt, put L (LS (rev args ++ VTab t :: below) (1 + n)
                    (set_tab t (Table (arr args) None) h)) w).
Proof.
  intros Hn Ht idx.
  pose (I i := put L (LS (rev args ++ VTab t :: below) (1 + n)
                 (set_tab t (Table (arr (take i args)) None) h)) w).
  assert (HI0 : I 0%nat = put L (LS (rev args ++ VTab t :: below) (1 + n) h) w).
  { unfold I. by rewrite take_0, arr_nil, set_tab_id. }
  rewrite <- HI0, (run_for C (length args) 1 _ I); [unfold I; by rewrite take_ge|].
  intros i Hi. destruct (lookup_lt_is_Some_2 args i Hi) as [v Hv]. unfold I.
  assert (Hb : at_ (rev args ++ VTab t :: below) idx = Val (VTab t)) by apply at_bottom.
  assert (Ha : at_ (rev args ++ VTab t :: below) (idx + (1 + Z.of_nat i)) = Val v).
  { replace (idx + (1 + Z.of_nat i)) with (Z.of_nat (length (VTab t :: below) + 1 + i))
      by (cbn [length]; lia). by apply at_arg. }
  lua_run. know Ha. lua_run.
  assert (Hb' := at_cons _ idx _ v ltac:(unfold idx; lia) Hb).
  know Hb', (tabs_set_tab t (Table (arr (take i args)) None) h).
  rewrite set_tab_set_tab. do 5 f_equal.
  rewrite (take_S_r _ _ v) by done.
  replace (1 + Z.of_nat i) with (Z.of_nat (length (take i args)) + 1)
    by (rewrite length_take; lia).
  apply raw_set_arr. unfold no_nil in Hn. rewrite Forall_lookup in Hn. by eapply Hn.
Qed.

(** [tpack] collects the topmost values in a fresh array *)
Lemma run_tpack L (args below : list value) n h w :
  no_nil args ->
  rn (tpack L (Z.of_nat (length args))) (put L (LS (rev args ++ below) (2 + n) h) w) =
  (Ok tt, put L (LS (VTab (fresh h) :: below) (1 + n + length args)
                    (alloc_tab (Table (arr args) None) h)) w).
Proof.
  intros Hn. unfold tpack. lua_run.
  destruct (Z.ltb_spec 0 (Z.of_nat (length args))) as [Hpos|Hz].
  2:{ destruct args; [|cbn in Hz; lia]. cbn. by rewrite arr_nil, Nat.add_0_r. }
  lua_run.
  replace (Z.of_nat (Datatypes.S (length (rev args ++ below))) - Z.of_nat (length args))
    with (Z.of_nat (length below + 1)) by (rewrite length_app, length_rev; lia).
  assert (Hidx : pos (VTab (fresh h) :: rev args ++ below) (Z.of_nat (length below + 1)) =
                 Some (length args)).
  { unfold pos. destruct (Z.of_nat (length below + 1)) as [|q|q] eqn:E; [lia| |lia].
    assert (Pos.to_nat q = (length below + 1)%nat) by lia. cbn [length].
    rewrite length_app, length_rev. case_match eqn:Hle; [f_equal; lia|].
    apply Nat.leb_gt in Hle. lia. }
  rewrite Hidx, take_app_length', drop_app_length' by (by rewrite length_rev).
  lua_run. rewrite Nat2Z.id. rewrite run_tpack_loop; [|done|apply tabs_set_tab]. lua_run.
  rewrite set_tab_bump.
  replace (length below + 1)%nat with (length (VTab (fresh h) :: below)) by (cbn; lia).
  rewrite doc_settop_to. doc_eval. by rewrite length_rev.
Qed.

Lemma run_tunpack_loop L (vs below : list value) t n h w :
  tabs h !! t = Some (Table (arr vs) None) ->
  let idx := Z.of_nat (length below + 1) in
  rn (for_ (length vs) 1 (fun i => lua_rawgeti L idx i;; mret tt))
     (put L (LS (VTab t :: below) (length vs + n) h) w) =
  (Ok tt, put L (LS (rev vs ++ VTab t :: below) n h) w).
Proof.
  intros Ht idx.
  pose (I i := put L (LS (rev (take i vs) ++ VTab t :: below) (length vs - i + n) h) w).
  assert (HI0 : I 0%nat = put L (LS (VTab t :: below) (length vs + n) h) w).
  { unfold I. by rewrite take_0, Nat.sub_0_r. }
  rewrite <- HI0, (run_for C (length vs) 1 _ I);
    [unfold I; by rewrite take_ge, Nat.sub_diag by lia|].
  intros i Hi. destruct (lookup_lt_is_Some_2 vs i Hi) as [v Hv]. unfold I.
  assert (Hb : at_ (rev (take i vs) ++ VTab t :: below) idx = Val (VTab t)) by apply at_bottom.
  replace (length vs - i + n)%nat with (1 + (length vs - (1 + i) + n))%nat by lia.
  lua_run. know Hb, Ht. rewrite Z.add_comm, (raw_get_arr _ _ _ v) by done.
  rewrite (take_S_r _ _ v), rev_app_distr by done. done.
Qed.

(** [tunpack] spreads an array over the stack, in place of the array *)
Lemma run_tunpack L (vs below : list value) t n h w :
  tabs h !! t = Some (Table (arr vs) None) -> Z.of_nat (length vs) < 2 ^ 31 ->
  rn (tunpack L (-1)) (put L (LS (VTab t :: below) (length vs + n) h) w) =
  (Ok (Z.of_nat (length vs)), put L (LS (rev vs ++ below) (1 + n) h) w).
Proof.
  intros Ht Hlen. unfold tunpack, lua_absindex. lua_run.
  replace (Z.of_nat (Datatypes.S (length below)) + -1 + 1) with (Z.of_nat (length below + 1)) by lia.
  assert (Hb := at_bottom [] below (VTab t)). cbn [app] in Hb.
  know Hb, Ht. cbn [tmeta]. rewrite seq_len_arr. lua_run.
  rewrite to_int_small by lia. rewrite Nat2Z.id, run_tunpack_loop by done. lua_run.
  assert (Hp : pos (rev vs ++ VTab t :: below) (Z.of_nat (length below + 1)) = Some (length vs)).
  { unfold pos. destruct (Z.of_nat (length below + 1)) as [|q|q] eqn:E; [lia| |lia].
    assert (Pos.to_nat q = (length below + 1)%nat) by lia.
    rewrite length_app, length_rev. cbn [length].
    rewrite (proj2 (Nat.leb_le _ _)) by lia. f_equal. lia. }
  rewrite Hp, take_app_length', drop_app_ge by (rewrite length_rev; lia). lua_run.
  rewrite length_rev. by replace (Datatypes.S (length vs) - length vs)%nat with 1%nat by lia.
Qed.

(** ** testcookie and checkfd *)

Lemma run_testcookie L i mt p vs n h w :
  0 < i -> handle vs h i mt p ->
  rn (testcookie L i mt) (put L (LS vs (3 + n) h) w) = (Ok p, put L (LS vs (3 + n) h) w).
Proof.
  intros Hi (u & d & Hu & Hc). destruct (udata_of_at _ _ _ _ _ _ Hu) as [Ha Hd].
  unfold udata_of in Hu. rewrite Ha, Hd in Hu.
  destruct (ud_meta d) as [m|] eqn:Hm; [|done].
  destruct (reg_get (inl mt) h) as [| | | | | |m'| |] eqn:Hr; try done.
  case_decide as Heq; [|done]. subst m'. clear Hu.
  unfold testcookie, getcookie, COOKIE. lua_run. know Ha, Hd. cbn [fmap option_fmap option_map].
  know Hm. lua_run. know Hr. lua_run. rewrite bool_decide_true by done. lua_run.
  know (at_cons _ _ _ (VTab m) Hi (at_cons _ _ _ (VTab m) Hi Ha)), Hd. know Hc. lua_run. done.
Qed.
End run.

(** ** From runs to executions *)

Section execution.
Context `{LuaSem} {S : Type} `{Libc S} (C : clib S).
Implicit Types (w : world S lstate) (L : nat) (vs : list value) (h : heap).

(** a run that returns the values [rs], pushed in this order *)
Lemma invoke_returns L f args h w rs vs n h' w' :
  run (documented C) (f L) (put L (frame args h) w) =
    (Ok (Z.of_nat (length rs)), put L (LS (rev rs ++ vs) n h') w') ->
  invoke C L f args h w = (Ok rs, put L (idle h') w').
Proof.
  intros Hr. unfold invoke. rewrite Hr. cbn [finish].
  rewrite wl_put, put_put. cbn [stk hp]. rewrite length_app, length_rev.
  rewrite (proj2 (Z.leb_le 0 _)), (proj2 (Z.leb_le _ _)) by lia. cbn [andb].
  by rewrite Nat2Z.id, take_app_length', rev_involutive by by rewrite length_rev.
Qed.

Lemma executes_return L f args h w rs vs n h' w' :
  run (documented C) (f L) (put L (frame args h) w) =
    (Ok (Z.of_nat (length rs)), put L (LS (rev rs ++ vs) n h') w') ->
  executes C L f args h w (Ok rs) (put L (idle h') w').
Proof. intros Hr. apply executes_intro; [|done]. by eapply invoke_returns. Qed.

Lemma invoke_return L f x args h w vs n h' w' :
  run (documented C) (f L) (put L (frame args h) w) = (Ok 1, put L (LS (x :: vs) n h') w') ->
  executes C L f args h w (Ok [x]) (put L (idle h') w').
Proof. apply (executes_return L f args h w [x] vs n h' w'). Qed.

(** a run that ends in an error, or does not return *)
Lemma executes_halt L f args h w a vs n h' w' :
  run (documented C) (f L) (put L (frame args h) w) = (Halt a, put L (LS vs n h') w') ->
  defined (A := Z) (Halt a) ->
  executes C L f args h w (Halt a) (put L (idle h') w').
Proof.
  intros Hr Hd. apply executes_intro; [|by destruct a]. unfold invoke. rewrite Hr. cbn [finish].
  by rewrite wl_put, put_put.
Qed.

Lemma at_arg_not_bad vs i : 0 < i -> at_ vs i ≠ Bad.
Proof.
  intros Hi. unfold at_. destruct (pos vs i) eqn:Ep; [|by rewrite (proj2 (Z.ltb_lt _ _))].
  unfold pos in Ep. destruct i as [|j|j]; [done| |done].
  destruct (Nat.leb_spec (Pos.to_nat j) (length vs)); [|done]. injection Ep as <-.
  destruct (lookup_lt_is_Some_2 vs (length vs - Pos.to_nat j)) as [v ->]; [lia|done].
Qed.
End execution.

(** ** Properties *)

Section properties.
Context `{LuaSem} {S : Type} `{Libc S} (C : clib S).
Implicit Types (w : world S lstate) (L : nat) (vs : list value) (h : heap).

Lemma udata_of_top vs h u d mt name :
  uds h !! u = Some d -> ud_meta d = Some mt -> reg_get (inl name) h = VTab mt ->
  udata_of (VUd u :: vs) h (-1) name = Some (u, d).
Proof.
  intros Hu Hm Hr. unfold udata_of. change (at_ (VUd u :: vs) (-1)) with (Val (VUd u)).
  cbn. rewrite Hu, Hm, Hr. by rewrite decide_True.
Qed.

Lemma reg_get_alloc k mt p h : reg_get k (alloc_handle mt p h) = reg_get k h.
Proof. done. Qed.

(** a fresh handle is a handle *)
Lemma alloc_handle_top vs h mt p name :
  reg_get (inl name) h = VTab mt ->
  handle (VUd (fresh h) :: vs) (alloc_handle mt p h) (-1) name p.
Proof.
  intros Hr. exists (fresh h), (Udata (Some mt) [VLud p] 0). split; [|done].
  apply (udata_of_top _ _ _ _ mt); [|done|done].
  unfold alloc_handle. cbn. apply lookup_insert_eq.
Qed.

(** A cookie stored in a new object by [new] is what [checkcookie] reads back from it,
    and the NULL cookie of a dead object is refused; the object is the only value left. *)
Theorem new_checkcookie L p name mt vs n h w :
  reg_get (inl name) h = VTab mt ->
  yields C (new L p name;; checkcookie L (-1) name) (put L (LS vs (3 + n) h) w)
    (if p =? 0 then Halt (Raise (EArg (-1) "cookie expired")) else Ok p)
    (put L (LS (VUd (fresh h) :: vs) (2 + n) (alloc_handle mt p h)) w).
Proof.
  intros Hr. apply yields_intro; [|by case_match].
  rewrite run_bind, (run_new C L p name mt vs (1 + n) h w Hr). cbn [andthen].
  pose proof (alloc_handle_top vs h mt p name Hr) as Hh.
  destruct (Z.eqb_spec p 0) as [->|Hp].
  - by apply run_checkcookie_expired.
  - by apply run_checkcookie.
Qed.

(** Every receiver check of the modules refuses, before anything else happens, a value
    that is not a userdata of the expected type, and says which argument and type. *)
Theorem checkcookie_guard L i name vs n h w :
  at_ vs i ≠ Bad -> udata_of vs h i name = None ->
  yields C (checkcookie L i name) (put L (LS vs n h) w)
    (Halt (Raise (EType i name))) (put L (LS vs n h) w).
Proof. intros Ha Hu. apply yields_intro; [by apply run_checkcookie_wrong|done]. Qed.

(** [tpack] followed by [tunpack] puts the packed values back as they were, returns how
    many there are, and leaves the rest of the stack and the free slots alone. *)
Theorem tpack_tunpack L args below n h w :
  no_nil args -> Z.of_nat (length args) < 2 ^ 31 ->
  yields C (tpack L (Z.of_nat (length args));; tunpack L (-1))
    (put L (LS (rev args ++ below) (2 + n) h) w)
    (Ok (Z.of_nat (length args)))
    (put L (LS (rev args ++ below) (2 + n) (alloc_tab (Table (arr args) None) h)) w).
Proof.
  intros Hn Hlen. apply yields_intro; [|done].
  rewrite run_bind, run_tpack by done. cbn [andthen].
  replace (1 + n + length args)%nat with (length args + (1 + n))%nat by lia.
  apply run_tunpack; [apply tabs_set_tab|done].
Qed.

(** [tpop] takes off an array exactly what [tpush] added last (LIFO), and the array is
    then what it was before. *)
Theorem tpush_tpop L t xs v vs n h w :
  v ≠ VNil -> tabs h !! t = Some (Table (arr xs) None) -> Z.of_nat (length xs) < 2 ^ 31 - 1 ->
  yields C (tpush L (-2);; top ← lua_gettop L; tpop L top)
    (put L (LS (v :: VTab t :: vs) (1 + n) h) w)
    (Ok tt)
    (put L (LS (v :: VTab t :: vs) (1 + n) h) w).
Proof.
  intros Hv Ht Hlen. apply yields_intro; [|done].
  rewrite run_bind, (run_tpush C L (-2) t xs) by (done || lia). cbn [andthen]. lua_run.
  change (Datatypes.S (Datatypes.S n)) with (2 + n)%nat.
  rewrite (run_tpop C L _ t xs v); [|lia| |apply tabs_set_tab|lia].
  - cbn. by rewrite set_tab_set_tab, set_tab_id.
  - replace (Z.of_nat (Datatypes.S (length vs))) with (Z.of_nat (length vs + 1)) by lia.
    apply (at_bottom [] vs).
Qed.

(** [testcookie] with a negative index looks for the cookie relative to a stack it has
    itself pushed two metatables on: on a userdata of the right type it reads the user
    value of a table, which the API forbids. *)
Theorem testcookie_negative L name p vs n h w :
  handle vs h (-1) name p ->
  (run (documented C) (testcookie L (-1) name) (put L (LS vs (3 + n) h) w)).1 =
  Halt (UB "Lua API misuse").
Proof.
  intros (u & d & Hu & Hc). destruct (udata_of_at _ _ _ _ _ _ Hu) as [Ha Hd].
  unfold udata_of in Hu. rewrite Ha, Hd in Hu.
  destruct (ud_meta d) as [m|] eqn:Hm; [|done].
  destruct (reg_get (inl name) h) as [| | | | | |m'| |] eqn:Hr; try done.
  case_decide as Heq; [|done]. subst m'. clear Hu.
  unfold testcookie, getcookie, COOKIE. lua_run. know Ha, Hd. cbn [fmap option_fmap option_map].
  know Hm. lua_run. know Hr. lua_run. rewrite bool_decide_true by done. lua_run. done.
Qed.

(** [checkfd] takes an integer for a descriptor as C converts it to [int], so the result
    is in range whatever the argument, and equal to it when it fits. *)
Theorem checkfd_integer L i z vs n h w :
  at_ vs i = Val (VInt z) ->
  yields C (checkfd L i) (put L (LS vs n h) w) (Ok (to_int z)) (put L (LS vs n h) w) /\
  - 2 ^ 31 <= to_int z < 2 ^ 31 /\ (- 2 ^ 31 <= z < 2 ^ 31 -> to_int z = z).
Proof.
  intros Ha. split; [|split; [apply to_int_range|apply to_int_small]].
  apply yields_intro; [|done]. unfold checkfd. lua_run. know Ha. lua_run. know Ha. lua_run. done.
Qed.

(** [checkfd] on a Lua file handle: a closed one is refused, otherwise the result is the
    descriptor [fileno] gives, and its failure raises an error with the errno text. *)
Theorem checkfd_stream L i u d f vs n h w w1 r :
  udata_of vs h i LUA_FILEHANDLE = Some (u, d) ->
  wm w !! ud_blk d = Some (OStream f) ->
  c_call C "fileno" [AZ f] (put L (LS vs n h) w) = (Ok r, put L (LS vs n h) w1) ->
  yields C (checkfd L i) (put L (LS vs n h) w)
    (if f =? 0 then Halt (Raise (EArg i "invalid file handle (closed)"))
     else if rc r =? -1
          then Halt (Raise (EMsg ("fileno: " +:+ cstr (c_strerror (c_errno (wx w1))))))
          else Ok (rc r))
    (put L (LS vs n h) (if f =? 0 then w else w1)).
Proof.
  intros Hu Hm Hc. destruct (udata_of_at _ _ _ _ _ _ Hu) as [Ha Hd].
  apply yields_intro; [|by repeat case_match].
  unfold checkfd. lua_run. know Ha. lua_run. know Ha. rewrite Hu. lua_run.
  rewrite (run_read C _ stream_f _ f _ _ _ Hm eq_refl). lua_run.
  destruct (f =? 0); cbn [negb].
  - rewrite run_argcheck_false. done.
  - rewrite run_argcheck_true. lua_run. rewrite run_call, Hc. lua_run.
    destruct (rc r =? -1); [|done]. lua_run. by rewrite run_fatal.
Qed.
End properties.

(** ** Witnesses *)

Lemma new_checkcookie_witness :
  yields (sample_clib []) (new 0 4096 "T";; checkcookie 0 (-1) "T")
    (put 0%nat (LS [] 20 (sample_heap "T" [] 0)) (sample_world ∅)) (Ok 4096)
    (put 0%nat (LS [VUd 10] 19 (alloc_handle 1 4096 (sample_heap "T" [] 0))) (sample_world ∅)).
Proof. apply (new_checkcookie _ 0%nat 4096 "T" 1 [] 17). reflexivity. Defined.

Lemma checkcookie_guard_witness :
  yields (sample_clib []) (checkcookie 0 1 "T")
    (put 0%nat (frame [VInt 7] (sample_heap "T" [] 0)) (sample_world ∅))
    (Halt (Raise (EType 1 "T")))
    (put 0%nat (frame [VInt 7] (sample_heap "T" [] 0)) (sample_world ∅)).
Proof. apply checkcookie_guard; [discriminate|reflexivity]. Defined.

Lemma tpack_tunpack_witness :
  yields (sample_clib []) (tpack 0 2;; tunpack 0 (-1))
    (put 0%nat (LS [VInt 2; VInt 1] 18 (sample_heap "T" [] 0)) (sample_world ∅)) (Ok 2)
    (put 0%nat (LS [VInt 2; VInt 1] 18
       (alloc_tab (Table (arr [VInt 1; VInt 2]) None) (sample_heap "T" [] 0))) (sample_world ∅)).
Proof.
  apply (tpack_tunpack _ 0%nat [VInt 1; VInt 2] [] 16); [repeat constructor; discriminate|reflexivity].
Defined.

Lemma tpush_tpop_witness :
  yields (sample_clib []) (tpush 0 (-2);; top ← lua_gettop 0; tpop 0 top)
    (put 0%nat (LS [VInt 5; VTab 1] 18 (sample_heap "T" [] 0)) (sample_world ∅)) (Ok tt)
    (put 0%nat (LS [VInt 5; VTab 1] 18 (sample_heap "T" [] 0)) (sample_world ∅)).
Proof. apply (tpush_tpop _ 0%nat 1 [] (VInt 5) [] 17); [discriminate|reflexivity|reflexivity]. Defined.

Lemma testcookie_negative_witness :
  (run (documented (sample_clib [])) (testcookie 0 (-1) "T")
     (put 0%nat (LS [VUd 2] 19 (sample_heap "T" [VLud 4096] 0)) (sample_world ∅))).1 =
  Halt (UB "Lua API misuse").
Proof.
  apply (testcookie_negative _ 0%nat "T" 4096 [VUd 2] 16).
  exists 2%nat, (Udata (Some 1%nat) [VLud 4096] 0). split; reflexivity.
Defined.

Lemma checkfd_integer_witness :
  yields (sample_clib []) (checkfd 0 1)
    (put 0%nat (LS [VInt 3] 19 (sample_heap "T" [] 0)) (sample_world ∅)) (Ok (to_int 3))
    (put 0%nat (LS [VInt 3] 19 (sample_heap "T" [] 0)) (sample_world ∅)) /\
  - 2 ^ 31 <= to_int 3 < 2 ^ 31 /\ (- 2 ^ 31 <= 3 < 2 ^ 31 -> to_int 3 = 3).
Proof. apply checkfd_integer. reflexivity. Defined.

Lemma checkfd_stream_witness :
  yields (sample_clib [("fileno", (Cret 7 [], 0))]) (checkfd 0 1)
    (put 0%nat (LS [VUd 2] 19 (sample_heap LUA_FILEHANDLE [] 512))
       (sample_world {[ 512 := OStream 9 ]})) (Ok 7)
    (put 0%nat (LS [VUd 2] 19 (sample_heap LUA_FILEHANDLE [] 512))
       (sample_world {[ 512 := OStream 9 ]})).
Proof.
  apply (checkfd_stream _ 0%nat 1 2 (Udata (Some 1%nat) [] 512) 9 [VUd 2] 19
           (sample_heap LUA_FILEHANDLE [] 512) (sample_world {[ 512 := OStream 9 ]})
           (sample_world {[ 512 := OStream 9 ]}) (Cret 7 [])); reflexivity.
Defined.
