(* ===== verification/Modules.v ===== *)
(** * Opening a module

    The two things the [luaopen] functions do: register a type (a metatable that
    is its own [__index] and holds the methods) and make a table of functions.
    [grows] says that what was there before is untouched. *)

From S2P Require Import Prelude LuaApi Registry Machine Capi Utils.

(** the calls every [luaopen] function makes for a type *)
Definition register_type (L : nat) (metatable : string) (meta : list (string * string)) : prog unit :=
  luaL_newmetatable L metatable;;
  lua_pushvalue L (-1);;
  lua_setfield L (-2) "__index";;
  luaL_setfuncs L meta.

(** [DEFINE(ident)]: an integer constant in the table on top *)
Definition define (L : nat) (ident : string) (n : Z) : prog unit :=
  lua_pushinteger L n;;
  lua_setfield L (-2) ident.

(** a constant that is a string: a macro of a system header *)
Class SConsts := scst : string -> string.

Definition define_string (L : nat) (ident s : string) : prog unit :=
  lua_pushstring L s;;
  lua_setfield L (-2) ident.

(** several types, their metatables left on the stack one above the other *)
Fixpoint register_types (L : nat) (types : list (string * list (string * string))) : prog unit :=
  match types with
  | [] => mret tt
  | (metatable, meta) :: types => register_type L metatable meta;; register_types L types
  end.

(** constants named like the macros of the headers; and one that is defined only where the
    header has the macro *)
Definition idents `{Consts} (l : list string) : list (string * Z) := map (fun ident => (ident, cst ident)) l.

Definition idents_of `{Consts} (prefix : string) (l : list string) : list (string * Z) :=
  map (fun ident => (ident, cst (prefix +:+ ident))) l.

Definition ifdef `{Consts} (ident : string) : list (string * Z) :=
  if cst ("#ifdef " +:+ ident) =? 0 then [] else idents [ident].

Fixpoint define_all (L : nat) (consts : list (string * Z)) : prog unit :=
  match consts with
  | [] => mret tt
  | (ident, n) :: consts => define L ident n;; define_all L consts
  end.

(** a table of functions and constants as a field of the table on top, and several *)
Definition sublib (L : nat) (name : string) (funcs : list (string * string)) (consts : list (string * Z)) :
  prog unit :=
  luaL_newlib L funcs;;
  define_all L consts;;
  lua_setfield L (-2) name.

Fixpoint sublibs (L : nat) (libs : list (string * list (string * string) * list (string * Z))) : prog unit :=
  match libs with
  | [] => mret tt
  | (name, funcs, consts) :: libs => sublib L name funcs consts;; sublibs L libs
  end.

(** ** Growing heaps *)

Record grows (new : list string) (h h' : heap) : Prop := {
  gr_fresh : (fresh h <= fresh h')%nat;
  gr_reg : forall k, (forall name, k = inl name -> name ∉ new) -> reg_get k h' = reg_get k h;
  gr_tabs : forall t, (t < fresh h)%nat -> tabs h' !! t = tabs h !! t;
  gr_funs : forall f, (f < fresh h)%nat -> funs h' !! f = funs h !! f;
  gr_uds : uds h' = uds h
}.

(** a table has no other fields than the ones named *)
Definition only (names : list string) (x : table) : Prop :=
  forall k, is_Some (tmap x !! k) -> exists name, k = KStr name /\ name ∈ names.

(** the registered type [name] has exactly the methods [meta], found through [__index] *)
Definition typed (h : heap) (name : string) (meta : list (string * string)) : Prop :=
  exists mt x, reg_get (inl name) h = VTab mt /\ (mt < fresh h)%nat /\ binds h mt meta /\
    tabs h !! mt = Some x /\ raw_get (KStr "__index") x = VTab mt /\ only ("__name" :: "__index" :: meta.*1) x.

(** a table of the module: exactly these functions, and fields with these values *)
Definition exports (h : heap) (t : nat) (l : list (string * string)) (fields : list (string * value)) : Prop :=
  binds h t l /\ exists x, tabs h !! t = Some x /\ tmeta x = None /\
    (forall k v, In (k, v) fields -> raw_get (KStr k) x = v) /\ only (l.*1 ++ fields.*1) x.

Lemma only_set names k v x : only names x -> only (names ++ [k]) (raw_set (KStr k) v x).
Proof.
  intros Ho k' Hk. destruct (decide (KStr k = k')) as [<-|Hne].
  { exists k. split; [done|]. apply elem_of_app. right. by left. }
  destruct (Ho k') as (name & -> & Hin).
  - revert Hk. unfold raw_set. destruct v; cbn; by rewrite ?lookup_insert_ne, ?lookup_delete_ne by done.
  - exists name. split; [done|]. apply elem_of_app. by left.
Qed.

(** functions added to a table *)
Lemma only_funcs t l h h' x x' names :
  extends t l h h' -> tabs h !! t = Some x -> tabs h' !! t = Some x' -> only names x -> only (names ++ l.*1) x'.
Proof.
  intros [Htab _ _ _ _] Hx Hx' Ho k Hk. destruct (Htab x Hx) as (y & Hy & _ & Hsame).
  rewrite Hx' in Hy. injection Hy as <-.
  assert (Hold : (forall name, k = KStr name -> name ∉ l.*1) ->
    exists name, k = KStr name /\ name ∈ names ++ l.*1).
  { intros Hn. destruct (Ho k) as (name & -> & Hin); [by rewrite <- Hsame|].
    exists name. split; [done|]. apply elem_of_app. by left. }
  destruct k as [z|name]; [by apply Hold; intros ? [=]|].
  destruct (decide (name ∈ l.*1)) as [Hin|Hin].
  - exists name. split; [done|]. apply elem_of_app. by right.
  - apply Hold. by intros ? [= <-].
Qed.

Section heaps.
Implicit Types h : heap.

Lemma grows_refl h : grows [] h h.
Proof. by split. Qed.

Lemma grows_trans n1 n2 h1 h2 h3 : grows n1 h1 h2 -> grows n2 h2 h3 -> grows (n1 ++ n2) h1 h3.
Proof.
  intros [F1 R1 T1 G1 U1] [F2 R2 T2 G2 U2]. split.
  - lia.
  - intros k Hk. rewrite R2, R1; [done|..]; intros name Hn Hin; apply (Hk name Hn), elem_of_app; auto.
  - intros t Ht. rewrite T2, T1 by lia. done.
  - intros f Hf. rewrite G2, G1 by lia. done.
  - by rewrite U2, U1.
Qed.

Lemma binds_grows new h h' t l :
  binds h t l -> (t < fresh h)%nat -> grows new h h' -> binds h' t l.
Proof.
  intros (x & Hx & Hb) Ht [Hfr _ Htabs Hfuns _]. exists x. split; [by rewrite Htabs|].
  intros n s Hin. destruct (Hb n s Hin) as (f & Hf & Hg & Hlt). exists f.
  split_all; [done|by rewrite Hfuns|lia].
Qed.

Lemma typed_grows new h h' name meta :
  typed h name meta -> grows new h h' -> name ∉ new -> typed h' name meta.
Proof.
  intros (mt & x & Hr & Hlt & Hb & Hx & Hi & Ho) Hg Hn. pose proof Hg as [Hfr Hreg Htabs _ _].
  exists mt, x. split_all; [|lia|by eapply binds_grows|by rewrite Htabs|done|done].
  rewrite Hreg; [done|]. by intros ? [= <-].
Qed.

(** a table made since can be changed *)
Lemma grows_set_tab new h h' t x : grows new h h' -> (fresh h <= t)%nat -> grows new h (set_tab t x h').
Proof.
  intros [Hfr Hreg Htabs Hfuns Hu] Ht. split; try done.
  intros t' Ht'. cbn. rewrite lookup_insert_ne by lia. by apply Htabs.
Qed.

Lemma exports_field h t l fields k v x :
  exports h t l fields -> tabs h !! t = Some x -> k ∉ l.*1 -> k ∉ fields.*1 -> v ≠ VNil ->
  exports (set_tab t (raw_set (KStr k) v x) h) t l (fields ++ [(k, v)]).
Proof.
  intros (Hb & y & Hy & Hm & Hf & Ho) Hx Hl Hk Hv. rewrite Hx in Hy. injection Hy as <-.
  split; [by apply binds_field|]. exists (raw_set (KStr k) v x).
  split_all; [cbn; apply lookup_insert_eq|done| |rewrite fmap_app, app_assoc; by apply only_set].
  intros k' v' [Hin|[[= <- <-]|[]]]%in_app_or.
  - assert (k ≠ k') as Hne.
    { intros ->. apply Hk. by apply (list_elem_of_fmap_2 fst _ (k', v')), list_elem_of_In. }
    rewrite <- (Hf k' v' Hin). unfold raw_get, raw_set.
    destruct v; [done|..]; cbn; rewrite lookup_insert_ne by congruence; done.
  - unfold raw_get, raw_set. destruct v; [done|..]; cbn; by rewrite lookup_insert_eq.
Qed.

Lemma exports_grows new h h' t l fields :
  exports h t l fields -> (t < fresh h)%nat -> grows new h h' -> exports h' t l fields.
Proof.
  intros (Hb & x & Hx & Hr) Ht Hg. split; [by eapply binds_grows|]. exists x.
  split; [|done]. by rewrite (gr_tabs _ _ _ Hg).
Qed.

Lemma exports_other h t t' x l fields :
  exports h t l fields -> t ≠ t' -> exports (set_tab t' x h) t l fields.
Proof.
  intros (Hb & y & Hy & Hr) Hne. split; [by apply binds_other|]. exists y.
  split; [|done]. cbn. by rewrite lookup_insert_ne.
Qed.

Lemma exports_others {A} (f : A -> list (string * string)) (g : A -> list (string * value)) h p x n ts l :
  Forall2 (fun t a => exports h t (f a) (g a)) ts l -> Forall (fun t => (n <= t)%nat) ts -> (p < n)%nat ->
  Forall2 (fun t a => exports (set_tab p x h) t (f a) (g a)) ts l.
Proof.
  intros Ha Hts Hp. induction Ha as [|t a ts l He _ IH]; constructor; apply Forall_cons_iff in Hts as [Ht Hts].
  - apply exports_other; [done|lia].
  - by apply IH.
Qed.

Lemma typed_list new h h' types :
  Forall (fun t => typed h t.1 t.2) types -> grows new h h' ->
  (forall name, name ∈ types.*1 -> name ∉ new) -> Forall (fun t => typed h' t.1 t.2) types.
Proof.
  intros Ht Hg Hn. apply list.Forall_forall. intros [name meta] Hin.
  eapply typed_grows; [|exact Hg|].
  - exact (proj1 (list.Forall_forall _ _) Ht _ Hin).
  - apply Hn. by apply (list_elem_of_fmap_2 fst _ (name, meta)).
Qed.
End heaps.

(** what was there is untouched, but for table [p] *)
Definition grows_except (p : nat) (h h' : heap) : Prop :=
  (fresh h <= fresh h')%nat /\ (forall k, reg_get k h' = reg_get k h) /\
  (forall t, (t < fresh h)%nat -> t ≠ p -> tabs h' !! t = tabs h !! t) /\
  (forall f, (f < fresh h)%nat -> funs h' !! f = funs h !! f) /\ uds h' = uds h.

#[export] Instance grows_except_preorder p : PreOrder (grows_except p).
Proof.
  split; [by intros h|]. intros h1 h2 h3 (F1 & R1 & T1 & G1 & U1) (F2 & R2 & T2 & G2 & U2).
  unfold grows_except. split_all; [lia| | | |congruence].
  - intros k. by rewrite R2, R1.
  - intros t Ht Hp. rewrite T2, T1 by (done || lia). done.
  - intros f Hf. rewrite G2, G1 by lia. done.
Qed.

Lemma grows_except_of p h h' : grows [] h h' -> grows_except p h h'.
Proof.
  intros [F R T G U]. unfold grows_except. split_all; [lia| | |done|done].
  - intros k. apply R. intros ? _ Hin. by apply not_elem_of_nil in Hin.
  - intros t Ht _. by apply T.
Qed.

Lemma grows_except_set p h h' x : grows_except p h h' -> grows_except p h (set_tab p x h').
Proof.
  intros (F & R & T & G & U). unfold grows_except. split_all; try done.
  intros t Ht Hp. cbn. rewrite lookup_insert_ne by done. by apply T.
Qed.

(** a table made on the way *)
Lemma grows_except_grows p h0 h h' : grows [] h0 h -> (fresh h0 <= p)%nat -> grows_except p h h' -> grows [] h0 h'.
Proof.
  intros [F R T G U] Hp (F1 & R1 & T1 & G1 & U1). split.
  - lia.
  - intros k Hk. by rewrite R1, R.
  - intros t Ht. rewrite T1, T by lia. done.
  - intros f Hf. rewrite G1, G by lia. done.
  - by rewrite U1, U.
Qed.

Lemma exports_except p h h' t l fields :
  exports h t l fields -> (t < fresh h)%nat -> t ≠ p -> grows_except p h h' -> exports h' t l fields.
Proof.
  intros (Hb & x & Hx & Hr) Ht Hp (F & R & T & G & U). split.
  - destruct Hb as (y & Hy & Hb). exists y. split; [by rewrite T|].
    intros name sym Hin. destruct (Hb name sym Hin) as (f & Hf & Hg & Hlt). exists f.
    split_all; [done|by rewrite G|lia].
  - exists x. split; [by rewrite T|done].
Qed.

(** ** How they run *)

Section run.
Context `{LuaSem} {S : Type} `{Libc S} (C : clib S).
Implicit Types (w : world S lstate) (L : nat) (vs : list value) (h : heap).
Abbreviation rn := (run (documented C)).

Lemma run_register_type L name meta vs n h w :
  reg_get (inl name) h = VNil -> NoDup meta.*1 -> "__index" ∉ meta.*1 ->
  exists h', rn (register_type L name meta) (put L (LS vs (2 + n) h) w) =
    (Ok tt, put L (LS (VTab (fresh h) :: vs) (1 + n) h') w) /\
    typed h' name meta /\ grows [name] h h'.
Proof.
  intros Hr Hnd Hni. set (m := fresh h). set (x0 := Table {[ KStr "__name" := VStr name ]} None).
  set (x1 := raw_set (KStr "__index") (VTab m) x0).
  set (h1 := bump (set_reg (inl name) (VTab m) (set_tab m x0 h))).
  set (h2 := set_tab m x1 h1).
  assert (H1 : tabs h1 !! m = Some x0) by apply lookup_insert_eq.
  assert (H2 : tabs h2 !! m = Some x1) by apply lookup_insert_eq.
  exists (add_funcs m meta h2). split_all.
  - unfold register_type. lua_run. rewrite Hr. lua_run. fold m x0 h1. rewrite H1.
    change (tmap x0 !! KStr "__index") with (@None value). cbn [tmeta x0]. lua_run. fold x1 h2.
    by rewrite H2.
  - destruct (add_funcs_extends m meta h2 x1 H2) as [Htab _ _ (Hreg & _) Hfr].
    destruct (Htab x1 H2) as (x' & Hx' & _ & Hk). exists m, x'. split_all; [..|done| |].
    + unfold reg_get. rewrite Hreg. cbn. by rewrite lookup_insert_eq.
    + cbn in Hfr. lia.
    + by eapply add_funcs_binds.
    + unfold raw_get. rewrite Hk by by intros ? [= <-]. done.
    + apply (only_funcs m meta h2 (add_funcs m meta h2) x1 x' ["__name"; "__index"]); [by eapply add_funcs_extends|done|done|].
      apply (only_set ["__name"]). intros k [v Hv]. cbn in Hv.
      apply lookup_singleton_Some in Hv as [<- _]. exists "__name". split; [done|]. by left.
  - destruct (add_funcs_extends m meta h2 x1 H2) as [_ Htabs Hfuns (Hreg & Hu & _) Hfr]. split.
    + cbn in Hfr. lia.
    + intros k Hk. unfold reg_get. rewrite Hreg. cbn. rewrite lookup_insert_ne; [done|].
      intros <-. by apply (Hk name eq_refl), list_elem_of_singleton.
    + intros t Ht. rewrite Htabs by lia. cbn. rewrite !lookup_insert_ne by lia. done.
    + intros f Hf. rewrite Hfuns by (cbn; lia). done.
    + by rewrite Hu.
Qed.

Lemma run_newlib {A} L l vs n h w (k : prog A) :
  NoDup l.*1 ->
  exists h', rn (luaL_newlib L l;; k) (put L (LS vs (1 + n) h) w) =
    rn k (put L (LS (VTab (fresh h) :: vs) n h') w) /\
    exports h' (fresh h) l [] /\ grows [] h h' /\ (fresh h < fresh h')%nat.
Proof.
  intros Hnd. set (m := fresh h). set (h1 := bump (set_tab m (Table ∅ None) h)).
  assert (H1 : tabs h1 !! m = Some (Table ∅ None)) by apply lookup_insert_eq.
  exists (add_funcs m l h1).
  destruct (add_funcs_extends m l h1 _ H1) as [Htab Htabs Hfuns (Hreg & Hu & _) Hfr]. split_all.
  - lua_run. fold m h1. by rewrite H1.
  - split; [by eapply add_funcs_binds|]. destruct (Htab _ H1) as (x & Hx & Hm & _). exists x.
    split_all; [done|by rewrite Hm|done|]. rewrite app_nil_r.
    apply (only_funcs m l h1 (add_funcs m l h1) (Table ∅ None) x []); [by eapply add_funcs_extends|done|done|].
    intros k' [v Hv]. cbn in Hv. by rewrite lookup_empty in Hv.
  - split.
    + cbn in Hfr. lia.
    + intros k' _. unfold reg_get. by rewrite Hreg.
    + intros t Ht. rewrite Htabs by lia. cbn. rewrite lookup_insert_ne by lia. done.
    + intros f Hf. rewrite Hfuns by (cbn; lia). done.
    + by rewrite Hu.
  - cbn in Hfr. lia.
Qed.

Lemma run_define L ident z t l fields vs n h w :
  exports h t l fields -> ident ∉ l.*1 -> ident ∉ fields.*1 ->
  exists x, rn (define L ident z) (put L (LS (VTab t :: vs) (1 + n) h) w) =
    (Ok tt, put L (LS (VTab t :: vs) (1 + n) (set_tab t x h)) w) /\
    exports (set_tab t x h) t l (fields ++ [(ident, VInt z)]).
Proof.
  intros He Hl Hf. pose proof He as (_ & x & Hx & Hm & _).
  exists (raw_set (KStr ident) (VInt z) x). split; [|by apply exports_field].
  unfold define. lua_run. rewrite Hx. doc_eval. rewrite Hm. by destruct (tmap x !! KStr ident).
Qed.

Lemma run_register_types L types : forall vs n h w,
  Forall (fun t => reg_get (inl t.1) h = VNil /\ NoDup t.2.*1 /\ "__index" ∉ t.2.*1) types ->
  NoDup types.*1 ->
  exists h' vs', rn (register_types L types) (put L (LS vs (1 + length types + n) h) w) =
    (Ok tt, put L (LS (vs' ++ vs) (1 + n) h') w) /\ length vs' = length types /\
    Forall (fun t => typed h' t.1 t.2) types /\ grows types.*1 h h'.
Proof.
  induction types as [|[name meta] types IH]; intros vs n h w Ht Hnd.
  - exists h, []. split_all; [done..|constructor|apply grows_refl].
  - apply Forall_cons_iff in Ht as [(Hr & Hm & Hi) Ht]. cbn [fst snd] in *.
    apply list.NoDup_cons in Hnd as [Hni Hnd].
    destruct (run_register_type L name meta vs (length types + n) h w Hr Hm Hi) as (h1 & R1 & T1 & G1).
    destruct (IH (VTab (fresh h) :: vs) n h1 w) as (h2 & vs' & R2 & Hl & T2 & G2); [|done|].
    { apply list.Forall_forall. intros [name' meta'] Hin.
      destruct (proj1 (list.Forall_forall _ _) Ht _ Hin) as (Hr' & Hrest). split; [|done].
      rewrite (gr_reg _ _ _ G1); [done|]. cbn. intros k [= <-] ->%list_elem_of_singleton.
      apply Hni. by apply (list_elem_of_fmap_2 fst _ (name, meta')). }
    exists h2, (vs' ++ [VTab (fresh h)]). split_all.
    + cbn [register_types length]. rewrite run_bind.
      replace (1 + Datatypes.S (length types) + n)%nat with (2 + (length types + n))%nat by lia.
      rewrite R1. cbn [andthen]. replace (1 + (length types + n))%nat with (1 + length types + n)%nat by lia.
      rewrite R2, <- app_assoc. done.
    + rewrite length_app, Hl. cbn. lia.
    + constructor; [|done]. by eapply typed_grows.
    + exact (grows_trans _ _ _ _ _ G1 G2).
Qed.

Lemma run_define_all L consts t l : forall fields vs n h w,
  exports h t l fields -> NoDup (l.*1 ++ fields.*1 ++ consts.*1) ->
  exists x, rn (define_all L consts) (put L (LS (VTab t :: vs) (1 + n) h) w) =
    (Ok tt, put L (LS (VTab t :: vs) (1 + n) (set_tab t x h)) w) /\
    exports (set_tab t x h) t l (fields ++ (prod_map id VInt <$> consts)).
Proof.
  induction consts as [|[ident z] consts IH]; intros fields vs n h w He Hnd.
  - pose proof He as (_ & x & Hx & _). exists x. rewrite app_nil_r.
    rewrite (set_tab_id t x h Hx). done.
  - rewrite app_assoc in Hnd. apply list.NoDup_app in Hnd as (Hnd1 & Hdis & Hnd2).
    assert (Hi : ident ∉ l.*1 ++ fields.*1) by (intros Hin; apply (Hdis _ Hin); cbn; left).
    apply not_elem_of_app in Hi as [Hi1 Hi2].
    destruct (run_define L ident z t l fields vs n h w He Hi1 Hi2) as (x1 & R1 & E1).
    destruct (IH (fields ++ [(ident, VInt z)]) vs n (set_tab t x1 h) w E1) as (x2 & R2 & E2).
    { rewrite fmap_app, <- app_assoc, app_assoc. cbn. apply list.NoDup_app. split_all; [done| |done].
      intros y Hy. by apply Hdis. }
    exists x2. rewrite set_tab_set_tab in R2, E2. split.
    + cbn [define_all]. by rewrite run_bind, R1.
    + by rewrite <- app_assoc in E2.
Qed.


(** a table of functions and constants becomes a field of the table below *)
Lemma run_sublib L p l fields name funcs consts vs n h w :
  exports h p l fields -> (p < fresh h)%nat -> NoDup (funcs.*1 ++ consts.*1) ->
  name ∉ l.*1 -> name ∉ fields.*1 ->
  exists h' t, rn (sublib L name funcs consts) (put L (LS (VTab p :: vs) (2 + n) h) w) =
    (Ok tt, put L (LS (VTab p :: vs) (2 + n) h') w) /\
    (fresh h <= t < fresh h')%nat /\ exports h' t funcs (prod_map id VInt <$> consts) /\
    exports h' p l (fields ++ [(name, VTab t)]) /\ grows_except p h h'.
Proof.
  intros He Hp Hnd Hl Hf. pose proof Hnd as (Hnd1 & _)%list.NoDup_app.
  destruct (run_newlib L funcs (VTab p :: vs) (1 + n) h w
    (define_all L consts;; lua_setfield L (-2) name)) as (h1 & R1 & E1 & G1 & Hlt); [done|].
  set (t := fresh h) in *.
  destruct (run_define_all L consts t funcs [] (VTab p :: vs) n h1 w E1) as (x & R2 & E2); [done|].
  cbn [app] in E2. set (h2 := set_tab t x h1) in *.
  assert (G2 : grows [] h h2) by (apply grows_set_tab; [done|unfold t; lia]).
  assert (Ep : exports h2 p l fields) by by eapply exports_grows.
  pose proof Ep as (_ & y & Hy & Hm & _).
  exists (set_tab p (raw_set (KStr name) (VTab t) y) h2), t. split_all.
  - unfold sublib. change (2 + n)%nat with (1 + (1 + n))%nat. etransitivity; [exact R1|].
    rewrite run_bind, R2. cbn [andthen]. rewrite run_lua. doc_eval. rewrite Hy. doc_eval.
    rewrite Hm. by destruct (tmap y !! KStr name).
  - unfold t. lia.
  - cbn. lia.
  - apply exports_other; [done|unfold t; lia].
  - by apply exports_field.
  - by apply grows_except_set, grows_except_of.
Qed.

Lemma run_sublibs L p l libs : forall fields vs n h w,
  exports h p l fields -> (p < fresh h)%nat ->
  Forall (fun lib => NoDup (lib.1.2.*1 ++ lib.2.*1)) libs ->
  NoDup (l.*1 ++ fields.*1 ++ (fst ∘ fst <$> libs)) ->
  exists h' ts, rn (sublibs L libs) (put L (LS (VTab p :: vs) (2 + n) h) w) =
    (Ok tt, put L (LS (VTab p :: vs) (2 + n) h') w) /\
    Forall2 (fun t lib => exports h' t lib.1.2 (prod_map id VInt <$> lib.2)) ts libs /\
    Forall (fun t => (fresh h <= t)%nat) ts /\
    exports h' p l (fields ++ zip (fst ∘ fst <$> libs) (VTab <$> ts)) /\ grows_except p h h'.
Proof.
  induction libs as [|[[name funcs] consts] libs IH]; intros fields vs n h w He Hp Hall Hnd.
  - exists h, []. rewrite app_nil_r. split_all; [done|constructor|constructor|done|done].
  - apply Forall_cons_iff in Hall as [Hnl Hall]. cbn [fst snd] in Hnl.
    rewrite app_assoc in Hnd. pose proof Hnd as (Hnd1 & Hdis & Hnd2)%list.NoDup_app.
    assert (Hi : name ∉ l.*1 ++ fields.*1) by (intros Hin; apply (Hdis _ Hin); cbn; left).
    apply not_elem_of_app in Hi as [Hi1 Hi2].
    destruct (run_sublib L p l fields name funcs consts vs n h w He Hp Hnl Hi1 Hi2)
      as (h1 & t & R1 & Ht & E1 & Ep & G1).
    assert (F1 : (fresh h <= fresh h1)%nat) by apply G1.
    destruct (IH (fields ++ [(name, VTab t)]) vs n h1 w Ep) as (h2 & ts & R2 & E2 & F2 & Ep2 & G2);
      [lia|done| |].
    { rewrite fmap_app, <- app_assoc, app_assoc. exact Hnd. }
    exists h2, (t :: ts). split_all.
    + cbn [sublibs]. by rewrite run_bind, R1.
    + constructor; [|done]. cbn [fst snd]. eapply exports_except; [exact E1|lia| |exact G2]. lia.
    + constructor; [lia|]. eapply list.Forall_impl; [exact F2|]. cbn. lia.
    + cbn [fmap list_fmap zip compose fst]. by rewrite <- app_assoc in Ep2.
    + by etransitivity.
Qed.
End run.

(** ** The [luaopen] function most modules have *)

Definition open_module (L : nat) (types : list (string * list (string * string)))
  (funcs : list (string * string)) (consts : list (string * Z)) : prog Z :=
  register_types L types;;
  luaL_newlib L funcs;;
  define_all L consts;;
  mret 1.

(** no name twice *)
Definition open_ok (types : list (string * list (string * string)))
  (funcs : list (string * string)) (consts : list (string * Z)) : Prop :=
  (length types <= 16)%nat /\ NoDup types.*1 /\ Forall (fun t => NoDup t.2.*1 /\ "__index" ∉ t.2.*1) types /\
  NoDup (funcs.*1 ++ consts.*1).

Section opening.
Context `{LuaSem} {S : Type} `{Libc S} (C : clib S).

(** called on a state where its types are not registered yet, [f] registers the types, with
    every method found through [__index], returns a table of the functions and constants,
    and leaves what was there unchanged *)
Definition opens (f : nat -> prog Z) (types : list (string * list (string * string)))
  (funcs : list (string * string)) (consts : list (string * Z)) : Prop :=
  forall L h (w : world S lstate), Forall (fun t => reg_get (inl t.1) h = VNil) types ->
  exists h' m, executes C L f [] h w (Ok [VTab m]) (put L (idle h') w) /\
    Forall (fun t => typed h' t.1 t.2) types /\ exports h' m funcs (prod_map id VInt <$> consts) /\
    grows types.*1 h h'.

Lemma open_module_opens types funcs consts :
  open_ok types funcs consts -> opens (fun L => open_module L types funcs consts) types funcs consts.
Proof.
  intros (Hlen & Hnd & Hmeta & Hdis) L h w Hnil.
  destruct (run_register_types C L types [] (19 - length types) h w) as (h2 & vs & R2 & Hvs & T2 & G2); [|done|].
  { apply list.Forall_forall. intros t Hin. rewrite list.Forall_forall in Hnil, Hmeta.
    by split; [apply Hnil|apply Hmeta]. }
  replace (1 + length types + (19 - length types))%nat with LUA_MINSTACK in R2 by (unfold LUA_MINSTACK; lia).
  destruct (run_newlib C L funcs (vs ++ []) (19 - length types) h2 w (define_all L consts;; mret 1))
    as (h3 & R3 & E3 & G3 & Hlt); [by apply list.NoDup_app in Hdis as (Hdis & _)|].
  destruct (run_define_all C L consts (fresh h2) funcs [] (vs ++ []) (18 - length types) h3 w E3)
    as (x & R4 & E4); [done|].
  replace (1 + (18 - length types))%nat with (19 - length types)%nat in R4 by lia.
  assert (G23 : grows [] h2 (set_tab (fresh h2) x h3)) by (apply grows_set_tab; [done|lia]).
  exists (set_tab (fresh h2) x h3), (fresh h2). split_all; [|..].
  - apply (invoke_return C L _ _ _ _ _ (vs ++ []) (19 - length types)). unfold open_module, frame.
    cbn [rev]. rewrite run_bind. etransitivity; [exact (f_equal (fun r => andthen r _) R2)|]. cbn [andthen].
    etransitivity; [exact R3|]. rewrite run_bind. etransitivity; [exact (f_equal (fun r => andthen r _) R4)|]. done.
  - eapply typed_list; [exact T2|exact G23|]. intros name _. apply not_elem_of_nil.
  - exact E4.
  - rewrite <- (app_nil_r types.*1). exact (grows_trans _ _ _ _ _ G2 G23).
Qed.
End opening.
