(* ===== verification/Cmem.v ===== *)
(** * Arrays and strings in C memory

    What the modules allocate, fill and read element by element, and what the
    libraries hand over by address: arrays of integers or pointers ([OArr], an
    element is [None] until it is written) and NUL-terminated strings. *)

From S2P Require Import Prelude LuaApi Arrays Machine Capi Utils.

(** ** Arrays *)

Definition arr_set (i : nat) (v : carg) (o : obj) : option (unit * obj) :=
  match o with OArr l => if (i <? length l)%nat then Some (tt, OArr (<[i := Some v]> l)) else None | _ => None end.

Definition arr_get (i : nat) (o : obj) : option (option Z * obj) :=
  match o with
  | OArr l => match l !! i with
              | Some (Some (AZ z)) => Some (Some z, o)
              | Some None => Some (None, o)
              | _ => None
              end
  | _ => None
  end.

(** [p[i]] *)
Definition arr_load (p : Z) (i : nat) : prog Z :=
  v ← load p (arr_get i);
  match v with
  | Some z => mret z
  | None => halts (EHalt (Unspec "the contents of uninitialised memory"))
  end.

(** ** Structures

    A structure is the list of its members, where they matter. *)

Definition member (l : list (string * carg)) (k : string) : option carg :=
  (fun x => x.2.2) <$> list_find (fun kv => kv.1 = k) l.

Definition with_member (k : string) (v : carg) (l : list (string * carg)) : list (string * carg) :=
  (fun kv => if String.eqb kv.1 k then (k, v) else kv) <$> l.

Definition struct_get (k : string) (o : obj) : option (carg * obj) :=
  match o with OStruct l => v ← member l k; Some (v, o) | _ => None end.

Definition struct_int (k : string) (o : obj) : option (Z * obj) :=
  match o with
  | OStruct l => match member l k with Some (AZ z) => Some (z, o) | _ => None end
  | _ => None
  end.

Definition struct_set (k : string) (v : carg) (o : obj) : option (unit * obj) :=
  match o with OStruct l => Some (tt, OStruct (with_member k v l)) | _ => None end.

(** [malloc(nitems * sizeof( *value))] *)
Definition malloc_array (size nitems : Z) : prog Z :=
  malloc (to_size (nitems * size)) (OArr (replicate (Z.to_nat nitems) None)).

Definition sizeof_bool : Z := 1.
Definition sizeof_uint64 : Z := 8.
Definition sizeof_int : Z := 4.
Definition sizeof_ptr : Z := 8.

(** ** Strings *)

Definition has_nul (s : string) : bool := negb (String.eqb (cstr s) s).
Definition read_cstr (o : obj) : option (string * obj) :=
  match o with OBuf _ s => if has_nul s then Some (cstr s, o) else None | _ => None end.

(** [lua_pushstring(L, p)] *)
Definition push_cstr (L : nat) (p : Z) : prog unit :=
  if p =? 0 then lua_pushnil L else s ← load p read_cstr; lua_pushstring L s.

(** [lua_tostring(L, i)], which may be NULL *)
Definition opt_tostring (L : nat) (i : Z) : prog (option string) :=
  s ← (lua_tolstring_null L i : prog (option string)); mret (option_map cstr s).

(** [strdup(s)]; [s] has no NUL *)
Definition strdup (s : string) : prog Z :=
  let len := Z.of_nat (String.length s) + 1 in
  malloc len (OBuf len (s +:+ String NUL "")).

(** ** How they run *)

(** ** Parts of a buffer *)

(** [n] bytes from [off] on: outside of the object, or not written yet, or known *)
Definition bytes_at (off n : Z) (o : obj) : option (option (option string) * obj) :=
  match o with
  | OBuf len s =>
      Some (if (0 <=? off) && (0 <=? n) && (off + n <=? len)
            then Some (if off + n <=? Z.of_nat (String.length s)
                       then Some (String.substring (Z.to_nat off) (Z.to_nat n) s) else None)
            else None, o)
  | _ => None
  end.

Definition load_bytes (p off n : Z) : prog string :=
  r ← load p (bytes_at off n);
  match r with
  | Some (Some s) => mret s
  | Some None => halts (EHalt (Unspec "the contents of uninitialised memory"))
  | None => undefined "access outside of an object"
  end.

(** [n] bytes from [off] on of an array of [size] bytes, whose first ones are [s] and whose
    others have not been written *)
Definition local_bytes (size : Z) (s : string) (off n : Z) : prog string :=
  match bytes_at off n (OBuf size s) with
  | Some (Some (Some b), _) => mret b
  | Some (Some None, _) => halts (EHalt (Unspec "the contents of uninitialised memory"))
  | _ => undefined "access outside of an object"
  end.

(** [luaL_pushresultsize(&b, n)] and [lua_pushlstring(L, buf, n)] of a buffer at whose
    start [s] was stored *)
Definition prefix_of (s : string) (n : Z) (push : string -> prog unit) : prog unit :=
  if n <=? Z.of_nat (String.length s) then push (String.substring 0 (Z.to_nat n) s)
  else halts (EHalt (Unspec "the contents of uninitialised memory")).

(** the bytes of an unsigned integer, lowest first *)
Fixpoint le_value (s : string) : Z :=
  match s with
  | EmptyString => 0
  | String c s => Z.of_nat (Ascii.nat_of_ascii c) + 256 * le_value s
  end.

Definition load_uint (p off n : Z) : prog Z := s ← load_bytes p off n; mret (le_value s).

(** [char] is signed on some machines and unsigned on others *)
Definition to_char `{Consts} (z : Z) : Z := if cst "CHAR_MIN" <? 0 then wraps 8 z else wrapu 8 z.

(** [p[i] = v] for a signed index *)
Definition set_elt (p i : Z) (v : carg) : prog unit :=
  if i <? 0 then undefined "access outside of an object" else load p (arr_set (Z.to_nat i) v).

(** the [n] bytes of an integer, lowest first *)
Fixpoint le_bytes (n : nat) (z : Z) : string :=
  match n with
  | O => EmptyString
  | S n => String (Ascii.ascii_of_nat (Z.to_nat (z mod 256))) (le_bytes n (z / 256))
  end.

(** a call on the descriptor of a Lua file *)
Definition with_fileno (L : nat) (s : Z) (k : Z -> prog Z) : prog Z :=
  fp ← load s stream_f;
  fd ← call "fileno" [AZ fp];
  if rc fd <? 0 then
    e ← errno;
    fatal L "fileno" e
  else k (rc fd).

Definition or_fail (L : nat) (r : cret) (k : prog Z) : prog Z :=
  if rc r =? -1 then
    e ← errno;
    fail L e
  else k.

(** ** Fields of a table that describes a structure *)

Definition int_field (L : nat) (name : string) (v : Z) : prog unit :=
  lua_pushinteger L v;;
  lua_setfield L (-2) name.

Definition str_field (L : nat) (name s : string) : prog unit :=
  lua_pushstring L s;;
  lua_setfield L (-2) name.

Definition bool_field (L : nat) (name : string) (b : bool) : prog unit :=
  lua_pushboolean L b;;
  lua_setfield L (-2) name.

(** fields named [names] with the integers a call returned from the [i]th on *)
Fixpoint int_fields (L : nat) (r : cret) (i : nat) (names : list string) : prog unit :=
  match names with
  | [] => mret tt
  | name :: names => int_field L name (out_int i r);; int_fields L r (S i) names
  end.

Fixpoint str_fields (L : nat) (r : cret) (i : nat) (names : list string) : prog unit :=
  match names with
  | [] => mret tt
  | name :: names => str_field L name (out_str i r);; str_fields L r (S i) names
  end.

(** an array in memory *)
Definition carray (zs : list Z) : obj := OArr (Some ∘ AZ <$> zs).

(** one whose first elements are written *)
Definition partial (cs : list carg) (n : nat) : obj := OArr ((Some <$> cs) ++ replicate n None).

(** memory: nothing at the addresses to come, which never run out *)
Record roomy {S T} (w : world S T) : Prop := {
  ro_pos : 0 < wnext w;
  ro_mem : forall p, wnext w <= p -> wm w !! p = None;
  ro_oom : forall size p, woom w size p = false
}.

Section run.
Context `{LuaSem} {S : Type} `{Libc S} (C : clib S).
Implicit Types (w : world S lstate) (L : nat) (vs xs : list value) (h : heap) (p : Z) (zs : list Z).
Abbreviation rn := (run (documented C)).

Lemma run_arr_load L p zs (i : nat) z s w :
  wm w !! p = Some (carray zs) -> zs !! i = Some z ->
  rn (arr_load p i) (put L s w) = (Ok z, put L s w).
Proof.
  intros Hm Hi. unfold arr_load. rewrite run_bind, (run_read C p _ (carray zs) (Some z)); [done|done|].
  unfold carray. cbn [arr_get]. by rewrite list_lookup_fmap, Hi.
Qed.

(** a string argument *)
Lemma run_checkstring L i s vs n h w :
  at_ vs i = Val (VStr s) ->
  rn (luaL_checkstring L i) (put L (LS vs n h) w) = (Ok (cstr s), put L (LS vs n h) w).
Proof. intros Ha. unfold luaL_checkstring. lua_run. know Ha. lua_run. done. Qed.

(** an element of an array of Lua *)
Lemma run_geti_arr L i t xs (k : nat) x vs n h w :
  at_ vs i = Val (VTab t) -> tabs h !! t = Some (Table (arr xs) None) -> xs !! k = Some x ->
  rn (lua_geti L i (Z.of_nat k + 1)) (put L (LS vs (1 + n) h) w) = (Ok (type_of x), put L (LS (x :: vs) n h) w).
Proof.
  intros Ha Ht Hk. rewrite run_lua. doc_eval. know Ha, Ht. cbn [tmap].
  rewrite arr_lookup_nat, Hk. cbn [tmeta]. by rewrite (raw_get_arr xs None k x Hk).
Qed.

Lemma run_arr_load_unset L p cs n (i : nat) s w :
  wm w !! p = Some (partial cs n) -> (length cs <= i < length cs + n)%nat ->
  rn (arr_load p i) (put L s w) = (Halt (Unspec "the contents of uninitialised memory"), put L s w).
Proof.
  intros Hm Hi. unfold arr_load. rewrite run_bind, (run_read C p _ (partial cs n) None); [done|done|].
  unfold partial. cbn [arr_get]. rewrite lookup_app_r by (rewrite length_fmap; lia). rewrite length_fmap.
  rewrite (proj2 (lookup_replicate_2 _ _ _)) || rewrite lookup_replicate_2 by lia. done.
Qed.

Lemma arr_set_partial (cs : list carg) (n : nat) c :
  arr_set (length cs) c (partial cs (1 + n)) = Some (tt, partial (cs ++ [c]) n).
Proof.
  unfold arr_set, partial. rewrite (proj2 (Nat.ltb_lt _ _)).
  2:{ rewrite length_app, length_fmap, length_replicate. lia. }
  do 2 f_equal. rewrite insert_app_r_alt by by rewrite length_fmap.
  rewrite length_fmap, Nat.sub_diag. cbn [replicate Nat.add]. rewrite fmap_app, <- app_assoc. done.
Qed.

Lemma cstr_app_nul s : cstr s = s -> cstr (s +:+ String NUL "") = s.
Proof.
  induction s as [|c s IH]; [done|]. change (String c s +:+ String NUL "") with (String c (s +:+ String NUL "")).
  cbn [cstr]. destruct (Ascii.eqb c NUL) eqn:E; [done|].
  intros [= Hs]. f_equal. by apply IH.
Qed.

Lemma has_nul_cons c s : has_nul (String c s) = Ascii.eqb c NUL || has_nul s.
Proof.
  unfold has_nul. cbn [cstr]. destruct (Ascii.eqb c NUL); [done|]. cbn. by rewrite Ascii.eqb_refl.
Qed.

Lemma has_nul_app s : has_nul (s +:+ String NUL "") = true.
Proof.
  induction s as [|c s IH]; [done|]. change (String c s +:+ String NUL "") with (String c (s +:+ String NUL "")).
  by rewrite has_nul_cons, IH, orb_true_r.
Qed.

(** pushing a string that is in memory *)
Lemma run_push_cstr L p len s vs n h w :
  p ≠ 0 -> wm w !! p = Some (OBuf len s) -> has_nul s = true ->
  rn (push_cstr L p) (put L (LS vs (1 + n) h) w) = (Ok tt, put L (LS (VStr (cstr s) :: vs) n h) w).
Proof.
  intros Hp Hm Hn. unfold push_cstr. rewrite (proj2 (Z.eqb_neq p 0)) by done.
  rewrite run_bind, (run_read C p _ (OBuf len s) (cstr s)); [|done|cbn; by rewrite Hn].
  cbn [andthen]. lua_run. by rewrite cstr_idemp.
Qed.

(** the memory that is asked for and given back *)
Lemma release_fresh p o n w : wm (release p (poke p o (set_next n w))) = delete p (wm w).
Proof. apply delete_insert_eq. Qed.

Lemma run_malloc_array L size n st w :
  woom w (to_size (n * size)) (wnext w) = false ->
  rn (malloc_array size n) (put L st w) =
  (Ok (wnext w), put L st (poke (wnext w) (partial [] (Z.to_nat n)) (set_next (wnext w + 1) w))).
Proof. apply run_malloc_ok. Qed.

Lemma run_free_bad p st L w :
  p ≠ 0 -> wm w !! p = None ->
  rn (free p) (put L st w) = (Halt (UB "free of memory that is not allocated"), put L st w).
Proof. intros Hp Hm. rewrite run_trigger. cbn [step]. by rewrite (proj2 (Z.eqb_neq p 0)), wm_put, Hm. Qed.
End run.
