(* ===== verification/Wrapper.v ===== *)
(** * Functions that are one call of a library

    Most functions of the modules read their arguments from the stack, make one
    call, and report an error or push what the call returned.  A description of such
    a function says how each argument is read ([arg]) and what is done with the result
    ([fin]); both have a meaning twice: a program, and the abstract function from
    argument values to results that a script relies on.  [Reads] and [Finishes] are the
    interfaces that tie the two together; a module may add ways of its own.
    [wrapper] is the program of a description, [contract] its abstract function,
    [wrapper_contract] the refinement between them; a module then shows of each of its
    functions that it is the wrapper of its description ([wrapped_ok]). *)

From S2P Require Import Prelude LuaApi Machine Capi Utils.

(** ** Arguments *)

(** [takes] is the number of stack slots; [a_spec] is what an argument is to the call, or the
    error it raises; [None]: outside of what is described *)
Record arg := Arg {
  takes : Z;
  a_read : nat -> Z -> (list carg -> prog Z) -> prog Z;
  a_spec : heap -> list value -> Z -> option (lerr + list carg) }.

Fixpoint read_args (L : nat) (i : Z) (l : list arg) (k : list carg -> prog Z) : prog Z :=
  match l with
  | [] => k []
  | a :: l => a_read a L i (fun x => read_args L (i + takes a) l (fun y => k (x ++ y)))
  end.

(** the first argument that is wrong is reported *)
Fixpoint args_of (h : heap) (vs : list value) (i : Z) (l : list arg) : option (lerr + list carg) :=
  match l with
  | [] => Some (inr [])
  | a :: l =>
      match a_spec a h vs i with
      | Some (inr x) =>
          match args_of h vs (i + takes a) l with
          | Some (inr y) => Some (inr (x ++ y))
          | r => r
          end
      | r => r
      end
  end.

(** ** Results *)

(** a library whose calls return, see [external] *)
Abbreviation library S := (string -> list carg -> S -> cret * S).

(** [f_calls] are the functions called on the way; [f_spec] is given the arguments of the
    function and of the call, its result, and the heap and state of the library then *)
Record fin := Fin {
  f_calls : list string;
  f_prog : nat -> list carg -> cret -> prog Z;
  f_spec : forall S, Libc S -> library S -> list value -> list carg -> cret -> heap -> S ->
    option (list value * heap * S) }.

(** nil, the message and the number of an error *)
Definition failure {S} `{Libc S} (e : Z) : list value := [VNil; VStr (cstr (c_strerror e)); VInt e].

(** ** Descriptions *)

(** the arguments of the call, in its order: positions among those that were read; [] when the
    order is the same *)
Definition reorder (order : list nat) (a : list carg) : list carg :=
  match order with [] => a | _ => omap (fun i => a !! i) order end.

Record wrapped := Wrapped {
  w_symbol : string; w_prog : nat -> prog Z; w_call : string;
  w_args : list arg; w_order : list nat; w_fin : fin }.

(** [pre]: [errno] is cleared first *)
Definition wrapper (fn : string) (args : list arg) (order : list nat) (f : fin) (L : nat) : prog Z :=
  read_args L 1 args (fun a =>
    let c := reorder order a in
    r ← call fn c;
    f_prog f L c r).

(** the results for given arguments and a given library, and the heap and library after *)
Definition contract {S} `{Libc S} (lib : library S) (fn : string) (args : list arg) (order : list nat)
  (f : fin) (vs : list value) (h : heap) (s : S) : option (outcome (list value) * heap * S) :=
  match args_of h vs 1 args with
  | None => None
  | Some (inl e) => Some (Halt (Raise e), h, s)
  | Some (inr a) =>
      let c := reorder order a in
      let r := lib fn c s in
      match f_spec f S _ lib vs c r.1 h r.2 with
      | Some (res, h', s') => Some (Ok res, h', s')
      | None => None
      end
  end.

(** ** The interfaces *)

Class Reads (a : arg) : Prop := {
  reads_takes : 0 <= takes a;
  reads_ok : forall (LU : LuaSem) S (LB : Libc S) (C : clib S) L vs i k n h w r,
    0 < i -> a_spec a h vs i = Some r ->
    run (documented C) (a_read a L i k) (put L (LS (rev vs) (1 + n) h) w) =
    match r with
    | inr x => run (documented C) (k x) (put L (LS (rev vs) (1 + n) h) w)
    | inl e => (Halt (Raise e), put L (LS (rev vs) (1 + n) h) w)
    end }.

Class Finishes (f : fin) : Prop :=
  finishes_ok : forall (LU : LuaSem) S (LB : Libc S) (C : clib S) lib L vs c r h w res h' s,
    external C (f_calls f) lib ->
    f_spec f S LB lib vs c r h (wx w) = Some (res, h', s) ->
    exists n, run (documented C) (f_prog f L c r) (put L (LS (rev vs) 20 h) w) =
      (Ok (Z.of_nat (length res)), put L (LS (rev res ++ rev vs) n h') (set_x s w)).

(** ** Ways to read an argument *)

Definition null_or (s : option string) : carg := match s with Some s => AS s | None => AZ 0 end.

(** how a value is an integer; [None]: a coercion from a string *)
Definition int_arg (i : Z) (v : option value) : option (lerr + Z) :=
  match v with
  | Some (VInt z) => Some (inr z)
  | Some (VNum f) =>
      match float_to_integer f with
      | Some z => Some (inr z)
      | None => Some (inl (EArg i "number has no integer representation"))
      end
  | Some (VStr _) => None
  | _ => Some (inl (EType i "number"))
  end.

Definition str_arg (i : Z) (v : option value) : option (lerr + string) :=
  match v with
  | Some (VStr s) => Some (inr s)
  | Some (VInt _) | Some (VNum _) => None
  | _ => Some (inl (EType i "string"))
  end.

Definition or_error {A B} (f : A -> B) (r : option (lerr + A)) : option (lerr + B) :=
  match r with Some (inr x) => Some (inr (f x)) | Some (inl e) => Some (inl e) | None => None end.

Definition is_none (v : option value) : bool := match v with Some VNil | None => true | _ => false end.

(** the value of argument [i] *)
Definition nth_arg (vs : list value) (i : Z) : option value := vs !! Z.to_nat (i - 1).

(** [luaL_checkinteger]; [conv] is the conversion to the C type *)
Definition AInt (conv : Z -> Z) : arg := Arg 1
  (fun L i k => n ← luaL_checkinteger L i; k [AZ (conv n)])
  (fun _ vs i => or_error (fun z => [AZ (conv z)]) (int_arg i (nth_arg vs i))).

(** [luaL_optinteger] *)
Definition AOptInt (d : Z) (conv : Z -> Z) : arg := Arg 1
  (fun L i k => n ← luaL_optinteger L i d; k [AZ (conv n)])
  (fun _ vs i => if is_none (nth_arg vs i) then Some (inr [AZ (conv d)])
                 else or_error (fun z => [AZ (conv z)]) (int_arg i (nth_arg vs i))).

(** [luaL_checkstring] *)
Definition AStr : arg := Arg 1
  (fun L i k => s ← luaL_checkstring L i; k [AS s])
  (fun _ vs i => or_error (fun s => [AS (cstr s)]) (str_arg i (nth_arg vs i))).

(** [luaL_checklstring], passed with its length *)
Definition ALStr : arg := Arg 1
  (fun L i k => s ← luaL_checklstring L i; k [AS s; AZ (Z.of_nat (String.length s))])
  (fun _ vs i => or_error (fun s => [AS s; AZ (Z.of_nat (String.length s))]) (str_arg i (nth_arg vs i))).

(** [luaL_optstring], default [NULL] *)
Definition AOptStr : arg := Arg 1
  (fun L i k => s ← luaL_optstring L i; k [null_or s])
  (fun _ vs i => if is_none (nth_arg vs i) then Some (inr [AZ 0])
                 else or_error (fun s => [AS (cstr s)]) (str_arg i (nth_arg vs i))).

(** [checkfd]; the descriptor of an open file is known to the C library only *)
Definition AFd (conv : Z -> Z) : arg := Arg 1
  (fun L i k => fd ← checkfd L i; k [AZ (conv fd)])
  (fun _ vs i => match nth_arg vs i with
                 | Some (VInt z) => Some (inr [AZ (conv (to_int z))])
                 | Some (VUd _) => None
                 | _ => Some (inl (EType i LUA_FILEHANDLE))
                 end).

(** [lua_toboolean] *)
Definition ABool : arg := Arg 1
  (fun L i k => b ← lua_toboolean L i; k [AZ (Z_of_bool b)])
  (fun _ vs i => Some (inr [AZ (Z_of_bool (match nth_arg vs i with
                                           | Some VNil | Some (VBool false) | None => false
                                           | _ => true end))])).

(** a constant of the source *)
Definition AConst (c : carg) : arg := Arg 0 (fun L i k => k [c]) (fun _ _ _ => Some (inr [c])).

(** the cookie of a handle; [None]: a handle without one, which the module never makes *)
Definition cookie_arg (h : heap) (vs : list value) (i : Z) (mt : string) : option (lerr + Z) :=
  match udata_of (rev vs) h i mt with
  | None => Some (inl (EType i mt))
  | Some (_, d) => match ud_uv d !! 0%nat with Some (VLud p) => Some (inr p) | _ => None end
  end.

(** [checkcookie] *)
Definition ACookie (mt : string) : arg := Arg 1
  (fun L i k => p ← checkcookie L i mt; k [AZ p])
  (fun h vs i => match cookie_arg h vs i mt with
                 | Some (inr p) => Some (if p =? 0 then inl (EArg i "cookie expired") else inr [AZ p])
                 | Some (inl e) => Some (inl e)
                 | None => None
                 end).

(** [luaL_checkudata]: the address of the block *)
Definition AUd (mt : string) : arg := Arg 1
  (fun L i k => p ← luaL_checkudata L i mt; k [AZ p])
  (fun h vs i => match udata_of (rev vs) h i mt with
                 | Some (_, d) => Some (inr [AZ (ud_blk d)])
                 | None => Some (inl (EType i mt))
                 end).

(** [luaL_opt(L, f, i, NULL)] *)
Definition opt_arg (L : nat) (i : Z) (f : prog Z) : prog Z :=
  none ← lua_isnoneornil L i;
  if none : bool then mret 0 else f.

(** a handle, or nothing for [NULL] *)
Definition AOptCookie (mt : string) : arg := Arg 1
  (fun L i k => p ← opt_arg L i (checkcookie L i mt); k [AZ p])
  (fun h vs i => if is_none (nth_arg vs i) then Some (inr [AZ 0]) else a_spec (ACookie mt) h vs i).

Lemma at_rev (vs : list value) i :
  0 < i -> at_ (rev vs) i = match vs !! Z.to_nat (i - 1) with Some v => Val v | None => Absent end.
Proof.
  intros Hi. destruct (vs !! Z.to_nat (i - 1)) as [v|] eqn:Hv; [by apply at_frame|].
  apply lookup_ge_None in Hv. unfold at_, pos. destruct i as [|p|p]; [lia| |lia].
  rewrite length_rev. rewrite (proj2 (Nat.leb_gt _ _)) by lia. done.
Qed.


Section reading.
Context `{LuaSem} {S : Type} `{Libc S} (C : clib S).
Implicit Types (w : world S lstate) (L : nat) (vs : list value) (h : heap).
Abbreviation rn := (run (documented C)).
Abbreviation st L vs n h := (put L (LS (rev vs) n h)).

Lemma run_checkinteger L vs i n h w :
  0 < i ->
  rn (luaL_checkinteger L i) (st L vs n h w) =
  match vs !! Z.to_nat (i - 1) with
  | Some (VInt z) => (Ok z, st L vs n h w)
  | Some (VNum f) => match float_to_integer f with
                     | Some z => (Ok z, st L vs n h w)
                     | None => (Halt (Raise (EArg i "number has no integer representation")), st L vs n h w)
                     end
  | Some (VStr _) => (Halt (Unspec "string to number coercion"), st L vs n h w)
  | _ => (Halt (Raise (EType i "number")), st L vs n h w)
  end.
Proof.
  intros Hi. rewrite run_lua. doc_eval. rewrite !at_rev by done.
  destruct (vs !! Z.to_nat (i - 1)) as [[]|] eqn:Hv; cbn [stk]; rewrite ?at_rev, ?Hv by done;
    repeat case_match; simplify_eq; done.
Qed.

Lemma run_optinteger L vs i d n h w :
  0 < i ->
  rn (luaL_optinteger L i d) (st L vs n h w) =
  match vs !! Z.to_nat (i - 1) with
  | Some (VInt z) => (Ok z, st L vs n h w)
  | Some (VNum f) => match float_to_integer f with
                     | Some z => (Ok z, st L vs n h w)
                     | None => (Halt (Raise (EArg i "number has no integer representation")), st L vs n h w)
                     end
  | Some (VStr _) => (Halt (Unspec "string to number coercion"), st L vs n h w)
  | Some VNil | None => (Ok d, st L vs n h w)
  | _ => (Halt (Raise (EType i "number")), st L vs n h w)
  end.
Proof.
  intros Hi. rewrite run_lua. doc_eval. rewrite !at_rev by done.
  destruct (vs !! Z.to_nat (i - 1)) as [[]|] eqn:Hv; cbn [stk]; rewrite ?at_rev, ?Hv by done;
    repeat case_match; simplify_eq; done.
Qed.

Lemma run_checklstring L vs i n h w :
  0 < i ->
  rn (luaL_checklstring L i) (st L vs n h w) =
  match vs !! Z.to_nat (i - 1) with
  | Some (VStr s) => (Ok s, st L vs n h w)
  | Some (VInt _) | Some (VNum _) => (Halt (Unspec "number to string coercion"), st L vs n h w)
  | _ => (Halt (Raise (EType i "string")), st L vs n h w)
  end.
Proof.
  intros Hi. rewrite run_lua. doc_eval. rewrite !at_rev by done.
  destruct (vs !! Z.to_nat (i - 1)) as [[]|] eqn:Hv; cbn [stk]; rewrite ?at_rev, ?Hv by done;
    repeat case_match; simplify_eq; done.
Qed.

Lemma run_noneornil L vs i n h w :
  0 < i ->
  rn (lua_isnoneornil L i) (st L vs n h w) =
  (Ok (match vs !! Z.to_nat (i - 1) with None | Some VNil => true | _ => false end), st L vs n h w).
Proof.
  intros Hi. unfold lua_isnoneornil. lua_run. rewrite at_rev by done.
  by destruct (vs !! Z.to_nat (i - 1)) as [[]|].
Qed.

Lemma run_optstring L vs i n h w :
  0 < i ->
  rn (luaL_optstring L i) (st L vs n h w) =
  match vs !! Z.to_nat (i - 1) with
  | Some (VStr s) => (Ok (Some (cstr s)), st L vs n h w)
  | Some VNil | None => (Ok None, st L vs n h w)
  | Some (VInt _) | Some (VNum _) => (Halt (Unspec "number to string coercion"), st L vs n h w)
  | _ => (Halt (Raise (EType i "string")), st L vs n h w)
  end.
Proof.
  intros Hi. unfold luaL_optstring. rewrite run_bind, run_noneornil by done. cbn [andthen].
  destruct (vs !! Z.to_nat (i - 1)) as [[]|] eqn:Hv; try done; rewrite run_bind, run_checklstring, Hv by done; done.
Qed.

(** [checkfd] on anything but a userdata *)
Lemma run_checkfd L vs i n h w :
  0 < i -> (forall u, vs !! Z.to_nat (i - 1) ≠ Some (VUd u)) ->
  rn (checkfd L i) (st L vs n h w) =
  match vs !! Z.to_nat (i - 1) with
  | Some (VInt z) => (Ok (to_int z), st L vs n h w)
  | _ => (Halt (Raise (EType i LUA_FILEHANDLE)), st L vs n h w)
  end.
Proof.
  intros Hi Hu. unfold checkfd. lua_run. rewrite !at_rev by done.
  destruct (vs !! Z.to_nat (i - 1)) as [[]|] eqn:Hv; lua_run; rewrite ?at_rev, ?Hv by done; lua_run;
    try done; try (unfold udata_of; rewrite at_rev, Hv by done; done).
  by destruct (Hu u).
Qed.


(** all arguments: reading them is [args_of] *)
Lemma run_read_args L l : Forall Reads l -> forall vs i k n h w r,
  0 < i -> args_of h vs i l = Some r ->
  rn (read_args L i l k) (st L vs (1 + n) h w) =
  match r with
  | inr a => rn (k a) (st L vs (1 + n) h w)
  | inl e => (Halt (Raise e), st L vs (1 + n) h w)
  end.
Proof.
  induction 1 as [|a l Ha _ IH]; intros vs i k n h w r Hi Hr; [by injection Hr as <-|]. cbn [args_of read_args] in *.
  destruct (a_spec a h vs i) as [x|] eqn:Ex; [|done].
  rewrite (reads_ok _ _ _ C L vs i _ n h w x Hi Ex). destruct x as [e|x]; [by injection Hr as <-|].
  destruct (args_of h vs (i + takes a) l) as [y|] eqn:Ey; [|done].
  rewrite (IH vs (i + takes a) _ n h w y); [|pose proof reads_takes; lia|done].
  destruct y; by injection Hr as <-.
Qed.
End reading.

(** *** The laws *)

Ltac reads_arg lem :=
  split; [done|]; intros LU S LB C L vs i k n h w r Hi Hr; cbn [a_read a_spec AInt AOptInt AStr ALStr AOptStr AFd ABool ACookie AConst] in *;
  unfold nth_arg, int_arg, str_arg, or_error, is_none, luaL_checkstring in *;
  rewrite ?run_bind, lem by done; repeat case_match; simplify_eq; try done.

#[export] Instance reads_int conv : Reads (AInt conv).
Proof. reads_arg @run_checkinteger. Qed.

#[export] Instance reads_optint d conv : Reads (AOptInt d conv).
Proof. reads_arg @run_optinteger. Qed.

#[export] Instance reads_str : Reads AStr.
Proof. reads_arg @run_checklstring. Qed.

#[export] Instance reads_lstr : Reads ALStr.
Proof. reads_arg @run_checklstring. Qed.

#[export] Instance reads_optstr : Reads AOptStr.
Proof. reads_arg @run_optstring. Qed.

#[export] Instance reads_fd conv : Reads (AFd conv).
Proof.
  split; [done|]. intros LU S LB C L vs i k n h w r Hi Hr. cbn [a_read a_spec AInt AOptInt AStr ALStr AOptStr AFd ABool ACookie AConst] in *. unfold nth_arg in *.
  rewrite run_bind, run_checkfd; [|done|].
  - repeat case_match; simplify_eq; done.
  - intros u Hu. by rewrite Hu in Hr.
Qed.

#[export] Instance reads_bool : Reads ABool.
Proof.
  split; [done|]. intros LU S LB C L vs i k n h w r Hi Hr. cbn [a_read a_spec AInt AOptInt AStr ALStr AOptStr AFd ABool ACookie AConst] in *. unfold nth_arg in *.
  injection Hr as <-. rewrite run_bind, run_lua. doc_eval. rewrite at_rev by done.
  destruct (vs !! Z.to_nat (i - 1)) as [[| [] | | | | | | |]|]; done.
Qed.

#[export] Instance reads_const c : Reads (AConst c).
Proof. split; [done|]. intros LU S LB C L vs i k n h w r Hi Hr. by injection Hr as <-. Qed.

#[export] Instance reads_cookie mt : Reads (ACookie mt).
Proof.
  split; [done|]. intros LU S LB C L vs i k n h w r Hi Hr. cbn [a_read a_spec AInt AOptInt AStr ALStr AOptStr AFd ABool ACookie AConst] in *. unfold cookie_arg in Hr.
  destruct (udata_of (rev vs) h i mt) as [[u d]|] eqn:Hu.
  - destruct (ud_uv d !! 0%nat) as [[]|] eqn:Hd; try done. rewrite run_bind.
    assert (Hh : handle (rev vs) h i mt p) by by exists u, d.
    destruct (Z.eqb_spec p 0) as [->|Hp]; injection Hr as <-.
    + by rewrite run_checkcookie_expired.
    + by rewrite (run_checkcookie C L i mt p).
  - injection Hr as <-. rewrite run_bind, run_checkcookie_wrong; [done| |done].
    rewrite at_rev by done. by destruct (vs !! Z.to_nat (i - 1)).
Qed.

#[export] Instance reads_ud mt : Reads (AUd mt).
Proof.
  split; [done|]. intros LU S LB C L vs i k n h w r Hi Hr. cbn [a_read a_spec AUd] in *.
  destruct (udata_of (rev vs) h i mt) as [[u d]|] eqn:Hu; injection Hr as <-; rewrite run_bind.
  - rewrite run_lua. doc_eval. rewrite Hu. destruct (udata_of_at _ _ _ _ _ _ Hu) as [-> _]. done.
  - rewrite run_checkudata_wrong; [done| |done]. rewrite at_rev by done. by destruct (vs !! Z.to_nat (i - 1)).
Qed.

#[export] Instance reads_optcookie mt : Reads (AOptCookie mt).
Proof.
  split; [done|]. intros LU S LB C L vs i k n h w r Hi Hr. cbn [a_read a_spec AOptCookie] in *.
  unfold opt_arg. rewrite run_bind, run_bind, run_noneornil by done. cbn [andthen]. unfold is_none, nth_arg in Hr.
  pose proof (reads_ok (Reads := reads_cookie mt) LU S LB C L vs i k n h w r Hi) as Hc. cbn [a_read ACookie] in Hc.
  rewrite run_bind in Hc.
  destruct (vs !! Z.to_nat (i - 1)) as [[]|] eqn:Hv; try (by injection Hr as <-); by apply Hc.
Qed.

(** ** What is done with the result *)

(** a result that is pushed, and nothing else *)
Definition push_fin (values : list carg -> cret -> list value) (prog_ : nat -> list carg -> cret -> prog Z) : fin :=
  Fin [] prog_ (fun _ _ _ _ c r h s => Some (values c r, h, s)).

Definition carg_int (c : option carg) : Z := match c with Some (AZ z) => z | _ => 0 end.

Fixpoint push_outs (L : nat) (r : cret) (i n : nat) (p : prog Z) : prog Z :=
  match n with
  | O => p
  | S n => lua_pushinteger L (out_int i r);; push_outs L r (S i) n p
  end.

(** nothing is returned *)
Definition RNone : fin := push_fin (fun _ _ => []) (fun _ _ _ => mret 0).
(** [success] *)
Definition Succeeds : fin := push_fin (fun _ _ => [VInt 1]) (fun L _ _ => success L).
(** the integer *)
Definition RPlain : fin := push_fin (fun _ r => [VInt (rc r)]) (fun L _ r => lua_pushinteger L (rc r);; mret 1).
(** the truth value *)
Definition RBool : fin :=
  push_fin (fun _ r => [VBool (negb (rc r =? 0))]) (fun L _ r => lua_pushboolean L (negb (rc r =? 0));; mret 1).
(** whether it is 0 *)
Definition RZero : fin := push_fin (fun _ r => [VBool (rc r =? 0)]) (fun L _ r => lua_pushboolean L (rc r =? 0);; mret 1).
(** the integer, nothing if it is 0 *)
Definition RRest : fin :=
  push_fin (fun _ r => if rc r =? 0 then [] else [VInt (rc r)])
    (fun L _ r => if rc r =? 0 then mret 0 else lua_pushinteger L (rc r);; mret 1).
(** the returned string, nil for [NULL] *)
Definition RStr : fin :=
  push_fin (fun _ r => [if rc r =? 0 then VNil else VStr (cstr (out_str 0 r))]) (fun L _ r => push_ret_string L r;; mret 1).
(** an integer argument of the call *)
Definition Arg_ (n : nat) : fin :=
  push_fin (fun c _ => [VInt (carg_int (c !! n))]) (fun L c _ => lua_pushinteger L (carg_int (c !! n));; mret 1).
(** the integers stored in [n] variables; the truth value of one; the string that was stored *)
Definition Outs (n : nat) : fin :=
  push_fin (fun _ r => map (fun i => VInt (out_int i r)) (seq 0 n)) (fun L _ r => push_outs L r 0 n (mret (Z.of_nat n))).
Definition OutBool : fin :=
  push_fin (fun _ r => [VBool (negb (out_int 0 r =? 0))]) (fun L _ r => lua_pushboolean L (negb (out_int 0 r =? 0));; mret 1).
Definition OutStr : fin :=
  push_fin (fun _ r => [VStr (cstr (out_str 0 r))]) (fun L _ r => lua_pushstring L (out_str 0 r);; mret 1).

(** several values, the first of which is pushed first *)
Fixpoint push_each (L : nat) (r : cret) (l : list (cret -> value)) (k : prog Z) : prog Z :=
  match l with
  | [] => k
  | f :: l => lua L (Push (f r));; push_each L r l k
  end.
Definition Pushed (l : list (cret -> value)) : fin :=
  push_fin (fun _ r => (fun f => f r) <$> l) (fun L _ r => push_each L r l (mret (Z.of_nat (length l)))).

(** the integer or truth value returned, or stored in a variable; the string in a buffer; a constant *)
Definition v_int (r : cret) : value := VInt (rc r).
Definition v_bool (r : cret) : value := VBool (negb (rc r =? 0)).
Definition v_out (i : nat) (r : cret) : value := VInt (out_int i r).
Definition v_outb (i : nat) (r : cret) : value := VBool (negb (out_int i r =? 0)).
Definition v_outs (i : nat) (r : cret) : value := VStr (cstr (out_str i r)).
Definition v_const (v : value) (r : cret) : value := v.

(** a new handle on the returned address *)
Definition New (mt : string) : fin := Fin []
  (fun L _ r => new L (rc r) mt)
  (fun _ _ _ _ _ r h s =>
    match reg_get (inl mt) h with VTab m => Some ([VUd (fresh h)], alloc_handle m (rc r) h, s) | _ => None end).

(** a handle on the address that was stored; it keeps argument 1 alive *)
Definition Newref (mt : string) : fin := Fin []
  (fun L _ r => newref L 1 (out_int 0 r) mt)
  (fun _ _ _ vs _ r h s =>
    match reg_get (inl mt) h, vs with
    | VTab m, v :: _ => Some ([VUd (fresh h)], alloc_ref m (out_int 0 r) v h, s)
    | _, _ => None
    end).

(** a new handle on the address that was stored *)
Definition NewOut (mt : string) (i : nat) : fin := Fin []
  (fun L _ r => new L (out_int i r) mt)
  (fun _ _ _ _ _ r h s =>
    match reg_get (inl mt) h with VTab m => Some ([VUd (fresh h)], alloc_handle m (out_int i r) h, s) | _ => None end).

(** -1, [NULL], or anything but 0 is a failure *)
Definition or_errno (bad : Z) (f : fin) : fin := Fin (f_calls f)
  (fun L c r => if rc r =? bad then e ← errno; fail L e else f_prog f L c r)
  (fun S LB lib vs c r h s =>
    if rc r =? bad then Some (failure (c_errno s), h, s) else f_spec f S LB lib vs c r h s).

Definition or_code (f : fin) : fin := Fin (f_calls f)
  (fun L c r => if negb (rc r =? 0) then fail L (rc r) else f_prog f L c r)
  (fun S LB lib vs c r h s =>
    if negb (rc r =? 0) then Some (failure (rc r), h, s) else f_spec f S LB lib vs c r h s).

Definition RSuccess : fin := or_errno (-1) Succeeds.
Definition RInt : fin := or_errno (-1) RPlain.
Definition RArg (n : nat) : fin := or_errno (-1) (Arg_ n).
Definition ROuts (n : nat) : fin := or_errno (-1) (Outs n).
Definition ROutBool : fin := or_errno (-1) OutBool.
Definition ROutStr : fin := or_errno (-1) OutStr.
Definition RTruth : fin := or_errno (-1) RBool.
Definition RNew (mt : string) : fin := or_errno 0 (New mt).
Definition RNewref (mt : string) : fin := or_errno (-1) (Newref mt).
Definition RErr : fin := or_code Succeeds.
Definition RErrStr : fin := or_code OutStr.

#[global] Typeclasses Opaque push_fin RNone Succeeds RPlain RBool RZero RRest RStr Arg_ Outs OutBool OutStr
  Pushed New NewOut Newref or_errno or_code.
#[global] Typeclasses Opaque AInt AOptInt AStr ALStr AOptStr AFd ABool AConst ACookie AUd AOptCookie.

(** *** The laws *)

Definition pushes (values : list carg -> cret -> list value) (prog_ : nat -> list carg -> cret -> prog Z) : Prop :=
  forall (LU : LuaSem) S (LB : Libc S) (C : clib S) L c r vs h w,
  exists n, run (documented C) (prog_ L c r) (put L (LS vs 20 h) w) =
    (Ok (Z.of_nat (length (values c r))), put L (LS (rev (values c r) ++ vs) n h) w).

Lemma push_finishes values prog_ : pushes values prog_ -> Finishes (push_fin values prog_).
Proof.
  intros Hp LU S LB C lib L vs c r h w res h' s _ Hs. injection Hs as <- <- <-.
  destruct (Hp LU S LB C L c r (rev vs) h w) as [n Hr]. exists n. cbn [f_prog push_fin]. by rewrite Hr, set_x_id.
Qed.

Ltac pushes19 := apply push_finishes; intros LU S LB C L c r vs h w; exists 19%nat; lua_run; done.

#[export] Instance finishes_none : Finishes RNone.
Proof. apply push_finishes. intros LU S LB C L c r vs h w. by exists 20%nat. Qed.

#[export] Instance finishes_succeeds : Finishes Succeeds.
Proof. apply push_finishes. intros LU S LB C L c r vs h w. exists 19%nat. exact (run_success C L vs 19 h w). Qed.

#[export] Instance finishes_plain : Finishes RPlain.
Proof. pushes19. Qed.
#[export] Instance finishes_bool : Finishes RBool.
Proof. pushes19. Qed.
#[export] Instance finishes_zero : Finishes RZero.
Proof. pushes19. Qed.
#[export] Instance finishes_arg n : Finishes (Arg_ n).
Proof. pushes19. Qed.
#[export] Instance finishes_outbool : Finishes OutBool.
Proof. pushes19. Qed.
#[export] Instance finishes_outstr : Finishes OutStr.
Proof. pushes19. Qed.

#[export] Instance finishes_rest : Finishes RRest.
Proof.
  apply push_finishes. intros LU S LB C L c r vs h w.
  destruct (rc r =? 0); [by exists 20%nat|]. exists 19%nat. lua_run. done.
Qed.

#[export] Instance finishes_str : Finishes RStr.
Proof.
  apply push_finishes. intros LU S LB C L c r vs h w. exists 19%nat. unfold push_ret_string.
  destruct (rc r =? 0); lua_run; done.
Qed.

Lemma run_push_outs `{LuaSem} {S} `{Libc S} (C : clib S) L r p k : forall i vs n h w,
  run (documented C) (push_outs L r i k p) (put L (LS vs (k + n) h) w) =
  run (documented C) p (put L (LS (rev (map (fun i => VInt (out_int i r)) (seq i k)) ++ vs) n h) w).
Proof.
  induction k as [|k IH]; intros i vs n h w; [done|]. cbn [push_outs seq map rev]. rewrite <- app_assoc.
  cbn [Nat.add]. rewrite run_bind, run_lua. doc_eval. rewrite IH. done.
Qed.

(** a frame has room for twenty values *)
Lemma finishes_outs n : (n <= 20)%nat -> Finishes (Outs n).
Proof.
  intros Hn. apply push_finishes. intros LU S LB C L c r vs h w. exists (20 - n)%nat.
  replace 20%nat with (n + (20 - n))%nat at 1 by lia. rewrite run_push_outs, run_ret. by rewrite length_map, length_seq.
Qed.
#[export] Instance finishes_outs1 : Finishes (Outs 1) := finishes_outs 1 ltac:(lia).
#[export] Instance finishes_outs2 : Finishes (Outs 2) := finishes_outs 2 ltac:(lia).
#[export] Instance finishes_outs3 : Finishes (Outs 3) := finishes_outs 3 ltac:(lia).

Lemma run_push_each `{LuaSem} {S} `{Libc S} (C : clib S) L r p l : forall vs n h w,
  run (documented C) (push_each L r l p) (put L (LS vs (length l + n) h) w) =
  run (documented C) p (put L (LS (rev ((fun f => f r) <$> l) ++ vs) n h) w).
Proof.
  induction l as [|f l IH]; intros vs n h w; [done|]. cbn [push_each fmap list_fmap rev length Nat.add].
  rewrite <- app_assoc, run_bind, run_lua. doc_eval. by rewrite IH.
Qed.

(** a frame has room for twenty values *)
Class Fits (l : list (cret -> value)) : Prop := fits : (length l <= 20)%nat.
#[export] Hint Extern 0 (Fits _) => unfold Fits; cbn [length]; lia : typeclass_instances.

#[export] Instance finishes_pushed l : Fits l -> Finishes (Pushed l).
Proof.
  intros Hn. apply push_finishes. intros LU S LB C L c r vs h w. exists (20 - length l)%nat. unfold Fits in Hn.
  replace 20%nat with (length l + (20 - length l))%nat at 1 by lia. by rewrite run_push_each, run_ret, length_fmap.
Qed.

#[export] Instance finishes_new mt : Finishes (New mt).
Proof.
  intros LU S LB C lib L vs c r h w res h' s _ Hs. cbn [f_prog f_spec New] in *.
  destruct (reg_get (inl mt) h) as [| | | | | |m| |] eqn:Hr; try done. injection Hs as <- <- <-. exists 19%nat.
  change 20%nat with (2 + 18)%nat. by rewrite (run_new C L _ mt m), set_x_id.
Qed.

#[export] Instance finishes_newout mt i : Finishes (NewOut mt i).
Proof.
  intros LU S LB C lib L vs c r h w res h' s _ Hs. cbn [f_prog f_spec NewOut] in *.
  destruct (reg_get (inl mt) h) as [| | | | | |m| |] eqn:Hr; try done. injection Hs as <- <- <-. exists 19%nat.
  change 20%nat with (2 + 18)%nat. by rewrite (run_new C L _ mt m), set_x_id.
Qed.

#[export] Instance finishes_newref mt : Finishes (Newref mt).
Proof.
  intros LU S LB C lib L vs c r h w res h' s _ Hs. cbn [f_prog f_spec Newref] in *.
  destruct (reg_get (inl mt) h) as [| | | | | |m| |] eqn:Hr; try done. destruct vs as [|v vs]; [done|].
  injection Hs as <- <- <-. exists 19%nat. change 20%nat with (2 + 18)%nat.
  rewrite (run_newref C L 1 _ mt m v); [by rewrite set_x_id|done| |done].
  rewrite (at_rev (v :: vs)) by done. done.
Qed.

#[export] Instance finishes_or_errno bad f : Finishes f -> Finishes (or_errno bad f).
Proof.
  intros Hf LU S LB C lib L vs c r h w res h' s Hl Hs. cbn [f_prog f_spec f_calls or_errno] in *.
  destruct (rc r =? bad); [|by eapply Hf]. injection Hs as <- <- <-. exists 17%nat.
  rewrite run_bind, run_errno. cbn [andthen]. change 20%nat with (3 + 17)%nat. by rewrite run_fail, set_x_id.
Qed.

#[export] Instance finishes_or_code f : Finishes f -> Finishes (or_code f).
Proof.
  intros Hf LU S LB C lib L vs c r h w res h' s Hl Hs. cbn [f_prog f_spec f_calls or_code] in *.
  destruct (negb (rc r =? 0)); [|by eapply Hf]. injection Hs as <- <- <-. exists 17%nat.
  change 20%nat with (3 + 17)%nat. by rewrite run_fail, set_x_id.
Qed.

(** ** The refinement *)

(** a wrapper does what its contract says *)
Lemma wrapper_contract `{LuaSem} {S} `{Libc S} (C : clib S) L fn args order f lib vs h (w : world S lstate) o h' s :
  Forall Reads args -> Finishes f -> external C (fn :: f_calls f) lib ->
  contract lib fn args order f vs h (wx w) = Some (o, h', s) ->
  executes C L (wrapper fn args order f) vs h w o (put L (idle h') (set_x s w)).
Proof.
  intros Ha Hf He Hc. unfold contract in Hc.
  destruct (args_of h vs 1 args) as [[e|a]|] eqn:Hargs; [| |done].
  - injection Hc as <- <- <-. rewrite set_x_id. apply (executes_halt C L _ _ h w _ (rev vs) 20); [|done].
    unfold wrapper, frame, LUA_MINSTACK. by rewrite (run_read_args C L args Ha vs 1 _ 19 h w (inl e)).
  - destruct (f_spec f S _ lib vs _ _ h _) as [[[res h1] s1]|] eqn:Hs; [|done]. injection Hc as <- <- <-.
    set (r := lib fn (reorder order a) (wx w)) in *.
    destruct (Hf _ S _ C lib L vs (reorder order a) r.1 h (set_x r.2 w) res h1 s1) as (n & Hr); [|done|].
    { intros g b w' Hin. apply He. by right. }
    apply (executes_return C L _ _ h w _ (rev vs) n). unfold wrapper, frame, LUA_MINSTACK.
    rewrite (run_read_args C L args Ha vs 1 _ 19 h w (inr a)) by done. cbv zeta.
    rewrite run_bind, (run_external C (fn :: f_calls f) lib fn) by (done || by left). exact Hr.
Qed.

(** ** Tables of wrappers *)

Definition wrapped_ok (e : wrapped) : Prop :=
  w_prog e = wrapper (w_call e) (w_args e) (w_order e) (w_fin e) /\ Forall Reads (w_args e) /\ Finishes (w_fin e).

Lemma wrapped_contract `{LuaSem} {S} `{Libc S} (C : clib S) tbl lib L vs h (w : world S lstate) o h' s e :
  Forall wrapped_ok tbl -> In e tbl -> external C (w_call e :: f_calls (w_fin e)) lib ->
  contract lib (w_call e) (w_args e) (w_order e) (w_fin e) vs h (wx w) = Some (o, h', s) ->
  executes C L (w_prog e) vs h w o (put L (idle h') (set_x s w)).
Proof.
  intros Hall Hin He Hc. rewrite list.Forall_forall in Hall.
  destruct (Hall e) as (-> & Ha & Hf); [by apply list_elem_of_In|]. by eapply wrapper_contract.
Qed.

(** shows of a table that every function is the wrapper of its description *)
Ltac wrapped_table :=
  repeat (apply Forall_cons; [split; [reflexivity|split; [repeat (apply Forall_cons; [apply _|]); apply Forall_nil|apply _]]|]);
  apply Forall_nil.
