(* ===== verification/UnistdCalls.v ===== *)
(** * lua_unistd.c: the functions that are one system call

    Each function as the source has it, then the table of their descriptions
    ([Wrapper]): the arguments a script gives, the call, and what comes back. *)

From S2P Require Import Prelude LuaApi Machine Capi Utils Wrapper.

Section calls.
Context `{Consts}.

Definition l_fork (L : nat) : prog Z :=
  r ← call "fork" [];
  if rc r =? -1 then
    e ← errno;
    fail L e
  else
    lua_pushinteger L (rc r);;
    mret 1.

Definition l__Fork (L : nat) : prog Z :=
  r ← call "_Fork" [];
  if rc r =? -1 then
    e ← errno;
    fail L e
  else
    lua_pushinteger L (rc r);;
    mret 1.

Definition l_access (L : nat) : prog Z :=
  path ← luaL_checkstring L 1;
  mode ← luaL_checkinteger L 2;
  r ← call "access" [AS path; AZ (to_int mode)];
  if rc r =? -1 then
    e ← errno;
    fail L e
  else success L.

Definition l_eaccess (L : nat) : prog Z :=
  path ← luaL_checkstring L 1;
  mode ← luaL_checkinteger L 2;
  r ← call "eaccess" [AS path; AZ (to_int mode)];
  if rc r =? -1 then
    e ← errno;
    fail L e
  else success L.

Definition l_faccessat (L : nat) : prog Z :=
  dfd ← luaL_checkinteger L 1;
  path ← luaL_checkstring L 2;
  mode ← luaL_checkinteger L 3;
  flag ← luaL_optinteger L 4 0;
  r ← call "faccessat" [AZ (to_int dfd); AS path; AZ (to_int mode); AZ (to_int flag)];
  if rc r =? -1 then
    e ← errno;
    fail L e
  else success L.

Definition l_acct (L : nat) : prog Z :=
  path ← luaL_optstring L 1;
  r ← call "acct" [null_or path];
  if rc r =? -1 then
    e ← errno;
    fail L e
  else success L.

Definition l_chdir (L : nat) : prog Z :=
  path ← luaL_checkstring L 1;
  r ← call "chdir" [AS path];
  if rc r =? -1 then
    e ← errno;
    fail L e
  else success L.

Definition l_fchdir (L : nat) : prog Z :=
  fd ← luaL_checkinteger L 1;
  r ← call "fchdir" [AZ (to_int fd)];
  if rc r =? -1 then
    e ← errno;
    fail L e
  else success L.

Definition l_check_utility_compat (L : nat) : prog Z :=
  utils ← luaL_checkstring L 1;
  r ← call "check_utility_compat" [AS utils];
  lua_pushboolean L (rc r =? 0);;
  mret 1.

Definition l_chown (L : nat) : prog Z :=
  path ← luaL_checkstring L 1;
  owner ← luaL_checkinteger L 2;
  group ← luaL_checkinteger L 3;
  r ← call "chown" [AS path; AZ (to_uint owner); AZ (to_uint group)];
  if rc r =? -1 then
    e ← errno;
    fail L e
  else success L.

Definition l_fchown (L : nat) : prog Z :=
  fd ← checkfd L 1;
  owner ← luaL_checkinteger L 2;
  group ← luaL_checkinteger L 3;
  r ← call "fchown" [AZ fd; AZ (to_uint owner); AZ (to_uint group)];
  if rc r =? -1 then
    e ← errno;
    fail L e
  else success L.

Definition l_lchown (L : nat) : prog Z :=
  path ← luaL_checkstring L 1;
  owner ← luaL_checkinteger L 2;
  group ← luaL_checkinteger L 3;
  r ← call "lchown" [AS path; AZ (to_uint owner); AZ (to_uint group)];
  if rc r =? -1 then
    e ← errno;
    fail L e
  else success L.

Definition l_fchownat (L : nat) : prog Z :=
  dfd ← luaL_checkinteger L 1;
  path ← luaL_checkstring L 2;
  owner ← luaL_checkinteger L 3;
  group ← luaL_checkinteger L 4;
  flag ← luaL_optinteger L 5 0;
  r ← call "fchownat" [AZ (to_int dfd); AS path; AZ (to_uint owner); AZ (to_uint group); AZ (to_int flag)];
  if rc r =? -1 then
    e ← errno;
    fail L e
  else success L.

Definition l_chroot (L : nat) : prog Z :=
  dirname ← luaL_checkstring L 1;
  r ← call "chroot" [AS dirname];
  if rc r =? -1 then
    e ← errno;
    fail L e
  else success L.

Definition l_fchroot (L : nat) : prog Z :=
  dfd ← luaL_checkinteger L 1;
  r ← call "fchroot" [AZ (to_int dfd)];
  if rc r =? -1 then
    e ← errno;
    fail L e
  else success L.

Definition l_close (L : nat) : prog Z :=
  fd ← checkfd L 1;
  r ← call "close" [AZ fd];
  if rc r =? -1 then
    e ← errno;
    fail L e
  else success L.

Definition l_close_range (L : nat) : prog Z :=
  lowfd ← checkfd L 1;
  highfd ← checkfd L 2;
  flags ← luaL_optinteger L 3 0;
  r ← call "close_range" [AZ (to_uint lowfd); AZ (to_uint highfd); AZ (to_int flags)];
  if rc r =? -1 then
    e ← errno;
    fail L e
  else success L.

Definition l_closefrom (L : nat) : prog Z :=
  lowfd ← checkfd L 1;
  call "closefrom" [AZ lowfd];;
  mret 0.

Definition l_dup (L : nat) : prog Z :=
  oldd ← checkfd L 1;
  r ← call "dup" [AZ oldd];
  if rc r =? -1 then
    e ← errno;
    fail L e
  else
    lua_pushinteger L (rc r);;
    mret 1.

Definition l_dup2 (L : nat) : prog Z :=
  oldd ← checkfd L 1;
  newd ← checkfd L 2;
  r ← call "dup2" [AZ oldd; AZ newd];
  if rc r =? -1 then
    e ← errno;
    fail L e
  else
    lua_pushinteger L newd;;
    mret 1.

Definition l_dup3 (L : nat) : prog Z :=
  oldd ← checkfd L 1;
  newd ← checkfd L 2;
  flags ← luaL_optinteger L 3 0;
  r ← call "dup3" [AZ oldd; AZ newd; AZ (to_int flags)];
  if rc r =? -1 then
    e ← errno;
    fail L e
  else
    lua_pushinteger L newd;;
    mret 1.

Definition l_getusershell (L : nat) : prog Z :=
  r ← call "getusershell" [];
  push_ret_string L r;;
  mret 1.

Definition l_setusershell (L : nat) : prog Z :=
  call "setusershell" [];;
  mret 0.

Definition l_endusershell (L : nat) : prog Z :=
  call "endusershell" [];;
  mret 0.

Definition l_enter_restricted_mode (L : nat) : prog Z :=
  call "__FreeBSD_libc_enter_restricted_mode" [];;
  mret 0.

Definition l_fdatasync (L : nat) : prog Z :=
  fd ← checkfd L 1;
  r ← call "fdatasync" [AZ fd];
  if rc r =? -1 then
    e ← errno;
    fail L e
  else success L.

Definition l_fsync (L : nat) : prog Z :=
  fd ← checkfd L 1;
  r ← call "fsync" [AZ fd];
  if rc r =? -1 then
    e ← errno;
    fail L e
  else success L.

Definition l_sync (L : nat) : prog Z :=
  call "sync" [];;
  mret 0.

Definition l_feature_present (L : nat) : prog Z :=
  feature ← luaL_checkstring L 1;
  r ← call "feature_present" [AS feature];
  lua_pushboolean L (negb (rc r =? 0));;
  mret 1.

Definition l_pathconf (L : nat) : prog Z :=
  path ← luaL_checkstring L 1;
  name ← luaL_checkinteger L 2;
  set_errno 0;;
  r ← call "pathconf" [AS path; AZ (to_int name)];
  if rc r =? -1 then
    error ← errno;
    if error =? 0 then mret 0
    else
      error ← errno;
      fail L error
  else
    lua_pushinteger L (rc r);;
    mret 1.

Definition l_lpathconf (L : nat) : prog Z :=
  path ← luaL_checkstring L 1;
  name ← luaL_checkinteger L 2;
  set_errno 0;;
  r ← call "lpathconf" [AS path; AZ (to_int name)];
  if rc r =? -1 then
    error ← errno;
    if error =? 0 then mret 0
    else
      error ← errno;
      fail L error
  else
    lua_pushinteger L (rc r);;
    mret 1.

Definition l_fpathconf (L : nat) : prog Z :=
  fd ← checkfd L 1;
  name ← luaL_checkinteger L 2;
  set_errno 0;;
  r ← call "fpathconf" [AZ fd; AZ (to_int name)];
  if rc r =? -1 then
    error ← errno;
    if error =? 0 then mret 0
    else
      error ← errno;
      fail L error
  else
    lua_pushinteger L (rc r);;
    mret 1.

Definition l_unlink (L : nat) : prog Z :=
  path ← luaL_checkstring L 1;
  r ← call "unlink" [AS path];
  if rc r =? -1 then
    e ← errno;
    fail L e
  else success L.

Definition l_unlinkat (L : nat) : prog Z :=
  dfd ← luaL_checkinteger L 1;
  path ← luaL_checkstring L 2;
  flag ← luaL_optinteger L 3 0;
  r ← call "unlinkat" [AZ (to_int dfd); AS path; AZ (to_int flag)];
  if rc r =? -1 then
    e ← errno;
    fail L e
  else success L.

Definition l_funlinkat (L : nat) : prog Z :=
  dfd ← luaL_checkinteger L 1;
  path ← luaL_checkstring L 2;
  fd ← checkfd L 3;
  flag ← luaL_optinteger L 4 0;
  r ← call "funlinkat" [AZ (to_int dfd); AS path; AZ fd; AZ (to_int flag)];
  if rc r =? -1 then
    e ← errno;
    fail L e
  else success L.

Definition l_getdomainname (L : nat) : prog Z :=
  r ← call "getdomainname" [AZ (cst "MAXHOSTNAMELEN")];
  if rc r =? -1 then
    e ← errno;
    fail L e
  else
    lua_pushstring L (out_str 0 r);;
    mret 1.

Definition l_setdomainname (L : nat) : prog Z :=
  name ← luaL_checklstring L 1;
  r ← call "setdomainname" [AS name; AZ (Z.of_nat (String.length name))];
  if rc r =? -1 then
    e ← errno;
    fail L e
  else success L.

Definition l_getdtablesize (L : nat) : prog Z :=
  r ← call "getdtablesize" [];
  lua_pushinteger L (rc r);;
  mret 1.

Definition l_getgid (L : nat) : prog Z :=
  r ← call "getgid" [];
  lua_pushinteger L (rc r);;
  mret 1.

Definition l_getegid (L : nat) : prog Z :=
  r ← call "getegid" [];
  lua_pushinteger L (rc r);;
  mret 1.

Definition l_getuid (L : nat) : prog Z :=
  r ← call "getuid" [];
  lua_pushinteger L (rc r);;
  mret 1.

Definition l_geteuid (L : nat) : prog Z :=
  r ← call "geteuid" [];
  lua_pushinteger L (rc r);;
  mret 1.

Definition l_sethostname (L : nat) : prog Z :=
  name ← luaL_checklstring L 1;
  r ← call "sethostname" [AS name; AZ (Z.of_nat (String.length name))];
  if rc r =? -1 then
    e ← errno;
    fail L e
  else success L.

Definition l_getlogin (L : nat) : prog Z :=
  r ← call "getlogin_r" [AZ (cst "MAXLOGNAME")];
  if negb (rc r =? 0) then fail L (rc r)
  else
    lua_pushstring L (out_str 0 r);;
    mret 1.

Definition l_setlogin (L : nat) : prog Z :=
  name ← luaL_checkstring L 1;
  r ← call "setlogin" [AS name];
  if rc r =? -1 then
    e ← errno;
    fail L e
  else success L.

Definition l_getloginclass (L : nat) : prog Z :=
  r ← call "getloginclass" [AZ (cst "MAXLOGNAME")];
  if rc r =? -1 then
    e ← errno;
    fail L e
  else
    lua_pushstring L (out_str 0 r);;
    mret 1.

Definition l_setloginclass (L : nat) : prog Z :=
  name ← luaL_checkstring L 1;
  r ← call "setloginclass" [AS name];
  if rc r =? -1 then
    e ← errno;
    fail L e
  else success L.

Definition l_getosreldate (L : nat) : prog Z :=
  r ← call "getosreldate" [];
  if rc r =? -1 then
    e ← errno;
    fail L e
  else
    lua_pushinteger L (rc r);;
    mret 1.

Definition l_getpagesize (L : nat) : prog Z :=
  r ← call "getpagesize" [];
  lua_pushinteger L (rc r);;
  mret 1.

Definition l_getpeereid (L : nat) : prog Z :=
  s ← checkfd L 1;
  r ← call "getpeereid" [AZ s];
  if rc r =? -1 then
    e ← errno;
    fail L e
  else
    lua_pushinteger L (out_int 0 r);;
    lua_pushinteger L (out_int 1 r);;
    mret 2.

Definition l_getpgrp (L : nat) : prog Z :=
  r ← call "getpgrp" [];
  lua_pushinteger L (rc r);;
  mret 1.

Definition l_getpgid (L : nat) : prog Z :=
  pid ← luaL_checkinteger L 1;
  r ← call "getpgid" [AZ (to_int pid)];
  if rc r =? -1 then
    e ← errno;
    fail L e
  else
    lua_pushinteger L (rc r);;
    mret 1.

Definition l_getpid (L : nat) : prog Z :=
  r ← call "getpid" [];
  lua_pushinteger L (rc r);;
  mret 1.

Definition l_getppid (L : nat) : prog Z :=
  r ← call "getppid" [];
  lua_pushinteger L (rc r);;
  mret 1.

Definition l_getresgid (L : nat) : prog Z :=
  r ← call "getresgid" [];
  if rc r =? -1 then
    e ← errno;
    fail L e
  else
    lua_pushinteger L (out_int 0 r);;
    lua_pushinteger L (out_int 1 r);;
    lua_pushinteger L (out_int 2 r);;
    mret 3.

Definition l_getresuid (L : nat) : prog Z :=
  r ← call "getresuid" [];
  if rc r =? -1 then
    e ← errno;
    fail L e
  else
    lua_pushinteger L (out_int 0 r);;
    lua_pushinteger L (out_int 1 r);;
    lua_pushinteger L (out_int 2 r);;
    mret 3.

Definition l_setresgid (L : nat) : prog Z :=
  rgid ← luaL_checkinteger L 1;
  egid ← luaL_checkinteger L 2;
  sgid ← luaL_checkinteger L 3;
  r ← call "setresgid" [AZ (to_uint rgid); AZ (to_uint egid); AZ (to_uint sgid)];
  if rc r =? -1 then
    e ← errno;
    fail L e
  else success L.

Definition l_setresuid (L : nat) : prog Z :=
  ruid ← luaL_checkinteger L 1;
  euid ← luaL_checkinteger L 2;
  suid ← luaL_checkinteger L 3;
  r ← call "setresuid" [AZ (to_uint ruid); AZ (to_uint euid); AZ (to_uint suid)];
  if rc r =? -1 then
    e ← errno;
    fail L e
  else success L.

Definition l_getsid (L : nat) : prog Z :=
  pid ← luaL_checkinteger L 1;
  r ← call "getsid" [AZ (to_int pid)];
  if rc r =? -1 then
    e ← errno;
    fail L e
  else
    lua_pushinteger L (rc r);;
    mret 1.

Definition l_initgroups (L : nat) : prog Z :=
  name ← luaL_checkstring L 1;
  basegid ← luaL_checkinteger L 2;
  r ← call "initgroups" [AS name; AZ (to_uint basegid)];
  if rc r =? -1 then
    e ← errno;
    fail L e
  else success L.

Definition l_ttyname (L : nat) : prog Z :=
  fd ← checkfd L 1;
  r ← call "ttyname_r" [AZ fd; AZ (cst "sizeof(_PATH_DEV)" + cst "MAXNAMLEN")];
  if negb (rc r =? 0) then fail L (rc r)
  else
    lua_pushstring L (out_str 0 r);;
    mret 1.

Definition l_issetugid (L : nat) : prog Z :=
  r ← call "issetugid" [];
  lua_pushboolean L (negb (rc r =? 0));;
  mret 1.

Definition l_kcmp (L : nat) : prog Z :=
  pid1 ← luaL_checkinteger L 1;
  pid2 ← luaL_checkinteger L 2;
  type_ ← luaL_checkinteger L 3;
  idx1 ← luaL_optinteger L 4 0;
  idx2 ← luaL_optinteger L 5 0;
  r ← call "kcmp" [AZ (to_int pid1); AZ (to_int pid2); AZ (to_int type_); AZ (to_size idx1); AZ (to_size idx2)];
  if rc r =? -1 then
    e ← errno;
    fail L e
  else
    lua_pushinteger L (rc r);;
    mret 1.

Definition l_link (L : nat) : prog Z :=
  name1 ← luaL_checkstring L 1;
  name2 ← luaL_checkstring L 2;
  r ← call "link" [AS name1; AS name2];
  if rc r =? -1 then
    e ← errno;
    fail L e
  else success L.

Definition l_linkat (L : nat) : prog Z :=
  dfd1 ← luaL_checkinteger L 1;
  name1 ← luaL_checkstring L 2;
  dfd2 ← luaL_checkinteger L 3;
  name2 ← luaL_checkstring L 4;
  flag ← luaL_optinteger L 5 0;
  r ← call "linkat" [AZ (to_int dfd1); AS name1; AZ (to_int dfd2); AS name2; AZ (to_int flag)];
  if rc r =? -1 then
    e ← errno;
    fail L e
  else success L.

Definition l_lockf (L : nat) : prog Z :=
  fd ← checkfd L 1;
  function ← luaL_checkinteger L 2;
  size ← luaL_checkinteger L 3;
  r ← call "lockf" [AZ fd; AZ (to_int function); AZ size];
  if rc r =? -1 then
    e ← errno;
    fail L e
  else success L.

Definition l_lseek (L : nat) : prog Z :=
  fd ← checkfd L 1;
  offset ← luaL_checkinteger L 2;
  whence ← luaL_checkinteger L 3;
  r ← call "lseek" [AZ fd; AZ offset; AZ (to_int whence)];
  if rc r =? -1 then
    e ← errno;
    fail L e
  else
    lua_pushinteger L (rc r);;
    mret 1.

Definition l_mknod (L : nat) : prog Z :=
  path ← luaL_checkstring L 1;
  mode ← luaL_checkinteger L 2;
  dev ← luaL_checkinteger L 3;
  r ← call "mknod" [AS path; AZ (to_ushort mode); AZ (to_size dev)];
  if rc r =? -1 then
    e ← errno;
    fail L e
  else success L.

Definition l_pipe2 (L : nat) : prog Z :=
  flags ← luaL_optinteger L 1 0;
  r ← call "pipe2" [AZ (to_int flags)];
  if rc r =? -1 then
    e ← errno;
    fail L e
  else
    lua_pushinteger L (out_int 0 r);;
    lua_pushinteger L (out_int 1 r);;
    mret 2.

Definition l_write (L : nat) : prog Z :=
  fd ← checkfd L 1;
  buf ← luaL_checklstring L 2;
  r ← call "write" [AZ fd; AS buf; AZ (Z.of_nat (String.length buf))];
  if rc r =? -1 then
    e ← errno;
    fail L e
  else
    lua_pushinteger L (rc r);;
    mret 1.

Definition l_pwrite (L : nat) : prog Z :=
  fd ← checkfd L 1;
  buf ← luaL_checklstring L 2;
  offset ← luaL_checkinteger L 3;
  r ← call "pwrite" [AZ fd; AS buf; AZ (Z.of_nat (String.length buf)); AZ offset];
  if rc r =? -1 then
    e ← errno;
    fail L e
  else
    lua_pushinteger L (rc r);;
    mret 1.

Definition l_revoke (L : nat) : prog Z :=
  path ← luaL_checkstring L 1;
  r ← call "revoke" [AS path];
  if rc r =? -1 then
    e ← errno;
    fail L e
  else success L.

Definition l_rfork (L : nat) : prog Z :=
  flags ← luaL_checkinteger L 1;
  r ← call "rfork" [AZ (to_int flags)];
  if rc r =? -1 then
    e ← errno;
    fail L e
  else
    lua_pushinteger L (rc r);;
    mret 1.

Definition l_rmdir (L : nat) : prog Z :=
  path ← luaL_checkstring L 1;
  r ← call "rmdir" [AS path];
  if rc r =? -1 then
    e ← errno;
    fail L e
  else success L.

Definition l_setuid (L : nat) : prog Z :=
  uid ← luaL_checkinteger L 1;
  r ← call "setuid" [AZ (to_uint uid)];
  if rc r =? -1 then
    e ← errno;
    fail L e
  else success L.

Definition l_seteuid (L : nat) : prog Z :=
  euid ← luaL_checkinteger L 1;
  r ← call "seteuid" [AZ (to_uint euid)];
  if rc r =? -1 then
    e ← errno;
    fail L e
  else success L.

Definition l_setgid (L : nat) : prog Z :=
  gid ← luaL_checkinteger L 1;
  r ← call "setgid" [AZ (to_uint gid)];
  if rc r =? -1 then
    e ← errno;
    fail L e
  else success L.

Definition l_setegid (L : nat) : prog Z :=
  egid ← luaL_checkinteger L 1;
  r ← call "setegid" [AZ (to_uint egid)];
  if rc r =? -1 then
    e ← errno;
    fail L e
  else success L.

Definition l_setpgid (L : nat) : prog Z :=
  pid ← luaL_checkinteger L 1;
  pgid ← luaL_checkinteger L 2;
  r ← call "setpgid" [AZ (to_int pid); AZ (to_int pgid)];
  if rc r =? -1 then
    e ← errno;
    fail L e
  else success L.

Definition l_setregid (L : nat) : prog Z :=
  rgid ← luaL_checkinteger L 1;
  egid ← luaL_checkinteger L 2;
  r ← call "setregid" [AZ (to_uint rgid); AZ (to_uint egid)];
  if rc r =? -1 then
    e ← errno;
    fail L e
  else success L.

Definition l_setreuid (L : nat) : prog Z :=
  ruid ← luaL_checkinteger L 1;
  euid ← luaL_checkinteger L 2;
  r ← call "setreuid" [AZ (to_uint ruid); AZ (to_uint euid)];
  if rc r =? -1 then
    e ← errno;
    fail L e
  else success L.

Definition l_setsid (L : nat) : prog Z :=
  r ← call "setsid" [];
  if rc r =? -1 then
    e ← errno;
    fail L e
  else
    lua_pushinteger L (rc r);;
    mret 1.

Definition l_sleep (L : nat) : prog Z :=
  seconds ← luaL_checkinteger L 1;
  r ← call "sleep" [AZ (to_uint seconds)];
  if rc r =? 0 then mret 0
  else
    lua_pushinteger L (rc r);;
    mret 1.

Definition l_swapon (L : nat) : prog Z :=
  special ← luaL_checkstring L 1;
  r ← call "swapon" [AS special];
  if rc r =? -1 then
    e ← errno;
    fail L e
  else success L.

Definition l_swapoff (L : nat) : prog Z :=
  special ← luaL_checkstring L 1;
  flags ← luaL_optinteger L 2 0;
  r ← call "swapoff" [AS special; AZ (to_uint flags)];
  if rc r =? -1 then
    e ← errno;
    fail L e
  else success L.

Definition l_symlink (L : nat) : prog Z :=
  name1 ← luaL_checkstring L 1;
  name2 ← luaL_checkstring L 2;
  r ← call "symlink" [AS name1; AS name2];
  if rc r =? -1 then
    e ← errno;
    fail L e
  else success L.

Definition l_symlinkat (L : nat) : prog Z :=
  name1 ← luaL_checkstring L 1;
  dfd ← luaL_checkinteger L 2;
  name2 ← luaL_checkstring L 3;
  r ← call "symlinkat" [AS name1; AZ (to_int dfd); AS name2];
  if rc r =? -1 then
    e ← errno;
    fail L e
  else success L.

Definition l_sysconf (L : nat) : prog Z :=
  name ← luaL_checkinteger L 1;
  set_errno 0;;
  r ← call "sysconf" [AZ (to_int name)];
  if rc r =? -1 then
    error ← errno;
    if error =? 0 then mret 0
    else
      error ← errno;
      fail L error
  else
    lua_pushinteger L (rc r);;
    mret 1.

Definition l_tcgetpgrp (L : nat) : prog Z :=
  fd ← checkfd L 1;
  r ← call "tcgetpgrp" [AZ fd];
  if rc r =? -1 then
    e ← errno;
    fail L e
  else
    lua_pushinteger L (rc r);;
    mret 1.

Definition l_tcsetpgrp (L : nat) : prog Z :=
  fd ← checkfd L 1;
  pgrp ← luaL_checkinteger L 2;
  r ← call "tcsetpgrp" [AZ fd; AZ (to_int pgrp)];
  if rc r =? -1 then
    e ← errno;
    fail L e
  else success L.

Definition l_truncate (L : nat) : prog Z :=
  path ← luaL_checkstring L 1;
  length ← luaL_checkinteger L 2;
  r ← call "truncate" [AS path; AZ length];
  if rc r =? -1 then
    e ← errno;
    fail L e
  else success L.

Definition l_ftruncate (L : nat) : prog Z :=
  fd ← checkfd L 1;
  length ← luaL_checkinteger L 2;
  r ← call "ftruncate" [AZ fd; AZ length];
  if rc r =? -1 then
    e ← errno;
    fail L e
  else success L.

Definition l_undelete (L : nat) : prog Z :=
  path ← luaL_checkstring L 1;
  r ← call "undelete" [AS path];
  if rc r =? -1 then
    e ← errno;
    fail L e
  else success L.

Definition l_usleep (L : nat) : prog Z :=
  microseconds ← luaL_checkinteger L 1;
  r ← call "usleep" [AZ (to_uint microseconds)];
  if rc r =? -1 then
    e ← errno;
    fail L e
  else success L.

(** the same functions by what they do *)
Definition unistd_wrappers : list wrapped := [
  Wrapped "l_fork" l_fork "fork" [] [] RInt;
  Wrapped "l__Fork" l__Fork "_Fork" [] [] RInt;
  Wrapped "l_access" l_access "access" [AStr; AInt to_int] [] RSuccess;
  Wrapped "l_eaccess" l_eaccess "eaccess" [AStr; AInt to_int] [] RSuccess;
  Wrapped "l_faccessat" l_faccessat "faccessat" [AInt to_int; AStr; AInt to_int; AOptInt 0 to_int] [] RSuccess;
  Wrapped "l_acct" l_acct "acct" [AOptStr] [] RSuccess;
  Wrapped "l_chdir" l_chdir "chdir" [AStr] [] RSuccess;
  Wrapped "l_fchdir" l_fchdir "fchdir" [AInt to_int] [] RSuccess;
  Wrapped "l_check_utility_compat" l_check_utility_compat "check_utility_compat" [AStr] [] RZero;
  Wrapped "l_chown" l_chown "chown" [AStr; AInt to_uint; AInt to_uint] [] RSuccess;
  Wrapped "l_fchown" l_fchown "fchown" [AFd id; AInt to_uint; AInt to_uint] [] RSuccess;
  Wrapped "l_lchown" l_lchown "lchown" [AStr; AInt to_uint; AInt to_uint] [] RSuccess;
  Wrapped "l_fchownat" l_fchownat "fchownat" [AInt to_int; AStr; AInt to_uint; AInt to_uint; AOptInt 0 to_int] [] RSuccess;
  Wrapped "l_chroot" l_chroot "chroot" [AStr] [] RSuccess;
  Wrapped "l_fchroot" l_fchroot "fchroot" [AInt to_int] [] RSuccess;
  Wrapped "l_close" l_close "close" [AFd id] [] RSuccess;
  Wrapped "l_close_range" l_close_range "close_range" [AFd to_uint; AFd to_uint; AOptInt 0 to_int] [] RSuccess;
  Wrapped "l_closefrom" l_closefrom "closefrom" [AFd id] [] RNone;
  Wrapped "l_dup" l_dup "dup" [AFd id] [] RInt;
  Wrapped "l_dup2" l_dup2 "dup2" [AFd id; AFd id] [] (RArg 1);
  Wrapped "l_dup3" l_dup3 "dup3" [AFd id; AFd id; AOptInt 0 to_int] [] (RArg 1);
  Wrapped "l_getusershell" l_getusershell "getusershell" [] [] RStr;
  Wrapped "l_setusershell" l_setusershell "setusershell" [] [] RNone;
  Wrapped "l_endusershell" l_endusershell "endusershell" [] [] RNone;
  Wrapped "l_enter_restricted_mode" l_enter_restricted_mode "__FreeBSD_libc_enter_restricted_mode" [] [] RNone;
  Wrapped "l_fdatasync" l_fdatasync "fdatasync" [AFd id] [] RSuccess;
  Wrapped "l_fsync" l_fsync "fsync" [AFd id] [] RSuccess;
  Wrapped "l_sync" l_sync "sync" [] [] RNone;
  Wrapped "l_feature_present" l_feature_present "feature_present" [AStr] [] RBool;
  Wrapped "l_unlink" l_unlink "unlink" [AStr] [] RSuccess;
  Wrapped "l_unlinkat" l_unlinkat "unlinkat" [AInt to_int; AStr; AOptInt 0 to_int] [] RSuccess;
  Wrapped "l_funlinkat" l_funlinkat "funlinkat" [AInt to_int; AStr; AFd id; AOptInt 0 to_int] [] RSuccess;
  Wrapped "l_getdomainname" l_getdomainname "getdomainname" [AConst (AZ (cst "MAXHOSTNAMELEN"))] [] ROutStr;
  Wrapped "l_setdomainname" l_setdomainname "setdomainname" [ALStr] [] RSuccess;
  Wrapped "l_getdtablesize" l_getdtablesize "getdtablesize" [] [] RPlain;
  Wrapped "l_getgid" l_getgid "getgid" [] [] RPlain;
  Wrapped "l_getegid" l_getegid "getegid" [] [] RPlain;
  Wrapped "l_getuid" l_getuid "getuid" [] [] RPlain;
  Wrapped "l_geteuid" l_geteuid "geteuid" [] [] RPlain;
  Wrapped "l_sethostname" l_sethostname "sethostname" [ALStr] [] RSuccess;
  Wrapped "l_getlogin" l_getlogin "getlogin_r" [AConst (AZ (cst "MAXLOGNAME"))] [] RErrStr;
  Wrapped "l_setlogin" l_setlogin "setlogin" [AStr] [] RSuccess;
  Wrapped "l_getloginclass" l_getloginclass "getloginclass" [AConst (AZ (cst "MAXLOGNAME"))] [] ROutStr;
  Wrapped "l_setloginclass" l_setloginclass "setloginclass" [AStr] [] RSuccess;
  Wrapped "l_getosreldate" l_getosreldate "getosreldate" [] [] RInt;
  Wrapped "l_getpagesize" l_getpagesize "getpagesize" [] [] RPlain;
  Wrapped "l_getpeereid" l_getpeereid "getpeereid" [AFd id] [] (ROuts 2);
  Wrapped "l_getpgrp" l_getpgrp "getpgrp" [] [] RPlain;
  Wrapped "l_getpgid" l_getpgid "getpgid" [AInt to_int] [] RInt;
  Wrapped "l_getpid" l_getpid "getpid" [] [] RPlain;
  Wrapped "l_getppid" l_getppid "getppid" [] [] RPlain;
  Wrapped "l_getresgid" l_getresgid "getresgid" [] [] (ROuts 3);
  Wrapped "l_getresuid" l_getresuid "getresuid" [] [] (ROuts 3);
  Wrapped "l_setresgid" l_setresgid "setresgid" [AInt to_uint; AInt to_uint; AInt to_uint] [] RSuccess;
  Wrapped "l_setresuid" l_setresuid "setresuid" [AInt to_uint; AInt to_uint; AInt to_uint] [] RSuccess;
  Wrapped "l_getsid" l_getsid "getsid" [AInt to_int] [] RInt;
  Wrapped "l_initgroups" l_initgroups "initgroups" [AStr; AInt to_uint] [] RSuccess;
  Wrapped "l_ttyname" l_ttyname "ttyname_r" [AFd id; AConst (AZ (cst "sizeof(_PATH_DEV)" + cst "MAXNAMLEN"))] [] RErrStr;
  Wrapped "l_issetugid" l_issetugid "issetugid" [] [] RBool;
  Wrapped "l_kcmp" l_kcmp "kcmp" [AInt to_int; AInt to_int; AInt to_int; AOptInt 0 to_size; AOptInt 0 to_size] [] RInt;
  Wrapped "l_link" l_link "link" [AStr; AStr] [] RSuccess;
  Wrapped "l_linkat" l_linkat "linkat" [AInt to_int; AStr; AInt to_int; AStr; AOptInt 0 to_int] [] RSuccess;
  Wrapped "l_lockf" l_lockf "lockf" [AFd id; AInt to_int; AInt id] [] RSuccess;
  Wrapped "l_lseek" l_lseek "lseek" [AFd id; AInt id; AInt to_int] [] RInt;
  Wrapped "l_mknod" l_mknod "mknod" [AStr; AInt to_ushort; AInt to_size] [] RSuccess;
  Wrapped "l_pipe2" l_pipe2 "pipe2" [AOptInt 0 to_int] [] (ROuts 2);
  Wrapped "l_write" l_write "write" [AFd id; ALStr] [] RInt;
  Wrapped "l_pwrite" l_pwrite "pwrite" [AFd id; ALStr; AInt id] [] RInt;
  Wrapped "l_revoke" l_revoke "revoke" [AStr] [] RSuccess;
  Wrapped "l_rfork" l_rfork "rfork" [AInt to_int] [] RInt;
  Wrapped "l_rmdir" l_rmdir "rmdir" [AStr] [] RSuccess;
  Wrapped "l_setuid" l_setuid "setuid" [AInt to_uint] [] RSuccess;
  Wrapped "l_seteuid" l_seteuid "seteuid" [AInt to_uint] [] RSuccess;
  Wrapped "l_setgid" l_setgid "setgid" [AInt to_uint] [] RSuccess;
  Wrapped "l_setegid" l_setegid "setegid" [AInt to_uint] [] RSuccess;
  Wrapped "l_setpgid" l_setpgid "setpgid" [AInt to_int; AInt to_int] [] RSuccess;
  Wrapped "l_setregid" l_setregid "setregid" [AInt to_uint; AInt to_uint] [] RSuccess;
  Wrapped "l_setreuid" l_setreuid "setreuid" [AInt to_uint; AInt to_uint] [] RSuccess;
  Wrapped "l_setsid" l_setsid "setsid" [] [] RInt;
  Wrapped "l_sleep" l_sleep "sleep" [AInt to_uint] [] RRest;
  Wrapped "l_swapon" l_swapon "swapon" [AStr] [] RSuccess;
  Wrapped "l_swapoff" l_swapoff "swapoff" [AStr; AOptInt 0 to_uint] [] RSuccess;
  Wrapped "l_symlink" l_symlink "symlink" [AStr; AStr] [] RSuccess;
  Wrapped "l_symlinkat" l_symlinkat "symlinkat" [AStr; AInt to_int; AStr] [] RSuccess;
  Wrapped "l_tcgetpgrp" l_tcgetpgrp "tcgetpgrp" [AFd id] [] RInt;
  Wrapped "l_tcsetpgrp" l_tcsetpgrp "tcsetpgrp" [AFd id; AInt to_int] [] RSuccess;
  Wrapped "l_truncate" l_truncate "truncate" [AStr; AInt id] [] RSuccess;
  Wrapped "l_ftruncate" l_ftruncate "ftruncate" [AFd id; AInt id] [] RSuccess;
  Wrapped "l_undelete" l_undelete "undelete" [AStr] [] RSuccess;
  Wrapped "l_usleep" l_usleep "usleep" [AInt to_uint] [] RSuccess].

(** each is the wrapper of its description *)
Lemma unistd_wrappers_ok : Forall wrapped_ok unistd_wrappers.
Proof. wrapped_table. Qed.
End calls.
