(* ===== verification/Cpuset.v ===== *)
(** * lua_cpuset.h and lua_cpuset.c

    The [cpuset_t] userdata of [sys.cpuset]: a set of CPU numbers in the block
    of a full userdata, with the macros of [sys/cpuset.h] as its operations.
    The macros are a parameter of the model ([Cpusets]), with what cpuset(9)
    says of them as laws. *)

From S2P Require Import Prelude LuaApi Registry Machine Capi Utils Modules Samples.

(** ** The macros of sys/cpuset.h

    A [cpuset_t] is known by the CPUs that are set in it, numbered from 0 up to
    and excluding [CPU_SETSIZE]. *)

Inductive cpuop := OR | ORNOT | AND | ANDNOT | XOR.

Definition cpuop_bool (o : cpuop) (a b : bool) : bool :=
  match o with
  | OR => a || b
  | ORNOT => a || negb b
  | AND => a && b
  | ANDNOT => a && negb b
  | XOR => xorb a b
  end.

Class Cpusets := {
  CPU_SETSIZE : Z;
  sizeof_cpuset : Z;
  cpu_isset : Z -> Z -> bool;
  cpu_op : cpuop -> Z -> Z -> Z;
  cpu_zero : Z;
  cpu_fill : Z;
  cpu_set : Z -> Z -> Z;
  cpu_clr : Z -> Z -> Z;
  cpu_setof : Z -> Z;
  cpu_empty : Z -> bool;
  cpu_isfullset : Z -> bool;
  cpu_ffs : Z -> Z;
  cpu_count : Z -> Z;
  cpu_subset : Z -> Z -> bool;
  cpu_overlap : Z -> Z -> bool;
  cpu_cmp : Z -> Z -> bool;
  cpu_setsize_range : 0 < CPU_SETSIZE < 2 ^ 63;
  cpu_op_spec o a b i : 0 <= i < CPU_SETSIZE ->
    cpu_isset i (cpu_op o a b) = cpuop_bool o (cpu_isset i a) (cpu_isset i b);
  cpu_zero_spec i : 0 <= i < CPU_SETSIZE -> cpu_isset i cpu_zero = false;
  cpu_fill_spec i : 0 <= i < CPU_SETSIZE -> cpu_isset i cpu_fill = true;
  cpu_set_spec n a i : 0 <= n < CPU_SETSIZE -> 0 <= i < CPU_SETSIZE ->
    cpu_isset i (cpu_set n a) = (i =? n) || cpu_isset i a;
  cpu_clr_spec n a i : 0 <= n < CPU_SETSIZE -> 0 <= i < CPU_SETSIZE ->
    cpu_isset i (cpu_clr n a) = negb (i =? n) && cpu_isset i a;
  cpu_setof_spec n i : 0 <= n < CPU_SETSIZE -> 0 <= i < CPU_SETSIZE ->
    cpu_isset i (cpu_setof n) = (i =? n);
  cpu_empty_spec a : cpu_empty a = true <-> forall i, 0 <= i < CPU_SETSIZE -> cpu_isset i a = false;
  cpu_isfullset_spec a :
    cpu_isfullset a = true <-> forall i, 0 <= i < CPU_SETSIZE -> cpu_isset i a = true;
  cpu_ffs_spec a :
    (cpu_ffs a = 0 /\ forall i, 0 <= i < CPU_SETSIZE -> cpu_isset i a = false) \/
    (1 <= cpu_ffs a <= CPU_SETSIZE /\ cpu_isset (cpu_ffs a - 1) a = true /\
     forall i, 0 <= i < cpu_ffs a - 1 -> cpu_isset i a = false);
  cpu_count_spec a : cpu_count a =
    Z.of_nat (length (filter (fun i => cpu_isset i a = true) (seqZ 0 CPU_SETSIZE)));
  cpu_subset_spec a b : cpu_subset a b = true <->
    forall i, 0 <= i < CPU_SETSIZE -> cpu_isset i b = true -> cpu_isset i a = true;
  cpu_overlap_spec a b : cpu_overlap a b = true <->
    exists i, 0 <= i < CPU_SETSIZE /\ cpu_isset i a = true /\ cpu_isset i b = true;
  cpu_cmp_spec a b : cpu_cmp a b = false <->
    forall i, 0 <= i < CPU_SETSIZE -> cpu_isset i a = cpu_isset i b
}.

(** ** Operations *)

Section ops.
Context `{Cpusets}.

Definition CPUSET_METATABLE : string := "cpuset_t".

(** reading and overwriting a set in memory; a fresh block holds no set yet *)
Definition cset_load (o : obj) : option (Z * obj) :=
  match o with OCset a => Some (a, o) | _ => None end.
Definition cset_store (a : Z) (o : obj) : option (unit * obj) :=
  match o with OCset _ | OBuf _ _ => Some (tt, OCset a) | _ => None end.

(** the macros on addresses; an index beyond the array of words is undefined *)
Definition CPU_READ {A} (f : Z -> A) (set : Z) : prog A := a ← load set cset_load; mret (f a).
Definition CPU_WRITE (a set : Z) : prog unit := load set (cset_store a).
Definition CPU_COPY (from to : Z) : prog unit := a ← load from cset_load; CPU_WRITE a to.
Definition CPU_OP (o : cpuop) (dst src1 src2 : Z) : prog unit :=
  a ← load src1 cset_load; b ← load src2 cset_load; CPU_WRITE (cpu_op o a b) dst.
Definition in_set (n : Z) : prog unit :=
  if n <? CPU_SETSIZE then mret tt else undefined "CPU index outside of the set".
Definition CPU_SET (n set : Z) : prog unit :=
  in_set n;; a ← load set cset_load; CPU_WRITE (cpu_set n a) set.
Definition CPU_CLR (n set : Z) : prog unit :=
  in_set n;; a ← load set cset_load; CPU_WRITE (cpu_clr n a) set.
Definition CPU_SETOF (n set : Z) : prog unit := in_set n;; CPU_WRITE (cpu_setof n) set.
Definition CPU_ISSET (n set : Z) : prog bool := in_set n;; CPU_READ (cpu_isset n) set.
Definition CPU_READ2 {A} (f : Z -> Z -> A) (set1 set2 : Z) : prog A :=
  a ← load set1 cset_load; b ← load set2 cset_load; mret (f a b).

Definition newanoncpuset (L : nat) : prog Z :=
  set ← lua_newuserdatauv L sizeof_cpuset (OBuf sizeof_cpuset "") 0;
  luaL_setmetatable L CPUSET_METATABLE;;
  mret set.

Definition l_cpuset_copied (L : nat) : prog Z :=
  from ← luaL_checkudata L 1 CPUSET_METATABLE;
  to ← newanoncpuset L;
  CPU_COPY from to;;
  mret 1.

Definition l_cpuset_filled (L : nat) : prog Z :=
  set ← newanoncpuset L;
  CPU_WRITE cpu_fill set;;
  mret 1.

Definition l_cpuset_only (L : nat) : prog Z :=
  n ← luaL_checkinteger L 1;
  let cpu_idx := to_size n in
  set ← newanoncpuset L;
  CPU_SETOF cpu_idx set;;
  mret 1.

Definition l_cpuset_ored (L : nat) : prog Z :=
  src1 ← luaL_checkudata L 1 CPUSET_METATABLE;
  src2 ← luaL_checkudata L 2 CPUSET_METATABLE;
  dst ← newanoncpuset L;
  CPU_OP OR dst src1 src2;;
  mret 1.

Definition l_cpuset_ornoted (L : nat) : prog Z :=
  src1 ← luaL_checkudata L 1 CPUSET_METATABLE;
  src2 ← luaL_checkudata L 2 CPUSET_METATABLE;
  dst ← newanoncpuset L;
  CPU_OP ORNOT dst src1 src2;;
  mret 1.

Definition l_cpuset_anded (L : nat) : prog Z :=
  src1 ← luaL_checkudata L 1 CPUSET_METATABLE;
  src2 ← luaL_checkudata L 2 CPUSET_METATABLE;
  dst ← newanoncpuset L;
  CPU_OP AND dst src1 src2;;
  mret 1.

Definition l_cpuset_andnoted (L : nat) : prog Z :=
  src1 ← luaL_checkudata L 1 CPUSET_METATABLE;
  src2 ← luaL_checkudata L 2 CPUSET_METATABLE;
  dst ← newanoncpuset L;
  CPU_OP ANDNOT dst src1 src2;;
  mret 1.

Definition l_cpuset_xored (L : nat) : prog Z :=
  src1 ← luaL_checkudata L 1 CPUSET_METATABLE;
  src2 ← luaL_checkudata L 2 CPUSET_METATABLE;
  dst ← newanoncpuset L;
  CPU_OP XOR dst src1 src2;;
  mret 1.

Definition l_cpuset_zeroed (L : nat) : prog Z :=
  set ← newanoncpuset L;
  CPU_WRITE cpu_zero set;;
  mret 1.

Definition l_cpuset_clr (L : nat) : prog Z :=
  set ← luaL_checkudata L 1 CPUSET_METATABLE;
  n ← luaL_checkinteger L 2;
  let cpu_idx := to_size n in
  luaL_checktype L 3 TNONE;;
  CPU_CLR cpu_idx set;;
  lua_pop L 1;;
  mret 1.

Definition l_cpuset_copy (L : nat) : prog Z :=
  to ← luaL_checkudata L 1 CPUSET_METATABLE;
  from ← luaL_checkudata L 2 CPUSET_METATABLE;
  luaL_checktype L 3 TNONE;;
  CPU_COPY from to;;
  lua_pop L 1;;
  mret 1.

Definition l_cpuset_isset (L : nat) : prog Z :=
  set ← luaL_checkudata L 1 CPUSET_METATABLE;
  n ← luaL_checkinteger L 2;
  let cpu_idx := to_size n in
  b ← CPU_ISSET cpu_idx set;
  lua_pushboolean L b;;
  mret 1.

Definition l_cpuset_set (L : nat) : prog Z :=
  set ← luaL_checkudata L 1 CPUSET_METATABLE;
  n ← luaL_checkinteger L 2;
  let cpu_idx := to_size n in
  luaL_checktype L 3 TNONE;;
  CPU_SET cpu_idx set;;
  lua_pop L 1;;
  mret 1.

Definition l_cpuset_zero (L : nat) : prog Z :=
  set ← luaL_checkudata L 1 CPUSET_METATABLE;
  luaL_checktype L 2 TNONE;;
  CPU_WRITE cpu_zero set;;
  mret 1.

Definition l_cpuset_fill (L : nat) : prog Z :=
  set ← luaL_checkudata L 1 CPUSET_METATABLE;
  luaL_checktype L 2 TNONE;;
  CPU_WRITE cpu_fill set;;
  mret 1.

Definition l_cpuset_setof (L : nat) : prog Z :=
  set ← luaL_checkudata L 1 CPUSET_METATABLE;
  n ← luaL_checkinteger L 2;
  let cpu_idx := to_size n in
  luaL_checktype L 3 TNONE;;
  CPU_SETOF cpu_idx set;;
  lua_pop L 1;;
  mret 1.

Definition l_cpuset_empty (L : nat) : prog Z :=
  set ← luaL_checkudata L 1 CPUSET_METATABLE;
  b ← CPU_READ cpu_empty set;
  lua_pushboolean L b;;
  mret 1.

Definition l_cpuset_isfullset (L : nat) : prog Z :=
  set ← luaL_checkudata L 1 CPUSET_METATABLE;
  b ← CPU_READ cpu_isfullset set;
  lua_pushboolean L b;;
  mret 1.

Definition l_cpuset_ffs (L : nat) : prog Z :=
  set ← luaL_checkudata L 1 CPUSET_METATABLE;
  r ← CPU_READ cpu_ffs set;
  let cpu_idx := r - 1 in
  (if 0 <=? cpu_idx then lua_pushinteger L cpu_idx else lua_pushnil L);;
  mret 1.

Definition l_cpuset_count (L : nat) : prog Z :=
  set ← luaL_checkudata L 1 CPUSET_METATABLE;
  n ← CPU_READ cpu_count set;
  lua_pushinteger L n;;
  mret 1.

Definition l_cpuset_subset (L : nat) : prog Z :=
  haystack ← luaL_checkudata L 1 CPUSET_METATABLE;
  needle ← luaL_checkudata L 2 CPUSET_METATABLE;
  b ← CPU_READ2 cpu_subset haystack needle;
  lua_pushboolean L b;;
  mret 1.

Definition l_cpuset_overlap (L : nat) : prog Z :=
  set1 ← luaL_checkudata L 1 CPUSET_METATABLE;
  set2 ← luaL_checkudata L 2 CPUSET_METATABLE;
  b ← CPU_READ2 cpu_overlap set1 set2;
  lua_pushboolean L b;;
  mret 1.

Definition l_cpuset_cmp (L : nat) : prog Z :=
  set1 ← luaL_checkudata L 1 CPUSET_METATABLE;
  set2 ← luaL_checkudata L 2 CPUSET_METATABLE;
  b ← CPU_READ2 cpu_cmp set1 set2;
  lua_pushboolean L b;;
  mret 1.

Definition l_cpuset_equal (L : nat) : prog Z :=
  set1 ← luaL_checkudata L 1 CPUSET_METATABLE;
  set2 ← luaL_checkudata L 2 CPUSET_METATABLE;
  b ← CPU_READ2 cpu_cmp set1 set2;
  lua_pushboolean L (negb b);;
  mret 1.

Definition l_cpuset_or (L : nat) : prog Z :=
  set ← luaL_checkudata L 1 CPUSET_METATABLE;
  other ← luaL_checkudata L 2 CPUSET_METATABLE;
  luaL_checktype L 3 TNONE;;
  CPU_OP OR set set other;;
  lua_pop L 1;;
  mret 1.

Definition l_cpuset_ornot (L : nat) : prog Z :=
  set ← luaL_checkudata L 1 CPUSET_METATABLE;
  other ← luaL_checkudata L 2 CPUSET_METATABLE;
  luaL_checktype L 3 TNONE;;
  CPU_OP ORNOT set set other;;
  lua_pop L 1;;
  mret 1.

Definition l_cpuset_and (L : nat) : prog Z :=
  set ← luaL_checkudata L 1 CPUSET_METATABLE;
  other ← luaL_checkudata L 2 CPUSET_METATABLE;
  luaL_checktype L 3 TNONE;;
  CPU_OP AND set set other;;
  lua_pop L 1;;
  mret 1.

Definition l_cpuset_andnot (L : nat) : prog Z :=
  set ← luaL_checkudata L 1 CPUSET_METATABLE;
  other ← luaL_checkudata L 2 CPUSET_METATABLE;
  luaL_checktype L 3 TNONE;;
  CPU_OP ANDNOT set set other;;
  lua_pop L 1;;
  mret 1.

Definition l_cpuset_xor (L : nat) : prog Z :=
  set ← luaL_checkudata L 1 CPUSET_METATABLE;
  other ← luaL_checkudata L 2 CPUSET_METATABLE;
  luaL_checktype L 3 TNONE;;
  CPU_OP XOR set set other;;
  lua_pop L 1;;
  mret 1.

(** the method tables; an entry is a name and the C symbol it is bound to.
    [CPU_ORNOT] is defined by every supported system *)
Definition l_cpuset_funcs : list (string * string) := [
  ("copy", "l_cpuset_copied"); ("fill", "l_cpuset_filled"); ("only", "l_cpuset_only");
  ("or", "l_cpuset_ored"); ("ornot", "l_cpuset_ornoted"); ("and", "l_cpuset_anded");
  ("andnot", "l_cpuset_andnoted"); ("xor", "l_cpuset_xored"); ("zero", "l_cpuset_zeroed")].

Definition l_cpuset_meta : list (string * string) := [
  ("__band", "l_cpuset_anded"); ("__bor", "l_cpuset_ored"); ("__bxor", "l_cpuset_xored");
  ("__len", "l_cpuset_count"); ("__eq", "l_cpuset_equal"); ("clr", "l_cpuset_clr");
  ("copy", "l_cpuset_copy"); ("isset", "l_cpuset_isset"); ("set", "l_cpuset_set");
  ("zero", "l_cpuset_zero"); ("fill", "l_cpuset_fill"); ("setof", "l_cpuset_setof");
  ("empty", "l_cpuset_empty"); ("isfullset", "l_cpuset_isfullset"); ("ffs", "l_cpuset_ffs");
  ("count", "l_cpuset_count"); ("subset", "l_cpuset_subset"); ("overlap", "l_cpuset_overlap");
  ("cmp", "l_cpuset_cmp"); ("equal", "l_cpuset_equal"); ("or", "l_cpuset_or");
  ("ornot", "l_cpuset_ornot"); ("and", "l_cpuset_and"); ("andnot", "l_cpuset_andnot");
  ("xor", "l_cpuset_xor")].

Definition luaopen_sys_cpuset (L : nat) : prog Z :=
  register_type L CPUSET_METATABLE l_cpuset_meta;;
  luaL_newlib L l_cpuset_funcs;;
  define L "CPU_SETSIZE" CPU_SETSIZE;;
  mret 1.
End ops.

(** ** How they run

    [cset vs h w i p a]: the value at index [i] is a cpuset, whose block at [p]
    holds the set [a]. *)

Section run.
Context `{Cpusets} `{LuaSem} {S : Type} `{Libc S} (C : clib S).
Implicit Types (w : world S lstate) (L : nat) (vs : list value) (h : heap) (a b p q : Z).
Abbreviation rn := (run (documented C)).

Definition cset vs h w (i p a : Z) : Prop :=
  exists u d, udata_of vs h i CPUSET_METATABLE = Some (u, d) /\ ud_blk d = p /\
    wm w !! p = Some (OCset a).

Lemma run_check L i p a vs n h w :
  cset vs h w i p a ->
  rn (luaL_checkudata L i CPUSET_METATABLE) (put L (LS vs n h) w) =
  (Ok p, put L (LS vs n h) w).
Proof.
  intros (u & d & Hu & <- & _). rewrite run_lua. cbn [doc].
  by rewrite (doc_checkudata_ok _ _ _ _ _ _ _ Hu).
Qed.

Lemma run_cset_load p a L s w :
  wm w !! p = Some (OCset a) -> rn (load p cset_load) (put L s w) = (Ok a, put L s w).
Proof. intros Hp. by apply (run_read C _ _ _ a _ _ _ Hp). Qed.

Definition writable (o : obj) : Prop := match o with OCset _ | OBuf _ _ => True | _ => False end.

Lemma run_write a p o L s w :
  wm w !! p = Some o -> writable o ->
  rn (CPU_WRITE a p) (put L s w) = (Ok tt, put L s (poke p (OCset a) w)).
Proof.
  intros Hp Ho. apply (run_load C _ _ _ _ _ _ _ _ Hp). by destruct o.
Qed.

Lemma run_in_set k L s w :
  rn (in_set k) (put L s w) =
  ((if k <? CPU_SETSIZE then Ok tt else Halt (UB "CPU index outside of the set")), put L s w).
Proof. unfold in_set. by destruct (k <? CPU_SETSIZE). Qed.

(** the heap and the memory after the allocation of a set *)
Definition alloc_cset mt h w : heap :=
  bump (set_ud (fresh h) (Udata (Some mt) [] (wnext w)) h).
Definition alloc_mem a w : world S lstate :=
  poke (wnext w) (OCset a) (set_next (wnext w + 1) w).

Lemma run_newanon L mt vs n h w :
  reg_get (inl CPUSET_METATABLE) h = VTab mt -> woom w sizeof_cpuset (wnext w) = false ->
  wnext w ≠ 0 ->
  rn (newanoncpuset L) (put L (LS vs (1 + n) h) w) =
  (Ok (wnext w), put L (LS (VUd (fresh h) :: vs) n (alloc_cset mt h w))
                   (poke (wnext w) (OBuf sizeof_cpuset "") (set_next (wnext w + 1) w))).
Proof.
  intros Hr Ho Hz. unfold newanoncpuset, lua_newuserdatauv.
  rewrite !run_bind, run_malloc_ok by done. cbn [andthen].
  destruct (Z.eqb_spec (wnext w) 0); [done|]. lua_run.
  change (reg_get (inl CPUSET_METATABLE) (bump _)) with (reg_get (inl CPUSET_METATABLE) h).
  rewrite Hr. cbn [uds bump]. rewrite uds_set_ud. lua_run. by rewrite set_ud_bump.
Qed.

(** filling the fresh set *)
Lemma run_fill a L s w :
  rn (CPU_WRITE a (wnext w)) (put L s (poke (wnext w) (OBuf sizeof_cpuset "") (set_next (wnext w + 1) w))) =
  (Ok tt, put L s (alloc_mem a w)).
Proof.
  rewrite (run_write _ _ (OBuf sizeof_cpuset "")); [|by cbn; rewrite lookup_insert_eq|done].
  by rewrite poke_poke.
Qed.

(** the operands are still there after the allocation *)
Lemma fresh_other p o o' w :
  wm w !! p = Some o -> wm w !! wnext w = None ->
  wm (poke (wnext w) o' (set_next (wnext w + 1) w)) !! p = Some o.
Proof.
  intros Hp Hn. cbn. destruct (decide (p = wnext w)) as [->|Hne]; [by rewrite Hn in Hp|].
  by rewrite lookup_insert_ne.
Qed.
End run.

(** ** Properties *)

Section properties.
Context `{Cpusets} `{LuaSem} {S : Type} `{Libc S} (C : clib S).
Implicit Types (w : world S lstate) (L : nat) (x y z : value) (h : heap) (a b p q : Z).

(** the type is registered and a set can be allocated *)
Record ready (mt : nat) (h : heap) w : Prop := {
  ready_mt : reg_get (inl CPUSET_METATABLE) h = VTab mt;
  ready_mem : woom w sizeof_cpuset (wnext w) = false;
  ready_addr : wnext w ≠ 0;
  ready_free : wm w !! wnext w = None
}.

(** [b] tells which CPUs are in [a] *)
Definition has (a : Z) (f : Z -> bool) : Prop :=
  forall i, 0 <= i < CPU_SETSIZE -> cpu_isset i a = f i.

(** the functions of the module that combine two sets, and the methods that do *)
Definition makes : list ((nat -> prog Z) * cpuop) :=
  [(l_cpuset_ored, OR); (l_cpuset_ornoted, ORNOT); (l_cpuset_anded, AND);
   (l_cpuset_andnoted, ANDNOT); (l_cpuset_xored, XOR)].
Definition updates : list ((nat -> prog Z) * cpuop) :=
  [(l_cpuset_or, OR); (l_cpuset_ornot, ORNOT); (l_cpuset_and, AND);
   (l_cpuset_andnot, ANDNOT); (l_cpuset_xor, XOR)].

(** [f], called with [args], returns a new set holding [a]; nothing else changes *)
Definition returns_new L f args h w mt (a : Z) : Prop :=
  executes C L f args h w (Ok [VUd (fresh h)])
    (put L (idle (alloc_cset mt h w)) (alloc_mem a w)) /\
  cset [VUd (fresh h)] (alloc_cset mt h w) (alloc_mem a w) 1 (wnext w) a.

Lemma cset_new mt h w a :
  ready mt h w -> cset [VUd (fresh h)] (alloc_cset mt h w) (alloc_mem a w) 1 (wnext w) a.
Proof.
  intros [Hr _ _ _]. exists (fresh h), (Udata (Some mt) [] (wnext w)). split_all; [|done|].
  - unfold udata_of. change (at_ [VUd (fresh h)] 1) with (Val (VUd (fresh h))). cbn.
    rewrite lookup_insert_eq. cbn. change (reg_get (inl CPUSET_METATABLE) _) with
      (reg_get (inl CPUSET_METATABLE) h). rewrite Hr. by rewrite decide_True.
  - cbn. apply lookup_insert_eq.
Qed.

Lemma run_make (o : cpuop) L mt vs n h w p q a b :
  ready mt h w -> cset vs h w 1 p a -> cset vs h w 2 q b ->
  run (documented C)
    (src1 ← luaL_checkudata L 1 CPUSET_METATABLE;
     src2 ← luaL_checkudata L 2 CPUSET_METATABLE;
     dst ← newanoncpuset L;
     CPU_OP o dst src1 src2;; mret 1) (put L (LS vs (1 + n) h) w) =
  (Ok 1, put L (LS (VUd (fresh h) :: vs) n (alloc_cset mt h w)) (alloc_mem (cpu_op o a b) w)).
Proof.
  intros [Hr Ho Hz Hf] Hx Hy. rewrite run_bind, (run_check C L 1 p a) by done. cbn [andthen].
  rewrite run_bind, (run_check C L 2 q b) by done. cbn [andthen].
  rewrite run_bind, (run_newanon C L mt) by done. cbn [andthen].
  destruct Hx as (? & ? & _ & _ & Hp), Hy as (? & ? & _ & _ & Hq).
  unfold CPU_OP. rewrite !run_bind.
  rewrite (run_cset_load C p a) by by apply fresh_other. cbn [andthen].
  rewrite run_bind, (run_cset_load C q b) by by apply fresh_other. cbn [andthen].
  rewrite run_fill. done.
Qed.

(** C17. Every function that combines two sets returns a new set whose CPUs are those the
    operation names, and changes neither operand nor anything else in memory. *)
Theorem cpuset_combine L f o mt x y h w p q a b :
  In (f, o) makes -> ready mt h w ->
  cset (rev [x; y]) h w 1 p a -> cset (rev [x; y]) h w 2 q b ->
  returns_new L f [x; y] h w mt (cpu_op o a b) /\
  has (cpu_op o a b) (fun i => cpuop_bool o (cpu_isset i a) (cpu_isset i b)) /\
  (forall r ob, wm w !! r = Some ob -> wm (alloc_mem (cpu_op o a b) w) !! r = Some ob).
Proof.
  intros Hin Hrd Hx Hy. split_all.
  - split; [|by apply cset_new].
    assert (Hf : f L = (src1 ← luaL_checkudata L 1 CPUSET_METATABLE;
      src2 ← luaL_checkudata L 2 CPUSET_METATABLE;
      dst ← newanoncpuset L; CPU_OP o dst src1 src2;; mret 1)).
    { cbn in Hin. destruct_or? Hin; by simplify_eq. }
    apply (invoke_return C _ _ _ _ _ _ [y; x] 19). rewrite Hf. unfold frame, LUA_MINSTACK.
    by rewrite (run_make o L mt _ 19 h w p q a b).
  - intros i Hi. by apply cpu_op_spec.
  - intros r ob Hr. apply fresh_other; [done|]. apply Hrd.
Qed.

(** the functions that make a set from no set or from one *)
Lemma run_copied L mt x h w p a :
  ready mt h w -> cset (rev [x]) h w 1 p a ->
  run (documented C) (l_cpuset_copied L) (put L (frame [x] h) w) =
  (Ok 1, put L (LS [VUd (fresh h); x] 19 (alloc_cset mt h w)) (alloc_mem a w)).
Proof.
  intros [Hr Ho Hz Hf] Hx. unfold l_cpuset_copied, frame, LUA_MINSTACK.
  rewrite run_bind, (run_check C L 1 p a) by done. cbn [andthen rev app].
  rewrite run_bind, (run_newanon C L mt _ 19) by done. cbn [andthen].
  destruct Hx as (? & ? & _ & _ & Hp). unfold CPU_COPY. rewrite !run_bind.
  rewrite (run_cset_load C p a) by by apply fresh_other. cbn [andthen]. by rewrite run_fill.
Qed.

Lemma run_constant b L mt h w :
  ready mt h w ->
  run (documented C) (set ← newanoncpuset L; CPU_WRITE b set;; mret 1) (put L (frame [] h) w) =
  (Ok 1, put L (LS [VUd (fresh h)] 19 (alloc_cset mt h w)) (alloc_mem b w)).
Proof.
  intros [Hr Ho Hz Hf]. unfold frame, LUA_MINSTACK.
  rewrite run_bind, (run_newanon C L mt _ 19) by done. cbn [andthen]. by rewrite run_bind, run_fill.
Qed.

Lemma run_only L mt n h w :
  ready mt h w ->
  (run (documented C) (l_cpuset_only L) (put L (frame [VInt n] h) w)) =
  if to_size n <? CPU_SETSIZE
  then (Ok 1, put L (LS [VUd (fresh h); VInt n] 19 (alloc_cset mt h w)) (alloc_mem (cpu_setof (to_size n)) w))
  else (Halt (UB "CPU index outside of the set"),
        put L (LS [VUd (fresh h); VInt n] 19 (alloc_cset mt h w))
          (poke (wnext w) (OBuf sizeof_cpuset "") (set_next (wnext w + 1) w))).
Proof.
  intros [Hr Ho Hz Hf]. unfold l_cpuset_only, frame, LUA_MINSTACK. cbn [rev app]. lua_run.
  rewrite (run_newanon C L mt _ 19) by done. cbn [andthen]. unfold CPU_SETOF.
  rewrite !run_bind, run_in_set. destruct (to_size n <? CPU_SETSIZE); cbn [andthen]; [|done].
  by rewrite run_fill.
Qed.

(** *** Sets changed in place *)

Lemma cset_mem vs h w i p a : cset vs h w i p a -> wm w !! p = Some (OCset a).
Proof. by intros (? & ? & _ & _ & Hp). Qed.

Lemma run_cpu_op o L p q a b s w :
  wm w !! p = Some (OCset a) -> wm w !! q = Some (OCset b) ->
  run (documented C) (CPU_OP o p p q) (put L s w) =
  (Ok tt, put L s (poke p (OCset (cpu_op o a b)) w)).
Proof.
  intros Hp Hq. unfold CPU_OP. rewrite run_bind, (run_cset_load C p a) by done. cbn [andthen].
  rewrite run_bind, (run_cset_load C q b) by done. cbn [andthen].
  by rewrite (run_write C _ _ (OCset a)).
Qed.

(** Every method that combines a set with another changes the receiver in place to what
    the operation names, also when both are the same object, returns the receiver, and leaves
    everything else as it was. *)
Theorem cpuset_update L f o x y h w p q a b :
  In (f, o) updates -> cset (rev [x; y]) h w 1 p a -> cset (rev [x; y]) h w 2 q b ->
  executes C L f [x; y] h w (Ok [x]) (put L (idle h) (poke p (OCset (cpu_op o a b)) w)) /\
  has (cpu_op o a b) (fun i => cpuop_bool o (cpu_isset i a) (cpu_isset i b)).
Proof.
  intros Hin Hx Hy. split; [|intros i Hi; by apply cpu_op_spec].
  assert (Hf : f L = (set ← luaL_checkudata L 1 CPUSET_METATABLE;
    other ← luaL_checkudata L 2 CPUSET_METATABLE; luaL_checktype L 3 TNONE;;
    CPU_OP o set set other;; lua_pop L 1;; mret 1)).
  { cbn in Hin. destruct_or? Hin; by simplify_eq. }
  apply (invoke_return C _ _ _ _ _ _ [] 21). rewrite Hf. unfold frame, LUA_MINSTACK.
  rewrite run_bind, (run_check C L 1 p a) by done. cbn [andthen].
  rewrite run_bind, (run_check C L 2 q b) by done. cbn [andthen rev app].
  lua_run. rewrite (run_cpu_op o L p q a b) by by eapply cset_mem. lua_run. done.
Qed.

(** [copy] makes the receiver equal to the other set and returns it; a later change of
    either does not show in the other, since only the receiver's block was written. *)
Theorem cpuset_copy L x y h w p q a b :
  cset (rev [x; y]) h w 1 p a -> cset (rev [x; y]) h w 2 q b ->
  executes C L l_cpuset_copy [x; y] h w (Ok [x]) (put L (idle h) (poke p (OCset b) w)) /\
  (forall c, p ≠ q -> wm (poke p (OCset c) (poke p (OCset b) w)) !! q = Some (OCset b)).
Proof.
  intros Hx Hy. split.
  - apply (invoke_return C _ _ _ _ _ _ [] 21). unfold l_cpuset_copy, frame, LUA_MINSTACK.
    rewrite run_bind, (run_check C L 1 p a) by done. cbn [andthen].
    rewrite run_bind, (run_check C L 2 q b) by done. cbn [andthen rev app]. lua_run.
    unfold CPU_COPY. rewrite run_bind, (run_cset_load C q b) by by eapply cset_mem. cbn [andthen].
    rewrite (run_write C _ _ (OCset a)) by (done || by eapply cset_mem). lua_run. done.
  - intros c Hne. cbn. rewrite !lookup_insert_ne by done. by eapply cset_mem.
Qed.

(** *** Single CPUs *)

Definition in_range (n : Z) : bool := (0 <=? n) && (n <? CPU_SETSIZE).

Lemma in_range_size n :
  - 2 ^ 63 <= n < 2 ^ 63 -> (to_size n <? CPU_SETSIZE) = in_range n /\
  (in_range n = true -> to_size n = n).
Proof.
  intros Hn. pose proof cpu_setsize_range. unfold in_range.
  destruct (Z.leb_spec 0 n); cbn [andb].
  - rewrite to_size_small by lia. done.
  - split; [|done]. apply Z.ltb_ge. unfold to_size, wrapu.
    rewrite <- (Z.mod_unique n (2 ^ 64) (-1) (n + 2 ^ 64)) by lia. lia.
Qed.

(** the methods that change one CPU, and the new contents *)
Definition elements : list ((nat -> prog Z) * (Z -> Z -> Z) * (Z -> Z -> bool -> bool)) :=
  [(l_cpuset_set, cpu_set, fun n i c => (i =? n) || c);
   (l_cpuset_clr, cpu_clr, fun n i c => negb (i =? n) && c);
   (l_cpuset_setof, fun n _ => cpu_setof n, fun n i _ => i =? n)].

Lemma elements_spec f op g n a :
  In (f, op, g) elements -> in_range n = true ->
  has (op n a) (fun i => g n i (cpu_isset i a)).
Proof.
  unfold in_range. intros Hin Hn i Hi. cbn in Hin. destruct_or? Hin; simplify_eq.
  - apply cpu_set_spec; lia.
  - apply cpu_clr_spec; lia.
  - apply cpu_setof_spec; lia.
Qed.

Lemma run_element f op g L x n h w p a :
  In (f, op, g) elements -> cset (rev [x; VInt n]) h w 1 p a -> - 2 ^ 63 <= n < 2 ^ 63 ->
  run (documented C) (f L) (put L (frame [x; VInt n] h) w) =
  if in_range n then (Ok 1, put L (LS [x] 21 h) (poke p (OCset (op n a)) w))
  else (Halt (UB "CPU index outside of the set"), put L (frame [x; VInt n] h) w).
Proof.
  intros Hin Hx Hn. destruct (in_range_size n Hn) as [Hr He].
  pose proof (cset_mem _ _ _ _ _ _ Hx) as Hp.
  set (prg (wr : Z -> Z -> prog unit) := set ← luaL_checkudata L 1 CPUSET_METATABLE;
    k ← luaL_checkinteger L 2; luaL_checktype L 3 TNONE;;
    (in_set (to_size k);; wr (to_size k) set);; lua_pop L 1;; mret 1).
  assert (Hf : f L = prg (fun k set => a ← load set cset_load; CPU_WRITE (op k a) set) \/
    f L = prg (fun k set => CPU_WRITE (op k a) set)).
  { cbn in Hin. destruct_or? Hin; simplify_eq; [by left|by left|by right]. }
  subst prg.
  unfold frame, LUA_MINSTACK in *.
  destruct Hf as [-> | ->]; rewrite run_bind, (run_check C L 1 p a) by done; cbn [andthen rev app];
    lua_run; rewrite run_in_set, Hr; destruct (in_range n); cbn [andthen]; try done.
  - rewrite run_bind, (run_cset_load C p a) by done. cbn [andthen].
    rewrite (run_write C _ _ (OCset a)) by done. rewrite He by done. lua_run. done.
  - rewrite (run_write C _ _ (OCset a)) by done. rewrite He by done. lua_run. done.
Qed.

(** [set], [clr] and [setof] with a CPU number of the set change that CPU as their name
    says and no other, in place, and return the receiver; the number is not checked, so with
    any other number they access memory outside of the set. *)
Theorem cpuset_element L f op g x n h w p a :
  In (f, op, g) elements -> cset (rev [x; VInt n]) h w 1 p a -> - 2 ^ 63 <= n < 2 ^ 63 ->
  if in_range n
  then executes C L f [x; VInt n] h w (Ok [x]) (put L (idle h) (poke p (OCset (op n a)) w)) /\
       has (op n a) (fun i => g n i (cpu_isset i a))
  else (invoke C L f [x; VInt n] h w).1 = Halt (UB "CPU index outside of the set").
Proof.
  intros Hin Hx Hn. pose proof (run_element f op g L x n h w p a Hin Hx Hn) as Hr.
  destruct (in_range n) eqn:E.
  - split; [|by eapply elements_spec]. by apply (invoke_return C _ _ _ _ _ _ [] 21).
  - unfold invoke. rewrite Hr. cbn [finish]. by rewrite wl_put.
Qed.

(** [copy] of the module makes a set equal to its argument, [fill] one with every CPU, [zero]
    one with none, and [only] one with just the given CPU, provided its number is a CPU number:
    it is not checked. *)
Theorem cpuset_create L mt x n h w p a :
  ready mt h w -> cset (rev [x]) h w 1 p a -> - 2 ^ 63 <= n < 2 ^ 63 ->
  returns_new L l_cpuset_copied [x] h w mt a /\
  (returns_new L l_cpuset_filled [] h w mt cpu_fill /\ has cpu_fill (fun _ => true)) /\
  (returns_new L l_cpuset_zeroed [] h w mt cpu_zero /\ has cpu_zero (fun _ => false)) /\
  (if in_range n
   then returns_new L l_cpuset_only [VInt n] h w mt (cpu_setof n) /\
        has (cpu_setof n) (fun i => i =? n)
   else (invoke C L l_cpuset_only [VInt n] h w).1 = Halt (UB "CPU index outside of the set")).
Proof.
  intros Hrd Hx Hn. destruct (in_range_size n Hn) as [Hr He]. split_all.
  - split; [|by apply cset_new]. apply (invoke_return C _ _ _ _ _ _ [x] 19). by apply (run_copied _ _ _ _ _ p).
  - split; [|by apply cset_new]. apply (invoke_return C _ _ _ _ _ _ [] 19). by apply run_constant.
  - exact cpu_fill_spec.
  - split; [|by apply cset_new]. apply (invoke_return C _ _ _ _ _ _ [] 19). by apply run_constant.
  - exact cpu_zero_spec.
  - pose proof (run_only L mt n h w Hrd) as Hrun. rewrite Hr in Hrun.
    destruct (in_range n) eqn:E.
    + rewrite He in Hrun by done. split.
      * split; [|by apply cset_new]. by apply (invoke_return C _ _ _ _ _ _ [VInt n] 19).
      * unfold in_range in E. intros i Hi. apply cpu_setof_spec; lia.
    + unfold invoke. rewrite Hrun. cbn [finish]. by rewrite wl_put.
Qed.

(** [zero] and [fill] of a set empty and fill it in place and return it; [isset] tells whether
    a CPU is in the set, provided its number is a CPU number. *)
Theorem cpuset_whole L x n h w p a :
  cset (rev [x]) h w 1 p a -> cset (rev [x; VInt n]) h w 1 p a -> - 2 ^ 63 <= n < 2 ^ 63 ->
  executes C L l_cpuset_zero [x] h w (Ok [x]) (put L (idle h) (poke p (OCset cpu_zero) w)) /\
  executes C L l_cpuset_fill [x] h w (Ok [x]) (put L (idle h) (poke p (OCset cpu_fill) w)) /\
  (if in_range n
   then executes C L l_cpuset_isset [x; VInt n] h w (Ok [VBool (cpu_isset n a)]) (put L (idle h) w)
   else (invoke C L l_cpuset_isset [x; VInt n] h w).1 = Halt (UB "CPU index outside of the set")).
Proof.
  intros Hx Hxn Hn. destruct (in_range_size n Hn) as [Hr He].
  pose proof (cset_mem _ _ _ _ _ _ Hx) as Hp. split_all.
  - apply (invoke_return C _ _ _ _ _ _ [] 20). unfold l_cpuset_zero, frame, LUA_MINSTACK.
    rewrite run_bind, (run_check C L 1 p a) by done. cbn [andthen rev app]. lua_run.
    by rewrite (run_write C _ _ (OCset a)).
  - apply (invoke_return C _ _ _ _ _ _ [] 20). unfold l_cpuset_fill, frame, LUA_MINSTACK.
    rewrite run_bind, (run_check C L 1 p a) by done. cbn [andthen rev app]. lua_run.
    by rewrite (run_write C _ _ (OCset a)).
  - assert (Hrun : run (documented C) (l_cpuset_isset L) (put L (frame [x; VInt n] h) w) =
      if in_range n then (Ok 1, put L (LS [VBool (cpu_isset n a); VInt n; x] 19 h) w)
      else (Halt (UB "CPU index outside of the set"), put L (frame [x; VInt n] h) w)).
    { unfold l_cpuset_isset, frame, LUA_MINSTACK in *.
      rewrite run_bind, (run_check C L 1 p a) by done. cbn [andthen rev app]. lua_run.
      unfold CPU_ISSET. rewrite run_bind, run_in_set, Hr. destruct (in_range n); cbn [andthen]; [|done].
      rewrite He by done. unfold CPU_READ. rewrite run_bind, (run_cset_load C p a) by done.
      cbn [andthen]. lua_run. done. }
    destruct (in_range n).
    + by apply (invoke_return C _ _ _ _ _ _ [VInt n; x] 19).
    + unfold invoke. rewrite Hrun. cbn [finish]. by rewrite wl_put.
Qed.

(** *** Queries: what they say of the list of CPUs in the set *)

Definition members (a : Z) : list Z :=
  filter (fun i => cpu_isset i a = true) (seqZ 0 CPU_SETSIZE).

Lemma elem_of_members i a : i ∈ members a <-> 0 <= i < CPU_SETSIZE /\ cpu_isset i a = true.
Proof. unfold members. rewrite list_elem_of_filter, elem_of_seqZ. naive_solver lia. Qed.

Lemma members_ext a b :
  members a = members b <-> forall i, 0 <= i < CPU_SETSIZE -> cpu_isset i a = cpu_isset i b.
Proof.
  split.
  - intros Hm i Hi. pose proof (elem_of_members i a) as Ha. pose proof (elem_of_members i b) as Hb.
    rewrite Hm in Ha. destruct (cpu_isset i a), (cpu_isset i b); naive_solver.
  - intros Hab. apply filter_ext_in. intros i Hi%elem_of_seqZ. by rewrite Hab by lia.
Qed.

Lemma members_nil a :
  members a = [] <-> forall i, 0 <= i < CPU_SETSIZE -> cpu_isset i a = false.
Proof.
  split.
  - intros Hm i Hi. destruct (cpu_isset i a) eqn:E; [|done].
    assert (i ∈ members a) as Hin by by apply elem_of_members.
    rewrite Hm in Hin. by apply not_elem_of_nil in Hin.
  - intros Hn. apply filter_none. intros i Hi%elem_of_seqZ. rewrite Hn by lia. done.
Qed.

Lemma members_full a :
  members a = seqZ 0 CPU_SETSIZE <-> forall i, 0 <= i < CPU_SETSIZE -> cpu_isset i a = true.
Proof.
  split.
  - intros Hm i Hi. assert (i ∈ members a) as Hin by (rewrite Hm; apply elem_of_seqZ; lia).
    by apply elem_of_members in Hin as [_ ?].
  - intros Hs. apply filter_all. intros i Hi%elem_of_seqZ. apply Hs. lia.
Qed.

Lemma members_first a k :
  0 <= k < CPU_SETSIZE -> cpu_isset k a = true -> (forall i, 0 <= i < k -> cpu_isset i a = false) ->
  exists l, members a = k :: l.
Proof.
  intros Hk Hs Hn. unfold members.
  replace CPU_SETSIZE with (k + (CPU_SETSIZE - k)) by lia.
  rewrite seqZ_app, list.filter_app by lia. rewrite filter_none.
  - cbn [app]. rewrite (seqZ_cons (0 + k)) by lia. rewrite Z.add_0_l, filter_cons_True by done.
    by eexists.
  - intros i Hi%elem_of_seqZ. rewrite Hn by lia. done.
Qed.

Definition contains (m k : list Z) : bool := forallb (fun i => bool_decide (i ∈ m)) k.
Definition overlaps (m k : list Z) : bool := existsb (fun i => bool_decide (i ∈ m)) k.

(** the methods that inspect one set or two, and their results *)
Definition queries : list ((nat -> prog Z) * (list Z -> value)) :=
  [(l_cpuset_empty, fun m => VBool (bool_decide (m = [])));
   (l_cpuset_isfullset, fun m => VBool (bool_decide (m = seqZ 0 CPU_SETSIZE)));
   (l_cpuset_ffs, fun m => match m with i :: _ => VInt i | [] => VNil end);
   (l_cpuset_count, fun m => VInt (Z.of_nat (length m)))].
Definition comparisons : list ((nat -> prog Z) * (list Z -> list Z -> bool)) :=
  [(l_cpuset_subset, contains);
   (l_cpuset_overlap, overlaps);
   (l_cpuset_cmp, fun m k => bool_decide (m ≠ k));
   (l_cpuset_equal, fun m k => bool_decide (m = k))].

Lemma run_query {A} (f : Z -> A) (k : A -> prog Z) L s w p a :
  wm w !! p = Some (OCset a) ->
  run (documented C) (x ← CPU_READ f p; k x) (put L s w) = run (documented C) (k (f a)) (put L s w).
Proof.
  intros Hp. unfold CPU_READ. rewrite run_bind, run_bind, (run_cset_load C p a) by done. done.
Qed.

Lemma bool_eq_iff (u v : bool) : (u = true <-> v = true) -> u = v.
Proof. destruct u, v; naive_solver. Qed.

(** [empty], [isfullset], [ffs] and [count] answer as the sorted list of the CPUs in the
    set does: whether it is empty or has all, its first element from 0 or nil, and its length;
    and change nothing. *)
Theorem cpuset_query L f (q : list Z -> value) x h w p a :
  In (f, q) queries -> cset (rev [x]) h w 1 p a ->
  executes C L f [x] h w (Ok [q (members a)]) (put L (idle h) w).
Proof.
  intros Hin Hx. apply (invoke_return C _ _ _ _ _ _ [x] 19). unfold frame, LUA_MINSTACK.
  pose proof (cset_mem _ _ _ _ _ _ Hx) as Hp. cbn in Hin. destruct_or? Hin; simplify_eq.
  - unfold l_cpuset_empty. rewrite run_bind, (run_check C L 1 p a) by done. cbn [andthen rev app].
    rewrite (run_query _ _ _ _ _ _ a) by done. lua_run. do 5 f_equal.
    apply bool_eq_iff. rewrite bool_decide_eq_true, members_nil. apply cpu_empty_spec.
  - unfold l_cpuset_isfullset. rewrite run_bind, (run_check C L 1 p a) by done. cbn [andthen rev app].
    rewrite (run_query _ _ _ _ _ _ a) by done. lua_run. do 5 f_equal.
    apply bool_eq_iff. rewrite bool_decide_eq_true, members_full. apply cpu_isfullset_spec.
  - unfold l_cpuset_ffs. rewrite run_bind, (run_check C L 1 p a) by done. cbn [andthen rev app].
    rewrite (run_query _ _ _ _ _ _ a) by done.
    destruct (cpu_ffs_spec a) as [[-> Hn%members_nil]|(Hr & Hs & Hn)].
    + rewrite Hn. change (0 <=? 0 - 1) with false. lua_run. done.
    + destruct (members_first a (cpu_ffs a - 1)) as [l ->]; [lia|done|done|].
      destruct (Z.leb_spec 0 (cpu_ffs a - 1)); [|lia]. lua_run. done.
  - unfold l_cpuset_count. rewrite run_bind, (run_check C L 1 p a) by done. cbn [andthen rev app].
    rewrite (run_query _ _ _ _ _ _ a) by done. lua_run. by rewrite cpu_count_spec.
Qed.

Lemma run_query2 {A} (f : Z -> Z -> A) (k : A -> prog Z) L s w p q a b :
  wm w !! p = Some (OCset a) -> wm w !! q = Some (OCset b) ->
  run (documented C) (x ← CPU_READ2 f p q; k x) (put L s w) =
  run (documented C) (k (f a b)) (put L s w).
Proof.
  intros Hp Hq. unfold CPU_READ2. rewrite run_bind, run_bind, (run_cset_load C p a) by done.
  cbn [andthen]. rewrite run_bind, (run_cset_load C q b) by done. done.
Qed.

Lemma run_compare (r : Z -> Z -> bool) (g : bool -> bool) L x y h w p q a b :
  cset (rev [x; y]) h w 1 p a -> cset (rev [x; y]) h w 2 q b ->
  run (documented C)
    (s1 ← luaL_checkudata L 1 CPUSET_METATABLE; s2 ← luaL_checkudata L 2 CPUSET_METATABLE;
     c ← CPU_READ2 r s1 s2; lua_pushboolean L (g c);; mret 1) (put L (frame [x; y] h) w) =
  (Ok 1, put L (LS (VBool (g (r a b)) :: [y; x]) 19 h) w).
Proof.
  intros Hx Hy. unfold frame, LUA_MINSTACK.
  rewrite run_bind, (run_check C L 1 p a) by done. cbn [andthen].
  rewrite run_bind, (run_check C L 2 q b) by done. cbn [andthen rev app].
  rewrite (run_query2 _ _ _ _ _ _ _ a b) by by eapply cset_mem. lua_run. done.
Qed.

Lemma cmp_members a b : cpu_cmp a b = bool_decide (members a ≠ members b).
Proof.
  pose proof (cpu_cmp_spec a b) as Hc. rewrite <- members_ext in Hc.
  destruct (cpu_cmp a b); [rewrite bool_decide_true|rewrite bool_decide_false]; try done.
  - intros Hm. by apply Hc in Hm.
  - intros Hm. by apply Hm, Hc.
Qed.

(** [subset], [overlap], [cmp] and [equal] answer as the lists of CPUs of the two sets
    do, and change nothing: [cmp] is true on sets that differ, and [subset] asks whether the
    argument is part of the receiver. *)
Theorem cpuset_compare L f g x y h w p q a b :
  In (f, g) comparisons -> cset (rev [x; y]) h w 1 p a -> cset (rev [x; y]) h w 2 q b ->
  executes C L f [x; y] h w (Ok [VBool (g (members a) (members b))]) (put L (idle h) w).
Proof.
  intros Hin Hx Hy. apply (invoke_return C _ _ _ _ _ _ [y; x] 19).
  cbn in Hin. destruct_or? Hin; simplify_eq.
  - unfold l_cpuset_subset. rewrite (run_compare cpu_subset id _ _ _ _ _ p q a b) by done.
    do 5 f_equal. apply bool_eq_iff. unfold id, contains. rewrite cpu_subset_spec, forallb_forall.
    setoid_rewrite bool_decide_eq_true. setoid_rewrite <- list_elem_of_In.
    setoid_rewrite elem_of_members. naive_solver.
  - unfold l_cpuset_overlap. rewrite (run_compare cpu_overlap id _ _ _ _ _ p q a b) by done.
    do 5 f_equal. apply bool_eq_iff. unfold id, overlaps. rewrite cpu_overlap_spec, existsb_exists.
    setoid_rewrite bool_decide_eq_true. setoid_rewrite <- list_elem_of_In.
    setoid_rewrite elem_of_members. naive_solver.
  - unfold l_cpuset_cmp. rewrite (run_compare cpu_cmp id _ _ _ _ _ p q a b) by done.
    unfold id. by rewrite cmp_members.
  - unfold l_cpuset_equal. rewrite (run_compare cpu_cmp negb _ _ _ _ _ p q a b) by done.
    rewrite cmp_members. do 5 f_equal. apply bool_eq_iff.
    rewrite negb_true_iff, bool_decide_eq_true, bool_decide_eq_false. split; [|naive_solver].
    intros Hn. by destruct (decide (members a = members b)).
Qed.

(** *** Errors *)

(** every method, and the number of sets it takes first *)
Definition methods : list ((nat -> prog Z) * nat) :=
  [(l_cpuset_copied, 1); (l_cpuset_ored, 2); (l_cpuset_ornoted, 2); (l_cpuset_anded, 2);
   (l_cpuset_andnoted, 2); (l_cpuset_xored, 2); (l_cpuset_clr, 1); (l_cpuset_copy, 2);
   (l_cpuset_isset, 1); (l_cpuset_set, 1); (l_cpuset_zero, 1); (l_cpuset_fill, 1);
   (l_cpuset_setof, 1); (l_cpuset_empty, 1); (l_cpuset_isfullset, 1); (l_cpuset_ffs, 1);
   (l_cpuset_count, 1); (l_cpuset_subset, 2); (l_cpuset_overlap, 2); (l_cpuset_cmp, 2);
   (l_cpuset_equal, 2); (l_cpuset_or, 2); (l_cpuset_ornot, 2); (l_cpuset_and, 2);
   (l_cpuset_andnot, 2); (l_cpuset_xor, 2)]%nat.

Lemma methods_first f k L :
  In (f, k) methods ->
  exists r : Z -> prog Z, f L = (luaL_checkudata L 1 CPUSET_METATABLE ≫= r) /\
  (k = 2%nat -> exists r', r = fun s => luaL_checkudata L 2 CPUSET_METATABLE ≫= r' s).
Proof.
  intros Hin. cbn in Hin.
  destruct_or? Hin; simplify_eq; (eexists; split; [reflexivity|]); intros ?; try done; by eexists.
Qed.

(** Every method refuses a receiver, and every method of two sets a second argument, that
    is not a cpuset, naming the argument, and changes nothing. *)
Theorem cpuset_guard L f k args h w :
  In (f, k) methods ->
  (udata_of (rev args) h 1 CPUSET_METATABLE = None ->
   executes C L f args h w (Halt (Raise (EType 1 CPUSET_METATABLE))) (put L (idle h) w)) /\
  (k = 2%nat -> forall p a, cset (rev args) h w 1 p a ->
   udata_of (rev args) h 2 CPUSET_METATABLE = None ->
   executes C L f args h w (Halt (Raise (EType 2 CPUSET_METATABLE))) (put L (idle h) w)).
Proof.
  intros Hin. destruct (methods_first f k L Hin) as (pr & Hf & H2).
  split.
  - intros Hu. eapply executes_halt; [|done]. rewrite Hf. unfold frame.
    by rewrite run_bind, (run_checkudata_wrong C L 1) by (done || by apply at_arg_not_bad).
  - intros ->. destruct (H2 eq_refl) as [p' ->]. intros p a Hc Hu.
    eapply executes_halt; [|done]. rewrite Hf. unfold frame.
    rewrite run_bind, (run_check C L 1 p a) by done. cbn [andthen].
    by rewrite run_bind, (run_checkudata_wrong C L 2) by (done || by apply at_arg_not_bad).
Qed.

(** *** The module *)

(** Opening the module registers the type with every method of its table, [__index] leading
    to them, and returns a table with every function and [CPU_SETSIZE]; nothing that was in
    the state before is changed. *)
Theorem cpuset_open L h w :
  reg_get (inl CPUSET_METATABLE) h = VNil ->
  exists h' m, executes C L luaopen_sys_cpuset [] h w (Ok [VTab m]) (put L (idle h') w) /\
    typed h' CPUSET_METATABLE l_cpuset_meta /\
    exports h' m l_cpuset_funcs [("CPU_SETSIZE", VInt CPU_SETSIZE)] /\
    grows [CPUSET_METATABLE] h h'.
Proof.
  intros Hr.
  destruct (run_register_type C L _ l_cpuset_meta [] 18 h w Hr) as (h1 & R1 & T1 & G1);
    [by vm_compute; repeat constructor; set_solver|set_solver|].
  destruct (run_newlib C L l_cpuset_funcs [VTab (fresh h)] 18 h1 w
    (define L "CPU_SETSIZE" CPU_SETSIZE;; mret 1)) as (h2 & R2 & E2 & G2 & Hlt).
  { repeat constructor; set_solver. }
  destruct (run_define C L "CPU_SETSIZE" CPU_SETSIZE (fresh h1) _ _ [VTab (fresh h)] 17 h2 w E2)
    as (x & R3 & E3); [set_solver|set_solver|].
  assert (G3 : grows [] h1 (set_tab (fresh h1) x h2)) by by apply grows_set_tab.
  exists (set_tab (fresh h1) x h2), (fresh h1). split_all;
    [|by eapply typed_grows; [exact T1|exact G3|set_solver]|exact E3|exact (grows_trans _ _ _ _ _ G1 G3)].
  apply (invoke_return C _ _ _ _ _ _ [VTab (fresh h)] 18). unfold luaopen_sys_cpuset, frame, LUA_MINSTACK.
  change (LS (rev []) 20 h) with (LS [] (2 + 18) h). rewrite run_bind, R1. cbn [andthen].
  etransitivity; [exact R2|]. rewrite run_bind.
  etransitivity; [exact (f_equal (fun r => andthen r _) R3)|]. done.
Qed.
End properties.

(** ** An instance, and witnesses *)

Section instance.
Definition mem (a : Z) : list Z := filter (fun i => Z.testbit a i = true) (seqZ 0 1024).

Lemma elem_of_mem i a : i ∈ mem a <-> 0 <= i < 1024 /\ Z.testbit a i = true.
Proof. unfold mem. rewrite list_elem_of_filter, elem_of_seqZ. naive_solver lia. Qed.

Lemma mem_first a i l :
  mem a = i :: l ->
  0 <= i < 1024 /\ Z.testbit a i = true /\ forall j, 0 <= j < i -> Z.testbit a j = false.
Proof.
  intros Hm. assert (i ∈ mem a) as [Hi Hs]%elem_of_mem by (rewrite Hm; left).
  split_all; [lia..|done|]. intros j Hj.
  destruct (head_filter_Some (fun i => Z.testbit a i = true) (seqZ 0 1024) i) as (l1 & l2 & Hl & Hn).
  { change (head (mem a) = Some i). by rewrite Hm. }
  assert (Hlen : length l1 = Z.to_nat i).
  { assert (seqZ 0 1024 !! length l1 = Some i) as Hk by (by rewrite Hl, lookup_app_r, Nat.sub_diag by lia).
    apply lookup_seqZ in Hk. lia. }
  rewrite Forall_forall in Hn. apply not_true_is_false, Hn.
  assert (Hj1 : seqZ 0 1024 !! Z.to_nat j = Some j) by (apply lookup_seqZ; lia).
  rewrite Hl, lookup_app_l in Hj1 by lia. by eapply list_elem_of_In, list_elem_of_lookup_2.
Qed.

Definition mem_ffs (a : Z) : Z := match mem a with i :: _ => i + 1 | [] => 0 end.

Definition mem_op (o : cpuop) (a b : Z) : Z :=
  match o with
  | OR => Z.lor a b
  | ORNOT => Z.lor a (Z.lnot b)
  | AND => Z.land a b
  | ANDNOT => Z.ldiff a b
  | XOR => Z.lxor a b
  end.
End instance.

#[local] Obligation Tactic := idtac.

#[export, program] Instance sample_cpusets : Cpusets := {|
  CPU_SETSIZE := 1024;
  sizeof_cpuset := 128;
  cpu_isset i a := Z.testbit a i;
  cpu_op := mem_op;
  cpu_zero := 0;
  cpu_fill := Z.ones 1024;
  cpu_set n a := Z.setbit a n;
  cpu_clr n a := Z.clearbit a n;
  cpu_setof n := Z.setbit 0 n;
  cpu_empty a := bool_decide (mem a = []);
  cpu_isfullset a := forallb (Z.testbit a) (seqZ 0 1024);
  cpu_ffs := mem_ffs;
  cpu_count a := Z.of_nat (length (mem a));
  cpu_subset a b := forallb (Z.testbit a) (mem b);
  cpu_overlap a b := existsb (Z.testbit a) (mem b);
  cpu_cmp a b := existsb (fun i => xorb (Z.testbit a i) (Z.testbit b i)) (seqZ 0 1024) |}.
Next Obligation. lia. Qed.
Next Obligation.
  intros o a b i Hi. cbv beta. destruct o; cbn.
  - by rewrite Z.lor_spec.
  - by rewrite Z.lor_spec, Z.lnot_spec by lia.
  - by rewrite Z.land_spec.
  - by rewrite Z.ldiff_spec.
  - by rewrite Z.lxor_spec.
Qed.
Next Obligation. intros i Hi. cbv beta. apply Z.bits_0. Qed.
Next Obligation. intros i Hi. cbv beta. by apply Z.ones_spec_low. Qed.
Next Obligation. intros n a i Hn Hi. cbv beta. rewrite Z.setbit_eqb by lia. by rewrite Z.eqb_sym. Qed.
Next Obligation. intros n a i Hn Hi. cbv beta. rewrite Z.clearbit_eqb by lia. by rewrite Z.eqb_sym, andb_comm. Qed.
Next Obligation.
  intros n i Hn Hi. cbv beta. rewrite Z.setbit_eqb, Z.bits_0 by lia. by rewrite Z.eqb_sym, orb_false_r.
Qed.
Next Obligation.
  intros a. cbv beta. rewrite bool_decide_eq_true. split.
  - intros Hm i Hi. apply not_true_is_false. intros Hs.
    assert (i ∈ mem a) as Hin by by apply elem_of_mem. rewrite Hm in Hin. by apply not_elem_of_nil in Hin.
  - intros Hn. cbv beta. destruct (mem a) as [|i l] eqn:E; [done|].
    destruct (mem_first _ _ _ E) as (Hi & Hs & _). by rewrite Hn in Hs.
Qed.
Next Obligation.
  intros a. cbv beta. rewrite forallb_forall. setoid_rewrite <- list_elem_of_In. setoid_rewrite elem_of_seqZ. done.
Qed.
Next Obligation.
  intros a. unfold mem_ffs. destruct (mem a) as [|i l] eqn:E.
  - left. split; [done|]. intros i Hi. apply not_true_is_false. intros Hs.
    assert (i ∈ mem a) as Hin by by apply elem_of_mem. rewrite E in Hin. by apply not_elem_of_nil in Hin.
  - right. replace (i + 1 - 1) with i by lia. destruct (mem_first _ _ _ E) as (Hi & Hs & Hn).
    split_all; [lia..|done|done].
Qed.
Next Obligation. done. Qed.
Next Obligation.
  intros a b. cbv beta. rewrite forallb_forall. setoid_rewrite <- list_elem_of_In. setoid_rewrite elem_of_mem.
  naive_solver.
Qed.
Next Obligation.
  intros a b. cbv beta. rewrite existsb_exists. setoid_rewrite <- list_elem_of_In. setoid_rewrite elem_of_mem.
  naive_solver.
Qed.
Next Obligation.
  intros a b. cbv beta. rewrite <- not_true_iff_false, existsb_exists. setoid_rewrite <- list_elem_of_In.
  setoid_rewrite elem_of_seqZ. split.
  - intros Hn i Hi. cbv beta. destruct (Z.testbit a i) eqn:Ea, (Z.testbit b i) eqn:Eb; try done;
      destruct Hn; exists i; by rewrite Ea, Eb.
  - intros Heq (i & Hi & Hx). cbv beta. rewrite Heq, xorb_nilpotent in Hx by lia. done.
Qed.

(** a frame with one or two sets: userdata 2 and 3 with blocks at 512 and 513 *)
Definition two_sets : heap :=
  Heap {[ 0%nat := Table ∅ None; 1%nat := Table ∅ None ]} ∅
    {[ 2%nat := Udata (Some 1%nat) [] 512; 3%nat := Udata (Some 1%nat) [] 513 ]}
    {[ inl CPUSET_METATABLE := VTab 1 ]} 0 10.
Definition two_mem : world Z lstate := sample_world {[ 512 := OCset 5; 513 := OCset 6 ]}.

Lemma cset_first args : cset (S := Z) (rev (VUd 2 :: args)) two_sets two_mem 1 512 5.
Proof.
  exists 2%nat, (Udata (Some 1%nat) [] 512). split; [|done].
  unfold udata_of. rewrite (at_frame (VUd 2 :: args) 1 (VUd 2)) by (done || lia). done.
Qed.
Lemma cset_second : cset (S := Z) (rev [VUd 2; VUd 3]) two_sets two_mem 2 513 6.
Proof. exists 3%nat, (Udata (Some 1%nat) [] 513). done. Qed.
Lemma two_ready : ready 1 two_sets two_mem.
Proof. by split. Qed.

Lemma cpuset_combine_witness :
  cpu_op AND 5 6 = 4 /\
  returns_new (sample_clib []) 0 l_cpuset_anded [VUd 2; VUd 3] two_sets two_mem 1 (cpu_op AND 5 6) /\
  has (cpu_op AND 5 6) (fun i => cpuop_bool AND (cpu_isset i 5) (cpu_isset i 6)) /\
  (forall r ob, wm two_mem !! r = Some ob ->
   wm (alloc_mem (cpu_op AND 5 6) two_mem) !! r = Some ob).
Proof.
  split; [reflexivity|].
  apply (cpuset_combine (sample_clib []) 0 l_cpuset_anded AND 1 (VUd 2) (VUd 3) two_sets two_mem 512 513 5 6);
    [cbn; auto|exact two_ready|exact (cset_first [VUd 3])|exact cset_second].
Defined.

Lemma cpuset_update_witness :
  cpu_op XOR 5 6 = 3 /\
  executes (sample_clib []) 0 l_cpuset_xor [VUd 2; VUd 3] two_sets two_mem (Ok [VUd 2])
    (put 0%nat (idle two_sets) (poke 512 (OCset (cpu_op XOR 5 6)) two_mem)) /\
  has (cpu_op XOR 5 6) (fun i => cpuop_bool XOR (cpu_isset i 5) (cpu_isset i 6)).
Proof.
  split; [reflexivity|].
  apply (cpuset_update (sample_clib []) 0 l_cpuset_xor XOR (VUd 2) (VUd 3) two_sets two_mem 512 513 5 6);
    [cbn; auto 10|exact (cset_first [VUd 3])|exact cset_second].
Defined.

Lemma cpuset_copy_witness :
  executes (sample_clib []) 0 l_cpuset_copy [VUd 2; VUd 3] two_sets two_mem (Ok [VUd 2])
    (put 0%nat (idle two_sets) (poke 512 (OCset 6) two_mem)) /\
  (forall c, 512 ≠ 513 -> wm (poke 512 (OCset c) (poke 512 (OCset 6) two_mem)) !! 513 = Some (OCset 6)).
Proof.
  apply (cpuset_copy (sample_clib []) 0 (VUd 2) (VUd 3) two_sets two_mem 512 513 5 6);
    [exact (cset_first [VUd 3])|exact cset_second].
Defined.

Lemma cpuset_element_witness :
  (executes (sample_clib []) 0 l_cpuset_set [VUd 2; VInt 3] two_sets two_mem (Ok [VUd 2])
     (put 0%nat (idle two_sets) (poke 512 (OCset (cpu_set 3 5)) two_mem)) /\
   has (cpu_set 3 5) (fun i => (i =? 3) || cpu_isset i 5)) /\
  (invoke (sample_clib []) 0 l_cpuset_set [VUd 2; VInt 1024] two_sets two_mem).1 =
    Halt (UB "CPU index outside of the set").
Proof.
  split.
  - refine (cpuset_element (sample_clib []) 0 l_cpuset_set cpu_set (fun n i c => (i =? n) || c)
      (VUd 2) 3 two_sets two_mem 512 5 _ _ _); [cbn; auto|exact (cset_first [VInt 3])|lia].
  - refine (cpuset_element (sample_clib []) 0 l_cpuset_set cpu_set (fun n i c => (i =? n) || c)
      (VUd 2) 1024 two_sets two_mem 512 5 _ _ _); [cbn; auto|exact (cset_first [VInt 1024])|lia].
Defined.

Lemma cpuset_create_witness :
  returns_new (sample_clib []) 0 l_cpuset_copied [VUd 2] two_sets two_mem 1 5 /\
  (returns_new (sample_clib []) 0 l_cpuset_filled [] two_sets two_mem 1 cpu_fill /\
   has cpu_fill (fun _ => true)) /\
  (returns_new (sample_clib []) 0 l_cpuset_zeroed [] two_sets two_mem 1 cpu_zero /\
   has cpu_zero (fun _ => false)) /\
  (returns_new (sample_clib []) 0 l_cpuset_only [VInt 7] two_sets two_mem 1 (cpu_setof 7) /\
   has (cpu_setof 7) (fun i => i =? 7)).
Proof.
  refine (cpuset_create (sample_clib []) 0 1 (VUd 2) 7 two_sets two_mem 512 5 _ _ _);
    [exact two_ready|exact (cset_first [])|lia].
Defined.

Lemma cpuset_whole_witness :
  executes (sample_clib []) 0 l_cpuset_zero [VUd 2] two_sets two_mem (Ok [VUd 2])
    (put 0%nat (idle two_sets) (poke 512 (OCset cpu_zero) two_mem)) /\
  executes (sample_clib []) 0 l_cpuset_fill [VUd 2] two_sets two_mem (Ok [VUd 2])
    (put 0%nat (idle two_sets) (poke 512 (OCset cpu_fill) two_mem)) /\
  executes (sample_clib []) 0 l_cpuset_isset [VUd 2; VInt 2] two_sets two_mem (Ok [VBool true])
    (put 0%nat (idle two_sets) two_mem).
Proof.
  refine (cpuset_whole (sample_clib []) 0 (VUd 2) 2 two_sets two_mem 512 5 _ _ _);
    [exact (cset_first [])|exact (cset_first [VInt 2])|lia].
Defined.

Lemma cpuset_query_witness :
  members 5 = [0; 2] /\
  executes (sample_clib []) 0 l_cpuset_count [VUd 2] two_sets two_mem
    (Ok [VInt (Z.of_nat (length (members 5)))]) (put 0%nat (idle two_sets) two_mem).
Proof.
  split; [vm_compute; reflexivity|].
  apply (cpuset_query (sample_clib []) 0 l_cpuset_count (fun m => VInt (Z.of_nat (length m)))
    (VUd 2) two_sets two_mem 512 5); [cbn; auto|exact (cset_first [])].
Defined.

Lemma cpuset_compare_witness :
  overlaps (members 5) (members 6) = true /\
  executes (sample_clib []) 0 l_cpuset_overlap [VUd 2; VUd 3] two_sets two_mem
    (Ok [VBool (overlaps (members 5) (members 6))])
    (put 0%nat (idle two_sets) two_mem).
Proof.
  split; [vm_compute; reflexivity|].
  apply (cpuset_compare (sample_clib []) 0 l_cpuset_overlap overlaps
    (VUd 2) (VUd 3) two_sets two_mem 512 513 5 6);
    [cbn; auto|exact (cset_first [VUd 3])|exact cset_second].
Defined.

Lemma cpuset_guard_witness :
  executes (sample_clib []) 0 l_cpuset_or [VUd 2; VInt 3] two_sets two_mem
    (Halt (Raise (EType 2 CPUSET_METATABLE))) (put 0%nat (idle two_sets) two_mem).
Proof.
  apply (cpuset_guard (sample_clib []) 0 l_cpuset_or 2 [VUd 2; VInt 3] two_sets two_mem) with (p := 512) (a := 5);
    [cbn; auto 30|reflexivity|exact (cset_first [VInt 3])|reflexivity].
Defined.

Lemma cpuset_open_witness :
  exists h' m, executes (sample_clib []) 0 luaopen_sys_cpuset [] (hp new_lstate) two_mem (Ok [VTab m])
      (put 0%nat (idle h') two_mem) /\
    typed h' CPUSET_METATABLE l_cpuset_meta /\
    exports h' m l_cpuset_funcs [("CPU_SETSIZE", VInt CPU_SETSIZE)] /\
    grows [CPUSET_METATABLE] (hp new_lstate) h'.
Proof. apply (cpuset_open (sample_clib []) 0 (hp new_lstate) two_mem). reflexivity. Defined.
