(* ===== verification/PthreadCopy.v ===== *)
(** * lua_pthread.c: copying values between Lua states

    Threads run in states of their own; [copyn] moves values from one state to
    another.  [copy_value] says what a copy is: scalars and strings as they are,
    a Lua function as its bytecode loaded in the other state, with copies of its
    upvalues, except for [_ENV]; everything else is refused. *)

From S2P Require Import Prelude LuaApi Machine Capi Utils Samples.

(** ** Operations *)

(** the writer of [lua_dump]: 0 to go on, and the buffer with the piece added *)
Definition buffer_writer (p : string) (ud : string) : Z * string := (0, ud +:+ p).

(** what [lua_dump] leaves in the buffer when the writer accepts every piece *)
Definition write_all (pieces : list string) : string :=
  fold_left (fun b p => (buffer_writer p b).2) pieces "".

Section ops.
Context (L l : nat).

(** no function has more than 255 upvalues *)
Definition MAXUPVAL : nat := 255.

Fixpoint copy_upvalues (rec : prog Z) (idx lidx : Z) (fuel uv : nat) : prog bool :=
  match fuel with
  | O => halts (EHalt Diverge)
  | S fuel =>
      name ← lua_getupvalue L idx uv;
      match name with
      | None => mret true
      | Some name =>
          if String.eqb name "_ENV" then
            lua_pop L 1;;
            copy_upvalues rec idx lidx fuel (S uv)
          else
            error ← rec;
            if negb (error =? 0) then mret false
            else
              lua_pop L 1;;
              name ← lua_setupvalue l lidx uv;
              assert_ (bool_decide (is_Some name)) "name != NULL";;
              copy_upvalues rec idx lidx fuel (S uv)
      end
  end.

(** the bytecode of the function at [idx], left on top of the stack *)
Definition dump_function (idx : Z) : prog (option string) :=
  luaL_buffinit L;;
  lua_pushvalue L idx;;
  pieces ← lua L Dump;
  match pieces with
  | None => mret None
  | Some pieces =>
      luaL_pushresult L (write_all pieces);;
      p ← lua_tolstring L (-1);
      mret (Some p)
  end.

Definition copy_function (rec : prog Z) (idx : Z) : prog bool :=
  p ← dump_function idx;
  match p with
  | None => mret false
  | Some p =>
      ok ← lua_loadbuffer l p;
      if negb ok then mret false
      else
        lua_pop L 2;;
        lidx ← lua_gettop l;
        ok ← copy_upvalues rec idx lidx (S MAXUPVAL) 1;
        if negb ok then mret false
        else
          top ← lua_gettop l;
          assert_ (top =? lidx) "lua_gettop(l) == lidx";;
          mret true
  end.

(** the body of the loop; false where the code returns [idx] *)
Definition copy_one (rec : prog Z) (idx : Z) : prog bool :=
  t ← lua_type L idx;
  match t with
  | TNIL => lua_pushnil l;; mret true
  | TBOOLEAN => b ← lua_toboolean L idx; lua_pushboolean l b;; mret true
  | TLIGHTUSERDATA => p ← lua_touserdata L idx; lua_pushlightuserdata l p;; mret true
  | TNUMBER =>
      isint ← lua_isinteger L idx;
      (if isint : bool then n ← lua_tointeger L idx; lua_pushinteger l n
       else n ← lua_tonumber L idx; lua_pushnumber l n);;
      mret true
  | TSTRING => s ← lua_tolstring L idx; lua_pushlstring l s;; mret true
  | TFUNCTION => copy_function rec idx
  | _ => mret false
  end.

Fixpoint copy_loop (rec : prog Z) (idx : Z) (n : nat) : prog Z :=
  match n with
  | O => mret 0
  | S n =>
      ok ← copy_one rec idx;
      if ok : bool then copy_loop rec (idx + 1) n else mret idx
  end.

Fixpoint copyn (depth : nat) (idx : Z) (n : Z) : prog Z :=
  match depth with
  | O => halts (EHalt Diverge)
  | S depth =>
      Ltop ← lua_gettop L;
      ltop ← lua_gettop l;
      error ← copy_loop (copyn depth (-1) 1) idx (Z.to_nat n);
      if negb (error =? 0) then mret error
      else
        Ltop' ← lua_gettop L;
        assert_ (Ltop' =? Ltop) "lua_gettop(L) == Ltop";;
        ltop' ← lua_gettop l;
        assert_ (ltop' =? ltop + n) "lua_gettop(l) == ltop + n";;
        mret 0
  end.
End ops.

(** ** What a copy is *)

Section spec.
Context `{LuaSem}.

(** give upvalue [i] (from 0) of function [f] the value [v] *)
Definition set_upvalue (f i : nat) (name : string) (v : value) (h : heap) : heap :=
  match funs h !! f with
  | Some (LuaF p ups) => set_fun f (LuaF p (<[i := (name, v)]> ups)) h
  | _ => h
  end.

(** copy the upvalues [ups], from the [i]th, to function [f] *)
Fixpoint copy_ups (cp : value -> heap -> option (option (value * heap)))
  (f i : nat) (ups : list (string * value)) (h : heap) : option (option heap) :=
  match ups with
  | [] => Some (Some h)
  | (name, v) :: ups =>
      if String.eqb name "_ENV" then copy_ups cp f (S i) ups h
      else
        match cp v h with
        | Some (Some (v', h')) => copy_ups cp f (S i) ups (set_upvalue f i name v' h')
        | Some None => Some None
        | None => None
        end
  end.

(** the copy of [v] from heap [hs] in heap [hd], with the new [hd]; [Some None] if
    it is refused.  [depth] bounds the nesting of functions in upvalues ([None]
    beyond it); a function that is itself an upvalue can only be copied if
    string buffers do not use the stack *)
Fixpoint copy_value (depth : nat) (nested : bool) (hs : heap) (v : value) (hd : heap) :
  option (option (value * heap)) :=
  match v with
  | VNil | VBool _ | VLud _ | VInt _ | VNum _ | VStr _ => Some (Some (v, hd))
  | VTab _ | VUd _ => Some None
  | VFun f =>
      if nested && negb (ls_bufslots =? 0)%nat then Some None
      else
        match funs hs !! f with
        | Some (LuaF p ups) =>
            let f' := fresh hd in
            let cp v h := match depth with
                          | O => None
                          | S d => copy_value d true hs v h
                          end in
            let h := bump (set_fun f' (LuaF p (load_ups (globals hd) ups.*1)) hd) in
            match copy_ups cp f' 0 ups h with
            | Some (Some h') => Some (Some (VFun f', h'))
            | Some None => Some None
            | None => None
            end
        | Some (CF _ | CC _ _) => Some None
        | None => None
        end
  end.

(** what is done with each upvalue *)
Definition copy_up (depth : nat) (hs : heap) (v : value) (h : heap) : option (option (value * heap)) :=
  match depth with O => None | S d => copy_value d true hs v h end.

Lemma copy_value_fun depth nested hs f hd :
  copy_value depth nested hs (VFun f) hd =
  if nested && negb (ls_bufslots =? 0)%nat then Some None
  else
    match funs hs !! f with
    | Some (LuaF p ups) =>
        match copy_ups (copy_up depth hs) (fresh hd) 0 ups
          (bump (set_fun (fresh hd) (LuaF p (load_ups (globals hd) ups.*1)) hd)) with
        | Some (Some h') => Some (Some (VFun (fresh hd), h'))
        | Some None => Some None
        | None => None
        end
    | Some (CF _ | CC _ _) => Some None
    | None => None
    end.
Proof. by destruct depth. Qed.

(** the copies of a list of values, or the position of the first one refused *)
Fixpoint copy_values (depth : nat) (hs : heap) (vs : list value) (hd : heap) :
  option (sum (list value * heap) nat) :=
  match vs with
  | [] => Some (inl ([], hd))
  | v :: vs =>
      match copy_value depth false hs v hd with
      | Some (Some (v', hd)) =>
          match copy_values depth hs vs hd with
          | Some (inl (vs', hd)) => Some (inl (v' :: vs', hd))
          | Some (inr i) => Some (inr (S i))
          | None => None
          end
      | Some None => Some (inr 0%nat)
      | None => None
      end
  end.
End spec.

(** a copy only adds functions *)
Section spec_facts.
Context `{LuaSem}.

Definition fun_grows (h h' : heap) : Prop :=
  (fresh h <= fresh h')%nat /\
  (forall g, (g < fresh h)%nat -> funs h' !! g = funs h !! g) /\
  tabs h' = tabs h /\ uds h' = uds h /\ reg h' = reg h /\ globals h' = globals h.

#[export] Instance fun_grows_preorder : PreOrder fun_grows.
Proof.
  split; [by intros h|]. intros h1 h2 h3 (F1 & G1 & T1 & U1 & R1 & E1) (F2 & G2 & T2 & U2 & R2 & E2).
  unfold fun_grows. split_all; [lia| |congruence..]. intros g Hg. rewrite G2 by lia. by apply G1.
Qed.

(** [f] is a Lua function with upvalues of these names *)
Definition has_fun (f : nat) (names : list string) (h : heap) : Prop :=
  (f < fresh h)%nat /\ exists p ups, funs h !! f = Some (LuaF p ups) /\ ups.*1 = names.

Lemma has_fun_grows f names h h' : has_fun f names h -> fun_grows h h' -> has_fun f names h'.
Proof. intros [Hf (p & ups & Hp)] (Hfr & Hg & _). split; [lia|]. exists p, ups. by rewrite Hg. Qed.

Lemma set_upvalue_has f names i name v h :
  has_fun f names h -> names !! i = Some name -> has_fun f names (set_upvalue f i name v h).
Proof.
  intros [Hf (p & ups & Hp & Hl)] Hn. unfold set_upvalue. rewrite Hp. split; [done|].
  exists p, (<[i := (name, v)]> ups). split; [cbn; apply lookup_insert_eq|].
  rewrite list_fmap_insert, Hl. by apply list_insert_id.
Qed.

(** everything but the function itself *)
Lemma set_upvalue_other f i name v h g :
  g ≠ f -> funs (set_upvalue f i name v h) !! g = funs h !! g.
Proof.
  intros Hg. unfold set_upvalue. destruct (funs h !! f) as [[]|]; [|done..].
  cbn. by rewrite lookup_insert_ne.
Qed.

Lemma set_upvalue_rest f i name v h :
  let h' := set_upvalue f i name v h in
  fresh h' = fresh h /\ tabs h' = tabs h /\ uds h' = uds h /\ reg h' = reg h /\ globals h' = globals h.
Proof. unfold set_upvalue. destruct (funs h !! f) as [[]|]; done. Qed.

Lemma copy_ups_grows cp f i ups h h0 h' :
  (forall v h1 v' h2, cp v h1 = Some (Some (v', h2)) -> fun_grows h1 h2) ->
  (fresh h0 <= f < fresh h)%nat -> fun_grows h0 h ->
  copy_ups cp f i ups h = Some (Some h') -> fun_grows h0 h'.
Proof.
  intros Hcp. revert i h. induction ups as [|[name v] ups IH]; intros i h Hf Hg Hc; cbn in Hc.
  - by simplify_eq.
  - destruct (String.eqb name "_ENV"); [by eapply IH|].
    destruct (cp v h) as [[[v' h1]|]|] eqn:E; [|done..]. apply Hcp in E.
    pose proof E as (Hfr & _). destruct (set_upvalue_rest f i name v' h1) as (F & T & U & R & Gl).
    eapply IH; [| |exact Hc]; [rewrite F; lia|].
    assert (Hg1 : fun_grows h0 h1) by by etransitivity.
    destruct Hg1 as (Hfr1 & Hg1 & T1 & U1 & R1 & E1).
    unfold fun_grows. split_all; [lia| |congruence..]. intros g Hlt. rewrite set_upvalue_other by lia. by apply Hg1.
Qed.

(** also when a copy fails half way, what closing a state looks at is as it was *)
Definition kept (h h' : heap) : Prop :=
  (fresh h <= fresh h')%nat /\ tabs h' = tabs h /\ uds h' = uds h /\
  forall f s, (f < fresh h)%nat -> funs h !! f = Some (CF s) -> funs h' !! f = Some (CF s).

#[export] Instance kept_preorder : PreOrder kept.
Proof.
  split; [by intros h|]. intros h1 h2 h3 (F1 & T1 & U1 & C1) (F2 & T2 & U2 & C2).
  unfold kept. split_all; [lia|congruence..|]. intros f s Hf Hs. apply C2; [lia|by apply C1].
Qed.

Lemma fun_grows_kept h h' : fun_grows h h' -> kept h h'.
Proof. intros (F & G & T & U & _). unfold kept. split_all; [done..|]. intros f s Hf. by rewrite G. Qed.

Lemma set_upvalue_kept f i name v h : kept h (set_upvalue f i name v h).
Proof.
  destruct (set_upvalue_rest f i name v h) as (F & T & U & _). unfold kept.
  rewrite F, T, U. split_all; [done..|]. intros g s _ Hg.
  destruct (decide (g = f)) as [->|Hne]; [|by rewrite set_upvalue_other].
  unfold set_upvalue. by rewrite Hg.
Qed.

Lemma fun_grows_alloc f h : fun_grows h (bump (set_fun (fresh h) f h)).
Proof. unfold fun_grows. split_all; cbn; [lia| |done..]. intros g Hlt. by rewrite lookup_insert_ne by lia. Qed.

Lemma copy_value_grows d nested hs v h v' h' :
  copy_value d nested hs v h = Some (Some (v', h')) -> fun_grows h h'.
Proof.
  revert nested v h v' h'. induction d as [|d IH]; intros nested v h v' h' Hc;
    (destruct v; try (cbn in Hc; by simplify_eq)); cbn [copy_value] in Hc;
    (destruct (nested && _); [done|]);
    (destruct (funs hs !! f) as [[p ups| |]|]; [|done..]);
    (destruct (copy_ups _ _ _ _ _) as [[h1|]|] eqn:E; [|done..]); simplify_eq;
    (refine (copy_ups_grows _ _ _ _ _ h _ _ _ _ E); [|cbn; lia|apply fun_grows_alloc]).
  - done.
  - intros v1 h1' v2 h2 Hv. by apply (IH _ _ _ _ _ Hv).
Qed.
End spec_facts.

(** ** Runs over two states *)

Section run2.
Context `{LuaSem} {S : Type} `{Libc S} (C : clib S) (L l : nat) (Hne : L ≠ l).
Implicit Types (w : world S lstate) (vs : list value) (h : heap).
Abbreviation rn := (run (documented C)).

Lemma run_lua2 {R} (e : luaE R) s s' w :
  rn (lua l e) (put L s (put l s' w)) =
  let '(r, s'') := doc e s' in (r, put L s (put l s'' w)).
Proof.
  rewrite put_comm by done. rewrite run_lua. destruct (doc e s') as [r s''].
  by rewrite put_comm by done.
Qed.

Lemma write_all_concat pieces : write_all pieces = String.concat "" pieces.
Proof.
  unfold write_all.
  assert (Hg : forall b, fold_left (fun b p => (buffer_writer p b).2) pieces b =
    b +:+ String.concat "" pieces).
  { induction pieces as [|p ps IH]; intros b; cbn [fold_left]; [by rewrite string_app_nil_r|].
    rewrite IH. unfold buffer_writer; cbn [snd]. by rewrite concat_cons, string_app_assoc. }
  by rewrite Hg.
Qed.

(** free slots: what a copy of this depth needs on either side *)
Definition need_src (d : nat) : nat := 2 + ls_bufslots + d.
Definition need_dst (d : nat) : nat := 2 + d.

Lemma run_pop1_src x vs n h s' w :
  rn (lua_pop L 1) (put L (LS (x :: vs) n h) (put l s' w)) =
  (Ok tt, put L (LS vs (1 + n) h) (put l s' w)).
Proof. apply run_pop1. Qed.

(** the result of copying one value: pushed on [l]; or refused, with whatever was
    pushed meanwhile left on the stacks *)
Definition copied (vsL : list value) (nL : nat) (hL : heap) (vsl : list value) (nl : nat) (hl : heap)
  (r : option (value * heap)) {A} (yes no : A) (w : world S lstate)
  (res : outcome A * world S lstate) : Prop :=
  match r with
  | Some (v', hl') => res = (Ok yes, put L (LS vsL nL hL) (put l (LS (v' :: vsl) (pred nl) hl') w))
  | None => exists xL mL xl ml hl', kept hl hl' /\
      res = (Ok no, put L (LS (xL ++ vsL) mL hL) (put l (LS (xl ++ vsl) ml hl') w))
  end.

Lemma run_upvalues rec idx vsL nL hL vsl nl w (cp : value -> heap -> option (option (value * heap)))
  f p ups f' :
  at_ vsL idx = Val (VFun f) -> funs hL !! f = Some (LuaF p ups) ->
  (forall v h v' h', cp v h = Some (Some (v', h')) -> fun_grows h h') ->
  (forall v h r, cp v h = Some r -> exists no, no ≠ 0 /\
    copied (v :: vsL) nL hL (VFun f' :: vsl) (1 + nl) h r 0 no w
      (rn rec (put L (LS (v :: vsL) nL hL) (put l (LS (VFun f' :: vsl) (1 + nl) h) w)))) ->
  forall rest i hl r fuel,
  drop i ups = rest -> has_fun f' ups.*1 hl -> copy_ups cp f' i rest hl = Some r ->
  (length rest < fuel)%nat ->
  match r with
  | Some hl' => rn (copy_upvalues L l rec idx (Z.of_nat (length vsl + 1)) fuel (Datatypes.S i))
      (put L (LS vsL (1 + nL) hL) (put l (LS (VFun f' :: vsl) (1 + nl) hl) w)) =
      (Ok true, put L (LS vsL (1 + nL) hL) (put l (LS (VFun f' :: vsl) (1 + nl) hl') w))
  | None => exists xL mL xl ml hl', kept hl hl' /\
      rn (copy_upvalues L l rec idx (Z.of_nat (length vsl + 1)) fuel (Datatypes.S i))
      (put L (LS vsL (1 + nL) hL) (put l (LS (VFun f' :: vsl) (1 + nl) hl) w)) =
      (Ok false, put L (LS (xL ++ vsL) mL hL) (put l (LS (xl ++ vsl) ml hl') w))
  end.
Proof.
  intros Ha Hf Hgr Hrec. induction rest as [|[name v] rest IH];
    intros i hl r fuel Hd Hh Hc Hfu; (destruct fuel as [|fuel]; [cbn in Hfu; lia|]); cbn [copy_upvalues];
    cbn in Hc.
  - simplify_eq. assert (Hn : ups !! i = None).
    { apply lookup_ge_None. apply (f_equal length) in Hd. rewrite length_drop in Hd. cbn in Hd. lia. }
    lua_run. rewrite Ha, Hf. doc_eval. rewrite Hn. lua_run. done.
  - assert (Hn : ups !! i = Some (name, v)).
    { rewrite <- (Nat.add_0_r i), <- lookup_drop, Hd. done. }
    assert (Hd' : drop (Datatypes.S i) ups = rest).
    { rewrite <- Nat.add_1_r, <- drop_drop, Hd. done. }
    lua_run. rewrite Ha, Hf. doc_eval. rewrite Hn. lua_run.
    destruct (String.eqb name "_ENV").
    + lua_run. apply IH; [done..|]. cbn in Hfu. lia.
    + destruct (cp v hl) as [r1|] eqn:E; [|done].
      destruct (Hrec v hl r1 E) as (no & Hno & Hcp).
      destruct r1 as [[v' hl1]|]; cbn in Hcp.
      * rewrite run_bind, Hcp. cbn [andthen negb Z.eqb]. rewrite run_bind, run_pop1_src. cbn [andthen].
        pose proof (has_fun_grows _ _ _ _ Hh (Hgr _ _ _ _ E)) as Hh1.
        assert (Hnm : ups.*1 !! i = Some name) by by rewrite list_lookup_fmap, Hn.
        pose proof (set_upvalue_has f' _ i name v' hl1 Hh1 Hnm) as Hh2.
        destruct Hh1 as (_ & p' & ups' & Hp' & Hns).
        assert (exists u, ups' !! i = Some (name, u)) as [u Hu].
        { rewrite <- Hns, list_lookup_fmap in Hnm. destruct (ups' !! i) as [[? u]|]; [|done].
          cbn in Hnm. simplify_eq. by exists u. }
        rewrite run_bind, run_lua2. cbn [doc]. unfold doc_setupvalue, func_at, at_value. cbn [stk hp].
        pose proof (at_bottom [v'] vsl (VFun f')) as Hat. cbn [app] in Hat. rewrite Hat, Hp'. cbn [pred]. rewrite Hu. doc_eval.
        rewrite run_bind, bool_decide_true by done. cbn [assert_ andthen]. rewrite run_ret. cbn [andthen].
        replace (set_fun f' _ hl1) with (set_upvalue f' i name v' hl1) by (unfold set_upvalue; by rewrite Hp').
        pose proof (set_upvalue_kept f' i name v' hl1) as Hks.
        pose proof (fun_grows_kept _ _ (Hgr _ _ _ _ E)) as Hkg.
        specialize (IH (Datatypes.S i) _ r fuel Hd' Hh2 Hc ltac:(cbn in Hfu; lia)).
        destruct r; [exact IH|]. destruct IH as (xL & mL & xl & ml & hl' & Hk & IH).
        exists xL, mL, xl, ml, hl'. split; [by do 2 (etransitivity; [eassumption|])|exact IH].
      * injection Hc as <-. destruct Hcp as (xL & mL & xl & ml & hl' & Hk & Hcp).
        rewrite run_bind, Hcp. cbn [andthen]. destruct (Z.eqb_spec no 0); [done|]. cbn [negb].
        exists (xL ++ [v]), mL, (xl ++ [VFun f']), ml, hl'. rewrite <- !app_assoc. done.
Qed.

(** Lua bounds the number of upvalues *)
Definition few_upvalues (h : heap) : Prop :=
  forall f p ups, funs h !! f = Some (LuaF p ups) -> (length ups <= MAXUPVAL)%nat.

(** with the slots of a buffer on it, what is on top of the stack *)
Abbreviation buffered vs := (replicate ls_bufslots (VLud 1) ++ vs).

Lemma run_buffinit idx v vsL nL hL s' w :
  at_ (buffered vsL) idx = Val v -> (2 + ls_bufslots <= nL)%nat ->
  rn (luaL_buffinit L;; lua_pushvalue L idx) (put L (LS vsL nL hL) (put l s' w)) =
  (Ok tt, put L (LS (v :: buffered vsL) (nL - ls_bufslots - 1) hL) (put l s' w)).
Proof.
  intros Ha Hn. rewrite run_bind, run_lua. cbn [doc]. unfold doc_buffinit. cbn [room stk hp].
  rewrite (proj2 (Nat.leb_le _ _)) by lia. cbn [andthen]. rewrite run_lua.
  cbn [doc]. unfold at_value. cbn [stk]. rewrite Ha. unfold push. cbn [room].
  destruct (nL - ls_bufslots)%nat as [|m] eqn:E; [lia|]. cbn. by rewrite Nat.sub_0_r.
Qed.

(** dumping a Lua function leaves its bytecode on top of one more value ... *)
Lemma run_dump idx vsL nL hL f p ups s' w :
  at_ (buffered vsL) idx = Val (VFun f) -> funs hL !! f = Some (LuaF p ups) ->
  (2 + ls_bufslots <= nL)%nat ->
  let b := String.concat "" (ls_dump p ups.*1) in
  exists x, rn (dump_function L idx) (put L (LS vsL nL hL) (put l s' w)) =
    (Ok (Some b), put L (LS (VStr b :: x :: vsL) (nL - 2) hL) (put l s' w)).
Proof.
  intros Ha Hf Hn b.
  assert (exists x, drop ls_bufslots (VFun f :: buffered vsL) = x :: vsL) as [x Hx].
  { destruct ls_bufslots as [|k]; [by exists (VFun f)|]. exists (VLud 1). cbn [drop].
    rewrite replicate_S_end, <- app_assoc.
    by rewrite drop_app_length' by by rewrite length_replicate. }
  exists x. unfold dump_function.
  assert (Hb : forall q : prog (option string), (luaL_buffinit L;; lua_pushvalue L idx;; q) =
    ((luaL_buffinit L;; lua_pushvalue L idx);; q)) by done.
  rewrite Hb, run_bind, (run_buffinit idx (VFun f)) by done. cbn [andthen].
  rewrite run_bind, run_lua. cbn [doc]. unfold doc_dump, at_value. cbn [stk hp].
  change (at_ (VFun f :: buffered vsL) (-1)) with (Val (VFun f)). cbv beta iota. cbn [hp]. rewrite Hf. cbn [andthen].
  rewrite write_all_concat. fold b. rewrite run_bind, run_lua. cbn [doc]. unfold doc_bufresult. cbn [stk room hp].
  rewrite (proj2 (Nat.leb_le _ _)) by (cbn; rewrite length_app, length_replicate; lia).
  rewrite Hx. unfold push. cbn [room stk hp].
  destruct (nL - ls_bufslots - 1 + ls_bufslots)%nat as [|m] eqn:E; [lia|]. cbn [andthen].
  rewrite run_bind. lua_run. by replace m with (nL - 2)%nat by lia.
Qed.

Definition c_function (h : heap) (f : nat) : Prop :=
  match funs h !! f with Some (CF _ | CC _ _) => True | _ => False end.

(** ... and on another value it fails *)
Lemma run_dump_fails idx vsL nL hL v s' w :
  at_ (buffered vsL) idx = Val v ->
  match v with VFun f => c_function hL f | _ => True end ->
  (2 + ls_bufslots <= nL)%nat ->
  rn (dump_function L idx) (put L (LS vsL nL hL) (put l s' w)) =
  (Ok None, put L (LS (v :: buffered vsL) (nL - ls_bufslots - 1) hL) (put l s' w)).
Proof.
  intros Ha Hv Hn. unfold dump_function.
  assert (Hb : forall q : prog (option string), (luaL_buffinit L;; lua_pushvalue L idx;; q) =
    ((luaL_buffinit L;; lua_pushvalue L idx);; q)) by done.
  rewrite Hb, run_bind, (run_buffinit idx v) by done. cbn [andthen].
  rewrite run_bind, run_lua. cbn [doc]. unfold doc_dump, at_value. cbn [stk hp].
  change (at_ (v :: buffered vsL) (-1)) with (Val v). cbv beta iota. cbn [hp]. destruct v; try done.
  unfold c_function in Hv. by destruct (funs hL !! f) as [[]|].
Qed.

Lemma run_loadbuffer p ups s vsl nl hl w :
  rn (lua_loadbuffer l (String.concat "" (ls_dump p ups))) (put L s (put l (LS vsl (1 + nl) hl) w)) =
  (Ok true, put L s (put l (LS (VFun (fresh hl) :: vsl) nl
     (bump (set_fun (fresh hl) (LuaF p (load_ups (globals hl) ups)) hl))) w)).
Proof. rewrite run_lua2. cbn [doc]. unfold doc_loadbuffer. by rewrite ls_roundtrip. Qed.

Lemma load_ups_names g names : (load_ups g names).*1 = names.
Proof.
  unfold load_ups. apply list_eq. intros i. rewrite list_lookup_fmap, list_lookup_imap.
  by destruct (names !! i).
Qed.

Lemma run_copy_function rec idx vsL nL hL vsl nl hl w cp f p ups r :
  at_ vsL idx = Val (VFun f) -> at_ (buffered vsL) idx = Val (VFun f) ->
  funs hL !! f = Some (LuaF p ups) -> (length ups <= MAXUPVAL)%nat -> (1 + ls_bufslots <= nL)%nat ->
  (forall v h v' h', cp v h = Some (Some (v', h')) -> fun_grows h h') ->
  (forall v h r, cp v h = Some r -> exists no, no ≠ 0 /\
    copied (v :: vsL) nL hL (VFun (fresh hl) :: vsl) (1 + nl) h r 0 no w
      (rn rec (put L (LS (v :: vsL) nL hL) (put l (LS (VFun (fresh hl) :: vsl) (1 + nl) h) w)))) ->
  copy_ups cp (fresh hl) 0 ups (bump (set_fun (fresh hl) (LuaF p (load_ups (globals hl) ups.*1)) hl)) = Some r ->
  copied vsL (1 + nL) hL vsl (2 + nl) hl ((fun h' => (VFun (fresh hl), h')) <$> r) true false w
    (rn (copy_function L l rec idx) (put L (LS vsL (1 + nL) hL) (put l (LS vsl (2 + nl) hl) w))).
Proof.
  intros Ha Hb Hf Hlen Hn Hgr Hrec Hc. unfold copy_function. rewrite run_bind.
  destruct (run_dump idx vsL (1 + nL) hL f p ups (LS vsl (2 + nl) hl) w Hb Hf) as [x ->]; [lia|].
  cbn [andthen]. change (2 + nl)%nat with (1 + (1 + nl))%nat. rewrite run_bind, run_loadbuffer. cbn [andthen negb].
  rewrite run_bind, run_pop2. cbn [andthen]. replace (2 + (1 + nL - 2))%nat with (1 + nL)%nat by lia.
  rewrite run_bind, run_lua2. cbn [doc andthen stk length].
  replace (Z.of_nat (Datatypes.S (length vsl))) with (Z.of_nat (length vsl + 1)) by lia.
  pose proof (run_upvalues rec idx vsL nL hL vsl nl w cp f p ups (fresh hl) Ha Hf Hgr Hrec
    ups 0%nat (bump (set_fun (fresh hl) (LuaF p (load_ups (globals hl) ups.*1)) hl)) r
    (Datatypes.S MAXUPVAL) eq_refl) as Hu.
  assert (Hh : has_fun (fresh hl) ups.*1
    (bump (set_fun (fresh hl) (LuaF p (load_ups (globals hl) ups.*1)) hl))).
  { split; [cbn; lia|]. eexists p, _. split; [cbn; apply lookup_insert_eq|apply load_ups_names]. }
  specialize (Hu Hh Hc ltac:(lia)). rewrite run_bind. destruct r as [h'|]; cbn [fmap option_fmap option_map].
  - rewrite Hu. cbn [andthen negb]. rewrite run_bind, run_lua2. cbn [doc andthen stk length].
    replace (Z.of_nat (Datatypes.S (length vsl))) with (Z.of_nat (length vsl + 1)) by lia.
    rewrite Z.eqb_refl. cbn [assert_]. done.
  - destruct Hu as (xL & mL & xl & ml & hl' & Hk & ->). cbn. exists xL, mL, xl, ml, hl'. split; [|done].
    etransitivity; [|exact Hk]. apply fun_grows_kept, fun_grows_alloc.
Qed.

Lemma run_copyn_one d idx vsL nL hL vsl nl hl w r :
  idx ≠ 0 ->
  copied vsL nL hL vsl nl hl r true false w
    (rn (copy_one L l (copyn L l d (-1) 1) idx) (put L (LS vsL nL hL) (put l (LS vsl nl hl) w))) ->
  copied vsL nL hL vsl nl hl r 0 idx w
    (rn (copyn L l (Datatypes.S d) idx 1) (put L (LS vsL nL hL) (put l (LS vsl nl hl) w))).
Proof.
  intros Hi Hc. cbn [copyn]. rewrite run_bind, run_lua. cbn [doc andthen].
  rewrite run_bind, run_lua2. cbn [doc andthen stk]. rewrite run_bind.
  change (Z.to_nat 1) with 1%nat. cbn [copy_loop]. rewrite run_bind.
  destruct r as [[v' hl']|]; cbn [copied] in Hc |- *.
  - rewrite Hc. cbn [andthen]. rewrite run_ret. cbn [andthen negb Z.eqb].
    rewrite run_bind, run_lua. cbn [doc andthen stk]. rewrite Z.eqb_refl, run_bind. cbn [assert_].
    rewrite run_ret. cbn [andthen]. rewrite run_bind, run_lua2. cbn [doc andthen stk length].
    replace (_ =? _) with true by (symmetry; apply Z.eqb_eq; lia). cbn [assert_].
    rewrite run_bind, run_ret. done.
  - destruct Hc as (xL & mL & xl & ml & hl' & Hk & ->). cbn [andthen]. rewrite run_ret. cbn [andthen].
    destruct (Z.eqb_spec idx 0); [done|]. cbn [negb]. by exists xL, mL, xl, ml, hl'.
Qed.

Lemma at_buffered vsL idx v : 0 < idx -> at_ vsL idx = Val v -> at_ (buffered vsL) idx = Val v.
Proof. apply at_app. Qed.

Lemma run_copy_scalar idx vsL nL hL vsl nl hl w v rec :
  match v with VTab _ | VUd _ | VFun _ => False | _ => True end ->
  at_ vsL idx = Val v -> (1 <= nl)%nat ->
  copied vsL nL hL vsl nl hl (Some (v, hl)) true false w
    (rn (copy_one L l rec idx) (put L (LS vsL nL hL) (put l (LS vsl nl hl) w))).
Proof.
  intros Hv Ha Hn. destruct nl as [|nl]; [lia|]. cbn [copied pred]. unfold copy_one.
  rewrite run_bind, run_lua. cbn [doc]. unfold doc_type, at_index. cbn [stk]. rewrite Ha.
  cbn [andthen]. destruct v; try done; cbn [type_of];
    repeat first [rewrite run_bind | rewrite run_ret
                 | rewrite run_lua2; cbn [doc push room stk hp andthen]
                 | rewrite run_lua; doc_eval; rewrite Ha; cbn [andthen] ]; try done.
  by destruct b.
Qed.

Lemma copied_nested d v vsL nL hL vsl nl hl w r :
  copied (v :: vsL) nL hL vsl nl hl r true false w
    (rn (copy_one L l (copyn L l d (-1) 1) (-1)) (put L (LS (v :: vsL) nL hL) (put l (LS vsl nl hl) w))) ->
  copied (v :: vsL) nL hL vsl nl hl r 0 (-1) w
    (rn (copyn L l (Datatypes.S d) (-1) 1) (put L (LS (v :: vsL) nL hL) (put l (LS vsl nl hl) w))).
Proof. by apply run_copyn_one. Qed.

(** the index of a value to copy: an argument, or the top for an upvalue *)
Definition good_index (nested : bool) (idx : Z) : Prop := if nested then idx = -1 else 0 < idx.

Lemma run_copy_refused rec nested idx f vsL nL hL vsl nl hl w :
  at_ vsL idx = Val (VFun f) -> good_index nested idx ->
  (nested && negb (ls_bufslots =? 0)%nat = true \/ c_function hL f) ->
  (2 + ls_bufslots <= nL)%nat ->
  copied vsL nL hL vsl nl hl None true false w
    (rn (copy_function L l rec idx) (put L (LS vsL nL hL) (put l (LS vsl nl hl) w))).
Proof.
  intros Ha Hi Hr Hn.
  assert (exists v, at_ (buffered vsL) idx = Val v /\
    match v with VFun f => c_function hL f | _ => True end) as (v & Hb & Hv).
  { destruct nested; cbn in Hi, Hr.
    - subst idx. destruct ls_bufslots as [|k]; [|by exists (VLud 1)].
      exists (VFun f). split; [done|]. by destruct Hr.
    - exists (VFun f). split; [by apply at_buffered|]. by destruct Hr. }
  unfold copy_function. rewrite run_bind, (run_dump_fails idx vsL nL hL v) by done. cbn.
  exists (v :: buffered []), (nL - ls_bufslots - 1)%nat, [], nl, hl.
  cbn. by rewrite app_nil_r.
Qed.

Lemma at_buffered_nested nested idx vsL v :
  good_index nested idx -> nested && negb (ls_bufslots =? 0)%nat = false ->
  at_ vsL idx = Val v -> at_ (buffered vsL) idx = Val v.
Proof.
  intros Hi Hn Ha. destruct nested; cbn in *; [|by apply at_buffered].
  destruct ls_bufslots; [done|done].
Qed.

Lemma run_copy_one d nested hL :
  few_upvalues hL -> forall fuel idx vsL nL vsl nl hl v r w, (d <= fuel)%nat ->
  at_ vsL idx = Val v -> good_index nested idx -> copy_value d nested hL v hl = Some r ->
  (need_src d <= nL)%nat -> (need_dst d <= nl)%nat ->
  copied vsL nL hL vsl nl hl r true false w
    (rn (copy_one L l (copyn L l fuel (-1) 1) idx) (put L (LS vsL nL hL) (put l (LS vsl nl hl) w))).
Proof.
  intros Hfew. revert nested.
  induction d as [d IH] using lt_wf_ind; intros nested fuel idx vsL nL vsl nl hl v r w Hfuel Ha Hi Hc HnL Hnl.
  unfold need_src, need_dst in *.
  assert (Hty : forall rec, rn (copy_one L l rec idx) (put L (LS vsL nL hL) (put l (LS vsl nl hl) w)) =
    rn (match type_of v with TFUNCTION => copy_function L l rec idx | TTABLE | TUSERDATA => mret false
        | _ => copy_one L l rec idx end)
      (put L (LS vsL nL hL) (put l (LS vsl nl hl) w))).
  { intros rec. destruct v; try done; unfold copy_one; rewrite run_bind, run_lua; cbn [doc];
      unfold doc_type, at_index; cbn [stk]; by rewrite Ha. }
  destruct v as [|b|z|q|s|q|tb|f|u];
    try (destruct d; cbn in Hc; injection Hc as <-; (apply run_copy_scalar; [done|done|lia]));
    rewrite Hty; cbn [type_of].
  - destruct d; cbn in Hc; injection Hc as <-; cbn [copied]; by exists [], nL, [], nl, hl.
  - rewrite copy_value_fun in Hc.
    destruct (nested && _) eqn:En.
    { injection Hc as <-. apply (run_copy_refused _ nested idx f); [done..|by left|lia]. }
    destruct (funs hL !! f) as [[p ups|c|c ups]|] eqn:Ef; [| | |done].
    2:{ injection Hc as <-. apply (run_copy_refused _ nested idx f); [done..|right; unfold c_function; by rewrite Ef|lia]. }
    2:{ injection Hc as <-. apply (run_copy_refused _ nested idx f); [done..|right; unfold c_function; by rewrite Ef|lia]. }
    destruct (copy_ups _ _ _ _ _) as [r0|] eqn:Ec; [|done].
    assert (r = (fun h' => (VFun (fresh hl), h')) <$> r0) as ->.
    { destruct r0; by injection Hc as <-. }
    destruct nL as [|nL]; [lia|]. destruct nl as [|[|nl]]; [lia..|].
    apply (run_copy_function _ _ _ _ _ _ nl _ _ (copy_up d hL) f p ups); [done|by eapply at_buffered_nested|done| |lia| | |exact Ec].
    + by eapply Hfew.
    + intros v h v' h' Hv. destruct d; [done|]. exact (copy_value_grows _ _ _ _ _ _ _ Hv).
    + intros v h r1 Hv. destruct d as [|d]; [done|]. exists (-1). split; [done|].
      destruct fuel as [|fuel]; [lia|].
      apply copied_nested. apply (IH d ltac:(lia) true fuel (-1) (v :: vsL) nL (VFun (fresh hl) :: vsl) (1 + nl)%nat h v r1 w); [lia|done|done|exact Hv|lia|lia].
  - destruct d; cbn in Hc; injection Hc as <-; cbn [copied]; by exists [], nL, [], nl, hl.
Qed.

Lemma run_copy_loop d fuel hL vsL nL :
  few_upvalues hL -> (d <= fuel)%nat -> (need_src d <= nL)%nat -> forall vs idx vsl nl hl r w,
  0 < idx -> (forall i v, vs !! i = Some v -> at_ vsL (idx + Z.of_nat i) = Val v) ->
  copy_values d hL vs hl = Some r -> (need_dst d + length vs <= nl)%nat ->
  let res := rn (copy_loop L l (copyn L l fuel (-1) 1) idx (length vs))
    (put L (LS vsL nL hL) (put l (LS vsl nl hl) w)) in
  match r with
  | inl (vs', hl') =>
      res = (Ok 0, put L (LS vsL nL hL) (put l (LS (rev vs' ++ vsl) (nl - length vs) hl') w))
  | inr i => exists xL mL xl ml hl', kept hl hl' /\
      res = (Ok (idx + Z.of_nat i), put L (LS (xL ++ vsL) mL hL) (put l (LS (xl ++ vsl) ml hl') w))
  end.
Proof.
  intros Hfew Hfuel HnL. induction vs as [|v vs IH]; intros idx vsl nl hl r w Hi Hat Hc Hnl; cbn zeta;
    cbn [copy_values] in Hc.
  - injection Hc as <-. cbn. by rewrite Nat.sub_0_r.
  - cbn [copy_loop length]. rewrite run_bind. cbn [length] in Hnl. unfold need_dst in *.
    destruct (copy_value d false hL v hl) as [r1|] eqn:E; [|done].
    pose proof (run_copy_one d false hL Hfew fuel idx vsL nL vsl nl hl v r1 w Hfuel) as H1.
    specialize (H1 ltac:(rewrite <- (Hat 0%nat v eq_refl); f_equal; lia) Hi E HnL ltac:(unfold need_dst; lia)).
    destruct r1 as [[v' hl1]|]; cbn [copied] in H1.
    + rewrite H1. cbn [andthen].
      destruct (copy_values d hL vs hl1) as [r2|] eqn:E2; [|done].
      specialize (IH (idx + 1) (v' :: vsl) (pred nl) hl1 r2 w ltac:(lia)).
      assert (Hat' : forall i v, vs !! i = Some v -> at_ vsL (idx + 1 + Z.of_nat i) = Val v).
      { intros i u Hu. rewrite <- (Hat (Datatypes.S i) u Hu). f_equal. lia. }
      specialize (IH Hat' E2 ltac:(lia)). cbn zeta in IH. destruct r2 as [[vs' hl2]|i]; injection Hc as <-.
      * rewrite IH. cbn [rev]. rewrite <- app_assoc. cbn [app].
        by replace (pred nl - length vs)%nat with (nl - Datatypes.S (length vs))%nat by lia.
      * destruct IH as (xL & mL & xl & ml & hl' & Hk & ->). exists xL, mL, (xl ++ [v']), ml, hl'. split; [by etransitivity; [eapply fun_grows_kept, copy_value_grows|]|].
        rewrite <- app_assoc. cbn [app].
        by replace (idx + 1 + Z.of_nat i) with (idx + Z.of_nat (Datatypes.S i)) by lia.
    + injection Hc as <-. destruct H1 as (xL & mL & xl & ml & hl' & Hk & ->). cbn [andthen].
      exists xL, mL, xl, ml, hl'. split; [done|]. rewrite run_ret. by rewrite Z.add_0_r.
Qed.

Lemma copy_values_length d hs vs hd vs' hd' :
  copy_values d hs vs hd = Some (inl (vs', hd')) -> length vs' = length vs.
Proof.
  revert hd vs' hd'. induction vs as [|v vs IH]; intros hd vs' hd' Hc; cbn in Hc; [by simplify_eq|].
  repeat case_match; simplify_eq. cbn. f_equal. by eapply IH.
Qed.

Lemma copy_values_grows d hs vs hd vs' hd' :
  copy_values d hs vs hd = Some (inl (vs', hd')) -> fun_grows hd hd'.
Proof.
  revert hd vs' hd'. induction vs as [|v vs IH]; intros hd vs' hd' Hc; cbn in Hc; [by simplify_eq|].
  destruct (copy_value d false hs v hd) as [[[v1 h1]|]|] eqn:E; [|done..].
  destruct (copy_values d hs vs h1) as [[[vs2 h2]|]|] eqn:E2; [|done..]. simplify_eq.
  etransitivity; [by eapply copy_value_grows|by eapply IH].
Qed.

(** [copyn] on the values at [idx] *)
Lemma run_copyn d fuel idx vs vsL nL hL vsl nl hl r w :
  few_upvalues hL -> (d <= fuel)%nat -> 0 < idx ->
  (forall i v, vs !! i = Some v -> at_ vsL (idx + Z.of_nat i) = Val v) ->
  copy_values d hL vs hl = Some r -> (need_src d <= nL)%nat -> (need_dst d + length vs <= nl)%nat ->
  let res := rn (copyn L l (Datatypes.S fuel) idx (Z.of_nat (length vs)))
    (put L (LS vsL nL hL) (put l (LS vsl nl hl) w)) in
  match r with
  | inl (vs', hl') =>
      res = (Ok 0, put L (LS vsL nL hL) (put l (LS (rev vs' ++ vsl) (nl - length vs) hl') w))
  | inr i => exists xL mL xl ml hl', kept hl hl' /\
      res = (Ok (idx + Z.of_nat i), put L (LS (xL ++ vsL) mL hL) (put l (LS (xl ++ vsl) ml hl') w))
  end.
Proof.
  intros Hfew Hfuel Hi Hat Hc HnL Hnl. cbn zeta. cbn [copyn]. rewrite run_bind, run_lua. cbn [doc andthen stk].
  rewrite run_bind, run_lua2. cbn [doc andthen stk]. rewrite Nat2Z.id, run_bind.
  pose proof (run_copy_loop d fuel hL vsL nL Hfew Hfuel HnL vs idx vsl nl hl r w Hi Hat Hc Hnl) as Hl.
  cbn zeta in Hl. destruct r as [[vs' hl']|i].
  - rewrite Hl. cbn [andthen negb Z.eqb]. rewrite run_bind, run_lua. cbn [doc andthen stk].
    rewrite Z.eqb_refl, run_bind. cbn [assert_]. rewrite run_ret. cbn [andthen].
    rewrite run_bind, run_lua2. cbn [doc andthen stk].
    rewrite length_app, length_rev, (copy_values_length _ _ _ _ _ _ Hc).
    replace (_ =? _) with true by (symmetry; apply Z.eqb_eq; lia). cbn [assert_].
    rewrite run_bind, run_ret. done.
  - destruct Hl as (xL & mL & xl & ml & hl' & Hk & ->). cbn [andthen].
    destruct (Z.eqb_spec (idx + Z.of_nat i) 0); [lia|]. cbn [negb]. by exists xL, mL, xl, ml, hl'.
Qed.
End run2.

(** ** Properties *)

Section properties.
Context `{LuaSem} {S : Type} `{Libc S} (C : clib S).
Implicit Types (w : world S lstate) (L l : nat) (vs : list value) (h : heap).

(** C2. [copyn] leaves on the other state's stack, in order, copies of the values at the given
    indices as [copy_values] makes them, and its own state as it was; or it stops at the first
    value that is refused and returns its index, having changed nothing in its own state but
    its stack. *)
Theorem copyn_copies L l d fuel idx vs vsL nL hL vsl nl hl w r :
  L ≠ l -> few_upvalues hL -> (d <= fuel)%nat -> 0 < idx ->
  (forall i v, vs !! i = Some v -> at_ vsL (idx + Z.of_nat i) = Val v) ->
  copy_values d hL vs hl = Some r -> (need_src d <= nL)%nat -> (need_dst d + length vs <= nl)%nat ->
  match r with
  | inl (vs', hl') =>
      length vs' = length vs /\ fun_grows hl hl' /\
      yields C (copyn L l (1 + fuel) idx (Z.of_nat (length vs)))
        (put L (LS vsL nL hL) (put l (LS vsl nl hl) w)) (Ok 0)
        (put L (LS vsL nL hL) (put l (LS (rev vs' ++ vsl) (nl - length vs) hl') w))
  | inr i => exists xL mL xl ml hl', kept hl hl' /\
      yields C (copyn L l (1 + fuel) idx (Z.of_nat (length vs)))
        (put L (LS vsL nL hL) (put l (LS vsl nl hl) w)) (Ok (idx + Z.of_nat i))
        (put L (LS (xL ++ vsL) mL hL) (put l (LS (xl ++ vsl) ml hl') w))
  end.
Proof.
  intros Hne Hfew Hfuel Hi Hat Hc HnL Hnl.
  pose proof (run_copyn C L l Hne d fuel idx vs vsL nL hL vsl nl hl r w Hfew Hfuel Hi Hat Hc HnL Hnl) as Hr.
  cbn zeta in Hr. destruct r as [[vs' hl']|i].
  - split_all; [by eapply copy_values_length|by eapply copy_values_grows|].
    apply yields_intro; [exact Hr|done].
  - destruct Hr as (xL & mL & xl & ml & hl' & Hk & Hr). exists xL, mL, xl, ml, hl'. split; [done|].
    by apply yields_intro.
Qed.

Definition scalar (v : value) : bool :=
  match v with VTab _ | VUd _ | VFun _ => false | _ => true end.

(** the upvalues of the copy of a function, when they need no copy themselves *)
Definition copied_ups (g : nat) (ups : list (string * value)) : list (string * value) :=
  imap (fun i nv => (nv.1, if String.eqb nv.1 "_ENV" then if (i =? 0)%nat then VTab g else VNil else nv.2)) ups.

Lemma copy_scalar d nested hs v h : scalar v = true -> copy_value d nested hs v h = Some (Some (v, h)).
Proof. by destruct d, v. Qed.

Definition simple_ups (ups : list (string * value)) : Prop :=
  Forall (fun nv => nv.1 = "_ENV" \/ scalar nv.2 = true) ups.

(** upvalues that are scalars replace what loading the function gave; [_ENV] does not *)
Lemma copy_ups_simple hs d f p rest i us h :
  simple_ups rest -> funs h !! f = Some (LuaF p us) ->
  (forall j, (j < length rest)%nat -> (i + j < length us)%nat) ->
  exists h' us', copy_ups (copy_value d true hs) f i rest h = Some (Some h') /\
    funs h' !! f = Some (LuaF p us') /\ length us' = length us /\
    forall j, us' !! j =
      match rest !! (j - i)%nat with
      | Some (n, v) => if (j <? i)%nat || String.eqb n "_ENV" then us !! j else Some (n, v)
      | None => us !! j
      end.
Proof.
  intros Hs. revert i us h. induction Hs as [|[n v] rest Hnv _ IH]; intros i us h Hf Hl; cbn [copy_ups].
  - exists h, us. split_all; try done. 
  - assert (Hb : forall j, (j < length rest)%nat -> (Datatypes.S i + j < length us)%nat).
    { intros j Hj. specialize (Hl (Datatypes.S j) ltac:(cbn; lia)). lia. }
    assert (Hcase : forall us0 us' : list (string * value), (forall j, us' !! j =
        match rest !! (j - Datatypes.S i)%nat with
        | Some (n, v) => if (j <? Datatypes.S i)%nat || String.eqb n "_ENV" then us0 !! j else Some (n, v)
        | None => us0 !! j
        end) -> forall j, us' !! j =
        if (i <? j)%nat then match ((n, v) :: rest) !! (j - i)%nat with
        | Some (n, v) => if String.eqb n "_ENV" then us0 !! j else Some (n, v)
        | None => us0 !! j
        end else us0 !! j).
    { intros us0 us' Hu j. rewrite Hu. destruct (Nat.ltb_spec i j).
      - replace (j - i)%nat with (Datatypes.S (j - Datatypes.S i)) by lia.
        change (((n, v) :: rest) !! Datatypes.S (j - Datatypes.S i)) with (rest !! (j - Datatypes.S i)%nat).
        destruct (rest !! _) as [[]|]; [|done].
        by rewrite (proj2 (Nat.ltb_ge j (Datatypes.S i))) by lia.
      - destruct (rest !! _) as [[]|]; [|done].
        by rewrite (proj2 (Nat.ltb_lt j (Datatypes.S i))) by lia. }
    destruct (String.eqb_spec n "_ENV") as [->|Hne].
    + destruct (IH (Datatypes.S i) us h Hf Hb) as (h' & us' & Hc & Hf' & Hlen & Hu).
      exists h', us'. split_all; [done..|]. intros j. rewrite (Hcase us us' Hu).
      destruct (Nat.ltb_spec i j); destruct (Nat.ltb_spec j i); try lia; cbn [orb];
        [done|by destruct ((("_ENV", v) :: rest) !! (j - i)%nat) as [[]|]|].
      assert (j = i) as -> by lia. by rewrite Nat.sub_diag.
    + destruct Hnv as [Hnv|Hnv]; [done|]. cbn in Hnv. rewrite copy_scalar by done.
      assert (Hi : (i < length us)%nat) by (specialize (Hl 0%nat ltac:(cbn; lia)); lia).
      destruct (IH (Datatypes.S i) (<[i := (n, v)]> us) (set_upvalue f i n v h)) as (h' & us' & Hc & Hf' & Hlen & Hu).
      { unfold set_upvalue. rewrite Hf. cbn. apply lookup_insert_eq. }
      { rewrite length_insert. done. }
      exists h', us'. rewrite length_insert in Hlen. split_all; [done..|].
      intros j. rewrite (Hcase _ us' Hu). destruct (Nat.ltb_spec i j).
      * rewrite list_lookup_insert_ne by lia. by rewrite (proj2 (Nat.ltb_ge j i)) by lia.
      * destruct (Nat.ltb_spec j i).
        -- rewrite list_lookup_insert_ne by lia. by destruct (((n, v) :: rest) !! (j - i)%nat) as [[]|].
        -- assert (j = i) as -> by lia. rewrite list_lookup_insert_eq by done. rewrite Nat.sub_diag. cbn.
           by destruct (String.eqb_spec n "_ENV").
Qed.

Lemma copy_closure_value hs hd d f p ups :
  funs hs !! f = Some (LuaF p ups) -> simple_ups ups ->
  exists hd', copy_value (Datatypes.S d) false hs (VFun f) hd = Some (Some (VFun (fresh hd), hd')) /\
    funs hd' !! fresh hd = Some (LuaF p (copied_ups (globals hd) ups)).
Proof.
  intros Hf Hs. rewrite copy_value_fun, Hf. cbn [andb].
  set (us := load_ups (globals hd) ups.*1).
  assert (Hlen : length us = length ups) by (unfold us, load_ups; by rewrite length_imap, length_fmap).
  destruct (copy_ups_simple hs d (fresh hd) p ups 0 us (bump (set_fun (fresh hd) (LuaF p us) hd)) Hs)
    as (h' & us' & Hc & Hf' & Hl & Hu).
  { cbn. apply lookup_insert_eq. }
  { intros j Hj. lia. }
  change (copy_up (Datatypes.S d) hs) with (copy_value d true hs). rewrite Hc.
  exists h'. split; [done|]. rewrite Hf'. do 2 f_equal.
  apply list_eq. intros j. rewrite Hu, Nat.sub_0_r. unfold copied_ups. rewrite list_lookup_imap.
  unfold us, load_ups. rewrite list_lookup_imap, list_lookup_fmap.
  destruct (ups !! j) as [[n v]|]; cbn; [|done]. destruct (String.eqb n "_ENV") eqn:En; [|done]. done.
Qed.

(** A function whose upvalues are scalars, strings or [_ENV] arrives with the same bytecode
    and the same upvalues; but [_ENV] is the globals of the other state only if it is the
    first upvalue, and otherwise nil. *)
Theorem copyn_closure L l f p ups idx vsL nL hL vsl nl hl w :
  L ≠ l -> few_upvalues hL -> 0 < idx -> at_ vsL idx = Val (VFun f) ->
  funs hL !! f = Some (LuaF p ups) -> simple_ups ups ->
  (3 + ls_bufslots <= nL)%nat -> (4 <= nl)%nat ->
  exists hl', funs hl' !! fresh hl = Some (LuaF p (copied_ups (globals hl) ups)) /\
    fun_grows hl hl' /\
    yields C (copyn L l 2 idx 1) (put L (LS vsL nL hL) (put l (LS vsl nl hl) w)) (Ok 0)
      (put L (LS vsL nL hL) (put l (LS (VFun (fresh hl) :: vsl) (nl - 1) hl') w)).
Proof.
  intros Hne Hfew Hi Ha Hf Hs HnL Hnl.
  destruct (copy_closure_value hL hl 0 f p ups Hf Hs) as (hl' & Hc & Hf').
  exists hl'. split_all; [done|by eapply copy_value_grows|].
  pose proof (run_copyn C L l Hne 1 1 idx [VFun f] vsL nL hL vsl nl hl (inl ([VFun (fresh hl)], hl')) w) as Hr.
  apply yields_intro; [|done]. apply Hr; [done|done|done| | |unfold need_src; lia|unfold need_dst; cbn; lia].
  - intros [|[]] v Hv; [|done..]. injection Hv as <-. by rewrite Z.add_0_r.
  - cbn [copy_values]. by rewrite Hc.
Qed.

(** Where string buffers occupy the stack (Lua 5.4.3 and later), a function that has another
    Lua function among its upvalues is refused, although it is serializable. *)
Theorem copyn_nested_function L l f p name g ups idx vsL nL hL vsl nl hl w :
  L ≠ l -> few_upvalues hL -> 0 < idx -> at_ vsL idx = Val (VFun f) ->
  funs hL !! f = Some (LuaF p ((name, VFun g) :: ups)) -> name ≠ "_ENV" ->
  (0 < ls_bufslots)%nat -> (3 + ls_bufslots <= nL)%nat -> (4 <= nl)%nat ->
  exists w', yields C (copyn L l 2 idx 1) (put L (LS vsL nL hL) (put l (LS vsl nl hl) w)) (Ok idx) w'.
Proof.
  intros Hne Hfew Hi Ha Hf Hname Hb HnL Hnl.
  pose proof (run_copyn C L l Hne 1 1 idx [VFun f] vsL nL hL vsl nl hl (inr 0%nat) w) as Hr. cbn zeta in Hr.
  destruct Hr as (xL & mL & xl & ml & hl' & Hk & Hr);
    [done|done|done| | |unfold need_src; lia|unfold need_dst; cbn; lia|].
  - intros [|[]] v Hv; [|done..]. injection Hv as <-. by rewrite Z.add_0_r.
  - cbn [copy_values]. rewrite copy_value_fun, Hf. cbn [andb copy_ups].
    destruct (String.eqb_spec name "_ENV"); [done|]. change (copy_up 1 hL) with (copy_value 0 true hL). rewrite copy_value_fun. cbn [andb].
    destruct (Nat.eqb_spec ls_bufslots 0); [lia|]. done.
  - eexists. apply yields_intro; [|done]. etransitivity; [exact Hr|]. by rewrite Z.add_0_r.
Qed.

(** *** Too many values *)

Lemma run_copy_overflow L l (Hne : L ≠ l) rec vsL nL hL : forall vs idx vsl nl hl w,
  0 < idx -> forallb scalar vs = true ->
  (forall i v, vs !! i = Some v -> at_ vsL (idx + Z.of_nat i) = Val v) -> (nl < length vs)%nat ->
  exists w', run (documented C) (copy_loop L l rec idx (length vs))
    (put L (LS vsL nL hL) (put l (LS vsl nl hl) w)) = (Halt (UB "Lua stack overflow"), w').
Proof.
  induction vs as [|v vs IH]; intros idx vsl nl hl w Hi Hs Hat Hn; [cbn in Hn; lia|].
  cbn [forallb] in Hs. apply andb_prop in Hs as [Hv Hs]. cbn [copy_loop length] in *.
  assert (Ha : at_ vsL idx = Val v) by (rewrite <- (Hat 0%nat v eq_refl); f_equal; lia).
  rewrite run_bind. destruct nl as [|nl].
  - eexists. unfold copy_one. rewrite run_bind, run_lua. cbn [doc]. unfold doc_type, at_index. cbn [stk].
    rewrite Ha. cbn [andthen]. destruct v; try done; cbn [type_of];
    repeat first [rewrite run_bind | rewrite run_ret
                 | rewrite (run_lua2 C L l Hne); cbn [doc push room stk hp andthen]
                 | rewrite run_lua; doc_eval; rewrite Ha; cbn [andthen] ]; done.
  - pose proof (run_copy_scalar C L l Hne idx vsL nL hL vsl (Datatypes.S nl) hl w v rec) as Hr.
    cbn [copied pred] in Hr. rewrite Hr by (done || lia || by destruct v). cbn [andthen].
    apply IH; [lia|done| |lia]. intros i u Hu. rewrite <- (Hat (Datatypes.S i) u Hu). f_equal. lia.
Qed.

(** [copyn] does not make room on the other state's stack: copying more values than it has
    free slots (20 in a new state) overflows it. *)
Theorem copyn_overflow L l d idx vs vsL nL hL vsl nl hl w :
  L ≠ l -> 0 < idx -> forallb scalar vs = true ->
  (forall i v, vs !! i = Some v -> at_ vsL (idx + Z.of_nat i) = Val v) -> (nl < length vs)%nat ->
  (run (documented C) (copyn L l (1 + d) idx (Z.of_nat (length vs)))
    (put L (LS vsL nL hL) (put l (LS vsl nl hl) w))).1 = Halt (UB "Lua stack overflow").
Proof.
  intros Hne Hi Hs Hat Hn. cbn [copyn Nat.add]. rewrite run_bind, run_lua. cbn [doc andthen stk].
  rewrite run_bind, (run_lua2 C L l Hne). cbn [doc andthen stk]. rewrite Nat2Z.id, run_bind.
  destruct (run_copy_overflow L l Hne (copyn L l d (-1) 1) vsL nL hL vs idx vsl nl hl w Hi Hs Hat Hn) as [w' ->].
  done.
Qed.
End properties.

(** ** Witnesses *)

(** state 0 holds a function with upvalues [_ENV], 7 and "x", and a nested one *)
Definition copy_heap : heap :=
  Heap {[ 0%nat := Table ∅ None ]}
    {[ 1%nat := LuaF "code" [("_ENV", VTab 0); ("n", VInt 7); ("s", VStr "x")];
       2%nat := LuaF "outer" [("f", VFun 1)] ]} ∅ ∅ 0 10.

Lemma copy_heap_few : few_upvalues copy_heap.
Proof.
  intros f p ups Hf. unfold copy_heap in Hf. cbn [funs] in Hf.
  destruct (decide (f = 1%nat)) as [->|Hn1]; [apply Nat.leb_le; vm_compute in Hf; by injection Hf as <- <-|].
  rewrite lookup_insert_ne in Hf by done.
  destruct (decide (f = 2%nat)) as [->|Hn2]; [apply Nat.leb_le; vm_compute in Hf; by injection Hf as <- <-|].
  by rewrite lookup_singleton_ne in Hf.
Qed.

Definition copy_args : list value := [VInt 3; VFun 1; VStr "a"].

Lemma copy_args_at i v : copy_args !! i = Some v -> at_ (rev copy_args) (1 + Z.of_nat i) = Val v.
Proof. destruct i as [|[|[|]]]; [intros [= <-]..|done]; reflexivity. Qed.

Lemma copyn_copies_witness :
  exists vs' hl', copy_values 1 copy_heap copy_args (hp new_lstate) = Some (inl (vs', hl')) /\
    length vs' = 3%nat /\ fun_grows (hp new_lstate) hl' /\
    yields (sample_clib []) (copyn 0 1 2 1 3)
      (put 0%nat (LS (rev copy_args) 20 copy_heap) (put 1%nat (LS [] 20 (hp new_lstate)) (sample_world ∅)))
      (Ok 0)
      (put 0%nat (LS (rev copy_args) 20 copy_heap) (put 1%nat (LS (rev vs' ++ []) 17 hl') (sample_world ∅))).
Proof.
  eexists _, _. split; [reflexivity|].
  refine (copyn_copies (sample_clib []) 0 1 1 1 1 copy_args (rev copy_args) 20 copy_heap [] 20 (hp new_lstate)
    (sample_world ∅) _ _ copy_heap_few (le_n _) _ copy_args_at eq_refl _ _);
    [lia|lia|by apply Nat.leb_le|by apply Nat.leb_le].
Defined.

Lemma copyn_closure_witness :
  exists hl', funs hl' !! 1%nat =
      Some (LuaF "code" (copied_ups 0 [("_ENV", VTab 0); ("n", VInt 7); ("s", VStr "x")])) /\
    fun_grows (hp new_lstate) hl' /\
    yields (sample_clib []) (copyn 0 1 2 1 1)
      (put 0%nat (LS [VFun 1] 20 copy_heap) (put 1%nat (LS [] 20 (hp new_lstate)) (sample_world ∅)))
      (Ok 0)
      (put 0%nat (LS [VFun 1] 20 copy_heap) (put 1%nat (LS [VFun 1] 19 hl') (sample_world ∅))).
Proof.
  apply (copyn_closure (sample_clib []) 0 1 1 "code" [("_ENV", VTab 0); ("n", VInt 7); ("s", VStr "x")]
    1 [VFun 1] 20 copy_heap [] 20 (hp new_lstate) (sample_world ∅));
    [lia|exact copy_heap_few|lia|reflexivity|reflexivity|
     do 3 (constructor; [first [by left|by right]|]); constructor|by apply Nat.leb_le|lia].
Defined.

Lemma copyn_nested_function_witness :
  exists w', yields (sample_clib []) (copyn 0 1 2 1 1)
    (put 0%nat (LS [VFun 2] 20 copy_heap) (put 1%nat (LS [] 20 (hp new_lstate)) (sample_world ∅)))
    (Ok 1) w'.
Proof.
  apply (copyn_nested_function (sample_clib []) 0 1 2 "outer" "f" 1 [] 1 [VFun 2] 20 copy_heap [] 20
    (hp new_lstate) (sample_world ∅));
    [lia|exact copy_heap_few|lia|reflexivity|reflexivity|discriminate|by apply Nat.leb_le|by apply Nat.leb_le|lia].
Defined.

Lemma copyn_overflow_witness :
  (run (documented (sample_clib [])) (copyn 0 1 1 1 3)
    (put 0%nat (LS [VInt 3; VInt 2; VInt 1] 20 copy_heap)
      (put 1%nat (LS [] 2 (hp new_lstate)) (sample_world ∅)))).1 = Halt (UB "Lua stack overflow").
Proof.
  apply (copyn_overflow (sample_clib []) 0 1 0 1 [VInt 1; VInt 2; VInt 3] [VInt 3; VInt 2; VInt 1] 20
    copy_heap [] 2 (hp new_lstate) (sample_world ∅)); [lia|lia|reflexivity| |cbn; lia].
  intros [|[|[|]]] v Hv; [injection Hv as <-..|done]; reflexivity.
Defined.
