(* ===== verification/PthreadSync.v ===== *)
(** * lua_pthread.c: mutexes, condition variables, read/write locks, keys and barriers

    Each is a reference counted structure around an object of the threads
    library, known in Lua by a cookie.  The library is a parameter ([c_call]);
    an attribute object on the C stack is passed to it as ["attr"]. *)

From S2P Require Import Prelude LuaApi Machine Capi Refcount Utils Samples.

Section ops.
Context `{Consts}.

Definition PTHREAD_METATABLE : string := "pthread_t".
Definition PTHREAD_ONCE_METATABLE : string := "pthread_once_t".
Definition PTHREAD_MUTEX_METATABLE : string := "pthread_mutex_t".
Definition PTHREAD_COND_METATABLE : string := "pthread_cond_t".
Definition PTHREAD_RWLOCK_METATABLE : string := "pthread_rwlock_t".
Definition PTHREAD_KEY_METATABLE : string := "pthread_key_t".
Definition PTHREAD_BARRIER_METATABLE : string := "pthread_barrier_t".
Definition PTHREAD_RENDEZVOUS_METATABLE : string := "pthread.rendezvous".

(** the optional integer field of an attribute table: its C setter is called with
    the converted value; on failure the field stays on the stack *)
Definition attr_field (L : nat) (idx : Z) (field setter : string) (conv : Z -> Z) : prog bool :=
  t ← lua_getfield L idx field;
  ok ← (match t with
        | TNUMBER =>
            n ← lua_tointeger L (-1);
            r ← call setter [AS "attr"; AZ (conv n)];
            mret (rc r =? 0)
        | TNIL => mret true
        | _ => mret false
        end : prog bool);
  if ok : bool then lua_pop L 1;; mret true else mret false.

(** the fields of a table of settings, one after the other, up to the first failure *)
Fixpoint attr_fields (L : nat) (idx : Z) (l : list (string * string)) : prog Z :=
  match l with
  | [] => mret 0
  | (field, setter) :: l =>
      ok ← attr_field L idx field setter to_int;
      if ok : bool then attr_fields L idx l else mret (-1)
  end.

(** destroying an attribute object *)
Definition destroy_attr (L : nat) (fn : string) : prog unit :=
  r ← call fn [AS "attr"];
  if negb (rc r =? 0) then fatal L fn (rc r) else mret tt.

(** *** Mutexes *)

Definition checkmutexattr (L : nat) (idx : Z) : prog Z :=
  t ← lua_type L idx;
  assert_ (is_type t TTABLE) "lua_type(L, idx) == LUA_TTABLE";;
  attr_fields L idx [("prioceiling", "pthread_mutexattr_setprioceiling");
                     ("protocol", "pthread_mutexattr_setprotocol");
                     ("type", "pthread_mutexattr_settype")].

Definition mutexattr_destroy (L : nat) : prog unit := destroy_attr L "pthread_mutexattr_destroy".

Definition l_pthread_mutex_new (L : nat) : prog Z :=
  r ← call "pthread_mutexattr_init" [AS "attr"];
  if negb (rc r =? 0) then fatal L "pthread_mutexattr_init" (rc r)
  else
    t ← lua_type L 1;
    (match t with
     | TTABLE =>
         bad ← checkmutexattr L 1;
         if negb (bad =? 0) then
           mutexattr_destroy L;; luaL_argerror L 1 "invalid attr table"
         else mret tt
     | TNIL | TNONE => mret tt
     | _ => mutexattr_destroy L;; luaL_argerror L 1 "invalid argument"
     end : prog unit);;
    mutexp ← malloc (cst "sizeof(struct rcmutex)") (ORc 0 BMutex);
    if mutexp =? 0 then
      mutexattr_destroy L;;
      fatal L "malloc" (cst "ENOMEM")
    else
      r ← call "pthread_mutex_init" [AZ mutexp; AS "attr"];
      r1 ← call "pthread_mutexattr_destroy" [AS "attr"];
      if negb (rc r1 =? 0) then
        free mutexp;;
        fatal L "pthread_mutexattr_destroy" (rc r1)
      else if negb (rc r =? 0) then
        free mutexp;;
        fail L (rc r)
      else
        refcount_init mutexp 1;;
        new L mutexp PTHREAD_MUTEX_METATABLE.

Definition l_pthread_mutex_retain (L : nat) : prog Z :=
  mutexp ← checklightuserdata L 1;
  refcount_retain mutexp;;
  new L mutexp PTHREAD_MUTEX_METATABLE.

Definition l_pthread_mutex_cookie (L : nat) : prog Z :=
  checkcookieuv L 1 PTHREAD_MUTEX_METATABLE;;
  mret 1.

Definition l_pthread_mutex_gc (L : nat) : prog Z :=
  mutexp ← checkcookie L 1 PTHREAD_MUTEX_METATABLE;
  last ← refcount_release mutexp;
  if last : bool then
    r ← call "pthread_mutex_destroy" [AZ mutexp];
    free mutexp;;
    if negb (rc r =? 0) then fatal L "pthread_mutex_destroy" (rc r) else mret 0
  else mret 0.

Definition l_pthread_mutex_lock (L : nat) : prog Z :=
  mutexp ← checkcookie L 1 PTHREAD_MUTEX_METATABLE;
  r ← call "pthread_mutex_lock" [AZ mutexp];
  if negb (rc r =? 0) then fail L (rc r) else success L.

Definition l_pthread_mutex_timedlock (L : nat) : prog Z :=
  mutexp ← checkcookie L 1 PTHREAD_MUTEX_METATABLE;
  tv_sec ← luaL_checkinteger L 2;
  tv_nsec ← luaL_optinteger L 3 0;
  r ← call "pthread_mutex_timedlock" [AZ mutexp; AZ tv_sec; AZ tv_nsec];
  if negb (rc r =? 0) then fail L (rc r) else success L.

Definition l_pthread_mutex_trylock (L : nat) : prog Z :=
  mutexp ← checkcookie L 1 PTHREAD_MUTEX_METATABLE;
  r ← call "pthread_mutex_trylock" [AZ mutexp];
  if negb (rc r =? 0) then fail L (rc r) else success L.

Definition l_pthread_mutex_unlock (L : nat) : prog Z :=
  mutexp ← checkcookie L 1 PTHREAD_MUTEX_METATABLE;
  r ← call "pthread_mutex_unlock" [AZ mutexp];
  if negb (rc r =? 0) then fail L (rc r) else success L.

Definition l_pthread_mutex_getspinloops_np (L : nat) : prog Z :=
  mutexp ← checkcookie L 1 PTHREAD_MUTEX_METATABLE;
  r ← call "pthread_mutex_getspinloops_np" [AZ mutexp];
  if negb (rc r =? 0) then fail L (rc r)
  else lua_pushinteger L (out_int 0 r);; mret 1.

Definition l_pthread_mutex_setspinloops_np (L : nat) : prog Z :=
  mutexp ← checkcookie L 1 PTHREAD_MUTEX_METATABLE;
  count ← luaL_checkinteger L 2;
  r ← call "pthread_mutex_setspinloops_np" [AZ mutexp; AZ (to_int count)];
  if negb (rc r =? 0) then fail L (rc r) else success L.

Definition l_pthread_mutex_getyieldloops_np (L : nat) : prog Z :=
  mutexp ← checkcookie L 1 PTHREAD_MUTEX_METATABLE;
  r ← call "pthread_mutex_getyieldloops_np" [AZ mutexp];
  if negb (rc r =? 0) then fail L (rc r)
  else lua_pushinteger L (out_int 0 r);; mret 1.

Definition l_pthread_mutex_setyieldloops_np (L : nat) : prog Z :=
  mutexp ← checkcookie L 1 PTHREAD_MUTEX_METATABLE;
  count ← luaL_checkinteger L 2;
  r ← call "pthread_mutex_setyieldloops_np" [AZ mutexp; AZ (to_int count)];
  if negb (rc r =? 0) then fail L (rc r) else success L.

Definition l_pthread_mutex_isowned_np (L : nat) : prog Z :=
  mutexp ← checkcookie L 1 PTHREAD_MUTEX_METATABLE;
  r ← call "pthread_mutex_isowned_np" [AZ mutexp];
  if rc r =? -1 then
    luaL_pushfail L;;
    lua_pushstring L "unknown error";;
    mret 2
  else
    lua_pushboolean L (negb (rc r =? 0));;
    mret 1.

(** *** Condition variables *)

Definition checkcondattr (L : nat) (idx : Z) : prog Z :=
  t ← lua_type L idx;
  assert_ (is_type t TTABLE) "lua_type(L, idx) == LUA_TTABLE";;
  attr_fields L idx [("clock", "pthread_condattr_setclock");
                     ("pshared", "pthread_condattr_setpshared")].

Definition condattr_destroy (L : nat) : prog unit := destroy_attr L "pthread_condattr_destroy".

Definition l_pthread_cond_new (L : nat) : prog Z :=
  r ← call "pthread_condattr_init" [AS "attr"];
  if negb (rc r =? 0) then fatal L "pthread_condattr_init" (rc r)
  else
    t ← lua_type L 1;
    (match t with
     | TTABLE =>
         bad ← checkcondattr L 1;
         if negb (bad =? 0) then
           condattr_destroy L;; luaL_argerror L 1 "invalid attr table"
         else mret tt
     | TNIL | TNONE => mret tt
     | _ => condattr_destroy L;; luaL_argerror L 1 "invalid argument"
     end : prog unit);;
    condp ← malloc (cst "sizeof(struct rccond)") (ORc 0 BCond);
    if condp =? 0 then
      condattr_destroy L;;
      fatal L "malloc" (cst "ENOMEM")
    else
      r ← call "pthread_cond_init" [AZ condp; AS "attr"];
      r1 ← call "pthread_condattr_destroy" [AS "attr"];
      if negb (rc r1 =? 0) then
        free condp;;
        fatal L "pthread_condattr_destroy" (rc r1)
      else if negb (rc r =? 0) then
        free condp;;
        fail L (rc r)
      else
        refcount_init condp 1;;
        new L condp PTHREAD_COND_METATABLE.

Definition l_pthread_cond_retain (L : nat) : prog Z :=
  condp ← checklightuserdata L 1;
  refcount_retain condp;;
  new L condp PTHREAD_COND_METATABLE.

Definition l_pthread_cond_cookie (L : nat) : prog Z :=
  checkcookieuv L 1 PTHREAD_COND_METATABLE;;
  mret 1.

Definition l_pthread_cond_gc (L : nat) : prog Z :=
  condp ← checkcookie L 1 PTHREAD_COND_METATABLE;
  last ← refcount_release condp;
  if last : bool then
    r ← call "pthread_cond_destroy" [AZ condp];
    free condp;;
    if negb (rc r =? 0) then fatal L "pthread_cond_destroy" (rc r) else mret 0
  else mret 0.

Definition l_pthread_cond_broadcast (L : nat) : prog Z :=
  condp ← checkcookie L 1 PTHREAD_COND_METATABLE;
  r ← call "pthread_cond_broadcast" [AZ condp];
  if negb (rc r =? 0) then fail L (rc r) else success L.

Definition l_pthread_cond_signal (L : nat) : prog Z :=
  condp ← checkcookie L 1 PTHREAD_COND_METATABLE;
  r ← call "pthread_cond_signal" [AZ condp];
  if negb (rc r =? 0) then fail L (rc r) else success L.

Definition l_pthread_cond_timedwait (L : nat) : prog Z :=
  condp ← checkcookie L 1 PTHREAD_COND_METATABLE;
  mutexp ← checkcookie L 2 PTHREAD_MUTEX_METATABLE;
  tv_sec ← luaL_checkinteger L 3;
  tv_nsec ← luaL_optinteger L 4 0;
  r ← call "pthread_cond_timedwait" [AZ condp; AZ mutexp; AZ tv_sec; AZ tv_nsec];
  if negb (rc r =? 0) then fail L (rc r) else success L.

Definition l_pthread_cond_wait (L : nat) : prog Z :=
  condp ← checkcookie L 1 PTHREAD_COND_METATABLE;
  mutexp ← checkcookie L 2 PTHREAD_MUTEX_METATABLE;
  r ← call "pthread_cond_wait" [AZ condp; AZ mutexp];
  if negb (rc r =? 0) then fail L (rc r) else success L.

(** *** Read/write locks *)

Definition checkrwlockattr (L : nat) (idx : Z) : prog Z :=
  t ← lua_type L idx;
  assert_ (is_type t TTABLE) "lua_type(L, idx) == LUA_TTABLE";;
  attr_fields L idx [("pshared", "pthread_rwlockattr_setpshared")].

Definition rwlockattr_destroy (L : nat) : prog unit := destroy_attr L "pthread_rwlockattr_destroy".

Definition l_pthread_rwlock_new (L : nat) : prog Z :=
  r ← call "pthread_rwlockattr_init" [AS "attr"];
  if negb (rc r =? 0) then fatal L "pthread_rwlockattr_init" (rc r)
  else
    t ← lua_type L 1;
    (match t with
     | TTABLE =>
         bad ← checkrwlockattr L 1;
         if negb (bad =? 0) then
           rwlockattr_destroy L;; luaL_argerror L 1 "invalid attr table"
         else mret tt
     | TNIL | TNONE => mret tt
     | _ => rwlockattr_destroy L;; luaL_argerror L 1 "invalid argument"
     end : prog unit);;
    lockp ← malloc (cst "sizeof(struct rcrwlock)") (ORc 0 BRwlock);
    if lockp =? 0 then
      rwlockattr_destroy L;;
      fatal L "malloc" (cst "ENOMEM")
    else
      r ← call "pthread_rwlock_init" [AZ lockp; AS "attr"];
      r1 ← call "pthread_rwlockattr_destroy" [AS "attr"];
      if negb (rc r1 =? 0) then
        free lockp;;
        fatal L "pthread_rwlockattr_destroy" (rc r1)
      else if negb (rc r =? 0) then
        free lockp;;
        fail L (rc r)
      else
        refcount_init lockp 1;;
        new L lockp PTHREAD_RWLOCK_METATABLE.

Definition l_pthread_rwlock_retain (L : nat) : prog Z :=
  lockp ← checklightuserdata L 1;
  refcount_retain lockp;;
  new L lockp PTHREAD_RWLOCK_METATABLE.

Definition l_pthread_rwlock_cookie (L : nat) : prog Z :=
  checkcookieuv L 1 PTHREAD_RWLOCK_METATABLE;;
  mret 1.

Definition l_pthread_rwlock_gc (L : nat) : prog Z :=
  lockp ← checkcookie L 1 PTHREAD_RWLOCK_METATABLE;
  last ← refcount_release lockp;
  if last : bool then
    r ← call "pthread_rwlock_destroy" [AZ lockp];
    free lockp;;
    if negb (rc r =? 0) then fatal L "pthread_rwlock_destroy" (rc r) else mret 0
  else mret 0.

Definition l_pthread_rwlock_rdlock (L : nat) : prog Z :=
  lockp ← checkcookie L 1 PTHREAD_RWLOCK_METATABLE;
  r ← call "pthread_rwlock_rdlock" [AZ lockp];
  if negb (rc r =? 0) then fail L (rc r) else success L.

Definition l_pthread_rwlock_tryrdlock (L : nat) : prog Z :=
  lockp ← checkcookie L 1 PTHREAD_RWLOCK_METATABLE;
  r ← call "pthread_rwlock_tryrdlock" [AZ lockp];
  if negb (rc r =? 0) then fail L (rc r) else success L.

Definition l_pthread_rwlock_trywrlock (L : nat) : prog Z :=
  lockp ← checkcookie L 1 PTHREAD_RWLOCK_METATABLE;
  r ← call "pthread_rwlock_trywrlock" [AZ lockp];
  if negb (rc r =? 0) then fail L (rc r) else success L.

Definition l_pthread_rwlock_unlock (L : nat) : prog Z :=
  lockp ← checkcookie L 1 PTHREAD_RWLOCK_METATABLE;
  r ← call "pthread_rwlock_unlock" [AZ lockp];
  if negb (rc r =? 0) then fail L (rc r) else success L.

Definition l_pthread_rwlock_wrlock (L : nat) : prog Z :=
  lockp ← checkcookie L 1 PTHREAD_RWLOCK_METATABLE;
  r ← call "pthread_rwlock_wrlock" [AZ lockp];
  if negb (rc r =? 0) then fail L (rc r) else success L.

(** *** Keys *)

(** the key a [struct rckey] holds *)
Definition key_load (o : obj) : option (Z * obj) :=
  match o with ORc _ (BKey k) => Some (k, o) | _ => None end.
Definition key_store (k : Z) (o : obj) : option (unit * obj) :=
  match o with ORc r (BKey _) => Some (tt, ORc r (BKey k)) | _ => None end.

Definition l_pthread_key_create (L : nat) : prog Z :=
  isptr ← lua_is L 1 TLIGHTUSERDATA;
  destructor ← (if isptr : bool then lua_touserdata L 1 else mret 0);
  keyp ← malloc (cst "sizeof(struct rckey)") (ORc 0 (BKey 0));
  if keyp =? 0 then fatal L "malloc" (cst "ENOMEM")
  else
    r ← call "pthread_key_create" [AZ keyp; AZ destructor];
    if negb (rc r =? 0) then
      free keyp;;
      fail L (rc r)
    else
      load keyp (key_store (out_int 0 r));;
      refcount_init keyp 1;;
      new L keyp PTHREAD_KEY_METATABLE.

Definition l_pthread_key_retain (L : nat) : prog Z :=
  keyp ← checklightuserdata L 1;
  refcount_retain keyp;;
  new L keyp PTHREAD_KEY_METATABLE.

Definition l_pthread_key_cookie (L : nat) : prog Z :=
  checkcookieuv L 1 PTHREAD_KEY_METATABLE;;
  mret 1.

Definition l_pthread_key_gc (L : nat) : prog Z :=
  keyp ← checkcookie L 1 PTHREAD_KEY_METATABLE;
  last ← refcount_release keyp;
  if last : bool then
    key ← load keyp key_load;
    r ← call "pthread_key_delete" [AZ key];
    free keyp;;
    if negb (rc r =? 0) then fatal L "pthread_key_delete" (rc r) else mret 0
  else mret 0.

Definition l_pthread_key_getspecific (L : nat) : prog Z :=
  keyp ← checkcookie L 1 PTHREAD_KEY_METATABLE;
  key ← load keyp key_load;
  r ← call "pthread_getspecific" [AZ key];
  lua_pushlightuserdata L (rc r);;
  mret 1.

Definition l_pthread_key_setspecific (L : nat) : prog Z :=
  keyp ← checkcookie L 1 PTHREAD_KEY_METATABLE;
  value ← checklightuserdata L 2;
  key ← load keyp key_load;
  r ← call "pthread_setspecific" [AZ key; AZ value];
  if negb (rc r =? 0) then fail L (rc r) else success L.

(** *** Barriers *)

Definition checkbarrierattr (L : nat) (idx : Z) : prog Z :=
  t ← lua_type L idx;
  assert_ (is_type t TTABLE) "lua_type(L, idx) == LUA_TTABLE";;
  attr_fields L idx [("pshared", "pthread_barrierattr_setpshared")].

Definition barrierattr_destroy (L : nat) : prog unit := destroy_attr L "pthread_barrierattr_destroy".

Definition l_pthread_barrier_new (L : nat) : prog Z :=
  r ← call "pthread_barrierattr_init" [AS "attr"];
  if negb (rc r =? 0) then fatal L "pthread_barrierattr_init" (rc r)
  else
    t ← lua_type L 1;
    countidx ← (match t with
      | TTABLE =>
          bad ← checkbarrierattr L 1;
          if negb (bad =? 0) then
            barrierattr_destroy L;; luaL_argerror L 1 "invalid attr table"
          else mret 2
      | _ => mret 1
      end : prog Z);
    isint ← lua_isinteger L countidx;
    if negb isint then
      barrierattr_destroy L;;
      luaL_typeerror L 1 "integer"
    else
      n ← lua_tointeger L countidx;
      let count := to_uint n in
      barrierp ← malloc (cst "sizeof(struct rcbarrier)") (ORc 0 BBarrier);
      if barrierp =? 0 then
        barrierattr_destroy L;;
        fatal L "malloc" (cst "ENOMEM")
      else
        r ← call "pthread_barrier_init" [AZ barrierp; AS "attr"; AZ count];
        r1 ← call "pthread_barrierattr_destroy" [AS "attr"];
        if negb (rc r1 =? 0) then
          free barrierp;;
          fatal L "pthread_barrierattr_destroy" (rc r1)
        else if negb (rc r =? 0) then
          free barrierp;;
          fail L (rc r)
        else
          refcount_init barrierp 1;;
          new L barrierp PTHREAD_BARRIER_METATABLE.

Definition l_pthread_barrier_retain (L : nat) : prog Z :=
  barrierp ← checklightuserdata L 1;
  refcount_retain barrierp;;
  new L barrierp PTHREAD_BARRIER_METATABLE.

Definition l_pthread_barrier_cookie (L : nat) : prog Z :=
  checkcookieuv L 1 PTHREAD_BARRIER_METATABLE;;
  mret 1.

Definition l_pthread_barrier_gc (L : nat) : prog Z :=
  barrierp ← checkcookie L 1 PTHREAD_BARRIER_METATABLE;
  last ← refcount_release barrierp;
  if last : bool then
    r ← call "pthread_barrier_destroy" [AZ barrierp];
    free barrierp;;
    if negb (rc r =? 0) then fatal L "pthread_barrier_destroy" (rc r) else mret 0
  else mret 0.

Definition l_pthread_barrier_wait (L : nat) : prog Z :=
  barrierp ← checkcookie L 1 PTHREAD_BARRIER_METATABLE;
  r ← call "pthread_barrier_wait" [AZ barrierp];
  let error := rc r in
  if negb (error =? 0) then
    if error =? cst "PTHREAD_BARRIER_SERIAL_THREAD" then
      lua_pushinteger L error;;
      mret 1
    else fail L error
  else success L.
End ops.

(** ** How they run *)

Section run.
Context `{Consts} `{LuaSem} {S : Type} `{Libc S} (C : clib S).
Implicit Types (w : world S lstate) (L : nat) (vs : list value) (h : heap) (p : Z).
Abbreviation rn := (run (documented C)).

(** what a call of the library returned, in the convention of the modules: 1, or
    nil, the text of the error and its number *)
Definition results (error : Z) : list value :=
  if error =? 0 then [VInt 1] else [VNil; VStr (cstr (c_strerror error)); VInt error].

Lemma run_result L error vs n h w :
  rn (if negb (error =? 0) then fail L error else success L) (put L (LS vs (3 + n) h) w) =
  (Ok (Z.of_nat (length (results error))),
   put L (LS (rev (results error) ++ vs) (3 + n - length (results error)) h) w).
Proof.
  unfold results. destruct (error =? 0); cbn [negb].
  - change (3 + n)%nat with (1 + (2 + n))%nat. by rewrite run_success.
  - rewrite run_fail. cbn. by rewrite Nat.sub_0_r.
Qed.

(** a method that passes its receiver to one function of the library and reports *)
Definition passes (f : nat -> prog Z) (mt fn : string) : Prop :=
  forall L, f L = (p ← checkcookie L 1 mt; r ← call fn [AZ p];
    if negb (rc r =? 0) then fail L (rc r) else success L).

Lemma run_passes f mt fn L p args h w r w1 :
  passes f mt fn -> handle (rev args) h 1 mt p -> p ≠ 0 ->
  c_call C fn [AZ p] (put L (frame args h) w) = (Ok r, put L (frame args h) w1) ->
  executes C L f args h w (Ok (results (rc r))) (put L (idle h) w1).
Proof.
  intros Hf Hh Hp Hc. eapply executes_return. rewrite Hf.
  rewrite run_bind, (run_checkcookie_frame C L 1 mt p) by done. cbn [andthen].
  rewrite run_bind, run_call. rewrite Hc. cbn [andthen]. apply (run_result L (rc r) _ 17).
Qed.
End run.

(** ** Properties *)

Section properties.
Context `{Consts} `{LuaSem} {S : Type} `{Libc S} (C : clib S).
Implicit Types (w : world S lstate) (L : nat) (vs : list value) (h : heap) (p : Z).

(** the methods that are one call of the library on the receiver *)
Definition simple_methods : list ((nat -> prog Z) * string * string) :=
  [(l_pthread_mutex_lock, PTHREAD_MUTEX_METATABLE, "pthread_mutex_lock");
   (l_pthread_mutex_trylock, PTHREAD_MUTEX_METATABLE, "pthread_mutex_trylock");
   (l_pthread_mutex_unlock, PTHREAD_MUTEX_METATABLE, "pthread_mutex_unlock");
   (l_pthread_cond_broadcast, PTHREAD_COND_METATABLE, "pthread_cond_broadcast");
   (l_pthread_cond_signal, PTHREAD_COND_METATABLE, "pthread_cond_signal");
   (l_pthread_rwlock_rdlock, PTHREAD_RWLOCK_METATABLE, "pthread_rwlock_rdlock");
   (l_pthread_rwlock_tryrdlock, PTHREAD_RWLOCK_METATABLE, "pthread_rwlock_tryrdlock");
   (l_pthread_rwlock_trywrlock, PTHREAD_RWLOCK_METATABLE, "pthread_rwlock_trywrlock");
   (l_pthread_rwlock_unlock, PTHREAD_RWLOCK_METATABLE, "pthread_rwlock_unlock");
   (l_pthread_rwlock_wrlock, PTHREAD_RWLOCK_METATABLE, "pthread_rwlock_wrlock")].

(** Locking, unlocking and signalling call the function of the library of that name, once,
    on the object the receiver stands for, and return 1, or nil, the error text and the error
    number, whatever other threads did to the world while the call blocked. *)
Theorem sync_call L f mt fn p args h w r w1 :
  In (f, mt, fn) simple_methods -> handle (rev args) h 1 mt p -> p ≠ 0 ->
  c_call C fn [AZ p] (put L (frame args h) w) = (Ok r, put L (frame args h) w1) ->
  executes C L f args h w (Ok (results (rc r))) (put L (idle h) w1).
Proof.
  intros Hin. apply run_passes. cbn in Hin. destruct_or? Hin; by simplify_eq.
Qed.

(** Waiting on a condition variable passes the library that variable and the mutex given as
    argument; a second argument that is not a mutex is refused before any call. *)
Theorem cond_wait_call L c m cp mp h w r w1 :
  handle (rev [c; m]) h 1 PTHREAD_COND_METATABLE cp -> cp ≠ 0 ->
  (handle (rev [c; m]) h 2 PTHREAD_MUTEX_METATABLE mp -> mp ≠ 0 ->
   c_call C "pthread_cond_wait" [AZ cp; AZ mp] (put L (frame [c; m] h) w) =
     (Ok r, put L (frame [c; m] h) w1) ->
   executes C L l_pthread_cond_wait [c; m] h w (Ok (results (rc r))) (put L (idle h) w1)) /\
  (udata_of (rev [c; m]) h 2 PTHREAD_MUTEX_METATABLE = None ->
   executes C L l_pthread_cond_wait [c; m] h w (Halt (Raise (EType 2 PTHREAD_MUTEX_METATABLE)))
     (put L (idle h) w)).
Proof.
  intros Hc Hcp. split.
  - intros Hm Hmp Hcall. eapply executes_return. unfold l_pthread_cond_wait.
    rewrite run_bind, (run_checkcookie_frame C L 1 _ cp) by done. cbn [andthen].
    rewrite run_bind, (run_checkcookie_frame C L 2 _ mp) by done. cbn [andthen].
    rewrite run_bind, run_call, Hcall. cbn [andthen]. apply (run_result C L (rc r) _ 17).
  - intros Hu. eapply executes_halt; [|done]. unfold l_pthread_cond_wait.
    rewrite run_bind, (run_checkcookie_frame C L 1 _ cp) by done. cbn [andthen]. unfold frame.
    by rewrite run_bind, (run_checkcookie_wrong C L 2) by (done || by apply at_arg_not_bad).
Qed.

(** the optional nanoseconds of a deadline *)
Definition nsec_of (args : list value) : Z := match args with [VInt n] => n | _ => 0 end.

(** A deadline is passed to the library as the seconds and nanoseconds given, 0 nanoseconds
    if they are absent or nil; a timeout is reported like any other error. *)
Theorem mutex_timedlock_call L x p sec ns h w r w1 :
  let args := x :: VInt sec :: ns in
  (ns = [] \/ ns = [VNil] \/ exists n, ns = [VInt n]) ->
  handle (rev args) h 1 PTHREAD_MUTEX_METATABLE p -> p ≠ 0 ->
  c_call C "pthread_mutex_timedlock" [AZ p; AZ sec; AZ (nsec_of ns)] (put L (frame args h) w) =
    (Ok r, put L (frame args h) w1) ->
  executes C L l_pthread_mutex_timedlock args h w (Ok (results (rc r))) (put L (idle h) w1).
Proof.
  intros args Hns Hh Hp Hc.
  apply (executes_return C _ _ _ _ _ _ (rev args) (20 - length (results (rc r)))). unfold l_pthread_mutex_timedlock.
  rewrite run_bind, (run_checkcookie_frame C L 1 _ p) by done. cbn [andthen].
  destruct Hns as [->|[->|[n ->]]]; subst args; unfold frame, LUA_MINSTACK in *; cbn [rev app] in *;
    lua_run; rewrite run_call; cbn [nsec_of] in Hc; rewrite Hc; cbn [andthen];
    apply (run_result C L (rc r) _ 17).
Qed.

(** *** Making objects *)

(** what the constructors have in common; [check] reads the table of attributes *)
Definition new_object (ainit adestroy init size mt : string) (body : pbody)
  (check : nat -> Z -> prog Z) (L : nat) : prog Z :=
  r ← call ainit [AS "attr"];
  if negb (rc r =? 0) then fatal L ainit (rc r)
  else
    t ← lua_type L 1;
    (match t with
     | TTABLE =>
         bad ← check L 1;
         if negb (bad =? 0) then
           destroy_attr L adestroy;; luaL_argerror L 1 "invalid attr table"
         else mret tt
     | TNIL | TNONE => mret tt
     | _ => destroy_attr L adestroy;; luaL_argerror L 1 "invalid argument"
     end : prog unit);;
    objp ← malloc (cst size) (ORc 0 body);
    if objp =? 0 then
      destroy_attr L adestroy;;
      fatal L "malloc" (cst "ENOMEM")
    else
      r ← call init [AZ objp; AS "attr"];
      r1 ← call adestroy [AS "attr"];
      if negb (rc r1 =? 0) then
        free objp;;
        fatal L adestroy (rc r1)
      else if negb (rc r =? 0) then
        free objp;;
        fail L (rc r)
      else
        refcount_init objp 1;;
        new L objp mt.

Lemma run_destroy_attr fn lib fns L s w :
  external C fns lib -> In fn fns ->
  let e := rc (lib fn [AS "attr"] (wx w)).1 in
  run (documented C) (destroy_attr L fn) (put L s w) =
  ((if negb (e =? 0) then Halt (Raise (EMsg (fn +:+ ": " +:+ cstr (c_strerror e)))) else Ok tt),
   put L s (set_x (lib fn [AS "attr"] (wx w)).2 w)).
Proof.
  intros He Hin e. unfold destroy_attr. rewrite run_bind, (run_external C fns lib) by done.
  cbn [andthen]. fold e. destruct (negb (e =? 0)); [apply run_fatal|done].
Qed.

(** a constructor: its program, its type, what its objects hold, and its calls: the attributes
    made and destroyed, the object made, and the setter of each attribute *)
Record maker := Maker {
  mk_prog : nat -> prog Z; mk_type : string; mk_size : string; mk_body : pbody;
  mk_ainit : string; mk_adestroy : string; mk_init : string; mk_fields : list (string * string) }.

Definition mk_calls (k : maker) : list string := mk_ainit k :: mk_adestroy k :: mk_init k :: (mk_fields k).*2.

Definition makers : list maker := [
  Maker l_pthread_mutex_new PTHREAD_MUTEX_METATABLE "sizeof(struct rcmutex)" BMutex
    "pthread_mutexattr_init" "pthread_mutexattr_destroy" "pthread_mutex_init"
    [("prioceiling", "pthread_mutexattr_setprioceiling"); ("protocol", "pthread_mutexattr_setprotocol");
     ("type", "pthread_mutexattr_settype")];
  Maker l_pthread_cond_new PTHREAD_COND_METATABLE "sizeof(struct rccond)" BCond
    "pthread_condattr_init" "pthread_condattr_destroy" "pthread_cond_init"
    [("clock", "pthread_condattr_setclock"); ("pshared", "pthread_condattr_setpshared")];
  Maker l_pthread_rwlock_new PTHREAD_RWLOCK_METATABLE "sizeof(struct rcrwlock)" BRwlock
    "pthread_rwlockattr_init" "pthread_rwlockattr_destroy" "pthread_rwlock_init"
    [("pshared", "pthread_rwlockattr_setpshared")]].

(** *** What a constructor does, without its program *)

Section making.
Context (lib : string -> list carg -> S -> cret * S).

(** the argument: none, a plain table, or something else *)
Inductive attr_arg := NoAttr | Attrs (t : nat) (x : gmap key value) | NotAttrs.

Definition attr_of (vs : list value) (h : heap) : option attr_arg :=
  match at_ vs 1 with
  | Absent | Val VNil => Some NoAttr
  | Val (VTab t) => match tabs h !! t with Some (Table x None) => Some (Attrs t x) | _ => None end
  | Val _ => Some NotAttrs
  | Bad => None
  end.

(** one attribute: is it accepted, and the library then *)
Definition setting (v : value) (setter : string) (s : S) : bool * S :=
  match v with
  | VNil => (true, s)
  | VInt z => let r := lib setter [AS "attr"; AZ (to_int z)] s in (rc r.1 =? 0, r.2)
  | VNum f =>
      let r := lib setter [AS "attr"; AZ (to_int (default 0 (float_to_integer f)))] s in (rc r.1 =? 0, r.2)
  | _ => (false, s)
  end.

(** the attributes in turn, up to the first that is refused *)
Fixpoint settings (x : gmap key value) (fields : list (string * string)) (s : S) : bool * S :=
  match fields with
  | [] => (true, s)
  | (field, setter) :: fields =>
      let r := setting (raw_get (KStr field) (Table x None)) setter s in
      if r.1 then settings x fields r.2 else r
  end.

Definition raised (fn : string) (e : Z) : outcome (list value) :=
  Halt (Raise (EMsg (fn +:+ ": " +:+ cstr (c_strerror e)))).

(** the end of a run with outcome [o], unless destroying the attributes fails *)
Definition attr_gone (k : maker) (o : outcome (list value)) (s : S) : outcome (list value) * S :=
  let r := lib (mk_adestroy k) [AS "attr"] s in
  (if rc r.1 =? 0 then o else raised (mk_adestroy k) (rc r.1), r.2).

(** the message a bad argument is refused with, and the library then *)
Definition refused (k : maker) (a : attr_arg) (s : S) : option string * S :=
  match a with
  | NoAttr => (None, s)
  | Attrs _ x => let r := settings x (mk_fields k) s in (if r.1 then None else Some "invalid attr table", r.2)
  | NotAttrs => (Some "invalid argument", s)
  end.

(** from the allocation on *)
Definition making_object (k : maker) (mtid : nat) (h : heap) w : outcome (list value) * heap * world S lstate :=
  let p := wnext w in
  let w1 := set_next (p + 1) w in
  if woom w (cst (mk_size k)) p
  then let d := attr_gone k (raised "malloc" (cst "ENOMEM")) (wx w) in (d.1, h, set_x d.2 w1)
  else
    let r := lib (mk_init k) [AZ p; AS "attr"] (wx w) in
    let r1 := lib (mk_adestroy k) [AS "attr"] r.2 in
    let d := attr_gone k (if rc r.1 =? 0 then Ok [VUd (fresh h)] else Ok (results (rc r.1))) r.2 in
    if (rc r.1 =? 0) && (rc r1.1 =? 0)
    then (d.1, alloc_handle mtid p h, poke p (ORc 1 (mk_body k)) (set_x d.2 w1))
    else (d.1, h, set_x d.2 w1).

Definition making (k : maker) (mtid : nat) (a : attr_arg) (h : heap) w :
    outcome (list value) * heap * world S lstate :=
  let r0 := lib (mk_ainit k) [AS "attr"] (wx w) in
  if negb (rc r0.1 =? 0) then (raised (mk_ainit k) (rc r0.1), h, set_x r0.2 w)
  else
    let ref := refused k a r0.2 in
    match ref.1 with
    | Some msg => let d := attr_gone k (Halt (Raise (EArg 1 msg))) ref.2 in (d.1, h, set_x d.2 w)
    | None => making_object k mtid h (set_x ref.2 w)
    end.
End making.

(** *** How the programs run *)

Context (lib : string -> list carg -> S -> cret * S).

Lemma run_getfield_plain L i k t x vs n h w :
  at_ vs i = Val (VTab t) -> tabs h !! t = Some (Table x None) ->
  let v := raw_get (KStr k) (Table x None) in
  run (documented C) (lua_getfield L i k) (put L (LS vs (1 + n) h) w) =
  (Ok (type_of v), put L (LS (v :: vs) n h) w).
Proof.
  intros Ha Ht v. rewrite run_lua. cbn [doc]. unfold doc_get, at_value, get_tab. cbn [stk]. rewrite Ha. cbn [hp]. rewrite Ht.
  cbn [tmap tmeta]. by destruct (x !! KStr k).
Qed.

(** one attribute; when it is refused the field stays on the stack *)
Lemma run_attr_field fns L t x field setter vs n h w :
  external C fns lib -> In setter fns -> at_ vs 1 = Val (VTab t) -> tabs h !! t = Some (Table x None) ->
  let v := raw_get (KStr field) (Table x None) in
  let r := setting lib v setter (wx w) in
  run (documented C) (attr_field L 1 field setter to_int) (put L (LS vs (1 + n) h) w) =
  (Ok r.1, put L (if r.1 then LS vs (1 + n) h else LS (v :: vs) n h) (set_x r.2 w)).
Proof.
  intros He Hin Ha Ht v r. unfold attr_field. rewrite run_bind, (run_getfield_plain L 1 field t x) by done.
  fold v. clearbody v. subst r. cbn [andthen].
  destruct v as [|b|z|f|q|q|q|q|q]; cbn [type_of setting fst snd]; try by rewrite set_x_id.
  { rewrite set_x_id. by lua_run. }
  1,2: rewrite run_bind, run_bind, run_lua; doc_eval; rewrite run_bind, (run_external C fns lib) by done;
    cbn [andthen]; set (r := lib setter _ (wx w)); rewrite run_ret; cbn [andthen];
    destruct (rc r.1 =? 0); by lua_run.
Qed.

Lemma run_attr_fields fns L t x fields : forall vs n h w,
  external C fns lib -> (forall setter, In setter fields.*2 -> In setter fns) ->
  at_ vs 1 = Val (VTab t) -> tabs h !! t = Some (Table x None) ->
  let r := settings lib x fields (wx w) in
  exists vs' n', run (documented C) (attr_fields L 1 fields) (put L (LS vs (1 + n) h) w) =
    (Ok (if r.1 then 0 else -1), put L (LS vs' n' h) (set_x r.2 w)) /\
    (r.1 = true -> vs' = vs /\ n' = (1 + n)%nat).
Proof.
  induction fields as [|[field setter] fields IH]; intros vs n h w He Hin Ha Ht r.
  { exists vs, (1 + n)%nat. subst r. cbn [settings fst snd]. by rewrite set_x_id. }
  subst r. cbn [attr_fields settings]. rewrite run_bind, (run_attr_field fns L t x) by (done || apply Hin; by left).
  cbn [andthen]. set (r := setting _ _ _ _). destruct r as [[|] s] eqn:Er; cbn [fst snd].
  - destruct (IH vs n h (set_x s w) He (fun y Hy => Hin y (or_intror Hy)) Ha Ht) as (vs' & n' & Hr & Hs).
    exists vs', n'. split; [exact Hr|exact Hs].
  - by eexists _, _.
Qed.

(** the memory is only changed when a handle is returned *)
Definition all_or_nothing (k : maker) (h : heap) w (m : outcome (list value) * heap * world S lstate) : Prop :=
  m.1.1 = Ok [VUd (fresh h)] /\ wm m.2 = <[wnext w := ORc 1 (mk_body k)]> (wm w) \/
  m.1.1 ≠ Ok [VUd (fresh h)] /\ m.1.2 = h /\ wm m.2 = wm w.

Lemma making_object_memory k mtid h w : all_or_nothing k h w (making_object lib k mtid h w).
Proof.
  unfold making_object, attr_gone, raised, all_or_nothing, results. cbv zeta.
  set (r := lib (mk_init k) _ _). set (r1 := lib (mk_adestroy k) _ r.2).
  destruct (woom w _ _); [right; cbn [fst snd]; split; [by destruct (_ =? 0)|done]|].
  destruct (rc r1.1 =? 0), (rc r.1 =? 0); cbn [andb fst snd]; [by left|by right..].
Qed.

Lemma making_memory k mtid a h w : all_or_nothing k h w (making lib k mtid a h w).
Proof.
  unfold making. set (r0 := lib (mk_ainit k) _ _). destruct (rc r0.1 =? 0); cbn [negb]; [|by right].
  set (ref := refused lib k a r0.2). destruct ref.1; [|exact (making_object_memory k mtid h (set_x ref.2 w))].
  right. unfold attr_gone, raised. cbn [fst snd]. split; [by destruct (_ =? 0)|done].
Qed.

(** a run [r] over the arguments [vs] ends the way [m] says *)
Definition ends L vs (r : outcome Z * world S lstate) (m : outcome (list value) * heap * world S lstate) : Prop :=
  let '(o, h, w) := m in
  match o with
  | Ok res => exists n, r = (Ok (Z.of_nat (length res)), put L (LS (rev res ++ vs) n h) w)
  | Halt e => defined (A := Z) (Halt e) /\ exists vs' n, r = (Halt e, put L (LS vs' n h) w)
  end.

Lemma ends_executes L f args h w m :
  ends L (rev args) (run (documented C) (f L) (put L (frame args h) w)) m ->
  executes C L f args h w m.1.1 (put L (idle m.1.2) m.2).
Proof.
  destruct m as [[[res|e] h'] w']; cbn [ends fst snd].
  - intros [n Hr]. by apply (executes_return C L _ _ _ _ _ (rev args) n).
  - intros (Hd & vs & n & Hr). by apply (executes_halt C L _ _ _ _ _ vs n).
Qed.

(** giving up: the attributes are destroyed, then [p] raises *)
Lemma run_give_up {A} k fns L (p : prog A) (c : A -> prog Z) e vs vs' n h w :
  external C fns lib -> In (mk_adestroy k) fns -> defined (A := Z) (Halt e) ->
  (forall w, run (documented C) p (put L (LS vs' n h) w) = (Halt e, put L (LS vs' n h) w)) ->
  let d := attr_gone lib k (Halt e) (wx w) in
  ends L vs (run (documented C) ((destroy_attr L (mk_adestroy k);; p) ≫= c) (put L (LS vs' n h) w))
    (d.1, h, set_x d.2 w).
Proof.
  intros He Hin Hd Hp d. rewrite !run_bind, (run_destroy_attr _ lib fns) by done. subst d.
  unfold attr_gone, raised. set (r := lib _ _ _). cbn [fst snd].
  destruct (rc r.1 =? 0); cbn [negb andthen]; rewrite ?Hp; (split; [done|]); by exists vs', n.
Qed.

(** the end of a constructor, from the allocation on *)
Definition finish_object (k : maker) (L : nat) : prog Z :=
  objp ← malloc (cst (mk_size k)) (ORc 0 (mk_body k));
  if objp =? 0 then destroy_attr L (mk_adestroy k);; fatal L "malloc" (cst "ENOMEM")
  else
    r ← call (mk_init k) [AZ objp; AS "attr"];
    r1 ← call (mk_adestroy k) [AS "attr"];
    if negb (rc r1 =? 0) then free objp;; fatal L (mk_adestroy k) (rc r1)
    else if negb (rc r =? 0) then free objp;; fail L (rc r)
    else refcount_init objp 1;; new L objp (mk_type k).

Lemma prog_bind_ret {A} (p : prog A) w : run (documented C) (p ≫= mret) w = run (documented C) p w.
Proof. rewrite run_bind. by destruct (run _ p w) as [[]]. Qed.

Lemma run_finish k fns L mtid vs n h w :
  external C fns lib -> In (mk_adestroy k) fns -> In (mk_init k) fns ->
  reg_get (inl (mk_type k)) h = VTab mtid -> wnext w ≠ 0 -> wm w !! wnext w = None ->
  ends L vs (run (documented C) (finish_object k L) (put L (LS vs (3 + n) h) w)) (making_object lib k mtid h w).
Proof.
  intros He I2 I3 Hr Hp Hf. unfold finish_object, making_object. set (p := wnext w) in *.
  destruct (woom w (cst (mk_size k)) p) eqn:Ho.
  { rewrite run_bind, run_malloc_fail by done. cbn [andthen Z.eqb].
    rewrite <- prog_bind_ret.
    apply (run_give_up k fns L (fatal L "malloc" (cst "ENOMEM")) mret _ vs vs (3 + n) h (set_next (p + 1) w));
      [done|done|done|]. intros w'. apply run_fatal. }
  set (w1 := set_next (p + 1) w). set (w2 := poke p (ORc 0 (mk_body k)) w1).
  rewrite run_bind, run_malloc_ok by done. cbn [andthen]. fold p w1 w2. destruct (Z.eqb_spec p 0); [done|].
  rewrite run_bind, (run_external C _ lib _ _ _ _ _ He I3). cbn [andthen]. change (wx w2) with (wx w).
  set (r := lib (mk_init k) _ _). rewrite run_bind, (run_external C _ lib _ _ _ _ _ He I2). cbn [andthen].
  change (wx (set_x r.2 w2)) with r.2. unfold attr_gone. set (r1 := lib (mk_adestroy k) _ _). cbn [fst snd].
  set (w3 := set_x r1.2 (set_x r.2 w2)). assert (Hm : wm w3 !! p = Some (ORc 0 (mk_body k))) by apply lookup_insert_eq.
  assert (Hrel : release p w3 = set_x r1.2 w1) by (unfold release, set_mem; cbn; by rewrite delete_insert_id).
  destruct (rc r1.1 =? 0) eqn:E1; cbn [negb].
  2:{ rewrite andb_false_r, run_bind, (run_free C p _ _ _ _ Hp Hm). cbn [andthen].
    rewrite run_fatal, Hrel. split; [done|]. by exists vs, (3 + n)%nat. }
  destruct (rc r.1 =? 0) eqn:E2; cbn [negb andb ends].
  2:{ rewrite run_bind, (run_free C p _ _ _ _ Hp Hm). cbn [andthen].
    rewrite (run_fail C L _ vs n), Hrel. unfold results. rewrite E2. by exists n. }
  rewrite run_bind, (run_refcount_init C p 1 _ 0 _ _ _ Hm eq_refl). cbn [andthen].
  rewrite (run_new C L p (mk_type k) mtid vs (1 + n) h _ Hr). exists (2 + n)%nat. cbn [length rev app].
  do 2 f_equal. unfold w3, w2, poke, set_x, set_mem. cbn. by rewrite insert_insert_eq.
Qed.

(** a constructor is [new_object] with its fields *)
Definition check_fields (fields : list (string * string)) (L : nat) (idx : Z) : prog Z :=
  t ← lua_type L idx;
  assert_ (is_type t TTABLE) "lua_type(L, idx) == LUA_TTABLE";;
  attr_fields L idx fields.

Lemma makers_shape k : In k makers -> forall L, mk_prog k L =
  new_object (mk_ainit k) (mk_adestroy k) (mk_init k) (mk_size k) (mk_type k) (mk_body k) (check_fields (mk_fields k)) L.
Proof. intros Hin. cbn in Hin. by destruct_or? Hin; simplify_eq. Qed.

Lemma run_maker k L mtid args a h w :
  In k makers -> external C (mk_calls k) lib -> attr_of (rev args) h = Some a ->
  reg_get (inl (mk_type k)) h = VTab mtid -> wnext w ≠ 0 -> wm w !! wnext w = None ->
  ends L (rev args) (run (documented C) (mk_prog k L) (put L (frame args h) w)) (making lib k mtid a h w).
Proof.
  intros Hin He Ha Hr Hp Hf. rewrite (makers_shape k Hin). unfold new_object, making, frame, LUA_MINSTACK.
  assert (I2 : In (mk_adestroy k) (mk_calls k)) by (right; by left).
  assert (I3 : In (mk_init k) (mk_calls k)) by (right; right; by left).
  rewrite run_bind, (run_external C _ lib _ _ _ _ _ He (or_introl eq_refl)). cbn [andthen].
  set (r0 := lib (mk_ainit k) _ _). destruct (rc r0.1 =? 0); cbn [negb].
  2:{ rewrite run_fatal. split; [done|]. by exists (rev args), 20%nat. }
  set (w0 := set_x r0.2 w). rewrite run_bind, run_lua. cbn [doc]. unfold doc_type, at_index. cbn [stk].
  assert (Hrest : forall x, ends L (rev args)
    (run (documented C) (finish_object k L) (put L (LS (rev args) (3 + 17) h) (set_x x w0)))
    (making_object lib k mtid h (set_x x w))).
  { intros x. by apply (run_finish k (mk_calls k)). }
  unfold attr_of in Ha. destruct (at_ (rev args) 1) as [v| |] eqn:Hv; [|injection Ha as <-; apply Hrest|done].
  cbn [andthen]. destruct v as [|b|z|f|q|q|t|q|q]; try injection Ha as <-; cbn [type_of refused fst snd].
  all: try (apply (run_give_up k (mk_calls k) L _ _ _ (rev args) (rev args) 20 h w0);
    [done|done|done|intros w'; by rewrite run_lua_halts]).
  - apply Hrest.
  - destruct (tabs h !! t) as [[x [mt|]]|] eqn:Ht; [done| |done]. injection Ha as <-. cbn [refused].
    unfold check_fields. rewrite run_bind, run_bind, run_bind, run_lua. cbn [doc]. unfold doc_type, at_index. cbn [stk].
    rewrite Hv. cbn [andthen type_of]. rewrite run_bind. change (is_type TTABLE TTABLE) with true.
    unfold assert_. rewrite run_ret. cbn [andthen].
    destruct (run_attr_fields (mk_calls k) L t x (mk_fields k) (rev args) 19 h w0) as (vs' & n' & Hx & Hs); [done| |done|done|].
    { intros y Hy. by right; right; right. }
    cbv zeta in Hx, Hs. change (wx w0) with r0.2 in Hx, Hs. change (1 + 19)%nat with 20%nat in *. rewrite Hx. cbn [andthen].
    set (r := settings lib x _ _) in *. destruct r as [[|] s]; cbn [fst snd] in *.
    + destruct (Hs eq_refl) as [-> ->]. apply Hrest.
    + change (negb (-1 =? 0)) with true. cbv iota. rewrite <- run_bind.
      apply (run_give_up k (mk_calls k) L _ _ _ (rev args) vs' n' h (set_x s w0)); [done|done|done|].
      intros w'. by rewrite run_lua_halts.
Qed.

(** C15. Making a mutex, a condition variable or a read/write lock, with a table of attributes or
    without, makes exactly these calls of the library and has exactly this end ([making]): an
    attribute object is made and the attributes of the table that are present are set in order;
    a table with an attribute that is not a number or that the library refuses, and an argument
    that is not a table, are argument errors; then the object is allocated and made with those
    attributes, and the attribute object is destroyed whatever happened.  The result is a new
    handle, of the right type, of an object with exactly one reference when every call
    succeeded; nil and the library's error when it refused to make the object; a raised error
    when anything else failed; and unless there is a handle, all memory has been given back. *)
Theorem object_new k L mtid args a h w :
  In k makers -> external C (mk_calls k) lib -> attr_of (rev args) h = Some a ->
  reg_get (inl (mk_type k)) h = VTab mtid -> wnext w ≠ 0 -> wm w !! wnext w = None ->
  let '(o, h', w') := making lib k mtid a h w in
  executes C L (mk_prog k) args h w o (put L (idle h') w') /\ all_or_nothing k h w (o, h', w').
Proof.
  intros Hin He Ha Hr Hp Hf.
  pose proof (ends_executes L _ args h w _ (run_maker k L mtid args a h w Hin He Ha Hr Hp Hf)) as Hx.
  pose proof (making_memory k mtid a h w) as Hm.
  destruct (making lib k mtid a h w) as [[o h'] w']. by split.
Qed.
End properties.

(** ** Witnesses *)

Lemma sample_handle name p : handle [VUd 2] (sample_heap name [VLud p] 0) 1 name p.
Proof.
  exists 2%nat, (Udata (Some 1%nat) [VLud p] 0). split; [|done].
  unfold udata_of. change (at_ [VUd 2] 1) with (Val (VUd 2)). cbn [uds sample_heap].
  rewrite lookup_singleton_eq. cbn [ud_meta]. unfold reg_get. cbn [reg sample_heap].
  rewrite lookup_singleton_eq. done.
Qed.

Lemma sync_call_witness :
  results (S := Z) 16 = [VNil; VStr "Error"; VInt 16] /\
  executes (sample_clib [("pthread_mutex_trylock", (Cret 16 [], 0))]) 0 l_pthread_mutex_trylock [VUd 2]
    (sample_heap PTHREAD_MUTEX_METATABLE [VLud 512] 0) (sample_world {[ 512 := ORc 1 BMutex ]})
    (Ok (results (S := Z) 16))
    (put 0%nat (idle (sample_heap PTHREAD_MUTEX_METATABLE [VLud 512] 0))
      (sample_world {[ 512 := ORc 1 BMutex ]})).
Proof.
  split; [reflexivity|].
  apply (sync_call (sample_clib [("pthread_mutex_trylock", (Cret 16 [], 0))]) 0 l_pthread_mutex_trylock
    PTHREAD_MUTEX_METATABLE "pthread_mutex_trylock" 512 [VUd 2]
    (sample_heap PTHREAD_MUTEX_METATABLE [VLud 512] 0) (sample_world {[ 512 := ORc 1 BMutex ]}) (Cret 16 [])
    (sample_world {[ 512 := ORc 1 BMutex ]})); [cbn; auto|apply sample_handle|done|reflexivity].
Defined.

(** userdata 2 is a condition variable at 512, userdata 3 a mutex at 513 *)
Definition cond_heap : heap :=
  Heap {[ 0%nat := Table ∅ None; 1%nat := Table ∅ None; 4%nat := Table ∅ None ]} ∅
    {[ 2%nat := Udata (Some 1%nat) [VLud 512] 0; 3%nat := Udata (Some 4%nat) [VLud 513] 0 ]}
    {[ inl PTHREAD_COND_METATABLE := VTab 1; inl PTHREAD_MUTEX_METATABLE := VTab 4 ]} 0 10.

Lemma cond_wait_call_witness :
  executes (sample_clib []) 0 l_pthread_cond_wait [VUd 2; VUd 3] cond_heap (sample_world ∅)
    (Ok (results (S := Z) 0)) (put 0%nat (idle cond_heap) (sample_world ∅)) /\
  executes (sample_clib []) 0 l_pthread_cond_wait [VUd 2; VUd 2] cond_heap (sample_world ∅)
    (Halt (Raise (EType 2 PTHREAD_MUTEX_METATABLE))) (put 0%nat (idle cond_heap) (sample_world ∅)).
Proof.
  split.
  - refine (proj1 (cond_wait_call (sample_clib []) 0 (VUd 2) (VUd 3) 512 513 cond_heap (sample_world ∅)
      (Cret 0 []) (sample_world ∅) _ _) _ _ _); [|done| |done|reflexivity].
    + by exists 2%nat, (Udata (Some 1%nat) [VLud 512] 0).
    + by exists 3%nat, (Udata (Some 4%nat) [VLud 513] 0).
  - refine (proj2 (cond_wait_call (sample_clib []) 0 (VUd 2) (VUd 2) 512 513 cond_heap (sample_world ∅)
      (Cret 0 []) (sample_world ∅) _ _) _); [|done|reflexivity].
    by exists 2%nat, (Udata (Some 1%nat) [VLud 512] 0).
Defined.

Lemma mutex_timedlock_call_witness :
  executes (sample_clib [("pthread_mutex_timedlock", (Cret 60 [], 0))]) 0 l_pthread_mutex_timedlock
    [VUd 3; VInt 5] cond_heap (sample_world ∅) (Ok (results (S := Z) 60))
    (put 0%nat (idle cond_heap) (sample_world ∅)).
Proof.
  apply (mutex_timedlock_call (sample_clib [("pthread_mutex_timedlock", (Cret 60 [], 0))]) 0 (VUd 3) 513 5 []
    cond_heap (sample_world ∅) (Cret 60 []) (sample_world ∅)); [by left| |done|reflexivity].
  by exists 3%nat, (Udata (Some 4%nat) [VLud 513] 0).
Defined.

(** table 3 asks for a recursive mutex; the library refuses the type *)
Definition refusing (fn : string) : clib Z := {|
  c_call := fun f _ w => (Ok (Cret (if String.eqb f fn then 22 else 0) []), set_x (wx w + 1) w);
  c_fn := fun _ _ args w => (Ok (true, args), w) |}.

Definition type_heap : heap :=
  set_tab 3 (Table {[ KStr "type" := VInt 2 ]} None) (sample_heap PTHREAD_MUTEX_METATABLE [] 0).

Lemma object_new_witness :
  executes (refusing "pthread_mutexattr_settype") 0 l_pthread_mutex_new [VTab 3] type_heap (sample_world ∅)
    (Halt (Raise (EArg 1 "invalid attr table"))) (put 0%nat (idle type_heap) (set_x 3 (sample_world ∅))) /\
  executes (refusing "pthread_mutex_init") 0 l_pthread_mutex_new [VTab 3] type_heap (sample_world ∅)
    (Ok [VNil; VStr "Error"; VInt 22]) (put 0%nat (idle type_heap) (set_x 4 (set_next 4097 (sample_world ∅)))).
Proof.
  split.
  - refine (proj1 (object_new (refusing "pthread_mutexattr_settype")
      (fun f _ s => (Cret (if String.eqb f "pthread_mutexattr_settype" then 22 else 0) [], s + 1))
      (Maker l_pthread_mutex_new PTHREAD_MUTEX_METATABLE _ BMutex _ _ _ _) 0 1 [VTab 3]
      (Attrs 3 {[ KStr "type" := VInt 2 ]}) type_heap (sample_world ∅) (or_introl eq_refl) _ _ _ _ _)); done.
  - refine (proj1 (object_new (refusing "pthread_mutex_init")
      (fun f _ s => (Cret (if String.eqb f "pthread_mutex_init" then 22 else 0) [], s + 1))
      (Maker l_pthread_mutex_new PTHREAD_MUTEX_METATABLE _ BMutex _ _ _ _) 0 1 [VTab 3]
      (Attrs 3 {[ KStr "type" := VInt 2 ]}) type_heap (sample_world ∅) (or_introl eq_refl) _ _ _ _ _)); done.
Defined.
