(* ===== verification/PthreadThread.v ===== *)
(** * lua_pthread.c: threads

    A thread runs in a Lua state of its own ([l_pthread_create] copies the
    function and its arguments there) and hands its state to whoever joins it,
    who copies the results back and closes it.  A pointer to a [lua_State] given
    to the threads library is [state_ptr]; a call of the library that may call
    back says in its result whether it does. *)

From S2P Require Import Prelude LuaApi Machine Capi Refcount Utils Cpuset PthreadCopy PthreadSync Samples.

Definition state_ptr (L : nat) : Z := Z.of_nat L + 1.
Definition ptr_state (p : Z) : nat := Z.to_nat (p - 1).

(** nesting of functions that [copyn] follows in the model; every level takes a
    slot of a stack that has at most [LUA_MINSTACK] free ones *)
Definition COPY_DEPTH : nat := 32.

Section ops.
Context `{Consts} `{Cpusets}.

(** *** Attributes *)

Definition thread_load (o : obj) : option (Z * obj) :=
  match o with ORc _ (BThread t) => Some (t, o) | _ => None end.
Definition thread_store (t : Z) (o : obj) : option (unit * obj) :=
  match o with ORc r (BThread _) => Some (tt, ORc r (BThread t)) | _ => None end.

(** the [switch] on an optional field: what is done when it has the type, before
    the value is popped; false where the code returns -1 *)
Definition attr_switch (L : nat) (idx : Z) (field : string) (t : ltype) (set : prog bool) : prog bool :=
  t' ← lua_getfield L idx field;
  ok ← (if is_type t' t then set else mret (is_type t' TNIL));
  if ok : bool then lua_pop L 1;; mret true else mret false.

Definition set_int (L : nat) (setter : string) (conv : Z -> Z) : prog bool :=
  n ← lua_tointeger L (-1);
  r ← call setter [AS "attr"; AZ (conv n)];
  mret (rc r =? 0).

Definition attr_stack (L : nat) : prog bool :=
  t ← lua_getfield L (-1) "addr";
  if negb (is_type t TLIGHTUSERDATA) then mret false
  else
    stackaddr ← lua_touserdata L (-1);
    lua_pop L 1;;
    t ← lua_getfield L (-1) "size";
    if negb (is_type t TNUMBER) then mret false
    else
      n ← lua_tointeger L (-1);
      lua_pop L 1;;
      r ← call "pthread_attr_setstack" [AS "attr"; AZ stackaddr; AZ (to_size n)];
      mret (rc r =? 0).

Definition attr_schedparam (L : nat) : prog bool :=
  t ← lua_getfield L (-1) "sched_priority";
  if negb (is_type t TNUMBER) then mret false
  else
    n ← lua_tointeger L (-1);
    lua_pop L 1;;
    r ← call "pthread_attr_setschedparam" [AS "attr"; AZ (to_int n)];
    mret (rc r =? 0).

Definition attr_createsuspend (L : nat) : prog bool :=
  b ← lua_toboolean L (-1);
  if b : bool then
    r ← call "pthread_attr_setcreatesuspend_np" [AS "attr"];
    mret (rc r =? 0)
  else mret true.

Definition attr_affinity (L : nat) : prog bool :=
  t ← luaL_getmetatable L CPUSET_METATABLE;
  if negb (is_type t TTABLE) then mret false
  else
    has ← lua_getmetatable L (-2);
    if negb has then mret false
    else
      eq ← lua_rawequal L (-1) (-2);
      if negb eq then mret false
      else
        lua_pop L 2;;
        cpuset ← lua_touserdata L (-1);
        set ← load cpuset cset_load;
        r ← call "pthread_attr_setaffinity_np" [AS "attr"; AZ sizeof_cpuset; AZ set];
        mret (rc r =? 0).

(** one after the other, up to the first that fails *)
Fixpoint all_ok (l : list (prog bool)) : prog Z :=
  match l with
  | [] => mret 0
  | p :: l => ok ← p; if ok : bool then all_ok l else mret (-1)
  end.

Definition checkattr (L : nat) (idx : Z) : prog Z :=
  t ← lua_type L idx;
  assert_ (is_type t TTABLE) "lua_type(L, idx) == LUA_TTABLE";;
  all_ok [
    attr_switch L idx "stack" TTABLE (attr_stack L);
    attr_switch L idx "stacksize" TNUMBER (set_int L "pthread_attr_setstacksize" to_size);
    attr_switch L idx "guardsize" TNUMBER (set_int L "pthread_attr_setguardsize" to_size);
    attr_switch L idx "detachstate" TNUMBER (set_int L "pthread_attr_setdetachstate" to_int);
    attr_switch L idx "inheritsched" TNUMBER (set_int L "pthread_attr_setinheritsched" to_int);
    attr_switch L idx "schedparam" TTABLE (attr_schedparam L);
    attr_switch L idx "schedpolicy" TNUMBER (set_int L "pthread_attr_setschedpolicy" to_int);
    attr_switch L idx "scope" TNUMBER (set_int L "pthread_attr_setscope" to_int);
    attr_switch L idx "createsuspend_np" TBOOLEAN (attr_createsuspend L);
    attr_switch L idx "affinity_np" TUSERDATA (attr_affinity L)].

Definition attr_destroy (L : nat) : prog unit := destroy_attr L "pthread_attr_destroy".

(** *** Cleanup handlers *)

Definition getcleanupstack (L : nat) : prog unit := lua_rawgetp L "getcleanupstack";; mret tt.

Definition initcleanupstack (L : nat) : prog unit :=
  lua_newtable L;;
  lua_rawsetp L "getcleanupstack".

Definition thread_cleanup (L : nat) : prog unit :=
  getcleanupstack L;;
  idx ← lua_gettop L;
  n ← luaL_len L (-1);
  for_ (Z.to_nat (to_int n)) 1 (fun i =>
    lua_rawgeti L idx i;;
    len ← tunpack L (-1);
    lua_pcall_none L (len - 1);;
    mret tt);;
  lua_close L.

(** the library first runs the handlers that are still pushed: its result says
    whether [thread_cleanup] is *)
Definition pthread_exit {A} (L : nat) : prog A :=
  r ← call "pthread_exit" [AZ (state_ptr L)];
  (if rc r =? 1 then thread_cleanup L else mret tt);;
  halts (EHalt (ThreadExit L)).

Definition thread_kfunction {A} (L : nat) (status : bool) : prog A :=
  call "pthread_cleanup_pop" [AZ 0];;
  lua_pushboolean L status;;
  lua_insert L 1;;
  pthread_exit L.

Definition thread_wrapper {A} (L : nat) : prog A :=
  top ← lua_gettop L;
  let nargs := top - 1 in
  initcleanupstack L;;
  call "pthread_cleanup_push" [AS "thread_cleanup"; AZ (state_ptr L)];;
  status ← lua_pcall L nargs;
  thread_kfunction L status.

Definition l_pthread_cleanup_pop (L : nat) : prog Z :=
  execute ← lua_toboolean L 1;
  getcleanupstack L;;
  idx ← lua_gettop L;
  tpop L idx;;
  lua_remove L idx;;
  (if execute : bool then
     len ← tunpack L (-1);
     status ← lua_pcall L (len - 1);
     lua_pushboolean L status;;
     lua_insert L idx
   else lua_pushboolean L true);;
  top ← lua_gettop L;
  mret (top - idx).

Definition l_pthread_cleanup_push (L : nat) : prog Z :=
  n ← lua_gettop L;
  tpack L n;;
  idx ← lua_gettop L;
  getcleanupstack L;;
  lua_pushvalue L idx;;
  tpush L (-2);;
  mret 0.

(** *** Making and joining threads *)

Definition l_pthread_create (L : nat) : prog Z :=
  r ← call "pthread_attr_init" [AS "attr"];
  if negb (rc r =? 0) then fatal L "pthread_attr_init" (rc r)
  else
    n ← lua_gettop L;
    t ← lua_type L 1;
    nf ← (if is_type t TTABLE then
            bad ← checkattr L 1;
            if negb (bad =? 0) then
              attr_destroy L;;
              luaL_argerror L 1 "invalid attr table"
            else mret (n - 1, 2)
          else mret (n, 1) : prog (Z * Z));
    let '(n, fnidx) := nf : Z * Z in
    t ← lua_type L fnidx;
    if negb (is_type t TFUNCTION) then
      attr_destroy L;;
      luaL_typeerror L fnidx "function"
    else
      l ← luaL_newstate;
      match l with
      | None =>
          attr_destroy L;;
          fatal L "luaL_newstate" (cst "ENOMEM")
      | Some l =>
          luaL_openlibs l;;
          error ← copyn L l COPY_DEPTH fnidx n;
          if negb (error =? 0) then
            lua_close l;;
            attr_destroy L;;
            luaL_argerror L error "non-serializable value"
          else
            threadp ← malloc (cst "sizeof(struct rcthread)") (ORc 0 (BThread 0));
            if threadp =? 0 then
              lua_close L;;
              attr_destroy L;;
              fatal L "malloc" (cst "ENOMEM")
            else
              r ← call "pthread_create" [AS "attr"; AS "thread_wrapper"; AZ (state_ptr l)];
              load threadp (thread_store (out_int 0 r));;
              r1 ← call "pthread_attr_destroy" [AS "attr"];
              if negb (rc r1 =? 0) then
                lua_close l;;
                free threadp;;
                fatal L "pthread_attr_destroy" (rc r1)
              else if negb (rc r =? 0) then
                lua_close l;;
                free threadp;;
                fail L (rc r)
              else
                refcount_init threadp 1;;
                new L threadp PTHREAD_METATABLE
      end.

Definition l_pthread_retain (L : nat) : prog Z :=
  threadp ← checklightuserdata L 1;
  refcount_retain threadp;;
  new L threadp PTHREAD_METATABLE.

Definition l_pthread_cookie (L : nat) : prog Z :=
  checkcookieuv L 1 PTHREAD_METATABLE;;
  mret 1.

Definition l_pthread_gc (L : nat) : prog Z :=
  threadp ← checkcookie L 1 PTHREAD_METATABLE;
  last ← refcount_release threadp;
  if last : bool then free threadp;; mret 0 else mret 0.

Definition l_pthread_cancel (L : nat) : prog Z :=
  threadp ← checkcookie L 1 PTHREAD_METATABLE;
  t ← load threadp thread_load;
  r ← call "pthread_cancel" [AZ t];
  if negb (rc r =? 0) then fail L (rc r) else success L.

Definition l_pthread_detach (L : nat) : prog Z :=
  threadp ← checkcookie L 1 PTHREAD_METATABLE;
  t ← load threadp thread_load;
  r ← call "pthread_detach" [AZ t];
  if negb (rc r =? 0) then fail L (rc r) else success L.

Definition l_pthread_equal (L : nat) : prog Z :=
  t1p ← checkcookie L 1 PTHREAD_METATABLE;
  t2p ← checkcookie L 2 PTHREAD_METATABLE;
  t1 ← load t1p thread_load;
  t2 ← load t2p thread_load;
  r ← call "pthread_equal" [AZ t1; AZ t2];
  lua_pushboolean L (negb (rc r =? 0));;
  mret 1.

Definition l_pthread_exit (L : nat) : prog Z :=
  lua_pushboolean L true;;
  lua_insert L 1;;
  pthread_exit L.

(** the results of a thread that has ended: its state holds them *)
Definition canceled (L : nat) : prog Z :=
  lua_pushboolean L false;;
  lua_pushstring L "canceled";;
  mret 2.

Definition take_results (L l : nat) (close : bool) : prog Z :=
  nresults ← lua_gettop l;
  error ← (if 0 <? nresults then copyn l L COPY_DEPTH 1 nresults else mret 0);
  if negb (error =? 0) then
    (if close : bool then lua_close l else mret tt);;
    luaL_error L "thread returned a non-serializable value"
  else
    (if close : bool then lua_close l else mret tt);;
    mret nresults.

Definition l_pthread_join (L : nat) : prog Z :=
  threadp ← checkcookie L 1 PTHREAD_METATABLE;
  t ← load threadp thread_load;
  r ← call "pthread_join" [AZ t];
  if negb (rc r =? 0) then fail L (rc r)
  else
    let result := out_int 0 r in
    if result =? cst "PTHREAD_CANCELED" then canceled L
    else take_results L (ptr_state result) true.

Definition l_pthread_peekjoin_np (L : nat) : prog Z :=
  threadp ← checkcookie L 1 PTHREAD_METATABLE;
  t ← load threadp thread_load;
  r ← call "pthread_peekjoin_np" [AZ t];
  if negb (rc r =? 0) then fail L (rc r)
  else
    let result := out_int 0 r in
    if result =? cst "PTHREAD_CANCELED" then canceled L
    else take_results L (ptr_state result) false.

Definition l_pthread_timedjoin_np (L : nat) : prog Z :=
  threadp ← checkcookie L 1 PTHREAD_METATABLE;
  tv_sec ← luaL_checkinteger L 2;
  tv_nsec ← luaL_optinteger L 3 0;
  t ← load threadp thread_load;
  r ← call "pthread_timedjoin_np" [AZ t; AZ tv_sec; AZ tv_nsec];
  if negb (rc r =? 0) then fail L (rc r)
  else
    let result := out_int 0 r in
    if result =? cst "PTHREAD_CANCELED" then canceled L
    else take_results L (ptr_state result) true.

(** *** The attributes of a running thread *)

(** an attribute of the object on the C stack, as an integer field of the table on top *)
Definition get_attr {A} (L : nat) (fn : string) (k : cret -> prog A) : prog A :=
  r ← call fn [AS "attr"];
  if negb (rc r =? 0) then
    attr_destroy L;;
    fatal L fn (rc r)
  else k r.

Definition get_int (L : nat) (fn field : string) : prog unit :=
  get_attr L fn (fun r =>
    lua_pushinteger L (to_long (out_int 0 r));;
    lua_setfield L (-2) field).

Definition l_pthread_attr_get_np (L : nat) : prog Z :=
  threadp ← checkcookie L 1 PTHREAD_METATABLE;
  r ← call "pthread_attr_init" [AS "attr"];
  if negb (rc r =? 0) then fatal L "pthread_attr_init" (rc r)
  else
    t ← load threadp thread_load;
    r ← call "pthread_attr_get_np" [AZ t; AS "attr"];
    if negb (rc r =? 0) then
      attr_destroy L;;
      fail L (rc r)
    else
      lua_newtable L;;
      get_attr L "pthread_attr_getstack" (fun r =>
        lua_createtable L 0 2;;
        lua_pushlightuserdata L (out_int 0 r);;
        lua_setfield L (-2) "addr";;
        lua_pushinteger L (to_long (out_int 1 r));;
        lua_setfield L (-2) "size";;
        lua_setfield L (-2) "stack");;
      get_int L "pthread_attr_getguardsize" "guardsize";;
      get_int L "pthread_attr_getdetachstate" "detachstate";;
      get_int L "pthread_attr_getinheritsched" "inheritsched";;
      get_attr L "pthread_attr_getschedparam" (fun r =>
        lua_createtable L 0 1;;
        lua_pushinteger L (out_int 0 r);;
        lua_setfield L (-2) "sched_priority";;
        lua_setfield L (-2) "schedparam");;
      get_int L "pthread_attr_getschedpolicy" "schedpolicy";;
      get_int L "pthread_attr_getscope" "scope";;
      cpuset ← newanoncpuset L;
      get_attr L "pthread_attr_getaffinity_np" (fun r =>
        load cpuset (cset_store (out_int 0 r));;
        lua_setfield L (-2) "affinity_np");;
      attr_destroy L;;
      mret 1.

Definition l_pthread_getaffinity_np (L : nat) : prog Z :=
  threadp ← checkcookie L 1 PTHREAD_METATABLE;
  cpuset ← newanoncpuset L;
  t ← load threadp thread_load;
  r ← call "pthread_getaffinity_np" [AZ t; AZ sizeof_cpuset];
  if negb (rc r =? 0) then fail L (rc r)
  else
    load cpuset (cset_store (out_int 0 r));;
    mret 1.

Definition l_pthread_setaffinity_np (L : nat) : prog Z :=
  threadp ← checkcookie L 1 PTHREAD_METATABLE;
  cpuset ← luaL_checkudata L 2 CPUSET_METATABLE;
  t ← load threadp thread_load;
  set ← load cpuset cset_load;
  r ← call "pthread_setaffinity_np" [AZ t; AZ sizeof_cpuset; AZ set];
  if negb (rc r =? 0) then fail L (rc r) else success L.

Definition l_pthread_resume_np (L : nat) : prog Z :=
  threadp ← checkcookie L 1 PTHREAD_METATABLE;
  t ← load threadp thread_load;
  r ← call "pthread_resume_np" [AZ t];
  if negb (rc r =? 0) then fail L (rc r) else success L.

Definition l_pthread_suspend_np (L : nat) : prog Z :=
  threadp ← checkcookie L 1 PTHREAD_METATABLE;
  t ← load threadp thread_load;
  r ← call "pthread_suspend_np" [AZ t];
  if negb (rc r =? 0) then fail L (rc r) else success L.

Definition l_pthread_kill (L : nat) : prog Z :=
  threadp ← checkcookie L 1 PTHREAD_METATABLE;
  sig ← luaL_checkinteger L 2;
  t ← load threadp thread_load;
  r ← call "pthread_kill" [AZ t; AZ (to_int sig)];
  if negb (rc r =? 0) then fail L (rc r) else success L.

Definition l_pthread_getname_np (L : nat) : prog Z :=
  threadp ← checkcookie L 1 PTHREAD_METATABLE;
  t ← load threadp thread_load;
  r ← call "pthread_getname_np" [AZ t];
  if negb (rc r =? 0) then fail L (rc r)
  else
    lua_pushstring L (out_str 0 r);;
    mret 1.

Definition l_pthread_setname_np (L : nat) : prog Z :=
  threadp ← checkcookie L 1 PTHREAD_METATABLE;
  name ← luaL_checkstring L 2;
  t ← load threadp thread_load;
  r ← call "pthread_setname_np" [AZ t; AS name];
  if negb (rc r =? 0) then fail L (rc r) else success L.

Definition l_pthread_sigqueue (L : nat) : prog Z :=
  threadp ← checkcookie L 1 PTHREAD_METATABLE;
  sig ← luaL_checkinteger L 2;
  isint ← lua_isinteger L 3;
  value ← (if isint : bool then n ← lua_tointeger L 3; mret (to_int n) else checklightuserdata L 3);
  t ← load threadp thread_load;
  r ← call "pthread_sigqueue" [AZ t; AZ (to_int sig); AZ value];
  if negb (rc r =? 0) then fail L (rc r) else success L.

(** *** The calling thread *)

Definition l_pthread_self (L : nat) : prog Z :=
  threadp ← malloc (cst "sizeof(struct rcthread)") (ORc 0 (BThread 0));
  if threadp =? 0 then fatal L "malloc" (cst "ENOMEM")
  else
    r ← call "pthread_self" [];
    load threadp (thread_store (rc r));;
    refcount_init threadp 1;;
    new L threadp PTHREAD_METATABLE.

Definition l_pthread_setcancelstate (L : nat) : prog Z :=
  state ← luaL_checkinteger L 1;
  r ← call "pthread_setcancelstate" [AZ (to_int state)];
  if negb (rc r =? 0) then fail L (rc r)
  else lua_pushinteger L (out_int 0 r);; mret 1.

Definition l_pthread_setcanceltype (L : nat) : prog Z :=
  type ← luaL_checkinteger L 1;
  r ← call "pthread_setcanceltype" [AZ (to_int type)];
  if negb (rc r =? 0) then fail L (rc r)
  else lua_pushinteger L (out_int 0 r);; mret 1.

Definition l_pthread_testcancel (L : nat) : prog Z := call "pthread_testcancel" [];; mret 0.
Definition l_pthread_yield (L : nat) : prog Z := call "pthread_yield" [];; mret 0.

Definition l_pthread_getthreadid_np (L : nat) : prog Z :=
  r ← call "pthread_getthreadid_np" [];
  lua_pushinteger L (rc r);;
  mret 1.

Definition l_pthread_main_np (L : nat) : prog Z :=
  r ← call "pthread_main_np" [];
  let ismain := rc r in
  if ismain =? -1 then
    luaL_pushfail L;;
    lua_pushstring L "not ready";;
    mret 2
  else
    lua_pushboolean L (negb (ismain =? 0));;
    mret 1.

Definition l_pthread_multi_np (L : nat) : prog Z :=
  r ← call "pthread_multi_np" [];
  assert_ (rc r =? 0) "error == 0";;
  success L.

Definition l_pthread_resume_all_np (L : nat) : prog Z := call "pthread_resume_all_np" [];; mret 0.
Definition l_pthread_signals_block_np (L : nat) : prog Z := call "pthread_signals_block_np" [];; mret 0.
Definition l_pthread_signals_unblock_np (L : nat) : prog Z :=
  call "pthread_signals_unblock_np" [];; mret 0.

Definition l_pthread_single_np (L : nat) : prog Z :=
  r ← call "pthread_single_np" [];
  assert_ (rc r =? 0) "error == 0";;
  success L.

Definition l_pthread_suspend_all_np (L : nat) : prog Z := call "pthread_suspend_all_np" [];; mret 0.

(** *** Once *)

Definition once_wrapper : prog unit :=
  r ← call "pthread_getspecific" [AS "thread_state_key"];
  if negb (rc r =? 0) then
    let L := ptr_state (rc r) in
    top ← lua_gettop L;
    status ← lua_pcall L (top - 1);
    lua_pushboolean L status
  else mret tt.

Definition l_pthread_once_new (L : nat) : prog Z :=
  oncep ← malloc (cst "sizeof(struct rconce)") (ORc 0 BOnce);
  if oncep =? 0 then fatal L "malloc" (cst "ENOMEM")
  else
    refcount_init oncep 1;;
    new L oncep PTHREAD_ONCE_METATABLE.

Definition l_pthread_once_retain (L : nat) : prog Z :=
  oncep ← checklightuserdata L 1;
  refcount_retain oncep;;
  new L oncep PTHREAD_ONCE_METATABLE.

Definition l_pthread_once_cookie (L : nat) : prog Z :=
  checkcookieuv L 1 PTHREAD_ONCE_METATABLE;;
  mret 1.

Definition l_pthread_once_gc (L : nat) : prog Z :=
  oncep ← checkcookie L 1 PTHREAD_ONCE_METATABLE;
  last ← refcount_release oncep;
  if last : bool then free oncep;; mret 0 else mret 0.

(** the library runs the routine before it returns, or not: its first out parameter *)
Definition l_pthread_once_call (L : nat) : prog Z :=
  oncep ← checkcookie L 1 PTHREAD_ONCE_METATABLE;
  top ← lua_gettop L;
  r ← call "pthread_once" [AZ oncep; AS "once_wrapper"];
  (if out_int 0 r =? 1 then once_wrapper else mret tt);;
  if negb (rc r =? 0) then fail L (rc r)
  else
    top' ← lua_gettop L;
    let nresults := top' - top in
    assert_ (0 <? nresults) "nresults > 0";;
    lua_insert L (top + 1);;
    mret nresults.
End ops.
