(* ===== verification/PthreadLife.v ===== *)
(** * lua_pthread.c: the life of a thread

    What [l_pthread_create], [thread_wrapper], the cleanup handlers,
    [l_pthread_exit] and the joins do together: the state a new thread gets, what
    it leaves there, and what the thread that joins it receives. *)

From S2P Require Import Prelude LuaApi Arrays Machine Capi Refcount Utils Cpuset PthreadCopy PthreadSync.
From S2P Require Import PthreadThread Samples.

(** ** Closing states *)

Definition shut {S} (l : nat) (w : world S lstate) : world S lstate := set_wl (delete l (wl w)) w.

(** C functions are created under identities that are taken *)
Definition funs_taken (h : heap) : Prop := forall f s, funs h !! f = Some (CF s) -> (f < fresh h)%nat.

Section close.
Context `{LuaSem} {S : Type} `{Libc S} (C : clib S).
Implicit Types (w : world S lstate) (L l : nat) (vs : list value) (h : heap).
Abbreviation rn := (run (documented C)).

(** a copy that arrives, or fails half way, leaves a state that can be closed *)
Lemma closable_kept h h' vs n vs' n' :
  kept h h' -> funs_taken h -> closable (LS vs n h) = true -> closable (LS vs' n' h') = true.
Proof.
  intros (_ & HT & HU & HF) Ht. unfold closable. cbn [hp]. rewrite HU, !forallb_forall.
  intros Hc kv Hin. specialize (Hc kv Hin). revert Hc. unfold has_gc. rewrite HT.
  destruct (ud_meta kv.2) as [t|]; [|done]. destruct (tabs h !! t) as [x|]; [|done].
  destruct (tmap x !! KStr "__gc") as [[]|]; try done.
  destruct (funs h !! f) as [[|s|]|] eqn:E; try done.
  by rewrite (HF f s (Ht _ _ E) E).
Qed.

Lemma run_close L l s s' w :
  L ≠ l -> wl w !! l = Some s' -> closable s' = true ->
  rn (lua_close l) (put L s w) = (Ok tt, put L s (shut l w)).
Proof.
  intros Hne Hl Hc. rewrite run_trigger. cbn [step put wl]. rewrite lookup_insert_ne, Hl by done.
  cbn [h_closable documented]. rewrite Hc. unfold put, shut, set_wl; cbn.
  by rewrite delete_insert_ne by done.
Qed.

Lemma shut_put l s w : shut l (put l s w) = shut l w.
Proof. unfold shut, put, set_wl; cbn. by rewrite delete_insert_eq. Qed.

Lemma run_newstate L s w :
  woom w 0 (wnext w) = false -> L ≠ wln w ->
  rn luaL_newstate (put L s w) =
  (Ok (Some (wln w)),
   put L s (put (wln w) new_lstate (set_wln (1 + wln w) (set_next (wnext w + 1) w)))).
Proof.
  intros Ho Hne. rewrite run_trigger. cbn [step woom wnext wln put]. rewrite Ho.
  rewrite <- put_comm by done. done.
Qed.
End close.

(** ** Making threads *)

(** the heap of a state in which the standard libraries are open *)
Definition libs_heap `{LuaSem} : heap := ls_openlibs (hp new_lstate).

Section create.
Context `{Consts} `{Cpusets} `{LuaSem} {S : Type} `{Libc S} (C : clib S).
Context (L f : nat) (rest : list value) (h : heap) (w : world S lstate)
  (lib : string -> list carg -> S -> cret * S) (d : nat).
Abbreviation rn := (run (documented C)).
Abbreviation args := (VFun f :: rest).

(** attribute objects can be made and destroyed; there is memory for a state; the
    values fit *)
Hypothesis Hlib : external C ["pthread_attr_init"; "pthread_attr_destroy"] lib.
Hypothesis Hattr : forall fn a s, rc (lib fn a s).1 = 0.
Hypothesis HL : L ≠ wln w.
Hypothesis Hnew : woom w 0 (wnext w) = false.
Hypothesis Hfew : few_upvalues h.
Hypothesis Hd : (d < COPY_DEPTH)%nat.
Hypothesis Hsrc : (need_src d <= LUA_MINSTACK)%nat.
Hypothesis Hdst : (need_dst d + length args <= LUA_MINSTACK)%nat.

(** what a call on the attribute object does to the library *)
Definition attr_x (fn : string) (w : world S lstate) : world S lstate :=
  set_x (lib fn [AS "attr"] (wx w)).2 w.

(** the world with the new state *)
Definition state_world : world S lstate :=
  set_wln (1 + wln w) (set_next (wnext w + 1) (attr_x "pthread_attr_init" w)).

Lemma run_attr_destroy s w0 :
  rn (attr_destroy L) (put L s w0) = (Ok tt, put L s (attr_x "pthread_attr_destroy" w0)).
Proof.
  unfold attr_destroy. rewrite (run_destroy_attr C _ lib _ L s w0 Hlib) by (cbn; auto).
  by rewrite Hattr.
Qed.

(** up to the copy, and from it on *)
Definition create_rest (l : nat) : prog Z :=
  error ← copyn L l COPY_DEPTH 1 (Z.of_nat (length args));
  if negb (error =? 0) then
    lua_close l;; attr_destroy L;; luaL_argerror L error "non-serializable value"
  else
    threadp ← malloc (cst "sizeof(struct rcthread)") (ORc 0 (BThread 0));
    if threadp =? 0 then
      lua_close L;; attr_destroy L;; fatal L "malloc" (cst "ENOMEM")
    else
      r ← call "pthread_create" [AS "attr"; AS "thread_wrapper"; AZ (state_ptr l)];
      load threadp (thread_store (out_int 0 r));;
      r1 ← call "pthread_attr_destroy" [AS "attr"];
      if negb (rc r1 =? 0) then
        lua_close l;; free threadp;; fatal L "pthread_attr_destroy" (rc r1)
      else if negb (rc r =? 0) then
        lua_close l;; free threadp;; fail L (rc r)
      else
        refcount_init threadp 1;;
        new L threadp PTHREAD_METATABLE.

Lemma run_create_start :
  rn (l_pthread_create L) (put L (frame args h) w) =
  rn (create_rest (wln w))
    (put L (LS (rev args) 20 h) (put (wln w) (LS [] 20 libs_heap) state_world)).
Proof.
  unfold l_pthread_create, frame, LUA_MINSTACK.
  rewrite run_bind, (run_external C _ lib) by (done || by left). cbn [andthen]. rewrite Hattr.
  cbn [negb Z.eqb]. rewrite run_bind, run_lua. cbn [doc andthen stk].
  assert (Ha : at_ (rev args) 1 = Val (VFun f)) by by apply (at_frame args 1).
  rewrite run_bind, run_lua. cbn [doc]. unfold doc_type, at_index. cbn [stk]. rewrite Ha.
  cbn [andthen type_of]. change (is_type TFUNCTION TTABLE) with false. cbv iota.
  rewrite run_bind, run_ret. cbn [andthen]. rewrite run_bind, run_lua. cbn [doc].
  unfold doc_type, at_index. cbn [stk]. rewrite Ha.
  cbn [andthen type_of]. change (is_type TFUNCTION TFUNCTION) with true. cbn [negb].
  rewrite run_bind, run_newstate by done. cbn [andthen].
  rewrite run_bind, run_lua2 by done. cbn [doc]. unfold with_heap. cbn [andthen stk room hp new_lstate].
  by rewrite length_rev.
Qed.

Lemma run_create_copy r :
  copy_values d h args libs_heap = Some r ->
  let res := rn (copyn L (wln w) COPY_DEPTH 1 (Z.of_nat (length args)))
    (put L (LS (rev args) 20 h) (put (wln w) (LS [] 20 libs_heap) state_world)) in
  match r with
  | inl (vs', hl) => res = (Ok 0, put L (LS (rev args) 20 h)
      (put (wln w) (LS (rev vs') (20 - length args) hl) state_world))
  | inr i => exists xL mL xl ml hl, kept libs_heap hl /\
      res = (Ok (1 + Z.of_nat i),
        put L (LS (xL ++ rev args) mL h) (put (wln w) (LS (xl ++ []) ml hl) state_world))
  end.
Proof.
  intros Hc.
  assert (Hat : forall i v, args !! i = Some v -> at_ (rev args) (1 + Z.of_nat i) = Val v).
  { intros i v Hv. apply at_frame; [lia|]. by replace (Z.to_nat (1 + Z.of_nat i - 1)) with i by lia. }
  pose proof (run_copyn C L (wln w) HL d 31 1 args (rev args) 20 h [] 20 libs_heap r state_world Hfew
    ltac:(unfold COPY_DEPTH in Hd; lia) ltac:(lia) Hat Hc Hsrc Hdst) as Hr.
  cbn zeta in Hr |- *. change (Datatypes.S 31) with COPY_DEPTH in Hr.
  destruct r as [[vs' hl]|i]; [|exact Hr]. by rewrite app_nil_r in Hr.
Qed.

(** An argument that cannot be copied is reported by its position, and the state made for
    the thread is closed; nothing else has changed. *)
Theorem create_refused i :
  copy_values d h args libs_heap = Some (inr i) ->
  funs_taken libs_heap -> closable (LS [] 20 libs_heap) = true ->
  executes C L l_pthread_create args h w
    (Halt (Raise (EArg (1 + Z.of_nat i) "non-serializable value")))
    (put L (idle h) (attr_x "pthread_attr_destroy" (shut (wln w) state_world))).
Proof.
  intros Hc Ht Hcl.
  destruct (run_create_copy _ Hc) as (xL & mL & xl & ml & hl & Hk & Hr).
  eapply executes_halt; [|done]. rewrite run_create_start. unfold create_rest.
  rewrite run_bind, Hr. cbn [andthen]. destruct (Z.eqb_spec (1 + Z.of_nat i) 0); [lia|]. cbn [negb].
  rewrite run_bind, (run_close C L (wln w) _ (LS (xl ++ []) ml hl)); [|done|apply wl_put|].
  2:{ by eapply closable_kept. }
  rewrite shut_put. cbn [andthen]. rewrite run_bind, run_attr_destroy. cbn [andthen].
  by rewrite run_lua_halts.
Qed.

(** When there is no memory for the thread's structure, [pthread.create] closes the state
    of its caller, not the one it made, and then raises an error in it: a use of a closed
    state. *)
Theorem create_nomem vs' hl :
  copy_values d h args libs_heap = Some (inl (vs', hl)) ->
  woom w (cst "sizeof(struct rcthread)") (wnext w + 1) = true -> closable (frame args h) = true ->
  (run (documented C) (l_pthread_create L) (put L (frame args h) w)).1 =
  Halt (UB "use of a closed Lua state").
Proof.
  intros Hc Hm Hcl. rewrite run_create_start. unfold create_rest.
  rewrite run_bind, (run_create_copy _ Hc). cbn [andthen negb Z.eqb].
  rewrite run_bind, run_malloc_fail by exact Hm. cbn [andthen Z.eqb].
  rewrite run_bind, run_trigger. cbn [step]. rewrite wl_put. cbn [h_closable documented].
  change (closable (LS (rev args) 20 h)) with (closable (frame args h)). rewrite Hcl. cbn [andthen].
  unfold attr_destroy, destroy_attr. rewrite run_bind, run_bind, run_call, Hlib by (cbn; auto).
  cbn [andthen]. rewrite Hattr. cbn [negb Z.eqb]. rewrite run_ret. cbn [andthen].
  unfold fatal. rewrite run_bind, run_strerror. cbn [andthen]. rewrite run_halts. cbn [step].
  unfold set_x, set_wl; cbn [wl]. by rewrite lookup_delete_eq.
Qed.

(** the world in which the thread is started: its state holds the copies *)
Definition start_world (vs' : list value) (hl : heap) : world S lstate :=
  poke (wnext w + 1) (ORc 0 (BThread 0)) (set_next (wnext w + 2)
    (put (wln w) (LS (rev vs') (20 - length args) hl) state_world)).

(** C3. A thread is started on a new state that holds the function and its arguments, copied in
    order; the handle that is returned has one reference to the thread.  If the thread cannot
    be started, the error of the library is returned and the new state and the memory are given
    back.  This is so whatever the thread, or another, did before the call returned. *)
Theorem create_thread vs' hl mtid r s w1 :
  copy_values d h args libs_heap = Some (inl (vs', hl)) ->
  let p := wnext w + 1 in
  woom w (cst "sizeof(struct rcthread)") p = false -> p ≠ 0 ->
  reg_get (inl PTHREAD_METATABLE) h = VTab mtid ->
  c_call C "pthread_create" [AS "attr"; AS "thread_wrapper"; AZ (state_ptr (wln w))]
    (put L (frame args h) (start_world vs' hl)) = (Ok r, put L (frame args h) w1) ->
  wm w1 !! p = Some (ORc 0 (BThread 0)) -> wl w1 !! wln w = Some s -> closable s = true ->
  length vs' = length args /\
  executes C L l_pthread_create args h w
    (Ok (if rc r =? 0 then [VUd (fresh h)] else results (rc r)))
    (if rc r =? 0
     then put L (idle (alloc_handle mtid p h))
            (attr_x "pthread_attr_destroy" (poke p (ORc 1 (BThread (out_int 0 r))) w1))
     else put L (idle h) (attr_x "pthread_attr_destroy" (release p (shut (wln w) w1)))).
Proof.
  intros Hc p Hm Hp Hreg Hcall Hmem Hst Hcl.
  split; [by eapply copy_values_length|].
  assert (Hs : rn (l_pthread_create L) (put L (frame args h) w) =
    rn (load p (thread_store (out_int 0 r));;
        r1 ← call "pthread_attr_destroy" [AS "attr"];
        if negb (rc r1 =? 0) then
          lua_close (wln w);; free p;; fatal L "pthread_attr_destroy" (rc r1)
        else if negb (rc r =? 0) then
          lua_close (wln w);; free p;; fail L (rc r)
        else refcount_init p 1;; new L p PTHREAD_METATABLE) (put L (frame args h) w1)).
  { rewrite run_create_start. unfold create_rest.
    rewrite run_bind, (run_create_copy _ Hc). cbn [andthen negb Z.eqb].
    rewrite run_bind, run_malloc_ok by exact Hm. cbn [andthen].
    change (wnext (put _ _ state_world)) with p. destruct (Z.eqb_spec p 0); [done|].
    rewrite run_bind, run_call.
    replace (set_next (p + 1) _) with (set_next (wnext w + 2)
      (put (wln w) (LS (rev vs') (20 - length args) hl) state_world)) by (f_equal; lia).
    change (poke p _ _) with (start_world vs' hl). unfold frame, LUA_MINSTACK in *.
    by rewrite Hcall. }
  set (w2 := poke p (ORc 0 (BThread (out_int 0 r))) w1) in *.
  assert (Hs2 : rn (l_pthread_create L) (put L (frame args h) w) =
    rn (if negb (rc r =? 0) then lua_close (wln w);; free p;; fail L (rc r)
        else refcount_init p 1;; new L p PTHREAD_METATABLE)
      (put L (frame args h) (attr_x "pthread_attr_destroy" w2))).
  { rewrite Hs. rewrite run_bind, (run_load C _ _ _ _ _ _ _ _ Hmem eq_refl). cbn [andthen]. fold w2.
    rewrite run_bind, (run_external C _ lib _ _ _ _ _ Hlib) by (cbn; auto). cbn [andthen].
    rewrite Hattr. done. }
  assert (Hm2 : wm (attr_x "pthread_attr_destroy" w2) !! p = Some (ORc 0 (BThread (out_int 0 r))))
    by (cbn; apply lookup_insert_eq).
  destruct (Z.eqb_spec (rc r) 0) as [E|E]; cbn [negb] in Hs2.
  - eapply invoke_return. rewrite Hs2.
    rewrite run_bind, (run_refcount_init C p 1 _ 0 _ _ _ Hm2 eq_refl). cbn [andthen].
    unfold frame, LUA_MINSTACK. rewrite (run_new C L p PTHREAD_METATABLE mtid (rev args) 18 h _ Hreg).
    unfold attr_x, w2, poke, set_mem, set_x; cbn. by rewrite insert_insert_eq.
  - apply (executes_return C L _ _ _ _ _ (rev args) 17). rewrite Hs2.
    rewrite run_bind, (run_close C L (wln w) _ s) by done. cbn [andthen].
    rewrite run_bind, (run_free C p _ L _ (shut (wln w) (attr_x "pthread_attr_destroy" w2)) Hp Hm2).
    cbn [andthen]. unfold frame, LUA_MINSTACK. rewrite (run_fail C L _ (rev args) 17). unfold results.
    destruct (Z.eqb_spec (rc r) 0); [done|].
    unfold attr_x, w2, poke, set_mem, set_x, shut, set_wl, release; cbn. by rewrite delete_insert_eq.
Qed.
End create.

(** ** Cleanup handlers *)

(** table [t] holds a function and its arguments *)
Definition packed (h : heap) (t : nat) (fa : value * list value) : Prop :=
  tabs h !! t = Some (Table (arr (fa.1 :: fa.2)) None) /\
  Z.of_nat (length (fa.1 :: fa.2)) < 2 ^ 31.

(** the handlers pushed in the state, oldest first: each a function and its
    arguments, kept in the tables [ts], which table [c] lists *)
Record handlers (c : nat) (ts : list nat) (h : heap) (hs : list (value * list value)) : Prop := {
  hd_reg : reg_get (inr "getcleanupstack") h = VTab c;
  hd_new : (c < fresh h)%nat /\ Forall (fun t => c ≠ t /\ (t < fresh h)%nat) ts;
  hd_tab : tabs h !! c = Some (Table (arr (VTab <$> ts)) None);
  hd_all : Forall2 (packed h) ts hs;
  hd_len : Z.of_nat (length hs) < 2 ^ 31 - 1
}.

Section cleanup.
Context `{LuaSem} {S : Type} `{Libc S} (C : clib S).
Implicit Types (w : world S lstate) (L l : nat) (vs : list value) (h : heap).
Abbreviation rn := (run (documented C)).

Lemma run_getcleanupstack L vs n h w :
  rn (getcleanupstack L) (put L (LS vs (1 + n) h) w) =
  (Ok tt, put L (LS (reg_get (inr "getcleanupstack") h :: vs) n h) w).
Proof. unfold getcleanupstack. by rewrite run_bind, run_lua. Qed.

Lemma handlers_length c ts h hs : handlers c ts h hs -> length ts = length hs.
Proof. intros [_ _ _ Ha _]. by eapply Forall2_length. Qed.

Lemma packed_kept h h' ts hs :
  (forall t, t ∈ ts -> tabs h' !! t = tabs h !! t) ->
  Forall2 (packed h) ts hs -> Forall2 (packed h') ts hs.
Proof.
  intros Ht Ha. induction Ha as [|t fa ts hs [Hp Hl] _ IH]; constructor.
  - split; [|done]. by rewrite Ht by left.
  - apply IH. intros u Hu. apply Ht. by right.
Qed.

Lemma handlers_push c ts h hs f a :
  handlers c ts h hs -> Z.of_nat (length hs) < 2 ^ 31 - 2 -> Z.of_nat (length (f :: a)) < 2 ^ 31 ->
  handlers c (ts ++ [fresh h])
    (set_tab c (Table (arr ((VTab <$> ts) ++ [VTab (fresh h)])) None)
      (alloc_tab (Table (arr (f :: a)) None) h)) (hs ++ [(f, a)]).
Proof.
  intros [Hr [Hlt Hts] Hc Ha Hl] Hl1 Hl2. split.
  - exact Hr.
  - cbn. split; [lia|]. apply Forall_app. split; [|constructor; [lia|done]].
    eapply list.Forall_impl; [exact Hts|]. cbn. intros t [? ?]. split; [done|lia].
  - rewrite tabs_set_tab. by rewrite fmap_app.
  - apply Forall2_app.
    + apply (packed_kept h); [|done]. intros t Hin. cbn.
      destruct (proj1 (list.Forall_forall _ _) Hts t Hin). by rewrite !lookup_insert_ne by lia.
    + constructor; [|done]. split; [|done]. cbn. rewrite lookup_insert_ne by lia. by rewrite lookup_insert_eq.
  - rewrite length_app. cbn. lia.
Qed.

Lemma handlers_pop c ts h hs f a :
  handlers c ts h (hs ++ [(f, a)]) -> exists ts' t, ts = ts' ++ [t] /\
    handlers c ts' (set_tab c (Table (arr (VTab <$> ts')) None) h) hs /\
    tabs (set_tab c (Table (arr (VTab <$> ts')) None) h) !! t = Some (Table (arr (f :: a)) None) /\
    Z.of_nat (length (f :: a)) < 2 ^ 31.
Proof.
  intros [Hr [Hlt Hts] Hc Ha Hl]. apply Forall2_app_inv_r in Ha as (ts' & tt & Ha & Ha1 & ->).
  apply Forall2_cons_inv_r in Ha1 as (t & l & [Ht Hfa] & Hnil & ->).
  apply Forall2_nil_inv_r in Hnil as ->. exists ts', t. apply Forall_app in Hts as [Hts Ht1].
  apply Forall_cons_iff in Ht1 as [[Hne _] _]. split_all; [done| |cbn; by rewrite lookup_insert_ne|done].
  split; [done|done|apply tabs_set_tab| |rewrite length_app in Hl; cbn in Hl; lia].
  apply (packed_kept h); [|done]. intros u Hin. cbn.
  destruct (proj1 (list.Forall_forall _ _) Hts u Hin). by rewrite lookup_insert_ne.
Qed.

(** [pthread.cleanup.push] adds the function and its arguments after the handlers that are
    there, and returns nothing. *)
Theorem cleanup_push L c ts hs f a h w :
  handlers c ts h hs -> no_nil (f :: a) -> Z.of_nat (length (f :: a)) < 2 ^ 31 ->
  Z.of_nat (length hs) < 2 ^ 31 - 2 ->
  exists h', handlers c (ts ++ [fresh h]) h' (hs ++ [(f, a)]) /\
    executes C L l_pthread_cleanup_push (f :: a) h w (Ok []) (put L (idle h') w).
Proof.
  intros Hh Hn Hl2 Hlen.
  eexists. split; [by apply handlers_push|].
  eapply (executes_return C L _ _ _ _ []). unfold l_pthread_cleanup_push, frame, LUA_MINSTACK.
  rewrite run_bind, run_lua. cbn [doc andthen stk]. rewrite length_rev.
  pose proof (run_tpack C L (f :: a) [] 18 h w) as Hp. rewrite app_nil_r in Hp.
  change (2 + 18)%nat with 20%nat in Hp.
  replace (1 + 18 + length (f :: a))%nat with (1 + (1 + (17 + length (f :: a))))%nat in Hp by lia.
  rewrite run_bind, Hp by done. cbn [andthen].
  rewrite run_bind, run_lua. cbn [doc andthen stk length].
  set (h1 := alloc_tab (Table (arr (f :: a)) None) h).
  rewrite run_bind, run_getcleanupstack. cbn [andthen].
  assert (Hr : reg_get (inr "getcleanupstack") h1 = VTab c) by apply Hh.
  assert (Hc : tabs h1 !! c = Some (Table (arr (VTab <$> ts)) None)).
  { destruct Hh as [_ [Hlt _] Hc _ _]. cbn. by rewrite lookup_insert_ne by lia. }
  rewrite Hr. change (Z.of_nat 1) with 1. rewrite run_bind, run_lua. cbn [doc].
  unfold at_value, push. cbn [stk room hp].
  change (at_ [VTab c; VTab (fresh h)] 1) with (Val (VTab (fresh h))). cbn [stk room hp Nat.add andthen].
  rewrite run_bind, (run_tpush C L (-2) c (VTab <$> ts) (VTab (fresh h))) by
    (done || (rewrite length_fmap, (handlers_length _ _ _ _ Hh); lia)).
  cbn [andthen]. rewrite run_ret. done.
Qed.

(** the part [l_pthread_cleanup_pop] always does: the newest handler comes off *)
Lemma run_cleanup_take L c ts t h hs w b (k : Z -> prog Z) :
  handlers c (ts ++ [t]) h hs ->
  rn (getcleanupstack L;; idx ← lua_gettop L; tpop L idx;; lua_remove L idx;; k idx)
    (put L (LS [VBool b] 20 h) w) =
  rn (k 2) (put L (LS [VTab t; VBool b] 19 (set_tab c (Table (arr (VTab <$> ts)) None) h)) w).
Proof.
  intros Hh. rewrite run_bind, run_getcleanupstack. cbn [andthen]. rewrite (hd_reg _ _ _ _ Hh).
  rewrite run_bind, run_lua. cbn [doc andthen stk]. change (Z.of_nat (length [VTab c; VBool b])) with 2.
  pose proof (hd_tab _ _ _ _ Hh) as Ht. rewrite fmap_app in Ht.
  rewrite run_bind, (run_tpop C L 2 c (VTab <$> ts) (VTab t) [VTab c; VBool b] 17 h w); [|done|done|exact Ht|].
  2:{ pose proof (hd_len _ _ _ _ Hh) as Hl. rewrite <- (handlers_length _ _ _ _ Hh), length_app in Hl.
    rewrite length_fmap. cbn in Hl. lia. }
  cbn [andthen]. rewrite run_bind, run_lua. done.
Qed.

Lemma run_cleanup_call L t f a b h w ok rs m h2 w2 :
  packed h t (f, a) -> (length a <= 18)%nat ->
  c_fn C L f a (put L (LS [VBool b] 20 h) w) = (Ok (ok, rs), put L (LS [VBool b] m h2) w2) ->
  (length rs < m)%nat ->
  exists n, rn (len ← tunpack L (-1); status ← lua_pcall L (len - 1);
      lua_pushboolean L status;; lua_insert L 2)
    (put L (LS [VTab t; VBool b] 19 h) w) =
  (Ok tt, put L (LS (rev rs ++ [VBool ok; VBool b]) n h2) w2).
Proof.
  intros [Hp Hl] Ha Hf Hm. cbn [fst snd] in *. exists (m - length rs - 1)%nat.
  pose proof (run_tunpack C L (f :: a) [VBool b] t (18 - length a) h w Hp Hl) as Hu.
  replace (length (f :: a) + (18 - length a))%nat with 19%nat in Hu by (cbn; lia).
  rewrite run_bind, Hu. cbn [andthen rev length]. rewrite <- app_assoc. cbn [app].
  replace (Z.of_nat (Datatypes.S (length a)) - 1) with (Z.of_nat (length a)) by lia.
  replace (1 + (18 - length a))%nat with (19 - length a)%nat by lia.
  rewrite run_bind, (run_pcall C L f a [VBool b] (19 - length a) h w ok rs m h2 w2).
  2:{ by replace (19 - length a + Datatypes.S (length a))%nat with 20%nat by lia. }
  cbn [andthen]. rewrite run_bind, run_lua. cbn [doc]. unfold push. cbn [room stk hp].
  destruct (m - length rs)%nat as [|n] eqn:E; [lia|]. cbn [andthen]. rewrite run_lua. cbn [doc].
  unfold doc_insert. cbn [stk room hp].
  assert (Hpos : pos (VBool ok :: rev rs ++ [VBool b]) 2 = Some (length rs)).
  { unfold pos. cbn [length]. rewrite length_app, length_rev. change (Pos.to_nat 2) with 2%nat.
    rewrite (proj2 (Nat.leb_le _ _)) by (cbn; lia). f_equal. cbn. lia. }
  rewrite Hpos, take_app_length', drop_app_length' by by rewrite length_rev.
  by rewrite Nat.sub_1_r.
Qed.

(** [pthread.cleanup.pop] takes off the handler pushed last.  Without [execute] it returns
    true; with it the handler is called with its arguments and its results are returned, but
    not the status that should come before them, whether the call succeeded or failed. *)
Theorem cleanup_pop L c ts t hs f a h w :
  handlers c (ts ++ [t]) h (hs ++ [(f, a)]) -> (length a <= 18)%nat ->
  let h1 := set_tab c (Table (arr (VTab <$> ts)) None) h in
  handlers c ts h1 hs /\
  executes C L l_pthread_cleanup_pop [VBool false] h w (Ok [VBool true]) (put L (idle h1) w) /\
  forall ok rs m h2 w2,
    c_fn C L f a (put L (LS [VBool true] 20 h1) w) = (Ok (ok, rs), put L (LS [VBool true] m h2) w2) ->
    (length rs < m)%nat ->
    executes C L l_pthread_cleanup_pop [VBool true] h w (Ok rs) (put L (idle h2) w2).
Proof.
  intros Hh Ha h1.
  destruct (handlers_pop _ _ _ _ _ _ Hh) as (ts' & t' & [-> [= ->]]%app_inj_2 & Hh1 & Hp & Hl); [|done].
  fold h1 in Hh1, Hp. split_all; [done|..].
  - eapply invoke_return. unfold l_pthread_cleanup_pop, frame, LUA_MINSTACK. cbn [rev app].
    rewrite run_bind, run_lua. cbn [doc]. unfold doc_toboolean, at_index. cbn [stk].
    change (at_ [VBool false] 1) with (Val (VBool false)). cbn [andthen truthy].
    rewrite (run_cleanup_take L c ts' t' h _ w false _ Hh). fold h1. lua_run. done.
  - intros ok rs m h2 w2 Hf Hm.
    destruct (run_cleanup_call L t' f a true h1 w ok rs m h2 w2) as [n Hc]; [by split|done..|].
    apply (executes_return C L _ _ _ _ rs [VBool ok; VBool true] n).
    unfold l_pthread_cleanup_pop, frame, LUA_MINSTACK. cbn [rev app].
    rewrite run_bind, run_lua. cbn [doc]. unfold doc_toboolean, at_index. cbn [stk].
    change (at_ [VBool true] 1) with (Val (VBool true)). cbn [andthen truthy].
    rewrite (run_cleanup_take L c ts' t' h _ w true _ Hh). fold h1. cbv iota.
    rewrite run_bind, Hc. cbn [andthen]. rewrite run_bind, run_lua. cbn [doc andthen stk].
    rewrite run_ret, length_app, length_rev. cbn [length].
    by replace (Z.of_nat (length rs + 2) - 2) with (Z.of_nat (length rs)) by lia.
Qed.

(** *** Running all of them *)

Section run_all.
Context (act : value -> list value -> S -> (bool * list value) * S).

(** calls that only change the state of the libraries *)
Hypothesis Hact : forall L f a w, c_fn C L f a w = (Ok (act f a (wx w)).1, set_x (act f a (wx w)).2 w).

(** call them in this order; what is left on the stack, and the state at the end *)
Fixpoint run_handlers (hs : list (value * list value)) (x : S) : list value * S :=
  match hs with
  | [] => ([], x)
  | (f, a) :: hs =>
      let '((ok, rs), x) := act f a x in
      let '(errs, x) := run_handlers hs x in
      ((if ok then [] else rs) ++ errs, x)
  end.

(** one error value each at most *)
Hypothesis Herr : forall f a x, (act f a x).1.1 = false -> (length (act f a x).1.2 <= 1)%nat.

Lemma run_handlers_loop L c ts hs h : forall idx i below n w,
  Forall2 (packed h) ts hs ->
  at_ (below) idx = Val (VTab c) -> 0 < idx ->
  (exists ts0, tabs h !! c = Some (Table (arr (VTab <$> (ts0 ++ ts))) None) /\ length ts0 = i) ->
  Forall (fun fa : value * list value => (2 + length fa.2 + length hs <= n)%nat) hs ->
  exists n', rn (for_ (length ts) (1 + Z.of_nat i) (fun i =>
      lua_rawgeti L idx i;; len ← tunpack L (-1); lua_pcall_none L (len - 1);; mret tt))
    (put L (LS below n h) w) =
  (Ok tt, put L (LS (rev (run_handlers hs (wx w)).1 ++ below) n' h)
    (set_x (run_handlers hs (wx w)).2 w)).
Proof.
  intros idx i below n w Hall. revert i below n w.
  induction Hall as [|t [f a] ts hs Hp Hall IH]; intros i below n w Ha Hi (ts0 & Hc & Hlen) Hn.
  - exists n. cbn. by destruct w.
  - cbn [length for_ run_handlers]. apply Forall_cons_iff in Hn as [Hn Hns]. cbn [fst snd length] in Hn.
    assert (Hget : raw_get (KInt (1 + Z.of_nat i)) (Table (arr (VTab <$> (ts0 ++ t :: ts))) None) = VTab t).
    { rewrite Z.add_comm. apply raw_get_arr. rewrite list_lookup_fmap, list_lookup_middle by done. done. }
    rewrite run_bind, run_bind, run_lua. cbn [doc]. unfold doc_rawget, at_value, get_tab. cbn [stk hp].
    rewrite Ha. cbv beta iota. cbn [hp]. rewrite Hc. unfold push. cbn [room stk hp]. rewrite Hget.
    destruct n as [|n]; [lia|]. cbn [andthen].
    destruct Hp as [Hp Hl]. cbn [fst snd] in Hp, Hl.
    pose proof (run_tunpack C L (f :: a) below t (n - Datatypes.S (length a)) h w Hp Hl) as Hu.
    replace (length (f :: a) + (n - Datatypes.S (length a)))%nat with n in Hu by (cbn; lia).
    rewrite run_bind, Hu. cbn [andthen rev length]. rewrite <- app_assoc. cbn [app].
    replace (Z.of_nat (Datatypes.S (length a)) - 1) with (Z.of_nat (length a)) by lia.
    pose proof (Hact L f a (put L (LS below (1 + (n - Datatypes.S (length a)) + Datatypes.S (length a)) h) w)) as Hf.
    rewrite set_x_put in Hf. cbn [wx put] in Hf. pose proof (Herr f a (wx w)) as Herr1.
    destruct (act f a (wx w)) as [[ok rs] x]. cbn [fst snd] in Hf, Herr1.
    rewrite run_bind, (run_pcall_none _ _ _ _ _ _ _ _ _ _ _ _ _ Hf). cbn [andthen]. rewrite run_ret. cbn [andthen].
    set (vs := if ok then [] else rs) in *.
    assert (Hvs : (length vs <= 1)%nat) by (subst vs; destruct ok; [cbn; lia|by apply Herr1]).
    replace (1 + Z.of_nat i + 1) with (1 + Z.of_nat (1 + i)) by lia.
    edestruct (IH (1 + i)%nat (rev vs ++ below)
      (1 + (n - Datatypes.S (length a)) + Datatypes.S (length a) - length vs)%nat (set_x x w)) as [n' Hr].
    + by apply at_app.
    + done.
    + exists (ts0 ++ [t]). rewrite <- app_assoc, length_app. cbn. split; [done|lia].
    + eapply list.Forall_impl; [exact Hns|]. cbn. intros fa. lia.
    + exists n'. cbn [wx set_x] in Hr. rewrite Hr. destruct (run_handlers hs x) as [errs x'].
      cbn [fst snd]. rewrite rev_app_distr, <- app_assoc. done.
Qed.

(** C38. When a thread is cancelled, its handlers are all called, each with its arguments, in the
    order in which they were pushed (the oldest first); errors in them are ignored, and at the
    end the state of the thread is closed. *)
Theorem cleanup_order L c ts hs h w :
  handlers c ts h hs ->
  Forall (fun fa : value * list value => (2 + length fa.2 + length hs <= 19)%nat) hs ->
  closable (LS [] 20 h) = true -> wl w !! L = None ->
  yields C (thread_cleanup L) (put L (idle h) w) (Ok tt) (set_x (run_handlers hs (wx w)).2 w).
Proof.
  intros Hh Hn Hcl Hw. apply yields_intro; [|done]. unfold thread_cleanup, idle, LUA_MINSTACK.
  rewrite run_bind, run_getcleanupstack. cbn [andthen]. rewrite (hd_reg _ _ _ _ Hh).
  rewrite run_bind, run_lua. cbn [doc andthen stk].
  rewrite run_bind, run_lua. cbn [doc]. unfold doc_len, at_value, get_tab. cbn [stk hp].
  change (at_ [VTab c] (-1)) with (Val (VTab c)). cbv beta iota. cbn [hp].
  rewrite (hd_tab _ _ _ _ Hh). cbn [tmeta].
  rewrite seq_len_arr, length_fmap. cbn [andthen].
  pose proof (handlers_length _ _ _ _ Hh) as Hl. pose proof (hd_len _ _ _ _ Hh).
  rewrite to_int_small, Nat2Z.id by lia.
  destruct (run_handlers_loop L c ts hs h 1 0%nat [VTab c] 19 w (hd_all _ _ _ _ Hh)) as [n' Hr];
    [done|done|by exists []; split; [apply Hh|]|done|].
  change (Z.of_nat (length [VTab c])) with 1. change (1 + Z.of_nat 0) with 1 in Hr.
  rewrite run_bind, Hr. cbn [andthen]. rewrite run_trigger. cbn [step]. rewrite wl_put.
  cbn [h_closable documented]. unfold closable in *. cbn [hp] in *. rewrite Hcl.
  unfold put, set_wl, set_x; cbn. by rewrite delete_insert_id.
Qed.
End run_all.
End cleanup.

(** ** Running and ending *)

Section ending.
Context `{Consts} `{Cpusets} `{LuaSem} {S : Type} `{Libc S} (C : clib S).
Implicit Types (w : world S lstate) (L l : nat) (vs : list value) (h : heap).
Abbreviation rn := (run (documented C)).

(** the library knows whether [thread_cleanup] is pushed, and at the end of the thread
    runs it if so *)
Context (lib : string -> list carg -> S -> cret * S) (pushed : S -> bool).
Hypothesis Hlib : external C ["pthread_cleanup_push"; "pthread_cleanup_pop"; "pthread_exit"] lib.
Hypothesis Hpush : forall args s, pushed (lib "pthread_cleanup_push" args s).2 = true.
Hypothesis Hpop : forall args s, pushed (lib "pthread_cleanup_pop" args s).2 = false.
Hypothesis Hexit : forall args s, rc (lib "pthread_exit" args s).1 = if pushed s then 1 else 0.

(** the heap of a thread that starts: its stack of handlers is empty *)
Definition thread_heap h : heap :=
  set_reg (inr "getcleanupstack") (VTab (fresh h)) (alloc_tab (Table ∅ None) h).

Lemma thread_heap_handlers h : handlers (fresh h) [] (thread_heap h) [].
Proof.
  split; [|cbn; split; [lia|constructor]| |constructor|cbn; lia].
  - unfold reg_get, thread_heap. cbn. by rewrite lookup_insert_eq.
  - unfold thread_heap. cbn. by rewrite lookup_insert_eq.
Qed.

Lemma run_exit_popped {A} L s w :
  pushed (wx w) = false ->
  exists w', wl w' = wl w /\ wm w' = wm w /\
    rn (pthread_exit (A := A) L) (put L s w) = (Halt (ThreadExit L), put L s w').
Proof.
  intros Hp. eexists. split_all; cycle 2.
  - unfold pthread_exit. rewrite run_bind, (run_external C _ lib) by (done || cbn; auto). cbn [andthen].
    rewrite Hexit, Hp. cbn [Z.eqb]. rewrite run_bind, run_ret. cbn [andthen]. by rewrite run_halt.
  - done.
  - done.
Qed.

(** C4. A started thread calls its function with the arguments that were copied; when the call
    ends, the thread ends, and its state, which stays open, holds whether the call succeeded
    and then everything it returned (or the error value). *)
Theorem thread_runs L f vs n h w ok rs m h1 w1 :
  let w0 := set_x (lib "pthread_cleanup_push" [AS "thread_cleanup"; AZ (state_ptr L)] (wx w)).2 w in
  (0 < n)%nat ->
  c_fn C L f vs (put L (LS [] (n + Datatypes.S (length vs)) (thread_heap h)) w0) =
    (Ok (ok, rs), put L (LS [] m h1) w1) ->
  (length rs < m)%nat ->
  handlers (fresh h) [] (thread_heap h) [] /\ pushed (wx w0) = true /\
  exists n' w2, wl w2 = wl w1 /\ wm w2 = wm w1 /\
    yields C (A := unit) (thread_wrapper L) (put L (LS (rev (f :: vs)) n h) w)
      (Halt (ThreadExit L)) (put L (LS (rev (VBool ok :: rs)) n' h1) w2).
Proof.
  intros w0 Hn Hf Hm. split_all; [apply thread_heap_handlers|apply Hpush|].
  set (w2 := set_x (lib "pthread_cleanup_pop" [AZ 0] (wx w1)).2 w1).
  destruct (run_exit_popped (A := unit) L (LS (rev (VBool ok :: rs)) (m - length rs - 1) h1) w2)
    as (w3 & Hl & Hmem & Hx); [apply Hpop|].
  exists (m - length rs - 1)%nat, w3. split_all; [done..|]. apply yields_intro; [|done].
  unfold thread_wrapper. rewrite run_bind, run_lua. cbn [doc andthen stk]. rewrite length_rev.
  cbn [length]. replace (Z.of_nat (Datatypes.S (length vs)) - 1) with (Z.of_nat (length vs)) by lia.
  destruct n as [|n]; [lia|].
  assert (Hinit : rn (initcleanupstack L) (put L (LS (rev (f :: vs)) (Datatypes.S n) h) w) =
    (Ok tt, put L (LS (rev (f :: vs)) (Datatypes.S n) (thread_heap h)) w)).
  { unfold initcleanupstack. lua_run. done. }
  rewrite run_bind, Hinit. cbn [andthen].
  rewrite run_bind, (run_external C _ lib) by (done || cbn; auto). cbn [andthen]. fold w0.
  rewrite run_bind. cbn [rev]. rewrite (run_pcall C L f vs [] (Datatypes.S n) _ w0 ok rs m h1 w1 Hf).
  cbn [andthen]. unfold thread_kfunction.
  rewrite run_bind, (run_external C _ lib) by (done || cbn; auto). cbn [andthen]. fold w2.
  rewrite app_nil_r, run_bind, run_lua. cbn [doc]. unfold push. cbn [room stk hp].
  destruct (m - length rs)%nat as [|k] eqn:E; [lia|]. cbn [andthen].
  rewrite run_bind, run_lua. cbn [doc]. unfold doc_insert. cbn [stk room hp].
  assert (Hpos : pos (VBool ok :: rev rs) 1 = Some (length rs)).
  { unfold pos. cbn [length]. rewrite length_rev. change (Pos.to_nat 1) with 1%nat.
    rewrite (proj2 (Nat.leb_le _ _)) by lia. f_equal. lia. }
  rewrite Hpos, take_ge, drop_ge by (by rewrite length_rev). cbn [andthen].
  cbn [rev] in Hx. rewrite !Nat.sub_1_r in *. exact Hx.
Qed.

End ending.

(** ** Joining *)

Lemma ptr_state_ptr l : ptr_state (state_ptr l) = l.
Proof. unfold ptr_state, state_ptr. lia. Qed.

Section joining.
Context `{Consts} `{Cpusets} `{LuaSem} {S : Type} `{Libc S} (C : clib S).
Context (L : nat) (args : list value) (h : heap) (w : world S lstate) (p c t : Z).
Abbreviation rn := (run (documented C)).

(** the receiver is a thread [t] *)
Hypothesis Hh : handle (rev args) h 1 PTHREAD_METATABLE p.
Hypothesis Hp : p ≠ 0.
Hypothesis Ht : wm w !! p = Some (ORc c (BThread t)).

(** the library reports how the thread ended; other threads did what they did meanwhile *)
Context (r : cret) (w1 : world S lstate).
Hypothesis Hjoin :
  c_call C "pthread_join" [AZ t] (put L (frame args h) w) = (Ok r, put L (frame args h) w1).

Lemma run_join :
  rn (l_pthread_join L) (put L (frame args h) w) =
  rn (if negb (rc r =? 0) then fail L (rc r)
      else if out_int 0 r =? cst "PTHREAD_CANCELED" then canceled L
      else take_results L (ptr_state (out_int 0 r)) true) (put L (frame args h) w1).
Proof.
  unfold l_pthread_join. rewrite run_bind, (run_checkcookie_frame C L 1 _ p) by done. cbn [andthen].
  rewrite run_bind, (run_read C p thread_load _ t _ _ _ Ht eq_refl). cbn [andthen].
  rewrite run_bind, run_call, Hjoin. done.
Qed.

(** Joining a thread that cannot be joined returns nil and the error; joining a cancelled
    thread returns false and "canceled". *)
Theorem join_fails :
  (rc r ≠ 0 -> executes C L l_pthread_join args h w (Ok (results (rc r))) (put L (idle h) w1)) /\
  (rc r = 0 -> out_int 0 r = cst "PTHREAD_CANCELED" ->
   executes C L l_pthread_join args h w (Ok [VBool false; VStr "canceled"]) (put L (idle h) w1)).
Proof.
  split.
  - intros Hr. apply (executes_return C L _ _ _ _ _ (rev args) 17). rewrite run_join.
    unfold results. destruct (Z.eqb_spec (rc r) 0); [done|]. cbn [negb].
    unfold frame, LUA_MINSTACK. by rewrite (run_fail C L (rc r) (rev args) 17).
  - intros Hr Ho. eapply (executes_return C L _ _ _ _ [_; _]). rewrite run_join, Hr, Ho, !Z.eqb_refl.
    cbn [negb Z.eqb]. unfold canceled, frame, LUA_MINSTACK. lua_run. done.
Qed.

(** C5. Joining a thread that ended returns what its state holds (the status, then the results),
    copied in order into the joining state, and closes the thread's state; if something there
    cannot be copied an error is raised, and the state is closed as well. *)
Theorem join_results l rs n hl d x :
  rc r = 0 -> out_int 0 r = state_ptr l -> state_ptr l ≠ cst "PTHREAD_CANCELED" -> l ≠ L ->
  wl w1 !! l = Some (LS (rev rs) n hl) -> closable (LS (rev rs) n hl) = true ->
  (0 < length rs)%nat -> few_upvalues hl -> (d < COPY_DEPTH)%nat -> (need_src d <= n)%nat ->
  (need_dst d + length rs <= LUA_MINSTACK)%nat -> copy_values d hl rs h = Some x ->
  match x with
  | inl (rs', h') => length rs' = length rs /\
      executes C L l_pthread_join args h w (Ok rs') (put L (idle h') (shut l w1))
  | inr i => exists h', kept h h' /\
      executes C L l_pthread_join args h w
        (Halt (Raise (EMsg "thread returned a non-serializable value"))) (put L (idle h') (shut l w1))
  end.
Proof.
  intros Hr Ho Hnc Hne Hl Hcl Hpos Hfew Hd Hsrc Hdst Hc.
  assert (Hj : rn (l_pthread_join L) (put L (frame args h) w) =
    rn (take_results L l true) (put l (LS (rev rs) n hl) (put L (LS (rev args) 20 h) w1))).
  { rewrite run_join, Hr, Ho, ptr_state_ptr. destruct (Z.eqb_spec (state_ptr l) (cst "PTHREAD_CANCELED")); [done|].
    cbn [negb Z.eqb]. f_equal. symmetry. apply put_id. cbn. by rewrite lookup_insert_ne. }
  assert (Hat : forall i v, rs !! i = Some v -> at_ (rev rs) (1 + Z.of_nat i) = Val v).
  { intros i v Hv. apply at_frame; [lia|]. by replace (Z.to_nat (1 + Z.of_nat i - 1)) with i by lia. }
  pose proof (run_copyn C l L Hne d 31 1 rs (rev rs) n hl (rev args) 20 h x w1 Hfew
    ltac:(unfold COPY_DEPTH in Hd; lia) ltac:(lia) Hat Hc Hsrc Hdst) as Hcopy.
  cbn zeta in Hcopy. change (Datatypes.S 31) with COPY_DEPTH in Hcopy.
  unfold take_results in Hj. rewrite run_bind, run_lua in Hj. cbn [doc andthen stk] in Hj.
  rewrite length_rev, (proj2 (Z.ltb_lt 0 _)) in Hj by lia. rewrite run_bind in Hj.
  assert (Hclose : forall s xs m A (k : prog A),
    rn (lua_close l;; k) (put l (LS (xs ++ rev rs) m hl) (put L s w1)) = rn k (put L s (shut l w1))).
  { intros s xs m A k. rewrite run_bind, put_comm by done.
    rewrite (run_close C L l _ (LS (xs ++ rev rs) m hl)) by (done || apply wl_put). cbn [andthen].
    by rewrite shut_put. }
  destruct x as [[rs' h']|i].
  - assert (Hlen : length rs' = length rs) by by eapply copy_values_length.
    split; [done|]. rewrite Hcopy in Hj. cbn [andthen negb Z.eqb] in Hj.
    apply (executes_return C L _ _ _ _ rs' (rev args) (20 - length rs)). rewrite Hj.
    rewrite (Hclose _ [] n). by rewrite run_ret, Hlen.
  - destruct Hcopy as (xL & mL & xl & ml & h' & Hk & Hcopy). exists h'. split; [done|].
    rewrite Hcopy in Hj. cbn [andthen] in Hj. destruct (Z.eqb_spec (1 + Z.of_nat i) 0); [lia|].
    cbn [negb] in Hj. eapply executes_halt; [|done]. rewrite Hj, Hclose. by rewrite run_lua_halts.
Qed.

(** joining when the thread closed its own state *)
Lemma join_closed l :
  rc r = 0 -> out_int 0 r = state_ptr l -> state_ptr l ≠ cst "PTHREAD_CANCELED" -> l ≠ L ->
  wl w1 !! l = None ->
  (rn (l_pthread_join L) (put L (frame args h) w)).1 = Halt (UB "use of a closed Lua state").
Proof.
  intros Hr Ho Hnc Hne Hl. rewrite run_join, Hr, Ho, ptr_state_ptr.
  destruct (Z.eqb_spec (state_ptr l) (cst "PTHREAD_CANCELED")); [done|]. cbn [negb Z.eqb].
  unfold take_results. rewrite run_bind, run_trigger. cbn [step put wl].
  by rewrite lookup_insert_ne, Hl.
Qed.
End joining.

Section exiting.
Context `{Consts} `{Cpusets} `{LuaSem} {S : Type} `{Libc S} (C : clib S).
Abbreviation rn := (run (documented C)).

(** [pthread.exit] in a thread made by [pthread.create], where [thread_cleanup] is still
    pushed, has the library run it: the state is closed although its values are the thread's
    result, and the thread that joins it then uses a closed state. *)
Theorem exit_closes_state lib l args hl (w : world S lstate) c :
  external C ["pthread_exit"] lib ->
  rc (lib "pthread_exit" [AZ (state_ptr l)] (wx w)).1 = 1 ->
  handlers c [] hl [] -> closable (frame args hl) = true ->
  exists w', wl w' !! l = None /\
    yields C (A := Z) (l_pthread_exit l) (put l (frame args hl) w) (Halt (ThreadExit l)) w' /\
    forall L jargs h w1 p n t r w2,
      handle (rev jargs) h 1 PTHREAD_METATABLE p -> p ≠ 0 ->
      wm w1 !! p = Some (ORc n (BThread t)) ->
      c_call C "pthread_join" [AZ t] (put L (frame jargs h) w1) = (Ok r, put L (frame jargs h) w2) ->
      rc r = 0 -> out_int 0 r = state_ptr l -> state_ptr l ≠ cst "PTHREAD_CANCELED" -> l ≠ L ->
      wl w2 !! l = None ->
      (rn (l_pthread_join L) (put L (frame jargs h) w1)).1 = Halt (UB "use of a closed Lua state").
Proof.
  intros He Hr Hh Hcl. set (w0 := set_x (lib "pthread_exit" [AZ (state_ptr l)] (wx w)).2 w).
  exists (shut l w0). split_all; [cbn; apply lookup_delete_eq| |].
  - apply yields_intro; [|done]. unfold l_pthread_exit, frame, LUA_MINSTACK.
    rewrite run_bind, run_lua. cbn [doc push room stk hp andthen].
    rewrite run_bind, run_lua. cbn [doc]. unfold doc_insert. cbn [stk room hp].
    assert (Hpos : pos (VBool true :: rev args) 1 = Some (length args)).
    { unfold pos. cbn [length]. rewrite length_rev. change (Pos.to_nat 1) with 1%nat.
      rewrite (proj2 (Nat.leb_le _ _)) by lia. f_equal. lia. }
    rewrite Hpos. cbn [andthen]. unfold pthread_exit.
    rewrite run_bind, (run_external C _ lib) by (done || cbn; auto). cbn [andthen]. rewrite Hr. fold w0.
    cbn [Z.eqb Pos.eqb]. rewrite run_bind. unfold thread_cleanup.
    set (vs := take _ _ ++ _).
    rewrite run_bind, (run_getcleanupstack C l vs 18 hl w0). cbn [andthen]. rewrite (hd_reg _ _ _ _ Hh).
    rewrite run_bind, run_lua. cbn [doc andthen stk].
    rewrite run_bind, run_lua. cbn [doc]. unfold doc_len, at_value, get_tab. cbn [stk hp].
    change (at_ (VTab c :: vs) (-1)) with (Val (VTab c)). cbv beta iota. cbn [hp].
    rewrite (hd_tab _ _ _ _ Hh). cbn [tmeta fmap list_fmap]. rewrite seq_len_arr. cbn [andthen length].
    change (Z.to_nat (to_int (Z.of_nat 0))) with 0%nat. cbn [for_]. rewrite run_bind, run_ret. cbn [andthen].
    rewrite run_trigger. cbn [step]. rewrite wl_put. cbn [h_closable documented].
    unfold closable in *. cbn [hp frame] in *. rewrite Hcl. cbn [andthen]. rewrite run_halt.
    f_equal. apply (shut_put l).
  - intros L jargs h w1 p n t r w2 Hj Hp Ht Hc Hr0 Ho Hnc Hne Hl. by eapply join_closed.
Qed.
End exiting.

(** ** Once *)

Section once.
Context `{Consts} `{Cpusets} `{LuaSem} {S : Type} `{Libc S} (C : clib S).
Context (L : nat) (o : value) (args : list value) (h : heap) (w w1 : world S lstate) (p : Z) (r : cret).
Abbreviation rn := (run (documented C)).

Hypothesis Hh : handle (rev (o :: args)) h 1 PTHREAD_ONCE_METATABLE p.
Hypothesis Hp : p ≠ 0.
Hypothesis Hcall : c_call C "pthread_once" [AZ p; AS "once_wrapper"] (put L (frame (o :: args) h) w) =
  (Ok r, put L (frame (o :: args) h) w1).

(** [once(func, ...)] has the once object itself called with [func] and the arguments, not
    [func]; it fails an assertion when that call gives fewer results than there were
    arguments, and always when the control has been used already. *)
Theorem once_call_aborts :
  rc r = 0 ->
  (out_int 0 r = 0 ->
   executes C L l_pthread_once_call (o :: args) h w (Halt (Aborted "nresults > 0")) (put L (idle h) w1)) /\
  (out_int 0 r = 1 -> forall lib ok rs m h2 w2,
   external C ["pthread_getspecific"] lib ->
   lib "pthread_getspecific" [AS "thread_state_key"] (wx w1) = (Cret (state_ptr L) [], wx w1) ->
   c_fn C L o args (put L (LS [] (LUA_MINSTACK + Datatypes.S (length args)) h) w1) =
     (Ok (ok, rs), put L (LS [] m h2) w2) ->
   (length rs < m)%nat -> (length rs <= length args)%nat ->
   executes C L l_pthread_once_call (o :: args) h w (Halt (Aborted "nresults > 0")) (put L (idle h2) w2)).
Proof.
  intros Hr.
  assert (Hs : rn (l_pthread_once_call L) (put L (frame (o :: args) h) w) =
    rn ((if out_int 0 r =? 1 then once_wrapper else mret tt);;
        top' ← lua_gettop L;
        let nresults := top' - Z.of_nat (Datatypes.S (length args)) in
        assert_ (0 <? nresults) "nresults > 0";;
        lua_insert L (Z.of_nat (Datatypes.S (length args)) + 1);;
        mret nresults) (put L (frame (o :: args) h) w1)).
  { unfold l_pthread_once_call. rewrite run_bind, (run_checkcookie_frame C L 1 _ p) by done. cbn [andthen].
    rewrite run_bind, run_lua. cbn [doc andthen stk frame]. rewrite length_rev. cbn [length].
    rewrite run_bind, run_call, Hcall. cbn [andthen]. by rewrite Hr. }
  split.
  - intros Ho. eapply executes_halt; [|done]. rewrite Hs, Ho. cbn [Z.eqb].
    rewrite run_bind, run_ret. cbn [andthen]. rewrite run_bind, run_lua. cbn [doc andthen stk frame].
    rewrite length_rev. cbn [length]. rewrite Z.sub_diag. done.
  - intros Ho lib ok rs m h2 w2 He Hg Hf Hm Hlen.
    apply (executes_halt C L _ _ _ _ _ (VBool ok :: rev rs) (m - length rs - 1)); [|done]. rewrite Hs, Ho.
    cbn [Z.eqb Pos.eqb]. rewrite run_bind. unfold once_wrapper.
    rewrite run_bind, (run_external C _ lib) by (done || cbn; auto). rewrite Hg. cbn [andthen rc fst snd].
    destruct (Z.eqb_spec (state_ptr L) 0); [unfold state_ptr in *; lia|]. cbn [negb].
    rewrite ptr_state_ptr, run_bind. unfold frame.
    replace (set_x (wx w1) w1) with w1 by by destruct w1. rewrite run_lua. cbn [doc andthen stk].
    rewrite length_rev. cbn [length].
    replace (Z.of_nat (Datatypes.S (length args)) - 1) with (Z.of_nat (length args)) by lia.
    rewrite run_bind. cbn [rev].
    rewrite (run_pcall C L o args [] LUA_MINSTACK h w1 ok rs m h2 w2 Hf). cbn [andthen].
    rewrite app_nil_r, run_lua. cbn [doc]. unfold push. cbn [room stk hp].
    destruct (m - length rs)%nat as [|k] eqn:E; [lia|]. cbn [andthen].
    rewrite run_bind, run_lua. cbn [doc andthen stk length]. rewrite length_rev.
    destruct (Z.ltb_spec 0 (Z.of_nat (Datatypes.S (length rs)) - Z.of_nat (Datatypes.S (length args)))); [lia|].
    by rewrite Nat.sub_1_r.
Qed.
End once.

(** ** Witnesses *)

(** a library whose state tells whether [thread_cleanup] is pushed *)
Definition life_lib (fn : string) (args : list carg) (s : Z) : cret * Z :=
  if String.eqb fn "pthread_cleanup_push" then (Cret 0 [], 1)
  else if String.eqb fn "pthread_cleanup_pop" then (Cret 0 [], 0)
  else if String.eqb fn "pthread_exit" then (Cret (if s =? 1 then 1 else 0) [], s)
  else if String.eqb fn "pthread_join" then (Cret 0 [AZ (state_ptr 7)], s)
  else if String.eqb fn "pthread_create" then (Cret 0 [AZ 77], s)
  else if String.eqb fn "pthread_getspecific" then (Cret (state_ptr 0) [], s)
  else if String.eqb fn "pthread_once" then (Cret 0 [AZ 1], s)
  else (Cret 0 [], s).

(** functions return their arguments *)
Definition life_clib : clib Z := {|
  c_call := fun fn args w => (Ok (life_lib fn args (wx w)).1, set_x (life_lib fn args (wx w)).2 w);
  c_fn := fun _ _ args w => (Ok (true, args), w) |}.

Lemma life_external fns : external life_clib fns life_lib.
Proof. by intros fn args w _. Qed.

(** function 1 of the copying example, a thread type and a thread at 512 *)
Definition life_heap : heap :=
  Heap {[ 0%nat := Table ∅ None; 3%nat := Table ∅ None ]} (funs copy_heap)
    {[ 4%nat := Udata (Some 3%nat) [VLud 512] 0 ]}
    {[ inl PTHREAD_METATABLE := VTab 3; inl PTHREAD_ONCE_METATABLE := VTab 3 ]} 0 10.

Definition life_args : list value := [VFun 1; VInt 3].
Definition bad_args : list value := [VFun 1; VInt 3; VTab 3].

Lemma life_libs_taken : funs_taken libs_heap.
Proof. by intros f s. Qed.

Definition quiet_lib : string -> list carg -> Z -> cret * Z := fun _ _ s => (Cret 0 [], s).

Lemma create_refused_witness :
  executes (sample_clib []) 0 l_pthread_create bad_args life_heap (sample_world ∅)
    (Halt (Raise (EArg 3 "non-serializable value")))
    (put 0%nat (idle life_heap)
      (attr_x quiet_lib "pthread_attr_destroy" (shut 10 (state_world (sample_world ∅) quiet_lib)))).
Proof.
  apply (create_refused (sample_clib []) 0 1 [VInt 3; VTab 3] life_heap (sample_world ∅) quiet_lib 1
    (sample_external _) (fun _ _ _ => eq_refl) ltac:(done) eq_refl copy_heap_few) with (i := 2%nat);
    [by apply Nat.leb_le|by apply Nat.leb_le|by apply Nat.leb_le|reflexivity|exact life_libs_taken|reflexivity].
Defined.

(** the second allocation fails *)
Definition half_oom_world : world Z lstate := World ∅ 10 ∅ 4096 (fun _ p => p =? 4097) 0.

Lemma create_nomem_witness :
  (run (documented (sample_clib [])) (l_pthread_create 0)
    (put 0%nat (frame life_args life_heap) half_oom_world)).1 = Halt (UB "use of a closed Lua state").
Proof.
  eapply (create_nomem (sample_clib []) 0 1 [VInt 3] life_heap half_oom_world quiet_lib 1
    (sample_external _) (fun _ _ _ => eq_refl) ltac:(done) eq_refl copy_heap_few);
    [by apply Nat.leb_le|by apply Nat.leb_le|by apply Nat.leb_le|reflexivity|reflexivity|reflexivity].
Defined.

Lemma life_attr : external life_clib ["pthread_attr_init"; "pthread_attr_destroy"] quiet_lib.
Proof. intros fn args w [<-|[<-|[]]]; reflexivity. Qed.

Lemma create_thread_witness :
  exists vs' hl, copy_values 1 life_heap life_args libs_heap = Some (inl (vs', hl)) /\
    let w1 := start_world 1 [VInt 3] (sample_world ∅) quiet_lib vs' hl in
    length vs' = 2%nat /\
    executes life_clib 0 l_pthread_create life_args life_heap (sample_world ∅) (Ok [VUd 10])
      (put 0%nat (idle (alloc_handle 3 4097 life_heap))
        (attr_x quiet_lib "pthread_attr_destroy" (poke 4097 (ORc 1 (BThread 77)) w1))).
Proof.
  eexists _, _. split; [reflexivity|]. intros w1.
  refine (create_thread life_clib 0 1 [VInt 3] life_heap (sample_world ∅) quiet_lib 1 life_attr
    (fun _ _ _ => eq_refl) _ eq_refl copy_heap_few _ _ _ _ _ 3 (Cret 0 [AZ 77])
    (LS _ 18 _) w1 eq_refl eq_refl _ eq_refl _ eq_refl eq_refl eq_refl);
    [done|by apply Nat.leb_le|by apply Nat.leb_le|by apply Nat.leb_le|done|reflexivity].
Defined.

Definition handlers_heap : heap :=
  Heap {[ 0%nat := Table ∅ None; 3%nat := Table (arr [VTab 5; VTab 6]) None;
          5%nat := Table (arr [VFun 1; VInt 1]) None; 6%nat := Table (arr [VFun 2]) None ]}
    (funs copy_heap) ∅ {[ inr "getcleanupstack" := VTab 3 ]} 0 10.

Lemma handlers_heap_ok : handlers 3 [5%nat; 6%nat] handlers_heap [(VFun 1, [VInt 1]); (VFun 2, [])].
Proof.
  split; [reflexivity|cbn; split; [lia|repeat constructor; done || lia]|reflexivity| |done].
  repeat constructor.
Qed.

Lemma cleanup_push_witness :
  exists h', handlers 3 [5%nat; 6%nat; 10%nat] h' [(VFun 1, [VInt 1]); (VFun 2, []); (VFun 7, [VInt 8])] /\
    executes life_clib 0 l_pthread_cleanup_push [VFun 7; VInt 8] handlers_heap (sample_world ∅) (Ok [])
      (put 0%nat (idle h') (sample_world ∅)).
Proof.
  apply (cleanup_push life_clib 0 3 [5%nat; 6%nat] [(VFun 1, [VInt 1]); (VFun 2, [])] (VFun 7) [VInt 8]
    handlers_heap (sample_world ∅) handlers_heap_ok); [repeat constructor; done|done|done].
Defined.

Lemma cleanup_pop_witness :
  let h1 := set_tab 3 (Table (arr [VTab 5]) None) handlers_heap in
  handlers 3 [5%nat] h1 [(VFun 1, [VInt 1])] /\
  executes life_clib 0 l_pthread_cleanup_pop [VBool false] handlers_heap (sample_world ∅) (Ok [VBool true])
    (put 0%nat (idle h1) (sample_world ∅)) /\
  executes life_clib 0 l_pthread_cleanup_pop [VBool true] handlers_heap (sample_world ∅) (Ok [])
    (put 0%nat (idle h1) (sample_world ∅)).
Proof.
  intros h1.
  destruct (cleanup_pop life_clib 0 3 [5%nat] 6 [(VFun 1, [VInt 1])] (VFun 2) [] handlers_heap
    (sample_world ∅) handlers_heap_ok (Nat.le_0_l 18)) as (H1 & H2 & H3).
  split; [exact H1|]. split; [exact H2|].
  apply (H3 true [] 20%nat h1 (sample_world ∅)); [reflexivity|cbn; lia].
Defined.

Lemma cleanup_order_witness :
  yields life_clib (thread_cleanup 0) (put 0%nat (idle handlers_heap) (sample_world ∅)) (Ok tt)
    (set_x (run_handlers (fun f a x => ((true, a), x)) [(VFun 1, [VInt 1]); (VFun 2, [])] 0).2
      (sample_world ∅)).
Proof.
  apply (cleanup_order life_clib (fun f a x => ((true, a), x))
    ltac:(by intros L f a []) ltac:(done) 0 3 [5%nat; 6%nat] [(VFun 1, [VInt 1]); (VFun 2, [])]
    handlers_heap (sample_world ∅) handlers_heap_ok); [|reflexivity|reflexivity].
  repeat constructor; cbn; lia.
Defined.

Lemma thread_runs_witness :
  exists n' w2, wl w2 = wl (sample_world ∅) /\ wm w2 = wm (sample_world ∅) /\
    yields life_clib (A := unit) (thread_wrapper 7)
      (put 7%nat (LS (rev life_args) 18 life_heap) (sample_world ∅))
      (Halt (ThreadExit 7)) (put 7%nat (LS (rev [VBool true; VInt 3]) n' (thread_heap life_heap)) w2).
Proof.
  destruct (thread_runs life_clib life_lib (fun s => s =? 1) (life_external _)
    (fun _ _ => eq_refl) (fun _ _ => eq_refl) (fun _ s => eq_refl) 7 (VFun 1) [VInt 3] 18 life_heap
    (sample_world ∅) true [VInt 3] 20 (thread_heap life_heap) (set_x 1 (sample_world ∅))
    ltac:(lia) eq_refl ltac:(cbn; lia)) as (_ & _ & n' & w2 & Hl & Hm & Hy).
  by exists n', w2.
Defined.

(** a thread that calls [pthread.exit] with 5 *)
Definition exit_heap : heap := thread_heap (hp new_lstate).

Lemma exit_closes_state_witness :
  exists w', wl w' !! 7%nat = None /\
    yields life_clib (A := Z) (l_pthread_exit 7) (put 7%nat (frame [VInt 5] exit_heap)
      (set_x 1 (sample_world ∅))) (Halt (ThreadExit 7)) w' /\
    (run (documented life_clib) (l_pthread_join 0)
      (put 0%nat (frame [VUd 4] life_heap) (sample_world {[ 512 := ORc 1 (BThread 77) ]}))).1 =
    Halt (UB "use of a closed Lua state").
Proof.
  destruct (exit_closes_state life_clib life_lib 7 [VInt 5] exit_heap (set_x 1 (sample_world ∅)) 1
    (life_external _) eq_refl (thread_heap_handlers (hp new_lstate)) eq_refl) as (w' & Hl & Hy & Hj).
  exists w'. split; [exact Hl|]. split; [exact Hy|].
  refine (Hj 0%nat [VUd 4] life_heap (sample_world {[ 512 := ORc 1 (BThread 77) ]}) 512 1 77
    (Cret 0 [AZ (state_ptr 7)]) (sample_world {[ 512 := ORc 1 (BThread 77) ]}) _ _ _ _ _ _ _ _ _); try done.
  by exists 4%nat, (Udata (Some 3%nat) [VLud 512] 0).
Defined.

Lemma join_fails_witness :
  executes (sample_clib [("pthread_join", (Cret 11 [], 0))]) 0 l_pthread_join [VUd 4] life_heap
    (sample_world {[ 512 := ORc 1 (BThread 77) ]}) (Ok (results (S := Z) 11))
    (put 0%nat (idle life_heap) (sample_world {[ 512 := ORc 1 (BThread 77) ]})) /\
  executes (sample_clib [("pthread_join", (Cret 0 [AZ 1], 0))]) 0 l_pthread_join [VUd 4] life_heap
    (sample_world {[ 512 := ORc 1 (BThread 77) ]}) (Ok [VBool false; VStr "canceled"])
    (put 0%nat (idle life_heap) (sample_world {[ 512 := ORc 1 (BThread 77) ]})).
Proof.
  split.
  - refine (proj1 (join_fails (sample_clib [("pthread_join", (Cret 11 [], 0))]) 0 [VUd 4] life_heap
      (sample_world {[ 512 := ORc 1 (BThread 77) ]}) 512 1 77 _ _ _ (Cret 11 [])
      (sample_world {[ 512 := ORc 1 (BThread 77) ]}) _) _); try done.
    by exists 4%nat, (Udata (Some 3%nat) [VLud 512] 0).
  - refine (proj2 (join_fails (sample_clib [("pthread_join", (Cret 0 [AZ 1], 0))]) 0 [VUd 4] life_heap
      (sample_world {[ 512 := ORc 1 (BThread 77) ]}) 512 1 77 _ _ _ (Cret 0 [AZ 1])
      (sample_world {[ 512 := ORc 1 (BThread 77) ]}) _) _ _); try done.
    by exists 4%nat, (Udata (Some 3%nat) [VLud 512] 0).
Defined.

(** state 7 holds true, 3 and a string *)
Definition joined_world : world Z lstate :=
  World {[ 7%nat := LS (rev [VBool true; VInt 3; VStr "x"]) 15 exit_heap ]} 10
    {[ 512 := ORc 1 (BThread 77) ]} 4096 (fun _ _ => false) 0.

Lemma exit_heap_few : few_upvalues exit_heap.
Proof. by intros f p ups. Qed.

Lemma join_results_witness :
  exists rs' h', copy_values 1 exit_heap [VBool true; VInt 3; VStr "x"] life_heap = Some (inl (rs', h')) /\
    rs' = [VBool true; VInt 3; VStr "x"] /\
    length rs' = 3%nat /\
    executes life_clib 0 l_pthread_join [VUd 4] life_heap joined_world (Ok rs')
      (put 0%nat (idle h') (shut 7 joined_world)).
Proof.
  eexists _, _. split; [reflexivity|]. split; [reflexivity|].
  refine (join_results life_clib 0 [VUd 4] life_heap joined_world 512 1 77 _ _ _
    (Cret 0 [AZ (state_ptr 7)]) joined_world _ 7 [VBool true; VInt 3; VStr "x"] 15 exit_heap 1
    (inl (_, _)) _ _ _ _ _ _ _ exit_heap_few _ _ _ _); try done; try (by apply Nat.leb_le).
  by exists 4%nat, (Udata (Some 3%nat) [VLud 512] 0).
Defined.

Lemma once_call_aborts_witness :
  executes life_clib 0 l_pthread_once_call [VUd 4; VFun 1; VInt 3] life_heap (sample_world ∅)
    (Halt (Aborted "nresults > 0")) (put 0%nat (idle life_heap) (sample_world ∅)) /\
  handle (rev [VUd 4; VFun 1; VInt 3]) life_heap 1 PTHREAD_ONCE_METATABLE 512.
Proof.
  assert (Hh : handle (rev [VUd 4; VFun 1; VInt 3]) life_heap 1 PTHREAD_ONCE_METATABLE 512)
    by by exists 4%nat, (Udata (Some 3%nat) [VLud 512] 0).
  split; [|exact Hh].
  refine (proj2 (once_call_aborts life_clib 0 (VUd 4) [VFun 1; VInt 3] life_heap (sample_world ∅)
    (sample_world ∅) 512 (Cret 0 [AZ 1]) Hh _ _ _) _ life_lib true [VFun 1; VInt 3] 23%nat life_heap
    (sample_world ∅) (life_external _) _ _ _ _); try done; cbn; lia.
Defined.
