(* ===== verification/PthreadRendezvous.v ===== *)
(** * lua_pthread.c: the rendezvous

    Two threads exchange values: the first to arrive leaves its state in the
    rendezvous and waits on its condition variable; the second copies the values
    between the two states, leaves the number of values (or -1, above an error
    message) on the stack of the first, and wakes it. *)

From stdpp Require Import pretty.
From S2P Require Import Prelude LuaApi Machine Capi Refcount Utils PthreadCopy PthreadSync PthreadThread.
From S2P Require Import Samples.

Section ops.
Context `{Consts}.

Definition waiter_load (o : obj) : option (option nat * obj) :=
  match o with ORc _ (BRendezvous l) => Some (l, o) | _ => None end.
Definition waiter_store (l : option nat) (o : obj) : option (unit * obj) :=
  match o with ORc r (BRendezvous _) => Some (tt, ORc r (BRendezvous l)) | _ => None end.

Definition l_pthread_rendezvous_new (L : nat) : prog Z :=
  rp ← malloc (cst "sizeof(struct rcrendezvous)") (ORc 0 (BRendezvous None));
  if rp =? 0 then fatal L "malloc" (cst "ENOMEM")
  else
    r ← call "pthread_mutex_init" [AZ rp; AZ 0];
    if negb (rc r =? 0) then
      free rp;;
      fatal L "pthread_mutex_init" (rc r)
    else
      r ← call "pthread_cond_init" [AZ rp; AZ 0];
      if negb (rc r =? 0) then
        call "pthread_mutex_destroy" [AZ rp];;
        free rp;;
        fatal L "pthread_cond_init" (rc r)
      else
        load rp (waiter_store None);;
        refcount_init rp 1;;
        new L rp PTHREAD_RENDEZVOUS_METATABLE.

Definition l_pthread_rendezvous_retain (L : nat) : prog Z :=
  rp ← checklightuserdata L 1;
  refcount_retain rp;;
  new L rp PTHREAD_RENDEZVOUS_METATABLE.

Definition l_pthread_rendezvous_gc (L : nat) : prog Z :=
  rp ← checkcookie L 1 PTHREAD_RENDEZVOUS_METATABLE;
  last ← refcount_release rp;
  if last : bool then
    r1 ← call "pthread_cond_destroy" [AZ rp];
    r2 ← call "pthread_mutex_destroy" [AZ rp];
    free rp;;
    if negb (rc r1 =? 0) then fatal L "pthread_cond_destroy" (rc r1)
    else if negb (rc r2 =? 0) then fatal L "pthread_mutex_destroy" (rc r2)
    else mret 0
  else mret 0.

Definition l_pthread_rendezvous_cookie (L : nat) : prog Z :=
  checkcookieuv L 1 PTHREAD_RENDEZVOUS_METATABLE;;
  mret 1.

Definition bad_exchange (arg : Z) : string :=
  "bad argument #" +:+ pretty arg +:+ " to 'exchange' (non-serializable value)".
Definition other_invalid : string := "other thread attempted invalid 'exchange'".

(** [L] is the second thread, [l] the one that waits *)
Definition exchange (L l : nat) (idx narg : Z) : prog Z :=
  n ← lua_tointeger l (-1);
  let nres := to_int n in
  lua_pop l 1;;
  top ← lua_gettop l;
  error ← copyn l L COPY_DEPTH (top - nres + 1) nres;
  if negb (error =? 0) then
    lua_pushstring l (bad_exchange (error - 1));;
    lua_pushinteger l (-1);;
    lua_pushstring L other_invalid;;
    mret (-1)
  else
    error ← copyn L l COPY_DEPTH idx narg;
    if negb (error =? 0) then
      lua_pushstring l other_invalid;;
      lua_pushinteger l (-1);;
      lua_pushstring L (bad_exchange (error - 1));;
      mret (-1)
    else
      lua_pushinteger l narg;;
      mret nres.

(** the second thread's part, with the rendezvous locked *)
Definition exchange_with (L l : nat) (rp idx narg : Z) : prog Z :=
  nres ← exchange L l idx narg;
  load rp (waiter_store None);;
  r ← call "pthread_cond_signal" [AZ rp];
  if negb (rc r =? 0) then
    msg ← strerror_r (rc r);
    lua_pushstring L ("pthread_cond_signal: " +:+ cstr msg);;
    mret (-1)
  else mret nres.

Definition l_pthread_rendezvous_exchange (L : nat) : prog Z :=
  top ← lua_gettop L;
  let narg := top - 1 in
  rp ← checkcookie L 1 PTHREAD_RENDEZVOUS_METATABLE;
  r ← call "pthread_mutex_lock" [AZ rp];
  if negb (rc r =? 0) then fatal L "pthread_mutex_lock" (rc r)
  else
    waiter ← load rp waiter_load;
    nres ← (match waiter with
            | None =>
                lua_pushinteger L narg;;
                load rp (waiter_store (Some L));;
                r ← call "pthread_cond_wait" [AZ rp; AZ rp];
                if rc r =? 0 then
                  n ← lua_tointeger L (-1);
                  lua_pop L 1;;
                  mret (to_int n)
                else
                  load rp (waiter_store None);;
                  msg ← strerror_r (rc r);
                  lua_pushstring L ("pthread_cond_wait: " +:+ cstr msg);;
                  mret (-1)
            | Some l => exchange_with L l rp 2 narg
            end : prog Z);
    r ← call "pthread_mutex_unlock" [AZ rp];
    if negb (rc r =? 0) then fatal L "pthread_mutex_unlock" (rc r)
    else if nres <? 0 then lua_error L else mret nres.

Definition l_pthread_rendezvous_timedexchange (L : nat) : prog Z :=
  top ← lua_gettop L;
  let narg := top - 3 in
  rp ← checkcookie L 1 PTHREAD_RENDEZVOUS_METATABLE;
  tv_sec ← luaL_checkinteger L 2;
  tv_nsec ← luaL_checkinteger L 3;
  r ← call "pthread_mutex_timedlock" [AZ rp; AZ tv_sec; AZ tv_nsec];
  if negb (rc r =? 0) then
    if rc r =? cst "ETIMEDOUT" then
      lua_pushboolean L false;;
      mret 1
    else fatal L "pthread_mutex_lock" (rc r)
  else
    waiter ← load rp waiter_load;
    nres ← (match waiter with
            | None =>
                lua_pushinteger L narg;;
                load rp (waiter_store (Some L));;
                r ← call "pthread_cond_timedwait" [AZ rp; AZ rp; AZ tv_sec; AZ tv_nsec];
                if rc r =? 0 then
                  n ← lua_tointeger L (-1);
                  lua_pop L 1;;
                  mret (to_int n)
                else
                  load rp (waiter_store None);;
                  if rc r =? cst "ETIMEDOUT" then mret (-2)
                  else
                    msg ← strerror_r (rc r);
                    lua_pushstring L ("pthread_cond_wait: " +:+ cstr msg);;
                    mret (-1)
            | Some l => exchange_with L l rp 4 narg
            end : prog Z);
    r ← call "pthread_mutex_unlock" [AZ rp];
    if negb (rc r =? 0) then fatal L "pthread_mutex_unlock" (rc r)
    else if nres =? -1 then lua_error L
    else if nres =? -2 then
      lua_pushboolean L false;;
      mret 1
    else
      lua_pushboolean L true;;
      top ← lua_gettop L;
      lua_insert L (top - (nres + 1));;
      mret (nres + 1).
End ops.

(** ** How they run *)

Section run.
Context `{Consts} `{LuaSem} {S : Type} `{Libc S} (C : clib S).
Implicit Types (w : world S lstate) (L l : nat) (vs : list value) (h : heap).
Abbreviation rn := (run (documented C)).

(** both copies arrive: each thread has the values of the other on top *)
Lemma run_exchange L l pre prel xs ys d hL hl xs' hL' ys' hl' n w :
  L ≠ l -> Z.of_nat (length xs) < 2 ^ 31 ->
  few_upvalues hl -> few_upvalues hL' -> (d < COPY_DEPTH)%nat ->
  (need_src d <= 1 + n)%nat -> (need_dst d + length xs <= LUA_MINSTACK)%nat ->
  (need_src d + length xs <= LUA_MINSTACK)%nat -> (need_dst d + length ys <= 1 + n)%nat ->
  copy_values d hl xs hL = Some (inl (xs', hL')) ->
  copy_values d hL' ys hl = Some (inl (ys', hl')) ->
  exists m,
  rn (exchange L l (Z.of_nat (length pre + 1)) (Z.of_nat (length ys)))
    (put L (LS (rev (pre ++ ys)) LUA_MINSTACK hL)
      (put l (LS (VInt (Z.of_nat (length xs)) :: rev (prel ++ xs)) n hl) w)) =
  (Ok (Z.of_nat (length xs)),
   put L (LS (rev xs' ++ rev (pre ++ ys)) (LUA_MINSTACK - length xs) hL')
     (put l (LS (VInt (Z.of_nat (length ys)) :: rev ys' ++ rev (prel ++ xs)) m hl') w)).
Proof.
  intros Hne Hlen Hfl HfL Hd Hsl HdL HsL Hdl Hc1 Hc2.
  assert (Hlx : length xs' = length xs) by by eapply copy_values_length.
  assert (Hly : length ys' = length ys) by by eapply copy_values_length.
  exists (n - length ys)%nat. unfold exchange.
  rewrite run_bind, run_lua2 by done. cbn [doc]. unfold doc_tointeger, at_index. cbn [stk].
  set (vl := rev (prel ++ xs)).
  change (at_ (VInt (Z.of_nat (length xs)) :: vl) (-1)) with (Val (VInt (Z.of_nat (length xs)))).
  cbn [andthen]. rewrite to_int_small by lia.
  rewrite run_bind, put_comm, run_pop1 by done. cbn [andthen].
  rewrite run_bind, run_lua. cbn [doc andthen stk].
  replace (Z.of_nat (length vl) - Z.of_nat (length xs) + 1) with (Z.of_nat (length prel + 1))
    by (unfold vl; rewrite length_rev, length_app; lia).
  assert (Hatx : forall i v, xs !! i = Some v -> at_ vl (Z.of_nat (length prel + 1) + Z.of_nat i) = Val v).
  { intros i v Hv. apply at_frame; [lia|].
    replace (Z.to_nat _) with (length prel + i)%nat by lia. rewrite lookup_app_r by lia.
    by replace (length prel + i - length prel)%nat with i by lia. }
  assert (Haty : forall i v, ys !! i = Some v ->
    at_ (rev xs' ++ rev (pre ++ ys)) (Z.of_nat (length pre + 1) + Z.of_nat i) = Val v).
  { intros i v Hv. apply at_app; [lia|]. apply at_frame; [lia|].
    replace (Z.to_nat _) with (length pre + i)%nat by lia. rewrite lookup_app_r by lia.
    by replace (length pre + i - length pre)%nat with i by lia. }
  pose proof (run_copyn C l L ltac:(done) d 31 (Z.of_nat (length prel + 1)) xs vl (1 + n) hl (rev (pre ++ ys)) LUA_MINSTACK hL _ w Hfl
    ltac:(unfold COPY_DEPTH in Hd; lia) ltac:(lia) Hatx Hc1 Hsl HdL) as Hx1.
  pose proof (run_copyn C L l Hne d 31 (Z.of_nat (length pre + 1)) ys (rev xs' ++ rev (pre ++ ys)) (LUA_MINSTACK - length xs) hL'
    vl (1 + n) hl _ w HfL ltac:(unfold COPY_DEPTH in Hd; lia) ltac:(lia) Haty Hc2 ltac:(lia) Hdl) as Hx2.
  cbn zeta in Hx1, Hx2. change (Datatypes.S 31) with COPY_DEPTH in Hx1, Hx2.
  rewrite run_bind, Hx1. cbn [andthen negb Z.eqb]. rewrite put_comm by done.
  rewrite run_bind, Hx2. cbn [andthen negb Z.eqb].
  rewrite run_bind, run_lua2 by done. cbn [doc]. unfold push. cbn [room stk hp].
  destruct (1 + n - length ys)%nat as [|k] eqn:E; [unfold need_dst in Hdl; lia|]. cbn [andthen].
  rewrite run_ret. by replace k with (n - length ys)%nat by lia.
Qed.
End run.

(** ** Properties *)

Section properties.
Context `{Consts} `{LuaSem} {S : Type} `{Libc S} (C : clib S).
Context (lib : string -> list carg -> S -> cret * S) (p c : Z).
Abbreviation rn := (run (documented C)).

(** the mutex can be locked and unlocked and the condition variable signalled *)
Hypothesis Hlib : external C ["pthread_mutex_lock"; "pthread_cond_signal"; "pthread_mutex_unlock"] lib.
Hypothesis Hok : forall fn a s, rc (lib fn a s).1 = 0.
Hypothesis Hp : p ≠ 0.

Definition after (fn : string) (w : world S lstate) : world S lstate := set_x (lib fn [AZ p] (wx w)).2 w.

(** the rendezvous at [p] with a thread, or none, waiting *)
Definition with_waiter (l : option nat) (w : world S lstate) : world S lstate :=
  poke p (ORc c (BRendezvous l)) w.

(** the world in which the first thread waits *)
Definition waiting_world (L : nat) (args : list value) (h : heap) (w : world S lstate) : world S lstate :=
  put L (LS (VInt (Z.of_nat (length args - 1)) :: rev args) 19 h)
    (with_waiter (Some L) (after "pthread_mutex_lock" w)).

(** the first thread: it waits, and when it goes on it returns as many of its topmost
    values as the number on top says, whoever put it there *)
Lemma exchange_first L o xs h w k rs rest m h' w2 :
  handle (rev (o :: xs)) h 1 PTHREAD_RENDEZVOUS_METATABLE p ->
  wm w !! p = Some (ORc c (BRendezvous None)) ->
  c_call C "pthread_cond_wait" [AZ p; AZ p] (waiting_world L (o :: xs) h w) =
    (Ok (Cret 0 []), put L (LS (VInt k :: rev rs ++ rest) m h') w2) ->
  k = Z.of_nat (length rs) -> k < 2 ^ 31 ->
  executes C L l_pthread_rendezvous_exchange (o :: xs) h w (Ok rs)
    (put L (idle h') (after "pthread_mutex_unlock" w2)).
Proof.
  intros Hh Hm Hc -> Hk. apply (executes_return C L _ _ _ _ rs rest (1 + m)).
  unfold l_pthread_rendezvous_exchange. rewrite run_bind, run_lua. cbn [doc andthen stk frame].
  rewrite length_rev. cbn [length].
  replace (Z.of_nat (Datatypes.S (length xs)) - 1) with (Z.of_nat (length (o :: xs) - 1)) by (cbn; lia).
  fold (frame (o :: xs) h). rewrite run_bind, (run_checkcookie_frame C L 1 _ p) by done. cbn [andthen].
  rewrite run_bind, (run_external C _ lib) by (done || cbn; auto). cbn [andthen]. rewrite Hok. cbn [negb Z.eqb].
  rewrite run_bind, (run_read C p waiter_load _ None) by done. cbn [andthen]. cbv iota.
  rewrite run_bind, run_bind. unfold frame, LUA_MINSTACK. rewrite run_lua. cbn [doc push room stk hp andthen].
  rewrite run_bind, (run_load C p (waiter_store (Some L)) _ _ (ORc c (BRendezvous (Some L)))) by done.
  cbn [andthen]. rewrite run_bind, run_call.
  change (put L (LS (VInt _ :: rev (o :: xs)) 19 h) _) with (waiting_world L (o :: xs) h w).
  rewrite Hc. cbn [andthen rc Z.eqb]. rewrite run_bind, run_lua. cbn [doc]. unfold doc_tointeger, at_index.
  cbn [stk]. change (at_ (VInt ?n :: ?vs) (-1)) with (Val (VInt n)). cbn [andthen].
  rewrite run_bind, run_pop1. cbn [andthen]. rewrite run_ret. cbn [andthen].
  rewrite run_bind, (run_external C _ lib) by (done || cbn; auto). cbn [andthen]. rewrite Hok. cbn [negb Z.eqb].
  rewrite to_int_small by lia. by rewrite (proj2 (Z.ltb_ge _ 0)) by lia.
Qed.

(** the second thread *)
Lemma exchange_second L l o ys hL prel xs hl n d xs' hL' ys' hl' w :
  handle (rev (o :: ys)) hL 1 PTHREAD_RENDEZVOUS_METATABLE p ->
  wm w !! p = Some (ORc c (BRendezvous (Some l))) ->
  L ≠ l -> Z.of_nat (length xs) < 2 ^ 31 ->
  few_upvalues hl -> few_upvalues hL' -> (d < COPY_DEPTH)%nat ->
  (need_src d <= 1 + n)%nat -> (need_dst d + length xs <= LUA_MINSTACK)%nat ->
  (need_src d + length xs <= LUA_MINSTACK)%nat -> (need_dst d + length ys <= 1 + n)%nat ->
  copy_values d hl xs hL = Some (inl (xs', hL')) ->
  copy_values d hL' ys hl = Some (inl (ys', hl')) ->
  exists m,
  executes C L l_pthread_rendezvous_exchange (o :: ys) hL
    (put l (LS (VInt (Z.of_nat (length xs)) :: rev (prel ++ xs)) n hl) w) (Ok xs')
    (put L (idle hL') (put l (LS (VInt (Z.of_nat (length ys)) :: rev ys' ++ rev (prel ++ xs)) m hl')
      (after "pthread_mutex_unlock" (after "pthread_cond_signal" (with_waiter None
        (after "pthread_mutex_lock" w)))))).
Proof.
  intros Hh Hm Hne Hlen Hfl HfL Hd Hsl HdL HsL Hdl Hc1 Hc2.
  set (w1 := after "pthread_mutex_lock" w).
  destruct (run_exchange C L l [o] prel xs ys d hL hl xs' hL' ys' hl' n w1 Hne Hlen Hfl HfL Hd Hsl HdL
    HsL Hdl Hc1 Hc2) as [m Hx].
  exists m. apply (executes_return C L _ _ _ _ xs' (rev (o :: ys)) (LUA_MINSTACK - length xs)).
  unfold l_pthread_rendezvous_exchange. rewrite run_bind, run_lua. cbn [doc andthen stk frame].
  rewrite length_rev. cbn [length].
  replace (Z.of_nat (Datatypes.S (length ys)) - 1) with (Z.of_nat (length ys)) by lia.
  fold (frame (o :: ys) hL). rewrite run_bind, (run_checkcookie_frame C L 1 _ p) by done. cbn [andthen].
  rewrite run_bind, (run_external C _ lib) by (done || cbn; auto). cbn [andthen]. rewrite Hok. cbn [negb Z.eqb].
  rewrite run_bind, (run_read C p waiter_load _ (Some l)) by done. cbn [andthen]. cbv iota.
  rewrite run_bind. unfold exchange_with. rewrite run_bind.
  rewrite set_x_put. change (set_x _ w) with w1. change (Z.of_nat (length [o] + 1)) with 2 in Hx.
  change ([o] ++ ys) with (o :: ys) in Hx. unfold frame. rewrite Hx. cbn [andthen].
  rewrite run_bind, (run_load C p (waiter_store None) _ _ (ORc c (BRendezvous None))) by done. cbn [andthen].
  rewrite poke_put. rewrite run_bind, (run_external C _ lib) by (done || cbn; auto). cbn [andthen]. rewrite Hok.
  cbn [negb Z.eqb]. rewrite run_ret. cbn [andthen].
  rewrite run_bind, (run_external C _ lib) by (done || cbn; auto). cbn [andthen]. rewrite Hok. cbn [negb Z.eqb].
  rewrite (proj2 (Z.ltb_ge _ 0)) by lia. rewrite run_ret.
  by replace (length xs') with (length xs) by (symmetry; by eapply copy_values_length).
Qed.

(** C6. Two threads that meet at a rendezvous exchange their arguments: while the first waits
    on the condition variable the second finds it, returns copies of the first's arguments,
    and leaves it copies of its own, which the first returns when it is woken; the rendezvous
    is then free again. *)
Theorem rendezvous_swap L l o o2 xs ys d h hl h' hl' xs' ys' w :
  let w0 := waiting_world L (o :: xs) h w in
  L ≠ l -> Z.of_nat (length xs) < 2 ^ 31 -> Z.of_nat (length ys) < 2 ^ 31 ->
  handle (rev (o :: xs)) h 1 PTHREAD_RENDEZVOUS_METATABLE p ->
  handle (rev (o2 :: ys)) hl 1 PTHREAD_RENDEZVOUS_METATABLE p ->
  wm w !! p = Some (ORc c (BRendezvous None)) ->
  few_upvalues h -> few_upvalues hl' -> (d < COPY_DEPTH)%nat ->
  (need_src d + length xs <= LUA_MINSTACK)%nat -> (need_dst d + length xs <= LUA_MINSTACK)%nat ->
  (need_dst d + length ys <= LUA_MINSTACK)%nat ->
  copy_values d h xs hl = Some (inl (xs', hl')) ->
  copy_values d hl' ys h = Some (inl (ys', h')) ->
  exists w1, wm w1 !! p = Some (ORc c (BRendezvous None)) /\
    executes C l l_pthread_rendezvous_exchange (o2 :: ys) hl w0 (Ok xs') w1 /\
    (c_call C "pthread_cond_wait" [AZ p; AZ p] w0 = (Ok (Cret 0 []), w1) ->
     exists w2, wm w2 = wm w1 /\
       executes C L l_pthread_rendezvous_exchange (o :: xs) h w (Ok ys') (put L (idle h') w2)).
Proof.
  intros w0 Hne Hlx Hly Hh Hh2 Hm Hf Hf2 Hd Hs1 Hd1 Hd2 Hc1 Hc2.
  destruct (exchange_second l L o2 ys hl [o] xs h 19 d xs' hl' ys' h'
    (with_waiter (Some L) (after "pthread_mutex_lock" w))) as [m Hx];
    [done|cbn; apply lookup_insert_eq|done|done|done|done|done|unfold LUA_MINSTACK in *; lia|done|
     unfold LUA_MINSTACK in *; lia|unfold LUA_MINSTACK in *; lia|done|done|].
  change (put L (LS (VInt (Z.of_nat (length xs)) :: rev ([o] ++ xs)) 19 h) _) with
    (put L (LS (VInt (Z.of_nat (length xs)) :: rev (o :: xs)) 19 h)
      (with_waiter (Some L) (after "pthread_mutex_lock" w))) in Hx.
  assert (Hw0 : put L (LS (VInt (Z.of_nat (length xs)) :: rev (o :: xs)) 19 h)
      (with_waiter (Some L) (after "pthread_mutex_lock" w)) = w0).
  { unfold w0, waiting_world. cbn [length]. by rewrite Nat.sub_succ, Nat.sub_0_r. }
  rewrite Hw0 in Hx. eexists. split_all; [|exact Hx|].
  - cbn. apply lookup_insert_eq.
  - intros Hcw. rewrite put_comm in Hcw by done.
    assert (Hlen : length ys' = length ys) by by eapply copy_values_length.
    eexists. split; cycle 1.
    + eapply (exchange_first L o xs h w _ ys'); [done|done|exact Hcw|by rewrite Hlen|lia].
    + done.
Qed.

(** A waiting thread does not check that it was woken by an exchange: after a spurious
    wakeup, which the library allows, it returns its own arguments. *)
Theorem exchange_spurious L o xs h w x :
  handle (rev (o :: xs)) h 1 PTHREAD_RENDEZVOUS_METATABLE p ->
  wm w !! p = Some (ORc c (BRendezvous None)) -> Z.of_nat (length xs) < 2 ^ 31 ->
  c_call C "pthread_cond_wait" [AZ p; AZ p] (waiting_world L (o :: xs) h w) =
    (Ok (Cret 0 []), set_x x (waiting_world L (o :: xs) h w)) ->
  exists w', wm w' !! p = Some (ORc c (BRendezvous (Some L))) /\
    executes C L l_pthread_rendezvous_exchange (o :: xs) h w (Ok xs) (put L (idle h) w').
Proof.
  intros Hh Hm Hlen Hc. unfold waiting_world in Hc at 2. rewrite set_x_put in Hc. eexists. split; cycle 1.
  - eapply (exchange_first L o xs h w _ xs [o] 19); [done|done|exact Hc|cbn; lia|cbn; lia].
  - cbn. apply lookup_insert_eq.
Qed.

(** [timedexchange] should return true before the values it received; it inserts true one
    place too low and returns instead the last of its own arguments (the nanoseconds of the
    deadline if it was given no values). *)
Theorem timedexchange_status L o sec nsec xs h w t k rs m h' w2 :
  let args := o :: VInt sec :: VInt nsec :: xs in
  c_call C "pthread_mutex_timedlock" [AZ p; AZ sec; AZ nsec] (put L (frame args h) w) =
    (Ok (Cret 0 []), put L (frame args h) (set_x t w)) ->
  handle (rev args) h 1 PTHREAD_RENDEZVOUS_METATABLE p ->
  wm w !! p = Some (ORc c (BRendezvous None)) ->
  c_call C "pthread_cond_timedwait" [AZ p; AZ p; AZ sec; AZ nsec]
    (put L (LS (VInt (Z.of_nat (length xs)) :: rev args) 19 h) (with_waiter (Some L) (set_x t w))) =
    (Ok (Cret 0 []), put L (LS (VInt k :: rev rs ++ rev args) m h') w2) ->
  k = Z.of_nat (length rs) -> k < 2 ^ 31 ->
  executes C L l_pthread_rendezvous_timedexchange args h w (Ok (List.last (VInt nsec :: xs) VNil :: rs))
    (put L (idle h') (after "pthread_mutex_unlock" w2)).
Proof.
  intros args Hlock Hh Hm Hc -> Hk.
  destruct (exists_last (l := VInt nsec :: xs)) as (own & x & Hown); [done|].
  assert (Hargs : rev args = x :: rev (o :: VInt sec :: own)).
  { unfold args. rewrite Hown. change (rev ([o; VInt sec] ++ own ++ [x]) = x :: rev ([o; VInt sec] ++ own)).
    by rewrite app_assoc, rev_unit. }
  assert (Hl : List.last (VInt nsec :: xs) VNil = x) by (rewrite Hown; apply last_last).
  apply (executes_return C L _ _ _ _ _ (VBool true :: rev (o :: VInt sec :: own)) m).
  unfold l_pthread_rendezvous_timedexchange. rewrite run_bind, run_lua. cbn [doc andthen stk frame].
  rewrite length_rev. replace (Z.of_nat (length args) - 3) with (Z.of_nat (length xs)) by (cbn; lia).
  fold (frame args h). rewrite run_bind, (run_checkcookie_frame C L 1 _ p) by done. cbn [andthen].
  assert (Ha2 : at_ (rev args) 2 = Val (VInt sec)) by by apply (at_frame args 2).
  assert (Ha3 : at_ (rev args) 3 = Val (VInt nsec)) by by apply (at_frame args 3).
  rewrite run_bind, run_lua. cbn [doc frame]. unfold doc_checkinteger, at_index. change (stk (frame args h)) with (rev args). rewrite Ha2.
  cbn [andthen]. rewrite run_bind, run_lua. cbn [doc]. unfold doc_checkinteger, at_index. change (stk (frame args h)) with (rev args). rewrite Ha3.
  cbn [andthen]. rewrite run_bind, run_call, Hlock. cbn [andthen rc negb Z.eqb].
  rewrite run_bind, (run_read C p waiter_load _ None) by done. cbn [andthen]. cbv iota.
  rewrite run_bind, run_bind. unfold frame, LUA_MINSTACK. rewrite run_lua. cbn [doc push room stk hp andthen].
  rewrite run_bind, (run_load C p (waiter_store (Some L)) _ _ (ORc c (BRendezvous (Some L)))) by done.
  cbn [andthen]. rewrite run_bind, run_call. unfold with_waiter in Hc. rewrite Hc. cbn [andthen rc Z.eqb].
  rewrite run_bind, run_lua. cbn [doc]. unfold doc_tointeger, at_index.
  cbn [stk]. change (at_ (VInt ?n :: ?vs) (-1)) with (Val (VInt n)). cbn [andthen].
  rewrite run_bind, run_pop1. cbn [andthen]. rewrite run_ret. cbn [andthen].
  rewrite run_bind, (run_external C _ lib) by (done || cbn; auto). cbn [andthen]. rewrite Hok. cbn [negb Z.eqb].
  rewrite to_int_small by lia. destruct (Z.eqb_spec (Z.of_nat (length rs)) (-1)); [lia|].
  destruct (Z.eqb_spec (Z.of_nat (length rs)) (-2)); [lia|].
  rewrite run_bind, run_lua. cbn [doc]. unfold push. cbn [room stk hp Nat.add andthen].
  rewrite run_bind, run_lua. cbn [doc andthen stk]. rewrite run_bind, run_lua. cbn [doc].
  unfold doc_insert. cbn [stk room hp].
  assert (Hpos : pos (VBool true :: rev rs ++ rev args)
    (Z.of_nat (length (VBool true :: rev rs ++ rev args)) - (Z.of_nat (length rs) + 1)) =
    Some (length rs + 1)%nat).
  { assert (Hi : Z.of_nat (length (VBool true :: rev rs ++ rev args)) - (Z.of_nat (length rs) + 1) =
      Z.of_nat (length args)) by (cbn [length]; rewrite length_app, !length_rev; lia).
    rewrite Hi. unfold pos. destruct (Z.of_nat (length args)) as [|q|q] eqn:E; [done| |lia].
    assert (Pos.to_nat q = length args) as -> by lia. cbn [length]. rewrite length_app, !length_rev.
    rewrite (proj2 (Nat.leb_le _ _)) by lia. f_equal. lia. }
  rewrite Hpos, Hargs. cbn [andthen]. rewrite run_ret, Hl.
  change (x :: rev (o :: VInt sec :: own)) with ([x] ++ rev (o :: VInt sec :: own)).
  rewrite app_assoc, take_app_length', drop_app_length' by (by rewrite length_app, length_rev).
  cbn [rev length]. replace (Z.of_nat (length rs) + 1) with (Z.of_nat (Datatypes.S (length rs))) by lia. done.
Qed.
End properties.

(** ** Witnesses *)

Definition rv_heap : heap := sample_heap PTHREAD_RENDEZVOUS_METATABLE [VLud 512] 0.
Definition rv_world (l : option nat) : world Z lstate := sample_world {[ 512 := ORc 2 (BRendezvous l) ]}.
Definition rv_lib : string -> list carg -> Z -> cret * Z := fun _ _ s => (Cret 0 [], s).

Lemma rv_handle args : handle (rev (VUd 2 :: args)) rv_heap 1 PTHREAD_RENDEZVOUS_METATABLE 512.
Proof.
  assert (Ha : at_ (rev (VUd 2 :: args)) 1 = Val (VUd 2)) by by apply (at_frame (VUd 2 :: args) 1).
  exists 2%nat, (Udata (Some 1%nat) [VLud 512] 0). split; [|done]. unfold udata_of. by rewrite Ha.
Qed.

Lemma rv_few : few_upvalues rv_heap.
Proof. by intros f q ups. Qed.

(** while state 0 waits, state 1 runs [exchange] with two values *)
Definition rv_clib : clib Z := {|
  c_call := fun fn args w =>
    if String.eqb fn "pthread_cond_wait"
    then (Ok (Cret 0 []), (invoke (sample_clib []) 1 l_pthread_rendezvous_exchange
            [VUd 2; VInt 5; VStr "y"] rv_heap w).2)
    else if String.eqb fn "pthread_cond_timedwait"
    then (Ok (Cret 0 []), match wl w !! 0%nat with
         | Some s => put 0%nat (LS (VInt 1 :: VStr "y" :: tail (stk s)) 17 (hp s)) w
         | None => w
         end)
    else (Ok (Cret 0 []), w);
  c_fn := fun _ _ args w => (Ok (true, args), w) |}.

Lemma rv_external : external rv_clib ["pthread_mutex_lock"; "pthread_cond_signal"; "pthread_mutex_unlock"] rv_lib.
Proof. intros fn args [] [<-|[<-|[<-|[]]]]; reflexivity. Qed.

Lemma rendezvous_swap_witness :
  exists w1 w2, wm w1 !! 512 = Some (ORc 2 (BRendezvous None)) /\ wm w2 = wm w1 /\
    executes rv_clib 1 l_pthread_rendezvous_exchange [VUd 2; VInt 5; VStr "y"] rv_heap
      (waiting_world rv_lib 512 2 0 [VUd 2; VInt 3] rv_heap (rv_world None)) (Ok [VInt 3]) w1 /\
    executes rv_clib 0 l_pthread_rendezvous_exchange [VUd 2; VInt 3] rv_heap (rv_world None)
      (Ok [VInt 5; VStr "y"]) (put 0%nat (idle rv_heap) w2).
Proof.
  set (w0 := waiting_world rv_lib 512 2 0 [VUd 2; VInt 3] rv_heap (rv_world None)).
  destruct (rendezvous_swap rv_clib rv_lib 512 2 rv_external (fun _ _ _ => eq_refl) ltac:(done)
    0 1 (VUd 2) (VUd 2) [VInt 3] [VInt 5; VStr "y"] 1 rv_heap rv_heap rv_heap rv_heap [VInt 3]
    [VInt 5; VStr "y"] (rv_world None) ltac:(done) eq_refl eq_refl (rv_handle [VInt 3])
    (rv_handle [VInt 5; VStr "y"]) eq_refl rv_few rv_few) as (w1 & Hm & Hx & Hw);
    [by apply Nat.leb_le|by apply Nat.leb_le|by apply Nat.leb_le|by apply Nat.leb_le|reflexivity|reflexivity|].
  assert (Hc : (invoke (sample_clib []) 1 l_pthread_rendezvous_exchange
            [VUd 2; VInt 5; VStr "y"] rv_heap w0).2 = w1).
  { pose proof (Hx lstate (fun s => s) (documented rv_clib)
      (put 1%nat (frame [VUd 2; VInt 5; VStr "y"] rv_heap) w0) (conforms_refl _)) as H1.
    unfold map_world in H1. rewrite map_fmap_id in H1. specialize (H1 eq_refl).
    destruct (run (documented rv_clib) _ _) as [r iw] eqn:E. vm_compute in E. injection E as <- <-.
    apply (f_equal snd) in H1. cbn [snd] in H1. rewrite <- H1. vm_compute. reflexivity. }
  destruct Hw as (w2 & Hw2 & Hy).
  - change ((Ok (Cret 0 []), (invoke (sample_clib []) 1 l_pthread_rendezvous_exchange
            [VUd 2; VInt 5; VStr "y"] rv_heap w0).2) = (Ok (Cret 0 []), w1)). by rewrite Hc.
  - by exists w1, w2.
Defined.

Lemma exchange_spurious_witness :
  exists w', wm w' !! 512 = Some (ORc 2 (BRendezvous (Some 0%nat))) /\
    executes (sample_clib []) 0 l_pthread_rendezvous_exchange [VUd 2; VInt 3] rv_heap (rv_world None)
      (Ok [VInt 3]) (put 0%nat (idle rv_heap) w').
Proof.
  apply (exchange_spurious (sample_clib []) rv_lib 512 2 (sample_external _) (fun _ _ _ => eq_refl) ltac:(done)
    0 (VUd 2) [VInt 3] rv_heap (rv_world None) 0); [apply rv_handle|reflexivity|reflexivity|reflexivity].
Defined.

Lemma timedexchange_status_witness :
  executes rv_clib 0 l_pthread_rendezvous_timedexchange [VUd 2; VInt 9; VInt 0; VInt 3] rv_heap
    (rv_world None) (Ok [VInt 3; VStr "y"])
    (put 0%nat (idle rv_heap) (after rv_lib 512 "pthread_mutex_unlock"
      (with_waiter 512 2 (Some 0%nat) (rv_world None)))).
Proof.
  apply (timedexchange_status rv_clib rv_lib 512 2 rv_external (fun _ _ _ => eq_refl) ltac:(done)
    0 (VUd 2) 9 0 [VInt 3] rv_heap (rv_world None) 0 1 [VStr "y"] 17 rv_heap
    (with_waiter 512 2 (Some 0%nat) (rv_world None)));
    [reflexivity|apply (rv_handle [VInt 9; VInt 0; VInt 3])|reflexivity|reflexivity|reflexivity|reflexivity].
Defined.
