(* ===== verification/Pthread.v ===== *)
(** * lua_pthread.c: the module

    The method tables, what [luaopen_pthread] does, and what holds of all the
    types of the module alike: the references a cookie stands for, and the check
    every method makes of its receiver. *)

From stdpp Require Import fin_maps.
From S2P Require Import Prelude LuaApi Registry Machine Capi Refcount Utils Modules Cpuset PthreadCopy.
From S2P Require Import PthreadSync PthreadThread PthreadRendezvous Samples.

(** ** Tables *)

Section version.
Context `{Consts}.

(** [#if __FreeBSD_version > 1500043] *)
Definition signal_functions : bool := 1500043 <? cst "__FreeBSD_version".

Definition l_pthread_funcs : list (string * string) := [
  ("create", "l_pthread_create"); ("retain", "l_pthread_retain"); ("exit", "l_pthread_exit");
  ("self", "l_pthread_self"); ("setcancelstate", "l_pthread_setcancelstate");
  ("setcanceltype", "l_pthread_setcanceltype"); ("testcancel", "l_pthread_testcancel");
  ("yield", "l_pthread_yield"); ("getthreadid_np", "l_pthread_getthreadid_np");
  ("main_np", "l_pthread_main_np"); ("multi_np", "l_pthread_multi_np");
  ("resume_all_np", "l_pthread_resume_all_np")] ++
  (if signal_functions then [
  ("signals_block_np", "l_pthread_signals_block_np");
  ("signals_unblock_np", "l_pthread_signals_unblock_np")] else []) ++ [
  ("single_np", "l_pthread_single_np"); ("suspend_all_np", "l_pthread_suspend_all_np")].

Definition l_pthread_meta : list (string * string) := [
  ("__eq", "l_pthread_equal"); ("__gc", "l_pthread_gc"); ("cookie", "l_pthread_cookie");
  ("cancel", "l_pthread_cancel"); ("detach", "l_pthread_detach"); ("equal", "l_pthread_equal");
  ("join", "l_pthread_join"); ("attr_get_np", "l_pthread_attr_get_np");
  ("getaffinity_np", "l_pthread_getaffinity_np"); ("setaffinity_np", "l_pthread_setaffinity_np");
  ("resume_np", "l_pthread_resume_np"); ("peekjoin_np", "l_pthread_peekjoin_np");
  ("suspend_np", "l_pthread_suspend_np"); ("timedjoin_np", "l_pthread_timedjoin_np");
  ("getname_np", "l_pthread_getname_np"); ("setname_np", "l_pthread_setname_np")] ++
  (if signal_functions then [("sigqueue", "l_pthread_sigqueue")] else []).
End version.

Definition l_pthread_once_funcs : list (string * string) := [
  ("new", "l_pthread_once_new"); ("retain", "l_pthread_once_retain")].

Definition l_pthread_once_meta : list (string * string) := [
  ("__call", "l_pthread_once_call"); ("__gc", "l_pthread_once_gc");
  ("cookie", "l_pthread_once_cookie")].

Definition l_pthread_mutex_funcs : list (string * string) := [
  ("new", "l_pthread_mutex_new"); ("retain", "l_pthread_mutex_retain")].

Definition l_pthread_mutex_meta : list (string * string) := [
  ("__gc", "l_pthread_mutex_gc"); ("cookie", "l_pthread_mutex_cookie");
  ("lock", "l_pthread_mutex_lock"); ("timedlock", "l_pthread_mutex_timedlock");
  ("trylock", "l_pthread_mutex_trylock"); ("unlock", "l_pthread_mutex_unlock");
  ("getspinloops_np", "l_pthread_mutex_getspinloops_np");
  ("setspinloops_np", "l_pthread_mutex_setspinloops_np");
  ("getyieldloops_np", "l_pthread_mutex_getyieldloops_np");
  ("setyieldloops_np", "l_pthread_mutex_setyieldloops_np");
  ("isowned_np", "l_pthread_mutex_isowned_np")].

Definition l_pthread_cond_funcs : list (string * string) := [
  ("new", "l_pthread_cond_new"); ("retain", "l_pthread_cond_retain")].

Definition l_pthread_cond_meta : list (string * string) := [
  ("__gc", "l_pthread_cond_gc"); ("cookie", "l_pthread_cond_cookie");
  ("broadcast", "l_pthread_cond_broadcast"); ("signal", "l_pthread_cond_signal");
  ("timedwait", "l_pthread_cond_timedwait"); ("wait", "l_pthread_cond_wait")].

Definition l_pthread_rwlock_funcs : list (string * string) := [
  ("new", "l_pthread_rwlock_new"); ("retain", "l_pthread_rwlock_retain")].

Definition l_pthread_rwlock_meta : list (string * string) := [
  ("__gc", "l_pthread_rwlock_gc"); ("cookie", "l_pthread_rwlock_cookie");
  ("rdlock", "l_pthread_rwlock_rdlock"); ("tryrdlock", "l_pthread_rwlock_tryrdlock");
  ("trywrlock", "l_pthread_rwlock_trywrlock"); ("unlock", "l_pthread_rwlock_unlock");
  ("wrlock", "l_pthread_rwlock_wrlock")].

Definition l_pthread_key_funcs : list (string * string) := [
  ("create", "l_pthread_key_create"); ("retain", "l_pthread_key_retain")].

Definition l_pthread_key_meta : list (string * string) := [
  ("__gc", "l_pthread_key_gc"); ("cookie", "l_pthread_key_cookie");
  ("getspecific", "l_pthread_key_getspecific"); ("setspecific", "l_pthread_key_setspecific")].

Definition l_pthread_cleanup_funcs : list (string * string) := [
  ("pop", "l_pthread_cleanup_pop"); ("push", "l_pthread_cleanup_push")].

Definition l_pthread_barrier_funcs : list (string * string) := [
  ("new", "l_pthread_barrier_new"); ("retain", "l_pthread_barrier_retain")].

Definition l_pthread_barrier_meta : list (string * string) := [
  ("__gc", "l_pthread_barrier_gc"); ("cookie", "l_pthread_barrier_cookie");
  ("wait", "l_pthread_barrier_wait")].

Definition l_pthread_rendezvous_funcs : list (string * string) := [
  ("new", "l_pthread_rendezvous_new"); ("retain", "l_pthread_rendezvous_retain")].

Definition l_pthread_rendezvous_meta : list (string * string) := [
  ("__gc", "l_pthread_rendezvous_gc"); ("cookie", "l_pthread_rendezvous_cookie");
  ("exchange", "l_pthread_rendezvous_exchange");
  ("timedexchange", "l_pthread_rendezvous_timedexchange")].

Section ops.
Context `{Consts} `{Cpusets}.

(** the key under which a thread finds its Lua state *)
Definition init_thread_state_key : prog unit :=
  call "pthread_key_create" [AS "thread_state_key"; AZ 0];; mret tt.
Definition fini_thread_state_key : prog unit :=
  call "pthread_key_delete" [AS "thread_state_key"];; mret tt.

Definition pthread_types : list (string * list (string * string)) := [
  (PTHREAD_METATABLE, l_pthread_meta); (PTHREAD_ONCE_METATABLE, l_pthread_once_meta);
  (PTHREAD_MUTEX_METATABLE, l_pthread_mutex_meta); (PTHREAD_COND_METATABLE, l_pthread_cond_meta);
  (PTHREAD_RWLOCK_METATABLE, l_pthread_rwlock_meta); (PTHREAD_KEY_METATABLE, l_pthread_key_meta);
  (PTHREAD_BARRIER_METATABLE, l_pthread_barrier_meta);
  (PTHREAD_RENDEZVOUS_METATABLE, l_pthread_rendezvous_meta)].

Definition mutex_consts : list (string * Z) := [
   ("ERRORCHECK", cst "PTHREAD_MUTEX_ERRORCHECK"); ("RECURSIVE", cst "PTHREAD_MUTEX_RECURSIVE");
   ("NORMAL", cst "PTHREAD_MUTEX_NORMAL"); ("ADAPTIVE_NP", cst "PTHREAD_MUTEX_ADAPTIVE_NP");
   ("TYPE_MAX", cst "PTHREAD_MUTEX_TYPE_MAX"); ("DEFAULT", cst "PTHREAD_MUTEX_DEFAULT");
   ("STALLED", cst "PTHREAD_MUTEX_STALLED"); ("ROBUST", cst "PTHREAD_MUTEX_ROBUST")].

Definition pthread_libs : list (string * list (string * string) * list (string * Z)) := [
  ("once", l_pthread_once_funcs, []); ("mutex", l_pthread_mutex_funcs, mutex_consts);
  ("cond", l_pthread_cond_funcs, []); ("rwlock", l_pthread_rwlock_funcs, []);
  ("key", l_pthread_key_funcs, []); ("cleanup", l_pthread_cleanup_funcs, []);
  ("barrier", l_pthread_barrier_funcs, [("SERIAL_THREAD", cst "PTHREAD_BARRIER_SERIAL_THREAD")]);
  ("rendezvous", l_pthread_rendezvous_funcs, [])].

Definition pthread_consts : list (string * Z) := [
   ("DESTRUCTOR_ITERATIONS", cst "PTHREAD_DESTRUCTOR_ITERATIONS");
   ("KEYS_MAX", cst "PTHREAD_KEYS_MAX"); ("STACK_MIN", cst "PTHREAD_STACK_MIN");
   ("THREADS_MAX", cst "PTHREAD_THREADS_MAX"); ("DETACHED", cst "PTHREAD_DETACHED");
   ("SCOPE_SYSTEM", cst "PTHREAD_SCOPE_SYSTEM"); ("INHERIT_SCHED", cst "PTHREAD_INHERIT_SCHED");
   ("NOFLOAT", cst "PTHREAD_NOFLOAT"); ("CREATE_DETACHED", cst "PTHREAD_CREATE_DETACHED");
   ("CREATE_JOINABLE", cst "PTHREAD_CREATE_JOINABLE");
   ("SCOPE_PROCESS", cst "PTHREAD_SCOPE_PROCESS");
   ("EXPLICIT_SCHED", cst "PTHREAD_EXPLICIT_SCHED");
   ("PROCESS_PRIVATE", cst "PTHREAD_PROCESS_PRIVATE");
   ("PROCESS_SHARED", cst "PTHREAD_PROCESS_SHARED");
   ("CANCEL_ENABLE", cst "PTHREAD_CANCEL_ENABLE");
   ("CANCEL_DISABLE", cst "PTHREAD_CANCEL_DISABLE");
   ("CANCEL_DEFERRED", cst "PTHREAD_CANCEL_DEFERRED");
   ("CANCEL_ASYNCHRONOUS", cst "PTHREAD_CANCEL_ASYNCHRONOUS");
   ("PRIO_NONE", cst "PTHREAD_PRIO_NONE"); ("PRIO_INHERIT", cst "PTHREAD_PRIO_INHERIT");
   ("PRIO_PROTECT", cst "PTHREAD_PRIO_PROTECT")].

Definition luaopen_pthread (L : nat) : prog Z :=
  lua_getglobal L "require";;
  lua_pushstring L "sys.cpuset";;
  lua_call0 L 1;;
  r ← call "pthread_setspecific" [AS "thread_state_key"; AZ (state_ptr L)];
  if negb (rc r =? 0) then fatal L "pthread_setspecific" (rc r)
  else
    register_types L pthread_types;;
    luaL_newlib L l_pthread_funcs;;
    sublibs L pthread_libs;;
    define_all L pthread_consts;;
    mret 1.

(** the C functions the method tables name, and those only reachable as functions *)
Definition pthread_methods : list (string * (nat -> prog Z)) := [
   ("l_pthread_equal", l_pthread_equal); ("l_pthread_gc", l_pthread_gc);
   ("l_pthread_cookie", l_pthread_cookie); ("l_pthread_cancel", l_pthread_cancel);
   ("l_pthread_detach", l_pthread_detach); ("l_pthread_join", l_pthread_join);
   ("l_pthread_attr_get_np", l_pthread_attr_get_np);
   ("l_pthread_getaffinity_np", l_pthread_getaffinity_np);
   ("l_pthread_setaffinity_np", l_pthread_setaffinity_np);
   ("l_pthread_resume_np", l_pthread_resume_np); ("l_pthread_peekjoin_np", l_pthread_peekjoin_np);
   ("l_pthread_suspend_np", l_pthread_suspend_np);
   ("l_pthread_timedjoin_np", l_pthread_timedjoin_np);
   ("l_pthread_getname_np", l_pthread_getname_np); ("l_pthread_setname_np", l_pthread_setname_np);
   ("l_pthread_sigqueue", l_pthread_sigqueue); ("l_pthread_once_call", l_pthread_once_call);
   ("l_pthread_once_gc", l_pthread_once_gc); ("l_pthread_once_cookie", l_pthread_once_cookie);
   ("l_pthread_mutex_gc", l_pthread_mutex_gc); ("l_pthread_mutex_cookie", l_pthread_mutex_cookie);
   ("l_pthread_mutex_lock", l_pthread_mutex_lock);
   ("l_pthread_mutex_timedlock", l_pthread_mutex_timedlock);
   ("l_pthread_mutex_trylock", l_pthread_mutex_trylock);
   ("l_pthread_mutex_unlock", l_pthread_mutex_unlock);
   ("l_pthread_mutex_getspinloops_np", l_pthread_mutex_getspinloops_np);
   ("l_pthread_mutex_setspinloops_np", l_pthread_mutex_setspinloops_np);
   ("l_pthread_mutex_getyieldloops_np", l_pthread_mutex_getyieldloops_np);
   ("l_pthread_mutex_setyieldloops_np", l_pthread_mutex_setyieldloops_np);
   ("l_pthread_mutex_isowned_np", l_pthread_mutex_isowned_np);
   ("l_pthread_cond_gc", l_pthread_cond_gc); ("l_pthread_cond_cookie", l_pthread_cond_cookie);
   ("l_pthread_cond_broadcast", l_pthread_cond_broadcast);
   ("l_pthread_cond_signal", l_pthread_cond_signal);
   ("l_pthread_cond_timedwait", l_pthread_cond_timedwait);
   ("l_pthread_cond_wait", l_pthread_cond_wait); ("l_pthread_rwlock_gc", l_pthread_rwlock_gc);
   ("l_pthread_rwlock_cookie", l_pthread_rwlock_cookie);
   ("l_pthread_rwlock_rdlock", l_pthread_rwlock_rdlock);
   ("l_pthread_rwlock_tryrdlock", l_pthread_rwlock_tryrdlock);
   ("l_pthread_rwlock_trywrlock", l_pthread_rwlock_trywrlock);
   ("l_pthread_rwlock_unlock", l_pthread_rwlock_unlock);
   ("l_pthread_rwlock_wrlock", l_pthread_rwlock_wrlock); ("l_pthread_key_gc", l_pthread_key_gc);
   ("l_pthread_key_cookie", l_pthread_key_cookie);
   ("l_pthread_key_getspecific", l_pthread_key_getspecific);
   ("l_pthread_key_setspecific", l_pthread_key_setspecific);
   ("l_pthread_barrier_gc", l_pthread_barrier_gc);
   ("l_pthread_barrier_cookie", l_pthread_barrier_cookie);
   ("l_pthread_barrier_wait", l_pthread_barrier_wait);
   ("l_pthread_rendezvous_gc", l_pthread_rendezvous_gc);
   ("l_pthread_rendezvous_cookie", l_pthread_rendezvous_cookie);
   ("l_pthread_rendezvous_exchange", l_pthread_rendezvous_exchange);
   ("l_pthread_rendezvous_timedexchange", l_pthread_rendezvous_timedexchange)].

Definition pthread_functions : list (string * (nat -> prog Z)) := [
   ("l_pthread_create", l_pthread_create); ("l_pthread_retain", l_pthread_retain); ("l_pthread_exit", l_pthread_exit);
   ("l_pthread_self", l_pthread_self); ("l_pthread_setcancelstate", l_pthread_setcancelstate);
   ("l_pthread_setcanceltype", l_pthread_setcanceltype);
   ("l_pthread_testcancel", l_pthread_testcancel); ("l_pthread_yield", l_pthread_yield);
   ("l_pthread_getthreadid_np", l_pthread_getthreadid_np);
   ("l_pthread_main_np", l_pthread_main_np); ("l_pthread_multi_np", l_pthread_multi_np);
   ("l_pthread_resume_all_np", l_pthread_resume_all_np);
   ("l_pthread_signals_block_np", l_pthread_signals_block_np);
   ("l_pthread_signals_unblock_np", l_pthread_signals_unblock_np);
   ("l_pthread_single_np", l_pthread_single_np);
   ("l_pthread_suspend_all_np", l_pthread_suspend_all_np);
   ("l_pthread_once_new", l_pthread_once_new); ("l_pthread_once_retain", l_pthread_once_retain);
   ("l_pthread_mutex_new", l_pthread_mutex_new);
   ("l_pthread_mutex_retain", l_pthread_mutex_retain); ("l_pthread_cond_new", l_pthread_cond_new);
   ("l_pthread_cond_retain", l_pthread_cond_retain);
   ("l_pthread_rwlock_new", l_pthread_rwlock_new);
   ("l_pthread_rwlock_retain", l_pthread_rwlock_retain);
   ("l_pthread_key_create", l_pthread_key_create); ("l_pthread_key_retain", l_pthread_key_retain);
   ("l_pthread_cleanup_pop", l_pthread_cleanup_pop);
   ("l_pthread_cleanup_push", l_pthread_cleanup_push);
   ("l_pthread_barrier_new", l_pthread_barrier_new);
   ("l_pthread_barrier_retain", l_pthread_barrier_retain);
   ("l_pthread_rendezvous_new", l_pthread_rendezvous_new);
   ("l_pthread_rendezvous_retain", l_pthread_rendezvous_retain)].
End ops.

(** ** Properties *)

Section properties.
Context `{Consts} `{Cpusets} `{LuaSem} {S : Type} `{Libc S} (C : clib S).
Implicit Types (w : world S lstate) (L : nat) (vs : list value) (h : heap) (p : Z).
Abbreviation rn := (run (documented C)).

(** *** Receivers *)

Definition method (sym : string) : option (nat -> prog Z) :=
  match list_find (fun m : string * (nat -> prog Z) => m.1 = sym) pthread_methods with
  | Some (_, (_, f)) => Some f
  | None => None
  end.

(** [f] raises a type error before it does anything else *)
Definition guarded (f : nat -> prog Z) (mt : string) : Prop := forall L args h w,
  udata_of (rev args) h 1 mt = None ->
  exists vs, rn (f L) (put L (frame args h) w) = (Halt (Raise (EType 1 mt)), put L (LS vs 20 h) w).

Lemma guarded_checkcookie f mt (k : nat -> Z -> prog Z) :
  (forall L, f L = (p ← checkcookie L 1 mt; k L p)) -> guarded f mt.
Proof.
  intros Hf L args h w Hu. exists (rev args). rewrite Hf, run_bind. unfold frame, LUA_MINSTACK.
  by rewrite (run_checkcookie_wrong C L 1) by (done || by apply at_arg_not_bad).
Qed.

Lemma guarded_checkcookieuv f mt (k : nat -> prog Z) :
  (forall L, f L = (checkcookieuv L 1 mt;; k L)) -> guarded f mt.
Proof.
  intros Hf L args h w Hu. exists (rev args). rewrite Hf, run_bind. unfold frame, LUA_MINSTACK, checkcookieuv.
  by rewrite run_bind, (run_checkudata_wrong C L 1) by (done || by apply at_arg_not_bad).
Qed.

(** some methods first count their arguments *)
Lemma guarded_gettop f mt (k : nat -> Z -> Z -> prog Z) :
  (forall L, f L = (top ← lua_gettop L; p ← checkcookie L 1 mt; k L top p)) -> guarded f mt.
Proof.
  intros Hf L args h w Hu. exists (rev args). rewrite Hf, run_bind, run_lua. cbn [doc andthen].
  unfold frame, LUA_MINSTACK. rewrite run_bind.
  by rewrite (run_checkcookie_wrong C L 1) by (done || by apply at_arg_not_bad).
Qed.

(** C16. Every method of every type of the module is a function that, called on anything but an
    object of that type, raises an error that names the type, and has no other effect. *)
Theorem methods_guard mt meta name sym :
  In (mt, meta) pthread_types -> In (name, sym) meta ->
  exists f, method sym = Some f /\ forall L args h w,
    udata_of (rev args) h 1 mt = None ->
    executes C L f args h w (Halt (Raise (EType 1 mt))) (put L (idle h) w).
Proof.
  intros Ht Hm. cut (exists f, method sym = Some f /\ guarded f mt).
  { intros (f & Hf & Hg). exists f. split; [done|]. intros L args h w Hu.
    destruct (Hg L args h w Hu) as [vs Hr]. by eapply executes_halt. }
  cbn in Ht. destruct_or? Ht; simplify_eq; cbn in Hm; try destruct signal_functions; cbn in Hm; destruct_or? Hm; simplify_eq;
    (eexists; split; [reflexivity|]);
    first [eapply guarded_checkcookie; intros; reflexivity
          |eapply guarded_checkcookieuv; intros; reflexivity
          |eapply guarded_gettop; intros; reflexivity].
Qed.

(** *** References *)

Definition is_key (b : pbody) : bool := match b with BKey _ => true | _ => false end.
Definition any_body (b : pbody) : bool := true.

(** what destroys an object of the type at [p] that holds [b]: the calls of the library, in order *)
Abbreviation dtor := (Z -> pbody -> list (string * list carg)).
Definition no_dtor : dtor := fun _ _ => [].
Definition dtor_of (fn : string) : dtor := fun p _ => [(fn, [AZ p])].
Definition key_dtor : dtor := fun _ b => match b with BKey k => [("pthread_key_delete", [AZ k])] | _ => [] end.
Definition rendezvous_dtor : dtor := fun p _ => [("pthread_cond_destroy", [AZ p]); ("pthread_mutex_destroy", [AZ p])].

(** the functions of a type: [retain], [cookie], [__gc]; its name, what its objects hold, what
    destroys them, and the functions of the library that this calls *)
Definition reference_types :
  list ((nat -> prog Z) * (nat -> prog Z) * (nat -> prog Z) * string * (pbody -> bool) * dtor * list string) := [
  (l_pthread_retain, l_pthread_cookie, l_pthread_gc, PTHREAD_METATABLE, any_body, no_dtor, []);
  (l_pthread_once_retain, l_pthread_once_cookie, l_pthread_once_gc, PTHREAD_ONCE_METATABLE, any_body, no_dtor, []);
  (l_pthread_mutex_retain, l_pthread_mutex_cookie, l_pthread_mutex_gc, PTHREAD_MUTEX_METATABLE, any_body,
   dtor_of "pthread_mutex_destroy", ["pthread_mutex_destroy"]);
  (l_pthread_cond_retain, l_pthread_cond_cookie, l_pthread_cond_gc, PTHREAD_COND_METATABLE, any_body,
   dtor_of "pthread_cond_destroy", ["pthread_cond_destroy"]);
  (l_pthread_rwlock_retain, l_pthread_rwlock_cookie, l_pthread_rwlock_gc, PTHREAD_RWLOCK_METATABLE, any_body,
   dtor_of "pthread_rwlock_destroy", ["pthread_rwlock_destroy"]);
  (l_pthread_key_retain, l_pthread_key_cookie, l_pthread_key_gc, PTHREAD_KEY_METATABLE, is_key,
   key_dtor, ["pthread_key_delete"]);
  (l_pthread_barrier_retain, l_pthread_barrier_cookie, l_pthread_barrier_gc, PTHREAD_BARRIER_METATABLE,
   any_body, dtor_of "pthread_barrier_destroy", ["pthread_barrier_destroy"]);
  (l_pthread_rendezvous_retain, l_pthread_rendezvous_cookie, l_pthread_rendezvous_gc,
   PTHREAD_RENDEZVOUS_METATABLE, any_body, rendezvous_dtor, ["pthread_cond_destroy"; "pthread_mutex_destroy"])].

Context (lib : string -> list carg -> S -> cret * S).

(** the library after these calls, and the first that failed, with its error number *)
Fixpoint call_all (calls : list (string * list carg)) (x : S) : option (string * Z) * S :=
  match calls with
  | [] => (None, x)
  | (fn, args) :: calls =>
      let r := lib fn args x in
      let rest := call_all calls r.2 in
      (if rc r.1 =? 0 then rest.1 else Some (fn, rc r.1), rest.2)
  end.

Definition report {A} (ok : A) (err : option (string * Z)) : outcome A :=
  match err with
  | None => Ok ok
  | Some (fn, e) => Halt (Raise (EMsg (fn +:+ ": " +:+ cstr (c_strerror e))))
  end.

(** [D] destroys the object by the calls of [ds], frees it, and reports the first failure *)
Definition destroys (D : nat -> Z -> prog Z) (fits : pbody -> bool) (ds : dtor) : Prop :=
  forall L p s w r b, p ≠ 0 -> fits b = true -> wm w !! p = Some (ORc r b) ->
  let d := call_all (ds p b) (wx w) in
  rn (D L p) (put L s w) = (report 0 d.1, put L s (release p (set_x d.2 w))).

Lemma destroys_free : destroys (fun L p => free p;; mret 0) any_body no_dtor.
Proof.
  intros L p s w r b Hp _ Hm d. rewrite run_bind, (run_free C p _ L s w Hp Hm). by destruct w.
Qed.

Lemma destroys_one fn : external C [fn] lib ->
  destroys (fun L p => r ← call fn [AZ p]; free p;; if negb (rc r =? 0) then fatal L fn (rc r) else mret 0)
    any_body (dtor_of fn).
Proof.
  intros He L p s w r b Hp _ Hm. cbn [call_all dtor_of]. cbv zeta. set (x := lib fn [AZ p] (wx w)).
  rewrite run_bind, (run_external C _ lib) by (done || by left). cbn [andthen]. fold x.
  rewrite run_bind, (run_free C p _ L s (set_x x.2 w) Hp Hm). cbn [andthen fst snd].
  destruct (rc x.1 =? 0); [done|apply run_fatal].
Qed.

Lemma destroys_key : external C ["pthread_key_delete"] lib ->
  destroys (fun L p => key ← load p key_load; r ← call "pthread_key_delete" [AZ key]; free p;;
    if negb (rc r =? 0) then fatal L "pthread_key_delete" (rc r) else mret 0) is_key key_dtor.
Proof.
  intros He L p s w r b Hp Hb Hm. destruct b as [| | | | |k| |]; try done. cbn [call_all key_dtor]. cbv zeta.
  set (x := lib "pthread_key_delete" [AZ k] (wx w)).
  rewrite run_bind, (run_read C p key_load _ k _ _ _ Hm eq_refl). cbn [andthen].
  rewrite run_bind, (run_external C _ lib) by (done || by left). cbn [andthen]. fold x.
  rewrite run_bind, (run_free C p _ L s (set_x x.2 w) Hp Hm). cbn [andthen fst snd].
  destruct (rc x.1 =? 0); [done|apply run_fatal].
Qed.

Lemma destroys_two : external C ["pthread_cond_destroy"; "pthread_mutex_destroy"] lib ->
  destroys (fun L p => r1 ← call "pthread_cond_destroy" [AZ p]; r2 ← call "pthread_mutex_destroy" [AZ p]; free p;;
    if negb (rc r1 =? 0) then fatal L "pthread_cond_destroy" (rc r1)
    else if negb (rc r2 =? 0) then fatal L "pthread_mutex_destroy" (rc r2) else mret 0) any_body rendezvous_dtor.
Proof.
  intros He L p s w r b Hp _ Hm. cbn [call_all rendezvous_dtor]. cbv zeta.
  set (x1 := lib "pthread_cond_destroy" [AZ p] (wx w)). set (x2 := lib "pthread_mutex_destroy" [AZ p] x1.2).
  rewrite run_bind, (run_external C _ lib) by (done || by left). cbn [andthen]. fold x1.
  rewrite run_bind, (run_external C _ lib) by (done || right; by left). cbn [andthen].
  change (lib "pthread_mutex_destroy" [AZ p] (wx (set_x x1.2 w))) with x2.
  rewrite run_bind, (run_free C p _ L s (set_x x2.2 w) Hp Hm). cbn [andthen fst snd].
  destruct (rc x1.1 =? 0); [destruct (rc x2.1 =? 0); [done|]|]; apply run_fatal.
Qed.

(** what the functions of a type have in common *)
Lemma reference_shapes retain cookie gc mt fits ds fns :
  In (retain, cookie, gc, mt, fits, ds, fns) reference_types -> external C fns lib ->
  (forall L, retain L = (p ← checklightuserdata L 1; refcount_retain p;; new L p mt)) /\
  (forall L, cookie L = (checkcookieuv L 1 mt;; mret 1)) /\
  exists D, destroys D fits ds /\
    forall L, gc L = (p ← checkcookie L 1 mt; last ← refcount_release p; if last : bool then D L p else mret 0).
Proof.
  intros Hin He. cbn in Hin.
  destruct_or? Hin; simplify_eq; (split; [done|]); (split; [done|]).
  1,2: by eexists; split; [apply destroys_free|reflexivity].
  1,2,3: by eexists; split; [by apply destroys_one|reflexivity].
  - eexists. split; [by apply destroys_key|reflexivity].
  - eexists. split; [by apply destroys_one|reflexivity].
  - eexists. split; [by apply destroys_two|reflexivity].
Qed.

(** C7. For every type of the module: [cookie] gives the address of the object; [retain] on that
    cookie makes another handle on the same object and counts it; and collecting a handle
    uncounts it and, if it was the last, makes the calls of the library that destroy the object
    (for a rendezvous both, even when the first fails), frees its memory, and raises the first
    of their errors, if there was one. *)
Theorem object_references retain cookie gc mt fits ds fns L h w p r b :
  In (retain, cookie, gc, mt, fits, ds, fns) reference_types -> external C fns lib ->
  p ≠ 0 -> fits b = true -> wm w !! p = Some (ORc r b) ->
  (forall mtid, reg_get (inl mt) h = VTab mtid ->
   executes C L retain [VLud p] h w (Ok [VUd (fresh h)])
     (put L (idle (alloc_handle mtid p h)) (poke p (ORc (wrapu 64 (r + 1)) b) w))) /\
  forall args, handle (rev args) h 1 mt p ->
  executes C L cookie args h w (Ok [VLud p]) (put L (idle h) w) /\
  if r =? 1
  then let d := call_all (ds p b) (wx w) in
    executes C L gc args h w (report [] d.1) (put L (idle h) (release p (set_x d.2 w)))
  else executes C L gc args h w (Ok []) (put L (idle h) (poke p (ORc (wrapu 64 (r - 1)) b) w)).
Proof.
  intros Hin He Hp Hb Hm. destruct (reference_shapes _ _ _ _ _ _ _ Hin He) as (Hre & Hco & D & HD & Hgc).
  split.
  - intros mtid Hr. eapply invoke_return. rewrite Hre. unfold frame, LUA_MINSTACK.
    rewrite run_bind, (run_checklightuserdata C L 1 p) by done. cbn [andthen].
    rewrite run_bind, (run_refcount_retain C p _ r _ _ _ Hm eq_refl). cbn [andthen set_refs].
    by rewrite (run_new C L p mt mtid _ 18 h _ Hr).
  - intros args Hh. split.
    + eapply invoke_return. rewrite Hco. unfold frame, LUA_MINSTACK.
      rewrite run_bind, (run_checkcookieuv C L 1 mt p _ 19) by done. done.
    + set (w1 := poke p (ORc (wrapu 64 (r - 1)) b) w).
      assert (Hg : rn (gc L) (put L (frame args h) w) =
        rn (if r =? 1 then D L p else mret 0) (put L (frame args h) w1)).
      { rewrite Hgc, run_bind, (run_checkcookie_frame C L 1 _ p) by done. cbn [andthen].
        by rewrite run_bind, (run_refcount_release C p _ r _ _ _ Hm eq_refl). }
      destruct (r =? 1); [|apply (executes_return C L _ _ _ _ [] (rev args) 20); by rewrite Hg].
      assert (Hm1 : wm w1 !! p = Some (ORc (wrapu 64 (r - 1)) b)) by apply lookup_insert_eq.
      pose proof (HD L p (frame args h) w1 _ b Hp Hb Hm1) as Hr. cbv zeta in *. change (wx w1) with (wx w) in Hr.
      set (d := call_all (ds p b) (wx w)) in *.
      assert (Hw : release p (set_x d.2 w1) = release p (set_x d.2 w)).
      { unfold release, set_x, w1, poke, set_mem. cbn. by rewrite delete_insert_eq. }
      rewrite Hw in Hr. rewrite <- Hg in Hr. destruct d as [[[fn e]|] x]; cbn [report fst snd] in *.
      * by apply (executes_halt C L _ _ _ _ _ (rev args) 20).
      * by apply (executes_return C L _ _ _ _ [] (rev args) 20).
Qed.

(** *** The module *)

Lemma types_ok : NoDup pthread_types.*1 /\
  Forall (fun t : string * list (string * string) => NoDup t.2.*1 /\ "__index" ∉ t.2.*1) pthread_types.
Proof.
  unfold pthread_types, l_pthread_meta. destruct signal_functions; (split;
    [apply (bool_decide_unpack _); vm_compute; exact I|apply (bool_decide_unpack _); vm_compute; exact I]).
Qed.

Lemma libs_ok : NoDup l_pthread_funcs.*1 /\
  Forall (fun lib : string * list (string * string) * list (string * Z) =>
    NoDup (lib.1.2.*1 ++ lib.2.*1)) pthread_libs /\
  NoDup (l_pthread_funcs.*1 ++ (fst ∘ fst <$> pthread_libs) ++ pthread_consts.*1).
Proof.
  unfold l_pthread_funcs. destruct signal_functions; split_all; apply (bool_decide_unpack _); vm_compute; exact I.
Qed.

Lemma run_require {A} L h w xg rq rs h1 w1 (k : prog A) :
  tabs h !! globals h = Some xg -> tmap xg !! KStr "require" = Some rq ->
  c_fn C L rq [VStr "sys.cpuset"] (put L (LS [] LUA_MINSTACK h) w) =
    (Ok (true, rs), put L (LS [] LUA_MINSTACK h1) w1) ->
  rn (lua_getglobal L "require";; lua_pushstring L "sys.cpuset";; lua_call0 L 1;; k) (put L (LS [] 20 h) w) =
  rn k (put L (LS [] 20 h1) w1).
Proof.
  intros Hxg Hrq Hreq. rewrite run_bind, run_lua. cbn [doc]. unfold doc_getglobal, get_tab. cbn [hp].
  rewrite Hxg, Hrq. unfold push, raw_get. cbn [room stk hp]. rewrite Hrq. cbn [default andthen].
  rewrite run_bind, run_lua. cbn [doc push room stk hp andthen].
  rewrite run_bind. unfold lua_call0. rewrite run_bind, run_lua. cbn [doc]. unfold doc_popcall. cbn [stk].
  change (Z.to_nat 1) with 1%nat.
  cbn [lookup list_lookup Z.leb Z.compare room hp drop Nat.add rev take app andthen fst snd].
  rewrite run_bind, run_callfn. change (cstr "sys.cpuset") with "sys.cpuset". unfold LUA_MINSTACK, id in *.
  by rewrite Hreq.
Qed.

(** Opening the module (on a state where [sys.cpuset] loads) registers all eight types with
    every method of their tables, found through [__index], and returns a table with every
    function, the constants, and a table of functions and constants per kind of object; what
    was in the state after [sys.cpuset] was loaded is not changed. *)
Theorem pthread_open L h w xg rq rs h1 w1 :
  tabs h !! globals h = Some xg -> tmap xg !! KStr "require" = Some rq ->
  c_fn C L rq [VStr "sys.cpuset"] (put L (LS [] LUA_MINSTACK h) w) =
    (Ok (true, rs), put L (LS [] LUA_MINSTACK h1) w1) ->
  external C ["pthread_setspecific"] lib ->
  (forall args s, rc (lib "pthread_setspecific" args s).1 = 0) ->
  Forall (fun t => reg_get (inl t.1) h1 = VNil) pthread_types ->
  exists h' m ts x, executes C L luaopen_pthread [] h w (Ok [VTab m]) (put L (idle h') (set_x x w1)) /\
    Forall (fun t => typed h' t.1 t.2) pthread_types /\
    exports h' m l_pthread_funcs
      (zip (fst ∘ fst <$> pthread_libs) (VTab <$> ts) ++ (prod_map id VInt <$> pthread_consts)) /\
    Forall2 (fun t lib => exports h' t lib.1.2 (prod_map id VInt <$> lib.2)) ts pthread_libs /\
    grows pthread_types.*1 h1 h'.
Proof.
  intros Hxg Hrq Hreq He Hok Hnil.
  destruct types_ok as [Hnd Hmeta]. destruct libs_ok as (Hf & Hlibs & Hall).
  set (x := (lib "pthread_setspecific" [AS "thread_state_key"; AZ (state_ptr L)] (wx w1)).2).
  set (w2 := set_x x w1).
  destruct (run_register_types C L pthread_types [] 11 h1 w2) as (h2 & vs & R2 & Hvs & T2 & G2); [|done|].
  { apply list.Forall_forall. intros t Hin.
    split; [exact (proj1 (list.Forall_forall _ _) Hnil t Hin)|exact (proj1 (list.Forall_forall _ _) Hmeta t Hin)]. }
  destruct (run_newlib C L l_pthread_funcs (vs ++ []) 11 h2 w2
    (sublibs L pthread_libs;; define_all L pthread_consts;; mret 1)) as (h3 & R3 & E3 & G3 & Hlt); [done|].
  set (m := fresh h2) in *.
  destruct (run_sublibs C L m l_pthread_funcs pthread_libs [] (vs ++ []) 9 h3 w2 E3 Hlt Hlibs)
    as (h4 & ts & R4 & E4 & F4 & Em & G4).
  { rewrite app_assoc in Hall. by apply list.NoDup_app in Hall as (Hall & _). }
  cbn [app] in Em.
  assert (Hz : (zip (fst ∘ fst <$> pthread_libs) (VTab <$> ts)).*1 = fst ∘ fst <$> pthread_libs).
  { apply fst_zip. rewrite !length_fmap. apply Forall2_length in E4. lia. }
  destruct (run_define_all C L pthread_consts m l_pthread_funcs _ (vs ++ []) 10 h4 w2 Em)
    as (y & R5 & E5); [by rewrite Hz|].
  assert (G23 : grows [] h2 h4) by (eapply grows_except_grows; [exact G3|done|exact G4]).
  assert (G25 : grows [] h2 (set_tab m y h4)) by (apply grows_set_tab; [done|lia]).
  exists (set_tab m y h4), m, ts, x. split_all; [|..].
  - apply (invoke_return C _ _ _ _ _ _ (vs ++ []) 11). unfold luaopen_pthread, frame, LUA_MINSTACK. cbn [rev].
    etransitivity; [exact (run_require _ _ _ _ _ _ _ _ _ Hxg Hrq Hreq)|].
    rewrite run_bind.
    rewrite (run_external C _ lib _ _ _ _ _ He (or_introl eq_refl)).
    cbn [andthen]. rewrite Hok. cbn [negb Z.eqb].
    fold x. rewrite run_bind. change (set_x x w1) with w2. etransitivity; [exact (f_equal (fun r => andthen r _) R2)|].
    cbn [andthen]. etransitivity; [exact R3|]. rewrite run_bind.
    etransitivity; [exact (f_equal (fun r => andthen r _) R4)|]. cbn [andthen]. rewrite run_bind.
    etransitivity; [exact (f_equal (fun r => andthen r _) R5)|]. done.
  - eapply typed_list; [exact T2|exact G25|]. intros name _. apply not_elem_of_nil.
  - exact E5.
  - by eapply (exports_others (fun lib => lib.1.2) (fun lib => prod_map id VInt <$> lib.2)).
  - rewrite <- (app_nil_r pthread_types.*1). exact (grows_trans _ _ _ _ _ G2 G25).
Qed.
End properties.

(** ** Witnesses *)

Lemma methods_guard_witness :
  exists f, method "l_pthread_rwlock_unlock" = Some f /\ forall L args h w,
    udata_of (rev args) h 1 PTHREAD_RWLOCK_METATABLE = None ->
    executes (sample_clib []) L f args h w (Halt (Raise (EType 1 PTHREAD_RWLOCK_METATABLE)))
      (put L (idle h) w).
Proof.
  apply (methods_guard (sample_clib []) PTHREAD_RWLOCK_METATABLE l_pthread_rwlock_meta "unlock"); cbn; auto 10.
Defined.

(** a library all of whose calls fail, and which counts them *)
Definition counting_clib (e : Z) : clib Z := {|
  c_call := fun _ _ w => (Ok (Cret e []), set_x (wx w + 1) w);
  c_fn := fun _ _ args w => (Ok (true, args), w) |}.

(** collecting the last handle of a read/write lock somebody holds *)
Lemma object_references_witness :
  executes (counting_clib 16) 0 l_pthread_rwlock_gc [VUd 2]
    (sample_heap PTHREAD_RWLOCK_METATABLE [VLud 512] 0) (sample_world {[ 512 := ORc 1 BRwlock ]})
    (Halt (Raise (EMsg "pthread_rwlock_destroy: Error")))
    (put 0%nat (idle (sample_heap PTHREAD_RWLOCK_METATABLE [VLud 512] 0))
      (release 512 (set_x 1 (sample_world {[ 512 := ORc 1 BRwlock ]})))).
Proof.
  refine (proj2 (proj2 (object_references (counting_clib 16) (fun _ _ s => (Cret 16 [], s + 1))
    l_pthread_rwlock_retain l_pthread_rwlock_cookie l_pthread_rwlock_gc PTHREAD_RWLOCK_METATABLE any_body
    (dtor_of "pthread_rwlock_destroy") ["pthread_rwlock_destroy"] 0 (sample_heap PTHREAD_RWLOCK_METATABLE [VLud 512] 0)
    (sample_world {[ 512 := ORc 1 BRwlock ]}) 512 1 BRwlock _ _ _ _ _) [VUd 2] _));
    [cbn; auto 10|done|done|reflexivity|reflexivity|apply sample_handle].
Defined.

(** [require] is function 3 *)
Definition open_heap : heap :=
  Heap {[ 0%nat := Table {[ KStr "require" := VFun 3 ]} None ]} {[ 3%nat := CF "require" ]} ∅ ∅ 0 10.

Lemma pthread_open_witness :
  exists h' m ts x, executes (sample_clib []) 0 luaopen_pthread [] open_heap (sample_world ∅) (Ok [VTab m])
      (put 0%nat (idle h') (set_x x (sample_world ∅))) /\
    Forall (fun t => typed h' t.1 t.2) pthread_types /\
    exports h' m l_pthread_funcs
      (zip (fst ∘ fst <$> pthread_libs) (VTab <$> ts) ++ (prod_map id VInt <$> pthread_consts)) /\
    Forall2 (fun t lib => exports h' t lib.1.2 (prod_map id VInt <$> lib.2)) ts pthread_libs /\
    grows pthread_types.*1 open_heap h'.
Proof.
  apply (pthread_open (sample_clib []) (fun _ _ s => (Cret 0 [], s)) 0 open_heap (sample_world ∅)
    (Table {[ KStr "require" := VFun 3 ]} None) (VFun 3) [VStr "sys.cpuset"] open_heap (sample_world ∅));
    [reflexivity|reflexivity|reflexivity|apply sample_external|done|repeat constructor].
Defined.
