(* ===== verification/Xor.v ===== *)
(** * lua_xor.c

    [xor.apply]: a string, byte by byte, xored with a key of four bytes. *)

From Stdlib Require Import SpecFloat.
From stdpp Require Import pretty.
From S2P Require Import Prelude LuaApi Arrays Machine Capi Utils Registry Modules Samples.

(** ** Bytes and numbers *)

(** C truncates a floating-point number converted to an integer type, and leaves
    the result undefined when it does not fit *)
Definition float_trunc (f : spec_float) : option Z :=
  match f with
  | S754_zero _ => Some 0
  | S754_finite s m e =>
      let z := if 0 <=? e then Z.pos m * 2 ^ e else Z.pos m / 2 ^ (- e) in
      Some (if s then - z else z)
  | _ => None
  end.
Definition float_to_uchar (f : spec_float) : option Z :=
  match float_trunc f with Some z => if (0 <=? z) && (z <? 256) then Some z else None | None => None end.

Definition byte_xor (c : Ascii.ascii) (k : Z) : Ascii.ascii :=
  Ascii.ascii_of_N (N.lxor (Ascii.N_of_ascii c) (Z.to_N k)).

(** ** Operations *)

Section ops.
Context `{Consts}.

Definition keylen : Z := 4.

(** the [i]th byte of a buffer that is filled from the start *)
Definition buf_set (i : nat) (c : Ascii.ascii) (o : obj) : option (unit * obj) :=
  match o with
  | OBuf len s => if (i =? String.length s)%nat && (Z.of_nat i <? len)
                  then Some (tt, OBuf len (s +:+ String c "")) else None
  | _ => None
  end.

(** all of its bytes *)
Definition buf_get (o : obj) : option (string * obj) :=
  match o with OBuf len s => if Z.of_nat (String.length s) =? len then Some (s, o) else None | _ => None end.

(** the elements of the key, left on the stack *)
Fixpoint read_key (L : nat) (n : nat) (i : Z) : prog (list Z) :=
  match n with
  | O => mret []
  | S n =>
      t ← lua_rawgeti L 2 i;
      if negb (is_type t TNUMBER)
      then luaL_error L ("`key[" +:+ pretty i +:+ "]' is not a number")
      else
        x ← lua_tonumber L (-1);
        match float_to_uchar x with
        | Some k => key ← read_key L n (i + 1); mret (k :: key)
        | None => undefined "conversion of a double out of range"
        end
  end.

Fixpoint xor_loop (output : Z) (key : list Z) (input : string) (i : nat) : prog unit :=
  match input with
  | EmptyString => mret tt
  | String c input =>
      load output (buf_set i (byte_xor c (nth (i mod 4) key 0)));;
      xor_loop output key input (S i)
  end.

Definition l_xor_apply (L : nat) : prog Z :=
  input ← luaL_checklstring L 1;
  let len := Z.of_nat (String.length input) in
  luaL_checktype L 2 TTABLE;;
  n ← luaL_len L 2;
  luaL_argcheck L (n =? keylen) 2 "`key' with length 4 expected";;
  key ← read_key L (Z.to_nat keylen) 1;
  lua_pop L keylen;;
  output ← malloc len (OBuf len "");
  if output =? 0 then fatal L "malloc" (cst "ENOMEM")
  else
    xor_loop output key input 0;;
    s ← load output buf_get;
    lua_pushlstring L s;;
    free output;;
    mret 1.

Definition l_xor_funcs : list (string * string) := [("apply", "l_xor_apply")].

Definition luaopen_xor (L : nat) : prog Z :=
  luaL_newlib L l_xor_funcs;;
  mret 1.
End ops.

(** ** The function it computes *)

Fixpoint xor_from (key : list Z) (i : nat) (s : string) : string :=
  match s with
  | EmptyString => EmptyString
  | String c s => String (byte_xor c (nth (i mod 4) key 0)) (xor_from key (S i) s)
  end.
Definition xor_string (key : list Z) (s : string) : string := xor_from key 0 s.

Definition is_byte (k : Z) : Prop := 0 <= k < 256.

Lemma lxor_byte : forall a b, (a < 256)%N -> (b < 256)%N -> (N.lxor a b < 256)%N.
Proof.
  assert (Hlog : forall x, (x < 256)%N -> (N.log2 x < 8)%N).
  { intros x Hx. destruct (N.eq_dec x 0) as [->|Hn]; [done|]. by apply N.log2_lt_pow2; [lia|]. }
  intros a b Ha Hb. destruct (N.eq_dec (N.lxor a b) 0) as [->|Hn]; [done|].
  apply (N.log2_lt_pow2 _ 8); [lia|]. eapply N.le_lt_trans; [apply N.log2_lxor|].
  apply N.max_lub_lt; by apply Hlog.
Qed.

Lemma byte_xor_invol c k : is_byte k -> byte_xor (byte_xor c k) k = c.
Proof.
  intros Hk. unfold byte_xor.
  assert (Hc : (Ascii.N_of_ascii c < 256)%N) by apply Ascii.N_ascii_bounded.
  rewrite Ascii.N_ascii_embedding by (apply lxor_byte; unfold is_byte in Hk; lia).
  rewrite N.lxor_assoc, N.lxor_nilpotent, N.lxor_0_r. apply Ascii.ascii_N_embedding.
Qed.

Lemma xor_from_invol key i s : Forall is_byte key -> xor_from key i (xor_from key i s) = s.
Proof.
  intros Hk. revert i. induction s as [|c s IH]; intros i; [done|]. cbn [xor_from]. rewrite IH. f_equal.
  apply byte_xor_invol. destruct (nth_in_or_default (i mod 4) key 0) as [Hin|Hz]; [|by rewrite Hz].
  by apply (proj1 (Forall_forall _ _) Hk).
Qed.

Lemma xor_from_length key i s : String.length (xor_from key i s) = String.length s.
Proof. revert i. induction s as [|c s IH]; intros i; [done|]. cbn. by rewrite IH. Qed.

(** the byte a Lua number gives *)
Definition key_byte (v : value) : option Z :=
  match v with
  | VInt z => float_to_uchar (integer_to_float z)
  | VNum f => float_to_uchar f
  | _ => None
  end.

Lemma key_byte_range v k : key_byte v = Some k -> is_byte k.
Proof.
  unfold key_byte, float_to_uchar, is_byte. intros Hk. repeat case_match; simplify_eq; lia.
Qed.

(** integers that are bytes are taken as they are *)
Lemma key_byte_int z : is_byte z -> key_byte (VInt z) = Some z.
Proof.
  intros Hz. assert (Hall : forallb (fun n => bool_decide (key_byte (VInt (Z.of_nat n)) = Some (Z.of_nat n)))
    (seq 0 256) = true) by by vm_compute.
  rewrite forallb_forall in Hall. specialize (Hall (Z.to_nat z)).
  rewrite Z2Nat.id in Hall by (unfold is_byte in Hz; lia). eapply bool_decide_eq_true_1, Hall, in_seq.
  unfold is_byte in Hz. lia.
Qed.

(** ** How it runs *)

Section run.
Context `{Consts} `{LuaSem} {S : Type} `{Libc S} (C : clib S).
Implicit Types (w : world S lstate) (L : nat) (vs : list value) (h : heap).
Abbreviation rn := (run (documented C)).

Lemma key_byte_number v k : key_byte v = Some k ->
  type_of v = TNUMBER /\ exists x, float_to_uchar x = Some k /\
  forall vs n h, doc_tonumber (-1) (LS (v :: vs) n h) = (Ok x, LS (v :: vs) n h).
Proof. destruct v; try done; intros Hk; split; [done|by eexists|done|by eexists]. Qed.

Lemma run_read_key L t kv x kv0 h w : forall (rest : list value) key below n i,
  at_ below 2 = Val (VTab t) -> tabs h !! t = Some (Table (arr kv) x) ->
  kv = kv0 ++ rest -> i = Z.of_nat (length kv0) + 1 -> Forall2 (fun v k => key_byte v = Some k) rest key ->
  rn (read_key L (length rest) i) (put L (LS below (length rest + n) h) w) =
  (Ok key, put L (LS (rev rest ++ below) n h) w).
Proof.
  intros rest key below n i Ha Ht Hkv Hi Hall. revert kv0 below i Ha Hkv Hi.
  induction Hall as [|v k rest key Hv _ IH]; intros kv0 below i Ha Hkv Hi; [done|].
  cbn [length read_key]. destruct (key_byte_number v k Hv) as (Hty & f & Hf & Htn).
  assert (Hget : raw_get (KInt i) (Table (arr kv) x) = v).
  { rewrite Hi. apply raw_get_arr. rewrite Hkv. by apply list_lookup_middle. }
  rewrite run_bind, run_lua. cbn [doc]. unfold doc_rawget, at_value, get_tab. cbn [stk hp]. rewrite Ha.
  cbv beta iota. cbn [hp]. rewrite Ht. unfold push. cbn [room stk hp Nat.add]. rewrite Hget, Hty.
  cbn [andthen]. change (is_type TNUMBER TNUMBER) with true. cbn [negb].
  rewrite run_bind, run_lua. cbn [doc]. rewrite Htn. cbn [andthen]. rewrite Hf.
  rewrite run_bind, (IH (kv0 ++ [v]) (v :: below) (i + 1)).
  - cbn [andthen]. rewrite run_ret. cbn [rev]. by rewrite <- app_assoc.
  - by apply at_cons.
  - by rewrite <- app_assoc.
  - rewrite length_app, Hi. cbn. lia.
Qed.

Lemma run_xor_loop L s p key len : forall input i done w,
  p ≠ 0 -> wm w !! p = Some (OBuf len done) -> String.length done = i ->
  len = Z.of_nat (i + String.length input) ->
  rn (xor_loop p key input i) (put L s w) =
  (Ok tt, put L s (poke p (OBuf len (done +:+ xor_from key i input)) w)).
Proof.
  induction input as [|c input IH]; intros i dn w Hp Hm Hd Hlen; cbn [xor_loop xor_from].
  - rewrite string_app_nil_r. unfold poke, set_mem. rewrite insert_id by done. by destruct w.
  - set (x := byte_xor c (nth (i mod 4) key 0)). cbn [String.length] in Hlen.
    assert (Hset : buf_set i x (OBuf len dn) = Some (tt, OBuf len (dn +:+ String x ""))).
    { unfold buf_set. rewrite Hd, Nat.eqb_refl. by rewrite (proj2 (Z.ltb_lt _ _)) by lia. }
    rewrite run_bind, (run_load C p _ _ _ _ _ _ _ Hm Hset). cbn [andthen].
    rewrite (IH (Datatypes.S i) (dn +:+ String x "")).
    + by rewrite poke_poke, string_app_assoc.
    + done.
    + cbn. apply lookup_insert_eq.
    + rewrite string_app_length, Hd. cbn. lia.
    + lia.
Qed.
End run.

(** ** Properties *)

Section properties.
Context `{Consts} `{LuaSem} {S : Type} `{Libc S} (C : clib S).
Implicit Types (w : world S lstate) (L : nat) (vs : list value) (h : heap).
Abbreviation rn := (run (documented C)).

Lemma release_poke p o w : wm w !! p = None -> release p (poke p o w) = w.
Proof. intros Hm. unfold release, poke, set_mem; cbn. rewrite delete_insert_id by done. by destruct w. Qed.

(** [t] is an array of four numbers, the bytes [key] *)
Definition key_table (h : heap) (t : nat) (key : list Z) : Prop :=
  length key = 4%nat /\ exists kv, tabs h !! t = Some (Table (arr kv) None) /\
    Forall2 (fun v k => key_byte v = Some k) kv key.

(** after the checks of the arguments *)
Definition xor_rest (L : nat) (kv : list value) (s : string) : prog Z :=
  luaL_argcheck L (Z.of_nat (length kv) =? keylen) 2 "`key' with length 4 expected";;
  key ← read_key L (Z.to_nat keylen) 1;
  lua_pop L keylen;;
  output ← malloc (Z.of_nat (String.length s)) (OBuf (Z.of_nat (String.length s)) "");
  if output =? 0 then fatal L "malloc" (cst "ENOMEM")
  else
    xor_loop output key s 0;;
    s ← load output buf_get;
    lua_pushlstring L s;;
    free output;;
    mret 1.

Lemma run_xor_start L t kv s h w :
  tabs h !! t = Some (Table (arr kv) None) ->
  rn (l_xor_apply L) (put L (frame [VStr s; VTab t] h) w) =
  rn (xor_rest L kv s) (put L (LS [VTab t; VStr s] 20 h) w).
Proof.
  intros Ht. unfold l_xor_apply, frame, LUA_MINSTACK. cbn [rev app].
  rewrite run_bind, run_lua. cbn [doc]. unfold doc_checklstring, at_index. cbn [stk].
  change (at_ [VTab t; VStr s] 1) with (Val (VStr s)). cbn [andthen].
  rewrite run_bind, run_lua. cbn [doc]. unfold doc_checktype, at_index. cbn [stk].
  change (at_ [VTab t; VStr s] 2) with (Val (VTab t)). cbn [type_of].
  change (is_type TTABLE TTABLE) with true. cbn [andthen].
  rewrite run_bind, run_lua. cbn [doc]. unfold doc_len, at_value, get_tab. cbn [stk hp].
  change (at_ [VTab t; VStr s] 2) with (Val (VTab t)). cbv beta iota. cbn [hp]. rewrite Ht. cbn [tmeta].
  by rewrite seq_len_arr.
Qed.

Lemma run_xor_apply L t key s h w :
  key_table h t key -> woom w (Z.of_nat (String.length s)) (wnext w) = false -> wnext w ≠ 0 ->
  wm w !! wnext w = None ->
  executes C L l_xor_apply [VStr s; VTab t] h w (Ok [VStr (xor_string key s)])
    (put L (idle h) (set_next (wnext w + 1) w)).
Proof.
  intros (Hk4 & kv & Ht & Hkv) Ho Hp Hf. assert (Hlen : length kv = length key) by by eapply Forall2_length.
  eapply (invoke_return C _ _ _ _ _ _ [VTab t; VStr s] 19). rewrite (run_xor_start L t kv s h w Ht).
  unfold xor_rest. rewrite Hlen, Hk4. change (Z.of_nat 4 =? keylen) with true.
  rewrite run_bind, run_argcheck_true. cbn [andthen].
  pose proof (run_read_key C L t kv None [] h w kv key [VTab t; VStr s] 16 1 eq_refl Ht eq_refl eq_refl Hkv) as Hr.
  rewrite Hlen, Hk4 in Hr. rewrite run_bind. change (Z.to_nat keylen) with 4%nat.
  change (4 + 16)%nat with 20%nat in Hr. rewrite Hr. cbn [andthen].
  rewrite run_bind, run_lua. cbn [doc]. change (- keylen - 1) with (- Z.of_nat 4 - 1).
  rewrite doc_settop_neg by (rewrite length_app, length_rev; lia).
  rewrite drop_app_length' by (rewrite length_rev; lia). cbn [andthen].
  rewrite run_bind, run_malloc_ok by done. cbn [andthen]. destruct (Z.eqb_spec (wnext w) 0); [done|].
  set (w1 := set_next (wnext w + 1) w).
  rewrite run_bind, (run_xor_loop C L _ (wnext w) key (Z.of_nat (String.length s)) s 0 ""); [|done| |done|done].
  2:{ cbn. apply lookup_insert_eq. }
  cbn [andthen]. rewrite poke_poke. change ("" +:+ xor_from key 0 s) with (xor_string key s).
  set (o := OBuf (Z.of_nat (String.length s)) (xor_string key s)).
  assert (Hm : wm (poke (wnext w) o w1) !! wnext w = Some o) by apply lookup_insert_eq.
  assert (Hget : buf_get o = Some (xor_string key s, o)).
  { unfold buf_get, o, xor_string. by rewrite xor_from_length, Z.eqb_refl. }
  rewrite run_bind, (run_read C _ _ _ _ _ _ _ Hm Hget). cbn [andthen].
  rewrite run_bind, run_lua. cbn [doc push room stk hp Nat.add andthen].
  rewrite run_bind, (run_free C (wnext w) o) by done. cbn [andthen]. rewrite run_ret.
  by rewrite release_poke.
Qed.

(** C39. [xor.apply] combines each byte of the input with the byte of the key at that position
    modulo four and gives the buffer it used back; applied again with the same key to what it
    returned it returns the input. *)
Theorem xor_apply L t key s h w :
  key_table h t key -> (forall size p, woom w size p = false) -> 0 < wnext w ->
  (forall p, wnext w <= p -> wm w !! p = None) ->
  let w1 := set_next (wnext w + 1) w in
  String.length (xor_string key s) = String.length s /\
  executes C L l_xor_apply [VStr s; VTab t] h w (Ok [VStr (xor_string key s)]) (put L (idle h) w1) /\
  executes C L l_xor_apply [VStr (xor_string key s); VTab t] h w1 (Ok [VStr s])
    (put L (idle h) (set_next (wnext w1 + 1) w1)).
Proof.
  intros Hk Ho Hp Hf w1. split_all.
  - apply xor_from_length.
  - apply run_xor_apply; [done|done|lia|apply Hf; lia].
  - assert (Hs : xor_string key (xor_string key s) = s).
    { apply xor_from_invol. destruct Hk as (_ & kv & _ & Hkv). clear -Hkv.
      induction Hkv as [|v k kv key Hv _ IH]; constructor; [by eapply key_byte_range|done]. }
    rewrite <- Hs at 2. apply run_xor_apply; [done|apply Ho|cbn; lia|apply Hf; cbn; lia].
Qed.

(** A key of another length, or with an element that is not a number, is refused; a number
    that is no byte has an undefined conversion. *)
Theorem xor_bad_key L t kv s h w :
  tabs h !! t = Some (Table (arr kv) None) ->
  (length kv ≠ 4%nat ->
   executes C L l_xor_apply [VStr s; VTab t] h w
     (Halt (Raise (EArg 2 "`key' with length 4 expected"))) (put L (idle h) w)) /\
  (forall v rest, kv = v :: rest -> length kv = 4%nat -> type_of v ≠ TNUMBER ->
   executes C L l_xor_apply [VStr s; VTab t] h w
     (Halt (Raise (EMsg "`key[1]' is not a number"))) (put L (idle h) w)) /\
  (forall z rest, kv = VInt z :: rest -> length kv = 4%nat -> key_byte (VInt z) = None ->
   (rn (l_xor_apply L) (put L (frame [VStr s; VTab t] h) w)).1 =
   Halt (UB "conversion of a double out of range")).
Proof.
  intros Ht.
  pose proof (run_xor_start L t kv s h w Ht) as Hs.
  assert (Hfirst : forall v rest, kv = v :: rest -> raw_get (KInt 1) (Table (arr kv) None) = v).
  { intros v rest ->. by apply (raw_get_arr _ _ 0%nat). }
  assert (Hget : forall v rest, kv = v :: rest ->
    rn (lua_rawgeti L 2 1) (put L (LS [VTab t; VStr s] 20 h) w) =
    (Ok (type_of v), put L (LS [v; VTab t; VStr s] 19 h) w)).
  { intros v rest Hkv. rewrite run_lua. cbn [doc]. unfold doc_rawget, at_value, get_tab. cbn [stk hp].
    change (at_ [VTab t; VStr s] 2) with (Val (VTab t)). cbv beta iota. cbn [hp]. rewrite Ht.
    unfold push. cbn [room stk hp]. by rewrite (Hfirst v rest Hkv). }
  split_all.
  - intros Hl. eapply executes_halt; [|done]. rewrite Hs.
    unfold xor_rest. destruct (Z.eqb_spec (Z.of_nat (length kv)) keylen); [unfold keylen in *; lia|].
    by rewrite run_bind, run_argcheck_false.
  - intros v rest Hkv Hl Hty. eapply executes_halt; [|done]. rewrite Hs. unfold xor_rest. rewrite Hl.
    change (Z.of_nat 4 =? keylen) with true. rewrite run_bind, run_argcheck_true. cbn [andthen].
    change (Z.to_nat keylen) with 4%nat. cbn [read_key].
    rewrite run_bind, run_bind, (Hget v rest Hkv). cbn [andthen].
    destruct (is_type (type_of v) TNUMBER) eqn:E; [by apply is_type_spec in E|]. cbn [negb].
    by rewrite run_lua_halts.
  - intros z rest Hkv Hl Hz. rewrite Hs. unfold xor_rest. rewrite Hl.
    change (Z.of_nat 4 =? keylen) with true. rewrite run_bind, run_argcheck_true. cbn [andthen].
    change (Z.to_nat keylen) with 4%nat. cbn [read_key].
    rewrite run_bind, run_bind, (Hget _ rest Hkv). cbn [andthen type_of].
    change (is_type TNUMBER TNUMBER) with true. cbn [negb].
    rewrite run_bind, run_lua. cbn [doc]. unfold doc_tonumber, at_index. cbn [stk].
    change (at_ [VInt z; VTab t; VStr s] (-1)) with (Val (VInt z)). cbn [andthen].
    unfold key_byte in Hz. by rewrite Hz.
Qed.
End properties.

(** ** Witnesses *)

Definition key_heap (ks : list value) : heap :=
  Heap {[ 0%nat := Table ∅ None; 1%nat := Table (arr ks) None ]} ∅ ∅ ∅ 0 10.

Lemma xor_apply_witness :
  let key := [222; 123; 42; 89] in
  let w1 := set_next 4097 (sample_world ∅) in
  String.length (xor_string key "Hello") = 5%nat /\
  executes (sample_clib []) 0 l_xor_apply [VStr "Hello"; VTab 1] (key_heap (VInt <$> key)) (sample_world ∅)
    (Ok [VStr (xor_string key "Hello")]) (put 0%nat (idle (key_heap (VInt <$> key))) w1) /\
  executes (sample_clib []) 0 l_xor_apply [VStr (xor_string key "Hello"); VTab 1] (key_heap (VInt <$> key)) w1
    (Ok [VStr "Hello"]) (put 0%nat (idle (key_heap (VInt <$> key))) (set_next 4098 w1)).
Proof.
  intros key w1.
  refine (xor_apply (sample_clib []) 0 1 key "Hello" (key_heap (VInt <$> key)) (sample_world ∅) _ _ _ _);
    [|done|done|intros p _; apply lookup_empty].
  split; [done|]. exists (VInt <$> key). split; [reflexivity|].
  repeat constructor; apply key_byte_int; unfold is_byte; lia.
Defined.

Lemma xor_bad_key_witness :
  executes (sample_clib []) 0 l_xor_apply [VStr "Hello"; VTab 1] (key_heap [VInt 1]) (sample_world ∅)
    (Halt (Raise (EArg 2 "`key' with length 4 expected"))) (put 0%nat (idle (key_heap [VInt 1])) (sample_world ∅)) /\
  executes (sample_clib []) 0 l_xor_apply [VStr "Hello"; VTab 1]
    (key_heap [VBool true; VInt 2; VInt 3; VInt 4]) (sample_world ∅)
    (Halt (Raise (EMsg "`key[1]' is not a number")))
    (put 0%nat (idle (key_heap [VBool true; VInt 2; VInt 3; VInt 4])) (sample_world ∅)) /\
  (run (documented (sample_clib [])) (l_xor_apply 0)
    (put 0%nat (frame [VStr "Hello"; VTab 1] (key_heap [VInt 300; VInt 2; VInt 3; VInt 4])) (sample_world ∅))).1 =
  Halt (UB "conversion of a double out of range").
Proof.
  split; [|split].
  - by apply (xor_bad_key (sample_clib []) 0 1 [VInt 1] "Hello" (key_heap [VInt 1]) (sample_world ∅) eq_refl).
  - by eapply (proj1 (proj2 (xor_bad_key (sample_clib []) 0 1 [VBool true; VInt 2; VInt 3; VInt 4] "Hello"
      (key_heap [VBool true; VInt 2; VInt 3; VInt 4]) (sample_world ∅) eq_refl))).
  - eapply (proj2 (proj2 (xor_bad_key (sample_clib []) 0 1 [VInt 300; VInt 2; VInt 3; VInt 4] "Hello"
      (key_heap [VInt 300; VInt 2; VInt 3; VInt 4]) (sample_world ∅) eq_refl))); [done|done|by vm_compute].
Defined.
