(* ===== verification/Uio.v ===== *)
(** * lua_uio.h and lua_uio.c

    [sys.uio]: arrays of I/O vectors made from Lua arrays, and the reads and
    writes that use them.  Each [struct iovec] array is an object of its own
    ([OIov]), as is each buffer it points to ([OBuf]). *)

From S2P Require Import Prelude LuaApi Arrays Machine Capi Utils Registry Modules Samples.

(** ** Buffers *)

(** [n] bytes from the start of a buffer; [None] inside when some of them were
    never written *)
Definition read_bytes (n : Z) (o : obj) : option (option string * obj) :=
  match o with
  | OBuf len s =>
      if n <=? len then
        Some (if n <=? Z.of_nat (String.length s) then Some (String.substring 0 (Z.to_nat n) s) else None, o)
      else None
  | _ => None
  end.

(** [memcpy(buf, s, strlen(s))] *)
Definition copy_bytes (s : string) (o : obj) : option (unit * obj) :=
  match o with
  | OBuf len s' =>
      if Z.of_nat (String.length s) <=? len then
        Some (tt, OBuf len (s +:+ String.substring (String.length s) (String.length s') s'))
      else None
  | _ => None
  end.

(** [lua_pushlstring(L, p, n)] *)
Definition push_bytes (L : nat) (p n : Z) : prog unit :=
  if (p =? 0) && (n =? 0) then lua_pushlstring L ""
  else
    r ← load p (read_bytes n);
    match r with
    | Some s => lua_pushlstring L s
    | None => halts (EHalt (Unspec "the contents of uninitialised memory"))
    end.

(** ** Arrays of [struct iovec] *)

Definition iov_get (i : nat) (o : obj) : option ((Z * Z) * obj) :=
  match o with OIov l => match l !! i with Some v => Some (v, o) | None => None end | _ => None end.

Definition iov_update (i : nat) (f : Z * Z -> Z * Z) (o : obj) : option (unit * obj) :=
  match o with
  | OIov l => match l !! i with Some v => Some (tt, OIov (<[i := f v]> l)) | None => None end
  | _ => None
  end.

Definition set_base (b : Z) (v : Z * Z) : Z * Z := (b, v.2).
Definition set_len (n : Z) (v : Z * Z) : Z * Z := (v.1, n).

(** [calloc(n, sizeof( *iovs))] *)
Definition sizeof_iovec : Z := 16.
Definition calloc_iovecs (n : Z) : prog Z :=
  calloc (n * sizeof_iovec) (OIov (replicate (Z.to_nat n) (0, 0))).

Section ops.
Context `{Consts}.

(** ** lua_uio.h *)

Definition freeriovecs (iovs n : Z) : prog unit :=
  for_ (Z.to_nat n) 0 (fun i =>
    v ← load iovs (iov_get (Z.to_nat i));
    free v.1);;
  free iovs.

Definition checkriovecs (L : nat) (idx : Z) : prog (Z * Z) :=
  luaL_checktype L idx TTABLE;;
  n ← luaL_len L idx;
  iovs ← calloc_iovecs n;
  if iovs =? 0 then fatal L "calloc" (cst "ENOMEM")
  else
    for_ (Z.to_nat n) 0 (fun i =>
      lua_geti L idx (i + 1);;
      isint ← lua_isinteger L (-1);
      if negb isint then
        freeriovecs iovs n;;
        luaL_argerror L idx "expected iovec buffer lengths"
      else
        len ← lua_tointeger L (-1);
        let len := to_size len in
        load iovs (iov_update (Z.to_nat i) (set_len len));;
        base ← malloc len (OBuf len "");
        load iovs (iov_update (Z.to_nat i) (set_base base));;
        if base =? 0 then
          freeriovecs iovs n;;
          fatal L "malloc" (cst "ENOMEM")
        else mret tt);;
    mret (iovs, n).

Definition pushriovecs (L : nat) (iovs n : Z) : prog unit :=
  lua_createtable L n 0;;
  for_ (Z.to_nat n) 0 (fun i =>
    v ← load iovs (iov_get (Z.to_nat i));
    push_bytes L v.1 v.2;;
    lua_rawseti L (-2) (i + 1)).

(** the strings to write; their addresses in the Lua state are no objects of the
    model, so the array holds their lengths and they travel next to it *)
Fixpoint wiovecs (L : nat) (idx iovs : Z) (k : nat) (i : Z) : prog (list string) :=
  match k with
  | O => mret []
  | S k =>
      t ← lua_geti L idx (i + 1);
      if negb (is_type t TSTRING) then
        free iovs;;
        luaL_argerror L idx "expected strings"
      else
        p ← lua_tolstring L (-1);
        load iovs (iov_update (Z.to_nat i) (set_len (Z.of_nat (String.length p))));;
        rest ← wiovecs L idx iovs k (i + 1);
        mret (p :: rest)
  end.

Definition checkwiovecs (L : nat) (idx : Z) : prog (Z * list string) :=
  luaL_checktype L idx TTABLE;;
  n ← luaL_len L idx;
  iovs ← calloc_iovecs n;
  if iovs =? 0 then fatal L "calloc" (cst "ENOMEM")
  else
    strs ← wiovecs L idx iovs (Z.to_nat n) 0;
    mret (iovs, strs).

(** ** lua_uio.c *)

Definition l_readv (L : nat) : prog Z :=
  fd ← checkfd L 1;
  r ← checkriovecs L 2;
  let '(iovs, niov) := r in
  len ← call "readv" [AZ fd; AZ iovs; AZ niov];
  if rc len =? -1 then
    error ← errno;
    freeriovecs iovs niov;;
    fail L error
  else
    pushriovecs L iovs niov;;
    freeriovecs iovs niov;;
    lua_pushinteger L (rc len);;
    mret 2.

Definition l_preadv (L : nat) : prog Z :=
  fd ← checkfd L 1;
  offset ← luaL_checkinteger L 3;
  r ← checkriovecs L 2;
  let '(iovs, niov) := r in
  len ← call "preadv" [AZ fd; AZ iovs; AZ niov; AZ offset];
  if rc len =? -1 then
    error ← errno;
    freeriovecs iovs niov;;
    fail L error
  else
    pushriovecs L iovs niov;;
    freeriovecs iovs niov;;
    lua_pushinteger L (rc len);;
    mret 2.

Definition l_writev (L : nat) : prog Z :=
  fd ← checkfd L 1;
  r ← checkwiovecs L 2;
  let '(iovs, strs) := r in
  len ← call "writev" (AZ fd :: (AS <$> strs));
  if rc len =? -1 then
    error ← errno;
    free iovs;;
    fail L error
  else
    free iovs;;
    lua_pushinteger L (rc len);;
    mret 1.

Definition l_pwritev (L : nat) : prog Z :=
  fd ← checkfd L 1;
  offset ← luaL_checkinteger L 3;
  r ← checkwiovecs L 2;
  let '(iovs, strs) := r in
  len ← call "pwritev" (AZ fd :: AZ offset :: (AS <$> strs));
  if rc len =? -1 then
    error ← errno;
    free iovs;;
    fail L error
  else
    free iovs;;
    lua_pushinteger L (rc len);;
    mret 1.

Definition l_uio_funcs : list (string * string) := [
   ("readv", "l_readv"); ("preadv", "l_preadv"); ("writev", "l_writev"); ("pwritev", "l_pwritev")].

Definition uio_consts : list (string * Z) := [
   ("READ", cst "UIO_READ"); ("WRITE", cst "UIO_WRITE"); ("USERSPACE", cst "UIO_USERSPACE");
   ("SYSSPACE", cst "UIO_SYSSPACE"); ("NOCOPY", cst "UIO_NOCOPY")].

Definition luaopen_sys_uio (L : nat) : prog Z :=
  luaL_newlib L l_uio_funcs;;
  define_all L uio_consts;;
  mret 1.
End ops.

(** ** How they run *)

(** the buffers of an array: those that were allocated *)
Definition bases (iov : list (Z * Z)) : list Z := filter (fun b => b ≠ 0) iov.*1.

Definition release_all {S T} (l : list Z) (w : world S T) : world S T := foldl (fun w p => release p w) w l.

(** an array in memory, with its buffers, all of them different objects *)
Definition iovecs {S T} (w : world S T) (p : Z) (iov : list (Z * Z)) : Prop :=
  p ≠ 0 /\ wm w !! p = Some (OIov iov) /\ NoDup (p :: bases iov) /\
  Forall (fun b => is_Some (wm w !! b)) (bases iov).

Section run.
Context `{LuaSem} {S : Type} `{Libc S} `{Consts} (C : clib S).
Implicit Types (w : world S lstate) (L : nat) (p : Z) (iov : list (Z * Z)).
Abbreviation rn := (run (documented C)).

Lemma release_all_app l k w : release_all (l ++ k) w = release_all k (release_all l w).
Proof. apply foldl_app. Qed.

Lemma release_all_put l L s w : release_all l (put L s w) = put L s (release_all l w).
Proof. revert w. induction l as [|p l IH]; intros w; [done|]. apply (IH (release p w)). Qed.

Lemma wm_release_all l w q : q ∉ l -> wm (release_all l w) !! q = wm w !! q.
Proof.
  revert w. induction l as [|p l IH]; intros w Hq; [done|].
  apply not_elem_of_cons in Hq as [Hp Hl]. cbn. fold (release_all l (release p w)).
  rewrite IH by done. cbn. by rewrite lookup_delete_ne.
Qed.

Lemma wm_release_all_in l w q : q ∈ l -> wm (release_all l w) !! q = None.
Proof.
  intros Hq. apply list_elem_of_split in Hq as (l1 & l2 & ->). rewrite release_all_app.
  cbn. fold (release_all l2 (release q (release_all l1 w))).
  destruct (decide (q ∈ l2)) as [Hi|Hi].
  - revert Hi. generalize (release q (release_all l1 w)). induction l2 as [|p l2 IH]; intros w' Hi.
    { by apply not_elem_of_nil in Hi. }
    cbn. destruct (decide (q ∈ l2)) as [Hin|Hin]; [by apply IH|].
    apply elem_of_cons in Hi as [->|]; [|done]. fold (release_all l2 (release p w')).
    rewrite wm_release_all by done. cbn. apply lookup_delete_eq.
  - rewrite wm_release_all by done. cbn. apply lookup_delete_eq.
Qed.

Lemma run_iov_get p iov i v L s w :
  wm w !! p = Some (OIov iov) -> iov !! i = Some v ->
  rn (load p (iov_get i)) (put L s w) = (Ok v, put L s w).
Proof. intros Hp Hi. apply (run_read C p _ (OIov iov)); [done|]. cbn. by rewrite Hi. Qed.

Lemma run_free_loop p iov L s suf : forall pre w,
  iov = pre ++ suf -> wm w !! p = Some (OIov iov) -> NoDup (p :: bases suf) ->
  Forall (fun b => is_Some (wm w !! b)) (bases suf) ->
  rn (for_ (length suf) (Z.of_nat (length pre)) (fun i =>
        v ← load p (iov_get (Z.to_nat i)); free v.1)) (put L s w) =
  (Ok tt, put L s (release_all (bases suf) w)).
Proof.
  induction suf as [|v suf IH]; intros pre w Hiov Hp Hnd Hall; [done|].
  cbn [length for_]. rewrite run_bind, run_bind, Nat2Z.id.
  rewrite (run_iov_get p iov _ v) by (done || (rewrite Hiov; by apply list_lookup_middle)).
  cbn [andthen]. change (bases (v :: suf)) with (filter (fun b => b ≠ 0) (v.1 :: suf.*1)) in *.
  replace (Z.of_nat (length pre) + 1) with (Z.of_nat (length (pre ++ [v]))) by (rewrite length_app; cbn; lia).
  assert (Hiov' : iov = (pre ++ [v]) ++ suf) by by rewrite <- app_assoc.
  rewrite filter_cons in *. destruct (decide (v.1 ≠ 0)) as [Hb|Hb].
  - apply Forall_cons_iff in Hall as [[o Ho] Hall].
    apply list.NoDup_cons in Hnd as [Hni Hnd]. apply not_elem_of_cons in Hni as [Hne Hni].
    apply list.NoDup_cons in Hnd as [Hnb Hnd].
    rewrite (run_free C v.1 o) by done. cbn [andthen]. apply IH; [done| | |].
    + cbn. by rewrite lookup_delete_ne.
    + by apply list.NoDup_cons.
    + apply list.Forall_forall. intros b Hin. cbn. rewrite lookup_delete_ne by (by intros <-).
      by apply (proj1 (list.Forall_forall _ _) Hall).
  - assert (Hz : v.1 = 0) by (destruct (decide (v.1 = 0)); [done|by destruct Hb]).
    rewrite Hz, run_free_null. cbn [andthen]. by apply IH.
Qed.

(** freeing an array and all its buffers ([freeiovecs] of lua_aio.c is the same code) *)
Lemma run_freeriovecs p iov L s w :
  iovecs w p iov ->
  rn (freeriovecs p (Z.of_nat (length iov))) (put L s w) =
  (Ok tt, put L s (release_all (bases iov ++ [p]) w)).
Proof.
  intros (Hp & Hm & Hnd & Hall). unfold freeriovecs. rewrite Nat2Z.id, run_bind.
  pose proof (run_free_loop p iov L s iov [] w eq_refl Hm Hnd Hall) as Hl.
  change (Z.of_nat (length [])) with 0 in Hl. rewrite Hl. cbn [andthen].
  apply list.NoDup_cons in Hnd as [Hni _].
  rewrite (run_free C p (OIov iov)); [|done|by rewrite wm_release_all].
  by rewrite release_all_app.
Qed.
End run.
