(* ===== verification/Signal.v ===== *)
(** * lua_signal.h and lua_signal.c

    [struct sigevent] from and to Lua tables, used by the modules that deliver
    notifications, and the constants of the [signal] module. *)

From S2P Require Import Prelude LuaApi Arrays Machine Capi Utils Registry Modules Samples.

(** ** Members of [struct sigevent]

    Some members are macros that share memory with others ([sigev_notify_kqueue],
    [sigev_value.sival_int] and so on); which ones is up to the system headers,
    which are not part of the repository.  The structure is the record of the
    stores since it was zeroed, and [sig_get] reads a member of it. *)
Class SigLayout := sig_get : string -> sigevent -> Z.

(** ** lua_signal.h *)

Section ops.
Context `{Consts} `{SigLayout}.

(** [INTFIELD(name)] of [checksigevent]; [store] writes to the structure *)
Definition check_intfield {A} (store : string -> Z -> A -> prog A) (L : nat) (idx : Z) (name : string)
  (sig : A) : prog A :=
  lua_getfield L idx name;;
  isnil ← lua_is L (-1) TNIL;
  sig ← (if isnil : bool then mret sig
         else n ← luaL_checkinteger L (-1); store name n sig);
  lua_pop L 1;;
  mret sig.

(** [sig] is zeroed by [memset] before the call *)
Definition checksigevent {A} (store : string -> Z -> A -> prog A) (L : nat) (idx : Z) (sig : A) : prog A :=
  luaL_checktype L idx TTABLE;;
  sig ← check_intfield store L idx "notify" sig;
  sig ← check_intfield store L idx "notify_kqueue" sig;
  sig ← check_intfield store L idx "notify_kevent_flags" sig;
  sig ← check_intfield store L idx "notify_thread_id" sig;
  sig ← check_intfield store L idx "signo" sig;
  t ← lua_getfield L idx "value";
  sig ← (if is_type t TLIGHTUSERDATA then
           p ← lua_touserdata L (-1);
           store "value.sival_ptr" p sig
         else
           isnil ← lua_is L (-1) TNIL;
           if isnil : bool then mret sig
           else n ← luaL_checkinteger L (-1); store "value.sival_int" n sig);
  lua_pop L 1;;
  mret sig.

(** [INTFIELD(name)] of [pushsigevent] *)
Definition push_intfield (L : nat) (sig : sigevent) (name : string) : prog unit :=
  lua_pushinteger L (sig_get name sig);;
  lua_setfield L (-2) name.

Definition pushsigevent (L : nat) (sig : sigevent) : prog unit :=
  lua_newtable L;;
  push_intfield L sig "notify";;
  push_intfield L sig "notify_kqueue";;
  push_intfield L sig "notify_kevent_flags";;
  push_intfield L sig "notify_thread_id";;
  push_intfield L sig "signo";;
  lua_createtable L 0 2;;
  lua_pushinteger L (sig_get "value.sival_int" sig);;
  lua_setfield L (-2) "int";;
  lua_pushlightuserdata L (sig_get "value.sival_ptr" sig);;
  lua_setfield L (-2) "ptr";;
  lua_setfield L (-2) "value".

(** ** lua_signal.c *)

Definition signal_idents : list string := [
   "SIGHUP"; "SIGINT"; "SIGQUIT"; "SIGILL"; "SIGTRAP"; "SIGABRT"; "SIGIOT"; "SIGEMT"; "SIGFPE";
   "SIGKILL"; "SIGBUS"; "SIGSEGV"; "SIGSYS"; "SIGPIPE"; "SIGALRM"; "SIGTERM"; "SIGURG"; "SIGSTOP";
   "SIGTSTP"; "SIGCONT"; "SIGCHLD"; "SIGTTIN"; "SIGTTOU"; "SIGIO"; "SIGXCPU"; "SIGXFSZ";
   "SIGVTALRM"; "SIGPROF"; "SIGWINCH"; "SIGINFO"; "SIGUSR1"; "SIGUSR2"; "SIGTHR"; "SIGLWP";
   "SIGLIBRT"; "SIGRTMIN"; "SIGRTMAX"; "SIGEV_NONE"; "SIGEV_SIGNAL"; "SIGEV_THREAD"; "SIGEV_KEVENT";
   "SIGEV_THREAD_ID"; "ILL_ILLOPC"; "ILL_ILLOPN"; "ILL_ILLADR"; "ILL_PRVOPC"; "ILL_PRVREG";
   "ILL_COPROC"; "ILL_BADSTK"; "BUS_ADRALN"; "BUS_ADRERR"; "BUS_OBJERR"; "BUS_OOMERR";
   "SEGV_MAPERR"; "SEGV_ACCERR"; "SEGV_PKUERR"; "FPE_INTOVF"; "FPE_INTDIV"; "FPE_FLTDIV";
   "FPE_FLTOVF"; "FPE_FLTUND"; "FPE_FLTRES"; "FPE_FLTINV"; "FPE_FLTSUB"; "FPE_FLTIDO"; "TRAP_BRKPT";
   "TRAP_TRACE"; "TRAP_DTRACE"; "TRAP_CAP"; "CLD_EXITED"; "CLD_KILLED"; "CLD_DUMPED"; "CLD_TRAPPED";
   "CLD_STOPPED"; "CLD_CONTINUED"; "POLL_IN"; "POLL_OUT"; "POLL_MSG"; "POLL_ERR"; "POLL_PRI";
   "POLL_HUP"; "SA_ONSTACK"; "SA_RESTART"; "SA_RESETHAND"; "SA_NODEFER"; "SA_NOCLDWAIT";
   "SA_SIGINFO"; "NSIG"; "SI_NOINFO"; "SI_USER"; "SI_QUEUE"; "SI_TIMER"; "SI_ASYNCIO"; "SI_MESGQ";
   "SI_KERNEL"; "SI_LWP"; "SI_UNDEFINED"; "SIG_BLOCK"; "SIG_UNBLOCK"; "SIG_SETMASK"; "BADSIG";
   "SIG_DFL"; "SIG_IGN"; "SIG_ERR"; "SIG_HOLD"].

(** [DEFINE(ident)] pushes the value of the macro, the last ones after a cast of
    a function pointer *)
Definition luaopen_signal (L : nat) : prog Z :=
  lua_newtable L;;
  define_all L ((fun ident => (ident, cst ident)) <$> signal_idents);;
  mret 1.
End ops.

(** a layout without shared memory, to evaluate the definitions *)
#[export] Instance sample_layout : SigLayout := fun name sig =>
  match list_find (fun fv => fv.1 = name) sig with Some (_, (_, v)) => v | None => 0 end.
