(* ===== verification/Unistd.v ===== *)
(** * lua_unistd.c: the functions with logic of their own, and the module

    Buffers and arrays in C memory, loops that ask again until a buffer is large
    enough, and [luaopen_unistd].  A loop has a bound on its rounds ([fuel]); the
    theorems of [UnistdProps] say how many rounds it needs. *)

From S2P Require Import Prelude LuaApi Machine Capi Utils Modules Cmem Uio Wrapper UnistdCalls.

Section unistd.
Context `{Consts}.

Definition SETMODE_METATABLE : string := "setmode".
Definition sizeof_gid : Z := 4.

Definition l__exit (L : nat) : prog Z :=
  status ← luaL_optinteger L 1 0;
  call "_exit" [AZ (to_int status)];;
  undefined "return of a function declared not to".

(** ** Configuration strings *)

Fixpoint confstr_loop (fuel : nat) (L : nat) (name value len : Z) : prog (Z * Z) :=
  match fuel with
  | O => halts (EHalt Diverge)
  | S fuel =>
      newlen ← call "confstr" [AZ name; AZ value; AZ len];
      if len <? rc newlen then
        free value;;
        let len := to_size (rc newlen * 2) in
        value ← malloc len (OBuf len "");
        if value =? 0 then fatal L "malloc" (cst "ENOMEM")
        else confstr_loop fuel L name value len
      else mret (rc newlen, value)
  end.

Definition l_confstr (fuel : nat) (L : nat) : prog Z :=
  name ← luaL_checkinteger L 1;
  set_errno 0;;
  r ← confstr_loop fuel L (to_int name) 0 0;
  let '(newlen, value) := r in
  if newlen =? 0 then
    error ← errno;
    free value;;
    if error =? 0 then mret 0 else fail L error
  else
    push_bytes L value newlen;;
    free value;;
    mret 1.

(** ** Files *)

(** an offset that is not given is passed as [NULL]: [[0]], else [[1; offset]] *)
Definition opt_offset (L : nat) (i : Z) : prog (option Z) :=
  nil ← lua_is L i TNIL;
  if nil : bool then mret None else off ← luaL_checkinteger L i; mret (Some off).

Definition ref_arg (off : option Z) : list carg :=
  match off with Some off => [AZ 1; AZ off] | None => [AZ 0] end.

Definition l_copy_file_range (L : nat) : prog Z :=
  infd ← checkfd L 1;
  inoffp ← opt_offset L 2;
  outfd ← checkfd L 3;
  outoffp ← opt_offset L 4;
  len ← luaL_checkinteger L 5;
  flags ← luaL_optinteger L 6 0;
  copied ← call "copy_file_range" ([AZ infd] ++ ref_arg inoffp ++ [AZ outfd] ++ ref_arg outoffp ++
    [AZ (to_size len); AZ (to_uint flags)]);
  if rc copied =? -1 then
    e ← errno;
    fail L e
  else
    lua_pushinteger L (rc copied);;
    match inoffp with None => lua_pushnil L | Some _ => lua_pushinteger L (out_int 0 copied) end;;
    match outoffp with None => lua_pushnil L | Some _ => lua_pushinteger L (out_int 1 copied) end;;
    mret 3.

Definition l_fflagstostr (L : nat) : prog Z :=
  flags ← luaL_checkinteger L 1;
  str ← call "fflagstostr" [AZ (to_size flags)];
  if rc str =? 0 then fail L (cst "ENOMEM")
  else
    push_cstr L (rc str);;
    free (rc str);;
    mret 1.

Definition read_tail (off : nat) (o : obj) : option (string * obj) :=
  match o with
  | OBuf len s =>
      let t := String.substring off (String.length s - off) s in
      if has_nul t then Some (cstr t, o) else None
  | _ => None
  end.

(** [lua_pushstring(L, str)] for a pointer into the string that starts at [base] *)
Definition push_tail (L : nat) (base str : Z) : prog unit :=
  s ← load base (read_tail (Z.to_nat (str - base)));
  lua_pushstring L s.

Definition l_strtofflags (L : nat) : prog Z :=
  s ← luaL_checkstring L 1;
  base ← strdup s;
  if base =? 0 then fatal L "strdup" (cst "ENOMEM")
  else
    r ← call "strtofflags" [AZ base];
    let str := out_int 0 r in
    if negb (rc r =? 0) then
      luaL_pushfail L;;
      push_tail L base str;;
      free str;;
      mret 2
    else
      free str;;
      lua_pushinteger L (to_long (out_int 1 r));;
      lua_pushinteger L (to_long (out_int 2 r));;
      mret 2.

Definition l_getcwd (L : nat) : prog Z :=
  cwd ← call "getcwd" [AZ 0; AZ 0];
  if rc cwd =? 0 then
    e ← errno;
    fail L e
  else
    push_cstr L (rc cwd);;
    free (rc cwd);;
    mret 1.

Definition l_getentropy (L : nat) : prog Z :=
  buflen ← luaL_checkinteger L 1;
  luaL_buffinit L;;
  r ← call "getentropy" [AZ (to_size buflen)];
  if rc r =? -1 then
    e ← errno;
    fail L e
  else
    prefix_of (out_str 0 r) (to_size buflen) (fun s => luaL_pushresult L s);;
    mret 1.

(** ** Groups *)

(** [while (n-- > 0) { lua_pushinteger(L, groups[n]); lua_rawseti(L, -2, n + 1); }] *)
Fixpoint push_down (L : nat) (groups : Z) (n : nat) : prog unit :=
  match n with
  | O => mret tt
  | S n =>
      g ← arr_load groups n;
      lua_pushinteger L g;;
      lua_rawseti L (-2) (Z.of_nat n + 1);;
      push_down L groups n
  end.

Definition push_groups (L : nat) (groups n : Z) : prog Z :=
  lua_createtable L n 0;;
  push_down L groups (Z.to_nat n);;
  free groups;;
  mret 1.

Fixpoint getgrouplist_loop (fuel : nat) (L : nat) (name : string) (basegid groups ngroups : Z) :
  prog (Z * Z) :=
  match fuel with
  | O => halts (EHalt Diverge)
  | S fuel =>
      r ← call "getgrouplist" [AS name; AZ basegid; AZ groups; AZ ngroups];
      let ngroups := out_int 0 r in
      if rc r =? -1 then
        free groups;;
        groups ← malloc_array sizeof_gid ngroups;
        if groups =? 0 then fatal L "malloc" (cst "ENOMEM")
        else getgrouplist_loop fuel L name basegid groups ngroups
      else mret (groups, ngroups)
  end.

Definition l_getgrouplist (fuel : nat) (L : nat) : prog Z :=
  name ← luaL_checkstring L 1;
  basegid ← luaL_checkinteger L 2;
  r ← getgrouplist_loop fuel L name (to_uint basegid) 0 0;
  push_groups L r.1 r.2.

Fixpoint l_getgroups (fuel : nat) (L : nat) : prog Z :=
  match fuel with
  | O => halts (EHalt Diverge)
  | S fuel =>
      gidsetlen ← call "getgroups" [AZ 0; AZ 0];
      if rc gidsetlen =? -1 then
        e ← errno;
        fail L e
      else if rc gidsetlen =? 0 then push_groups L 0 0
      else
        gidset ← malloc_array sizeof_gid (rc gidsetlen);
        if gidset =? 0 then fatal L "malloc" (cst "ENOMEM")
        else
          result ← call "getgroups" [AZ (rc gidsetlen); AZ gidset];
          if rc result =? -1 then
            error ← errno;
            free gidset;;
            if error =? cst "EINVAL" then l_getgroups fuel L else fail L error
          else push_groups L gidset (rc gidsetlen)
  end.

(** the array for the groups, and its length: [(ngroups, gidset)] *)
Definition groups_arg (L : nat) : prog (Z * Z) :=
  none ← lua_isnoneornil L 1;
  if none : bool then mret (0, 0)
  else
    luaL_checktype L 1 TTABLE;;
    len ← luaL_len L 1;
    let ngroups := to_int len in
    if ngroups =? 0 then mret (ngroups, 0)
    else
      gidset ← malloc_array sizeof_gid ngroups;
      if gidset =? 0 then fatal L "malloc" (cst "ENOMEM") else mret (ngroups, gidset).

Definition l_setgroups (L : nat) : prog Z :=
  set ← groups_arg L;
  let '(ngroups, gidset) := set in
  r ← call "setgroups" [AZ ngroups; AZ gidset];
  if rc r =? -1 then
    error ← errno;
    free gidset;;
    fail L error
  else
    free gidset;;
    success L.

(** ** Names *)

Definition l_gethostname (L : nat) : prog Z :=
  namelen ← call "sysconf" [AZ (cst "_SC_HOST_NAME_MAX")];
  if rc namelen =? -1 then
    e ← errno;
    fatal L "sysconf(_SC_HOST_NAME_MAX)" e
  else
    let namelen := rc namelen + 1 in
    name ← malloc (to_size namelen) (OBuf (to_size namelen) "");
    if name =? 0 then fatal L "malloc" (cst "ENOMEM")
    else
      r ← call "gethostname" [AZ name; AZ (to_size namelen)];
      if rc r =? -1 then
        error ← errno;
        free name;;
        fail L error
      else
        push_cstr L name;;
        free name;;
        mret 1.

Definition l_getmode (L : nat) : prog Z :=
  set ← checkcookie L 1 SETMODE_METATABLE;
  mode ← luaL_optinteger L 2 0;
  r ← call "getmode" [AZ set; AZ (to_ushort mode)];
  lua_pushinteger L (rc r);;
  mret 1.

Definition l_getpass (L : nat) : prog Z :=
  prompt ← luaL_optstring L 1;
  r ← call "getpass" [AS (default "" prompt)];
  push_ret_string L r;;
  mret 1.

Definition l_isatty (L : nat) : prog Z :=
  fd ← checkfd L 1;
  set_errno 0;;
  r ← call "isatty" [AZ fd];
  error ← errno;
  lua_pushboolean L (negb (rc r =? 0));;
  if negb (error =? 0) then
    msg ← strerror_r error;
    lua_pushstring L msg;;
    lua_pushinteger L error;;
    mret 3
  else mret 1.

(** ** Temporary files *)

Definition l_mkdtemp (L : nat) : prog Z :=
  template ← luaL_checkstring L 1;
  buf ← strdup template;
  if buf =? 0 then
    e ← errno;
    fatal L "strdup" e
  else
    r ← call "mkdtemp" [AZ buf];
    if rc r =? 0 then
      error ← errno;
      free buf;;
      fail L error
    else
      push_cstr L buf;;
      free buf;;
      mret 1.

Definition l_mktemp (L : nat) : prog Z :=
  template ← luaL_checkstring L 1;
  buf ← strdup template;
  if buf =? 0 then
    e ← errno;
    fatal L "strdup" e
  else
    r ← call "mktemp" [AZ buf];
    if rc r =? 0 then
      error ← errno;
      free buf;;
      fail L error
    else
      push_cstr L buf;;
      free buf;;
      mret 1.

Definition l_mkstemp (L : nat) : prog Z :=
  template ← luaL_checkstring L 1;
  buf ← strdup template;
  if buf =? 0 then
    e ← errno;
    fatal L "strdup" e
  else
    fd ← call "mkstemp" [AZ buf];
    if rc fd =? -1 then
      error ← errno;
      free buf;;
      fail L error
    else
      lua_pushinteger L (rc fd);;
      push_cstr L buf;;
      free buf;;
      mret 2.

Definition l_mkstemps (L : nat) : prog Z :=
  template ← luaL_checkstring L 1;
  suffixlen ← luaL_checkinteger L 2;
  buf ← strdup template;
  if buf =? 0 then
    e ← errno;
    fatal L "strdup" e
  else
    fd ← call "mkstemps" [AZ buf; AZ (to_int suffixlen)];
    if rc fd =? -1 then
      error ← errno;
      free buf;;
      fail L error
    else
      lua_pushinteger L (rc fd);;
      push_cstr L buf;;
      free buf;;
      mret 2.

(** ** Reading into a buffer *)

Definition l_read (L : nat) : prog Z :=
  fd ← checkfd L 1;
  nbytes ← luaL_checkinteger L 2;
  luaL_buffinit L;;
  result ← call "read" [AZ fd; AZ (to_size nbytes)];
  if rc result =? -1 then
    e ← errno;
    fail L e
  else
    prefix_of (out_str 0 result) (rc result) (fun s => luaL_pushresult L s);;
    mret 1.

Definition l_pread (L : nat) : prog Z :=
  fd ← checkfd L 1;
  nbytes ← luaL_checkinteger L 2;
  offset ← luaL_checkinteger L 3;
  luaL_buffinit L;;
  result ← call "pread" [AZ fd; AZ (to_size nbytes); AZ offset];
  if rc result =? -1 then
    e ← errno;
    fail L e
  else
    prefix_of (out_str 0 result) (rc result) (fun s => luaL_pushresult L s);;
    mret 1.

Definition l_profil (L : nat) : prog Z :=
  size ← luaL_checkinteger L 1;
  offset ← luaL_checkinteger L 2;
  scale ← luaL_checkinteger L 3;
  luaL_buffinit L;;
  r ← call "profil" [AZ (to_size size); AZ (to_size offset); AZ (to_int scale)];
  if rc r =? -1 then
    e ← errno;
    fail L e
  else
    prefix_of (out_str 0 r) (to_size size) (fun s => luaL_pushresult L s);;
    mret 1.

Definition l_readlink (L : nat) : prog Z :=
  path ← luaL_checkstring L 1;
  result ← call "readlink" [AS path; AZ (cst "MAXPATHLEN")];
  if rc result =? -1 then
    e ← errno;
    fail L e
  else
    prefix_of (out_str 0 result) (rc result) (fun s => lua_pushlstring L s);;
    mret 1.

Definition l_readlinkat (L : nat) : prog Z :=
  dfd ← luaL_checkinteger L 1;
  path ← luaL_checkstring L 2;
  result ← call "readlinkat" [AZ (to_int dfd); AS path; AZ (cst "MAXPATHLEN")];
  if rc result =? -1 then
    e ← errno;
    fail L e
  else
    prefix_of (out_str 0 result) (rc result) (fun s => lua_pushlstring L s);;
    mret 1.

Definition l_swab (L : nat) : prog Z :=
  src ← luaL_checklstring L 1;
  luaL_buffinit L;;
  r ← call "swab" [AS src; AZ (Z.of_nat (String.length src))];
  prefix_of (out_str 0 r) (Z.of_nat (String.length src)) (fun s => luaL_pushresult L s);;
  mret 1.

(** ** The rest *)

Definition l_reboot (L : nat) : prog Z :=
  howto ← luaL_checkinteger L 1;
  call "reboot" [AZ (to_int howto)];;
  e ← errno;
  fail L e.

Definition l_setmode (L : nat) : prog Z :=
  mode ← luaL_checkstring L 1;
  set ← call "setmode" [AS mode];
  if rc set =? 0 then
    e ← errno;
    fail L e
  else new L (rc set) SETMODE_METATABLE.

Definition l_setmode_gc (L : nat) : prog Z :=
  set ← checkcookie L 1 SETMODE_METATABLE;
  free set;;
  mret 0.

Definition l_setproctitle (L : nat) : prog Z :=
  none ← lua_isnoneornil L 1;
  if none : bool then
    call "setproctitle" [AZ 0];;
    mret 0
  else
    title ← luaL_checkstring L 1;
    login ← lua_toboolean L 2;
    let fmt := if login : bool then "-%s" else "%s" in
    call "setproctitle" [AS fmt; AS title];;
    mret 0.

Definition l_setproctitle_fast (L : nat) : prog Z :=
  none ← lua_isnoneornil L 1;
  if none : bool then
    call "setproctitle_fast" [AZ 0];;
    mret 0
  else
    title ← luaL_checkstring L 1;
    login ← lua_toboolean L 2;
    let fmt := if login : bool then "-%s" else "%s" in
    call "setproctitle_fast" [AS fmt; AS title];;
    mret 0.

(** [useconds_t] is unsigned: the comparison converts -1 *)
Definition l_ualarm (L : nat) : prog Z :=
  microseconds ← luaL_checkinteger L 1;
  interval ← luaL_optinteger L 2 0;
  remaining ← call "ualarm" [AZ (to_uint microseconds); AZ (to_uint interval)];
  if rc remaining =? to_uint (-1) then
    e ← errno;
    fail L e
  else
    lua_pushinteger L (rc remaining);;
    mret 1.

(** ** The module *)

Definition l_unistd_funcs : list (string * string) :=
  [
   ("_Fork", "l__Fork"); ("_exit", "l__exit"); ("access", "l_access"); ("acct", "l_acct");
   ("chdir", "l_chdir"); ("check_utility_compat", "l_check_utility_compat"); ("chown", "l_chown");
   ("chroot", "l_chroot"); ("close", "l_close"); ("close_range", "l_close_range");
   ("closefrom", "l_closefrom"); ("confstr", "l_confstr"); ("copy_file_range", "l_copy_file_range");
   ("dup", "l_dup"); ("dup2", "l_dup2"); ("dup3", "l_dup3"); ("eaccess", "l_eaccess");
   ("endusershell", "l_endusershell"); ("enter_restricted_mode", "l_enter_restricted_mode");
   ("faccessat", "l_faccessat"); ("fchdir", "l_fchdir"); ("fchown", "l_fchown");
   ("fchownat", "l_fchownat")] ++
  (if 1500028 <? cst "__FreeBSD_version" then [("fchroot", "l_fchroot")] else []) ++
  [
   ("fdatasync", "l_fdatasync"); ("feature_present", "l_feature_present");
   ("fflagstostr", "l_fflagstostr"); ("fork", "l_fork"); ("fpathconf", "l_fpathconf");
   ("fsync", "l_fsync"); ("ftruncate", "l_ftruncate"); ("funlinkat", "l_funlinkat");
   ("getcwd", "l_getcwd"); ("getdomainname", "l_getdomainname");
   ("getdtablesize", "l_getdtablesize"); ("getegid", "l_getegid"); ("getentropy", "l_getentropy");
   ("geteuid", "l_geteuid"); ("getgid", "l_getgid"); ("getgrouplist", "l_getgrouplist");
   ("getgroups", "l_getgroups"); ("gethostname", "l_gethostname"); ("getlogin", "l_getlogin");
   ("getloginclass", "l_getloginclass"); ("getmode", "l_getmode");
   ("getosreldate", "l_getosreldate"); ("getpagesize", "l_getpagesize"); ("getpass", "l_getpass");
   ("getpeereid", "l_getpeereid"); ("getpgid", "l_getpgid"); ("getpgrp", "l_getpgrp");
   ("getpid", "l_getpid"); ("getppid", "l_getppid"); ("getresgid", "l_getresgid");
   ("getresuid", "l_getresuid"); ("getsid", "l_getsid"); ("getuid", "l_getuid");
   ("getusershell", "l_getusershell"); ("initgroups", "l_initgroups"); ("isatty", "l_isatty");
   ("issetugid", "l_issetugid"); ("kcmp", "l_kcmp"); ("lchown", "l_lchown"); ("link", "l_link");
   ("linkat", "l_linkat"); ("lockf", "l_lockf"); ("lpathconf", "l_lpathconf"); ("lseek", "l_lseek");
   ("mkdtemp", "l_mkdtemp"); ("mknod", "l_mknod"); ("mkstemp", "l_mkstemp");
   ("mkstemps", "l_mkstemps"); ("mktemp", "l_mktemp"); ("pathconf", "l_pathconf");
   ("pipe", "l_pipe2"); ("pipe2", "l_pipe2"); ("pread", "l_pread"); ("profil", "l_profil");
   ("pwrite", "l_pwrite"); ("read", "l_read"); ("readlink", "l_readlink");
   ("readlinkat", "l_readlinkat"); ("reboot", "l_reboot"); ("revoke", "l_revoke");
   ("rfork", "l_rfork"); ("rmdir", "l_rmdir"); ("setdomainname", "l_setdomainname");
   ("setegid", "l_setegid"); ("seteuid", "l_seteuid"); ("setgid", "l_setgid");
   ("setgroups", "l_setgroups"); ("sethostname", "l_sethostname"); ("setlogin", "l_setlogin");
   ("setloginclass", "l_setloginclass"); ("setmode", "l_setmode"); ("setpgid", "l_setpgid");
   ("setproctitle", "l_setproctitle"); ("setproctitle_fast", "l_setproctitle_fast");
   ("setregid", "l_setregid"); ("setresgid", "l_setresgid"); ("setresuid", "l_setresuid");
   ("setreuid", "l_setreuid"); ("setsid", "l_setsid"); ("setuid", "l_setuid");
   ("setusershell", "l_setusershell"); ("sleep", "l_sleep"); ("strtofflags", "l_strtofflags");
   ("swab", "l_swab"); ("swapon", "l_swapon"); ("swapoff", "l_swapoff"); ("symlink", "l_symlink");
   ("symlinkat", "l_symlinkat"); ("sync", "l_sync"); ("sysconf", "l_sysconf");
   ("tcgetpgrp", "l_tcgetpgrp"); ("tcsetpgrp", "l_tcsetpgrp"); ("truncate", "l_truncate");
   ("ttyname", "l_ttyname"); ("ualarm", "l_ualarm"); ("undelete", "l_undelete");
   ("unlink", "l_unlink"); ("unlinkat", "l_unlinkat"); ("usleep", "l_usleep"); ("write", "l_write")].

Definition l_setmode_meta : list (string * string) := [("__gc", "l_setmode_gc")].

Definition conf_consts : list (string * Z) :=
  idents [
     "_CS_PATH"; "_CS_POSIX_V6_ILP32_OFF32_CFLAGS"; "_CS_POSIX_V6_ILP32_OFF32_LDFLAGS";
     "_CS_POSIX_V6_ILP32_OFF32_LIBS"; "_CS_POSIX_V6_ILP32_OFFBIG_CFLAGS";
     "_CS_POSIX_V6_ILP32_OFFBIG_LDFLAGS"; "_CS_POSIX_V6_ILP32_OFFBIG_LIBS";
     "_CS_POSIX_V6_LP64_OFF64_CFLAGS"; "_CS_POSIX_V6_LP64_OFF64_LDFLAGS";
     "_CS_POSIX_V6_LP64_OFF64_LIBS"; "_CS_POSIX_V6_LPBIG_OFFBIG_CFLAGS";
     "_CS_POSIX_V6_LPBIG_OFFBIG_LDFLAGS"; "_CS_POSIX_V6_LPBIG_OFFBIG_LIBS";
     "_CS_POSIX_V6_WIDTH_RESTRICTED_ENVS"] ++
  ifdef "COPY_FILE_RANGE_CLONE" ++
  ifdef "COPY_FILE_RANGE_USERFLAGS" ++
  idents [
     "_PC_LINK_MAX"; "_PC_MAX_CANON"; "_PC_MAX_INPUT"; "_PC_NAME_MAX"; "_PC_PATH_MAX";
     "_PC_PIPE_BUF"; "_PC_CHOWN_RESTRICTED"; "_PC_NO_TRUNC"; "_PC_VDISABLE"; "_PC_ASYNC_IO";
     "_PC_PRIO_IO"; "_PC_SYNC_IO"; "_PC_ALLOC_SIZE_MIN"; "_PC_FILESIZEBITS";
     "_PC_REC_INCR_XFER_SIZE"; "_PC_REC_MAX_XFER_SIZE"; "_PC_REC_MIN_XFER_SIZE";
     "_PC_REC_XFER_ALIGN"; "_PC_SYMLINK_MAX"; "_PC_ACL_EXTENDED"; "_PC_ACL_PATH_MAX";
     "_PC_CAP_PRESENT"; "_PC_INF_PRESENT"; "_PC_MAC_PRESENT"; "_PC_ACL_NFS4"] ++
  ifdef "_PC_DEALLOC_PRESENT" ++
  ifdef "_PC_NAMEDATTR_ENABLED" ++
  ifdef "_PC_HAS_NAMEDATTR" ++
  ifdef "_PC_HAS_HIDDENSYSTEM" ++
  ifdef "_PC_CLONE_BLKSIZE" ++
  ifdef "_PC_CASE_INSENSITIVE" ++
  idents [
     "_PC_MIN_HOLE_SIZE"].

Definition sysconf_consts : list (string * Z) :=
  idents [
     "_SC_ARG_MAX"; "_SC_CHILD_MAX"; "_SC_CLK_TCK"; "_SC_NGROUPS_MAX"; "_SC_OPEN_MAX";
     "_SC_JOB_CONTROL"; "_SC_SAVED_IDS"; "_SC_VERSION"; "_SC_BC_BASE_MAX"; "_SC_BC_DIM_MAX";
     "_SC_BC_SCALE_MAX"; "_SC_BC_STRING_MAX"; "_SC_COLL_WEIGHTS_MAX"; "_SC_EXPR_NEST_MAX";
     "_SC_LINE_MAX"; "_SC_RE_DUP_MAX"; "_SC_2_VERSION"; "_SC_2_C_BIND"; "_SC_2_C_DEV";
     "_SC_2_CHAR_TERM"; "_SC_2_FORT_DEV"; "_SC_2_FORT_RUN"; "_SC_2_LOCALEDEF"; "_SC_2_SW_DEV";
     "_SC_2_UPE"; "_SC_STREAM_MAX"; "_SC_TZNAME_MAX"; "_SC_ASYNCHRONOUS_IO"; "_SC_MAPPED_FILES";
     "_SC_MEMLOCK"; "_SC_MEMLOCK_RANGE"; "_SC_MEMORY_PROTECTION"; "_SC_MESSAGE_PASSING";
     "_SC_PRIORITIZED_IO"; "_SC_PRIORITY_SCHEDULING"; "_SC_REALTIME_SIGNALS"; "_SC_SEMAPHORES";
     "_SC_FSYNC"; "_SC_SHARED_MEMORY_OBJECTS"; "_SC_SYNCHRONIZED_IO"; "_SC_TIMERS";
     "_SC_AIO_LISTIO_MAX"; "_SC_AIO_MAX"; "_SC_AIO_PRIO_DELTA_MAX"; "_SC_DELAYTIMER_MAX";
     "_SC_MQ_OPEN_MAX"; "_SC_PAGESIZE"; "_SC_RTSIG_MAX"; "_SC_SEM_NSEMS_MAX"; "_SC_SEM_VALUE_MAX";
     "_SC_SIGQUEUE_MAX"; "_SC_TIMER_MAX"; "_SC_2_PBS"; "_SC_2_PBS_ACCOUNTING";
     "_SC_2_PBS_CHECKPOINT"; "_SC_2_PBS_LOCATE"; "_SC_2_PBS_MESSAGE"; "_SC_2_PBS_TRACK";
     "_SC_ADVISORY_INFO"; "_SC_BARRIERS"; "_SC_CLOCK_SELECTION"; "_SC_CPUTIME"; "_SC_FILE_LOCKING";
     "_SC_GETGR_R_SIZE_MAX"; "_SC_GETPW_R_SIZE_MAX"; "_SC_HOST_NAME_MAX"; "_SC_LOGIN_NAME_MAX";
     "_SC_MONOTONIC_CLOCK"; "_SC_MQ_PRIO_MAX"; "_SC_READER_WRITER_LOCKS"; "_SC_REGEXP"; "_SC_SHELL";
     "_SC_SPAWN"; "_SC_SPIN_LOCKS"; "_SC_SPORADIC_SERVER"; "_SC_THREAD_ATTR_STACKADDR";
     "_SC_THREAD_ATTR_STACKSIZE"; "_SC_THREAD_CPUTIME"; "_SC_THREAD_DESTRUCTOR_ITERATIONS";
     "_SC_THREAD_KEYS_MAX"; "_SC_THREAD_PRIO_INHERIT"; "_SC_THREAD_PRIO_PROTECT";
     "_SC_THREAD_PRIORITY_SCHEDULING"; "_SC_THREAD_PROCESS_SHARED"; "_SC_THREAD_SAFE_FUNCTIONS";
     "_SC_THREAD_SPORADIC_SERVER"; "_SC_THREAD_STACK_MIN"; "_SC_THREAD_THREADS_MAX"; "_SC_TIMEOUTS";
     "_SC_THREADS"; "_SC_TRACE"; "_SC_TRACE_EVENT_FILTER"; "_SC_TRACE_INHERIT"; "_SC_TRACE_LOG";
     "_SC_TTY_NAME_MAX"; "_SC_TYPED_MEMORY_OBJECTS"; "_SC_V6_ILP32_OFF32"; "_SC_V6_ILP32_OFFBIG";
     "_SC_V6_LP64_OFF64"; "_SC_V6_LPBIG_OFFBIG"; "_SC_IPV6"; "_SC_RAW_SOCKETS"; "_SC_SYMLOOP_MAX";
     "_SC_ATEXIT_MAX"; "_SC_IOV_MAX"; "_SC_PAGE_SIZE"; "_SC_XOPEN_CRYPT"; "_SC_XOPEN_ENH_I18N";
     "_SC_XOPEN_LEGACY"; "_SC_XOPEN_REALTIME"; "_SC_XOPEN_REALTIME_THREADS"; "_SC_XOPEN_SHM";
     "_SC_XOPEN_STREAMS"; "_SC_XOPEN_UNIX"; "_SC_XOPEN_VERSION"; "_SC_XOPEN_XCU_VERSION";
     "_SC_NPROCESSORS_CONF"; "_SC_NPROCESSORS_ONLN"; "_SC_CPUSET_SIZE"] ++
  ifdef "_SC_UEXTERR_MAXLEN" ++
  ifdef "_SC_NSIG" ++
  idents [
     "_SC_PHYS_PAGES"].

Definition posix_consts : list (string * Z) :=
  idents [
     "STDIN_FILENO"; "STDOUT_FILENO"; "STDERR_FILENO"; "F_ULOCK"; "F_LOCK"; "F_TLOCK"; "F_TEST";
     "CLOSE_RANGE_CLOEXEC"] ++
  ifdef "CLOSE_RANGE_CLOFORK" ++
  idents [
     "_POSIX_VERSION"; "_POSIX_BARRIERS"; "_POSIX_CPUTIME"; "_POSIX_READER_WRITER_LOCKS";
     "_POSIX_REGEXP"; "_POSIX_SHELL"; "_POSIX_SPAWN"; "_POSIX_SPIN_LOCKS";
     "_POSIX_THREAD_ATTR_STACKADDR"; "_POSIX_THREAD_ATTR_STACKSIZE"; "_POSIX_THREAD_CPUTIME";
     "_POSIX_THREAD_PRIO_INHERIT"; "_POSIX_THREAD_PRIO_PROTECT";
     "_POSIX_THREAD_PRIORITY_SCHEDULING"; "_POSIX_THREAD_PROCESS_SHARED";
     "_POSIX_THREAD_SAFE_FUNCTIONS"; "_POSIX_THREAD_SPORADIC_SERVER"; "_POSIX_THREADS";
     "_POSIX_TRACE"; "_POSIX_TRACE_EVENT_FILTER"; "_POSIX_TRACE_INHERIT"; "_POSIX_TRACE_LOG";
     "_POSIX2_C_BIND"; "_POSIX2_C_DEV"; "_POSIX2_CHAR_TERM"; "_POSIX2_FORT_DEV"; "_POSIX2_FORT_RUN";
     "_POSIX2_LOCALEDEF"; "_POSIX2_PBS"; "_POSIX2_PBS_ACCOUNTING"; "_POSIX2_PBS_CHECKPOINT";
     "_POSIX2_PBS_LOCATE"; "_POSIX2_PBS_MESSAGE"; "_POSIX2_PBS_TRACK"; "_POSIX2_SW_DEV";
     "_POSIX2_UPE"; "_V6_ILP32_OFF32"; "_V6_ILP32_OFFBIG"; "_V6_LP64_OFF64"; "_V6_LPBIG_OFFBIG";
     "_XOPEN_CRYPT"; "_XOPEN_ENH_I18N"; "_XOPEN_LEGACY"; "_XOPEN_REALTIME";
     "_XOPEN_REALTIME_THREADS"; "_XOPEN_UNIX"; "_POSIX2_VERSION"].

Definition luaopen_unistd (L : nat) : prog Z :=
  luaL_newmetatable L SETMODE_METATABLE;;
  luaL_setfuncs L l_setmode_meta;;
  luaL_newlib L l_unistd_funcs;;
  define_all L (conf_consts ++ sysconf_consts ++ posix_consts);;
  mret 1.
End unistd.
