(* ===== verification/UnistdProps.v ===== *)
(** * What the functions of lua_unistd.c do

    First the documented behaviour of the library functions around which the module has logic
    of its own, and a small library that behaves so.  Then the contract of the wrappers; how
    many rounds the loops need that ask for a larger buffer, and that they leave no memory
    behind; what happens to the memory handed to [setgroups], [strtofflags] and [getgroups]. *)

From S2P Require Import Prelude LuaApi Arrays Machine Capi Samples Utils Modules Cmem Wrapper UnistdCalls Uio.
From S2P Require Import Unistd.

(** [confstr(3)]: the size of the value with its terminator, which is stored if it fits;
    0 for no value or an error, told apart by [errno] *)
Record confstr_lib {S : Type} `{Libc S} (C : clib S) (conf : Z -> S -> option string) (off : Z -> S -> S) : Prop := {
  cs_ask : forall name s w, conf name (wx w) = Some s ->
    c_call C "confstr" [AZ name; AZ 0; AZ 0] w = (Ok (Cret (Z.of_nat (String.length s) + 1) []), w);
  cs_get : forall name s value len w,
    conf name (wx w) = Some s -> value ≠ 0 -> Z.of_nat (String.length s) + 1 <= len ->
    c_call C "confstr" [AZ name; AZ value; AZ len] w =
    (Ok (Cret (Z.of_nat (String.length s) + 1) []), poke value (OBuf len (s +:+ String NUL "")) w);
  cs_none : forall name w, conf name (wx w) = None ->
    c_call C "confstr" [AZ name; AZ 0; AZ 0] w = (Ok (Cret 0 []), set_x (off name (wx w)) w)
}.

(** [getgrouplist(3)]: -1 and the number of groups while the array is too small; the base
    group is always in the list *)
Record grouplist_lib {S : Type} `{Libc S} (C : clib S) (members : string -> Z -> S -> list Z) : Prop := {
  gl_base : forall name gid x, gid ∈ members name gid x;
  gl_ask : forall name gid w,
    c_call C "getgrouplist" [AS name; AZ gid; AZ 0; AZ 0] w =
    (Ok (Cret (-1) [AZ (Z.of_nat (length (members name gid (wx w))))]), w);
  gl_get : forall name gid p n w, p ≠ 0 -> n = Z.of_nat (length (members name gid (wx w))) ->
    c_call C "getgrouplist" [AS name; AZ gid; AZ p; AZ n] w =
    (Ok (Cret 0 [AZ n]), poke p (carray (members name gid (wx w))) w)
}.

(** [getgroups(2)]; [tick] is what other threads do to the process during a call, [small] a
    call that fails because there are more groups than room *)
Record getgroups_lib {S : Type} `{Consts} `{Libc S} (C : clib S) (gs : S -> list Z) (tick small : S -> S) : Prop := {
  gg_count : forall w,
    c_call C "getgroups" [AZ 0; AZ 0] w =
    (Ok (Cret (Z.of_nat (length (gs (wx w)))) []), set_x (tick (wx w)) w);
  gg_fits : forall n p w, p ≠ 0 -> (0 < n)%nat -> (length (gs (wx w)) <= n)%nat ->
    c_call C "getgroups" [AZ (Z.of_nat n); AZ p] w =
    (Ok (Cret (Z.of_nat (length (gs (wx w)))) []),
     poke p (partial (AZ <$> gs (wx w)) (n - length (gs (wx w)))) w);
  gg_small : forall n p w, p ≠ 0 -> (0 < n < length (gs (wx w)))%nat ->
    c_call C "getgroups" [AZ (Z.of_nat n); AZ p] w = (Ok (Cret (-1) []), set_x (small (wx w)) w);
  gg_errno : forall x, c_errno (small x) = cst "EINVAL"
}.

(** [setgroups(2)] with an array of groups, without one, and with memory nobody wrote *)
Record setgroups_lib {S : Type} `{Libc S} (C : clib S) (set : list Z -> S -> S) : Prop := {
  sg_array : forall p gids w, p ≠ 0 -> wm w !! p = Some (carray gids) ->
    c_call C "setgroups" [AZ (Z.of_nat (length gids)); AZ p] w = (Ok (Cret 0 []), set_x (set gids (wx w)) w);
  sg_null : forall w, c_call C "setgroups" [AZ 0; AZ 0] w = (Ok (Cret 0 []), set_x (set [] (wx w)) w);
  sg_unset : forall p cs k w, p ≠ 0 -> wm w !! p = Some (partial cs (1 + k)) ->
    c_call C "setgroups" [AZ (Z.of_nat (length cs + (1 + k))); AZ p] w =
    (Halt (Unspec "the contents of uninitialised memory"), w)
}.

(** [strtofflags(3)]: the result, where the pointer is left (at the token read last), what
    [strsep] leaves of the text, and the two sets of flags *)
Record fflags := Fflags { ff_rc : Z; ff_off : nat; ff_buf : string; ff_set : Z; ff_clr : Z }.

Definition token (r : fflags) : string :=
  String.substring (ff_off r) (String.length (ff_buf r) - ff_off r) (ff_buf r).

Record strtofflags_lib {S : Type} `{Libc S} (C : clib S) (parse : string -> fflags) : Prop := {
  sf_token : forall s, has_nul (token (parse s)) = true;
  sf_parse : forall p len s w, cstr s = s -> wm w !! p = Some (OBuf len (s +:+ String NUL "")) ->
    let r := parse s in
    c_call C "strtofflags" [AZ p] w =
    (Ok (Cret (ff_rc r) [AZ (p + Z.of_nat (ff_off r)); AZ (ff_set r); AZ (ff_clr r)]), poke p (OBuf len (ff_buf r)) w)
}.

(** ** A small library that keeps the laws *)

Record ustate := Ustate { u_errno : Z; u_groups : list Z }.

#[export] Instance unix_libc : Libc ustate := {| c_errno := u_errno; c_strerror := fun _ => "Error" |}.

Definition unix_errno (args : list carg) (x : ustate) : ustate :=
  match args with [AZ e] => Ustate e (u_groups x) | _ => x end.

(** one name has a value, another has none, the rest are errors *)
Definition unix_conf (name : Z) (x : ustate) : option string := if name =? 1 then Some "/bin" else None.
Definition unix_off (name : Z) (x : ustate) : ustate := Ustate (if name =? 2 then 0 else 22) (u_groups x).

Definition unix_members (name : string) (gid : Z) (x : ustate) : list Z := gid :: u_groups x.

(** a process has at most two groups *)
Definition unix_gs (x : ustate) : list Z := take 2 (u_groups x).
Definition unix_set (gids : list Z) (x : ustate) : ustate := Ustate (u_errno x) gids.
Definition unix_small (x : ustate) : ustate := Ustate 22 (u_groups x).

(** the one flag there is: [uchg]; a text with a comma is left at its second token *)
Definition unix_parse (s : string) : fflags :=
  if String.eqb s "uchg" then Fflags 0 0 (s +:+ String NUL "") 2 0
  else if String.eqb s "uchg,x" then Fflags 1 5 ("uchg" +:+ String NUL ("x" +:+ String NUL "")) 0 0
  else Fflags 1 0 (s +:+ String NUL "") 0 0.

Definition uninit : halt := Unspec "the contents of uninitialised memory".

(** [tick] is what other threads do while the groups are counted *)
Definition unix_call (tick : ustate -> ustate) (f : string) (args : list carg) (w : world ustate lstate) :
  outcome cret * world ustate lstate :=
  if String.eqb f "errno=" then (Ok (Cret 0 []), set_x (unix_errno args (wx w)) w)
  else match args with
  | [AZ e] =>
      match wm w !! e with
           | Some (OBuf len s) =>
               let r := unix_parse (cstr s) in
               (Ok (Cret (ff_rc r) [AZ (e + Z.of_nat (ff_off r)); AZ (ff_set r); AZ (ff_clr r)]),
                poke e (OBuf len (ff_buf r)) w)
           | _ => (Ok (Cret 0 []), w)
           end
  | [AZ name; AZ value; AZ len] =>
      match unix_conf name (wx w) with
      | Some s =>
          let size := Z.of_nat (String.length s) + 1 in
          (Ok (Cret size []), if value =? 0 then w else poke value (OBuf len (s +:+ String NUL "")) w)
      | None => (Ok (Cret 0 []), set_x (unix_off name (wx w)) w)
      end
  | [AS name; AZ gid; AZ p; AZ n] =>
      let gs := unix_members name gid (wx w) in
      let len := Z.of_nat (length gs) in
      if n <? len then (Ok (Cret (-1) [AZ len]), w) else (Ok (Cret 0 [AZ len]), poke p (carray gs) w)
  | [AZ n; AZ p] =>
      if String.eqb f "getgroups" then
        if p =? 0 then (Ok (Cret (Z.of_nat (length (unix_gs (wx w)))) []), set_x (tick (wx w)) w)
        else
          let gs := unix_gs (wx w) in
          if n <? Z.of_nat (length gs) then (Ok (Cret (-1) []), set_x (unix_small (wx w)) w)
          else (Ok (Cret (Z.of_nat (length gs)) []), poke p (partial (AZ <$> gs) (Z.to_nat n - length gs)) w)
      else if p =? 0 then (Ok (Cret 0 []), set_x (unix_set [] (wx w)) w)
      else match wm w !! p with
           | Some (OArr l) =>
               match mapM (fun x => match x with Some (AZ z) => Some z | _ => None end) l with
               | Some gids => (Ok (Cret 0 []), set_x (unix_set gids (wx w)) w)
               | None => (Halt uninit, w)
               end
           | _ => (Ok (Cret (-1) []), w)
           end
  | _ => (Ok (Cret 0 []), w)
  end.

Definition unix (tick : ustate -> ustate) : clib ustate :=
  {| c_call := unix_call tick; c_fn := fun _ _ args w => (Ok (true, args), w) |}.

Definition unix_world (gs : list Z) : world ustate lstate := World ∅ 10 ∅ 4096 (fun _ _ => false) (Ustate 0 gs).

Section laws.
Context (tick : ustate -> ustate).

Lemma unix_errno_set : external (unix tick) ["errno="] (fun _ args x => (Cret 0 [], unix_errno args x)).
Proof. intros fn args w [<-|[]]. done. Qed.

Lemma unix_confstr : confstr_lib (unix tick) unix_conf unix_off.
Proof.
  split.
  - intros name s w Hs. cbn. by rewrite Hs.
  - intros name s value len w Hs Hv _. cbn. by rewrite Hs, (proj2 (Z.eqb_neq value 0)).
  - intros name w Hs. cbn. by rewrite Hs.
Qed.

Lemma unix_grouplist : grouplist_lib (unix tick) unix_members.
Proof.
  split.
  - intros name gid x. by left.
  - done.
  - intros name gid p n w _ ->. cbn -[Z.of_nat Z.ltb]. by rewrite Z.ltb_irrefl.
Qed.

Lemma unix_getgroups : getgroups_lib (unix tick) unix_gs tick unix_small.
Proof.
  split.
  - done.
  - intros n p w Hp Hn Hl. cbn -[Z.ltb unix_gs Z.eqb]. rewrite (proj2 (Z.eqb_neq p 0)) by done.
    rewrite (proj2 (Z.ltb_ge _ _)) by lia. by rewrite Nat2Z.id.
  - intros n p w Hp Hn. cbn -[Z.ltb unix_gs Z.eqb]. rewrite (proj2 (Z.eqb_neq p 0)) by done.
    by rewrite (proj2 (Z.ltb_lt _ _)) by lia.
  - done.
Qed.

Lemma unix_setgroups : setgroups_lib (unix tick) unix_set.
Proof.
  split.
  - intros p gids w Hp Hm. cbn -[Z.eqb]. rewrite (proj2 (Z.eqb_neq p 0)), Hm by done. unfold carray.
    replace (mapM _ _) with (Some gids); [done|]. symmetry. apply mapM_Some_2. apply Forall2_fmap_l, Forall_Forall2_diag.
    by apply list.Forall_true.
  - done.
  - intros p cs k w Hp Hm. cbn -[Z.eqb Z.of_nat]. rewrite (proj2 (Z.eqb_neq p 0)), Hm by done. unfold partial.
    replace (mapM _ _) with (@None (list Z)); [done|]. symmetry. apply eq_None_not_Some. intros [l Hl].
    apply mapM_Some_1, Forall2_app_inv_l in Hl as (l1 & l2 & _ & Hl & _). cbn [replicate Nat.add] in Hl. by inversion Hl.
Qed.

Lemma unix_strtofflags : strtofflags_lib (unix tick) unix_parse.
Proof.
  split.
  - intros s. unfold unix_parse. destruct (String.eqb_spec s "uchg") as [->|_]; [done|].
    destruct (String.eqb_spec s "uchg,x") as [->|_]; [done|].
    unfold token; cbn [ff_off ff_buf]. rewrite Nat.sub_0_r, substring_all. apply has_nul_app.
  - intros p len s w Hs Hm. cbn -[unix_parse]. by rewrite Hm, cstr_app_nul.
Qed.
End laws.

(** ** The wrappers *)

Section contract.
Context `{LuaSem} `{Consts} {S : Type} `{Libc S} (C : clib S).

(** Each of the 90 functions that are one system call does what its description says, for
    every behaviour of the library: it reports the first argument that is wrong and calls
    nothing; otherwise it makes the one call with the arguments converted to their C
    types, and returns the results, or nil, message and number of the error; the memory of
    the module and the Lua heap stay as the description says. *)
Theorem unistd_contract lib L vs h (w : world S lstate) o h' s e :
  In e unistd_wrappers -> external C (w_call e :: f_calls (w_fin e)) lib ->
  contract lib (w_call e) (w_args e) (w_order e) (w_fin e) vs h (wx w) = Some (o, h', s) ->
  executes C L (w_prog e) vs h w o (put L (idle h') (set_x s w)).
Proof. apply wrapped_contract, unistd_wrappers_ok. Qed.
End contract.

(** ** Configuration strings *)

Section confstr.
Context `{LuaSem} `{Consts} {S : Type} `{Libc S} (C : clib S).
Context (conf : Z -> S -> option string) (off : Z -> S -> S) (HC : confstr_lib C conf off).
Implicit Types (w : world S lstate) (L : nat) (h : heap).
Abbreviation rn := (run (documented C)).

Lemma run_confstr_loop L fuel name s st w :
  conf name (wx w) = Some s -> Z.of_nat (String.length s) + 1 < 2 ^ 62 -> wnext w ≠ 0 ->
  let len := (Z.of_nat (String.length s) + 1) * 2 in
  woom w len (wnext w) = false ->
  rn (confstr_loop (2 + fuel) L name 0 0) (put L st w) =
  (Ok (Z.of_nat (String.length s) + 1, wnext w),
   put L st (poke (wnext w) (OBuf len (s +:+ String NUL "")) (set_next (wnext w + 1) w))).
Proof.
  intros Hs Hlen Hp len Ho. cbn [confstr_loop Nat.add].
  rewrite run_bind, run_call, (cs_ask _ _ _ HC name s) by done. cbn [andthen rc].
  rewrite (proj2 (Z.ltb_lt 0 _)) by lia. rewrite run_bind, run_free_null. cbn [andthen].
  rewrite to_size_small by lia. fold len. rewrite run_bind, run_malloc_ok by done. cbn [andthen].
  rewrite (proj2 (Z.eqb_neq _ _)) by done.
  rewrite run_bind, run_call, (cs_get _ _ _ HC name s) by (done || unfold len; lia). cbn [andthen rc].
  rewrite (proj2 (Z.ltb_ge _ _)) by (unfold len; lia). rewrite run_ret.
  by rewrite !poke_put, poke_poke.
Qed.

Lemma run_confstr_start lib L fuel z h w (k : Z * Z -> prog Z) :
  external C ["errno="] lib ->
  rn (name ← luaL_checkinteger L 1; set_errno 0;; r ← confstr_loop fuel L (to_int name) 0 0; k r)
    (put L (frame [VInt z] h) w) =
  rn (r ← confstr_loop fuel L (to_int z) 0 0; k r)
    (put L (frame [VInt z] h) (set_x (lib "errno=" [AZ 0] (wx w)).2 w)).
Proof.
  intros He. unfold frame. rewrite run_bind, run_lua. doc_eval.
  by rewrite run_bind, (run_external C ["errno="] lib) by (done || by left).
Qed.

(** [confstr] asks for the size and then once for the value, whatever the size of the value: two
    rounds are enough. It returns the value followed by a NUL character, since the size
    the library reports counts the terminator; for a name without value it returns
    nothing, for an error nil, message and number. The buffer is always given back. *)
Theorem confstr_value lib L fuel z h w s :
  external C ["errno="] lib ->
  let w0 := set_x (lib "errno=" [AZ 0] (wx w)).2 w in
  (conf (to_int z) (wx w0) = Some s -> Z.of_nat (String.length s) + 1 < 2 ^ 62 -> wnext w ≠ 0 ->
   woom w ((Z.of_nat (String.length s) + 1) * 2) (wnext w) = false ->
   exists w', executes C L (l_confstr (2 + fuel)) [VInt z] h w (Ok [VStr (s +:+ String NUL "")]) (put L (idle h) w') /\
     wm w' = delete (wnext w) (wm w) /\ wx w' = wx w0) /\
  (conf (to_int z) (wx w0) = None ->
   let e := c_errno (off (to_int z) (wx w0)) in
   executes C L (l_confstr (2 + fuel)) [VInt z] h w (Ok (if e =? 0 then [] else failure e))
     (put L (idle h) (set_x (off (to_int z) (wx w0)) w))).
Proof.
  intros He w0.
  pose proof (fun k => run_confstr_start lib L (2 + fuel) z h w k He) as Hstart. fold w0 in Hstart.
  split.
  - intros Hs Hlen Hp Ho. set (p := wnext w) in *. set (len := (Z.of_nat (String.length s) + 1) * 2) in *.
    set (w1 := poke p (OBuf len (s +:+ String NUL "")) (set_next (p + 1) w0)).
    exists (release p w1). split; [|split; [exact (release_fresh p _ (p + 1) w0)|done]].
    apply (executes_return C L _ _ h w [VStr (s +:+ String NUL "")] [VInt z] 19).
    unfold l_confstr. rewrite Hstart. rewrite run_bind, (run_confstr_loop L fuel _ s _ w0 Hs Hlen Hp Ho).
    cbn [andthen]. rewrite (proj2 (Z.eqb_neq _ _)) by lia. unfold push_bytes.
    change (wnext w0) with p. rewrite (proj2 (Z.eqb_neq p 0)) by done. cbn [andb]. fold len w1.
    assert (Hm : wm w1 !! p = Some (OBuf len (s +:+ String NUL ""))) by apply lookup_insert_eq.
    rewrite !run_bind, (run_read C p _ (OBuf len (s +:+ String NUL "")) (Some (s +:+ String NUL ""))); [|done|].
    + cbn [andthen]. unfold frame, LUA_MINSTACK. lua_run. rewrite run_trigger. cbn [step].
      rewrite (proj2 (Z.eqb_neq p 0)) by done. rewrite wm_put, Hm. done.
    + cbn [read_bytes]. rewrite !(proj2 (Z.leb_le _ _)).
      * do 3 f_equal. replace (Z.to_nat _) with (String.length (s +:+ String NUL "")); [apply substring_all|].
        rewrite string_app_length. cbn. lia.
      * rewrite string_app_length. cbn. lia.
      * unfold len. lia.
  - intros Hn e. set (x := off (to_int z) (wx w0)).
    assert (Hrun : exists vs n, rn (l_confstr (2 + fuel) L) (put L (frame [VInt z] h) w) =
      (Ok (Z.of_nat (length (if e =? 0 then [] else failure e))),
       put L (LS (rev (if e =? 0 then [] else failure e) ++ vs) n h) (set_x x w))).
    { unfold l_confstr. rewrite Hstart. cbn [confstr_loop Nat.add].
      rewrite !run_bind, run_call, (cs_none _ _ _ HC) by done. cbn [andthen rc]. rewrite Z.ltb_irrefl, run_ret.
      cbn [andthen]. rewrite Z.eqb_refl, run_bind, run_errno. cbn [andthen].
      change (wx (put L (frame [VInt z] h) w0)) with (wx w0). rewrite set_x_put, run_bind, run_free_null. cbn [andthen].
      change (c_errno _) with e. exists [VInt z]. unfold frame, LUA_MINSTACK. destruct (e =? 0).
      - by exists 20%nat.
      - exists 17%nat. change 20%nat with (3 + 17)%nat. rewrite run_fail. done. }
    destruct Hrun as (vs & n & Hrun). by apply (executes_return C L _ _ h w _ vs n).
Qed.
End confstr.

(** ** Lists of groups *)

Section groups.
Context `{LuaSem} `{Consts} {S : Type} `{Libc S} (C : clib S).
Implicit Types (w : world S lstate) (L : nat) (h : heap) (p : Z) (zs : list Z).
Abbreviation rn := (run (documented C)).

Lemma run_push_down L p zs t k : forall vs n h w,
  wm w !! p = Some (carray zs) -> (k <= length zs)%nat ->
  rn (push_down L p k) (put L (LS (VTab t :: vs) (1 + n)
    (set_tab t (Table (arr_from k (VInt <$> drop k zs)) None) h)) w) =
  (Ok tt, put L (LS (VTab t :: vs) (1 + n) (set_tab t (Table (arr (VInt <$> zs)) None) h)) w).
Proof.
  induction k as [|k IH]; intros vs n h w Hm Hk; [by rewrite arr_from_0|]. cbn [push_down].
  destruct (lookup_lt_is_Some_2 zs k) as [z Hz]; [lia|].
  rewrite run_bind, (run_arr_load C L p zs k z) by done. cbn [andthen]. lua_run.
  rewrite tabs_set_tab. doc_eval. rewrite set_tab_set_tab. change (Datatypes.S k) with (1 + k)%nat.
  rewrite raw_set_arr_from by done. change (Datatypes.S n) with (1 + n)%nat.
  rewrite <- (IH vs n h w) by (done || lia). by rewrite (drop_S zs z k) by done.
Qed.

(** the table that is made of an array of groups, whose memory is given back *)
Lemma run_push_groups L p zs vs n h w :
  p ≠ 0 -> wm w !! p = Some (carray zs) ->
  rn (push_groups L p (Z.of_nat (length zs))) (put L (LS vs (2 + n) h) w) =
  (Ok 1, put L (LS (VTab (fresh h) :: vs) (1 + n) (alloc_tab (Table (arr (VInt <$> zs)) None) h)) (release p w)).
Proof.
  intros Hp Hm. unfold push_groups. rewrite Nat2Z.id, !run_bind, run_lua. doc_eval.
  pose proof (run_push_down L p zs (fresh h) (length zs) vs n (bump h) w Hm ltac:(done)) as Hd.
  rewrite drop_all in Hd. change (Datatypes.S n) with (1 + n)%nat. rewrite run_bind.
  replace (arr_from _ _) with (∅ : gmap key value) in Hd by (symmetry; apply kmap_empty).
  change (set_tab (fresh h) ?x (bump h)) with (bump (set_tab (fresh h) x h)) in Hd. rewrite Hd. cbn [andthen].
  rewrite run_bind, (run_free C p (carray zs)) by done. done.
Qed.

Lemma out_int_0 c z l : out_int 0 (Cret c (AZ z :: l)) = z.
Proof. done. Qed.

Lemma run_getgrouplist_loop members L fuel name gid st w :
  grouplist_lib C members -> wnext w ≠ 0 ->
  let gs := members name gid (wx w) in
  rn (getgrouplist_loop (2 + fuel) L name gid 0 0) (put L st w) =
  if woom w (to_size (Z.of_nat (length gs) * sizeof_gid)) (wnext w)
  then (Halt (Raise (EMsg ("malloc: " +:+ cstr (c_strerror (cst "ENOMEM"))))), put L st (set_next (wnext w + 1) w))
  else (Ok (wnext w, Z.of_nat (length gs)), put L st (poke (wnext w) (carray gs) (set_next (wnext w + 1) w))).
Proof.
  intros HC Hp gs. cbn [getgrouplist_loop Nat.add].
  rewrite run_bind, run_call, (gl_ask _ _ HC). cbn [andthen rc].
  rewrite out_int_0. change (members name gid (wx (put L st w))) with gs.
  rewrite Z.eqb_refl, run_bind, run_free_null. cbn [andthen]. rewrite run_bind.
  destruct (woom w _ _) eqn:Ho.
  - unfold malloc_array. rewrite run_malloc_fail by done. cbn [andthen]. by rewrite Z.eqb_refl, run_fatal.
  - rewrite run_malloc_array by done. cbn [andthen]. rewrite (proj2 (Z.eqb_neq _ _)) by done.
    rewrite run_bind, run_call, (gl_get _ _ HC name gid (wnext w) (Z.of_nat (length gs))) by done. cbn [andthen rc].
    cbn [Z.eqb]. rewrite run_ret, out_int_0, poke_put, poke_poke. done.
Qed.

(** [getgrouplist] asks for the number of groups and then once for the list: two rounds are
    enough. It returns a new array of the group numbers in the order of the library, and
    gives the C array back; when there is no memory for it, it raises an error. *)
Theorem getgrouplist_value members L fuel name gid h w :
  grouplist_lib C members -> wnext w ≠ 0 ->
  let gs := members (cstr name) (to_uint gid) (wx w) in
  if woom w (to_size (Z.of_nat (length gs) * sizeof_gid)) (wnext w) then
    executes C L (l_getgrouplist (2 + fuel)) [VStr name; VInt gid] h w
      (Halt (Raise (EMsg ("malloc: " +:+ cstr (c_strerror (cst "ENOMEM"))))))
      (put L (idle h) (set_next (wnext w + 1) w))
  else
    exists w', executes C L (l_getgrouplist (2 + fuel)) [VStr name; VInt gid] h w (Ok [VTab (fresh h)])
      (put L (idle (alloc_tab (Table (arr (VInt <$> gs)) None) h)) w') /\
      wm w' = delete (wnext w) (wm w) /\ wx w' = wx w.
Proof.
  intros HC Hp gs.
  assert (Hrun : rn (l_getgrouplist (2 + fuel) L) (put L (frame [VStr name; VInt gid] h) w) =
    rn (r ← getgrouplist_loop (2 + fuel) L (cstr name) (to_uint gid) 0 0; push_groups L r.1 r.2)
      (put L (frame [VStr name; VInt gid] h) w)).
  { unfold l_getgrouplist, luaL_checkstring, frame. lua_run. done. }
  rewrite run_bind, (run_getgrouplist_loop members) in Hrun by done. fold gs in Hrun.
  destruct (woom w _ _).
  - by apply (executes_halt C L _ _ h w _ (rev [VStr name; VInt gid]) LUA_MINSTACK).
  - set (p := wnext w) in *. cbn [andthen fst snd] in Hrun.
    exists (release p (poke p (carray gs) (set_next (p + 1) w))).
    split; [|split; [apply release_fresh|done]].
    apply (executes_return C L _ _ h w [VTab (fresh h)] [VInt gid; VStr name] 19). rewrite Hrun.
    apply (run_push_groups L p gs (rev [VStr name; VInt gid]) 18 h); [done|]. apply lookup_insert_eq.
Qed.

(** one round of [l_getgroups] *)
Lemma run_getgroups_round gs tick small fuel L st w :
  getgroups_lib C gs tick small -> roomy w -> gs (wx w) ≠ [] ->
  let n := length (gs (wx w)) in let x := tick (wx w) in let p := wnext w in
  let w1 := set_next (p + 1) (set_x x w) in
  rn (l_getgroups (1 + fuel) L) (put L st w) =
  if (n <? length (gs x))%nat then rn (l_getgroups fuel L) (put L st (set_x (small x) w1))
  else rn (push_groups L p (Z.of_nat n)) (put L st (poke p (partial (AZ <$> gs x) (n - length (gs x))) w1)).
Proof.
  intros HC [Hp Hmem Ho] Hne n x p w1. assert (Hn : (0 < n)%nat) by (unfold n; destruct (gs (wx w)); cbn; [done|lia]).
  cbn [l_getgroups Nat.add]. rewrite run_bind, run_call, (gg_count _ _ _ _ HC). cbn [andthen rc].
  change (gs (wx (put L st w))) with (gs (wx w)). fold n. change (wx (put L st w)) with (wx w). fold x.
  rewrite (proj2 (Z.eqb_neq (Z.of_nat n) (-1))), (proj2 (Z.eqb_neq (Z.of_nat n) 0)) by lia.
  rewrite set_x_put, run_bind, run_malloc_array by apply Ho. cbn [andthen]. change (wnext (set_x x w)) with p.
  rewrite (proj2 (Z.eqb_neq p 0)) by (unfold p; lia). rewrite Nat2Z.id, run_bind, run_call.
  destruct (Nat.ltb_spec n (length (gs x))) as [Hlt|Hge].
  - rewrite (gg_small _ _ _ _ HC n p) by (cbn; unfold p; lia || done). cbn [andthen rc].
    rewrite Z.eqb_refl, run_bind, run_errno. cbn [andthen]. rewrite set_x_put, run_bind.
    rewrite (run_free C p (partial [] n)); [|unfold p; lia|apply lookup_insert_eq]. cbn [andthen].
    change (c_errno _) with (c_errno (small x)). rewrite (gg_errno _ _ _ _ HC), Z.eqb_refl.
    do 2 f_equal. unfold release, set_x, poke, set_mem, w1; cbn. rewrite delete_insert_id; [done|].
    by apply Hmem.
  - rewrite (gg_fits _ _ _ _ HC n p) by (cbn; unfold p; lia || done). cbn [andthen rc].
    rewrite (proj2 (Z.eqb_neq _ (-1))) by lia. by rewrite poke_put, poke_poke.
Qed.

Lemma roomy_next x w : roomy w -> roomy (set_next (wnext w + 1) (set_x x w)).
Proof. intros [Hp Hm Ho]. split; cbn; [lia| |done]. intros p Hp'. apply Hm. lia. Qed.

Lemma run_getgroups gs tick small max L h :
  getgroups_lib C gs tick small ->
  (forall x, length (gs x) <= length (gs (tick x)))%nat -> (forall x, length (gs x) <= length (gs (small x)))%nat ->
  (forall x, length (gs x) <= max)%nat -> forall fuel w, (max - length (gs (wx w)) < fuel)%nat -> roomy w ->
  exists x w', rn (l_getgroups fuel L) (put L (frame [] h) w) =
    (Ok 1, put L (LS [VTab (fresh h)] 19 (alloc_tab (Table (arr (VInt <$> gs x)) None) h)) w') /\
    rtc (fun x y => y = tick x \/ y = small x) (wx w) x /\ wm w' = wm w.
Proof.
  intros HC Ht Hs Hm fuel. induction fuel as [|fuel IH]; intros w Hf Hr; [lia|].
  destruct (gs (wx w)) as [|g l] eqn:Hg.
  { exists (wx w), (set_x (tick (wx w)) w). rewrite Hg. split_all; [|done|done].
    cbn [l_getgroups]. rewrite run_bind, run_call, (gg_count _ _ _ _ HC). cbn [andthen rc].
    change (gs (wx (put L (frame [] h) w))) with (gs (wx w)). rewrite Hg. change (Z.of_nat (length (@nil Z))) with 0. cbn [Z.eqb].
    unfold push_groups, frame, LUA_MINSTACK. rewrite set_x_put. lua_run. change (Z.to_nat 0) with 0%nat. cbn [push_down].
    rewrite run_ret. cbv beta iota. rewrite run_bind, run_free_null.
    change (arr (VInt <$> [])) with (arr []). by rewrite arr_nil. }
  rewrite <- Hg in Hf. rewrite (run_getgroups_round gs tick small fuel L _ w HC Hr) by (rewrite Hg; done).
  set (x := tick (wx w)) in *. pose proof (Ht (wx w)) as Hlen. fold x in Hlen.
  destruct (Nat.ltb_spec (length (gs (wx w))) (length (gs x))) as [Hlt|Hge].
  - pose proof (Hs x) as Hl1. pose proof (Hm (small x)).
    destruct (IH (set_x (small x) (set_next (wnext w + 1) (set_x x w)))) as (y & w' & R & Hy & Hw).
    + cbn. lia.
    + by apply (roomy_next (small x)).
    + exists y, w'. split_all; [done| |done]. eapply rtc_l; [by left|]. eapply rtc_l; [by right|]. done.
  - assert (He : length (gs (wx w)) = length (gs x)) by lia. rewrite He, Nat.sub_diag. clear Hge.
    exists x. eexists. split_all; [|by apply rtc_once; left|].
    + unfold frame, LUA_MINSTACK. change 20%nat with (2 + 18)%nat. apply run_push_groups.
      * destruct Hr. lia.
      * unfold partial. rewrite app_nil_r. rewrite <- list_fmap_compose. apply lookup_insert_eq.
    + cbn. apply delete_insert_id, (ro_mem _ Hr). lia.
Qed.

(** C33. [getgroups] asks for the number of groups, makes room for that many, and asks for the list; if
    another thread has added groups meanwhile it starts again. As long as groups are only
    added, of which a process has at most [max], it ends within [max + 1] rounds with the
    list of some moment during the call, having given all memory back. *)
Theorem getgroups_ends gs tick small max L h w :
  getgroups_lib C gs tick small ->
  (forall x, length (gs x) <= length (gs (tick x)))%nat -> (forall x, length (gs x) <= length (gs (small x)))%nat ->
  (forall x, length (gs x) <= max)%nat -> roomy w ->
  exists x w', executes C L (l_getgroups (1 + max)) [] h w (Ok [VTab (fresh h)])
    (put L (idle (alloc_tab (Table (arr (VInt <$> gs x)) None) h)) w') /\
    rtc (fun x y => y = tick x \/ y = small x) (wx w) x /\ wm w' = wm w.
Proof.
  intros HC Ht Hs Hm Hr.
  destruct (run_getgroups gs tick small max L h HC Ht Hs Hm (1 + max) w) as (x & w' & R & Hx & Hw); [|done|].
  { pose proof (Hm (wx w)). lia. }
  exists x, w'. split; [|done]. by apply (invoke_return C L _ (VTab (fresh h)) [] h w [] 19).
Qed.

(** When another thread has dropped groups between the two calls, [getgroups] reads array elements
    that were never written: it goes by the number of groups it asked for, not by the number
    the second call reports. *)
Theorem getgroups_shrinks gs tick small fuel L h w :
  getgroups_lib C gs tick small -> roomy w ->
  (length (gs (tick (wx w))) < length (gs (wx w)))%nat ->
  (invoke C L (l_getgroups (1 + fuel)) [] h w).1 = Halt (Unspec "the contents of uninitialised memory").
Proof.
  intros HC Hr Hlt. set (n := length (gs (wx w))) in *. set (x := tick (wx w)) in *.
  unfold invoke. rewrite (run_getgroups_round gs tick small fuel L _ w HC Hr).
  2:{ intros He. unfold n in Hlt. rewrite He in Hlt. cbn in Hlt. lia. }
  fold n x. rewrite (proj2 (Nat.ltb_ge _ _)) by lia. unfold push_groups, frame, LUA_MINSTACK.
  rewrite Nat2Z.id, run_bind, run_lua. doc_eval. destruct n as [|k] eqn:Hn; [lia|]. cbn [push_down].
  rewrite !run_bind, (run_arr_load_unset C L _ (AZ <$> gs x) (Datatypes.S k - length (gs x))).
  - cbn [andthen finish]. by rewrite wl_put.
  - apply lookup_insert_eq.
  - rewrite length_fmap. lia.
Qed.
End groups.

(** ** Memory handed over *)

Section memory.
Context `{LuaSem} `{Consts} {S : Type} `{Libc S} (C : clib S).
Implicit Types (w : world S lstate) (L : nat) (h : heap) (p : Z).
Abbreviation rn := (run (documented C)).

Lemma run_groups_arg L t xs h w :
  roomy w -> tabs h !! t = Some (Table (arr xs) None) -> Z.of_nat (length xs) < 2 ^ 31 ->
  rn (groups_arg L) (put L (frame [VTab t] h) w) =
  if (length xs =? 0)%nat then (Ok (0, 0), put L (frame [VTab t] h) w)
  else (Ok (Z.of_nat (length xs), wnext w),
        put L (frame [VTab t] h) (poke (wnext w) (partial [] (length xs)) (set_next (wnext w + 1) w))).
Proof.
  intros [Hp Hmem Ho] Ht Hlen. unfold groups_arg, lua_isnoneornil, frame. lua_run. know Ht. lua_run.
  cbn [tmeta]. rewrite seq_len_arr. lua_run. rewrite to_int_small by lia.
  destruct xs as [|x xs]; [done|]. rewrite (proj2 (Z.eqb_neq _ 0)) by (cbn; lia).
  rewrite run_bind, run_malloc_array by apply Ho. cbn [andthen].
  rewrite (proj2 (Z.eqb_neq _ _)) by lia. by rewrite Nat2Z.id.
Qed.

(** [setgroups] never reads the table it is given: it allocates an array of the table's length and
    passes it on unwritten, so that for every nonempty list the process gets groups out of
    uninitialised memory. Without an argument, or with an empty list, it drops all groups. *)
Theorem setgroups_unset set L t xs h w :
  setgroups_lib C set -> roomy w ->
  tabs h !! t = Some (Table (arr xs) None) -> Z.of_nat (length xs) < 2 ^ 31 ->
  (xs ≠ [] -> (invoke C L l_setgroups [VTab t] h w).1 = Halt (Unspec "the contents of uninitialised memory")) /\
  (xs = [] -> executes C L l_setgroups [VTab t] h w (Ok [VInt 1]) (put L (idle h) (set_x (set [] (wx w)) w))) /\
  executes C L l_setgroups [] h w (Ok [VInt 1]) (put L (idle h) (set_x (set [] (wx w)) w)).
Proof.
  intros HC Hr Ht Hlen. pose proof (run_groups_arg L t xs h w Hr Ht Hlen) as Hg. split_all.
  - intros Hne. rewrite (proj2 (Nat.eqb_neq _ _)) in Hg by (destruct xs; cbn; lia || done).
    unfold invoke, l_setgroups. rewrite run_bind, Hg. cbn [andthen]. rewrite run_bind, run_call.
    assert (Hn : exists k, length xs = (1 + k)%nat) by (destruct xs; [done|by eexists]). destruct Hn as [k Hn].
    rewrite Hn, (sg_unset _ _ HC _ [] k); [|destruct Hr; lia|apply lookup_insert_eq].
    cbn [andthen finish]. by rewrite wl_put.
  - intros ->. apply (invoke_return C L _ (VInt 1) [VTab t] h w [VTab t] 19).
    unfold l_setgroups. rewrite run_bind, Hg. cbn [length Nat.eqb andthen].
    rewrite run_bind, run_call, (sg_null _ _ HC). cbn [andthen rc Z.eqb]. unfold frame, LUA_MINSTACK.
    rewrite set_x_put, run_bind, run_free_null. cbn [andthen]. by rewrite (run_success C L _ 19).
  - apply (invoke_return C L _ (VInt 1) [] h w [] 19). unfold l_setgroups, groups_arg, lua_isnoneornil, frame, LUA_MINSTACK.
    lua_run. rewrite run_call, (sg_null _ _ HC). cbn [andthen rc Z.eqb].
    rewrite set_x_put. cbv beta iota. rewrite run_bind, run_free_null. cbn [andthen]. by rewrite (run_success C L _ 19).
Qed.

Lemma run_push_tail L p len buf off vs n h w :
  wm w !! p = Some (OBuf len buf) -> let t := String.substring off (String.length buf - off) buf in
  has_nul t = true ->
  rn (push_tail L p (p + Z.of_nat off)) (put L (LS vs (1 + n) h) w) = (Ok tt, put L (LS (VStr (cstr t) :: vs) n h) w).
Proof.
  intros Hm t Ht. unfold push_tail. replace (p + Z.of_nat off - p) with (Z.of_nat off) by lia. rewrite Nat2Z.id.
  rewrite run_bind, (run_read C p _ (OBuf len buf) (cstr t)); [|done|].
  - cbn [andthen]. lua_run. by rewrite cstr_idemp.
  - cbn [read_tail]. fold t. by rewrite Ht.
Qed.

(** [strtofflags] frees the pointer that the library has moved along the text: unless the token read
    last is the first one, it frees an address that was never allocated, on success and on
    failure alike. For a single token it returns the flags to set and to clear, or nil and
    the token that is no flag, and gives its memory back. *)
Theorem strtofflags_free parse L s h w :
  strtofflags_lib C parse -> roomy w -> let r := parse (cstr s) in
  ((0 < ff_off r)%nat -> (invoke C L l_strtofflags [VStr s] h w).1 = Halt (UB "free of memory that is not allocated")) /\
  (ff_off r = 0%nat -> exists w',
    executes C L l_strtofflags [VStr s] h w
      (Ok (if ff_rc r =? 0 then [VInt (to_long (ff_set r)); VInt (to_long (ff_clr r))] else [VNil; VStr (cstr (ff_buf r))]))
      (put L (idle h) w') /\ wm w' = wm w /\ wx w' = wx w).
Proof.
  intros HC [Hp Hmem Ho] r. set (p := wnext w) in *. set (len := Z.of_nat (String.length (cstr s)) + 1).
  set (w1 := poke p (OBuf len (ff_buf r)) (set_next (p + 1) w)). set (str := p + Z.of_nat (ff_off r)).
  assert (Hrun : rn (l_strtofflags L) (put L (frame [VStr s] h) w) =
    rn (if negb (ff_rc r =? 0) then luaL_pushfail L;; push_tail L p str;; free str;; mret 2
        else free str;; lua_pushinteger L (to_long (ff_set r));; lua_pushinteger L (to_long (ff_clr r));; mret 2)
      (put L (LS [VStr s] 20 h) w1)).
  { unfold l_strtofflags, luaL_checkstring, strdup, frame, LUA_MINSTACK. rewrite !run_bind, run_lua. doc_eval.
    rewrite run_ret. cbn [andthen]. fold len. rewrite run_bind, run_malloc_ok by apply Ho. cbn [andthen]. fold p.
    rewrite (proj2 (Z.eqb_neq p 0)) by lia. rewrite run_bind, run_call.
    rewrite (sf_parse _ _ HC p len (cstr s)) by (apply cstr_idemp || apply lookup_insert_eq). cbn [andthen rc]. fold r.
    change (out_int 0 _) with str. change (out_int 1 _) with (ff_set r). change (out_int 2 _) with (ff_clr r).
    by rewrite poke_put, poke_poke. }
  assert (Hm : wm w1 !! p = Some (OBuf len (ff_buf r))) by apply lookup_insert_eq.
  pose proof (run_push_tail L p len (ff_buf r) (ff_off r) [VNil; VStr s] 18 h w1 Hm (sf_token _ _ HC _)) as Ht.
  fold (token r) str in Ht. change (1 + 18)%nat with 19%nat in Ht. split.
  - intros Hoff. assert (Hstr : wm w1 !! str = None).
    { cbn. rewrite lookup_insert_ne by (unfold str; lia). apply Hmem. unfold str. lia. }
    unfold invoke. rewrite Hrun. destruct (ff_rc r =? 0); cbn [negb].
    + rewrite run_bind, run_free_bad by (done || unfold str; lia). cbn [andthen finish]. by rewrite wl_put.
    + rewrite run_bind, run_lua. doc_eval. rewrite run_bind, Ht. cbn [andthen].
      rewrite run_bind, run_free_bad by (done || unfold str; lia). cbn [andthen finish]. by rewrite wl_put.
  - intros Hoff. unfold str in Hrun, Ht. unfold token in Ht. rewrite Hoff, Z.add_0_r in Hrun, Ht.
    rewrite Nat.sub_0_r, substring_all in Ht. exists (release p w1). split; [|split; [|done]].
    2:{ cbn. rewrite delete_insert_id; [done|]. apply Hmem. unfold p. lia. }
    destruct (ff_rc r =? 0); cbn [negb] in Hrun.
    + apply (executes_return C L _ _ h w [_; _] [VStr s] 18). rewrite Hrun, run_bind, (run_free C p _ L _ w1 ltac:(lia) Hm).
      cbn [andthen]. lua_run. done.
    + apply (executes_return C L _ _ h w [_; _] [VStr s] 18). rewrite Hrun, run_bind, run_lua. doc_eval.
      rewrite run_bind, Ht. cbn [andthen]. rewrite run_bind, (run_free C p _ L _ w1 ltac:(lia) Hm). done.
Qed.
End memory.

(** ** Witnesses *)

Definition no_tick (x : ustate) : ustate := x.
(** another thread adds a group, or drops all *)
Definition add_tick (x : ustate) : ustate := Ustate (u_errno x) (u_groups x ++ [5]).
Definition drop_tick (x : ustate) : ustate := Ustate (u_errno x) [].

Lemma unix_roomy gs : roomy (unix_world gs).
Proof. by split. Qed.

Definition unix_heap : heap := sample_heap SETMODE_METATABLE [] 0.

Lemma unistd_contract_witness :
  executes (sample_clib [("lseek", (Cret (-1) [], 29))]) 0 l_lseek [VInt 3; VInt (-5); VInt 0] unix_heap (sample_world ∅)
    (Ok (failure 29)) (put 0%nat (idle unix_heap) (set_x 29 (sample_world ∅))).
Proof.
  apply (unistd_contract (sample_clib [("lseek", (Cret (-1) [], 29))])
    (fun fn args s => if String.eqb fn "lseek" then (Cret (-1) [], 29) else (Cret 0 [], s)) 0
    [VInt 3; VInt (-5); VInt 0] unix_heap (sample_world ∅) _ _ _
    (Wrapped "l_lseek" l_lseek "lseek" [AFd id; AInt id; AInt to_int] [] RInt)).
  - apply list_elem_of_In, (list_elem_of_lookup_2 _ 63). reflexivity.
  - intros fn args w [<-|[]]. done.
  - vm_compute. reflexivity.
Defined.

Lemma confstr_value_witness :
  (exists w', executes (unix no_tick) 0 (l_confstr 2) [VInt 1] unix_heap (unix_world [])
     (Ok [VStr ("/bin" +:+ String NUL "")]) (put 0%nat (idle unix_heap) w') /\
     wm w' = delete 4096 (wm (unix_world [])) /\ wx w' = Ustate 0 []) /\
  executes (unix no_tick) 0 (l_confstr 2) [VInt 3] unix_heap (unix_world []) (Ok (failure 22))
    (put 0%nat (idle unix_heap) (set_x (Ustate 22 []) (unix_world []))).
Proof.
  split.
  - apply (proj1 (confstr_value (unix no_tick) unix_conf unix_off (unix_confstr no_tick) _ 0 0 1 unix_heap (unix_world []) "/bin"
      (unix_errno_set no_tick))); [done|done|done|done].
  - apply (proj2 (confstr_value (unix no_tick) unix_conf unix_off (unix_confstr no_tick) _ 0 0 3 unix_heap (unix_world []) ""
      (unix_errno_set no_tick))). done.
Defined.

Lemma getgrouplist_value_witness :
  exists w', executes (unix no_tick) 0 (l_getgrouplist 2) [VStr "root"; VInt 0] unix_heap (unix_world [5; 7]) (Ok [VTab 10])
    (put 0%nat (idle (alloc_tab (Table (arr [VInt 0; VInt 5; VInt 7]) None) unix_heap)) w') /\
    wm w' = delete 4096 (wm (unix_world [5; 7])) /\ wx w' = Ustate 0 [5; 7].
Proof.
  exact (getgrouplist_value (unix no_tick) unix_members 0 0 "root" 0 unix_heap (unix_world [5; 7])
    (unix_grouplist no_tick) ltac:(done)).
Defined.

(** the first round finds that a group was added; the second returns two groups *)
Lemma getgroups_ends_witness :
  exists x w', executes (unix add_tick) 0 (l_getgroups 3) [] unix_heap (unix_world [0]) (Ok [VTab 10])
    (put 0%nat (idle (alloc_tab (Table (arr (VInt <$> unix_gs x)) None) unix_heap)) w') /\
    rtc (fun x y => y = add_tick x \/ y = unix_small x) (Ustate 0 [0]) x /\ wm w' = wm (unix_world [0]).
Proof.
  apply (getgroups_ends (unix add_tick) unix_gs add_tick unix_small 2 0 unix_heap (unix_world [0]) (unix_getgroups add_tick)).
  - intros x. unfold unix_gs. cbn. rewrite !length_take, length_app. lia.
  - intros x. done.
  - intros x. unfold unix_gs. rewrite length_take. lia.
  - apply unix_roomy.
Defined.

Lemma getgroups_shrinks_witness :
  (invoke (unix drop_tick) 0 (l_getgroups 1) [] unix_heap (unix_world [0; 5])).1 = Halt uninit.
Proof.
  apply (getgroups_shrinks (unix drop_tick) unix_gs drop_tick unix_small 0 0 unix_heap (unix_world [0; 5])
    (unix_getgroups drop_tick) (unix_roomy _)). cbn. lia.
Defined.

(** table 1 holds two groups *)
Definition groups_heap : heap := set_tab 1 (Table (arr [VInt 0; VInt 5]) None) unix_heap.

Lemma setgroups_unset_witness :
  (invoke (unix no_tick) 0 l_setgroups [VTab 1] groups_heap (unix_world [])).1 = Halt uninit /\
  executes (unix no_tick) 0 l_setgroups [] groups_heap (unix_world [7]) (Ok [VInt 1])
    (put 0%nat (idle groups_heap) (unix_world [])).
Proof.
  split.
  - by apply (setgroups_unset (unix no_tick) unix_set 0 1 [VInt 0; VInt 5] groups_heap (unix_world [])
      (unix_setgroups no_tick) (unix_roomy _)).
  - by apply (setgroups_unset (unix no_tick) unix_set 0 1 [VInt 0; VInt 5] groups_heap (unix_world [7])
      (unix_setgroups no_tick) (unix_roomy _)).
Defined.

Lemma strtofflags_free_witness :
  (invoke (unix no_tick) 0 l_strtofflags [VStr "uchg,x"] unix_heap (unix_world [])).1 =
    Halt (UB "free of memory that is not allocated") /\
  exists w', executes (unix no_tick) 0 l_strtofflags [VStr "uchg"] unix_heap (unix_world []) (Ok [VInt 2; VInt 0])
    (put 0%nat (idle unix_heap) w') /\ wm w' = wm (unix_world []) /\ wx w' = Ustate 0 [].
Proof.
  split.
  - apply (proj1 (strtofflags_free (unix no_tick) unix_parse 0 "uchg,x" unix_heap (unix_world [])
      (unix_strtofflags no_tick) (unix_roomy _))). cbn. lia.
  - by apply (proj2 (strtofflags_free (unix no_tick) unix_parse 0 "uchg" unix_heap (unix_world [])
      (unix_strtofflags no_tick) (unix_roomy _))).
Defined.
