(* ===== verification/Acl.v ===== *)
(** * lua_acl.c: access control lists

    A list, its entries, and the sets of permissions and flags of an entry are handles;
    an entry keeps its list alive, a set its entry.  Most functions are one call of the
    library and have a description ([acl_wrappers]). *)

From S2P Require Import Prelude LuaApi Machine Capi Utils Modules Cmem Uio Wrapper.

Section acl.
Context `{Consts}.

Definition ACL_METATABLE : string := "acl_t".
Definition ACL_ENTRY_METATABLE : string := "acl_entry_t".
Definition ACL_FLAGSET_METATABLE : string := "acl_flagset_t".
Definition ACL_PERMSET_METATABLE : string := "acl_permset_t".

Definition l_acl_delete (L : nat) : prog Z :=
  s ← luaL_checkudata L 1 LUA_FILEHANDLE;
  type_ ← luaL_optinteger L 2 (cst "ACL_TYPE_ACCESS");
  fp ← load s stream_f;
  fd ← call "fileno" [AZ fp];
  if rc fd <? 0 then
    e ← errno;
    fatal L "fileno" e
  else
    r ← call "acl_delete_fd_np" [AZ (rc fd); AZ (to_int type_)];
    if rc r =? -1 then
      e ← errno;
      fail L e
    else
      success L.

Definition l_acl_delete_fd (L : nat) : prog Z :=
  fd ← luaL_checkinteger L 1;
  type_ ← luaL_optinteger L 2 (cst "ACL_TYPE_ACCESS");
  r ← call "acl_delete_fd_np" [AZ (to_int fd); AZ (to_int type_)];
  if rc r =? -1 then
    e ← errno;
    fail L e
  else
    success L.

Definition l_acl_delete_file (L : nat) : prog Z :=
  path ← luaL_checkstring L 1;
  type_ ← luaL_optinteger L 2 (cst "ACL_TYPE_ACCESS");
  r ← call "acl_delete_file_np" [AS path; AZ (to_int type_)];
  if rc r =? -1 then
    e ← errno;
    fail L e
  else
    success L.

Definition l_acl_delete_link (L : nat) : prog Z :=
  path ← luaL_checkstring L 1;
  type_ ← luaL_optinteger L 2 (cst "ACL_TYPE_ACCESS");
  r ← call "acl_delete_link_np" [AS path; AZ (to_int type_)];
  if rc r =? -1 then
    e ← errno;
    fail L e
  else
    success L.

Definition l_acl_extended_file (L : nat) : prog Z :=
  path ← luaL_checkstring L 1;
  extended ← call "acl_extended_file_np" [AS path];
  if rc extended =? -1 then
    e ← errno;
    fail L e
  else
    lua_pushboolean L (negb (rc extended =? 0));;
    mret 1.

Definition l_acl_extended_link (L : nat) : prog Z :=
  path ← luaL_checkstring L 1;
  extended ← call "acl_extended_link_np" [AS path];
  if rc extended =? -1 then
    e ← errno;
    fail L e
  else
    lua_pushboolean L (negb (rc extended =? 0));;
    mret 1.

Definition l_acl_from_mode (L : nat) : prog Z :=
  mode ← luaL_checkinteger L 1;
  acl ← call "acl_from_mode_np" [AZ (to_ushort mode)];
  if rc acl =? 0 then
    e ← errno;
    fail L e
  else
    new L (rc acl) ACL_METATABLE.

Definition l_acl_from_text (L : nat) : prog Z :=
  buf ← luaL_checkstring L 1;
  acl ← call "acl_from_text" [AS buf];
  if rc acl =? 0 then
    e ← errno;
    fail L e
  else
    new L (rc acl) ACL_METATABLE.

Definition l_acl_get (L : nat) : prog Z :=
  s ← luaL_checkudata L 1 LUA_FILEHANDLE;
  type_ ← luaL_optinteger L 2 (cst "ACL_TYPE_ACCESS");
  fp ← load s stream_f;
  fd ← call "fileno" [AZ fp];
  if rc fd <? 0 then
    e ← errno;
    fatal L "fileno" e
  else
    acl ← call "acl_get_fd_np" [AZ (rc fd); AZ (to_int type_)];
    if rc acl =? 0 then
      e ← errno;
      fail L e
    else
      new L (rc acl) ACL_METATABLE.

Definition l_acl_get_fd (L : nat) : prog Z :=
  fd ← luaL_checkinteger L 1;
  type_ ← luaL_optinteger L 2 (cst "ACL_TYPE_ACCESS");
  acl ← call "acl_get_fd_np" [AZ (to_int fd); AZ (to_int type_)];
  if rc acl =? 0 then
    e ← errno;
    fail L e
  else
    new L (rc acl) ACL_METATABLE.

Definition l_acl_get_file (L : nat) : prog Z :=
  path ← luaL_checkstring L 1;
  type_ ← luaL_optinteger L 2 (cst "ACL_TYPE_ACCESS");
  acl ← call "acl_get_file" [AS path; AZ (to_int type_)];
  if rc acl =? 0 then
    e ← errno;
    fail L e
  else
    new L (rc acl) ACL_METATABLE.

Definition l_acl_get_link (L : nat) : prog Z :=
  path ← luaL_checkstring L 1;
  type_ ← luaL_optinteger L 2 (cst "ACL_TYPE_ACCESS");
  acl ← call "acl_get_link_np" [AS path; AZ (to_int type_)];
  if rc acl =? 0 then
    e ← errno;
    fail L e
  else
    new L (rc acl) ACL_METATABLE.

Definition l_acl_new (L : nat) : prog Z :=
  count ← luaL_optinteger L 1 (cst "ACL_MAX_ENTRIES");
  acl ← call "acl_init" [AZ (to_int count)];
  if rc acl =? 0 then
    e ← errno;
    fail L e
  else
    new L (rc acl) ACL_METATABLE.

Definition l_acl_cmp (L : nat) : prog Z :=
  acl1 ← checkcookie L 1 ACL_METATABLE;
  acl2 ← checkcookie L 2 ACL_METATABLE;
  cmp ← call "acl_cmp_np" [AZ acl1; AZ acl2];
  if rc cmp =? -1 then
    e ← errno;
    fatal L "acl_cmp_np" e
  else
    lua_pushboolean L (rc cmp =? 0);;
    mret 1.

Definition l_acl_gc (L : nat) : prog Z :=
  acl ← checkcookie L 1 ACL_METATABLE;
  r ← call "acl_free" [AZ acl];
  if rc r =? -1 then
    e ← errno;
    fatal L "acl_free" e
  else
    mret 0.

Definition l_acl_calc_mask (L : nat) : prog Z :=
  acl ← checkcookie L 1 ACL_METATABLE;
  r ← call "acl_calc_mask" [AZ acl];
  if rc r =? -1 then
    e ← errno;
    fail L e
  else
    lua_pushlightuserdata L (out_int 0 r);;
    lua_setiuservalue L 1 COOKIE;;
    success L.

Definition l_acl_create_entry (L : nat) : prog Z :=
  acl ← checkcookie L 1 ACL_METATABLE;
  index ← luaL_optinteger L 2 (-1);
  r ← (if to_int index =? -1 then call "acl_create_entry" [AZ acl]
       else call "acl_create_entry_np" [AZ acl; AZ (to_int index)]);
  if rc r =? -1 then
    e ← errno;
    fail L e
  else
    lua_pushlightuserdata L (out_int 0 r);;
    lua_setiuservalue L 1 COOKIE;;
    newref L 1 (out_int 1 r) ACL_ENTRY_METATABLE.

Definition l_acl_delete_entry (L : nat) : prog Z :=
  acl ← checkcookie L 1 ACL_METATABLE;
  isint ← lua_isinteger L 2;
  if isint : bool then
    index ← lua_tointeger L 2;
    r ← call "acl_delete_entry_np" [AZ acl; AZ (to_int index)];
    if rc r =? -1 then
      e ← errno;
      fail L e
    else
      success L
  else
    entry ← checkcookie L 1 ACL_ENTRY_METATABLE;
    r ← call "acl_delete_entry" [AZ acl; AZ entry];
    if rc r =? -1 then
      e ← errno;
      fail L e
    else
      success L.

Definition l_acl_dup (L : nat) : prog Z :=
  acl1 ← checkcookie L 1 ACL_METATABLE;
  acl2 ← call "acl_dup" [AZ acl1];
  if rc acl2 =? 0 then
    e ← errno;
    fail L e
  else
    new L (rc acl2) ACL_METATABLE.

Definition l_acl_equiv_mode (L : nat) : prog Z :=
  acl ← checkcookie L 1 ACL_METATABLE;
  r ← call "acl_equiv_mode_np" [AZ acl];
  if rc r =? 0 then
    lua_pushboolean L true;;
    lua_pushinteger L (out_int 0 r);;
    mret 2
  else if rc r =? 1 then
    lua_pushboolean L false;;
    mret 1
  else if rc r =? -1 then
    e ← errno;
    fail L e
  else
    luaL_error L "undocumented acl_equiv_mode_np result".

Definition l_acl_get_brand (L : nat) : prog Z :=
  acl ← checkcookie L 1 ACL_METATABLE;
  r ← call "acl_get_brand_np" [AZ acl];
  if rc r =? -1 then
    e ← errno;
    fail L e
  else
    lua_pushinteger L (out_int 0 r);;
    mret 1.

Definition l_acl_get_entry (L : nat) : prog Z :=
  acl ← checkcookie L 1 ACL_METATABLE;
  id_ ← luaL_checkinteger L 2;
  r ← call "acl_get_entry" [AZ acl; AZ (to_int id_)];
  if rc r =? -1 then
    e ← errno;
    fail L e
  else
    newref L 1 (out_int 0 r) ACL_ENTRY_METATABLE.

Definition l_acl_is_trivial (L : nat) : prog Z :=
  acl ← checkcookie L 1 ACL_METATABLE;
  r ← call "acl_is_trivial_np" [AZ acl];
  if rc r =? -1 then
    e ← errno;
    fail L e
  else
    lua_pushboolean L (negb (out_int 0 r =? 0));;
    mret 1.

Definition l_acl_set (L : nat) : prog Z :=
  acl ← checkcookie L 1 ACL_METATABLE;
  s ← luaL_checkudata L 2 LUA_FILEHANDLE;
  type_ ← luaL_optinteger L 3 (cst "ACL_TYPE_ACCESS");
  fp ← load s stream_f;
  fd ← call "fileno" [AZ fp];
  if rc fd <? 0 then
    e ← errno;
    fatal L "fileno" e
  else
    r ← call "acl_set_fd_np" [AZ (rc fd); AZ acl; AZ (to_int type_)];
    if rc r =? -1 then
      e ← errno;
      fail L e
    else
      success L.

Definition l_acl_set_fd (L : nat) : prog Z :=
  acl ← checkcookie L 1 ACL_METATABLE;
  fd ← luaL_checkinteger L 2;
  type_ ← luaL_optinteger L 3 (cst "ACL_TYPE_ACCESS");
  r ← call "acl_set_fd_np" [AZ (to_int fd); AZ acl; AZ (to_int type_)];
  if rc r =? -1 then
    e ← errno;
    fail L e
  else
    success L.

Definition l_acl_set_file (L : nat) : prog Z :=
  acl ← checkcookie L 1 ACL_METATABLE;
  path ← luaL_checkstring L 2;
  type_ ← luaL_optinteger L 3 (cst "ACL_TYPE_ACCESS");
  r ← call "acl_set_file" [AS path; AZ (to_int type_); AZ acl];
  if rc r =? -1 then
    e ← errno;
    fail L e
  else
    success L.

Definition l_acl_set_link (L : nat) : prog Z :=
  acl ← checkcookie L 1 ACL_METATABLE;
  path ← luaL_checkstring L 2;
  type_ ← luaL_optinteger L 3 (cst "ACL_TYPE_ACCESS");
  r ← call "acl_set_link_np" [AS path; AZ (to_int type_); AZ acl];
  if rc r =? -1 then
    e ← errno;
    fail L e
  else
    success L.

Definition l_acl_strip (L : nat) : prog Z :=
  acl1 ← checkcookie L 1 ACL_METATABLE;
  recalculate_mask ← lua_toboolean L 2;
  acl2 ← call "acl_strip_np" [AZ acl1; AZ (Z_of_bool recalculate_mask)];
  if rc acl2 =? 0 then
    e ← errno;
    fail L e
  else
    new L (rc acl2) ACL_METATABLE.

Definition l_acl_to_text (L : nat) : prog Z :=
  acl ← checkcookie L 1 ACL_METATABLE;
  flags ← luaL_optinteger L 2 0;
  buf ← call "acl_to_text_np" [AZ acl; AZ (to_int flags)];
  if rc buf =? 0 then
    e ← errno;
    fail L e
  else
    push_bytes L (rc buf) (out_int 0 buf);;
    mret 1.

Definition l_acl_valid (L : nat) : prog Z :=
  acl ← checkcookie L 1 ACL_METATABLE;
  t ← lua_type L 2;
  if is_type t TUSERDATA || is_type t TLIGHTUSERDATA then
    s ← luaL_checkudata L 2 LUA_FILEHANDLE;
    type_ ← luaL_optinteger L 3 (cst "ACL_TYPE_ACCESS");
    fp ← load s stream_f;
    fd ← call "fileno" [AZ fp];
    if rc fd <? 0 then
      e ← errno;
      fatal L "fileno" e
    else
      r ← call "acl_valid_fd_np" [AZ (rc fd); AZ (to_int type_); AZ acl];
      if rc r =? -1 then
        e ← errno;
        fail L e
      else
        success L
  else
    r ← call "acl_valid" [AZ acl];
    if rc r =? -1 then
      e ← errno;
      fail L e
    else
      success L.

Definition l_acl_valid_fd (L : nat) : prog Z :=
  acl ← checkcookie L 1 ACL_METATABLE;
  fd ← luaL_checkinteger L 2;
  type_ ← luaL_optinteger L 3 (cst "ACL_TYPE_ACCESS");
  r ← call "acl_valid_fd_np" [AZ (to_int fd); AZ (to_int type_); AZ acl];
  if rc r =? -1 then
    e ← errno;
    fail L e
  else
    success L.

Definition l_acl_valid_file (L : nat) : prog Z :=
  acl ← checkcookie L 1 ACL_METATABLE;
  path ← luaL_checkstring L 2;
  type_ ← luaL_optinteger L 3 (cst "ACL_TYPE_ACCESS");
  r ← call "acl_valid_file_np" [AS path; AZ (to_int type_); AZ acl];
  if rc r =? -1 then
    e ← errno;
    fail L e
  else
    success L.

Definition l_acl_valid_link (L : nat) : prog Z :=
  acl ← checkcookie L 1 ACL_METATABLE;
  path ← luaL_checkstring L 2;
  type_ ← luaL_optinteger L 3 (cst "ACL_TYPE_ACCESS");
  r ← call "acl_valid_link_np" [AS path; AZ (to_int type_); AZ acl];
  if rc r =? -1 then
    e ← errno;
    fail L e
  else
    success L.

Definition l_acl_copy_entry (L : nat) : prog Z :=
  dst ← checkcookie L 1 ACL_ENTRY_METATABLE;
  src ← checkcookie L 2 ACL_ENTRY_METATABLE;
  r ← call "acl_copy_entry" [AZ dst; AZ src];
  if rc r =? -1 then
    e ← errno;
    fail L e
  else
    success L.

Definition l_acl_get_flagset (L : nat) : prog Z :=
  entry ← checkcookie L 1 ACL_ENTRY_METATABLE;
  r ← call "acl_get_flagset_np" [AZ entry];
  if rc r =? -1 then
    e ← errno;
    fail L e
  else
    newref L 1 (out_int 0 r) ACL_FLAGSET_METATABLE.

Definition l_acl_get_permset (L : nat) : prog Z :=
  entry ← checkcookie L 1 ACL_ENTRY_METATABLE;
  r ← call "acl_get_permset" [AZ entry];
  if rc r =? -1 then
    e ← errno;
    fail L e
  else
    newref L 1 (out_int 0 r) ACL_PERMSET_METATABLE.

Definition l_acl_get_qualifier (L : nat) : prog Z :=
  entry ← checkcookie L 1 ACL_ENTRY_METATABLE;
  id_ ← call "acl_get_qualifier" [AZ entry];
  if rc id_ =? 0 then
    e ← errno;
    fail L e
  else
    v ← arr_load (rc id_) 0;
    lua_pushinteger L v;;
    call "acl_free" [AZ (rc id_)];;
    mret 1.

Definition l_acl_get_entry_type (L : nat) : prog Z :=
  entry ← checkcookie L 1 ACL_ENTRY_METATABLE;
  r ← call "acl_get_entry_type_np" [AZ entry];
  if rc r =? -1 then
    e ← errno;
    fail L e
  else
    lua_pushinteger L (out_int 0 r);;
    mret 1.

Definition l_acl_set_entry_type (L : nat) : prog Z :=
  entry ← checkcookie L 1 ACL_ENTRY_METATABLE;
  type_ ← luaL_checkinteger L 2;
  r ← call "acl_set_entry_type_np" [AZ entry; AZ (to_ushort type_)];
  if rc r =? -1 then
    e ← errno;
    fail L e
  else
    success L.

Definition l_acl_get_tag_type (L : nat) : prog Z :=
  entry ← checkcookie L 1 ACL_ENTRY_METATABLE;
  r ← call "acl_get_tag_type" [AZ entry];
  if rc r =? -1 then
    e ← errno;
    fail L e
  else
    lua_pushinteger L (out_int 0 r);;
    mret 1.

Definition l_acl_set_tag_type (L : nat) : prog Z :=
  entry ← checkcookie L 1 ACL_ENTRY_METATABLE;
  tag_type ← luaL_checkinteger L 2;
  r ← call "acl_set_tag_type" [AZ entry; AZ (to_uint tag_type)];
  if rc r =? -1 then
    e ← errno;
    fail L e
  else
    success L.

Definition l_acl_set_flagset (L : nat) : prog Z :=
  entry ← checkcookie L 1 ACL_ENTRY_METATABLE;
  flagset ← checkcookie L 2 ACL_FLAGSET_METATABLE;
  r ← call "acl_set_flagset_np" [AZ entry; AZ flagset];
  if rc r =? -1 then
    e ← errno;
    fail L e
  else
    success L.

Definition l_acl_set_permset (L : nat) : prog Z :=
  entry ← checkcookie L 1 ACL_ENTRY_METATABLE;
  permset ← checkcookie L 2 ACL_PERMSET_METATABLE;
  r ← call "acl_set_permset" [AZ entry; AZ permset];
  if rc r =? -1 then
    e ← errno;
    fail L e
  else
    success L.

Definition l_acl_set_qualifier (L : nat) : prog Z :=
  entry ← checkcookie L 1 ACL_ENTRY_METATABLE;
  id_ ← luaL_checkinteger L 2;
  r ← call "acl_set_qualifier" [AZ entry; AZ (to_uint id_)];
  if rc r =? -1 then
    e ← errno;
    fail L e
  else
    success L.

Definition l_acl_add_flag (L : nat) : prog Z :=
  flagset ← checkcookie L 1 ACL_FLAGSET_METATABLE;
  flag ← luaL_checkinteger L 2;
  r ← call "acl_add_flag_np" [AZ flagset; AZ (to_ushort flag)];
  if rc r =? -1 then
    e ← errno;
    fail L e
  else
    success L.

Definition l_acl_clear_flags (L : nat) : prog Z :=
  flagset ← checkcookie L 1 ACL_FLAGSET_METATABLE;
  r ← call "acl_clear_flags_np" [AZ flagset];
  if rc r =? -1 then
    e ← errno;
    fail L e
  else
    success L.

Definition l_acl_delete_flag (L : nat) : prog Z :=
  flagset ← checkcookie L 1 ACL_FLAGSET_METATABLE;
  flag ← luaL_checkinteger L 2;
  r ← call "acl_delete_flag_np" [AZ flagset; AZ (to_ushort flag)];
  if rc r =? -1 then
    e ← errno;
    fail L e
  else
    success L.

Definition l_acl_get_flag (L : nat) : prog Z :=
  flagset ← checkcookie L 1 ACL_FLAGSET_METATABLE;
  flag ← luaL_checkinteger L 2;
  set_ ← call "acl_get_flag_np" [AZ flagset; AZ (to_ushort flag)];
  if rc set_ =? -1 then
    e ← errno;
    fail L e
  else
    lua_pushboolean L (negb (rc set_ =? 0));;
    mret 1.

Definition l_acl_add_perm (L : nat) : prog Z :=
  permset ← checkcookie L 1 ACL_PERMSET_METATABLE;
  perm ← luaL_checkinteger L 2;
  r ← call "acl_add_perm" [AZ permset; AZ (to_uint perm)];
  if rc r =? -1 then
    e ← errno;
    fail L e
  else
    success L.

Definition l_acl_clear_perms (L : nat) : prog Z :=
  permset ← checkcookie L 1 ACL_PERMSET_METATABLE;
  r ← call "acl_clear_perms" [AZ permset];
  if rc r =? -1 then
    e ← errno;
    fail L e
  else
    success L.

Definition l_acl_delete_perm (L : nat) : prog Z :=
  permset ← checkcookie L 1 ACL_PERMSET_METATABLE;
  perm ← luaL_checkinteger L 2;
  r ← call "acl_delete_perm" [AZ permset; AZ (to_uint perm)];
  if rc r =? -1 then
    e ← errno;
    fail L e
  else
    success L.

Definition l_acl_get_perm (L : nat) : prog Z :=
  permset ← checkcookie L 1 ACL_PERMSET_METATABLE;
  perm ← luaL_checkinteger L 2;
  set_ ← call "acl_get_perm_np" [AZ permset; AZ (to_uint perm)];
  if rc set_ =? -1 then
    e ← errno;
    fail L e
  else
    lua_pushboolean L (negb (rc set_ =? 0));;
    mret 1.

(** ** The module *)

Definition l_acl_funcs : list (string * string) :=
  [
   ("delete", "l_acl_delete"); ("delete_fd", "l_acl_delete_fd");
   ("delete_file", "l_acl_delete_file"); ("delete_link", "l_acl_delete_link")] ++
  (if 1400032 <? cst "__FreeBSD_version" then [
   ("extended_file", "l_acl_extended_file"); ("extended_link", "l_acl_extended_link");
   ("from_mode", "l_acl_from_mode")] else []) ++
  [
   ("from_text", "l_acl_from_text"); ("get", "l_acl_get"); ("get_fd", "l_acl_get_fd");
   ("get_file", "l_acl_get_file"); ("get_link", "l_acl_get_link"); ("new", "l_acl_new")].

Definition l_acl_meta : list (string * string) :=
  (if 1400032 <? cst "__FreeBSD_version" then [
   ("__eq", "l_acl_cmp")] else []) ++
  [
   ("__gc", "l_acl_gc"); ("calc_mask", "l_acl_calc_mask"); ("create_entry", "l_acl_create_entry");
   ("delete_entry", "l_acl_delete_entry"); ("dup", "l_acl_dup")] ++
  (if 1400032 <? cst "__FreeBSD_version" then [
   ("equiv_mode", "l_acl_equiv_mode")] else []) ++
  [
   ("get_brand", "l_acl_get_brand"); ("get_entry", "l_acl_get_entry");
   ("is_trivial", "l_acl_is_trivial"); ("set", "l_acl_set"); ("set_fd", "l_acl_set_fd");
   ("set_file", "l_acl_set_file"); ("set_link", "l_acl_set_link"); ("strip", "l_acl_strip");
   ("to_text", "l_acl_to_text"); ("valid", "l_acl_valid"); ("valid_fd", "l_acl_valid_fd");
   ("valid_file", "l_acl_valid_file"); ("valid_link", "l_acl_valid_link")].

Definition l_acl_entry_meta : list (string * string) :=
  [
   ("copy", "l_acl_copy_entry"); ("get_flagset", "l_acl_get_flagset");
   ("get_permset", "l_acl_get_permset"); ("get_qualifier", "l_acl_get_qualifier");
   ("get_tag_type", "l_acl_get_tag_type"); ("get_type", "l_acl_get_entry_type");
   ("set_flagset", "l_acl_set_flagset"); ("set_permset", "l_acl_set_permset");
   ("set_qualifier", "l_acl_set_qualifier"); ("set_tag_type", "l_acl_set_tag_type");
   ("set_type", "l_acl_set_entry_type")].

Definition l_acl_flagset_meta : list (string * string) :=
  [
   ("add", "l_acl_add_flag"); ("clear", "l_acl_clear_flags"); ("delete", "l_acl_delete_flag");
   ("get", "l_acl_get_flag")].

Definition l_acl_permset_meta : list (string * string) :=
  [
   ("add", "l_acl_add_perm"); ("clear", "l_acl_clear_perms"); ("delete", "l_acl_delete_perm");
   ("get", "l_acl_get_perm")].

Definition acl_types : list (string * list (string * string)) :=
  [(ACL_METATABLE, l_acl_meta); (ACL_ENTRY_METATABLE, l_acl_entry_meta);
   (ACL_FLAGSET_METATABLE, l_acl_flagset_meta); (ACL_PERMSET_METATABLE, l_acl_permset_meta)].

Definition acl_consts : list (string * Z) :=
  idents_of "ACL_" [
     "MAX_ENTRIES"; "BRAND_UNKNOWN"; "BRAND_POSIX"; "BRAND_NFS4"; "UNDEFINED_TAG"; "USER_OBJ";
     "USER"; "GROUP_OBJ"; "GROUP"; "MASK"; "OTHER"; "OTHER_OBJ"; "EVERYONE"; "ENTRY_TYPE_ALLOW";
     "ENTRY_TYPE_DENY"; "ENTRY_TYPE_AUDIT"; "ENTRY_TYPE_ALARM"; "TYPE_ACCESS_OLD";
     "TYPE_DEFAULT_OLD"; "TYPE_ACCESS"; "TYPE_DEFAULT"; "TYPE_NFS4"; "EXECUTE"; "WRITE"; "READ";
     "PERM_NONE"; "PERM_BITS"; "POSIX1E_BITS"; "READ_DATA"; "LIST_DIRECTORY"; "WRITE_DATA";
     "ADD_FILE"; "APPEND_DATA"; "ADD_SUBDIRECTORY"; "READ_NAMED_ATTRS"; "WRITE_NAMED_ATTRS";
     "DELETE_CHILD"; "READ_ATTRIBUTES"; "WRITE_ATTRIBUTES"; "DELETE"; "READ_ACL"; "WRITE_ACL";
     "WRITE_OWNER"; "SYNCHRONIZE"; "FULL_SET"; "MODIFY_SET"; "READ_SET"; "WRITE_SET";
     "NFS4_PERM_BITS"; "FIRST_ENTRY"; "NEXT_ENTRY"; "ENTRY_FILE_INHERIT"; "ENTRY_DIRECTORY_INHERIT";
     "ENTRY_NO_PROPAGATE_INHERIT"; "ENTRY_INHERIT_ONLY"; "ENTRY_SUCCESSFUL_ACCESS";
     "ENTRY_FAILED_ACCESS"; "ENTRY_INHERITED"; "FLAGS_BITS"; "UNDEFINED_ID"; "TEXT_VERBOSE";
     "TEXT_NUMERIC_IDS"; "TEXT_APPEND_ID"; "OVERRIDE_MASK"; "PRESERVE_MASK"].

Definition luaopen_sys_acl (L : nat) : prog Z :=
  register_types L acl_types;;
  luaL_newlib L l_acl_funcs;;
  define_all L acl_consts;;
  mret 1.

(** ** What the wrappers do *)

Definition acl_wrappers : list wrapped := [
  Wrapped "l_acl_delete_fd" l_acl_delete_fd "acl_delete_fd_np" [AInt to_int; AOptInt (cst "ACL_TYPE_ACCESS") to_int] [] RSuccess;
  Wrapped "l_acl_delete_file" l_acl_delete_file "acl_delete_file_np" [AStr; AOptInt (cst "ACL_TYPE_ACCESS") to_int] [] RSuccess;
  Wrapped "l_acl_delete_link" l_acl_delete_link "acl_delete_link_np" [AStr; AOptInt (cst "ACL_TYPE_ACCESS") to_int] [] RSuccess;
  Wrapped "l_acl_extended_file" l_acl_extended_file "acl_extended_file_np" [AStr] [] RTruth;
  Wrapped "l_acl_extended_link" l_acl_extended_link "acl_extended_link_np" [AStr] [] RTruth;
  Wrapped "l_acl_from_mode" l_acl_from_mode "acl_from_mode_np" [AInt to_ushort] [] (RNew ACL_METATABLE);
  Wrapped "l_acl_from_text" l_acl_from_text "acl_from_text" [AStr] [] (RNew ACL_METATABLE);
  Wrapped "l_acl_get_fd" l_acl_get_fd "acl_get_fd_np" [AInt to_int; AOptInt (cst "ACL_TYPE_ACCESS") to_int] [] (RNew ACL_METATABLE);
  Wrapped "l_acl_get_file" l_acl_get_file "acl_get_file" [AStr; AOptInt (cst "ACL_TYPE_ACCESS") to_int] [] (RNew ACL_METATABLE);
  Wrapped "l_acl_get_link" l_acl_get_link "acl_get_link_np" [AStr; AOptInt (cst "ACL_TYPE_ACCESS") to_int] [] (RNew ACL_METATABLE);
  Wrapped "l_acl_new" l_acl_new "acl_init" [AOptInt (cst "ACL_MAX_ENTRIES") to_int] [] (RNew ACL_METATABLE);
  Wrapped "l_acl_dup" l_acl_dup "acl_dup" [ACookie ACL_METATABLE] [] (RNew ACL_METATABLE);
  Wrapped "l_acl_get_brand" l_acl_get_brand "acl_get_brand_np" [ACookie ACL_METATABLE] [] (ROuts 1);
  Wrapped "l_acl_get_entry" l_acl_get_entry "acl_get_entry" [ACookie ACL_METATABLE; AInt to_int] [] (RNewref ACL_ENTRY_METATABLE);
  Wrapped "l_acl_is_trivial" l_acl_is_trivial "acl_is_trivial_np" [ACookie ACL_METATABLE] [] ROutBool;
  Wrapped "l_acl_set_fd" l_acl_set_fd "acl_set_fd_np" [ACookie ACL_METATABLE; AInt to_int; AOptInt (cst "ACL_TYPE_ACCESS") to_int] [1%nat; 0%nat; 2%nat] RSuccess;
  Wrapped "l_acl_set_file" l_acl_set_file "acl_set_file" [ACookie ACL_METATABLE; AStr; AOptInt (cst "ACL_TYPE_ACCESS") to_int] [1%nat; 2%nat; 0%nat] RSuccess;
  Wrapped "l_acl_set_link" l_acl_set_link "acl_set_link_np" [ACookie ACL_METATABLE; AStr; AOptInt (cst "ACL_TYPE_ACCESS") to_int] [1%nat; 2%nat; 0%nat] RSuccess;
  Wrapped "l_acl_strip" l_acl_strip "acl_strip_np" [ACookie ACL_METATABLE; ABool] [] (RNew ACL_METATABLE);
  Wrapped "l_acl_valid_fd" l_acl_valid_fd "acl_valid_fd_np" [ACookie ACL_METATABLE; AInt to_int; AOptInt (cst "ACL_TYPE_ACCESS") to_int] [1%nat; 2%nat; 0%nat] RSuccess;
  Wrapped "l_acl_valid_file" l_acl_valid_file "acl_valid_file_np" [ACookie ACL_METATABLE; AStr; AOptInt (cst "ACL_TYPE_ACCESS") to_int] [1%nat; 2%nat; 0%nat] RSuccess;
  Wrapped "l_acl_valid_link" l_acl_valid_link "acl_valid_link_np" [ACookie ACL_METATABLE; AStr; AOptInt (cst "ACL_TYPE_ACCESS") to_int] [1%nat; 2%nat; 0%nat] RSuccess;
  Wrapped "l_acl_copy_entry" l_acl_copy_entry "acl_copy_entry" [ACookie ACL_ENTRY_METATABLE; ACookie ACL_ENTRY_METATABLE] [] RSuccess;
  Wrapped "l_acl_get_flagset" l_acl_get_flagset "acl_get_flagset_np" [ACookie ACL_ENTRY_METATABLE] [] (RNewref ACL_FLAGSET_METATABLE);
  Wrapped "l_acl_get_permset" l_acl_get_permset "acl_get_permset" [ACookie ACL_ENTRY_METATABLE] [] (RNewref ACL_PERMSET_METATABLE);
  Wrapped "l_acl_get_entry_type" l_acl_get_entry_type "acl_get_entry_type_np" [ACookie ACL_ENTRY_METATABLE] [] (ROuts 1);
  Wrapped "l_acl_set_entry_type" l_acl_set_entry_type "acl_set_entry_type_np" [ACookie ACL_ENTRY_METATABLE; AInt to_ushort] [] RSuccess;
  Wrapped "l_acl_get_tag_type" l_acl_get_tag_type "acl_get_tag_type" [ACookie ACL_ENTRY_METATABLE] [] (ROuts 1);
  Wrapped "l_acl_set_tag_type" l_acl_set_tag_type "acl_set_tag_type" [ACookie ACL_ENTRY_METATABLE; AInt to_uint] [] RSuccess;
  Wrapped "l_acl_set_flagset" l_acl_set_flagset "acl_set_flagset_np" [ACookie ACL_ENTRY_METATABLE; ACookie ACL_FLAGSET_METATABLE] [] RSuccess;
  Wrapped "l_acl_set_permset" l_acl_set_permset "acl_set_permset" [ACookie ACL_ENTRY_METATABLE; ACookie ACL_PERMSET_METATABLE] [] RSuccess;
  Wrapped "l_acl_add_flag" l_acl_add_flag "acl_add_flag_np" [ACookie ACL_FLAGSET_METATABLE; AInt to_ushort] [] RSuccess;
  Wrapped "l_acl_clear_flags" l_acl_clear_flags "acl_clear_flags_np" [ACookie ACL_FLAGSET_METATABLE] [] RSuccess;
  Wrapped "l_acl_delete_flag" l_acl_delete_flag "acl_delete_flag_np" [ACookie ACL_FLAGSET_METATABLE; AInt to_ushort] [] RSuccess;
  Wrapped "l_acl_get_flag" l_acl_get_flag "acl_get_flag_np" [ACookie ACL_FLAGSET_METATABLE; AInt to_ushort] [] RTruth;
  Wrapped "l_acl_add_perm" l_acl_add_perm "acl_add_perm" [ACookie ACL_PERMSET_METATABLE; AInt to_uint] [] RSuccess;
  Wrapped "l_acl_clear_perms" l_acl_clear_perms "acl_clear_perms" [ACookie ACL_PERMSET_METATABLE] [] RSuccess;
  Wrapped "l_acl_delete_perm" l_acl_delete_perm "acl_delete_perm" [ACookie ACL_PERMSET_METATABLE; AInt to_uint] [] RSuccess;
  Wrapped "l_acl_get_perm" l_acl_get_perm "acl_get_perm_np" [ACookie ACL_PERMSET_METATABLE; AInt to_uint] [] RTruth].

Lemma acl_wrappers_ok : Forall wrapped_ok acl_wrappers.
Proof. wrapped_table. Qed.
End acl.
