(* ===== verification/Aio.v ===== *)
(** * lua_aio.c

    Asynchronous I/O control blocks shared between threads and with the kernel:
    a reference count, and a state that says who may use the buffer. *)

From stdpp Require Import pretty.
From S2P Require Import Prelude LuaApi Arrays Machine Capi Refcount Utils Registry Modules Uio Signal.

Definition AIOCB_METATABLE : string := "struct aiocb".

(** ** [struct rcaiocb] in memory *)

Definition cb_get {A} (f : rcaiocb -> A) (o : obj) : option (A * obj) :=
  match o with OAio a => Some (f a, o) | _ => None end.
Definition cb_put (f : rcaiocb -> rcaiocb) (o : obj) : option (unit * obj) :=
  match o with OAio a => Some (tt, OAio (f a)) | _ => None end.

Definition with_fildes (fd : Z) (a : rcaiocb) : rcaiocb :=
  RcAiocb fd (aio_offset a) (aio_lio_opcode a) (aio_buf a) (aio_nbytes a) (aio_flags a) (aio_state a)
    (aio_sigevent a) (aio_refs a) (cb_state a).
Definition with_offset (z : Z) (a : rcaiocb) : rcaiocb :=
  RcAiocb (aio_fildes a) z (aio_lio_opcode a) (aio_buf a) (aio_nbytes a) (aio_flags a) (aio_state a)
    (aio_sigevent a) (aio_refs a) (cb_state a).
Definition with_opcode (z : Z) (a : rcaiocb) : rcaiocb :=
  RcAiocb (aio_fildes a) (aio_offset a) z (aio_buf a) (aio_nbytes a) (aio_flags a) (aio_state a)
    (aio_sigevent a) (aio_refs a) (cb_state a).
Definition with_buf (p n : Z) (a : rcaiocb) : rcaiocb :=
  RcAiocb (aio_fildes a) (aio_offset a) (aio_lio_opcode a) p n (aio_flags a) (aio_state a)
    (aio_sigevent a) (aio_refs a) (cb_state a).
Definition with_flags (z : Z) (a : rcaiocb) : rcaiocb :=
  RcAiocb (aio_fildes a) (aio_offset a) (aio_lio_opcode a) (aio_buf a) (aio_nbytes a) z (aio_state a)
    (aio_sigevent a) (aio_refs a) (cb_state a).
Definition with_aio_state (s : aiocb_state) (a : rcaiocb) : rcaiocb :=
  RcAiocb (aio_fildes a) (aio_offset a) (aio_lio_opcode a) (aio_buf a) (aio_nbytes a) (aio_flags a) s
    (aio_sigevent a) (aio_refs a) (cb_state a).
Definition with_sigevent (g : sigevent) (a : rcaiocb) : rcaiocb :=
  RcAiocb (aio_fildes a) (aio_offset a) (aio_lio_opcode a) (aio_buf a) (aio_nbytes a) (aio_flags a)
    (aio_state a) g (aio_refs a) (cb_state a).
Definition with_state (s : aiocb_state) (a : rcaiocb) : rcaiocb :=
  RcAiocb (aio_fildes a) (aio_offset a) (aio_lio_opcode a) (aio_buf a) (aio_nbytes a) (aio_flags a)
    (aio_state a) (aio_sigevent a) (aio_refs a) s.

(** all bytes zero: [CB_UNINIT] is the first enumerator *)
Definition zeroed_aiocb : rcaiocb := RcAiocb 0 0 0 0 0 0 CB_UNINIT [] 0 CB_UNINIT.
Definition CB_LOCAL : Z := Z.shiftl 1 0.
Definition CB_VECTOR : Z := Z.shiftl 1 1.

(** [atomic_compare_exchange_strong]: whether it happened, and what the
    expected value is afterwards *)
Definition cas_state (expected desired : aiocb_state) (o : obj) : option ((bool * aiocb_state) * obj) :=
  match o with
  | OAio a => if decide (cb_state a = expected) then Some ((true, expected), OAio (with_state desired a))
              else Some ((false, cb_state a), o)
  | _ => None
  end.

Section ops.
Context `{Consts} `{SigLayout}.

(** [tcopy]: a copy of a flat array *)
Definition tcopy (L : nat) (idx : Z) : prog unit :=
  idx ← lua_absindex L idx;
  len ← luaL_len L idx;
  lua_createtable L len 0;;
  for_ (Z.to_nat (to_size len)) 1 (fun i =>
    lua_geti L idx i;;
    lua_rawseti L (-2) i).

(** ** The state machine: the result is whether the transition happened, and the
    value stored through [state] *)

Definition rcaiocb_trybeginwrite (rccb : Z) : prog (bool * aiocb_state) :=
  load rccb (cas_state CB_INIT CB_PENDING).

Definition rcaiocb_trybeginread (rccb : Z) : prog (bool * aiocb_state) :=
  r ← load rccb (cas_state CB_UNINIT CB_PENDING);
  if r.1 : bool then mret r else rcaiocb_trybeginwrite rccb.

Definition rcaiocb_trybeginreturn (rccb : Z) : prog (bool * aiocb_state) :=
  load rccb (cas_state CB_PENDING CB_RETURNING).

Definition rcaiocb_rollback (rccb : Z) (state : aiocb_state) : prog unit :=
  load rccb (cb_put (with_state state)).

Definition rcaiocb_commit (rccb : Z) : prog unit :=
  load rccb (cb_put (with_aio_state CB_INIT));;
  load rccb (cb_put (with_state CB_INIT)).

Definition has_flag (flag flags : Z) : bool := negb (Z.land flags flag =? 0).
Definition aiocb_islocal (cb : Z) : prog bool := load cb (cb_get (fun a => has_flag CB_LOCAL (aio_flags a))).
Definition aiocb_isshared (cb : Z) : prog bool :=
  load cb (cb_get (fun a => negb (has_flag CB_LOCAL (aio_flags a)))).
Definition aiocb_isvector (cb : Z) : prog bool := load cb (cb_get (fun a => has_flag CB_VECTOR (aio_flags a))).

(** ** Buffers *)

Definition freeiovecs (iov iovcnt : Z) : prog unit :=
  for_ (Z.to_nat iovcnt) 0 (fun i =>
    v ← load iov (iov_get (Z.to_nat i));
    free v.1);;
  free iov.

(** the loop of [checkiovecs] from element [i] on; the result is [ninit] *)
Fixpoint checkiovecs_loop (L : nat) (idx iov iovcnt : Z) (k : nat) (i ninit : Z) : prog Z :=
  match k with
  | O => mret ninit
  | S k =>
      t ← lua_geti L idx (i + 1);
      il ← (if is_type t TSTRING then
              s ← lua_tolstring L (-1);
              mret (Some s, Z.of_nat (String.length s))
            else
              isint ← lua_isinteger L (-1);
              if isint : bool then
                len ← lua_tointeger L (-1);
                mret (None, to_size len)
              else
                freeiovecs iov iovcnt;;
                luaL_argerror L idx "invalid buffer description");
      let '(init, len) := il in
      base ← malloc len (OBuf len "");
      if base =? 0 then
        freeiovecs iov iovcnt;;
        fatal L "malloc" (cst "ENOMEM")
      else
        match init with Some s => load base (copy_bytes s) | None => mret tt end;;
        load iov (iov_update (Z.to_nat i) (set_base base));;
        load iov (iov_update (Z.to_nat i) (set_len len));;
        lua_pop L 1;;
        checkiovecs_loop L idx iov iovcnt k (i + 1)
          (match init with Some _ => ninit + 1 | None => ninit end)
  end.

Definition checkiovecs (L : nat) (idx rccb : Z) : prog unit :=
  luaL_checktype L idx TTABLE;;
  iovcnt ← luaL_len L idx;
  iov ← calloc_iovecs iovcnt;
  if iov =? 0 then fatal L "calloc" (cst "ENOMEM")
  else
    ninit ← checkiovecs_loop L idx iov iovcnt (Z.to_nat iovcnt) 0 0;
    (if 0 <? ninit then
       (if negb (ninit =? iovcnt) then
          freeiovecs iov iovcnt;;
          luaL_argerror L idx "invalid buffer description"
        else mret tt);;
       rcaiocb_commit rccb
     else mret tt);;
    load rccb (cb_put (with_buf iov iovcnt));;
    load rccb (cb_put (fun a => with_flags (Z.lor (aio_flags a) CB_VECTOR) a)).

Definition checkbuf (L : nat) (idx rccb : Z) : prog unit :=
  t ← lua_type L idx;
  il ← (if is_type t TSTRING then
          s ← lua_tolstring L idx;
          mret (Some s, Z.of_nat (String.length s))
        else
          isint ← lua_isinteger L idx;
          if isint : bool then
            len ← lua_tointeger L idx;
            mret (None, to_size len)
          else luaL_argerror L idx "invalid buffer description");
  let '(init, len) := il in
  base ← malloc len (OBuf len "");
  if base =? 0 then fatal L "malloc" (cst "ENOMEM")
  else
    match init with
    | Some s => load base (copy_bytes s);; rcaiocb_commit rccb
    | None => mret tt
    end;;
    load rccb (cb_put (with_buf base len)).

(** ** Making and sharing control blocks *)

Definition store_sigevent (rccb : Z) (name : string) (v : Z) (_ : unit) : prog unit :=
  load rccb (cb_put (fun a => with_sigevent ((name, v) :: aio_sigevent a) a)).

Definition l_aiocb_shared (L : nat) : prog Z :=
  rccb ← calloc (cst "sizeof(struct rcaiocb)") (OAio zeroed_aiocb);
  if rccb =? 0 then fatal L "calloc" (cst "ENOMEM")
  else
    refcount_init rccb 1;;
    lua_settop L 5;;
    new L rccb AIOCB_METATABLE;;
    fd ← checkfd L 1;
    load rccb (cb_put (with_fildes fd));;
    offset ← luaL_checkinteger L 2;
    load rccb (cb_put (with_offset offset));;
    t ← lua_type L 3;
    (if is_type t TNIL then rcaiocb_commit rccb
     else if is_type t TTABLE then checkiovecs L 3 rccb
     else checkbuf L 3 rccb);;
    opcode ← luaL_optinteger L 4 0;
    load rccb (cb_put (with_opcode (to_int opcode)));;
    none ← lua_isnoneornil L 5;
    (if none : bool then mret tt
     else
       load rccb (cb_put (with_sigevent []));;
       checksigevent (store_sigevent rccb) L 5 tt);;
    mret 1.

Definition l_aiocb_cookie (L : nat) : prog Z :=
  checkcookieuv L 1 AIOCB_METATABLE;;
  mret 1.

Definition l_aiocb_retain (L : nat) : prog Z :=
  rccb ← checklightuserdata L 1;
  shared ← aiocb_isshared rccb;
  luaL_argcheck L shared 1 "aiocb not shareable";;
  refcount_retain rccb;;
  new L rccb AIOCB_METATABLE.

Definition l_aiocb_local (L : nat) : prog Z := luaL_error L "TODO".

Definition l_aiocb_eq (L : nat) : prog Z :=
  a ← checkcookie L 1 AIOCB_METATABLE;
  b ← checkcookie L 2 AIOCB_METATABLE;
  lua_pushboolean L (a =? b);;
  mret 1.

(** [abort2] with the message cut to the 128 bytes of [why] *)
Definition abort2 {A} (fn : string) (error : Z) : prog A :=
  errmsg ← strerror_r error;
  halts (EHalt (Aborted (String.substring 0 127
    ("FATAL: " +:+ fn +:+ " failed: " +:+ cstr errmsg +:+ " (" +:+ pretty error +:+
     "); cannot safely continue")))).

(** the [retry] loop: interrupted waits start over *)
Fixpoint suspend_retry (fuel : nat) (cb : Z) : prog unit :=
  match fuel with
  | O => halts (EHalt Diverge)
  | S fuel =>
      r ← call "aio_suspend" [AZ cb; AZ 0];
      if rc r =? -1 then
        error ← errno;
        if error =? cst "EINTR" then suspend_retry fuel cb
        else abort2 "aio_suspend" error
      else mret tt
  end.

(** a pending request is cancelled or waited for, and its result dropped *)
Definition end_request (fuel : nat) (cb : Z) : prog unit :=
  fildes ← load cb (cb_get aio_fildes);
  r ← call "aio_cancel" [AZ fildes; AZ cb];
  (if rc r =? -1 then error ← errno; abort2 "aio_cancel" error
   else if rc r =? cst "AIO_NOTCANCELED" then suspend_retry fuel cb
   else mret tt);;
  call "aio_return" [AZ cb];;
  mret tt.

Definition free_buffers (shared : bool) (cb : Z) : prog unit :=
  vector ← aiocb_isvector cb;
  if shared && vector then
    iov ← load cb (cb_get (fun a => (aio_buf a, aio_nbytes a)));
    freeiovecs iov.1 iov.2
  else if shared || vector then
    buf ← load cb (cb_get aio_buf);
    free buf
  else mret tt.

Definition l_aiocb_free (fuel : nat) (L : nat) : prog Z :=
  rccb ← checkcookienull L 1 AIOCB_METATABLE;
  if rccb =? 0 then mret 0
  else
    shared ← aiocb_isshared rccb;
    last ← (if shared : bool then refcount_release rccb else mret true);
    if shared && negb last then mret 0
    else
      state ← load rccb (cb_get cb_state);
      (if decide (state = CB_PENDING) then end_request fuel rccb else mret tt);;
      free_buffers shared rccb;;
      free rccb;;
      setcookie L 1 0;;
      mret 0.

(** the fields of the index metamethod that are integers *)
Definition int_field (field : string) : option (rcaiocb -> Z) :=
  if String.eqb field "fildes" then Some aio_fildes
  else if String.eqb field "offset" then Some aio_offset
  else if String.eqb field "lio_opcode" then Some aio_lio_opcode
  else None.

Definition l_aiocb_index (L : nat) : prog Z :=
  rccb ← checkcookie L 1 AIOCB_METATABLE;
  field ← luaL_checkstring L 2;
  lua_getmetatable L 1;;
  t ← lua_getfield L (-1) field;
  if negb (is_type t TNIL) then mret 1
  else
    match int_field field with
    | Some f => n ← load rccb (cb_get f); lua_pushinteger L n;; mret 1
    | None =>
        if String.eqb field "buf" then
          vector ← aiocb_isvector rccb;
          if vector : bool then mret 0
          else
            state ← load rccb (cb_get cb_state);
            if negb (bool_decide (state = CB_INIT)) then luaL_error L "buffer not available"
            else
              shared ← aiocb_isshared rccb;
              (if shared : bool then
                 buf ← load rccb (cb_get (fun a => (aio_buf a, aio_nbytes a)));
                 push_bytes L buf.1 buf.2
               else getref L 1;; mret tt);;
              mret 1
        else if String.eqb field "iov" then
          vector ← aiocb_isvector rccb;
          if negb vector then mret 0
          else
            state ← load rccb (cb_get cb_state);
            if negb (bool_decide (state = CB_INIT)) then luaL_error L "buffers not available"
            else
              shared ← aiocb_isshared rccb;
              (if shared : bool then
                 iov ← load rccb (cb_get (fun a => (aio_buf a, aio_nbytes a)));
                 pushriovecs L iov.1 iov.2
               else getref L 1;; tcopy L (-1));;
              mret 1
        else if String.eqb field "sigevent" then
          sig ← load rccb (cb_get aio_sigevent);
          pushsigevent L sig;;
          mret 1
        else mret 0
    end.

(** ** Requests *)

(** the calls of [l_aio_read] and [l_aio_write] depend on the version of FreeBSD *)
Definition have_aio2 : bool :=
  (1500013 <? cst "__FreeBSD_version") ||
  ((1400508 <? cst "__FreeBSD_version") && (cst "__FreeBSD_version" <? 1500000)).

(** what follows every submission: on failure the former state is restored *)
Definition submitted (L : nat) (rccb : Z) (state : aiocb_state) (r : cret) : prog Z :=
  if rc r =? -1 then
    error ← errno;
    rcaiocb_rollback rccb state;;
    fail L error
  else success L.

Definition l_aio_read (L : nat) : prog Z :=
  rccb ← checkcookie L 1 AIOCB_METATABLE;
  flags ← luaL_optinteger L 2 0;
  let flags := to_int flags in
  shared ← aiocb_isshared rccb;
  luaL_argcheck L shared 1 "const aiocb buffer";;
  b ← rcaiocb_trybeginread rccb;
  if negb b.1 then luaL_argerror L 1 "buffer not available"
  else
    vector ← aiocb_isvector rccb;
    r ← (if vector : bool then call "aio_readv" [AZ rccb]
         else if have_aio2 then call "aio_read2" [AZ rccb; AZ flags]
         else call "aio_read" [AZ rccb]);
    submitted L rccb b.2 r.

Definition l_aio_write (L : nat) : prog Z :=
  rccb ← checkcookie L 1 AIOCB_METATABLE;
  flags ← luaL_optinteger L 2 0;
  let flags := to_int flags in
  b ← rcaiocb_trybeginwrite rccb;
  if negb b.1 then luaL_argerror L 1 "buffer not available"
  else
    vector ← aiocb_isvector rccb;
    r ← (if vector : bool then call "aio_writev" [AZ rccb]
         else if have_aio2 then call "aio_write2" [AZ rccb; AZ flags]
         else call "aio_write" [AZ rccb]);
    submitted L rccb b.2 r.

Definition l_aio_error (L : nat) : prog Z :=
  rccb ← checkcookie L 1 AIOCB_METATABLE;
  r ← call "aio_error" [AZ rccb];
  if rc r =? -1 then
    e ← errno;
    fail L e
  else
    errmsg ← strerror_r (rc r);
    lua_pushstring L errmsg;;
    lua_pushinteger L (rc r);;
    mret 2.

Definition l_aio_return (L : nat) : prog Z :=
  rccb ← checkcookie L 1 AIOCB_METATABLE;
  b ← rcaiocb_trybeginreturn rccb;
  if negb b.1 then luaL_argerror L 1 "buffer not pending"
  else
    result ← call "aio_return" [AZ rccb];
    if rc result =? -1 then
      error ← errno;
      state ← load rccb (cb_get aio_state);
      rcaiocb_rollback rccb state;;
      fail L error
    else
      rcaiocb_commit rccb;;
      lua_pushinteger L (rc result);;
      mret 1.

(** the end of [l_cancel] and [l_aio_cancel] *)
Definition push_status (L : nat) (status : cret) : prog Z :=
  if rc status =? -1 then
    e ← errno;
    fail L e
  else
    lua_pushinteger L (rc status);;
    mret 1.

Definition l_cancel (L : nat) : prog Z :=
  fd ← checkfd L 1;
  status ← call "aio_cancel" [AZ fd; AZ 0];
  push_status L status.

Definition l_aio_cancel (L : nat) : prog Z :=
  rccb ← checkcookie L 1 AIOCB_METATABLE;
  state ← load rccb (cb_get cb_state);
  if negb (bool_decide (state = CB_PENDING)) then luaL_argerror L 1 "buffer not pending"
  else
    fildes ← load rccb (cb_get aio_fildes);
    status ← call "aio_cancel" [AZ fildes; AZ rccb];
    push_status L status.

(** an optional [struct timespec] from the arguments at [i] and [i + 1], as the
    arguments that stand for it: a null pointer, or one followed by the two fields *)
Definition opt_timespec (L : nat) (i : Z) : prog (list carg) :=
  none ← lua_isnoneornil L i;
  if none : bool then mret [AZ 0]
  else
    tv_sec ← luaL_checkinteger L i;
    tv_nsec ← luaL_optinteger L (i + 1) 0;
    mret [AZ 1; AZ tv_sec; AZ tv_nsec].

(** an array of pointers, filled by index *)
Definition ptr_set (i : nat) (p : Z) (o : obj) : option (unit * obj) :=
  match o with
  | OPtrs l st => if (i <? length l)%nat then Some (tt, OPtrs (<[i := Some p]> l) st) else None
  | _ => None
  end.

(** element [i], if it was ever written *)
Definition ptr_get (i : nat) (o : obj) : option (Z * obj) :=
  match o with
  | OPtrs l _ => match l !! i with Some (Some p) => Some (p, o) | _ => None end
  | _ => None
  end.

Definition ptrs_get (o : obj) : option (list Z * obj) :=
  match o with
  | OPtrs l _ => if forallb (fun x => bool_decide (is_Some x)) l then Some (omap id l, o) else None
  | _ => None
  end.

Definition l_suspend (L : nat) : prog Z :=
  luaL_checktype L 1 TTABLE;;
  timeoutp ← opt_timespec L 2;
  n ← luaL_len L 1;
  let niocb := to_int n in
  cbs ← lua_newuserdatauv L (niocb * 8) (OPtrs (replicate (Z.to_nat niocb) None) []) 0%nat;
  for_ (Z.to_nat niocb) 0 (fun i =>
    lua_geti L 1 (i + 1);;
    rccb ← checkcookie L (-1) AIOCB_METATABLE;
    state ← load rccb (cb_get cb_state);
    luaL_argcheck L (bool_decide (state = CB_PENDING)) 1 "buffer not pending";;
    load cbs (ptr_set (Z.to_nat i) rccb);;
    lua_pop L 1);;
  l ← load cbs ptrs_get;
  r ← call "aio_suspend" ((AZ <$> l) ++ timeoutp);
  if rc r =? -1 then
    e ← errno;
    fail L e
  else success L.

Definition l_aio_suspend (L : nat) : prog Z :=
  rccb ← checkcookie L 1 AIOCB_METATABLE;
  state ← load rccb (cb_get cb_state);
  luaL_argcheck L (bool_decide (state = CB_PENDING)) 1 "buffer not pending";;
  timeoutp ← opt_timespec L 2;
  r ← call "aio_suspend" (AZ rccb :: timeoutp);
  if rc r =? -1 then
    e ← errno;
    fail L e
  else success L.

Definition l_aio_mlock (L : nat) : prog Z :=
  rccb ← checkcookie L 1 AIOCB_METATABLE;
  b ← rcaiocb_trybeginwrite rccb;
  if negb b.1 then luaL_argerror L 1 "buffer not available"
  else
    r ← call "aio_mlock" [AZ rccb];
    submitted L rccb b.2 r.

Definition l_aio_fsync (L : nat) : prog Z :=
  rccb ← checkcookie L 1 AIOCB_METATABLE;
  op ← luaL_checkinteger L 2;
  let op := to_int op in
  b ← rcaiocb_trybeginwrite rccb;
  if negb b.1 then luaL_argerror L 1 "buffer not available"
  else
    r ← call "aio_fsync" [AZ op; AZ rccb];
    submitted L rccb b.2 r.

(** ** Lists of requests *)

Definition state_set (i : nat) (s : aiocb_state) (o : obj) : option (unit * obj) :=
  match o with
  | OPtrs l st => if (i <? length st)%nat then Some (tt, OPtrs l (<[i := Some s]> st)) else None
  | _ => None
  end.

Definition state_get (i : nat) (o : obj) : option (aiocb_state * obj) :=
  match o with
  | OPtrs _ st => match st !! i with Some (Some s) => Some (s, o) | _ => None end
  | _ => None
  end.

(** [cbs] and [states] are one allocation *)
Definition rollback_states (cbs n : Z) : prog unit :=
  for_ (Z.to_nat n) 0 (fun i =>
    cb ← load cbs (ptr_get (Z.to_nat i));
    state ← load cbs (state_get (Z.to_nat i));
    rcaiocb_rollback cb state).

Definition sig_args (sigp : option sigevent) : list carg :=
  match sigp with
  | None => [AZ 0]
  | Some sig => AZ 1 :: concat ((fun fv => [AS fv.1; AZ fv.2]) <$> sig)
  end.

Definition l_lio_listio (L : nat) : prog Z :=
  mode ← luaL_checkinteger L 1;
  let mode := to_int mode in
  luaL_checktype L 3 TTABLE;;
  none ← lua_isnoneornil L 4;
  sigp ← (if none : bool then mret None
          else sig ← checksigevent (fun name v sig => mret ((name, v) :: sig)) L 4 []; mret (Some sig));
  n ← luaL_len L 2;
  let nent := to_int n in
  cbs ← lua_newuserdatauv L (nent * 12)
    (OPtrs (replicate (Z.to_nat nent) None) (replicate (Z.to_nat nent) None)) 0%nat;
  for_ (Z.to_nat nent) 0 (fun i =>
    lua_geti L 2 (i + 1);;
    rccb ← testcookie L (-1) AIOCB_METATABLE;
    if rccb =? 0 then
      rollback_states cbs i;;
      luaL_argerror L 2 "invalid aiocb"
    else
      opcode ← load rccb (cb_get aio_lio_opcode);
      b ← (if Z.land opcode (cst "LIO_READ") =? 0 then rcaiocb_trybeginwrite rccb
           else rcaiocb_trybeginread rccb);
      load cbs (state_set (Z.to_nat i) b.2);;
      if negb b.1 then
        rollback_states cbs (i + 1);;
        luaL_argerror L 2 "buffer not initialized"
      else
        load cbs (ptr_set (Z.to_nat i) rccb);;
        lua_pop L 1);;
  l ← load cbs ptrs_get;
  r ← call "lio_listio" (AZ mode :: (AZ <$> l) ++ sig_args sigp);
  if rc r =? -1 then
    error ← errno;
    rollback_states cbs nent;;
    fail L error
  else success L.

Definition l_aio_waitcomplete (L : nat) : prog Z :=
  timeoutp ← opt_timespec L 1;
  r ← call "aio_waitcomplete" timeoutp;
  let result := rc r in
  let cb := out_int 0 r in
  e ← errno;
  if (result =? -1) && (cb =? 0) then fail L e
  else
    local ← aiocb_islocal cb;
    if local : bool then luaL_error L "TODO"
    else
      refcount_retain cb;;
      new L cb AIOCB_METATABLE;;
      if result =? -1 then
        state ← load cb (cb_get aio_state);
        rcaiocb_rollback cb state;;
        fail L e;;
        mret 4
      else
        rcaiocb_commit cb;;
        lua_pushinteger L result;;
        mret 2.

(** ** Registration *)

Definition l_aio_funcs : list (string * string) := [
   ("cancel", "l_cancel"); ("suspend", "l_suspend"); ("listio", "l_lio_listio");
   ("waitcomplete", "l_aio_waitcomplete")].

Definition l_aiocb_funcs : list (string * string) := [
   ("shared", "l_aiocb_shared"); ("retain", "l_aiocb_retain")].

Definition l_aiocb_meta : list (string * string) := [
   ("__close", "l_aiocb_free"); ("__eq", "l_aiocb_eq"); ("__gc", "l_aiocb_free");
   ("__index", "l_aiocb_index"); ("cookie", "l_aiocb_cookie"); ("read", "l_aio_read");
   ("write", "l_aio_write"); ("error", "l_aio_error"); ("_return", "l_aio_return");
   ("cancel", "l_aio_cancel"); ("suspend", "l_aio_suspend"); ("mlock", "l_aio_mlock");
   ("fsync", "l_aio_fsync")].

(** the constants behind [#ifdef] are there when the headers define them *)
Definition aio_consts (ifdef : string -> bool) : list (string * Z) :=
  (fun ident => (ident, cst ident)) <$>
  filter (fun ident => ident ∉ ["LIO_FOFFSET"; "AIO_OP2_FOFFSET"; "AIO_OP2_VECTORED"] \/ ifdef ident = true)
    ["AIO_CANCELED"; "AIO_NOTCANCELED"; "AIO_ALLDONE"; "LIO_NOP"; "LIO_WRITE"; "LIO_READ"; "LIO_VECTORED";
     "LIO_WRITEV"; "LIO_READV"; "LIO_FOFFSET"; "AIO_OP2_FOFFSET"; "AIO_OP2_VECTORED"; "LIO_NOWAIT";
     "LIO_WAIT"; "AIO_LISTIO_MAX"].

Definition luaopen_aio (ifdef : string -> bool) (L : nat) : prog Z :=
  luaL_newmetatable L AIOCB_METATABLE;;
  luaL_setfuncs L l_aiocb_meta;;
  luaL_newlib L l_aio_funcs;;
  luaL_newlib L l_aiocb_funcs;;
  lua_setfield L (-2) "aiocb";;
  define_all L (aio_consts ifdef);;
  mret 1.
End ops.
