(* ===== verification/AioState.v ===== *)
(** * The states of a control block

    [lua_aio.c] guards the buffer of a control block by compare-and-exchange on
    its state.  Here: threads that compete for a buffer, in any interleaving; and
    a race the plain stores of [rcaiocb_rollback] leave open. *)

From stdpp Require Import relations.
From S2P Require Import Prelude LuaApi Machine Capi Threads Refcount Samples Utils Signal Aio.

(** ** Competing for a buffer *)

(** what a thread attempts *)
Inductive attempt := ToRead | ToWrite.

Definition begins (p : Z) (k : attempt) : prog (bool * aiocb_state) :=
  match k with ToRead => rcaiocb_trybeginread p | ToWrite => rcaiocb_trybeginwrite p end.

(** a buffer without contents can only be read into *)
Definition allowed (s : aiocb_state) (k : attempt) : bool :=
  match s, k with CB_UNINIT, ToRead | CB_INIT, _ => true | _, _ => false end.

Definition won_by (prg : prog (bool * aiocb_state)) : nat :=
  match prg with Ret (true, _) => 1 | _ => 0 end.
Definition winners (ps : list (prog (bool * aiocb_state))) : nat := sum_list_with won_by ps.

Section race.
Context `{LuaSem} {S : Type} `{Libc S} (C : clib S) (p : Z) (a : rcaiocb).
Implicit Types (w : world S lstate) (ks : list attempt).

(** how far a thread is, when the buffer is taken or still available *)
Definition progress (taken : bool) (k : attempt) (prg : prog (bool * aiocb_state)) : Prop :=
  prg = begins p k \/
  (prg = rcaiocb_trybeginwrite p /\ k = ToRead /\ (taken = true \/ cb_state a = CB_INIT)) \/
  (prg = Ret (true, cb_state a) /\ taken = true /\ allowed (cb_state a) k = true) \/
  (exists s, prg = Ret (false, s) /\ (taken = true \/ allowed (cb_state a) k = false)).

Definition state_now (taken : bool) : aiocb_state := if taken then CB_PENDING else cb_state a.

Definition race_inv ks (c : pool (S := S) (T := lstate)) : Prop :=
  exists taken, Forall2 (progress taken) ks c.1 /\ winners c.1 = Nat.b2n taken /\
    wm c.2 !! p = Some (OAio (with_state (state_now taken) a)).

Lemma progress_taken k prg taken : progress taken k prg -> progress true k prg.
Proof. unfold progress. naive_solver. Qed.

(** one access of one thread *)
Lemma cas_step (from : aiocb_state) (kont : bool * aiocb_state -> prog (bool * aiocb_state)) s w r w' :
  wm w !! p = Some (OAio (with_state s a)) ->
  thread_step (documented C) (Vis (EMem p (cas_state from CB_PENDING)) kont) w = Some (r, w') ->
  (s = from /\ r = Ok (kont (true, from)) /\ wm w' !! p = Some (OAio (with_state CB_PENDING a))) \/
  (s ≠ from /\ r = Ok (kont (false, s)) /\ wm w' !! p = Some (OAio (with_state s a))).
Proof.
  intros Hw Hs. cbn in Hs. rewrite Hw in Hs. cbn in Hs.
  destruct (decide (s = from)) as [->|Hne]; cbn in Hs; simplify_eq.
  - left. split_all; [done..|]. cbn. by rewrite lookup_insert_eq.
  - right. split_all; [done..|]. cbn. by rewrite lookup_insert_eq.
Qed.

Lemma race_step k taken prg w r w' :
  cb_state a = CB_UNINIT \/ cb_state a = CB_INIT -> progress taken k prg ->
  wm w !! p = Some (OAio (with_state (state_now taken) a)) ->
  thread_step (documented C) prg w = Some (r, w') ->
  exists prg' taken', r = Ok prg' /\ progress taken' k prg' /\ (taken = true -> taken' = true) /\
    (won_by prg' + Nat.b2n taken = won_by prg + Nat.b2n taken')%nat /\
    wm w' !! p = Some (OAio (with_state (state_now taken') a)).
Proof.
  intros Ha Hp Hw Hs.
  assert (Hwrite : prg = rcaiocb_trybeginwrite p ->
    (taken = true \/ cb_state a = CB_INIT \/ k = ToWrite) ->
    exists prg' taken', r = Ok prg' /\ progress taken' k prg' /\ (taken = true -> taken' = true) /\
    (won_by prg' + Nat.b2n taken = won_by prg + Nat.b2n taken')%nat /\
    wm w' !! p = Some (OAio (with_state (state_now taken') a))).
  { intros -> Hk. destruct (cas_step CB_INIT Ret _ _ _ _ Hw Hs) as [(E & -> & Hw')|(E & -> & Hw')].
    - exists (Ret (true, CB_INIT)), true. destruct taken; [done|]. cbn in E.
      split_all; [done| |done|done|done]. right; right; left. rewrite E. by destruct k.
    - exists (Ret (false, state_now taken)), taken. split_all; [done| |done|done|done].
      right; right; right. eexists. split; [done|]. destruct taken; [by left|]. right.
      cbn in E. destruct Ha as [Ha|]; [|done]. rewrite Ha in *. by destruct k; naive_solver. }
  destruct Hp as [->|[(-> & -> & Hk)|[(-> & _)|(s & -> & _)]]]; [|by apply Hwrite; naive_solver|done..].
  destruct k; [|by apply Hwrite; auto].
  destruct (cas_step CB_UNINIT _ _ _ _ _ Hw Hs) as [(E & -> & Hw')|(E & -> & Hw')].
  - exists (Ret (true, CB_UNINIT)), true. destruct taken; [done|]. cbn in E.
    split_all; [done| |done|done|done]. right; right; left. by rewrite E.
  - exists (rcaiocb_trybeginwrite p), taken. split_all; [done| |done|done|done].
    right; left. split_all; [done..|]. destruct taken; [by left|]. right. cbn in E. by destruct Ha.
Qed.

Lemma race_inv_step ks c c' :
  cb_state a = CB_UNINIT \/ cb_state a = CB_INIT ->
  race_inv ks c -> tstep (documented C) c c' -> race_inv ks c'.
Proof.
  intros Ha (taken & Hall & Hwin & Hm) Hs. destruct Hs as [i prg prg' ps w w' Hi Hst]. cbn in *.
  destruct (Forall2_lookup_r _ _ _ _ _ Hall Hi) as (k & Hk & Hp).
  destruct (race_step k taken prg w _ w' Ha Hp Hm Hst) as (prg1 & taken' & Heq & Hp' & Ht & Hc & Hm').
  injection Heq as <-. exists taken'. split_all; [| |done].
  - rewrite <- (list_insert_id ks i k Hk). apply Forall2_insert; [|done].
    destruct taken, taken'; [done|by specialize (Ht eq_refl)| |done].
    eapply list.Forall2_impl; [exact Hall|]. intros ??. by apply progress_taken.
  - pose proof (sum_insert won_by ps i prg prg' Hi). unfold winners in *. cbn. lia.
Qed.

Lemma race_inv_init ks w :
  wm w !! p = Some (OAio a) -> race_inv ks (map (begins p) ks, w).
Proof.
  intros Hm. exists false. cbn. split_all.
  - induction ks as [|k ks IH]; constructor; [by left|done].
  - unfold winners. induction ks as [|[] ks IH]; done.
  - rewrite Hm. by destruct a.
Qed.

Lemma winner_state ks taken ps s :
  Forall2 (progress taken) ks ps -> Ret (true, s) ∈ ps -> s = cb_state a.
Proof.
  intros Hall [i Hi]%list_elem_of_lookup.
  destruct (Forall2_lookup_r _ _ _ _ _ Hall Hi) as (k & _ & Hp).
  destruct Hp as [E|[(E & _)|[(E & _)|(s' & E & _)]]]; [by destruct k|done|congruence|done].
Qed.

(** once all have returned, the buffer is taken if anybody was allowed to take it *)
Lemma finished_taken ks ps w taken :
  Forall2 (progress taken) ks ps -> winners ps = Nat.b2n taken -> finished (ps, w) ->
  taken = existsb (allowed (cb_state a)) ks.
Proof.
  intros Hall Hwin Hf. unfold finished in Hf. cbn in Hf. destruct taken.
  - symmetry. apply existsb_exists. unfold winners in Hwin. clear Hf.
    induction Hall as [|k prg ks ps Hp _ IH]; [done|]. cbn in Hwin.
    destruct Hp as [->|[(-> & _)|[(-> & _ & Ha)|(s & -> & _)]]].
    + destruct k; cbn in Hwin; destruct (IH Hwin) as (k' & ? & ?); exists k'; split; [by right|done|by right|done].
    + cbn in Hwin. destruct (IH Hwin) as (k' & ? & ?). exists k'. by split; [right|].
    + exists k. by split; [left|].
    + cbn in Hwin. destruct (IH Hwin) as (k' & ? & ?). exists k'. by split; [right|].
  - symmetry. apply not_true_iff_false. intros (k & Hin & Hk)%existsb_exists. clear Hwin.
    apply list_elem_of_In, list_elem_of_lookup in Hin as [i Hi].
    destruct (Forall2_lookup_l _ _ _ _ _ Hall Hi) as (prg & Hprg & Hp).
    assert (exists r, prg = Ret r) as [r ->].
    { eapply (proj1 (list.Forall_forall _ _) Hf), list_elem_of_lookup. by eexists. }
    destruct Hp as [E|[(E & _)|[(_ & ? & _)|(s & _ & [?|?])]]]; [by destruct k|done|done|done|congruence].
Qed.
End race.

(** C8. Threads that try to begin a read or a write on the same control block in any
    interleaving: none is stopped, at most one gets the buffer (and remembers the state it was
    in), the others leave the block alone, and once all have tried somebody got it if anybody
    was allowed to: a buffer without contents cannot be written out. *)
Theorem begin_exclusive `{LuaSem} {S : Type} `{Libc S} (C : clib S) p a ks (w : world S lstate) c :
  wm w !! p = Some (OAio a) -> cb_state a = CB_UNINIT \/ cb_state a = CB_INIT ->
  reaches (documented C) (map (begins p) ks, w) c ->
  (forall h, ~ stops (documented C) h c) /\
  (winners c.1 <= 1)%nat /\
  (forall s, Ret (true, s) ∈ c.1 -> s = cb_state a) /\
  wm c.2 !! p = Some (OAio (if (winners c.1 =? 1)%nat then with_state CB_PENDING a else a)) /\
  (finished c -> winners c.1 = Nat.b2n (existsb (allowed (cb_state a)) ks)).
Proof.
  intros Hm Ha Hr.
  assert (Hinv : race_inv p a ks c).
  { eapply (reaches_inv _ (race_inv p a ks)); [|by apply race_inv_init|done].
    intros c1 c2. by apply race_inv_step. }
  destruct c as [ps w']. destruct Hinv as (taken & Hall & Hwin & Hm'). cbn in *. split_all.
  - intros h Hs. inversion Hs as [i prg ps' w1 w2 Hi Hst]; subst.
    destruct (Forall2_lookup_r _ _ _ _ _ Hall Hi) as (k & _ & Hp).
    by destruct (race_step C p a k taken prg w' _ w2 Ha Hp Hm' Hst) as (? & ? & [=] & _).
  - rewrite Hwin. destruct taken; cbn; lia.
  - intros s. by eapply winner_state.
  - rewrite Hm', Hwin. destruct taken; cbn; [done|]. by destruct a.
  - intros Hf. rewrite Hwin. f_equal. by eapply finished_taken.
Qed.

(** ** A race between threads that share a block *)

(** a kernel that completes a request only when it is waited for: [busy] are those it works on,
    [ready] those whose result was not asked for yet, and [refuse] says which of the next submissions it refuses, and which waits it interrupts *)
Record kernel := Kernel { busy : list Z; ready : list Z; refuse : list bool; kerrno : Z }.

#[export] Instance kernel_libc : Libc kernel := {|
  c_errno := kerrno; c_strerror := fun _ => "Error" |}.

Definition EAGAIN : Z := 35.
Definition EINVAL : Z := 22.
Definition EINTR : Z := 4.

Definition slow_kernel : clib kernel := {|
  c_call := fun fn args w =>
    let k := wx w in
    let ret r k := (Ok (Cret r []), World (wl w) (wln w) (wm w) (wnext w) (woom w) k) in
    match args with
    | AZ cb :: _ =>
        if String.eqb fn "aio_read" then
          match refuse k with
          | true :: l => ret (-1) (Kernel (busy k) (ready k) l EAGAIN)
          | _ => ret 0 (Kernel (cb :: busy k) (ready k) (tail (refuse k)) (kerrno k))
          end
        else if String.eqb fn "aio_suspend" then
          match refuse k with
          | true :: l => ret (-1) (Kernel (busy k) (ready k) l EINTR)
          | _ => ret 0 (Kernel (filter (fun q => q ≠ cb) (busy k)) (cb :: ready k) (tail (refuse k)) (kerrno k))
          end
        else if String.eqb fn "aio_cancel" then ret 2 k
        else if String.eqb fn "aio_return" then
          if bool_decide (cb ∈ ready k) && negb (bool_decide (cb ∈ busy k)) then
            ret 0 (Kernel (busy k) (filter (fun q => q ≠ cb) (ready k)) (refuse k) (kerrno k))
          else ret (-1) (Kernel (busy k) (ready k) (refuse k) EINVAL)
        else ret 0 k
    | _ => ret 0 k
    end;
  c_fn := fun _ _ args w => (Ok (true, args), w) |}.

Definition race_heap : heap := sample_heap AIOCB_METATABLE [VLud 512] 0.
Definition race_block : rcaiocb := RcAiocb 3 0 0 513 4 0 CB_UNINIT [] 3 CB_UNINIT.
Definition race_world : world kernel lstate :=
  put 1 (frame [VUd 2] race_heap) (put 2 (frame [VUd 2] race_heap) (put 3 (frame [VUd 2] race_heap)
    (World ∅ 10 {[ 512 := OAio race_block; 513 := OBuf 4 "" ]} 4096 (fun _ _ => false)
       (Kernel [] [] [true; false] 0)))).

Definition race_threads : list (prog Z) := [l_aio_read 1; l_aio_return 2; l_aio_read 3].

(** the first thread's submission is refused; before it restores the state the
    second thread asks for the result and the third submits again *)
Definition race_turns : list nat := replicate 10 0%nat ++ replicate 13 1%nat ++ replicate 10 2%nat ++ replicate 5 0%nat.

(** A submission that failed restores the state with a plain store, which can come after
    another thread has begun a request: here one thread's [read] is refused by the kernel, a
    second calls [_return], a third reads; all calls return, the kernel works on the request of
    the third, and the block says its buffer is free for use. *)
Theorem rollback_race :
  exists c, reaches (documented slow_kernel) (race_threads, race_world) c /\
    c.1 = [Ret 3; Ret 3; Ret 1] /\ busy (wx c.2) = [512] /\
    exists a, wm c.2 !! 512 = Some (OAio a) /\ cb_state a = CB_UNINIT.
Proof.
  assert (Hs : (fun c => (c.1, busy (wx c.2), wm c.2 !! 512)) <$>
      schedule (documented slow_kernel) race_turns (race_threads, race_world) =
    Some ([Ret 3; Ret 3; Ret 1], [512], Some (OAio race_block))) by (vm_compute; reflexivity).
  apply fmap_Some in Hs as (c & Hc & [= H1 H2 H3]). exists c.
  split; [exact (schedule_reaches _ _ _ _ Hc)|]. split; [exact (eq_sym H1)|]. split; [exact (eq_sym H2)|].
  exists race_block. split; [exact (eq_sym H3)|reflexivity].
Qed.

(** ** Witnesses *)

Lemma begin_exclusive_witness :
  let c := (map (begins 512) [ToWrite; ToRead; ToRead],
            sample_world {[ 512 := OAio race_block ]}) in
  (forall h, ~ stops (documented (sample_clib [])) h c) /\
  (winners c.1 <= 1)%nat /\
  (forall s, Ret (true, s) ∈ c.1 -> s = CB_UNINIT) /\
  wm c.2 !! 512 = Some (OAio (if (winners c.1 =? 1)%nat then with_state CB_PENDING race_block else race_block)) /\
  (finished c -> winners c.1 = 1%nat).
Proof.
  intros c.
  refine (begin_exclusive (sample_clib []) 512 race_block [ToWrite; ToRead; ToRead]
    (sample_world {[ 512 := OAio race_block ]}) c _ _ _); [reflexivity|by left|apply rtc_refl].
Defined.
