(* ===== verification/AioLife.v ===== *)
(** * What the operations on control blocks do

    Submission, completion and destruction of requests by one thread at a time,
    with the kernel as an arbitrary system library: a theorem says what the
    module does with the answers the kernel may give. *)

From S2P Require Import Prelude LuaApi Arrays Machine Capi Refcount Samples Utils Registry Modules Uio.
From S2P Require Import Signal Aio Threads AioState.

(** ** How the accesses to a block run *)

Section run.
Context `{LuaSem} {S : Type} `{Libc S} `{Consts} `{SigLayout} (C : clib S).
Implicit Types (w : world S lstate) (L : nat) (p : Z) (h : heap) (a : rcaiocb).
Abbreviation rn := (run (documented C)).

Lemma wm_poke p o w : wm (poke p o w) !! p = Some o.
Proof. cbn. apply lookup_insert_eq. Qed.

Lemma run_cb_get {A} (f : rcaiocb -> A) p a L s w :
  wm w !! p = Some (OAio a) -> rn (load p (cb_get f)) (put L s w) = (Ok (f a), put L s w).
Proof. intros Hp. by apply (run_read C p (cb_get f) (OAio a)). Qed.

Lemma run_cb_put f p a L s w :
  wm w !! p = Some (OAio a) ->
  rn (load p (cb_put f)) (put L s w) = (Ok tt, put L s (poke p (OAio (f a)) w)).
Proof. intros Hp. by apply (run_load C p (cb_put f) (OAio a)). Qed.

Lemma run_cas p from to a L s w :
  wm w !! p = Some (OAio a) ->
  rn (load p (cas_state from to)) (put L s w) =
  if decide (cb_state a = from) then (Ok (true, from), put L s (poke p (OAio (with_state to a)) w))
  else (Ok (false, cb_state a), put L s w).
Proof.
  intros Hp. destruct (decide (cb_state a = from)) as [E|E].
  - apply (run_load C p _ (OAio a)); [done|]. cbn. by rewrite decide_True.
  - apply (run_read C p _ (OAio a)); [done|]. cbn. by rewrite decide_False.
Qed.

(** an attempt by a thread that is alone *)
Lemma run_begins k p a L s w :
  wm w !! p = Some (OAio a) ->
  rn (begins p k) (put L s w) =
  if allowed (cb_state a) k
  then (Ok (true, cb_state a), put L s (poke p (OAio (with_state CB_PENDING a)) w))
  else (Ok (false, cb_state a), put L s w).
Proof.
  intros Hp. destruct k; cbn [begins].
  - unfold rcaiocb_trybeginread. rewrite run_bind, (run_cas p _ _ a) by done.
    destruct (decide _) as [E|E]; cbn [andthen].
    + cbn. by rewrite E.
    + cbn [fst]. unfold rcaiocb_trybeginwrite. rewrite (run_cas p _ _ a) by done.
      by destruct (cb_state a); cbn.
  - unfold rcaiocb_trybeginwrite. rewrite (run_cas p _ _ a) by done. by destruct (cb_state a); cbn.
Qed.

Lemma run_rollback p st a L s w :
  wm w !! p = Some (OAio a) ->
  rn (rcaiocb_rollback p st) (put L s w) = (Ok tt, put L s (poke p (OAio (with_state st a)) w)).
Proof. apply run_cb_put. Qed.

Lemma run_commit p a L s w :
  wm w !! p = Some (OAio a) ->
  rn (rcaiocb_commit p) (put L s w) =
  (Ok tt, put L s (poke p (OAio (with_state CB_INIT (with_aio_state CB_INIT a))) w)).
Proof.
  intros Hp. unfold rcaiocb_commit. rewrite run_bind, (run_cb_put _ p a) by done. cbn [andthen].
  rewrite (run_cb_put _ p (with_aio_state CB_INIT a)) by apply wm_poke. by rewrite poke_poke.
Qed.

(** flags *)
Definition vector a : bool := has_flag CB_VECTOR (aio_flags a).
Definition shared a : bool := negb (has_flag CB_LOCAL (aio_flags a)).

Lemma run_isvector p a L s w :
  wm w !! p = Some (OAio a) -> rn (aiocb_isvector p) (put L s w) = (Ok (vector a), put L s w).
Proof. apply (run_cb_get (fun a => has_flag CB_VECTOR (aio_flags a))). Qed.

Lemma run_isshared p a L s w :
  wm w !! p = Some (OAio a) -> rn (aiocb_isshared p) (put L s w) = (Ok (shared a), put L s w).
Proof. apply (run_cb_get (fun a => negb (has_flag CB_LOCAL (aio_flags a)))). Qed.

Lemma with_state_twice st st' a : with_state st (with_state st' a) = with_state st a.
Proof. done. Qed.
Lemma with_state_id a : with_state (cb_state a) a = a.
Proof. by destruct a. Qed.

(** ** Submitting *)

(** what a call that returns 1, or nil, a message and an error number, returns *)
Definition status (r e : Z) : list value :=
  if r =? -1 then [VNil; VStr (cstr (c_strerror e)); VInt e] else [VInt 1].

(** the methods that submit the request: what they attempt, their further
    arguments, and the call of the system they make *)
Definition submissions (p n : Z) a : list ((nat -> prog Z) * attempt * list value * (string * list carg)) := [
   (l_aio_read, ToRead, [VInt n],
    if vector a then ("aio_readv", [AZ p])
    else if have_aio2 then ("aio_read2", [AZ p; AZ (to_int n)]) else ("aio_read", [AZ p]));
   (l_aio_write, ToWrite, [VInt n],
    if vector a then ("aio_writev", [AZ p])
    else if have_aio2 then ("aio_write2", [AZ p; AZ (to_int n)]) else ("aio_write", [AZ p]));
   (l_aio_mlock, ToWrite, [], ("aio_mlock", [AZ p]));
   (l_aio_fsync, ToWrite, [VInt n], ("aio_fsync", [AZ (to_int n); AZ p]))].

(** what each of them does after its own argument checks *)
Definition submit_with (L : nat) (p : Z) (k : attempt) (c : prog cret) : prog Z :=
  b ← begins p k;
  if negb b.1 then luaL_argerror L 1 "buffer not available"
  else r ← c; submitted L p b.2 r.

Lemma run_submit_taken L p k c a s w :
  wm w !! p = Some (OAio a) -> allowed (cb_state a) k = false ->
  rn (submit_with L p k c) (put L s w) = (Halt (Raise (EArg 1 "buffer not available")), put L s w).
Proof.
  intros Hp Hk. unfold submit_with. rewrite run_bind, (run_begins k p a), Hk by done. cbn [andthen fst negb].
  by rewrite run_lua_halts.
Qed.

Lemma run_submit L p k c a vs n h w r w1 :
  wm w !! p = Some (OAio a) -> allowed (cb_state a) k = true ->
  rn c (put L (LS vs (3 + n) h) (poke p (OAio (with_state CB_PENDING a)) w)) =
    (Ok r, put L (LS vs (3 + n) h) w1) ->
  wm w1 !! p = Some (OAio (with_state CB_PENDING a)) ->
  rn (submit_with L p k c) (put L (LS vs (3 + n) h) w) =
  (Ok (if rc r =? -1 then 3 else 1),
   put L (LS (rev (status (rc r) (c_errno (wx w1))) ++ vs) (if rc r =? -1 then n else 2 + n) h)
     (if rc r =? -1 then poke p (OAio a) w1 else w1)).
Proof.
  intros Hp Hk Hc Hp1. unfold submit_with. rewrite run_bind, (run_begins k p a), Hk by done.
  cbn [andthen fst snd negb]. rewrite run_bind, Hc. cbn [andthen]. unfold submitted, status.
  destruct (rc r =? -1) eqn:E.
  - rewrite run_bind, run_errno. cbn [andthen].
    rewrite run_bind, (run_rollback p _ (with_state CB_PENDING a)) by done. cbn [andthen].
    by rewrite run_fail, with_state_twice, with_state_id.
  - apply (run_success C L vs (2 + n)).
Qed.

(** [read] and [write] look at the buffer before they call *)
Lemma bind_assoc_submit L p k (v : prog bool) (g : bool -> prog cret) w :
  rn (b ← begins p k;
      if negb b.1 then luaL_argerror L 1 "buffer not available"
      else x ← v; r ← g x; submitted L p b.2 r) w =
  rn (submit_with L p k (x ← v; g x)) w.
Proof.
  unfold submit_with. rewrite !run_bind. destruct (rn (begins p k) w) as [[b|hh] w']; [|done].
  cbn [andthen]. destruct (negb b.1); [done|]. rewrite !run_bind.
  destruct (rn v w') as [[x|hh] w'']; [|done]. cbn [andthen]. by rewrite run_bind.
Qed.

Lemma run_optint L i z vs n h w :
  at_ vs i = Val (VInt z) ->
  rn (luaL_optinteger L i 0) (put L (LS vs n h) w) = (Ok z, put L (LS vs n h) w).
Proof. intros Ha. lua_run. rewrite Ha. cbn [stk]. by rewrite ?Ha. Qed.

Lemma run_checkint L i z vs n h w :
  at_ vs i = Val (VInt z) ->
  rn (luaL_checkinteger L i) (put L (LS vs n h) w) = (Ok z, put L (LS vs n h) w).
Proof. intros Ha. lua_run. rewrite Ha. cbn [stk]. by rewrite ?Ha. Qed.

(** the methods are their checks, then [submit_with] *)
Lemma run_submission L p n a u f k extra fn cargs h w :
  handle (rev (u :: extra)) h 1 AIOCB_METATABLE p -> p ≠ 0 ->
  wm w !! p = Some (OAio a) -> shared a = true ->
  In (f, k, extra, (fn, cargs)) (submissions p n a) ->
  exists c, rn (f L) (put L (frame (u :: extra) h) w) = rn (submit_with L p k c) (put L (frame (u :: extra) h) w) /\
    forall w', wm w' !! p = Some (OAio (with_state CB_PENDING a)) ->
      rn c (put L (frame (u :: extra) h) w') = c_call C fn cargs (put L (frame (u :: extra) h) w').
Proof.
  intros Hh Hp Hm Hs Hin. cbn [submissions In] in Hin.
  assert (Hvec : forall s w', wm w' !! p = Some (OAio (with_state CB_PENDING a)) ->
    rn (aiocb_isvector p) (put L s w') = (Ok (vector a), put L s w')).
  { intros s w' Hw'. exact (run_isvector p (with_state CB_PENDING a) L s w' Hw'). }
  destruct Hin as [E|[E|[E|[E|[]]]]].
  - injection E as <- <- <- Hc. eexists. split.
    + unfold l_aio_read. rewrite run_bind, (run_checkcookie_frame C L 1 _ p) by done. cbn [andthen].
      unfold frame. rewrite run_bind, (run_optint L 2 n) by done. cbn [andthen].
      rewrite run_bind, (run_isshared p a) by done. rewrite Hs. cbn [andthen].
      rewrite run_bind, run_argcheck_true. cbn [andthen]. apply (bind_assoc_submit L p ToRead (aiocb_isvector p) (fun vector : bool =>
        if vector then call "aio_readv" [AZ p]
        else if have_aio2 then call "aio_read2" [AZ p; AZ (to_int n)] else call "aio_read" [AZ p])).
    + intros w' Hw'. rewrite run_bind, Hvec by done. cbn [andthen].
      destruct (vector a); [|destruct have_aio2]; injection Hc as <- <-; apply run_call.
  - injection E as <- <- <- Hc. eexists. split.
    + unfold l_aio_write. rewrite run_bind, (run_checkcookie_frame C L 1 _ p) by done. cbn [andthen].
      unfold frame. rewrite run_bind, (run_optint L 2 n) by done. cbn [andthen]. apply (bind_assoc_submit L p ToWrite (aiocb_isvector p) (fun vector : bool =>
        if vector then call "aio_writev" [AZ p]
        else if have_aio2 then call "aio_write2" [AZ p; AZ (to_int n)] else call "aio_write" [AZ p])).
    + intros w' Hw'. rewrite run_bind, Hvec by done. cbn [andthen].
      destruct (vector a); [|destruct have_aio2]; injection Hc as <- <-; apply run_call.
  - injection E as <- <- <- <- <-. eexists. split.
    + unfold l_aio_mlock. by rewrite run_bind, (run_checkcookie_frame C L 1 _ p) by done.
    + intros w' _. apply run_call.
  - injection E as <- <- <- <- <-. eexists. split.
    + unfold l_aio_fsync. rewrite run_bind, (run_checkcookie_frame C L 1 _ p) by done. cbn [andthen].
      unfold frame. by rewrite run_bind, (run_checkint L 2 n) by done.
    + intros w' _. apply run_call.
Qed.

(** C12. [read], [write], [mlock] and [fsync] on a block whose buffer is not available for them
    are refused before anything is submitted.  Otherwise the block is pending while the kernel
    is asked, with the call the source names; if the kernel accepts they return 1 and the block
    stays pending, and if it refuses they return the error and the block is as it was. *)
Theorem aio_submit L p n a u f k extra fn cargs h w :
  handle (rev (u :: extra)) h 1 AIOCB_METATABLE p -> p ≠ 0 ->
  wm w !! p = Some (OAio a) -> shared a = true ->
  In (f, k, extra, (fn, cargs)) (submissions p n a) ->
  (allowed (cb_state a) k = false ->
   executes C L f (u :: extra) h w (Halt (Raise (EArg 1 "buffer not available"))) (put L (idle h) w)) /\
  (allowed (cb_state a) k = true ->
   forall r w1,
     c_call C fn cargs (put L (frame (u :: extra) h) (poke p (OAio (with_state CB_PENDING a)) w)) =
       (Ok r, put L (frame (u :: extra) h) w1) ->
     wm w1 !! p = Some (OAio (with_state CB_PENDING a)) ->
     executes C L f (u :: extra) h w (Ok (status (rc r) (c_errno (wx w1))))
       (put L (idle h) (if rc r =? -1 then poke p (OAio a) w1 else w1))).
Proof.
  intros Hh Hp Hm Hs Hin.
  destruct (run_submission L p n a u f k extra fn cargs h w Hh Hp Hm Hs Hin) as (c & Hrun & Hc). split.
  - intros Hk. eapply executes_halt; [|done]. rewrite Hrun. by eapply run_submit_taken.
  - intros Hk r w1 Hcall Hm1.
    assert (Hact : rn c (put L (LS (rev (u :: extra)) (3 + 17) h) (poke p (OAio (with_state CB_PENDING a)) w)) =
      (Ok r, put L (LS (rev (u :: extra)) (3 + 17) h) w1)).
    { etransitivity; [apply Hc, wm_poke|]. exact Hcall. }
    eapply (executes_return C L f _ h w (status (rc r) (c_errno (wx w1))) (rev (u :: extra))
      (if rc r =? -1 then 17%nat else 19%nat)).
    rewrite Hrun. etransitivity; [exact (run_submit L p k c a _ 17 h w r w1 Hm Hk Hact Hm1)|].
    unfold status. by destruct (rc r =? -1).
Qed.

(** ** Completion *)

Definition completed a : rcaiocb := with_state CB_INIT (with_aio_state CB_INIT a).

(** C13. [_return] on a block that is not pending is refused.  Otherwise the block is in its
    returning state while the kernel is asked; if the kernel gives the result the buffer is
    available and has contents, and if it reports an error the state is the one of before the
    submission. *)
Theorem aio_return_call L p a u h w :
  handle (rev [u]) h 1 AIOCB_METATABLE p -> p ≠ 0 -> wm w !! p = Some (OAio a) ->
  (cb_state a ≠ CB_PENDING ->
   executes C L l_aio_return [u] h w (Halt (Raise (EArg 1 "buffer not pending"))) (put L (idle h) w)) /\
  (cb_state a = CB_PENDING -> forall r w1,
     c_call C "aio_return" [AZ p] (put L (frame [u] h) (poke p (OAio (with_state CB_RETURNING a)) w)) =
       (Ok r, put L (frame [u] h) w1) ->
     wm w1 !! p = Some (OAio (with_state CB_RETURNING a)) ->
     executes C L l_aio_return [u] h w
       (Ok (if rc r =? -1 then status (-1) (c_errno (wx w1)) else [VInt (rc r)]))
       (put L (idle h)
          (poke p (OAio (if rc r =? -1 then with_state (aio_state a) a else completed a)) w1))).
Proof.
  intros Hh Hp Hm.
  assert (Hcas : rn (rcaiocb_trybeginreturn p) (put L (frame [u] h) w) = _)
    by exact (run_cas p CB_PENDING CB_RETURNING a L (frame [u] h) w Hm).
  split.
  - intros Hne. rewrite decide_False in Hcas by done. eapply executes_halt; [|done]. unfold l_aio_return.
    rewrite run_bind, (run_checkcookie_frame C L 1 _ p) by done. cbn [andthen].
    rewrite run_bind, Hcas. cbn [andthen fst negb]. by rewrite run_lua_halts.
  - intros He r w1 Hcall Hm1. rewrite decide_True in Hcas by done.
    assert (Hrun : rn (l_aio_return L) (put L (frame [u] h) w) =
      rn (if rc r =? -1 then
            error ← errno;
            state ← load p (cb_get aio_state);
            rcaiocb_rollback p state;;
            fail L error
          else rcaiocb_commit p;; lua_pushinteger L (rc r);; mret 1) (put L (frame [u] h) w1)).
    { unfold l_aio_return. rewrite run_bind, (run_checkcookie_frame C L 1 _ p) by done. cbn [andthen].
      rewrite run_bind, Hcas. cbn [andthen fst negb]. by rewrite run_bind, run_call, Hcall. }
    destruct (rc r =? -1).
    + apply (executes_return C L _ _ _ _ _ [u] 17). rewrite Hrun, run_bind, run_errno. cbn [andthen].
      rewrite run_bind, (run_cb_get aio_state p (with_state CB_RETURNING a)) by done. cbn [andthen].
      rewrite run_bind, (run_rollback p _ (with_state CB_RETURNING a)) by done. cbn [andthen].
      exact (run_fail C L _ [u] 17 h _).
    + apply (executes_return C L _ _ _ _ _ [u] 19). rewrite Hrun, run_bind, (run_commit p (with_state CB_RETURNING a)) by done. cbn [andthen].
      unfold frame, LUA_MINSTACK. rewrite run_bind, run_lua. reflexivity.
Qed.

Definition with_refs (n : Z) a : rcaiocb :=
  RcAiocb (aio_fildes a) (aio_offset a) (aio_lio_opcode a) (aio_buf a) (aio_nbytes a) (aio_flags a)
    (aio_state a) (aio_sigevent a) n (cb_state a).

(** [aio.waitcomplete] returns a counted handle on the block the kernel reports with the
    result of its request, and the buffer has contents; for a request that failed it returns the
    handle followed by the three values of an error, four in all, and the state is the one of
    before; without a block it returns the error alone. *)
Theorem waitcomplete_call L h w r w1 mt :
  reg_get (inl AIOCB_METATABLE) h = VTab mt ->
  c_call C "aio_waitcomplete" [AZ 0] (put L (frame [] h) w) = (Ok r, put L (frame [] h) w1) ->
  (rc r = -1 -> out_int 0 r = 0 ->
   executes C L l_aio_waitcomplete [] h w (Ok (status (-1) (c_errno (wx w1)))) (put L (idle h) w1)) /\
  (forall a, out_int 0 r ≠ 0 -> wm w1 !! out_int 0 r = Some (OAio a) -> shared a = true ->
   let p := out_int 0 r in
   let a' := with_refs (wrapu 64 (aio_refs a + 1)) a in
   executes C L l_aio_waitcomplete [] h w
     (Ok (VUd (fresh h) :: if rc r =? -1 then status (-1) (c_errno (wx w1)) else [VInt (rc r)]))
     (put L (idle (alloc_handle mt p h))
       (poke p (OAio (if rc r =? -1 then with_state (aio_state a) a' else completed a')) w1))).
Proof.
  intros Hmt Hc.
  assert (Hstart : rn (l_aio_waitcomplete L) (put L (frame [] h) w) =
    rn (if (rc r =? -1) && (out_int 0 r =? 0) then fail L (c_errno (wx w1))
        else
          local ← aiocb_islocal (out_int 0 r);
          if local : bool then luaL_error L "TODO"
          else
            refcount_retain (out_int 0 r);;
            new L (out_int 0 r) AIOCB_METATABLE;;
            if rc r =? -1 then
              state ← load (out_int 0 r) (cb_get aio_state);
              rcaiocb_rollback (out_int 0 r) state;;
              fail L (c_errno (wx w1));;
              mret 4
            else
              rcaiocb_commit (out_int 0 r);;
              lua_pushinteger L (rc r);;
              mret 2) (put L (frame [] h) w1)).
  { assert (Hts : rn (opt_timespec L 1) (put L (frame [] h) w) = (Ok [AZ 0], put L (frame [] h) w)).
    { unfold opt_timespec, lua_isnoneornil. by rewrite run_bind, run_bind, run_lua. }
    unfold l_aio_waitcomplete. rewrite run_bind, Hts. cbn [andthen].
    rewrite run_bind, run_call, Hc. cbn [andthen].
    by rewrite run_bind, run_errno. }
  split.
  - intros Hr Hz. apply (executes_return C L _ _ _ _ _ [] 17). rewrite Hstart, Hr, Hz.
    exact (run_fail C L _ [] 17 h w1).
  - intros a Hnz Hm Hs p a'. fold p in Hstart, Hm.
    rewrite (proj2 (Z.eqb_neq p 0) Hnz), andb_false_r in Hstart.
    assert (Hlocal : rn (aiocb_islocal p) (put L (frame [] h) w1) = (Ok false, put L (frame [] h) w1)).
    { unfold aiocb_islocal. rewrite (run_cb_get _ p a) by done. unfold shared in Hs.
      by apply negb_true_iff in Hs as ->. }
    rewrite run_bind, Hlocal in Hstart. cbn [andthen] in Hstart.
    rewrite run_bind, (run_refcount_retain C p (OAio a) (aio_refs a)) in Hstart by done.
    cbn [andthen] in Hstart. change (set_refs _ (OAio a)) with (OAio a') in Hstart.
    rewrite run_bind in Hstart. unfold frame at 2, LUA_MINSTACK in Hstart.
    change 20%nat with (2 + 18)%nat in Hstart. cbn [rev app] in Hstart.
    rewrite (run_new C L p _ mt) in Hstart by done. cbn [andthen] in Hstart.
    destruct (rc r =? -1).
    + apply (executes_return C L _ _ _ _ _ [] 16). rewrite Hstart.
      rewrite run_bind, (run_cb_get aio_state p a') by apply wm_poke. cbn [andthen].
      rewrite run_bind, (run_rollback p _ a') by apply wm_poke. cbn [andthen]. rewrite poke_poke.
      change (1 + 18)%nat with (3 + 16)%nat. by rewrite run_bind, run_fail.
    + apply (executes_return C L _ _ _ _ _ [] 18). rewrite Hstart.
      rewrite run_bind, (run_commit p a') by apply wm_poke. cbn [andthen]. rewrite poke_poke.
      by rewrite run_bind, run_lua.
Qed.
End run.

(** ** Witnesses *)

Definition life_block (st : aiocb_state) : rcaiocb := RcAiocb 3 0 0 513 4 0 CB_INIT [] 1 st.
Definition life_heap : heap := sample_heap AIOCB_METATABLE [VLud 512] 0.
Definition life_world (st : aiocb_state) : world Z lstate := sample_world {[ 512 := OAio (life_block st) ]}.

Lemma life_poke st st' : poke 512 (OAio (life_block st')) (life_world st) = life_world st'.
Proof. unfold poke, life_world, sample_world, set_mem; cbn. by rewrite insert_singleton_eq. Qed.

Lemma life_handle args : handle (rev (VUd 2 :: args)) life_heap 1 AIOCB_METATABLE 512.
Proof.
  exists 2%nat, (Udata (Some 1%nat) [VLud 512] 0). split; [|done]. unfold udata_of.
  by rewrite (at_frame (VUd 2 :: args) 1 (VUd 2)).
Qed.

Lemma aio_submit_witness :
  (allowed CB_INIT ToWrite = false ->
   executes (sample_clib []) 0 l_aio_write [VUd 2; VInt 0] life_heap (life_world CB_INIT)
     (Halt (Raise (EArg 1 "buffer not available"))) (put 0%nat (idle life_heap) (life_world CB_INIT))) /\
  executes (sample_clib []) 0 l_aio_write [VUd 2; VInt 0] life_heap (life_world CB_INIT) (Ok [VInt 1])
    (put 0%nat (idle life_heap) (life_world CB_PENDING)).
Proof.
  split.
  - refine (proj1 (aio_submit (sample_clib []) 0 512 0 (life_block CB_INIT) (VUd 2) l_aio_write ToWrite [VInt 0]
      "aio_write" [AZ 512] life_heap (life_world CB_INIT) (life_handle [VInt 0]) _ eq_refl eq_refl _)); [done|].
    right; left. reflexivity.
  - refine (proj2 (aio_submit (sample_clib []) 0 512 0 (life_block CB_INIT) (VUd 2) l_aio_write ToWrite [VInt 0]
      "aio_write" [AZ 512] life_heap (life_world CB_INIT) (life_handle [VInt 0]) _ eq_refl eq_refl _)
      eq_refl (Cret 0 []) (life_world CB_PENDING) _ eq_refl); [done|right; left; reflexivity|].
    change (with_state CB_PENDING (life_block CB_INIT)) with (life_block CB_PENDING). by rewrite life_poke.
Defined.

Lemma aio_return_call_witness :
  executes (sample_clib []) 0 l_aio_return [VUd 2] life_heap (life_world CB_PENDING) (Ok [VInt 0])
    (put 0%nat (idle life_heap) (life_world CB_INIT)).
Proof.
  rewrite <- (life_poke CB_RETURNING CB_INIT).
  refine (proj2 (aio_return_call (sample_clib []) 0 512 (life_block CB_PENDING) (VUd 2) life_heap (life_world CB_PENDING)
    (life_handle []) _ eq_refl) eq_refl (Cret 0 []) (life_world CB_RETURNING) _ eq_refl); [done|].
  change (with_state CB_RETURNING (life_block CB_PENDING)) with (life_block CB_RETURNING). by rewrite life_poke.
Defined.

(** a kernel that reports the block at 512 *)
Definition done_kernel : clib Z := {|
  c_call := fun _ _ w => (Ok (Cret 7 [AZ 512]), w); c_fn := fun _ _ args w => (Ok (true, args), w) |}.

Lemma waitcomplete_call_witness :
  executes done_kernel 0 l_aio_waitcomplete [] life_heap (life_world CB_PENDING) (Ok [VUd 10; VInt 7])
    (put 0%nat (idle (alloc_handle 1 512 life_heap))
      (poke 512 (OAio (completed (with_refs 2 (life_block CB_PENDING)))) (life_world CB_PENDING))).
Proof.
  refine (proj2 (waitcomplete_call done_kernel 0 life_heap (life_world CB_PENDING) (Cret 7 [AZ 512])
    (life_world CB_PENDING) 1 eq_refl eq_refl) (life_block CB_PENDING) _ eq_refl eq_refl). done.
Defined.
