(* ===== verification/AioFree.v ===== *)
(** * The end of a control block

    [l_aiocb_free] runs when a handle is closed or collected: it gives the
    reference back and, if that was the last, waits for the kernel and frees the
    block with its buffers.  Here: that it does, and the two ways around it. *)

From S2P Require Import Prelude LuaApi Arrays Machine Capi Refcount Samples Utils Registry Modules Uio.
From S2P Require Import Signal Aio Threads AioState AioLife.

(** what a block with this contents owns beside itself *)
Inductive buffers {S T} (w : world S T) (a : rcaiocb) : list Z -> Prop :=
  | no_buffer : vector a = false -> aio_buf a = 0 -> buffers w a []
  | one_buffer : vector a = false -> aio_buf a ≠ 0 -> is_Some (wm w !! aio_buf a) -> buffers w a [aio_buf a]
  | iov_buffers iov : vector a = true -> iovecs w (aio_buf a) iov -> aio_nbytes a = Z.of_nat (length iov) ->
      buffers w a (bases iov ++ [aio_buf a]).

(** the handle [u] without its cookie *)
Definition expire (u : nat) (h : heap) : heap :=
  match uds h !! u with
  | Some d => set_ud u (Udata (ud_meta d) (<[0%nat := VLud 0]> (ud_uv d)) (ud_blk d)) h
  | None => h
  end.

(** the kernel's answers while the last reference goes: [interrupted k] interruptions of the wait,
    then the end of it *)
Section kernel.
Context `{LuaSem} {S : Type} `{Libc S} `{Consts} (C : clib S).
Implicit Types W : world S lstate.

Inductive waits (p : Z) : nat -> world S lstate -> world S lstate -> Prop :=
  | waits_done r W W' :
      c_call C "aio_suspend" [AZ p; AZ 0] W = (Ok r, W') -> rc r ≠ -1 -> waits p 0 W W'
  | waits_again k r W W' W'' :
      c_call C "aio_suspend" [AZ p; AZ 0] W = (Ok r, W') -> rc r = -1 -> c_errno (wx W') = cst "EINTR" ->
      waits p k W' W'' -> waits p (1 + k) W W''.

(** cancelled, or waited for *)
Inductive quiets (fd p : Z) : nat -> world S lstate -> world S lstate -> Prop :=
  | quiets_cancel r W W' :
      c_call C "aio_cancel" [AZ fd; AZ p] W = (Ok r, W') -> rc r ≠ -1 -> rc r ≠ cst "AIO_NOTCANCELED" ->
      quiets fd p 0 W W'
  | quiets_wait k r W W' W'' :
      c_call C "aio_cancel" [AZ fd; AZ p] W = (Ok r, W') -> rc r = cst "AIO_NOTCANCELED" -> rc r ≠ -1 ->
      waits p k W' W'' -> quiets fd p k W W''.

(** what the manual pages promise of the kernel: a request is no longer worked on when its
    cancellation or the wait for it succeeded, and nothing of this starts requests; the result of
    a request that is worked on cannot be had *)
Class AioKernel := {
  working : S -> Z -> Prop;
  cancel_ends fd p W r W' : c_call C "aio_cancel" [AZ fd; AZ p] W = (Ok r, W') ->
    rc r ≠ -1 -> rc r ≠ cst "AIO_NOTCANCELED" -> ~ working (wx W') p;
  suspend_ends p W r W' : c_call C "aio_suspend" [AZ p; AZ 0] W = (Ok r, W') ->
    rc r ≠ -1 -> ~ working (wx W') p;
  return_starts p q W r W' : c_call C "aio_return" [AZ p] W = (Ok r, W') -> working (wx W') q -> working (wx W) q;
  return_early p W r W' : c_call C "aio_return" [AZ p] W = (Ok r, W') -> working (wx W) p ->
    rc r = -1 /\ working (wx W') p
}.

Lemma waits_ends `{!AioKernel} p k W W' : waits p k W W' -> ~ working (wx W') p.
Proof. induction 1; [by eapply suspend_ends|done]. Qed.

Lemma quiets_ends `{!AioKernel} fd p k W W' : quiets fd p k W W' -> ~ working (wx W') p.
Proof. destruct 1; [by eapply cancel_ends|by eapply waits_ends]. Qed.
End kernel.

Section run.
Context `{LuaSem} {S : Type} `{Libc S} `{Consts} (C : clib S).
Implicit Types (w : world S lstate) (L : nat) (p : Z) (h : heap) (a : rcaiocb).
Abbreviation rn := (run (documented C)).

Lemma run_suspend_retry p k fuel W W' :
  waits C p k W W' -> (k < fuel)%nat -> rn (suspend_retry fuel p) W = (Ok tt, W').
Proof.
  intros Hw. revert fuel. induction Hw as [r W W' Hc Hr|k r W W' W'' Hc Hr He _ IH]; intros [|fuel] Hk; [lia| |lia|].
  - cbn [suspend_retry]. rewrite run_bind, run_call, Hc. cbn [andthen].
    by rewrite (proj2 (Z.eqb_neq _ _)).
  - cbn [suspend_retry]. rewrite run_bind, run_call, Hc. cbn [andthen].
    rewrite (proj2 (Z.eqb_eq _ _)) by done. rewrite run_bind, run_errno. cbn [andthen].
    rewrite (proj2 (Z.eqb_eq _ _)) by done. apply IH. lia.
Qed.

Lemma run_end_request p k fuel a L s w W' r W'' :
  wm w !! p = Some (OAio a) -> quiets C (aio_fildes a) p k (put L s w) W' -> (k < fuel)%nat ->
  c_call C "aio_return" [AZ p] W' = (Ok r, W'') ->
  rn (end_request fuel p) (put L s w) = (Ok tt, W'').
Proof.
  intros Hm Hq Hk Hret. unfold end_request.
  rewrite run_bind, (run_cb_get C aio_fildes p a) by done. cbn [andthen].
  rewrite run_bind, run_call. destruct Hq as [r' W W' Hc Hr Hn|k r' W W' W1 Hc Hn Hr Hw];
    rewrite Hc; cbn [andthen]; rewrite (proj2 (Z.eqb_neq _ _)) by done.
  - rewrite (proj2 (Z.eqb_neq _ _)) by done. cbn. rewrite Hret. done.
  - rewrite (proj2 (Z.eqb_eq _ _)) by done. rewrite run_bind, (run_suspend_retry p k fuel _ _ Hw) by done.
    cbn [andthen]. by rewrite run_bind, run_call, Hret.
Qed.

Lemma run_free_buffers p a l L s w :
  wm w !! p = Some (OAio a) -> buffers w a l ->
  rn (free_buffers true p) (put L s w) = (Ok tt, put L s (release_all l w)).
Proof.
  intros Hm Hb. unfold free_buffers. rewrite run_bind, (run_isvector C p a) by done. cbn [andthen].
  destruct Hb as [Hv Hz|Hv Hb [o Ho]|iov Hv Hi Hn]; rewrite Hv; cbn [andb orb]; rewrite run_bind.
  - by rewrite (run_cb_get C aio_buf p a), Hz by done.
  - rewrite (run_cb_get C aio_buf p a) by done. cbn [andthen]. by apply (run_free C (aio_buf a) o).
  - rewrite (run_cb_get C (fun a => (aio_buf a, aio_nbytes a)) p a) by done. cbn [andthen fst snd].
    rewrite Hn. by apply (run_freeriovecs C _ iov).
Qed.

(** what follows the decision to free *)
Lemma run_free_rest p a l L u h w :
  handle (rev [VUd u]) h 1 AIOCB_METATABLE p -> p ≠ 0 ->
  wm w !! p = Some (OAio a) -> buffers w a l -> p ∉ l ->
  rn (free_buffers true p;; free p;; setcookie L 1 0;; mret 0) (put L (frame [VUd u] h) w) =
  (Ok 0, put L (frame [VUd u] (expire u h)) (release_all (l ++ [p]) w)).
Proof.
  intros (u' & d & Hu & Hc) Hp Hm Hb Hni. destruct (udata_of_at _ _ _ _ _ _ Hu) as [[= <-] Hd].
  rewrite run_bind, (run_free_buffers p a l) by done. cbn [andthen].
  rewrite run_bind, (run_free C p (OAio a)) by (done || by rewrite wm_release_all).
  cbn [andthen]. rewrite release_all_app. unfold setcookie, lua_absindex, COOKIE, expire, frame, LUA_MINSTACK.
  rewrite Hd. cbn [Z.ltb Z.compare]. lua_run. rewrite Hd. by lua_run.
Qed.

Lemma release_all_poke l p o w : p ∉ l -> release_all l (poke p o w) = poke p o (release_all l w).
Proof.
  revert w. induction l as [|q l IH]; intros w Hp; [done|]. apply not_elem_of_cons in Hp as [Hne Hp].
  change (release_all (q :: l) ?x) with (release_all l (release q x)).
  rewrite <- (IH (release q w)) by done. f_equal. unfold release, poke, set_mem; cbn.
  by rewrite delete_insert_ne.
Qed.

Lemma release_all_last_poke l p o w :
  p ∉ l -> release_all (l ++ [p]) (poke p o w) = release_all (l ++ [p]) w.
Proof.
  intros Hp. rewrite !release_all_app, release_all_poke by done. cbn.
  unfold release, poke, set_mem; cbn. by rewrite delete_insert_eq.
Qed.

(** only where the buffers are matters *)
Lemma buffers_ext w a a' l :
  vector a' = vector a -> aio_buf a' = aio_buf a -> aio_nbytes a' = aio_nbytes a ->
  buffers w a l -> buffers w a' l.
Proof.
  intros Hv Hb Hn Hl. destruct Hl as [Hv' Hz|Hv' Hnz Ho|iov Hv' Hi Hc]; rewrite <- ?Hb in *; rewrite <- ?Hv, <- ?Hn in *.
  - by apply no_buffer.
  - by apply one_buffer.
  - by apply iov_buffers.
Qed.

Lemma buffers_poke w p o a l : p ∉ l -> buffers w a l -> buffers (poke p o w) a l.
Proof.
  intros Hp Hl. revert Hp. destruct Hl as [Hv Hz|Hv Hb Ho|iov Hv (Hnz & Hi & Hnd & Hall) Hn]; intros Hp.
  - by apply no_buffer.
  - apply one_buffer; [done..|]. cbn. rewrite lookup_insert_ne; [done|]. intros ->. apply Hp. left.
  - apply not_elem_of_app in Hp as [Hp1 Hp2]. apply iov_buffers; [done| |done]. unfold iovecs. split_all; [done| |done|].
    + cbn. rewrite lookup_insert_ne; [done|]. intros ->. apply Hp2. left.
    + apply list.Forall_forall. intros b Hb. cbn. rewrite lookup_insert_ne by by intros ->.
      by apply (proj1 (list.Forall_forall _ _) Hall).
Qed.

(** up to the question whether the kernel still works on the request *)
Lemma run_free_last fuel L u p h a w :
  handle (rev [VUd u]) h 1 AIOCB_METATABLE p -> wm w !! p = Some (OAio a) -> p ≠ 0 ->
  shared a = true -> aio_refs a = 1 ->
  rn (l_aiocb_free fuel L) (put L (frame [VUd u] h) w) =
  rn ((if decide (cb_state a = CB_PENDING) then end_request fuel p else mret tt);;
      free_buffers true p;; free p;; setcookie L 1 0;; mret 0)
    (put L (frame [VUd u] h) (poke p (OAio (with_refs 0 a)) w)).
Proof.
  intros Hh Hm Hp Hs Hr. unfold l_aiocb_free.
  rewrite run_bind, (run_checkcookienull_frame C L 1 _ p) by done. cbn [andthen].
  rewrite (proj2 (Z.eqb_neq _ _)) by done.
  rewrite run_bind, (run_isshared C p a) by done. rewrite Hs. cbn [andthen].
  rewrite run_bind, (run_refcount_release C p (OAio a) 1) by (done || (cbn; by rewrite Hr)).
  cbn [andthen Z.eqb Pos.eqb andb negb].
  change (set_refs (wrapu 64 (1 - 1)) (OAio a)) with (OAio (with_refs 0 a)).
  by rewrite run_bind, (run_cb_get C cb_state p (with_refs 0 a)) by apply wm_poke.
Qed.

(** a block the kernel is not known to work on is freed without asking the kernel *)
Lemma run_free_idle fuel L u p h a l w :
  handle (rev [VUd u]) h 1 AIOCB_METATABLE p -> wm w !! p = Some (OAio a) -> p ≠ 0 ->
  shared a = true -> aio_refs a = 1 -> cb_state a ≠ CB_PENDING -> buffers w a l -> p ∉ l ->
  rn (l_aiocb_free fuel L) (put L (frame [VUd u] h) w) =
  (Ok 0, put L (frame [VUd u] (expire u h)) (release_all (l ++ [p]) w)).
Proof.
  intros Hh Hm Hp Hs Hr Hst Hb Hni. rewrite (run_free_last fuel L u p h a) by done.
  rewrite decide_False, run_bind, run_ret by done. cbn [andthen].
  rewrite (run_free_rest p (with_refs 0 a) l) by
    (done || apply wm_poke || (apply buffers_poke; [done|]; by apply (buffers_ext w a))).
  by rewrite release_all_last_poke.
Qed.

(** C9. When the last handle of a block goes while its request is pending, the request is
    cancelled or waited for, however often the wait is interrupted (the fuel bounds the retries),
    the result is dropped, and only then, with the kernel no longer working on it, the block and
    all its buffers are freed and the handle is emptied. *)
Theorem free_waits `{!AioKernel C} fuel k L u p h a l w w1 r w2 :
  handle (rev [VUd u]) h 1 AIOCB_METATABLE p -> wm w !! p = Some (OAio a) -> p ≠ 0 ->
  shared a = true -> aio_refs a = 1 -> cb_state a = CB_PENDING ->
  quiets C (aio_fildes a) p k (put L (frame [VUd u] h) (poke p (OAio (with_refs 0 a)) w))
    (put L (frame [VUd u] h) w1) -> (k < fuel)%nat ->
  c_call C "aio_return" [AZ p] (put L (frame [VUd u] h) w1) = (Ok r, put L (frame [VUd u] h) w2) ->
  wm w2 !! p = Some (OAio (with_refs 0 a)) -> buffers w2 a l -> p ∉ l ->
  ~ working C (wx w2) p /\
  executes C L (l_aiocb_free fuel) [VUd u] h w (Ok [])
    (put L (idle (expire u h)) (release_all (l ++ [p]) w2)) /\
  forall q, q ∈ p :: l -> wm (release_all (l ++ [p]) w2) !! q = None.
Proof.
  intros Hh Hm Hp Hs Hr Hst Hq Hk Hret Hm2 Hb Hni. split_all.
  - intros Hw. apply (quiets_ends C _ _ _ _ _ Hq). by eapply (return_starts C p p (put L (frame [VUd u] h) w1)).
  - apply (executes_return C L (l_aiocb_free fuel) [VUd u] h w [] [VUd u] 20).
    rewrite (run_free_last fuel L u p h a) by done. rewrite decide_True, run_bind by done.
    erewrite (run_end_request p k fuel (with_refs 0 a)); [|apply wm_poke|done|done|done]. cbn [andthen].
    apply (run_free_rest p (with_refs 0 a) l); [done..| |done]. by apply (buffers_ext w2 a).
  - intros q Hin. apply wm_release_all_in. apply elem_of_app. apply elem_of_cons in Hin as [->|]; [right; left|by left].
Qed.

(** C11. A request that is asked for its result while the kernel works on it loses its pending
    state: [_return] reports the kernel's error and restores the former state, so when the
    handle is collected the block and its buffers are freed without cancelling or waiting,
    with the kernel still working on them. *)
Theorem return_in_progress `{!AioKernel C} fuel L u p h a l w r w1 :
  handle (rev [VUd u]) h 1 AIOCB_METATABLE p -> wm w !! p = Some (OAio a) -> p ≠ 0 ->
  shared a = true -> aio_refs a = 1 -> cb_state a = CB_PENDING -> aio_state a ≠ CB_PENDING ->
  working C (wx w) p ->
  c_call C "aio_return" [AZ p] (put L (frame [VUd u] h) (poke p (OAio (with_state CB_RETURNING a)) w)) =
    (Ok r, put L (frame [VUd u] h) w1) ->
  wm w1 !! p = Some (OAio (with_state CB_RETURNING a)) -> buffers w1 a l -> p ∉ l ->
  let w2 := poke p (OAio (with_state (aio_state a) a)) w1 in
  executes C L l_aio_return [VUd u] h w (Ok (status (-1) (c_errno (wx w1)))) (put L (idle h) w2) /\
  executes C L (l_aiocb_free fuel) [VUd u] h w2 (Ok [])
    (put L (idle (expire u h)) (release_all (l ++ [p]) w2)) /\
  (forall q, q ∈ p :: l -> wm (release_all (l ++ [p]) w2) !! q = None) /\
  working C (wx (release_all (l ++ [p]) w2)) p.
Proof.
  intros Hh Hm Hp Hs Hr Hst Has Hw Hret Hm1 Hb Hni w2.
  destruct (return_early C p _ r _ Hret Hw) as [Hrc Hw1]. split_all.
  - destruct (aio_return_call C L p a (VUd u) h w Hh Hp Hm) as [_ Hr1].
    specialize (Hr1 Hst r w1 Hret Hm1). rewrite Hrc in Hr1. exact Hr1.
  - apply (executes_return C L (l_aiocb_free fuel) [VUd u] h w2 [] [VUd u] 20).
    apply (run_free_idle fuel L u p h (with_state (aio_state a) a)); try done; [apply wm_poke|].
    apply buffers_poke; [done|]. by apply (buffers_ext w1 a).
  - intros q Hin. apply wm_release_all_in. apply elem_of_app. apply elem_of_cons in Hin as [->|]; [right; left|by left].
  - assert (Hx : forall k w', wx (release_all k w') = wx w').
    { intros k. induction k as [|q k IH]; intros w'; [done|]. apply (IH (release q w')). }
    rewrite Hx. exact Hw1.
Qed.

(** a release that is not the last changes the count only: the handle keeps its cookie *)
Lemma run_free_other fuel L u p h a w :
  handle (rev [VUd u]) h 1 AIOCB_METATABLE p -> wm w !! p = Some (OAio a) -> p ≠ 0 ->
  shared a = true -> aio_refs a ≠ 1 ->
  rn (l_aiocb_free fuel L) (put L (frame [VUd u] h) w) =
  (Ok 0, put L (frame [VUd u] h) (poke p (OAio (with_refs (wrapu 64 (aio_refs a - 1)) a)) w)).
Proof.
  intros Hh Hm Hp Hs Hr. unfold l_aiocb_free.
  rewrite run_bind, (run_checkcookienull_frame C L 1 _ p) by done. cbn [andthen].
  rewrite (proj2 (Z.eqb_neq _ _)) by done.
  rewrite run_bind, (run_isshared C p a) by done. rewrite Hs. cbn [andthen].
  rewrite run_bind, (run_refcount_release C p (OAio a) (aio_refs a)) by done. cbn [andthen].
  by rewrite (proj2 (Z.eqb_neq _ _)).
Qed.

(** C10. A handle is released twice when it is closed and then collected, because a release that
    is not the last leaves its cookie: with a second handle on the same block, closing the first
    gives one reference back, collecting it the other, and the block and its buffers are freed
    under the second handle, whose methods then access freed memory. *)
Theorem close_then_gc fuel L u v p h a l w :
  handle (rev [VUd u]) h 1 AIOCB_METATABLE p -> handle (rev [VUd v]) h 1 AIOCB_METATABLE p -> u ≠ v ->
  wm w !! p = Some (OAio a) -> p ≠ 0 -> shared a = true -> aio_refs a = 2 -> cb_state a ≠ CB_PENDING ->
  buffers w a l -> p ∉ l ->
  let w1 := poke p (OAio (with_refs 1 a)) w in
  let w2 := release_all (l ++ [p]) w1 in
  executes C L (l_aiocb_free fuel) [VUd u] h w (Ok []) (put L (idle h) w1) /\
  executes C L (l_aiocb_free fuel) [VUd u] h w1 (Ok []) (put L (idle (expire u h)) w2) /\
  handle (rev [VUd v]) (expire u h) 1 AIOCB_METATABLE p /\ wm w2 !! p = None /\
  forall f, In f [l_aio_mlock; l_aio_return; l_aio_cancel] ->
    exists why, (rn (f L) (put L (frame [VUd v] (expire u h)) w2)).1 = Halt (UB why).
Proof.
  intros Hu Hv Hne Hm Hp Hs Hr Hst Hb Hni w1 w2.
  assert (Hv' : handle (rev [VUd v]) (expire u h) 1 AIOCB_METATABLE p).
  { destruct Hv as (v' & d & Hv & Hc). exists v', d. split; [|done]. rewrite <- Hv.
    unfold expire. destruct (uds h !! u) as [du|] eqn:Eu; [|done].
    unfold udata_of. change (at_ (rev [VUd v]) 1) with (Val (VUd v)). cbn.
    by rewrite lookup_insert_ne. }
  assert (Hgone : wm w2 !! p = None) by (apply wm_release_all_in, elem_of_app; right; left).
  split_all; [..|done|done|].
  - apply (executes_return C L (l_aiocb_free fuel) [VUd u] h w [] [VUd u] 20).
    rewrite (run_free_other fuel L u p h a) by (done || lia). by rewrite Hr.
  - apply (executes_return C L (l_aiocb_free fuel) [VUd u] h w1 [] [VUd u] 20).
    rewrite (run_free_idle fuel L u p h (with_refs 1 a) l); try done; [apply wm_poke|].
    apply buffers_poke; [done|]. by apply (buffers_ext w a).
  - intros f Hin.
    destruct Hin as [<-|[<-|[<-|[]]]]; eexists;
      [unfold l_aio_mlock, rcaiocb_trybeginwrite|unfold l_aio_return, rcaiocb_trybeginreturn|
       unfold l_aio_cancel];
      rewrite run_bind, (run_checkcookie_frame C L 1 _ p) by done; cbn [andthen];
      rewrite run_bind, run_trigger; cbn [step]; rewrite wm_put, Hgone; reflexivity.
Qed.
End run.

(** ** Witnesses *)

#[local] Instance slow_works : AioKernel slow_kernel.
Proof.
  exists (fun k p => p ∈ busy k).
  - intros fd p W r W'. cbn. intros [= <- <-] _ Hn. by destruct Hn.
  - intros p W r W'. cbn. destruct (refuse (wx W)) as [|[] l]; intros [= <- <-]; cbn; [|done|];
      intros _ Hin; apply list_elem_of_filter in Hin as Hne; by destruct Hne.
  - intros p q W r W'. cbn. destruct (_ && _); intros [= <- <-]; done.
  - intros p W r W'. cbn. rewrite andb_comm. case_bool_decide; cbn; [by intros [= <- <-]|by intros _ ?].
Defined.

Definition free_block_of (st : aiocb_state) (refs : Z) : rcaiocb := RcAiocb 3 0 0 513 4 0 CB_UNINIT [] refs st.
Definition free_mem (a : rcaiocb) : gmap Z obj := {[ 512 := OAio a; 513 := OBuf 4 "" ]}.
Definition free_world (a : rcaiocb) (k : kernel) : world kernel lstate :=
  World ∅ 10 (free_mem a) 4096 (fun _ _ => false) k.

Lemma free_buffers_of b a k : vector a = false -> aio_buf a = 513 -> buffers (free_world b k) a [513].
Proof. intros Hv Hb. rewrite <- Hb. apply one_buffer; [done|by rewrite Hb|]. rewrite Hb. by eexists. Qed.

Lemma not_own_buffer : 512 ∉ [513].
Proof. intros H%list_elem_of_singleton. done. Qed.

Lemma free_world_poke a b k : poke 512 (OAio b) (free_world a k) = free_world b k.
Proof. unfold poke, free_world, free_mem, set_mem; cbn. by rewrite insert_insert_eq. Qed.

(** one interruption, then the wait ends *)
Lemma free_waits_witness :
  let k0 := Kernel [512] [] [true] 0 in
  let k2 := Kernel [] [] [] EINTR in
  let a := free_block_of CB_PENDING 1 in
  let b := free_block_of CB_PENDING 0 in
  let w2 := free_world b k2 in
  ~ working slow_kernel (wx w2) 512 /\
  executes slow_kernel 0 (l_aiocb_free 2) [VUd 2] race_heap (free_world a k0) (Ok [])
    (put 0%nat (idle (expire 2 race_heap)) (release_all [513; 512] w2)) /\
  forall q, q ∈ [512; 513] -> wm (release_all [513; 512] w2) !! q = None.
Proof.
  intros k0 k2 a b w2.
  refine (free_waits slow_kernel 2 1 0 2 512 race_heap a [513] (free_world a k0)
    (free_world b (Kernel [] [512] [] EINTR)) (Cret 0 []) w2 _ _ _ _ _ _ _ _ _ _ _ _).
  - by exists 2%nat, (Udata (Some 1%nat) [VLud 512] 0).
  - reflexivity.
  - done.
  - reflexivity.
  - reflexivity.
  - reflexivity.
  - rewrite free_world_poke.
    eapply quiets_wait; [reflexivity|reflexivity|done|].
    eapply waits_again; [reflexivity|reflexivity|reflexivity|].
    eapply waits_done; [reflexivity|done].
  - lia.
  - reflexivity.
  - reflexivity.
  - by apply free_buffers_of.
  - apply not_own_buffer.
Defined.

Lemma return_in_progress_witness :
  let k0 := Kernel [512] [] [] 0 in
  let k1 := Kernel [512] [] [] EINVAL in
  let a := free_block_of CB_PENDING 1 in
  let w2 := poke 512 (OAio (with_state CB_UNINIT a)) (free_world (with_state CB_RETURNING a) k1) in
  executes slow_kernel 0 l_aio_return [VUd 2] race_heap (free_world a k0) (Ok (status (-1) EINVAL))
    (put 0%nat (idle race_heap) w2) /\
  executes slow_kernel 0 (l_aiocb_free 1) [VUd 2] race_heap w2 (Ok [])
    (put 0%nat (idle (expire 2 race_heap)) (release_all [513; 512] w2)) /\
  (forall q, q ∈ [512; 513] -> wm (release_all [513; 512] w2) !! q = None) /\
  working slow_kernel (wx (release_all [513; 512] w2)) 512.
Proof.
  intros k0 k1 a w2.
  refine (return_in_progress slow_kernel 1 0 2 512 race_heap a [513] (free_world a k0) (Cret (-1) [])
    (free_world (with_state CB_RETURNING a) k1) _ _ _ _ _ _ _ _ _ _ _ _).
  - by exists 2%nat, (Udata (Some 1%nat) [VLud 512] 0).
  - reflexivity.
  - done.
  - reflexivity.
  - reflexivity.
  - reflexivity.
  - done.
  - left.
  - by rewrite free_world_poke.
  - reflexivity.
  - by apply free_buffers_of.
  - apply not_own_buffer.
Defined.

Definition two_handles : heap :=
  set_ud 3 (Udata (Some 1%nat) [VLud 512] 0) race_heap.

Lemma close_then_gc_witness :
  let a := free_block_of CB_UNINIT 2 in
  let w1 := poke 512 (OAio (with_refs 1 a)) (free_world a (Kernel [] [] [] 0)) in
  let w2 := release_all [513; 512] w1 in
  executes slow_kernel 0 (l_aiocb_free 1) [VUd 2] two_handles (free_world a (Kernel [] [] [] 0)) (Ok [])
    (put 0%nat (idle two_handles) w1) /\
  executes slow_kernel 0 (l_aiocb_free 1) [VUd 2] two_handles w1 (Ok [])
    (put 0%nat (idle (expire 2 two_handles)) w2) /\
  handle (rev [VUd 3]) (expire 2 two_handles) 1 AIOCB_METATABLE 512 /\ wm w2 !! 512 = None /\
  forall f, In f [l_aio_mlock; l_aio_return; l_aio_cancel] ->
    exists why, (run (documented slow_kernel) (f 0%nat)
      (put 0%nat (frame [VUd 3] (expire 2 two_handles)) w2)).1 = Halt (UB why).
Proof.
  intros a w1 w2.
  refine (close_then_gc slow_kernel 1 0 2 3 512 two_handles a [513] (free_world a (Kernel [] [] [] 0))
    _ _ _ _ _ _ _ _ _ _).
  - by exists 2%nat, (Udata (Some 1%nat) [VLud 512] 0).
  - by exists 3%nat, (Udata (Some 1%nat) [VLud 512] 0).
  - done.
  - reflexivity.
  - done.
  - reflexivity.
  - reflexivity.
  - done.
  - by apply free_buffers_of.
  - apply not_own_buffer.
Defined.
