(* ===== verification/AioBuffers.v ===== *)
(** * Control blocks, their buffers and lists of them

    Making a block with a buffer, reading the buffer back, and submitting lists. *)

From S2P Require Import Prelude LuaApi Arrays Machine Capi Refcount Samples Utils Registry Modules Uio.
From S2P Require Import Signal Aio Threads AioState AioLife AioFree.

(** the buffer a description asks for: its size and contents, if any *)
Definition described (v : value) : option (option (Z * string)) :=
  match v with
  | VNil => Some None
  | VInt n => Some (Some (to_size n, ""))
  | VStr s => Some (Some (Z.of_nat (String.length s), s))
  | _ => None
  end.

(** a buffer to be written out, or none, is available at once *)
Definition first_state (v : value) : aiocb_state := match v with VInt _ => CB_UNINIT | _ => CB_INIT end.

Definition new_block (fd off op : Z) (v : value) (p : Z) : rcaiocb :=
  let '(b, n) := match described v with Some (Some (n, _)) => (p + 1, n) | _ => (0, 0) end in
  RcAiocb (to_int fd) off (to_int op) b n 0 (first_state v) [] 1 (first_state v).

Definition new_memory (fd off op : Z) (v : value) (p : Z) (m : gmap Z obj) : gmap Z obj :=
  <[p := OAio (new_block fd off op v p)]>
    (match described v with Some (Some (n, s)) => <[p + 1 := OBuf n s]> m | _ => m end).

Section run.
Context `{LuaSem} {S : Type} `{Libc S} `{Consts} `{SigLayout} (C : clib S).
Implicit Types (w : world S lstate) (L : nat) (p : Z) (h : heap) (a : rcaiocb).
Abbreviation rn := (run (documented C)).

(** the stack while the block is filled in *)
Definition shared_stack (fd off op : Z) (v : value) (u : nat) : list value :=
  [VUd u; VNil; VInt op; v; VInt off; VInt fd].

(** the two halves of [l_aiocb_shared] around the choice of a buffer *)
Definition choose_buffer (L : nat) (p : Z) : prog unit :=
  t ← lua_type L 3;
  if is_type t TNIL then rcaiocb_commit p
  else if is_type t TTABLE then checkiovecs L 3 p
  else checkbuf L 3 p.

Definition finish_block (L : nat) (p : Z) : prog Z :=
  opcode ← luaL_optinteger L 4 0;
  load p (cb_put (with_opcode (to_int opcode)));;
  none ← lua_isnoneornil L 5;
  (if none : bool then mret tt
   else
     load p (cb_put (with_sigevent []));;
     checksigevent (store_sigevent p) L 5 tt);;
  mret 1.

Definition bare_block (fd off : Z) : rcaiocb := RcAiocb (to_int fd) off 0 0 0 0 CB_UNINIT [] 1 CB_UNINIT.

(** the block, made and known to Lua before its buffer *)
Lemma run_shared_start L fd off op v h w mt :
  reg_get (inl AIOCB_METATABLE) h = VTab mt ->
  woom w (cst "sizeof(struct rcaiocb)") (wnext w) = false -> wnext w ≠ 0 ->
  let p := wnext w in
  rn (l_aiocb_shared L) (put L (frame [VInt fd; VInt off; v; VInt op] h) w) =
  rn (choose_buffer L p;; finish_block L p)
    (put L (LS (shared_stack fd off op v (fresh h)) 18 (alloc_handle mt p h))
       (poke p (OAio (bare_block fd off)) (set_next (p + 1) w))).
Proof.
  intros Hr Ho Hp p. unfold l_aiocb_shared, frame, LUA_MINSTACK. cbn [rev app].
  rewrite run_bind, run_malloc_ok by done. cbn [andthen]. fold p. rewrite (proj2 (Z.eqb_neq _ _)) by done.
  rewrite run_bind, (run_refcount_init C p 1 (OAio zeroed_aiocb) 0) by (done || apply wm_poke). cbn [andthen].
  rewrite poke_poke, run_bind, run_lua. cbn [doc]. unfold doc_settop. cbn [stk room hp length].
  change (Z.of_nat 4) with 4. cbn [Z.ltb Z.compare Pos.compare Pos.compare_cont].
  change (Z.to_nat 5) with 5%nat. cbn [Nat.leb Nat.sub replicate app andthen].
  rewrite run_bind, (run_new C L p _ mt _ 17) by done. cbn [andthen].
  unfold checkfd. rewrite run_bind, run_bind, run_lua. doc_eval. rewrite run_bind, run_lua. doc_eval.
  rewrite run_ret. cbn [andthen].
  rewrite run_bind, (run_cb_put C _ p (with_refs 1 zeroed_aiocb)) by apply wm_poke. cbn [andthen].
  rewrite poke_poke, run_bind, (run_checkint C L 2 off) by done. cbn [andthen].
  rewrite run_bind, (run_cb_put C _ p (with_fildes (to_int fd) (with_refs 1 zeroed_aiocb))) by apply wm_poke.
  cbn [andthen]. rewrite poke_poke. reflexivity.
Qed.

Lemma substring_empty n m : String.substring n m "" = "".
Proof. by destruct n, m. Qed.

Lemma copy_bytes_fresh s : copy_bytes s (OBuf (Z.of_nat (String.length s)) "") = Some (tt, OBuf (Z.of_nat (String.length s)) s).
Proof.
  cbn [copy_bytes]. rewrite (proj2 (Z.leb_le _ _)) by lia.
  by rewrite substring_empty, string_app_nil_r.
Qed.

Lemma poke_swap p q o o' w : p ≠ q -> poke p o (poke q o' w) = poke q o' (poke p o w).
Proof. intros Hne. unfold poke, set_mem; cbn. by rewrite insert_insert_ne. Qed.

Lemma insert_over (m : gmap Z obj) p q x y z :
  p ≠ q -> <[p := x]> (<[q := y]> (<[p := z]> m)) = <[p := x]> (<[q := y]> m).
Proof. intros Hne. by rewrite (insert_insert_ne m q p), insert_insert_eq. Qed.

(** the buffer of a block that has none yet *)
Lemma run_choose_buffer L p fd off op v u n h d w :
  described v = Some d -> wm w !! p = Some (OAio (bare_block fd off)) ->
  (forall size q, woom w size q = false) -> 0 < p < wnext w -> wm w !! wnext w = None ->
  rn (choose_buffer L p) (put L (LS (shared_stack fd off op v u) (1 + n) h) w) =
  (Ok tt, put L (LS (shared_stack fd off op v u) (1 + n) h)
     (poke p (OAio (with_state (first_state v) (with_aio_state (first_state v)
        (match d with Some (m, _) => with_buf (wnext w) m (bare_block fd off) | None => bare_block fd off end))))
        (match d with Some (m, s) => poke (wnext w) (OBuf m s) (set_next (wnext w + 1) w) | None => w end))).
Proof.
  intros Hd Hm Ho Hp Hf. set (s := LS (shared_stack fd off op v u) (1 + n) h).
  assert (Hty : rn (lua_type L 3) (put L s w) = (Ok (type_of v), put L s w)) by (rewrite run_lua; reflexivity).
  unfold choose_buffer. rewrite run_bind, Hty. cbn [andthen].
  destruct v as [|b|z|f|str|q|t|f|q]; cbn in Hd; try done; injection Hd as <-.
  - by apply (run_commit C p (bare_block fd off)).
  - change (is_type (type_of (VInt z)) TNIL) with false. change (is_type (type_of (VInt z)) TTABLE) with false.
    cbn iota. unfold checkbuf. rewrite run_bind, Hty. cbn [andthen].
    change (is_type (type_of (VInt z)) TSTRING) with false. cbn iota.
    assert (Hint : rn (lua_isinteger L 3) (put L s w) = (Ok true, put L s w)) by (rewrite run_lua; reflexivity).
    assert (Hto : rn (lua_tointeger L 3) (put L s w) = (Ok z, put L s w)) by (rewrite run_lua; reflexivity).
    rewrite run_bind, run_bind, Hint. cbn [andthen]. rewrite run_bind, Hto. cbn [andthen]. rewrite run_ret.
    cbn [andthen]. rewrite run_bind, run_malloc_ok by done. cbn [andthen].
    rewrite (proj2 (Z.eqb_neq _ _)) by lia. cbv iota. rewrite run_bind, run_ret. cbn [andthen].
    rewrite (run_cb_put C _ p (bare_block fd off)); [done|]. cbn. by rewrite lookup_insert_ne by lia.
  - change (is_type (type_of (VStr str)) TNIL) with false. change (is_type (type_of (VStr str)) TTABLE) with false.
    cbn iota. unfold checkbuf. rewrite run_bind, Hty. cbn [andthen].
    change (is_type (type_of (VStr str)) TSTRING) with true. cbn iota.
    assert (Hto : rn (lua_tolstring L 3) (put L s w) = (Ok str, put L s w)) by (rewrite run_lua; reflexivity).
    rewrite run_bind, run_bind, Hto. cbn [andthen]. rewrite run_ret. cbn [andthen].
    rewrite run_bind, run_malloc_ok by done. cbn [andthen].
    rewrite (proj2 (Z.eqb_neq _ _)) by lia. cbv iota. rewrite run_bind, run_bind.
    rewrite (run_load C (wnext w) (copy_bytes str) (OBuf (Z.of_nat (String.length str)) "") tt
      (OBuf (Z.of_nat (String.length str)) str)) by (apply wm_poke || apply copy_bytes_fresh).
    cbn [andthen]. rewrite poke_poke.
    rewrite (run_commit C p (bare_block fd off)) by (cbn; by rewrite lookup_insert_ne by lia). cbn [andthen].
    rewrite (run_cb_put C _ p (with_state CB_INIT (with_aio_state CB_INIT (bare_block fd off)))) by apply wm_poke.
    by rewrite poke_poke.
Qed.

(** [aio.aiocb.shared] makes a block with one reference, known to the handle it returns, with
    the descriptor, offset and operation given.  Without a buffer, or with a string to write,
    copied to memory of its own, the block is available at once; with a size it gets a buffer
    without contents, which can only be read into. *)
Theorem shared_new L fd off op v d h w mt :
  reg_get (inl AIOCB_METATABLE) h = VTab mt -> described v = Some d ->
  (forall size q, woom w size q = false) -> 0 < wnext w -> (forall q, wnext w <= q -> wm w !! q = None) ->
  let p := wnext w in
  let h' := alloc_handle mt p h in
  executes C L l_aiocb_shared [VInt fd; VInt off; v; VInt op] h w (Ok [VUd (fresh h)])
    (put L (idle h') (set_mem (new_memory fd off op v p (wm w))
       (set_next (match d with Some _ => p + 2 | None => p + 1 end) w))) /\
  handle (rev [VUd (fresh h)]) h' 1 AIOCB_METATABLE p.
Proof.
  intros Hr Hd Ho Hp Hf p h'. split; [|by apply alloc_handle_top with (vs := [])].
  apply (executes_return C L l_aiocb_shared _ h w [VUd (fresh h)] (tail (shared_stack fd off op v (fresh h))) 18).
  rewrite (run_shared_start L fd off op v h w mt) by (done || lia). fold p h'.
  rewrite run_bind, (run_choose_buffer L p fd off op v (fresh h) 17 h' d) by
    (done || apply wm_poke || (cbn; rewrite lookup_insert_ne by (unfold p; lia); apply Hf; unfold p; lia) || (cbn; unfold p; lia)).
  cbn [andthen]. unfold finish_block. rewrite run_bind, (run_optint C L 4 op) by done. cbn [andthen].
  erewrite run_bind, run_cb_put by apply wm_poke. cbn [andthen]. rewrite poke_poke.
  assert (Hnone : forall w', rn (lua_isnoneornil L 5) (put L (LS (shared_stack fd off op v (fresh h)) 18 h') w') =
    (Ok true, put L (LS (shared_stack fd off op v (fresh h)) 18 h') w')).
  { intros w'. unfold lua_isnoneornil. by rewrite run_bind, run_lua. }
  change (1 + 17)%nat with 18%nat. rewrite run_bind, Hnone. cbn [andthen].
  rewrite run_bind, !run_ret. cbn [andthen]. rewrite run_ret. f_equal. f_equal.
  unfold new_memory, new_block. rewrite Hd. cbn [set_next wnext poke set_mem].
  destruct v as [|b|z|f|str|q|t|f|q]; cbn in Hd; try done; injection Hd as <-;
    unfold poke, set_mem, set_next; cbn; f_equal; fold p; try lia;
    by rewrite ?insert_insert_eq, ?insert_over by lia.
Qed.

(** ** Reading the buffer *)

(** the metatable has no method of that name *)
Definition no_method (h : heap) (u : nat) (name : string) : Prop :=
  exists d m x, uds h !! u = Some d /\ ud_meta d = Some m /\ tabs h !! m = Some x /\
    tmeta x = None /\ tmap x !! KStr name = None.

Lemma run_index_buf L u p h a w :
  handle (rev [VUd u; VStr "buf"]) h 1 AIOCB_METATABLE p -> p ≠ 0 -> no_method h u "buf" ->
  wm w !! p = Some (OAio a) -> shared a = true -> vector a = false ->
  exists m,
  rn (l_aiocb_index L) (put L (frame [VUd u; VStr "buf"] h) w) =
  rn (if negb (bool_decide (cb_state a = CB_INIT)) then luaL_error L "buffer not available"
      else push_bytes L (aio_buf a) (aio_nbytes a);; mret 1)
    (put L (LS [VNil; VTab m; VStr "buf"; VUd u] 18 h) w).
Proof.
  intros Hh Hp (d & m & x & Hd & Hdm & Hx & Hxm & Hnone) Hm Hs Hv. exists m.
  unfold l_aiocb_index. rewrite run_bind, (run_checkcookie_frame C L 1 _ p) by done. cbn [andthen].
  unfold luaL_checkstring, frame, LUA_MINSTACK. rewrite run_bind, run_bind, run_lua. doc_eval. rewrite run_ret.
  change (cstr "buf") with "buf". cbn [andthen]. rewrite run_bind, run_lua. doc_eval. rewrite Hd.
  cbn [fmap option_fmap option_map]. rewrite Hdm. doc_eval. rewrite run_bind, run_lua. doc_eval.
  rewrite Hx, Hnone, Hxm. unfold raw_get. rewrite Hnone. cbn [default from_option]. doc_eval. cbn [negb].
  cbn [int_field]. change (int_field "buf") with (@None (rcaiocb -> Z)). cbn iota.
  change (String.eqb "buf" "buf") with true. cbn iota.
  rewrite run_bind, (run_isvector C p a), Hv by done. cbn [andthen].
  rewrite run_bind, (run_cb_get C cb_state p a) by done. cbn [andthen].
  destruct (negb _); [done|].
  rewrite run_bind, (run_isshared C p a), Hs by done. cbn [andthen].
  rewrite !run_bind, (run_cb_get C (fun a => (aio_buf a, aio_nbytes a)) p a) by done. done.
Qed.

(** [cb.buf] is refused unless the buffer is available and has contents.  A buffer all of
    whose bytes were written, by the program or by the kernel, is returned whole; where the
    kernel wrote fewer bytes than the buffer has, the rest of what is returned is whatever the
    memory held. *)
Theorem index_buf L u p h a w :
  handle (rev [VUd u; VStr "buf"]) h 1 AIOCB_METATABLE p -> p ≠ 0 -> no_method h u "buf" ->
  wm w !! p = Some (OAio a) -> shared a = true -> vector a = false ->
  (cb_state a ≠ CB_INIT ->
   executes C L l_aiocb_index [VUd u; VStr "buf"] h w (Halt (Raise (EMsg "buffer not available"))) (put L (idle h) w)) /\
  (cb_state a = CB_INIT -> forall s len,
   wm w !! aio_buf a = Some (OBuf len s) -> aio_buf a ≠ 0 -> aio_nbytes a = len ->
   (Z.of_nat (String.length s) = len ->
    executes C L l_aiocb_index [VUd u; VStr "buf"] h w (Ok [VStr s]) (put L (idle h) w)) /\
   (Z.of_nat (String.length s) < len ->
    (rn (l_aiocb_index L) (put L (frame [VUd u; VStr "buf"] h) w)).1 =
      Halt (Unspec "the contents of uninitialised memory"))).
Proof.
  intros Hh Hp Hn Hm Hs Hv. destruct (run_index_buf L u p h a w Hh Hp Hn Hm Hs Hv) as (m & Hrun). split.
  - intros Hst. eapply executes_halt; [|done]. rewrite Hrun, bool_decide_false by done. cbn [negb].
    by rewrite run_lua_halts.
  - intros Hst s len Hb Hnz Hlen. rewrite bool_decide_true in Hrun by done. cbn [negb] in Hrun.
    unfold push_bytes in Hrun. rewrite (proj2 (Z.eqb_neq _ _)) in Hrun by done. cbn [andb] in Hrun. split.
    + intros Hfull. eapply (invoke_return C L _ _ _ _ _ [VNil; VTab m; VStr "buf"; VUd u] 17).
      rewrite Hrun, run_bind, run_bind.
      rewrite (run_read C _ _ (OBuf len s) (Some s)); [|done|].
      * cbn [andthen]. by rewrite run_lua.
      * cbn. rewrite Hlen, (proj2 (Z.leb_le _ _)), (proj2 (Z.leb_le _ _)) by lia.
        rewrite <- Hfull, Nat2Z.id. by rewrite substring_all.
    + intros Hpart. rewrite Hrun, run_bind, run_bind.
      rewrite (run_read C _ _ (OBuf len s) None); [done|done|].
      cbn. by rewrite Hlen, (proj2 (Z.leb_le _ _)), (proj2 (Z.leb_gt _ _)) by lia.
Qed.

(** ** Lists *)

(** C14. [aio.listio] cannot submit a list: to look at an element it asks for the cookie of the
    value on top of the stack after pushing two metatables, and so reads a user value of a table,
    which the API forbids, as soon as the first element is a control block. *)
Theorem listio_list L mode t t3 u us p h w :
  let args := [VInt mode; VTab t; VTab t3] in
  tabs h !! t = Some (Table (arr (VUd u :: us)) None) -> Z.of_nat (length us) < 2 ^ 31 - 1 ->
  handle [VUd u] h (-1) AIOCB_METATABLE p -> (u < fresh h)%nat -> (forall size q, woom w size q = false) -> 0 < wnext w ->
  (rn (l_lio_listio L) (put L (frame args h) w)).1 = Halt (UB "Lua API misuse").
Proof.
  intros args Ht Hlen Hh Hu Ho Hp. unfold l_lio_listio, frame, LUA_MINSTACK. cbn [rev app args].
  rewrite run_bind, (run_checkint C L 1 mode) by done. cbn [andthen].
  rewrite run_bind, run_lua. doc_eval. unfold lua_isnoneornil. rewrite run_bind, run_bind, run_lua. doc_eval.
  rewrite run_ret. cbn [andthen]. rewrite run_bind, run_ret. cbn [andthen].
  rewrite run_bind, run_lua. doc_eval. rewrite Ht. cbn [tmeta]. rewrite seq_len_arr. doc_eval.
  rewrite to_int_small by (cbn [length]; lia).
  unfold lua_newuserdatauv. rewrite run_bind, run_bind, run_malloc_ok by done. cbn [andthen].
  rewrite (proj2 (Z.eqb_neq _ _)) by lia.
  rewrite run_bind, run_lua. doc_eval. rewrite run_ret. cbn [andthen].
  rewrite Nat2Z.id. cbn [length for_]. rewrite run_bind, run_bind, run_bind, run_lua. doc_eval. cbn [tabs bump set_ud].
  rewrite Ht. cbn [tmap]. change (0 + 1) with (Z.of_nat 0 + 1). rewrite arr_lookup_nat. cbn [lookup list_lookup].
  unfold raw_get. cbn [tmap]. rewrite arr_lookup_nat. cbn [lookup list_lookup default from_option]. doc_eval.
  set (vs := [VUd (fresh h); VTab t3; VTab t; VInt mode]). set (hh := bump (set_ud (fresh h) _ h)).
  assert (Hneg : handle (VUd u :: vs) hh (-1) AIOCB_METATABLE p).
  { destruct Hh as (u' & d & Hud & Hc). exists u', d. split; [|done]. rewrite <- Hud. unfold udata_of.
    change (at_ (VUd u :: vs) (-1)) with (Val (VUd u)). change (at_ [VUd u] (-1)) with (Val (VUd u)).
    cbn. by rewrite lookup_insert_ne by lia. }
  change (id (VUd u) :: vs) with (VUd u :: vs). rewrite run_bind. change 18%nat with (3 + 15)%nat.
  match goal with |- context [rn (testcookie _ _ _) (put _ _ ?ww)] =>
    pose proof (testcookie_negative C L AIOCB_METATABLE p (VUd u :: vs) 15 hh ww Hneg) as Hub end.
  destruct (rn (testcookie L (-1) AIOCB_METATABLE) _) as [o w']. cbn [fst] in Hub. by rewrite Hub.
Qed.
End run.

(** ** Witnesses *)

Lemma shared_new_witness :
  let w := sample_world ∅ in
  let h := life_heap in
  let h' := alloc_handle 1 4096 h in
  executes (sample_clib []) 0 l_aiocb_shared [VInt 3; VInt 0; VStr "data"; VInt 0] h w (Ok [VUd 10])
    (put 0%nat (idle h') (set_mem (new_memory 3 0 0 (VStr "data") 4096 ∅) (set_next 4098 w))) /\
  handle (rev [VUd 10]) h' 1 AIOCB_METATABLE 4096.
Proof.
  intros w h h'.
  refine (shared_new (sample_clib []) 0 3 0 0 (VStr "data") (Some (4, "data")) h w 1 eq_refl eq_refl _ _ _);
    [done|done|intros q _; apply lookup_empty].
Defined.

Lemma life_no_method name : no_method life_heap 2 name.
Proof. exists (Udata (Some 1%nat) [VLud 512] 0), 1%nat, (Table ∅ None). by split_all. Qed.

Definition buf_world (st : aiocb_state) : world Z lstate :=
  sample_world {[ 512 := OAio (life_block st); 513 := OBuf 4 "data" ]}.

Lemma index_buf_witness :
  executes (sample_clib []) 0 l_aiocb_index [VUd 2; VStr "buf"] life_heap (buf_world CB_PENDING)
    (Halt (Raise (EMsg "buffer not available"))) (put 0%nat (idle life_heap) (buf_world CB_PENDING)) /\
  executes (sample_clib []) 0 l_aiocb_index [VUd 2; VStr "buf"] life_heap (buf_world CB_INIT)
    (Ok [VStr "data"]) (put 0%nat (idle life_heap) (buf_world CB_INIT)).
Proof.
  split.
  - refine (proj1 (index_buf (sample_clib []) 0 2 512 life_heap (life_block CB_PENDING) (buf_world CB_PENDING)
      (life_handle [VStr "buf"]) _ (life_no_method "buf") eq_refl eq_refl eq_refl) _); done.
  - refine (proj1 (proj2 (index_buf (sample_clib []) 0 2 512 life_heap (life_block CB_INIT) (buf_world CB_INIT)
      (life_handle [VStr "buf"]) _ (life_no_method "buf") eq_refl eq_refl eq_refl) eq_refl "data" 4 _ _ _) _); done.
Defined.

Definition list_heap : heap := set_tab 5 (Table (arr [VUd 2]) None) life_heap.

Lemma listio_list_witness :
  (run (documented (sample_clib [])) (l_lio_listio 0)
    (put 0%nat (frame [VInt 0; VTab 5; VTab 5] list_heap) (life_world CB_INIT))).1 = Halt (UB "Lua API misuse").
Proof.
  refine (listio_list (sample_clib []) 0 0 5 5 2 [] 512 list_heap (life_world CB_INIT) eq_refl _ _ _ _ _);
    [done| |cbn; lia|done|done].
  by exists 2%nat, (Udata (Some 1%nat) [VLud 512] 0).
Defined.
