(* ===== verification/Guards.v ===== *)
(** * Guards in front of library calls

    Some libraries abort the process when a function is called without its
    precondition, and the module that calls them is to check first.  This file
    gives the discipline a meaning: [guards p K Q] says that the program [p],
    entered with the facts [K] about the library established, makes every call
    with the facts the call [needs] established by earlier queries ([learns]); it
    is computed over the tree of the program's calls, for every result a call can
    have.  [guards_sound]: such a program never aborts, when the library aborts
    only calls whose needs do not hold. *)

From S2P Require Import Prelude LuaApi Machine Capi.

Section guards.
Context {F : Type}.
Context (needs : string -> list carg -> list F).
(** what a result tells, [None] for a call that can change the library's state *)
Context (learns : string -> list carg -> cret -> option (list F)).

Definition learn (f : string) (args : list carg) (r : cret) (K : list F) : list F :=
  match learns f args r with Some l => l ++ K | None => [] end.

Definition guard_ev {R} (e : ev R) (K : list F) : (R -> list F -> Prop) -> Prop :=
  match e in ev R return (R -> list F -> Prop) -> Prop with
  | ECall f args => fun k => Forall (fun x => In x K) (needs f args) /\ forall r, k r (learn f args r K)
  | ECallfn _ _ _ => fun k => forall r, k r []
  | EHalt (Aborted _) => fun _ => False
  | _ => fun k => forall r, k r K
  end.

Fixpoint guards {A} (p : prog A) (K : list F) (Q : A -> list F -> Prop) : Prop :=
  match p with
  | Ret a => Q a K
  | Vis e c => guard_ev e K (fun r K' => guards (c r) K' Q)
  end.

Lemma guard_ev_mono {R} (e : ev R) K (Q Q' : R -> list F -> Prop) :
  (forall r K', Q r K' -> Q' r K') -> guard_ev e K Q -> guard_ev e K Q'.
Proof.
  intros HQ. destruct e; cbn; intros He; try (intros r; apply HQ, He).
  - destruct He as [Hn He]. split; [done|]. intros r. apply HQ, He.
  - destruct h; try done; intros r; apply HQ, He.
Qed.

Lemma guards_mono {A} (p : prog A) K (Q Q' : A -> list F -> Prop) :
  (forall a K', Q a K' -> Q' a K') -> guards p K Q -> guards p K Q'.
Proof.
  intros HQ. revert K. induction p as [a|R e c IH]; intros K; cbn; [apply HQ|].
  apply guard_ev_mono. intros r K'. apply IH.
Qed.

Lemma guards_bind {A B} (p : prog A) (k : A -> prog B) K Q :
  guards p K (fun a K' => guards (k a) K' Q) -> guards (p ≫= k) K Q.
Proof.
  revert K. induction p as [a|R e c IH]; intros K; cbn; [done|].
  apply guard_ev_mono. intros r K'. apply IH.
Qed.

Lemma guards_ret {A} (a : A) K (Q : A -> list F -> Prop) : Q a K -> guards (mret a) K Q.
Proof. done. Qed.

(** a loop whose body keeps some facts *)
Lemma guards_for K n lo (body : Z -> prog unit) (Q : unit -> list F -> Prop) :
  (forall K', Q tt K') ->
  (forall i K', guards (body i) K' (fun _ _ => True)) ->
  guards (for_ n lo body) K Q.
Proof.
  intros HQ Hb. revert lo K. induction n as [|n IH]; intros lo K; cbn [for_]; [apply HQ|].
  apply guards_bind. eapply guards_mono; [|apply Hb]. intros [] K' _. apply IH.
Qed.

(** a loop whose body changes nothing that is known *)
Lemma guards_for_same K n lo (body : Z -> prog unit) (Q : unit -> list F -> Prop) :
  Q tt K ->
  (forall i, guards (body i) K (fun _ K' => K' = K)) ->
  guards (for_ n lo body) K Q.
Proof.
  intros HQ Hb. revert lo. induction n as [|n IH]; intros lo; cbn [for_]; [apply HQ|].
  apply guards_bind. eapply guards_mono; [|apply Hb]. intros [] K' ->. apply IH.
Qed.

(** a call of the Lua API, or an access to memory, establishes nothing *)
Lemma guards_lua {R} L (e : luaE R) K Q : (forall r, Q r K) -> guards (trigger (ELua L e)) K Q.
Proof. done. Qed.

Lemma guards_call f args K Q :
  Forall (fun x => In x K) (needs f args) -> (forall r, Q r (learn f args r K)) ->
  guards (trigger (ECall f args)) K Q.
Proof. done. Qed.

(** ** Libraries that abort unguarded calls only *)

Context `{LuaSem} {S : Type} `{Libc S}.

Record guarded_lib (C : clib S) (holds : F -> S -> Prop) : Prop := {
  gl_abort : forall f args w why,
    Forall (fun x => holds x (wx w)) (needs f args) -> (c_call C f args w).1 ≠ Halt (Aborted why);
  gl_query : forall f args w r w' l,
    Forall (fun x => holds x (wx w)) (needs f args) ->
    c_call C f args w = (Ok r, w') -> learns f args r = Some l ->
    (forall x, holds x (wx w) -> holds x (wx w')) /\ Forall (fun x => holds x (wx w')) l;
  gl_fn : forall L f args w why, (c_fn C L f args w).1 ≠ Halt (Aborted why)
}.

(** the Lua API raises errors, but does not abort *)
Lemma doc_no_abort {R} (e : luaE R) s why : (doc e s).1 ≠ Halt (Aborted why).
Proof.
  destruct e; cbv beta iota delta
    [doc push pop at_index at_value at_valid with_heap get_tab doc_insert doc_remove doc_replace doc_settop
     doc_type doc_toboolean doc_tointeger doc_tonumber doc_isinteger doc_tolstring
     doc_touserdata doc_newtable doc_rawget doc_rawset doc_get doc_set doc_rawequal
     doc_getmetatable doc_setmetatable doc_lgetmetatable doc_lsetmetatable doc_lnewmetatable
     doc_newuserdatauv doc_getiuservalue doc_setiuservalue uv_get uv_set doc_len doc_checktype
     doc_checkinteger doc_checknumber doc_pushcfunction doc_ref doc_unref doc_optinteger doc_checklstring doc_checkudata doc_setfuncs
     doc_getglobal doc_dump doc_buffinit doc_bufresult doc_loadbuffer doc_getupvalue doc_setupvalue
     doc_popcall doc_pushresults doc_next doc_rawset_key doc_tolstr doc_gettable doc_settable doc_pushcclosure ud_at func_at misuse unspec raise];
  repeat (cbn [fst]; case_match); done.
Qed.

Section sound.
Context (C : clib S) (holds : F -> S -> Prop) (Hlib : guarded_lib C holds).
Implicit Types (w : world S lstate).

(** facts are about the library, whose state only its own calls change *)
Lemma step_guarded {R} (e : ev R) K (Q : R -> list F -> Prop) w r w' :
  guard_ev e K Q -> Forall (fun x => holds x (wx w)) K ->
  step (documented C) e w = (r, w') ->
  match r with
  | Ok x => exists K', Q x K' /\ Forall (fun x => holds x (wx w')) K'
  | Halt h => forall why, h ≠ Aborted why
  end.
Proof.
  intros Hg HK. destruct e as [R L e| |L|size o|p|R p f|f args| |z|L f args|h]; cbn in *; intros Hs.
  - destruct (wl w !! L) as [s|]; [|by simplify_eq]. cbn in Hs.
    pose proof (doc_no_abort e s) as Hd. destruct (doc e s) as [r0 s'].
    injection Hs as <- <-. destruct r0 as [x|h]; [by exists K|].
    intros why ->. by apply (Hd why).
  - destruct (woom w 0 (wnext w)); injection Hs as <- <-; by exists K.
  - destruct (wl w !! L); [|by simplify_eq]. destruct (closable l); injection Hs as <- <-; [by exists K|done].
  - destruct (woom w size (wnext w)); injection Hs as <- <-; by exists K.
  - destruct (p =? 0); [injection Hs as <- <-; by exists K|].
    destruct (wm w !! p); injection Hs as <- <-; [by exists K|done].
  - destruct (wm w !! p) as [o|]; [|by simplify_eq].
    destruct (f o) as [[x o']|]; injection Hs as <- <-; [by exists K|done].
  - destruct Hg as [Hn Hg].
    assert (Hh : Forall (fun x => holds x (wx w)) (needs f args)).
    { rewrite list.Forall_forall in HK. eapply list.Forall_impl; [exact Hn|].
      cbn. intros x Hx. apply HK. by apply list_elem_of_In. }
    destruct r as [x|h].
    + exists (learn f args x K). split; [done|]. unfold learn.
      destruct (learns f args x) as [l|] eqn:El; [|constructor].
      destruct (gl_query _ _ Hlib _ _ _ _ _ _ Hh Hs El) as [Hkeep Hl].
      apply list.Forall_app. split; [done|]. eapply list.Forall_impl; [exact HK|]. apply Hkeep.
    + intros why ->. apply (gl_abort _ _ Hlib f args w why Hh). by rewrite Hs.
  - injection Hs as <- <-. by exists K.
  - injection Hs as <- <-. by exists K.
  - destruct r as [x|h]; [exists []; split; [done|constructor]|].
    intros why ->. apply (gl_fn _ _ Hlib L f args w why). by rewrite Hs.
  - destruct h; injection Hs as <- <-; done.
Qed.

(** a guarded program does not abort *)
Lemma guards_sound {A} (p : prog A) K Q w why :
  guards p K Q -> Forall (fun x => holds x (wx w)) K -> (run (documented C) p w).1 ≠ Halt (Aborted why).
Proof.
  revert K w. induction p as [a|R e c IH]; intros K w; cbn; [done|]. intros Hg HK.
  destruct (step (documented C) e w) as [r w'] eqn:Es.
  pose proof (step_guarded e K _ w r w' Hg HK Es) as Hr. destruct r as [x|h]; cbn.
  - destruct Hr as (K' & Hg' & HK'). by eapply IH.
  - intros [= ->]. by apply (Hr why).
Qed.

Lemma guards_invoke L f args h w why Q :
  guards (f L) [] Q -> (invoke C L f args h w).1 ≠ Halt (Aborted why).
Proof.
  intros Hg. unfold invoke, finish.
  pose proof (guards_sound (f L) [] Q (put L (frame args h) w) why Hg) as Hs.
  destruct (run (documented C) (f L) (put L (frame args h) w)) as [r w'].
  destruct (wl w' !! L); [|done]. destruct r as [n|h']; cbn in *; [by case_match|].
  intros [= ->]. by apply Hs.
Qed.
End sound.
End guards.
