(* ===== verification/Nv.v ===== *)
(** * lua_nv.h and lua_nv.c: the [nv] module

    Name/value lists of libnv(9): lists a handle owns ([nvlist_t]), references to
    lists that something else owns ([const nvlist_t]), and positions in a list
    ([nvlist_t cookie]).  libnv itself is not part of the repository: each of its
    functions is a library call.  What a getter returns by pointer is read at once,
    so a string or a block of bytes is a result of the call; memory the module
    allocates, receives or frees (arrays, and what the [take] functions hand over)
    is an object at an address.

    The default of a [dnvlist_take] function is a Lua string, whose address is no
    number of the model: the result 0 stands for it.  This file has the functions;
    [NvGuards] and [NvProps] what is proved of them. *)

From Stdlib Require Import SpecFloat.
From S2P Require Import Prelude LuaApi Arrays Machine Capi Utils Cmem Modules Uio.

(** [lua_Integer] to [uint64_t] and back *)
Definition to_uint64 (z : Z) : Z := wrapu 64 z.

Definition CNVLIST_METATABLE : string := "nvlist_t cookie".
Definition NVLIST_METATABLE : string := "nvlist_t".
Definition CONST_NVLIST_METATABLE : string := "const nvlist_t".

Section ops.
Context `{Consts}.

(** ** lua_nv.h *)

Definition getnvlist (L : nat) (idx : Z) (metatable : string) : prog Z :=
  has ← lua_getmetatable L idx;
  if has : bool then
    luaL_getmetatable L metatable;;
    eq ← lua_rawequal L (-1) (-2);
    if eq : bool then
      t ← getcookie L idx;
      luaL_argcheck L (is_type t TLIGHTUSERDATA) idx "invalid cookie";;
      nvl ← lua_touserdata L (-1);
      lua_pop L 3;;
      mret nvl
    else
      lua_pop L 2;;
      mret 0
  else mret 0.

Definition checknvlist (L : nat) (idx : Z) : prog Z :=
  nvl ← getnvlist L idx NVLIST_METATABLE;
  luaL_argexpected L (negb (nvl =? 0)) idx NVLIST_METATABLE;;
  e ← call "nvlist_error" [AZ nvl];
  luaL_argcheck L (rc e =? 0) idx "nvlist has error";;
  mret nvl.

Definition checkconstnvlist (L : nat) (idx : Z) : prog Z :=
  nvl ← getnvlist L idx CONST_NVLIST_METATABLE;
  luaL_argexpected L (negb (nvl =? 0)) idx CONST_NVLIST_METATABLE;;
  e ← call "nvlist_error" [AZ nvl];
  luaL_argcheck L (rc e =? 0) idx "nvlist has error";;
  mret nvl.

Definition getanynvlist (L : nat) (idx : Z) : prog Z :=
  has ← lua_getmetatable L idx;
  if has : bool then
    luaL_getmetatable L NVLIST_METATABLE;;
    luaL_getmetatable L CONST_NVLIST_METATABLE;;
    eq ← lua_rawequal L (-1) (-2);
    eq ← (if eq : bool then mret true else lua_rawequal L (-1) (-3));
    if eq : bool then
      t ← getcookie L idx;
      luaL_argcheck L (is_type t TLIGHTUSERDATA) idx "invalid cookie";;
      nvl ← lua_touserdata L (-1);
      lua_pop L 4;;
      mret nvl
    else
      lua_pop L 3;;
      mret 0
  else mret 0.

Definition checkanynvlist (L : nat) (idx : Z) : prog Z :=
  nvl ← getanynvlist L idx;
  luaL_argexpected L (negb (nvl =? 0)) idx NVLIST_METATABLE;;
  e ← call "nvlist_error" [AZ nvl];
  luaL_argcheck L (rc e =? 0) idx "nvlist has error";;
  mret nvl.

(** ** lua_nv.c: reading *)

Definition checkname (L : nat) (idx nvl type : Z) : prog string :=
  name ← luaL_checkstring L idx;
  e ← call "nvlist_exists_type" [AZ nvl; AS name; AZ type];
  luaL_argcheck L (negb (rc e =? 0)) idx "name not found";;
  mret name.

Definition get_bool (L : nat) (nvl : Z) : prog Z :=
  none ← lua_isnoneornil L 3;
  (if none : bool then
     name ← checkname L 2 nvl (cst "NV_TYPE_BOOL");
     r ← call "nvlist_get_bool" [AZ nvl; AS name];
     lua_pushboolean L (negb (rc r =? 0))
   else
     name ← luaL_checkstring L 2;
     luaL_checktype L 3 TBOOLEAN;;
     defval ← lua_toboolean L 3;
     r ← call "dnvlist_get_bool" [AZ nvl; AS name; AZ (Z_of_bool defval)];
     lua_pushboolean L (negb (rc r =? 0)));;
  mret 1.

Definition get_number (L : nat) (nvl : Z) : prog Z :=
  none ← lua_isnoneornil L 3;
  (if none : bool then
     name ← checkname L 2 nvl (cst "NV_TYPE_NUMBER");
     r ← call "nvlist_get_number" [AZ nvl; AS name];
     lua_pushinteger L (to_long (rc r))
   else
     name ← luaL_checkstring L 2;
     defval ← luaL_checkinteger L 3;
     r ← call "dnvlist_get_number" [AZ nvl; AS name; AZ (to_uint64 defval)];
     lua_pushinteger L (to_long (rc r)));;
  mret 1.

Definition get_string (L : nat) (nvl : Z) : prog Z :=
  none ← lua_isnoneornil L 3;
  (if none : bool then
     name ← checkname L 2 nvl (cst "NV_TYPE_STRING");
     r ← call "nvlist_get_string" [AZ nvl; AS name];
     lua_pushstring L (out_str 0 r)
   else
     name ← luaL_checkstring L 2;
     defval ← luaL_checkstring L 3;
     r ← call "dnvlist_get_string" [AZ nvl; AS name; AS defval];
     lua_pushstring L (out_str 0 r));;
  mret 1.

Definition get_nvlist (L : nat) (nvl : Z) : prog Z :=
  none ← lua_isnoneornil L 3;
  value ← (if none : bool then
     name ← checkname L 2 nvl (cst "NV_TYPE_NVLIST");
     call "nvlist_get_nvlist" [AZ nvl; AS name]
   else
     name ← luaL_checkstring L 2;
     defval ← checkanynvlist L 3;
     call "dnvlist_get_nvlist" [AZ nvl; AS name; AZ defval]);
  newref L 1 (rc value) CONST_NVLIST_METATABLE.

Definition get_descriptor (L : nat) (nvl : Z) : prog Z :=
  none ← lua_isnoneornil L 3;
  (if none : bool then
     name ← checkname L 2 nvl (cst "NV_TYPE_DESCRIPTOR");
     r ← call "nvlist_get_descriptor" [AZ nvl; AS name];
     lua_pushinteger L (rc r)
   else
     name ← luaL_checkstring L 2;
     defval ← luaL_checkinteger L 3;
     r ← call "dnvlist_get_descriptor" [AZ nvl; AS name; AZ (to_int defval)];
     lua_pushinteger L (rc r));;
  mret 1.

Definition get_binary (L : nat) (nvl : Z) : prog Z :=
  none ← lua_isnoneornil L 3;
  value ← (if none : bool then
     name ← checkname L 2 nvl (cst "NV_TYPE_BINARY");
     call "nvlist_get_binary" [AZ nvl; AS name]
   else
     name ← luaL_checkstring L 2;
     defval ← luaL_checklstring L 3;
     call "dnvlist_get_binary" [AZ nvl; AS name; AS defval; AZ (Z.of_nat (String.length defval))]);
  lua_pushlstring L (out_str 0 value);;
  mret 1.

(** the loops that turn a C array into a Lua array, by the type of the elements:
    [push] makes a Lua value of an element *)
Definition push_array (L : nat) (value nitems : Z) (push : Z -> prog unit) : prog unit :=
  lua_createtable L nitems 0;;
  for_ (Z.to_nat nitems) 0 (fun i =>
    v ← arr_load value ((Z.to_nat i));
    push v;;
    lua_rawseti L (-2) (i + 1)).

Definition get_bool_array (L : nat) (nvl : Z) : prog Z :=
  name ← checkname L 2 nvl (cst "NV_TYPE_BOOL_ARRAY");
  value ← call "nvlist_get_bool_array" [AZ nvl; AS name];
  push_array L (rc value) (out_int 0 value) (fun v => lua_pushboolean L (negb (v =? 0)));;
  mret 1.

Definition get_number_array (L : nat) (nvl : Z) : prog Z :=
  name ← checkname L 2 nvl (cst "NV_TYPE_NUMBER_ARRAY");
  value ← call "nvlist_get_number_array" [AZ nvl; AS name];
  push_array L (rc value) (out_int 0 value) (fun v => lua_pushinteger L (to_long v));;
  mret 1.

Definition get_string_array (L : nat) (nvl : Z) : prog Z :=
  name ← checkname L 2 nvl (cst "NV_TYPE_STRING_ARRAY");
  value ← call "nvlist_get_string_array" [AZ nvl; AS name];
  push_array L (rc value) (out_int 0 value) (push_cstr L);;
  mret 1.

Definition get_nvlist_array (L : nat) (nvl : Z) : prog Z :=
  name ← checkname L 2 nvl (cst "NV_TYPE_NVLIST_ARRAY");
  value ← call "nvlist_get_nvlist_array" [AZ nvl; AS name];
  push_array L (rc value) (out_int 0 value) (fun v =>
    newref L 1 v CONST_NVLIST_METATABLE;; mret tt);;
  mret 1.

Definition get_descriptor_array (L : nat) (nvl : Z) : prog Z :=
  name ← checkname L 2 nvl (cst "NV_TYPE_DESCRIPTOR_ARRAY");
  value ← call "nvlist_get_descriptor_array" [AZ nvl; AS name];
  push_array L (rc value) (out_int 0 value) (fun v => lua_pushinteger L v);;
  mret 1.

Definition next (L : nat) (nvl : Z) : prog Z :=
  none ← lua_isnoneornil L 2;
  cookie ← (if none : bool then
      let cookie := 0 in
      new L cookie CNVLIST_METATABLE;;
      top ← lua_gettop L;
      (if 2 <? top then lua_replace L 2 else mret tt);;
      mret cookie
    else checkcookie L 2 CNVLIST_METATABLE);
  luaL_checktype L 3 TNONE;;
  r ← call "nvlist_next" [AZ nvl; AZ cookie];
  if rc r =? 0 then mret 0
  else
    setref L (-1) 1;;
    lua_pushstring L (out_str 0 r);;
    lua_pushinteger L (out_int 1 r);;
    mret 3.

Definition get_parent (L : nat) (nvl : Z) : prog Z :=
  parent ← call "nvlist_get_parent" [AZ nvl];
  if rc parent =? 0 then mret 0
  else
    getref L 1;;
    newref L (-1) (rc parent) CONST_NVLIST_METATABLE;;
    newref L 1 (out_int 0 parent) CNVLIST_METATABLE;;
    mret 2.

Definition get_array_next (L : nat) (nvl : Z) : prog Z :=
  next ← call "nvlist_get_array_next" [AZ nvl];
  if rc next =? 0 then mret 0
  else
    getref L 1;;
    newref L (-1) (rc next) CONST_NVLIST_METATABLE.

Definition get_pararr (L : nat) (nvl : Z) : prog Z :=
  parent ← call "nvlist_get_pararr" [AZ nvl];
  if rc parent =? 0 then mret 0
  else
    getref L 1;;
    newref L (-1) (rc parent) CONST_NVLIST_METATABLE;;
    if out_int 0 parent =? 0 then mret 1
    else
      newref L 1 (out_int 0 parent) CNVLIST_METATABLE;;
      mret 2.
(** ** lua_nv.c: [nvlist_t] *)

Definition l_nv_create (L : nat) : prog Z :=
  flags ← luaL_optinteger L 1 0;
  nvl ← call "nvlist_create" [AZ (to_int flags)];
  new L (rc nvl) NVLIST_METATABLE.

Definition l_nv_recv (L : nat) : prog Z :=
  sock ← luaL_checkinteger L 1;
  flags ← luaL_optinteger L 2 0;
  nvl ← call "nvlist_recv" [AZ (to_int sock); AZ (to_int flags)];
  if rc nvl =? 0 then
    e ← errno;
    fail L e
  else new L (rc nvl) NVLIST_METATABLE.

Definition l_nv_unpack (L : nat) : prog Z :=
  p ← luaL_checklstring L 1;
  flags ← luaL_optinteger L 2 0;
  nvl ← call "nvlist_unpack" [AS p; AZ (Z.of_nat (String.length p)); AZ (to_int flags)];
  if rc nvl =? 0 then
    e ← errno;
    fail L e
  else new L (rc nvl) NVLIST_METATABLE.

Definition l_nvlist_gc (L : nat) : prog Z :=
  nvl ← checkcookienull L 1 NVLIST_METATABLE;
  call "nvlist_destroy" [AZ nvl];;
  mret 0.

Definition l_nvlist_error (L : nat) : prog Z :=
  nvl ← checkcookienull L 1 NVLIST_METATABLE;
  r ← call "nvlist_error" [AZ nvl];
  lua_pushinteger L (rc r);;
  mret 1.

Definition l_nvlist_set_error (L : nat) : prog Z :=
  nvl ← checkcookienull L 1 NVLIST_METATABLE;
  error ← luaL_checkinteger L 2;
  if to_int error =? 0 then
    msg ← strerror_r (cst "EINVAL");
    luaL_argerror L 2 (cstr msg)
  else
    call "nvlist_set_error" [AZ nvl; AZ (to_int error)];;
    mret 0.

Definition l_nvlist_in_array (L : nat) : prog Z :=
  nvl ← checkcookie L 1 NVLIST_METATABLE;
  r ← call "nvlist_in_array" [AZ nvl];
  lua_pushboolean L (negb (rc r =? 0));;
  mret 1.

Definition l_nvlist_size (L : nat) : prog Z :=
  nvl ← checkcookie L 1 NVLIST_METATABLE;
  r ← call "nvlist_size" [AZ nvl];
  lua_pushinteger L (to_long (rc r));;
  mret 1.

Definition l_nvlist_xfer (L : nat) : prog Z :=
  tosend ← checknvlist L 1;
  sock ← luaL_checkinteger L 2;
  flags ← luaL_optinteger L 3 0;
  setcookie L 1 0;;
  recvd ← call "nvlist_xfer" [AZ (to_int sock); AZ tosend; AZ (to_int flags)];
  if rc recvd =? 0 then
    e ← errno;
    fail L e
  else new L (rc recvd) NVLIST_METATABLE.

Definition l_nvlist_empty (L : nat) : prog Z :=
  nvl ← checknvlist L 1;
  r ← call "nvlist_empty" [AZ nvl];
  lua_pushboolean L (negb (rc r =? 0));;
  mret 1.

Definition l_nvlist_flags (L : nat) : prog Z :=
  nvl ← checknvlist L 1;
  r ← call "nvlist_flags" [AZ nvl];
  lua_pushinteger L (rc r);;
  mret 1.

Definition l_nvlist_clone (L : nat) : prog Z :=
  nvl ← checknvlist L 1;
  r ← call "nvlist_clone" [AZ nvl];
  new L (rc r) NVLIST_METATABLE.

Definition l_nvlist_dump (L : nat) : prog Z :=
  nvl ← checknvlist L 1;
  fd ← luaL_checkinteger L 2;
  call "nvlist_dump" [AZ nvl; AZ (to_int fd)];;
  mret 0.

Definition l_nvlist_fdump (L : nat) : prog Z :=
  nvl ← checknvlist L 1;
  s ← luaL_checkudata L 2 LUA_FILEHANDLE;
  f ← load s stream_f;
  call "nvlist_fdump" [AZ nvl; AZ f];;
  mret 0.

Definition l_nvlist_pack (L : nat) : prog Z :=
  nvl ← checknvlist L 1;
  p ← call "nvlist_pack" [AZ nvl];
  if rc p =? 0 then
    e ← errno;
    fail L e
  else
    push_bytes L (rc p) (out_int 0 p);;
    free (rc p);;
    mret 1.

Definition l_nvlist_send (L : nat) : prog Z :=
  nvl ← checknvlist L 1;
  sock ← luaL_checkinteger L 2;
  r ← call "nvlist_send" [AZ (to_int sock); AZ nvl];
  if rc r =? -1 then
    e ← errno;
    fail L e
  else success L.

Definition l_nvlist_exists (L : nat) : prog Z :=
  nvl ← checknvlist L 1;
  name ← luaL_checkstring L 2;
  r ← call "nvlist_exists" [AZ nvl; AS name];
  lua_pushboolean L (negb (rc r =? 0));;
  mret 1.

Definition l_nvlist_exists_type (L : nat) : prog Z :=
  nvl ← checknvlist L 1;
  name ← luaL_checkstring L 2;
  type ← luaL_checkinteger L 3;
  r ← call "nvlist_exists_type" [AZ nvl; AS name; AZ (to_int type)];
  lua_pushboolean L (negb (rc r =? 0));;
  mret 1.

(** a macro of the source: one function for each type *)
Definition NVLIST_EXISTS (type : string) (L : nat) : prog Z :=
  nvl ← checknvlist L 1;
  name ← luaL_checkstring L 2;
  r ← call ("nvlist_exists_" +:+ type) [AZ nvl; AS name];
  lua_pushboolean L (negb (rc r =? 0));;
  mret 1.

(** ** lua_nv.c: adding *)

Definition l_nvlist_add_null (L : nat) : prog Z :=
  nvl ← checknvlist L 1;
  name ← luaL_checkstring L 2;
  call "nvlist_add_null" [AZ nvl; AS name];;
  mret 0.

Definition l_nvlist_add_bool (L : nat) : prog Z :=
  nvl ← checknvlist L 1;
  name ← luaL_checkstring L 2;
  luaL_checktype L 3 TBOOLEAN;;
  value ← lua_toboolean L 3;
  call "nvlist_add_bool" [AZ nvl; AS name; AZ (Z_of_bool value)];;
  mret 0.

Definition l_nvlist_add_number (L : nat) : prog Z :=
  nvl ← checknvlist L 1;
  name ← luaL_checkstring L 2;
  value ← luaL_checkinteger L 3;
  call "nvlist_add_number" [AZ nvl; AS name; AZ (to_uint64 value)];;
  mret 0.

Definition l_nvlist_add_string (L : nat) : prog Z :=
  nvl ← checknvlist L 1;
  name ← luaL_checkstring L 2;
  value ← luaL_checkstring L 3;
  call "nvlist_add_string" [AZ nvl; AS name; AS value];;
  mret 0.

Definition l_nvlist_add_nvlist (L : nat) : prog Z :=
  nvl ← checknvlist L 1;
  name ← luaL_checkstring L 2;
  value ← checkanynvlist L 3;
  call "nvlist_add_nvlist" [AZ nvl; AS name; AZ value];;
  mret 0.

Definition l_nvlist_add_descriptor (L : nat) : prog Z :=
  nvl ← checknvlist L 1;
  name ← luaL_checkstring L 2;
  value ← luaL_checkinteger L 3;
  call "nvlist_add_descriptor" [AZ nvl; AS name; AZ (to_int value)];;
  mret 0.

Definition l_nvlist_add_binary (L : nat) : prog Z :=
  nvl ← checknvlist L 1;
  name ← luaL_checkstring L 2;
  value ← luaL_checklstring L 3;
  call "nvlist_add_binary" [AZ nvl; AS name; AS value; AZ (Z.of_nat (String.length value))];;
  mret 0.

(** the number of elements of the table at index 3 *)
Definition array_arg (L : nat) : prog Z :=
  luaL_checktype L 3 TTABLE;;
  nitems ← luaL_len L 3;
  luaL_argcheck L (0 <? to_size nitems) 3 "cannot be empty";;
  mret (to_size nitems).

(** the loops that copy its elements into a C array; [elem] reads the one on top *)
Definition fill_array (L : nat) (value nitems : Z) (elem : prog carg) : prog unit :=
  for_ (Z.to_nat nitems) 0 (fun i =>
    lua_geti L 3 (i + 1);;
    v ← elem;
    load value (arr_set (Z.to_nat i) v);;
    lua_pop L 1).

Definition l_nvlist_add_bool_array (L : nat) : prog Z :=
  nvl ← checknvlist L 1;
  name ← luaL_checkstring L 2;
  nitems ← array_arg L;
  value ← malloc_array sizeof_bool nitems;
  if value =? 0 then fatal L "malloc" (cst "ENOMEM")
  else
    fill_array L value nitems (b ← lua_toboolean L (-1); mret (AZ (Z_of_bool b)));;
    call "nvlist_move_bool_array" [AZ nvl; AS name; AZ value; AZ nitems];;
    mret 0.

Definition l_nvlist_add_number_array (L : nat) : prog Z :=
  nvl ← checknvlist L 1;
  name ← luaL_checkstring L 2;
  nitems ← array_arg L;
  value ← malloc_array sizeof_uint64 nitems;
  if value =? 0 then fatal L "malloc" (cst "ENOMEM")
  else
    fill_array L value nitems (n ← lua_tointeger L (-1); mret (AZ (to_uint64 n)));;
    call "nvlist_move_number_array" [AZ nvl; AS name; AZ value; AZ nitems];;
    mret 0.

Definition l_nvlist_add_string_array (L : nat) : prog Z :=
  nvl ← checknvlist L 1;
  name ← luaL_checkstring L 2;
  nitems ← array_arg L;
  value ← malloc_array sizeof_ptr nitems;
  if value =? 0 then fatal L "malloc" (cst "ENOMEM")
  else
    fill_array L value nitems (s ← lua_tolstring L (-1); mret (AS (cstr s)));;
    call "nvlist_add_string_array" [AZ nvl; AS name; AZ value; AZ nitems];;
    free value;;
    mret 0.

Definition l_nvlist_add_nvlist_array (L : nat) : prog Z :=
  nvl ← checknvlist L 1;
  name ← luaL_checkstring L 2;
  nitems ← array_arg L;
  value ← malloc_array sizeof_ptr nitems;
  if value =? 0 then fatal L "malloc" (cst "ENOMEM")
  else
    for_ (Z.to_nat nitems) 0 (fun i =>
      lua_geti L 3 (i + 1);;
      item ← getanynvlist L (-1);
      load value (arr_set (Z.to_nat i) (AZ item));;
      if item =? 0 then
        free value;;
        luaL_argerror L 3 "nvlists expected"
      else
        e ← call "nvlist_error" [AZ item];
        if negb (rc e =? 0) then
          free value;;
          luaL_argerror L 3 "nvlist has error"
        else lua_pop L 2);;
    call "nvlist_add_nvlist_array" [AZ nvl; AS name; AZ value; AZ nitems];;
    free value;;
    mret 0.

Definition l_nvlist_add_descriptor_array (L : nat) : prog Z :=
  nvl ← checknvlist L 1;
  name ← luaL_checkstring L 2;
  nitems ← array_arg L;
  value ← malloc_array sizeof_int nitems;
  if value =? 0 then fatal L "malloc" (cst "ENOMEM")
  else
    fill_array L value nitems (n ← lua_tointeger L (-1); mret (AZ (to_int n)));;
    call "nvlist_add_descriptor_array" [AZ nvl; AS name; AZ value; AZ nitems];;
    free value;;
    mret 0.

Definition l_nvlist_move_descriptor (L : nat) : prog Z :=
  nvl ← checknvlist L 1;
  name ← luaL_checkstring L 2;
  value ← luaL_checkinteger L 3;
  call "nvlist_move_descriptor" [AZ nvl; AS name; AZ (to_int value)];;
  mret 0.

Definition l_nvlist_move_nvlist (L : nat) : prog Z :=
  nvl ← checknvlist L 1;
  name ← luaL_checkstring L 2;
  value ← checknvlist L 3;
  setcookie L 3 0;;
  call "nvlist_move_nvlist" [AZ nvl; AS name; AZ value];;
  mret 0.

Definition l_nvlist_move_descriptor_array (L : nat) : prog Z :=
  nvl ← checknvlist L 1;
  name ← luaL_checkstring L 2;
  nitems ← array_arg L;
  value ← malloc_array sizeof_int nitems;
  if value =? 0 then fatal L "malloc" (cst "ENOMEM")
  else
    fill_array L value nitems (n ← lua_tointeger L (-1); mret (AZ (to_int n)));;
    call "nvlist_move_descriptor_array" [AZ nvl; AS name; AZ value; AZ nitems];;
    mret 0.

(** [while (i--) nvlist_destroy(value[i])] *)
Fixpoint destroy_down (value : Z) (i : nat) : prog unit :=
  match i with
  | O => mret tt
  | S i =>
      p ← arr_load value i;
      call "nvlist_destroy" [AZ p];;
      destroy_down value i
  end.

Definition l_nvlist_move_nvlist_array (L : nat) : prog Z :=
  nvl ← checknvlist L 1;
  name ← luaL_checkstring L 2;
  nitems ← array_arg L;
  value ← malloc_array sizeof_ptr nitems;
  if value =? 0 then fatal L "malloc" (cst "ENOMEM")
  else
    for_ (Z.to_nat nitems) 0 (fun i =>
      lua_geti L 3 (i + 1);;
      item ← getnvlist L (-1) NVLIST_METATABLE;
      load value (arr_set (Z.to_nat i) (AZ item));;
      if item =? 0 then
        destroy_down value (Z.to_nat i);;
        free value;;
        luaL_argerror L 3 "nvlists expected"
      else
        e ← call "nvlist_error" [AZ item];
        if negb (rc e =? 0) then
          destroy_down value (Z.to_nat i);;
          free value;;
          luaL_argerror L 3 "nvlist has error"
        else
          setcookie L (-1) 0;;
          lua_pop L 1);;
    call "nvlist_move_nvlist_array" [AZ nvl; AS name; AZ value; AZ nitems];;
    mret 0.

(** ** lua_nv.c: getting and taking *)

Definition NVLIST_GET (get : nat -> Z -> prog Z) (L : nat) : prog Z :=
  nvl ← checknvlist L 1;
  get L nvl.

Definition l_nvlist_take_bool (L : nat) : prog Z :=
  nvl ← checknvlist L 1;
  none ← lua_isnoneornil L 3;
  (if none : bool then
     name ← checkname L 2 nvl (cst "NV_TYPE_BOOL");
     r ← call "nvlist_take_bool" [AZ nvl; AS name];
     lua_pushboolean L (negb (rc r =? 0))
   else
     name ← luaL_checkstring L 2;
     luaL_checktype L 3 TBOOLEAN;;
     defval ← lua_toboolean L 3;
     r ← call "dnvlist_take_bool" [AZ nvl; AS name; AZ (Z_of_bool defval)];
     lua_pushboolean L (negb (rc r =? 0)));;
  mret 1.

Definition l_nvlist_take_number (L : nat) : prog Z :=
  nvl ← checknvlist L 1;
  none ← lua_isnoneornil L 3;
  (if none : bool then
     name ← checkname L 2 nvl (cst "NV_TYPE_NUMBER");
     r ← call "nvlist_take_number" [AZ nvl; AS name];
     lua_pushinteger L (to_long (rc r))
   else
     name ← luaL_checkstring L 2;
     defval ← luaL_checkinteger L 3;
     r ← call "dnvlist_take_number" [AZ nvl; AS name; AZ (to_uint64 defval)];
     lua_pushinteger L (to_long (rc r)));;
  mret 1.

Definition l_nvlist_take_string (L : nat) : prog Z :=
  nvl ← checknvlist L 1;
  none ← lua_isnoneornil L 3;
  (if none : bool then
     name ← checkname L 2 nvl (cst "NV_TYPE_STRING");
     value ← call "nvlist_take_string" [AZ nvl; AS name];
     push_cstr L (rc value);;
     free (rc value)
   else
     name ← luaL_checkstring L 2;
     defval ← luaL_checkstring L 3;
     value ← call "dnvlist_take_string" [AZ nvl; AS name; AS defval];
     if rc value =? 0 then lua_pushstring L defval
     else
       push_cstr L (rc value);;
       free (rc value));;
  mret 1.

Definition l_nvlist_take_nvlist (L : nat) : prog Z :=
  nvl ← checknvlist L 1;
  none ← lua_isnoneornil L 3;
  if none : bool then
    name ← checkname L 2 nvl (cst "NV_TYPE_NVLIST");
    value ← call "nvlist_take_nvlist" [AZ nvl; AS name];
    new L (rc value) NVLIST_METATABLE
  else
    name ← luaL_checkstring L 2;
    defval ← checkanynvlist L 3;
    luaL_checktype L 4 TNONE;;
    value ← call "dnvlist_take_nvlist" [AZ nvl; AS name; AZ defval];
    if rc value =? defval then mret 1
    else new L (rc value) NVLIST_METATABLE.

Definition l_nvlist_take_descriptor (L : nat) : prog Z :=
  nvl ← checknvlist L 1;
  none ← lua_isnoneornil L 3;
  (if none : bool then
     name ← checkname L 2 nvl (cst "NV_TYPE_DESCRIPTOR");
     r ← call "nvlist_take_descriptor" [AZ nvl; AS name];
     lua_pushinteger L (rc r)
   else
     name ← luaL_checkstring L 2;
     defval ← luaL_checkinteger L 3;
     r ← call "dnvlist_take_descriptor" [AZ nvl; AS name; AZ (to_int defval)];
     lua_pushinteger L (rc r));;
  mret 1.

Definition l_nvlist_take_binary (L : nat) : prog Z :=
  nvl ← checknvlist L 1;
  none ← lua_isnoneornil L 3;
  (if none : bool then
     name ← checkname L 2 nvl (cst "NV_TYPE_BINARY");
     value ← call "nvlist_take_binary" [AZ nvl; AS name];
     push_bytes L (rc value) (out_int 0 value);;
     free (rc value)
   else
     name ← luaL_checkstring L 2;
     defval ← luaL_checklstring L 3;
     value ← call "dnvlist_take_binary" [AZ nvl; AS name; AS defval; AZ (Z.of_nat (String.length defval))];
     if rc value =? 0 then lua_pushlstring L defval
     else
       push_bytes L (rc value) (out_int 0 value);;
       free (rc value));;
  mret 1.

(** the loop over an array of strings, each freed when it has been pushed *)
Definition push_strings_free (L : nat) (value nitems : Z) : prog unit :=
  lua_createtable L nitems 0;;
  for_ (Z.to_nat nitems) 0 (fun i =>
    v ← arr_load value ((Z.to_nat i));
    push_cstr L v;;
    lua_rawseti L (-2) (i + 1);;
    p ← arr_load value ((Z.to_nat i));
    free p).

Definition l_nvlist_take_bool_array (L : nat) : prog Z :=
  nvl ← checknvlist L 1;
  name ← checkname L 2 nvl (cst "NV_TYPE_BOOL_ARRAY");
  value ← call "nvlist_take_bool_array" [AZ nvl; AS name];
  push_array L (rc value) (out_int 0 value) (fun v => lua_pushboolean L (negb (v =? 0)));;
  free (rc value);;
  mret 1.

Definition l_nvlist_take_number_array (L : nat) : prog Z :=
  nvl ← checknvlist L 1;
  name ← checkname L 2 nvl (cst "NV_TYPE_NUMBER_ARRAY");
  value ← call "nvlist_take_number_array" [AZ nvl; AS name];
  push_array L (rc value) (out_int 0 value) (fun v => lua_pushinteger L (to_long v));;
  free (rc value);;
  mret 1.

Definition l_nvlist_take_string_array (L : nat) : prog Z :=
  nvl ← checknvlist L 1;
  name ← checkname L 2 nvl (cst "NV_TYPE_STRING_ARRAY");
  value ← call "nvlist_take_string_array" [AZ nvl; AS name];
  push_strings_free L (rc value) (out_int 0 value);;
  free (rc value);;
  mret 1.

Definition l_nvlist_take_nvlist_array (L : nat) : prog Z :=
  nvl ← checknvlist L 1;
  name ← checkname L 2 nvl (cst "NV_TYPE_NVLIST_ARRAY");
  value ← call "nvlist_take_nvlist_array" [AZ nvl; AS name];
  push_array L (rc value) (out_int 0 value) (fun v => new L v NVLIST_METATABLE;; mret tt);;
  free (rc value);;
  mret 1.

Definition l_nvlist_take_descriptor_array (L : nat) : prog Z :=
  nvl ← checknvlist L 1;
  name ← checkname L 2 nvl (cst "NV_TYPE_DESCRIPTOR_ARRAY");
  value ← call "nvlist_take_descriptor_array" [AZ nvl; AS name];
  push_array L (rc value) (out_int 0 value) (fun v => lua_pushinteger L v);;
  free (rc value);;
  mret 1.

(** ** lua_nv.c: appending to and removing from a list *)

Definition l_nvlist_append_bool_array (L : nat) : prog Z :=
  nvl ← checknvlist L 1;
  name ← checkname L 2 nvl (cst "NV_TYPE_BOOL_ARRAY");
  isbool ← lua_is L 3 TBOOLEAN;
  luaL_argexpected L isbool 3 "boolean";;
  value ← lua_toboolean L 3;
  call "nvlist_append_bool_array" [AZ nvl; AS name; AZ (Z_of_bool value)];;
  mret 0.

Definition l_nvlist_append_number_array (L : nat) : prog Z :=
  nvl ← checknvlist L 1;
  name ← checkname L 2 nvl (cst "NV_TYPE_NUMBER_ARRAY");
  value ← luaL_checkinteger L 3;
  call "nvlist_append_number_array" [AZ nvl; AS name; AZ (to_uint64 value)];;
  mret 0.

Definition l_nvlist_append_string_array (L : nat) : prog Z :=
  nvl ← checknvlist L 1;
  name ← checkname L 2 nvl (cst "NV_TYPE_STRING_ARRAY");
  value ← luaL_checkstring L 3;
  call "nvlist_append_string_array" [AZ nvl; AS name; AS value];;
  mret 0.

Definition l_nvlist_append_nvlist_array (L : nat) : prog Z :=
  nvl ← checknvlist L 1;
  name ← checkname L 2 nvl (cst "NV_TYPE_NVLIST_ARRAY");
  value ← checkanynvlist L 3;
  call "nvlist_append_nvlist_array" [AZ nvl; AS name; AZ value];;
  mret 0.

Definition l_nvlist_append_descriptor_array (L : nat) : prog Z :=
  nvl ← checknvlist L 1;
  name ← checkname L 2 nvl (cst "NV_TYPE_DESCRIPTOR_ARRAY");
  value ← luaL_checkinteger L 3;
  call "nvlist_append_descriptor_array" [AZ nvl; AS name; AZ (to_int value)];;
  mret 0.

Definition l_nvlist_free (L : nat) : prog Z :=
  nvl ← checkcookie L 1 NVLIST_METATABLE;
  name ← luaL_checkstring L 2;
  e ← call "nvlist_exists" [AZ nvl; AS name];
  luaL_argcheck L (negb (rc e =? 0)) 2 "name not found";;
  call "nvlist_free" [AZ nvl; AS name];;
  mret 0.

Definition l_nvlist_free_type (L : nat) : prog Z :=
  nvl ← checknvlist L 1;
  type ← luaL_checkinteger L 3;
  name ← checkname L 2 nvl (to_int type);
  call "nvlist_free_type" [AZ nvl; AS name; AZ (to_int type)];;
  mret 0.

(** the macro's arguments are the type's name in small and in capital letters *)
Definition NVLIST_FREE (type T : string) (L : nat) : prog Z :=
  nvl ← checknvlist L 1;
  name ← checkname L 2 nvl (cst ("NV_TYPE_" +:+ T));
  call ("nvlist_free_" +:+ type) [AZ nvl; AS name];;
  mret 0.

Definition l_nvlist_next (L : nat) : prog Z :=
  nvl ← checknvlist L 1;
  next L nvl.

Definition l_nvlist_get_parent (L : nat) : prog Z :=
  nvl ← checknvlist L 1;
  get_parent L nvl.

Definition l_nvlist_get_array_next (L : nat) : prog Z :=
  nvl ← checknvlist L 1;
  get_array_next L nvl.

Definition l_nvlist_get_pararr (L : nat) : prog Z :=
  nvl ← checknvlist L 1;
  get_pararr L nvl.

(** ** lua_nv.c: [const nvlist_t] *)

Definition l_const_nvlist_error (L : nat) : prog Z :=
  nvl ← checkcookienull L 1 CONST_NVLIST_METATABLE;
  r ← call "nvlist_error" [AZ nvl];
  lua_pushinteger L (rc r);;
  mret 1.

Definition l_const_nvlist_in_array (L : nat) : prog Z :=
  nvl ← checkcookie L 1 CONST_NVLIST_METATABLE;
  r ← call "nvlist_in_array" [AZ nvl];
  lua_pushboolean L (negb (rc r =? 0));;
  mret 1.

Definition l_const_nvlist_size (L : nat) : prog Z :=
  nvl ← checkcookie L 1 CONST_NVLIST_METATABLE;
  r ← call "nvlist_size" [AZ nvl];
  lua_pushinteger L (to_long (rc r));;
  mret 1.

Definition l_const_nvlist_empty (L : nat) : prog Z :=
  nvl ← checkconstnvlist L 1;
  r ← call "nvlist_empty" [AZ nvl];
  lua_pushboolean L (negb (rc r =? 0));;
  mret 1.

Definition l_const_nvlist_flags (L : nat) : prog Z :=
  nvl ← checkconstnvlist L 1;
  r ← call "nvlist_flags" [AZ nvl];
  lua_pushinteger L (rc r);;
  mret 1.

Definition l_const_nvlist_clone (L : nat) : prog Z :=
  nvl ← checkconstnvlist L 1;
  r ← call "nvlist_clone" [AZ nvl];
  new L (rc r) NVLIST_METATABLE.

Definition l_const_nvlist_dump (L : nat) : prog Z :=
  nvl ← checkconstnvlist L 1;
  fd ← luaL_checkinteger L 2;
  call "nvlist_dump" [AZ nvl; AZ (to_int fd)];;
  mret 0.

Definition l_const_nvlist_fdump (L : nat) : prog Z :=
  nvl ← checkconstnvlist L 1;
  s ← luaL_checkudata L 2 LUA_FILEHANDLE;
  f ← load s stream_f;
  call "nvlist_fdump" [AZ nvl; AZ f];;
  mret 0.

Definition l_const_nvlist_pack (L : nat) : prog Z :=
  nvl ← checkconstnvlist L 1;
  p ← call "nvlist_pack" [AZ nvl];
  if rc p =? 0 then
    e ← errno;
    fail L e
  else
    push_bytes L (rc p) (out_int 0 p);;
    free (rc p);;
    mret 1.

Definition l_const_nvlist_send (L : nat) : prog Z :=
  nvl ← checkconstnvlist L 1;
  sock ← luaL_checkinteger L 2;
  r ← call "nvlist_send" [AZ (to_int sock); AZ nvl];
  if rc r =? -1 then
    e ← errno;
    fail L e
  else success L.

Definition l_const_nvlist_exists (L : nat) : prog Z :=
  nvl ← checkconstnvlist L 1;
  name ← luaL_checkstring L 2;
  r ← call "nvlist_exists" [AZ nvl; AS name];
  lua_pushboolean L (negb (rc r =? 0));;
  mret 1.

Definition l_const_nvlist_exists_type (L : nat) : prog Z :=
  nvl ← checkconstnvlist L 1;
  name ← luaL_checkstring L 2;
  type ← luaL_checkinteger L 3;
  r ← call "nvlist_exists_type" [AZ nvl; AS name; AZ (to_int type)];
  lua_pushboolean L (negb (rc r =? 0));;
  mret 1.

Definition CONST_NVLIST_EXISTS (type : string) (L : nat) : prog Z :=
  nvl ← checkconstnvlist L 1;
  name ← luaL_checkstring L 2;
  r ← call ("nvlist_exists_" +:+ type) [AZ nvl; AS name];
  lua_pushboolean L (negb (rc r =? 0));;
  mret 1.

Definition CONST_NVLIST_GET (get : nat -> Z -> prog Z) (L : nat) : prog Z :=
  nvl ← checkconstnvlist L 1;
  get L nvl.

Definition l_const_nvlist_next (L : nat) : prog Z :=
  nvl ← checkconstnvlist L 1;
  next L nvl.

Definition l_const_nvlist_get_parent (L : nat) : prog Z :=
  nvl ← checkconstnvlist L 1;
  get_parent L nvl.

Definition l_const_nvlist_get_array_next (L : nat) : prog Z :=
  nvl ← checkconstnvlist L 1;
  get_array_next L nvl.

Definition l_const_nvlist_get_pararr (L : nat) : prog Z :=
  nvl ← checkconstnvlist L 1;
  get_pararr L nvl.

(** ** lua_nv.c: [nvlist_t cookie] *)

Definition l_cnvlist_name (L : nat) : prog Z :=
  cookie ← checkcookie L 1 CNVLIST_METATABLE;
  r ← call "cnvlist_name" [AZ cookie];
  lua_pushstring L (out_str 0 r);;
  mret 1.

Definition l_cnvlist_type (L : nat) : prog Z :=
  cookie ← checkcookie L 1 CNVLIST_METATABLE;
  r ← call "cnvlist_type" [AZ cookie];
  lua_pushinteger L (rc r);;
  mret 1.

Definition checkcookietype (L : nat) (idx type : Z) : prog Z :=
  cookie ← checkcookie L idx CNVLIST_METATABLE;
  r ← call "cnvlist_type" [AZ cookie];
  luaL_argcheck L (rc r =? type) idx "wrong type";;
  mret cookie.

Definition l_cnvlist_get_bool (L : nat) : prog Z :=
  cookie ← checkcookietype L 1 (cst "NV_TYPE_BOOL");
  r ← call "cnvlist_get_bool" [AZ cookie];
  lua_pushboolean L (negb (rc r =? 0));;
  mret 1.

Definition l_cnvlist_get_number (L : nat) : prog Z :=
  cookie ← checkcookietype L 1 (cst "NV_TYPE_NUMBER");
  r ← call "cnvlist_get_number" [AZ cookie];
  lua_pushinteger L (to_long (rc r));;
  mret 1.

Definition l_cnvlist_get_string (L : nat) : prog Z :=
  cookie ← checkcookietype L 1 (cst "NV_TYPE_STRING");
  r ← call "cnvlist_get_string" [AZ cookie];
  lua_pushstring L (out_str 0 r);;
  mret 1.

Definition l_cnvlist_get_nvlist (L : nat) : prog Z :=
  cookie ← checkcookietype L 1 (cst "NV_TYPE_NVLIST");
  value ← call "cnvlist_get_nvlist" [AZ cookie];
  newref L 1 (rc value) CONST_NVLIST_METATABLE.

Definition l_cnvlist_get_binary (L : nat) : prog Z :=
  cookie ← checkcookietype L 1 (cst "NV_TYPE_BINARY");
  value ← call "cnvlist_get_binary" [AZ cookie];
  lua_pushlstring L (out_str 0 value);;
  mret 1.

Definition l_cnvlist_get_descriptor (L : nat) : prog Z :=
  cookie ← checkcookietype L 1 (cst "NV_TYPE_DESCRIPTOR");
  r ← call "cnvlist_get_descriptor" [AZ cookie];
  lua_pushinteger L (rc r);;
  mret 1.

Definition l_cnvlist_get_bool_array (L : nat) : prog Z :=
  cookie ← checkcookietype L 1 (cst "NV_TYPE_BOOL_ARRAY");
  value ← call "cnvlist_get_bool_array" [AZ cookie];
  push_array L (rc value) (out_int 0 value) (fun v => lua_pushboolean L (negb (v =? 0)));;
  mret 1.

Definition l_cnvlist_get_number_array (L : nat) : prog Z :=
  cookie ← checkcookietype L 1 (cst "NV_TYPE_NUMBER_ARRAY");
  value ← call "cnvlist_get_number_array" [AZ cookie];
  push_array L (rc value) (out_int 0 value) (fun v => lua_pushnumber L (integer_to_float v));;
  mret 1.

Definition l_cnvlist_get_string_array (L : nat) : prog Z :=
  cookie ← checkcookietype L 1 (cst "NV_TYPE_STRING_ARRAY");
  value ← call "cnvlist_get_string_array" [AZ cookie];
  push_array L (rc value) (out_int 0 value) (push_cstr L);;
  mret 1.

Definition l_cnvlist_get_nvlist_array (L : nat) : prog Z :=
  cookie ← checkcookietype L 1 (cst "NV_TYPE_NVLIST_ARRAY");
  value ← call "cnvlist_get_nvlist_array" [AZ cookie];
  push_array L (rc value) (out_int 0 value) (fun v =>
    newref L 1 v CONST_NVLIST_METATABLE;; mret tt);;
  mret 1.

Definition l_cnvlist_get_descriptor_array (L : nat) : prog Z :=
  cookie ← checkcookietype L 1 (cst "NV_TYPE_DESCRIPTOR_ARRAY");
  value ← call "cnvlist_get_descriptor_array" [AZ cookie];
  push_array L (rc value) (out_int 0 value) (fun v => lua_pushinteger L v);;
  mret 1.

Definition l_cnvlist_take_bool (L : nat) : prog Z :=
  cookie ← checkcookietype L 1 (cst "NV_TYPE_BOOL");
  r ← call "cnvlist_take_bool" [AZ cookie];
  lua_pushboolean L (negb (rc r =? 0));;
  mret 1.

Definition l_cnvlist_take_number (L : nat) : prog Z :=
  cookie ← checkcookietype L 1 (cst "NV_TYPE_NUMBER");
  r ← call "cnvlist_take_number" [AZ cookie];
  lua_pushinteger L (to_long (rc r));;
  mret 1.

Definition l_cnvlist_take_string (L : nat) : prog Z :=
  cookie ← checkcookietype L 1 (cst "NV_TYPE_STRING");
  value ← call "cnvlist_take_string" [AZ cookie];
  push_cstr L (rc value);;
  free (rc value);;
  mret 1.

Definition l_cnvlist_take_nvlist (L : nat) : prog Z :=
  cookie ← checkcookietype L 1 (cst "NV_TYPE_NVLIST");
  value ← call "cnvlist_take_nvlist" [AZ cookie];
  new L (rc value) NVLIST_METATABLE.

Definition l_cnvlist_take_binary (L : nat) : prog Z :=
  cookie ← checkcookietype L 1 (cst "NV_TYPE_BINARY");
  value ← call "cnvlist_take_binary" [AZ cookie];
  push_bytes L (rc value) (out_int 0 value);;
  free (rc value);;
  mret 1.

Definition l_cnvlist_take_descriptor (L : nat) : prog Z :=
  cookie ← checkcookietype L 1 (cst "NV_TYPE_DESCRIPTOR");
  r ← call "cnvlist_take_descriptor" [AZ cookie];
  lua_pushinteger L (rc r);;
  mret 1.

Definition l_cnvlist_take_bool_array (L : nat) : prog Z :=
  cookie ← checkcookietype L 1 (cst "NV_TYPE_BOOL_ARRAY");
  value ← call "cnvlist_take_bool_array" [AZ cookie];
  push_array L (rc value) (out_int 0 value) (fun v => lua_pushboolean L (negb (v =? 0)));;
  free (rc value);;
  mret 1.

Definition l_cnvlist_take_number_array (L : nat) : prog Z :=
  cookie ← checkcookietype L 1 (cst "NV_TYPE_NUMBER_ARRAY");
  value ← call "cnvlist_take_number_array" [AZ cookie];
  push_array L (rc value) (out_int 0 value) (fun v => lua_pushinteger L (to_long v));;
  free (rc value);;
  mret 1.

Definition l_cnvlist_take_string_array (L : nat) : prog Z :=
  cookie ← checkcookietype L 1 (cst "NV_TYPE_STRING_ARRAY");
  value ← call "cnvlist_take_string_array" [AZ cookie];
  push_strings_free L (rc value) (out_int 0 value);;
  free (rc value);;
  mret 1.

Definition l_cnvlist_take_nvlist_array (L : nat) : prog Z :=
  cookie ← checkcookietype L 1 (cst "NV_TYPE_NVLIST_ARRAY");
  value ← call "cnvlist_take_nvlist_array" [AZ cookie];
  push_array L (rc value) (out_int 0 value) (fun v => new L v NVLIST_METATABLE;; mret tt);;
  free (rc value);;
  mret 1.

Definition l_cnvlist_take_descriptor_array (L : nat) : prog Z :=
  cookie ← checkcookietype L 1 (cst "NV_TYPE_DESCRIPTOR_ARRAY");
  value ← call "cnvlist_take_descriptor_array" [AZ cookie];
  push_array L (rc value) (out_int 0 value) (fun v => lua_pushinteger L v);;
  free (rc value);;
  mret 1.

Definition CNVLIST_FREE (type T : string) (L : nat) : prog Z :=
  cookie ← checkcookietype L 1 (cst ("NV_TYPE_" +:+ T));
  call ("cnvlist_free_" +:+ type) [AZ cookie];;
  mret 0.
(** ** lua_nv.c: the tables *)

(** the names the macros are applied to, in small and in capital letters *)
Definition NVLIST_TYPES : list (string * string) := [
   ("bool", "BOOL"); ("number", "NUMBER"); ("string", "STRING"); ("nvlist", "NVLIST");
   ("binary", "BINARY"); ("bool_array", "BOOL_ARRAY"); ("number_array", "NUMBER_ARRAY");
   ("string_array", "STRING_ARRAY"); ("nvlist_array", "NVLIST_ARRAY");
   ("descriptor", "DESCRIPTOR"); ("descriptor_array", "DESCRIPTOR_ARRAY")].

Definition NVLIST_TYPES_NULL : list (string * string) := ("null", "NULL") :: NVLIST_TYPES.

(** [{"get_"#type, l_nvlist_get_##type}] for each type *)
Definition regs (pre sym : string) (types : list (string * string)) : list (string * string) :=
  map (fun t => (pre +:+ t.1, sym +:+ t.1)) types.

Definition l_nv_funcs : list (string * string) := [
   ("create", "l_nv_create"); ("recv", "l_nv_recv"); ("unpack", "l_nv_unpack")].

Definition l_nvlist_meta : list (string * string) :=
  [("__gc", "l_nvlist_gc"); ("error", "l_nvlist_error"); ("set_error", "l_nvlist_set_error");
   ("empty", "l_nvlist_empty"); ("flags", "l_nvlist_flags"); ("in_array", "l_nvlist_in_array");
   ("clone", "l_nvlist_clone"); ("dump", "l_nvlist_dump"); ("fdump", "l_nvlist_fdump");
   ("size", "l_nvlist_size"); ("pack", "l_nvlist_pack"); ("send", "l_nvlist_send");
   ("xfer", "l_nvlist_xfer"); ("exists", "l_nvlist_exists")] ++
  regs "exists_" "l_nvlist_exists_" NVLIST_TYPES_NULL ++
  regs "add_" "l_nvlist_add_" NVLIST_TYPES_NULL ++
  [("move_nvlist", "l_nvlist_move_nvlist"); ("move_descriptor", "l_nvlist_move_descriptor");
   ("move_nvlist_array", "l_nvlist_move_nvlist_array");
   ("move_descriptor_array", "l_nvlist_move_descriptor_array")] ++
  regs "get_" "l_nvlist_get_" NVLIST_TYPES ++
  regs "take_" "l_nvlist_take_" NVLIST_TYPES ++
  [("append_bool_array", "l_nvlist_append_bool_array");
   ("append_number_array", "l_nvlist_append_number_array");
   ("append_string_array", "l_nvlist_append_string_array");
   ("append_nvlist_array", "l_nvlist_append_nvlist_array");
   ("append_descriptor_array", "l_nvlist_append_descriptor_array");
   ("free", "l_nvlist_free"); ("free_type", "l_nvlist_free_type")] ++
  regs "free_" "l_nvlist_free_" NVLIST_TYPES_NULL ++
  [("next", "l_nvlist_next"); ("get_parent", "l_nvlist_get_parent");
   ("get_array_next", "l_nvlist_get_array_next"); ("get_pararr", "l_nvlist_get_pararr")].

Definition l_const_nvlist_meta : list (string * string) :=
  [("error", "l_const_nvlist_error"); ("empty", "l_const_nvlist_empty");
   ("flags", "l_const_nvlist_flags"); ("in_array", "l_const_nvlist_in_array");
   ("clone", "l_const_nvlist_clone"); ("dump", "l_const_nvlist_dump");
   ("fdump", "l_const_nvlist_fdump"); ("size", "l_const_nvlist_size");
   ("pack", "l_const_nvlist_pack"); ("send", "l_const_nvlist_send");
   ("exists", "l_const_nvlist_exists")] ++
  regs "exists_" "l_const_nvlist_exists_" NVLIST_TYPES_NULL ++
  regs "get_" "l_const_nvlist_get_" NVLIST_TYPES ++
  [("next", "l_const_nvlist_next"); ("get_parent", "l_const_nvlist_get_parent");
   ("get_array_next", "l_const_nvlist_get_array_next");
   ("get_pararr", "l_const_nvlist_get_pararr")].

Definition l_cnvlist_meta : list (string * string) :=
  [("name", "l_cnvlist_name"); ("type", "l_cnvlist_type")] ++
  regs "get_" "l_cnvlist_get_" NVLIST_TYPES ++
  regs "take_" "l_cnvlist_take_" NVLIST_TYPES ++
  regs "free_" "l_cnvlist_free_" NVLIST_TYPES.

Definition nv_types : list (string * list (string * string)) := [
   (NVLIST_METATABLE, l_nvlist_meta); (CONST_NVLIST_METATABLE, l_const_nvlist_meta);
   (CNVLIST_METATABLE, l_cnvlist_meta)].

Definition nv_consts : list (string * Z) :=
  map (fun ident => (ident, cst ("NV_" +:+ ident)))
    ["NAME_MAX"; "TYPE_NONE"; "TYPE_BOOL"; "TYPE_NUMBER"; "TYPE_STRING"; "TYPE_NVLIST";
     "TYPE_DESCRIPTOR"; "TYPE_BINARY"; "TYPE_BOOL_ARRAY"; "TYPE_NUMBER_ARRAY";
     "TYPE_STRING_ARRAY"; "TYPE_NVLIST_ARRAY"; "TYPE_DESCRIPTOR_ARRAY"; "FLAG_IGNORE_CASE";
     "FLAG_NO_UNIQUE"].

Definition luaopen_nv (L : nat) : prog Z :=
  register_types L nv_types;;
  luaL_newlib L l_nv_funcs;;
  define_all L nv_consts;;
  mret 1.

(** ** The functions by their C symbols, as the tables name them *)

Definition nv_get (type : string) : nat -> Z -> prog Z :=
  if String.eqb type "bool" then get_bool else if String.eqb type "number" then get_number
  else if String.eqb type "string" then get_string else if String.eqb type "nvlist" then get_nvlist
  else if String.eqb type "binary" then get_binary
  else if String.eqb type "bool_array" then get_bool_array
  else if String.eqb type "number_array" then get_number_array
  else if String.eqb type "string_array" then get_string_array
  else if String.eqb type "nvlist_array" then get_nvlist_array
  else if String.eqb type "descriptor" then get_descriptor else get_descriptor_array.

Definition symbols (sym : string) (f : string * string -> nat -> prog Z) (types : list (string * string)) :
  list (string * (nat -> prog Z)) := map (fun t => (sym +:+ t.1, f t)) types.

Definition nvlist_symbols : list (string * (nat -> prog Z)) :=
  [("l_nvlist_gc", l_nvlist_gc); ("l_nvlist_error", l_nvlist_error); ("l_nvlist_set_error", l_nvlist_set_error);
   ("l_nvlist_empty", l_nvlist_empty); ("l_nvlist_flags", l_nvlist_flags); ("l_nvlist_in_array", l_nvlist_in_array);
   ("l_nvlist_clone", l_nvlist_clone); ("l_nvlist_dump", l_nvlist_dump); ("l_nvlist_fdump", l_nvlist_fdump);
   ("l_nvlist_size", l_nvlist_size); ("l_nvlist_pack", l_nvlist_pack); ("l_nvlist_send", l_nvlist_send);
   ("l_nvlist_xfer", l_nvlist_xfer); ("l_nvlist_exists", l_nvlist_exists)] ++
  symbols "l_nvlist_exists_" (fun t => NVLIST_EXISTS t.1) NVLIST_TYPES_NULL ++
  [("l_nvlist_add_null", l_nvlist_add_null); ("l_nvlist_add_bool", l_nvlist_add_bool);
   ("l_nvlist_add_number", l_nvlist_add_number); ("l_nvlist_add_string", l_nvlist_add_string);
   ("l_nvlist_add_nvlist", l_nvlist_add_nvlist); ("l_nvlist_add_binary", l_nvlist_add_binary);
   ("l_nvlist_add_bool_array", l_nvlist_add_bool_array);
   ("l_nvlist_add_number_array", l_nvlist_add_number_array);
   ("l_nvlist_add_string_array", l_nvlist_add_string_array);
   ("l_nvlist_add_nvlist_array", l_nvlist_add_nvlist_array);
   ("l_nvlist_add_descriptor", l_nvlist_add_descriptor);
   ("l_nvlist_add_descriptor_array", l_nvlist_add_descriptor_array);
   ("l_nvlist_move_nvlist", l_nvlist_move_nvlist); ("l_nvlist_move_descriptor", l_nvlist_move_descriptor);
   ("l_nvlist_move_nvlist_array", l_nvlist_move_nvlist_array);
   ("l_nvlist_move_descriptor_array", l_nvlist_move_descriptor_array)] ++
  symbols "l_nvlist_get_" (fun t => NVLIST_GET (nv_get t.1)) NVLIST_TYPES ++
  [("l_nvlist_take_bool", l_nvlist_take_bool); ("l_nvlist_take_number", l_nvlist_take_number);
   ("l_nvlist_take_string", l_nvlist_take_string); ("l_nvlist_take_nvlist", l_nvlist_take_nvlist);
   ("l_nvlist_take_binary", l_nvlist_take_binary); ("l_nvlist_take_bool_array", l_nvlist_take_bool_array);
   ("l_nvlist_take_number_array", l_nvlist_take_number_array);
   ("l_nvlist_take_string_array", l_nvlist_take_string_array);
   ("l_nvlist_take_nvlist_array", l_nvlist_take_nvlist_array);
   ("l_nvlist_take_descriptor", l_nvlist_take_descriptor);
   ("l_nvlist_take_descriptor_array", l_nvlist_take_descriptor_array);
   ("l_nvlist_append_bool_array", l_nvlist_append_bool_array);
   ("l_nvlist_append_number_array", l_nvlist_append_number_array);
   ("l_nvlist_append_string_array", l_nvlist_append_string_array);
   ("l_nvlist_append_nvlist_array", l_nvlist_append_nvlist_array);
   ("l_nvlist_append_descriptor_array", l_nvlist_append_descriptor_array);
   ("l_nvlist_free", l_nvlist_free); ("l_nvlist_free_type", l_nvlist_free_type)] ++
  symbols "l_nvlist_free_" (fun t => NVLIST_FREE t.1 t.2) NVLIST_TYPES_NULL ++
  [("l_nvlist_next", l_nvlist_next); ("l_nvlist_get_parent", l_nvlist_get_parent);
   ("l_nvlist_get_array_next", l_nvlist_get_array_next); ("l_nvlist_get_pararr", l_nvlist_get_pararr)].

Definition const_nvlist_symbols : list (string * (nat -> prog Z)) :=
  [("l_const_nvlist_error", l_const_nvlist_error); ("l_const_nvlist_empty", l_const_nvlist_empty);
   ("l_const_nvlist_flags", l_const_nvlist_flags); ("l_const_nvlist_in_array", l_const_nvlist_in_array);
   ("l_const_nvlist_clone", l_const_nvlist_clone); ("l_const_nvlist_dump", l_const_nvlist_dump);
   ("l_const_nvlist_fdump", l_const_nvlist_fdump); ("l_const_nvlist_size", l_const_nvlist_size);
   ("l_const_nvlist_pack", l_const_nvlist_pack); ("l_const_nvlist_send", l_const_nvlist_send);
   ("l_const_nvlist_exists", l_const_nvlist_exists)] ++
  symbols "l_const_nvlist_exists_" (fun t => CONST_NVLIST_EXISTS t.1) NVLIST_TYPES_NULL ++
  symbols "l_const_nvlist_get_" (fun t => CONST_NVLIST_GET (nv_get t.1)) NVLIST_TYPES ++
  [("l_const_nvlist_next", l_const_nvlist_next); ("l_const_nvlist_get_parent", l_const_nvlist_get_parent);
   ("l_const_nvlist_get_array_next", l_const_nvlist_get_array_next);
   ("l_const_nvlist_get_pararr", l_const_nvlist_get_pararr)].

Definition cnvlist_symbols : list (string * (nat -> prog Z)) :=
  [("l_cnvlist_name", l_cnvlist_name); ("l_cnvlist_type", l_cnvlist_type);
   ("l_cnvlist_get_bool", l_cnvlist_get_bool); ("l_cnvlist_get_number", l_cnvlist_get_number);
   ("l_cnvlist_get_string", l_cnvlist_get_string); ("l_cnvlist_get_nvlist", l_cnvlist_get_nvlist);
   ("l_cnvlist_get_binary", l_cnvlist_get_binary); ("l_cnvlist_get_bool_array", l_cnvlist_get_bool_array);
   ("l_cnvlist_get_number_array", l_cnvlist_get_number_array);
   ("l_cnvlist_get_string_array", l_cnvlist_get_string_array);
   ("l_cnvlist_get_nvlist_array", l_cnvlist_get_nvlist_array);
   ("l_cnvlist_get_descriptor", l_cnvlist_get_descriptor);
   ("l_cnvlist_get_descriptor_array", l_cnvlist_get_descriptor_array);
   ("l_cnvlist_take_bool", l_cnvlist_take_bool); ("l_cnvlist_take_number", l_cnvlist_take_number);
   ("l_cnvlist_take_string", l_cnvlist_take_string); ("l_cnvlist_take_nvlist", l_cnvlist_take_nvlist);
   ("l_cnvlist_take_binary", l_cnvlist_take_binary); ("l_cnvlist_take_bool_array", l_cnvlist_take_bool_array);
   ("l_cnvlist_take_number_array", l_cnvlist_take_number_array);
   ("l_cnvlist_take_string_array", l_cnvlist_take_string_array);
   ("l_cnvlist_take_nvlist_array", l_cnvlist_take_nvlist_array);
   ("l_cnvlist_take_descriptor", l_cnvlist_take_descriptor);
   ("l_cnvlist_take_descriptor_array", l_cnvlist_take_descriptor_array)] ++
  symbols "l_cnvlist_free_" (fun t => CNVLIST_FREE t.1 t.2) NVLIST_TYPES.

Definition nv_symbols : list (string * (nat -> prog Z)) :=
  [("l_nv_create", l_nv_create); ("l_nv_recv", l_nv_recv); ("l_nv_unpack", l_nv_unpack)] ++
  nvlist_symbols ++ const_nvlist_symbols ++ cnvlist_symbols.

(** every entry of the tables is a function of the module *)
Lemma nv_symbols_complete :
  forallb (fun e => existsb (fun s => String.eqb e.2 s.1) nv_symbols)
    (l_nv_funcs ++ l_nvlist_meta ++ l_const_nvlist_meta ++ l_cnvlist_meta) = true.
Proof. by vm_compute. Qed.
End ops.
