(* ===== verification/NvLib.v ===== *)
(** * What libnv(9) promises

    libnv is not part of the repository.  [needs] is the precondition of each of
    its functions the module calls: a list that is read must not be in error state, a value
    that is asked for by type must exist ([nvlist_get_bool] of a missing name aborts the
    process), the error a list is put into must not be 0, and flags must be those of the
    manual; the last two and that of [nvlist_size] are assertions of the library.  [learns] is what
    its queries tell.  [nv_spec] is the documented effect of some functions on
    abstract lists; [NvLib] says that a library follows both.  The instance at the
    end is a small library that does, and that aborts every call whose
    precondition does not hold. *)

From stdpp Require Import strings.
From S2P Require Import Prelude LuaApi Machine Capi Samples Guards Nv.

(** ** Facts and preconditions *)

Inductive nvfact :=
  | FNoError (nvl : Z)                        (** [nvlist_error(nvl) == 0] *)
  | FExists (nvl : Z) (name : string) (type : Z)
  | FAny (nvl : Z) (name : string)            (** a value of some type *)
  | FType (cookie type : Z)                   (** [cnvlist_type(cookie)] *)
  | FNever.                                   (** not known of anything: the arguments themselves are wrong *)

#[export] Instance nvfact_eq_dec : EqDecision nvfact.
Proof. solve_decision. Defined.

(** [s] without the prefix [pre] *)
Definition strip (pre s : string) : option string :=
  if String.prefix pre s
  then Some (String.substring (String.length pre) (String.length s - String.length pre) s) else None.

Definition strips (pres : list string) (s : string) : option string :=
  fold_right (fun pre r => match strip pre s with Some t => Some t | None => r end) None pres.

Section facts.
Context `{Consts}.

(** the constant of a type, by the name the functions have it in *)
Definition type_const (t : string) : option Z :=
  match find (fun x => String.eqb t x.1) NVLIST_TYPES_NULL with
  | Some x => Some (cst ("NV_TYPE_" +:+ x.2))
  | None => None
  end.

(** functions that only ask that the list is not in error state *)
Definition checked (f : string) : bool :=
  existsb (String.eqb f) ["nvlist_empty"; "nvlist_flags"; "nvlist_exists"; "nvlist_exists_type";
    "nvlist_next"; "nvlist_size"; "nvlist_pack"; "nvlist_get_parent"; "nvlist_get_array_next"; "nvlist_get_pararr"] ||
  match strips ["nvlist_exists_"; "dnvlist_get_"; "dnvlist_take_"] f with
  | Some t => existsb (fun x => String.eqb t x.1) NVLIST_TYPES_NULL
  | None => false
  end.

(** functions on a value of the type in their name *)
Definition typed_access (f : string) : option Z :=
  match strips ["nvlist_get_"; "nvlist_take_"; "nvlist_free_"] f with Some t => type_const t | None => None end.
Definition cookie_access (f : string) : option Z :=
  match strips ["cnvlist_get_"; "cnvlist_take_"; "cnvlist_free_"] f with Some t => type_const t | None => None end.

(** no flags but the two of the manual *)
Definition known_flags (flags : Z) : list nvfact :=
  if Z.land flags (Z.lnot (Z.lor (cst "NV_FLAG_IGNORE_CASE") (cst "NV_FLAG_NO_UNIQUE"))) =? 0 then [] else [FNever].

Definition needs (f : string) (args : list carg) : list nvfact :=
  match args with
  | [AZ flags] =>
      if String.eqb f "nvlist_create" then known_flags flags
      else if checked f then [FNoError flags]
      else match cookie_access f with Some type => [FType flags type] | None => [] end
  | [AS _; _; AZ flags] => if String.eqb f "nvlist_unpack" then known_flags flags else []
  | AZ p :: rest =>
      if checked f then [FNoError p]
      else if String.eqb f "nvlist_free_type" then
        match rest with [AS name; AZ type] => [FNoError p; FExists p name type] | _ => [] end
      else if String.eqb f "nvlist_free" then
        match rest with AS name :: _ => [FNoError p; FAny p name] | _ => [] end
      else if String.eqb f "nvlist_set_error" then
        match rest with [AZ error] => if error =? 0 then [FNever] else [] | _ => [] end
      else if String.eqb f "nvlist_recv" then
        match rest with [AZ flags] => known_flags flags | _ => [] end
      else if String.eqb f "nvlist_xfer" then
        match rest with [_; AZ flags] => known_flags flags | _ => [] end
      else
        match typed_access f, cookie_access f, rest with
        | Some type, _, AS name :: _ => [FNoError p; FExists p name type]
        | None, Some type, _ => [FType p type]
        | _, _, _ => []
        end
  | _ => []
  end.

Definition learns (f : string) (args : list carg) (r : cret) : option (list nvfact) :=
  if String.eqb f "nvlist_error" then
    match args with [AZ p] => Some (if rc r =? 0 then [FNoError p] else []) | _ => None end
  else if String.eqb f "nvlist_exists_type" then
    match args with
    | [AZ p; AS name; AZ type] => Some (if rc r =? 0 then [] else [FExists p name type])
    | _ => None
    end
  else if String.eqb f "nvlist_exists" then
    match args with [AZ p; AS name] => Some (if rc r =? 0 then [] else [FAny p name]) | _ => None end
  else if String.eqb f "cnvlist_type" then
    match args with [AZ c] => Some [FType c (rc r)] | _ => None end
  else None.
End facts.

(** ** Lists as the manual describes them *)

(** a value: a number ([bool], [number], [descriptor], or the address of a nested
    list), the bytes of a string or binary, or an array at an address *)
Inductive nvval := NvNone | NvInt (n : Z) | NvText (s : string) | NvArr (p n : Z).

Record nvl := Nvl { nv_flags : Z; nv_err : Z; nv_pairs : list (string * (Z * nvval)) }.

(** the lists by address, the type of the pair at each cookie, and the cookie of the
    first pair of each list *)
Record nvstate := NvState { lists : gmap Z nvl; cookies : gmap Z Z; firsts : gmap Z Z }.

Definition is_pair (name : string) (type : Z) (x : string * (Z * nvval)) : bool :=
  String.eqb x.1 name && (x.2.1 =? type).
Definition nv_find (name : string) (type : Z) (l : nvl) : option nvval :=
  (fun x => x.2.2) <$> find (is_pair name type) (nv_pairs l).
Definition nv_has (name : string) (l : nvl) : bool := existsb (fun x => String.eqb x.1 name) (nv_pairs l).

Definition holds (x : nvfact) (s : nvstate) : Prop :=
  match x with
  | FNoError p => match lists s !! p with Some l => nv_err l = 0 | None => False end
  | FExists p name type => match lists s !! p with Some l => is_Some (nv_find name type l) | None => False end
  | FAny p name => match lists s !! p with Some l => nv_has name l = true | None => False end
  | FType c type => cookies s !! c = Some type
  | FNever => False
  end.

#[export] Instance holds_dec x s : Decision (holds x s).
Proof. destruct x; cbn; repeat case_match; apply _. Defined.

Definition set_list (p : Z) (l : nvl) (s : nvstate) : nvstate :=
  NvState (<[p := l]> (lists s)) (cookies s) (firsts s).
Definition del_list (p : Z) (s : nvstate) : nvstate :=
  NvState (delete p (lists s)) (cookies s) (firsts s).

(** a new pair; a list that already has the name goes into error state, and one
    that is in error state stays as it is *)
Definition nv_insert (name : string) (type : Z) (v : nvval) (EEXIST : Z) (l : nvl) : nvl :=
  if negb (nv_err l =? 0) then l
  else if nv_has name l then Nvl (nv_flags l) EEXIST (nv_pairs l)
  else Nvl (nv_flags l) 0 (nv_pairs l ++ [(name, (type, v))]).

Definition nv_remove (name : string) (type : Z) (l : nvl) : nvl :=
  Nvl (nv_flags l) (nv_err l) (filter (fun x => is_pair name type x = false) (nv_pairs l)).

Section spec.
Context `{Consts}.

(** lists with flags (names without case, or not unique) are left open *)
Definition nv_add (p : Z) (name : string) (type : string) (v : nvval) (s : nvstate) : option (cret * nvstate) :=
  match lists s !! p with
  | Some l => if nv_flags l =? 0
              then Some (Cret 0 [], set_list p (nv_insert name (cst type) v (cst "EEXIST") l) s) else None
  | None => None
  end.

Definition nv_lookup (p : Z) (name : string) (type : string) (s : nvstate) : option nvval :=
  match lists s !! p with Some l => nv_find name (cst type) l | None => None end.

Definition nv_value (v : option nvval) (s : nvstate) : option (cret * nvstate) :=
  match v with
  | Some (NvInt n) => Some (Cret n [], s)
  | Some (NvText t) => Some (Cret 0 [AS t], s)
  | Some (NvArr p n) => Some (Cret p [AZ n], s)
  | _ => None
  end.

(** what the manual says of some calls *)
Definition nv_spec (f : string) (args : list carg) (s : nvstate) : option (cret * nvstate) :=
  match args with
  | [AZ p] =>
      if String.eqb f "nvlist_error" then
        Some (Cret (match lists s !! p with Some l => nv_err l | None => cst "ENOMEM" end) [], s)
      else if String.eqb f "cnvlist_type" then
        match cookies s !! p with Some t => Some (Cret t [], s) | None => None end
      else if String.eqb f "nvlist_destroy" then
        if p =? 0 then Some (Cret 0 [], s)
        else match lists s !! p with Some _ => Some (Cret 0 [], del_list p s) | None => None end
      else None
  | [AZ p; AZ cookie] =>
      if String.eqb f "nvlist_next" then
        match lists s !! p, firsts s !! p with
        | Some (Nvl _ _ ((name, (type, _)) :: _)), Some k =>
            if cookie =? 0 then Some (Cret 1 [AS name; AZ type; AZ k], s) else None
        | _, _ => None
        end
      else None
  | [AZ p; AS name] =>
      if String.eqb f "nvlist_exists" then
        match lists s !! p with Some l => Some (Cret (Z_of_bool (nv_has name l)) [], s) | None => None end
      else if String.eqb f "nvlist_get_bool" then nv_value (nv_lookup p name "NV_TYPE_BOOL" s) s
      else if String.eqb f "nvlist_get_number" then nv_value (nv_lookup p name "NV_TYPE_NUMBER" s) s
      else if String.eqb f "nvlist_get_string" then nv_value (nv_lookup p name "NV_TYPE_STRING" s) s
      else if String.eqb f "nvlist_get_nvlist" then nv_value (nv_lookup p name "NV_TYPE_NVLIST" s) s
      else if String.eqb f "nvlist_get_number_array" then nv_value (nv_lookup p name "NV_TYPE_NUMBER_ARRAY" s) s
      else if String.eqb f "nvlist_free_nvlist" then
        match lists s !! p, nv_lookup p name "NV_TYPE_NVLIST" s with
        | Some l, Some (NvInt q) =>
            Some (Cret 0 [], set_list p (nv_remove name (cst "NV_TYPE_NVLIST") l) (del_list q s))
        | _, _ => None
        end
      else None
  | [AZ p; AS name; AZ v] =>
      if String.eqb f "nvlist_exists_type" then
        match lists s !! p with
        | Some l => Some (Cret (Z_of_bool (bool_decide (is_Some (nv_find name v l)))) [], s)
        | None => None
        end
      else if String.eqb f "nvlist_add_bool" then nv_add p name "NV_TYPE_BOOL" (NvInt v) s
      else if String.eqb f "nvlist_add_number" then nv_add p name "NV_TYPE_NUMBER" (NvInt v) s
      else if String.eqb f "nvlist_move_nvlist" then nv_add p name "NV_TYPE_NVLIST" (NvInt v) s
      else if String.eqb f "dnvlist_get_number" then
        match nv_lookup p name "NV_TYPE_NUMBER" s with None => Some (Cret v [], s) | x => nv_value x s end
      else None
  | [AZ p; AS name; AS v] =>
      if String.eqb f "nvlist_add_string" then nv_add p name "NV_TYPE_STRING" (NvText v) s else None
  | [AZ p; AS name; AZ a; AZ n] =>
      if String.eqb f "nvlist_move_number_array" then nv_add p name "NV_TYPE_NUMBER_ARRAY" (NvArr a n) s
      else None
  | _ => None
  end.
End spec.

(** ** Libraries that follow the manual *)

(** [nv_view] shows the lists in the state of the system libraries *)
Class NvLib `{LuaSem} `{Consts} {S : Type} `{Libc S} (C : clib S) := {
  nv_view : S -> nvstate;
  nv_guarded : guarded_lib needs learns C (fun x s => holds x (nv_view s));
  nv_call : forall f args w r v,
    Forall (fun x => holds x (nv_view (wx w))) (needs f args) ->
    nv_spec f args (nv_view (wx w)) = Some (r, v) ->
    exists s, c_call C f args w = (Ok r, set_x s w) /\ nv_view s = v
}.

(** ** A small library *)

#[export] Instance toy_libc : Libc nvstate := {| c_errno := fun _ => 0; c_strerror := fun _ => "Error" |}.

(** constants that differ where the module distinguishes them *)
Definition toy_consts : Consts := fun name =>
  match list_find (fun x => x = name)
    ["NV_TYPE_NULL"; "NV_TYPE_BOOL"; "NV_TYPE_NUMBER"; "NV_TYPE_STRING"; "NV_TYPE_NVLIST";
     "NV_TYPE_DESCRIPTOR"; "NV_TYPE_BINARY"; "NV_TYPE_BOOL_ARRAY"; "NV_TYPE_NUMBER_ARRAY";
     "NV_TYPE_STRING_ARRAY"; "NV_TYPE_NVLIST_ARRAY"; "NV_TYPE_DESCRIPTOR_ARRAY"; "ENOMEM";
     "EINVAL"; "EEXIST"] with
  | Some (i, _) => Z.of_nat i + 1
  | None => 0
  end.

#[export] Existing Instance toy_consts.

Definition toy_clib : clib nvstate := {|
  c_call := fun f args w =>
    if decide (Forall (fun x => holds x (wx w)) (needs f args)) then
      match nv_spec f args (wx w) with
      | Some (r, s) => (Ok r, set_x s w)
      | None => if decide (learns f args (Cret 0 []) = None) then (Ok (Cret 0 []), w)
                else (Halt (UB "a dangling pointer"), w)
      end
    else (Halt (Aborted "libnv"), w);
  c_fn := fun _ _ args w => (Ok (true, args), w) |}.

(** the queries of the manual tell the truth *)
Lemma nv_spec_learns `{Consts} f args s r s' l :
  cst "ENOMEM" ≠ 0 -> nv_spec f args s = Some (r, s') -> learns f args r = Some l ->
  s' = s /\ Forall (fun x => holds x s) l.
Proof.
  intros Hc Hs Hl. unfold learns in Hl.
  destruct (String.eqb_spec f "nvlist_error") as [->|_].
  { destruct args as [|[p|?|?] [|]]; try done. injection Hs as <- <-. injection Hl as <-. cbn [rc].
    split; [done|]. case_match eqn:E; [|constructor]. apply Z.eqb_eq in E. repeat constructor. cbn.
    by destruct (lists s !! p). }
  destruct (String.eqb_spec f "nvlist_exists_type") as [->|_].
  { destruct args as [|[p|?|?] [|[?|name|?] [|[type|?|?] [|]]]]; try done. cbn in Hs.
    destruct (lists s !! p) as [li|] eqn:Hp; [|done]. injection Hs as <- <-. injection Hl as <-. cbn [rc].
    split; [done|]. case_bool_decide; cbn; repeat constructor. cbn. by rewrite Hp. }
  destruct (String.eqb_spec f "nvlist_exists") as [->|_].
  { destruct args as [|[p|?|?] [|[?|name|?] [|]]]; try done. cbn in Hs.
    destruct (lists s !! p) as [li|] eqn:Hp; [|done]. injection Hs as <- <-. injection Hl as <-. cbn [rc].
    split; [done|]. destruct (nv_has name li) eqn:Hn; cbn; repeat constructor. cbn. by rewrite Hp. }
  destruct (String.eqb_spec f "cnvlist_type") as [->|_]; [|done].
  destruct args as [|[p|?|?] [|]]; try done. cbn in Hs. destruct (cookies s !! p) eqn:Hp; [|done].
  injection Hs as <- <-. injection Hl as <-. repeat constructor. done.
Qed.

(** whether a call is a query does not depend on its result *)
Lemma learns_query `{Consts} f args r r' : learns f args r = None -> learns f args r' = None.
Proof. unfold learns. repeat case_match; done. Qed.

Lemma toy_guarded : guarded_lib needs learns toy_clib holds.
Proof.
  split.
  - intros f args w why Hn. cbn. rewrite decide_True by done.
    destruct (nv_spec f args (wx w)) as [[r s]|]; [done|]. by case_decide.
  - assert (He : cst "ENOMEM" ≠ 0) by (vm_compute; discriminate).
    intros f args w r w' l Hn Hc Hl. cbn in Hc. rewrite decide_True in Hc by done.
    destruct (nv_spec f args (wx w)) as [[r0 s]|] eqn:Hs.
    + injection Hc as <- <-. cbn. destruct (nv_spec_learns f args (wx w) r0 s l He Hs Hl) as [-> Ht].
      done.
    + case_decide as Hd; [|done]. injection Hc as <- <-. by rewrite Hd in Hl.
  - done.
Qed.

#[export] Instance toy_lib : NvLib toy_clib.
Proof.
  refine {| nv_view := fun s => s |}.
  - exact toy_guarded.
  - intros f args w r v Hn Hs. exists v. cbn. rewrite decide_True by done. by rewrite Hs.
Defined.

(** a world with lists *)
Definition toy_world (ls : list (Z * nvl)) (m : gmap Z obj) : world nvstate lstate :=
  World ∅ 10 m 4096 (fun _ _ => false) (NvState (list_to_map ls) ∅ {[ 4000 := 4016 ]}).

Definition empty_nvl : nvl := Nvl 0 0 [].
