(* ===== verification/NvGuards.v ===== *)
(** * The nv module and the aborts of libnv

    The manual of the module: "Functions in this module guard from the minefield
    of aborts in libnv by performing extra checks to raise errors early".  Here is
    what that amounts to: every function of the module makes its calls guarded in
    the sense of [Guards], with the exceptions of [unguarded]: [nvl:free] and [nvl:size]
    do not check that the list is not in error state, and the flags of
    [nv.create], [nv.recv], [nv.unpack] and [nvl:xfer] go to the library unchecked. *)

From S2P Require Import Prelude LuaApi Arrays Machine Capi Samples Utils Cmem Modules Uio Guards Nv NvLib.

(** ** Programs that call nothing of the library *)

Section guards.
Context `{Consts}.
Abbreviation g := (guards needs learns).

(** [quiet p]: what is known stays known *)
Definition quiet {A} (p : prog A) : Prop := forall K (Q : A -> list nvfact -> Prop), (forall a, Q a K) -> g p K Q.

Lemma quiet_bind {A B} (p : prog A) (k : A -> prog B) : quiet p -> (forall a, quiet (k a)) -> quiet (p ≫= k).
Proof. intros Hp Hk K Q HQ. apply guards_bind, Hp. intros a. by apply Hk. Qed.

Lemma quiet_ret {A} (a : A) : quiet (mret a).
Proof. intros K Q HQ. apply HQ. Qed.

Lemma quiet_lua {R} L (e : luaE R) : quiet (trigger (ELua L e)).
Proof. intros K Q HQ. exact HQ. Qed.

Lemma quiet_load {R} p (f : obj -> option (R * obj)) : quiet (trigger (EMem p f)).
Proof. intros K Q HQ. exact HQ. Qed.
Lemma quiet_malloc n o : quiet (trigger (EMalloc n o)).
Proof. intros K Q HQ. exact HQ. Qed.
Lemma quiet_free p : quiet (trigger (EFree p)).
Proof. intros K Q HQ. exact HQ. Qed.
Lemma quiet_errno : quiet (trigger EErrno).
Proof. intros K Q HQ. exact HQ. Qed.
Lemma quiet_strerror e : quiet (trigger (EStrerror e)).
Proof. intros K Q HQ. exact HQ. Qed.
Lemma quiet_lua_halts {A} L (e : luaE Empty_set) : quiet (A := A) (halts (ELua L e)).
Proof. intros K Q HQ []. Qed.
Lemma quiet_unspec {A} why : quiet (A := A) (halts (EHalt (Unspec why))).
Proof. intros K Q HQ []. Qed.

Lemma quiet_for n lo (body : Z -> prog unit) : (forall i, quiet (body i)) -> quiet (for_ n lo body).
Proof. intros Hb K Q HQ. apply guards_for_same; [apply HQ|]. intros i. by apply Hb. Qed.
End guards.

Create HintDb quiet.
#[export] Hint Resolve quiet_bind quiet_ret quiet_lua quiet_load quiet_malloc quiet_free quiet_errno
  quiet_strerror quiet_lua_halts quiet_unspec quiet_for : quiet.

(** the calls of a straight program, one by one *)
Ltac quiet_step :=
  lazymatch goal with
  | |- quiet (mbind _ _) => apply quiet_bind; [|intros ?]
  | |- quiet (for_ _ _ _) => apply quiet_for; intros ?
  | Hp : forall v, quiet (?p v) |- quiet (?p _) => apply Hp
  | |- quiet (if ?b then _ else _) => destruct b
  | |- quiet (match ?b with _ => _ end) => destruct b
  | |- forall _, _ => intros ?
  | |- quiet (let '(_, _) := ?x in _) => destruct x
  | |- quiet _ => solve [eauto 3 with quiet nocore]
  end.
Ltac quiet_solve := repeat quiet_step.

Section helpers.
Context `{Consts}.

Lemma quiet_argcheck L c i m : quiet (luaL_argcheck L c i m).
Proof. unfold luaL_argcheck. quiet_solve. Qed.
Lemma quiet_argexpected L c i m : quiet (luaL_argexpected L c i m).
Proof. unfold luaL_argexpected. quiet_solve. Qed.
Lemma quiet_checkstring L i : quiet (luaL_checkstring L i).
Proof. unfold luaL_checkstring. quiet_solve. Qed.
Lemma quiet_is L i t : quiet (lua_is L i t).
Proof. unfold lua_is. quiet_solve. Qed.
Lemma quiet_noneornil L i : quiet (lua_isnoneornil L i).
Proof. unfold lua_isnoneornil. quiet_solve. Qed.
Lemma quiet_absindex L i : quiet (lua_absindex L i).
Proof. unfold lua_absindex. quiet_solve. Qed.
End helpers.
#[export] Hint Resolve quiet_argcheck quiet_argexpected quiet_checkstring quiet_is quiet_noneornil quiet_absindex : quiet.

Section helpers2.
Context `{Consts}.

Lemma quiet_setcookie L i c : quiet (setcookie L i c).
Proof. unfold setcookie. quiet_solve. Qed.
Lemma quiet_getcookie L i : quiet (getcookie L i).
Proof. unfold getcookie. quiet_solve. Qed.
Lemma quiet_setref L i c : quiet (setref L i c).
Proof. unfold setref. quiet_solve. Qed.
Lemma quiet_getref L i : quiet (getref L i).
Proof. unfold getref. quiet_solve. Qed.
Lemma quiet_success L : quiet (success L).
Proof. unfold success. quiet_solve. Qed.
Lemma quiet_fail L e : quiet (fail L e).
Proof. unfold fail. quiet_solve. Qed.
Lemma quiet_fatal {A} L m e : quiet (fatal (A := A) L m e).
Proof. unfold fatal. quiet_solve. Qed.
Lemma quiet_arr_load p i : quiet (arr_load p i).
Proof. unfold arr_load. quiet_solve. Qed.
Lemma quiet_push_bytes L p n : quiet (push_bytes L p n).
Proof. unfold push_bytes. quiet_solve. Qed.
Lemma quiet_push_cstr L p : quiet (push_cstr L p).
Proof. unfold push_cstr. quiet_solve. Qed.
End helpers2.
#[export] Hint Resolve quiet_setcookie quiet_getcookie quiet_setref quiet_getref quiet_success quiet_fail
  quiet_fatal quiet_arr_load quiet_push_bytes quiet_push_cstr : quiet.

Section helpers3.
Context `{Consts}.

Lemma quiet_new L c mt : quiet (new L c mt).
Proof. unfold new. quiet_solve. Qed.
Lemma quiet_newref L i c mt : quiet (newref L i c mt).
Proof. unfold newref. quiet_solve. Qed.
Lemma quiet_checkcookienull L i mt : quiet (checkcookienull L i mt).
Proof. unfold checkcookienull, checkcookieuv. quiet_solve. Qed.
Lemma quiet_getnvlist L i mt : quiet (getnvlist L i mt).
Proof. unfold getnvlist. quiet_solve. Qed.
Lemma quiet_getanynvlist L i : quiet (getanynvlist L i).
Proof. unfold getanynvlist. quiet_solve. Qed.
Lemma quiet_push_array L p n push : (forall v, quiet (push v)) -> quiet (push_array L p n push).
Proof. intros Hp. unfold push_array. quiet_solve. Qed.
Lemma quiet_array_arg L : quiet (array_arg L).
Proof. unfold array_arg. quiet_solve. Qed.
Lemma quiet_malloc_array a n : quiet (malloc_array a n).
Proof. unfold malloc_array. quiet_solve. Qed.
Lemma quiet_fill_array L p n elem : quiet elem -> quiet (fill_array L p n elem).
Proof. intros He. unfold fill_array. quiet_solve. Qed.
Lemma quiet_push_strings_free L p n : quiet (push_strings_free L p n).
Proof. unfold push_strings_free. quiet_solve. Qed.
End helpers3.
#[export] Hint Resolve quiet_new quiet_newref quiet_checkcookienull quiet_getnvlist quiet_getanynvlist
  quiet_push_array quiet_array_arg quiet_malloc_array quiet_fill_array quiet_push_strings_free : quiet.

(** ** The checks of the module *)

Section checks.
Context `{Consts}.
Abbreviation g := (guards needs learns).
Implicit Types K : list nvfact.

Lemma g_quiet {A} (p : prog A) K Q : quiet p -> (forall a, Q a K) -> g p K Q.
Proof. intros Hp. apply Hp. Qed.

Lemma quiet_checkcookie L i mt : quiet (checkcookie L i mt).
Proof. unfold checkcookie. quiet_solve. Qed.

Lemma g_noerror L i m nvl K (Q : Z -> list nvfact -> Prop) :
  Q nvl (FNoError nvl :: K) ->
  g (e ← call "nvlist_error" [AZ nvl]; luaL_argcheck L (rc e =? 0) i m;; mret nvl) K Q.
Proof.
  intros HQ. apply guards_bind, guards_call; [constructor|]. intros r. apply guards_bind.
  unfold luaL_argcheck, learn, learns. cbn. destruct (rc r =? 0); [exact HQ|intros []].
Qed.

Lemma g_checknvlist L i K (Q : Z -> list nvfact -> Prop) :
  (forall nvl, Q nvl (FNoError nvl :: K)) -> g (checknvlist L i) K Q.
Proof.
  intros HQ. unfold checknvlist. apply guards_bind, g_quiet; [apply quiet_getnvlist|].
  intros nvl. apply guards_bind, g_quiet; [apply quiet_argexpected|]. intros _. by apply g_noerror.
Qed.

Lemma g_checkconstnvlist L i K (Q : Z -> list nvfact -> Prop) :
  (forall nvl, Q nvl (FNoError nvl :: K)) -> g (checkconstnvlist L i) K Q.
Proof.
  intros HQ. unfold checkconstnvlist. apply guards_bind, g_quiet; [apply quiet_getnvlist|].
  intros nvl. apply guards_bind, g_quiet; [apply quiet_argexpected|]. intros _. by apply g_noerror.
Qed.

Lemma g_checkanynvlist L i K (Q : Z -> list nvfact -> Prop) :
  (forall nvl, Q nvl (FNoError nvl :: K)) -> g (checkanynvlist L i) K Q.
Proof.
  intros HQ. unfold checkanynvlist. apply guards_bind, g_quiet; [apply quiet_getanynvlist|].
  intros nvl. apply guards_bind, g_quiet; [apply quiet_argexpected|]. intros _. by apply g_noerror.
Qed.

Lemma g_checkname L i nvl type K (Q : string -> list nvfact -> Prop) :
  In (FNoError nvl) K -> (forall name, Q name (FExists nvl name type :: K)) -> g (checkname L i nvl type) K Q.
Proof.
  intros Hin HQ. unfold checkname. apply guards_bind, g_quiet; [apply quiet_checkstring|]. intros name.
  apply guards_bind, guards_call.
  { change (needs _ _) with [FNoError nvl]. by constructor. }
  intros r. apply guards_bind. unfold luaL_argcheck, learn, learns. cbn.
  destruct (rc r =? 0); cbn; [intros []|apply HQ].
Qed.

Lemma g_checkcookietype L i type K (Q : Z -> list nvfact -> Prop) :
  (forall c, Q c (FType c type :: K)) -> g (checkcookietype L i type) K Q.
Proof.
  intros HQ. unfold checkcookietype. apply guards_bind, g_quiet; [apply quiet_checkcookie|]. intros c.
  apply guards_bind, guards_call; [constructor|]. intros r. apply guards_bind.
  unfold luaL_argcheck, learn, learns. cbn. destruct (Z.eqb_spec (rc r) type) as [<-|]; [apply HQ|intros []].
Qed.
End checks.
#[export] Hint Resolve quiet_checkcookie : quiet.

Ltac known := repeat first [left; reflexivity | right].
Ltac all_known :=
  lazymatch goal with
  | |- Forall _ ?l => let n := eval cbv -[to_int to_long to_size to_uint64] in l in change l with n; repeat (constructor; [known|]); constructor
  end.

(** one call after the other: the checks teach, the other calls need *)
Ltac guard_step :=
  cbv beta;
  lazymatch goal with
  | |- guards _ _ (mbind _ _) _ _ => apply guards_bind
  | |- guards _ _ (checknvlist _ _) _ _ => apply g_checknvlist; intros ?
  | |- guards _ _ (checkconstnvlist _ _) _ _ => apply g_checkconstnvlist; intros ?
  | |- guards _ _ (checkanynvlist _ _) _ _ => apply g_checkanynvlist; intros ?
  | |- guards _ _ (checkcookietype _ _ _) _ _ => apply g_checkcookietype; intros ?
  | |- guards _ _ (checkname _ _ _ _) _ _ => apply g_checkname; [known|intros ?]
  | |- guards _ _ (trigger (ECall _ _)) _ _ => apply guards_call; [all_known|intros ?]
  | |- guards _ _ (if ?b then _ else _) _ _ => destruct b
  | |- guards _ _ (match ?b with _ => _ end) _ _ => destruct b
  | |- True => exact I
  | |- guards _ _ _ _ _ => apply g_quiet; [solve [quiet_solve]|intros ?]
  end.
Ltac guard_solve := repeat guard_step.

Section getters.
Context `{Consts}.
Abbreviation g := (guards needs learns).
Abbreviation any := (fun _ _ => True).

(** a getter, on a list that has been checked *)
Lemma g_get t L nvl K : In t NVLIST_TYPES -> g (nv_get t.1 L nvl) (FNoError nvl :: K) any.
Proof.
  intros Hin. repeat destruct Hin as [<-|Hin]; [..|done]; cbn [fst];
    cbv [nv_get String.eqb Ascii.eqb Bool.eqb];
    unfold get_bool, get_number, get_string, get_nvlist, get_binary, get_bool_array, get_number_array,
      get_string_array, get_nvlist_array, get_descriptor, get_descriptor_array; guard_solve.
Qed.

Lemma g_next L nvl K : g (next L nvl) (FNoError nvl :: K) any.
Proof. unfold next. guard_solve. Qed.
Lemma g_get_parent L nvl K : g (get_parent L nvl) (FNoError nvl :: K) any.
Proof. unfold get_parent. guard_solve. Qed.
Lemma g_get_array_next L nvl K : g (get_array_next L nvl) (FNoError nvl :: K) any.
Proof. unfold get_array_next. guard_solve. Qed.
Lemma g_get_pararr L nvl K : g (get_pararr L nvl) (FNoError nvl :: K) any.
Proof. unfold get_pararr. guard_solve. Qed.
End getters.

(** ** Every function *)

Section functions.
Context `{Consts}.
Abbreviation g := (guards needs learns).
Abbreviation any := (fun _ _ => True).

Definition guarded_fn (f : nat -> prog Z) : Prop := forall L, guards needs learns (f L) [] (fun _ _ => True).

Lemma g_destroy_down value n K (Q : unit -> list nvfact -> Prop) :
  (forall K', Q tt K') -> g (destroy_down value n) K Q.
Proof.
  intros HQ. revert K. induction n as [|n IH]; intros K; cbn [destroy_down]; [apply HQ|].
  repeat guard_step. apply IH.
Qed.

Lemma g_add_nvlist_array : guarded_fn l_nvlist_add_nvlist_array.
Proof.
  intros L. unfold l_nvlist_add_nvlist_array. do 9 guard_step; [guard_solve|].
  apply guards_bind, guards_for; [intros K'; guard_solve|]. intros i K'. guard_solve.
Qed.

Lemma g_move_nvlist_array : guarded_fn l_nvlist_move_nvlist_array.
Proof.
  intros L. unfold l_nvlist_move_nvlist_array. do 9 guard_step; [guard_solve|].
  apply guards_bind, guards_for; [intros K'; guard_solve|]. intros i K'. do 7 guard_step.
  - apply guards_bind, g_destroy_down. intros K''. guard_solve.
  - do 3 guard_step; [|guard_solve]. apply guards_bind, g_destroy_down. intros K''. guard_solve.
Qed.

Lemma all_symbols sym (f : string * string -> nat -> prog Z) types :
  (forall t, In t types -> guarded_fn (f t)) -> Forall (fun s => guarded_fn s.2) (symbols sym f types).
Proof.
  intros Hf. induction types as [|t types IH]; constructor; [apply Hf; by left|].
  apply IH. intros t' Hin. apply Hf. by right.
Qed.
End functions.

Ltac unfold_fn :=
  lazymatch goal with
  | |- guards _ _ (?f _ _) _ _ => unfold f
  | |- guards _ _ (?f _) _ _ => unfold f
  end.
Ltac guarded := intros ?; unfold_fn; guard_solve.
Ltac guarded_types := apply all_symbols; intros t Hin L;
  repeat destruct Hin as [<-|Hin]; [..|done]; cbn [fst snd].
Ltac guarded_list := repeat (apply Forall_cons; [cbn [snd]|]); [..|apply Forall_nil].

Section tables.
Context `{Consts}.

Lemma nvlist_exists_guarded : Forall (fun s => guarded_fn s.2)
  (symbols "l_nvlist_exists_" (fun t => NVLIST_EXISTS t.1) NVLIST_TYPES_NULL).
Proof. guarded_types; unfold NVLIST_EXISTS; guard_solve. Qed.

Lemma nvlist_free_guarded : Forall (fun s => guarded_fn s.2)
  (symbols "l_nvlist_free_" (fun t => NVLIST_FREE t.1 t.2) NVLIST_TYPES_NULL).
Proof. guarded_types; unfold NVLIST_FREE; guard_solve. Qed.

Lemma const_exists_guarded : Forall (fun s => guarded_fn s.2)
  (symbols "l_const_nvlist_exists_" (fun t => CONST_NVLIST_EXISTS t.1) NVLIST_TYPES_NULL).
Proof. guarded_types; unfold CONST_NVLIST_EXISTS; guard_solve. Qed.

Lemma cookie_free_guarded : Forall (fun s => guarded_fn s.2)
  (symbols "l_cnvlist_free_" (fun t => CNVLIST_FREE t.1 t.2) NVLIST_TYPES).
Proof. guarded_types; unfold CNVLIST_FREE; guard_solve. Qed.

Lemma nvlist_get_guarded : Forall (fun s => guarded_fn s.2)
  (symbols "l_nvlist_get_" (fun t => NVLIST_GET (nv_get t.1)) NVLIST_TYPES).
Proof.
  apply all_symbols. intros t Hin L. unfold NVLIST_GET. do 2 guard_step. by apply g_get.
Qed.

Lemma const_get_guarded : Forall (fun s => guarded_fn s.2)
  (symbols "l_const_nvlist_get_" (fun t => CONST_NVLIST_GET (nv_get t.1)) NVLIST_TYPES).
Proof.
  apply all_symbols. intros t Hin L. unfold CONST_NVLIST_GET. do 2 guard_step. by apply g_get.
Qed.

Lemma walkers_guarded : Forall guarded_fn [l_nvlist_next; l_nvlist_get_parent; l_nvlist_get_array_next;
  l_nvlist_get_pararr; l_const_nvlist_next; l_const_nvlist_get_parent; l_const_nvlist_get_array_next;
  l_const_nvlist_get_pararr].
Proof.
  repeat (apply Forall_cons; [intros L; unfold_fn|]);
    [..|apply Forall_nil]; do 2 guard_step;
    lazymatch goal with
    | |- guards _ _ (next _ _) _ _ => apply g_next
    | |- guards _ _ (get_parent _ _) _ _ => apply g_get_parent
    | |- guards _ _ (get_array_next _ _) _ _ => apply g_get_array_next
    | |- guards _ _ (get_pararr _ _) _ _ => apply g_get_pararr
    end.
Qed.

Definition unguarded : list string := ["l_nvlist_free"; "l_nvlist_size"; "l_const_nvlist_size";
  "l_nv_create"; "l_nv_recv"; "l_nv_unpack"; "l_nvlist_xfer"].

Definition safe (s : string * (nat -> prog Z)) : Prop := In s.1 unguarded \/ guarded_fn s.2.

(** the error is compared with 0 after its conversion, which is what the library gets *)
Lemma g_set_error : guarded_fn l_nvlist_set_error.
Proof.
  intros L. unfold l_nvlist_set_error. do 4 guard_step. destruct (to_int _ =? 0) eqn:He; [guard_solve|].
  guard_step. apply guards_call; [|intros r; guard_solve].
  change (Forall (fun x => In x []) (if to_int a0 =? 0 then [FNever] else [])). by rewrite He.
Qed.

(** the functions of a list one by one *)
Ltac safe_list := repeat (apply Forall_cons; [unfold safe; cbn [fst snd];
  lazymatch goal with
  | |- _ \/ guarded_fn l_nvlist_set_error => right; exact g_set_error
  | |- In ?x unguarded \/ _ =>
      let b := eval vm_compute in (existsb (String.eqb x) unguarded) in
      lazymatch b with true => left; cbn; tauto | false => right; guarded end
  end|]); apply Forall_nil.

Lemma nvlist_guarded : Forall safe nvlist_symbols.
Proof.
  assert (Hw := walkers_guarded). rewrite !Forall_cons_iff in Hw. destruct Hw as (W1 & W2 & W3 & W4 & _).
  assert (Hor : forall l, Forall (fun s => guarded_fn s.2) l -> Forall safe l).
  { intros l Hl. eapply list.Forall_impl; [exact Hl|]. by right. }
  unfold nvlist_symbols. rewrite !list.Forall_app. split_all.
  - safe_list.
  - apply Hor, nvlist_exists_guarded.
  - apply Hor. guarded_list;
      lazymatch goal with
      | |- guarded_fn l_nvlist_add_nvlist_array => exact g_add_nvlist_array
      | |- guarded_fn l_nvlist_move_nvlist_array => exact g_move_nvlist_array
      | |- _ => guarded
      end.
  - apply Hor, nvlist_get_guarded.
  - safe_list.
  - apply Hor, nvlist_free_guarded.
  - apply Hor. by guarded_list.
Qed.

Lemma const_nvlist_guarded : Forall safe const_nvlist_symbols.
Proof.
  assert (Hw := walkers_guarded). rewrite !Forall_cons_iff in Hw.
  destruct Hw as (_ & _ & _ & _ & W1 & W2 & W3 & W4 & _).
  assert (Hor : forall l, Forall (fun s => guarded_fn s.2) l -> Forall safe l).
  { intros l Hl. eapply list.Forall_impl; [exact Hl|]. by right. }
  unfold const_nvlist_symbols. rewrite !list.Forall_app. split_all.
  - safe_list.
  - apply Hor, const_exists_guarded.
  - apply Hor, const_get_guarded.
  - apply Hor. by guarded_list.
Qed.

Lemma cnvlist_guarded : Forall (fun s => guarded_fn s.2) cnvlist_symbols.
Proof.
  unfold cnvlist_symbols. rewrite list.Forall_app. split; [guarded_list; guarded|apply cookie_free_guarded].
Qed.

(** every function of the module but those of [unguarded] *)
Lemma nv_guarded_all : Forall safe nv_symbols.
Proof.
  unfold nv_symbols. rewrite !list.Forall_app. split_all.
  - safe_list.
  - apply nvlist_guarded.
  - apply const_nvlist_guarded.
  - eapply list.Forall_impl; [apply cnvlist_guarded|]. by right.
Qed.
End tables.

(** ** Properties *)

Section properties.
Context `{LuaSem} `{Consts} {S : Type} `{Libc S} (C : clib S) `{!NvLib C}.

End properties.

(** ** Witnesses *)

(** a handle on the list at address 4000: userdata 2 of the registered type *)
Definition nv_heap : heap := sample_heap NVLIST_METATABLE [VLud 4000] 0.


(** The functions of [unguarded] do reach the aborts of a library that enforces its
    preconditions: [nvl:free] and [nvl:size] of a list in error state, where the other functions
    raise an error, and making a list with a flag the library does not have. *)
Theorem unguarded_abort :
  let w := toy_world [(4000, Nvl 0 22 [])] ∅ in
  let outcome f args := fst (invoke toy_clib 0 f args nv_heap w) in
  (~ guarded_fn l_nvlist_free) /\ (~ guarded_fn l_nvlist_size) /\ (~ guarded_fn l_nv_create) /\
  outcome l_nvlist_free [VUd 2; VStr "name"] = Halt (Aborted "libnv") /\
  outcome l_nvlist_size [VUd 2] = Halt (Aborted "libnv") /\
  outcome l_nv_create [VInt 64] = Halt (Aborted "libnv") /\
  outcome l_nvlist_free_type [VUd 2; VStr "name"; VInt 3] = Halt (Raise (EArg 1 "nvlist has error")).
Proof.
  cbv zeta.
  assert (Hn : forall f args, (invoke toy_clib 0 f args nv_heap (toy_world [(4000, Nvl 0 22 [])] ∅)).1 =
    Halt (Aborted "libnv") -> ~ guarded_fn f).
  { intros f args Ha Hg. by apply (guards_invoke needs learns toy_clib _ nv_guarded 0 f args nv_heap
      (toy_world [(4000, Nvl 0 22 [])] ∅) "libnv" _ (Hg 0%nat)). }
  split_all; [apply (Hn _ [VUd 2; VStr "name"])|apply (Hn _ [VUd 2])|apply (Hn _ [VInt 64])|..]; by vm_compute.
Qed.
