(* ===== verification/NvProps.v ===== *)
(** * What the nv functions do with lists

    Adding and getting, moving, iterating, and the references into lists, for a
    library that follows its manual ([NvLib]). *)

From stdpp Require Import strings.
From S2P Require Import Prelude LuaApi Arrays Registry Machine Capi Samples Utils Cmem Modules Uio Guards Nv NvLib.

(** ** Handles and calls *)

(** what [lua_tointeger] gives for a value that is not a string *)
Definition tointeger (v : value) : Z :=
  match v with VInt z => z | VNum f => default 0 (float_to_integer f) | _ => 0 end.
Definition is_str (v : value) : bool := match v with VStr _ => true | _ => false end.

Lemma uint64_roundtrip z : - 2 ^ 63 <= z < 2 ^ 63 -> to_long (to_uint64 z) = z.
Proof.
  intros Hz. unfold to_long, to_uint64, wraps, wrapu. rewrite Z.add_mod_idemp_l by lia.
  change (2 ^ (64 - 1)) with (2 ^ 63). rewrite Z.mod_small by lia. lia.
Qed.

Section run.
Context `{LuaSem} `{Consts} {S : Type} `{Libc S} (C : clib S) `{!NvLib C}.
Implicit Types (w : world S lstate) (L : nat) (vs : list value) (h : heap) (p : Z).
Abbreviation rn := (run (documented C)).

(** the list at an address, in a state of the libraries *)
Definition list_at (w : world S lstate) (p : Z) (l : nvl) : Prop := lists (nv_view (wx w)) !! p = Some l.

(** [w'] is [w] after calls of the library that left its lists as [v] *)
Definition lib_step (w w' : world S lstate) (v : nvstate) : Prop := exists s, w' = set_x s w /\ nv_view s = v.

Lemma lib_step_refl w : lib_step w w (nv_view (wx w)).
Proof. exists (wx w). by destruct w. Qed.

Lemma lib_step_trans w w1 w2 v1 v2 : lib_step w w1 v1 -> lib_step w1 w2 v2 -> lib_step w w2 v2.
Proof. intros (s1 & -> & _) (s2 & -> & <-). by exists s2. Qed.

Lemma lib_view w w' v : lib_step w w' v -> nv_view (wx w') = v.
Proof. by intros (s & -> & <-). Qed.

Lemma lib_wm w w' v : lib_step w w' v -> wm w' = wm w.
Proof. by intros (s & -> & _). Qed.

Lemma run_nv L f args s w r v :
  Forall (fun x => holds x (nv_view (wx w))) (needs f args) ->
  nv_spec f args (nv_view (wx w)) = Some (r, v) ->
  exists w', rn (call f args) (put L s w) = (Ok r, put L s w') /\ lib_step w w' v.
Proof.
  intros Hn Hs. rewrite run_call.
  destruct (nv_call f args (put L s w) r v Hn Hs) as (x & Hc & Hv). rewrite Hc, set_x_put.
  exists (set_x x w). split; [done|]. by exists x.
Qed.

Lemma run_getnvlist L i mt p vs n h w :
  0 < i -> handle vs h i mt p ->
  rn (getnvlist L i mt) (put L (LS vs (3 + n) h) w) = (Ok p, put L (LS vs (3 + n) h) w).
Proof.
  intros Hi (u & d & Hu & Hc). destruct (udata_of_at _ _ _ _ _ _ Hu) as [Ha Hd].
  unfold udata_of in Hu. rewrite Ha, Hd in Hu.
  destruct (ud_meta d) as [m|] eqn:Hm; [|done].
  destruct (reg_get (inl mt) h) as [| | | | | |m'| |] eqn:Hr; try done.
  case_decide as Heq; [|done]. subst m'. clear Hu.
  unfold getnvlist, getcookie, COOKIE. lua_run. know Ha, Hd. cbn [fmap option_fmap option_map].
  know Hm. lua_run. know Hr. lua_run. rewrite bool_decide_true by done. lua_run.
  know (at_cons _ _ _ (VTab m) Hi (at_cons _ _ _ (VTab m) Hi Ha)), Hd. know Hc. lua_run.
  rewrite run_argcheck_true. lua_run. done.
Qed.

(** the receiver check on a handle of a list without error *)
Lemma run_checknvlist L i p l vs n h w :
  0 < i -> handle vs h i NVLIST_METATABLE p -> p ≠ 0 -> list_at w p l -> nv_err l = 0 ->
  exists w', rn (checknvlist L i) (put L (LS vs (3 + n) h) w) = (Ok p, put L (LS vs (3 + n) h) w') /\
    lib_step w w' (nv_view (wx w)).
Proof.
  intros Hi Hh Hp Hl He. destruct (run_nv L "nvlist_error" [AZ p] (LS vs (3 + n) h) w (Cret 0 []) (nv_view (wx w)))
    as (w' & Hr & Hs); [by constructor| |].
  { cbn. by rewrite Hl, He. }
  exists w'. split; [|done]. unfold checknvlist. rewrite run_bind, (run_getnvlist L i NVLIST_METATABLE p) by done.
  cbn [andthen]. rewrite (proj2 (Z.eqb_neq p 0)) by done. cbn [luaL_argexpected negb].
  rewrite run_bind, run_ret. cbn [andthen]. rewrite run_bind, Hr. cbn [andthen rc]. done.
Qed.

(** a name that exists *)
Lemma run_checkname L i p l s type v vs n h w :
  at_ vs i = Val (VStr s) -> list_at w p l -> nv_err l = 0 -> nv_find (cstr s) type l = Some v ->
  exists w', rn (checkname L i p type) (put L (LS vs n h) w) = (Ok (cstr s), put L (LS vs n h) w') /\
    lib_step w w' (nv_view (wx w)).
Proof.
  intros Ha Hl He Hv.
  destruct (run_nv L "nvlist_exists_type" [AZ p; AS (cstr s); AZ type] (LS vs n h) w (Cret 1 []) (nv_view (wx w)))
    as (w' & Hr & Hs).
  { repeat constructor. cbn. by rewrite Hl. }
  { cbn. rewrite Hl, Hv. by rewrite bool_decide_true. }
  exists w'. split; [|done]. unfold checkname. rewrite run_bind, (run_checkstring C L i s) by done. cbn [andthen].
  rewrite run_bind, Hr. done.
Qed.

(** and one that does not *)
Lemma run_checkname_missing L i p l s type vs n h w :
  at_ vs i = Val (VStr s) -> list_at w p l -> nv_err l = 0 -> nv_find (cstr s) type l = None ->
  exists w', rn (checkname L i p type) (put L (LS vs n h) w) =
    (Halt (Raise (EArg i "name not found")), put L (LS vs n h) w') /\ lib_step w w' (nv_view (wx w)).
Proof.
  intros Ha Hl He Hv.
  destruct (run_nv L "nvlist_exists_type" [AZ p; AS (cstr s); AZ type] (LS vs n h) w (Cret 0 []) (nv_view (wx w)))
    as (w' & Hr & Hs).
  { repeat constructor. cbn. by rewrite Hl. }
  { cbn. by rewrite Hl, Hv. }
  exists w'. split; [|done]. unfold checkname. rewrite run_bind, (run_checkstring C L i s) by done. cbn [andthen].
  rewrite run_bind, Hr. cbn [andthen rc]. rewrite run_bind, run_argcheck_false. done.
Qed.
End run.

(** ** Pairs *)

Section pairs.
Implicit Types (l : nvl) (name : string).

Lemma find_app {A} (f : A -> bool) (k l : list A) :
  find f (k ++ l) = match find f k with Some x => Some x | None => find f l end.
Proof. induction k as [|x k IH]; [done|]. cbn. by destruct (f x). Qed.

Lemma nv_has_find l name type : nv_has name l = false -> nv_find name type l = None.
Proof.
  unfold nv_has, nv_find. destruct l as [f e ps]. cbn. intros Hh.
  induction ps as [|[n [t v]] ps IH]; [done|]. cbn in *. apply orb_false_iff in Hh as [Hn Hh].
  unfold is_pair. cbn. rewrite Hn. cbn. by apply IH.
Qed.

Lemma nv_insert_fresh l name type v e :
  nv_err l = 0 -> nv_has name l = false ->
  nv_insert name type v e l = Nvl (nv_flags l) 0 (nv_pairs l ++ [(name, (type, v))]).
Proof. intros He Hh. unfold nv_insert. by rewrite He, Hh. Qed.

(** a pair that was inserted is found *)
Lemma nv_find_insert l name type v e :
  nv_err l = 0 -> nv_has name l = false -> nv_find name type (nv_insert name type v e l) = Some v.
Proof.
  intros He Hh. rewrite nv_insert_fresh by done. pose proof (nv_has_find l name type Hh) as Hf.
  unfold nv_find in *. cbn [nv_pairs]. rewrite find_app.
  destruct (find (is_pair name type) (nv_pairs l)); [done|]. cbn.
  unfold is_pair. cbn. by rewrite String.eqb_refl, Z.eqb_refl.
Qed.
End pairs.

(** ** Numbers *)

Section numbers.
Context `{LuaSem} `{Consts} {S : Type} `{Libc S} (C : clib S) `{!NvLib C}.
Implicit Types (w : world S lstate) (L : nat) (vs : list value) (h : heap) (p : Z).
Abbreviation rn := (run (documented C)).

(** adding to a list that can take the name *)
Lemma run_nv_add L f p l name type v args s w :
  list_at C w p l -> nv_flags l = 0 -> nv_err l = 0 -> nv_has name l = false ->
  needs f args = [] -> nv_spec f args (nv_view (wx w)) = nv_add p name type v (nv_view (wx w)) ->
  exists w' l', rn (call f args) (put L s w) = (Ok (Cret 0 []), put L s w') /\
    lib_step C w w' (set_list p l' (nv_view (wx w))) /\
    l' = Nvl 0 0 (nv_pairs l ++ [(name, (cst type, v))]) /\ nv_find name (cst type) l' = Some v.
Proof.
  intros Hl Hf He Hh Hn Hs. set (l' := nv_insert name (cst type) v (cst "EEXIST") l).
  destruct (run_nv C L f args s w (Cret 0 []) (set_list p l' (nv_view (wx w)))) as (w' & Hr & Hst).
  { by rewrite Hn. }
  { rewrite Hs. unfold nv_add. by rewrite Hl, Hf. }
  exists w', l'. split_all; [done|done| |by apply nv_find_insert].
  unfold l'. rewrite nv_insert_fresh by done. by rewrite Hf.
Qed.

Lemma list_at_set w w' p l v : lib_step C w w' (set_list p l v) -> list_at C w' p l.
Proof. intros Hs. unfold list_at. rewrite (lib_view _ _ _ _ Hs). cbn. apply lookup_insert_eq. Qed.

Lemma list_at_step w w' p l : list_at C w p l -> lib_step C w w' (nv_view (wx w)) -> list_at C w' p l.
Proof. intros Hl Hs. unfold list_at. by rewrite (lib_view _ _ _ _ Hs). Qed.

Lemma lib_step_put L s w : nv_view (wx (put L s w)) = nv_view (wx w).
Proof. done. Qed.

(** [add_number] stores the number as [uint64_t] under its name *)
Lemma exec_add_number L u s z h w p l :
  handle [VInt z; VStr s; VUd u] h 1 NVLIST_METATABLE p -> p ≠ 0 ->
  list_at C w p l -> nv_flags l = 0 -> nv_err l = 0 -> nv_has (cstr s) l = false ->
  exists w' l', executes C L l_nvlist_add_number [VUd u; VStr s; VInt z] h w (Ok []) (put L (idle h) w') /\
    lib_step C w w' (set_list p l' (nv_view (wx w))) /\
    l' = Nvl 0 0 (nv_pairs l ++ [(cstr s, (cst "NV_TYPE_NUMBER", NvInt (to_uint64 z)))]) /\
    nv_find (cstr s) (cst "NV_TYPE_NUMBER") l' = Some (NvInt (to_uint64 z)).
Proof.
  intros Hh Hp Hl Hf He Hn.
  destruct (run_checknvlist C L 1 p l [VInt z; VStr s; VUd u] 17 h w) as (w1 & R1 & S1); [done..|].
  pose proof (list_at_step _ _ _ _ Hl S1) as Hl1.
  destruct (run_nv_add L "nvlist_add_number" p l (cstr s) "NV_TYPE_NUMBER" (NvInt (to_uint64 z))
    [AZ p; AS (cstr s); AZ (to_uint64 z)] (LS [VInt z; VStr s; VUd u] 20 h) w1)
    as (w2 & l' & R2 & S2 & Hl' & Hv); [done..|].
  exists w2, l'. rewrite (lib_view _ _ _ _ S1) in S2. split_all; [|by eapply lib_step_trans|done|done].
  apply (executes_return C L _ _ h w [] [VInt z; VStr s; VUd u] 20). unfold l_nvlist_add_number.
  rewrite run_bind. unfold frame, LUA_MINSTACK. cbn [rev app]. change 20%nat with (3 + 17)%nat.
  rewrite R1. cbn [andthen]. rewrite run_bind, (run_checkstring C L 2 s) by done. cbn [andthen].
  lua_run. change (Datatypes.S (Datatypes.S (Datatypes.S 17))) with 20%nat. rewrite R2. cbn [andthen]. lua_run. done.
Qed.

(** [get_number] gives the number back as [lua_Integer] *)
Lemma exec_get_number L u s h w p l n :
  handle [VStr s; VUd u] h 1 NVLIST_METATABLE p -> p ≠ 0 ->
  list_at C w p l -> nv_err l = 0 -> nv_find (cstr s) (cst "NV_TYPE_NUMBER") l = Some (NvInt n) ->
  exists w', executes C L (NVLIST_GET get_number) [VUd u; VStr s] h w (Ok [VInt (to_long n)]) (put L (idle h) w') /\
    lib_step C w w' (nv_view (wx w)).
Proof.
  intros Hh Hp Hl He Hn.
  destruct (run_checknvlist C L 1 p l [VStr s; VUd u] 17 h w) as (w1 & R1 & S1); [done..|].
  pose proof (list_at_step _ _ _ _ Hl S1) as Hl1.
  destruct (run_checkname C L 2 p l s (cst "NV_TYPE_NUMBER") (NvInt n) [VStr s; VUd u] 20 h w1)
    as (w2 & R2 & S2); [done..|].
  pose proof (list_at_step _ _ _ _ Hl1 S2) as Hl2.
  destruct (run_nv C L "nvlist_get_number" [AZ p; AS (cstr s)] (LS [VStr s; VUd u] 20 h) w2 (Cret n []) (nv_view (wx w2)))
    as (w3 & R3 & S3).
  { apply Forall_cons; [|apply Forall_cons; [|apply Forall_nil]]; cbn; rewrite Hl2; [done|exists (NvInt n); exact Hn]. }
  { cbn. unfold nv_lookup. by rewrite Hl2, Hn. }
  exists w3. rewrite (lib_view _ _ _ _ S2) in S3. rewrite (lib_view _ _ _ _ S1) in S2, S3.
  split; [|do 2 (eapply lib_step_trans; [eassumption|]); eassumption].
  apply (executes_return C L _ _ h w [VInt (to_long n)] [VStr s; VUd u] 19).
  unfold NVLIST_GET. rewrite run_bind. unfold frame, LUA_MINSTACK. cbn [rev app]. change 20%nat with (3 + 17)%nat.
  rewrite R1. cbn [andthen]. unfold get_number, lua_isnoneornil. lua_run.
  change (Datatypes.S (Datatypes.S (Datatypes.S 17))) with 20%nat. rewrite R2. cbn [andthen].
  rewrite run_bind, R3. cbn [andthen]. lua_run. done.
Qed.

(** C36. Every Lua integer is stored in a list and read back unchanged, also the negative
    ones, which libnv holds as unsigned 64-bit numbers; the other pairs of the list, and
    the other lists, stay as they are. *)
Theorem number_roundtrip L u s z h w p l :
  handle [VInt z; VStr s; VUd u] h 1 NVLIST_METATABLE p -> handle [VStr s; VUd u] h 1 NVLIST_METATABLE p ->
  p ≠ 0 -> list_at C w p l -> nv_flags l = 0 -> nv_err l = 0 -> nv_has (cstr s) l = false ->
  - 2 ^ 63 <= z < 2 ^ 63 ->
  exists w1 w2 l',
    executes C L l_nvlist_add_number [VUd u; VStr s; VInt z] h w (Ok []) (put L (idle h) w1) /\
    executes C L (NVLIST_GET get_number) [VUd u; VStr s] h w1 (Ok [VInt z]) (put L (idle h) w2) /\
    nv_pairs l' = nv_pairs l ++ [(cstr s, (cst "NV_TYPE_NUMBER", NvInt (z mod 2 ^ 64)))] /\
    nv_view (wx w2) = set_list p l' (nv_view (wx w)).
Proof.
  intros Hh1 Hh2 Hp Hl Hf He Hn Hz.
  destruct (exec_add_number L u s z h w p l) as (w1 & l' & E1 & S1 & Hl' & Hv); [done..|].
  destruct (exec_get_number L u s h w1 p l' (to_uint64 z)) as (w2 & E2 & S2); [done|done| |by rewrite Hl'|done|].
  { by eapply list_at_set. }
  exists w1, w2, l'. rewrite uint64_roundtrip in E2 by done. split_all; [done|done|by rewrite Hl'|].
  by rewrite (lib_view _ _ _ _ S2), (lib_view _ _ _ _ S1).
Qed.
End numbers.

(** ** Arrays *)

Section arrays.
Context `{LuaSem} `{Consts} {S : Type} `{Libc S} (C : clib S) `{!NvLib C}.
Implicit Types (w : world S lstate) (L : nat) (vs xs : list value) (h : heap) (p : Z) (zs : list Z).
Abbreviation rn := (run (documented C)).

(** the loops that read a C array *)
Lemma run_push_array L p zs (push : Z -> prog unit) (val : Z -> value) vs n h w :
  wm w !! p = Some (carray zs) -> (forall z, val z ≠ VNil) ->
  (forall z vs n h w, rn (push z) (put L (LS vs (1 + n) h) w) = (Ok tt, put L (LS (val z :: vs) n h) w)) ->
  rn (push_array L p (Z.of_nat (length zs)) push) (put L (LS vs (2 + n) h) w) =
  (Ok tt, put L (LS (VTab (fresh h) :: vs) (1 + n) (alloc_tab (Table (arr (val <$> zs)) None) h)) w).
Proof.
  intros Hm Hval Hpush. unfold push_array. rewrite Nat2Z.id. lua_run.
  set (t := fresh h). set (x0 := Table ∅ None).
  pose (I i := put L (LS (VTab t :: vs) (1 + n) (set_tab t (Table (arr (val <$> take i zs)) None) (bump (set_tab t x0 h)))) w).
  assert (HI0 : put L (LS (VTab t :: vs) (1 + n) (bump (set_tab t x0 h))) w = I 0%nat).
  { unfold I. rewrite take_0. cbn [fmap list_fmap]. rewrite arr_nil. fold x0.
    by rewrite set_tab_bump. }
  change (Datatypes.S n) with (1 + n)%nat. rewrite HI0, (run_for C (length zs) 0 _ I).
  { unfold I. rewrite take_ge by done. by rewrite set_tab_bump. }
  intros i Hi. destruct (lookup_lt_is_Some_2 zs i Hi) as [z Hz]. unfold I.
  rewrite run_bind, Z.add_0_l, Nat2Z.id, (run_arr_load C L p zs i z) by done. cbn [andthen].
  rewrite run_bind, Hpush. cbn [andthen]. lua_run.
  rewrite tabs_set_tab. doc_eval. rewrite set_tab_set_tab. do 5 f_equal.
  rewrite (take_S_r _ _ z), fmap_app by done. cbn [fmap list_fmap].
  replace (Z.of_nat i + 1) with (Z.of_nat (length (val <$> take i zs)) + 1).
  - by apply raw_set_arr.
  - rewrite length_fmap, length_take. lia.
Qed.

(** the loops that fill one *)
Lemma run_fill_array L p t xs (elem : prog carg) (conv : value -> carg) vs n h w :
  at_ vs 3 = Val (VTab t) -> tabs h !! t = Some (Table (arr xs) None) ->
  (forall x vs n w, x ∈ xs -> rn elem (put L (LS (x :: vs) n h) w) = (Ok (conv x), put L (LS (x :: vs) n h) w)) ->
  rn (fill_array L p (Z.of_nat (length xs)) elem) (put L (LS vs (1 + n) h) (poke p (partial [] (length xs)) w)) =
  (Ok tt, put L (LS vs (1 + n) h) (poke p (partial (conv <$> xs) 0) w)).
Proof.
  intros Ha Ht He. unfold fill_array. rewrite Nat2Z.id.
  pose (I i := put L (LS vs (1 + n) h) (poke p (partial (conv <$> take i xs) (length xs - i)) w)).
  assert (HI0 : put L (LS vs (1 + n) h) (poke p (partial [] (length xs)) w) = I 0%nat).
  { unfold I. by rewrite take_0, Nat.sub_0_r. }
  rewrite HI0, (run_for C (length xs) 0 _ I).
  { unfold I. by rewrite take_ge, Nat.sub_diag by done. }
  intros i Hi. destruct (lookup_lt_is_Some_2 xs i Hi) as [x Hx]. unfold I.
  rewrite run_bind, run_lua, Z.add_0_l, Nat2Z.id. doc_eval. know Ha, Ht. cbn [tmap].
  rewrite arr_lookup_nat, Hx. cbn [tmeta]. rewrite (raw_get_arr xs None i x Hx). doc_eval.
  rewrite run_bind, He by by eapply list_elem_of_lookup_2. cbn [andthen].
  replace (length xs - i)%nat with (1 + (length xs - (1 + i)))%nat by lia.
  assert (Hlen : length (conv <$> take i xs) = i) by (rewrite length_fmap, length_take; lia).
  rewrite run_bind, (run_load C p _ (partial (conv <$> take i xs) (1 + (length xs - (1 + i)))) tt
    (partial ((conv <$> take i xs) ++ [conv x]) (length xs - (1 + i)))).
  - cbn [andthen]. rewrite run_pop1. rewrite poke_poke. do 4 f_equal.
    by rewrite (take_S_r _ _ x), fmap_app by done.
  - cbn. apply lookup_insert_eq.
  - rewrite <- Hlen at 1. apply arr_set_partial.
Qed.
End arrays.

Section number_arrays.
Context `{LuaSem} `{Consts} {S : Type} `{Libc S} (C : clib S) `{!NvLib C}.
Implicit Types (w : world S lstate) (L : nat) (vs xs : list value) (h : heap) (p : Z).
Abbreviation rn := (run (documented C)).

(** the argument is a table with elements, and there is memory for the array *)
Lemma run_array_arg L t xs vs n h w :
  at_ vs 3 = Val (VTab t) -> tabs h !! t = Some (Table (arr xs) None) -> xs ≠ [] -> Z.of_nat (length xs) < 2 ^ 31 ->
  rn (array_arg L) (put L (LS vs n h) w) = (Ok (Z.of_nat (length xs)), put L (LS vs n h) w).
Proof.
  intros Ha Ht Hne Hlen. unfold array_arg. lua_run. know Ha. lua_run. know Ha, Ht. cbn [tmeta].
  rewrite seq_len_arr. lua_run. rewrite to_size_small by lia.
  rewrite (proj2 (Z.ltb_lt _ _)) by (destruct xs; [done|cbn; lia]). by rewrite run_argcheck_true.
Qed.

Lemma run_tointeger_elem L (c : Z -> Z) x vs n h w :
  is_str x = false ->
  rn (n ← lua_tointeger L (-1); mret (AZ (c n))) (put L (LS (x :: vs) n h) w) =
  (Ok (AZ (c (tointeger x))), put L (LS (x :: vs) n h) w).
Proof. intros Hx. lua_run. by destruct x. Qed.

Lemma exec_add_number_array L u t s xs h w p l :
  handle [VTab t; VStr s; VUd u] h 1 NVLIST_METATABLE p -> p ≠ 0 ->
  list_at C w p l -> nv_flags l = 0 -> nv_err l = 0 -> nv_has (cstr s) l = false ->
  tabs h !! t = Some (Table (arr xs) None) -> xs ≠ [] -> Z.of_nat (length xs) < 2 ^ 31 ->
  Forall (fun x => is_str x = false) xs ->
  woom w (to_size (Z.of_nat (length xs) * sizeof_uint64)) (wnext w) = false -> wnext w ≠ 0 ->
  exists w' l', executes C L l_nvlist_add_number_array [VUd u; VStr s; VTab t] h w (Ok []) (put L (idle h) w') /\
    nv_view (wx w') = set_list p l' (nv_view (wx w)) /\ nv_err l' = 0 /\
    nv_find (cstr s) (cst "NV_TYPE_NUMBER_ARRAY") l' = Some (NvArr (wnext w) (Z.of_nat (length xs))) /\
    wm w' = <[wnext w := carray (to_uint64 ∘ tointeger <$> xs)]> (wm w).
Proof.
  intros Hh Hp Hl Hf He Hn Ht Hne Hlen Hxs Ho Hz. set (a := wnext w). set (vs := [VTab t; VStr s; VUd u]).
  destruct (run_checknvlist C L 1 p l vs 17 h w) as (w1 & R1 & S1); [done..|].
  pose proof (list_at_step _ _ _ _ _ Hl S1) as Hl1.
  set (w2 := poke a (partial (AZ ∘ to_uint64 ∘ tointeger <$> xs) 0) (set_next (a + 1) w1)).
  destruct (run_nv_add C L "nvlist_move_number_array" p l (cstr s) "NV_TYPE_NUMBER_ARRAY"
    (NvArr a (Z.of_nat (length xs))) [AZ p; AS (cstr s); AZ a; AZ (Z.of_nat (length xs))] (LS vs 20 h) w2)
    as (w3 & l' & R3 & S3 & Hl' & Hv); [exact Hl1|done..|].
  exists w3, l'. split_all; [| |by rewrite Hl'|done|].
  2:{ rewrite (lib_view _ _ _ _ S3). unfold w2. cbn. by rewrite (lib_view _ _ _ _ S1). }
  2:{ rewrite (lib_wm _ _ _ _ S3). unfold w2. cbn. rewrite (lib_wm _ _ _ _ S1). f_equal.
      unfold partial, carray. cbn [replicate]. rewrite app_nil_r. f_equal. by rewrite <- !list_fmap_compose. }
  apply (executes_return C L _ _ h w [] vs 20). unfold l_nvlist_add_number_array.
  assert (Ho1 : woom w1 (to_size (Z.of_nat (length xs) * sizeof_uint64)) (wnext w1) = false).
  { destruct S1 as (x & -> & _). exact Ho. }
  assert (Ha1 : wnext w1 = a) by (destruct S1 as (x & -> & _); done).
  rewrite run_bind. unfold frame, LUA_MINSTACK. cbn [rev app]. change 20%nat with (3 + 17)%nat. fold vs.
  rewrite R1. cbn [andthen]. rewrite run_bind, (run_checkstring C L 2 s) by done. cbn [andthen].
  rewrite run_bind, (run_array_arg L t xs vs) by done. cbn [andthen].
  rewrite run_bind. unfold malloc_array. rewrite run_malloc_ok, Ha1 by done. cbn [andthen].
  rewrite (proj2 (Z.eqb_neq a 0)) by done. rewrite Nat2Z.id, run_bind.
  change (OArr (replicate (length xs) None)) with (partial [] (length xs)).
  rewrite (run_fill_array C L a t xs _ (AZ ∘ to_uint64 ∘ tointeger) vs 19); [|done|done|].
  2:{ intros x vs' n' w' Hx. apply (run_tointeger_elem L to_uint64). by apply (proj1 (list.Forall_forall _ _) Hxs). }
  cbn [andthen]. rewrite run_bind. fold w2. change (1 + 19)%nat with 20%nat. rewrite R3. done.
Qed.

Lemma exec_get_number_array L u s ns h w p l a :
  handle [VStr s; VUd u] h 1 NVLIST_METATABLE p -> p ≠ 0 ->
  list_at C w p l -> nv_err l = 0 ->
  nv_find (cstr s) (cst "NV_TYPE_NUMBER_ARRAY") l = Some (NvArr a (Z.of_nat (length ns))) ->
  wm w !! a = Some (carray ns) ->
  exists w', executes C L (NVLIST_GET get_number_array) [VUd u; VStr s] h w (Ok [VTab (fresh h)])
      (put L (idle (alloc_tab (Table (arr (VInt ∘ to_long <$> ns)) None) h)) w') /\
    nv_view (wx w') = nv_view (wx w) /\ wm w' = wm w.
Proof.
  intros Hh Hp Hl He Hn Hm.
  destruct (run_checknvlist C L 1 p l [VStr s; VUd u] 17 h w) as (w1 & R1 & S1); [done..|].
  pose proof (list_at_step _ _ _ _ _ Hl S1) as Hl1.
  destruct (run_checkname C L 2 p l s (cst "NV_TYPE_NUMBER_ARRAY") (NvArr a (Z.of_nat (length ns)))
    [VStr s; VUd u] 20 h w1) as (w2 & R2 & S2); [done..|].
  pose proof (list_at_step _ _ _ _ _ Hl1 S2) as Hl2.
  destruct (run_nv C L "nvlist_get_number_array" [AZ p; AS (cstr s)] (LS [VStr s; VUd u] 20 h) w2
    (Cret a [AZ (Z.of_nat (length ns))]) (nv_view (wx w2))) as (w3 & R3 & S3).
  { apply Forall_cons; [|apply Forall_cons; [|apply Forall_nil]]; cbn; rewrite Hl2; [done|].
    eexists; exact Hn. }
  { cbn. unfold nv_lookup. by rewrite Hl2, Hn. }
  assert (Hm3 : wm w3 = wm w) by by rewrite (lib_wm _ _ _ _ S3), (lib_wm _ _ _ _ S2), (lib_wm _ _ _ _ S1).
  exists w3. split_all; [| |done].
  2:{ by rewrite (lib_view _ _ _ _ S3), (lib_view _ _ _ _ S2), (lib_view _ _ _ _ S1). }
  apply (executes_return C L _ _ h w [VTab (fresh h)] [VStr s; VUd u] 19).
  unfold NVLIST_GET. rewrite run_bind. unfold frame, LUA_MINSTACK. cbn [rev app]. change 20%nat with (3 + 17)%nat.
  rewrite R1. cbn [andthen]. unfold get_number_array. rewrite run_bind.
  change (3 + 17)%nat with 20%nat. rewrite R2. cbn [andthen]. rewrite run_bind, R3. cbn [andthen rc].
  change (out_int 0 (Cret a [AZ (Z.of_nat (length ns))])) with (Z.of_nat (length ns)).
  rewrite run_bind. change 20%nat with (2 + 18)%nat.
  rewrite (run_push_array C L a ns _ (VInt ∘ to_long)); [done|by rewrite Hm3|done|].
  intros z vs n h' w'. lua_run. done.
Qed.

(** C37. A Lua array of numbers added to a list comes back as a new Lua array with the same
    integers in the same order; elements that are no numbers become 0. The C array is
    handed over to the list, at whose address it stays; nothing else in memory changes. *)
Theorem number_array_roundtrip L u t s xs h w p l :
  handle [VTab t; VStr s; VUd u] h 1 NVLIST_METATABLE p -> handle [VStr s; VUd u] h 1 NVLIST_METATABLE p ->
  p ≠ 0 -> list_at C w p l -> nv_flags l = 0 -> nv_err l = 0 -> nv_has (cstr s) l = false ->
  tabs h !! t = Some (Table (arr xs) None) -> xs ≠ [] -> Z.of_nat (length xs) < 2 ^ 31 ->
  Forall (fun x => is_str x = false /\ - 2 ^ 63 <= tointeger x < 2 ^ 63) xs ->
  woom w (to_size (Z.of_nat (length xs) * sizeof_uint64)) (wnext w) = false -> wnext w ≠ 0 ->
  exists w1 w2 l',
    executes C L l_nvlist_add_number_array [VUd u; VStr s; VTab t] h w (Ok []) (put L (idle h) w1) /\
    executes C L (NVLIST_GET get_number_array) [VUd u; VStr s] h w1 (Ok [VTab (fresh h)])
      (put L (idle (alloc_tab (Table (arr (VInt ∘ tointeger <$> xs)) None) h)) w2) /\
    nv_view (wx w2) = set_list p l' (nv_view (wx w)) /\
    nv_find (cstr s) (cst "NV_TYPE_NUMBER_ARRAY") l' = Some (NvArr (wnext w) (Z.of_nat (length xs))) /\
    wm w2 = <[wnext w := carray (to_uint64 ∘ tointeger <$> xs)]> (wm w).
Proof.
  intros Hh1 Hh2 Hp Hl Hf He Hn Ht Hne Hlen Hxs Ho Hz.
  destruct (exec_add_number_array L u t s xs h w p l) as (w1 & l' & E1 & V1 & He1 & Hv & M1); [done..| |done|done|].
  { eapply list.Forall_impl; [exact Hxs|]. by intros x []. }
  set (ns := to_uint64 ∘ tointeger <$> xs) in *.
  destruct (exec_get_number_array L u s ns h w1 p l' (wnext w)) as (w2 & E2 & V2 & M2); [done|done| |done| | |].
  { unfold list_at. rewrite V1. cbn. apply lookup_insert_eq. }
  { unfold ns. by rewrite length_fmap. }
  { rewrite M1. apply lookup_insert_eq. }
  exists w1, w2, l'. split_all; [done| |by rewrite V2, V1|done|by rewrite M2, M1].
  replace (VInt ∘ tointeger <$> xs) with (VInt ∘ to_long <$> ns); [done|].
  unfold ns. rewrite <- list_fmap_compose. apply list_fmap_ext. intros i x Hx. cbn.
  rewrite Forall_lookup in Hxs. destruct (Hxs i x Hx) as [_ Hr]. by rewrite uint64_roundtrip.
Qed.
End number_arrays.

(** ** Witnesses *)

(** the three metatables are tables 1, 3 and 5; userdata 2 is a list (at 4000), userdata 4
    another (at 5000); table 7 is an array *)
Definition nv_heap3 (xs : list value) : heap :=
  Heap {[ 0%nat := Table ∅ None; 1%nat := Table ∅ None; 3%nat := Table ∅ None; 5%nat := Table ∅ None;
          7%nat := Table (arr xs) None ]} ∅
    {[ 2%nat := Udata (Some 1%nat) [VLud 4000] 0; 4%nat := Udata (Some 1%nat) [VLud 5000] 0 ]}
    {[ inl NVLIST_METATABLE := VTab 1; inl CONST_NVLIST_METATABLE := VTab 3;
       inl CNVLIST_METATABLE := VTab 5 ]} 0 10.

Ltac is_handle := eexists _, _; split; [vm_compute; reflexivity|reflexivity].

Lemma number_roundtrip_witness :
  exists w1 w2 l',
    executes toy_clib 0 l_nvlist_add_number [VUd 2; VStr "a"; VInt (-5)] (nv_heap3 [])
      (toy_world [(4000, empty_nvl)] ∅) (Ok []) (put 0%nat (idle (nv_heap3 [])) w1) /\
    executes toy_clib 0 (NVLIST_GET get_number) [VUd 2; VStr "a"] (nv_heap3 []) w1 (Ok [VInt (-5)])
      (put 0%nat (idle (nv_heap3 [])) w2) /\
    nv_pairs l' = [] ++ [(cstr "a", (cst "NV_TYPE_NUMBER", NvInt ((-5) mod 2 ^ 64)))] /\
    nv_view (wx w2) = set_list 4000 l' (nv_view (wx (toy_world [(4000, empty_nvl)] ∅))).
Proof.
  apply (number_roundtrip toy_clib 0 2 "a" (-5) (nv_heap3 []) (toy_world [(4000, empty_nvl)] ∅) 4000 empty_nvl);
    [is_handle|is_handle|done|vm_compute; reflexivity|reflexivity|reflexivity|reflexivity|lia].
Defined.

Lemma number_array_roundtrip_witness :
  exists w1 w2 l',
    executes toy_clib 0 l_nvlist_add_number_array [VUd 2; VStr "a"; VTab 7] (nv_heap3 [VInt 1; VInt (-2); VBool true])
      (toy_world [(4000, empty_nvl)] ∅) (Ok [])
      (put 0%nat (idle (nv_heap3 [VInt 1; VInt (-2); VBool true])) w1) /\
    executes toy_clib 0 (NVLIST_GET get_number_array) [VUd 2; VStr "a"] (nv_heap3 [VInt 1; VInt (-2); VBool true]) w1
      (Ok [VTab 10]) (put 0%nat (idle (alloc_tab
        (Table (arr (VInt ∘ tointeger <$> [VInt 1; VInt (-2); VBool true])) None)
        (nv_heap3 [VInt 1; VInt (-2); VBool true]))) w2) /\
    nv_view (wx w2) = set_list 4000 l' (nv_view (wx (toy_world [(4000, empty_nvl)] ∅))) /\
    nv_find (cstr "a") (cst "NV_TYPE_NUMBER_ARRAY") l' = Some (NvArr 4096 3) /\
    wm w2 = <[4096 := carray (to_uint64 ∘ tointeger <$> [VInt 1; VInt (-2); VBool true])]> ∅.
Proof.
  apply (number_array_roundtrip toy_clib 0 2 7 "a" [VInt 1; VInt (-2); VBool true]
    (nv_heap3 [VInt 1; VInt (-2); VBool true]) (toy_world [(4000, empty_nvl)] ∅) 4000 empty_nvl);
    [is_handle|is_handle|done|vm_compute; reflexivity|reflexivity|reflexivity|reflexivity| |done|done| |
     reflexivity|done].
  - vm_compute; reflexivity.
  - repeat (apply Forall_cons; [split; [reflexivity|cbn; lia]|]). apply Forall_nil.
Defined.
