(* ===== verification/NvRefs.v ===== *)
(** * Nested lists, references and iteration

    Who owns a list after it was moved into another one, which handles the
    functions accept where a list is wanted, and what the references and cookies
    that getters and [next] return are worth later. *)

From stdpp Require Import strings.
From S2P Require Import Prelude LuaApi Arrays Registry Machine Capi Samples Utils Cmem Modules Uio Guards Nv NvLib NvProps.

(** the module is loaded: its three metatables are registered, and different *)
Record nv_loaded (h : heap) (mn mc mk : nat) : Prop := {
  nl_nvlist : reg_get (inl NVLIST_METATABLE) h = VTab mn;
  nl_const : reg_get (inl CONST_NVLIST_METATABLE) h = VTab mc;
  nl_cookie : reg_get (inl CNVLIST_METATABLE) h = VTab mk;
  nl_distinct : mn ≠ mc /\ mc ≠ mk /\ mn ≠ mk
}.

Lemma handle_meta vs h i mt p m :
  handle vs h i mt p -> reg_get (inl mt) h = VTab m ->
  exists u d, at_ vs i = Val (VUd u) /\ uds h !! u = Some d /\ ud_meta d = Some m /\
    ud_uv d !! 0%nat = Some (VLud p).
Proof.
  intros (u & d & Hu & Hc) Hr. destruct (udata_of_at _ _ _ _ _ _ Hu) as [Ha Hd].
  unfold udata_of in Hu. rewrite Ha, Hd, Hr in Hu.
  destruct (ud_meta d) as [m'|] eqn:Hm; [|done]. case_decide; [|done]. subst m'. by exists u, d.
Qed.

Lemma handle_intro vs h i mt m u d p :
  at_ vs i = Val (VUd u) -> uds h !! u = Some d -> ud_meta d = Some m -> reg_get (inl mt) h = VTab m ->
  ud_uv d !! 0%nat = Some (VLud p) -> handle vs h i mt p.
Proof.
  intros Ha Hd Hm Hr Hc. exists u, d. split; [|done]. unfold udata_of. rewrite Ha, Hd, Hm, Hr.
  by rewrite decide_True.
Qed.

Section refs.
Context `{LuaSem} `{Consts} {S : Type} `{Libc S} (C : clib S) `{!NvLib C}.
Implicit Types (w : world S lstate) (L : nat) (vs : list value) (h : heap) (p q : Z).
Abbreviation rn := (run (documented C)).

(** ** Which handles are lists *)

Lemma run_argexpected_false L i name s w :
  rn (luaL_argexpected L false i name) (put L s w) = (Halt (Raise (EType i name)), put L s w).
Proof. unfold luaL_argexpected. lua_run. done. Qed.

(** a handle that was emptied is refused as receiver *)
Lemma run_checknvlist_null L i vs n h w :
  0 < i -> handle vs h i NVLIST_METATABLE 0 ->
  rn (checknvlist L i) (put L (LS vs (3 + n) h) w) =
  (Halt (Raise (EType i NVLIST_METATABLE)), put L (LS vs (3 + n) h) w).
Proof.
  intros Hi Hh. unfold checknvlist. rewrite run_bind, (run_getnvlist C L i NVLIST_METATABLE 0) by done.
  cbn [andthen]. change (negb (0 =? 0)) with false. by rewrite run_bind, run_argexpected_false.
Qed.

(** [checkanynvlist] refuses the lists scripts create ... *)
Lemma run_checkany_owned L i p mn mc mk vs n h w :
  0 < i -> handle vs h i NVLIST_METATABLE p -> nv_loaded h mn mc mk ->
  rn (checkanynvlist L i) (put L (LS vs (3 + n) h) w) =
  (Halt (Raise (EType i NVLIST_METATABLE)), put L (LS vs (3 + n) h) w).
Proof.
  intros Hi Hh [Hn Hc _ (Hne & _ & _)].
  destruct (handle_meta _ _ _ _ _ _ Hh Hn) as (u & d & Ha & Hd & Hm & Hv).
  unfold checkanynvlist, getanynvlist. lua_run. know Ha, Hd. cbn [fmap option_fmap option_map].
  know Hm. lua_run. know Hn. lua_run. know Hc. lua_run. rewrite bool_decide_false by congruence. lua_run.
  rewrite bool_decide_false by congruence. lua_run. change (negb (0 =? 0)) with false.
  by rewrite run_argexpected_false.
Qed.

(** ... and accepts references *)
Lemma run_checkany_const L i p l mn mc mk vs n h w :
  0 < i -> handle vs h i CONST_NVLIST_METATABLE p -> p ≠ 0 -> nv_loaded h mn mc mk ->
  list_at C w p l -> nv_err l = 0 ->
  exists w', rn (checkanynvlist L i) (put L (LS vs (4 + n) h) w) = (Ok p, put L (LS vs (4 + n) h) w') /\
    lib_step C w w' (nv_view (wx w)).
Proof.
  intros Hi Hh Hp [Hn Hc _ (Hne & _ & _)] Hl He.
  destruct (run_nv C L "nvlist_error" [AZ p] (LS vs (4 + n) h) w (Cret 0 []) (nv_view (wx w)))
    as (w' & Hr & Hs); [by constructor| |].
  { cbn. by rewrite Hl, He. }
  exists w'. split; [|done].
  destruct (handle_meta _ _ _ _ _ _ Hh Hc) as (u & d & Ha & Hd & Hm & Hv).
  unfold checkanynvlist, getanynvlist, getcookie, COOKIE. lua_run. know Ha, Hd. cbn [fmap option_fmap option_map].
  know Hm. lua_run. know Hn. lua_run. know Hc. lua_run. rewrite bool_decide_false by congruence. lua_run.
  rewrite bool_decide_true by done. lua_run.
  know (at_cons _ _ _ (VTab mc) Hi (at_cons _ _ _ (VTab mn) Hi (at_cons _ _ _ (VTab mc) Hi Ha))), Hd.
  know Hv. lua_run. rewrite run_argcheck_true. lua_run.
  assert (Hpop : doc_settop (- (4) - 1) (LS (VLud p :: VTab mc :: VTab mn :: VTab mc :: vs) n h) =
    (Ok tt, LS vs (4 + n) h)).
  { rewrite (doc_settop_neg 4) by (cbn; lia). by rewrite Nat.add_comm. }
  rewrite Hpop. lua_run. rewrite (proj2 (Z.eqb_neq p 0)) by done. cbn [negb luaL_argexpected].
  rewrite run_ret. cbn [andthen]. rewrite run_bind. change (Datatypes.S (Datatypes.S (Datatypes.S (Datatypes.S n)))) with (4 + n)%nat.
  rewrite Hr. cbn [andthen rc]. done.
Qed.
(** A list that a script created cannot be nested in another one: [add_nvlist] refuses it
    with an error that says a list was expected, whatever it contains. (The check compares
    the wrong stack slots; it accepts references only.) The receiver stays as it was. *)
Theorem owned_list_refused L u v s h w p q l mn mc mk :
  handle [VUd v; VStr s; VUd u] h 1 NVLIST_METATABLE p -> p ≠ 0 -> list_at C w p l -> nv_err l = 0 ->
  handle [VUd v; VStr s; VUd u] h 3 NVLIST_METATABLE q -> nv_loaded h mn mc mk ->
  exists w', executes C L l_nvlist_add_nvlist [VUd u; VStr s; VUd v] h w
      (Halt (Raise (EType 3 NVLIST_METATABLE))) (put L (idle h) w') /\
    nv_view (wx w') = nv_view (wx w).
Proof.
  intros Hh Hp Hl He Hq Hload.
  destruct (run_checknvlist C L 1 p l [VUd v; VStr s; VUd u] 17 h w) as (w1 & R1 & S1); [done..|].
  exists w1. split; [|by rewrite (lib_view _ _ _ _ S1)].
  apply (executes_halt C L _ _ h w _ [VUd v; VStr s; VUd u] 20); [|done].
  unfold l_nvlist_add_nvlist, frame, LUA_MINSTACK. cbn [rev app]. rewrite run_bind.
  change 20%nat with (3 + 17)%nat. rewrite R1. cbn [andthen].
  rewrite run_bind, (run_checkstring C L 2 s) by done. cbn [andthen].
  rewrite run_bind, (run_checkany_owned L 3 q mn mc mk) by done. done.
Qed.

(** ** Moving *)

(** a list that can take [name] and does not contain it *)
Definition can_take (w : world S lstate) p l name : Prop :=
  p ≠ 0 /\ list_at C w p l /\ nv_flags l = 0 /\ nv_err l = 0 /\ nv_has name l = false.

Lemma exec_move_nvlist L u v s h w p q l lq d m :
  handle [VUd v; VStr s; VUd u] h 1 NVLIST_METATABLE p -> handle [VUd v; VStr s; VUd u] h 3 NVLIST_METATABLE q ->
  reg_get (inl NVLIST_METATABLE) h = VTab m -> uds h !! v = Some d -> ud_meta d = Some m ->
  can_take w p l (cstr s) -> q ≠ 0 -> list_at C w q lq -> nv_err lq = 0 ->
  exists w' l', executes C L l_nvlist_move_nvlist [VUd u; VStr s; VUd v] h w (Ok [])
      (put L (idle (set_ud v (with_cookie 0 d) h)) w') /\
    nv_view (wx w') = set_list p l' (nv_view (wx w)) /\ nv_err l' = 0 /\
    nv_find (cstr s) (cst "NV_TYPE_NVLIST") l' = Some (NvInt q).
Proof.
  intros Hh Hq Hr Hd Hm (Hp & Hl & Hf & He & Hn) Hq0 Hlq Heq. set (vs := [VUd v; VStr s; VUd u]) in *.
  destruct (run_checknvlist C L 1 p l vs 17 h w) as (w1 & R1 & S1); [done..|].
  pose proof (list_at_step _ _ _ _ _ Hl S1) as Hl1. pose proof (list_at_step _ _ _ _ _ Hlq S1) as Hlq1.
  destruct (run_checknvlist C L 3 q lq vs 17 h w1) as (w2 & R2 & S2); [done..|].
  pose proof (list_at_step _ _ _ _ _ Hl1 S2) as Hl2.
  set (h' := set_ud v (with_cookie 0 d) h).
  destruct (run_nv_add C L "nvlist_move_nvlist" p l (cstr s) "NV_TYPE_NVLIST" (NvInt q)
    [AZ p; AS (cstr s); AZ q] (LS vs 20 h') w2) as (w3 & l' & R3 & S3 & Hl' & Hv); [done..|].
  exists w3, l'. split_all; [| |by rewrite Hl'|done].
  2:{ by rewrite (lib_view _ _ _ _ S3), (lib_view _ _ _ _ S2), (lib_view _ _ _ _ S1). }
  apply (executes_return C L _ _ h w [] vs 20). unfold l_nvlist_move_nvlist, frame, LUA_MINSTACK.
  cbn [rev app]. fold vs. rewrite run_bind. change 20%nat with (3 + 17)%nat. rewrite R1. cbn [andthen].
  rewrite run_bind, (run_checkstring C L 2 s) by done. cbn [andthen].
  rewrite run_bind, R2. cbn [andthen]. rewrite run_bind. change (3 + 17)%nat with (1 + 19)%nat.
  rewrite (run_setcookie C L 3 0 v d) by done. cbn [andthen]. fold h'. rewrite run_bind.
  change (1 + 19)%nat with 20%nat. rewrite R3. done.
Qed.

(** collecting an emptied handle destroys nothing *)
Lemma exec_gc_null L v h w :
  handle [VUd v] h 1 NVLIST_METATABLE 0 ->
  exists w', executes C L l_nvlist_gc [VUd v] h w (Ok []) (put L (idle h) w') /\ nv_view (wx w') = nv_view (wx w).
Proof.
  intros Hh.
  destruct (run_nv C L "nvlist_destroy" [AZ 0] (LS [VUd v] 20 h) w (Cret 0 []) (nv_view (wx w)))
    as (w' & R & St); [by constructor|done|].
  exists w'. split; [|by rewrite (lib_view _ _ _ _ St)].
  apply (executes_return C L _ _ h w [] [VUd v] 20). unfold l_nvlist_gc.
  rewrite run_bind, (run_checkcookienull_frame C L 1 NVLIST_METATABLE 0) by done. cbn [andthen].
  unfold frame, LUA_MINSTACK. cbn [rev app]. rewrite run_bind, R. done.
Qed.

(** collecting a full one destroys its list, and only that *)
Lemma exec_gc L v h w q lq :
  handle [VUd v] h 1 NVLIST_METATABLE q -> q ≠ 0 -> list_at C w q lq ->
  exists w', executes C L l_nvlist_gc [VUd v] h w (Ok []) (put L (idle h) w') /\
    nv_view (wx w') = del_list q (nv_view (wx w)).
Proof.
  intros Hh Hq Hl.
  destruct (run_nv C L "nvlist_destroy" [AZ q] (LS [VUd v] 20 h) w (Cret 0 []) (del_list q (nv_view (wx w))))
    as (w' & R & St); [by constructor| |].
  { cbn. rewrite (proj2 (Z.eqb_neq q 0)) by done. by rewrite Hl. }
  exists w'. split; [|by rewrite (lib_view _ _ _ _ St)].
  apply (executes_return C L _ _ h w [] [VUd v] 20). unfold l_nvlist_gc.
  rewrite run_bind, (run_checkcookienull_frame C L 1 NVLIST_METATABLE q) by done. cbn [andthen].
  unfold frame, LUA_MINSTACK. cbn [rev app]. rewrite run_bind, R. done.
Qed.

(** C35. Moving a list into another one hands it over: afterwards the list is the value of the
    new pair, the handle it was moved from is empty, collecting that handle destroys
    nothing, and using it as a list is an error. So the list has one owner throughout. *)
Theorem move_nvlist_owner L u v s h w p q l lq :
  handle [VUd v; VStr s; VUd u] h 1 NVLIST_METATABLE p -> handle [VUd v; VStr s; VUd u] h 3 NVLIST_METATABLE q ->
  can_take w p l (cstr s) -> p ≠ q -> q ≠ 0 -> list_at C w q lq -> nv_err lq = 0 ->
  exists h' w1 w2 l',
    executes C L l_nvlist_move_nvlist [VUd u; VStr s; VUd v] h w (Ok []) (put L (idle h') w1) /\
    nv_find (cstr s) (cst "NV_TYPE_NVLIST") l' = Some (NvInt q) /\ list_at C w1 p l' /\ list_at C w1 q lq /\
    executes C L l_nvlist_gc [VUd v] h' w1 (Ok []) (put L (idle h') w2) /\
    nv_view (wx w2) = nv_view (wx w1) /\
    executes C L l_nvlist_empty [VUd v] h' w1 (Halt (Raise (EType 1 NVLIST_METATABLE))) (put L (idle h') w1).
Proof.
  intros Hh Hq Ht Hpq Hq0 Hlq Heq.
  pose proof Hq as (v' & d & Hud & _). destruct (udata_of_at _ _ _ _ _ _ Hud) as [Ha Hd].
  injection Ha as <-.
  assert (Hm : exists m, ud_meta d = Some m /\ reg_get (inl NVLIST_METATABLE) h = VTab m).
  { unfold udata_of in Hud. change (at_ _ 3) with (Val (VUd v)) in Hud. cbn in Hud. rewrite Hd in Hud.
    repeat case_match; simplify_eq; eauto. }
  destruct Hm as (m & Hm & Hr).
  destruct (exec_move_nvlist L u v s h w p q l lq d m) as (w1 & l' & E1 & V1 & He1 & Hf1); [done..|].
  set (h' := set_ud v (with_cookie 0 d) h) in *.
  assert (Hnull : handle [VUd v] h' 1 NVLIST_METATABLE 0).
  { apply (handle_intro _ _ _ _ m v (with_cookie 0 d)); [done|apply uds_set_ud|done|done|].
    destruct (handle_meta _ _ _ _ _ _ Hq Hr) as (v2 & d2 & Ha2 & Hd2 & _ & Hc2). injection Ha2 as <-.
    rewrite Hd in Hd2. injection Hd2 as <-. cbn. apply list_lookup_insert_eq. by eapply lookup_lt_Some. }
  destruct (exec_gc_null L v h' w1 Hnull) as (w2 & E2 & V2).
  exists h', w1, w2, l'. split_all; [done|done| | |done|done|].
  - unfold list_at. rewrite V1. cbn. apply lookup_insert_eq.
  - unfold list_at. rewrite V1. cbn. by rewrite lookup_insert_ne.
  - apply (executes_halt C L _ _ h' w1 _ [VUd v] 20); [|done]. unfold l_nvlist_empty.
    unfold frame, LUA_MINSTACK. cbn [rev app]. change 20%nat with (3 + 17)%nat.
    rewrite run_bind, (run_checknvlist_null L 1) by done. done.
Qed.
End refs.

Section iteration.
Context `{LuaSem} `{Consts} {S : Type} `{Libc S} (C : clib S) `{!NvLib C}.
Implicit Types (w : world S lstate) (L : nat) (vs : list value) (h : heap) (p q : Z).
Abbreviation rn := (run (documented C)).

(** an older handle is the same in a heap with a new userdata *)
Lemma handle_alloc vs h i mt p u d :
  handle vs h i mt p -> at_ vs i = Val (VUd u) -> u ≠ fresh h ->
  handle vs (bump (set_ud (fresh h) d h)) i mt p.
Proof.
  intros (u' & d' & Hu & Hc) Ha Hne. exists u', d'. split; [|done].
  destruct (udata_of_at _ _ _ _ _ _ Hu) as [Ha' Hd']. rewrite Ha in Ha'. injection Ha' as <-.
  unfold udata_of in *. rewrite Ha in *. cbn. rewrite lookup_insert_ne by done. exact Hu.
Qed.

Lemma set_ud_id u d h : uds h !! u = Some d -> set_ud u d h = h.
Proof. intros Hu. unfold set_ud. rewrite insert_id by done. by destruct h. Qed.

(** the cookie [next] returns is the one it started with *)
Lemma run_next_first L u h w p l name type v k mk :
  list_at C w p (Nvl 0 0 ((name, (type, v)) :: l)) -> firsts (nv_view (wx w)) !! p = Some k ->
  reg_get (inl CNVLIST_METATABLE) h = VTab mk ->
  exists w', rn (next L p) (put L (LS [VUd u] 20 h) w) =
      (Ok 3, put L (LS [VInt type; VStr (cstr name); VUd (fresh h); VUd u] 17 (alloc_handle mk 0 h)) w') /\
    nv_view (wx w') = nv_view (wx w).
Proof.
  intros Hl Hk Hr. set (h1 := alloc_handle mk 0 h).
  destruct (run_nv C L "nvlist_next" [AZ p; AZ 0] (LS [VUd (fresh h); VUd u] 19 h1) w
    (Cret 1 [AS name; AZ type; AZ k]) (nv_view (wx w))) as (w' & R & St).
  { apply Forall_cons; [|apply Forall_nil]. cbn. by rewrite Hl. }
  { cbn. by rewrite Hl, Hk. }
  exists w'. split; [|by rewrite (lib_view _ _ _ _ St)].
  unfold next, lua_isnoneornil. lua_run. change 20%nat with (2 + 18)%nat.
  rewrite (run_new C L 0 CNVLIST_METATABLE mk [VUd u] 18 h) by done. fold h1. cbn [andthen].
  lua_run. cbn [length]. change (2 <? Z.of_nat 2) with false. cbv iota. lua_run.
  change (1 + 18)%nat with 19%nat. rewrite R. cbn [andthen rc]. change (1 =? 0) with false. cbv iota.
  unfold setref, lua_absindex, REF. lua_run. cbn [Z.ltb Z.compare]. lua_run.
  assert (Hu1 : uds h1 !! fresh h = Some (Udata (Some mk) [VLud 0] 0)) by apply lookup_insert_eq.
  change (at_ _ (Z.of_nat 2 + -1 + 1)) with (Val (VUd (fresh h))). cbv iota. know Hu1. lua_run.
  cbn [ud_uv ud_meta ud_blk insert list_insert pred]. rewrite (set_ud_id _ _ h1 Hu1). done.
Qed.

(** Iterating with [next] ends after the first pair. The first call returns the cookie object
    first, then name and type (the manual has it last); the position [nvlist_next] found
    is not stored in that object, so passing it to [next] again raises an error. *)
Theorem next_cookie_expired L u h w p l name type v k mn mc mk :
  handle [VUd u] h 1 NVLIST_METATABLE p -> p ≠ 0 -> (u < fresh h)%nat -> nv_loaded h mn mc mk ->
  list_at C w p (Nvl 0 0 ((name, (type, v)) :: l)) -> firsts (nv_view (wx w)) !! p = Some k ->
  exists w1 w2,
    executes C L l_nvlist_next [VUd u] h w (Ok [VUd (fresh h); VStr (cstr name); VInt type])
      (put L (idle (alloc_handle mk 0 h)) w1) /\
    executes C L l_nvlist_next [VUd u; VUd (fresh h)] (alloc_handle mk 0 h) w1
      (Halt (Raise (EArg 2 "cookie expired"))) (put L (idle (alloc_handle mk 0 h)) w2).
Proof.
  intros Hh Hp Hu Hload Hl Hk. pose proof Hload as [Hn Hc Hck _]. set (l0 := Nvl 0 0 _) in *.
  destruct (run_checknvlist C L 1 p l0 [VUd u] 17 h w) as (w1 & R1 & S1); [done..|].
  pose proof (list_at_step _ _ _ _ _ Hl S1) as Hl1.
  destruct (run_next_first L u h w1 p l name type v k mk) as (w2 & R2 & V2); [done| |done|].
  { by rewrite (lib_view _ _ _ _ S1). }
  set (h1 := alloc_handle mk 0 h) in *.
  assert (Hh1 : handle [VUd (fresh h); VUd u] h1 1 NVLIST_METATABLE p).
  { apply (handle_alloc _ _ _ _ _ u); [|done|lia].
    destruct Hh as (u' & d & Hud & Hcv). exists u', d. split; [|done].
    unfold udata_of in *. exact Hud. }
  destruct (run_checknvlist C L 1 p l0 [VUd (fresh h); VUd u] 17 h1 w2) as (w3 & R3 & S3); [done..| |done|].
  { unfold list_at. by rewrite V2. }
  exists w2, w3. split.
  - apply (executes_return C L _ _ h w [VUd (fresh h); VStr (cstr name); VInt type] [VUd u] 17).
    unfold l_nvlist_next, frame, LUA_MINSTACK. cbn [rev app]. rewrite run_bind.
    change 20%nat with (3 + 17)%nat. rewrite R1. cbn [andthen]. exact R2.
  - apply (executes_halt C L _ _ h1 w2 _ [VUd (fresh h); VUd u] 20); [|done].
    unfold l_nvlist_next, frame, LUA_MINSTACK. cbn [rev app]. rewrite run_bind.
    change 20%nat with (3 + 17)%nat. rewrite R3. cbn [andthen]. unfold next, lua_isnoneornil. lua_run.
    change (Datatypes.S (Datatypes.S (Datatypes.S 17))) with (1 + 19)%nat.
    rewrite (run_checkcookie_expired C L 2 CNVLIST_METATABLE); [done|].
    apply (handle_intro _ _ _ _ mk (fresh h) (Udata (Some mk) [VLud 0] 0)); [done| |done|done|done].
    unfold h1, alloc_handle. cbn. apply lookup_insert_eq.
Qed.

(** ** References *)

Lemma nv_has_of_find l name type v : nv_find name type l = Some v -> nv_has name l = true.
Proof.
  intros Hf. destruct (nv_has name l) eqn:E; [done|]. by rewrite nv_has_find in Hf.
Qed.

(** A reference obtained from a list outlives what it refers to: after [get_nvlist] and then
    [free_nvlist] of the same name, the nested list is gone from the library, and the
    reference still carries its address and passes for a live reference; all the
    reference keeps alive is the Lua handle of the outer list. *)
Theorem reference_dangles L u s h w p q l lq mn mc mk :
  handle [VStr s; VUd u] h 1 NVLIST_METATABLE p -> p ≠ 0 -> (u < fresh h)%nat -> nv_loaded h mn mc mk ->
  list_at C w p l -> nv_err l = 0 -> nv_find (cstr s) (cst "NV_TYPE_NVLIST") l = Some (NvInt q) ->
  list_at C w q lq -> p ≠ q -> q ≠ 0 ->
  exists w1 w2,
    executes C L (NVLIST_GET get_nvlist) [VUd u; VStr s] h w (Ok [VUd (fresh h)])
      (put L (idle (alloc_ref mc q (VUd u) h)) w1) /\ list_at C w1 q lq /\
    executes C L (NVLIST_FREE "nvlist" "NVLIST") [VUd u; VStr s] (alloc_ref mc q (VUd u) h) w1 (Ok [])
      (put L (idle (alloc_ref mc q (VUd u) h)) w2) /\
    handle [VUd (fresh h)] (alloc_ref mc q (VUd u) h) 1 CONST_NVLIST_METATABLE q /\
    lists (nv_view (wx w2)) !! q = None.
Proof.
  intros Hh Hp Hu Hload Hl He Hf Hlq Hpq Hq. pose proof Hload as [Hn Hc Hck _].
  set (vs := [VStr s; VUd u]) in *. set (h1 := alloc_ref mc q (VUd u) h).
  destruct (run_checknvlist C L 1 p l vs 17 h w) as (w1 & R1 & S1); [done..|].
  pose proof (list_at_step _ _ _ _ _ Hl S1) as Hl1.
  destruct (run_checkname C L 2 p l s (cst "NV_TYPE_NVLIST") (NvInt q) vs 20 h w1) as (w2 & R2 & S2); [done..|].
  pose proof (list_at_step _ _ _ _ _ Hl1 S2) as Hl2.
  destruct (run_nv C L "nvlist_get_nvlist" [AZ p; AS (cstr s)] (LS vs 20 h) w2 (Cret q []) (nv_view (wx w2)))
    as (w3 & R3 & S3).
  { apply Forall_cons; [|apply Forall_cons; [|apply Forall_nil]]; cbn; rewrite Hl2; [done|eexists; exact Hf]. }
  { cbn. unfold nv_lookup. by rewrite Hl2, Hf. }
  pose proof (list_at_step _ _ _ _ _ Hl2 S3) as Hl3.
  assert (V3 : nv_view (wx w3) = nv_view (wx w)).
  { by rewrite (lib_view _ _ _ _ S3), (lib_view _ _ _ _ S2), (lib_view _ _ _ _ S1). }
  assert (Hh1 : handle vs h1 1 NVLIST_METATABLE p) by (apply (handle_alloc _ _ _ _ _ u); [done|done|lia]).
  destruct (run_checknvlist C L 1 p l vs 17 h1 w3) as (w4 & R4 & S4); [done..|].
  pose proof (list_at_step _ _ _ _ _ Hl3 S4) as Hl4.
  destruct (run_checkname C L 2 p l s (cst "NV_TYPE_NVLIST") (NvInt q) vs 20 h1 w4) as (w5 & R5 & S5); [done..|].
  pose proof (list_at_step _ _ _ _ _ Hl4 S5) as Hl5.
  set (v6 := set_list p (nv_remove (cstr s) (cst "NV_TYPE_NVLIST") l) (del_list q (nv_view (wx w5)))).
  destruct (run_nv C L "nvlist_free_nvlist" [AZ p; AS (cstr s)] (LS vs 20 h1) w5 (Cret 0 []) v6)
    as (w6 & R6 & S6).
  { apply Forall_cons; [|apply Forall_cons; [|apply Forall_nil]]; cbn; rewrite Hl5; [done|eexists; exact Hf]. }
  { cbn. rewrite Hl5. unfold nv_lookup. by rewrite Hl5, Hf. }
  exists w3, w6. split_all.
  - subst vs. apply (executes_return C L _ _ h w [VUd (fresh h)] [VStr s; VUd u] 19).
    unfold NVLIST_GET, frame, LUA_MINSTACK. cbn [rev app]. rewrite run_bind. change 20%nat with (3 + 17)%nat. rewrite R1. cbn [andthen].
    unfold get_nvlist, lua_isnoneornil. lua_run.
    change (Datatypes.S (Datatypes.S (Datatypes.S 17))) with 20%nat. rewrite R2. cbn [andthen].
    rewrite R3. cbn [andthen rc]. change 20%nat with (2 + 18)%nat.
    by rewrite (run_newref C L 1 q CONST_NVLIST_METATABLE mc (VUd u)).
  - unfold list_at. by rewrite V3.
  - apply (executes_return C L _ _ h1 w3 [] vs 20). unfold NVLIST_FREE, frame, LUA_MINSTACK.
    cbn [rev app]. fold vs. rewrite run_bind. change 20%nat with (3 + 17)%nat. rewrite R4. cbn [andthen].
    rewrite run_bind. change (3 + 17)%nat with 20%nat.
    change ("NV_TYPE_" +:+ "NVLIST") with "NV_TYPE_NVLIST". rewrite R5. cbn [andthen]. rewrite run_bind.
    change ("nvlist_free_" +:+ "nvlist") with "nvlist_free_nvlist". rewrite R6. done.
  - apply (handle_intro _ _ _ _ mc (fresh h) (Udata (Some mc) [VLud q; VUd u] 0)); [done| |done|done|done].
    unfold h1, alloc_ref. cbn. apply lookup_insert_eq.
  - rewrite (lib_view _ _ _ _ S6). cbn. rewrite lookup_insert_ne by done. apply lookup_delete_eq.
Qed.
End iteration.

(** ** Arrays of lists *)

Section list_arrays.
Context `{LuaSem} `{Consts} {S : Type} `{Libc S} (C : clib S) `{!NvLib C}.
Implicit Types (w : world S lstate) (L : nat) (vs xs : list value) (h : heap) (p q : Z).
Abbreviation rn := (run (documented C)).

(** the index -1 of the element on top is not the one [getnvlist] sees after its pushes *)
Lemma run_getnvlist_top L v q m vs n h w :
  handle (VUd v :: vs) h (-1) NVLIST_METATABLE q -> reg_get (inl NVLIST_METATABLE) h = VTab m ->
  (rn (getnvlist L (-1) NVLIST_METATABLE) (put L (LS (VUd v :: vs) (2 + n) h) w)).1 = Halt (UB "Lua API misuse").
Proof.
  intros Hq Hr. destruct (handle_meta _ _ _ _ _ _ Hq Hr) as (v' & d & Hav & Hd & Hm & Hv). injection Hav as <-.
  unfold getnvlist, getcookie, COOKIE. lua_run. know Hd. cbn [fmap option_fmap option_map].
  know Hm. lua_run. know Hr. lua_run. rewrite bool_decide_true by done. lua_run. done.
Qed.

Lemma run_getany_top L v q mn mc mk vs n h w :
  handle (VUd v :: vs) h (-1) NVLIST_METATABLE q -> nv_loaded h mn mc mk ->
  rn (getanynvlist L (-1)) (put L (LS (VUd v :: vs) (3 + n) h) w) = (Ok 0, put L (LS (VUd v :: vs) (3 + n) h) w).
Proof.
  intros Hq [Hn Hc _ (Hne & _ & _)].
  destruct (handle_meta _ _ _ _ _ _ Hq Hn) as (v' & d & Hav & Hd & Hm & Hv). injection Hav as <-.
  unfold getanynvlist. lua_run. know Hd. cbn [fmap option_fmap option_map].
  know Hm. lua_run. know Hn. lua_run. know Hc. lua_run. rewrite bool_decide_false by congruence. lua_run.
  rewrite bool_decide_false by congruence. lua_run. done.
Qed.

(** the prologue of the functions on arrays, up to the first element *)
Lemma run_array_prologue L u t s xs h w p l (size : Z) (k : Z -> string -> Z -> Z -> prog Z) :
  handle [VTab t; VStr s; VUd u] h 1 NVLIST_METATABLE p -> p ≠ 0 -> list_at C w p l -> nv_err l = 0 ->
  tabs h !! t = Some (Table (arr xs) None) -> xs ≠ [] -> Z.of_nat (length xs) < 2 ^ 31 ->
  woom w (to_size (Z.of_nat (length xs) * size)) (wnext w) = false ->
  exists w1, lib_step C w w1 (nv_view (wx w)) /\
    rn (nvl ← checknvlist L 1; name ← luaL_checkstring L 2; nitems ← array_arg L;
        value ← malloc_array size nitems; k nvl name nitems value)
       (put L (frame [VUd u; VStr s; VTab t] h) w) =
    rn (k p (cstr s) (Z.of_nat (length xs)) (wnext w))
       (put L (frame [VUd u; VStr s; VTab t] h)
          (poke (wnext w) (partial [] (length xs)) (set_next (wnext w + 1) w1))).
Proof.
  intros Hh Hp Hl He Ht Hne Hlen Ho.
  destruct (run_checknvlist C L 1 p l [VTab t; VStr s; VUd u] 17 h w) as (w1 & R1 & S1); [done..|].
  exists w1. split; [done|].
  assert (Hw1 : woom w1 = woom w /\ wnext w1 = wnext w) by (destruct S1 as (x & -> & _); done).
  destruct Hw1 as [Hw1 Hn1].
  unfold frame, LUA_MINSTACK. cbn [rev app]. rewrite run_bind. change 20%nat with (3 + 17)%nat.
  rewrite R1. cbn [andthen]. rewrite run_bind, (run_checkstring C L 2 s) by done. cbn [andthen].
  rewrite run_bind, (run_array_arg C L t xs) by done. cbn [andthen].
  rewrite run_bind. unfold malloc_array. rewrite run_malloc_ok by by rewrite Hw1, Hn1. rewrite Hn1.
  cbn [andthen]. rewrite Nat2Z.id. done.
Qed.

(** Neither function on arrays of lists works: with an array whose first element is a list,
    [move_nvlist_array] reads the user value of a metatable, which the Lua API forbids, and
    [add_nvlist_array] raises that lists were expected (having given its memory back). *)
Theorem list_arrays_fail L u t s v xs h w p q l mn mc mk :
  handle [VTab t; VStr s; VUd u] h 1 NVLIST_METATABLE p -> p ≠ 0 -> list_at C w p l -> nv_err l = 0 ->
  tabs h !! t = Some (Table (arr (VUd v :: xs)) None) -> Z.of_nat (length (VUd v :: xs)) < 2 ^ 31 ->
  handle [VUd v] h 1 NVLIST_METATABLE q -> nv_loaded h mn mc mk ->
  woom w (to_size (Z.of_nat (length (VUd v :: xs)) * sizeof_ptr)) (wnext w) = false -> wnext w ≠ 0 ->
  (run (documented C) (l_nvlist_move_nvlist_array L) (put L (frame [VUd u; VStr s; VTab t] h) w)).1 =
    Halt (UB "Lua API misuse") /\
  exists w', executes C L l_nvlist_add_nvlist_array [VUd u; VStr s; VTab t] h w
      (Halt (Raise (EArg 3 "nvlists expected"))) (put L (idle h) w') /\
    nv_view (wx w') = nv_view (wx w) /\ wm w' = delete (wnext w) (wm w).
Proof.
  intros Hh Hp Hl He Ht Hlen Hq Hload Ho Ha0. pose proof Hload as [Hn _ _ _]. set (a := wnext w) in *.
  assert (Hfor : Z.to_nat (Z.of_nat (length (VUd v :: xs))) = Datatypes.S (length xs)) by (rewrite Nat2Z.id; done).
  set (vs := [VTab t; VStr s; VUd u]).
  assert (Hqt : handle (VUd v :: vs) h (-1) NVLIST_METATABLE q) by exact Hq.
  split.
  - edestruct (run_array_prologue L u t s (VUd v :: xs) h w p l sizeof_ptr) as (w1 & S1 & R1); [done..|].
    etransitivity; [exact (f_equal fst R1)|]. cbv beta. fold a. rewrite (proj2 (Z.eqb_neq a 0)) by done.
    rewrite Hfor. cbn [for_]. unfold frame, LUA_MINSTACK. cbn [rev app]. fold vs. rewrite !run_bind.
    change (0 + 1) with (Z.of_nat 0 + 1). change 20%nat with (1 + 19)%nat.
    rewrite (run_geti_arr C L 3 t (VUd v :: xs) 0 (VUd v)) by done. cbn [andthen]. rewrite run_bind.
    change 19%nat with (2 + 17)%nat.
    match goal with |- context [andthen (rn (getnvlist L (-1) NVLIST_METATABLE) (put L (LS _ _ _) ?w0)) _] =>
      pose proof (run_getnvlist_top L v q mn vs 17 h w0 Hqt Hn) as Hu end.
    destruct (rn (getnvlist L (-1) NVLIST_METATABLE) _) as [r w2]. cbn in Hu. by subst r.
  - edestruct (run_array_prologue L u t s (VUd v :: xs) h w p l sizeof_ptr) as (w1 & S1 & R1); [done..|].
    fold a in R1. set (o := partial [] (length (VUd v :: xs))) in *.
    set (w2 := poke a o (set_next (a + 1) w1)) in *.
    exists (release a (poke a (partial [AZ 0] (length xs)) w2)). split_all.
    + eapply (executes_halt C L _ _ h w _ (VUd v :: vs) 19); [|done].
      etransitivity; [exact R1|]. cbv beta. rewrite (proj2 (Z.eqb_neq a 0)) by done.
      rewrite Hfor. cbn [for_]. unfold frame, LUA_MINSTACK. cbn [rev app]. fold vs. rewrite !run_bind.
      change (0 + 1) with (Z.of_nat 0 + 1). change 20%nat with (1 + 19)%nat.
      rewrite (run_geti_arr C L 3 t (VUd v :: xs) 0 (VUd v)) by done. cbn [andthen]. rewrite run_bind.
      change 19%nat with (3 + 16)%nat. rewrite (run_getany_top L v q mn mc mk) by done. cbn [andthen].
      rewrite run_bind, (run_load C a _ o tt (partial [AZ 0] (length xs))).
      2:{ unfold w2. cbn. apply lookup_insert_eq. }
      2:{ apply (arr_set_partial [] (length xs) (AZ 0)). }
      cbn [andthen]. change (0 =? 0) with true. cbv iota. rewrite run_bind.
      rewrite (run_free C a (partial [AZ 0] (length xs))) by (done || (cbn; apply lookup_insert_eq)).
      cbn [andthen]. by rewrite run_lua_halts.
    + by rewrite <- (lib_view _ _ _ _ S1).
    + rewrite <- (lib_wm _ _ _ _ S1). cbn. by rewrite insert_insert_eq, delete_insert_eq.
Qed.
End list_arrays.

(** ** Absent values *)

Section absent.
Context `{LuaSem} `{Consts} {S : Type} `{Libc S} (C : clib S) `{!NvLib C}.
Implicit Types (w : world S lstate) (L : nat) (h : heap) (p : Z).

(** Asking for a number that is not in the list: without a default the getter raises an
    error (libnv, which would abort, is not asked), with a default it returns the default,
    also a negative one; if the number is there the default does not matter. *)
Theorem get_number_default L u s df h w p l :
  handle [VStr s; VUd u] h 1 NVLIST_METATABLE p -> handle [VInt df; VStr s; VUd u] h 1 NVLIST_METATABLE p ->
  p ≠ 0 -> list_at C w p l -> nv_err l = 0 -> - 2 ^ 63 <= df < 2 ^ 63 ->
  (nv_find (cstr s) (cst "NV_TYPE_NUMBER") l = None ->
   (exists w', executes C L (NVLIST_GET get_number) [VUd u; VStr s] h w
      (Halt (Raise (EArg 2 "name not found"))) (put L (idle h) w') /\ nv_view (wx w') = nv_view (wx w)) /\
   (exists w', executes C L (NVLIST_GET get_number) [VUd u; VStr s; VInt df] h w (Ok [VInt df])
      (put L (idle h) w') /\ nv_view (wx w') = nv_view (wx w))) /\
  (forall n, nv_find (cstr s) (cst "NV_TYPE_NUMBER") l = Some (NvInt n) ->
   exists w', executes C L (NVLIST_GET get_number) [VUd u; VStr s; VInt df] h w (Ok [VInt (to_long n)])
      (put L (idle h) w') /\ nv_view (wx w') = nv_view (wx w)).
Proof.
  intros Hh2 Hh3 Hp Hl He Hdf.
  assert (Hdef : forall n, (match nv_find (cstr s) (cst "NV_TYPE_NUMBER") l with
      None => Some (Cret (to_uint64 df) [], nv_view (wx w)) | x => nv_value x (nv_view (wx w)) end) =
      Some (Cret n [], nv_view (wx w)) ->
    exists w', executes C L (NVLIST_GET get_number) [VUd u; VStr s; VInt df] h w (Ok [VInt (to_long n)])
      (put L (idle h) w') /\ nv_view (wx w') = nv_view (wx w)).
  { intros n Hn.
    destruct (run_checknvlist C L 1 p l [VInt df; VStr s; VUd u] 17 h w) as (w1 & R1 & S1); [done..|].
    pose proof (list_at_step _ _ _ _ _ Hl S1) as Hl1.
    destruct (run_nv C L "dnvlist_get_number" [AZ p; AS (cstr s); AZ (to_uint64 df)]
      (LS [VInt df; VStr s; VUd u] 20 h) w1 (Cret n []) (nv_view (wx w))) as (w2 & R2 & S2).
    { apply Forall_cons; [|apply Forall_nil]. cbn. by rewrite Hl1. }
    { cbn. unfold nv_lookup. by rewrite Hl1, (lib_view _ _ _ _ S1). }
    exists w2. split; [|by rewrite (lib_view _ _ _ _ S2)].
    apply (executes_return C L _ _ h w [VInt (to_long n)] [VInt df; VStr s; VUd u] 19).
    unfold NVLIST_GET, frame, LUA_MINSTACK. cbn [rev app]. rewrite run_bind. change 20%nat with (3 + 17)%nat.
    rewrite R1. cbn [andthen]. unfold get_number, lua_isnoneornil. lua_run.
    rewrite (run_checkstring C L 2 s) by done. cbn [andthen]. lua_run.
    change (Datatypes.S (Datatypes.S (Datatypes.S 17))) with 20%nat. rewrite R2. cbn [andthen]. lua_run. done. }
  split.
  - intros Hn. split.
    + destruct (run_checknvlist C L 1 p l [VStr s; VUd u] 17 h w) as (w1 & R1 & S1); [done..|].
      pose proof (list_at_step _ _ _ _ _ Hl S1) as Hl1.
      destruct (run_checkname_missing C L 2 p l s (cst "NV_TYPE_NUMBER") [VStr s; VUd u] 20 h w1)
        as (w2 & R2 & S2); [done..|].
      exists w2. split; [|by rewrite (lib_view _ _ _ _ S2), (lib_view _ _ _ _ S1)].
      apply (executes_halt C L _ _ h w _ [VStr s; VUd u] 20); [|done].
      unfold NVLIST_GET, frame, LUA_MINSTACK. cbn [rev app]. rewrite run_bind. change 20%nat with (3 + 17)%nat.
      rewrite R1. cbn [andthen]. unfold get_number, lua_isnoneornil. lua_run.
      change (Datatypes.S (Datatypes.S (Datatypes.S 17))) with 20%nat. by rewrite R2.
    + destruct (Hdef (to_uint64 df)) as (w' & E & V); [by rewrite Hn|].
      rewrite uint64_roundtrip in E by done. by exists w'.
  - intros n Hn. apply Hdef. by rewrite Hn.
Qed.
End absent.

(** ** Witnesses *)

Lemma nv_heap3_loaded xs : nv_loaded (nv_heap3 xs) 1 3 5.
Proof. by apply Build_nv_loaded. Qed.

Lemma owned_list_refused_witness :
  exists w', executes toy_clib 0 l_nvlist_add_nvlist [VUd 2; VStr "a"; VUd 4] (nv_heap3 [])
      (toy_world [(4000, empty_nvl); (5000, empty_nvl)] ∅)
      (Halt (Raise (EType 3 NVLIST_METATABLE))) (put 0%nat (idle (nv_heap3 [])) w') /\
    nv_view (wx w') = nv_view (wx (toy_world [(4000, empty_nvl); (5000, empty_nvl)] ∅)).
Proof.
  apply (owned_list_refused toy_clib 0 2 4 "a" (nv_heap3 []) (toy_world [(4000, empty_nvl); (5000, empty_nvl)] ∅)
    4000 5000 empty_nvl 1 3 5);
    [is_handle|done|vm_compute; reflexivity|reflexivity|is_handle|apply nv_heap3_loaded].
Defined.

Lemma move_nvlist_owner_witness :
  exists h' w1 w2 l',
    executes toy_clib 0 l_nvlist_move_nvlist [VUd 2; VStr "a"; VUd 4] (nv_heap3 [])
      (toy_world [(4000, empty_nvl); (5000, empty_nvl)] ∅) (Ok []) (put 0%nat (idle h') w1) /\
    nv_find (cstr "a") (cst "NV_TYPE_NVLIST") l' = Some (NvInt 5000) /\
    list_at toy_clib w1 4000 l' /\ list_at toy_clib w1 5000 empty_nvl /\
    executes toy_clib 0 l_nvlist_gc [VUd 4] h' w1 (Ok []) (put 0%nat (idle h') w2) /\
    nv_view (wx w2) = nv_view (wx w1) /\
    executes toy_clib 0 l_nvlist_empty [VUd 4] h' w1 (Halt (Raise (EType 1 NVLIST_METATABLE))) (put 0%nat (idle h') w1).
Proof.
  apply (move_nvlist_owner toy_clib 0 2 4 "a" (nv_heap3 []) (toy_world [(4000, empty_nvl); (5000, empty_nvl)] ∅)
    4000 5000 empty_nvl empty_nvl);
    [is_handle|is_handle| |done|done|vm_compute; reflexivity|reflexivity].
  unfold can_take. split_all; [done|vm_compute; reflexivity|reflexivity..].
Defined.

Lemma next_cookie_expired_witness :
  exists w1 w2,
    executes toy_clib 0 l_nvlist_next [VUd 2] (nv_heap3 [])
      (toy_world [(4000, Nvl 0 0 [("a", (3, NvInt 1)); ("b", (3, NvInt 2))])] ∅)
      (Ok [VUd 10; VStr (cstr "a"); VInt 3]) (put 0%nat (idle (alloc_handle 5 0 (nv_heap3 []))) w1) /\
    executes toy_clib 0 l_nvlist_next [VUd 2; VUd 10] (alloc_handle 5 0 (nv_heap3 [])) w1
      (Halt (Raise (EArg 2 "cookie expired"))) (put 0%nat (idle (alloc_handle 5 0 (nv_heap3 []))) w2).
Proof.
  apply (next_cookie_expired toy_clib 0 2 (nv_heap3 [])
    (toy_world [(4000, Nvl 0 0 [("a", (3, NvInt 1)); ("b", (3, NvInt 2))])] ∅) 4000
    [("b", (3, NvInt 2))] "a" 3 (NvInt 1) 4016 1 3 5);
    [is_handle|done|cbn; lia|apply nv_heap3_loaded|vm_compute; reflexivity|vm_compute; reflexivity].
Defined.

Definition nested_world : world nvstate lstate :=
  toy_world [(4000, Nvl 0 0 [("a", (cst "NV_TYPE_NVLIST", NvInt 5000))]); (5000, empty_nvl)] ∅.

Lemma reference_dangles_witness :
  exists w1 w2,
    executes toy_clib 0 (NVLIST_GET get_nvlist) [VUd 2; VStr "a"] (nv_heap3 []) nested_world (Ok [VUd 10])
      (put 0%nat (idle (alloc_ref 3 5000 (VUd 2) (nv_heap3 []))) w1) /\ list_at toy_clib w1 5000 empty_nvl /\
    executes toy_clib 0 (NVLIST_FREE "nvlist" "NVLIST") [VUd 2; VStr "a"] (alloc_ref 3 5000 (VUd 2) (nv_heap3 [])) w1
      (Ok []) (put 0%nat (idle (alloc_ref 3 5000 (VUd 2) (nv_heap3 []))) w2) /\
    handle [VUd 10] (alloc_ref 3 5000 (VUd 2) (nv_heap3 [])) 1 CONST_NVLIST_METATABLE 5000 /\
    lists (nv_view (wx w2)) !! 5000 = None.
Proof.
  apply (reference_dangles toy_clib 0 2 "a" (nv_heap3 []) nested_world 4000 5000
    (Nvl 0 0 [("a", (cst "NV_TYPE_NVLIST", NvInt 5000))]) empty_nvl 1 3 5);
    [is_handle|done|cbn; lia|apply nv_heap3_loaded|vm_compute; reflexivity|reflexivity|vm_compute; reflexivity
    |vm_compute; reflexivity|done|done].
Defined.

Lemma list_arrays_fail_witness :
  (run (documented toy_clib) (l_nvlist_move_nvlist_array 0)
     (put 0%nat (frame [VUd 2; VStr "a"; VTab 7] (nv_heap3 [VUd 4]))
        (toy_world [(4000, empty_nvl); (5000, empty_nvl)] ∅))).1 = Halt (UB "Lua API misuse") /\
  exists w', executes toy_clib 0 l_nvlist_add_nvlist_array [VUd 2; VStr "a"; VTab 7] (nv_heap3 [VUd 4])
      (toy_world [(4000, empty_nvl); (5000, empty_nvl)] ∅)
      (Halt (Raise (EArg 3 "nvlists expected"))) (put 0%nat (idle (nv_heap3 [VUd 4])) w') /\
    nv_view (wx w') = nv_view (wx (toy_world [(4000, empty_nvl); (5000, empty_nvl)] ∅)) /\
    wm w' = delete 4096 ∅.
Proof.
  apply (list_arrays_fail toy_clib 0 2 7 "a" 4 [] (nv_heap3 [VUd 4])
    (toy_world [(4000, empty_nvl); (5000, empty_nvl)] ∅) 4000 5000 empty_nvl 1 3 5);
    [is_handle|done|vm_compute; reflexivity|reflexivity|vm_compute; reflexivity|reflexivity|is_handle
    |apply nv_heap3_loaded|reflexivity|done].
Defined.

Lemma get_number_default_witness :
  ((exists w', executes toy_clib 0 (NVLIST_GET get_number) [VUd 2; VStr "a"] (nv_heap3 [])
      (toy_world [(4000, empty_nvl)] ∅) (Halt (Raise (EArg 2 "name not found"))) (put 0%nat (idle (nv_heap3 [])) w') /\
      nv_view (wx w') = nv_view (wx (toy_world [(4000, empty_nvl)] ∅))) /\
   (exists w', executes toy_clib 0 (NVLIST_GET get_number) [VUd 2; VStr "a"; VInt (-7)] (nv_heap3 [])
      (toy_world [(4000, empty_nvl)] ∅) (Ok [VInt (-7)]) (put 0%nat (idle (nv_heap3 [])) w') /\
      nv_view (wx w') = nv_view (wx (toy_world [(4000, empty_nvl)] ∅)))).
Proof.
  apply (get_number_default toy_clib 0 2 "a" (-7) (nv_heap3 []) (toy_world [(4000, empty_nvl)] ∅) 4000 empty_nvl);
    [is_handle|is_handle|done|vm_compute; reflexivity|reflexivity|lia|reflexivity].
Defined.
