(* ===== verification/Nvpair.v ===== *)
(** * lua_nvpair.h and lua_nvpair.c: the [nvpair] module

    Name/value lists of libnvpair(3), the lists of the ZFS modules.  The library is not
    part of the repository.  The source makes its functions from lists of types
    ([NVPAIR_SCALAR_TYPES] and two for arrays) with macros; here a type is a record
    ([nvtype]) and a macro a definition with one as argument.  Strings a getter returns by
    pointer are read at once and are results of the call; arrays are objects in memory. *)

From Stdlib Require Import SpecFloat.
From S2P Require Import Prelude LuaApi Machine Capi Utils Cmem Modules Uio Wrapper.

Definition NVLIST_METATABLE : string := "nvlist_t*".

(** ** lua_nvpair.h *)

Definition pushnvlist (L : nat) (nvl : Z) : prog unit :=
  new L nvl NVLIST_METATABLE;;
  mret tt.

Definition checknvlist (L : nat) (idx : Z) : prog Z := checkcookie L idx NVLIST_METATABLE.

(** [optnvlist(L, idx, NULL)] *)
Definition optnvlist (L : nat) (idx : Z) : prog Z := opt_arg L idx (checknvlist L idx).

(** ** The types *)

(** the name in the functions and in [DATA_TYPE_], the size in an array, how a value is read
    from the stack and converted to the C type, and how it is pushed *)
Record nvtype := NvType {
  ftype : string;
  dtype : string;
  csize : Z;
  lcheck : nat -> Z -> prog carg;
  lpush : nat -> carg -> prog unit }.

Definition int_of (v : carg) : Z := match v with AZ z => z | _ => 0 end.
Definition str_of (v : carg) : string := match v with AS s => s | _ => "" end.
Definition num_of (v : carg) : spec_float := match v with AD f => f | _ => S754_zero false end.

(** [luaL_checkinteger] and [lua_pushinteger], with the conversions to and from the C type *)
Definition int_type (f d : string) (size : Z) (conv back : Z -> Z) : nvtype := NvType f d size
  (fun L i => n ← luaL_checkinteger L i; mret (AZ (conv n)))
  (fun L v => lua_pushinteger L (back (int_of v))).

Definition bool_type (f d : string) : nvtype := NvType f d 4
  (fun L i => b ← lua_toboolean L i; mret (AZ (Z_of_bool b)))
  (fun L v => lua_pushboolean L (negb (int_of v =? 0))).

Definition string_type : nvtype := NvType "string" "STRING" 8
  (fun L i => s ← luaL_checkstring L i; mret (AS s))
  (fun L v => lua_pushstring L (str_of v)).

Definition nvlist_type : nvtype := NvType "nvlist" "NVLIST" 8
  (fun L i => p ← checknvlist L i; mret (AZ p))
  (fun L v => pushnvlist L (int_of v)).

Definition double_type : nvtype := NvType "double" "DOUBLE" 8
  (fun L i => f ← luaL_checknumber L i; mret (AD f))
  (fun L v => lua_pushnumber L (num_of v)).

Definition int_types : list nvtype :=
  [int_type "byte" "BYTE" 1 to_uchar id; int_type "int8" "INT8" 1 (wraps 8) id; int_type "uint8" "UINT8" 1 to_uchar id;
   int_type "int16" "INT16" 2 (wraps 16) id; int_type "uint16" "UINT16" 2 to_ushort id;
   int_type "int32" "INT32" 4 to_int id; int_type "uint32" "UINT32" 4 to_uint id;
   int_type "int64" "INT64" 8 id id; int_type "uint64" "UINT64" 8 to_size to_long].

Definition NVPAIR_SCALAR_TYPES : list nvtype :=
  [bool_type "boolean_value" "BOOLEAN_VALUE"] ++ int_types ++
  [string_type; nvlist_type; int_type "hrtime" "HRTIME" 8 to_size to_long; double_type].

Definition NVPAIR_ARRAY_LOOKUP_TYPES : list nvtype := [bool_type "boolean" "BOOLEAN"] ++ int_types.

Definition NVPAIR_ARRAY_TYPES : list nvtype := NVPAIR_ARRAY_LOOKUP_TYPES ++ [string_type; nvlist_type].

(** what was stored through an out parameter *)
Definition out (i : nat) (r : cret) : carg := default (AZ 0) (outs r !! i).

Section ops.
Context `{Consts}.

(** ** Functions *)

Definition l_nvpair_nvlist (L : nat) : prog Z :=
  nvflag ← luaL_optinteger L 1 (cst "NV_UNIQUE_NAME");
  error ← call "nvlist_alloc" [AZ (to_uint nvflag); AZ 0];
  if negb (rc error =? 0) then fatal L "nvlist_alloc" (rc error)
  else
    pushnvlist L (out_int 0 error);;
    mret 1.

Definition l_nvpair_unpack (L : nat) : prog Z :=
  packed ← luaL_checklstring L 1;
  error ← call "nvlist_unpack" [AS packed; AZ (Z.of_nat (String.length packed)); AZ 0];
  if negb (rc error =? 0) then fatal L "nvlist_unpack" (rc error)
  else
    pushnvlist L (out_int 0 error);;
    mret 1.

Definition l_nvlist_gc (L : nat) : prog Z :=
  nvl ← checknvlist L 1;
  call "nvlist_free" [AZ nvl];;
  setcookie L 1 0;;
  mret 0.

(** *** The value of a pair *)

Definition NVPAIR_VALUE (L : nat) (nvp : Z) (X : nvtype) : prog unit :=
  error ← call ("nvpair_value_" +:+ ftype X) [AZ nvp];
  (if negb (rc error =? 0) then fatal L ("nvpair_value_" +:+ ftype X) (rc error) else mret tt);;
  lpush X L (out 0 error).

(** the loops that push an array: it is stored in the first out parameter, its length in the second *)
Definition push_values (L : nat) (values len : Z) (push : Z -> prog unit) : prog unit :=
  lua_createtable L len 0;;
  for_ (Z.to_nat len) 0 (fun i =>
    v ← arr_load values (Z.to_nat i);
    push v;;
    lua_rawseti L (-2) (i + 1)).

Definition NVPAIR_VALUE_ARRAY (L : nat) (nvp : Z) (X : nvtype) : prog unit :=
  let f := "nvpair_value_" +:+ ftype X +:+ "_array" in
  error ← call f [AZ nvp];
  (if negb (rc error =? 0) then fatal L f (rc error) else mret tt);;
  push_values L (out_int 0 error) (out_int 1 error) (fun v => lpush X L (AZ v)).

Definition value_string_array (L : nat) (nvp : Z) : prog unit :=
  error ← call "nvpair_value_string_array" [AZ nvp];
  (if negb (rc error =? 0) then fatal L "nvpair_value_string_array" (rc error) else mret tt);;
  push_values L (out_int 0 error) (out_int 1 error) (push_cstr L).

Definition value_nvlist_array (L : nat) (nvp : Z) : prog unit :=
  error ← call "nvpair_value_nvlist_array" [AZ nvp];
  (if negb (rc error =? 0) then fatal L "nvpair_value_nvlist_array" (rc error) else mret tt);;
  push_values L (out_int 0 error) (out_int 1 error) (fun v => newref L 1 v NVLIST_METATABLE;; mret tt).

(** the [case] labels [DATA_TYPE_X] and [DATA_TYPE_X_ARRAY] *)
Definition case_of (t : Z) (suffix : string) (X : nvtype) : bool := t =? cst ("DATA_TYPE_" +:+ dtype X +:+ suffix).

Definition pushvalue (L : nat) (nvp : Z) : prog unit :=
  t ← call "nvpair_type" [AZ nvp];
  if rc t =? cst "DATA_TYPE_BOOLEAN" then lua_pushboolean L true
  else
    match find (case_of (rc t) "") NVPAIR_SCALAR_TYPES with
    | Some X => NVPAIR_VALUE L nvp X
    | None =>
        match find (case_of (rc t) "_ARRAY") NVPAIR_ARRAY_LOOKUP_TYPES with
        | Some X => NVPAIR_VALUE_ARRAY L nvp X
        | None =>
            if rc t =? cst "DATA_TYPE_STRING_ARRAY" then value_string_array L nvp
            else if rc t =? cst "DATA_TYPE_NVLIST_ARRAY" then value_nvlist_array L nvp
            else luaL_error L "unexpected type"
        end
    end.

(** *** Methods *)

Definition l_nvlist_pairs_iter (L : nat) : prog Z :=
  nvl ← checknvlist L 1;
  nvp ← lua_touserdata L 2;
  if nvp =? 0 then mret 0
  else
    next ← call "nvlist_next_nvpair" [AZ nvl; AZ nvp];
    lua_pushlightuserdata L (rc next);;
    name ← call "nvpair_name" [AZ nvp];
    lua_pushstring L (out_str 0 name);;
    pushvalue L nvp;;
    t ← call "nvpair_type" [AZ nvp];
    lua_pushinteger L (rc t);;
    mret 4.

Definition l_nvlist_pairs (L : nat) : prog Z :=
  nvl ← checknvlist L 1;
  lua_pushcfunction L "l_nvlist_pairs_iter";;
  lua_pushvalue L 1;;
  next ← call "nvlist_next_nvpair" [AZ nvl; AZ 0];
  lua_pushlightuserdata L (rc next);;
  mret 3.

Definition l_nvlist_size (L : nat) : prog Z :=
  nvl ← checknvlist L 1;
  encoding ← luaL_optinteger L 2 (cst "NV_ENCODE_NATIVE");
  error ← call "nvlist_size" [AZ nvl; AZ (to_int encoding)];
  if negb (rc error =? 0) then fatal L "nvlist_size" (rc error)
  else
    lua_pushinteger L (to_long (out_int 0 error));;
    mret 1.

(** the packed list is stored at an address, and its size *)
Definition l_nvlist_pack (L : nat) : prog Z :=
  nvl ← checknvlist L 1;
  encoding ← luaL_optinteger L 2 (cst "NV_ENCODE_NATIVE");
  error ← call "nvlist_pack" [AZ nvl; AZ 0; AZ (to_int encoding); AZ 0];
  if negb (rc error =? 0) then fatal L "nvlist_pack" (rc error)
  else
    push_bytes L (out_int 0 error) (out_int 1 error);;
    free (out_int 0 error);;
    mret 1.

Definition l_nvlist_dup (L : nat) : prog Z :=
  nvl ← checknvlist L 1;
  error ← call "nvlist_dup" [AZ nvl; AZ 0];
  if negb (rc error =? 0) then fatal L "nvlist_dup" (rc error)
  else
    pushnvlist L (out_int 0 error);;
    mret 1.

Definition l_nvlist_merge (L : nat) : prog Z :=
  nvla ← checknvlist L 1;
  nvlb ← checknvlist L 2;
  error ← call "nvlist_merge" [AZ nvla; AZ nvlb; AZ 0];
  if negb (rc error =? 0) then fatal L "nvlist_merge" (rc error)
  else mret 0.

Definition l_nvlist_nvflag (L : nat) : prog Z :=
  nvl ← checknvlist L 1;
  r ← call "nvlist_nvflag" [AZ nvl];
  lua_pushinteger L (rc r);;
  mret 1.

Definition l_nvlist_add_boolean (L : nat) : prog Z :=
  nvl ← checknvlist L 1;
  name ← luaL_checkstring L 2;
  error ← call "nvlist_add_boolean" [AZ nvl; AS name];
  if negb (rc error =? 0) then fatal L "nvlist_add_boolean" (rc error)
  else mret 0.

Definition NVLIST_ADD (X : nvtype) (L : nat) : prog Z :=
  nvl ← checknvlist L 1;
  name ← luaL_checkstring L 2;
  value ← lcheck X L 3;
  error ← call ("nvlist_add_" +:+ ftype X) [AZ nvl; AS name; value];
  if negb (rc error =? 0) then fatal L ("nvlist_add_" +:+ ftype X) (rc error)
  else mret 0.

(** the loop that reads the elements *)
Definition read_values (X : nvtype) (L : nat) (values len : Z) : prog unit :=
  for_ (Z.to_nat len) 0 (fun i =>
    lua_geti L 3 (i + 1);;
    v ← lcheck X L (-1);
    load values (arr_set (Z.to_nat i) v)).

Definition NVLIST_ADD_ARRAY (X : nvtype) (L : nat) : prog Z :=
  let f := "nvlist_add_" +:+ ftype X +:+ "_array" in
  nvl ← checknvlist L 1;
  name ← luaL_checkstring L 2;
  luaL_checktype L 3 TTABLE;;
  n ← luaL_len L 3;
  let len := to_uint n in
  values ← malloc_array (csize X) len;
  if values =? 0 then fatal L "malloc" (cst "ENOMEM")
  else
    read_values X L values len;;
    error ← call f [AZ nvl; AS name; AZ values; AZ len];
    free values;;
    if negb (rc error =? 0) then fatal L f (rc error)
    else mret 0.

Definition l_nvlist_remove (L : nat) : prog Z :=
  nvl ← checknvlist L 1;
  name ← luaL_checkstring L 2;
  type_ ← luaL_optinteger L 3 (-1);
  if to_int type_ =? -1 then
    error ← call "nvlist_remove_all" [AZ nvl; AS name];
    if negb (rc error =? 0) then fatal L "nvlist_remove_all" (rc error)
    else mret 0
  else
    error ← call "nvlist_remove" [AZ nvl; AS name; AZ (to_int type_)];
    if negb (rc error =? 0) then fatal L "nvlist_remove" (rc error)
    else mret 0.

Definition l_nvlist_lookup (L : nat) : prog Z :=
  nvl ← checknvlist L 1;
  name ← luaL_checkstring L 2;
  error ← call "nvlist_lookup_nvpair" [AZ nvl; AS name];
  if negb (rc error =? 0) then mret 0
  else
    pushvalue L (out_int 0 error);;
    t ← call "nvpair_type" [AZ (out_int 0 error)];
    lua_pushinteger L (rc t);;
    mret 2.

Definition l_nvlist_lookup_boolean (L : nat) : prog Z :=
  nvl ← checknvlist L 1;
  name ← luaL_checkstring L 2;
  error ← call "nvlist_lookup_boolean" [AZ nvl; AS name];
  if negb (rc error =? 0) then fatal L "nvlist_lookup_boolean" (rc error)
  else
    lua_pushboolean L true;;
    mret 1.

Definition NVLIST_LOOKUP (X : nvtype) (L : nat) : prog Z :=
  nvl ← checknvlist L 1;
  name ← luaL_checkstring L 2;
  error ← call ("nvlist_lookup_" +:+ ftype X) [AZ nvl; AS name];
  if negb (rc error =? 0) then fatal L ("nvlist_lookup_" +:+ ftype X) (rc error)
  else
    lpush X L (out 0 error);;
    mret 1.

Definition NVLIST_LOOKUP_ARRAY (X : nvtype) (L : nat) : prog Z :=
  let f := "nvlist_lookup_" +:+ ftype X +:+ "_array" in
  nvl ← checknvlist L 1;
  name ← luaL_checkstring L 2;
  error ← call f [AZ nvl; AS name];
  if negb (rc error =? 0) then fatal L f (rc error)
  else
    push_values L (out_int 0 error) (out_int 1 error) (fun v => lpush X L (AZ v));;
    mret 1.

(** ** The module *)

Definition l_nvpair_funcs : list (string * string) :=
  [("nvlist", "l_nvpair_nvlist"); ("unpack", "l_nvpair_unpack")].

(** an entry of the table for a type *)
Definition type_entry (verb suffix : string) (X : nvtype) : string * string :=
  (verb +:+ ftype X +:+ suffix, "l_nvlist_" +:+ verb +:+ ftype X +:+ suffix).

Definition l_nvlist_meta : list (string * string) :=
  [("__gc", "l_nvlist_gc"); ("__pairs", "l_nvlist_pairs"); ("size", "l_nvlist_size"); ("pack", "l_nvlist_pack");
   ("dup", "l_nvlist_dup"); ("merge", "l_nvlist_merge"); ("nvflag", "l_nvlist_nvflag");
   ("add_boolean", "l_nvlist_add_boolean")] ++
  map (type_entry "add_" "") NVPAIR_SCALAR_TYPES ++
  map (type_entry "add_" "_array") NVPAIR_ARRAY_TYPES ++
  [("remove", "l_nvlist_remove"); ("lookup", "l_nvlist_lookup"); ("lookup_boolean", "l_nvlist_lookup_boolean")] ++
  map (type_entry "lookup_" "") NVPAIR_SCALAR_TYPES ++
  map (type_entry "lookup_" "_array") NVPAIR_ARRAY_LOOKUP_TYPES.

Definition nvpair_consts : list (string * Z) := idents
  ["NV_ENCODE_NATIVE"; "NV_ENCODE_XDR"; "NV_UNIQUE_NAME"; "NV_UNIQUE_NAME_TYPE"; "DATA_TYPE_DONTCARE";
   "DATA_TYPE_UNKNOWN"; "DATA_TYPE_BOOLEAN"; "DATA_TYPE_BYTE"; "DATA_TYPE_INT16"; "DATA_TYPE_UINT16";
   "DATA_TYPE_INT32"; "DATA_TYPE_UINT32"; "DATA_TYPE_INT64"; "DATA_TYPE_UINT64"; "DATA_TYPE_STRING";
   "DATA_TYPE_BYTE_ARRAY"; "DATA_TYPE_INT16_ARRAY"; "DATA_TYPE_UINT16_ARRAY"; "DATA_TYPE_INT32_ARRAY";
   "DATA_TYPE_UINT32_ARRAY"; "DATA_TYPE_INT64_ARRAY"; "DATA_TYPE_UINT64_ARRAY"; "DATA_TYPE_STRING_ARRAY";
   "DATA_TYPE_HRTIME"; "DATA_TYPE_NVLIST"; "DATA_TYPE_NVLIST_ARRAY"; "DATA_TYPE_BOOLEAN_VALUE"; "DATA_TYPE_INT8";
   "DATA_TYPE_UINT8"; "DATA_TYPE_BOOLEAN_ARRAY"; "DATA_TYPE_INT8_ARRAY"; "DATA_TYPE_UINT8_ARRAY";
   "DATA_TYPE_DOUBLE"].

Definition luaopen_nvpair (L : nat) : prog Z :=
  open_module L [(NVLIST_METATABLE, l_nvlist_meta)] l_nvpair_funcs nvpair_consts.
End ops.
