(* ===== verification/NvpairProps.v ===== *)
(** * What the [nvpair] module does with arrays and nested lists

    Filling an array reads every element onto the stack and leaves it there, so that a
    table of more than twenty elements overflows the frame ([add_array_limit]).  A list
    that is looked up inside another is handed out as if it were the script's own
    ([lookup_nested_free]). *)

From S2P Require Import Prelude LuaApi Arrays Machine Capi Utils Cmem Modules Uio Wrapper Nvpair Samples.

Section arrays.
Context `{LuaSem} `{Consts} {S : Type} `{Libc S} (C : clib S).
Implicit Types (w : world S lstate) (L : nat) (vs xs args : list value) (h : heap) (p : Z).
Abbreviation rn := (run (documented C)).

(** an element on top of the stack is read and converted *)
Definition reads_elem (X : nvtype) (conv : value -> carg) (x : value) : Prop :=
  forall L vs n h w, rn (lcheck X L (-1)) (put L (LS (x :: vs) n h) w) = (Ok (conv x), put L (LS (x :: vs) n h) w).

Lemma reads_int f d size conv back z : reads_elem (int_type f d size conv back)
  (fun x => match x with VInt z => AZ (conv z) | _ => AZ 0 end) (VInt z).
Proof. intros L vs n h w. cbn [lcheck int_type]. lua_run. done. Qed.

(** one round *)
Lemma run_read_value (X : nvtype) conv L args t xs (i : nat) x p m h w :
  args !! 2%nat = Some (VTab t) -> tabs h !! t = Some (Table (arr xs) None) -> xs !! i = Some x ->
  reads_elem X conv x ->
  rn (lua_geti L 3 (Z.of_nat i + 1);; v ← lcheck X L (-1); load p (arr_set i v))
    (put L (LS (rev (args ++ take i xs)) (1 + m) h) (poke p (partial (conv <$> take i xs) (length xs - i)) w)) =
  (Ok tt, put L (LS (rev (args ++ take (1 + i) xs)) m h) (poke p (partial (conv <$> take (1 + i) xs) (length xs - (1 + i))) w)).
Proof.
  intros Ha Ht Hx He. pose proof (lookup_lt_Some _ _ _ Hx) as Hi.
  assert (Hat : at_ (rev (args ++ take i xs)) 3 = Val (VTab t)).
  { rewrite at_rev by done. change (Z.to_nat (3 - 1)) with 2%nat. by rewrite (lookup_app_l_Some _ _ _ _ Ha). }
  rewrite run_bind, run_lua. doc_eval. know Hat, Ht. cbn [tmap]. rewrite arr_lookup_nat, Hx. cbn [tmeta].
  rewrite (raw_get_arr xs None i x Hx). doc_eval. rewrite run_bind, He. cbn [andthen].
  assert (Hlen : length (conv <$> take i xs) = i) by (rewrite length_fmap, length_take; lia).
  replace (length xs - i)%nat with (1 + (length xs - (1 + i)))%nat by lia.
  rewrite (run_load C p _ (partial (conv <$> take i xs) (1 + (length xs - (1 + i)))) tt
    (partial ((conv <$> take i xs) ++ [conv x]) (length xs - (1 + i)))).
  - change (1 + i)%nat with (Datatypes.S i). rewrite poke_poke, (take_S_r _ _ x), fmap_app, app_assoc, (rev_app_distr (args ++ take i xs)) by done. done.
  - cbn. apply lookup_insert_eq.
  - rewrite <- Hlen at 1. apply arr_set_partial.
Qed.

(** the loop: every element stays on the stack, which has room for twenty *)
Lemma run_read_values (X : nvtype) conv L args t xs p h w :
  args !! 2%nat = Some (VTab t) -> tabs h !! t = Some (Table (arr xs) None) ->
  Forall (reads_elem X conv) xs ->
  forall k i, (i + k = length xs)%nat -> (i <= 20)%nat ->
  rn (for_ k (Z.of_nat i) (fun i => lua_geti L 3 (i + 1);; v ← lcheck X L (-1); load p (arr_set (Z.to_nat i) v)))
    (put L (LS (rev (args ++ take i xs)) (20 - i) h) (poke p (partial (conv <$> take i xs) (length xs - i)) w)) =
  if (length xs <=? 20)%nat
  then (Ok tt, put L (LS (rev (args ++ xs)) (20 - length xs) h) (poke p (partial (conv <$> xs) 0) w))
  else (Halt (UB "Lua stack overflow"),
        put L (LS (rev (args ++ take 20 xs)) 0 h) (poke p (partial (conv <$> take 20 xs) (length xs - 20)) w)).
Proof.
  intros Ha Ht He. induction k as [|k IH]; intros i Hi Hle.
  - replace i with (length xs) by lia. rewrite (proj2 (Nat.leb_le _ _)) by lia.
    cbn [for_]. by rewrite take_ge, Nat.sub_diag by done.
  - destruct (lookup_lt_is_Some_2 xs i ltac:(lia)) as [x Hx].
    pose proof (proj1 (Forall_lookup _ _) He i x Hx) as Hxe.
    cbn [for_]. rewrite run_bind. rewrite Nat2Z.id.
    destruct (decide (i = 20%nat)) as [->|Hne].
    + rewrite (proj2 (Nat.leb_gt _ _)) by lia. rewrite Nat.sub_diag, run_bind, run_lua. doc_eval.
      assert (Hat : at_ (rev (args ++ take 20 xs)) 3 = Val (VTab t)).
      { rewrite at_rev by done. change (Z.to_nat (3 - 1)) with 2%nat. by rewrite (lookup_app_l_Some _ _ _ _ Ha). }
      know Hat, Ht. cbn [tmap]. rewrite arr_lookup_nat, Hx. cbn [tmeta andthen]. done.
    + replace (20 - i)%nat with (1 + (20 - (1 + i)))%nat by lia.
      rewrite (run_read_value X conv L args t xs i x p _ h w Ha Ht Hx Hxe). cbn [andthen].
      replace (Z.of_nat i + 1) with (Z.of_nat (1 + i)) by lia. apply IH; lia.
Qed.
End arrays.

Section limit.
Context `{LuaSem} `{Consts} {S : Type} `{Libc S} (C : clib S).
Implicit Types (w : world S lstate) (L : nat) (xs : list value) (h : heap) (p : Z).
Abbreviation rn := (run (documented C)).

(** up to the loop *)
Lemma run_add_array (X : nvtype) L u t s xs h w p :
  let args := [VUd u; VStr s; VTab t] in let a := wnext w in
  handle (rev args) h 1 NVLIST_METATABLE p -> p ≠ 0 ->
  tabs h !! t = Some (Table (arr xs) None) -> Z.of_nat (length xs) < 2 ^ 32 ->
  woom w (to_size (Z.of_nat (length xs) * csize X)) a = false -> a ≠ 0 ->
  rn (NVLIST_ADD_ARRAY X L) (put L (frame args h) w) =
  rn (read_values X L a (Z.of_nat (length xs));;
      error ← call ("nvlist_add_" +:+ ftype X +:+ "_array") [AZ p; AS (cstr s); AZ a; AZ (Z.of_nat (length xs))];
      free a;;
      if negb (rc error =? 0) then fatal L ("nvlist_add_" +:+ ftype X +:+ "_array") (rc error) else mret 0)
    (put L (frame args h) (poke a (partial [] (length xs)) (set_next (a + 1) w))).
Proof.
  cbv zeta. intros Hh Hp Ht Hlen Ho Hz. match goal with |- _ = ?r => set (after := r) end.
  unfold NVLIST_ADD_ARRAY, checknvlist. cbv zeta. rewrite run_bind.
  rewrite (run_checkcookie_frame C L 1 NVLIST_METATABLE p) by done. cbn [andthen].
  unfold frame, LUA_MINSTACK, luaL_checkstring. rewrite run_bind, run_bind.
  rewrite (run_checklstring C L [VUd u; VStr s; VTab t] 2 20 h w) by done. cbn [andthen].
  change ([VUd u; VStr s; VTab t] !! Z.to_nat (2 - 1)) with (Some (VStr s)). cbn [andthen]. rewrite run_ret. cbn [andthen].
  cbn [rev app]. lua_run. know Ht. cbn [tmeta]. rewrite seq_len_arr. doc_eval. rewrite run_bind.
  assert (E : to_uint (Z.of_nat (length xs)) = Z.of_nat (length xs)) by (apply wrapu_small; lia). rewrite E.
  rewrite run_malloc_array, Nat2Z.id by done. cbn [andthen]. by rewrite (proj2 (Z.eqb_neq (wnext w) 0)).
Qed.

(** C29. A table of at most twenty elements is added as the array of its elements, converted one by one,
    and the array is given back; reading a longer table overflows the stack of the Lua state, because
    the elements that were read stay on it. *)
Theorem add_array_limit (X : nvtype) conv L u t s xs h w p :
  let args := [VUd u; VStr s; VTab t] in let a := wnext w in let n := Z.of_nat (length xs) in
  handle (rev args) h 1 NVLIST_METATABLE p -> p ≠ 0 ->
  tabs h !! t = Some (Table (arr xs) None) -> n < 2 ^ 32 -> Forall (reads_elem C X conv) xs ->
  woom w (to_size (n * csize X)) a = false -> a ≠ 0 -> wm w !! a = None ->
  (20 < n -> (rn (NVLIST_ADD_ARRAY X L) (put L (frame args h) w)).1 = Halt (UB "Lua stack overflow")) /\
  (n <= 20 -> forall x,
    let w1 := poke a (OArr (Some ∘ conv <$> xs)) (set_next (a + 1) w) in
    (forall st, c_call C ("nvlist_add_" +:+ ftype X +:+ "_array") [AZ p; AS (cstr s); AZ a; AZ n] (put L st w1) =
       (Ok (Cret 0 []), put L st (set_x x w1))) ->
    executes C L (NVLIST_ADD_ARRAY X) args h w (Ok []) (put L (idle h) (set_x x (set_next (a + 1) w)))).
Proof.
  cbv zeta. intros Hh Hp Ht Hlen He Ho Hz Hm.
  pose proof (run_add_array X L u t s xs h w p Hh Hp Ht Hlen Ho Hz) as R1. cbv zeta in R1.
  set (w1 := set_next (wnext w + 1) w) in *.
  pose proof (run_read_values C X conv L [VUd u; VStr s; VTab t] t xs (wnext w) h w1 eq_refl Ht He (length xs) 0 eq_refl
    ltac:(lia)) as R2. rewrite take_0, app_nil_r, !Nat.sub_0_r in R2.
  change (conv <$> []) with (@nil carg) in R2. split.
  - intros Hn. rewrite R1, run_bind. unfold read_values. rewrite Nat2Z.id.
    unfold frame, LUA_MINSTACK. change 0 with (Z.of_nat 0). rewrite R2.
    by rewrite (proj2 (Nat.leb_gt _ _)) by lia.
  - intros Hn x Hc. apply (executes_return C L _ _ h w [] (rev ([VUd u; VStr s; VTab t] ++ xs)) (20 - length xs)).
    rewrite R1, run_bind. unfold read_values. rewrite Nat2Z.id.
    unfold frame, LUA_MINSTACK. change 0 with (Z.of_nat 0) at 1. rewrite R2.
    rewrite (proj2 (Nat.leb_le _ _)) by lia. cbn [andthen]. rewrite run_bind, run_call.
    unfold partial. cbn [replicate]. rewrite app_nil_r, <- list_fmap_compose.
    rewrite Hc. cbn [andthen]. rewrite run_bind, (run_free C _ (OArr (Some ∘ conv <$> xs))); [|done|apply lookup_insert_eq].
    cbn [andthen rc Z.eqb negb]. rewrite run_ret. do 2 f_equal. unfold release, set_x, poke, set_mem; cbn.
    by rewrite delete_insert_id.
Qed.
End limit.

(** ** Nested lists *)

Section nested.
Context `{LuaSem} `{Consts} {S : Type} `{Libc S} (C : clib S).
Implicit Types (w : world S lstate) (L : nat) (h : heap) (p q : Z).
Abbreviation rn := (run (documented C)).

(** C30. Looking up a list inside another one returns an ordinary handle on it, which keeps nothing alive:
    when it is collected, the list is freed although the outer list still has it.  libnvpair leaves that
    undefined ([why]). *)
Theorem lookup_nested_free L u s h w p q mt why :
  let args := [VUd u; VStr s] in
  handle (rev args) h 1 NVLIST_METATABLE p -> p ≠ 0 -> q ≠ 0 -> reg_get (inl NVLIST_METATABLE) h = VTab mt ->
  (forall st, c_call C "nvlist_lookup_nvlist" [AZ p; AS (cstr s)] (put L st w) = (Ok (Cret 0 [AZ q]), put L st w)) ->
  (forall st, (c_call C "nvlist_free" [AZ q] (put L st w)).1 = Halt (UB why)) ->
  let h' := alloc_handle mt q h in
  executes C L (NVLIST_LOOKUP nvlist_type) args h w (Ok [VUd (fresh h)]) (put L (idle h') w) /\
  (exists d, uds h' !! fresh h = Some d /\ ud_uv d = [VLud q]) /\
  (rn (l_nvlist_gc L) (put L (frame [VUd (fresh h)] h') w)).1 = Halt (UB why).
Proof.
  cbv zeta. intros Hh Hp Hq Hmt Hl Hf. split_all.
  - apply (executes_return C L _ _ h w [VUd (fresh h)] [VStr s; VUd u] 19). unfold NVLIST_LOOKUP, checknvlist.
    rewrite run_bind, (run_checkcookie_frame C L 1 NVLIST_METATABLE p) by done. cbn [andthen].
    unfold frame, LUA_MINSTACK, luaL_checkstring. rewrite run_bind, run_bind.
    rewrite (run_checklstring C L [VUd u; VStr s] 2 20 h w) by done.
    change ([VUd u; VStr s] !! Z.to_nat (2 - 1)) with (Some (VStr s)). cbn [andthen]. rewrite run_ret. cbn [andthen].
    rewrite run_bind, run_call. cbn [ftype nvlist_type]. change ("nvlist_lookup_" +:+ "nvlist") with "nvlist_lookup_nvlist".
    rewrite Hl. cbn [andthen rc Z.eqb negb lpush nvlist_type]. unfold out; cbn [outs lookup list_lookup default int_of].
    unfold pushnvlist. rewrite run_bind, run_bind. change 20%nat with (2 + 18)%nat. cbn [rev app].
    by rewrite (run_new C L q NVLIST_METATABLE mt).
  - eexists. split; [apply lookup_insert_eq|done].
  - unfold l_nvlist_gc, checknvlist. rewrite run_bind.
    rewrite (run_checkcookie_frame C L 1 NVLIST_METATABLE q) by (done || by apply (alloc_handle_top [] h mt q)).
    cbn [andthen]. rewrite run_bind, run_call. specialize (Hf (frame [VUd (fresh h)] (alloc_handle mt q h))).
    by destruct (c_call C "nvlist_free" _ _) as [? ?]; cbn in Hf |- *; subst.
Qed.
End nested.

(** ** Witnesses *)

(** table 7 is an array of integers; userdata 2 is a list (at 4000) *)
Definition nvpair_heap (xs : list value) : heap :=
  Heap {[ 0%nat := Table ∅ None; 1%nat := Table ∅ None; 7%nat := Table (arr xs) None ]} ∅
    {[ 2%nat := Udata (Some 1%nat) [VLud 4000] 0 ]} {[ inl NVLIST_METATABLE := VTab 1 ]} 0 10.

Definition int8_type : nvtype := int_type "int8" "INT8" 1 (wraps 8) id.
Definition int8_of (x : value) : carg := match x with VInt z => AZ (wraps 8 z) | _ => AZ 0 end.

Lemma add_array_limit_witness :
  (run (documented (sample_clib [])) (NVLIST_ADD_ARRAY int8_type 0)
     (put 0%nat (frame [VUd 2; VStr "a"; VTab 7] (nvpair_heap (replicate 21 (VInt 200)))) (sample_world ∅))).1 =
    Halt (UB "Lua stack overflow") /\
  executes (sample_clib []) 0 (NVLIST_ADD_ARRAY int8_type) [VUd 2; VStr "a"; VTab 7]
    (nvpair_heap [VInt 1; VInt 200]) (sample_world ∅) (Ok [])
    (put 0%nat (idle (nvpair_heap [VInt 1; VInt 200])) (set_x 0 (set_next (4096 + 1) (sample_world ∅)))).
Proof.
  split.
  - refine (proj1 (add_array_limit (sample_clib []) int8_type int8_of 0 2 7 "a" (replicate 21 (VInt 200))
      (nvpair_heap (replicate 21 (VInt 200))) (sample_world ∅) 4000 _ _ _ _ _ _ _ _) _);
      [eexists _, _; split; [vm_compute; reflexivity|reflexivity]|done|vm_compute; reflexivity|vm_compute; reflexivity
      |repeat (apply Forall_cons; [apply reads_int|]); apply Forall_nil|reflexivity|done|reflexivity|vm_compute; reflexivity].
  - refine (proj2 (add_array_limit (sample_clib []) int8_type int8_of 0 2 7 "a" [VInt 1; VInt 200]
      (nvpair_heap [VInt 1; VInt 200]) (sample_world ∅) 4000 _ _ _ _ _ _ _ _) _ 0 _);
      [eexists _, _; split; [vm_compute; reflexivity|reflexivity]|done|vm_compute; reflexivity|vm_compute; reflexivity
      |repeat (apply Forall_cons; [apply reads_int|]); apply Forall_nil|reflexivity|done|reflexivity|vm_compute; done|].
    intros st. reflexivity.
Defined.

(** a list at 5000 inside the one at 4000 *)
Definition nested_clib : clib Z := {|
  c_call := fun f _ w =>
    if String.eqb f "nvlist_lookup_nvlist" then (Ok (Cret 0 [AZ 5000]), w)
    else if String.eqb f "nvlist_free" then (Halt (UB "free of a nested list"), w)
    else (Ok (Cret 0 []), w);
  c_fn := fun _ _ args w => (Ok (true, args), w) |}.

Lemma lookup_nested_free_witness :
  let h := nvpair_heap [] in let h' := alloc_handle 1 5000 h in
  executes nested_clib 0 (NVLIST_LOOKUP nvlist_type) [VUd 2; VStr "a"] h (sample_world ∅) (Ok [VUd 10])
    (put 0%nat (idle h') (sample_world ∅)) /\
  (exists d, uds h' !! 10%nat = Some d /\ ud_uv d = [VLud 5000]) /\
  (run (documented nested_clib) (l_nvlist_gc 0) (put 0%nat (frame [VUd 10] h') (sample_world ∅))).1 =
    Halt (UB "free of a nested list").
Proof.
  apply (lookup_nested_free nested_clib 0 2 "a" (nvpair_heap []) (sample_world ∅) 4000 5000 1 "free of a nested list");
    [eexists _, _; split; [vm_compute; reflexivity|reflexivity]|done|done|reflexivity|reflexivity|reflexivity].
Defined.
