(* ===== verification/ZfsBase.v ===== *)
(** * lua_zfs.c: handles, errors and the flags of its functions

    What the functions of the [zfs] module share: their handles, [libzfsfail] and its
    variants, which report the error the library recorded in its handle, the functions
    that read a table of flags into a structure, and the ways of finishing a call
    ([or_zfs]) that describe most of them. *)

From S2P Require Import Prelude LuaApi Machine Capi Utils Cmem Modules Wrapper Nvpair.

Definition ZFS_HANDLE_METATABLE : string := "zfs_handle_t".
Definition ZPOOL_HANDLE_METATABLE : string := "zpool_handle_t".
Definition LIBZFS_HANDLE_METATABLE : string := "libzfs_handle_t".
Definition ZFS_PROP_METATABLE : string := "zfs_prop_t".

(** ** Errors *)

(** the library's own account of what went wrong; its calls are made from left to right *)
Definition libzfsfail (L : nat) (hdl error : Z) (message : string) : prog Z :=
  e ← call "libzfs_errno" [AZ hdl];
  (if rc e =? 0 then call "zfs_standard_error" [AZ hdl; AZ error; AS message];; mret tt else mret tt);;
  luaL_pushfail L;;
  action ← call "libzfs_error_action" [AZ hdl];
  description ← call "libzfs_error_description" [AZ hdl];
  lua_pushlstring L (cstr (out_str 0 action) +:+ ": " +:+ cstr (out_str 0 description));;
  e ← call "libzfs_errno" [AZ hdl];
  lua_pushinteger L (rc e);;
  mret 3.

Definition zfsfail (L : nat) (zhp error : Z) (message : string) : prog Z :=
  hdl ← call "zfs_get_handle" [AZ zhp];
  libzfsfail L (rc hdl) error message.

Definition zpoolfail (L : nat) (zhp error : Z) (message : string) : prog Z :=
  hdl ← call "zpool_get_handle" [AZ zhp];
  libzfsfail L (rc hdl) error message.

Definition checklibzfs (L : nat) (idx : Z) : prog Z := checkcookie L idx LIBZFS_HANDLE_METATABLE.
Definition checkzfs (L : nat) (idx : Z) : prog Z := checkcookie L idx ZFS_HANDLE_METATABLE.
Definition checkzpool (L : nat) (idx : Z) : prog Z := checkcookie L idx ZPOOL_HANDLE_METATABLE.

Section ops.
Context `{Consts}.

(** ** Properties *)

Definition pushprop (L : nat) (prop : Z) : prog unit :=
  lua_newuserdata0 L 1%nat;;
  lua_pushinteger L prop;;
  lua_setiuservalue L (-2) 1;;
  luaL_setmetatable L ZFS_PROP_METATABLE.

Definition checkprop (L : nat) (idx : Z) : prog Z :=
  isstring ← lua_isstring L idx;
  if isstring : bool then
    propname ← lua_tostring L idx;
    r ← call "zfs_name_to_prop" [AS propname];
    mret (rc r)
  else
    isint ← lua_isinteger L idx;
    if isint : bool then
      n ← lua_tointeger L idx;
      mret (to_int n)
    else
      lua_getiuservalue L idx 1;;
      isint ← lua_isinteger L (-1);
      prop ← (if isint : bool then n ← lua_tointeger L (-1); mret (to_int n) else mret (cst "ZPROP_INVAL"));
      lua_pop L 1;;
      mret prop.

(** ** Flags *)

(** [ASSERT] of the ZFS headers does nothing unless they are compiled for debugging *)
Definition zassert (b : bool) (what : string) : prog unit :=
  if cst "#ifdef ZFS_DEBUG" =? 0 then mret tt else assert_ b what.

(** the macro [FLAG], for the members of a structure in this order; the others are 0 *)
Fixpoint read_flags (L : nat) (idx : Z) (names : list string) : prog (list carg) :=
  match names with
  | [] => mret []
  | name :: names =>
      lua_getfield L idx name;;
      b ← lua_toboolean L (-1);
      lua_pop L 1;;
      flags ← read_flags L idx names;
      mret (AZ (Z_of_bool b) :: flags)
  end.

(** a member that is a number *)
Definition read_number (L : nat) (idx : Z) (name : string) (conv : Z -> Z) : prog carg :=
  lua_getfield L idx name;;
  n ← lua_tointeger L (-1);
  lua_pop L 1;;
  mret (AZ (conv n)).

Definition checksendflags (L : nat) (idx : Z) : prog (list carg) :=
  luaL_checktype L idx TTABLE;;
  verbosity ← read_number L idx "verbosity" to_int;
  flags ← read_flags L idx (
    ["replicate"; "skipmissing"; "doall"; "fromorigin"; "pad"; "props"; "dryrun"; "parsable"; "progress";
     "progressastitle"; "largeblock"; "embed_data"; "compress"; "raw"; "backup"; "holds"; "saved"] ++
    (if 1600013 <? cst "__FreeBSD_version" then ["no_preserve_encryption"] else []));
  mret (verbosity :: flags).

Definition checkrecvflags (L : nat) (idx : Z) : prog (list carg) :=
  luaL_checktype L idx TTABLE;;
  read_flags L idx
    ["verbose"; "isprefix"; "istail"; "dryrun"; "force"; "canmountoff"; "resumable"; "byteswap"; "nomount";
     "holds"; "skipholds"; "domount"; "forceunmount"; "heal"].

Definition checktrimflags (L : nat) (idx : Z) : prog (list carg) :=
  luaL_checktype L idx TTABLE;;
  rate ← read_number L idx "rate" to_size;
  flags ← read_flags L idx ["fullpool"; "secure"; "wait"];
  mret (rate :: flags).

Definition checksplitflags (L : nat) (idx : Z) : prog (list carg) :=
  luaL_checktype L idx TTABLE;;
  name_flags ← read_number L idx "name_flags" to_int;
  flags ← read_flags L idx ["dryrun"; "import"];
  mret (name_flags :: flags).

(** ** Ways of finishing *)

(** [libzfsfail], [zfsfail] ([Some "zfs_get_handle"]) and [zpoolfail] *)
Definition fail_of (get : option string) (L : nat) (p error : Z) (message : string) : prog Z :=
  match get with
  | None => libzfsfail L p error message
  | Some f => hdl ← call f [AZ p]; libzfsfail L (rc hdl) error message
  end.

(** the results of [libzfsfail], and the state of the library after it *)
Definition zfs_failure {S} (lib : library S) (hdl error : Z) (message : string) (s : S) : list value * S :=
  let e := lib "libzfs_errno" [AZ hdl] s in
  let s := if rc e.1 =? 0 then (lib "zfs_standard_error" [AZ hdl; AZ error; AS message] e.2).2 else e.2 in
  let action := lib "libzfs_error_action" [AZ hdl] s in
  let description := lib "libzfs_error_description" [AZ hdl] action.2 in
  let e := lib "libzfs_errno" [AZ hdl] description.2 in
  ([VNil; VStr (cstr (out_str 0 action.1) +:+ ": " +:+ cstr (out_str 0 description.1)); VInt (rc e.1)], e.2).

Definition failure_of {S} (lib : library S) (get : option string) (p error : Z) (message : string) (s : S) : list value * S :=
  match get with
  | None => zfs_failure lib p error message s
  | Some f => let hdl := lib f [AZ p] s in zfs_failure lib (rc hdl.1) error message hdl.2
  end.

Definition fail_calls (get : option string) : list string :=
  match get with None => [] | Some f => [f] end ++
  ["libzfs_errno"; "zfs_standard_error"; "libzfs_error_action"; "libzfs_error_description"].

(** an error code, or [NULL]; the handle is the first argument of the call *)
Definition or_zfs (get : option string) (message : string) (f : fin) : fin := Fin (fail_calls get ++ f_calls f)
  (fun L c r => if negb (rc r =? 0) then fail_of get L (carg_int (c !! 0%nat)) (rc r) message else f_prog f L c r)
  (fun S LB lib vs c r h s =>
    if negb (rc r =? 0)
    then let x := failure_of lib get (carg_int (c !! 0%nat)) (rc r) message s in Some (x.1, h, x.2)
    else f_spec f S LB lib vs c r h s).

Definition or_zfs_null (get : option string) (error : string) (message : string) (f : fin) : fin := Fin (fail_calls get ++ f_calls f)
  (fun L c r => if rc r =? 0 then fail_of get L (carg_int (c !! 0%nat)) (cst error) message else f_prog f L c r)
  (fun S LB lib vs c r h s =>
    if rc r =? 0
    then let x := failure_of lib get (carg_int (c !! 0%nat)) (cst error) message s in Some (x.1, h, x.2)
    else f_spec f S LB lib vs c r h s).

(** [pushnvlist] of a list the call returned or stored *)
Definition NvList (p : cret -> Z) : fin := Fin []
  (fun L _ r => pushnvlist L (p r);; mret 1)
  (fun _ _ _ _ _ r h s =>
    match reg_get (inl NVLIST_METATABLE) h with
    | VTab m => Some ([VUd (fresh h)], alloc_handle m (p r) h, s)
    | _ => None
    end).

#[global] Typeclasses Opaque or_zfs or_zfs_null NvList.
End ops.

(** *** The laws *)

Section run.
Context `{LuaSem} {S : Type} `{Libc S} (C : clib S).
Implicit Types (w : world S lstate) (L : nat) (vs : list value) (h : heap).
Abbreviation rn := (run (documented C)).

Lemma run_libzfsfail lib L p e m vs h w :
  external C (fail_calls None) lib ->
  rn (libzfsfail L p e m) (put L (LS vs 20 h) w) =
  let x := zfs_failure lib p e m (wx w) in (Ok 3, put L (LS (rev x.1 ++ vs) 17 h) (set_x x.2 w)).
Proof.
  intros He. unfold libzfsfail, zfs_failure. cbv zeta.
  assert (Hx : forall f a st w, In f (fail_calls None) ->
    rn (call f a) (put L st w) = (Ok (lib f a (wx w)).1, put L st (set_x (lib f a (wx w)).2 w))).
  { intros f a st w' Hin. by apply (run_external C (fail_calls None) lib). }
  rewrite run_bind, Hx by (cbn; tauto). cbn [andthen]. rewrite run_bind.
  destruct (rc (lib "libzfs_errno" [AZ p] (wx w)).1 =? 0).
  - rewrite run_bind, Hx by (cbn; tauto). cbn [andthen]. rewrite run_ret. cbn [andthen]. lua_run.
    rewrite Hx by (cbn; tauto). cbn [andthen]. rewrite run_bind, Hx by (cbn; tauto). cbn [andthen]. lua_run.
    rewrite Hx by (cbn; tauto). cbn [andthen]. lua_run. done.
  - rewrite run_ret. cbn [andthen]. lua_run.
    rewrite Hx by (cbn; tauto). cbn [andthen]. rewrite run_bind, Hx by (cbn; tauto). cbn [andthen]. lua_run.
    rewrite Hx by (cbn; tauto). cbn [andthen]. lua_run. done.
Qed.

Lemma external_in fns fns' lib : external C fns lib -> (forall f, In f fns' -> In f fns) -> external C fns' lib.
Proof. intros He Hs f a w Hin. by apply He, Hs. Qed.

Lemma run_fail_of lib get L p e m vs h w :
  external C (fail_calls get) lib ->
  rn (fail_of get L p e m) (put L (LS vs 20 h) w) =
  let x := failure_of lib get p e m (wx w) in (Ok 3, put L (LS (rev x.1 ++ vs) 17 h) (set_x x.2 w)).
Proof.
  intros He. destruct get as [f|]; cbn [fail_of failure_of]; [|by apply run_libzfsfail].
  rewrite run_bind, (run_external C (fail_calls (Some f)) lib f) by (done || by left). cbn [andthen].
  rewrite (run_libzfsfail lib); [done|]. eapply external_in; [exact He|]. intros g Hg. by right.
Qed.

Lemma failure_of_length lib get p e m (s : S) : length (failure_of lib get p e m s).1 = 3%nat.
Proof. by destruct get. Qed.
End run.

#[export] Instance finishes_or_zfs get m f : Finishes f -> Finishes (or_zfs get m f).
Proof.
  intros Hf LU S LB C lib L vs c r h w res h' s Hl Hs. cbn [f_prog f_spec f_calls or_zfs] in *.
  destruct (negb (rc r =? 0)).
  - injection Hs as <- <- <-. exists 17%nat.
    rewrite (run_fail_of C lib); [|eapply external_in; [exact Hl|]; intros g Hg; by apply in_or_app; left].
    cbv zeta. by rewrite failure_of_length.
  - eapply Hf; [|done]. eapply external_in; [exact Hl|]. intros g Hg. by apply in_or_app; right.
Qed.

#[export] Instance finishes_or_zfs_null `{Consts} get e m f : Finishes f -> Finishes (or_zfs_null get e m f).
Proof.
  intros Hf LU S LB C lib L vs c r h w res h' s Hl Hs. cbn [f_prog f_spec f_calls or_zfs_null] in *.
  destruct (rc r =? 0).
  - injection Hs as <- <- <-. exists 17%nat.
    rewrite (run_fail_of C lib); [|eapply external_in; [exact Hl|]; intros g Hg; by apply in_or_app; left].
    cbv zeta. by rewrite failure_of_length.
  - eapply Hf; [|done]. eapply external_in; [exact Hl|]. intros g Hg. by apply in_or_app; right.
Qed.

#[export] Instance finishes_nvlist p : Finishes (NvList p).
Proof.
  intros LU S LB C lib L vs c r h w res h' s _ Hs. cbn [f_prog f_spec NvList] in *.
  destruct (reg_get (inl NVLIST_METATABLE) h) as [| | | | | |m| |] eqn:Hr; try done. injection Hs as <- <- <-. exists 19%nat.
  unfold pushnvlist. rewrite run_bind, run_bind. change 20%nat with (2 + 18)%nat.
  by rewrite (run_new C L _ NVLIST_METATABLE m), set_x_id.
Qed.
