(* ===== verification/Libzfs.v ===== *)
(** * lua_zfs.c: functions of a library handle

    Pools and datasets are opened, created and received with a handle of the library.  Most functions are one call and have a description ([libzfs_wrappers]). *)

From S2P Require Import Prelude LuaApi Machine Capi Utils Cmem Modules Uio Wrapper Nvpair ZfsBase.

Section libzfs.
Context `{Consts}.

Definition l_zfs_name_to_prop (L : nat) : prog Z :=
  name ← luaL_checkstring L 1;
  prop ← call "zfs_name_to_prop" [AS name];
  if rc prop =? cst "ZPROP_INVAL" then
    mret 0
  else
    lua_pushinteger L (rc prop);;
    mret 1.

Definition l_libzfs_init (L : nat) : prog Z :=
  hdl ← call "libzfs_init" [];
  if rc hdl =? 0 then
    error ← errno;
    luaL_pushfail L;;
    message ← call "libzfs_error_init" [AZ error];
    lua_pushlstring L ("libzfs_init: " +:+ cstr (out_str 0 message));;
    lua_pushinteger L error;;
    mret 3
  else
    new L (rc hdl) LIBZFS_HANDLE_METATABLE.

Definition l_libzfs_fini (L : nat) : prog Z :=
  hdl ← checkcookienull L 1 LIBZFS_HANDLE_METATABLE;
  (if negb (hdl =? 0) then
      call "libzfs_fini" [AZ hdl];;
      setcookie L 1 0;;
      mret tt
   else mret tt);;
  mret 0.

Definition l_libzfs_print_on_error (L : nat) : prog Z :=
  hdl ← checklibzfs L 1;
  printerr ← lua_toboolean L 2;
  call "libzfs_print_on_error" [AZ hdl; AZ (Z_of_bool printerr)];;
  mret 0.

Definition l_zpool_log_history (L : nat) : prog Z :=
  hdl ← checklibzfs L 1;
  message ← luaL_checkstring L 2;
  error ← call "zpool_log_history" [AZ hdl; AS message];
  if negb (rc error =? 0) then
    fail L (rc error)
  else
    success L.

Definition l_libzfs_errno (L : nat) : prog Z :=
  hdl ← checklibzfs L 1;
  r ← call "libzfs_errno" [AZ hdl];
  lua_pushinteger L (rc r);;
  mret 1.

Definition l_libzfs_error_action (L : nat) : prog Z :=
  hdl ← checklibzfs L 1;
  r ← call "libzfs_error_action" [AZ hdl];
  push_ret_string L r;;
  mret 1.

Definition l_libzfs_error_description (L : nat) : prog Z :=
  hdl ← checklibzfs L 1;
  r ← call "libzfs_error_description" [AZ hdl];
  push_ret_string L r;;
  mret 1.

Definition l_libzfs_mnttab_cache (L : nat) : prog Z :=
  hdl ← checklibzfs L 1;
  enable ← lua_toboolean L 2;
  call "libzfs_mnttab_cache" [AZ hdl; AZ (Z_of_bool enable)];;
  mret 0.

(** [struct mnttab]: its members mnt_special, mnt_mountp, mnt_fstype, mnt_mntopts are the outs *)
Definition l_libzfs_mnttab_find (L : nat) : prog Z :=
  hdl ← checklibzfs L 1;
  fsname ← luaL_checkstring L 2;
  error ← call "libzfs_mnttab_find" [AZ hdl; AS fsname];
  if negb (rc error =? 0) then
    libzfsfail L hdl (rc error) "libzfs_mnttab_find"
  else
    lua_newtable L;;
    lua_pushstring L (out_str 0 error);;
    lua_setfield L (-2) "special";;
    lua_pushstring L (out_str 1 error);;
    lua_setfield L (-2) "mountp";;
    lua_pushstring L (out_str 2 error);;
    lua_setfield L (-2) "fstype";;
    lua_pushstring L (out_str 3 error);;
    lua_setfield L (-2) "mntopts";;
    mret 1.

Definition l_libzfs_mnttab_add (L : nat) : prog Z :=
  hdl ← checklibzfs L 1;
  special ← luaL_checkstring L 2;
  mountp ← luaL_checkstring L 3;
  mntopts ← luaL_checkstring L 4;
  call "libzfs_mnttab_add" [AZ hdl; AS special; AS mountp; AS mntopts];;
  mret 0.

Definition l_libzfs_mnttab_remove (L : nat) : prog Z :=
  hdl ← checklibzfs L 1;
  fsname ← luaL_checkstring L 2;
  call "libzfs_mnttab_remove" [AZ hdl; AS fsname];;
  mret 0.

Definition l_zpool_open (L : nat) : prog Z :=
  hdl ← checklibzfs L 1;
  pool ← luaL_checkstring L 2;
  zhp ← call "zpool_open" [AZ hdl; AS pool];
  if rc zhp =? 0 then
    libzfsfail L hdl (cst "EZFS_UNKNOWN") "zpool_open"
  else
    new L (rc zhp) ZPOOL_HANDLE_METATABLE.

Definition l_zpool_open_canfail (L : nat) : prog Z :=
  hdl ← checklibzfs L 1;
  pool ← luaL_checkstring L 2;
  zhp ← call "zpool_open_canfail" [AZ hdl; AS pool];
  if rc zhp =? 0 then
    libzfsfail L hdl (cst "EZFS_UNKNOWN") "zpool_open_canfail"
  else
    new L (rc zhp) ZPOOL_HANDLE_METATABLE.

Definition l_zpool_create (L : nat) : prog Z :=
  hdl ← checklibzfs L 1;
  poolname ← luaL_checkstring L 2;
  nvroot ← checknvlist L 3;
  props ← optnvlist L 4;
  fsprops ← optnvlist L 5;
  error ← call "zpool_create" [AZ hdl; AS poolname; AZ nvroot; AZ props; AZ fsprops];
  if negb (rc error =? 0) then
    libzfsfail L hdl (rc error) "zpool_create"
  else
    success L.

Definition l_zpool_label_disk (L : nat) : prog Z :=
  hdl ← checklibzfs L 1;
  zhp ← opt_arg L 2 (checkzpool L 2);
  name ← luaL_checkstring L 3;
  error ← call "zpool_label_disk" [AZ hdl; AZ zhp; AS name];
  if negb (rc error =? 0) then
    libzfsfail L hdl (rc error) "zpool_label_disk"
  else
    success L.

(** the lines a script printed: an array of strings *)
Definition push_lines (L : nat) (lines nlines : Z) : prog Z :=
  push_values L lines nlines (push_cstr L);;
  call "libzfs_free_str_array" [AZ lines; AZ nlines];;
  mret 1.

Definition l_zpool_prepare_and_label_disk (L : nat) : prog Z :=
  hdl ← checklibzfs L 1;
  zhp ← opt_arg L 2 (checkzpool L 2);
  name ← luaL_checkstring L 3;
  vdev_nv ← checknvlist L 4;
  prepare_str ← luaL_optstring L 5;
  error ← call "zpool_prepare_and_label_disk" [AZ hdl; AZ zhp; AS name; AZ vdev_nv; null_or prepare_str];
  if negb (rc error =? 0) then
    zassert (out_int 0 error =? 0) "lines == 0";;
    zassert (out_int 1 error =? 0) "nlines == 0";;
    libzfsfail L hdl (rc error) "zpool_prepare_and_label_disk"
  else
    zassert (negb (out_int 0 error =? 0)) "lines != NULL";;
    push_lines L (out_int 0 error) (out_int 1 error).

Definition l_zpool_import (L : nat) : prog Z :=
  hdl ← checklibzfs L 1;
  config ← checknvlist L 2;
  newname ← luaL_optstring L 3;
  altroot ← luaL_optstring L 4;
  error ← call "zpool_import" [AZ hdl; AZ config; null_or newname; null_or altroot];
  if negb (rc error =? 0) then
    libzfsfail L hdl (rc error) "zpool_import"
  else
    success L.

Definition l_zpool_import_props (L : nat) : prog Z :=
  hdl ← checklibzfs L 1;
  config ← checknvlist L 2;
  newname ← luaL_optstring L 3;
  props ← optnvlist L 4;
  flags ← luaL_checkinteger L 5;
  error ← call "zpool_import_props" [AZ hdl; AZ config; null_or newname; AZ props; AZ (to_int flags)];
  if negb (rc error =? 0) then
    libzfsfail L hdl (rc error) "zpool_import_props"
  else
    success L.

Definition l_zpool_vdev_name (L : nat) : prog Z :=
  hdl ← checklibzfs L 1;
  zhp ← opt_arg L 2 (checkzpool L 2);
  nvl ← checknvlist L 3;
  name_flags ← luaL_optinteger L 4 0;
  name ← call "zpool_vdev_name" [AZ hdl; AZ zhp; AZ nvl; AZ (to_int name_flags)];
  if rc name =? 0 then
    libzfsfail L hdl (cst "ENOMEM") "zpool_vdev_name"
  else
    push_cstr L (rc name);;
    free (rc name);;
    mret 1.

Definition l_zpool_events_next (L : nat) : prog Z :=
  hdl ← checklibzfs L 1;
  flags ← luaL_checkinteger L 2;
  zevent_fd ← checkfd L 3;
  error ← call "zpool_events_next" [AZ hdl; AZ (to_uint flags); AZ zevent_fd];
  if negb (rc error =? 0) then
    libzfsfail L hdl (rc error) "zpool_events_next"
  else
    pushnvlist L (out_int 0 error);;
    lua_pushinteger L (out_int 1 error);;
    mret 2.

Definition l_zpool_events_clear (L : nat) : prog Z :=
  hdl ← checklibzfs L 1;
  error ← call "zpool_events_clear" [AZ hdl];
  if negb (rc error =? 0) then
    libzfsfail L hdl (rc error) "zpool_events_clear"
  else
    lua_pushinteger L (out_int 0 error);;
    mret 1.

Definition l_zpool_events_seek (L : nat) : prog Z :=
  hdl ← checklibzfs L 1;
  eid ← luaL_checkinteger L 2;
  zevent_fd ← checkfd L 3;
  error ← call "zpool_events_seek" [AZ hdl; AZ (to_size eid); AZ zevent_fd];
  if negb (rc error =? 0) then
    libzfsfail L hdl (rc error) "zpool_events_seek"
  else
    success L.

Definition l_zpool_explain_recover (L : nat) : prog Z :=
  hdl ← checklibzfs L 1;
  name ← luaL_checkstring L 2;
  reason ← luaL_checkinteger L 3;
  config ← checknvlist L 4;
  if 1500023 <? cst "__FreeBSD_version" then
    r ← call "zpool_explain_recover" [AZ hdl; AS name; AZ (to_int reason); AZ config; AZ (cst "PAGE_SIZE" / 2)];
    lua_pushstring L (out_str 0 r);;
    mret 1
  else
    call "zpool_explain_recover" [AZ hdl; AS name; AZ (to_int reason); AZ config];;
    mret 0.

Definition l_zfs_open (L : nat) : prog Z :=
  hdl ← checklibzfs L 1;
  path ← luaL_checkstring L 2;
  types ← luaL_checkinteger L 3;
  zhp ← call "zfs_open" [AZ hdl; AS path; AZ (to_int types)];
  if rc zhp =? 0 then
    libzfsfail L hdl (cst "EZFS_UNKNOWN") "zfs_open"
  else
    new L (rc zhp) ZFS_HANDLE_METATABLE.

(** the wrapped key: an address and a length *)
Definition l_zfs_crypto_create (L : nat) : prog Z :=
  hdl ← checklibzfs L 1;
  parent_name ← luaL_optstring L 2;
  props ← checknvlist L 3;
  pool_props ← checknvlist L 4;
  stdin_available ← lua_toboolean L 5;
  error ← call "zfs_crypto_create" [AZ hdl; null_or parent_name; AZ props; AZ pool_props; AZ (Z_of_bool stdin_available)];
  if negb (rc error =? 0) then
    libzfsfail L hdl (rc error) "zfs_crypto_create"
  else
    push_bytes L (out_int 0 error) (out_int 1 error);;
    mret 1.

Definition l_zfs_crypto_clone_check (L : nat) : prog Z :=
  hdl ← checklibzfs L 1;
  origin_zhp ← checkzfs L 2;
  props ← checknvlist L 3;
  error ← call "zfs_crypto_clone_check" [AZ hdl; AZ origin_zhp; AZ 0; AZ props];
  if negb (rc error =? 0) then
    libzfsfail L hdl (rc error) "zfs_crypto_clone_check"
  else
    success L.

Definition l_zfs_crypto_attempt_load_keys (L : nat) : prog Z :=
  hdl ← checklibzfs L 1;
  fsname ← luaL_checkstring L 2;
  error ← call "zfs_crypto_attempt_load_keys" [AZ hdl; AS fsname];
  if negb (rc error =? 0) then
    libzfsfail L hdl (rc error) "zfs_crypto_attempt_load_keys"
  else
    success L.

Definition l_zfs_valid_proplist (L : nat) : prog Z :=
  hdl ← checklibzfs L 1;
  type_ ← luaL_checkinteger L 2;
  props ← checknvlist L 3;
  zoned ← lua_toboolean L 4;
  zhp ← opt_arg L 5 (checkzfs L 5);
  pool_hdl ← opt_arg L 6 (checkzpool L 6);
  key_params_ok ← lua_toboolean L 7;
  errbuf ← luaL_checkstring L 8;
  ret ← call "zfs_valid_proplist" [AZ hdl; AZ (to_int type_); AZ props; AZ (Z_of_bool zoned); AZ zhp; AZ pool_hdl; AZ (Z_of_bool key_params_ok); AS errbuf];
  if rc ret =? 0 then
    libzfsfail L hdl (cst "EZFS_UNKNOWN") "zfs_valid_proplist"
  else
    pushnvlist L (rc ret);;
    mret 1.

Definition l_zfs_path_to_zhandle (L : nat) : prog Z :=
  hdl ← checklibzfs L 1;
  path ← luaL_checkstring L 2;
  type_ ← luaL_checkinteger L 3;
  zhp ← call "zfs_path_to_zhandle" [AZ hdl; AS path; AZ (to_int type_)];
  if rc zhp =? 0 then
    libzfsfail L hdl (cst "EZFS_UNKNOWN") "zfs_path_to_zhandle"
  else
    new L (rc zhp) ZFS_HANDLE_METATABLE.

Definition l_zfs_dataset_exists (L : nat) : prog Z :=
  hdl ← checklibzfs L 1;
  path ← luaL_checkstring L 2;
  type_ ← luaL_checkinteger L 3;
  r ← call "zfs_dataset_exists" [AZ hdl; AS path; AZ (to_int type_)];
  lua_pushboolean L (negb (rc r =? 0));;
  mret 1.

Definition l_zfs_create (L : nat) : prog Z :=
  hdl ← checklibzfs L 1;
  path ← luaL_checkstring L 2;
  type_ ← luaL_checkinteger L 3;
  props ← optnvlist L 4;
  error ← call "zfs_create" [AZ hdl; AS path; AZ (to_int type_); AZ props];
  if negb (rc error =? 0) then
    libzfsfail L hdl (rc error) "zfs_create"
  else
    success L.

Definition l_zfs_create_ancestors (L : nat) : prog Z :=
  hdl ← checklibzfs L 1;
  path ← luaL_checkstring L 2;
  error ← call "zfs_create_ancestors" [AZ hdl; AS path];
  if negb (rc error =? 0) then
    libzfsfail L hdl (rc error) "zfs_create_ancestors"
  else
    success L.

Definition l_zfs_create_ancestors_props (L : nat) : prog Z :=
  hdl ← checklibzfs L 1;
  path ← luaL_checkstring L 2;
  props ← optnvlist L 3;
  error ← call "zfs_create_ancestors_props" [AZ hdl; AS path; AZ props];
  if negb (rc error =? 0) then
    libzfsfail L hdl (rc error) "zfs_create_ancestors_props"
  else
    success L.

Definition l_zfs_destroy_snaps_nvl (L : nat) : prog Z :=
  hdl ← checklibzfs L 1;
  snaps ← checknvlist L 2;
  defer ← lua_toboolean L 3;
  error ← call "zfs_destroy_snaps_nvl" [AZ hdl; AZ snaps; AZ (Z_of_bool defer)];
  if negb (rc error =? 0) then
    libzfsfail L hdl (rc error) "zfs_destroy_snaps_nvl"
  else
    success L.

Definition l_zfs_snapshot (L : nat) : prog Z :=
  hdl ← checklibzfs L 1;
  path ← luaL_checkstring L 2;
  recursive ← lua_toboolean L 3;
  props ← optnvlist L 4;
  error ← call "zfs_snapshot" [AZ hdl; AS path; AZ (Z_of_bool recursive); AZ props];
  if negb (rc error =? 0) then
    libzfsfail L hdl (rc error) "zfs_snapshot"
  else
    success L.

Definition l_zfs_snapshot_nvl (L : nat) : prog Z :=
  hdl ← checklibzfs L 1;
  snaps ← checknvlist L 2;
  props ← optnvlist L 3;
  error ← call "zfs_snapshot_nvl" [AZ hdl; AZ snaps; AZ props];
  if negb (rc error =? 0) then
    libzfsfail L hdl (rc error) "zfs_snapshot_nvl"
  else
    success L.

Definition l_zfs_send_resume (L : nat) : prog Z :=
  hdl ← checklibzfs L 1;
  flags ← checksendflags L 2;
  outfd ← checkfd L 3;
  resume_token ← luaL_checkstring L 4;
  error ← call "zfs_send_resume" ([AZ hdl] ++ flags ++ [AZ outfd; AS resume_token]);
  if negb (rc error =? 0) then
    libzfsfail L hdl (rc error) "zfs_send_resume"
  else
    success L.

Definition l_zfs_send_resume_token_to_nvlist (L : nat) : prog Z :=
  hdl ← checklibzfs L 1;
  resume_token ← luaL_checkstring L 2;
  nvl ← call "zfs_send_resume_token_to_nvlist" [AZ hdl; AS resume_token];
  if rc nvl =? 0 then
    libzfsfail L hdl (cst "EINVAL") "zfs_send_resume_token_to_nvlist"
  else
    pushnvlist L (rc nvl);;
    mret 1.

Definition l_zfs_receive (L : nat) : prog Z :=
  hdl ← checklibzfs L 1;
  tosnap ← luaL_checkstring L 2;
  props ← optnvlist L 3;
  flags ← checkrecvflags L 4;
  infd ← checkfd L 5;
  error ← call "zfs_receive" ([AZ hdl; AS tosnap; AZ props] ++ flags ++ [AZ infd; AZ 0]);
  if negb (rc error =? 0) then
    libzfsfail L hdl (rc error) "zfs_receive"
  else
    success L.

Definition l_is_mounted (L : nat) : prog Z :=
  hdl ← checklibzfs L 1;
  special ← luaL_checkstring L 2;
  mounted ← call "is_mounted" [AZ hdl; AS special];
  lua_pushboolean L (negb (rc mounted =? 0));;
  if negb ((rc mounted) =? 0) then
    lua_pushstring L (out_str 0 mounted);;
    mret 2
  else
    mret 1.

Definition l_zfs_nicestrtonum (L : nat) : prog Z :=
  hdl ← checklibzfs L 1;
  value ← luaL_checkstring L 2;
  error ← call "zfs_nicestrtonum" [AZ hdl; AS value];
  if negb (rc error =? 0) then
    libzfsfail L hdl (rc error) "zfs_nicestrtonum"
  else
    lua_pushinteger L (to_long (out_int 0 error));;
    mret 1.

Definition l_zpool_in_use (L : nat) : prog Z :=
  hdl ← checklibzfs L 1;
  fd ← checkfd L 2;
  error ← call "zpool_in_use" [AZ hdl; AZ fd];
  if negb (rc error =? 0) then
    libzfsfail L hdl (rc error) "zpool_in_use"
  else
    lua_pushboolean L (negb (out_int 2 error =? 0));;
    lua_pushstring L (out_str 1 error);;
    lua_pushinteger L (out_int 0 error);;
    mret 3.

Definition l_zpool_nextboot (L : nat) : prog Z :=
  hdl ← checklibzfs L 1;
  pool_guid ← luaL_checkinteger L 2;
  vdev_guid ← luaL_checkinteger L 3;
  command ← luaL_checkstring L 4;
  error ← call "zpool_nextboot" [AZ hdl; AZ (to_size pool_guid); AZ (to_size vdev_guid); AS command];
  if negb (rc error =? 0) then
    libzfsfail L hdl (rc error) "zpool_nextboot"
  else
    success L.

(** ** What the wrappers do *)

Definition libzfs_wrappers : list wrapped := [
  Wrapped "l_libzfs_print_on_error" l_libzfs_print_on_error "libzfs_print_on_error" [ACookie LIBZFS_HANDLE_METATABLE; ABool] [] RNone;
  Wrapped "l_zpool_log_history" l_zpool_log_history "zpool_log_history" [ACookie LIBZFS_HANDLE_METATABLE; AStr] [] (or_code Succeeds);
  Wrapped "l_libzfs_errno" l_libzfs_errno "libzfs_errno" [ACookie LIBZFS_HANDLE_METATABLE] [] (Pushed [v_int]);
  Wrapped "l_libzfs_error_action" l_libzfs_error_action "libzfs_error_action" [ACookie LIBZFS_HANDLE_METATABLE] [] RStr;
  Wrapped "l_libzfs_error_description" l_libzfs_error_description "libzfs_error_description" [ACookie LIBZFS_HANDLE_METATABLE] [] RStr;
  Wrapped "l_libzfs_mnttab_cache" l_libzfs_mnttab_cache "libzfs_mnttab_cache" [ACookie LIBZFS_HANDLE_METATABLE; ABool] [] RNone;
  Wrapped "l_libzfs_mnttab_add" l_libzfs_mnttab_add "libzfs_mnttab_add" [ACookie LIBZFS_HANDLE_METATABLE; AStr; AStr; AStr] [] RNone;
  Wrapped "l_libzfs_mnttab_remove" l_libzfs_mnttab_remove "libzfs_mnttab_remove" [ACookie LIBZFS_HANDLE_METATABLE; AStr] [] RNone;
  Wrapped "l_zpool_open" l_zpool_open "zpool_open" [ACookie LIBZFS_HANDLE_METATABLE; AStr] [] (or_zfs_null None "EZFS_UNKNOWN" "zpool_open" (New ZPOOL_HANDLE_METATABLE));
  Wrapped "l_zpool_open_canfail" l_zpool_open_canfail "zpool_open_canfail" [ACookie LIBZFS_HANDLE_METATABLE; AStr] [] (or_zfs_null None "EZFS_UNKNOWN" "zpool_open_canfail" (New ZPOOL_HANDLE_METATABLE));
  Wrapped "l_zpool_create" l_zpool_create "zpool_create" [ACookie LIBZFS_HANDLE_METATABLE; AStr; ACookie NVLIST_METATABLE; AOptCookie NVLIST_METATABLE; AOptCookie NVLIST_METATABLE] [] (or_zfs None "zpool_create" Succeeds);
  Wrapped "l_zpool_label_disk" l_zpool_label_disk "zpool_label_disk" [ACookie LIBZFS_HANDLE_METATABLE; AOptCookie ZPOOL_HANDLE_METATABLE; AStr] [] (or_zfs None "zpool_label_disk" Succeeds);
  Wrapped "l_zpool_import" l_zpool_import "zpool_import" [ACookie LIBZFS_HANDLE_METATABLE; ACookie NVLIST_METATABLE; AOptStr; AOptStr] [] (or_zfs None "zpool_import" Succeeds);
  Wrapped "l_zpool_import_props" l_zpool_import_props "zpool_import_props" [ACookie LIBZFS_HANDLE_METATABLE; ACookie NVLIST_METATABLE; AOptStr; AOptCookie NVLIST_METATABLE; AInt to_int] [] (or_zfs None "zpool_import_props" Succeeds);
  Wrapped "l_zpool_events_clear" l_zpool_events_clear "zpool_events_clear" [ACookie LIBZFS_HANDLE_METATABLE] [] (or_zfs None "zpool_events_clear" (Pushed [v_out 0]));
  Wrapped "l_zpool_events_seek" l_zpool_events_seek "zpool_events_seek" [ACookie LIBZFS_HANDLE_METATABLE; AInt to_size; AFd id] [] (or_zfs None "zpool_events_seek" Succeeds);
  Wrapped "l_zfs_open" l_zfs_open "zfs_open" [ACookie LIBZFS_HANDLE_METATABLE; AStr; AInt to_int] [] (or_zfs_null None "EZFS_UNKNOWN" "zfs_open" (New ZFS_HANDLE_METATABLE));
  Wrapped "l_zfs_crypto_clone_check" l_zfs_crypto_clone_check "zfs_crypto_clone_check" [ACookie LIBZFS_HANDLE_METATABLE; ACookie ZFS_HANDLE_METATABLE; ACookie NVLIST_METATABLE; AConst (AZ 0)] [0%nat; 1%nat; 3%nat; 2%nat] (or_zfs None "zfs_crypto_clone_check" Succeeds);
  Wrapped "l_zfs_crypto_attempt_load_keys" l_zfs_crypto_attempt_load_keys "zfs_crypto_attempt_load_keys" [ACookie LIBZFS_HANDLE_METATABLE; AStr] [] (or_zfs None "zfs_crypto_attempt_load_keys" Succeeds);
  Wrapped "l_zfs_valid_proplist" l_zfs_valid_proplist "zfs_valid_proplist" [ACookie LIBZFS_HANDLE_METATABLE; AInt to_int; ACookie NVLIST_METATABLE; ABool; AOptCookie ZFS_HANDLE_METATABLE; AOptCookie ZPOOL_HANDLE_METATABLE; ABool; AStr] [] (or_zfs_null None "EZFS_UNKNOWN" "zfs_valid_proplist" (NvList rc));
  Wrapped "l_zfs_path_to_zhandle" l_zfs_path_to_zhandle "zfs_path_to_zhandle" [ACookie LIBZFS_HANDLE_METATABLE; AStr; AInt to_int] [] (or_zfs_null None "EZFS_UNKNOWN" "zfs_path_to_zhandle" (New ZFS_HANDLE_METATABLE));
  Wrapped "l_zfs_dataset_exists" l_zfs_dataset_exists "zfs_dataset_exists" [ACookie LIBZFS_HANDLE_METATABLE; AStr; AInt to_int] [] (Pushed [v_bool]);
  Wrapped "l_zfs_create" l_zfs_create "zfs_create" [ACookie LIBZFS_HANDLE_METATABLE; AStr; AInt to_int; AOptCookie NVLIST_METATABLE] [] (or_zfs None "zfs_create" Succeeds);
  Wrapped "l_zfs_create_ancestors" l_zfs_create_ancestors "zfs_create_ancestors" [ACookie LIBZFS_HANDLE_METATABLE; AStr] [] (or_zfs None "zfs_create_ancestors" Succeeds);
  Wrapped "l_zfs_create_ancestors_props" l_zfs_create_ancestors_props "zfs_create_ancestors_props" [ACookie LIBZFS_HANDLE_METATABLE; AStr; AOptCookie NVLIST_METATABLE] [] (or_zfs None "zfs_create_ancestors_props" Succeeds);
  Wrapped "l_zfs_destroy_snaps_nvl" l_zfs_destroy_snaps_nvl "zfs_destroy_snaps_nvl" [ACookie LIBZFS_HANDLE_METATABLE; ACookie NVLIST_METATABLE; ABool] [] (or_zfs None "zfs_destroy_snaps_nvl" Succeeds);
  Wrapped "l_zfs_snapshot" l_zfs_snapshot "zfs_snapshot" [ACookie LIBZFS_HANDLE_METATABLE; AStr; ABool; AOptCookie NVLIST_METATABLE] [] (or_zfs None "zfs_snapshot" Succeeds);
  Wrapped "l_zfs_snapshot_nvl" l_zfs_snapshot_nvl "zfs_snapshot_nvl" [ACookie LIBZFS_HANDLE_METATABLE; ACookie NVLIST_METATABLE; AOptCookie NVLIST_METATABLE] [] (or_zfs None "zfs_snapshot_nvl" Succeeds);
  Wrapped "l_zfs_send_resume_token_to_nvlist" l_zfs_send_resume_token_to_nvlist "zfs_send_resume_token_to_nvlist" [ACookie LIBZFS_HANDLE_METATABLE; AStr] [] (or_zfs_null None "EINVAL" "zfs_send_resume_token_to_nvlist" (NvList rc));
  Wrapped "l_zfs_nicestrtonum" l_zfs_nicestrtonum "zfs_nicestrtonum" [ACookie LIBZFS_HANDLE_METATABLE; AStr] [] (or_zfs None "zfs_nicestrtonum" (Pushed [(fun r => VInt (to_long (out_int 0 r)))]));
  Wrapped "l_zpool_in_use" l_zpool_in_use "zpool_in_use" [ACookie LIBZFS_HANDLE_METATABLE; AFd id] [] (or_zfs None "zpool_in_use" (Pushed [v_outb 2; v_outs 1; v_out 0]));
  Wrapped "l_zpool_nextboot" l_zpool_nextboot "zpool_nextboot" [ACookie LIBZFS_HANDLE_METATABLE; AInt to_size; AInt to_size; AStr] [] (or_zfs None "zpool_nextboot" Succeeds)].

Lemma libzfs_wrappers_ok : Forall wrapped_ok libzfs_wrappers.
Proof. wrapped_table. Qed.
End libzfs.
