(* ===== verification/Zfs.v ===== *)
(** * lua_zfs.c: functions of a dataset

    A dataset handle is closed by its methods or when it is collected.  Most functions are one call and have a description ([zfs_wrappers]). *)

From S2P Require Import Prelude LuaApi Machine Capi Utils Cmem Modules Uio Wrapper Nvpair ZfsBase Libzfs.

Section zfs.
Context `{Consts}.

Definition l_zfs_close (L : nat) : prog Z :=
  zhp ← checkcookienull L 1 ZFS_HANDLE_METATABLE;
  (if negb (zhp =? 0) then
      call "zfs_close" [AZ zhp];;
      setcookie L 1 0;;
      mret tt
   else mret tt);;
  mret 0.

Definition l_zfs_handle_dup (L : nat) : prog Z :=
  zhp ← checkzfs L 1;
  dupzhp ← call "zfs_handle_dup" [AZ zhp];
  if rc dupzhp =? 0 then
    zfsfail L zhp (cst "EZFS_UNKNOWN") "zfs_handle_dup"
  else
    new L (rc dupzhp) ZFS_HANDLE_METATABLE.

Definition l_zfs_get_type (L : nat) : prog Z :=
  zhp ← checkzfs L 1;
  r ← call "zfs_get_type" [AZ zhp];
  lua_pushinteger L (rc r);;
  mret 1.

Definition l_zfs_get_underlying_type (L : nat) : prog Z :=
  zhp ← checkzfs L 1;
  r ← call "zfs_get_underlying_type" [AZ zhp];
  lua_pushinteger L (rc r);;
  mret 1.

Definition l_zfs_get_name (L : nat) : prog Z :=
  zhp ← checkzfs L 1;
  r ← call "zfs_get_name" [AZ zhp];
  push_ret_string L r;;
  mret 1.

Definition l_zfs_get_pool_name (L : nat) : prog Z :=
  zhp ← checkzfs L 1;
  r ← call "zfs_get_pool_name" [AZ zhp];
  push_ret_string L r;;
  mret 1.

Definition l_zfs_prop_set (L : nat) : prog Z :=
  zhp ← checkzfs L 1;
  propname ← luaL_checkstring L 2;
  propval ← luaL_checkstring L 3;
  error ← call "zfs_prop_set" [AZ zhp; AS propname; AS propval];
  if negb (rc error =? 0) then
    zfsfail L zhp (rc error) "zfs_prop_set"
  else
    success L.

Definition l_zfs_prop_set_list (L : nat) : prog Z :=
  zhp ← checkzfs L 1;
  props ← checknvlist L 2;
  error ← call "zfs_prop_set_list" [AZ zhp; AZ props];
  if negb (rc error =? 0) then
    zfsfail L zhp (rc error) "zfs_prop_set_list"
  else
    success L.

Definition l_zfs_prop_set_list_flags (L : nat) : prog Z :=
  zhp ← checkzfs L 1;
  props ← checknvlist L 2;
  flags ← luaL_optinteger L 3 0;
  error ← call "zfs_prop_set_list_flags" [AZ zhp; AZ props; AZ (to_int flags)];
  if negb (rc error =? 0) then
    zfsfail L zhp (rc error) "zfs_prop_set_list_flags"
  else
    success L.

Definition l_zfs_prop_get (L : nat) : prog Z :=
  zhp ← checkzfs L 1;
  prop ← checkprop L 2;
  literal ← lua_toboolean L 3;
  error ← call "zfs_prop_get" [AZ zhp; AZ prop; AZ (cst "ZFS_MAXPROPLEN"); AZ (cst "ZFS_MAX_DATASET_NAME_LEN"); AZ (Z_of_bool literal)];
  if negb (rc error =? 0) then
    zfsfail L zhp (rc error) "zfs_prop_get"
  else
    lua_pushstring L (out_str 0 error);;
    lua_pushinteger L (out_int 1 error);;
    if String.eqb (cstr (out_str 2 error)) "" then
      mret 2
    else
      lua_pushstring L (out_str 2 error);;
      mret 3.

Definition l_zfs_prop_get_recvd (L : nat) : prog Z :=
  zhp ← checkzfs L 1;
  propname ← luaL_checkstring L 2;
  literal ← lua_toboolean L 3;
  error ← call "zfs_prop_get_recvd" [AZ zhp; AS propname; AZ (cst "ZFS_MAXPROPLEN"); AZ (Z_of_bool literal)];
  if negb (rc error =? 0) then
    zfsfail L zhp (rc error) "zfs_prop_get_recvd"
  else
    lua_pushstring L (out_str 0 error);;
    mret 1.

Definition l_zfs_prop_get_numeric (L : nat) : prog Z :=
  zhp ← checkzfs L 1;
  prop ← checkprop L 2;
  error ← call "zfs_prop_get_numeric" [AZ zhp; AZ prop; AZ (cst "ZFS_MAX_DATASET_NAME_LEN")];
  if negb (rc error =? 0) then
    zfsfail L zhp (rc error) "zfs_prop_get_numeric"
  else
    lua_pushinteger L (to_long (out_int 0 error));;
    lua_pushinteger L (out_int 1 error);;
    if String.eqb (cstr (out_str 2 error)) "" then
      mret 2
    else
      lua_pushstring L (out_str 2 error);;
      mret 3.

Definition l_zfs_prop_get_userquota_int (L : nat) : prog Z :=
  zhp ← checkzfs L 1;
  propname ← luaL_checkstring L 2;
  error ← call "zfs_prop_get_userquota_int" [AZ zhp; AS propname];
  if negb (rc error =? 0) then
    zfsfail L zhp (rc error) "zfs_prop_get_userquota_int"
  else
    lua_pushinteger L (to_long (out_int 0 error));;
    mret 1.

Definition l_zfs_prop_get_userquota (L : nat) : prog Z :=
  zhp ← checkzfs L 1;
  propname ← luaL_checkstring L 2;
  literal ← lua_toboolean L 3;
  error ← call "zfs_prop_get_userquota" [AZ zhp; AS propname; AZ (cst "ZFS_MAXPROPLEN"); AZ (Z_of_bool literal)];
  if negb (rc error =? 0) then
    zfsfail L zhp (rc error) "zfs_prop_get_userquota"
  else
    lua_pushstring L (out_str 0 error);;
    mret 1.

Definition l_zfs_prop_get_written_int (L : nat) : prog Z :=
  zhp ← checkzfs L 1;
  propname ← luaL_checkstring L 2;
  error ← call "zfs_prop_get_written_int" [AZ zhp; AS propname];
  if negb (rc error =? 0) then
    zfsfail L zhp (rc error) "zfs_prop_get_written_int"
  else
    lua_pushinteger L (to_long (out_int 0 error));;
    mret 1.

Definition l_zfs_prop_get_written (L : nat) : prog Z :=
  zhp ← checkzfs L 1;
  propname ← luaL_checkstring L 2;
  literal ← lua_toboolean L 3;
  error ← call "zfs_prop_get_written" [AZ zhp; AS propname; AZ (cst "ZFS_MAXPROPLEN"); AZ (Z_of_bool literal)];
  if negb (rc error =? 0) then
    zfsfail L zhp (rc error) "zfs_prop_get_written"
  else
    lua_pushstring L (out_str 0 error);;
    mret 1.

Definition l_getprop_uint64 (L : nat) : prog Z :=
  zhp ← checkzfs L 1;
  prop ← checkprop L 2;
  r ← call "getprop_uint64" [AZ zhp; AZ prop];
  lua_pushinteger L (rc r);;
  lua_pushstring L (out_str 0 r);;
  mret 2.

Definition l_zfs_prop_get_int (L : nat) : prog Z :=
  zhp ← checkzfs L 1;
  prop ← checkprop L 2;
  r ← call "zfs_prop_get_int" [AZ zhp; AZ prop];
  lua_pushinteger L (rc r);;
  mret 1.

Definition l_zfs_prop_inherit (L : nat) : prog Z :=
  zhp ← checkzfs L 1;
  propname ← luaL_checkstring L 2;
  received ← lua_toboolean L 3;
  error ← call "zfs_prop_inherit" [AZ zhp; AS propname; AZ (Z_of_bool received)];
  if negb (rc error =? 0) then
    zfsfail L zhp (rc error) "zfs_prop_inherit"
  else
    success L.

Definition l_zfs_get_all_props (L : nat) : prog Z :=
  zhp ← checkzfs L 1;
  nvl ← call "zfs_get_all_props" [AZ zhp];
  error ← call "nvlist_dup" [AZ (rc nvl); AZ 0];
  if negb (rc error =? 0) then
    fatal L "nvlist_dup" (rc error)
  else
    pushnvlist L (out_int 0 error);;
    mret 1.

Definition l_zfs_get_user_props (L : nat) : prog Z :=
  zhp ← checkzfs L 1;
  nvl ← call "zfs_get_user_props" [AZ zhp];
  error ← call "nvlist_dup" [AZ (rc nvl); AZ 0];
  if negb (rc error =? 0) then
    fatal L "nvlist_dup" (rc error)
  else
    pushnvlist L (out_int 0 error);;
    mret 1.

Definition l_zfs_get_recvd_props (L : nat) : prog Z :=
  zhp ← checkzfs L 1;
  props ← call "zfs_get_recvd_props" [AZ zhp];
  if rc props =? 0 then
    zfsfail L zhp (cst "EZFS_UNKNOWN") "zfs_get_recvd_props"
  else
    error ← call "nvlist_dup" [AZ (rc props); AZ (rc props); AZ 0];
    if negb (rc error =? 0) then
      fatal L "nvlist_dup" (rc error)
    else
      pushnvlist L (out_int 0 error);;
      mret 1.

Definition l_zfs_get_clones_nvl (L : nat) : prog Z :=
  zhp ← checkzfs L 1;
  clones ← call "zfs_get_clones_nvl" [AZ zhp];
  if rc clones =? 0 then
    zfsfail L zhp (cst "EZFS_UNKNOWN") "zfs_get_clones_nvl"
  else
    pushnvlist L (rc clones);;
    mret 1.

Definition l_zfs_wait_status (L : nat) : prog Z :=
  zhp ← checkzfs L 1;
  activity ← luaL_checkinteger L 2;
  error ← call "zfs_wait_status" [AZ zhp; AZ (to_int activity)];
  if negb (rc error =? 0) then
    zfsfail L zhp (rc error) "zfs_wait_status"
  else
    lua_pushboolean L (negb (out_int 0 error =? 0));;
    lua_pushboolean L (negb (out_int 1 error =? 0));;
    mret 2.

Definition l_zfs_crypto_get_encryption_root (L : nat) : prog Z :=
  zhp ← checkzfs L 1;
  error ← call "zfs_crypto_get_encryption_root" [AZ zhp];
  if negb (rc error =? 0) then
    zfsfail L zhp (rc error) "zfs_crypto_get_encryption_root"
  else
    lua_pushboolean L (negb (out_int 0 error =? 0));;
    lua_pushstring L (out_str 1 error);;
    mret 2.

Definition l_zfs_crypto_load_key (L : nat) : prog Z :=
  zhp ← checkzfs L 1;
  noop ← lua_toboolean L 2;
  alt_keylocation ← luaL_optstring L 3;
  error ← call "zfs_crypto_load_key" [AZ zhp; AZ (Z_of_bool noop); null_or alt_keylocation];
  if negb (rc error =? 0) then
    zfsfail L zhp (rc error) "zfs_crypto_load_key"
  else
    success L.

Definition l_zfs_crypto_unload_key (L : nat) : prog Z :=
  zhp ← checkzfs L 1;
  error ← call "zfs_crypto_unload_key" [AZ zhp];
  if negb (rc error =? 0) then
    zfsfail L zhp (rc error) "zfs_crypto_unload_key"
  else
    success L.

Definition l_zfs_crypto_rewrap (L : nat) : prog Z :=
  zhp ← checkzfs L 1;
  raw_props ← checknvlist L 2;
  inherit_key ← lua_toboolean L 3;
  error ← call "zfs_crypto_rewrap" [AZ zhp; AZ raw_props; AZ (Z_of_bool inherit_key)];
  if negb (rc error =? 0) then
    zfsfail L zhp (rc error) "zfs_crypto_rewrap"
  else
    success L.

Definition l_zfs_is_encrypted (L : nat) : prog Z :=
  zhp ← checkzfs L 1;
  r ← call "zfs_is_encrypted" [AZ zhp];
  lua_pushboolean L (negb (rc r =? 0));;
  mret 1.

Definition l_zfs_destroy (L : nat) : prog Z :=
  zhp ← checkzfs L 1;
  defer ← lua_toboolean L 2;
  error ← call "zfs_destroy" [AZ zhp; AZ (Z_of_bool defer)];
  if negb (rc error =? 0) then
    zfsfail L zhp (rc error) "zfs_destroy"
  else
    success L.

Definition l_zfs_destroy_snaps (L : nat) : prog Z :=
  zhp ← checkzfs L 1;
  snapname ← luaL_checkstring L 2;
  defer ← lua_toboolean L 3;
  error ← call "zfs_destroy_snaps" [AZ zhp; AS snapname; AZ (Z_of_bool defer)];
  if negb (rc error =? 0) then
    zfsfail L zhp (rc error) "zfs_destroy_snaps"
  else
    success L.

Definition l_zfs_clone (L : nat) : prog Z :=
  zhp ← checkzfs L 1;
  target ← luaL_checkstring L 2;
  props ← optnvlist L 3;
  error ← call "zfs_clone" [AZ zhp; AS target; AZ props];
  if negb (rc error =? 0) then
    zfsfail L zhp (rc error) "zfs_clone"
  else
    success L.

Definition l_zfs_rollback (L : nat) : prog Z :=
  zhp ← checkzfs L 1;
  snap ← checkzfs L 2;
  force ← lua_toboolean L 3;
  error ← call "zfs_rollback" [AZ zhp; AZ snap; AZ (Z_of_bool force)];
  if negb (rc error =? 0) then
    zfsfail L zhp (rc error) "zfs_rollback"
  else
    success L.

Definition l_zfs_rename (L : nat) : prog Z :=
  zhp ← checkzfs L 1;
  target ← luaL_checkstring L 2;
  luaL_checktype L 3 TTABLE;;
  flags ← read_flags L 3 ["forceunmount"; "nounmount"; "recursive"];
  error ← call "zfs_rename" ([AZ zhp; AS target] ++ flags);
  if negb (rc error =? 0) then
    zfsfail L zhp (rc error) "zfs_rename"
  else
    success L.

Definition l_zfs_send_one (L : nat) : prog Z :=
  zhp ← checkzfs L 1;
  fromsnap ← luaL_optstring L 2;
  outfd ← checkfd L 3;
  flags ← checksendflags L 4;
  redactbook ← luaL_optstring L 5;
  error ← call "zfs_send_one" ([AZ zhp; null_or fromsnap; AZ outfd] ++ flags ++ [null_or redactbook]);
  if negb (rc error =? 0) then
    zfsfail L zhp (rc error) "zfs_send_one"
  else
    success L.

Definition l_zfs_send_progress (L : nat) : prog Z :=
  zhp ← checkzfs L 1;
  outfd ← checkfd L 2;
  error ← call "zfs_send_progress" [AZ zhp; AZ outfd];
  if negb (rc error =? 0) then
    zfsfail L zhp (rc error) "zfs_send_progress"
  else
    lua_pushinteger L (to_long (out_int 0 error));;
    lua_pushinteger L (to_long (out_int 1 error));;
    mret 2.

Definition l_zfs_send_saved (L : nat) : prog Z :=
  zhp ← checkzfs L 1;
  flags ← checksendflags L 2;
  outfd ← checkfd L 3;
  resume_token ← luaL_checkstring L 4;
  error ← call "zfs_send_saved" ([AZ zhp] ++ flags ++ [AZ outfd; AS resume_token]);
  if negb (rc error =? 0) then
    zfsfail L zhp (rc error) "zfs_send_saved"
  else
    success L.

Definition l_zfs_promote (L : nat) : prog Z :=
  zhp ← checkzfs L 1;
  error ← call "zfs_promote" [AZ zhp];
  if negb (rc error =? 0) then
    zfsfail L zhp (rc error) "zfs_promote"
  else
    success L.

Definition l_zfs_hold (L : nat) : prog Z :=
  zhp ← checkzfs L 1;
  snapname ← luaL_checkstring L 2;
  tag ← luaL_checkstring L 3;
  recursive ← lua_toboolean L 4;
  cleanup_fd ← checkfd L 5;
  error ← call "zfs_hold" [AZ zhp; AS snapname; AS tag; AZ (Z_of_bool recursive); AZ cleanup_fd];
  if negb (rc error =? 0) then
    zfsfail L zhp (rc error) "zfs_hold"
  else
    success L.

Definition l_zfs_hold_nvl (L : nat) : prog Z :=
  zhp ← checkzfs L 1;
  cleanup_fd ← checkfd L 2;
  nvl ← checknvlist L 3;
  error ← call "zfs_hold_nvl" [AZ zhp; AZ cleanup_fd; AZ nvl];
  if negb (rc error =? 0) then
    zfsfail L zhp (rc error) "zfs_hold_nvl"
  else
    success L.

Definition l_zfs_release (L : nat) : prog Z :=
  zhp ← checkzfs L 1;
  snapname ← luaL_checkstring L 2;
  tag ← luaL_checkstring L 3;
  recursive ← lua_toboolean L 4;
  error ← call "zfs_release" [AZ zhp; AS snapname; AS tag; AZ (Z_of_bool recursive)];
  if negb (rc error =? 0) then
    zfsfail L zhp (rc error) "zfs_release"
  else
    success L.

Definition l_zfs_get_holds (L : nat) : prog Z :=
  zhp ← checkzfs L 1;
  error ← call "zfs_get_holds" [AZ zhp];
  if negb (rc error =? 0) then
    zassert (out_int 0 error =? 0) "holds == 0";;
    zfsfail L zhp (rc error) "zfs_get_holds"
  else
    zassert (negb (out_int 0 error =? 0)) "holds != NULL";;
    pushnvlist L (out_int 0 error);;
    mret 1.

Definition l_zfs_refresh_properties (L : nat) : prog Z :=
  zhp ← checkzfs L 1;
  call "zfs_refresh_properties" [AZ zhp];;
  mret 0.

Definition l_zfs_parent_name (L : nat) : prog Z :=
  zhp ← checkzfs L 1;
  error ← call "zfs_parent_name" [AZ zhp; AZ (cst "ZFS_MAX_DATASET_NAME_LEN")];
  if negb (rc error =? 0) then
    zfsfail L zhp (rc error) "zfs_parent_name"
  else
    lua_pushstring L (out_str 0 error);;
    mret 1.

Definition l_zfs_spa_version (L : nat) : prog Z :=
  zhp ← checkzfs L 1;
  error ← call "zfs_spa_version" [AZ zhp];
  if negb (rc error =? 0) then
    zfsfail L zhp (rc error) "zfs_spa_version"
  else
    lua_pushinteger L (out_int 0 error);;
    mret 1.

(** the mount point is a string at an address *)
Definition l_zfs_is_mounted (L : nat) : prog Z :=
  zhp ← checkzfs L 1;
  r ← call "zfs_is_mounted" [AZ zhp];
  if negb (rc r =? 0) then
    lua_pushboolean L true;;
    push_cstr L (out_int 0 r);;
    free (out_int 0 r);;
    mret 2
  else
    lua_pushboolean L false;;
    mret 1.

Definition l_zfs_mount (L : nat) : prog Z :=
  zhp ← checkzfs L 1;
  options ← luaL_optstring L 2;
  flags ← luaL_optinteger L 3 0;
  error ← call "zfs_mount" [AZ zhp; null_or options; AZ (to_int flags)];
  if negb (rc error =? 0) then
    zfsfail L zhp (rc error) "zfs_mount"
  else
    success L.

Definition l_zfs_mount_at (L : nat) : prog Z :=
  zhp ← checkzfs L 1;
  options ← luaL_optstring L 2;
  flags ← luaL_optinteger L 3 0;
  mountpoint ← luaL_checkstring L 4;
  error ← call "zfs_mount_at" [AZ zhp; null_or options; AZ (to_int flags); AS mountpoint];
  if negb (rc error =? 0) then
    zfsfail L zhp (rc error) "zfs_mount_at"
  else
    success L.

Definition l_zfs_unmount (L : nat) : prog Z :=
  zhp ← checkzfs L 1;
  mountpoint ← luaL_optstring L 2;
  flags ← luaL_optinteger L 3 0;
  error ← call "zfs_unmount" [AZ zhp; null_or mountpoint; AZ (to_int flags)];
  if negb (rc error =? 0) then
    zfsfail L zhp (rc error) "zfs_unmount"
  else
    success L.

Definition l_zfs_unmountall (L : nat) : prog Z :=
  zhp ← checkzfs L 1;
  flags ← luaL_optinteger L 2 0;
  error ← call "zfs_unmountall" [AZ zhp; AZ (to_int flags)];
  if negb (rc error =? 0) then
    zfsfail L zhp (rc error) "zfs_unmountall"
  else
    success L.

Definition l_zfs_jail (L : nat) : prog Z :=
  zhp ← checkzfs L 1;
  jid ← luaL_checkinteger L 2;
  attach ← lua_toboolean L 3;
  error ← call "zfs_jail" [AZ zhp; AZ (to_int jid); AZ (Z_of_bool attach)];
  if negb (rc error =? 0) then
    zfsfail L zhp (rc error) "zfs_jail"
  else
    success L.

(** ** What the wrappers do *)

Definition zfs_wrappers : list wrapped := [
  Wrapped "l_zfs_handle_dup" l_zfs_handle_dup "zfs_handle_dup" [ACookie ZFS_HANDLE_METATABLE] [] (or_zfs_null (Some "zfs_get_handle") "EZFS_UNKNOWN" "zfs_handle_dup" (New ZFS_HANDLE_METATABLE));
  Wrapped "l_zfs_get_type" l_zfs_get_type "zfs_get_type" [ACookie ZFS_HANDLE_METATABLE] [] (Pushed [v_int]);
  Wrapped "l_zfs_get_underlying_type" l_zfs_get_underlying_type "zfs_get_underlying_type" [ACookie ZFS_HANDLE_METATABLE] [] (Pushed [v_int]);
  Wrapped "l_zfs_get_name" l_zfs_get_name "zfs_get_name" [ACookie ZFS_HANDLE_METATABLE] [] RStr;
  Wrapped "l_zfs_get_pool_name" l_zfs_get_pool_name "zfs_get_pool_name" [ACookie ZFS_HANDLE_METATABLE] [] RStr;
  Wrapped "l_zfs_prop_set" l_zfs_prop_set "zfs_prop_set" [ACookie ZFS_HANDLE_METATABLE; AStr; AStr] [] (or_zfs (Some "zfs_get_handle") "zfs_prop_set" Succeeds);
  Wrapped "l_zfs_prop_set_list" l_zfs_prop_set_list "zfs_prop_set_list" [ACookie ZFS_HANDLE_METATABLE; ACookie NVLIST_METATABLE] [] (or_zfs (Some "zfs_get_handle") "zfs_prop_set_list" Succeeds);
  Wrapped "l_zfs_prop_set_list_flags" l_zfs_prop_set_list_flags "zfs_prop_set_list_flags" [ACookie ZFS_HANDLE_METATABLE; ACookie NVLIST_METATABLE; AOptInt 0 to_int] [] (or_zfs (Some "zfs_get_handle") "zfs_prop_set_list_flags" Succeeds);
  Wrapped "l_zfs_prop_get_recvd" l_zfs_prop_get_recvd "zfs_prop_get_recvd" [ACookie ZFS_HANDLE_METATABLE; AStr; ABool; AConst (AZ (cst "ZFS_MAXPROPLEN"))] [0%nat; 1%nat; 3%nat; 2%nat] (or_zfs (Some "zfs_get_handle") "zfs_prop_get_recvd" (Pushed [v_outs 0]));
  Wrapped "l_zfs_prop_get_userquota_int" l_zfs_prop_get_userquota_int "zfs_prop_get_userquota_int" [ACookie ZFS_HANDLE_METATABLE; AStr] [] (or_zfs (Some "zfs_get_handle") "zfs_prop_get_userquota_int" (Pushed [(fun r => VInt (to_long (out_int 0 r)))]));
  Wrapped "l_zfs_prop_get_userquota" l_zfs_prop_get_userquota "zfs_prop_get_userquota" [ACookie ZFS_HANDLE_METATABLE; AStr; ABool; AConst (AZ (cst "ZFS_MAXPROPLEN"))] [0%nat; 1%nat; 3%nat; 2%nat] (or_zfs (Some "zfs_get_handle") "zfs_prop_get_userquota" (Pushed [v_outs 0]));
  Wrapped "l_zfs_prop_get_written_int" l_zfs_prop_get_written_int "zfs_prop_get_written_int" [ACookie ZFS_HANDLE_METATABLE; AStr] [] (or_zfs (Some "zfs_get_handle") "zfs_prop_get_written_int" (Pushed [(fun r => VInt (to_long (out_int 0 r)))]));
  Wrapped "l_zfs_prop_get_written" l_zfs_prop_get_written "zfs_prop_get_written" [ACookie ZFS_HANDLE_METATABLE; AStr; ABool; AConst (AZ (cst "ZFS_MAXPROPLEN"))] [0%nat; 1%nat; 3%nat; 2%nat] (or_zfs (Some "zfs_get_handle") "zfs_prop_get_written" (Pushed [v_outs 0]));
  Wrapped "l_zfs_prop_inherit" l_zfs_prop_inherit "zfs_prop_inherit" [ACookie ZFS_HANDLE_METATABLE; AStr; ABool] [] (or_zfs (Some "zfs_get_handle") "zfs_prop_inherit" Succeeds);
  Wrapped "l_zfs_get_clones_nvl" l_zfs_get_clones_nvl "zfs_get_clones_nvl" [ACookie ZFS_HANDLE_METATABLE] [] (or_zfs_null (Some "zfs_get_handle") "EZFS_UNKNOWN" "zfs_get_clones_nvl" (NvList rc));
  Wrapped "l_zfs_wait_status" l_zfs_wait_status "zfs_wait_status" [ACookie ZFS_HANDLE_METATABLE; AInt to_int] [] (or_zfs (Some "zfs_get_handle") "zfs_wait_status" (Pushed [v_outb 0; v_outb 1]));
  Wrapped "l_zfs_crypto_get_encryption_root" l_zfs_crypto_get_encryption_root "zfs_crypto_get_encryption_root" [ACookie ZFS_HANDLE_METATABLE] [] (or_zfs (Some "zfs_get_handle") "zfs_crypto_get_encryption_root" (Pushed [v_outb 0; v_outs 1]));
  Wrapped "l_zfs_crypto_load_key" l_zfs_crypto_load_key "zfs_crypto_load_key" [ACookie ZFS_HANDLE_METATABLE; ABool; AOptStr] [] (or_zfs (Some "zfs_get_handle") "zfs_crypto_load_key" Succeeds);
  Wrapped "l_zfs_crypto_unload_key" l_zfs_crypto_unload_key "zfs_crypto_unload_key" [ACookie ZFS_HANDLE_METATABLE] [] (or_zfs (Some "zfs_get_handle") "zfs_crypto_unload_key" Succeeds);
  Wrapped "l_zfs_crypto_rewrap" l_zfs_crypto_rewrap "zfs_crypto_rewrap" [ACookie ZFS_HANDLE_METATABLE; ACookie NVLIST_METATABLE; ABool] [] (or_zfs (Some "zfs_get_handle") "zfs_crypto_rewrap" Succeeds);
  Wrapped "l_zfs_is_encrypted" l_zfs_is_encrypted "zfs_is_encrypted" [ACookie ZFS_HANDLE_METATABLE] [] (Pushed [v_bool]);
  Wrapped "l_zfs_destroy" l_zfs_destroy "zfs_destroy" [ACookie ZFS_HANDLE_METATABLE; ABool] [] (or_zfs (Some "zfs_get_handle") "zfs_destroy" Succeeds);
  Wrapped "l_zfs_destroy_snaps" l_zfs_destroy_snaps "zfs_destroy_snaps" [ACookie ZFS_HANDLE_METATABLE; AStr; ABool] [] (or_zfs (Some "zfs_get_handle") "zfs_destroy_snaps" Succeeds);
  Wrapped "l_zfs_clone" l_zfs_clone "zfs_clone" [ACookie ZFS_HANDLE_METATABLE; AStr; AOptCookie NVLIST_METATABLE] [] (or_zfs (Some "zfs_get_handle") "zfs_clone" Succeeds);
  Wrapped "l_zfs_rollback" l_zfs_rollback "zfs_rollback" [ACookie ZFS_HANDLE_METATABLE; ACookie ZFS_HANDLE_METATABLE; ABool] [] (or_zfs (Some "zfs_get_handle") "zfs_rollback" Succeeds);
  Wrapped "l_zfs_send_progress" l_zfs_send_progress "zfs_send_progress" [ACookie ZFS_HANDLE_METATABLE; AFd id] [] (or_zfs (Some "zfs_get_handle") "zfs_send_progress" (Pushed [(fun r => VInt (to_long (out_int 0 r))); (fun r => VInt (to_long (out_int 1 r)))]));
  Wrapped "l_zfs_promote" l_zfs_promote "zfs_promote" [ACookie ZFS_HANDLE_METATABLE] [] (or_zfs (Some "zfs_get_handle") "zfs_promote" Succeeds);
  Wrapped "l_zfs_hold" l_zfs_hold "zfs_hold" [ACookie ZFS_HANDLE_METATABLE; AStr; AStr; ABool; AFd id] [] (or_zfs (Some "zfs_get_handle") "zfs_hold" Succeeds);
  Wrapped "l_zfs_hold_nvl" l_zfs_hold_nvl "zfs_hold_nvl" [ACookie ZFS_HANDLE_METATABLE; AFd id; ACookie NVLIST_METATABLE] [] (or_zfs (Some "zfs_get_handle") "zfs_hold_nvl" Succeeds);
  Wrapped "l_zfs_release" l_zfs_release "zfs_release" [ACookie ZFS_HANDLE_METATABLE; AStr; AStr; ABool] [] (or_zfs (Some "zfs_get_handle") "zfs_release" Succeeds);
  Wrapped "l_zfs_refresh_properties" l_zfs_refresh_properties "zfs_refresh_properties" [ACookie ZFS_HANDLE_METATABLE] [] RNone;
  Wrapped "l_zfs_parent_name" l_zfs_parent_name "zfs_parent_name" [ACookie ZFS_HANDLE_METATABLE; AConst (AZ (cst "ZFS_MAX_DATASET_NAME_LEN"))] [] (or_zfs (Some "zfs_get_handle") "zfs_parent_name" (Pushed [v_outs 0]));
  Wrapped "l_zfs_spa_version" l_zfs_spa_version "zfs_spa_version" [ACookie ZFS_HANDLE_METATABLE] [] (or_zfs (Some "zfs_get_handle") "zfs_spa_version" (Pushed [v_out 0]));
  Wrapped "l_zfs_mount" l_zfs_mount "zfs_mount" [ACookie ZFS_HANDLE_METATABLE; AOptStr; AOptInt 0 to_int] [] (or_zfs (Some "zfs_get_handle") "zfs_mount" Succeeds);
  Wrapped "l_zfs_mount_at" l_zfs_mount_at "zfs_mount_at" [ACookie ZFS_HANDLE_METATABLE; AOptStr; AOptInt 0 to_int; AStr] [] (or_zfs (Some "zfs_get_handle") "zfs_mount_at" Succeeds);
  Wrapped "l_zfs_unmount" l_zfs_unmount "zfs_unmount" [ACookie ZFS_HANDLE_METATABLE; AOptStr; AOptInt 0 to_int] [] (or_zfs (Some "zfs_get_handle") "zfs_unmount" Succeeds);
  Wrapped "l_zfs_unmountall" l_zfs_unmountall "zfs_unmountall" [ACookie ZFS_HANDLE_METATABLE; AOptInt 0 to_int] [] (or_zfs (Some "zfs_get_handle") "zfs_unmountall" Succeeds);
  Wrapped "l_zfs_jail" l_zfs_jail "zfs_jail" [ACookie ZFS_HANDLE_METATABLE; AInt to_int; ABool] [] (or_zfs (Some "zfs_get_handle") "zfs_jail" Succeeds)].

Lemma zfs_wrappers_ok : Forall wrapped_ok zfs_wrappers.
Proof. wrapped_table. Qed.
End zfs.
