(* ===== verification/Zpool.v ===== *)
(** * lua_zfs.c: functions of a pool, and of properties

    A pool handle is closed by its methods or when it is collected.  Most functions are one call and have a description ([zpool_wrappers]). *)

From S2P Require Import Prelude LuaApi Machine Capi Utils Cmem Modules Uio Wrapper Nvpair ZfsBase Libzfs.

Section zpool.
Context `{Consts}.

Definition l_zpool_close (L : nat) : prog Z :=
  zhp ← checkcookienull L 1 ZPOOL_HANDLE_METATABLE;
  (if negb (zhp =? 0) then
      call "zpool_close" [AZ zhp];;
      setcookie L 1 0;;
      mret tt
   else mret tt);;
  mret 0.

Definition l_zpool_get_name (L : nat) : prog Z :=
  zhp ← checkzpool L 1;
  r ← call "zpool_get_name" [AZ zhp];
  push_ret_string L r;;
  mret 1.

Definition l_zpool_get_state (L : nat) : prog Z :=
  zhp ← checkzpool L 1;
  r ← call "zpool_get_state" [AZ zhp];
  lua_pushinteger L (rc r);;
  mret 1.

Definition l_zpool_get_state_str (L : nat) : prog Z :=
  zhp ← checkzpool L 1;
  r ← call "zpool_get_state_str" [AZ zhp];
  push_ret_string L r;;
  mret 1.

(** the message identifier is stored as a string, or as [NULL] *)
Definition l_zpool_get_status (L : nat) : prog Z :=
  zhp ← checkzpool L 1;
  status ← call "zpool_get_status" [AZ zhp];
  lua_pushinteger L (rc status);;
  (match outs status !! 0%nat with Some (AS msgid) => lua_pushstring L msgid | _ => lua_pushnil L end);;
  if rc status =? cst "ZPOOL_STATUS_ERRATA" then
    lua_pushinteger L (out_int 1 status);;
    mret 3
  else
    mret 2.

Definition l_zpool_wait (L : nat) : prog Z :=
  zhp ← checkzpool L 1;
  activity ← luaL_checkinteger L 2;
  error ← call "zpool_wait" [AZ zhp; AZ (to_int activity)];
  if negb (rc error =? 0) then
    zpoolfail L zhp (rc error) "zpool_wait"
  else
    success L.

Definition l_zpool_wait_status (L : nat) : prog Z :=
  zhp ← checkzpool L 1;
  activity ← luaL_checkinteger L 2;
  error ← call "zpool_wait_status" [AZ zhp; AZ (to_int activity)];
  if negb (rc error =? 0) then
    zpoolfail L zhp (rc error) "zpool_wait_status"
  else
    lua_pushboolean L (negb (out_int 1 error =? 0));;
    lua_pushboolean L (negb (out_int 0 error =? 0));;
    mret 2.

Definition l_zpool_destroy (L : nat) : prog Z :=
  zhp ← checkzpool L 1;
  message ← luaL_checkstring L 2;
  error ← call "zpool_destroy" [AZ zhp; AS message];
  if negb (rc error =? 0) then
    zpoolfail L zhp (rc error) "zpool_destroy"
  else
    success L.

Definition l_zpool_add (L : nat) : prog Z :=
  zhp ← checkzpool L 1;
  nvroot ← checknvlist L 2;
  check_ashift ← lua_toboolean L 3;
  error ← call "zpool_add" [AZ zhp; AZ nvroot; AZ (Z_of_bool check_ashift)];
  if negb (rc error =? 0) then
    zpoolfail L zhp (rc error) "zpool_add"
  else
    success L.

Definition l_zpool_scan (L : nat) : prog Z :=
  zhp ← checkzpool L 1;
  func ← luaL_checkinteger L 2;
  cmd ← luaL_checkinteger L 3;
  error ← call "zpool_scan" [AZ zhp; AZ (to_int func); AZ (to_int cmd)];
  if negb (rc error =? 0) then
    zpoolfail L zhp (rc error) "zpool_scan"
  else
    success L.

Definition l_zpool_scan_range (L : nat) : prog Z :=
  zhp ← checkzpool L 1;
  func ← luaL_checkinteger L 2;
  cmd ← luaL_checkinteger L 3;
  date_start ← luaL_optinteger L 4 0;
  date_end ← luaL_optinteger L 5 0;
  error ← call "zpool_scan_range" [AZ zhp; AZ (to_int func); AZ (to_int cmd); AZ date_start; AZ date_end];
  if negb (rc error =? 0) then
    zpoolfail L zhp (rc error) "zpool_scan_range"
  else
    success L.

(** [initialize_cbdata_t]: wait and cmd_type *)
Definition l_zpool_initialize_one (L : nat) : prog Z :=
  zhp ← checkzpool L 1;
  cmd_type ← luaL_checkinteger L 2;
  wait ← lua_toboolean L 3;
  error ← call "zpool_initialize_one" [AZ zhp; AZ (to_int cmd_type); AZ (Z_of_bool wait)];
  if negb (rc error =? 0) then
    zpoolfail L zhp (rc error) "zpool_initialize_one"
  else
    success L.

Definition l_zpool_initialize (L : nat) : prog Z :=
  zhp ← checkzpool L 1;
  cmd_type ← luaL_checkinteger L 2;
  vdevs ← checknvlist L 3;
  error ← call "zpool_initialize" [AZ zhp; AZ (to_int cmd_type); AZ vdevs];
  if negb (rc error =? 0) then
    zpoolfail L zhp (rc error) "zpool_initialize"
  else
    success L.

Definition l_zpool_initialize_wait (L : nat) : prog Z :=
  zhp ← checkzpool L 1;
  cmd_type ← luaL_checkinteger L 2;
  vdevs ← checknvlist L 3;
  error ← call "zpool_initialize_wait" [AZ zhp; AZ (to_int cmd_type); AZ vdevs];
  if negb (rc error =? 0) then
    zpoolfail L zhp (rc error) "zpool_initialize_wait"
  else
    success L.

Definition l_zpool_trim (L : nat) : prog Z :=
  zhp ← checkzpool L 1;
  cmd_type ← luaL_checkinteger L 2;
  vdevs ← checknvlist L 3;
  flags ← checktrimflags L 4;
  error ← call "zpool_trim" ([AZ zhp; AZ (to_int cmd_type); AZ vdevs] ++ flags);
  if negb (rc error =? 0) then
    zpoolfail L zhp (rc error) "zpool_trim"
  else
    success L.

Definition l_zpool_clear (L : nat) : prog Z :=
  zhp ← checkzpool L 1;
  path ← luaL_optstring L 2;
  rewind ← optnvlist L 3;
  error ← call "zpool_clear" [AZ zhp; null_or path; AZ rewind];
  if negb (rc error =? 0) then
    zpoolfail L zhp (rc error) "zpool_clear"
  else
    success L.

Definition l_zpool_reguid (L : nat) : prog Z :=
  zhp ← checkzpool L 1;
  error ← call "zpool_reguid" [AZ zhp];
  if negb (rc error =? 0) then
    zpoolfail L zhp (rc error) "zpool_reguid"
  else
    success L.

(** a pointer to the identifier, or [NULL] *)
Definition l_zpool_set_guid (L : nat) : prog Z :=
  zhp ← checkzpool L 1;
  none ← lua_isnoneornil L 2;
  guidp ← (if none : bool then mret [] else guid ← luaL_checkinteger L 2; mret [AZ (to_size guid)]);
  error ← call "zpool_set_guid" (AZ zhp :: guidp);
  if negb (rc error =? 0) then
    zpoolfail L zhp (rc error) "zpool_set_guid"
  else
    success L.

Definition l_zpool_reopen_one (L : nat) : prog Z :=
  zhp ← checkzpool L 1;
  scrub_restart ← lua_toboolean L 2;
  error ← call "zpool_reopen_one" [AZ zhp; AZ (Z_of_bool scrub_restart)];
  if negb (rc error =? 0) then
    zpoolfail L zhp (rc error) "zpool_reopen_one"
  else
    success L.

Definition l_zpool_collect_leaves (L : nat) : prog Z :=
  zhp ← checkzpool L 1;
  nvroot ← checknvlist L 2;
  vdevs ← call "fnvlist_alloc" [];
  call "zpool_collect_leaves" [AZ zhp; AZ nvroot; AZ (rc vdevs)];;
  pushnvlist L (rc vdevs);;
  mret 1.

Definition l_zpool_sync_one (L : nat) : prog Z :=
  zhp ← checkzpool L 1;
  force ← lua_toboolean L 2;
  error ← call "zpool_sync_one" [AZ zhp; AZ (Z_of_bool force)];
  if negb (rc error =? 0) then
    zpoolfail L zhp (rc error) "zpool_sync_one"
  else
    success L.

(** [trim_cbdata_t]: cmd_type and trim_flags *)
Definition l_zpool_trim_one (L : nat) : prog Z :=
  zhp ← checkzpool L 1;
  cmd_type ← luaL_checkinteger L 2;
  trim_flags ← checktrimflags L 3;
  error ← call "zpool_trim_one" ([AZ zhp; AZ (to_int cmd_type)] ++ trim_flags);
  if negb (rc error =? 0) then
    zpoolfail L zhp (rc error) "zpool_trim_one"
  else
    success L.

Definition l_zpool_ddt_prune (L : nat) : prog Z :=
  zhp ← checkzpool L 1;
  unit ← luaL_checkinteger L 2;
  amount ← luaL_checkinteger L 3;
  error ← call "zpool_ddt_prune" [AZ zhp; AZ (to_int unit); AZ (to_size amount)];
  if negb (rc error =? 0) then
    zpoolfail L zhp (rc error) "zpool_ddt_prune"
  else
    success L.

Definition l_zpool_vdev_online (L : nat) : prog Z :=
  zhp ← checkzpool L 1;
  path ← luaL_checkstring L 2;
  flags ← luaL_checkinteger L 3;
  error ← call "zpool_vdev_online" [AZ zhp; AS path; AZ (to_int flags)];
  if negb (rc error =? 0) then
    zpoolfail L zhp (rc error) "zpool_vdev_online"
  else
    lua_pushinteger L (out_int 0 error);;
    mret 1.

Definition l_zpool_vdev_offline (L : nat) : prog Z :=
  zhp ← checkzpool L 1;
  path ← luaL_checkstring L 2;
  istmp ← lua_toboolean L 3;
  error ← call "zpool_vdev_offline" [AZ zhp; AS path; AZ (Z_of_bool istmp)];
  if negb (rc error =? 0) then
    zpoolfail L zhp (rc error) "zpool_vdev_offline"
  else
    success L.

Definition l_zpool_vdev_attach (L : nat) : prog Z :=
  zhp ← checkzpool L 1;
  old_disk ← luaL_checkstring L 2;
  new_disk ← luaL_checkstring L 3;
  nvroot ← checknvlist L 4;
  replacing ← lua_toboolean L 5;
  rebuild ← lua_toboolean L 6;
  error ← call "zpool_vdev_attach" [AZ zhp; AS old_disk; AS new_disk; AZ nvroot; AZ (Z_of_bool replacing); AZ (Z_of_bool rebuild)];
  if negb (rc error =? 0) then
    zpoolfail L zhp (rc error) "zpool_vdev_attach"
  else
    success L.

Definition l_zpool_vdev_detach (L : nat) : prog Z :=
  zhp ← checkzpool L 1;
  path ← luaL_checkstring L 2;
  error ← call "zpool_vdev_detach" [AZ zhp; AS path];
  if negb (rc error =? 0) then
    zpoolfail L zhp (rc error) "zpool_vdev_detach"
  else
    success L.

Definition l_zpool_vdev_remove (L : nat) : prog Z :=
  zhp ← checkzpool L 1;
  path ← luaL_checkstring L 2;
  error ← call "zpool_vdev_remove" [AZ zhp; AS path];
  if negb (rc error =? 0) then
    zpoolfail L zhp (rc error) "zpool_vdev_remove"
  else
    success L.

Definition l_zpool_vdev_remove_cancel (L : nat) : prog Z :=
  zhp ← checkzpool L 1;
  error ← call "zpool_vdev_remove_cancel" [AZ zhp];
  if negb (rc error =? 0) then
    zpoolfail L zhp (rc error) "zpool_vdev_remove_cancel"
  else
    success L.

Definition l_zpool_vdev_indirect_size (L : nat) : prog Z :=
  zhp ← checkzpool L 1;
  path ← luaL_checkstring L 2;
  error ← call "zpool_vdev_indirect_size" [AZ zhp; AS path];
  if negb (rc error =? 0) then
    zpoolfail L zhp (rc error) "zpool_vdev_indirect_size"
  else
    lua_pushinteger L (to_long (out_int 0 error));;
    mret 1.

Definition l_zpool_vdev_split (L : nat) : prog Z :=
  zhp ← checkzpool L 1;
  newname ← luaL_checkstring L 2;
  newroot ← optnvlist L 3;
  props ← optnvlist L 4;
  flags ← checksplitflags L 5;
  error ← call "zpool_vdev_split" ([AZ zhp; AS newname; AZ newroot; AZ props] ++ flags);
  if negb (rc error =? 0) then
    zpoolfail L zhp (rc error) "zpool_vdev_split"
  else
    success L.

Definition l_zpool_vdev_remove_wanted (L : nat) : prog Z :=
  zhp ← checkzpool L 1;
  path ← luaL_checkstring L 2;
  error ← call "zpool_vdev_remove_wanted" [AZ zhp; AS path];
  if negb (rc error =? 0) then
    zpoolfail L zhp (rc error) "zpool_vdev_remove_wanted"
  else
    success L.

Definition l_zpool_vdev_fault (L : nat) : prog Z :=
  zhp ← checkzpool L 1;
  guid ← luaL_checkinteger L 2;
  aux ← luaL_checkinteger L 3;
  error ← call "zpool_vdev_fault" [AZ zhp; AZ (to_size guid); AZ (to_int aux)];
  if negb (rc error =? 0) then
    zpoolfail L zhp (rc error) "zpool_vdev_fault"
  else
    success L.

Definition l_zpool_vdev_degrade (L : nat) : prog Z :=
  zhp ← checkzpool L 1;
  guid ← luaL_checkinteger L 2;
  aux ← luaL_checkinteger L 3;
  error ← call "zpool_vdev_degrade" [AZ zhp; AZ (to_size guid); AZ (to_int aux)];
  if negb (rc error =? 0) then
    zpoolfail L zhp (rc error) "zpool_vdev_degrade"
  else
    success L.

Definition l_zpool_vdev_set_removed_state (L : nat) : prog Z :=
  zhp ← checkzpool L 1;
  guid ← luaL_checkinteger L 2;
  aux ← luaL_checkinteger L 3;
  error ← call "zpool_vdev_set_removed_state" [AZ zhp; AZ (to_size guid); AZ (to_int aux)];
  if negb (rc error =? 0) then
    zpoolfail L zhp (rc error) "zpool_vdev_set_removed_state"
  else
    success L.

Definition l_zpool_vdev_clear (L : nat) : prog Z :=
  zhp ← checkzpool L 1;
  guid ← luaL_checkinteger L 2;
  error ← call "zpool_vdev_clear" [AZ zhp; AZ (to_size guid)];
  if negb (rc error =? 0) then
    zpoolfail L zhp (rc error) "zpool_vdev_clear"
  else
    success L.

Definition l_zpool_find_vdev (L : nat) : prog Z :=
  zhp ← checkzpool L 1;
  path ← luaL_checkstring L 2;
  vdev ← call "zpool_find_vdev" [AZ zhp; AS path];
  if rc vdev =? 0 then
    zpoolfail L zhp (cst "EZFS_UNKNOWN") "zpool_find_vdev"
  else
    pushnvlist L (rc vdev);;
    lua_pushboolean L (negb (out_int 0 vdev =? 0));;
    lua_pushboolean L (negb (out_int 1 vdev =? 0));;
    lua_pushboolean L (negb (out_int 2 vdev =? 0));;
    mret 4.

Definition l_zpool_find_parent_vdev (L : nat) : prog Z :=
  zhp ← checkzpool L 1;
  path ← luaL_checkstring L 2;
  vdev ← call "zpool_find_parent_vdev" [AZ zhp; AS path];
  if rc vdev =? 0 then
    zpoolfail L zhp (cst "EZFS_UNKNOWN") "zpool_find_parent_vdev"
  else
    pushnvlist L (rc vdev);;
    lua_pushboolean L (negb (out_int 0 vdev =? 0));;
    lua_pushboolean L (negb (out_int 1 vdev =? 0));;
    lua_pushboolean L (negb (out_int 2 vdev =? 0));;
    mret 4.

Definition l_zpool_find_vdev_by_physpath (L : nat) : prog Z :=
  zhp ← checkzpool L 1;
  physpath ← luaL_checkstring L 2;
  vdev ← call "zpool_find_vdev_by_physpath" [AZ zhp; AS physpath];
  if rc vdev =? 0 then
    zpoolfail L zhp (cst "EZFS_UNKNOWN") "zpool_find_vdev_by_physpath"
  else
    pushnvlist L (rc vdev);;
    lua_pushboolean L (negb (out_int 0 vdev =? 0));;
    lua_pushboolean L (negb (out_int 1 vdev =? 0));;
    lua_pushboolean L (negb (out_int 2 vdev =? 0));;
    mret 4.

Definition l_zpool_prepare_disk (L : nat) : prog Z :=
  zhp ← checkzpool L 1;
  vdev ← checknvlist L 2;
  prepare_str ← luaL_checkstring L 3;
  error ← call "zpool_prepare_disk" [AZ zhp; AZ vdev; AS prepare_str];
  if negb (rc error =? 0) then
    zassert (out_int 0 error =? 0) "lines == 0";;
    zassert (out_int 1 error =? 0) "nlines == 0";;
    zpoolfail L zhp (rc error) "zpool_prepare_disk"
  else
    zassert (negb (out_int 0 error =? 0)) "lines != NULL";;
    push_lines L (out_int 0 error) (out_int 1 error).

Definition l_zpool_vdev_path_to_guid (L : nat) : prog Z :=
  zhp ← checkzpool L 1;
  path ← luaL_checkstring L 2;
  r ← call "zpool_vdev_path_to_guid" [AZ zhp; AS path];
  lua_pushinteger L (rc r);;
  mret 1.

Definition l_zpool_set_prop (L : nat) : prog Z :=
  zhp ← checkzpool L 1;
  propname ← luaL_checkstring L 2;
  propval ← luaL_checkstring L 3;
  error ← call "zpool_set_prop" [AZ zhp; AS propname; AS propval];
  if negb (rc error =? 0) then
    zpoolfail L zhp (rc error) "zpool_set_prop"
  else
    success L.

Definition l_zpool_get_prop (L : nat) : prog Z :=
  zhp ← checkzpool L 1;
  prop ← luaL_checkinteger L 2;
  literal ← lua_toboolean L 3;
  error ← call "zpool_get_prop" [AZ zhp; AZ (to_int prop); AZ (cst "ZPOOL_MAXPROPLEN"); AZ (Z_of_bool literal)];
  if negb (rc error =? 0) then
    zpoolfail L zhp (rc error) "zpool_get_prop"
  else
    lua_pushstring L (out_str 0 error);;
    lua_pushinteger L (out_int 1 error);;
    mret 2.

Definition l_zpool_get_userprop (L : nat) : prog Z :=
  zhp ← checkzpool L 1;
  propname ← luaL_checkstring L 2;
  error ← call "zpool_get_userprop" [AZ zhp; AS propname; AZ (cst "ZPOOL_MAXPROPLEN")];
  if negb (rc error =? 0) then
    zpoolfail L zhp (rc error) "zpool_get_userprop"
  else
    lua_pushstring L (out_str 0 error);;
    lua_pushinteger L (out_int 1 error);;
    mret 2.

Definition l_zpool_get_prop_int (L : nat) : prog Z :=
  zhp ← checkzpool L 1;
  prop ← luaL_checkinteger L 2;
  r ← call "zpool_get_prop_int" [AZ zhp; AZ (to_int prop)];
  lua_pushinteger L (rc r);;
  lua_pushinteger L (out_int 0 r);;
  mret 2.

Definition l_zpool_props_refresh (L : nat) : prog Z :=
  zhp ← checkzpool L 1;
  error ← call "zpool_props_refresh" [AZ zhp];
  if negb (rc error =? 0) then
    zpoolfail L zhp (rc error) "zpool_refresh_props"
  else
    success L.

Definition l_zpool_get_vdev_prop (L : nat) : prog Z :=
  zhp ← checkzpool L 1;
  vdevname ← luaL_checkstring L 2;
  prop ← luaL_optinteger L 3 0;
  propname ← luaL_optstring L 4;
  literal ← lua_toboolean L 5;
  error ← call "zpool_get_vdev_prop" [AZ zhp; AS vdevname; AZ (to_int prop); null_or propname; AZ (cst "ZPOOL_MAXPROPLEN"); AZ (Z_of_bool literal)];
  if negb (rc error =? 0) then
    zpoolfail L zhp (rc error) "zpool_get_vdev_prop"
  else
    lua_pushstring L (out_str 0 error);;
    lua_pushinteger L (out_int 1 error);;
    mret 2.

Definition l_zpool_get_all_vdev_props (L : nat) : prog Z :=
  zhp ← checkzpool L 1;
  vdevname ← luaL_checkstring L 2;
  error ← call "zpool_get_all_vdev_props" [AZ zhp; AS vdevname];
  if negb (rc error =? 0) then
    zassert (out_int 0 error =? 0) "props == 0";;
    zpoolfail L zhp (rc error) "zpool_get_all_vdev_props"
  else
    zassert (negb (out_int 0 error =? 0)) "props != NULL";;
    pushnvlist L (out_int 0 error);;
    mret 1.

Definition l_zpool_set_vdev_prop (L : nat) : prog Z :=
  zhp ← checkzpool L 1;
  vdevname ← luaL_checkstring L 2;
  propname ← luaL_checkstring L 3;
  propval ← luaL_checkstring L 4;
  error ← call "zpool_set_vdev_prop" [AZ zhp; AS vdevname; AS propname; AS propval];
  if negb (rc error =? 0) then
    zpoolfail L zhp (rc error) "zpool_set_vdev_prop"
  else
    success L.

Definition l_zpool_get_config (L : nat) : prog Z :=
  zhp ← checkzpool L 1;
  config ← call "zpool_get_config" [AZ zhp];
  if rc config =? 0 then
    zassert (rc config =? 0) "config == 0";;
    zassert (out_int 0 config =? 0) "oldconfig == 0";;
    zpoolfail L zhp (cst "EZFS_UNKNOWN") "zpool_get_config"
  else
    zassert (negb (rc config =? 0)) "config != NULL";;
    pushnvlist L (rc config);;
    if negb ((out_int 0 config) =? 0) then
      pushnvlist L (out_int 0 config);;
      mret 2
    else
      mret 1.

Definition l_zpool_get_features (L : nat) : prog Z :=
  zhp ← checkzpool L 1;
  features ← call "zpool_get_features" [AZ zhp];
  if rc features =? 0 then
    zpoolfail L zhp (cst "EZFS_UNKNOWN") "zpool_get_features"
  else
    pushnvlist L (rc features);;
    mret 1.

Definition l_zpool_refresh_stats (L : nat) : prog Z :=
  zhp ← checkzpool L 1;
  error ← call "zpool_refresh_stats" [AZ zhp];
  if negb (rc error =? 0) then
    zpoolfail L zhp (rc error) "zpool_refresh_stats"
  else
    lua_pushboolean L (negb (out_int 0 error =? 0));;
    mret 1.

Definition l_zpool_refresh_stats_from_handle (L : nat) : prog Z :=
  zhp ← checkzpool L 1;
  fromzhp ← checkzpool L 2;
  call "zpool_refresh_stats_from_handle" [AZ zhp; AZ fromzhp];;
  mret 0.

Definition l_zpool_get_errlog (L : nat) : prog Z :=
  zhp ← checkzpool L 1;
  error ← call "zpool_get_errlog" [AZ zhp];
  if negb (rc error =? 0) then
    zassert (out_int 0 error =? 0) "errlist == 0";;
    zpoolfail L zhp (rc error) "zpool_get_errlog"
  else
    if (out_int 0 error) =? 0 then
      mret 0
    else
      pushnvlist L (out_int 0 error);;
      mret 1.

Definition l_zpool_add_propname (L : nat) : prog Z :=
  zhp ← checkzpool L 1;
  propname ← luaL_checkstring L 2;
  call "zpool_add_propname" [AZ zhp; AS propname];;
  mret 0.

Definition l_zpool_export (L : nat) : prog Z :=
  zhp ← checkzpool L 1;
  force ← lua_toboolean L 2;
  message ← luaL_checkstring L 3;
  error ← call "zpool_export" [AZ zhp; AZ (Z_of_bool force); AS message];
  if negb (rc error =? 0) then
    zpoolfail L zhp (rc error) "zpool_export"
  else
    success L.

Definition l_zpool_export_force (L : nat) : prog Z :=
  zhp ← checkzpool L 1;
  message ← luaL_checkstring L 2;
  error ← call "zpool_export_force" [AZ zhp; AS message];
  if negb (rc error =? 0) then
    zpoolfail L zhp (rc error) "zpool_export_force"
  else
    success L.

Definition l_zpool_upgrade (L : nat) : prog Z :=
  zhp ← checkzpool L 1;
  new_version ← luaL_checkinteger L 2;
  error ← call "zpool_upgrade" [AZ zhp; AZ (to_size new_version)];
  if negb (rc error =? 0) then
    zpoolfail L zhp (rc error) "zpool_upgrade"
  else
    success L.

Definition l_zpool_get_history (L : nat) : prog Z :=
  zhp ← checkzpool L 1;
  offset ← luaL_optinteger L 2 0;
  error ← call "zpool_get_history" [AZ zhp; AZ (to_size offset)];
  if negb (rc error =? 0) then
    zpoolfail L zhp (rc error) "zpool_get_history"
  else
    pushnvlist L (out_int 0 error);;
    lua_pushinteger L (to_long (out_int 1 error));;
    lua_pushboolean L (negb (out_int 2 error =? 0));;
    mret 3.

Definition l_zpool_obj_to_path_ds (L : nat) : prog Z :=
  zhp ← checkzpool L 1;
  dsobj ← luaL_checkinteger L 2;
  obj ← luaL_checkinteger L 3;
  r ← call "zpool_obj_to_path_ds" [AZ zhp; AZ (to_size dsobj); AZ (to_size obj); AZ (cst "PATH_MAX")];
  lua_pushstring L (out_str 0 r);;
  mret 1.

Definition l_zpool_obj_to_path (L : nat) : prog Z :=
  zhp ← checkzpool L 1;
  dsobj ← luaL_checkinteger L 2;
  obj ← luaL_checkinteger L 3;
  r ← call "zpool_obj_to_path" [AZ zhp; AZ (to_size dsobj); AZ (to_size obj); AZ (cst "PATH_MAX")];
  lua_pushstring L (out_str 0 r);;
  mret 1.

Definition l_zpool_checkpoint (L : nat) : prog Z :=
  zhp ← checkzpool L 1;
  error ← call "zpool_checkpoint" [AZ zhp];
  if negb (rc error =? 0) then
    zpoolfail L zhp (rc error) "zpool_checkpoint"
  else
    success L.

Definition l_zpool_discard_checkpoint (L : nat) : prog Z :=
  zhp ← checkzpool L 1;
  error ← call "zpool_discard_checkpoint" [AZ zhp];
  if negb (rc error =? 0) then
    zpoolfail L zhp (rc error) "zpool_discard_checkpoint"
  else
    success L.

Definition l_zpool_prefetch (L : nat) : prog Z :=
  zhp ← checkzpool L 1;
  type_ ← luaL_checkinteger L 2;
  error ← call "zpool_prefetch" [AZ zhp; AZ (to_int type_)];
  if negb (rc error =? 0) then
    zpoolfail L zhp (rc error) "zpool_prefetch"
  else
    success L.

Definition l_zpool_prop_get_feature (L : nat) : prog Z :=
  zhp ← checkzpool L 1;
  propname ← luaL_checkstring L 2;
  error ← call "zpool_prop_get_feature" [AZ zhp; AS propname; AZ (cst "ZPOOL_MAXPROPLEN")];
  if negb (rc error =? 0) then
    zpoolfail L zhp (rc error) "zpool_prop_get_feature"
  else
    lua_pushstring L (out_str 0 error);;
    mret 1.

Definition l_zvol_volsize_to_reservation (L : nat) : prog Z :=
  zhp ← checkzpool L 1;
  volsize ← luaL_checkinteger L 2;
  props ← checknvlist L 3;
  r ← call "zvol_volsize_to_reservation" [AZ zhp; AZ (to_size volsize); AZ props];
  lua_pushinteger L (rc r);;
  mret 1.

Definition l_zpool_set_bootenv (L : nat) : prog Z :=
  zhp ← checkzpool L 1;
  envmap ← checknvlist L 2;
  error ← call "zpool_set_bootenv" [AZ zhp; AZ envmap];
  if negb (rc error =? 0) then
    zpoolfail L zhp (rc error) "zpool_set_bootenv"
  else
    success L.

Definition l_zpool_get_bootenv (L : nat) : prog Z :=
  zhp ← checkzpool L 1;
  error ← call "zpool_get_bootenv" [AZ zhp];
  if negb (rc error =? 0) then
    zassert (out_int 0 error =? 0) "envmap == 0";;
    zpoolfail L zhp (rc error) "zpool_get_bootenv"
  else
    zassert (negb (out_int 0 error =? 0)) "envmap != NULL";;
    pushnvlist L (out_int 0 error);;
    mret 1.

Definition l_zpool_enable_datasets (L : nat) : prog Z :=
  zhp ← checkzpool L 1;
  mntopts ← luaL_optstring L 2;
  flags ← luaL_checkinteger L 3;
  nthr ← luaL_checkinteger L 4;
  error ← call "zpool_enable_datasets" [AZ zhp; null_or mntopts; AZ (to_int flags); AZ (to_uint nthr)];
  if negb (rc error =? 0) then
    zpoolfail L zhp (rc error) "zpool_enable_datasets"
  else
    success L.

Definition l_zpool_disable_datasets (L : nat) : prog Z :=
  zhp ← checkzpool L 1;
  force ← lua_toboolean L 2;
  error ← call "zpool_disable_datasets" [AZ zhp; AZ (Z_of_bool force)];
  if negb (rc error =? 0) then
    zpoolfail L zhp (rc error) "zpool_disable_datasets"
  else
    success L.

Definition l_zfs_prop_default_string (L : nat) : prog Z :=
  prop ← checkprop L 1;
  string ← call "zfs_prop_default_string" [AZ prop];
  if rc string =? 0 then
    mret 0
  else
    push_ret_string L string;;
    mret 1.

Definition l_zfs_prop_default_numeric (L : nat) : prog Z :=
  prop ← checkprop L 1;
  r ← call "zfs_prop_default_numeric" [AZ prop];
  lua_pushinteger L (rc r);;
  mret 1.

Definition l_zfs_prop_column_name (L : nat) : prog Z :=
  prop ← checkprop L 1;
  r ← call "zfs_prop_column_name" [AZ prop];
  push_ret_string L r;;
  mret 1.

Definition l_zfs_prop_align_right (L : nat) : prog Z :=
  prop ← checkprop L 1;
  r ← call "zfs_prop_align_right" [AZ prop];
  lua_pushboolean L (negb (rc r =? 0));;
  mret 1.

Definition l_zfs_prop_to_name (L : nat) : prog Z :=
  prop ← checkprop L 1;
  r ← call "zfs_prop_to_name" [AZ prop];
  push_ret_string L r;;
  mret 1.

Definition l_zfs_prop_values (L : nat) : prog Z :=
  prop ← checkprop L 1;
  values ← call "zfs_prop_values" [AZ prop];
  if rc values =? 0 then
    mret 0
  else
    push_ret_string L values;;
    mret 1.

Definition l_zfs_prop_is_string (L : nat) : prog Z :=
  prop ← checkprop L 1;
  r ← call "zfs_prop_is_string" [AZ prop];
  lua_pushboolean L (negb (rc r =? 0));;
  mret 1.

(** ** What the wrappers do *)

Definition zpool_wrappers : list wrapped := [
  Wrapped "l_zpool_get_name" l_zpool_get_name "zpool_get_name" [ACookie ZPOOL_HANDLE_METATABLE] [] RStr;
  Wrapped "l_zpool_get_state" l_zpool_get_state "zpool_get_state" [ACookie ZPOOL_HANDLE_METATABLE] [] (Pushed [v_int]);
  Wrapped "l_zpool_get_state_str" l_zpool_get_state_str "zpool_get_state_str" [ACookie ZPOOL_HANDLE_METATABLE] [] RStr;
  Wrapped "l_zpool_wait" l_zpool_wait "zpool_wait" [ACookie ZPOOL_HANDLE_METATABLE; AInt to_int] [] (or_zfs (Some "zpool_get_handle") "zpool_wait" Succeeds);
  Wrapped "l_zpool_wait_status" l_zpool_wait_status "zpool_wait_status" [ACookie ZPOOL_HANDLE_METATABLE; AInt to_int] [] (or_zfs (Some "zpool_get_handle") "zpool_wait_status" (Pushed [v_outb 1; v_outb 0]));
  Wrapped "l_zpool_destroy" l_zpool_destroy "zpool_destroy" [ACookie ZPOOL_HANDLE_METATABLE; AStr] [] (or_zfs (Some "zpool_get_handle") "zpool_destroy" Succeeds);
  Wrapped "l_zpool_add" l_zpool_add "zpool_add" [ACookie ZPOOL_HANDLE_METATABLE; ACookie NVLIST_METATABLE; ABool] [] (or_zfs (Some "zpool_get_handle") "zpool_add" Succeeds);
  Wrapped "l_zpool_scan" l_zpool_scan "zpool_scan" [ACookie ZPOOL_HANDLE_METATABLE; AInt to_int; AInt to_int] [] (or_zfs (Some "zpool_get_handle") "zpool_scan" Succeeds);
  Wrapped "l_zpool_scan_range" l_zpool_scan_range "zpool_scan_range" [ACookie ZPOOL_HANDLE_METATABLE; AInt to_int; AInt to_int; AOptInt 0 id; AOptInt 0 id] [] (or_zfs (Some "zpool_get_handle") "zpool_scan_range" Succeeds);
  Wrapped "l_zpool_initialize" l_zpool_initialize "zpool_initialize" [ACookie ZPOOL_HANDLE_METATABLE; AInt to_int; ACookie NVLIST_METATABLE] [] (or_zfs (Some "zpool_get_handle") "zpool_initialize" Succeeds);
  Wrapped "l_zpool_initialize_wait" l_zpool_initialize_wait "zpool_initialize_wait" [ACookie ZPOOL_HANDLE_METATABLE; AInt to_int; ACookie NVLIST_METATABLE] [] (or_zfs (Some "zpool_get_handle") "zpool_initialize_wait" Succeeds);
  Wrapped "l_zpool_clear" l_zpool_clear "zpool_clear" [ACookie ZPOOL_HANDLE_METATABLE; AOptStr; AOptCookie NVLIST_METATABLE] [] (or_zfs (Some "zpool_get_handle") "zpool_clear" Succeeds);
  Wrapped "l_zpool_reguid" l_zpool_reguid "zpool_reguid" [ACookie ZPOOL_HANDLE_METATABLE] [] (or_zfs (Some "zpool_get_handle") "zpool_reguid" Succeeds);
  Wrapped "l_zpool_ddt_prune" l_zpool_ddt_prune "zpool_ddt_prune" [ACookie ZPOOL_HANDLE_METATABLE; AInt to_int; AInt to_size] [] (or_zfs (Some "zpool_get_handle") "zpool_ddt_prune" Succeeds);
  Wrapped "l_zpool_vdev_online" l_zpool_vdev_online "zpool_vdev_online" [ACookie ZPOOL_HANDLE_METATABLE; AStr; AInt to_int] [] (or_zfs (Some "zpool_get_handle") "zpool_vdev_online" (Pushed [v_out 0]));
  Wrapped "l_zpool_vdev_offline" l_zpool_vdev_offline "zpool_vdev_offline" [ACookie ZPOOL_HANDLE_METATABLE; AStr; ABool] [] (or_zfs (Some "zpool_get_handle") "zpool_vdev_offline" Succeeds);
  Wrapped "l_zpool_vdev_attach" l_zpool_vdev_attach "zpool_vdev_attach" [ACookie ZPOOL_HANDLE_METATABLE; AStr; AStr; ACookie NVLIST_METATABLE; ABool; ABool] [] (or_zfs (Some "zpool_get_handle") "zpool_vdev_attach" Succeeds);
  Wrapped "l_zpool_vdev_detach" l_zpool_vdev_detach "zpool_vdev_detach" [ACookie ZPOOL_HANDLE_METATABLE; AStr] [] (or_zfs (Some "zpool_get_handle") "zpool_vdev_detach" Succeeds);
  Wrapped "l_zpool_vdev_remove" l_zpool_vdev_remove "zpool_vdev_remove" [ACookie ZPOOL_HANDLE_METATABLE; AStr] [] (or_zfs (Some "zpool_get_handle") "zpool_vdev_remove" Succeeds);
  Wrapped "l_zpool_vdev_remove_cancel" l_zpool_vdev_remove_cancel "zpool_vdev_remove_cancel" [ACookie ZPOOL_HANDLE_METATABLE] [] (or_zfs (Some "zpool_get_handle") "zpool_vdev_remove_cancel" Succeeds);
  Wrapped "l_zpool_vdev_indirect_size" l_zpool_vdev_indirect_size "zpool_vdev_indirect_size" [ACookie ZPOOL_HANDLE_METATABLE; AStr] [] (or_zfs (Some "zpool_get_handle") "zpool_vdev_indirect_size" (Pushed [(fun r => VInt (to_long (out_int 0 r)))]));
  Wrapped "l_zpool_vdev_remove_wanted" l_zpool_vdev_remove_wanted "zpool_vdev_remove_wanted" [ACookie ZPOOL_HANDLE_METATABLE; AStr] [] (or_zfs (Some "zpool_get_handle") "zpool_vdev_remove_wanted" Succeeds);
  Wrapped "l_zpool_vdev_fault" l_zpool_vdev_fault "zpool_vdev_fault" [ACookie ZPOOL_HANDLE_METATABLE; AInt to_size; AInt to_int] [] (or_zfs (Some "zpool_get_handle") "zpool_vdev_fault" Succeeds);
  Wrapped "l_zpool_vdev_degrade" l_zpool_vdev_degrade "zpool_vdev_degrade" [ACookie ZPOOL_HANDLE_METATABLE; AInt to_size; AInt to_int] [] (or_zfs (Some "zpool_get_handle") "zpool_vdev_degrade" Succeeds);
  Wrapped "l_zpool_vdev_set_removed_state" l_zpool_vdev_set_removed_state "zpool_vdev_set_removed_state" [ACookie ZPOOL_HANDLE_METATABLE; AInt to_size; AInt to_int] [] (or_zfs (Some "zpool_get_handle") "zpool_vdev_set_removed_state" Succeeds);
  Wrapped "l_zpool_vdev_clear" l_zpool_vdev_clear "zpool_vdev_clear" [ACookie ZPOOL_HANDLE_METATABLE; AInt to_size] [] (or_zfs (Some "zpool_get_handle") "zpool_vdev_clear" Succeeds);
  Wrapped "l_zpool_vdev_path_to_guid" l_zpool_vdev_path_to_guid "zpool_vdev_path_to_guid" [ACookie ZPOOL_HANDLE_METATABLE; AStr] [] (Pushed [v_int]);
  Wrapped "l_zpool_set_prop" l_zpool_set_prop "zpool_set_prop" [ACookie ZPOOL_HANDLE_METATABLE; AStr; AStr] [] (or_zfs (Some "zpool_get_handle") "zpool_set_prop" Succeeds);
  Wrapped "l_zpool_get_prop" l_zpool_get_prop "zpool_get_prop" [ACookie ZPOOL_HANDLE_METATABLE; AInt to_int; ABool; AConst (AZ (cst "ZPOOL_MAXPROPLEN"))] [0%nat; 1%nat; 3%nat; 2%nat] (or_zfs (Some "zpool_get_handle") "zpool_get_prop" (Pushed [v_outs 0; v_out 1]));
  Wrapped "l_zpool_get_userprop" l_zpool_get_userprop "zpool_get_userprop" [ACookie ZPOOL_HANDLE_METATABLE; AStr; AConst (AZ (cst "ZPOOL_MAXPROPLEN"))] [] (or_zfs (Some "zpool_get_handle") "zpool_get_userprop" (Pushed [v_outs 0; v_out 1]));
  Wrapped "l_zpool_props_refresh" l_zpool_props_refresh "zpool_props_refresh" [ACookie ZPOOL_HANDLE_METATABLE] [] (or_zfs (Some "zpool_get_handle") "zpool_refresh_props" Succeeds);
  Wrapped "l_zpool_get_vdev_prop" l_zpool_get_vdev_prop "zpool_get_vdev_prop" [ACookie ZPOOL_HANDLE_METATABLE; AStr; AOptInt 0 to_int; AOptStr; ABool; AConst (AZ (cst "ZPOOL_MAXPROPLEN"))] [0%nat; 1%nat; 2%nat; 3%nat; 5%nat; 4%nat] (or_zfs (Some "zpool_get_handle") "zpool_get_vdev_prop" (Pushed [v_outs 0; v_out 1]));
  Wrapped "l_zpool_set_vdev_prop" l_zpool_set_vdev_prop "zpool_set_vdev_prop" [ACookie ZPOOL_HANDLE_METATABLE; AStr; AStr; AStr] [] (or_zfs (Some "zpool_get_handle") "zpool_set_vdev_prop" Succeeds);
  Wrapped "l_zpool_get_features" l_zpool_get_features "zpool_get_features" [ACookie ZPOOL_HANDLE_METATABLE] [] (or_zfs_null (Some "zpool_get_handle") "EZFS_UNKNOWN" "zpool_get_features" (NvList rc));
  Wrapped "l_zpool_refresh_stats" l_zpool_refresh_stats "zpool_refresh_stats" [ACookie ZPOOL_HANDLE_METATABLE] [] (or_zfs (Some "zpool_get_handle") "zpool_refresh_stats" (Pushed [v_outb 0]));
  Wrapped "l_zpool_refresh_stats_from_handle" l_zpool_refresh_stats_from_handle "zpool_refresh_stats_from_handle" [ACookie ZPOOL_HANDLE_METATABLE; ACookie ZPOOL_HANDLE_METATABLE] [] RNone;
  Wrapped "l_zpool_add_propname" l_zpool_add_propname "zpool_add_propname" [ACookie ZPOOL_HANDLE_METATABLE; AStr] [] RNone;
  Wrapped "l_zpool_export" l_zpool_export "zpool_export" [ACookie ZPOOL_HANDLE_METATABLE; ABool; AStr] [] (or_zfs (Some "zpool_get_handle") "zpool_export" Succeeds);
  Wrapped "l_zpool_export_force" l_zpool_export_force "zpool_export_force" [ACookie ZPOOL_HANDLE_METATABLE; AStr] [] (or_zfs (Some "zpool_get_handle") "zpool_export_force" Succeeds);
  Wrapped "l_zpool_upgrade" l_zpool_upgrade "zpool_upgrade" [ACookie ZPOOL_HANDLE_METATABLE; AInt to_size] [] (or_zfs (Some "zpool_get_handle") "zpool_upgrade" Succeeds);
  Wrapped "l_zpool_obj_to_path_ds" l_zpool_obj_to_path_ds "zpool_obj_to_path_ds" [ACookie ZPOOL_HANDLE_METATABLE; AInt to_size; AInt to_size; AConst (AZ (cst "PATH_MAX"))] [] (Pushed [v_outs 0]);
  Wrapped "l_zpool_obj_to_path" l_zpool_obj_to_path "zpool_obj_to_path" [ACookie ZPOOL_HANDLE_METATABLE; AInt to_size; AInt to_size; AConst (AZ (cst "PATH_MAX"))] [] (Pushed [v_outs 0]);
  Wrapped "l_zpool_checkpoint" l_zpool_checkpoint "zpool_checkpoint" [ACookie ZPOOL_HANDLE_METATABLE] [] (or_zfs (Some "zpool_get_handle") "zpool_checkpoint" Succeeds);
  Wrapped "l_zpool_discard_checkpoint" l_zpool_discard_checkpoint "zpool_discard_checkpoint" [ACookie ZPOOL_HANDLE_METATABLE] [] (or_zfs (Some "zpool_get_handle") "zpool_discard_checkpoint" Succeeds);
  Wrapped "l_zpool_prefetch" l_zpool_prefetch "zpool_prefetch" [ACookie ZPOOL_HANDLE_METATABLE; AInt to_int] [] (or_zfs (Some "zpool_get_handle") "zpool_prefetch" Succeeds);
  Wrapped "l_zpool_prop_get_feature" l_zpool_prop_get_feature "zpool_prop_get_feature" [ACookie ZPOOL_HANDLE_METATABLE; AStr; AConst (AZ (cst "ZPOOL_MAXPROPLEN"))] [] (or_zfs (Some "zpool_get_handle") "zpool_prop_get_feature" (Pushed [v_outs 0]));
  Wrapped "l_zvol_volsize_to_reservation" l_zvol_volsize_to_reservation "zvol_volsize_to_reservation" [ACookie ZPOOL_HANDLE_METATABLE; AInt to_size; ACookie NVLIST_METATABLE] [] (Pushed [v_int]);
  Wrapped "l_zpool_set_bootenv" l_zpool_set_bootenv "zpool_set_bootenv" [ACookie ZPOOL_HANDLE_METATABLE; ACookie NVLIST_METATABLE] [] (or_zfs (Some "zpool_get_handle") "zpool_set_bootenv" Succeeds);
  Wrapped "l_zpool_enable_datasets" l_zpool_enable_datasets "zpool_enable_datasets" [ACookie ZPOOL_HANDLE_METATABLE; AOptStr; AInt to_int; AInt to_uint] [] (or_zfs (Some "zpool_get_handle") "zpool_enable_datasets" Succeeds);
  Wrapped "l_zpool_disable_datasets" l_zpool_disable_datasets "zpool_disable_datasets" [ACookie ZPOOL_HANDLE_METATABLE; ABool] [] (or_zfs (Some "zpool_get_handle") "zpool_disable_datasets" Succeeds)].

Lemma zpool_wrappers_ok : Forall wrapped_ok zpool_wrappers.
Proof. wrapped_table. Qed.
End zpool.
