(* ===== verification/ZfsIter.v ===== *)
(** * lua_zfs.c: functions that call back

    libzfs calls a function of the module for every pool, dataset or snapshot; the
    function calls the one the script gave, with a new handle and the script's further
    arguments.  A library function that calls back is a conversation: its first result and
    the answer to every callback ([.resume]) say whether another callback follows (1, with
    its argument) or the function returns (0, with its result and what it stored).  [fuel] bounds the number of
    callbacks; [ZfsIterProps] shows that a number that exceeds it is enough. *)

From S2P Require Import Prelude LuaApi Machine Capi Utils Cmem Modules Wrapper Nvpair ZfsBase.

(** the rounds of a conversation *)
Fixpoint iterate (fuel : nat) (f : string) (cb : Z -> prog Z) (r : cret) : prog cret :=
  match fuel with
  | O => halts (EHalt Diverge)
  | S fuel =>
      if rc r =? 0 then mret r
      else
        x ← cb (out_int 0 r);
        r ← call (f +:+ ".resume") [AZ x];
        iterate fuel f cb r
  end.

Definition call_iter (fuel : nat) (f : string) (args : list carg) (cb : Z -> prog Z) : prog cret :=
  r ← call f args;
  iterate fuel f cb r.

(** the callbacks of the library; the further arguments are copied from below the top *)
Definition iter_cb (L : nat) (metatable : string) (zhp : Z) : prog Z :=
  top ← lua_gettop L;
  let nargs := top - 1 in
  lua_pushvalue L (- nargs);;
  new L zhp metatable;;
  for_ (Z.to_nat (nargs - 1)) 1 (fun _ => lua_pushvalue L (- nargs));;
  ok ← lua_pcall_none L nargs;
  if negb ok then
    luaL_pushfail L;;
    lua_insert L (-2);;
    mret (-1)
  else mret 0.

Definition zpool_iter_cb (L : nat) (zhp : Z) : prog Z := iter_cb L ZPOOL_HANDLE_METATABLE zhp.
Definition zfs_iter_cb (L : nat) (zhp : Z) : prog Z := iter_cb L ZFS_HANDLE_METATABLE zhp.

Definition snapfilter_cb (L : nat) (zhp : Z) : prog Z :=
  top ← lua_gettop L;
  let nargs := top - 6 in
  lua_pushvalue L (- nargs);;
  new L zhp ZFS_HANDLE_METATABLE;;
  for_ (Z.to_nat (nargs - 1)) 1 (fun _ => lua_pushvalue L (- nargs));;
  ok ← lua_pcall1 L nargs;
  if negb ok then mret 0
  else
    result ← lua_toboolean L (-1);
    lua_pop L 1;;
    mret (Z_of_bool result).

(** what the iteration returns: what the callback left, or an error *)
Definition iter_results (L : nat) (top error : Z) (failed : string) : prog Z :=
  if negb (error =? 0) then
    now ← lua_gettop L;
    if 0 <? now - top then mret (now - top)
    else
      luaL_pushfail L;;
      lua_pushlstring L failed;;
      mret 2
  else success L.

Section iter.
Context `{Consts}.
Variable fuel : nat.

Definition l_zpool_iter (L : nat) : prog Z :=
  top ← lua_gettop L;
  hdl ← checklibzfs L 1;
  isfunction ← lua_is L 2 TFUNCTION;
  luaL_argcheck L isfunction 2 "callback function required";;
  error ← call_iter fuel "zpool_iter" [AZ hdl] (zpool_iter_cb L);
  iter_results L top (out_int 0 error) "zpool_iter failed".

Definition l_zfs_iter_root (L : nat) : prog Z :=
  top ← lua_gettop L;
  hdl ← checklibzfs L 1;
  isfunction ← lua_is L 2 TFUNCTION;
  luaL_argcheck L isfunction 2 "callback function required";;
  error ← call_iter fuel "zfs_iter_root" [AZ hdl] (zfs_iter_cb L);
  iter_results L top (out_int 0 error) "zfs_iter_root failed".

Definition l_zfs_iter_children (L : nat) : prog Z :=
  top ← lua_gettop L;
  zhp ← checkzfs L 1;
  isfunction ← lua_is L 2 TFUNCTION;
  luaL_argcheck L isfunction 2 "callback function required";;
  error ← call_iter fuel "zfs_iter_children" [AZ zhp] (zfs_iter_cb L);
  iter_results L top (out_int 0 error) "zfs_iter_children failed".

Definition l_zfs_iter_dependents (L : nat) : prog Z :=
  zhp ← checkzfs L 1;
  allowrecursion ← lua_toboolean L 2;
  isfunction ← lua_is L 3 TFUNCTION;
  luaL_argcheck L isfunction 3 "callback function required";;
  lua_remove L 2;;
  top ← lua_gettop L;
  error ← call_iter fuel "zfs_iter_dependents" [AZ zhp; AZ (Z_of_bool allowrecursion)] (zfs_iter_cb L);
  iter_results L top (out_int 0 error) "zfs_iter_dependents failed".

Definition l_zfs_iter_filesystems (L : nat) : prog Z :=
  top ← lua_gettop L;
  zhp ← checkzfs L 1;
  isfunction ← lua_is L 2 TFUNCTION;
  luaL_argcheck L isfunction 2 "callback function required";;
  error ← call_iter fuel "zfs_iter_filesystems" [AZ zhp] (zfs_iter_cb L);
  iter_results L top (out_int 0 error) "zfs_iter_filesystems failed".

Definition l_zfs_iter_snapshots (L : nat) : prog Z :=
  zhp ← checkzfs L 1;
  simple ← lua_toboolean L 2;
  min_txg ← luaL_optinteger L 3 0;
  max_txg ← luaL_optinteger L 4 0;
  isfunction ← lua_is L 5 TFUNCTION;
  luaL_argcheck L isfunction 5 "callback function required";;
  lua_remove L 2;;
  lua_remove L 3;;
  lua_remove L 4;;
  top ← lua_gettop L;
  error ← call_iter fuel "zfs_iter_snapshots" [AZ zhp; AZ (Z_of_bool simple); AZ (to_size min_txg); AZ (to_size max_txg)] (zfs_iter_cb L);
  iter_results L top (out_int 0 error) "zfs_iter_snapshots failed".

Definition l_zfs_iter_snapshots_sorted (L : nat) : prog Z :=
  zhp ← checkzfs L 1;
  min_txg ← luaL_optinteger L 2 0;
  max_txg ← luaL_optinteger L 3 0;
  isfunction ← lua_is L 4 TFUNCTION;
  luaL_argcheck L isfunction 4 "callback function required";;
  lua_remove L 2;;
  lua_remove L 3;;
  top ← lua_gettop L;
  error ← call_iter fuel "zfs_iter_snapshots_sorted" [AZ zhp; AZ (to_size min_txg); AZ (to_size max_txg)] (zfs_iter_cb L);
  iter_results L top (out_int 0 error) "zfs_iter_snapshots_sorted failed".

Definition l_zfs_iter_snapspec (L : nat) : prog Z :=
  zhp ← checkzfs L 1;
  snapspec ← luaL_checkstring L 2;
  isfunction ← lua_is L 3 TFUNCTION;
  luaL_argcheck L isfunction 3 "callback function required";;
  hdl ← call "zfs_get_handle" [AZ zhp];
  snapspeccopy ← call "zfs_strdup" [AZ (rc hdl); AS snapspec];
  lua_remove L 2;;
  top ← lua_gettop L;
  error ← call_iter fuel "zfs_iter_snapspec" [AZ zhp; AZ (rc snapspeccopy)] (zfs_iter_cb L);
  free (rc snapspeccopy);;
  iter_results L top (out_int 0 error) "zfs_iter_snapspec failed".

Definition l_zfs_iter_bookmarks (L : nat) : prog Z :=
  top ← lua_gettop L;
  zhp ← checkzfs L 1;
  isfunction ← lua_is L 2 TFUNCTION;
  luaL_argcheck L isfunction 2 "callback function required";;
  error ← call_iter fuel "zfs_iter_bookmarks" [AZ zhp] (zfs_iter_cb L);
  iter_results L top (out_int 0 error) "zfs_iter_bookmarks failed".

Definition l_zfs_iter_children_v2 (L : nat) : prog Z :=
  zhp ← checkzfs L 1;
  flags ← luaL_checkinteger L 2;
  isfunction ← lua_is L 3 TFUNCTION;
  luaL_argcheck L isfunction 3 "callback function required";;
  lua_remove L 2;;
  top ← lua_gettop L;
  error ← call_iter fuel "zfs_iter_children_v2" [AZ zhp; AZ (to_int flags)] (zfs_iter_cb L);
  iter_results L top (out_int 0 error) "zfs_iter_children_v2 failed".

Definition l_zfs_iter_dependents_v2 (L : nat) : prog Z :=
  zhp ← checkzfs L 1;
  flags ← luaL_checkinteger L 2;
  allowrecursion ← lua_toboolean L 3;
  isfunction ← lua_is L 4 TFUNCTION;
  luaL_argcheck L isfunction 4 "callback function required";;
  lua_remove L 2;;
  lua_remove L 3;;
  top ← lua_gettop L;
  error ← call_iter fuel "zfs_iter_dependents_v2" [AZ zhp; AZ (to_int flags); AZ (Z_of_bool allowrecursion)] (zfs_iter_cb L);
  iter_results L top (out_int 0 error) "zfs_iter_dependents_v2 failed".

Definition l_zfs_iter_filesystems_v2 (L : nat) : prog Z :=
  zhp ← checkzfs L 1;
  flags ← luaL_checkinteger L 2;
  isfunction ← lua_is L 3 TFUNCTION;
  luaL_argcheck L isfunction 3 "callback function required";;
  lua_remove L 2;;
  top ← lua_gettop L;
  error ← call_iter fuel "zfs_iter_filesystems_v2" [AZ zhp; AZ (to_int flags)] (zfs_iter_cb L);
  iter_results L top (out_int 0 error) "zfs_iter_filesystems_v2 failed".

Definition l_zfs_iter_snapshots_v2 (L : nat) : prog Z :=
  zhp ← checkzfs L 1;
  flags ← luaL_checkinteger L 2;
  min_txg ← luaL_optinteger L 3 0;
  max_txg ← luaL_optinteger L 4 0;
  isfunction ← lua_is L 5 TFUNCTION;
  luaL_argcheck L isfunction 5 "callback function required";;
  lua_remove L 2;;
  lua_remove L 3;;
  lua_remove L 4;;
  top ← lua_gettop L;
  error ← call_iter fuel "zfs_iter_snapshots_v2" [AZ zhp; AZ (to_int flags); AZ (to_size min_txg); AZ (to_size max_txg)] (zfs_iter_cb L);
  iter_results L top (out_int 0 error) "zfs_iter_snapshots_v2 failed".

Definition l_zfs_iter_snapshots_sorted_v2 (L : nat) : prog Z :=
  zhp ← checkzfs L 1;
  flags ← luaL_checkinteger L 2;
  min_txg ← luaL_optinteger L 3 0;
  max_txg ← luaL_optinteger L 4 0;
  isfunction ← lua_is L 5 TFUNCTION;
  luaL_argcheck L isfunction 5 "callback function required";;
  lua_remove L 2;;
  lua_remove L 3;;
  lua_remove L 4;;
  top ← lua_gettop L;
  error ← call_iter fuel "zfs_iter_snapshots_sorted_v2" [AZ zhp; AZ (to_int flags); AZ (to_size min_txg); AZ (to_size max_txg)] (zfs_iter_cb L);
  iter_results L top (out_int 0 error) "zfs_iter_snapshots_sorted_v2 failed".

Definition l_zfs_iter_snapspec_v2 (L : nat) : prog Z :=
  zhp ← checkzfs L 1;
  flags ← luaL_checkinteger L 2;
  snapspec ← luaL_checkstring L 3;
  isfunction ← lua_is L 4 TFUNCTION;
  luaL_argcheck L isfunction 4 "callback function required";;
  hdl ← call "zfs_get_handle" [AZ zhp];
  snapspeccopy ← call "zfs_strdup" [AZ (rc hdl); AS snapspec];
  lua_remove L 2;;
  lua_remove L 3;;
  top ← lua_gettop L;
  error ← call_iter fuel "zfs_iter_snapspec_v2" [AZ zhp; AZ (to_int flags); AZ (rc snapspeccopy)] (zfs_iter_cb L);
  free (rc snapspeccopy);;
  iter_results L top (out_int 0 error) "zfs_iter_snapspec_v2 failed".

Definition l_zfs_iter_bookmarks_v2 (L : nat) : prog Z :=
  zhp ← checkzfs L 1;
  flags ← luaL_checkinteger L 2;
  isfunction ← lua_is L 3 TFUNCTION;
  luaL_argcheck L isfunction 3 "callback function required";;
  lua_remove L 2;;
  top ← lua_gettop L;
  error ← call_iter fuel "zfs_iter_bookmarks_v2" [AZ zhp; AZ (to_int flags)] (zfs_iter_cb L);
  iter_results L top (out_int 0 error) "zfs_iter_bookmarks_v2 failed".

Definition l_zfs_iter_mounted (L : nat) : prog Z :=
  top ← lua_gettop L;
  zhp ← checkzfs L 1;
  isfunction ← lua_is L 2 TFUNCTION;
  luaL_argcheck L isfunction 2 "callback function required";;
  error ← call_iter fuel "zfs_iter_mounted" [AZ zhp] (zfs_iter_cb L);
  iter_results L top (out_int 0 error) "zfs_iter_mounted failed".

(** the handles array, and the handles of the table at index 2, which stay on the stack *)
Definition l_zfs_foreach_mountpoint (L : nat) : prog Z :=
  hdl ← checklibzfs L 1;
  luaL_checktype L 2 TTABLE;;
  num_handles ← luaL_len L 2;
  nthr ← luaL_checkinteger L 3;
  isfunction ← lua_is L 4 TFUNCTION;
  luaL_argcheck L isfunction 4 "callback function required";;
  handles ← lua_newuserdatauv L (to_size (num_handles * sizeof_ptr)) (OArr (replicate (Z.to_nat num_handles) None)) 1;
  for_ (Z.to_nat num_handles) 0 (fun i =>
    lua_rawgeti L 2 (i + 1);;
    h ← checkzfs L (-1);
    load handles (arr_set (Z.to_nat i) (AZ h)));;
  lua_pushvalue L 2;;
  lua_setiuservalue L (-2) 1;;
  ref ← luaL_ref L;
  lua_pop L num_handles;;
  lua_remove L 2;;
  lua_remove L 3;;
  top ← lua_gettop L;
  call_iter fuel "zfs_foreach_mountpoint" [AZ hdl; AZ handles; AZ (to_size num_handles); AZ (to_uint nthr)] (zfs_iter_cb L);;
  luaL_unref L ref;;
  now ← lua_gettop L;
  mret (now - top).

(** the last arguments say whether the filter is given and whether the debugging list is asked for,
    which is stored next to the result *)
Definition l_zfs_send (L : nat) : prog Z :=
  zhp ← checkzfs L 1;
  fromsnap ← luaL_optstring L 2;
  tosnap ← luaL_optstring L 3;
  flags ← checksendflags L 4;
  outfd ← checkfd L 5;
  isfunction ← lua_is L 6 TFUNCTION;
  let verbosity := match flags with AZ v :: _ => v | _ => 0 end in
  let args := [AZ zhp; null_or fromsnap; null_or tosnap] ++ flags ++
              [AZ outfd; AZ (Z_of_bool isfunction); AZ (Z_of_bool (3 <=? verbosity))] in
  error ← call_iter fuel "zfs_send" args (snapfilter_cb L);
  let dbg := out_int 1 error in
  if negb (out_int 0 error =? 0) then
    zfsfail L zhp (out_int 0 error) "zfs_send";;
    (if negb (dbg =? 0) then
       pushnvlist L dbg;;
       lua_replace L (-3)
     else mret tt);;
    mret 3
  else if negb (dbg =? 0) then
    pushnvlist L dbg;;
    mret 1
  else success L.
End iter.
