(* ===== verification/ZfsOpen.v ===== *)
(** * lua_zfs.c: the tables of the module and [luaopen_zfs] *)

From S2P Require Import Prelude LuaApi Machine Capi Utils Modules Nvpair ZfsBase.

Section zfs.
Context `{Consts} `{SConsts}.

Definition l_zfs_funcs : list (string * string) :=
  [
   ("init", "l_libzfs_init"); ("prop", "l_zfs_name_to_prop")].

Definition l_zfs_meta : list (string * string) :=
  [
   ("__close", "l_zfs_close"); ("__gc", "l_zfs_close"); ("close", "l_zfs_close");
   ("handle_dup", "l_zfs_handle_dup"); ("get_type", "l_zfs_get_type");
   ("get_underlying_type", "l_zfs_get_underlying_type"); ("get_name", "l_zfs_get_name")] ++
  [
   ("get_pool_name", "l_zfs_get_pool_name"); ("prop_set", "l_zfs_prop_set");
   ("prop_set_list", "l_zfs_prop_set_list"); ("prop_set_list_flags", "l_zfs_prop_set_list_flags");
   ("prop_get", "l_zfs_prop_get"); ("prop_get_recvd", "l_zfs_prop_get_recvd");
   ("prop_get_numeric", "l_zfs_prop_get_numeric");
   ("prop_get_userquota_int", "l_zfs_prop_get_userquota_int");
   ("prop_get_userquota", "l_zfs_prop_get_userquota");
   ("prop_get_written_int", "l_zfs_prop_get_written_int");
   ("prop_get_written", "l_zfs_prop_get_written")] ++
  [
   ("getprop_uint64", "l_getprop_uint64"); ("prop_get_int", "l_zfs_prop_get_int");
   ("prop_inherit", "l_zfs_prop_inherit"); ("get_all_props", "l_zfs_get_all_props");
   ("get_user_props", "l_zfs_get_user_props"); ("get_recvd_props", "l_zfs_get_recvd_props");
   ("get_clones_nvl", "l_zfs_get_clones_nvl"); ("iter_children", "l_zfs_iter_children");
   ("iter_dependents", "l_zfs_iter_dependents"); ("iter_filesystems", "l_zfs_iter_filesystems");
   ("iter_snapshots", "l_zfs_iter_snapshots");
   ("iter_snapshots_sorted", "l_zfs_iter_snapshots_sorted");
   ("iter_snapspec", "l_zfs_iter_snapspec"); ("iter_bookmarks", "l_zfs_iter_bookmarks");
   ("iter_children_v2", "l_zfs_iter_children_v2");
   ("iter_dependents_v2", "l_zfs_iter_dependents_v2");
   ("iter_filesystems_v2", "l_zfs_iter_filesystems_v2");
   ("iter_snapshots_v2", "l_zfs_iter_snapshots_v2");
   ("iter_snapshots_sorted_v2", "l_zfs_iter_snapshots_sorted_v2");
   ("iter_snapspec_v2", "l_zfs_iter_snapspec_v2"); ("iter_bookmarks_v2", "l_zfs_iter_bookmarks_v2");
   ("iter_mounted", "l_zfs_iter_mounted"); ("wait_status", "l_zfs_wait_status");
   ("crypto_get_encryption_root", "l_zfs_crypto_get_encryption_root");
   ("crypto_load_key", "l_zfs_crypto_load_key"); ("crypto_unload_key", "l_zfs_crypto_unload_key");
   ("crypto_rewrap", "l_zfs_crypto_rewrap")] ++
  (if 1500044 <? cst "__FreeBSD_version" then [
   ("is_encrypted", "l_zfs_is_encrypted")] else []) ++
  [
   ("destroy", "l_zfs_destroy"); ("destroy_snaps", "l_zfs_destroy_snaps"); ("clone", "l_zfs_clone");
   ("rollback", "l_zfs_rollback"); ("rename", "l_zfs_rename"); ("send", "l_zfs_send");
   ("send_one", "l_zfs_send_one"); ("send_progress", "l_zfs_send_progress");
   ("send_saved", "l_zfs_send_saved"); ("promote", "l_zfs_promote"); ("hold", "l_zfs_hold");
   ("hold_nvl", "l_zfs_hold_nvl"); ("release", "l_zfs_release"); ("get_holds", "l_zfs_get_holds")] ++
  [
   ("refresh_properties", "l_zfs_refresh_properties"); ("parent_name", "l_zfs_parent_name");
   ("spa_version", "l_zfs_spa_version"); ("is_mounted", "l_zfs_is_mounted");
   ("mount", "l_zfs_mount"); ("mount_at", "l_zfs_mount_at"); ("unmount", "l_zfs_unmount");
   ("unmountall", "l_zfs_unmountall"); ("jail", "l_zfs_jail")].

Definition l_zpool_meta : list (string * string) :=
  [
   ("__close", "l_zpool_close"); ("__gc", "l_zpool_close"); ("close", "l_zpool_close");
   ("get_name", "l_zpool_get_name"); ("get_state", "l_zpool_get_state");
   ("get_state_str", "l_zpool_get_state_str"); ("get_status", "l_zpool_get_status")] ++
  [
   ("wait", "l_zpool_wait"); ("wait_status", "l_zpool_wait_status"); ("destroy", "l_zpool_destroy");
   ("add", "l_zpool_add"); ("scan", "l_zpool_scan")] ++
  (if 1500056 <? cst "__FreeBSD_version" then [
   ("scan_range", "l_zpool_scan_range"); ("initialize_one", "l_zpool_initialize_one")] else []) ++
  [
   ("initialize", "l_zpool_initialize"); ("initialize_wait", "l_zpool_initialize_wait");
   ("trim", "l_zpool_trim"); ("clear", "l_zpool_clear"); ("reguid", "l_zpool_reguid")] ++
  (if 1500023 <? cst "__FreeBSD_version" then [
   ("set_guid", "l_zpool_set_guid")] else []) ++
  [
   ("reopen_one", "l_zpool_reopen_one")] ++
  (if 1500056 <? cst "__FreeBSD_version" then [
   ("collect_leaves", "l_zpool_collect_leaves")] else []) ++
  [
   ("sync_one", "l_zpool_sync_one")] ++
  (if 1500056 <? cst "__FreeBSD_version" then [
   ("trim_one", "l_zpool_trim_one")] else []) ++
  (if 1500023 <? cst "__FreeBSD_version" then [
   ("ddt_prune", "l_zpool_ddt_prune")] else []) ++
  [
   ("vdev_online", "l_zpool_vdev_online"); ("vdev_offline", "l_zpool_vdev_offline");
   ("vdev_attach", "l_zpool_vdev_attach"); ("vdev_detach", "l_zpool_vdev_detach");
   ("vdev_remove", "l_zpool_vdev_remove"); ("vdev_remove_cancel", "l_zpool_vdev_remove_cancel");
   ("vdev_indirect_size", "l_zpool_vdev_indirect_size"); ("vdev_split", "l_zpool_vdev_split");
   ("vdev_remove_wanted", "l_zpool_vdev_remove_wanted"); ("vdev_fault", "l_zpool_vdev_fault");
   ("vdev_degrade", "l_zpool_vdev_degrade");
   ("vdev_set_removed_state", "l_zpool_vdev_set_removed_state");
   ("vdev_clear", "l_zpool_vdev_clear"); ("find_vdev", "l_zpool_find_vdev")] ++
  (if 1500023 <? cst "__FreeBSD_version" then [
   ("find_parent_vdev", "l_zpool_find_parent_vdev")] else []) ++
  [
   ("find_vdev_by_physpath", "l_zpool_find_vdev_by_physpath");
   ("prepare_disk", "l_zpool_prepare_disk"); ("vdev_path_to_guid", "l_zpool_vdev_path_to_guid");
   ("set_prop", "l_zpool_set_prop"); ("get_prop", "l_zpool_get_prop");
   ("get_userprop", "l_zpool_get_userprop"); ("get_prop_int", "l_zpool_get_prop_int");
   ("props_refresh", "l_zpool_props_refresh"); ("get_vdev_prop", "l_zpool_get_vdev_prop");
   ("get_all_vdev_props", "l_zpool_get_all_vdev_props"); ("set_vdev_prop", "l_zpool_set_vdev_prop");
   ("get_config", "l_zpool_get_config"); ("get_features", "l_zpool_get_features");
   ("refresh_stats", "l_zpool_refresh_stats")] ++
  (if 1600001 <? cst "__FreeBSD_version" then [
   ("refresh_stats_from_handle", "l_zpool_refresh_stats_from_handle")] else []) ++
  [
   ("get_errlog", "l_zpool_get_errlog")] ++
  (if 1500023 <? cst "__FreeBSD_version" then [
   ("add_propname", "l_zpool_add_propname")] else []) ++
  [
   ("export", "l_zpool_export"); ("export_force", "l_zpool_export_force");
   ("upgrade", "l_zpool_upgrade"); ("get_history", "l_zpool_get_history");
   ("obj_to_path_ds", "l_zpool_obj_to_path_ds"); ("obj_to_path", "l_zpool_obj_to_path");
   ("checkpoint", "l_zpool_checkpoint"); ("discard_checkpoint", "l_zpool_discard_checkpoint")] ++
  (if 1500023 <? cst "__FreeBSD_version" then [
   ("prefetch", "l_zpool_prefetch")] else []) ++
  [
   ("prop_get_feature", "l_zpool_prop_get_feature");
   ("zvol_volsize_to_reservation", "l_zvol_volsize_to_reservation");
   ("set_bootenv", "l_zpool_set_bootenv"); ("get_bootenv", "l_zpool_get_bootenv");
   ("enable_datasets", "l_zpool_enable_datasets"); ("disable_datasets", "l_zpool_disable_datasets")].

Definition l_libzfs_meta : list (string * string) :=
  [
   ("__close", "l_libzfs_fini"); ("__gc", "l_libzfs_fini"); ("fini", "l_libzfs_fini");
   ("print_on_error", "l_libzfs_print_on_error"); ("log_history", "l_zpool_log_history");
   ("errno", "l_libzfs_errno"); ("error_action", "l_libzfs_error_action");
   ("error_description", "l_libzfs_error_description"); ("mnttab_cache", "l_libzfs_mnttab_cache");
   ("mnttab_find", "l_libzfs_mnttab_find"); ("mnttab_add", "l_libzfs_mnttab_add");
   ("mnttab_remove", "l_libzfs_mnttab_remove"); ("open_pool", "l_zpool_open");
   ("open_pool_canfail", "l_zpool_open_canfail"); ("iter_pools", "l_zpool_iter");
   ("create_pool", "l_zpool_create"); ("label_disk", "l_zpool_label_disk");
   ("prepare_and_label_disk", "l_zpool_prepare_and_label_disk"); ("import", "l_zpool_import");
   ("import_props", "l_zpool_import_props"); ("vdev_name", "l_zpool_vdev_name");
   ("events_next", "l_zpool_events_next"); ("events_clear", "l_zpool_events_clear");
   ("events_seek", "l_zpool_events_seek"); ("explain_recover", "l_zpool_explain_recover");
   ("foreach_mountpoint", "l_zfs_foreach_mountpoint"); ("open", "l_zfs_open");
   ("iter_root", "l_zfs_iter_root"); ("crypto_create", "l_zfs_crypto_create");
   ("crypto_clone_check", "l_zfs_crypto_clone_check");
   ("crypto_attempt_load_keys", "l_zfs_crypto_attempt_load_keys");
   ("valid_proplist", "l_zfs_valid_proplist"); ("path_to_zhandle", "l_zfs_path_to_zhandle");
   ("dataset_exists", "l_zfs_dataset_exists"); ("create", "l_zfs_create");
   ("create_ancestors", "l_zfs_create_ancestors")] ++
  (if 1600013 <? cst "__FreeBSD_version" then [
   ("create_ancestors_props", "l_zfs_create_ancestors_props")] else []) ++
  [
   ("destroy_snaps_nvl", "l_zfs_destroy_snaps_nvl"); ("snapshot", "l_zfs_snapshot");
   ("snapshot_nvl", "l_zfs_snapshot_nvl"); ("send_resume", "l_zfs_send_resume");
   ("send_resume_token_to_nvlist", "l_zfs_send_resume_token_to_nvlist");
   ("receive", "l_zfs_receive"); ("is_mounted", "l_is_mounted");
   ("nicestrtonum", "l_zfs_nicestrtonum"); ("pool_in_use", "l_zpool_in_use");
   ("nextboot", "l_zpool_nextboot")].

Definition l_prop_meta : list (string * string) :=
  [
   ("default_string", "l_zfs_prop_default_string");
   ("default_numeric", "l_zfs_prop_default_numeric"); ("column_name", "l_zfs_prop_column_name");
   ("align_right", "l_zfs_prop_align_right"); ("to_name", "l_zfs_prop_to_name");
   ("values", "l_zfs_prop_values"); ("is_string", "l_zfs_prop_is_string")].

Definition zfs_types : list (string * list (string * string)) :=
  [(ZFS_HANDLE_METATABLE, l_zfs_meta); (ZPOOL_HANDLE_METATABLE, l_zpool_meta);
   (LIBZFS_HANDLE_METATABLE, l_libzfs_meta); (ZFS_PROP_METATABLE, l_prop_meta)].

Definition zfs_consts1 : list (string * Z) :=
  idents [
     "SPA_MINDEVSIZE"; "ZFS_MAXPROPLEN"; "ZPOOL_MAXPROPLEN"; "EZFS_SUCCESS"; "EZFS_NOMEM";
     "EZFS_BADPROP"; "EZFS_PROPREADONLY"; "EZFS_PROPTYPE"; "EZFS_PROPNONINHERIT"; "EZFS_PROPSPACE";
     "EZFS_BADTYPE"; "EZFS_BUSY"; "EZFS_EXISTS"; "EZFS_NOENT"; "EZFS_BADSTREAM"; "EZFS_DSREADONLY";
     "EZFS_VOLTOOBIG"; "EZFS_INVALIDNAME"; "EZFS_BADRESTORE"; "EZFS_BADBACKUP"; "EZFS_BADTARGET";
     "EZFS_NODEVICE"; "EZFS_BADDEV"; "EZFS_NOREPLICAS"; "EZFS_RESILVERING"; "EZFS_BADVERSION";
     "EZFS_POOLUNAVAIL"; "EZFS_DEVOVERFLOW"; "EZFS_BADPATH"; "EZFS_CROSSTARGET"; "EZFS_ZONED";
     "EZFS_MOUNTFAILED"; "EZFS_UMOUNTFAILED"; "EZFS_UNSHARENFSFAILED"; "EZFS_SHARENFSFAILED";
     "EZFS_PERM"; "EZFS_NOSPC"; "EZFS_FAULT"; "EZFS_IO"; "EZFS_INTR"; "EZFS_ISSPARE";
     "EZFS_INVALCONFIG"; "EZFS_RECURSIVE"; "EZFS_NOHISTORY"; "EZFS_POOLPROPS"; "EZFS_POOL_NOTSUP";
     "EZFS_POOL_INVALARG"; "EZFS_NAMETOOLONG"; "EZFS_OPENFAILED"; "EZFS_NOCAP"; "EZFS_LABELFAILED";
     "EZFS_BADWHO"; "EZFS_BADPERM"; "EZFS_BADPERMSET"; "EZFS_NODELEGATION"; "EZFS_UNSHARESMBFAILED";
     "EZFS_SHARESMBFAILED"; "EZFS_BADCACHE"; "EZFS_ISL2CACHE"; "EZFS_VDEVNOTSUP"; "EZFS_NOTSUP";
     "EZFS_ACTIVE_SPARE"; "EZFS_UNPLAYED_LOGS"; "EZFS_REFTAG_RELE"; "EZFS_REFTAG_HOLD";
     "EZFS_TAGTOOLONG"; "EZFS_PIPEFAILED"; "EZFS_THREADCREATEFAILED"; "EZFS_POSTSPLIT_ONLINE";
     "EZFS_SCRUBBING"; "EZFS_ERRORSCRUBBING"; "EZFS_ERRORSCRUB_PAUSED"; "EZFS_NO_SCRUB";
     "EZFS_DIFF"; "EZFS_DIFFDATA"; "EZFS_POOLREADONLY"; "EZFS_SCRUB_PAUSED";
     "EZFS_SCRUB_PAUSED_TO_CANCEL"; "EZFS_ACTIVE_POOL"; "EZFS_CRYPTOFAILED"; "EZFS_NO_PENDING";
     "EZFS_CHECKPOINT_EXISTS"; "EZFS_DISCARDING_CHECKPOINT"; "EZFS_NO_CHECKPOINT";
     "EZFS_DEVRM_IN_PROGRESS"; "EZFS_VDEV_TOO_BIG"; "EZFS_IOC_NOTSUPPORTED"; "EZFS_TOOMANY";
     "EZFS_INITIALIZING"; "EZFS_NO_INITIALIZE"; "EZFS_WRONG_PARENT"; "EZFS_TRIMMING";
     "EZFS_NO_TRIM"; "EZFS_TRIM_NOTSUP"; "EZFS_NO_RESILVER_DEFER"; "EZFS_EXPORT_IN_PROGRESS";
     "EZFS_REBUILDING"; "EZFS_VDEV_NOTSUP"; "EZFS_NOT_USER_NAMESPACE"; "EZFS_CKSUM";
     "EZFS_RESUME_EXISTS"; "EZFS_SHAREFAILED"; "EZFS_RAIDZ_EXPAND_IN_PROGRESS";
     "EZFS_ASHIFT_MISMATCH"] ++
  (if 1600015 <? cst "__FreeBSD_version" then idents [
     "EZFS_NO_USER_NS_SUPPORT"] else []) ++
  idents [
     "EZFS_UNKNOWN"].

Definition zfs_consts2 : list (string * Z) :=
  idents [
     "ZPOOL_STATUS_CORRUPT_CACHE"; "ZPOOL_STATUS_MISSING_DEV_R"; "ZPOOL_STATUS_MISSING_DEV_NR";
     "ZPOOL_STATUS_CORRUPT_LABEL_R"; "ZPOOL_STATUS_CORRUPT_LABEL_NR"; "ZPOOL_STATUS_BAD_GUID_SUM";
     "ZPOOL_STATUS_CORRUPT_POOL"; "ZPOOL_STATUS_CORRUPT_DATA"; "ZPOOL_STATUS_FAILING_DEV";
     "ZPOOL_STATUS_VERSION_NEWER"; "ZPOOL_STATUS_HOSTID_MISMATCH"; "ZPOOL_STATUS_HOSTID_ACTIVE";
     "ZPOOL_STATUS_HOSTID_REQUIRED"; "ZPOOL_STATUS_IO_FAILURE_WAIT";
     "ZPOOL_STATUS_IO_FAILURE_CONTINUE"; "ZPOOL_STATUS_IO_FAILURE_MMP"; "ZPOOL_STATUS_BAD_LOG";
     "ZPOOL_STATUS_ERRATA"; "ZPOOL_STATUS_UNSUP_FEAT_READ"; "ZPOOL_STATUS_UNSUP_FEAT_WRITE";
     "ZPOOL_STATUS_FAULTED_DEV_R"; "ZPOOL_STATUS_FAULTED_DEV_NR"; "ZPOOL_STATUS_VERSION_OLDER";
     "ZPOOL_STATUS_FEAT_DISABLED"; "ZPOOL_STATUS_RESILVERING"; "ZPOOL_STATUS_OFFLINE_DEV";
     "ZPOOL_STATUS_REMOVED_DEV"; "ZPOOL_STATUS_REBUILDING"; "ZPOOL_STATUS_REBUILD_SCRUB";
     "ZPOOL_STATUS_NON_NATIVE_ASHIFT"; "ZPOOL_STATUS_COMPATIBILITY_ERR";
     "ZPOOL_STATUS_INCOMPATIBLE_FEAT"; "ZPOOL_STATUS_OK"; "ZFS_TYPE_INVALID"; "ZFS_TYPE_FILESYSTEM";
     "ZFS_TYPE_SNAPSHOT"; "ZFS_TYPE_VOLUME"; "ZFS_TYPE_POOL"; "ZFS_TYPE_BOOKMARK"; "ZFS_TYPE_VDEV";
     "ZFS_TYPE_DATASET"].

Definition zfs_consts3 : list (string * Z) :=
  idents [
     "ZPROP_CONT"; "ZPROP_INVAL"; "ZPROP_USERPROP"; "ZFS_PROP_TYPE"; "ZFS_PROP_CREATION";
     "ZFS_PROP_USED"; "ZFS_PROP_AVAILABLE"; "ZFS_PROP_REFERENCED"; "ZFS_PROP_COMPRESSRATIO";
     "ZFS_PROP_MOUNTED"; "ZFS_PROP_ORIGIN"; "ZFS_PROP_QUOTA"; "ZFS_PROP_RESERVATION";
     "ZFS_PROP_VOLSIZE"; "ZFS_PROP_VOLBLOCKSIZE"; "ZFS_PROP_RECORDSIZE"; "ZFS_PROP_MOUNTPOINT";
     "ZFS_PROP_SHARENFS"; "ZFS_PROP_CHECKSUM"; "ZFS_PROP_COMPRESSION"; "ZFS_PROP_ATIME";
     "ZFS_PROP_DEVICES"; "ZFS_PROP_EXEC"; "ZFS_PROP_SETUID"; "ZFS_PROP_READONLY"; "ZFS_PROP_ZONED";
     "ZFS_PROP_SNAPDIR"; "ZFS_PROP_ACLMODE"; "ZFS_PROP_ACLINHERIT"; "ZFS_PROP_CREATETXG";
     "ZFS_PROP_NAME"; "ZFS_PROP_CANMOUNT"; "ZFS_PROP_ISCSIOPTIONS"; "ZFS_PROP_XATTR";
     "ZFS_PROP_NUMCLONES"; "ZFS_PROP_COPIES"; "ZFS_PROP_VERSION"; "ZFS_PROP_UTF8ONLY";
     "ZFS_PROP_NORMALIZE"; "ZFS_PROP_CASE"; "ZFS_PROP_VSCAN"; "ZFS_PROP_NBMAND";
     "ZFS_PROP_SHARESMB"; "ZFS_PROP_REFQUOTA"; "ZFS_PROP_REFRESERVATION"; "ZFS_PROP_GUID";
     "ZFS_PROP_PRIMARYCACHE"; "ZFS_PROP_SECONDARYCACHE"; "ZFS_PROP_USEDSNAP"; "ZFS_PROP_USEDDS";
     "ZFS_PROP_USEDCHILD"; "ZFS_PROP_USEDREFRESERV"; "ZFS_PROP_USERACCOUNTING";
     "ZFS_PROP_STMF_SHAREINFO"; "ZFS_PROP_DEFER_DESTROY"; "ZFS_PROP_USERREFS"; "ZFS_PROP_LOGBIAS";
     "ZFS_PROP_UNIQUE"; "ZFS_PROP_OBJSETID"; "ZFS_PROP_DEDUP"; "ZFS_PROP_MLSLABEL"; "ZFS_PROP_SYNC";
     "ZFS_PROP_DNODESIZE"; "ZFS_PROP_REFRATIO"; "ZFS_PROP_WRITTEN"; "ZFS_PROP_CLONES";
     "ZFS_PROP_LOGICALUSED"; "ZFS_PROP_LOGICALREFERENCED"; "ZFS_PROP_INCONSISTENT";
     "ZFS_PROP_VOLMODE"; "ZFS_PROP_FILESYSTEM_LIMIT"; "ZFS_PROP_SNAPSHOT_LIMIT";
     "ZFS_PROP_FILESYSTEM_COUNT"; "ZFS_PROP_SNAPSHOT_COUNT"; "ZFS_PROP_SNAPDEV"; "ZFS_PROP_ACLTYPE";
     "ZFS_PROP_SELINUX_CONTEXT"; "ZFS_PROP_SELINUX_FSCONTEXT"; "ZFS_PROP_SELINUX_DEFCONTEXT";
     "ZFS_PROP_SELINUX_ROOTCONTEXT"; "ZFS_PROP_RELATIME"; "ZFS_PROP_REDUNDANT_METADATA";
     "ZFS_PROP_OVERLAY"; "ZFS_PROP_PREV_SNAP"; "ZFS_PROP_RECEIVE_RESUME_TOKEN";
     "ZFS_PROP_ENCRYPTION"; "ZFS_PROP_KEYLOCATION"; "ZFS_PROP_KEYFORMAT"; "ZFS_PROP_PBKDF2_SALT";
     "ZFS_PROP_PBKDF2_ITERS"; "ZFS_PROP_ENCRYPTION_ROOT"; "ZFS_PROP_KEY_GUID"; "ZFS_PROP_KEYSTATUS";
     "ZFS_PROP_REMAPTXG"; "ZFS_PROP_SPECIAL_SMALL_BLOCKS"; "ZFS_PROP_IVSET_GUID";
     "ZFS_PROP_REDACTED"; "ZFS_PROP_REDACT_SNAPS"; "ZFS_PROP_SNAPSHOTS_CHANGED"; "ZFS_PROP_PREFETCH"] ++
  (if 1500003 <? cst "__FreeBSD_version" then idents [
     "ZFS_PROP_VOLTHREADING"] else []) ++
  (if 1500025 <? cst "__FreeBSD_version" then idents [
     "ZFS_PROP_DIRECT"] else []) ++
  (if 1500029 <? cst "__FreeBSD_version" then idents [
     "ZFS_PROP_LONGNAME"] else []) ++
  (if 1500039 <? cst "__FreeBSD_version" then idents [
     "ZFS_PROP_DEFAULTUSERQUOTA"; "ZFS_PROP_DEFAULTGROUPQUOTA"; "ZFS_PROP_DEFAULTPROJECTQUOTA";
     "ZFS_PROP_DEFAULTUSEROBJQUOTA"; "ZFS_PROP_DEFAULTGROUPOBJQUOTA";
     "ZFS_PROP_DEFAULTPROJECTOBJQUOTA"] else []) ++
  (if 1600015 <? cst "__FreeBSD_version" then idents [
     "ZFS_PROP_SNAPSHOTS_CHANGED_NSECS"] else []) ++
  idents [
     "ZFS_NUM_PROPS"].

Definition zfs_consts4 : list (string * Z) :=
  idents [
     "ZFS_PROP_USERUSED"; "ZFS_PROP_USERQUOTA"; "ZFS_PROP_GROUPUSED"; "ZFS_PROP_GROUPQUOTA";
     "ZFS_PROP_USEROBJUSED"; "ZFS_PROP_USEROBJQUOTA"; "ZFS_PROP_GROUPOBJUSED";
     "ZFS_PROP_GROUPOBJQUOTA"; "ZFS_PROP_PROJECTUSED"; "ZFS_PROP_PROJECTQUOTA";
     "ZFS_PROP_PROJECTOBJUSED"; "ZFS_PROP_PROJECTOBJQUOTA"; "ZFS_NUM_USERQUOTA_PROPS";
     "ZPOOL_PROP_INVAL"; "ZPOOL_PROP_NAME"; "ZPOOL_PROP_SIZE"; "ZPOOL_PROP_CAPACITY";
     "ZPOOL_PROP_ALTROOT"; "ZPOOL_PROP_HEALTH"; "ZPOOL_PROP_GUID"; "ZPOOL_PROP_VERSION";
     "ZPOOL_PROP_BOOTFS"; "ZPOOL_PROP_DELEGATION"; "ZPOOL_PROP_AUTOREPLACE"; "ZPOOL_PROP_CACHEFILE";
     "ZPOOL_PROP_FAILUREMODE"; "ZPOOL_PROP_LISTSNAPS"; "ZPOOL_PROP_AUTOEXPAND";
     "ZPOOL_PROP_DEDUPDITTO"; "ZPOOL_PROP_DEDUPRATIO"; "ZPOOL_PROP_FREE"; "ZPOOL_PROP_ALLOCATED";
     "ZPOOL_PROP_READONLY"; "ZPOOL_PROP_ASHIFT"; "ZPOOL_PROP_COMMENT"; "ZPOOL_PROP_EXPANDSZ";
     "ZPOOL_PROP_FREEING"; "ZPOOL_PROP_FRAGMENTATION"; "ZPOOL_PROP_LEAKED";
     "ZPOOL_PROP_MAXBLOCKSIZE"; "ZPOOL_PROP_TNAME"; "ZPOOL_PROP_MAXDNODESIZE";
     "ZPOOL_PROP_MULTIHOST"; "ZPOOL_PROP_CHECKPOINT"; "ZPOOL_PROP_LOAD_GUID"; "ZPOOL_PROP_AUTOTRIM";
     "ZPOOL_PROP_COMPATIBILITY"; "ZPOOL_PROP_BCLONEUSED"; "ZPOOL_PROP_BCLONESAVED";
     "ZPOOL_PROP_BCLONERATIO"] ++
  (if 1500023 <? cst "__FreeBSD_version" then idents [
     "ZPOOL_PROP_DEDUP_TABLE_SIZE"; "ZPOOL_PROP_DEDUP_TABLE_QUOTA"; "ZPOOL_PROP_DEDUPCACHED"] else []) ++
  (if 1500029 <? cst "__FreeBSD_version" then idents [
     "ZPOOL_PROP_LAST_SCRUBBED_TXG"] else []) ++
  (if 1600013 <? cst "__FreeBSD_version" then idents [
     "ZPOOL_PROP_DEDUPUSED"; "ZPOOL_PROP_DEDUPSAVED"; "ZPOOL_PROP_AVAILABLE"; "ZPOOL_PROP_USABLE";
     "ZPOOL_PROP_USED"; "ZPOOL_PROP_NORMAL_SIZE"; "ZPOOL_PROP_NORMAL_CAPACITY";
     "ZPOOL_PROP_NORMAL_FREE"; "ZPOOL_PROP_NORMAL_ALLOCATED"; "ZPOOL_PROP_NORMAL_AVAILABLE";
     "ZPOOL_PROP_NORMAL_USABLE"; "ZPOOL_PROP_NORMAL_USED"; "ZPOOL_PROP_NORMAL_EXPANDSZ";
     "ZPOOL_PROP_NORMAL_FRAGMENTATION"; "ZPOOL_PROP_SPECIAL_SIZE"; "ZPOOL_PROP_SPECIAL_CAPACITY";
     "ZPOOL_PROP_SPECIAL_FREE"; "ZPOOL_PROP_SPECIAL_ALLOCATED"; "ZPOOL_PROP_SPECIAL_AVAILABLE";
     "ZPOOL_PROP_SPECIAL_USABLE"; "ZPOOL_PROP_SPECIAL_USED"; "ZPOOL_PROP_SPECIAL_EXPANDSZ";
     "ZPOOL_PROP_SPECIAL_FRAGMENTATION"; "ZPOOL_PROP_DEDUP_SIZE"; "ZPOOL_PROP_DEDUP_CAPACITY";
     "ZPOOL_PROP_DEDUP_FREE"; "ZPOOL_PROP_DEDUP_ALLOCATED"; "ZPOOL_PROP_DEDUP_AVAILABLE";
     "ZPOOL_PROP_DEDUP_USABLE"; "ZPOOL_PROP_DEDUP_USED"; "ZPOOL_PROP_DEDUP_EXPANDSZ";
     "ZPOOL_PROP_DEDUP_FRAGMENTATION"; "ZPOOL_PROP_LOG_SIZE"; "ZPOOL_PROP_LOG_CAPACITY";
     "ZPOOL_PROP_LOG_FREE"; "ZPOOL_PROP_LOG_ALLOCATED"; "ZPOOL_PROP_LOG_AVAILABLE";
     "ZPOOL_PROP_LOG_USABLE"; "ZPOOL_PROP_LOG_USED"; "ZPOOL_PROP_LOG_EXPANDSZ";
     "ZPOOL_PROP_LOG_FRAGMENTATION"; "ZPOOL_PROP_ELOG_SIZE"; "ZPOOL_PROP_ELOG_CAPACITY";
     "ZPOOL_PROP_ELOG_FREE"; "ZPOOL_PROP_ELOG_ALLOCATED"; "ZPOOL_PROP_ELOG_AVAILABLE";
     "ZPOOL_PROP_ELOG_USABLE"; "ZPOOL_PROP_ELOG_USED"; "ZPOOL_PROP_ELOG_EXPANDSZ";
     "ZPOOL_PROP_ELOG_FRAGMENTATION"; "ZPOOL_PROP_SELOG_SIZE"; "ZPOOL_PROP_SELOG_CAPACITY";
     "ZPOOL_PROP_SELOG_FREE"; "ZPOOL_PROP_SELOG_ALLOCATED"; "ZPOOL_PROP_SELOG_AVAILABLE";
     "ZPOOL_PROP_SELOG_USABLE"; "ZPOOL_PROP_SELOG_USED"; "ZPOOL_PROP_SELOG_EXPANDSZ";
     "ZPOOL_PROP_SELOG_FRAGMENTATION"] else []) ++
  idents [
     "ZPOOL_NUM_PROPS"].

Definition zfs_consts5 : list (string * Z) :=
  (if 1600013 <? cst "__FreeBSD_version" then idents [
     "ZPOOL_MC_PROP_SIZE"; "ZPOOL_MC_PROP_CAPACITY"; "ZPOOL_MC_PROP_FREE";
     "ZPOOL_MC_PROP_ALLOCATED"; "ZPOOL_MC_PROP_AVAILABLE"; "ZPOOL_MC_PROP_USABLE";
     "ZPOOL_MC_PROP_USED"; "ZPOOL_MC_PROP_EXPANDSZ"; "ZPOOL_MC_PROP_FRAGMENTATION";
     "ZPOOL_NUM_MC_PROPS"; "ZPOOL_MC_PROPS_NORMAL"; "ZPOOL_MC_PROPS_SPECIAL";
     "ZPOOL_MC_PROPS_DEDUP"; "ZPOOL_MC_PROPS_LOG"; "ZPOOL_MC_PROPS_ELOG"; "ZPOOL_MC_PROPS_SELOG"] else []) ++
  idents [
     "ZPROP_MAX_COMMENT"; "ZPROP_BOOLEAN_NA"; "ZPROP_SRC_NONE"; "ZPROP_SRC_DEFAULT";
     "ZPROP_SRC_TEMPORARY"; "ZPROP_SRC_LOCAL"; "ZPROP_SRC_INHERITED"; "ZPROP_SRC_RECEIVED";
     "ZPROP_SRC_ALL"; "ZPROP_ERR_NOCLEAR"; "ZPROP_ERR_NORESTORE"; "ZFS_MAX_DATASET_NAME_LEN";
     "ZFS_ITER_RECURSE"; "ZFS_ITER_ARGS_CAN_BE_PATHS"; "ZFS_ITER_PROP_LISTSNAPS";
     "ZFS_ITER_DEPTH_LIMIT"; "ZFS_ITER_RECVD_PROPS"; "ZFS_ITER_LITERAL_PROPS"; "ZFS_ITER_SIMPLE"].

Definition zfs_consts : list (string * Z) := zfs_consts1 ++ zfs_consts2 ++ zfs_consts3 ++ zfs_consts4 ++ zfs_consts5.

Definition luaopen_zfs (L : nat) : prog Z :=
  lua_getglobal L "require";;
  lua_pushstring L "nvpair";;
  lua_call0 L 1;;
  register_types L zfs_types;;
  luaL_newlib L l_zfs_funcs;;
  define_all L zfs_consts;;
  define_string L "ZPROP_VALUE" (scst "ZPROP_VALUE");;
  define_string L "ZPROP_SOURCE" (scst "ZPROP_SOURCE");;
  mret 1.
End zfs.
