(* ===== verification/ZfsIterProps.v ===== *)
(** * What the callbacks of the [zfs] module get, and its numbers of properties

    The callback copies its arguments from one slot too high: it passes the handle, the
    script's arguments without the first, and the function itself ([iter_children_calls]).
    The functions that remove several arguments from the stack first remove the wrong ones,
    and call a number instead of the function ([iter_snapshots_calls_number]).

    [zfs.prop] gives the number of a property.  The functions that take a property first test
    for a string, and a number is one for that test: it is looked up as a name
    ([prop_number_lost]). *)

From Stdlib Require Import Ascii.
From stdpp Require Import pretty.
From S2P Require Import Prelude LuaApi Machine Capi Samples Utils Modules Cmem Wrapper Nvpair ZfsBase Libzfs.
From S2P Require Import ZfsIter.

Section run.
Context `{LuaSem} {S : Type} `{Libc S} (C : clib S).
Implicit Types (w : world S lstate) (L : nat) (q vs : list value) (h : heap).
Abbreviation rn := (run (documented C)).

(** the value [k] slots below the top *)
Lemma at_neg vs k x : vs !! k = Some x -> at_ vs (- Z.of_nat (1 + k)) = Val x.
Proof.
  intros Hx. pose proof (lookup_lt_Some _ _ _ Hx). unfold at_, pos.
  replace (- Z.of_nat (1 + k)) with (Zneg (Pos.of_succ_nat k)) by lia.
  rewrite SuccNat2Pos.id_succ, (proj2 (Nat.leb_le _ _)) by lia. cbn [pred]. by rewrite Hx.
Qed.

(** copying the value at a fixed distance from the top, again and again *)
Lemma run_push_copies L k : forall m i q n h w,
  (m <= k)%nat -> (k < length q)%nat ->
  rn (for_ m i (fun _ => lua_pushvalue L (- Z.of_nat (1 + k)))) (put L (LS (rev q) (m + n) h) w) =
  (Ok tt, put L (LS (rev (q ++ take m (drop (length q - 1 - k) q))) n h) w).
Proof.
  induction m as [|m IH]; intros i q n h w Hm Hk; [cbn [take]; by rewrite app_nil_r|].
  set (j := (length q - 1 - k)%nat). destruct (lookup_lt_is_Some_2 q j ltac:(lia)) as [x Hx].
  pose proof (take_drop_middle q j x Hx) as Hq.
  assert (Hlen : length (drop (Datatypes.S j) q) = k) by (rewrite length_drop; lia).
  assert (Ha : at_ (rev q) (- Z.of_nat (1 + k)) = Val x).
  { apply at_neg. rewrite <- Hq, rev_app_distr. cbn [rev]. rewrite <- app_assoc.
    apply list_lookup_middle. by rewrite length_rev. }
  cbn [for_]. rewrite run_bind, run_lua. cbn [doc]. unfold at_value. cbn [stk]. rewrite Ha.
  unfold push. cbn [room Nat.add stk hp andthen]. change (x :: rev q) with (rev [x] ++ rev q). rewrite <- rev_app_distr.
  rewrite (IH (i + 1) (q ++ [x])) by (rewrite ?length_app; cbn; lia). do 4 f_equal.
  rewrite <- app_assoc. f_equal.
  replace (length (q ++ [x]) - 1 - k)%nat with (Datatypes.S j) by (rewrite length_app; cbn; lia).
  rewrite drop_app_le by lia. rewrite take_app_le by lia. rewrite (drop_S q x j Hx). done.
Qed.

(** what the callback passes on: the script's arguments without the first, then the function *)
Definition shifted (cb : value) (extras : list value) : list value :=
  match extras with [] => [] | _ :: rest => rest ++ [cb] end.

(** a callback of the library calls [cb] ... *)
Lemma run_iter_cb L mt m u cb extras z n h w ok rs k h' w' :
  let args := u :: cb :: extras in
  reg_get (inl mt) h = VTab m ->
  c_fn C L cb (VUd (fresh h) :: shifted cb extras) (put L (LS (rev args) (3 + length extras + n) (alloc_handle m z h)) w) =
    (Ok (ok, rs), put L (LS (rev args) (2 + k) h') w') ->
  (ok = false -> length rs = 1%nat) ->
  rn (iter_cb L mt z) (put L (LS (rev args) (3 + length extras + n) h) w) =
  (Ok (if ok then 0 else -1),
   put L (if ok then LS (rev args) (2 + k) h' else LS (rev (args ++ VNil :: rs)) k h') w').
Proof.
  cbv zeta. intros Hm Hf Hrs. set (args := u :: cb :: extras). unfold iter_cb.
  rewrite run_bind, run_lua. cbn [doc andthen stk].
  assert (Hlen : Z.of_nat (length (rev args)) - 1 = Z.of_nat (1 + length extras)) by (rewrite length_rev; cbn [args length]; lia).
  cbv zeta. rewrite Hlen. rewrite run_bind, run_lua.
  assert (Ha : at_ (rev args) (- Z.of_nat (1 + length extras)) = Val cb).
  { apply at_neg. unfold args. cbn [rev]. rewrite <- app_assoc. apply list_lookup_middle. by rewrite length_rev. }
  cbn [doc]. unfold at_value. cbn [stk]. rewrite Ha. unfold push. cbn [room Nat.add stk hp andthen].
  rewrite run_bind. replace (Datatypes.S (Datatypes.S (length extras + n))) with (2 + (length extras + n))%nat by lia.
  rewrite (run_new C L z mt m) by done. cbn [andthen].
  change (VUd (fresh h) :: cb :: rev args) with (rev [cb; VUd (fresh h)] ++ rev args). rewrite <- rev_app_distr.
  assert (Hz : Z.to_nat (Z.of_nat (Datatypes.S (length extras)) - 1) = length extras) by lia. rewrite Hz.
  set (q := args ++ [cb; VUd (fresh h)]).
  assert (Hq : q ++ take (length extras) (drop (length q - 1 - length extras) q) =
    args ++ cb :: VUd (fresh h) :: shifted cb extras).
  { unfold q, args. rewrite length_app. cbn [length].
    replace (Datatypes.S (Datatypes.S (length extras)) + 2 - 1 - length extras)%nat with 3%nat by lia.
    cbn [app drop]. rewrite <- app_assoc. cbn [app]. do 3 f_equal.
    destruct extras as [|e extras]; [done|]. cbn [drop app shifted length]. do 2 f_equal.
    rewrite drop_0. change [cb; VUd (fresh h)] with ([cb] ++ [VUd (fresh h)]). rewrite app_assoc.
    by apply take_app_length'; rewrite length_app; cbn; lia. }
  rewrite run_bind. replace (1 + (length extras + n))%nat with (length extras + (1 + n))%nat by lia.
  change (Datatypes.S (length extras)) with (1 + length extras)%nat.
  rewrite (run_push_copies L (length extras)) by (unfold q, args; rewrite ?length_app; cbn; lia).
  rewrite Hq. cbn [andthen].
  assert (Hl : length (VUd (fresh h) :: shifted cb extras) = (1 + length extras)%nat).
  { destruct extras; [done|]. cbn [shifted length]. rewrite length_app. cbn. lia. }
  assert (Hs : rev (args ++ cb :: VUd (fresh h) :: shifted cb extras) =
    rev (VUd (fresh h) :: shifted cb extras) ++ cb :: rev args).
  { rewrite rev_app_distr. cbn [rev]. by rewrite <- !app_assoc. }
  rewrite Hs, <- Hl, run_bind.
  rewrite (run_pcall_none C L cb (VUd (fresh h) :: shifted cb extras) (rev args) (1 + n) (alloc_handle m z h) w ok rs (2 + k) h' w').
  2:{ rewrite Hl. replace (1 + n + Datatypes.S (1 + length extras))%nat with (3 + length extras + n)%nat by lia. exact Hf. }
  cbn [andthen]. destruct ok; cbn [negb]; [by rewrite Nat.sub_0_r|].
  specialize (Hrs eq_refl). destruct rs as [|r [|]]; try done. cbn [rev app length].
  replace (2 + k - 1)%nat with (1 + k)%nat by lia.
  lua_run.
  rewrite rev_app_distr. done.
Qed.

(** ** A conversation over a list of handles *)

(** the library's [i]th reply when it calls back for the handles [zs] and then succeeds *)
Definition reply (zs : list Z) (i : nat) : cret :=
  match zs !! i with Some z => Cret 1 [AZ z] | None => Cret 0 [AZ 0] end.

(** the states of the world: [w0 i] when the library replies for the [i]th time, [w1 i] when the
    function has returned; [h i] is the heap then *)
Record converses (L : nat) (f : string) (m : nat) (cb : value) (args extras : list value) (zs : list Z) (n : nat)
  (h : nat -> heap) (w0 w1 : nat -> world S lstate) : Prop := {
  cv_meta : forall i, (i < length zs)%nat -> reg_get (inl ZFS_HANDLE_METATABLE) (h i) = VTab m;
  cv_cb : forall i z, zs !! i = Some z -> exists rs,
    c_fn C L cb (VUd (fresh (h i)) :: shifted cb extras)
      (put L (LS (rev args) (3 + length extras + n) (alloc_handle m z (h i))) (w0 i)) =
    (Ok (true, rs), put L (LS (rev args) (3 + length extras + n) (h (1 + i)%nat)) (w1 i));
  cv_resume : forall i st, (i < length zs)%nat ->
    c_call C (f +:+ ".resume") [AZ 0] (put L st (w1 i)) = (Ok (reply zs (1 + i)), put L st (w0 (1 + i)%nat)) }.

Lemma run_iterate L f m u cb extras zs n (h : nat -> heap) (w0 w1 : nat -> world S lstate) : forall k i fuel,
  let args := u :: cb :: extras in
  converses L f m cb args extras zs n h w0 w1 -> (i + k = length zs)%nat -> (k < fuel)%nat ->
  rn (iterate fuel f (zfs_iter_cb L) (reply zs i)) (put L (LS (rev args) (3 + length extras + n) (h i)) (w0 i)) =
  (Ok (Cret 0 [AZ 0]), put L (LS (rev args) (3 + length extras + n) (h (length zs))) (w0 (length zs))).
Proof.
  cbv zeta. induction k as [|k IH]; intros i fuel Hc Hi Hfuel; (destruct fuel as [|fuel]; [lia|]); cbn [iterate].
  - replace i with (length zs) by lia. unfold reply. by rewrite lookup_ge_None_2.
  - destruct (lookup_lt_is_Some_2 zs i ltac:(lia)) as [z Hz]. 
    assert (Hr : reply zs i = Cret 1 [AZ z]) by (unfold reply; by rewrite Hz). rewrite Hr. cbn [rc Z.eqb].
    change (out_int 0 (Cret 1 [AZ z])) with z.
    destruct (cv_cb _ _ _ _ _ _ _ _ _ _ _ Hc i z Hz) as [rs Hf].
    rewrite run_bind. unfold zfs_iter_cb.
    rewrite (run_iter_cb L ZFS_HANDLE_METATABLE m u cb extras z n (h i) (w0 i) true rs (1 + length extras + n) (h (1 + i)%nat) (w1 i));
      [|by apply (cv_meta _ _ _ _ _ _ _ _ _ _ _ Hc); lia|exact Hf|done].
    cbn [andthen]. rewrite run_bind, run_call, (cv_resume _ _ _ _ _ _ _ _ _ _ _ Hc) by lia. cbn [andthen].
    apply IH; [done|lia|lia].
Qed.

(** C31. When libzfs calls back for the datasets below one, the function is called for each of them in
    order, and [true] is returned; it gets a handle on the dataset, the script's further arguments
    without the first, and itself.  As many rounds as there are datasets, and one, are enough. *)
Theorem iter_children_calls L fuel m u cb extras zs n p (h : nat -> heap) w (w0 w1 : nat -> world S lstate) :
  let args := VUd u :: cb :: extras in
  handle (rev args) (h 0%nat) 1 ZFS_HANDLE_METATABLE p -> p ≠ 0 -> type_of cb = TFUNCTION ->
  (3 + length extras + n = 20)%nat -> (length zs < fuel)%nat ->
  (forall st, c_call C "zfs_iter_children" [AZ p] (put L st w) = (Ok (reply zs 0), put L st (w0 0%nat))) ->
  converses L "zfs_iter_children" m cb args extras zs n h w0 w1 ->
  executes C L (l_zfs_iter_children fuel) args (h 0%nat) w (Ok [VInt 1]) (put L (idle (h (length zs))) (w0 (length zs))).
Proof.
  cbv zeta. intros Hh Hp Hcb Hroom Hfuel Hc Hconv. set (args := VUd u :: cb :: extras) in *.
  apply (executes_return C L _ _ _ _ [VInt 1] (rev args) 19). unfold l_zfs_iter_children, frame, LUA_MINSTACK.
  rewrite run_bind, run_lua. cbn [doc andthen stk]. rewrite run_bind. unfold checkzfs.
  change 20%nat with (1 + 19)%nat at 1. rewrite (run_checkcookie C L 1 ZFS_HANDLE_METATABLE p) by done. cbn [andthen].
  change (1 + 19)%nat with 20%nat. rewrite run_bind. unfold lua_is. rewrite run_bind, run_lua. cbn [doc]. unfold doc_type, at_index.
  cbn [stk]. rewrite at_rev by done. change (Z.to_nat (2 - 1)) with 1%nat. cbn [args lookup list_lookup andthen].
  rewrite run_ret. cbn [andthen]. rewrite Hcb. change (is_type TFUNCTION TFUNCTION) with true.
  rewrite run_bind, run_argcheck_true. cbn [andthen]. unfold call_iter. rewrite run_bind, run_bind, run_call, Hc. cbn [andthen].
  replace 20%nat with (3 + length extras + n)%nat at 1 by lia.
  pose proof (run_iterate L "zfs_iter_children" m (VUd u) cb extras zs n h w0 w1 (length zs) 0 fuel Hconv eq_refl Hfuel) as Hi.
  cbv zeta in Hi. fold args in Hi. rewrite Hi. cbn [andthen]. unfold iter_results.
  change (out_int 0 (Cret 0 [AZ 0])) with 0. cbn [Z.eqb negb]. replace (3 + length extras + n)%nat with (1 + 19)%nat by lia.
  by rewrite (run_success C).
Qed.

(** [lua_remove] of a positive index *)
Lemma run_remove L (i : nat) q n h w :
  (0 < i)%nat ->
  rn (lua_remove L (Z.of_nat i)) (put L (LS (rev q) n h) w) =
  if (i <=? length q)%nat then (Ok tt, put L (LS (rev (delete (i - 1)%nat q)) (Datatypes.S n) h) w)
  else (Halt (UB "Lua API misuse"), put L (LS (rev q) n h) w).
Proof.
  intros Hi. rewrite run_lua. cbn [doc]. unfold doc_remove, pos. cbn [stk].
  replace (Z.of_nat i) with (Zpos (Pos.of_nat i)) by lia. rewrite Nat2Pos.id, length_rev by lia.
  destruct (Nat.leb_spec i (length q)) as [Hle|Hle]; [|done].
  destruct (lookup_lt_is_Some_2 q (i - 1) ltac:(lia)) as [x Hx].
  pose proof (take_drop_middle q (i - 1) x Hx) as Hq. replace (Datatypes.S (i - 1)) with i in Hq by lia.
  assert (Hr : rev q = rev (drop i q) ++ x :: rev (take (i - 1) q)).
  { rewrite <- Hq at 1. rewrite rev_app_distr. cbn [rev]. by rewrite <- app_assoc. }
  assert (Hl : length (rev (drop i q)) = (length q - i)%nat) by (rewrite length_rev, length_drop; done).
  rewrite Hr, <- Hl, take_app_length, <- (app_assoc _ [x]) || rewrite Hr, <- Hl, take_app_length.
  rewrite (cons_middle x), app_assoc, drop_app_length' by (rewrite length_app; cbn; lia).
  cbn [room hp]. do 3 f_equal. rewrite delete_take_drop. replace (Datatypes.S (i - 1)) with i by lia. by rewrite rev_app_distr.
Qed.

(** the prologue of [l_zfs_iter_snapshots], up to the removal of the arguments *)
Lemma run_snapshots_args L fuel u simple a b cb extras p h w :
  let args := VUd u :: simple :: VInt a :: VInt b :: cb :: extras in
  handle (rev args) h 1 ZFS_HANDLE_METATABLE p -> p ≠ 0 -> type_of cb = TFUNCTION ->
  rn (l_zfs_iter_snapshots fuel L) (put L (frame args h) w) =
  rn (lua_remove L 2;; lua_remove L 3;; lua_remove L 4;;
      top ← lua_gettop L;
      error ← call_iter fuel "zfs_iter_snapshots"
        [AZ p; AZ (Z_of_bool (truthy simple)); AZ (to_size a); AZ (to_size b)] (zfs_iter_cb L);
      iter_results L top (out_int 0 error) "zfs_iter_snapshots failed") (put L (LS (rev args) 20 h) w).
Proof.
  cbv zeta. intros Hh Hp Hcb. set (args := VUd u :: simple :: VInt a :: VInt b :: cb :: extras) in *.
  unfold l_zfs_iter_snapshots, frame, LUA_MINSTACK, checkzfs. rewrite run_bind.
  change 20%nat with (1 + 19)%nat at 1. rewrite (run_checkcookie C L 1 ZFS_HANDLE_METATABLE p) by done. cbn [andthen].
  change (1 + 19)%nat with 20%nat. rewrite run_bind, run_lua. cbn [doc]. unfold doc_toboolean, at_index. cbn [stk].
  rewrite at_rev by done. change (args !! Z.to_nat (2 - 1)) with (Some simple). cbn [andthen].
  rewrite run_bind. rewrite (run_optinteger C L args 3) by done.
  change (args !! Z.to_nat (3 - 1)) with (Some (VInt a)). cbn [andthen].
  rewrite run_bind. rewrite (run_optinteger C L args 4) by done.
  change (args !! Z.to_nat (4 - 1)) with (Some (VInt b)). cbn [andthen].
  rewrite run_bind. unfold lua_is. rewrite run_bind, run_lua. cbn [doc]. unfold doc_type, at_index. cbn [stk].
  rewrite !at_rev by done. change (args !! Z.to_nat (5 - 1)) with (Some cb). cbn [andthen].
  rewrite run_ret. cbn [andthen]. rewrite Hcb. change (is_type TFUNCTION TFUNCTION) with true.
  by rewrite run_bind, run_argcheck_true.
Qed.

(** [iter_snapshots] never calls the function of the script.  Removing the arguments in ascending
    order removes the wrong ones: without further arguments it misuses the API; with some, what libzfs's
    first callback calls is the lower bound of the transaction groups, which is an error, so that nil and
    the message of that error are all the script gets. *)
Theorem iter_snapshots_calls_number L fuel u simple a b cb extras p h w :
  let args := VUd u :: simple :: VInt a :: VInt b :: cb :: extras in
  handle (rev args) h 1 ZFS_HANDLE_METATABLE p -> p ≠ 0 -> type_of cb = TFUNCTION ->
  (extras = [] -> (rn (l_zfs_iter_snapshots fuel L) (put L (frame args h) w)).1 = Halt (UB "Lua API misuse")) /\
  (forall e rest m msg z err w1 w2, extras = e :: rest -> (length rest <= 19)%nat -> (2 <= fuel)%nat ->
    reg_get (inl ZFS_HANDLE_METATABLE) h = VTab m ->
    (forall vs st w, c_fn C L (VInt a) vs (put L st w) = (Ok (false, [VStr msg]), put L st w)) ->
    (forall st, c_call C "zfs_iter_snapshots" [AZ p; AZ (Z_of_bool (truthy simple)); AZ (to_size a); AZ (to_size b)]
       (put L st w) = (Ok (Cret 1 [AZ z]), put L st w1)) ->
    (forall st, c_call C "zfs_iter_snapshots.resume" [AZ (-1)] (put L st w1) = (Ok (Cret 0 [AZ err]), put L st w2)) ->
    err ≠ 0 ->
    executes C L (l_zfs_iter_snapshots fuel) args h w (Ok [VNil; VStr msg]) (put L (idle (alloc_handle m z h)) w2)).
Proof.
  cbv zeta. intros Hh Hp Hcb. set (args := VUd u :: simple :: VInt a :: VInt b :: cb :: extras).
  pose proof (run_snapshots_args L fuel u simple a b cb extras p h w Hh Hp Hcb) as Hrun. cbv zeta in Hrun. fold args in Hrun.
  assert (H3 : forall {A} (k : prog A), rn (lua_remove L 2;; lua_remove L 3;; lua_remove L 4;; k) (put L (LS (rev args) 20 h) w) =
    match extras with
    | [] => (Halt (UB "Lua API misuse"), put L (LS (rev [VUd u; VInt a; cb]) 22 h) w)
    | e :: rest => rn k (put L (LS (rev (VUd u :: VInt a :: cb :: rest)) 23 h) w)
    end).
  { intros A k. rewrite run_bind, (run_remove L 2) by lia. cbn [args length Nat.leb Nat.sub delete list_delete andthen].
    rewrite run_bind, (run_remove L 3) by lia. cbn [length Nat.leb Nat.sub delete list_delete andthen].
    rewrite run_bind, (run_remove L 4) by lia. by destruct extras. }
  split.
  - intros ->. by rewrite Hrun, H3.
  - intros e rest m msg z err w1 w2 -> Hlen Hfuel Hm Hfn Hc Hr He.
    destruct fuel as [|[|fuel]]; [lia|lia|].
    apply (executes_return C L _ _ _ _ [VNil; VStr msg] (rev (VUd u :: VInt a :: cb :: rest)) (21 : nat)).
    rewrite Hrun, H3. rewrite run_bind, run_lua. cbn [doc andthen stk]. unfold call_iter. rewrite run_bind, run_bind, run_call, Hc.
    cbn [andthen]. cbn [iterate rc Z.eqb]. change (out_int 0 (Cret 1 [AZ z])) with z. rewrite run_bind.
    unfold zfs_iter_cb at 1. replace 23%nat with (3 + length (cb :: rest) + (19 - length rest))%nat by (cbn [length]; lia).
    rewrite (run_iter_cb L ZFS_HANDLE_METATABLE m (VUd u) (VInt a) (cb :: rest) z (19 - length rest) h w1 false [VStr msg] 21
      (alloc_handle m z h) w1); [|done| |done].
    2:{ replace (3 + length (cb :: rest) + (19 - length rest))%nat with 23%nat by (cbn [length]; lia). apply Hfn. }
    cbn [andthen]. rewrite run_bind, run_call. change ("zfs_iter_snapshots" +:+ ".resume") with "zfs_iter_snapshots.resume".
    rewrite Hr. cbn [andthen rc Z.eqb]. rewrite run_ret. cbn [andthen]. unfold iter_results.
    change (out_int 0 (Cret 0 [AZ err])) with err. rewrite (proj2 (Z.eqb_neq err 0)) by done. cbn [negb].
    rewrite run_bind, run_lua. cbn [doc andthen stk]. rewrite !length_rev, length_app. cbn [length].
    replace (Z.of_nat (Datatypes.S (Datatypes.S (Datatypes.S (length rest))) + 2) -
      Z.of_nat (Datatypes.S (Datatypes.S (Datatypes.S (length rest))))) with 2 by lia. cbn [Z.ltb Z.compare].
    rewrite run_ret. by rewrite rev_app_distr.
Qed.
End run.

(** ** Witnesses *)

(** a library with two datasets, whose state is the number of callbacks so far; calling anything but
    a function is an error *)
Definition two : list Z := [7000; 8000].
Definition iter_clib : clib Z := {|
  c_call := fun f args w =>
    if String.eqb f "zfs_iter_children" || String.eqb f "zfs_iter_snapshots" then (Ok (reply two 0), set_x 0 w)
    else match args with
         | [AZ 0] => (Ok (reply two (Z.to_nat (wx w + 1))), set_x (wx w + 1) w)
         | _ => (Ok (Cret 0 [AZ (-1)]), w)
         end;
  c_fn := fun _ f _ w =>
    match f with
    | VFun _ => (Ok (true, []), w)
    | _ => (Ok (false, [VStr "attempt to call a number value"]), w)
    end |}.

Definition zfs_heap (n : nat) : heap :=
  let h := sample_heap ZFS_HANDLE_METATABLE [VLud 4000] 0 in
  match n with 0%nat => h | 1%nat => alloc_handle 1 7000 h | _ => alloc_handle 1 8000 (alloc_handle 1 7000 h) end.
Definition iter_world (i : nat) : world Z lstate := set_x (Z.of_nat i) (sample_world ∅).

Lemma iter_children_calls_witness :
  executes iter_clib 0 (l_zfs_iter_children 5) [VUd 2; VFun 3; VStr "x"; VStr "y"] (zfs_heap 0) (sample_world ∅)
    (Ok [VInt 1]) (put 0%nat (idle (zfs_heap 2)) (iter_world 2)).
Proof.
  apply (iter_children_calls iter_clib 0 5 1 2 (VFun 3) [VStr "x"; VStr "y"] two 15 4000 zfs_heap (sample_world ∅)
    iter_world iter_world); [eexists _, _; split; [vm_compute; reflexivity|reflexivity]|done|done|done|cbn; lia|reflexivity|].
  split.
  - intros [|[|i]] Hi; [reflexivity|reflexivity|cbn in Hi; lia].
  - intros [|[|i]] z Hz; [| |done]; injection Hz as <-; exists []; reflexivity.
  - intros [|[|i]] st Hi; [reflexivity|reflexivity|cbn in Hi; lia].
Defined.

Lemma iter_snapshots_calls_number_witness :
  (run (documented iter_clib) (l_zfs_iter_snapshots 5 0)
    (put 0%nat (frame [VUd 2; VBool true; VInt 3; VInt 9; VFun 3] (zfs_heap 0)) (sample_world ∅))).1 =
    Halt (UB "Lua API misuse") /\
  executes iter_clib 0 (l_zfs_iter_snapshots 5) [VUd 2; VBool true; VInt 3; VInt 9; VFun 3; VStr "x"] (zfs_heap 0)
    (sample_world ∅) (Ok [VNil; VStr "attempt to call a number value"]) (put 0%nat (idle (zfs_heap 1)) (sample_world ∅)).
Proof.
  split.
  - refine (proj1 (iter_snapshots_calls_number iter_clib 0 5 2 (VBool true) 3 9 (VFun 3) [] 4000 (zfs_heap 0) (sample_world ∅)
      _ _ _) eq_refl); [eexists _, _; split; [vm_compute; reflexivity|reflexivity]|done|done].
  - refine (proj2 (iter_snapshots_calls_number iter_clib 0 5 2 (VBool true) 3 9 (VFun 3) [VStr "x"] 4000 (zfs_heap 0)
      (sample_world ∅) _ _ _) (VStr "x") [] 1%nat "attempt to call a number value" 7000 (-1) (sample_world ∅) (sample_world ∅)
      eq_refl _ _ _ _ _ _ _);
      [eexists _, _; split; [vm_compute; reflexivity|reflexivity]|done|done|cbn; lia|lia|reflexivity|reflexivity
      |reflexivity|reflexivity|done].
Defined.

Section props.
Context `{LuaSem} `{Consts} {S : Type} `{Libc S} (C : clib S) (lib : library S).
Implicit Types (w : world S lstate) (L : nat) (vs : list value) (h : heap).
Abbreviation rn := (run (documented C)).

(** what [checkprop] does with a number *)
Lemma run_checkprop_int L vs i z n h w :
  0 < i -> vs !! Z.to_nat (i - 1) = Some (VInt z) -> external C ["zfs_name_to_prop"] lib ->
  exists st w', rn (checkprop L i) (put L (LS (rev vs) n h) w) =
    (Ok (rc (lib "zfs_name_to_prop" [AS (cstr (pretty z))] (wx w)).1), put L st w').
Proof.
  intros Hi Hv He. unfold checkprop, lua_isstring, lua_tostring.
  assert (Hat : at_ (rev vs) i = Val (VInt z)) by (rewrite at_rev by done; by rewrite Hv).
  assert (Hp : exists k, pos (rev vs) i = Some k).
  { unfold at_ in Hat. destruct (pos (rev vs) i) as [k|] eqn:Hk; [by exists k|]. by destruct (0 <? i). }
  destruct Hp as [k Hk].
  rewrite run_bind, run_bind, run_lua. cbn [doc]. unfold doc_type, at_index. cbn [stk]. rewrite Hat. cbn [andthen].
  rewrite run_ret. cbn [andthen type_of]. change (is_type TNUMBER TSTRING || is_type TNUMBER TNUMBER) with true. cbn [orb].
  rewrite run_bind, run_bind, run_lua. cbn [doc]. unfold doc_tolstring, at_index. cbn [stk]. rewrite Hat. cbv beta iota. cbn [stk room hp]. rewrite Hk. cbn [andthen].
  rewrite run_ret. cbn [andthen]. rewrite run_bind, (run_external C ["zfs_name_to_prop"] lib) by (done || by left).
  cbn [andthen]. rewrite run_ret. by eexists _, _.
Qed.

(** The number [zfs.prop] gives for a property does not stand for that property when it is passed to
    the functions that take one: the number is looked up as if it were a name, which no property has. *)
Theorem prop_number_lost L name p h w :
  external C ["zfs_name_to_prop"] lib ->
  rc (lib "zfs_name_to_prop" [AS (cstr name)] (wx w)).1 = p -> p ≠ cst "ZPROP_INVAL" ->
  (forall z s, rc (lib "zfs_name_to_prop" [AS (cstr (pretty (z : Z)))] s).1 = cst "ZPROP_INVAL") ->
  (exists s, executes C L l_zfs_name_to_prop [VStr name] h w (Ok [VInt p]) (put L (idle h) (set_x s w))) /\
  (forall vs i n w', 0 < i -> vs !! Z.to_nat (i - 1) = Some (VInt p) ->
    (rn (checkprop L i) (put L (LS (rev vs) n h) w')).1 = Ok (cst "ZPROP_INVAL")).
Proof.
  intros He Hp Hne Hnum. split.
  - eexists. apply (executes_return C L _ _ _ _ [VInt p] [VStr name] 19).
    unfold l_zfs_name_to_prop, luaL_checkstring, frame, LUA_MINSTACK. rewrite run_bind, run_bind, run_lua. doc_eval.
    rewrite run_ret. cbn [andthen]. rewrite run_bind, (run_external C ["zfs_name_to_prop"] lib) by (done || by left).
    cbn [andthen]. rewrite Hp, (proj2 (Z.eqb_neq p _)) by done. lua_run. done.
  - intros vs i n w' Hi Hv. destruct (run_checkprop_int L vs i p n h w' Hi Hv He) as (st & w2 & ->). cbn. by rewrite Hnum.
Qed.
End props.

(** a library with one property, whose number is 7 *)
Definition prop_consts : Consts := fun _ => -1.
Definition prop_lib : library Z := fun _ args s =>
  (Cret match args with [AS x] => if String.eqb x "name" then 7 else -1 | _ => -1 end [], s).
Definition prop_clib : clib Z := {|
  c_call := fun f args w => (Ok (prop_lib f args (wx w)).1, w); c_fn := fun _ _ args w => (Ok (true, args), w) |}.

(** a numeral starts with a digit or a minus sign *)
Lemma pretty_N_go_letter x : forall s, (forall s', s ≠ String "n"%char s') -> forall s', pretty_N_go x s ≠ String "n"%char s'.
Proof.
  induction (N.lt_wf_0 x) as [x _ IH]; intros s Hs.
  destruct (decide (x = 0)%N) as [->|Hx]; [done|].
  rewrite pretty_N_go_step by lia. apply IH; [apply N.div_lt; lia|].
  intros s'. unfold pretty_N_char. by repeat case_match.
Qed.

Lemma pretty_letter (z : Z) s : pretty z ≠ String "n"%char s.
Proof.
  destruct z as [|x|x]; [done| |done]. change (pretty (Z.pos x)) with (pretty (N.pos x)). unfold pretty, pretty_N.
  rewrite decide_False by done. by apply pretty_N_go_letter.
Qed.

Lemma pretty_not_name (z : Z) : cstr (pretty z) ≠ "name".
Proof.
  pose proof (pretty_letter z) as Hl. destruct (pretty z) as [|c s]; [done|]. cbn [cstr].
  destruct (Ascii.eqb c NUL); [done|]. intros [= -> _]. by apply (Hl s).
Qed.

Lemma prop_lib_numeral (z s : Z) : rc (prop_lib "zfs_name_to_prop" [AS (cstr (pretty z))] s).1 = -1.
Proof.
  unfold prop_lib. cbn [fst rc]. destruct (String.eqb_spec (cstr (pretty z)) "name") as [E|]; [|done].
  by apply pretty_not_name in E.
Qed.

Lemma prop_number_lost_witness :
  (exists s, executes prop_clib 0 (@l_zfs_name_to_prop prop_consts) [VStr "name"] (sample_heap "T" [] 0) (sample_world ∅) (Ok [VInt 7])
    (put 0%nat (idle (sample_heap "T" [] 0)) (set_x s (sample_world ∅)))) /\
  (forall vs i n w', 0 < i -> vs !! Z.to_nat (i - 1) = Some (VInt 7) ->
    (run (documented prop_clib) (@checkprop prop_consts 0 i) (put 0%nat (LS (rev vs) n (sample_heap "T" [] 0)) w')).1 = Ok (-1)).
Proof.
  apply (@prop_number_lost _ prop_consts Z _ prop_clib prop_lib 0 "name" 7 (sample_heap "T" [] 0) (sample_world ∅));
    [by intros f a w _; destruct w|reflexivity|done|exact prop_lib_numeral].
Defined.
