(* ===== verification/Extattr.v ===== *)
(** * lua_extattr.c: extended attributes of files

    Values and lists of names are read with a buffer that grows until the answer fits
    ([attr_read]: the loop the eight functions share); [pushlist] takes a list of names
    apart, each of which has its length in front.  The other functions are one call
    ([extattr_wrappers]). *)

From Stdlib Require Import Ascii.
From S2P Require Import Prelude LuaApi Machine Capi Utils Modules Cmem Uio Wrapper.

Section extattr.
Context `{Consts}.

Definition l_extattr_delete (L : nat) : prog Z :=
  s ← luaL_checkudata L 1 LUA_FILEHANDLE;
  attrnamespace ← luaL_checkinteger L 2;
  attrname ← luaL_checkstring L 3;
  with_fileno L s (fun fd =>
    r ← call "extattr_delete_fd" [AZ fd; AZ (to_int attrnamespace); AS attrname];
    or_fail L r (success L)).

Definition l_extattr_delete_fd (L : nat) : prog Z :=
  fd ← luaL_checkinteger L 1;
  attrnamespace ← luaL_checkinteger L 2;
  attrname ← luaL_checkstring L 3;
  r ← call "extattr_delete_fd" [AZ (to_int fd); AZ (to_int attrnamespace); AS attrname];
  if rc r =? -1 then
    e ← errno;
    fail L e
  else
    success L.

Definition l_extattr_delete_file (L : nat) : prog Z :=
  path ← luaL_checkstring L 1;
  attrnamespace ← luaL_checkinteger L 2;
  attrname ← luaL_checkstring L 3;
  r ← call "extattr_delete_file" [AS path; AZ (to_int attrnamespace); AS attrname];
  if rc r =? -1 then
    e ← errno;
    fail L e
  else
    success L.

Definition l_extattr_delete_link (L : nat) : prog Z :=
  path ← luaL_checkstring L 1;
  attrnamespace ← luaL_checkinteger L 2;
  attrname ← luaL_checkstring L 3;
  r ← call "extattr_delete_link" [AS path; AZ (to_int attrnamespace); AS attrname];
  if rc r =? -1 then
    e ← errno;
    fail L e
  else
    success L.

(** ** Reading *)

Section fuel.
Context (fuel : nat).

(** the loop; [data] is the buffer, of [datalen] bytes *)
Fixpoint attr_read (fuel : nat) (L : nat) (f : string) (args : list carg) (data datalen : Z)
  (k : Z -> Z -> prog Z) : prog Z :=
  match fuel with
  | O => halts (EHalt Diverge)
  | S fuel =>
      getlen ← call f (args ++ [AZ data; AZ datalen]);
      if rc getlen =? -1 then
        error ← errno;
        free data;;
        fail L error
      else if rc getlen <=? datalen then k data (rc getlen)
      else
        free data;;
        let datalen := rc getlen * 2 in
        data ← malloc (to_size datalen) (OBuf datalen "");
        if data =? 0 then fatal L "malloc" (cst "ENOMEM")
        else attr_read fuel L f args data datalen k
  end.

(** [lua_pushlstring] of the answer and the end of [l_extattr_get] *)
Definition get_done (L : nat) (data getlen : Z) : prog Z :=
  push_bytes L data getlen;;
  free data;;
  mret 1.

Definition l_extattr_get (L : nat) : prog Z :=
  s ← luaL_checkudata L 1 LUA_FILEHANDLE;
  attrnamespace ← luaL_checkinteger L 2;
  attrname ← luaL_checkstring L 3;
  with_fileno L s (fun fd =>
    attr_read fuel L "extattr_get_fd" [AZ fd; AZ (to_int attrnamespace); AS attrname] 0 0 (get_done L)).

Definition l_extattr_get_fd (L : nat) : prog Z :=
  fd ← luaL_checkinteger L 1;
  attrnamespace ← luaL_checkinteger L 2;
  attrname ← luaL_checkstring L 3;
  attr_read fuel L "extattr_get_fd" [AZ (to_int fd); AZ (to_int attrnamespace); AS attrname] 0 0 (get_done L).

Definition l_extattr_get_file (L : nat) : prog Z :=
  path ← luaL_checkstring L 1;
  attrnamespace ← luaL_checkinteger L 2;
  attrname ← luaL_checkstring L 3;
  attr_read fuel L "extattr_get_file" [AS path; AZ (to_int attrnamespace); AS attrname] 0 0 (get_done L).

Definition l_extattr_get_link (L : nat) : prog Z :=
  path ← luaL_checkstring L 1;
  attrnamespace ← luaL_checkinteger L 2;
  attrname ← luaL_checkstring L 3;
  attr_read fuel L "extattr_get_link" [AS path; AZ (to_int attrnamespace); AS attrname] 0 0 (get_done L).

(** ** Lists *)

(** [while (p < end)]: [p] and [end_] are offsets into [data]; every round advances by a byte
    at least, so that [n], the number of bytes left, is enough *)
Fixpoint pushlist_loop (n : nat) (L : nat) (data p end_ : Z) : prog unit :=
  match n with
  | O => mret tt
  | S n =>
      if p <? end_ then
        c ← load_uint data p 1;
        let len := to_char c in
        name ← load_bytes data (p + 1) len;
        lua_pushlstring L name;;
        k ← luaL_len L (-2);
        lua_rawseti L (-2) (k + 1);;
        pushlist_loop n L data (p + 1 + len) end_
      else mret tt
  end.

Definition pushlist (L : nat) (data end_ : Z) : prog unit :=
  lua_newtable L;;
  pushlist_loop (Z.to_nat end_) L data 0 end_.

Definition list_done (L : nat) (data listlen : Z) : prog Z :=
  pushlist L data listlen;;
  free data;;
  mret 1.

Definition l_extattr_list (L : nat) : prog Z :=
  s ← luaL_checkudata L 1 LUA_FILEHANDLE;
  attrnamespace ← luaL_checkinteger L 2;
  with_fileno L s (fun fd =>
    attr_read fuel L "extattr_list_fd" [AZ fd; AZ (to_int attrnamespace)] 0 0 (list_done L)).

Definition l_extattr_list_fd (L : nat) : prog Z :=
  fd ← luaL_checkinteger L 1;
  attrnamespace ← luaL_checkinteger L 2;
  attr_read fuel L "extattr_list_fd" [AZ (to_int fd); AZ (to_int attrnamespace)] 0 0 (list_done L).

Definition l_extattr_list_file (L : nat) : prog Z :=
  path ← luaL_checkstring L 1;
  attrnamespace ← luaL_checkinteger L 2;
  attr_read fuel L "extattr_list_file" [AS path; AZ (to_int attrnamespace)] 0 0 (list_done L).

Definition l_extattr_list_link (L : nat) : prog Z :=
  path ← luaL_checkstring L 1;
  attrnamespace ← luaL_checkinteger L 2;
  attr_read fuel L "extattr_list_link" [AS path; AZ (to_int attrnamespace)] 0 0 (list_done L).
End fuel.

(** ** Writing *)

Definition l_extattr_set (L : nat) : prog Z :=
  s ← luaL_checkudata L 1 LUA_FILEHANDLE;
  attrnamespace ← luaL_checkinteger L 2;
  attrname ← luaL_checkstring L 3;
  data ← luaL_checklstring L 4;
  with_fileno L s (fun fd =>
    res ← call "extattr_set_fd"
      [AZ fd; AZ (to_int attrnamespace); AS attrname; AS data; AZ (Z.of_nat (String.length data))];
    or_fail L res (lua_pushinteger L (rc res);; mret 1)).

Definition l_extattr_set_fd (L : nat) : prog Z :=
  fd ← luaL_checkinteger L 1;
  attrnamespace ← luaL_checkinteger L 2;
  attrname ← luaL_checkstring L 3;
  data ← luaL_checklstring L 4;
  res ← call "extattr_set_fd" [AZ (to_int fd); AZ (to_int attrnamespace); AS attrname; AS data; AZ (Z.of_nat (String.length data))];
  if rc res =? -1 then
    e ← errno;
    fail L e
  else
    lua_pushinteger L (rc res);;
    mret 1.

Definition l_extattr_set_file (L : nat) : prog Z :=
  path ← luaL_checkstring L 1;
  attrnamespace ← luaL_checkinteger L 2;
  attrname ← luaL_checkstring L 3;
  data ← luaL_checklstring L 4;
  res ← call "extattr_set_file" [AS path; AZ (to_int attrnamespace); AS attrname; AS data; AZ (Z.of_nat (String.length data))];
  if rc res =? -1 then
    e ← errno;
    fail L e
  else
    lua_pushinteger L (rc res);;
    mret 1.

Definition l_extattr_set_link (L : nat) : prog Z :=
  path ← luaL_checkstring L 1;
  attrnamespace ← luaL_checkinteger L 2;
  attrname ← luaL_checkstring L 3;
  data ← luaL_checklstring L 4;
  res ← call "extattr_set_link" [AS path; AZ (to_int attrnamespace); AS attrname; AS data; AZ (Z.of_nat (String.length data))];
  if rc res =? -1 then
    e ← errno;
    fail L e
  else
    lua_pushinteger L (rc res);;
    mret 1.

Definition l_extattr_namespace_to_string (L : nat) : prog Z :=
  attrnamespace ← luaL_checkinteger L 1;
  r ← call "extattr_namespace_to_string" [AZ (to_int attrnamespace)];
  or_fail L r (push_cstr L (out_int 0 r);; free (out_int 0 r);; mret 1).

Definition l_extattr_string_to_namespace (L : nat) : prog Z :=
  string ← luaL_checkstring L 1;
  r ← call "extattr_string_to_namespace" [AS string];
  if rc r =? -1 then
    e ← errno;
    fail L e
  else
    lua_pushinteger L (out_int 0 r);;
    mret 1.

(** ** The module *)

Definition l_extattr_funcs : list (string * string) :=
  [
   ("delete", "l_extattr_delete"); ("delete_fd", "l_extattr_delete_fd");
   ("delete_file", "l_extattr_delete_file"); ("delete_link", "l_extattr_delete_link");
   ("get", "l_extattr_get"); ("get_fd", "l_extattr_get_fd"); ("get_file", "l_extattr_get_file");
   ("get_link", "l_extattr_get_link"); ("list", "l_extattr_list"); ("list_fd", "l_extattr_list_fd");
   ("list_file", "l_extattr_list_file"); ("list_link", "l_extattr_list_link");
   ("set", "l_extattr_set"); ("set_fd", "l_extattr_set_fd"); ("set_file", "l_extattr_set_file");
   ("set_link", "l_extattr_set_link"); ("namespace_to_string", "l_extattr_namespace_to_string");
   ("string_to_namespace", "l_extattr_string_to_namespace")].

Definition extattr_consts : list (string * Z) :=
  idents_of "EXTATTR_" [
     "NAMESPACE_EMPTY"; "NAMESPACE_USER"; "NAMESPACE_SYSTEM"].

Definition luaopen_sys_extattr (L : nat) : prog Z :=
  luaL_newlib L l_extattr_funcs;;
  define_all L extattr_consts;;
  mret 1.

(** ** What the wrappers do *)

Definition extattr_wrappers : list wrapped := [
  Wrapped "l_extattr_delete_fd" l_extattr_delete_fd "extattr_delete_fd" [AInt to_int; AInt to_int; AStr] [] (or_errno (-1) Succeeds);
  Wrapped "l_extattr_delete_file" l_extattr_delete_file "extattr_delete_file" [AStr; AInt to_int; AStr] [] (or_errno (-1) Succeeds);
  Wrapped "l_extattr_delete_link" l_extattr_delete_link "extattr_delete_link" [AStr; AInt to_int; AStr] [] (or_errno (-1) Succeeds);
  Wrapped "l_extattr_set_fd" l_extattr_set_fd "extattr_set_fd" [AInt to_int; AInt to_int; AStr; ALStr] [] (or_errno (-1) (Pushed [v_int]));
  Wrapped "l_extattr_set_file" l_extattr_set_file "extattr_set_file" [AStr; AInt to_int; AStr; ALStr] [] (or_errno (-1) (Pushed [v_int]));
  Wrapped "l_extattr_set_link" l_extattr_set_link "extattr_set_link" [AStr; AInt to_int; AStr; ALStr] [] (or_errno (-1) (Pushed [v_int]));
  Wrapped "l_extattr_string_to_namespace" l_extattr_string_to_namespace "extattr_string_to_namespace" [AStr] [] (or_errno (-1) (Pushed [v_out 0]))].

Lemma extattr_wrappers_ok : Forall wrapped_ok extattr_wrappers.
Proof. wrapped_table. Qed.
End extattr.
