(* ===== verification/Capsicum.v ===== *)
(** * lua_capsicum.c and lua_capsicum_helpers.c: capability mode and rights

    A set of rights is a userdata that holds a [cap_rights_t], whose representation belongs to
    the library: its functions get the address.  The first section is [sys.capsicum], the
    second [capsicum_helpers]. *)

From S2P Require Import Prelude LuaApi Machine Capi Utils Modules Cmem Wrapper.

Section capsicum.
Context `{Consts}.

Definition CAP_RIGHTS_METATABLE : string := "cap_rights_t *".
Definition CAP_IOCTLS_LIMIT_MAX : Z := 256.
Definition sizeof_rights : Z := 16.
Definition new_rights (L : nat) : prog Z := lua_newuserdatauv L sizeof_rights (OBuf sizeof_rights "") 0.

Definition l_cap_enter (L : nat) : prog Z :=
  r ← call "cap_enter" [];
  if rc r =? -1 then
    e ← errno;
    fail L e
  else
    success L.

Definition l_cap_sandboxed (L : nat) : prog Z :=
  r ← call "cap_sandboxed" [];
  lua_pushboolean L (negb (rc r =? 0));;
  mret 1.

(** [for (int i = lo; i <= top; i++) f(rights, luaL_checkinteger(L, i))] *)
Definition each_right (L : nat) (lo top : Z) (f : string) (rights : Z) : prog unit :=
  for_ (Z.to_nat (top - lo + 1)) lo (fun i =>
    right_ ← luaL_checkinteger L i;
    call f [AZ rights; AZ (to_size right_)];;
    mret tt).

Definition l_cap_rights_new (L : nat) : prog Z :=
  top ← lua_gettop L;
  rights ← new_rights L;
  call "cap_rights_init" [AZ rights];;
  each_right L 1 top "cap_rights_set" rights;;
  luaL_setmetatable L CAP_RIGHTS_METATABLE;;
  mret 1.

Definition l_cap_rights_get (L : nat) : prog Z :=
  fd ← checkfd L 1;
  rights ← new_rights L;
  r ← call "cap_rights_get" [AZ fd; AZ rights];
  if rc r =? -1 then
    e ← errno;
    fail L e
  else
    luaL_setmetatable L CAP_RIGHTS_METATABLE;;
    mret 1.

(** nothing is pushed: the result is the last argument *)
Definition l_cap_rights_init (L : nat) : prog Z :=
  rights ← luaL_checkudata L 1 CAP_RIGHTS_METATABLE;
  top ← lua_gettop L;
  call "cap_rights_init" [AZ rights];;
  each_right L 2 top "cap_rights_set" rights;;
  mret 1.

Definition l_cap_rights_set (L : nat) : prog Z :=
  rights ← luaL_checkudata L 1 CAP_RIGHTS_METATABLE;
  top ← lua_gettop L;
  each_right L 2 top "cap_rights_set" rights;;
  lua_pushvalue L 1;;
  mret 1.

Definition l_cap_rights_clear (L : nat) : prog Z :=
  rights ← luaL_checkudata L 1 CAP_RIGHTS_METATABLE;
  top ← lua_gettop L;
  each_right L 2 top "cap_rights_clear" rights;;
  lua_pushvalue L 1;;
  mret 1.

(** the loop of [l_cap_rights_is_set] *)
Fixpoint all_set (n : nat) (L : nat) (i rights : Z) : prog bool :=
  match n with
  | O => mret true
  | S n =>
      right_ ← luaL_checkinteger L i;
      r ← call "cap_rights_is_set" [AZ rights; AZ (to_size right_)];
      if rc r =? 0 then mret false else all_set n L (i + 1) rights
  end.

Definition l_cap_rights_is_set (L : nat) : prog Z :=
  rights ← luaL_checkudata L 1 CAP_RIGHTS_METATABLE;
  top ← lua_gettop L;
  b ← all_set (Z.to_nat (top - 1)) L 2 rights;
  lua_pushboolean L b;;
  mret 1.

Definition l_cap_rights_is_empty (L : nat) : prog Z :=
  rights ← luaL_checkudata L 1 CAP_RIGHTS_METATABLE;
  r ← call "cap_rights_is_empty" [AZ rights];
  lua_pushboolean L (negb (rc r =? 0));;
  mret 1.

Definition l_cap_rights_is_valid (L : nat) : prog Z :=
  rights ← luaL_checkudata L 1 CAP_RIGHTS_METATABLE;
  r ← call "cap_rights_is_valid" [AZ rights];
  lua_pushboolean L (negb (rc r =? 0));;
  mret 1.

Definition l_cap_rights_merge (L : nat) : prog Z :=
  dst ← luaL_checkudata L 1 CAP_RIGHTS_METATABLE;
  src ← luaL_checkudata L 2 CAP_RIGHTS_METATABLE;
  call "cap_rights_merge" [AZ dst; AZ src];;
  lua_pushvalue L 1;;
  mret 1.

Definition l_cap_rights_remove (L : nat) : prog Z :=
  dst ← luaL_checkudata L 1 CAP_RIGHTS_METATABLE;
  src ← luaL_checkudata L 2 CAP_RIGHTS_METATABLE;
  call "cap_rights_remove" [AZ dst; AZ src];;
  lua_pushvalue L 1;;
  mret 1.

Definition l_cap_rights_contains (L : nat) : prog Z :=
  big ← luaL_checkudata L 1 CAP_RIGHTS_METATABLE;
  little ← luaL_checkudata L 2 CAP_RIGHTS_METATABLE;
  r ← call "cap_rights_contains" [AZ big; AZ little];
  lua_pushboolean L (negb (rc r =? 0));;
  mret 1.

Definition l_cap_rights_limit (L : nat) : prog Z :=
  rights ← luaL_checkudata L 1 CAP_RIGHTS_METATABLE;
  fd ← checkfd L 2;
  r ← call "cap_rights_limit" [AZ fd; AZ rights];
  if rc r =? -1 then
    e ← errno;
    fail L e
  else
    success L.

Definition l_cap_fcntls_limit (L : nat) : prog Z :=
  fd ← checkfd L 1;
  fcntlrights ← luaL_checkinteger L 2;
  r ← call "cap_fcntls_limit" [AZ fd; AZ (to_uint fcntlrights)];
  if rc r =? -1 then
    e ← errno;
    fail L e
  else
    success L.

Definition l_cap_fcntls_get (L : nat) : prog Z :=
  fd ← checkfd L 1;
  r ← call "cap_fcntls_get" [AZ fd];
  if rc r =? -1 then
    e ← errno;
    fail L e
  else
    lua_pushinteger L (out_int 0 r);;
    mret 1.

(** the integers at the indices from [i] on *)
Fixpoint read_cmds (n : nat) (L : nat) (i : Z) : prog (list Z) :=
  match n with
  | O => mret []
  | S n => cmd ← luaL_checkinteger L i; cmds ← read_cmds n L (i + 1); mret (to_size cmd :: cmds)
  end.

(** [f(fd, cmds, nitems(cmds))]: the whole array is passed, whose elements past those that were
    read have not been written *)
Definition limit_ioctls (L : nat) (f : string) : prog Z :=
  fd ← checkfd L 1;
  top ← lua_gettop L;
  if CAP_IOCTLS_LIMIT_MAX <? top - 1 then luaL_error L "too many cmds (max 256)"
  else
    cmds ← read_cmds (Z.to_nat (top - 1)) L 2;
    if top - 1 <? CAP_IOCTLS_LIMIT_MAX then
      halts (EHalt (Unspec "the contents of uninitialised memory"))
    else
      r ← call f (AZ fd :: (AZ <$> cmds));
      if rc r =? -1 then
        e ← errno;
        fail L e
      else
        success L.

Definition l_cap_ioctls_limit (L : nat) : prog Z := limit_ioctls L "cap_ioctls_limit".

Definition l_cap_ioctls_get (L : nat) : prog Z :=
  fd ← checkfd L 1;
  n ← call "cap_ioctls_get" [AZ fd; AZ CAP_IOCTLS_LIMIT_MAX];
  if rc n =? -1 then
    e ← errno;
    fail L e
  else if rc n =? cst "CAP_IOCTLS_ALL" then
    lua_pushboolean L false;;
    mret 1
  else
    lua_createtable L (rc n) 0;;
    for_ (Z.to_nat (rc n)) 0 (fun i =>
      lua_pushinteger L (to_long (out_int (Z.to_nat i) n));;
      lua_rawseti L (-2) (i + 1));;
    mret 1.

(** ** The module *)

Definition l_capsicum_funcs : list (string * string) :=
  [
   ("enter", "l_cap_enter"); ("sandboxed", "l_cap_sandboxed")].

Definition l_cap_rights_funcs : list (string * string) :=
  [
   ("new", "l_cap_rights_new"); ("get", "l_cap_rights_get")].

Definition l_cap_rights_meta : list (string * string) :=
  [
   ("init", "l_cap_rights_init"); ("set", "l_cap_rights_set"); ("clear", "l_cap_rights_clear");
   ("is_set", "l_cap_rights_is_set")] ++
  (if 1500006 <? cst "__FreeBSD_version" then [
   ("is_empty", "l_cap_rights_is_empty")] else []) ++
  [
   ("is_valid", "l_cap_rights_is_valid"); ("merge", "l_cap_rights_merge");
   ("remove", "l_cap_rights_remove"); ("contains", "l_cap_rights_contains");
   ("limit", "l_cap_rights_limit")].

Definition l_cap_fcntls_funcs : list (string * string) :=
  [
   ("limit", "l_cap_fcntls_limit"); ("get", "l_cap_fcntls_get")].

Definition l_cap_ioctls_funcs : list (string * string) :=
  [
   ("limit", "l_cap_ioctls_limit"); ("get", "l_cap_ioctls_get")].

Definition cap_consts1 : list (string * Z) :=
  (if cst "#ifdef CAP_RESERVED" =? 0 then [] else idents_of "CAP_" [
     "RESERVED"]) ++
  idents_of "CAP_" [
     "READ"; "WRITE"; "SEEK_TELL"; "SEEK"; "PREAD"; "PWRITE"; "MMAP"; "MMAP_R"; "MMAP_W"; "MMAP_X";
     "MMAP_RW"; "MMAP_RX"; "MMAP_WX"; "MMAP_RWX"; "CREATE"; "FEXECVE"; "FSYNC"; "FTRUNCATE";
     "LOOKUP"; "FCHDIR"; "FCHFLAGS"; "CHFLAGSAT"; "FCHMOD"; "FCHMODAT"; "FCHOWN"; "FCHOWNAT";
     "FCNTL"; "FLOCK"; "FPATHCONF"; "FSCK"; "FSTAT"; "FSTATAT"; "FSTATFS"; "FUTIMES"; "FUTIMESAT";
     "LINKAT_TARGET"; "MKDIRAT"; "MKFIFOAT"; "MKNODAT"; "RENAMEAT_SOURCE"; "SYMLINKAT"; "UNLINKAT";
     "ACCEPT"; "BIND"; "CONNECT"; "GETPEERNAME"; "GETSOCKNAME"; "GETSOCKOPT"; "LISTEN"; "PEELOFF";
     "RECV"; "SEND"; "SETSOCKOPT"; "SHUTDOWN"; "BINDAT"; "CONNECTAT"; "LINKAT_SOURCE";
     "RENAMEAT_TARGET"] ++
  (if cst "#ifdef CAP_FCHROOT" =? 0 then [] else idents_of "CAP_" [
     "FCHROOT"]) ++
  idents_of "CAP_" [
     "SOCK_CLIENT"; "SOCK_SERVER"] ++
  (if cst "#ifdef CAP_RESERVED" =? 0 then [] else idents_of "CAP_" [
     "UNUSED0_45"; "UNUSED0_46"; "UNUSED0_47"; "UNUSED0_48"; "UNUSED0_49"; "UNUSED0_50";
     "UNUSED0_51"; "UNUSED0_52"; "UNUSED0_53"; "UNUSED0_54"; "UNUSED0_55"; "UNUSED0_56";
     "UNUSED0_57"]) ++
  idents_of "CAP_" [
     "ALL0"; "MAC_GET"; "MAC_SET"; "SEM_GETVALUE"; "SEM_POST"; "SEM_WAIT"; "EVENT"; "KQUEUE_EVENT";
     "IOCTL"; "TTYHOOK"; "PDGETPID"; "PDWAIT"; "PDKILL"; "EXTATTR_DELETE"; "EXTATTR_GET";
     "EXTATTR_LIST"; "EXTATTR_SET"; "ACL_CHECK"; "ACL_DELETE"; "ACL_GET"; "ACL_SET";
     "KQUEUE_CHANGE"; "KQUEUE"] ++
  (if cst "#ifdef CAP_INOTIFY_ADD" =? 0 then [] else idents_of "CAP_" [
     "INOTIFY_ADD"]) ++
  (if cst "#ifdef CAP_INOTIFY_RM" =? 0 then [] else idents_of "CAP_" [
     "INOTIFY_RM"]).

Definition cap_consts2 : list (string * Z) :=
  (if cst "#ifdef CAP_RESERVED" =? 0 then [] else idents_of "CAP_" [
     "UNUSED1_24"; "UNUSED1_25"; "UNUSED1_26"; "UNUSED1_27"; "UNUSED1_28"; "UNUSED1_29";
     "UNUSED1_30"; "UNUSED1_31"; "UNUSED1_32"; "UNUSED1_33"; "UNUSED1_34"; "UNUSED1_35";
     "UNUSED1_36"; "UNUSED1_37"; "UNUSED1_38"; "UNUSED1_39"; "UNUSED1_40"; "UNUSED1_41";
     "UNUSED1_42"; "UNUSED1_43"; "UNUSED1_44"; "UNUSED1_45"; "UNUSED1_46"; "UNUSED1_47";
     "UNUSED1_48"; "UNUSED1_49"; "UNUSED1_50"; "UNUSED1_51"; "UNUSED1_52"; "UNUSED1_53";
     "UNUSED1_54"; "UNUSED1_55"; "UNUSED1_56"; "UNUSED1_57"]) ++
  idents_of "CAP_" [
     "ALL1"; "FCNTL_GETFL"; "FCNTL_SETFL"; "FCNTL_GETOWN"; "FCNTL_SETOWN"; "FCNTL_ALL"].

Definition cap_consts : list (string * Z) := cap_consts1 ++ cap_consts2.

Definition luaopen_sys_capsicum (L : nat) : prog Z :=
  register_type L CAP_RIGHTS_METATABLE l_cap_rights_meta;;
  luaL_newlib L l_capsicum_funcs;;
  sublibs L [("rights", l_cap_rights_funcs, []); ("fcntls", l_cap_fcntls_funcs, []);
             ("ioctls", l_cap_ioctls_funcs, [])];;
  define_all L cap_consts;;
  mret 1.

Definition capsicum_wrappers : list wrapped := [
  Wrapped "l_cap_enter" l_cap_enter "cap_enter" [] [] (or_errno (-1) Succeeds);
  Wrapped "l_cap_sandboxed" l_cap_sandboxed "cap_sandboxed" [] [] (Pushed [v_bool]);
  Wrapped "l_cap_rights_is_empty" l_cap_rights_is_empty "cap_rights_is_empty" [AUd CAP_RIGHTS_METATABLE] [] (Pushed [v_bool]);
  Wrapped "l_cap_rights_is_valid" l_cap_rights_is_valid "cap_rights_is_valid" [AUd CAP_RIGHTS_METATABLE] [] (Pushed [v_bool]);
  Wrapped "l_cap_rights_contains" l_cap_rights_contains "cap_rights_contains" [AUd CAP_RIGHTS_METATABLE; AUd CAP_RIGHTS_METATABLE] [] (Pushed [v_bool]);
  Wrapped "l_cap_rights_limit" l_cap_rights_limit "cap_rights_limit" [AUd CAP_RIGHTS_METATABLE; AFd id] [1%nat; 0%nat] (or_errno (-1) Succeeds);
  Wrapped "l_cap_fcntls_limit" l_cap_fcntls_limit "cap_fcntls_limit" [AFd id; AInt to_uint] [] (or_errno (-1) Succeeds);
  Wrapped "l_cap_fcntls_get" l_cap_fcntls_get "cap_fcntls_get" [AFd id] [] (or_errno (-1) (Pushed [v_out 0]))].

Lemma capsicum_wrappers_ok : Forall wrapped_ok capsicum_wrappers.
Proof. wrapped_table. Qed.
End capsicum.

(** ** capsicum_helpers *)

Section helpers.
Context `{Consts}.

Definition l_caph_enter (L : nat) : prog Z :=
  r ← call "caph_enter" [];
  if rc r =? -1 then
    e ← errno;
    fail L e
  else
    success L.

Definition l_caph_enter_casper (L : nat) : prog Z :=
  r ← call "caph_enter_casper" [];
  if rc r =? -1 then
    e ← errno;
    fail L e
  else
    success L.

Definition l_caph_rights_limit (L : nat) : prog Z :=
  fd ← checkfd L 1;
  rights ← luaL_checkudata L 2 CAP_RIGHTS_METATABLE;
  r ← call "caph_rights_limit" [AZ fd; AZ rights];
  if rc r =? -1 then
    e ← errno;
    fail L e
  else
    success L.

Definition l_caph_ioctls_limit (L : nat) : prog Z := limit_ioctls L "caph_ioctls_limit".

Definition l_caph_fcntls_limit (L : nat) : prog Z :=
  fd ← checkfd L 1;
  fcntlrights ← luaL_checkinteger L 2;
  r ← call "caph_fcntls_limit" [AZ fd; AZ (to_uint fcntlrights)];
  if rc r =? -1 then
    e ← errno;
    fail L e
  else
    success L.

Definition l_caph_limit_stream (L : nat) : prog Z :=
  fd ← checkfd L 1;
  flags ← luaL_checkinteger L 2;
  r ← call "caph_limit_stream" [AZ fd; AZ (to_int flags)];
  if rc r =? -1 then
    e ← errno;
    fail L e
  else
    success L.

Definition l_caph_limit_stdin (L : nat) : prog Z :=
  r ← call "caph_limit_stdin" [];
  if rc r =? -1 then
    e ← errno;
    fail L e
  else
    success L.

Definition l_caph_limit_stderr (L : nat) : prog Z :=
  r ← call "caph_limit_stderr" [];
  if rc r =? -1 then
    e ← errno;
    fail L e
  else
    success L.

Definition l_caph_limit_stdout (L : nat) : prog Z :=
  r ← call "caph_limit_stdout" [];
  if rc r =? -1 then
    e ← errno;
    fail L e
  else
    success L.

Definition l_caph_limit_stdio (L : nat) : prog Z :=
  r ← call "caph_limit_stdio" [];
  if rc r =? -1 then
    e ← errno;
    fail L e
  else
    success L.

Definition l_caph_stream_rights (L : nat) : prog Z :=
  rights ← luaL_checkudata L 1 CAP_RIGHTS_METATABLE;
  flags ← luaL_checkinteger L 2;
  call "caph_stream_rights" [AZ rights; AZ (to_int flags)];;
  lua_pushvalue L 1;;
  mret 1.

Definition l_caph_cache_tzdata (L : nat) : prog Z :=
  call "caph_cache_tzdata" [];;
  mret 0.

Definition l_caph_cache_catpages (L : nat) : prog Z :=
  call "caph_cache_catpages" [];;
  mret 0.

Definition l_caph_funcs : list (string * string) :=
  [
   ("enter", "l_caph_enter"); ("enter_casper", "l_caph_enter_casper");
   ("rights_limit", "l_caph_rights_limit"); ("ioctls_limit", "l_caph_ioctls_limit");
   ("fcntls_limit", "l_caph_fcntls_limit"); ("limit_stream", "l_caph_limit_stream");
   ("limit_stdin", "l_caph_limit_stdin"); ("limit_stderr", "l_caph_limit_stderr");
   ("limit_stdout", "l_caph_limit_stdout"); ("limit_stdio", "l_caph_limit_stdio");
   ("stream_rights", "l_caph_stream_rights"); ("cache_tzdata", "l_caph_cache_tzdata");
   ("cache_catpages", "l_caph_cache_catpages")].

Definition caph_consts : list (string * Z) :=
  idents_of "CAPH_" [
     "IGNORE_EBADF"; "READ"; "WRITE"; "LOOKUP"].

Definition luaopen_capsicum_helpers (L : nat) : prog Z :=
  luaL_newlib L l_caph_funcs;;
  define_all L caph_consts;;
  mret 1.

Definition caph_wrappers : list wrapped := [
  Wrapped "l_caph_enter" l_caph_enter "caph_enter" [] [] (or_errno (-1) Succeeds);
  Wrapped "l_caph_enter_casper" l_caph_enter_casper "caph_enter_casper" [] [] (or_errno (-1) Succeeds);
  Wrapped "l_caph_rights_limit" l_caph_rights_limit "caph_rights_limit" [AFd id; AUd CAP_RIGHTS_METATABLE] [] (or_errno (-1) Succeeds);
  Wrapped "l_caph_fcntls_limit" l_caph_fcntls_limit "caph_fcntls_limit" [AFd id; AInt to_uint] [] (or_errno (-1) Succeeds);
  Wrapped "l_caph_limit_stream" l_caph_limit_stream "caph_limit_stream" [AFd id; AInt to_int] [] (or_errno (-1) Succeeds);
  Wrapped "l_caph_limit_stdin" l_caph_limit_stdin "caph_limit_stdin" [] [] (or_errno (-1) Succeeds);
  Wrapped "l_caph_limit_stderr" l_caph_limit_stderr "caph_limit_stderr" [] [] (or_errno (-1) Succeeds);
  Wrapped "l_caph_limit_stdout" l_caph_limit_stdout "caph_limit_stdout" [] [] (or_errno (-1) Succeeds);
  Wrapped "l_caph_limit_stdio" l_caph_limit_stdio "caph_limit_stdio" [] [] (or_errno (-1) Succeeds);
  Wrapped "l_caph_cache_tzdata" l_caph_cache_tzdata "caph_cache_tzdata" [] [] RNone;
  Wrapped "l_caph_cache_catpages" l_caph_cache_catpages "caph_cache_catpages" [] [] RNone].

Lemma caph_wrappers_ok : Forall wrapped_ok caph_wrappers.
Proof. wrapped_table. Qed.
End helpers.
