(* ===== verification/Libc.v ===== *)
(** * Modules for functions of the C library and small libraries

    One section per module: [syslog] (lua_syslog.c), [util] (lua_util.c), [pathconv]
    (lua_pathconv.c), [readpassphrase] (lua_readpassphrase.c), [b64] (lua_b64.c), [md]
    (lua_md.c), [time] (lua_time.c) and [stdio] (lua_stdio.c).  A buffer or structure on the
    C stack that a call fills is among the results of the call. *)

From Stdlib Require Import Ascii.
From S2P Require Import Prelude LuaApi Machine Capi Utils Modules Cmem Uio Wrapper.

(** ** syslog *)

Section syslog.
Context `{Consts} `{SConsts}.

Definition l_openlog (L : nat) : prog Z :=
  ident ← luaL_checkstring L 1;
  logopt ← luaL_checkinteger L 2;
  facility ← luaL_optinteger L 3 0;
  call "openlog" [AS ident; AZ (to_int logopt); AZ (to_int facility)];;
  mret 0.

Definition l_log_fac (L : nat) : prog Z :=
  p ← luaL_checkinteger L 1;
  r ← call "LOG_FAC" [AZ (to_int p)];
  lua_pushinteger L (rc r);;
  mret 1.

Definition l_setlogmask (L : nat) : prog Z :=
  maskpri ← luaL_checkinteger L 1;
  r ← call "setlogmask" [AZ (to_int maskpri)];
  lua_pushinteger L (rc r);;
  mret 1.

Definition l_log_mask (L : nat) : prog Z :=
  pri ← luaL_checkinteger L 1;
  r ← call "LOG_MASK" [AZ (to_int pri)];
  lua_pushinteger L (rc r);;
  mret 1.

Definition l_log_upto (L : nat) : prog Z :=
  pri ← luaL_checkinteger L 1;
  r ← call "LOG_UPTO" [AZ (to_int pri)];
  lua_pushinteger L (rc r);;
  mret 1.

Definition l_syslog (L : nat) : prog Z :=
  priority ← luaL_checkinteger L 1;
  message ← luaL_checkstring L 2;
  call "syslog" [AZ (to_int priority); AS "%s"; AS message];;
  mret 0.

Definition l_log_pri (L : nat) : prog Z :=
  p ← luaL_checkinteger L 1;
  r ← call "LOG_PRI" [AZ (to_int p)];
  lua_pushinteger L (rc r);;
  mret 1.

Definition l_log_makepri (L : nat) : prog Z :=
  fac ← luaL_checkinteger L 1;
  pri ← luaL_checkinteger L 2;
  r ← call "LOG_MAKEPRI" [AZ (to_int fac); AZ (to_int pri)];
  lua_pushinteger L (rc r);;
  mret 1.

Definition l_closelog (L : nat) : prog Z :=
  call "closelog" [];;
  mret 0.

Definition l_syslog_funcs : list (string * string) :=
  [
   ("openlog", "l_openlog"); ("fac", "l_log_fac"); ("setlogmask", "l_setlogmask");
   ("mask", "l_log_mask"); ("upto", "l_log_upto"); ("syslog", "l_syslog"); ("pri", "l_log_pri");
   ("makepri", "l_log_makepri"); ("closelog", "l_closelog")].

Definition syslog_consts : list (string * Z) :=
  idents_of "LOG_" [
     "EMERG"; "ALERT"; "CRIT"; "ERR"; "WARNING"; "NOTICE"; "INFO"; "DEBUG"; "PRIMASK"; "KERN";
     "USER"; "MAIL"; "DAEMON"; "AUTH"; "SYSLOG"; "LPR"; "NEWS"; "UUCP"; "CRON"; "AUTHPRIV"; "FTP";
     "NTP"; "SECURITY"; "CONSOLE"; "LOCAL0"; "LOCAL1"; "LOCAL2"; "LOCAL3"; "LOCAL4"; "LOCAL5";
     "LOCAL6"; "LOCAL7"; "NFACILITIES"; "FACMASK"; "PID"; "CONS"; "ODELAY"; "NDELAY"; "NOWAIT";
     "PERROR"].

Definition luaopen_syslog (L : nat) : prog Z :=
  luaL_newlib L l_syslog_funcs;;
  define_string L "_PATH_LOG" (scst "_PATH_LOG");;
  define_string L "_PATH_LOG_PRIV" (scst "_PATH_LOG_PRIV");;
  define_all L syslog_consts;;
  mret 1.

Definition syslog_wrappers : list wrapped := [
  Wrapped "l_openlog" l_openlog "openlog" [AStr; AInt to_int; AOptInt 0 to_int] [] RNone;
  Wrapped "l_log_fac" l_log_fac "LOG_FAC" [AInt to_int] [] (Pushed [v_int]);
  Wrapped "l_setlogmask" l_setlogmask "setlogmask" [AInt to_int] [] (Pushed [v_int]);
  Wrapped "l_log_mask" l_log_mask "LOG_MASK" [AInt to_int] [] (Pushed [v_int]);
  Wrapped "l_log_upto" l_log_upto "LOG_UPTO" [AInt to_int] [] (Pushed [v_int]);
  Wrapped "l_syslog" l_syslog "syslog" [AInt to_int; AStr; AConst (AS "%s")] [0%nat; 2%nat; 1%nat] RNone;
  Wrapped "l_log_pri" l_log_pri "LOG_PRI" [AInt to_int] [] (Pushed [v_int]);
  Wrapped "l_log_makepri" l_log_makepri "LOG_MAKEPRI" [AInt to_int; AInt to_int] [] (Pushed [v_int]);
  Wrapped "l_closelog" l_closelog "closelog" [] [] RNone].

Lemma syslog_wrappers_ok : Forall wrapped_ok syslog_wrappers.
Proof. wrapped_table. Qed.
End syslog.

(** ** util *)

Section util.
Context `{Consts}.

Definition l_expand_number (L : nat) : prog Z :=
  buf ← luaL_checkstring L 1;
  r ← call "expand_number" [AS buf];
  if rc r =? -1 then
    e ← errno;
    fail L e
  else
    lua_pushinteger L (out_int 0 r);;
    mret 1.

Definition l_expand_unsigned (L : nat) : prog Z :=
  buf ← luaL_checkstring L 1;
  r ← call "expand_unsigned" [AS buf];
  if rc r =? -1 then
    e ← errno;
    fail L e
  else
    lua_pushinteger L (to_long (out_int 0 r));;
    mret 1.

Definition l_humanize_number (L : nat) : prog Z :=
  width ← luaL_checkinteger L 1;
  number ← luaL_checkinteger L 2;
  suffix ← luaL_checkstring L 3;
  scale ← luaL_checkinteger L 4;
  flags ← luaL_checkinteger L 5;
  let buflen := to_size (width + 1) in
  luaL_buffinit L;;
  res ← call "humanize_number" [AZ buflen; AZ number; AS suffix; AZ (to_int scale); AZ (to_int flags)];
  if rc res =? -1 then mret 0
  else
    (if negb (Z.land (to_int scale) (cst "HN_GETSCALE") =? 0) then
       lua_pushinteger L (rc res)
     else
       prefix_of (out_str 0 res) (to_size (rc res)) (fun s => luaL_pushresult L s));;
    mret 1.

Definition l_util_funcs : list (string * string) :=
  [
   ("expand_number", "l_expand_number"); ("expand_unsigned", "l_expand_unsigned");
   ("humanize_number", "l_humanize_number")].

Definition util_consts : list (string * Z) :=
  idents [
     "HN_DECIMAL"; "HN_NOSPACE"; "HN_B"; "HN_DIVISOR_1000"; "HN_IEC_PREFIXES"; "HN_GETSCALE";
     "HN_AUTOSCALE"].

Definition luaopen_util (L : nat) : prog Z :=
  luaL_newlib L l_util_funcs;;
  define_all L util_consts;;
  mret 1.

Definition util_wrappers : list wrapped := [
  Wrapped "l_expand_number" l_expand_number "expand_number" [AStr] [] (or_errno (-1) (Pushed [v_out 0]));
  Wrapped "l_expand_unsigned" l_expand_unsigned "expand_unsigned" [AStr] [] (or_errno (-1) (Pushed [(fun r => VInt (to_long (out_int 0 r)))]))].

Lemma util_wrappers_ok : Forall wrapped_ok util_wrappers.
Proof. wrapped_table. Qed.
End util.

(** ** pathconv *)

Section pathconv.
Context `{Consts}.

Definition l_abs2rel (L : nat) : prog Z :=
  path ← luaL_checkstring L 1;
  base ← luaL_checkstring L 2;
  r ← call "abs2rel" [AS path; AS base; AZ (cst "MAXPATHLEN")];
  if rc r =? 0 then
    e ← errno;
    fail L e
  else
    lua_pushstring L (out_str 0 r);;
    mret 1.

Definition l_rel2abs (L : nat) : prog Z :=
  path ← luaL_checkstring L 1;
  base ← luaL_checkstring L 2;
  r ← call "rel2abs" [AS path; AS base; AZ (cst "MAXPATHLEN")];
  if rc r =? 0 then
    e ← errno;
    fail L e
  else
    lua_pushstring L (out_str 0 r);;
    mret 1.

Definition l_pathconv_funcs : list (string * string) :=
  [
   ("abs2rel", "l_abs2rel"); ("rel2abs", "l_rel2abs")].

Definition luaopen_pathconv (L : nat) : prog Z :=
  luaL_newlib L l_pathconv_funcs;;
  mret 1.

Definition pathconv_wrappers : list wrapped := [
  Wrapped "l_abs2rel" l_abs2rel "abs2rel" [AStr; AStr; AConst (AZ (cst "MAXPATHLEN"))] [] (or_errno 0 (Pushed [v_outs 0]));
  Wrapped "l_rel2abs" l_rel2abs "rel2abs" [AStr; AStr; AConst (AZ (cst "MAXPATHLEN"))] [] (or_errno 0 (Pushed [v_outs 0]))].

Lemma pathconv_wrappers_ok : Forall wrapped_ok pathconv_wrappers.
Proof. wrapped_table. Qed.
End pathconv.

(** ** readpassphrase *)

Section readpassphrase.
Context `{Consts}.

Definition l_readpassphrase (L : nat) : prog Z :=
  prompt ← luaL_checkstring L 1;
  buflen ← luaL_checkinteger L 2;
  flags ← luaL_optinteger L 3 0;
  buf ← malloc (to_size buflen) (OBuf (to_size buflen) "");
  if buf =? 0 then fatal L "malloc" (cst "ENOMEM")
  else
    r ← call "readpassphrase" [AS prompt; AZ buf; AZ (to_size buflen); AZ (to_int flags)];
    if rc r =? 0 then
      error ← errno;
      call "explicit_bzero" [AZ buf; AZ (to_size buflen)];;
      free buf;;
      fail L error
    else
      push_cstr L buf;;
      call "explicit_bzero" [AZ buf; AZ (to_size buflen)];;
      free buf;;
      mret 1.

Definition l_explicit_bzero (L : nat) : prog Z :=
  s ← luaL_checklstring L 1;
  call "explicit_bzero" [AS s; AZ (Z.of_nat (String.length s))];;
  mret 0.

Definition l_rpp_funcs : list (string * string) :=
  [
   ("readpassphrase", "l_readpassphrase"); ("explicit_bzero", "l_explicit_bzero")].

Definition rpp_consts : list (string * Z) :=
  idents_of "RPP_" [
     "ECHO_OFF"; "ECHO_ON"; "REQUIRE_TTY"; "FORCELOWER"; "FORCEUPPER"; "SEVENBIT"; "STDIN"].

Definition luaopen_readpassphrase (L : nat) : prog Z :=
  luaL_newlib L l_rpp_funcs;;
  define_all L rpp_consts;;
  mret 1.
Definition rpp_wrappers : list wrapped := [
  Wrapped "l_explicit_bzero" l_explicit_bzero "explicit_bzero" [ALStr] [] RNone].

Lemma rpp_wrappers_ok : Forall wrapped_ok rpp_wrappers.
Proof. wrapped_table. Qed.
End readpassphrase.

(** ** b64 *)

Section b64.
Context `{Consts}.

Definition l_b64_encode (L : nat) : prog Z :=
  data ← luaL_checklstring L 1;
  let datalen := Z.of_nat (String.length data) in
  let buflen := to_size (4 * (datalen + 2)) / 3 + 1 in
  buf ← malloc buflen (OBuf buflen "");
  if buf =? 0 then fatal L "malloc" (cst "ENOMEM")
  else
    len ← call "b64_ntop" [AS data; AZ datalen; AZ buf; AZ buflen];
    assert_ (negb (rc len =? -1)) "len != -1";;
    push_bytes L buf (rc len);;
    free buf;;
    mret 1.

Definition l_b64_decode (L : nat) : prog Z :=
  encoded ← luaL_checklstring L 1;
  let enclen := Z.of_nat (String.length encoded) in
  let buflen := to_size (3 * enclen) / 4 in
  buf ← malloc buflen (OBuf buflen "");
  if buf =? 0 then fatal L "malloc" (cst "ENOMEM")
  else
    len ← call "b64_pton" [AS (cstr encoded); AZ buf; AZ buflen];
    if rc len =? -1 then
      free buf;;
      fail L (cst "EINVAL")
    else
      push_bytes L buf (rc len);;
      free buf;;
      mret 1.

Definition l_b64_funcs : list (string * string) :=
  [
   ("encode", "l_b64_encode"); ("decode", "l_b64_decode")].

Definition luaopen_b64 (L : nat) : prog Z :=
  luaL_newlib L l_b64_funcs;;
  mret 1.
End b64.

(** ** md: SHA-1

    The context lies in a userdata; its representation belongs to the library. *)

Section md.
Context `{Consts}.

Definition SHA_CTX_METATABLE : string := "SHA_CTX".
Definition sizeof_sha_ctx : Z := 96.

Definition l_sha1_init (L : nat) : prog Z :=
  ctx ← lua_newuserdatauv L sizeof_sha_ctx (OBuf sizeof_sha_ctx "") 0;
  luaL_setmetatable L SHA_CTX_METATABLE;;
  call "SHA1_Init" [AZ ctx];;
  mret 1.

Definition l_sha1_update (L : nat) : prog Z :=
  ctx ← luaL_checkudata L 1 SHA_CTX_METATABLE;
  data ← luaL_checklstring L 2;
  call "SHA1_Update" [AZ ctx; AS data; AZ (Z.of_nat (String.length data))];;
  mret 0.

Definition l_sha1_final (L : nat) : prog Z :=
  ctx ← luaL_checkudata L 1 SHA_CTX_METATABLE;
  r ← call "SHA1_Final" [AZ ctx];
  prefix_of (out_str 0 r) 20 (fun digest => lua_pushlstring L digest);;
  mret 1.

Definition l_sha1_end (L : nat) : prog Z :=
  ctx ← luaL_checkudata L 1 SHA_CTX_METATABLE;
  res ← call "SHA1_End" [AZ ctx];
  push_ret_string L res;;
  mret 1.

Definition l_md_funcs : list (string * string) :=
  [
   ("sha1_init", "l_sha1_init")].

Definition l_sha_ctx_meta : list (string * string) :=
  [
   ("update", "l_sha1_update"); ("final", "l_sha1_final"); ("digest", "l_sha1_end")].

Definition luaopen_md (L : nat) : prog Z :=
  register_type L SHA_CTX_METATABLE l_sha_ctx_meta;;
  luaL_newlib L l_md_funcs;;
  mret 1.
Definition md_wrappers : list wrapped := [
  Wrapped "l_sha1_update" l_sha1_update "SHA1_Update" [AUd SHA_CTX_METATABLE; ALStr] [] RNone].

Lemma md_wrappers_ok : Forall wrapped_ok md_wrappers.
Proof. wrapped_table. Qed.
End md.

(** ** time

    A [struct timespec] is its two members, seconds and nanoseconds. *)

Section time.
Context `{Consts}.

Definition l_clock_getcpuclockid (L : nat) : prog Z :=
  pid ← luaL_checkinteger L 1;
  error ← call "clock_getcpuclockid" [AZ (to_int pid)];
  if negb (rc error =? 0) then
    fail L (rc error)
  else
    lua_pushinteger L (to_int pid);;
    mret 1.

Definition push_timespec (L : nat) (i : nat) (r : cret) : prog Z :=
  lua_pushinteger L (out_int i r);;
  lua_pushinteger L (out_int (S i) r);;
  mret 2.

Definition l_clock_getres (L : nat) : prog Z :=
  clock_id ← luaL_checkinteger L 1;
  error ← call "clock_getres" [AZ (to_int clock_id)];
  if negb (rc error =? 0) then fail L (rc error)
  else push_timespec L 0 error.

Definition l_clock_gettime (L : nat) : prog Z :=
  clock_id ← luaL_checkinteger L 1;
  error ← call "clock_gettime" [AZ (to_int clock_id)];
  if negb (rc error =? 0) then fail L (rc error)
  else push_timespec L 0 error.

Definition l_clock_nanosleep (L : nat) : prog Z :=
  clock_id ← luaL_checkinteger L 1;
  flags ← luaL_checkinteger L 2;
  rqt_sec ← luaL_checkinteger L 3;
  rqt_nsec ← luaL_optinteger L 4 0;
  error ← call "clock_nanosleep" [AZ (to_int clock_id); AZ (to_int flags); AZ rqt_sec; AZ rqt_nsec];
  if negb (rc error =? 0) then
    if negb (rc error =? cst "EINTR") then fail L (rc error)
    else push_timespec L 0 error
  else mret 0.

Definition l_clock_settime (L : nat) : prog Z :=
  clock_id ← luaL_checkinteger L 1;
  tv_sec ← luaL_checkinteger L 2;
  tv_nsec ← luaL_optinteger L 3 0;
  error ← call "clock_settime" [AZ (to_int clock_id); AZ tv_sec; AZ tv_nsec];
  if negb (rc error =? 0) then fail L (rc error)
  else mret 0.

Definition l_time_funcs : list (string * string) :=
  [
   ("clock_getcpuclockid", "l_clock_getcpuclockid"); ("clock_getres", "l_clock_getres");
   ("clock_gettime", "l_clock_gettime"); ("clock_nanosleep", "l_clock_nanosleep");
   ("clock_settime", "l_clock_settime")].

Definition time_consts : list (string * Z) :=
  idents [
     "CLOCK_REALTIME"; "CLOCK_REALTIME_PRECISE"; "CLOCK_REALTIME_FAST"; "CLOCK_REALTIME_COARSE";
     "CLOCK_MONOTONIC"; "CLOCK_MONOTONIC_PRECISE"; "CLOCK_MONOTONIC_FAST"; "CLOCK_MONOTONIC_COARSE";
     "CLOCK_BOOTTIME"; "CLOCK_UPTIME"; "CLOCK_UPTIME_PRECISE"; "CLOCK_UPTIME_FAST"; "CLOCK_VIRTUAL";
     "CLOCK_PROF"; "CLOCK_SECOND"; "CLOCK_PROCESS_CPUTIME_ID"; "CLOCK_THREAD_CPUTIME_ID"] ++
  (if cst "#ifdef CLOCK_TAI" =? 0 then [] else idents [
     "CLOCK_TAI"]) ++
  idents [
     "TIMER_ABSTIME"].

Definition luaopen_time (L : nat) : prog Z :=
  luaL_newlib L l_time_funcs;;
  define_all L time_consts;;
  mret 1.
End time.

(** ** stdio: [fileno] as a method of Lua's files *)

Section stdio.
Context `{Consts}.

(** [lua_assert] does nothing unless Lua is compiled for testing *)
Definition l_fileno (L : nat) : prog Z :=
  stream ← luaL_checkudata L 1 LUA_FILEHANDLE;
  f ← load stream stream_f;
  (if cst "#ifdef lua_assert" =? 0 then mret tt else assert_ (negb (f =? 0)) "stream->f != NULL");;
  fd ← call "fileno" [AZ f];
  lua_pushinteger L (rc fd);;
  mret 1.

Definition l_stdio_funcs : list (string * string) :=
  [
   ("fileno", "l_fileno")].

Definition luaopen_stdio (L : nat) : prog Z :=
  luaL_getmetatable L LUA_FILEHANDLE;;
  lua_getfield L (-1) "__index";;
  lua_pushcfunction L "l_fileno";;
  lua_setfield L (-2) "fileno";;
  luaL_newlib L l_stdio_funcs;;
  mret 1.
End stdio.
