(* ===== verification/Kernel.v ===== *)
(** * Modules for the kernel: modules and files of the linker, limits, reboot flags

    One section per module: [sys.module] (lua_module.c), [sys.linker] (lua_linker.c),
    [sys.limits] (lua_limits.c) and [sys.reboot] (lua_reboot.c). *)

From S2P Require Import Prelude LuaApi Machine Capi Utils Modules Cmem Wrapper.

(** ** Modules that are a table of constants *)

Definition open_table (L : nat) (consts : list (string * Z)) : prog Z :=
  lua_newtable L;;
  define_all L consts;;
  mret 1.

(** ** sys.module *)

Section module.
Context `{Consts}.

(** the end of [l_modnext]: no result for 0, an error for -1 *)
Definition next_id (L : nat) (f : string) (r : cret) : prog Z :=
  if rc r =? -1 then
    e ← errno;
    fatal L f e
  else if rc r =? 0 then mret 0
  else
    lua_pushinteger L (rc r);;
    mret 1.

Definition l_modnext (L : nat) : prog Z :=
  modid ← luaL_optinteger L 1 0;
  nextid ← call "modnext" [AZ (to_int modid)];
  next_id L "modnext" nextid.

Definition l_modfnext (L : nat) : prog Z :=
  modid ← luaL_checkinteger L 1;
  nextid ← call "modfnext" [AZ (to_int modid)];
  next_id L "modfnext" nextid.

(** the members of [struct module_stat] are the outs: name, refs, id, data.intval *)
Definition l_modstat (L : nat) : prog Z :=
  modid ← luaL_checkinteger L 1;
  r ← call "modstat" [AZ (to_int modid)];
  if rc r =? -1 then
    e ← errno;
    fail L e
  else
    lua_newtable L;;
    str_field L "name" (out_str 0 r);;
    int_fields L r 1 ["refs"; "id"; "data"];;
    mret 1.

Definition l_modfind (L : nat) : prog Z :=
  modname ← luaL_checkstring L 1;
  modid ← call "modfind" [AS modname];
  if rc modid =? -1 then
    e ← errno;
    fail L e
  else
    lua_pushinteger L (rc modid);;
    mret 1.

Definition l_module_funcs : list (string * string) :=
  [
   ("modnext", "l_modnext"); ("modfnext", "l_modfnext"); ("modstat", "l_modstat");
   ("modfind", "l_modfind")].

Definition luaopen_sys_module (L : nat) : prog Z :=
  luaL_newlib L l_module_funcs;;
  mret 1.

Definition module_wrappers : list wrapped := [
  Wrapped "l_modfind" l_modfind "modfind" [AStr] [] (or_errno (-1) (Pushed [v_int]))].

Lemma module_wrappers_ok : Forall wrapped_ok module_wrappers.
Proof. wrapped_table. Qed.
End module.

(** ** sys.linker *)

Section linker.
Context `{Consts}.

Definition l_kldload (L : nat) : prog Z :=
  file ← luaL_checkstring L 1;
  fileid ← call "kldload" [AS file];
  if rc fileid =? -1 then
    e ← errno;
    fail L e
  else
    lua_pushinteger L (rc fileid);;
    mret 1.

Definition l_kldunload (L : nat) : prog Z :=
  fileid ← luaL_checkinteger L 1;
  flags ← luaL_optinteger L 2 (cst "LINKER_UNLOAD_NORMAL");
  r ← call "kldunloadf" [AZ (to_int fileid); AZ (to_int flags)];
  if rc r =? -1 then
    e ← errno;
    fail L e
  else
    success L.

Definition l_kldfind (L : nat) : prog Z :=
  file ← luaL_checkstring L 1;
  fileid ← call "kldfind" [AS file];
  if rc fileid =? -1 then
    e ← errno;
    fail L e
  else
    lua_pushinteger L (rc fileid);;
    mret 1.

Definition l_kldnext (L : nat) : prog Z :=
  fileid ← luaL_optinteger L 1 0;
  nextid ← call "kldnext" [AZ (to_int fileid)];
  next_id L "kldnext" nextid.

(** the members of [struct kld_file_stat] are the outs: name, refs, id, address, size, pathname *)
Definition l_kldstat (L : nat) : prog Z :=
  fileid ← luaL_checkinteger L 1;
  r ← call "kldstat" [AZ (to_int fileid)];
  if rc r =? -1 then
    e ← errno;
    fail L e
  else
    lua_newtable L;;
    str_field L "name" (out_str 0 r);;
    int_fields L r 1 ["refs"; "id"];;
    lua_pushlightuserdata L (out_int 3 r);;
    lua_setfield L (-2) "address";;
    int_field L "size" (to_long (out_int 4 r));;
    str_field L "pathname" (out_str 5 r);;
    mret 1.

Definition l_kldfirstmod (L : nat) : prog Z :=
  fileid ← luaL_checkinteger L 1;
  modid ← call "kldfirstmod" [AZ (to_int fileid)];
  if rc modid =? -1 then
    e ← errno;
    fail L e
  else
    if rc modid =? 0 then
      mret 0
    else
      lua_pushinteger L (rc modid);;
      mret 1.

Definition l_linker_funcs : list (string * string) :=
  [
   ("kldload", "l_kldload"); ("kldunload", "l_kldunload"); ("kldfind", "l_kldfind");
   ("kldnext", "l_kldnext"); ("kldstat", "l_kldstat"); ("kldfirstmod", "l_kldfirstmod")].

Definition linker_consts : list (string * Z) :=
  idents_of "LINKER_" [
     "UNLOAD_NORMAL"; "UNLOAD_FORCE"].

Definition luaopen_sys_linker (L : nat) : prog Z :=
  luaL_newlib L l_linker_funcs;;
  define_all L linker_consts;;
  mret 1.

Definition linker_wrappers : list wrapped := [
  Wrapped "l_kldload" l_kldload "kldload" [AStr] [] (or_errno (-1) (Pushed [v_int]));
  Wrapped "l_kldunload" l_kldunload "kldunloadf" [AInt to_int; AOptInt (cst "LINKER_UNLOAD_NORMAL") to_int] [] (or_errno (-1) Succeeds);
  Wrapped "l_kldfind" l_kldfind "kldfind" [AStr] [] (or_errno (-1) (Pushed [v_int]))].

Lemma linker_wrappers_ok : Forall wrapped_ok linker_wrappers.
Proof. wrapped_table. Qed.
End linker.

(** ** sys.limits *)

Section limits.
Context `{Consts}.

Definition limits_consts : list (string * Z) :=
  idents [
     "CHAR_BIT"; "SCHAR_MAX"; "SCHAR_MIN"; "UCHAR_MAX"; "CHAR_MAX"; "CHAR_MIN"; "USHRT_MAX";
     "SHRT_MAX"; "SHRT_MIN"; "UINT_MAX"; "INT_MAX"; "INT_MIN"; "ULONG_MAX"; "LONG_MAX"; "LONG_MIN";
     "ULLONG_MAX"; "LLONG_MAX"; "LLONG_MIN"] ++
  (if cst "#ifdef BOOL_WIDTH" =? 0 then [] else idents [
     "BOOL_WIDTH"]) ++
  (if cst "#ifdef CHAR_WIDTH" =? 0 then [] else idents [
     "CHAR_WIDTH"]) ++
  (if cst "#ifdef SCHAR_WIDTH" =? 0 then [] else idents [
     "SCHAR_WIDTH"]) ++
  (if cst "#ifdef UCHAR_WIDTH" =? 0 then [] else idents [
     "UCHAR_WIDTH"]) ++
  (if cst "#ifdef SHRT_WIDTH" =? 0 then [] else idents [
     "SHRT_WIDTH"]) ++
  (if cst "#ifdef USHRT_WIDTH" =? 0 then [] else idents [
     "USHRT_WIDTH"]) ++
  (if cst "#ifdef INT_WIDTH" =? 0 then [] else idents [
     "INT_WIDTH"]) ++
  (if cst "#ifdef UINT_WIDTH" =? 0 then [] else idents [
     "UINT_WIDTH"]) ++
  (if cst "#ifdef LONG_WIDTH" =? 0 then [] else idents [
     "LONG_WIDTH"]) ++
  (if cst "#ifdef ULONG_WIDTH" =? 0 then [] else idents [
     "ULONG_WIDTH"]) ++
  (if cst "#ifdef LLONG_WIDTH" =? 0 then [] else idents [
     "LLONG_WIDTH"]) ++
  (if cst "#ifdef ULLONG_WIDTH" =? 0 then [] else idents [
     "ULLONG_WIDTH"]) ++
  idents [
     "SSIZE_MAX"; "SIZE_T_MAX"; "OFF_MAX"; "OFF_MIN"; "GID_MAX"; "UID_MAX"; "UQUAD_MAX"; "QUAD_MAX";
     "QUAD_MIN"; "LONG_BIT"; "WORD_BIT"; "MQ_PRIO_MAX"].

(** unsigned limits are pushed as the signed integers of the same bits *)
Definition luaopen_sys_limits (L : nat) : prog Z := open_table L (prod_map id to_long <$> limits_consts).
End limits.

(** ** sys.reboot *)

Section reboot.
Context `{Consts}.

Definition reboot_consts : list (string * Z) :=
  idents_of "RB_" [
     "AUTOBOOT"; "ASKNAME"; "SINGLE"; "NOSYNC"; "HALT"; "INITNAME"; "DFLTROOT"; "KDB"; "RDONLY";
     "DUMP"; "MINIROOT"; "VERBOSE"; "SERIAL"; "CDROM"; "POWEROFF"; "GDB"; "MUTE"; "SELFTEST";
     "RESERVED1"; "RESERVED2"; "PAUSE"; "REROOT"; "POWERCYCLE"] ++
  (if cst "#ifdef RB_MUTEMSGS" =? 0 then [] else idents_of "RB_" [
     "MUTEMSGS"]) ++
  (if cst "#ifdef RB_KEXEC" =? 0 then [] else idents_of "RB_" [
     "KEXEC"]) ++
  idents_of "RB_" [
     "PROBE"; "MULTIPLE"; "BOOTINFO"].

Definition luaopen_sys_reboot (L : nat) : prog Z := open_table L reboot_consts.
End reboot.
