(* ===== verification/Passwd.v ===== *)
(** * lua_pwd.c and lua_grp.c: the user and group databases

    An entry is read into a buffer whose size doubles as long as the library answers ERANGE
    ([db_retry]: the loop the six functions share).  The strings of an entry lie in that
    buffer; in the model they are results of the call, which are used only while the buffer is
    there ([in_buffer]). *)

From S2P Require Import Prelude LuaApi Machine Capi Utils Modules Cmem Wrapper.

(** ** The loop *)

Section retry.
Context `{Consts}.

(** an access to the buffer, which must not have been freed *)
Definition in_buffer (buffer : Z) : prog unit := load buffer (fun o => Some (tt, o)).

(** the first out of [f] is [result]; the others are the members of the entry *)
Fixpoint db_retry (fuel : nat) (L : nat) (f : string) (args : list carg) (push_entry : cret -> prog unit)
  (bufsize : Z) : prog Z :=
  match fuel with
  | O => halts (EHalt Diverge)
  | S fuel =>
      buffer ← malloc bufsize (OBuf bufsize "");
      if buffer =? 0 then fatal L "malloc" (cst "ENOMEM")
      else
        error ← call f (args ++ [AZ buffer; AZ bufsize]);
        if negb (rc error =? 0) then
          free buffer;;
          if rc error =? cst "ERANGE" then db_retry fuel L f args push_entry (to_size (bufsize * 2))
          else fail L (rc error)
        else if out_int 0 error =? 0 then
          free buffer;;
          mret 0
        else
          in_buffer buffer;;
          push_entry error;;
          free buffer;;
          mret 1
  end.

(** [PWD_INITIAL_BUFSIZE] and [GRP_INITIAL_BUFSIZE] are [getpagesize()] *)
Definition db_get (fuel : nat) (L : nat) (f : string) (args : list carg) (push_entry : cret -> prog unit) : prog Z :=
  bufsize ← call "getpagesize" [];
  db_retry fuel L f args push_entry (to_size (rc bufsize)).
End retry.

(** ** pwd *)

Section pwd.
Context `{Consts} (fuel : nat).

(** the members: pw_name, pw_passwd, pw_class, pw_gecos, pw_dir, pw_shell, pw_uid, pw_gid,
    pw_change, pw_expire *)
Definition pushpasswd (L : nat) (pwd : cret) : prog unit :=
  lua_newtable L;;
  str_fields L pwd 1 ["name"; "passwd"; "class"; "gecos"; "dir"; "shell"];;
  int_fields L pwd 7 ["uid"; "gid"; "change"; "expire"].

Definition l_getpwent (L : nat) : prog Z := db_get fuel L "getpwent_r" [] (pushpasswd L).

Definition l_getpwnam (L : nat) : prog Z :=
  name ← luaL_checkstring L 1;
  db_get fuel L "getpwnam_r" [AS name] (pushpasswd L).

Definition l_getpwuid (L : nat) : prog Z :=
  uid ← luaL_checkinteger L 1;
  db_get fuel L "getpwuid_r" [AZ (to_uint uid)] (pushpasswd L).

Definition l_setpassent (L : nat) : prog Z :=
  luaL_checktype L 1 TBOOLEAN;;
  stayopen ← lua_toboolean L 1;
  r ← call "setpassent" [AZ (Z_of_bool stayopen)];
  lua_pushboolean L (negb (rc r =? 0));;
  mret 1.

Definition l_setpwent (L : nat) : prog Z :=
  call "setpwent" [];;
  mret 0.

Definition l_endpwent (L : nat) : prog Z :=
  call "endpwent" [];;
  mret 0.

Definition l_pwd_funcs : list (string * string) :=
  [
   ("getpwent", "l_getpwent"); ("getpwnam", "l_getpwnam"); ("getpwuid", "l_getpwuid");
   ("setpassent", "l_setpassent"); ("setpwent", "l_setpwent"); ("endpwent", "l_endpwent")].

Definition luaopen_pwd (L : nat) : prog Z :=
  luaL_newlib L l_pwd_funcs;;
  mret 1.
Definition pwd_wrappers : list wrapped := [
  Wrapped "l_setpwent" l_setpwent "setpwent" [] [] RNone;
  Wrapped "l_endpwent" l_endpwent "endpwent" [] [] RNone].

Lemma pwd_wrappers_ok : Forall wrapped_ok pwd_wrappers.
Proof. wrapped_table. Qed.
End pwd.

(** ** grp *)

Section grp.
Context `{Consts} (fuel : nat).

(** [for (mem = grp->gr_mem; *mem != NULL; mem++)] *)
Fixpoint push_members (L : nat) (mem : list carg) : prog unit :=
  match mem with
  | AS s :: mem =>
      lua_pushstring L s;;
      n ← luaL_len L (-2);
      lua_rawseti L (-2) (n + 1);;
      push_members L mem
  | _ => mret tt
  end.

(** the members: gr_name, gr_passwd, gr_gid, then the names of gr_mem *)
Definition pushgroup (L : nat) (grp : cret) : prog unit :=
  lua_newtable L;;
  str_field L "name" (out_str 1 grp);;
  str_field L "passwd" (out_str 2 grp);;
  int_field L "gid" (out_int 3 grp);;
  lua_newtable L;;
  push_members L (drop 4 (outs grp));;
  lua_setfield L (-2) "mem".

Definition l_getgrent (L : nat) : prog Z := db_get fuel L "getgrent_r" [] (pushgroup L).

Definition l_getgrnam (L : nat) : prog Z :=
  name ← luaL_checkstring L 1;
  db_get fuel L "getgrnam_r" [AS name] (pushgroup L).

Definition l_getgrgid (L : nat) : prog Z :=
  gid ← luaL_checkinteger L 1;
  db_get fuel L "getgrgid_r" [AZ (to_uint gid)] (pushgroup L).

Definition l_setgroupent (L : nat) : prog Z :=
  luaL_checktype L 1 TBOOLEAN;;
  stayopen ← lua_toboolean L 1;
  r ← call "setgroupent" [AZ (Z_of_bool stayopen)];
  lua_pushboolean L (negb (rc r =? 0));;
  mret 1.

Definition l_setgrent (L : nat) : prog Z :=
  call "setgrent" [];;
  mret 0.

Definition l_endgrent (L : nat) : prog Z :=
  call "endgrent" [];;
  mret 0.

Definition l_grp_funcs : list (string * string) :=
  [
   ("getgrent", "l_getgrent"); ("getgrnam", "l_getgrnam"); ("getgrgid", "l_getgrgid");
   ("setgroupent", "l_setgroupent"); ("setgrent", "l_setgrent"); ("endgrent", "l_endgrent")].

Definition luaopen_grp (L : nat) : prog Z :=
  luaL_newlib L l_grp_funcs;;
  mret 1.
Definition grp_wrappers : list wrapped := [
  Wrapped "l_setgrent" l_setgrent "setgrent" [] [] RNone;
  Wrapped "l_endgrent" l_endgrent "endgrent" [] [] RNone].

Lemma grp_wrappers_ok : Forall wrapped_ok grp_wrappers.
Proof. wrapped_table. Qed.
End grp.
