(* ===== verification/Files.v ===== *)
(** * Files: lua_stat.c, lua_fcntl.c, lua_dirent.c

    One section per module: [sys.stat] with its header, [fcntl] and [dirent].  A structure a
    call fills is among its results, a structure it takes among its arguments, member by
    member. *)

From S2P Require Import Prelude LuaApi Machine Capi Utils Modules Cmem Wrapper.

(** ** sys.stat *)

Section stat.
Context `{Consts}.

Definition l_chflags (L : nat) : prog Z :=
  path ← luaL_checkstring L 1;
  flags ← luaL_checkinteger L 2;
  r ← call "chflags" [AS path; AZ (to_size flags)];
  if rc r =? -1 then
    e ← errno;
    fail L e
  else
    success L.

Definition l_lchflags (L : nat) : prog Z :=
  path ← luaL_checkstring L 1;
  flags ← luaL_checkinteger L 2;
  r ← call "lchflags" [AS path; AZ (to_size flags)];
  if rc r =? -1 then
    e ← errno;
    fail L e
  else
    success L.

Definition l_fchflags (L : nat) : prog Z :=
  fd ← checkfd L 1;
  flags ← luaL_checkinteger L 2;
  r ← call "fchflags" [AZ fd; AZ (to_size flags)];
  if rc r =? -1 then
    e ← errno;
    fail L e
  else
    success L.

Definition l_chflagsat (L : nat) : prog Z :=
  fd ← luaL_checkinteger L 1;
  path ← luaL_checkstring L 2;
  flags ← luaL_checkinteger L 3;
  atflag ← luaL_checkinteger L 4;
  r ← call "chflagsat" [AZ (to_int fd); AS path; AZ (to_size flags); AZ (to_int atflag)];
  if rc r =? -1 then
    e ← errno;
    fail L e
  else
    success L.

(** [INTFIELD]: most members are unsigned and pushed as the signed integer of the same bits *)
Definition INTFIELD (L : nat) (sb : cret) (name : string) (i : nat) : prog unit :=
  int_field L name (to_long (out_int i sb)).

Definition TIMEFIELD (L : nat) (sb : cret) (name : string) (i : nat) : prog unit :=
  lua_createtable L 0 2;;
  int_field L "sec" (out_int i sb);;
  int_field L "nsec" (out_int (S i) sb);;
  lua_setfield L (-2) name.

(** the outs: dev, ino, nlink, mode, bsdflags, uid, gid, rdev, size, blocks, blksize, flags, gen,
    filerev, and seconds and nanoseconds of four times *)
Definition pushstat (L : nat) (sb : cret) : prog unit :=
  lua_newtable L;;
  INTFIELD L sb "dev" 0;;
  INTFIELD L sb "ino" 1;;
  INTFIELD L sb "nlink" 2;;
  INTFIELD L sb "mode" 3;;
  (if cst "#ifdef SFBSD_NAMEDATTR" =? 0 then mret tt else INTFIELD L sb "bsdflags" 4);;
  INTFIELD L sb "uid" 5;;
  INTFIELD L sb "gid" 6;;
  INTFIELD L sb "rdev" 7;;
  INTFIELD L sb "size" 8;;
  INTFIELD L sb "blocks" 9;;
  INTFIELD L sb "blksize" 10;;
  INTFIELD L sb "flags" 11;;
  INTFIELD L sb "gen" 12;;
  (if 1402501 <? cst "__FreeBSD_version" then INTFIELD L sb "filerev" 13 else mret tt);;
  TIMEFIELD L sb "atim" 14;;
  TIMEFIELD L sb "mtim" 16;;
  TIMEFIELD L sb "ctim" 18;;
  TIMEFIELD L sb "birthtim" 20.

(** the end of [l_stat] *)
Definition stat_done (L : nat) (r : cret) : prog Z :=
  if rc r =? -1 then
    e ← errno;
    fail L e
  else
    pushstat L r;;
    mret 1.

Definition l_stat (L : nat) : prog Z :=
  path ← luaL_checkstring L 1;
  r ← call "stat" [AS path];
  stat_done L r.

Definition l_lstat (L : nat) : prog Z :=
  path ← luaL_checkstring L 1;
  r ← call "lstat" [AS path];
  stat_done L r.

Definition l_fstat (L : nat) : prog Z :=
  fd ← checkfd L 1;
  r ← call "fstat" [AZ fd];
  stat_done L r.

Definition l_fstatat (L : nat) : prog Z :=
  fd ← luaL_checkinteger L 1;
  path ← luaL_checkstring L 2;
  flag ← luaL_checkinteger L 3;
  r ← call "fstatat" [AZ (to_int fd); AS path; AZ (to_int flag)];
  stat_done L r.

(** [S_TYPE]: the eight functions [l_s_isdir], ..., [l_s_iswht] *)
Definition S_TYPE (U : string) (L : nat) : prog Z :=
  mode ← luaL_checkinteger L 1;
  r ← call ("S_IS" +:+ U) [AZ (to_uint mode)];
  lua_pushboolean L (negb (rc r =? 0));;
  mret 1.

Definition S_TYPES : list (string * string) :=
  [("dir", "DIR"); ("chr", "CHR"); ("blk", "BLK"); ("reg", "REG"); ("fifo", "FIFO");
   ("lnk", "LNK"); ("sock", "SOCK"); ("wht", "WHT")].

Definition l_stat_funcs : list (string * string) :=
  [("chflags", "l_chflags"); ("lchflags", "l_lchflags"); ("fchflags", "l_fchflags");
   ("chflagsat", "l_chflagsat"); ("stat", "l_stat"); ("lstat", "l_lstat"); ("fstat", "l_fstat");
   ("fstatat", "l_fstatat")] ++
  map (fun t => ("is" +:+ t.1, "l_s_is" +:+ t.1)) S_TYPES.

Definition stat_consts : list (string * Z) :=
  idents [
     "S_ISUID"; "S_ISGID"; "S_ISTXT"; "S_IRWXU"; "S_IRUSR"; "S_IWUSR"; "S_IXUSR"; "S_IREAD";
     "S_IWRITE"; "S_IEXEC"; "S_IRWXG"; "S_IRGRP"; "S_IWGRP"; "S_IXGRP"; "S_IRWXO"; "S_IROTH";
     "S_IWOTH"; "S_IXOTH"; "S_IFMT"; "S_IFIFO"; "S_IFCHR"; "S_IFDIR"; "S_IFBLK"; "S_IFREG";
     "S_IFLNK"; "S_IFSOCK"; "S_ISVTX"; "S_IFWHT"; "ACCESSPERMS"; "ALLPERMS"; "DEFFILEMODE";
     "S_BLKSIZE"; "UF_SETTABLE"; "UF_NODUMP"; "UF_IMMUTABLE"; "UF_APPEND"; "UF_OPAQUE";
     "UF_NOUNLINK"; "UF_SYSTEM"; "UF_SPARSE"; "UF_OFFLINE"; "UF_REPARSE"; "UF_ARCHIVE";
     "UF_READONLY"; "UF_HIDDEN"; "SF_SETTABLE"; "SF_ARCHIVED"; "SF_IMMUTABLE"; "SF_APPEND";
     "SF_NOUNLINK"; "SF_SNAPSHOT"] ++
  (if cst "#ifdef SFBSD_NAMEDATTR" =? 0 then [] else idents [
     "SFBSD_NAMEDATTR"]) ++
  idents [
     "UTIME_NOW"; "UTIME_OMIT"].

Definition luaopen_sys_stat (L : nat) : prog Z :=
  luaL_newlib L l_stat_funcs;;
  define_all L stat_consts;;
  mret 1.

Definition stat_wrappers : list wrapped := [
  Wrapped "l_chflags" l_chflags "chflags" [AStr; AInt to_size] [] (or_errno (-1) Succeeds);
  Wrapped "l_lchflags" l_lchflags "lchflags" [AStr; AInt to_size] [] (or_errno (-1) Succeeds);
  Wrapped "l_fchflags" l_fchflags "fchflags" [AFd id; AInt to_size] [] (or_errno (-1) Succeeds);
  Wrapped "l_chflagsat" l_chflagsat "chflagsat" [AInt to_int; AStr; AInt to_size; AInt to_int] [] (or_errno (-1) Succeeds)].

Lemma stat_wrappers_ok : Forall wrapped_ok stat_wrappers.
Proof. wrapped_table. Qed.
End stat.

(** ** fcntl *)

Section fcntl.
Context `{Consts}.

Definition l_open (L : nat) : prog Z :=
  path ← luaL_checkstring L 1;
  flags ← luaL_checkinteger L 2;
  fd ← (if negb (Z.land (to_int flags) (cst "O_CREAT") =? 0) then
          mode ← luaL_checkinteger L 3;
          call "open" [AS path; AZ (to_int flags); AZ (to_ushort mode)]
        else call "open" [AS path; AZ (to_int flags)]);
  if rc fd =? -1 then
    e ← errno;
    fail L e
  else
    lua_pushinteger L (rc fd);;
    mret 1.

(** [FIELD] for each member, with the conversion to its type: the members of a structure that
    is zero at first; every field stays on the stack *)
Fixpoint check_fields (L : nat) (idx : Z) (what : string) (fields : list (string * (Z -> Z))) : prog (list carg) :=
  match fields with
  | [] => mret []
  | (name, conv) :: fields =>
      t ← lua_getfield L idx name;
      v ← (if is_type t TNIL then mret 0
           else
             isint ← lua_isinteger L (-1);
             if isint : bool then n ← lua_tointeger L (-1); mret (conv n)
             else luaL_argerror L idx ("invalid " +:+ what +:+ " " +:+ name));
      vs ← check_fields L idx what fields;
      mret (AZ v :: vs)
  end.

(** l_start, l_len: off_t; l_pid: pid_t; l_type, l_whence: short; l_sysid: int *)
Definition FLOCK_FIELDS : list (string * (Z -> Z)) :=
  [("start", id); ("len", id); ("pid", to_int); ("type", wraps 16); ("whence", wraps 16); ("sysid", to_int)].

Definition checkflock (L : nat) (idx : Z) : prog (list carg) :=
  luaL_checktype L idx TTABLE;;
  fl ← check_fields L idx "flock" FLOCK_FIELDS;
  lua_pop L 6;;
  mret fl.

Definition pushflock (L : nat) (fl : cret) : prog unit :=
  lua_newtable L;;
  int_fields L fl 0 FLOCK_FIELDS.*1.

(** is [cmd] one of these, as far as the system has them? *)
Definition is_cmd (cmd : Z) (l : list string) : bool := existsb (fun c => cmd =? cst c) l.
Definition is_ifdef (cmd : Z) (c : string) : bool := negb (cst ("#ifdef " +:+ c) =? 0) && (cmd =? cst c).

Definition l_fcntl (L : nat) : prog Z :=
  fd ← checkfd L 1;
  cmd ← luaL_checkinteger L 2;
  let cmd := to_int cmd in
  if is_ifdef cmd "F_DUP3FD" then luaL_error L "dup3 fcntl cmd not supported"
  else if is_cmd cmd ["F_OGETLK"; "F_OSETLK"; "F_OSETLKW"] then
    luaL_error L "old lock fcntl cmds not supported"
  else if is_cmd cmd ["F_DUPFD"; "F_DUPFD_CLOEXEC"] || is_ifdef cmd "F_DUPFD_CLOFORK" ||
          is_cmd cmd ["F_DUP2FD"; "F_DUP2FD_CLOEXEC"] then
    arg ← checkfd L 3;
    result ← call "fcntl" [AZ fd; AZ cmd; AZ arg];
    if rc result =? -1 then
      e ← errno;
      fail L e
    else
      lua_pushinteger L (rc result);;
      mret 1
  else if is_cmd cmd ["F_GETLK"; "F_SETLK"; "F_SETLKW"; "F_SETLK_REMOTE"] then
    fl ← checkflock L 3;
    result ← call "fcntl" (AZ fd :: AZ cmd :: fl);
    if rc result =? -1 then
      e ← errno;
      fail L e
    else if cmd =? cst "F_GETLK" then
      pushflock L result;;
      mret 1
    else success L
  else if is_cmd cmd ["F_GETFD"; "F_GETFL"; "F_GETOWN"; "F_GET_SEALS"] then
    result ← call "fcntl" [AZ fd; AZ cmd];
    if rc result =? -1 then
      e ← errno;
      fail L e
    else
      lua_pushinteger L (rc result);;
      mret 1
  else if is_cmd cmd ["F_ISUNIONSTACK"] then
    result ← call "fcntl" [AZ fd; AZ cmd];
    if rc result =? -1 then
      e ← errno;
      fail L e
    else
      lua_pushboolean L (negb (rc result =? 0));;
      mret 1
  else if is_cmd cmd ["F_KINFO"] then luaL_error L "TODO: sys.user"
  else
    arg ← luaL_checkinteger L 3;
    result ← call "fcntl" [AZ fd; AZ cmd; AZ (to_int arg)];
    if rc result =? -1 then
      e ← errno;
      fail L e
    else success L.

Definition l_flock (L : nat) : prog Z :=
  fd ← checkfd L 1;
  operation ← luaL_checkinteger L 2;
  r ← call "flock" [AZ fd; AZ (to_int operation)];
  if rc r =? -1 then
    e ← errno;
    fail L e
  else
    success L.

Definition SR_FIELDS : list (string * (Z -> Z)) := [("offset", id); ("len", id)].

Definition checksr (L : nat) (idx : Z) : prog (list carg) :=
  luaL_checktype L idx TTABLE;;
  sr ← check_fields L idx "spacectl_range" SR_FIELDS;
  lua_pop L 2;;
  mret sr.

Definition pushsr (L : nat) (sr : cret) : prog unit :=
  lua_createtable L 0 2;;
  int_fields L sr 0 SR_FIELDS.*1.

Definition l_fspacectl (L : nat) : prog Z :=
  fd ← checkfd L 1;
  cmd ← luaL_checkinteger L 2;
  rqsr ← checksr L 3;
  flags ← luaL_optinteger L 4 0;
  rmsr ← call "fspacectl" (AZ fd :: AZ (to_int cmd) :: rqsr ++ [AZ (to_int flags)]);
  if rc rmsr =? -1 then
    e ← errno;
    fail L e
  else
    pushsr L rmsr;;
    mret 1.

Definition l_openat (L : nat) : prog Z :=
  atfd ← luaL_checkinteger L 1;
  path ← luaL_checkstring L 2;
  flags ← luaL_checkinteger L 3;
  fd ← (if negb (Z.land (to_int flags) (cst "O_CREAT") =? 0) then
          mode ← luaL_checkinteger L 4;
          call "openat" [AZ (to_int atfd); AS path; AZ (to_int flags); AZ (to_ushort mode)]
        else call "openat" [AZ (to_int atfd); AS path; AZ (to_int flags)]);
  if rc fd =? -1 then
    e ← errno;
    fail L e
  else
    lua_pushinteger L (rc fd);;
    mret 1.

Definition l_posix_fadvise (L : nat) : prog Z :=
  fd ← checkfd L 1;
  offset ← luaL_checkinteger L 2;
  len ← luaL_checkinteger L 3;
  advice ← luaL_checkinteger L 4;
  error ← call "posix_fadvise" [AZ fd; AZ offset; AZ len; AZ (to_int advice)];
  if negb (rc error =? 0) then
    fail L (rc error)
  else
    success L.

Definition l_posix_fallocate (L : nat) : prog Z :=
  fd ← checkfd L 1;
  offset ← luaL_checkinteger L 2;
  len ← luaL_checkinteger L 3;
  error ← call "posix_fallocate" [AZ fd; AZ offset; AZ len];
  if negb (rc error =? 0) then
    fail L (rc error)
  else
    success L.

Definition l_fcntl_funcs : list (string * string) :=
  [
   ("open", "l_open"); ("fcntl", "l_fcntl"); ("flock", "l_flock")] ++
  (if 1400028 <? cst "__FreeBSD_version" then [
   ("fspacectl", "l_fspacectl")] else []) ++
  [
   ("openat", "l_openat"); ("posix_fadvise", "l_posix_fadvise");
   ("posix_fallocate", "l_posix_fallocate")].

Definition fcntl_consts : list (string * Z) :=
  idents [
     "O_RDONLY"; "O_WRONLY"; "O_RDWR"; "O_ACCMODE"; "O_NONBLOCK"; "O_APPEND"; "O_SHLOCK";
     "O_EXLOCK"; "O_ASYNC"; "O_FSYNC"; "O_SYNC"; "O_NOFOLLOW"; "O_CREAT"; "O_TRUNC"; "O_EXCL";
     "O_NOCTTY"; "O_DIRECT"; "O_DIRECTORY"; "O_EXEC"; "O_SEARCH"; "O_TTY_INIT"; "O_CLOEXEC";
     "O_VERIFY"; "O_PATH"; "O_RESOLVE_BENEATH"; "O_DSYNC"; "O_EMPTY_PATH"] ++
  (if cst "#ifdef O_NAMEDATTR" =? 0 then [] else idents [
     "O_NAMEDATTR"]) ++
  (if cst "#ifdef O_CLOFORK" =? 0 then [] else idents [
     "O_CLOFORK"]) ++
  idents [
     "AT_FDCWD"; "AT_EACCESS"; "AT_SYMLINK_NOFOLLOW"; "AT_SYMLINK_FOLLOW"; "AT_REMOVEDIR";
     "AT_RESOLVE_BENEATH"; "AT_EMPTY_PATH"; "F_DUPFD"; "F_GETFD"; "F_SETFD"; "F_GETFL"; "F_SETFL";
     "F_GETOWN"; "F_SETOWN"; "F_DUP2FD"; "F_GETLK"; "F_SETLK"; "F_SETLK_REMOTE"; "F_READAHEAD";
     "F_RDAHEAD"; "F_DUPFD_CLOEXEC"; "F_DUP2FD_CLOEXEC"; "F_ADD_SEALS"; "F_GET_SEALS";
     "F_ISUNIONSTACK"; "F_KINFO"] ++
  (if cst "#ifdef F_DUPFD_CLOFORK" =? 0 then [] else idents [
     "F_DUPFD_CLOFORK"]) ++
  idents [
     "F_SEAL_SEAL"; "F_SEAL_SHRINK"; "F_SEAL_GROW"; "F_SEAL_WRITE"; "FD_CLOEXEC"] ++
  (if cst "#ifdef FD_RESOLVE_BENEATH" =? 0 then [] else idents [
     "FD_RESOLVE_BENEATH"]) ++
  (if cst "#ifdef FD_CLOFORK" =? 0 then [] else idents [
     "FD_CLOFORK"]) ++
  idents [
     "F_RDLCK"; "F_UNLCK"; "F_WRLCK"; "F_UNLCKSYS"; "F_CANCEL"; "LOCK_SH"; "LOCK_EX"; "LOCK_NB";
     "LOCK_UN"; "POSIX_FADV_NORMAL"; "POSIX_FADV_RANDOM"; "POSIX_FADV_SEQUENTIAL";
     "POSIX_FADV_WILLNEED"; "POSIX_FADV_DONTNEED"; "POSIX_FADV_NOREUSE"; "FD_NONE"] ++
  (if cst "#ifdef SPACECTL_DEALLOC" =? 0 then [] else idents [
     "SPACECTL_DEALLOC"]) ++
  (if cst "#ifdef SPACECTL_F_SUPPORTED" =? 0 then [] else idents [
     "SPACECTL_F_SUPPORTED"]).

Definition luaopen_fcntl (L : nat) : prog Z :=
  luaL_newlib L l_fcntl_funcs;;
  define_all L fcntl_consts;;
  mret 1.

Definition fcntl_wrappers : list wrapped := [
  Wrapped "l_flock" l_flock "flock" [AFd id; AInt to_int] [] (or_errno (-1) Succeeds);
  Wrapped "l_posix_fadvise" l_posix_fadvise "posix_fadvise" [AFd id; AInt id; AInt id; AInt to_int] [] (or_code Succeeds);
  Wrapped "l_posix_fallocate" l_posix_fallocate "posix_fallocate" [AFd id; AInt id; AInt id] [] (or_code Succeeds)].

Lemma fcntl_wrappers_ok : Forall wrapped_ok fcntl_wrappers.
Proof. wrapped_table. Qed.
End fcntl.

(** ** dirent *)

Section dirent.
Context `{Consts}.

Definition DIR_METATABLE : string := "DIR".

Definition l_opendir (L : nat) : prog Z :=
  path ← luaL_checkstring L 1;
  dirp ← call "opendir" [AS path];
  if rc dirp =? 0 then
    e ← errno;
    fail L e
  else
    new L (rc dirp) DIR_METATABLE.

Definition l_fdopendir (L : nat) : prog Z :=
  fd ← luaL_checkinteger L 1;
  dirp ← call "fdopendir" [AZ (to_int fd)];
  if rc dirp =? 0 then
    e ← errno;
    fail L e
  else
    new L (rc dirp) DIR_METATABLE.

Definition l_closedir (L : nat) : prog Z :=
  dirp ← checkcookie L 1 DIR_METATABLE;
  r ← call "closedir" [AZ dirp];
  if rc r =? -1 then
    e ← errno;
    fatal L "closedir" e
  else
    setcookie L 1 0;;
    mret 0.

Definition l_dir_gc (L : nat) : prog Z :=
  dirp ← checkcookienull L 1 DIR_METATABLE;
  if negb (dirp =? 0) then
    r ← call "closedir" [AZ dirp];
    if rc r =? -1 then
      e ← errno;
      fatal L "closedir" e
    else mret 0
  else mret 0.

(** the members of [struct dirent] are the outs: d_fileno, d_type, d_name of d_namlen bytes *)
Definition l_readdir (L : nat) : prog Z :=
  dirp ← checkcookie L 1 DIR_METATABLE;
  set_errno 0;;
  ent ← call "readdir" [AZ dirp];
  if rc ent =? 0 then
    e ← errno;
    if e =? 0 then mret 0 else fail L e
  else
    lua_createtable L 0 3;;
    int_field L "fileno" (to_long (out_int 0 ent));;
    int_field L "type" (out_int 1 ent);;
    lua_pushlstring L (out_str 2 ent);;
    lua_setfield L (-2) "name";;
    mret 1.

Definition l_telldir (L : nat) : prog Z :=
  dirp ← checkcookie L 1 DIR_METATABLE;
  loc ← call "telldir" [AZ dirp];
  if rc loc =? -1 then
    e ← errno;
    fail L e
  else
    lua_pushinteger L (rc loc);;
    mret 1.

Definition l_seekdir (L : nat) : prog Z :=
  dirp ← checkcookie L 1 DIR_METATABLE;
  loc ← luaL_checkinteger L 2;
  call "seekdir" [AZ dirp; AZ loc];;
  mret 0.

Definition l_rewinddir (L : nat) : prog Z :=
  dirp ← checkcookie L 1 DIR_METATABLE;
  call "rewinddir" [AZ dirp];;
  mret 0.

Definition l_dirfd (L : nat) : prog Z :=
  dirp ← checkcookie L 1 DIR_METATABLE;
  r ← call "dirfd" [AZ dirp];
  lua_pushinteger L (rc r);;
  mret 1.

Definition l_iftodt (L : nat) : prog Z :=
  mode ← luaL_checkinteger L 1;
  r ← call "IFTODT" [AZ mode];
  lua_pushinteger L (rc r);;
  mret 1.

Definition l_dttoif (L : nat) : prog Z :=
  dirtype ← luaL_checkinteger L 1;
  r ← call "DTTOIF" [AZ dirtype];
  lua_pushinteger L (rc r);;
  mret 1.

Definition l_dirent_funcs : list (string * string) :=
  [
   ("opendir", "l_opendir"); ("fdopendir", "l_fdopendir"); ("iftodt", "l_iftodt");
   ("dttoif", "l_dttoif")].

Definition l_dir_meta : list (string * string) :=
  [
   ("__close", "l_closedir"); ("__gc", "l_dir_gc"); ("read", "l_readdir"); ("tell", "l_telldir");
   ("seek", "l_seekdir"); ("rewind", "l_rewinddir"); ("fd", "l_dirfd")].

Definition dirent_consts : list (string * Z) :=
  idents [
     "DT_UNKNOWN"; "DT_FIFO"; "DT_CHR"; "DT_DIR"; "DT_BLK"; "DT_REG"; "DT_LNK"; "DT_SOCK"; "DT_WHT"].

Definition luaopen_dirent (L : nat) : prog Z :=
  register_type L DIR_METATABLE l_dir_meta;;
  luaL_newlib L l_dirent_funcs;;
  define_all L dirent_consts;;
  mret 1.

Definition dirent_wrappers : list wrapped := [
  Wrapped "l_opendir" l_opendir "opendir" [AStr] [] (or_errno 0 (New DIR_METATABLE));
  Wrapped "l_fdopendir" l_fdopendir "fdopendir" [AInt to_int] [] (or_errno 0 (New DIR_METATABLE));
  Wrapped "l_telldir" l_telldir "telldir" [ACookie DIR_METATABLE] [] (or_errno (-1) (Pushed [v_int]));
  Wrapped "l_seekdir" l_seekdir "seekdir" [ACookie DIR_METATABLE; AInt id] [] RNone;
  Wrapped "l_rewinddir" l_rewinddir "rewinddir" [ACookie DIR_METATABLE] [] RNone;
  Wrapped "l_dirfd" l_dirfd "dirfd" [ACookie DIR_METATABLE] [] (Pushed [v_int])].

Lemma dirent_wrappers_ok : Forall wrapped_ok dirent_wrappers.
Proof. wrapped_table. Qed.
End dirent.
