(* ===== verification/Descriptors.v ===== *)
(** * Descriptors as objects: lua_eventfd.c, lua_procdesc.c, lua_inotify.c

    Each module keeps a file descriptor in a user value of an object that closes it when it is
    collected; a closed object has nil instead.  [sys.inotify] also takes the events apart
    that one [read] returns ([pushevent]). *)

From Stdlib Require Import Ascii.
From S2P Require Import Prelude LuaApi Machine Capi Utils Modules Cmem Wrapper.

Definition FILEDESC : nat := 1.

(** ** sys.eventfd *)

Section eventfd.
Context `{Consts}.

Definition EVENTFD_METATABLE : string := "eventfd".

Definition checkeventfdnil (L : nat) (idx : Z) : prog unit :=
  luaL_checkudata L idx EVENTFD_METATABLE;;
  lua_getiuservalue L idx FILEDESC;;
  mret tt.

Definition checkeventfd (L : nat) (idx : Z) : prog Z :=
  checkeventfdnil L idx;;
  isint ← lua_isinteger L (-1);
  luaL_argcheck L isint idx "invalid eventfd (closed)";;
  fd ← lua_tointeger L (-1);
  lua_pop L 1;;
  mret (to_int fd).

Definition neweventfd (L : nat) (fd : Z) : prog Z :=
  lua_newuserdata0 L 1%nat;;
  lua_pushinteger L fd;;
  lua_setiuservalue L (-2) FILEDESC;;
  luaL_setmetatable L EVENTFD_METATABLE;;
  mret 1.

Definition l_eventfd_close (L : nat) : prog Z :=
  checkeventfdnil L 1;;
  isnil ← lua_is L (-1) TNIL;
  if isnil : bool then success L
  else
    fd ← lua_tointeger L (-1);
    r ← call "close" [AZ (to_int fd)];
    if rc r =? -1 then
      e ← errno;
      fail L e
    else
      lua_pushnil L;;
      lua_setiuservalue L 1 FILEDESC;;
      success L.

Definition l_eventfd_fileno (L : nat) : prog Z :=
  fd ← checkeventfd L 1;
  lua_pushinteger L fd;;
  mret 1.

Definition l_eventfd_wrap (L : nat) : prog Z :=
  fd ← luaL_checkinteger L 1;
  neweventfd L (to_int fd).

Definition l_eventfd (L : nat) : prog Z :=
  initval ← luaL_checkinteger L 1;
  flags ← luaL_optinteger L 2 0;
  fd ← call "eventfd" [AZ (to_uint initval); AZ (to_int flags)];
  if rc fd =? -1 then
    e ← errno;
    fail L e
  else neweventfd L (rc fd).

Definition l_eventfd_read (L : nat) : prog Z :=
  fd ← checkeventfd L 1;
  r ← call "eventfd_read" [AZ fd];
  if rc r =? -1 then
    e ← errno;
    fail L e
  else
    lua_pushinteger L (to_long (out_int 0 r));;
    mret 1.

Definition l_eventfd_write (L : nat) : prog Z :=
  fd ← checkeventfd L 1;
  value ← luaL_checkinteger L 2;
  r ← call "eventfd_write" [AZ fd; AZ (to_size value)];
  if rc r =? -1 then
    e ← errno;
    fail L e
  else success L.

Definition l_eventfd_funcs : list (string * string) :=
  [
   ("eventfd", "l_eventfd"); ("wrap", "l_eventfd_wrap")].

Definition l_eventfd_meta : list (string * string) :=
  [
   ("__close", "l_eventfd_close"); ("__gc", "l_eventfd_close"); ("close", "l_eventfd_close");
   ("fileno", "l_eventfd_fileno"); ("read", "l_eventfd_read"); ("write", "l_eventfd_write")].

Definition eventfd_consts : list (string * Z) :=
  idents_of "EFD_" [
     "CLOEXEC"; "NONBLOCK"; "SEMAPHORE"].

Definition luaopen_sys_eventfd (L : nat) : prog Z :=
  register_type L EVENTFD_METATABLE l_eventfd_meta;;
  luaL_newlib L l_eventfd_funcs;;
  define_all L eventfd_consts;;
  mret 1.
End eventfd.

(** ** sys.procdesc *)

Section procdesc.
Context `{Consts}.

Definition PROCDESC_METATABLE : string := "procdesc".

Definition checkprocdescnil (L : nat) (idx : Z) : prog unit :=
  luaL_checkudata L idx PROCDESC_METATABLE;;
  lua_getiuservalue L idx FILEDESC;;
  mret tt.

Definition checkprocdesc (L : nat) (idx : Z) : prog Z :=
  checkprocdescnil L idx;;
  isint ← lua_isinteger L (-1);
  luaL_argcheck L isint idx "invalid procdesc (closed)";;
  fd ← lua_tointeger L (-1);
  lua_pop L 1;;
  mret (to_int fd).

Definition newprocdesc (L : nat) (fd : Z) : prog Z :=
  lua_newuserdata0 L 1%nat;;
  lua_pushinteger L fd;;
  lua_setiuservalue L (-2) FILEDESC;;
  luaL_setmetatable L PROCDESC_METATABLE;;
  mret 1.

Definition l_procdesc_close (L : nat) : prog Z :=
  checkprocdescnil L 1;;
  isnil ← lua_is L (-1) TNIL;
  if isnil : bool then success L
  else
    fd ← lua_tointeger L (-1);
    r ← call "close" [AZ (to_int fd)];
    if rc r =? -1 then
      e ← errno;
      fail L e
    else
      lua_pushnil L;;
      lua_setiuservalue L 1 FILEDESC;;
      success L.

Definition l_procdesc_fileno (L : nat) : prog Z :=
  fd ← checkprocdesc L 1;
  lua_pushinteger L fd;;
  mret 1.

Definition l_procdesc_wrap (L : nat) : prog Z :=
  fd ← luaL_checkinteger L 1;
  newprocdesc L (to_int fd).

Definition checkprocdescfd (L : nat) (idx : Z) : prog Z :=
  isint ← lua_isinteger L idx;
  if isint : bool then fd ← lua_tointeger L idx; mret (to_int fd)
  else checkprocdesc L idx.

Definition l_pdfork (L : nat) : prog Z :=
  flags ← luaL_optinteger L 1 0;
  pid ← call "pdfork" [AZ (to_int flags)];
  if rc pid =? -1 then
    e ← errno;
    fail L e
  else
    lua_pushinteger L (rc pid);;
    newprocdesc L (out_int 0 pid);;
    mret 2.

Definition l_pdgetpid (L : nat) : prog Z :=
  fd ← checkprocdescfd L 1;
  r ← call "pdgetpid" [AZ fd];
  if rc r =? -1 then
    e ← errno;
    fail L e
  else
    lua_pushinteger L (out_int 0 r);;
    mret 1.

Definition l_pdkill (L : nat) : prog Z :=
  fd ← checkprocdescfd L 1;
  signum ← luaL_checkinteger L 2;
  r ← call "pdkill" [AZ fd; AZ (to_int signum)];
  if rc r =? -1 then
    e ← errno;
    fail L e
  else success L.

Definition l_procdesc_funcs : list (string * string) :=
  [
   ("pdfork", "l_pdfork"); ("pdgetpid", "l_pdgetpid"); ("pdkill", "l_pdkill");
   ("wrap", "l_procdesc_wrap")].

Definition l_procdesc_meta : list (string * string) :=
  [
   ("__close", "l_procdesc_close"); ("__gc", "l_procdesc_close"); ("close", "l_procdesc_close");
   ("fileno", "l_procdesc_fileno"); ("getpid", "l_pdgetpid"); ("kill", "l_pdkill")].

Definition procdesc_consts : list (string * Z) :=
  idents_of "PD_" [
     "DAEMON"; "CLOEXEC"; "ALLOWED_AT_FORK"].

Definition luaopen_sys_procdesc (L : nat) : prog Z :=
  register_type L PROCDESC_METATABLE l_procdesc_meta;;
  luaL_newlib L l_procdesc_funcs;;
  define_all L procdesc_consts;;
  mret 1.
End procdesc.

(** ** sys.inotify *)

Section inotify.
Context `{Consts}.

Definition INOTIFY_METATABLE : string := "inotify fd".

Definition checkinotifynil (L : nat) (idx : Z) : prog unit :=
  luaL_checkudata L idx INOTIFY_METATABLE;;
  lua_getiuservalue L idx FILEDESC;;
  mret tt.

Definition checkinotify (L : nat) (idx : Z) : prog Z :=
  checkinotifynil L idx;;
  isint ← lua_isinteger L (-1);
  luaL_argcheck L isint idx "invalid inotify fd (closed)";;
  fd ← lua_tointeger L (-1);
  lua_pop L 1;;
  mret (to_int fd).

Definition newinotify (L : nat) (fd : Z) : prog Z :=
  lua_newuserdata0 L 1%nat;;
  lua_pushinteger L fd;;
  lua_setiuservalue L (-2) FILEDESC;;
  luaL_setmetatable L INOTIFY_METATABLE;;
  mret 1.

Definition l_inotify_close (L : nat) : prog Z :=
  checkinotifynil L 1;;
  isnil ← lua_is L (-1) TNIL;
  if isnil : bool then success L
  else
    fd ← lua_tointeger L (-1);
    r ← call "close" [AZ (to_int fd)];
    if rc r =? -1 then
      e ← errno;
      fail L e
    else
      lua_pushnil L;;
      lua_setiuservalue L 1 FILEDESC;;
      success L.

Definition l_inotify_fileno (L : nat) : prog Z :=
  fd ← checkinotify L 1;
  lua_pushinteger L fd;;
  mret 1.

Definition l_inotify_wrap (L : nat) : prog Z :=
  fd ← luaL_checkinteger L 1;
  newinotify L (to_int fd).

Definition l_inotify_init (L : nat) : prog Z :=
  flags ← luaL_optinteger L 1 0;
  fd ← call "inotify_init1" [AZ (to_int flags)];
  if rc fd =? -1 then
    e ← errno;
    fail L e
  else newinotify L (rc fd).

(** [struct inotify_event]: wd (int), mask, cookie, len (uint32_t), then the name; the
    structure on the stack of [l_inotify_read] has room for a name of NAME_MAX bytes *)
Definition sizeof_inotify_event : Z := 16.
Definition sizeof_event : Z := sizeof_inotify_event + cst "NAME_MAX" + 1.

(** bytes of that structure, whose start has been filled with [s] *)
Definition event_bytes (s : string) (off n : Z) : prog string := local_bytes sizeof_event s off n.

Definition event_uint (s : string) (off n : Z) : prog Z := b ← event_bytes s off n; mret (le_value b).

(** a string that starts at [off]: its terminator must be among the bytes that were filled *)
Definition event_cstr (s : string) (off : Z) : prog string :=
  b ← event_bytes s off (Z.of_nat (String.length s) - off);
  if has_nul b then mret (cstr b) else halts (EHalt (Unspec "the contents of uninitialised memory")).

(** [ie] is an offset into the structure; the result is the next event and what is left *)
Definition pushevent (L : nat) (s : string) (ie resid : Z) : prog (Z * Z) :=
  n ← event_uint s (ie + 12) 4;
  let len := sizeof_inotify_event + n in
  lua_newtable L;;
  wd ← event_uint s ie 4;
  int_field L "wd" (to_int wd);;
  mask ← event_uint s (ie + 4) 4;
  int_field L "mask" mask;;
  (if 0 <? n then
     name ← event_cstr s (ie + 16);
     str_field L "name" name
   else mret tt);;
  mret (ie + len, resid - len).

(** [for (i = 1; len > 0; i++)]: every round takes an event, of 16 bytes at least, off [len] *)
Fixpoint pushevents (n : nat) (L : nat) (s : string) (ie len i : Z) : prog unit :=
  match n with
  | O => mret tt
  | S n =>
      if 0 <? len then
        r ← pushevent L s ie len;
        lua_rawseti L (-2) i;;
        pushevents n L s r.1 r.2 (i + 1)
      else mret tt
  end.

Definition l_inotify_read (L : nat) : prog Z :=
  fd ← checkinotify L 1;
  len ← call "read" [AZ fd; AZ sizeof_event];
  if rc len =? -1 then
    e ← errno;
    fail L e
  else
    lua_newtable L;;
    pushevents (Z.to_nat (rc len)) L (out_str 0 len) 0 (rc len) 1;;
    mret 1.

Definition l_inotify_add_watch (L : nat) : prog Z :=
  fd ← checkinotify L 1;
  pathname ← luaL_checkstring L 2;
  mask ← luaL_checkinteger L 3;
  wd ← call "inotify_add_watch" [AZ fd; AS pathname; AZ (to_uint mask)];
  if rc wd =? -1 then
    e ← errno;
    fail L e
  else
    lua_pushinteger L (rc wd);;
    mret 1.

Definition l_inotify_add_watch_at (L : nat) : prog Z :=
  fd ← checkinotify L 1;
  dfd ← luaL_checkinteger L 2;
  pathname ← luaL_checkstring L 3;
  mask ← luaL_checkinteger L 4;
  wd ← call "inotify_add_watch_at" [AZ fd; AZ (to_int dfd); AS pathname; AZ (to_uint mask)];
  if rc wd =? -1 then
    e ← errno;
    fail L e
  else
    lua_pushinteger L (rc wd);;
    mret 1.

Definition l_inotify_rm_watch (L : nat) : prog Z :=
  fd ← checkinotify L 1;
  wd ← luaL_checkinteger L 2;
  r ← call "inotify_rm_watch" [AZ fd; AZ (to_uint wd)];
  if rc r =? -1 then
    e ← errno;
    fail L e
  else success L.

Definition l_inotify_funcs : list (string * string) :=
  [
   ("init", "l_inotify_init"); ("wrap", "l_inotify_wrap")].

Definition l_inotify_meta : list (string * string) :=
  [
   ("__close", "l_inotify_close"); ("__gc", "l_inotify_close");
   ("add_watch", "l_inotify_add_watch"); ("add_watch_at", "l_inotify_add_watch_at");
   ("rm_watch", "l_inotify_rm_watch"); ("close", "l_inotify_close"); ("fileno", "l_inotify_fileno");
   ("read", "l_inotify_read")].

Definition inotify_consts : list (string * Z) :=
  idents_of "IN_" [
     "NONBLOCK"; "CLOEXEC"; "ACCESS"; "MODIFY"; "ATTRIB"; "CLOSE_WRITE"; "CLOSE_NOWRITE"; "CLOSE";
     "OPEN"; "MOVED_FROM"; "MOVED_TO"; "MOVE"; "CREATE"; "DELETE"; "DELETE_SELF"; "MOVE_SELF";
     "ALL_EVENTS"; "ONLYDIR"; "DONT_FOLLOW"; "EXCL_UNLINK"; "MASK_CREATE"; "MASK_ADD"; "ONESHOT";
     "UNMOUNT"; "Q_OVERFLOW"; "IGNORED"; "ISDIR"].

Definition luaopen_sys_inotify (L : nat) : prog Z :=
  register_type L INOTIFY_METATABLE l_inotify_meta;;
  luaL_newlib L l_inotify_funcs;;
  define_all L inotify_consts;;
  mret 1.
End inotify.
