(* ===== verification/Mqueue.v ===== *)
(** * lua_mqueue.c: message queues

    A queue is a userdata that holds a [mqd_t], -1 for none. *)

From Stdlib Require Import SpecFloat.
From S2P Require Import Prelude LuaApi Machine Capi Utils Modules Cmem Uio Xor Signal Wrapper.

Section mqueue.
Context `{Consts}.

Definition MQD_METATABLE : string := "mqd_t".
Definition sizeof_mqd : Z := 8.
Definition mqd_obj (mq : Z) : obj := OArr [Some (AZ mq)].

(** [attr.mq_maxmsg = (long)lua_tonumber(L, -1)], and [lua_pop(L, -1)], which is
    [lua_settop(L, 0)] *)
Definition attr_number (L : nat) (key : string) : prog Z :=
  lua_pushstring L key;;
  lua_gettable L 4;;
  f ← lua_tonumber L (-1);
  lua_pop L (-1);;
  match float_trunc f with
  | Some z => mret (to_long z)
  | None => undefined "conversion of a double out of range"
  end.

Definition l_mq_open (L : nat) : prog Z :=
  mqp ← lua_newuserdatauv L sizeof_mqd (mqd_obj (-1)) 0;
  luaL_setmetatable L MQD_METATABLE;;
  name ← luaL_checkstring L 1;
  oflag ← luaL_checkinteger L 2;
  let oflag := to_int oflag in
  mq ← (if negb (Z.land oflag (cst "O_CREAT") =? 0) then
          mode ← luaL_checkinteger L 3;
          top ← lua_gettop L;
          if top =? 5 then
            maxmsg ← attr_number L "maxmsg";
            msgsize ← attr_number L "msgsize";
            call "mq_open" [AS name; AZ oflag; AZ (to_ushort mode); AZ maxmsg; AZ msgsize]
          else call "mq_open" [AS name; AZ oflag; AZ (to_ushort mode); AZ 0]
        else call "mq_open" [AS name; AZ oflag]);
  if rc mq =? -1 then
    e ← errno;
    fail L e
  else
    load mqp (arr_set 0 (AZ (rc mq)));;
    mret 1.

Definition l_mq_close (L : nat) : prog Z :=
  mqp ← luaL_checkudata L 1 MQD_METATABLE;
  mq ← arr_load mqp 0;
  load mqp (arr_set 0 (AZ (-1)));;
  r ← call "mq_close" [AZ mq];
  if rc r =? -1 then
    e ← errno;
    fail L e
  else success L.

Definition l_mq_unlink (L : nat) : prog Z :=
  name ← luaL_checkstring L 1;
  r ← call "mq_unlink" [AS name];
  if rc r =? -1 then
    e ← errno;
    fail L e
  else
    success L.

(** the members of [struct mq_attr] are the outs *)
Definition l_mq_getattr (L : nat) : prog Z :=
  mqp ← luaL_checkudata L 1 MQD_METATABLE;
  mq ← arr_load mqp 0;
  r ← call "mq_getattr" [AZ mq];
  if rc r =? -1 then
    e ← errno;
    fail L e
  else
    lua_newtable L;;
    int_fields L r 0 ["flags"; "maxmsg"; "msgsize"; "curmsgs"];;
    mret 1.

(** the other members of the structure are not written *)
Definition l_mq_setattr (L : nat) : prog Z :=
  mqp ← luaL_checkudata L 1 MQD_METATABLE;
  mq_flags ← luaL_checkinteger L 2;
  mq ← arr_load mqp 0;
  r ← call "mq_setattr" [AZ mq; AZ mq_flags];
  if rc r =? -1 then
    e ← errno;
    fail L e
  else success L.

Definition l_mq_notify (L : nat) : prog Z :=
  mqp ← luaL_checkudata L 1 MQD_METATABLE;
  none ← lua_isnoneornil L 2;
  notification ← (if none : bool then mret None
    else ev ← checksigevent (fun name v sig => mret ((name, v) :: sig)) L 2 []; mret (Some ev));
  mq ← arr_load mqp 0;
  r ← call "mq_notify" (AZ mq :: match notification with
                                 | None => [AZ 0]
                                 | Some ev => AZ 1 :: concat ((fun kv => [AS kv.1; AZ kv.2]) <$> ev)
                                 end);
  if rc r =? -1 then
    e ← errno;
    fail L e
  else success L.

Definition l_mq_send (L : nat) : prog Z :=
  mqp ← luaL_checkudata L 1 MQD_METATABLE;
  msg ← luaL_checklstring L 2;
  prio ← luaL_checkinteger L 3;
  mq ← arr_load mqp 0;
  r ← call "mq_send" [AZ mq; AS msg; AZ (Z.of_nat (String.length msg)); AZ (to_uint prio)];
  if rc r =? -1 then
    e ← errno;
    fail L e
  else success L.

(** the end of [l_mq_receive]: the buffer is not freed *)
Definition received (L : nat) (buf : Z) (len : cret) : prog Z :=
  if rc len =? -1 then
    error ← errno;
    free buf;;
    fail L error
  else
    push_bytes L buf (rc len);;
    lua_pushinteger L (out_int 0 len);;
    mret 2.

Definition l_mq_receive (L : nat) : prog Z :=
  mqp ← luaL_checkudata L 1 MQD_METATABLE;
  buflen ← luaL_checkinteger L 2;
  let buflen := to_size buflen in
  buf ← malloc buflen (OBuf buflen "");
  if buf =? 0 then fatal L "malloc" (cst "ENOMEM")
  else
    mq ← arr_load mqp 0;
    len ← call "mq_receive" [AZ mq; AZ buf; AZ buflen];
    received L buf len.

Definition l_mq_timedsend (L : nat) : prog Z :=
  mqp ← luaL_checkudata L 1 MQD_METATABLE;
  msg ← luaL_checklstring L 2;
  prio ← luaL_checkinteger L 3;
  tv_sec ← luaL_checkinteger L 4;
  tv_nsec ← luaL_optinteger L 5 0;
  mq ← arr_load mqp 0;
  r ← call "mq_timedsend"
    [AZ mq; AS msg; AZ (Z.of_nat (String.length msg)); AZ (to_uint prio); AZ tv_sec; AZ tv_nsec];
  if rc r =? -1 then
    e ← errno;
    fail L e
  else success L.

Definition l_mq_timedreceive (L : nat) : prog Z :=
  mqp ← luaL_checkudata L 1 MQD_METATABLE;
  buflen ← luaL_checkinteger L 2;
  tv_sec ← luaL_checkinteger L 3;
  tv_nsec ← luaL_optinteger L 4 0;
  let buflen := to_size buflen in
  buf ← malloc buflen (OBuf buflen "");
  if buf =? 0 then fatal L "malloc" (cst "ENOMEM")
  else
    mq ← arr_load mqp 0;
    len ← call "mq_timedreceive" [AZ mq; AZ buf; AZ buflen; AZ tv_sec; AZ tv_nsec];
    received L buf len.

Definition l_mq_getfd_np (L : nat) : prog Z :=
  mqp ← luaL_checkudata L 1 MQD_METATABLE;
  mq ← arr_load mqp 0;
  fd ← call "mq_getfd_np" [AZ mq];
  lua_pushinteger L (rc fd);;
  mret 1.

Definition l_mq_gc (L : nat) : prog Z :=
  mqp ← luaL_checkudata L 1 MQD_METATABLE;
  mq ← arr_load mqp 0;
  if mq =? -1 then mret 0
  else
    load mqp (arr_set 0 (AZ (-1)));;
    r ← call "mq_close" [AZ mq];
    if rc r =? -1 then
      e ← errno;
      fail L e
    else mret 0.

Definition l_mqueue_funcs : list (string * string) :=
  [
   ("open", "l_mq_open"); ("unlink", "l_mq_unlink")].

Definition l_mqd_meta : list (string * string) :=
  [
   ("__close", "l_mq_gc"); ("__gc", "l_mq_gc"); ("close", "l_mq_close");
   ("getattr", "l_mq_getattr"); ("setattr", "l_mq_setattr"); ("notify", "l_mq_notify");
   ("send", "l_mq_send"); ("receive", "l_mq_receive"); ("timedsend", "l_mq_timedsend");
   ("timedreceive", "l_mq_timedreceive"); ("getfd", "l_mq_getfd_np")].

Definition luaopen_mqueue (L : nat) : prog Z :=
  register_type L MQD_METATABLE l_mqd_meta;;
  luaL_newlib L l_mqueue_funcs;;
  mret 1.

Definition mqueue_wrappers : list wrapped := [
  Wrapped "l_mq_unlink" l_mq_unlink "mq_unlink" [AStr] [] (or_errno (-1) Succeeds)].

Lemma mqueue_wrappers_ok : Forall wrapped_ok mqueue_wrappers.
Proof. wrapped_table. Qed.
End mqueue.
