(* ===== verification/Mac.v ===== *)
(** * lua_mac.c: mandatory access control labels

    A label is a cookie of type "mac_t".  Most functions are one call ([mac_wrappers]);
    [l_mac_execve] builds the argument and the environment vectors of the new program in
    memory: the strings of the arguments stay in the Lua state, those of the environment are
    made by [asprintf]. *)

From S2P Require Import Prelude LuaApi Machine Capi Utils Modules Cmem Uio Wrapper.

Section mac.
Context `{Consts}.

Definition MAC_METATABLE : string := "mac_t".

Definition l_mac_is_present (L : nat) : prog Z :=
  policyname ← luaL_optstring L 1;
  present ← call "mac_is_present" [null_or policyname];
  if rc present =? -1 then
    e ← errno;
    fail L e
  else
    lua_pushboolean L (negb (rc present =? 0));;
    mret 1.

Definition l_mac_syscall (L : nat) : prog Z :=
  policyname ← luaL_checkstring L 1;
  call_ ← luaL_checkinteger L 2;
  none ← lua_isnoneornil L 3;
  p ← (if none : bool then mret None else s ← luaL_checklstring L 3; mret (Some s));
  let len := match p with None => 0 | Some s => Z.of_nat (String.length s) end in
  arg ← match p with
        | None => mret 0
        | Some s =>
            arg ← malloc len (OBuf len s);
            if arg =? 0 then fatal L "malloc" (cst "ENOMEM") else mret arg
        end;
  r ← call "mac_syscall" [AS policyname; AZ (to_int call_); AZ arg];
  if rc r =? -1 then
    error ← errno;
    free arg;;
    fail L error
  else
    push_bytes L arg len;;
    free arg;;
    mret 1.

Definition l_mac_from_text (L : nat) : prog Z :=
  text ← luaL_checkstring L 1;
  r ← call "mac_from_text" [AS text];
  if rc r =? -1 then
    e ← errno;
    fail L e
  else
    new L (out_int 0 r) MAC_METATABLE.

Definition l_mac_prepare (L : nat) : prog Z :=
  elements ← luaL_checkstring L 1;
  r ← call "mac_prepare" [AS elements];
  if rc r =? -1 then
    e ← errno;
    fail L e
  else
    new L (out_int 0 r) MAC_METATABLE.

Definition l_mac_prepare_file_label (L : nat) : prog Z :=
  r ← call "mac_prepare_file_label" [];
  if rc r =? -1 then
    e ← errno;
    fail L e
  else
    new L (out_int 0 r) MAC_METATABLE.

Definition l_mac_prepare_ifnet_label (L : nat) : prog Z :=
  r ← call "mac_prepare_ifnet_label" [];
  if rc r =? -1 then
    e ← errno;
    fail L e
  else
    new L (out_int 0 r) MAC_METATABLE.

Definition l_mac_prepare_process_label (L : nat) : prog Z :=
  r ← call "mac_prepare_process_label" [];
  if rc r =? -1 then
    e ← errno;
    fail L e
  else
    new L (out_int 0 r) MAC_METATABLE.

Definition l_mac_prepare_type (L : nat) : prog Z :=
  type_ ← luaL_checkstring L 1;
  r ← call "mac_prepare_type" [AS type_];
  if rc r =? -1 then
    e ← errno;
    fail L e
  else
    new L (out_int 0 r) MAC_METATABLE.

Definition l_mac_gc (L : nat) : prog Z :=
  label ← checkcookie L 1 MAC_METATABLE;
  r ← call "mac_free" [AZ label];
  if rc r =? -1 then
    e ← errno;
    fatal L "mac_free" e
  else
    mret 0.

(** ** l_mac_execve *)

(** the variable of the C library *)
Definition environ : prog Z := r ← call "environ" []; mret (rc r).

Definition freeenvv (envv envc : Z) : prog unit :=
  e ← environ;
  if envv =? e then mret tt
  else
    for_ (Z.to_nat envc) 0 (fun i => p ← arr_load envv (Z.to_nat i); free p);;
    free envv.

(** what ["%.*s"] writes *)
Definition precision (n : Z) (s : string) : string :=
  if n <? 0 then cstr s else cstr (String.substring 0 (Z.to_nat n) s).

(** [asprintf(&envv[i], ...)] of a string [s] *)
Definition asprintf (envv i : Z) (s : string) : prog Z :=
  p ← strdup s;
  set_elt envv i (AZ p);;
  mret (if p =? 0 then -1 else Z.of_nat (String.length s)).

Fixpoint count_pairs (fuel : nat) (L : nat) (envc : Z) : prog Z :=
  match fuel with
  | O => halts (EHalt Diverge)
  | S fuel =>
      more ← lua_next L 4;
      if more : bool then
        lua_pop L 1;;
        count_pairs fuel L (envc + 1)
      else mret envc
  end.

(** a round of the second loop over the table *)
Definition set_env (L : nat) (argv envv envc i : Z) : prog unit :=
  lua_next L 4;;
  name ← lua_tolstring_null L (-2);
  value ← (match name with None => mret None | Some _ => lua_tolstring_null L (-1) end);
  match name, value with
  | Some name, Some value =>
      r ← asprintf envv i
        (precision (to_int (Z.of_nat (String.length name))) name +:+ "=" +:+
         precision (to_int (Z.of_nat (String.length value))) value);
      if r =? -1 then
        error ← errno;
        freeenvv envv envc;;
        free argv;;
        fatal L "asprintf" error
      else lua_pop L 1
  | _, _ =>
      freeenvv envv envc;;
      free argv;;
      luaL_argerror L 4 "string conversion failed"
  end.

Definition new_env (fuel : nat) (L : nat) (argv : Z) : prog (Z * Z) :=
  lua_pushnil L;;
  envc ← count_pairs fuel L 0;
  envv ← calloc (to_size ((envc + 1) * sizeof_ptr)) (OArr (replicate (Z.to_nat (envc + 1)) (Some (AZ 0))));
  if envv =? 0 then
    free argv;;
    fatal L "malloc" (cst "ENOMEM")
  else
    lua_pushnil L;;
    for_ (Z.to_nat envc) 0 (set_env L argv envv envc);;
    mret (envv, envc).

(** [fuel]: more than the pairs of the table; [mac_execve] does not return when it succeeds *)
Definition l_mac_execve (fuel : nat) (L : nat) : prog Z :=
  label ← checkcookie L 1 MAC_METATABLE;
  fname ← luaL_checkstring L 2;
  luaL_checktype L 3 TTABLE;;
  istable ← lua_is L 4 TTABLE;
  envv ← (if istable : bool then mret 0 else environ);
  n ← luaL_len L 3;
  let argc := to_int n in
  argv ← malloc (to_size ((argc + 1) * sizeof_ptr)) (OArr (replicate (Z.to_nat (argc + 1)) None));
  if argv =? 0 then fatal L "malloc" (cst "ENOMEM")
  else
    for_ (Z.to_nat argc) 0 (fun i =>
      lua_geti L 3 (i + 1);;
      s ← lua_tolstring_null L (-1);
      set_elt argv i (match s with Some s => AS (cstr s) | None => AZ 0 end));;
    set_elt argv argc (AZ 0);;
    env ← (if envv =? 0 then new_env fuel L argv else mret (envv, 0));
    let '(envv, envc) := env : Z * Z in
    call "mac_execve" [AS fname; AZ argv; AZ envv; AZ label];;
    error ← errno;
    freeenvv envv envc;;
    free argv;;
    fail L error.

(** ** Labels of objects *)

Definition l_mac_get (L : nat) : prog Z :=
  label ← checkcookie L 1 MAC_METATABLE;
  s ← luaL_checkudata L 2 LUA_FILEHANDLE;
  with_fileno L s (fun fd =>
    r ← call "mac_get_fd" [AZ fd; AZ label];
    or_fail L r (success L)).

Definition l_mac_get_fd (L : nat) : prog Z :=
  label ← checkcookie L 1 MAC_METATABLE;
  fd ← luaL_checkinteger L 2;
  r ← call "mac_get_fd" [AZ (to_int fd); AZ label];
  if rc r =? -1 then
    e ← errno;
    fail L e
  else
    success L.

Definition l_mac_get_file (L : nat) : prog Z :=
  label ← checkcookie L 1 MAC_METATABLE;
  path ← luaL_checkstring L 2;
  r ← call "mac_get_file" [AS path; AZ label];
  if rc r =? -1 then
    e ← errno;
    fail L e
  else
    success L.

Definition l_mac_get_link (L : nat) : prog Z :=
  label ← checkcookie L 1 MAC_METATABLE;
  path ← luaL_checkstring L 2;
  r ← call "mac_get_link" [AS path; AZ label];
  if rc r =? -1 then
    e ← errno;
    fail L e
  else
    success L.

Definition l_mac_get_peer (L : nat) : prog Z :=
  label ← checkcookie L 1 MAC_METATABLE;
  fd ← luaL_checkinteger L 2;
  r ← call "mac_get_peer" [AZ (to_int fd); AZ label];
  if rc r =? -1 then
    e ← errno;
    fail L e
  else
    success L.

Definition l_mac_get_pid (L : nat) : prog Z :=
  label ← checkcookie L 1 MAC_METATABLE;
  pid ← luaL_checkinteger L 2;
  r ← call "mac_get_pid" [AZ (to_int pid); AZ label];
  if rc r =? -1 then
    e ← errno;
    fail L e
  else
    success L.

Definition l_mac_get_proc (L : nat) : prog Z :=
  label ← checkcookie L 1 MAC_METATABLE;
  r ← call "mac_get_proc" [AZ label];
  if rc r =? -1 then
    e ← errno;
    fail L e
  else
    success L.

Definition l_mac_set (L : nat) : prog Z :=
  label ← checkcookie L 1 MAC_METATABLE;
  s ← luaL_checkudata L 2 LUA_FILEHANDLE;
  with_fileno L s (fun fd =>
    r ← call "mac_set_fd" [AZ fd; AZ label];
    or_fail L r (success L)).

Definition l_mac_set_fd (L : nat) : prog Z :=
  label ← checkcookie L 1 MAC_METATABLE;
  fd ← luaL_checkinteger L 2;
  r ← call "mac_set_fd" [AZ (to_int fd); AZ label];
  if rc r =? -1 then
    e ← errno;
    fail L e
  else
    success L.

Definition l_mac_set_file (L : nat) : prog Z :=
  label ← checkcookie L 1 MAC_METATABLE;
  path ← luaL_checkstring L 2;
  r ← call "mac_set_file" [AS path; AZ label];
  if rc r =? -1 then
    e ← errno;
    fail L e
  else
    success L.

Definition l_mac_set_link (L : nat) : prog Z :=
  label ← checkcookie L 1 MAC_METATABLE;
  path ← luaL_checkstring L 2;
  r ← call "mac_set_link" [AS path; AZ label];
  if rc r =? -1 then
    e ← errno;
    fail L e
  else
    success L.

Definition l_mac_set_proc (L : nat) : prog Z :=
  label ← checkcookie L 1 MAC_METATABLE;
  r ← call "mac_set_proc" [AZ label];
  if rc r =? -1 then
    e ← errno;
    fail L e
  else
    success L.

Definition l_mac_to_text (L : nat) : prog Z :=
  label ← checkcookie L 1 MAC_METATABLE;
  r ← call "mac_to_text" [AZ label];
  if rc r =? -1 then
    e ← errno;
    fail L e
  else
    push_cstr L (out_int 0 r);;
    free (out_int 0 r);;
    mret 1.

Definition l_mac_funcs : list (string * string) :=
  [
   ("is_present", "l_mac_is_present"); ("syscall", "l_mac_syscall");
   ("from_text", "l_mac_from_text"); ("prepare", "l_mac_prepare");
   ("prepare_file_label", "l_mac_prepare_file_label");
   ("prepare_ifnet_label", "l_mac_prepare_ifnet_label");
   ("prepare_process_label", "l_mac_prepare_process_label"); ("prepare_type", "l_mac_prepare_type")].

Definition l_mac_meta : list (string * string) :=
  [
   ("__gc", "l_mac_gc"); ("execve", "l_mac_execve"); ("get", "l_mac_get");
   ("get_fd", "l_mac_get_fd"); ("get_file", "l_mac_get_file"); ("get_link", "l_mac_get_link");
   ("get_peer", "l_mac_get_peer"); ("get_pid", "l_mac_get_pid"); ("get_proc", "l_mac_get_proc");
   ("set", "l_mac_set"); ("set_fd", "l_mac_set_fd"); ("set_file", "l_mac_set_file");
   ("set_link", "l_mac_set_link"); ("set_proc", "l_mac_set_proc"); ("to_text", "l_mac_to_text")].

Definition mac_consts : list (string * Z) :=
  idents_of "MAC_" ["MAX_POLICY_NAME"; "MAX_LABEL_ELEMENT_NAME"; "MAX_LABEL_ELEMENT_DATA"; "MAX_LABEL_BUF_LEN"].

Definition luaopen_sys_mac (L : nat) : prog Z :=
  register_type L MAC_METATABLE l_mac_meta;;
  luaL_newlib L l_mac_funcs;;
  define_all L mac_consts;;
  mret 1.

Definition mac_wrappers : list wrapped := [
  Wrapped "l_mac_is_present" l_mac_is_present "mac_is_present" [AOptStr] [] (or_errno (-1) (Pushed [v_bool]));
  Wrapped "l_mac_from_text" l_mac_from_text "mac_from_text" [AStr] [] (or_errno (-1) (NewOut MAC_METATABLE 0));
  Wrapped "l_mac_prepare" l_mac_prepare "mac_prepare" [AStr] [] (or_errno (-1) (NewOut MAC_METATABLE 0));
  Wrapped "l_mac_prepare_file_label" l_mac_prepare_file_label "mac_prepare_file_label" [] [] (or_errno (-1) (NewOut MAC_METATABLE 0));
  Wrapped "l_mac_prepare_ifnet_label" l_mac_prepare_ifnet_label "mac_prepare_ifnet_label" [] [] (or_errno (-1) (NewOut MAC_METATABLE 0));
  Wrapped "l_mac_prepare_process_label" l_mac_prepare_process_label "mac_prepare_process_label" [] [] (or_errno (-1) (NewOut MAC_METATABLE 0));
  Wrapped "l_mac_prepare_type" l_mac_prepare_type "mac_prepare_type" [AStr] [] (or_errno (-1) (NewOut MAC_METATABLE 0));
  Wrapped "l_mac_get_fd" l_mac_get_fd "mac_get_fd" [ACookie MAC_METATABLE; AInt to_int] [1%nat; 0%nat] (or_errno (-1) Succeeds);
  Wrapped "l_mac_get_file" l_mac_get_file "mac_get_file" [ACookie MAC_METATABLE; AStr] [1%nat; 0%nat] (or_errno (-1) Succeeds);
  Wrapped "l_mac_get_link" l_mac_get_link "mac_get_link" [ACookie MAC_METATABLE; AStr] [1%nat; 0%nat] (or_errno (-1) Succeeds);
  Wrapped "l_mac_get_peer" l_mac_get_peer "mac_get_peer" [ACookie MAC_METATABLE; AInt to_int] [1%nat; 0%nat] (or_errno (-1) Succeeds);
  Wrapped "l_mac_get_pid" l_mac_get_pid "mac_get_pid" [ACookie MAC_METATABLE; AInt to_int] [1%nat; 0%nat] (or_errno (-1) Succeeds);
  Wrapped "l_mac_get_proc" l_mac_get_proc "mac_get_proc" [ACookie MAC_METATABLE] [] (or_errno (-1) Succeeds);
  Wrapped "l_mac_set_fd" l_mac_set_fd "mac_set_fd" [ACookie MAC_METATABLE; AInt to_int] [1%nat; 0%nat] (or_errno (-1) Succeeds);
  Wrapped "l_mac_set_file" l_mac_set_file "mac_set_file" [ACookie MAC_METATABLE; AStr] [1%nat; 0%nat] (or_errno (-1) Succeeds);
  Wrapped "l_mac_set_link" l_mac_set_link "mac_set_link" [ACookie MAC_METATABLE; AStr] [1%nat; 0%nat] (or_errno (-1) Succeeds);
  Wrapped "l_mac_set_proc" l_mac_set_proc "mac_set_proc" [ACookie MAC_METATABLE] [] (or_errno (-1) Succeeds)].

Lemma mac_wrappers_ok : Forall wrapped_ok mac_wrappers.
Proof. wrapped_table. Qed.
End mac.
