(* ===== verification/Sysctl.v ===== *)
(** * lua_sysctl.c: the management information base

    A node is a [struct mib] in a userdata ([OMib]): its object identifier, and its format,
    name and description, which are asked for when they are first needed and kept.  [value]
    reads the node into a buffer that grows until it fits, and pushes or writes it in the
    representation of its type: the integer types differ by size and sign only
    ([ctl_reads], [ctl_writes]).  The casper service has the same functions for a node that is reached
    through a channel: what they share has the type and the call as parameters. *)

From stdpp Require Import pretty.
From S2P Require Import Prelude LuaApi Machine Capi Utils Modules Cmem Uio Wrapper.

Section sysctl.
Context `{Consts}.

(** ** struct mib *)

Definition mib_get (o : obj) : option (mib * obj) := match o with OMib m => Some (m, o) | _ => None end.
Definition mib_set (m : mib) (o : obj) : option (unit * obj) :=
  match o with OMib _ => Some (tt, OMib m) | _ => None end.

Definition zero_mib : mib := Mib 0 (replicate (Z.to_nat (cst "CTL_MAXNAME")) 0) 0 0 0 0 0 0.
Definition sizeof_mib : Z := 4 * cst "CTL_MAXNAME" + 48.

Definition with_oid (l : list Z) (m : mib) : mib :=
  Mib (mib_chan m) (l ++ drop (length l) (mib_oid m)) (mib_oidlen m) (mib_prefix m) (mib_kind m) (mib_format m) (mib_name m)
    (mib_description m).
Definition with_chan (c : Z) (m : mib) : mib :=
  Mib c (mib_oid m) (mib_oidlen m) (mib_prefix m) (mib_kind m) (mib_format m) (mib_name m) (mib_description m).
Definition with_oidlen (n : Z) (m : mib) : mib :=
  Mib (mib_chan m) (mib_oid m) n (mib_prefix m) (mib_kind m) (mib_format m) (mib_name m) (mib_description m).
Definition with_prefix (n : Z) (m : mib) : mib :=
  Mib (mib_chan m) (mib_oid m) (mib_oidlen m) n (mib_kind m) (mib_format m) (mib_name m) (mib_description m).
Definition with_kind (n : Z) (m : mib) : mib :=
  Mib (mib_chan m) (mib_oid m) (mib_oidlen m) (mib_prefix m) n (mib_format m) (mib_name m) (mib_description m).
Definition with_format (p : Z) (m : mib) : mib :=
  Mib (mib_chan m) (mib_oid m) (mib_oidlen m) (mib_prefix m) (mib_kind m) p (mib_name m) (mib_description m).
Definition with_name (p : Z) (m : mib) : mib :=
  Mib (mib_chan m) (mib_oid m) (mib_oidlen m) (mib_prefix m) (mib_kind m) (mib_format m) p (mib_description m).
Definition with_description (p : Z) (m : mib) : mib :=
  Mib (mib_chan m) (mib_oid m) (mib_oidlen m) (mib_prefix m) (mib_kind m) (mib_format m) (mib_name m) p.

Definition update (p : Z) (f : mib -> mib) : prog unit := m ← load p mib_get; load p (mib_set (f m)).

(** the integers a call stored *)
Definition ints_of (l : list carg) : list Z := omap (fun c => match c with AZ z => Some z | _ => None end) l.

(** the first [oidlen] elements of [oid] *)
Definition oid_of (m : mib) : prog (list Z) :=
  if mib_oidlen m <=? Z.of_nat (length (mib_oid m)) then mret (take (Z.to_nat (mib_oidlen m)) (mib_oid m))
  else undefined "access outside of an object".

(** ** The functions of a node

    [mt] is its type, and [sysctl m] the call that reaches it. *)

Section node.
Context (mt : string) (sysctl : mib -> list carg -> prog cret).

Definition node_gc (L : nat) : prog Z :=
  p ← luaL_checkudata L 1 mt;
  m ← load p mib_get;
  free (mib_name m);;
  free (mib_description m);;
  free (mib_format m);;
  load p (mib_set zero_mib);;
  mret 0.

Definition node_oid (L : nat) : prog Z :=
  p ← luaL_checkudata L 1 mt;
  m ← load p mib_get;
  lua_createtable L (mib_oidlen m) 0;;
  for_ (Z.to_nat (mib_oidlen m)) 0 (fun i =>
    match mib_oid m !! Z.to_nat i with
    | Some z => lua_pushinteger L z;; lua_rawseti L (-2) (i + 1)
    | None => undefined "access outside of an object"
    end);;
  mret 1.

(** ** What describes a node *)

(** [sysctl(qoid, mib->oidlen + 2, buf, &length, NULL, 0)], where [qoid] starts with
    CTL_SYSCTL and [query]; [buf] has BUFSIZ bytes, cleared by [memset] *)
Definition query_oid (m : mib) (query : Z) : prog cret :=
  oid ← oid_of m;
  sysctl m (AZ (mib_oidlen m + 2) :: AZ (cst "CTL_SYSCTL") :: AZ query :: (AZ <$> oid) ++
                 [AZ (cst "BUFSIZ"); AZ 0; AZ 0]).

(** the string at offset [off] of [buf], whose first bytes are [s] and the others 0 *)
Definition buf_cstr (off : nat) (s : string) : prog string :=
  let t := String.substring off (String.length s - off) s in
  if (Z.of_nat (String.length s) <? cst "BUFSIZ") || has_nul t then mret (cstr t)
  else undefined "access outside of an object".

(** the functions below go on after the format was fetched or not; [None]: the strings are
    there, [Some n]: the function returned [n] *)
Definition fetch_format (L : nat) (p : Z) : prog (option Z) :=
  m ← load p mib_get;
  if mib_format m =? 0 then
    error ← query_oid m (cst "CTL_SYSCTL_OIDFMT");
    if negb (rc error =? 0) then
      e ← errno;
      n ← fail L e;
      mret (Some n)
    else
      let buf := out_str 1 error in
      update p (with_kind (le_value (String.substring 0 4 buf)));;
      s ← buf_cstr 4 buf;
      f ← strdup s;
      update p (with_format f);;
      if f =? 0 then
        e ← errno;
        fatal L "strdup" e
      else mret None
  else mret None.

Definition node_format (L : nat) : prog Z :=
  p ← luaL_checkudata L 1 mt;
  r ← fetch_format L p;
  match r with
  | Some n => mret n
  | None =>
      m ← load p mib_get;
      lua_pushinteger L (mib_kind m);;
      push_cstr L (mib_format m);;
      mret 2
  end.

Definition node_name (L : nat) : prog Z :=
  p ← luaL_checkudata L 1 mt;
  m ← load p mib_get;
  if mib_name m =? 0 then
    error ← query_oid m (cst "CTL_SYSCTL_NAME");
    if negb (rc error =? 0) then
      e ← errno;
      fail L e
    else
      s ← buf_cstr 0 (out_str 1 error);
      f ← strdup s;
      update p (with_name f);;
      if f =? 0 then
        e ← errno;
        fatal L "strdup" e
      else
        push_cstr L f;;
        mret 1
  else
    push_cstr L (mib_name m);;
    mret 1.

Definition node_description (L : nat) : prog Z :=
  p ← luaL_checkudata L 1 mt;
  m ← load p mib_get;
  if mib_description m =? 0 then
    error ← query_oid m (cst "CTL_SYSCTL_OIDDESCR");
    if negb (rc error =? 0) then
      e ← errno;
      if e =? cst "ENOENT" then
        lua_pushnil L;;
        mret 1
      else
        e ← errno;
        fail L e
    else
      s ← buf_cstr 0 (out_str 1 error);
      f ← strdup s;
      update p (with_description f);;
      if f =? 0 then
        e ← errno;
        fatal L "strdup" e
      else
        push_cstr L f;;
        mret 1
  else
    push_cstr L (mib_description m);;
    mret 1.

(** ** Values *)

(** reading, [lua_pushinteger(L, *(type * )p)]: the size of the type, and what it makes of the bits *)
Definition ctl_reads : list (string * (nat * (Z -> Z))) := [
  ("CTLTYPE_INT", (4%nat, to_int)); ("CTLTYPE_UINT", (4%nat, to_uint));
  ("CTLTYPE_LONG", (8%nat, to_long)); ("CTLTYPE_ULONG", (8%nat, to_long));
  ("CTLTYPE_S8", (1%nat, wraps 8)); ("CTLTYPE_U8", (1%nat, to_uchar));
  ("CTLTYPE_S16", (2%nat, wraps 16)); ("CTLTYPE_U16", (2%nat, to_ushort));
  ("CTLTYPE_S32", (4%nat, to_int)); ("CTLTYPE_U32", (4%nat, to_uint));
  ("CTLTYPE_S64", (8%nat, to_long)); ("CTLTYPE_U64", (8%nat, to_long))].

(** writing, [type value = luaL_checkinteger(L, 2)]: the size of the type *)
Definition ctl_writes : list (string * nat) := [
  ("CTLTYPE_INT", 4%nat); ("CTLTYPE_UINT", 4%nat); ("CTLTYPE_LONG", 8%nat); ("CTLTYPE_ULONG", 8%nat);
  ("CTLTYPE_S8", 1%nat); ("CTLTYPE_U8", 1%nat); ("CTLTYPE_S16", 2%nat); ("CTLTYPE_U16", 2%nat);
  ("CTLTYPE_S32", 4%nat); ("CTLTYPE_U32", 4%nat); ("CTLTYPE_S64", 8%nat); ("CTLTYPE_U64", 8%nat)].

(** [switch (ctltype)]: the case that matches *)
Fixpoint ctl_case {A} (ctltype : Z) (l : list (string * A)) : option A :=
  match l with
  | [] => None
  | (name, d) :: l => if ctltype =? cst name then Some d else ctl_case ctltype l
  end.

(** what is pushed of the [size] bytes at [p]; the result says whether it is known *)
Definition push_value (L : nat) (ctltype p size : Z) : prog unit :=
  match ctl_case ctltype ctl_reads with
  | Some (n, conv) =>
      z ← load_uint p 0 (Z.of_nat n);
      lua_pushinteger L (conv z)
  | None =>
      if ctltype =? cst "CTLTYPE_STRING" then push_bytes L p (to_size (size - 1))
      else if ctltype =? cst "CTLTYPE_OPAQUE" then push_bytes L p size
      else luaL_error L ("unknown ctltype: " +:+ pretty ctltype)
  end.

(** the loop, which starts with no buffer *)
Fixpoint read_value (fuel : nat) (L : nat) (m : mib) (oid : list Z) (p size : Z) (k : Z -> Z -> prog Z) : prog Z :=
  match fuel with
  | O => halts (EHalt Diverge)
  | S fuel =>
      r ← sysctl m (AZ (Z.of_nat (length oid)) :: (AZ <$> oid) ++ [AZ p; AZ size; AZ 0; AZ 0]);
      let grow :=
        free p;;
        let size := to_size (out_int 0 r * 2) in
        p ← malloc size (OBuf size "");
        if p =? 0 then fatal L "malloc" (cst "ENOMEM")
        else read_value fuel L m oid p size k in
      if rc r =? -1 then
        error ← errno;
        if negb (error =? cst "ENOMEM") then
          free p;;
          fail L error
        else grow
      else if negb (p =? 0) then k p (out_int 0 r)
      else grow
  end.

(** [sysctl(mib->oid, mib->oidlen, NULL, NULL, value, size)] *)
Definition write_value (m : mib) (oid : list Z) (value : string) (size : Z) : prog cret :=
  sysctl m (AZ (Z.of_nat (length oid)) :: (AZ <$> oid) ++ [AZ 0; AZ 0; AS value; AZ size]).

Definition set_value (L : nat) (m : mib) (ctltype : Z) (oid : list Z) : prog cret :=
  match ctl_case ctltype ctl_writes with
  | Some n =>
      value ← luaL_checkinteger L 2;
      write_value m oid (le_bytes n value) (Z.of_nat n)
  | None =>
      if ctltype =? cst "CTLTYPE_STRING" then
        s ← luaL_checklstring L 2;
        write_value m oid (s +:+ String NUL "") (Z.of_nat (String.length s) + 1)
      else if ctltype =? cst "CTLTYPE_OPAQUE" then
        b ← luaL_checklstring L 2;
        write_value m oid b (Z.of_nat (String.length b))
      else luaL_error L ("unknown ctltype: " +:+ pretty ctltype)
  end.

Definition node_value (fuel : nat) (L : nat) : prog Z :=
  argc ← lua_gettop L;
  mib ← luaL_checkudata L 1 mt;
  m ← load mib mib_get;
  (if mib_format m =? 0 then node_format L;; mret tt else mret tt);;
  m ← load mib mib_get;
  let ctltype := Z.land (mib_kind m) (cst "CTLTYPE") in
  if argc =? 1 then
    if ctltype =? cst "CTLTYPE_NODE" then
      lua_pushnil L;;
      mret 1
    else
      oid ← oid_of m;
      read_value fuel L m oid 0 0 (fun p size =>
        push_value L ctltype p size;;
        free p;;
        mret 1)
  else if ctltype =? cst "CTLTYPE_NODE" then mret 0
  else
    oid ← oid_of m;
    error ← set_value L m ctltype oid;
    if negb (rc error =? 0) then
      e ← errno;
      fail L e
    else mret 0.

(** the function, the state and the first value of the control variable *)
Definition node_iter (next : string) (L : nat) (which : Z) : prog Z :=
  p ← luaL_checkudata L 1 mt;
  lua_pushinteger L which;;
  lua_pushcclosure L next 1;;
  m ← load p mib_get;
  (if mib_prefix m =? 0 then
     lua_pushvalue L 1;;
     lua_pushnil L
   else
     lua_pushnil L;;
     lua_pushvalue L 1);;
  mret 3.

End node.

(** ** sys.sysctl *)

Definition MIB_METATABLE : string := "struct mib *".
Definition sysctl (m : mib) (args : list carg) : prog cret := call "sysctl" args.

(** [lua_newuserdatauv], [luaL_setmetatable] and [memset] *)
Definition new_mib (L : nat) : prog Z :=
  p ← lua_newuserdatauv L sizeof_mib (OMib zero_mib) 0;
  luaL_setmetatable L MIB_METATABLE;;
  load p (mib_set zero_mib);;
  mret p.

(** the outs of [sysctlnametomib]: the length, and the identifier *)
Definition l_sysctl (L : nat) : prog Z :=
  name ← luaL_optstring L 1;
  mib ← new_mib L;
  match name with
  | None =>
      update mib (fun m => with_prefix 0 (with_oidlen 1 (with_oid [cst "CTL_KERN"] m)));;
      mret 1
  | Some name =>
      update mib (with_oidlen (cst "CTL_MAXNAME"));;
      error ← call "sysctlnametomib" [AS name; AZ (cst "CTL_MAXNAME")];
      if negb (rc error =? 0) then
        e ← errno;
        fail L e
      else
        update mib (fun m => with_oidlen (out_int 0 error) (with_oid (ints_of (drop 1 (outs error))) m));;
        update mib (fun m => with_prefix (to_size (mib_oidlen m * sizeof_int)) m);;
        p ← strdup name;
        update mib (with_name p);;
        if p =? 0 then
          e ← errno;
          fatal L "strdup" e
        else mret 1
  end.

Definition l_mib_gc : nat -> prog Z := node_gc MIB_METATABLE.
Definition l_mib_oid : nat -> prog Z := node_oid MIB_METATABLE.
Definition l_mib_format : nat -> prog Z := node_format MIB_METATABLE sysctl.
Definition l_mib_name : nat -> prog Z := node_name MIB_METATABLE sysctl.
Definition l_mib_description : nat -> prog Z := node_description MIB_METATABLE sysctl.
Definition l_mib_value : nat -> nat -> prog Z := node_value MIB_METATABLE sysctl.

(** [which] is the upvalue of the closure.  The outs of the call: the size of the identifier
    in bytes, and the identifier. *)
Definition l_mib_iter_next (which : Z) (L : nat) : prog Z :=
  prev ← luaL_testudata L 2 MIB_METATABLE;
  if prev =? 0 then
    lua_pushvalue L 1;;
    mret 1
  else
    next ← new_mib L;
    prev_ ← load prev mib_get;
    update next (with_prefix (mib_prefix prev_));;
    oid ← oid_of prev_;
    error ← call "sysctl" (AZ (mib_oidlen prev_ + 2) :: AZ (cst "CTL_SYSCTL") :: AZ (to_int which) :: (AZ <$> oid) ++
                           [AZ (4 * cst "CTL_MAXNAME"); AZ 0; AZ 0]);
    if negb (rc error =? 0) then
      e ← errno;
      if e =? cst "ENOENT" then
        lua_pushnil L;;
        mret 1
      else
        e ← errno;
        fail L e
    else
      update next (with_oid (ints_of (drop 1 (outs error))));;
      next_ ← load next mib_get;
      let n := Z.to_nat (mib_prefix prev_ / 4) in
      if negb (bool_decide (take n (mib_oid prev_) = take n (mib_oid next_))) then
        lua_pushnil L;;
        mret 1
      else
        update next (with_oidlen (out_int 0 error / 4));;
        mret 1.

Definition l_mib_iter (L : nat) : prog Z := node_iter MIB_METATABLE "l_mib_iter_next" L (cst "CTL_SYSCTL_NEXT").
Definition l_mib_iter_noskip (L : nat) : prog Z := node_iter MIB_METATABLE "l_mib_iter_next" L (cst "CTL_SYSCTL_NEXTNOSKIP").

Definition l_sysctl_funcs : list (string * string) :=
  [
   ("sysctl", "l_sysctl")].

Definition l_mib_meta : list (string * string) :=
  [
   ("__gc", "l_mib_gc"); ("oid", "l_mib_oid"); ("format", "l_mib_format"); ("name", "l_mib_name");
   ("description", "l_mib_description"); ("value", "l_mib_value"); ("iter", "l_mib_iter");
   ("iter_noskip", "l_mib_iter_noskip")].

Definition sysctl_consts : list (string * Z) :=
  idents [
     "CTL_MAXNAME"; "CTLTYPE"; "CTLTYPE_NODE"; "CTLTYPE_INT"; "CTLTYPE_STRING"; "CTLTYPE_S64";
     "CTLTYPE_OPAQUE"; "CTLTYPE_STRUCT"; "CTLTYPE_UINT"; "CTLTYPE_LONG"; "CTLTYPE_ULONG";
     "CTLTYPE_U64"; "CTLTYPE_U8"; "CTLTYPE_U16"; "CTLTYPE_S8"; "CTLTYPE_S16"; "CTLTYPE_S32";
     "CTLTYPE_U32"; "CTLFLAG_RD"; "CTLFLAG_WR"; "CTLFLAG_RW"; "CTLFLAG_DORMANT"; "CTLFLAG_ANYBODY";
     "CTLFLAG_SECURE"; "CTLFLAG_PRISON"; "CTLFLAG_DYN"; "CTLFLAG_SKIP"; "CTLMASK_SECURE";
     "CTLFLAG_TUN"; "CTLFLAG_RDTUN"; "CTLFLAG_RWTUN"; "CTLFLAG_MPSAFE"; "CTLFLAG_VNET";
     "CTLFLAG_DYING"; "CTLFLAG_CAPRD"; "CTLFLAG_CAPWR"; "CTLFLAG_STATS"; "CTLFLAG_NOFETCH";
     "CTLFLAG_CAPRW"; "CTLFLAG_NEEDGIANT"; "CTLSHIFT_SECURE"; "CTLFLAG_SECURE1"; "CTLFLAG_SECURE2";
     "CTLFLAG_SECURE3"].

Definition luaopen_sys_sysctl (L : nat) : prog Z :=
  register_type L MIB_METATABLE l_mib_meta;;
  luaL_newlib L l_sysctl_funcs;;
  define_all L sysctl_consts;;
  mret 1.
End sysctl.
