(* ===== verification/Net.v ===== *)
(** * Sockets and addresses: lua_socket.c and lua_socket.h, lua_netdb.c and lua_netdb.h

    [sys.socket] has the socket calls, with addresses as tables of the family and the bytes
    behind it ([pushaddr], [checkaddr]); [netdb] looks names up and shares these tables. *)

From Stdlib Require Import Ascii.
From S2P Require Import Prelude LuaApi Machine Capi Utils Modules Cmem Uio Wrapper.

(** ** sys.socket *)

Section socket.
Context `{Consts}.

(** *** Addresses

    A [struct sockaddr] is its bytes: the length, the family, the data.  A
    [struct sockaddr_storage] has 128 of them. *)

Definition sizeof_ss : Z := 128.
Definition offsetof_sa_data : Z := 2.

Definition byte (z : Z) : Ascii.ascii := Ascii.ascii_of_nat (Z.to_nat (to_uchar z)).
Definition saddr_bytes (sa_len sa_family : Z) (sa_data : string) : string :=
  String (byte sa_len) (String (byte sa_family) sa_data).

(** [pushaddr]; [rd off n] reads bytes of the structure *)
Definition pushaddr (L : nat) (rd : Z -> Z -> prog string) : prog unit :=
  lua_createtable L 0 2;;
  family ← rd 1 1;
  lua_pushinteger L (le_value family);;
  lua_setfield L (-2) "family";;
  len ← rd 0 1;
  data ← rd offsetof_sa_data (to_size (le_value len - offsetof_sa_data));
  lua_pushlstring L data;;
  lua_setfield L (-2) "data".

(** one on the stack of a function, at whose start a call stored [s] *)
Definition pushaddr_local (L : nat) (s : string) : prog unit := pushaddr L (local_bytes sizeof_ss s).

(** [checkaddr]: the address and its [sa_len]; the data must fit behind the two first bytes *)
Definition checkaddr (L : nat) (idx : Z) : prog (string * Z) :=
  luaL_checktype L idx TTABLE;;
  lua_getfield L idx "family";;
  isint ← lua_isinteger L (-1);
  luaL_argcheck L isint idx "invalid address family";;
  family ← lua_tointeger L (-1);
  lua_getfield L idx "data";;
  isstr ← lua_isstring L (-1);
  luaL_argcheck L isstr idx "invalid address data";;
  data ← lua_tolstring L (-1);
  let datalen := Z.of_nat (String.length data) in
  if sizeof_ss <? offsetof_sa_data + datalen then undefined "access outside of an object"
  else
    let sa_len := to_uchar (datalen + offsetof_sa_data) in
    lua_pop L 2;;
    mret (saddr_bytes sa_len family data, sa_len).

(** *** Functions *)

(** the outs: the address, and its length *)
Definition l_accept (L : nat) : prog Z :=
  s ← checkfd L 1;
  isint ← lua_isinteger L 2;
  new_s ← (if isint : bool then
             flags ← lua_tointeger L 2;
             call "accept4" [AZ s; AZ sizeof_ss; AZ (to_int flags)]
           else call "accept" [AZ s; AZ sizeof_ss]);
  if rc new_s =? -1 then
    e ← errno;
    fail L e
  else
    ss_len ← local_bytes sizeof_ss (out_str 0 new_s) 0 1;
    assert_ (le_value ss_len =? out_int 1 new_s) "ss.ss_len == addrlen";;
    lua_pushinteger L (rc new_s);;
    pushaddr_local L (out_str 0 new_s);;
    mret 2.

Definition l_bind (L : nat) : prog Z :=
  s ← checkfd L 1;
  addr ← checkaddr L 2;
  r ← call "bind" [AZ s; AS addr.1; AZ addr.2];
  or_fail L r (success L).

Definition l_connect (L : nat) : prog Z :=
  s ← checkfd L 1;
  addr ← checkaddr L 2;
  r ← call "connect" [AZ s; AS addr.1; AZ addr.2];
  or_fail L r (success L).

Definition l_bindat (L : nat) : prog Z :=
  fd ← luaL_checkinteger L 1;
  s ← checkfd L 2;
  addr ← checkaddr L 3;
  r ← call "bindat" [AZ (to_int fd); AZ s; AS addr.1; AZ addr.2];
  or_fail L r (success L).

Definition l_connectat (L : nat) : prog Z :=
  fd ← luaL_checkinteger L 1;
  s ← checkfd L 2;
  addr ← checkaddr L 3;
  r ← call "connectat" [AZ (to_int fd); AZ s; AS addr.1; AZ addr.2];
  or_fail L r (success L).

Definition l_getpeername (L : nat) : prog Z :=
  s ← checkfd L 1;
  r ← call "getpeername" [AZ s; AZ sizeof_ss];
  or_fail L r (pushaddr_local L (out_str 0 r);; mret 1).

Definition l_getsockname (L : nat) : prog Z :=
  s ← checkfd L 1;
  r ← call "getsockname" [AZ s; AZ sizeof_ss];
  or_fail L r (pushaddr_local L (out_str 0 r);; mret 1).

Definition l_getsockopt (L : nat) : prog Z :=
  s ← checkfd L 1;
  level ← luaL_checkinteger L 2;
  optname ← luaL_checkinteger L 3;
  optlen ← luaL_checkinteger L 4;
  let optlen := to_uint optlen in
  optval ← malloc optlen (OBuf optlen "");
  if optval =? 0 then fatal L "malloc" (cst "ENOMEM")
  else
    r ← call "getsockopt" [AZ s; AZ (to_int level); AZ (to_int optname); AZ optval; AZ optlen];
    if rc r =? -1 then
      error ← errno;
      free optval;;
      fail L error
    else
      push_bytes L optval (out_int 0 r);;
      free optval;;
      mret 1.

Definition l_listen (L : nat) : prog Z :=
  s ← checkfd L 1;
  backlog ← luaL_optinteger L 2 (-1);
  r ← call "listen" [AZ s; AZ (to_int backlog)];
  if rc r =? -1 then
    e ← errno;
    fail L e
  else
    success L.

Definition l_recv (L : nat) : prog Z :=
  s ← checkfd L 1;
  n ← luaL_checkinteger L 2;
  flags ← luaL_optinteger L 3 0;
  luaL_buffinit L;;
  len ← call "recv" [AZ s; AZ (to_size n); AZ (to_int flags)];
  if rc len =? -1 then
    e ← errno;
    fail L e
  else
    prefix_of (out_str 0 len) (rc len) (fun s => luaL_pushresult L s);;
    mret 1.

(** the outs: the bytes, the address, and its length; one value is returned, the address *)
Definition l_recvfrom (L : nat) : prog Z :=
  s ← checkfd L 1;
  n ← luaL_checkinteger L 2;
  flags ← luaL_optinteger L 3 0;
  luaL_buffinit L;;
  len ← call "recvfrom" [AZ s; AZ (to_size n); AZ (to_int flags); AZ sizeof_ss];
  if rc len =? -1 then
    e ← errno;
    fail L e
  else
    ss_len ← local_bytes sizeof_ss (out_str 1 len) 0 1;
    assert_ (le_value ss_len =? out_int 2 len) "ss.ss_len == fromlen";;
    prefix_of (out_str 0 len) (rc len) (fun s => luaL_pushresult L s);;
    pushaddr_local L (out_str 1 len);;
    mret 1.

Definition l_recvmsg (L : nat) : prog Z :=
  luaL_error L "TODO".

Definition l_recvmmsg (L : nat) : prog Z :=
  luaL_error L "TODO".

Definition l_send (L : nat) : prog Z :=
  s ← checkfd L 1;
  p ← luaL_checklstring L 2;
  flags ← luaL_optinteger L 3 0;
  n ← call "send" [AZ s; AS p; AZ (Z.of_nat (String.length p)); AZ (to_int flags)];
  if rc n =? -1 then
    e ← errno;
    fail L e
  else
    lua_pushinteger L (rc n);;
    mret 1.

Definition l_sendto (L : nat) : prog Z :=
  s ← checkfd L 1;
  p ← luaL_checklstring L 2;
  isint ← lua_isinteger L 3;
  to ← (if isint : bool then
          flags ← lua_tointeger L 3;
          addr ← checkaddr L 4;
          mret (to_int flags, addr)
        else
          addr ← checkaddr L 3;
          mret (0, addr));
  let '(flags, addr) := to : Z * (string * Z) in
  n ← call "sendto" [AZ s; AS p; AZ (Z.of_nat (String.length p)); AZ flags; AS addr.1; AZ addr.2];
  if rc n =? -1 then
    e ← errno;
    fail L e
  else
    lua_pushinteger L (rc n);;
    mret 1.

Definition l_sendmsg (L : nat) : prog Z :=
  luaL_error L "TODO".

(** *** l_sendfile *)

(** the strings of [headers] or [trailers], and the array that describes them (its addresses
    are in the Lua state: the strings travel next to it); [luaL_tolstring] pushes a string
    as it is *)
Fixpoint hdtr_strings (L : nat) (t iovs : Z) (bad : prog (list string)) (k : nat) (i : Z) : prog (list string) :=
  match k with
  | O => mret []
  | S k =>
      ty ← lua_geti L t (i + 1);
      if negb (is_type ty TSTRING) then bad
      else
        s ← lua_tolstring L (-1);
        lua_pushlstring L s;;
        load iovs (iov_update (Z.to_nat i) (set_len (Z.of_nat (String.length s))));;
        rest ← hdtr_strings L t iovs bad k (i + 1);
        mret (s :: rest)
  end.

(** one half of [get_hdtr]; [undo] frees what the other half allocated.  The array is filled
    before it is read. *)
Definition hdtr_half (L : nat) (arg : Z) (key msg : string) (undo : prog unit) : prog (Z * Z * list string) :=
  ty ← lua_getfield L arg key;
  if is_type ty TTABLE then
    t ← lua_gettop L;
    n ← luaL_len L t;
    let cnt := to_int n in
    iovs ← (if cnt =? 0 then mret 0
            else
              p ← malloc (to_size (cnt * sizeof_iovec)) (OIov (replicate (Z.to_nat cnt) (0, 0)));
              if p =? 0 then undo;; fatal L "malloc" (cst "ENOMEM") else mret p);
    strs ← hdtr_strings L t iovs (free iovs;; undo;; luaL_error L msg) (Z.to_nat cnt) 0;
    mret (iovs, cnt, strs)
  else mret (0, 0, []).

(** [struct sf_hdtr], as the system gets it *)
Definition get_hdtr (L : nat) (arg : Z) : prog (list carg) :=
  h ← hdtr_half L arg "headers" "headers must be strings" (mret tt);
  let '(headers, hdr_cnt, hs) := h : Z * Z * list string in
  t ← hdtr_half L arg "trailers" "trailers must be strings" (free headers);
  let '(trailers, trl_cnt, ts) := t : Z * Z * list string in
  mret (AZ hdr_cnt :: (AS <$> hs) ++ AZ trl_cnt :: (AS <$> ts)).

(** the arrays are not freed *)
Definition l_sendfile (L : nat) : prog Z :=
  fd ← checkfd L 1;
  s ← checkfd L 2;
  offset ← luaL_checkinteger L 3;
  nbytes ← luaL_checkinteger L 4;
  istable ← lua_is L 5 TTABLE;
  opts ← (if istable : bool then
            hdtr ← get_hdtr L 5;
            flags ← luaL_optinteger L 6 0;
            readahead ← luaL_optinteger L 7 0;
            mret (AZ 1 :: hdtr, flags, readahead)
          else
            flags ← luaL_optinteger L 5 0;
            readahead ← luaL_optinteger L 6 0;
            mret ([AZ 0], flags, readahead));
  let '(hdtr, flags, readahead) := opts : list carg * Z * Z in
  sf_flags ← call "SF_FLAGS" [AZ (to_int readahead); AZ (to_int flags)];
  r ← call "sendfile" (AZ fd :: AZ s :: AZ offset :: AZ (to_size nbytes) :: hdtr ++ [AZ (rc sf_flags)]);
  if rc r =? -1 then
    e ← errno;
    fail L e
  else
    lua_pushinteger L (out_int 0 r);;
    mret 1.

Definition l_sendmmsg (L : nat) : prog Z :=
  luaL_error L "TODO".

Definition l_setfib (L : nat) : prog Z :=
  fib ← luaL_checkinteger L 1;
  r ← call "setfib" [AZ (to_int fib)];
  if rc r =? -1 then
    e ← errno;
    fail L e
  else
    success L.

Definition l_setsockopt (L : nat) : prog Z :=
  s ← checkfd L 1;
  level ← luaL_checkinteger L 2;
  optname ← luaL_checkinteger L 3;
  optval ← luaL_checklstring L 4;
  r ← call "setsockopt" [AZ s; AZ (to_int level); AZ (to_int optname); AS optval; AZ (Z.of_nat (String.length optval))];
  if rc r =? -1 then
    e ← errno;
    fail L e
  else
    success L.

Definition l_shutdown (L : nat) : prog Z :=
  s ← checkfd L 1;
  how ← luaL_checkinteger L 2;
  r ← call "shutdown" [AZ s; AZ (to_int how)];
  if rc r =? -1 then
    e ← errno;
    fail L e
  else
    success L.

Definition l_sockatmark (L : nat) : prog Z :=
  s ← checkfd L 1;
  atmark ← call "sockatmark" [AZ s];
  if rc atmark =? -1 then
    e ← errno;
    fail L e
  else
    lua_pushboolean L (negb (rc atmark =? 0));;
    mret 1.

Definition l_socket (L : nat) : prog Z :=
  domain ← luaL_checkinteger L 1;
  type_ ← luaL_checkinteger L 2;
  protocol ← luaL_checkinteger L 3;
  s ← call "socket" [AZ (to_int domain); AZ (to_int type_); AZ (to_int protocol)];
  if rc s =? -1 then
    e ← errno;
    fail L e
  else
    lua_pushinteger L (rc s);;
    mret 1.

Definition l_socketpair (L : nat) : prog Z :=
  domain ← luaL_checkinteger L 1;
  type_ ← luaL_checkinteger L 2;
  protocol ← luaL_checkinteger L 3;
  sv ← call "socketpair" [AZ (to_int domain); AZ (to_int type_); AZ (to_int protocol)];
  if rc sv =? -1 then
    e ← errno;
    fail L e
  else
    lua_pushinteger L (out_int 0 sv);;
    lua_pushinteger L (out_int 1 sv);;
    mret 2.

Definition l_socket_funcs : list (string * string) :=
  [
   ("accept", "l_accept"); ("bind", "l_bind"); ("connect", "l_connect"); ("bindat", "l_bindat");
   ("connectat", "l_connectat"); ("getpeername", "l_getpeername"); ("getsockname", "l_getsockname");
   ("getsockopt", "l_getsockopt"); ("listen", "l_listen"); ("recv", "l_recv");
   ("recvfrom", "l_recvfrom"); ("recvmsg", "l_recvmsg"); ("recvmmsg", "l_recvmmsg");
   ("send", "l_send"); ("sendto", "l_sendto"); ("sendmsg", "l_sendmsg"); ("sendfile", "l_sendfile");
   ("sendmmsg", "l_sendmmsg"); ("setfib", "l_setfib"); ("setsockopt", "l_setsockopt");
   ("shutdown", "l_shutdown"); ("sockatmark", "l_sockatmark"); ("socket", "l_socket");
   ("socketpair", "l_socketpair")].

Definition socket_consts1 : list (string * Z) :=
  idents [
     "SOCK_STREAM"; "SOCK_DGRAM"; "SOCK_RAW"; "SOCK_RDM"; "SOCK_SEQPACKET"; "SOCK_CLOEXEC";
     "SOCK_NONBLOCK"] ++
  (if cst "#ifdef SOCK_CLOFORK" =? 0 then [] else idents [
     "SOCK_CLOFORK"]) ++
  idents [
     "SO_DEBUG"; "SO_ACCEPTCONN"; "SO_REUSEADDR"; "SO_KEEPALIVE"; "SO_DONTROUTE"; "SO_BROADCAST";
     "SO_USELOOPBACK"; "SO_LINGER"; "SO_OOBINLINE"; "SO_REUSEPORT"; "SO_TIMESTAMP"; "SO_NOSIGPIPE";
     "SO_ACCEPTFILTER"; "SO_BINTIME"; "SO_NO_OFFLOAD"; "SO_NO_DDP"; "SO_REUSEPORT_LB"; "SO_RERROR";
     "SO_SNDBUF"; "SO_RCVBUF"; "SO_SNDLOWAT"; "SO_RCVLOWAT"; "SO_SNDTIMEO"; "SO_RCVTIMEO";
     "SO_ERROR"; "SO_TYPE"; "SO_LABEL"; "SO_PEERLABEL"; "SO_LISTENQLIMIT"; "SO_LISTENQLEN";
     "SO_LISTENINCQLEN"] ++
  (if cst "#ifdef SO_FIB" =? 0 then [] else idents [
     "SO_FIB"]) ++
  idents [
     "SO_USER_COOKIE"; "SO_PROTOCOL"; "SO_TS_CLOCK"; "SO_MAX_PACING_RATE"; "SO_DOMAIN"] ++
  (if cst "#ifdef SO_SPLICE" =? 0 then [] else idents [
     "SO_SPLICE"]) ++
  idents [
     "SO_TS_REALTIME_MICRO"; "SO_TS_BINTIME"; "SO_TS_REALTIME"; "SO_TS_MONOTONIC"; "SO_TS_DEFAULT";
     "SO_TS_CLOCK_MAX"; "SO_VENDOR"; "SOL_SOCKET"; "AF_UNSPEC"; "AF_LOCAL"; "AF_UNIX"; "AF_INET";
     "AF_IMPLINK"; "AF_PUP"; "AF_CHAOS"; "AF_NETBIOS"; "AF_ISO"; "AF_ECMA"; "AF_DATAKIT";
     "AF_CCITT"; "AF_SNA"; "AF_DECnet"; "AF_LAT"; "AF_HYLINK"; "AF_APPLETALK"; "AF_ROUTE";
     "AF_LINK"; "pseudo_AF_XTP"; "AF_COIP"; "AF_CNT"; "pseudo_AF_RTIP"; "AF_IPX"; "AF_SIP";
     "pseudo_AF_PIP"; "AF_ISDN"; "AF_E164"; "pseudo_AF_KEY"; "AF_INET6"; "AF_NATM"; "AF_ATM";
     "pseudo_AF_HDRCMPLT"; "AF_NETGRAPH"; "AF_SLOW"; "AF_SCLUSTER"; "AF_ARP"; "AF_BLUETOOTH";
     "AF_IEEE80211"; "AF_NETLINK"; "AF_INET_SDP"; "AF_INET6_SDP"; "AF_HYPERV"] ++
  (if cst "#ifdef AF_DIVERT" =? 0 then [] else idents [
     "AF_DIVERT"]) ++
  (if cst "#ifdef AF_IPFWLOG" =? 0 then [] else idents [
     "AF_IPFWLOG"]) ++
  idents [
     "AF_MAX"].

Definition socket_consts2 : list (string * Z) :=
  idents [
     "AF_VENDOR00"; "AF_VENDOR01"; "AF_VENDOR03"; "AF_VENDOR04"; "AF_VENDOR05"; "AF_VENDOR06";
     "AF_VENDOR07"; "AF_VENDOR08"; "AF_VENDOR09"; "AF_VENDOR10"; "AF_VENDOR11"; "AF_VENDOR12";
     "AF_VENDOR13"; "AF_VENDOR14"; "AF_VENDOR15"; "AF_VENDOR16"; "AF_VENDOR17"; "AF_VENDOR18";
     "AF_VENDOR19"; "AF_VENDOR20"; "AF_VENDOR21"; "AF_VENDOR22"; "AF_VENDOR23"; "AF_VENDOR24";
     "AF_VENDOR25"; "AF_VENDOR26"; "AF_VENDOR27"; "AF_VENDOR28"; "AF_VENDOR29"; "AF_VENDOR30";
     "AF_VENDOR31"; "AF_VENDOR32"; "AF_VENDOR33"; "AF_VENDOR34"; "AF_VENDOR35"; "AF_VENDOR36";
     "AF_VENDOR37"; "AF_VENDOR38"; "AF_VENDOR39"; "AF_VENDOR40"; "AF_VENDOR41"; "AF_VENDOR42";
     "AF_VENDOR43"; "AF_VENDOR44"; "AF_VENDOR45"; "AF_VENDOR46"; "AF_VENDOR47"; "SOCK_MAXADDRLEN";
     "PF_UNSPEC"; "PF_LOCAL"; "PF_UNIX"; "PF_INET"; "PF_IMPLINK"; "PF_PUP"; "PF_CHAOS";
     "PF_NETBIOS"; "PF_ISO"; "PF_ECMA"; "PF_DATAKIT"; "PF_CCITT"; "PF_SNA"; "PF_DECnet"; "PF_LAT";
     "PF_HYLINK"; "PF_APPLETALK"; "PF_ROUTE"; "PF_LINK"; "PF_XTP"; "PF_COIP"; "PF_CNT"; "PF_RTIP";
     "PF_IPX"; "PF_SIP"; "PF_PIP"; "PF_ISDN"; "PF_KEY"; "PF_INET6"; "PF_NATM"; "PF_ATM";
     "PF_NETGRAPH"; "PF_SLOW"; "PF_SCLUSTER"; "PF_ARP"; "PF_BLUETOOTH"; "PF_IEEE80211";
     "PF_NETLINK"; "PF_INET_SDP"; "PF_INET6_SDP"] ++
  (if cst "#ifdef PF_HYPERV" =? 0 then [] else idents [
     "PF_HYPERV"]) ++
  (if cst "#ifdef PF_DIVERT" =? 0 then [] else idents [
     "PF_DIVERT"]) ++
  (if cst "#ifdef PF_IPFWLOG" =? 0 then [] else idents [
     "PF_IPFWLOG"]) ++
  idents [
     "PF_MAX"; "NET_RT_DUMP"; "NET_RT_FLAGS"; "NET_RT_IFLIST"; "NET_RT_IFMALIST"; "NET_RT_IFLISTL";
     "NET_RT_NHOP"; "NET_RT_NHGRP"; "SOMAXCONN"; "MSG_OOB"; "MSG_PEEK"; "MSG_DONTROUTE"; "MSG_EOR";
     "MSG_TRUNC"; "MSG_CTRUNC"; "MSG_WAITALL"; "MSG_DONTWAIT"; "MSG_EOF"; "MSG_NOTIFICATION";
     "MSG_NBIO"; "MSG_COMPAT"; "MSG_NOSIGNAL"; "MSG_CMSG_CLOEXEC"; "MSG_WAITFORONE"].

Definition socket_consts3 : list (string * Z) :=
  (if cst "#ifdef MSG_CMSG_CLOFORK" =? 0 then [] else idents [
     "MSG_CMSG_CLOFORK"]) ++
  idents [
     "CMGROUP_MAX"; "SCM_RIGHTS"; "SCM_TIMESTAMP"; "SCM_CREDS"; "SCM_BINTIME"; "SCM_REALTIME";
     "SCM_MONOTONIC"; "SCM_TIME_INFO"; "SCM_CREDS2"; "ST_INFO_HW"; "ST_INFO_HW_HPREC"; "SHUT_RD";
     "SHUT_WR"; "SHUT_RDWR"; "SF_NODISKIO"; "SF_NOCACHE"; "SF_USER_READAHEAD"].

Definition socket_consts : list (string * Z) := socket_consts1 ++ socket_consts2 ++ socket_consts3.

Definition luaopen_sys_socket (L : nat) : prog Z :=
  luaL_newlib L l_socket_funcs;;
  define_all L socket_consts;;
  mret 1.

Definition socket_wrappers : list wrapped := [
  Wrapped "l_listen" l_listen "listen" [AFd id; AOptInt (-1) to_int] [] (or_errno (-1) Succeeds);
  Wrapped "l_send" l_send "send" [AFd id; ALStr; AOptInt 0 to_int] [] (or_errno (-1) (Pushed [v_int]));
  Wrapped "l_setfib" l_setfib "setfib" [AInt to_int] [] (or_errno (-1) Succeeds);
  Wrapped "l_setsockopt" l_setsockopt "setsockopt" [AFd id; AInt to_int; AInt to_int; ALStr] [] (or_errno (-1) Succeeds);
  Wrapped "l_shutdown" l_shutdown "shutdown" [AFd id; AInt to_int] [] (or_errno (-1) Succeeds);
  Wrapped "l_sockatmark" l_sockatmark "sockatmark" [AFd id] [] (or_errno (-1) (Pushed [v_bool]));
  Wrapped "l_socket" l_socket "socket" [AInt to_int; AInt to_int; AInt to_int] [] (or_errno (-1) (Pushed [v_int]))].

Lemma socket_wrappers_ok : Forall wrapped_ok socket_wrappers.
Proof. wrapped_table. Qed.
End socket.
(** ** netdb *)

Section netdb.
Context `{Consts} `{SConsts}.

Definition gai_fail (L : nat) (error : Z) : prog Z :=
  luaL_pushfail L;;
  r ← call "gai_strerror" [AZ error];
  push_ret_string L r;;
  lua_pushinteger L error;;
  mret 3.

(** the four members [checkai] sets; the others stay 0 *)
Definition check_ai_field (L : nat) (idx : Z) (key msg : string) : prog Z :=
  t ← lua_getfield L idx key;
  v ← (if is_type t TNIL then mret 0
       else
         isint ← lua_isinteger L (-1);
         luaL_argcheck L isint idx msg;;
         n ← lua_tointeger L (-1);
         mret (to_int n));
  lua_pop L 1;;
  mret v.

Definition checkai (L : nat) (idx : Z) : prog (list carg) :=
  luaL_checktype L idx TTABLE;;
  flags ← check_ai_field L idx "flags" "invalid flags";
  family ← check_ai_field L idx "family" "invalid family";
  socktype ← check_ai_field L idx "socktype" "invalid socktype";
  protocol ← check_ai_field L idx "protocol" "invalid protocol";
  mret [AZ flags; AZ family; AZ socktype; AZ protocol].

(** [addr]: the bytes at [ai->ai_addr] *)
Definition pushai (L : nat) (flags family socktype protocol : Z) (addr : string) : prog unit :=
  lua_newtable L;;
  int_field L "flags" flags;;
  int_field L "family" family;;
  int_field L "socktype" socktype;;
  int_field L "protocol" protocol;;
  pushaddr_local L addr;;
  lua_setfield L (-2) "addr".

(** the list [res] points to: five values for each element *)
Fixpoint push_ais (L : nat) (res : list carg) : prog unit :=
  match res with
  | AZ flags :: AZ family :: AZ socktype :: AZ protocol :: AS addr :: res =>
      pushai L flags family socktype protocol addr;;
      n ← luaL_len L (-2);
      lua_rawseti L (-2) (n + 1);;
      push_ais L res
  | _ => mret tt
  end.

(** the outs: [res], then the list *)
Definition l_getaddrinfo (L : nat) : prog Z :=
  hostname ← luaL_optstring L 1;
  servname ← luaL_optstring L 2;
  istable ← lua_is L 3 TTABLE;
  hints ← (if istable : bool then h ← checkai L 3; mret (AZ 1 :: h) else mret [AZ 0]);
  error ← call "getaddrinfo" (null_or hostname :: null_or servname :: hints);
  if negb (rc error =? 0) then gai_fail L (rc error)
  else
    lua_newtable L;;
    push_ais L (drop 1 (outs error));;
    call "freeaddrinfo" [AZ (out_int 0 error)];;
    mret 1.

Definition l_getnameinfo (L : nat) : prog Z :=
  sa ← checkaddr L 1;
  flags ← luaL_optinteger L 2 0;
  error ← call "getnameinfo"
    [AS sa.1; AZ sa.2; AZ (cst "NI_MAXHOST"); AZ (cst "NI_MAXSERV"); AZ (to_int flags)];
  if negb (rc error =? 0) then gai_fail L (rc error)
  else
    lua_pushstring L (out_str 0 error);;
    lua_pushstring L (out_str 1 error);;
    mret 2.

(** [for (int i = 0; ent->p_aliases[i] != NULL; i++)] *)
Fixpoint push_aliases (L : nat) (i : Z) (aliases : list carg) : prog unit :=
  match aliases with
  | AS s :: aliases =>
      lua_pushstring L s;;
      lua_rawseti L (-2) (i + 1);;
      push_aliases L (i + 1) aliases
  | _ => mret tt
  end.

(** the outs: [ent], p_name, p_proto, and the aliases *)
Definition pushprotoent (L : nat) (ent : cret) : prog unit :=
  lua_newtable L;;
  str_field L "name" (out_str 1 ent);;
  lua_newtable L;;
  push_aliases L 0 (drop 3 (outs ent));;
  lua_setfield L (-2) "aliases";;
  int_field L "proto" (out_int 2 ent).

(** the end of both functions *)
Definition protoent_done (L : nat) (error : cret) : prog Z :=
  if negb (rc error =? 0) then fail L (rc error)
  else if out_int 0 error =? 0 then mret 0
  else
    pushprotoent L error;;
    mret 1.

Definition l_getprotobyname (L : nat) : prog Z :=
  name ← luaL_checkstring L 1;
  error ← call "getprotobyname_r" [AS name; AZ 2048];
  protoent_done L error.

Definition l_getprotobynumber (L : nat) : prog Z :=
  proto ← luaL_checkinteger L 1;
  error ← call "getprotobynumber_r" [AZ (to_int proto); AZ 2048];
  protoent_done L error.

Definition l_netdb_funcs : list (string * string) :=
  [
   ("getaddrinfo", "l_getaddrinfo"); ("getnameinfo", "l_getnameinfo");
   ("getprotobyname", "l_getprotobyname"); ("getprotobynumber", "l_getprotobynumber")].

Definition netdb_paths : list string := [
  "_PATH_HEQUIV"; "_PATH_HOSTS"; "_PATH_NETWORKS"; "_PATH_PROTOCOLS"; "_PATH_SERVICES"; "_PATH_SERVICES_DB"].

Fixpoint define_strings (L : nat) (idents : list string) : prog unit :=
  match idents with
  | [] => mret tt
  | ident :: idents => define_string L ident (scst ident);; define_strings L idents
  end.

Definition netdb_consts : list (string * Z) :=
  idents [
     "IPPORT_RESERVED"; "NETDB_INTERNAL"; "NETDB_SUCCESS"; "HOST_NOT_FOUND"; "TRY_AGAIN";
     "NO_RECOVERY"; "NO_DATA"; "NO_ADDRESS"; "EAI_ADDRFAMILY"; "EAI_AGAIN"; "EAI_BADFLAGS";
     "EAI_FAIL"; "EAI_FAMILY"; "EAI_MEMORY"; "EAI_NODATA"; "EAI_NONAME"; "EAI_SERVICE";
     "EAI_SOCKTYPE"; "EAI_SYSTEM"; "EAI_BADHINTS"; "EAI_PROTOCOL"; "EAI_OVERFLOW"; "EAI_MAX";
     "AI_PASSIVE"; "AI_CANONNAME"; "AI_NUMERICHOST"; "AI_NUMERICSERV"; "AI_MASK"; "AI_ALL";
     "AI_V4MAPPED_CFG"; "AI_ADDRCONFIG"; "AI_V4MAPPED"; "AI_DEFAULT"; "NI_MAXHOST"; "NI_MAXSERV";
     "NI_NOFQDN"; "NI_NUMERICHOST"; "NI_NAMEREQD"; "NI_NUMERICSERV"; "NI_DGRAM"; "NI_NUMERICSCOPE"].

Definition luaopen_netdb (L : nat) : prog Z :=
  luaL_newlib L l_netdb_funcs;;
  define_strings L netdb_paths;;
  lua_pushlstring L (String (byte (cst "SCOPE_DELIMITER")) "");;
  lua_setfield L (-2) "SCOPE_DELIMITER";;
  define_all L netdb_consts;;
  mret 1.
End netdb.
