(* ===== verification/Netinet.v ===== *)
(** * lua_in.c and the modules of the protocols: ip, ip6, tcp, udp, udplite

    [netinet.in] takes the addresses of the Internet families apart, tests addresses, keeps
    the source filters of multicast groups, and builds and reads extension headers of IPv6.
    The other modules are constants and a few macros of the system headers. *)

From Stdlib Require Import Ascii.
From S2P Require Import Prelude LuaApi Machine Capi Utils Modules Cmem Uio Wrapper Net.

(** ** netinet.in *)

Section netinet_in.
Context `{Consts} `{SConsts}.

Definition sizeof_sockaddr_in : Z := 16.
Definition sizeof_sockaddr_in6 : Z := 28.
Definition sizeof_in6_addr : Z := 16.

(** [ntohs] and [ntohl] of the bytes of an integer *)
Fixpoint be_acc (acc : Z) (s : string) : Z :=
  match s with
  | EmptyString => acc
  | String c s => be_acc (256 * acc + Z.of_nat (nat_of_ascii c)) s
  end.
Definition be_value (s : string) : Z := be_acc 0 s.

(** [data] is [sa_data]; [off] counts from the start of the structure *)
Definition sin_field (data : string) (off n : nat) : string :=
  String.substring (off - Z.to_nat offsetof_sa_data) n data.

(** what both functions check; the data of the address *)
Definition check_sockaddr (L : nat) (family : string) (size : Z) (msg : string) : prog string :=
  luaL_checktype L 1 TTABLE;;
  lua_getfield L 1 "family";;
  n ← lua_tointeger L (-1);
  luaL_argcheck L (n =? cst family) 1 "invalid sockaddr family";;
  t ← lua_getfield L 1 "data";
  luaL_argcheck L (is_type t TSTRING) 1 "invalid sockaddr data";;
  data ← lua_tolstring L (-1);
  luaL_argcheck L (offsetof_sa_data + Z.of_nat (String.length data) =? size) 1 msg;;
  mret data.

Definition l_sockaddr_in (L : nat) : prog Z :=
  data ← check_sockaddr L "AF_INET" sizeof_sockaddr_in "invalid sockaddr_in";
  lua_newtable L;;
  int_field L "port" (be_value (sin_field data 2 2));;
  int_field L "addr" (be_value (sin_field data 4 4));;
  mret 1.

Definition l_sockaddr_in6 (L : nat) : prog Z :=
  data ← check_sockaddr L "AF_INET6" sizeof_sockaddr_in6 "invalid sockaddr_in6";
  lua_newtable L;;
  int_field L "port" (be_value (sin_field data 2 2));;
  int_field L "flowinfo" (be_value (sin_field data 4 4));;
  lua_pushlstring L (sin_field data 8 16);;
  lua_setfield L (-2) "addr";;
  int_field L "scope_id" (be_value (sin_field data 24 4));;
  mret 1.

(** *** Tests, by the macros of the system *)

Definition in_addr_test (macro : string) (L : nat) : prog Z :=
  i ← luaL_checkinteger L 1;
  r ← call macro [AZ (to_uint i)];
  lua_pushboolean L (negb (rc r =? 0));;
  mret 1.

Definition l_in_multicast : nat -> prog Z := in_addr_test "IN_MULTICAST".
Definition l_in_experimental : nat -> prog Z := in_addr_test "IN_EXPERIMENTAL".
Definition l_in_badclass : nat -> prog Z := in_addr_test "IN_BADCLASS".
Definition l_in_linklocal : nat -> prog Z := in_addr_test "IN_LINKLOCAL".
Definition l_in_loopback : nat -> prog Z := in_addr_test "IN_LOOPBACK".
Definition l_in_zeronet : nat -> prog Z := in_addr_test "IN_ZERONET".
Definition l_in_private : nat -> prog Z := in_addr_test "IN_PRIVATE".
Definition l_in_local_group : nat -> prog Z := in_addr_test "IN_LOCAL_GROUP".
Definition l_in_any_local : nat -> prog Z := in_addr_test "IN_ANY_LOCAL".

Definition checkin6addr (L : nat) (idx : Z) : prog string :=
  a ← luaL_checklstring L idx;
  luaL_argcheck L (Z.of_nat (String.length a) =? sizeof_in6_addr) idx "invalid in6_addr";;
  mret a.

Definition l_in6_are_addr_equal (L : nat) : prog Z :=
  a ← checkin6addr L 1;
  b ← checkin6addr L 2;
  r ← call "IN6_ARE_ADDR_EQUAL" [AS a; AS b];
  lua_pushboolean L (negb (rc r =? 0));;
  mret 1.

Definition in6_addr_test (macro : string) (L : nat) : prog Z :=
  a ← checkin6addr L 1;
  r ← call macro [AS a];
  lua_pushboolean L (negb (rc r =? 0));;
  mret 1.

Definition l_in6_is_addr_unspecified : nat -> prog Z := in6_addr_test "IN6_IS_ADDR_UNSPECIFIED".
Definition l_in6_is_addr_loopback : nat -> prog Z := in6_addr_test "IN6_IS_ADDR_LOOPBACK".
Definition l_in6_is_addr_v4compat : nat -> prog Z := in6_addr_test "IN6_IS_ADDR_V4COMPAT".
Definition l_in6_is_addr_v4mapped : nat -> prog Z := in6_addr_test "IN6_IS_ADDR_V4MAPPED".
Definition l_in6_is_addr_linklocal : nat -> prog Z := in6_addr_test "IN6_IS_ADDR_LINKLOCAL".
Definition l_in6_is_addr_sitelocal : nat -> prog Z := in6_addr_test "IN6_IS_ADDR_SITELOCAL".
Definition l_in6_is_addr_multicast : nat -> prog Z := in6_addr_test "IN6_IS_ADDR_MULTICAST".
Definition l_in6_is_addr_mc_nodelocal : nat -> prog Z := in6_addr_test "IN6_IS_ADDR_MC_NODELOCAL".
Definition l_in6_is_addr_mc_linklocal : nat -> prog Z := in6_addr_test "IN6_IS_ADDR_MC_LINKLOCAL".
Definition l_in6_is_addr_mc_sitelocal : nat -> prog Z := in6_addr_test "IN6_IS_ADDR_MC_SITELOCAL".
Definition l_in6_is_addr_mc_orglocal : nat -> prog Z := in6_addr_test "IN6_IS_ADDR_MC_ORGLOCAL".
Definition l_in6_is_addr_mc_global : nat -> prog Z := in6_addr_test "IN6_IS_ADDR_MC_GLOBAL".

(** *** Source filters *)

(** an array of [struct sockaddr_storage]: an element is the bytes of its address *)
Definition new_slist (numsrc : Z) : prog Z :=
  malloc (to_size (numsrc * sizeof_ss)) (OArr (replicate (Z.to_nat numsrc) None)).

(** the rounds of the first loop; three values stay on the stack each time *)
Fixpoint fill_slist (L : nat) (slist : Z) (k : nat) (i : Z) : prog unit :=
  match k with
  | O => mret tt
  | S k =>
      let bad := free slist;; luaL_argerror L 5 "invalid sockaddr" in
      lua_geti L 5 (i + 1);;
      idx ← lua_gettop L;
      istable ← lua_is L idx TTABLE;
      if negb istable then bad
      else
        lua_getfield L idx "family";;
        isint ← lua_isinteger L (-1);
        if negb isint then bad
        else
          family ← lua_tointeger L (-1);
          t ← lua_getfield L idx "data";
          if negb (is_type t TSTRING) then bad
          else
            data ← lua_tolstring L (-1);
            let datalen := Z.of_nat (String.length data) in
            if sizeof_ss <? offsetof_sa_data + datalen then undefined "access outside of an object"
            else
              set_elt slist i (AS (saddr_bytes (to_uchar (datalen + offsetof_sa_data)) family data));;
              fill_slist L slist k (i + 1)
  end.

Definition l_setsourcefilter (L : nat) : prog Z :=
  s ← checkfd L 1;
  interface ← luaL_checkinteger L 2;
  group ← checkaddr L 3;
  fmode ← luaL_checkinteger L 4;
  none ← lua_isnoneornil L 5;
  numsrc ← (if none : bool then mret 0
            else
              luaL_checktype L 5 TTABLE;;
              n ← luaL_len L 5;
              mret (to_uint n));
  slist ← (if 0 <? numsrc then
             p ← new_slist numsrc;
             if p =? 0 then fatal L "malloc" (cst "ENOMEM") else mret p
           else mret 0);
  fill_slist L slist (Z.to_nat numsrc) 0;;
  lua_pop L numsrc;;
  r ← call "setsourcefilter"
    [AZ s; AZ (to_uint interface); AS group.1; AZ group.2; AZ (to_uint fmode); AZ numsrc; AZ slist];
  if rc r =? -1 then
    error ← errno;
    free slist;;
    fail L error
  else
    free slist;;
    success L.

(** the bytes of [slist[i]] *)
Definition arr_str (i : nat) (o : obj) : option (option string * obj) :=
  match o with
  | OArr l => match l !! i with
              | Some (Some (AS s)) => Some (Some s, o)
              | Some None => Some (None, o)
              | _ => None
              end
  | _ => None
  end.

Definition push_slist (L : nat) (slist numsrc : Z) : prog unit :=
  for_ (Z.to_nat numsrc) 0 (fun i =>
    s ← load slist (arr_str (Z.to_nat i));
    pushaddr_local L (default "" s);;
    lua_rawseti L (-2) (i + 1)).

(** from the label [grew] on; the outs of the call: [fmode] and [numsrc] *)
Fixpoint grew (fuel : nat) (L : nat) (args : list carg) (slistlen : Z) : prog Z :=
  match fuel with
  | O => halts (EHalt Diverge)
  | S fuel =>
      let slistlen := to_uint (slistlen * 2) in
      slist ← new_slist slistlen;
      if slist =? 0 then fatal L "malloc" (cst "ENOMEM")
      else
        r ← call "getsourcefilter" (args ++ [AZ slistlen; AZ slist]);
        if rc r =? -1 then
          error ← errno;
          free slist;;
          fail L error
        else
          let numsrc := out_int 1 r in
          if slistlen <? numsrc then
            free slist;;
            grew fuel L args numsrc
          else
            push_slist L slist numsrc;;
            free slist;;
            mret 2
  end.

Definition l_getsourcefilter (fuel : nat) (L : nat) : prog Z :=
  s ← checkfd L 1;
  interface ← luaL_checkinteger L 2;
  group ← checkaddr L 3;
  let args := [AZ s; AZ (to_uint interface); AS group.1; AZ group.2] in
  r ← call "getsourcefilter" (args ++ [AZ 0; AZ 0]);
  if rc r =? -1 then
    e ← errno;
    fail L e
  else
    lua_pushinteger L (out_int 0 r);;
    let slistlen := out_int 1 r in
    lua_createtable L slistlen 0;;
    if slistlen =? 0 then mret 2 else grew fuel L args slistlen.

(** *** Extension headers *)

Definition bad_opts {A} (L : nat) : prog A := luaL_argerror L 1 "invalid opts".

(** an integer field of the table on the top *)
Definition opt_field (L : nat) (key : string) : prog Z :=
  lua_getfield L (-1) key;;
  isint ← lua_isinteger L (-1);
  if negb isint then bad_opts L
  else
    n ← lua_tointeger L (-1);
    lua_pop L 1;;
    mret (to_uchar n).

(** the first loop: the length of the header *)
Fixpoint measure_opts (L : nat) (k : nat) (i offset : Z) : prog Z :=
  match k with
  | O => mret offset
  | S k =>
      t ← lua_geti L 1 i;
      if negb (is_type t TTABLE) then bad_opts L
      else
        type_ ← opt_field L "type";
        align ← opt_field L "align";
        t ← lua_getfield L (-1) "value";
        if negb (is_type t TSTRING) then bad_opts L
        else
          value ← lua_tolstring L (-1);
          lua_pop L 1;;
          r ← call "inet6_opt_append"
            [AZ 0; AZ 0; AZ offset; AZ type_; AZ (to_uint (Z.of_nat (String.length value))); AZ align; AZ 0];
          if rc r =? -1 then bad_opts L
          else
            lua_pop L 1;;
            measure_opts L k (i + 1) (rc r)
  end.

(** a field, in the second loop *)
Definition uint8_field (L : nat) (key : string) : prog Z :=
  lua_getfield L (-1) key;;
  n ← lua_tointeger L (-1);
  lua_pop L 1;;
  mret (to_uchar n).

(** the second loop; [databuf] is an out *)
Fixpoint append_opts (L : nat) (ext extlen : Z) (k : nat) (i offset : Z) : prog Z :=
  match k with
  | O => mret offset
  | S k =>
      lua_geti L 1 i;;
      type_ ← uint8_field L "type";
      align ← uint8_field L "align";
      lua_getfield L (-1) "value";;
      value ← lua_tolstring_null L (-1);
      lua_pop L 1;;
      let len := match value with Some s => Z.of_nat (String.length s) | None => 0 end in
      r ← call "inet6_opt_append"
        [AZ ext; AZ extlen; AZ offset; AZ type_; AZ (to_uint len); AZ align];
      assert_ (negb (rc r =? -1)) "offset != -1";;
      voff ← call "inet6_opt_set_val" [AZ (out_int 0 r); AZ 0; null_or value; AZ (to_uint len)];
      assert_ (negb (rc voff =? -1)) "voff != -1";;
      lua_pop L 1;;
      append_opts L ext extlen k (i + 1) (rc r)
  end.

Definition l_inet6_opts_ext (L : nat) : prog Z :=
  luaL_checktype L 1 TTABLE;;
  n ← luaL_len L 1;
  r ← call "inet6_opt_init" [AZ 0; AZ 0];
  assert_ (negb (rc r =? -1)) "offset != -1";;
  offset ← measure_opts L (Z.to_nat n) 1 (rc r);
  r ← call "inet6_opt_finish" [AZ 0; AZ 0; AZ offset];
  assert_ (negb (rc r =? -1)) "offset != -1";;
  let extlen := to_uint (rc r) in
  ext ← malloc extlen (OBuf extlen "");
  if ext =? 0 then fatal L "malloc" (cst "ENOMEM")
  else
    r ← call "inet6_opt_init" [AZ ext; AZ extlen];
    assert_ (negb (rc r =? -1)) "offset != -1";;
    offset ← append_opts L ext extlen (Z.to_nat n) 1 (rc r);
    r ← call "inet6_opt_finish" [AZ ext; AZ extlen; AZ offset];
    assert_ (to_uint (rc r) =? extlen) "offset == extlen";;
    push_bytes L ext extlen;;
    free ext;;
    mret 1.

(** the outs of the call: the type and the bytes of the option *)
Fixpoint next_opts (fuel : nat) (L : nat) (ext : string) (offset : Z) : prog Z :=
  match fuel with
  | O => halts (EHalt Diverge)
  | S fuel =>
      r ← call "inet6_opt_next" [AS ext; AZ (to_uint (Z.of_nat (String.length ext))); AZ offset];
      if rc r =? -1 then mret 1
      else
        lua_createtable L 0 2;;
        lua_pushlstring L (out_str 1 r);;
        lua_setfield L (-2) "value";;
        int_field L "type" (out_int 0 r);;
        n ← luaL_len L (-2);
        lua_rawseti L (-2) (n + 1);;
        next_opts fuel L ext (rc r)
  end.

Definition l_inet6_ext_opts (fuel : nat) (L : nat) : prog Z :=
  ext ← luaL_checklstring L 1;
  lua_newtable L;;
  next_opts fuel L ext 0.

(** [inet6_rth_init] is not called, and [ext] is not freed *)
Definition l_inet6_rth_ext (L : nat) : prog Z :=
  type_ ← luaL_checkinteger L 1;
  luaL_checktype L 2 TTABLE;;
  n ← luaL_len L 2;
  let segments := to_int n in
  r ← call "inet6_rth_space" [AZ (to_int type_); AZ segments];
  let space := rc r in
  if space =? 0 then fail L (cst "EINVAL")
  else
    ext ← malloc space (OBuf space "");
    if ext =? 0 then fatal L "malloc" (cst "ENOMEM")
    else
      let bad := free ext;; luaL_argerror L 2 "invalid segments" in
      for_ (Z.to_nat segments) 1 (fun i =>
        t ← lua_geti L 2 i;
        if negb (is_type t TSTRING) then bad
        else
          addr ← lua_tolstring L (-1);
          if negb (Z.of_nat (String.length addr) =? sizeof_in6_addr) then bad
          else
            r ← call "inet6_rth_add" [AZ ext; AS addr];
            if rc r =? -1 then bad else lua_pop L 1);;
      push_bytes L ext space;;
      mret 1.

Definition l_inet6_rth_reverse (L : nat) : prog Z :=
  src ← luaL_checklstring L 1;
  let len := Z.of_nat (String.length src) in
  dst ← malloc len (OBuf len "");
  if dst =? 0 then fatal L "malloc" (cst "ENOMEM")
  else
    r ← call "inet6_rth_reverse" [AS src; AZ dst];
    if rc r =? -1 then
      free dst;;
      fail L (cst "EINVAL")
    else
      push_bytes L dst len;;
      free dst;;
      mret 1.

(** the loop over the segments *)
Fixpoint push_segments (L : nat) (ext : string) (k : nat) (i : Z) : prog Z :=
  match k with
  | O => mret 1
  | S k =>
      addr ← call "inet6_rth_getaddr" [AS ext; AZ i];
      if rc addr =? 0 then fail L (cst "EINVAL")
      else
        lua_pushlstring L (out_str 0 addr);;
        lua_rawseti L (-2) (i + 1);;
        push_segments L ext k (i + 1)
  end.

(** the library reads the bytes of the string, beyond a NUL too *)
Definition l_inet6_ext_rth (L : nat) : prog Z :=
  ext ← luaL_checklstring L 1;
  segments ← call "inet6_rth_segments" [AS ext];
  if rc segments =? -1 then fail L (cst "EINVAL")
  else
    lua_createtable L (rc segments) 0;;
    push_segments L ext (Z.to_nat (rc segments)) 0.

Definition l_in_funcs : list (string * string) := [
  ("sockaddr_in", "l_sockaddr_in"); ("sockaddr_in6", "l_sockaddr_in6");
  ("in_multicast", "l_in_multicast"); ("in_experimental", "l_in_experimental");
  ("in_badclass", "l_in_badclass"); ("in_linklocal", "l_in_linklocal"); ("in_loopback", "l_in_loopback");
  ("in_zeronet", "l_in_zeronet"); ("in_private", "l_in_private"); ("in_local_group", "l_in_local_group");
  ("in_any_local", "l_in_any_local"); ("in6_are_addr_equal", "l_in6_are_addr_equal");
  ("in6_is_addr_unspecified", "l_in6_is_addr_unspecified"); ("in6_is_addr_loopback", "l_in6_is_addr_loopback");
  ("in6_is_addr_v4compat", "l_in6_is_addr_v4compat"); ("in6_is_addr_v4mapped", "l_in6_is_addr_v4mapped");
  ("in6_is_addr_linklocal", "l_in6_is_addr_linklocal"); ("in6_is_addr_sitelocal", "l_in6_is_addr_sitelocal");
  ("in6_is_addr_multicast", "l_in6_is_addr_multicast"); ("in6_is_addr_mc_nodelocal", "l_in6_is_addr_mc_nodelocal");
  ("in6_is_addr_mc_linklocal", "l_in6_is_addr_mc_linklocal");
  ("in6_is_addr_mc_sitelocal", "l_in6_is_addr_mc_sitelocal");
  ("in6_is_addr_mc_orglocal", "l_in6_is_addr_mc_orglocal"); ("in6_is_addr_mc_global", "l_in6_is_addr_mc_global");
  ("setsourcefilter", "l_setsourcefilter"); ("getsourcefilter", "l_getsourcefilter");
  ("inet6_opts_ext", "l_inet6_opts_ext"); ("inet6_ext_opts", "l_inet6_ext_opts");
  ("inet6_rth_ext", "l_inet6_rth_ext"); ("inet6_rth_reverse", "l_inet6_rth_reverse");
  ("inet6_ext_rth", "l_inet6_ext_rth")].

Definition in_consts1 : list (string * Z) :=
  idents [
     "IPPROTO_IP"; "IPPROTO_ICMP"; "IPPROTO_TCP"; "IPPROTO_UDP"; "INADDR_ANY"; "INADDR_BROADCAST";
     "IPPROTO_IPV6"; "IPPROTO_RAW"; "INET_ADDRSTRLEN"; "IPPROTO_HOPOPTS"; "IPPROTO_IGMP";
     "IPPROTO_GGP"; "IPPROTO_IPV4"; "IPPROTO_ST"; "IPPROTO_EGP"; "IPPROTO_PIGP"; "IPPROTO_RCCMON";
     "IPPROTO_NVPII"; "IPPROTO_PUP"; "IPPROTO_ARGUS"; "IPPROTO_EMCON"; "IPPROTO_XNET";
     "IPPROTO_CHAOS"; "IPPROTO_MUX"; "IPPROTO_MEAS"; "IPPROTO_HMP"; "IPPROTO_PRM"; "IPPROTO_IDP";
     "IPPROTO_TRUNK1"; "IPPROTO_TRUNK2"; "IPPROTO_LEAF1"; "IPPROTO_LEAF2"; "IPPROTO_RDP";
     "IPPROTO_IRTP"; "IPPROTO_TP"; "IPPROTO_BLT"; "IPPROTO_NSP"; "IPPROTO_INP"; "IPPROTO_DCCP";
     "IPPROTO_3PC"; "IPPROTO_CMTP"; "IPPROTO_TPXX"; "IPPROTO_IL"; "IPPROTO_SDRP"; "IPPROTO_ROUTING";
     "IPPROTO_FRAGMENT"; "IPPROTO_IDRP"; "IPPROTO_RSVP"; "IPPROTO_GRE"; "IPPROTO_MHRP";
     "IPPROTO_BHA"; "IPPROTO_ESP"; "IPPROTO_AH"; "IPPROTO_INLSP"; "IPPROTO_SWIPE"; "IPPROTO_NHRP";
     "IPPROTO_MOBILE"; "IPPROTO_TLSP"; "IPPROTO_SKIP"; "IPPROTO_ICMPV6"; "IPPROTO_NONE";
     "IPPROTO_DSTOPTS"; "IPPROTO_AHIP"; "IPPROTO_CFTP"; "IPPROTO_HELLO"; "IPPROTO_SATEXPAK";
     "IPPROTO_KRYPTOLAN"; "IPPROTO_RVD"; "IPPROTO_IPPC"; "IPPROTO_ADFS"; "IPPROTO_SATMON";
     "IPPROTO_VISA"; "IPPROTO_IPCV"; "IPPROTO_CPNX"; "IPPROTO_CPHB"; "IPPROTO_WSN"; "IPPROTO_PVP";
     "IPPROTO_BRSATMON"; "IPPROTO_ND"; "IPPROTO_WBMON"; "IPPROTO_WBEXPAK"; "IPPROTO_EON";
     "IPPROTO_VMTP"; "IPPROTO_SVMTP"; "IPPROTO_VINES"; "IPPROTO_TTP"; "IPPROTO_IGP"; "IPPROTO_DGP";
     "IPPROTO_TCF"; "IPPROTO_IGRP"; "IPPROTO_OSPFIGP"; "IPPROTO_SRPC"; "IPPROTO_LARP";
     "IPPROTO_MTP"; "IPPROTO_AX25"; "IPPROTO_IPEIP"; "IPPROTO_MICP"; "IPPROTO_SCCSP";
     "IPPROTO_ETHERIP"; "IPPROTO_ENCAP"; "IPPROTO_APES"; "IPPROTO_GMTP"; "IPPROTO_IPCOMP";
     "IPPROTO_SCTP"; "IPPROTO_MH"; "IPPROTO_UDPLITE"; "IPPROTO_HIP"; "IPPROTO_HIP"; "IPPROTO_SHIM6";
     "IPPROTO_PIM"; "IPPROTO_CARP"; "IPPROTO_PGM"; "IPPROTO_MPLS"; "IPPROTO_PFSYNC";
     "IPPROTO_RESERVED_253"; "IPPROTO_RESERVED_254"; "IPPROTO_MAX"; "IPPROTO_SEND";
     "IPPROTO_SPACER"; "IPPORT_RESERVED"; "IPPORT_EPHEMERALFIRST"; "IPPORT_EPHEMERALLAST";
     "IPPORT_HIFIRSTAUTO"; "IPPORT_HILASTAUTO"; "IPPORT_RESERVEDSTART"; "IPPORT_MAX"].

Definition in_consts2 : list (string * Z) :=
  idents [
     "IN_NETMASK_DEFAULT"; "INADDR_LOOPBACK"; "INADDR_NONE"; "INADDR_UNSPEC_GROUP";
     "INADDR_ALLHOSTS_GROUP"; "INADDR_ALLRTRS_GROUP"; "INADDR_ALLRPTS_GROUP"; "INADDR_CARP_GROUP";
     "INADDR_PFSYNC_GROUP"; "INADDR_ALLMDNS_GROUP"; "INADDR_MAX_LOCAL_GROUP"; "IN_RFC3021_MASK";
     "IP_OPTIONS"; "IP_HDRINCL"; "IP_TOS"; "IP_TTL"; "IP_RECVOPTS"; "IP_RECVRETOPTS";
     "IP_RECVDSTADDR"; "IP_SENDSRCADDR"; "IP_RETOPTS"; "IP_MULTICAST_IF"; "IP_MULTICAST_TTL";
     "IP_MULTICAST_LOOP"; "IP_ADD_MEMBERSHIP"; "IP_DROP_MEMBERSHIP"; "IP_MULTICAST_VIF";
     "IP_RSVP_ON"; "IP_RSVP_OFF"; "IP_RSVP_VIF_ON"; "IP_RSVP_VIF_OFF"; "IP_PORTRANGE"; "IP_RECVIF";
     "IP_IPSEC_POLICY"; "IP_ONESBCAST"; "IP_BINDANY"; "IP_ORIGDSTADDR"; "IP_RECVORIGDSTADDR";
     "IP_FW3"; "IP_DUMMYNET3"; "IP_RECVTTL"; "IP_MINTTL"; "IP_DONTFRAG"; "IP_RECVTOS";
     "IP_ADD_SOURCE_MEMBERSHIP"; "IP_DROP_SOURCE_MEMBERSHIP"; "IP_BLOCK_SOURCE";
     "IP_UNBLOCK_SOURCE"; "IP_MSFILTER"; "IP_VLAN_PCP"; "MCAST_JOIN_GROUP"; "MCAST_LEAVE_GROUP";
     "MCAST_JOIN_SOURCE_GROUP"; "MCAST_LEAVE_SOURCE_GROUP"; "MCAST_BLOCK_SOURCE";
     "MCAST_UNBLOCK_SOURCE"; "IP_FLOWID"; "IP_FLOWTYPE"; "IP_RSSBUCKETID"; "IP_RECVFLOWID";
     "IP_RECVRSSBUCKETID"; "IP_DEFAULT_MULTICAST_TTL"; "IP_DEFAULT_MULTICAST_LOOP";
     "IP_MAX_MEMBERSHIPS"; "IP_MAX_GROUP_SRC_FILTER"; "IP_MAX_SOCK_SRC_FILTER";
     "IP_MAX_SOCK_MUTE_FILTER"; "MCAST_UNDEFINED"; "MCAST_INCLUDE"; "MCAST_EXCLUDE";
     "IP_PORTRANGE_DEFAULT"; "IP_PORTRANGE_HIGH"; "IP_PORTRANGE_LOW"; "IPCTL_FORWARDING";
     "IPCTL_SENDREDIRECTS"; "IPCTL_DEFTTL"; "IPCTL_SOURCEROUTE"; "IPCTL_DIRECTEDBROADCAST";
     "IPCTL_INTRQMAXLEN"; "IPCTL_INTRQDROPS"; "IPCTL_STATS"; "IPCTL_ACCEPTSOURCEROUTE";
     "IPCTL_FASTFORWARDING"; "IPCTL_GIF_TTL"; "IPCTL_INTRDQMAXLEN"; "IPCTL_INTRDQDROPS";
     "IPV6PORT_RESERVED"; "IPV6PORT_ANONMIN"; "IPV6PORT_ANONMAX"; "IPV6PORT_RESERVEDMIN";
     "IPV6PORT_RESERVEDMAX"; "INET6_ADDRSTRLEN"].

Definition in_consts3 : list (string * Z) :=
  idents [
     "IPV6_SOCKOPT_RESERVED1"; "IPV6_UNICAST_HOPS"; "IPV6_MULTICAST_IF"; "IPV6_MULTICAST_HOPS";
     "IPV6_MULTICAST_LOOP"; "IPV6_JOIN_GROUP"; "IPV6_LEAVE_GROUP"; "IPV6_PORTRANGE"; "ICMP6_FILTER";
     "IPV6_CHECKSUM"; "IPV6_V6ONLY"; "IPV6_BINDV6ONLY"; "IPV6_IPSEC_POLICY"; "IPV6_RTHDRDSTOPTS";
     "IPV6_RECVPKTINFO"; "IPV6_RECVHOPLIMIT"; "IPV6_RECVRTHDR"; "IPV6_RECVHOPOPTS";
     "IPV6_RECVDSTOPTS"; "IPV6_USE_MIN_MTU"; "IPV6_RECVPATHMTU"; "IPV6_PATHMTU"; "IPV6_PKTINFO";
     "IPV6_HOPLIMIT"; "IPV6_NEXTHOP"; "IPV6_HOPOPTS"; "IPV6_DSTOPTS"; "IPV6_RTHDR";
     "IPV6_RECVTCLASS"; "IPV6_AUTOFLOWLABEL"; "IPV6_TCLASS"; "IPV6_DONTFRAG";
     "IPV6_PREFER_TEMPADDR"; "IPV6_BINDANY"] ++
  (if cst "#ifdef IPV6_BINDMULTI" =? 0 then [] else idents [
     "IPV6_BINDMULTI"]) ++
  (if cst "#ifdef IPV6_RSS_LISTEN_BUCKET" =? 0 then [] else idents [
     "IPV6_RSS_LISTEN_BUCKET"]) ++
  idents [
     "IPV6_FLOWID"; "IPV6_FLOWTYPE"; "IPV6_RSSBUCKETID"; "IPV6_RECVFLOWID"; "IPV6_RECVRSSBUCKETID";
     "IPV6_ORIGDSTADDR"; "IPV6_RECVORIGDSTADDR"; "IPV6_VLAN_PCP"; "IPV6_RTHDR_LOOSE";
     "IPV6_RTHDR_STRICT"; "IPV6_RTHDR_TYPE_0"; "IPV6_DEFAULT_MULTICAST_HOPS";
     "IPV6_DEFAULT_MULTICAST_LOOP"; "IPV6_MAX_MEMBERSHIPS"; "IPV6_MAX_GROUP_SRC_FILTER";
     "IPV6_MAX_SOCK_SRC_FILTER"; "IPV6_PORTRANGE_DEFAULT"; "IPV6_PORTRANGE_HIGH";
     "IPV6_PORTRANGE_LOW"; "IPV6PROTO_MAXID"; "IPV6CTL_FORWARDING"; "IPV6CTL_SENDREDIRECTS";
     "IPV6CTL_DEFHLIM"; "IPV6CTL_FORWSRCRT"; "IPV6CTL_STATS"; "IPV6CTL_MRTSTATS";
     "IPV6CTL_MRTPROTO"; "IPV6CTL_MAXFRAGPACKETS"; "IPV6CTL_SOURCECHECK";
     "IPV6CTL_SOURCECHECK_LOGINT"; "IPV6CTL_ACCEPT_RTADV"; "IPV6CTL_LOG_INTERVAL";
     "IPV6CTL_HDRNESTLIMIT"; "IPV6CTL_DAD_COUNT"; "IPV6CTL_AUTO_FLOWLABEL"; "IPV6CTL_DEFMCASTHLIM";
     "IPV6CTL_GIF_HLIM"; "IPV6CTL_KAME_VERSION"; "IPV6CTL_USE_DEPRECATED"; "IPV6CTL_RR_PRUNE";
     "IPV6CTL_V6ONLY"] ++
  (if cst "#ifdef IPV6CTL_STABLEADDR_NETIFSRC" =? 0 then [] else idents [
     "IPV6CTL_STABLEADDR_NETIFSRC"]) ++
  (if cst "#ifdef IPV6CTL_STABLEADDR_MAXRETRIES" =? 0 then [] else idents [
     "IPV6CTL_STABLEADDR_MAXRETRIES"]) ++
  idents [
     "IPV6CTL_USETEMPADDR"; "IPV6CTL_TEMPPLTIME"; "IPV6CTL_TEMPVLTIME"; "IPV6CTL_AUTO_LINKLOCAL";
     "IPV6CTL_RIP6STATS"; "IPV6CTL_PREFER_TEMPADDR"; "IPV6CTL_ADDRCTLPOLICY";
     "IPV6CTL_USE_DEFAULTZONE"] ++
  (if cst "#ifdef IPV6CTL_USESTABLEADDR" =? 0 then [] else idents [
     "IPV6CTL_USESTABLEADDR"]) ++
  idents [
     "IPV6CTL_MAXFRAGS"; "IPV6CTL_MCAST_PMTU"; "IPV6CTL_STEALTH"; "ICMPV6CTL_ND6_ONLINKNSRFC4861";
     "IPV6CTL_NO_RADR"; "IPV6CTL_NORBIT_RAIF"; "IPV6CTL_RFC6204W3"; "IPV6CTL_INTRQMAXLEN";
     "IPV6CTL_INTRDQMAXLEN"; "IPV6CTL_MAXFRAGSPERPACKET"; "IPV6CTL_MAXFRAGBUCKETSIZE";
     "IPV6CTL_MAXID"].

Definition in_consts : list (string * Z) := in_consts1 ++ in_consts2 ++ in_consts3.

(** [DEFINE(ident, INIT)]: the bytes of an address *)
Definition define_addr (L : nat) (ident init : string) : prog unit :=
  lua_pushlstring L (scst init);;
  lua_setfield L (-2) ident.

Definition luaopen_netinet_in (L : nat) : prog Z :=
  luaL_newlib L l_in_funcs;;
  define_all L in_consts;;
  define_addr L "in6addr_any" "IN6ADDR_ANY_INIT";;
  define_addr L "in6addr_loopback" "IN6ADDR_LOOPBACK_INIT";;
  define_addr L "in6addr_nodelocal_allnodes" "IN6ADDR_NODELOCAL_ALLNODES_INIT";;
  define_addr L "in6add4_intfacelocal_allnodes" "IN6ADDR_INTFACELOCAL_ALLNODES_INIT";;
  define_addr L "in6addr_linklocal_allnodes" "IN6ADDR_LINKLOCAL_ALLNODES_INIT";;
  define_addr L "in6addr_linklocal_allrouters" "IN6ADDR_LINKLOCAL_ALLROUTERS_INIT";;
  define_addr L "in6addr_linklocal_allv2routers" "IN6ADDR_LINKLOCAL_ALLV2ROUTERS_INIT";;
  mret 1.

End netinet_in.

(** ** netinet.ip *)

Section netinet_ip.
Context `{Consts}.

Definition l_ipopt_copied (L : nat) : prog Z :=
  o ← luaL_checkinteger L 1;
  r ← call "IPOPT_COPIED" [AZ o];
  lua_pushboolean L (negb (rc r =? 0));;
  mret 1.

Definition l_ipopt_class (L : nat) : prog Z :=
  o ← luaL_checkinteger L 1;
  r ← call "IPOPT_CLASS" [AZ o];
  lua_pushinteger L (rc r);;
  mret 1.

Definition l_ipopt_number (L : nat) : prog Z :=
  o ← luaL_checkinteger L 1;
  r ← call "IPOPT_NUMBER" [AZ o];
  lua_pushinteger L (rc r);;
  mret 1.

Definition l_ip_funcs : list (string * string) :=
  [
   ("ipopt_copied", "l_ipopt_copied"); ("ipopt_class", "l_ipopt_class");
   ("ipopt_number", "l_ipopt_number")].

Definition ip_consts : list (string * Z) :=
  idents [
     "IPVERSION"; "IP_MAXPACKET"; "IPTOS_LOWDELAY"; "IPTOS_THROUGHPUT"; "IPTOS_RELIABILITY";
     "IPTOS_MINCOST"; "IPTOS_DSCP_OFFSET"; "IPTOS_DSCP_CS0"; "IPTOS_DSCP_CS1"; "IPTOS_DSCP_AF11";
     "IPTOS_DSCP_AF12"; "IPTOS_DSCP_AF13"; "IPTOS_DSCP_CS2"; "IPTOS_DSCP_AF21"; "IPTOS_DSCP_AF22";
     "IPTOS_DSCP_AF23"; "IPTOS_DSCP_CS3"; "IPTOS_DSCP_AF31"; "IPTOS_DSCP_AF32"; "IPTOS_DSCP_AF33";
     "IPTOS_DSCP_CS4"; "IPTOS_DSCP_AF41"; "IPTOS_DSCP_AF42"; "IPTOS_DSCP_AF43"; "IPTOS_DSCP_CS5";
     "IPTOS_DSCP_VA"; "IPTOS_DSCP_EF"; "IPTOS_DSCP_CS6"; "IPTOS_DSCP_CS7"; "IPTOS_ECN_NOTECT";
     "IPTOS_ECN_ECT1"; "IPTOS_ECN_ECT0"; "IPTOS_ECN_CE"; "IPTOS_ECN_MASK"; "IPOPT_CONTROL";
     "IPOPT_RESERVED1"; "IPOPT_DEBMEAS"; "IPOPT_RESERVED2"; "IPOPT_EOL"; "IPOPT_NOP"; "IPOPT_RR";
     "IPOPT_TS"; "IPOPT_SECURITY"; "IPOPT_LSRR"; "IPOPT_ESO"; "IPOPT_CIPSO"; "IPOPT_SATID";
     "IPOPT_SSRR"; "IPOPT_RA"; "IPOPT_OPTVAL"; "IPOPT_OLEN"; "IPOPT_OFFSET"; "IPOPT_MINOFF";
     "IPOPT_TS_TSONLY"; "IPOPT_TS_TSANDADDR"; "IPOPT_TS_PRESPEC"; "IPOPT_SECUR_UNCLASS";
     "IPOPT_SECUR_CONFID"; "IPOPT_SECUR_EFTO"; "IPOPT_SECUR_MMMM"; "IPOPT_SECUR_RESTR";
     "IPOPT_SECUR_SECRET"; "IPOPT_SECUR_TOPSECRET"; "MAXTTL"; "IPDEFTTL"; "IPTTLDEC"; "IP_MSS"].

Definition luaopen_netinet_ip (L : nat) : prog Z :=
  luaL_newlib L l_ip_funcs;;
  define_all L ip_consts;;
  mret 1.

Definition ip_wrappers : list wrapped := [
  Wrapped "l_ipopt_class" l_ipopt_class "IPOPT_CLASS" [AInt id] [] (Pushed [v_int]);
  Wrapped "l_ipopt_number" l_ipopt_number "IPOPT_NUMBER" [AInt id] [] (Pushed [v_int])].

Lemma ip_wrappers_ok : Forall wrapped_ok ip_wrappers.
Proof. wrapped_table. Qed.
End netinet_ip.

(** ** netinet.ip6 *)

Section netinet_ip6.
Context `{Consts}.

Definition sizeof_ip6_hdr : Z := 40.

Definition l_ip6opt_type (L : nat) : prog Z :=
  o ← luaL_checkinteger L 1;
  r ← call "IP6OPT_TYPE" [AZ o];
  lua_pushinteger L (rc r);;
  mret 1.

(** a macro of a header *)
Definition ip6_hdr_macro (L : nat) (macro : string) : prog Z :=
  ip6 ← luaL_checklstring L 1;
  luaL_argcheck L (Z.of_nat (String.length ip6) =? sizeof_ip6_hdr) 1 "invalid ip6_hdr";;
  r ← call macro [AS ip6];
  lua_pushinteger L (rc r);;
  mret 1.

Definition l_ipv6_traffic_class (L : nat) : prog Z := ip6_hdr_macro L "IPV6_TRAFFIC_CLASS".
Definition l_ipv6_dscp (L : nat) : prog Z := ip6_hdr_macro L "IPV6_DSCP".
Definition l_ipv6_ecn (L : nat) : prog Z := ip6_hdr_macro L "IPV6_ECN".

Definition l_ip6_funcs : list (string * string) :=
  [
   ("ip6opt_type", "l_ip6opt_type"); ("ipv6_traffic_class", "l_ipv6_traffic_class");
   ("ipv6_dscp", "l_ipv6_dscp"); ("ipv6_ecn", "l_ipv6_ecn")].

Definition ip6_consts : list (string * Z) :=
  idents [
     "IPV6_VERSION"; "IPV6_VERSION_MASK"; "IPV6_FLOWINFO_MASK"; "IPV6_FLOWLABEL_MASK";
     "IPV6_ECN_MASK"; "IPV6_FLOWLABEL_LEN"; "IP6OPT_PAD1"; "IP6OPT_PADN"; "IP6OPT_JUMBO";
     "IP6OPT_NSAP_ADDR"; "IP6OPT_TUNNEL_LIMIT"; "IP6OPT_ROUTER_ALERT"; "IP6OPT_RTALERT";
     "IP6OPT_RTALERT_LEN"; "IP6OPT_RTALERT_MLD"; "IP6OPT_RTALERT_RSVP"; "IP6OPT_RTALERT_ACTNET";
     "IP6OPT_MINLEN"; "IP6OPT_EID"; "IP6OPT_TYPE_SKIP"; "IP6OPT_TYPE_DISCARD";
     "IP6OPT_TYPE_FORCEICMP"; "IP6OPT_TYPE_ICMP"; "IP6OPT_MUTABLE"; "IP6OPT_JUMBO_LEN";
     "IP6_ALERT_MLD"; "IP6_ALERT_RSVP"; "IP6_ALERT_AN"; "IP6F_OFF_MASK"; "IP6F_RESERVED_MASK";
     "IP6F_MORE_FRAG"; "IPV6_MAXHLIM"; "IPV6_DEFHLIM"] ++
  (if cst "#ifdef IPV6_DEFFRAGTTL" =? 0 then [] else idents [
     "IPV6_DEFFRAGTTL"]) ++
  (if cst "#ifdef IPV6_FRAGTTL" =? 0 then [] else idents [
     "IPV6_FRAGTTL"]) ++
  idents [
     "IPV6_HLIMDEC"; "IPV6_MMTU"; "IPV6_MAXPACKET"; "IPV6_MAXOPTHDR"].

Definition luaopen_netinet_ip6 (L : nat) : prog Z :=
  luaL_newlib L l_ip6_funcs;;
  define_all L ip6_consts;;
  mret 1.

Definition ip6_wrappers : list wrapped := [
  Wrapped "l_ip6opt_type" l_ip6opt_type "IP6OPT_TYPE" [AInt id] [] (Pushed [v_int])].

Lemma ip6_wrappers_ok : Forall wrapped_ok ip6_wrappers.
Proof. wrapped_table. Qed.
End netinet_ip6.

(** ** netinet.tcp *)

Section netinet_tcp.
Context `{Consts}.

Definition tcp_consts1 : list (string * Z) :=
  idents_of "TCP_" [
     "MSS"; "MINMSS"; "MAXWIN"; "MAX_WINSHIFT"; "MAXHLEN"; "MAXOLEN"; "FASTOPEN_MIN_COOKIE_LEN";
     "FASTOPEN_MAX_COOKIE_LEN"; "FASTOPEN_PSK_LEN"; "NODELAY"; "MAXSEG"; "NOPUSH"; "NOOPT";
     "MD5SIG"; "INFO"; "STATS"; "LOG"; "LOGBUF"; "LOGID"; "LOGDUMP"; "LOGDUMPID"; "TXTLS_ENABLE";
     "TXTLS_MODE"; "RXTLS_ENABLE"; "RXTLS_MODE"; "IWND_NB"; "IWND_NSEG"; "LOGID_CNT"; "LOG_TAG";
     "USER_LOG"; "CONGESTION"; "CCALGOOPT"; "MAXUNACKTIME"] ++
  (if cst "#ifdef TCP_MAXPEAKRATE" =? 0 then [] else idents_of "TCP_" [
     "MAXPEAKRATE"]) ++
  idents_of "TCP_" [
     "IDLE_REDUCE"; "REMOTE_UDP_ENCAPS_PORT"; "DELACK"; "FIN_IS_RST"; "LOG_LIMIT";
     "SHARED_CWND_ALLOWED"; "PROC_ACCOUNTING"; "USE_CMP_ACKS"; "PERF_INFO"; "KEEPINIT"; "KEEPIDLE";
     "KEEPINTVL"; "KEEPCNT"; "FASTOPEN"] ++
  (if cst "#ifdef TCP_PCAP_OUT" =? 0 then [] else idents_of "TCP_" [
     "PCAP_OUT"]) ++
  (if cst "#ifdef TCP_PCAP_IN" =? 0 then [] else idents_of "TCP_" [
     "PCAP_IN"]) ++
  idents_of "TCP_" [
     "FUNCTION_BLK"] ++
  (if cst "#ifdef TCP_FUNCTION_ALIAS" =? 0 then [] else idents_of "TCP_" [
     "FUNCTION_ALIAS"]) ++
  idents_of "TCP_" [
     "REUSPORT_LB_NUMA"; "RACK_MBUF_QUEUE"] ++
  (if cst "#ifdef TCP_RACK_PROP" =? 0 then [] else idents_of "TCP_" [
     "RACK_PROP"]) ++
  idents_of "TCP_" [
     "RACK_TLP_REDUCE"] ++
  (if cst "#ifdef TCP_RACK_PACE_REDUCE" =? 0 then [] else idents_of "TCP_" [
     "RACK_PACE_REDUCE"]) ++
  idents_of "TCP_" [
     "RACK_PACE_MAX_SEG"; "RACK_PACE_ALWAYS"] ++
  (if cst "#ifdef TCP_RACK_PROP_RATE" =? 0 then [] else idents_of "TCP_" [
     "RACK_PROP_RATE"]) ++
  idents_of "TCP_" [
     "RACK_PRR_SENDALOT"; "RACK_MIN_TO"] ++
  (if cst "#ifdef TCP_RACK_EARLY_RECOV" =? 0 then [] else idents_of "TCP_" [
     "RACK_EARLY_RECOV"]) ++
  idents_of "TCP_" [
     "RACK_EARLY_SEG"; "RACK_REORD_THRESH"; "RACK_REORD_FADE"; "RACK_TLP_THRESH"; "RACK_PKT_DELAY"] ++
  (if cst "#ifdef TCP_RACK_TLP_INC_VAR" =? 0 then [] else idents_of "TCP_" [
     "RACK_TLP_INC_VAR"]) ++
  idents_of "TCP_" [
     "BBR_IWINTSO"] ++
  (if cst "#ifdef TCP_BBR_RECFORCE" =? 0 then [] else idents_of "TCP_" [
     "BBR_RECFORCE"]) ++
  idents_of "TCP_" [
     "BBR_STARTUP_PG"; "BBR_DRAIN_PG"] ++
  (if cst "#ifdef TCP_BBR_RWND_IS_APP" =? 0 then [] else idents_of "TCP_" [
     "BBR_RWND_IS_APP"]) ++
  idents_of "TCP_" [
     "BBR_PROBE_RTT_INT"] ++
  (if cst "#ifdef TCP_BBR_ONE_RETRAN" =? 0 then [] else idents_of "TCP_" [
     "BBR_ONE_RETRAN"]) ++
  idents_of "TCP_" [
     "BBR_STARTUP_LOSS_EXIT"] ++
  (if cst "#ifdef TCP_BBR_USE_LOWGAIN" =? 0 then [] else idents_of "TCP_" [
     "BBR_USE_LOWGAIN"]) ++
  (if cst "#ifdef TCP_BBR_LOWGAIN_THRESH" =? 0 then [] else idents_of "TCP_" [
     "BBR_LOWGAIN_THRESH"]) ++
  (if cst "#ifdef TCP_BBR_TSLIMITS" =? 0 then [] else idents_of "TCP_" [
     "BBR_TSLIMITS"]) ++
  idents_of "TCP_" [
     "BBR_PACE_OH"] ++
  (if cst "#ifdef TCP_BBR_LOWGAIN_FD" =? 0 then [] else idents_of "TCP_" [
     "BBR_LOWGAIN_FD"]) ++
  idents_of "TCP_" [
     "BBR_USEDEL_RATE"; "BBR_MIN_RTO"; "BBR_MAX_RTO"] ++
  (if cst "#ifdef TCP_BBR_REC_OVER_HPTS" =? 0 then [] else idents_of "TCP_" [
     "BBR_REC_OVER_HPTS"]) ++
  idents_of "TCP_" [
     "BBR_ALGORITHM"] ++
  (if cst "#ifdef TCP_BBR_DRAIN_INC_EXTRA" =? 0 then [] else idents_of "TCP_" [
     "BBR_DRAIN_INC_EXTRA"]) ++
  (if cst "#ifdef TCP_BBR_STARTUP_EXIT_EPOCH" =? 0 then [] else idents_of "TCP_" [
     "BBR_STARTUP_EXIT_EPOCH"]).

Definition tcp_consts2 : list (string * Z) :=
  idents_of "TCP_" [
     "BBR_PACE_PER_SEC"; "BBR_PACE_DEL_TAR"; "BBR_PACE_SEG_MAX"; "BBR_PACE_SEG_MIN";
     "BBR_PACE_CROSS"] ++
  (if cst "#ifdef TCP_RACK_IDLE_REDUCE_HIGH" =? 0 then [] else idents_of "TCP_" [
     "RACK_IDLE_REDUCE_HIGH"]) ++
  (if cst "#ifdef TCP_RACK_MIN_PACE" =? 0 then [] else idents_of "TCP_" [
     "RACK_MIN_PACE"]) ++
  (if cst "#ifdef TCP_RACK_MIN_PACE_SEG" =? 0 then [] else idents_of "TCP_" [
     "RACK_MIN_PACE_SEG"]) ++
  (if cst "#ifdef TCP_RACK_GP_INCREASE" =? 0 then [] else idents_of "TCP_" [
     "RACK_GP_INCREASE"]) ++
  idents_of "TCP_" [
     "BBR_TMR_PACE_OH"; "RACK_DO_DETECTION"; "BBR_RACK_RTT_USE"; "BBR_RETRAN_WTSO";
     "DATA_AFTER_CLOSE"; "BBR_PROBE_RTT_GAIN"; "BBR_PROBE_RTT_LEN"; "BBR_SEND_IWND_IN_TSO";
     "BBR_USE_RACK_RR"; "BBR_HDWR_PACE"; "BBR_UTTER_MAX_TSO"; "BBR_EXTRA_STATE";
     "BBR_FLOOR_MIN_TSO"; "BBR_MIN_TOPACEOUT"; "BBR_TSTMP_RAISES"; "BBR_POLICER_DETECT";
     "BBR_RACK_INIT_RATE"; "RACK_RR_CONF"; "RACK_GP_INCREASE_CA"; "RACK_GP_INCREASE_SS";
     "RACK_GP_INCREASE_REC"; "RACK_FORCE_MSEG"; "RACK_PACE_RATE_CA"; "RACK_PACE_RATE_SS";
     "RACK_PACE_RATE_REC"; "NO_PRR"; "RACK_NONRXT_CFG_RATE"; "SHARED_CWND_ENABLE"; "TIMELY_DYN_ADJ";
     "RACK_NO_PUSH_AT_MAX"; "RACK_PACE_TO_FILL"; "SHARED_CWND_TIME_LIMIT"; "RACK_PROFILE";
     "HDWR_RATE_CAP"; "PACING_RATE_CAP"; "HDWR_UP_ONLY"; "RACK_ABC_VAL"; "REC_ABC_VAL";
     "RACK_MEASURE_CNT"; "DEFER_OPTIONS"] ++
  (if cst "#ifdef TCP_FAST_RSM_HACK" =? 0 then [] else idents_of "TCP_" [
     "FAST_RSM_HACK"]) ++
  idents_of "TCP_" [
     "RACK_PACING_BETA"; "RACK_PACING_BETA_ECN"; "RACK_TIMER_SLOP"] ++
  (if cst "#ifdef TCP_RACK_DSACK_OPT" =? 0 then [] else idents_of "TCP_" [
     "RACK_DSACK_OPT"]) ++
  (if cst "#ifdef TCP_RACK_ENABLE_HYSTART" =? 0 then [] else idents_of "TCP_" [
     "RACK_ENABLE_HYSTART"]) ++
  (if cst "#ifdef TCP_RACK_SET_RXT_OPTIONS" =? 0 then [] else idents_of "TCP_" [
     "RACK_SET_RXT_OPTIONS"]) ++
  (if cst "#ifdef TCP_RACK_HI_BETA" =? 0 then [] else idents_of "TCP_" [
     "RACK_HI_BETA"]) ++
  (if cst "#ifdef TCP_RACK_SPLIT_LIMIT" =? 0 then [] else idents_of "TCP_" [
     "RACK_SPLIT_LIMIT"]) ++
  (if cst "#ifdef TCP_RACK_PACING_DIVISOR" =? 0 then [] else idents_of "TCP_" [
     "RACK_PACING_DIVISOR"]) ++
  (if cst "#ifdef TCP_RACK_PACE_MIN_SEG" =? 0 then [] else idents_of "TCP_" [
     "RACK_PACE_MIN_SEG"]) ++
  (if cst "#ifdef TCP_HYBRID_PACING" =? 0 then [] else idents_of "TCP_" [
     "HYBRID_PACING"]) ++
  (if cst "#ifdef TCP_PACING_DND" =? 0 then [] else idents_of "TCP_" [
     "PACING_DND"]) ++
  (if cst "#ifdef TCP_SS_EEXIT" =? 0 then [] else idents_of "TCP_" [
     "SS_EEXIT"]) ++
  (if cst "#ifdef TCP_DGP_UPPER_BOUNDS" =? 0 then [] else idents_of "TCP_" [
     "DGP_UPPER_BOUNDS"]) ++
  (if cst "#ifdef TCP_NO_TIMELY" =? 0 then [] else idents_of "TCP_" [
     "NO_TIMELY"]) ++
  (if cst "#ifdef TCP_HONOR_HPTS_MIN" =? 0 then [] else idents_of "TCP_" [
     "HONOR_HPTS_MIN"]) ++
  (if cst "#ifdef TCP_REC_IS_DYN" =? 0 then [] else idents_of "TCP_" [
     "REC_IS_DYN"]) ++
  (if cst "#ifdef TCP_SIDECHAN_DIS" =? 0 then [] else idents_of "TCP_" [
     "SIDECHAN_DIS"]) ++
  (if cst "#ifdef TCP_FILLCW_RATE_CAP" =? 0 then [] else idents_of "TCP_" [
     "FILLCW_RATE_CAP"]) ++
  (if cst "#ifdef TCP_STACK_SPEC_INFO" =? 0 then [] else idents_of "TCP_" [
     "STACK_SPEC_INFO"]) ++
  (if cst "#ifdef TCP_GP_USE_LTBW" =? 0 then [] else idents_of "TCP_" [
     "GP_USE_LTBW"]) ++
  idents_of "TCP_" [
     "VENDOR"; "CA_NAME_MAX"; "LOG_ID_LEN"] ++
  (if cst "#ifdef TCP_NUM_PROC_COUNTERS" =? 0 then [] else idents_of "TCP_" [
     "NUM_PROC_COUNTERS"]) ++
  (if cst "#ifdef TCP_NUM_CNT_COUNTERS" =? 0 then [] else idents_of "TCP_" [
     "NUM_CNT_COUNTERS"]).

Definition tcp_consts3 : list (string * Z) :=
  idents_of "TCP_" [
     "FUNCTION_NAME_LEN_MAX"; "TLS_MODE_NONE"; "TLS_MODE_SW"; "TLS_MODE_IFNET"; "TLS_MODE_TOE"] ++
  (if cst "#ifdef TCP_LOG_USER_HTTPD" =? 0 then [] else idents_of "TCP_" [
     "LOG_USER_HTTPD"]) ++
  (if cst "#ifdef TCP_LOG_HTTPD_TS" =? 0 then [] else idents_of "TCP_" [
     "LOG_HTTPD_TS"]) ++
  (if cst "#ifdef TCP_LOG_HTTPD_TS_REQ" =? 0 then [] else idents_of "TCP_" [
     "LOG_HTTPD_TS_REQ"]) ++
  (if cst "#ifdef TCP_LOG_HTTPD_RANGE_START" =? 0 then [] else idents_of "TCP_" [
     "LOG_HTTPD_RANGE_START"]) ++
  (if cst "#ifdef TCP_LOG_HTTPD_RANGE_END" =? 0 then [] else idents_of "TCP_" [
     "LOG_HTTPD_RANGE_END"]) ++
  (if cst "#ifdef TCP_HYBRID_PACING_CU" =? 0 then [] else idents_of "TCP_" [
     "HYBRID_PACING_CU"]) ++
  (if cst "#ifdef TCP_HYBRID_PACING_DTL" =? 0 then [] else idents_of "TCP_" [
     "HYBRID_PACING_DTL"]) ++
  (if cst "#ifdef TCP_HYBRID_PACING_CSPR" =? 0 then [] else idents_of "TCP_" [
     "HYBRID_PACING_CSPR"]) ++
  (if cst "#ifdef TCP_HYBRID_PACING_H_MS" =? 0 then [] else idents_of "TCP_" [
     "HYBRID_PACING_H_MS"]) ++
  (if cst "#ifdef TCP_HYBRID_PACING_ENABLE" =? 0 then [] else idents_of "TCP_" [
     "HYBRID_PACING_ENABLE"]) ++
  idents_of "TCP_" [
     "REUSPORT_LB_NUMA_NODOM"; "REUSPORT_LB_NUMA_CURDOM"].

Definition tcp_consts : list (string * Z) := tcp_consts1 ++ tcp_consts2 ++ tcp_consts3.

Definition tcp_full_consts : list (string * Z) :=
  idents [
     "TCP_MSS"; "TCP6_MSS"; "TTCP_CLIENT_SND_WND"] ++
  (if cst "#ifdef RACK_CSPR_IS_FCC" =? 0 then [] else idents [
     "RACK_CSPR_IS_FCC"]) ++
  idents [
     "TCPI_OPT_TIMESTAMPS"; "TCPI_OPT_SACK"; "TCPI_OPT_WSCALE"; "TCPI_OPT_ECN"; "TCPI_OPT_TOE";
     "TCPI_OPT_TFO"] ++
  (if cst "#ifdef TCPI_OPT_ACE" =? 0 then [] else idents [
     "TCPI_OPT_ACE"]) ++
  idents [
     "TLS_SET_RECORD_TYPE"; "TLS_GET_RECORD"; "VOI_TCP_TXPB"; "VOI_TCP_RETXPB"; "VOI_TCP_FRWIN";
     "VOI_TCP_LCWIN"; "VOI_TCP_RTT"; "VOI_TCP_CSIG"; "VOI_TCP_GPUT"; "VOI_TCP_CALCFRWINDIFF";
     "VOI_TCP_GPUT_ND"; "VOI_TCP_ACKLEN"].

Definition luaopen_netinet_tcp (L : nat) : prog Z :=
  lua_newtable L;;
  define_all L tcp_consts;;
  define_all L tcp_full_consts;;
  mret 1.
End netinet_tcp.

(** ** netinet.udp *)

Section netinet_udp.
Context `{Consts}.

Definition udp_consts : list (string * Z) :=
  idents_of "UDP_" [
     "ENCAP"; "VENDOR"; "ENCAP_ESPINUDP_NON_IKE"; "ENCAP_ESPINUDP"; "ENCAP_ESPINUDP_PORT";
     "ENCAP_ESPINUDP_MAXFRAGLEN"].

Definition luaopen_netinet_udp (L : nat) : prog Z :=
  lua_newtable L;;
  define_all L udp_consts;;
  mret 1.
End netinet_udp.

(** ** netinet.udplite *)

Section netinet_udplite.
Context `{Consts}.

Definition udplite_consts : list (string * Z) :=
  idents_of "UDPLITE_" [
     "SEND_CSCOV"; "RECV_CSCOV"].

Definition luaopen_netinet_udplite (L : nat) : prog Z :=
  lua_newtable L;;
  define_all L udplite_consts;;
  mret 1.
End netinet_udplite.

