(* ===== verification/Event.v ===== *)
(** * lua_event.c: kernel event queues

    A queue is a userdata that holds a descriptor, -1 once it is closed.  [kevent] copies a
    table of changes into an array, six values for each, and waits for one event.  Coroutines
    are not modelled: a change whose [udata] is one, and an event that carries one, are
    outside. *)

From S2P Require Import Prelude LuaApi Machine Capi Utils Modules Cmem Wrapper.

Section event.
Context `{Consts}.

Definition KQUEUE_METATABLE : string := "kqueue".
Definition kq_obj (v : option Z) : obj := OArr [AZ <$> v].

Definition l_kqueue (L : nat) : prog Z :=
  flags ← luaL_optinteger L 1 0;
  kqp ← lua_newuserdatauv L sizeof_int (kq_obj None) 0;
  kq ← call "kqueuex" [AZ (to_uint flags)];
  load kqp (arr_set 0 (AZ (rc kq)));;
  if rc kq =? -1 then
    e ← errno;
    fail L e
  else
    luaL_setmetatable L KQUEUE_METATABLE;;
    mret 1.

Definition l_wrap (L : nat) : prog Z :=
  kq ← luaL_checkinteger L 1;
  kqp ← lua_newuserdatauv L sizeof_int (kq_obj None) 0;
  load kqp (arr_set 0 (AZ (to_int kq)));;
  luaL_setmetatable L KQUEUE_METATABLE;;
  mret 1.

(** *** Changes *)

Definition sizeof_kevent : Z := 64.

(** "cookie", a light userdata, or "ident", a number *)
Definition change_ident (L : nat) : prog Z :=
  t ← lua_getfield L (-1) "cookie";
  if is_type t TLIGHTUSERDATA then
    p ← lua_touserdata L (-1);
    lua_pop L 1;;
    mret p
  else
    t ← lua_getfield L (-2) "ident";
    if is_type t TNUMBER then
      n ← lua_tointeger L (-1);
      lua_pop L 2;;
      mret (to_size n)
    else luaL_argerror L 2 "`changelist' invalid ident".

(** the two INTFIELDs, and the two OPTINTFIELDs *)
Definition change_int (L : nat) (name : string) : prog Z :=
  t ← lua_getfield L (-1) name;
  luaL_argcheck L (is_type t TNUMBER) 2 ("`changelist' invalid " +:+ name);;
  n ← lua_tointeger L (-1);
  lua_pop L 1;;
  mret n.

Definition change_optint (L : nat) (name : string) : prog Z :=
  t ← lua_getfield L (-1) name;
  isint ← lua_isinteger L (-1);
  n ← (if is_type t TNIL then mret 0
       else if isint : bool then lua_tointeger L (-1)
       else luaL_argerror L 2 ("`changelist' invalid " +:+ name));
  lua_pop L 1;;
  mret n.

Definition change_udata (L : nat) : prog Z :=
  t ← lua_getfield L (-1) "udata";
  match t with
  | TNIL => lua_pop L 1;; mret 0
  | TTHREAD => halts (EHalt (Unspec "lua_tothread"))
  | _ => luaL_argerror L 2 "`changelist' invalid udata"
  end.

Definition set_change (L : nat) (changelist i : Z) : prog unit :=
  t ← lua_geti L 2 i;
  luaL_argcheck L (is_type t TTABLE) 2 "`changelist' invalid";;
  ident ← change_ident L;
  filter_ ← change_int L "filter";
  flags ← change_int L "flags";
  fflags ← change_optint L "fflags";
  data ← change_optint L "data";
  udata ← change_udata L;
  let at_ j := 6 * (i - 1) + j in
  set_elt changelist (at_ 0) (AZ ident);;
  set_elt changelist (at_ 1) (AZ (wraps 16 filter_));;
  set_elt changelist (at_ 2) (AZ (to_ushort flags));;
  set_elt changelist (at_ 3) (AZ (to_uint fflags));;
  set_elt changelist (at_ 4) (AZ data);;
  set_elt changelist (at_ 5) (AZ udata);;
  lua_pop L 1.

(** the changes are not freed *)
Definition read_changes (L : nat) : prog (Z * Z) :=
  none ← lua_isnoneornil L 2;
  if none : bool then mret (0, 0)
  else
    t ← lua_type L 2;
    luaL_argcheck L (is_type t TTABLE) 2 "`changelist' expected";;
    n ← luaL_len L 2;
    let nchanges := to_int n in
    changelist ← malloc (to_size (nchanges * sizeof_kevent)) (OArr (replicate (Z.to_nat (6 * nchanges)) None));
    if changelist =? 0 then fatal L "malloc" (cst "ENOMEM")
    else
      for_ (Z.to_nat nchanges) 1 (set_change L changelist);;
      mret (changelist, nchanges).

(** the outs: ident, filter, flags, fflags, data, udata *)
Definition push_event (L : nat) (event : cret) : prog unit :=
  lua_newtable L;;
  int_field L "ident" (to_long (out_int 0 event));;
  lua_pushlightuserdata L (out_int 0 event);;
  lua_setfield L (-2) "cookie";;
  int_field L "filter" (out_int 1 event);;
  int_field L "flags" (out_int 2 event);;
  int_field L "fflags" (out_int 3 event);;
  int_field L "data" (out_int 4 event);;
  if out_int 5 event =? 0 then mret tt else halts (EHalt (Unspec "lua_pushthread")).

Definition l_kevent (L : nat) : prog Z :=
  kqp ← luaL_checkudata L 1 KQUEUE_METATABLE;
  changes ← read_changes L;
  kq ← arr_load kqp 0;
  n ← call "kevent" [AZ kq; AZ changes.1; AZ changes.2; AZ 1; AZ 0];
  if rc n =? 1 then
    push_event L n;;
    mret 1
  else if rc n =? -1 then
    e ← errno;
    fail L e
  else luaL_error L "kevent failed spectacularly".

Definition l_close (L : nat) : prog Z :=
  kqp ← luaL_checkudata L 1 KQUEUE_METATABLE;
  kq ← arr_load kqp 0;
  if kq =? -1 then mret 0
  else
    r ← call "close" [AZ kq];
    if rc r =? -1 then
      e ← errno;
      fail L e
    else
      load kqp (arr_set 0 (AZ (-1)));;
      success L.

Definition l_fileno (L : nat) : prog Z :=
  kqp ← luaL_checkudata L 1 KQUEUE_METATABLE;
  kq ← arr_load kqp 0;
  if kq =? -1 then mret 0
  else
    lua_pushinteger L kq;;
    mret 1.

Definition l_gc (L : nat) : prog Z :=
  kqp ← luaL_checkudata L 1 KQUEUE_METATABLE;
  kq ← arr_load kqp 0;
  if kq =? -1 then mret 0
  else
    call "close" [AZ kq];;
    load kqp (arr_set 0 (AZ (-1)));;
    mret 0.

Definition l_kqueue_funcs : list (string * string) :=
  [
   ("kqueue", "l_kqueue"); ("wrap", "l_wrap")].

Definition l_kqueue_meta : list (string * string) := [
  ("__close", "l_close"); ("__gc", "l_gc"); ("close", "l_close"); ("kevent", "l_kevent"); ("fileno", "l_fileno")].

Definition event_consts : list (string * Z) :=
  idents [
     "EV_ADD"; "EV_DELETE"; "EV_ENABLE"; "EV_DISABLE"; "EV_FORCEONESHOT"] ++
  (if cst "#ifdef EV_KEEPUDATA" =? 0 then [] else idents [
     "EV_KEEPUDATA"]) ++
  idents [
     "EV_ONESHOT"; "EV_CLEAR"; "EV_RECEIPT"; "EV_DISPATCH"; "EV_EOF"; "EV_ERROR"; "EVFILT_READ";
     "EVFILT_WRITE"; "EVFILT_AIO"; "EVFILT_VNODE"; "EVFILT_PROC"; "EVFILT_SIGNAL"; "EVFILT_TIMER";
     "EVFILT_PROCDESC"; "EVFILT_FS"; "EVFILT_LIO"; "EVFILT_USER"; "EVFILT_SENDFILE"; "EVFILT_EMPTY"] ++
  (if cst "#ifdef EVFILT_JAIL" =? 0 then [] else idents [
     "EVFILT_JAIL"]) ++
  (if cst "#ifdef EVFILT_JAILDESC" =? 0 then [] else idents [
     "EVFILT_JAILDESC"]) ++
  idents [
     "NOTE_FFNOP"; "NOTE_FFAND"; "NOTE_FFOR"; "NOTE_FFCOPY"; "NOTE_FFCTRLMASK"; "NOTE_FFLAGSMASK";
     "NOTE_TRIGGER"; "NOTE_LOWAT"; "NOTE_FILE_POLL"; "NOTE_DELETE"; "NOTE_WRITE"; "NOTE_EXTEND";
     "NOTE_ATTRIB"; "NOTE_LINK"; "NOTE_RENAME"; "NOTE_REVOKE"; "NOTE_OPEN"; "NOTE_CLOSE";
     "NOTE_CLOSE_WRITE"; "NOTE_READ"; "NOTE_EXIT"; "NOTE_FORK"; "NOTE_EXEC"; "NOTE_PCTRLMASK";
     "NOTE_PDATAMASK"; "NOTE_TRACK"; "NOTE_TRACKERR"; "NOTE_CHILD"] ++
  (if cst "#ifdef NOTE_JAIL_CHILD" =? 0 then [] else idents [
     "NOTE_JAIL_CHILD"]) ++
  (if cst "#ifdef NOTE_JAIL_SET" =? 0 then [] else idents [
     "NOTE_JAIL_SET"]) ++
  (if cst "#ifdef NOTE_JAIL_ATTACH" =? 0 then [] else idents [
     "NOTE_JAIL_ATTACH"]) ++
  (if cst "#ifdef NOTE_JAIL_REMOVE" =? 0 then [] else idents [
     "NOTE_JAIL_REMOVE"]) ++
  (if cst "#ifdef NOTE_JAIL_MULTI" =? 0 then [] else idents [
     "NOTE_JAIL_MULTI"]) ++
  (if cst "#ifdef NOTE_JAIL_CTRLMASK" =? 0 then [] else idents [
     "NOTE_JAIL_CTRLMASK"]) ++
  idents [
     "NOTE_SECONDS"; "NOTE_MSECONDS"; "NOTE_USECONDS"; "NOTE_NSECONDS"; "NOTE_ABSTIME";
     "KQUEUE_CLOEXEC"] ++
  (if cst "#ifdef KQUEUE_CPONFORK" =? 0 then [] else idents [
     "KQUEUE_CPONFORK"]).

Definition luaopen_sys_event (L : nat) : prog Z :=
  register_type L KQUEUE_METATABLE l_kqueue_meta;;
  luaL_newlib L l_kqueue_funcs;;
  define_all L event_consts;;
  mret 1.
End event.
