(* ===== verification/Magic.v ===== *)
(** * lua_magic.c: recognizing file types

    A cookie of type "magic_t"; errors come from the library, not from [errno]
    ([magicerr]). *)

From S2P Require Import Prelude LuaApi Machine Capi Utils Modules Cmem Wrapper.

Section magic.
Context `{Consts}.

Definition MAGIC_METATABLE : string := "magic_t".

Definition l_magic_open (L : nat) : prog Z :=
  flags ← luaL_optinteger L 1 (cst "MAGIC_NONE");
  cookie ← call "magic_open" [AZ (to_int flags)];
  if rc cookie =? 0 then
    e ← errno;
    fail L e
  else
    new L (rc cookie) MAGIC_METATABLE.

Definition l_magic_close (L : nat) : prog Z :=
  cookie ← checkcookienull L 1 MAGIC_METATABLE;
  call "magic_close" [AZ cookie];;
  setcookie L 1 0;;
  mret 0.

Definition magicerr (L : nat) (cookie : Z) : prog Z :=
  luaL_pushfail L;;
  r ← call "magic_error" [AZ cookie];
  push_ret_string L r;;
  r ← call "magic_errno" [AZ cookie];
  lua_pushinteger L (rc r);;
  mret 3.

(** the end of the functions that return a description *)
Definition magic_string (L : nat) (cookie : Z) (magic : cret) : prog Z :=
  if rc magic =? 0 then magicerr L cookie
  else
    push_ret_string L magic;;
    mret 1.

Definition l_magic_descriptor (L : nat) : prog Z :=
  cookie ← checkcookie L 1 MAGIC_METATABLE;
  fd ← checkfd L 2;
  magic ← call "magic_descriptor" [AZ cookie; AZ fd];
  magic_string L cookie magic.

Definition l_magic_file (L : nat) : prog Z :=
  cookie ← checkcookie L 1 MAGIC_METATABLE;
  filename ← luaL_optstring L 2;
  magic ← call "magic_file" [AZ cookie; null_or filename];
  magic_string L cookie magic.

Definition l_magic_buffer (L : nat) : prog Z :=
  cookie ← checkcookie L 1 MAGIC_METATABLE;
  buffer ← luaL_checklstring L 2;
  magic ← call "magic_buffer" [AZ cookie; AS buffer; AZ (Z.of_nat (String.length buffer))];
  magic_string L cookie magic.

Definition l_magic_getflags (L : nat) : prog Z :=
  cookie ← checkcookie L 1 MAGIC_METATABLE;
  flags ← call "magic_getflags" [AZ cookie];
  if rc flags =? -1 then
    luaL_error L "magic_getflags failed"
  else
    lua_pushinteger L (rc flags);;
    mret 1.

Definition l_magic_setflags (L : nat) : prog Z :=
  cookie ← checkcookie L 1 MAGIC_METATABLE;
  flags ← luaL_checkinteger L 2;
  r ← call "magic_setflags" [AZ cookie; AZ (to_int flags)];
  if rc r =? -1 then
    luaL_error L "magic_setflags failed"
  else
    mret 0.

(** the four functions on a list of database files *)
Definition magic_database (L : nat) (f : string) : prog Z :=
  cookie ← checkcookie L 1 MAGIC_METATABLE;
  filename ← luaL_optstring L 2;
  r ← call f [AZ cookie; null_or filename];
  if rc r =? -1 then magicerr L cookie else success L.

Definition l_magic_check (L : nat) : prog Z := magic_database L "magic_check".
Definition l_magic_compile (L : nat) : prog Z := magic_database L "magic_compile".
Definition l_magic_list (L : nat) : prog Z := magic_database L "magic_list".
Definition l_magic_load (L : nat) : prog Z := magic_database L "magic_load".

Definition l_magic_getparam (L : nat) : prog Z :=
  cookie ← checkcookie L 1 MAGIC_METATABLE;
  param ← luaL_checkinteger L 2;
  r ← call "magic_getparam" [AZ cookie; AZ (to_int param)];
  if rc r =? -1 then
    luaL_error L "magic_getparam failed"
  else
    lua_pushinteger L (to_long (out_int 0 r));;
    mret 1.

Definition l_magic_setparam (L : nat) : prog Z :=
  cookie ← checkcookie L 1 MAGIC_METATABLE;
  param ← luaL_checkinteger L 2;
  limit ← luaL_checkinteger L 3;
  r ← call "magic_setparam" [AZ cookie; AZ (to_int param); AZ (to_size limit)];
  if rc r =? -1 then
    luaL_error L "magic_setparam failed"
  else
    mret 0.

Definition l_magic_getpath (L : nat) : prog Z :=
  magicfile ← luaL_optstring L 1;
  action ← luaL_optinteger L 2 0;
  path ← call "magic_getpath" [null_or magicfile; AZ (to_int action)];
  push_ret_string L path;;
  mret 1.

Definition l_magic_funcs : list (string * string) :=
  [
   ("open", "l_magic_open"); ("getpath", "l_magic_getpath")].

Definition l_magic_meta : list (string * string) :=
  [
   ("__close", "l_magic_close"); ("__gc", "l_magic_close"); ("close", "l_magic_close");
   ("descriptor", "l_magic_descriptor"); ("file", "l_magic_file"); ("buffer", "l_magic_buffer");
   ("getflags", "l_magic_getflags"); ("setflags", "l_magic_setflags"); ("check", "l_magic_check");
   ("compile", "l_magic_compile"); ("list", "l_magic_list"); ("load", "l_magic_load");
   ("getparam", "l_magic_getparam"); ("setparam", "l_magic_setparam")].

Definition magic_consts : list (string * Z) :=
  idents_of "MAGIC_" [
     "NONE"; "DEBUG"; "SYMLINK"; "COMPRESS"; "DEVICES"; "MIME_TYPE"; "CONTINUE"; "CHECK";
     "PRESERVE_ATIME"; "RAW"; "ERROR"; "MIME_ENCODING"; "MIME"; "APPLE"; "EXTENSION";
     "COMPRESS_TRANSP"; "NO_COMPRESS_FORK"; "NODESC"; "NO_CHECK_COMPRESS"; "NO_CHECK_TAR";
     "NO_CHECK_SOFT"; "NO_CHECK_APPTYPE"; "NO_CHECK_ELF"; "NO_CHECK_TEXT"; "NO_CHECK_CDF";
     "NO_CHECK_CSV"; "NO_CHECK_TOKENS"; "NO_CHECK_ENCODING"; "NO_CHECK_JSON"; "NO_CHECK_SIMH";
     "NO_CHECK_BUILTIN"; "VERSION"; "PARAM_INDIR_MAX"; "PARAM_NAME_MAX"; "PARAM_ELF_PHNUM_MAX";
     "PARAM_ELF_SHNUM_MAX"; "PARAM_ELF_NOTES_MAX"; "PARAM_REGEX_MAX"; "PARAM_BYTES_MAX";
     "PARAM_ENCODING_MAX"; "PARAM_ELF_SHSIZE_MAX"; "PARAM_MAGWARN_MAX"].

Definition luaopen_magic (L : nat) : prog Z :=
  register_type L MAGIC_METATABLE l_magic_meta;;
  luaL_newlib L l_magic_funcs;;
  define_all L magic_consts;;
  mret 1.

Definition magic_wrappers : list wrapped := [
  Wrapped "l_magic_open" l_magic_open "magic_open" [AOptInt (cst "MAGIC_NONE") to_int] [] (or_errno 0 (New MAGIC_METATABLE));
  Wrapped "l_magic_getpath" l_magic_getpath "magic_getpath" [AOptStr; AOptInt 0 to_int] [] RStr].

Lemma magic_wrappers_ok : Forall wrapped_ok magic_wrappers.
Proof. wrapped_table. Qed.
End magic.
