(* ===== verification/Casper.v ===== *)
(** * Capability mode services: libcasper and lua_fileargs.c, lua_net.c, lua_syslog.c,
    lua_netdb.c, lua_pwd.c, lua_grp.c, lua_sysctl.c under libcasper/services

    A channel is a cookie of type "cap_channel_t *".  The services have the functions of the
    modules they stand for, with a channel in front, and limits: [casper.pwd] and
    [casper.grp] share the loop of [Passwd], [casper.sysctl] the node functions of [Sysctl],
    [casper.net] and [casper.netdb] the tables of [Net]. *)

From S2P Require Import Prelude LuaApi Machine Capi Utils Modules Cmem Wrapper Nv Net Capsicum Files Passwd Sysctl.

Definition CAP_CHANNEL_METATABLE : string := "cap_channel_t *".

(** ** casper *)

Section casper.
Context `{Consts}.

Definition l_cap_init (L : nat) : prog Z :=
  chan ← call "cap_init" [];
  if rc chan =? 0 then
    e ← errno;
    fail L e
  else
    new L (rc chan) CAP_CHANNEL_METATABLE.

Definition l_cap_wrap (L : nat) : prog Z :=
  sock ← luaL_checkinteger L 1;
  flags ← luaL_optinteger L 2 0;
  chan ← call "cap_wrap" [AZ (to_int sock); AZ (to_int flags)];
  if rc chan =? 0 then
    e ← errno;
    fail L e
  else
    new L (rc chan) CAP_CHANNEL_METATABLE.

Definition l_cap_close (L : nat) : prog Z :=
  chan ← checkcookienull L 1 CAP_CHANNEL_METATABLE;
  if chan =? 0 then mret 0
  else
    call "cap_close" [AZ chan];;
    setcookie L 1 0;;
    mret 0.

Definition l_cap_unwrap (L : nat) : prog Z :=
  chan ← checkcookie L 1 CAP_CHANNEL_METATABLE;
  setcookie L 1 0;;
  r ← call "cap_unwrap" [AZ chan];
  lua_pushinteger L (rc r);;
  lua_pushinteger L (out_int 0 r);;
  mret 2.

Definition l_cap_sock (L : nat) : prog Z :=
  chan ← checkcookie L 1 CAP_CHANNEL_METATABLE;
  r ← call "cap_sock" [AZ chan];
  lua_pushinteger L (rc r);;
  mret 1.

Definition l_cap_clone (L : nat) : prog Z :=
  chan ← checkcookie L 1 CAP_CHANNEL_METATABLE;
  clone ← call "cap_clone" [AZ chan];
  if rc clone =? 0 then
    e ← errno;
    fail L e
  else
    new L (rc clone) CAP_CHANNEL_METATABLE.

Definition l_cap_limit (L : nat) : prog Z :=
  chan ← checkcookie L 1 CAP_CHANNEL_METATABLE;
  none ← lua_isnoneornil L 2;
  if none : bool then
    r ← call "cap_limit_get" [AZ chan];
    if rc r =? -1 then
      e ← errno;
      fail L e
    else if out_int 0 r =? 0 then mret 0
    else new L (out_int 0 r) NVLIST_METATABLE
  else
    limits ← checknvlist L 2;
    setcookie L 2 0;;
    r ← call "cap_limit_set" [AZ chan; AZ limits];
    or_fail L r (success L).

Definition l_cap_send (L : nat) : prog Z :=
  chan ← checkcookie L 1 CAP_CHANNEL_METATABLE;
  nvl ← checkanynvlist L 2;
  r ← call "cap_send_nvlist" [AZ chan; AZ nvl];
  or_fail L r (success L).

Definition l_cap_recv (L : nat) : prog Z :=
  chan ← checkcookie L 1 CAP_CHANNEL_METATABLE;
  nvl ← call "cap_recv_nvlist" [AZ chan];
  if rc nvl =? 0 then
    e ← errno;
    fail L e
  else
    new L (rc nvl) NVLIST_METATABLE.

Definition l_cap_xfer (L : nat) : prog Z :=
  chan ← checkcookie L 1 CAP_CHANNEL_METATABLE;
  tx ← checknvlist L 2;
  setcookie L 2 0;;
  rx ← call "cap_xfer_nvlist" [AZ chan; AZ tx];
  if rc rx =? 0 then
    e ← errno;
    fail L e
  else new L (rc rx) NVLIST_METATABLE.

Definition l_cap_service_open (L : nat) : prog Z :=
  chan ← checkcookie L 1 CAP_CHANNEL_METATABLE;
  name ← luaL_checkstring L 2;
  serv ← call "cap_service_open" [AZ chan; AS name];
  if rc serv =? 0 then
    e ← errno;
    fail L e
  else
    new L (rc serv) CAP_CHANNEL_METATABLE.

Definition l_casper_funcs : list (string * string) :=
  [
   ("init", "l_cap_init"); ("wrap", "l_cap_wrap")].

Definition l_cap_channel_meta : list (string * string) :=
  [
   ("__close", "l_cap_close"); ("__gc", "l_cap_close"); ("close", "l_cap_close");
   ("unwrap", "l_cap_unwrap"); ("sock", "l_cap_sock"); ("clone", "l_cap_clone");
   ("limit", "l_cap_limit"); ("send", "l_cap_send"); ("recv", "l_cap_recv"); ("xfer", "l_cap_xfer");
   ("service_open", "l_cap_service_open")].

Definition casper_consts : list (string * Z) := idents_of "CASPER_" ["NO_UNIQ"].

Definition luaopen_casper (L : nat) : prog Z :=
  lua_getglobal L "require";;
  lua_pushstring L "nv";;
  lua_call0 L 1;;
  register_type L CAP_CHANNEL_METATABLE l_cap_channel_meta;;
  luaL_newlib L l_casper_funcs;;
  define_all L casper_consts;;
  mret 1.

Definition casper_wrappers : list wrapped := [
  Wrapped "l_cap_init" l_cap_init "cap_init" [] [] (or_errno 0 (New CAP_CHANNEL_METATABLE));
  Wrapped "l_cap_wrap" l_cap_wrap "cap_wrap" [AInt to_int; AOptInt 0 to_int] [] (or_errno 0 (New CAP_CHANNEL_METATABLE));
  Wrapped "l_cap_sock" l_cap_sock "cap_sock" [ACookie CAP_CHANNEL_METATABLE] [] (Pushed [v_int]);
  Wrapped "l_cap_clone" l_cap_clone "cap_clone" [ACookie CAP_CHANNEL_METATABLE] [] (or_errno 0 (New CAP_CHANNEL_METATABLE));
  Wrapped "l_cap_recv" l_cap_recv "cap_recv_nvlist" [ACookie CAP_CHANNEL_METATABLE] [] (or_errno 0 (New NVLIST_METATABLE));
  Wrapped "l_cap_service_open" l_cap_service_open "cap_service_open" [ACookie CAP_CHANNEL_METATABLE; AStr] [] (or_errno 0 (New CAP_CHANNEL_METATABLE))].

Lemma casper_wrappers_ok : Forall wrapped_ok casper_wrappers.
Proof. wrapped_table. Qed.
End casper.

(** ** casper.fileargs *)

Section fileargs.
Context `{Consts}.

Definition FILEARGS_METATABLE : string := "fileargs_t *".

(** the strings of the table at [idx], or null for what is none: an array; the values stay
    on the stack *)
Definition read_argv (L : nat) (idx argv argc : Z) : prog unit :=
  for_ (Z.to_nat argc) 0 (fun i =>
    lua_geti L idx (i + 1);;
    s ← lua_tolstring_null L (-1);
    set_elt argv i (match s with Some s => AS (cstr s) | None => AZ 0 end)).

(** what both functions do from [luaL_len] on *)
Definition init_fileargs (L : nat) (idx : Z) (f : string) (cas : list carg) (flags mode rights operations : Z) :
  prog Z :=
  n ← luaL_len L idx;
  let argc := to_int n in
  argv ← malloc (to_size (argc * sizeof_ptr)) (OArr (replicate (Z.to_nat argc) None));
  if argv =? 0 then fatal L "malloc" (cst "ENOMEM")
  else
    read_argv L idx argv argc;;
    fa ← call f (cas ++ [AZ argc; AZ argv; AZ (to_int flags); AZ (to_ushort mode); AZ rights; AZ (to_int operations)]);
    if rc fa =? 0 then
      error ← errno;
      free argv;;
      fail L error
    else
      free argv;;
      new L (rc fa) FILEARGS_METATABLE.

Definition l_fileargs_init (L : nat) : prog Z :=
  luaL_checktype L 1 TTABLE;;
  flags ← luaL_checkinteger L 2;
  mode ← luaL_checkinteger L 3;
  rights ← luaL_checkudata L 4 CAP_RIGHTS_METATABLE;
  operations ← luaL_checkinteger L 5;
  init_fileargs L 1 "fileargs_init" [] flags mode rights operations.

Definition l_fileargs_cinit (L : nat) : prog Z :=
  cas ← checkcookie L 1 CAP_CHANNEL_METATABLE;
  luaL_checktype L 2 TTABLE;;
  flags ← luaL_checkinteger L 3;
  mode ← luaL_checkinteger L 4;
  rights ← luaL_checkudata L 5 CAP_RIGHTS_METATABLE;
  operations ← luaL_checkinteger L 6;
  init_fileargs L 2 "fileargs_cinit" [AZ cas] flags mode rights operations.

(** a name/value list that the library takes over, or null *)
Definition opt_limits (L : nat) (idx : Z) : prog Z :=
  none ← lua_isnoneornil L idx;
  if none : bool then mret 0
  else
    limits ← checknvlist L idx;
    setcookie L idx 0;;
    mret limits.

Definition l_fileargs_initnv (L : nat) : prog Z :=
  limits ← opt_limits L 1;
  fa ← call "fileargs_initnv" [AZ limits];
  if rc fa =? 0 then
    e ← errno;
    fail L e
  else new L (rc fa) FILEARGS_METATABLE.

Definition l_fileargs_cinitnv (L : nat) : prog Z :=
  cas ← checkcookie L 1 CAP_CHANNEL_METATABLE;
  limits ← opt_limits L 2;
  fa ← call "fileargs_cinitnv" [AZ cas; AZ limits];
  if rc fa =? 0 then
    e ← errno;
    fail L e
  else new L (rc fa) FILEARGS_METATABLE.

(** both arguments are read at 1 *)
Definition l_fileargs_wrap (L : nat) : prog Z :=
  chan ← checkcookie L 1 CAP_CHANNEL_METATABLE;
  fdflags ← luaL_checkinteger L 1;
  fa ← call "fileargs_wrap" [AZ chan; AZ (to_int fdflags)];
  if rc fa =? 0 then
    e ← errno;
    fail L e
  else new L (rc fa) FILEARGS_METATABLE.

Definition l_fileargs_free (L : nat) : prog Z :=
  fa ← checkcookienull L 1 FILEARGS_METATABLE;
  call "fileargs_free" [AZ fa];;
  mret 0.

(** the members are those of [stat] *)
Definition l_fileargs_lstat (L : nat) : prog Z :=
  fa ← checkcookie L 1 FILEARGS_METATABLE;
  name ← luaL_checkstring L 2;
  r ← call "fileargs_lstat" [AZ fa; AS name];
  if rc r =? -1 then
    e ← errno;
    fail L e
  else
    pushstat L r;;
    mret 1.

Definition l_fileargs_open (L : nat) : prog Z :=
  fa ← checkcookie L 1 FILEARGS_METATABLE;
  name ← luaL_checkstring L 2;
  fd ← call "fileargs_open" [AZ fa; AS name];
  if rc fd =? -1 then
    e ← errno;
    fail L e
  else
    lua_pushinteger L (rc fd);;
    mret 1.

(** [luaL_fileresult(L, stat, NULL)] of lauxlib *)
Definition luaL_fileresult (L : nat) (stat : bool) : prog Z :=
  en ← errno;
  if stat then
    lua_pushboolean L true;;
    mret 1
  else
    luaL_pushfail L;;
    msg ← (if en =? 0 then mret "(no extra info)" else strerror_r en);
    lua_pushstring L msg;;
    lua_pushinteger L en;;
    mret 3.

Definition closestream (L : nat) : prog Z :=
  s ← luaL_checkudata L 1 LUA_FILEHANDLE;
  f ← load s stream_f;
  r ← call "fclose" [AZ f];
  luaL_fileresult L (rc r =? 0).

Definition sizeof_stream : Z := 16.
Definition set_stream (f : Z) (o : obj) : option (unit * obj) :=
  match o with OStream _ => Some (tt, OStream f) | _ => None end.

(** [closef] is not kept: it is [closestream] *)
Definition l_fileargs_fopen (L : nat) : prog Z :=
  fa ← checkcookie L 1 FILEARGS_METATABLE;
  name ← luaL_checkstring L 2;
  mode ← luaL_checkstring L 3;
  s ← lua_newuserdatauv L sizeof_stream (OStream 0) 0;
  f ← call "fileargs_fopen" [AZ fa; AS name; AS mode];
  load s (set_stream (rc f));;
  if rc f =? 0 then
    e ← errno;
    fail L e
  else
    luaL_setmetatable L LUA_FILEHANDLE;;
    mret 1.

Definition l_fileargs_realpath (L : nat) : prog Z :=
  fa ← checkcookie L 1 FILEARGS_METATABLE;
  pathname ← luaL_checkstring L 2;
  r ← call "fileargs_realpath" [AZ fa; AS pathname];
  if rc r =? 0 then
    e ← errno;
    fail L e
  else
    lua_pushstring L (out_str 0 r);;
    mret 1.

Definition l_fileargs_unwrap (L : nat) : prog Z :=
  fa ← checkcookie L 1 FILEARGS_METATABLE;
  setcookie L 1 0;;
  chan ← call "fileargs_unwrap" [AZ fa];
  new L (rc chan) CAP_CHANNEL_METATABLE;;
  lua_pushinteger L (out_int 0 chan);;
  mret 2.

Definition l_fileargs_funcs : list (string * string) :=
  [
   ("init", "l_fileargs_init"); ("cinit", "l_fileargs_cinit"); ("initnv", "l_fileargs_initnv");
   ("cinitnv", "l_fileargs_cinitnv"); ("wrap", "l_fileargs_wrap")].

Definition l_fileargs_meta : list (string * string) :=
  [
   ("__gc", "l_fileargs_free"); ("lstat", "l_fileargs_lstat"); ("open", "l_fileargs_open");
   ("fopen", "l_fileargs_fopen"); ("realpath", "l_fileargs_realpath");
   ("unwrap", "l_fileargs_unwrap")].

Definition fileargs_consts : list (string * Z) := idents_of "FA_" ["OPEN"; "LSTAT"; "REALPATH"].

Definition luaopen_casper_fileargs (L : nat) : prog Z :=
  register_type L FILEARGS_METATABLE l_fileargs_meta;;
  luaL_newlib L l_fileargs_funcs;;
  define_all L fileargs_consts;;
  mret 1.

Definition fileargs_wrappers : list wrapped := [
  Wrapped "l_fileargs_open" l_fileargs_open "fileargs_open" [ACookie FILEARGS_METATABLE; AStr] [] (or_errno (-1) (Pushed [v_int]));
  Wrapped "l_fileargs_realpath" l_fileargs_realpath "fileargs_realpath" [ACookie FILEARGS_METATABLE; AStr] [] (or_errno 0 (Pushed [v_outs 0]))].

Lemma fileargs_wrappers_ok : Forall wrapped_ok fileargs_wrappers.
Proof. wrapped_table. Qed.
End fileargs.

(** ** casper.net *)

Section net.
Context `{Consts}.

Definition CAP_NET_LIMIT_METATABLE : string := "cap_net_limit_t *".

Definition l_cap_bind (L : nat) : prog Z :=
  chan ← checkcookie L 1 CAP_CHANNEL_METATABLE;
  s ← checkfd L 2;
  addr ← checkaddr L 3;
  r ← call "cap_bind" [AZ chan; AZ s; AS addr.1; AZ addr.2];
  or_fail L r (success L).

Definition l_cap_connect (L : nat) : prog Z :=
  chan ← checkcookie L 1 CAP_CHANNEL_METATABLE;
  s ← checkfd L 2;
  addr ← checkaddr L 3;
  r ← call "cap_connect" [AZ chan; AZ s; AS addr.1; AZ addr.2];
  or_fail L r (success L).

Definition l_cap_getaddrinfo (L : nat) : prog Z :=
  chan ← checkcookie L 1 CAP_CHANNEL_METATABLE;
  hostname ← luaL_optstring L 2;
  servname ← luaL_optstring L 3;
  istable ← lua_is L 4 TTABLE;
  hints ← (if istable : bool then h ← checkai L 4; mret (AZ 1 :: h) else mret [AZ 0]);
  error ← call "cap_getaddrinfo" (AZ chan :: null_or hostname :: null_or servname :: hints);
  if negb (rc error =? 0) then gai_fail L (rc error)
  else
    lua_newtable L;;
    push_ais L (drop 1 (outs error));;
    call "freeaddrinfo" [AZ (out_int 0 error)];;
    mret 1.

Definition l_cap_getnameinfo (L : nat) : prog Z :=
  chan ← checkcookie L 1 CAP_CHANNEL_METATABLE;
  sa ← checkaddr L 2;
  flags ← luaL_optinteger L 3 0;
  error ← call "cap_getnameinfo"
    [AZ chan; AS sa.1; AZ sa.2; AZ (cst "NI_MAXHOST"); AZ (cst "NI_MAXSERV"); AZ (to_int flags)];
  if negb (rc error =? 0) then gai_fail L (rc error)
  else
    lua_pushstring L (out_str 0 error);;
    lua_pushstring L (out_str 1 error);;
    mret 2.

Definition l_cap_net_limit_init (L : nat) : prog Z :=
  chan ← checkcookie L 1 CAP_CHANNEL_METATABLE;
  mode ← luaL_checkinteger L 2;
  limit ← call "cap_net_limit_init" [AZ chan; AZ (to_size mode)];
  if rc limit =? 0 then
    e ← errno;
    fail L e
  else
    new L (rc limit) CAP_NET_LIMIT_METATABLE.

Definition l_cap_net_free (L : nat) : prog Z :=
  limit ← checkcookienull L 1 CAP_NET_LIMIT_METATABLE;
  call "cap_net_free" [AZ limit];;
  mret 0.

(** a limit on an address: the three functions differ by the call *)
Definition limit_addr (f : string) (L : nat) : prog Z :=
  limit ← checkcookie L 1 CAP_NET_LIMIT_METATABLE;
  sa ← checkaddr L 2;
  call f [AZ limit; AS sa.1; AZ sa.2];;
  lua_pushvalue L 1;;
  mret 1.

Definition l_cap_net_limit_addr2name : nat -> prog Z := limit_addr "cap_net_limit_addr2name".

(** a limit on address families: an array of integers *)
Definition limit_family (f : string) (L : nat) : prog Z :=
  limit ← checkcookie L 1 CAP_NET_LIMIT_METATABLE;
  luaL_checktype L 2 TTABLE;;
  n ← luaL_len L 2;
  let n := to_size n in
  family ← malloc (to_size (n * sizeof_int)) (OArr (replicate (Z.to_nat n) None));
  if family =? 0 then fatal L "malloc" (cst "ENOMEM")
  else
    for_ (Z.to_nat n) 0 (fun i =>
      lua_geti L 2 (i + 1);;
      v ← lua_tointeger L (-1);
      set_elt family i (AZ (to_int v)));;
    lua_pop L n;;
    call f [AZ limit; AZ family; AZ n];;
    free family;;
    lua_pushvalue L 1;;
    mret 1.

Definition l_cap_net_limit_addr2name_family : nat -> prog Z := limit_family "cap_net_limit_addr2name_family".
Definition l_cap_net_limit_bind : nat -> prog Z := limit_addr "cap_net_limit_bind".
Definition l_cap_net_limit_connect : nat -> prog Z := limit_addr "cap_net_limit_connect".

Definition l_cap_net_limit_name2addr (L : nat) : prog Z :=
  limit ← checkcookie L 1 CAP_NET_LIMIT_METATABLE;
  name ← luaL_optstring L 2;
  serv ← luaL_optstring L 3;
  call "cap_net_limit_name2addr" [AZ limit; null_or name; null_or serv];;
  lua_pushvalue L 1;;
  mret 1.

Definition l_cap_net_limit_name2addr_family : nat -> prog Z := limit_family "cap_net_limit_name2addr_family".

Definition l_cap_net_limit (L : nat) : prog Z :=
  limit ← checkcookie L 1 CAP_NET_LIMIT_METATABLE;
  setcookie L 1 0;;
  r ← call "cap_net_limit" [AZ limit];
  if rc r =? -1 then
    e ← errno;
    fail L e
  else
    success L.

Definition l_net_funcs : list (string * string) :=
  [
   ("bind", "l_cap_bind"); ("connect", "l_cap_connect"); ("getaddrinfo", "l_cap_getaddrinfo");
   ("getnameinfo", "l_cap_getnameinfo"); ("limit_init", "l_cap_net_limit_init")].

Definition l_net_limit_meta : list (string * string) :=
  [
   ("__gc", "l_cap_net_free"); ("addr2name", "l_cap_net_limit_addr2name");
   ("addr2name_family", "l_cap_net_limit_addr2name_family"); ("bind", "l_cap_net_limit_bind");
   ("connect", "l_cap_net_limit_connect"); ("name2addr", "l_cap_net_limit_name2addr");
   ("name2addr_family", "l_cap_net_limit_name2addr_family"); ("limit", "l_cap_net_limit")].

Definition net_consts : list (string * Z) := idents_of "CAPNET_" ["ADDR2NAME"; "NAME2ADDR"; "CONNECT"; "BIND"; "CONNECTDNS"].

Definition luaopen_casper_net (L : nat) : prog Z :=
  register_type L CAP_NET_LIMIT_METATABLE l_net_limit_meta;;
  luaL_newlib L l_net_funcs;;
  define_all L net_consts;;
  mret 1.

Definition net_wrappers : list wrapped := [
  Wrapped "l_cap_net_limit_init" l_cap_net_limit_init "cap_net_limit_init" [ACookie CAP_CHANNEL_METATABLE; AInt to_size] [] (or_errno 0 (New CAP_NET_LIMIT_METATABLE))].

Lemma net_wrappers_ok : Forall wrapped_ok net_wrappers.
Proof. wrapped_table. Qed.
End net.

(** ** casper.syslog *)

Section syslog.
Context `{Consts}.

Definition l_cap_openlog (L : nat) : prog Z :=
  chan ← checkcookie L 1 CAP_CHANNEL_METATABLE;
  ident ← luaL_checkstring L 2;
  logopt ← luaL_checkinteger L 3;
  facility ← luaL_optinteger L 4 0;
  call "cap_openlog" [AZ chan; AS ident; AZ (to_int logopt); AZ (to_int facility)];;
  mret 0.

Definition l_cap_setlogmask (L : nat) : prog Z :=
  chan ← checkcookie L 1 CAP_CHANNEL_METATABLE;
  maskpri ← luaL_checkinteger L 2;
  r ← call "cap_setlogmask" [AZ chan; AZ (to_int maskpri)];
  lua_pushinteger L (rc r);;
  mret 1.

Definition l_cap_syslog (L : nat) : prog Z :=
  chan ← checkcookie L 1 CAP_CHANNEL_METATABLE;
  priority ← luaL_checkinteger L 2;
  message ← luaL_checkstring L 3;
  call "cap_syslog" [AZ chan; AZ (to_int priority); AS "%s"; AS message];;
  mret 0.

Definition l_cap_closelog (L : nat) : prog Z :=
  chan ← checkcookie L 1 CAP_CHANNEL_METATABLE;
  call "cap_closelog" [AZ chan];;
  mret 0.

Definition l_syslog_funcs : list (string * string) :=
  [
   ("openlog", "l_cap_openlog"); ("setlogmask", "l_cap_setlogmask"); ("syslog", "l_cap_syslog");
   ("closelog", "l_cap_closelog")].

Definition luaopen_casper_syslog (L : nat) : prog Z :=
  luaL_newlib L l_syslog_funcs;;
  mret 1.

Definition cap_syslog_wrappers : list wrapped := [
  Wrapped "l_cap_openlog" l_cap_openlog "cap_openlog" [ACookie CAP_CHANNEL_METATABLE; AStr; AInt to_int; AOptInt 0 to_int] [] RNone;
  Wrapped "l_cap_setlogmask" l_cap_setlogmask "cap_setlogmask" [ACookie CAP_CHANNEL_METATABLE; AInt to_int] [] (Pushed [v_int]);
  Wrapped "l_cap_syslog" l_cap_syslog "cap_syslog" [ACookie CAP_CHANNEL_METATABLE; AInt to_int; AStr; AConst (AS "%s")] [0%nat; 1%nat; 3%nat; 2%nat] RNone;
  Wrapped "l_cap_closelog" l_cap_closelog "cap_closelog" [ACookie CAP_CHANNEL_METATABLE] [] RNone].

Lemma cap_syslog_wrappers_ok : Forall wrapped_ok cap_syslog_wrappers.
Proof. wrapped_table. Qed.
End syslog.

(** ** casper.netdb *)

Section netdb.
Context `{Consts}.

(** the outs are those of [getprotobyname_r] *)
Definition l_cap_getprotobyname (L : nat) : prog Z :=
  capnetdb ← checkcookie L 1 CAP_CHANNEL_METATABLE;
  name ← luaL_checkstring L 2;
  ent ← call "cap_getprotobyname" [AZ capnetdb; AS name];
  if rc ent =? 0 then mret 0
  else
    pushprotoent L ent;;
    mret 1.

Definition l_netdb_funcs : list (string * string) :=
  [
   ("getprotobyname", "l_cap_getprotobyname")].

Definition luaopen_casper_netdb (L : nat) : prog Z :=
  luaL_newlib L l_netdb_funcs;;
  mret 1.
End netdb.

(** ** What limits the two databases *)

Section limits.
Context `{Consts}.

(** the array of the strings of the table at 2; the values stay on the stack *)
Definition limit_strings (f : string) (L : nat) : prog Z :=
  chan ← checkcookie L 1 CAP_CHANNEL_METATABLE;
  luaL_checktype L 2 TTABLE;;
  n ← luaL_len L 2;
  let ncmds := to_size n in
  cmds ← malloc (to_size (ncmds * sizeof_ptr)) (OArr (replicate (Z.to_nat ncmds) None));
  if cmds =? 0 then fatal L "malloc" (cst "ENOMEM")
  else
    for_ (Z.to_nat ncmds) 0 (fun i =>
      t ← lua_geti L 2 (i + 1);
      if negb (is_type t TSTRING) then
        free cmds;;
        luaL_argerror L 2 "expected strings"
      else
        s ← lua_tostring L (-1);
        set_elt cmds i (AS s));;
    r ← call f [AZ chan; AZ cmds; AZ ncmds];
    if rc r =? -1 then
      error ← errno;
      free cmds;;
      fail L error
    else
      free cmds;;
      success L.

(** names and numbers, each in an array that has room for all; the counts *)
Fixpoint split_ids (L : nat) (users uids : Z) (k : nat) (i nusers nuids : Z) : prog (Z * Z) :=
  match k with
  | O => mret (nusers, nuids)
  | S k =>
      t ← lua_geti L 2 (i + 1);
      if is_type t TSTRING then
        s ← lua_tostring L (-1);
        set_elt users nusers (AS s);;
        split_ids L users uids k (i + 1) (nusers + 1) nuids
      else
        isint ← lua_isinteger L (-1);
        if isint : bool then
          n ← lua_tointeger L (-1);
          set_elt uids nuids (AZ (to_uint n));;
          split_ids L users uids k (i + 1) nusers (nuids + 1)
        else
          free uids;;
          free users;;
          luaL_argerror L 2 "expected strings or integers"
  end.

Definition limit_ids (f : string) (L : nat) : prog Z :=
  chan ← checkcookie L 1 CAP_CHANNEL_METATABLE;
  luaL_checktype L 2 TTABLE;;
  n ← luaL_len L 2;
  let n := to_size n in
  users ← malloc (to_size (n * sizeof_ptr)) (OArr (replicate (Z.to_nat n) None));
  if users =? 0 then fatal L "malloc" (cst "ENOMEM")
  else
    uids ← malloc (to_size (n * sizeof_int)) (OArr (replicate (Z.to_nat n) None));
    if uids =? 0 then
      free users;;
      fatal L "malloc" (cst "ENOMEM")
    else
      counts ← split_ids L users uids (Z.to_nat n) 0 0 0;
      r ← call f [AZ chan; AZ users; AZ counts.1; AZ uids; AZ counts.2];
      if rc r =? -1 then
        error ← errno;
        free uids;;
        free users;;
        fail L error
      else
        free uids;;
        free users;;
        success L.

End limits.

(** ** casper.pwd *)

Section pwd.
Context `{Consts} (fuel : nat).

Definition l_cap_getpwent (L : nat) : prog Z :=
  chan ← checkcookie L 1 CAP_CHANNEL_METATABLE;
  db_get fuel L "cap_getpwent_r" [AZ chan] (pushpasswd L).

Definition l_cap_getpwnam (L : nat) : prog Z :=
  chan ← checkcookie L 1 CAP_CHANNEL_METATABLE;
  name ← luaL_checkstring L 2;
  db_get fuel L "cap_getpwnam_r" [AZ chan; AS name] (pushpasswd L).

Definition l_cap_getpwuid (L : nat) : prog Z :=
  chan ← checkcookie L 1 CAP_CHANNEL_METATABLE;
  uid ← luaL_checkinteger L 2;
  db_get fuel L "cap_getpwuid_r" [AZ chan; AZ (to_uint uid)] (pushpasswd L).

Definition l_cap_setpassent (L : nat) : prog Z :=
  chan ← checkcookie L 1 CAP_CHANNEL_METATABLE;
  luaL_checktype L 2 TBOOLEAN;;
  stayopen ← lua_toboolean L 2;
  r ← call "cap_setpassent" [AZ chan; AZ (Z_of_bool stayopen)];
  if rc r =? 0 then
    e ← errno;
    fail L e
  else
    success L.

Definition l_cap_setpwent (L : nat) : prog Z :=
  chan ← checkcookie L 1 CAP_CHANNEL_METATABLE;
  call "cap_setpwent" [AZ chan];;
  mret 0.

Definition l_cap_endpwent (L : nat) : prog Z :=
  chan ← checkcookie L 1 CAP_CHANNEL_METATABLE;
  call "cap_endpwent" [AZ chan];;
  mret 0.

Definition l_cap_pwd_limit_cmds : nat -> prog Z := limit_strings "cap_pwd_limit_cmds".
Definition l_cap_pwd_limit_fields : nat -> prog Z := limit_strings "cap_pwd_limit_fields".
Definition l_cap_pwd_limit_users : nat -> prog Z := limit_ids "cap_pwd_limit_users".

Definition l_pwd_funcs : list (string * string) :=
  [
   ("getpwent", "l_cap_getpwent"); ("getpwnam", "l_cap_getpwnam"); ("getpwuid", "l_cap_getpwuid");
   ("setpassent", "l_cap_setpassent"); ("setpwent", "l_cap_setpwent");
   ("endpwent", "l_cap_endpwent"); ("limit_cmds", "l_cap_pwd_limit_cmds");
   ("limit_fields", "l_cap_pwd_limit_fields"); ("limit_users", "l_cap_pwd_limit_users")].

Definition luaopen_casper_pwd (L : nat) : prog Z :=
  luaL_newlib L l_pwd_funcs;;
  mret 1.

Definition cap_pwd_wrappers : list wrapped := [
  Wrapped "l_cap_setpwent" l_cap_setpwent "cap_setpwent" [ACookie CAP_CHANNEL_METATABLE] [] RNone;
  Wrapped "l_cap_endpwent" l_cap_endpwent "cap_endpwent" [ACookie CAP_CHANNEL_METATABLE] [] RNone].

Lemma cap_pwd_wrappers_ok : Forall wrapped_ok cap_pwd_wrappers.
Proof. wrapped_table. Qed.
End pwd.

(** ** casper.grp *)

Section grp.
Context `{Consts} (fuel : nat).

Definition l_cap_getgrent (L : nat) : prog Z :=
  chan ← checkcookie L 1 CAP_CHANNEL_METATABLE;
  db_get fuel L "cap_getgrent_r" [AZ chan] (pushgroup L).

Definition l_cap_getgrnam (L : nat) : prog Z :=
  chan ← checkcookie L 1 CAP_CHANNEL_METATABLE;
  name ← luaL_checkstring L 2;
  db_get fuel L "cap_getgrnam_r" [AZ chan; AS name] (pushgroup L).

Definition l_cap_getgrgid (L : nat) : prog Z :=
  chan ← checkcookie L 1 CAP_CHANNEL_METATABLE;
  gid ← luaL_checkinteger L 2;
  db_get fuel L "cap_getgrgid_r" [AZ chan; AZ (to_uint gid)] (pushgroup L).

Definition l_cap_setgroupent (L : nat) : prog Z :=
  chan ← checkcookie L 1 CAP_CHANNEL_METATABLE;
  luaL_checktype L 2 TBOOLEAN;;
  stayopen ← lua_toboolean L 2;
  r ← call "cap_setgroupent" [AZ chan; AZ (Z_of_bool stayopen)];
  if rc r =? 0 then
    e ← errno;
    fail L e
  else
    success L.

Definition l_cap_setgrent (L : nat) : prog Z :=
  chan ← checkcookie L 1 CAP_CHANNEL_METATABLE;
  r ← call "cap_setgrent" [AZ chan];
  if rc r =? 0 then
    e ← errno;
    fail L e
  else
    success L.

Definition l_cap_endgrent (L : nat) : prog Z :=
  chan ← checkcookie L 1 CAP_CHANNEL_METATABLE;
  call "cap_endgrent" [AZ chan];;
  mret 0.

Definition l_cap_grp_limit_cmds : nat -> prog Z := limit_strings "cap_grp_limit_cmds".
Definition l_cap_grp_limit_fields : nat -> prog Z := limit_strings "cap_grp_limit_fields".
Definition l_cap_grp_limit_groups : nat -> prog Z := limit_ids "cap_grp_limit_groups".

Definition l_grp_funcs : list (string * string) :=
  [
   ("getgrent", "l_cap_getgrent"); ("getgrnam", "l_cap_getgrnam"); ("getgrgid", "l_cap_getgrgid");
   ("setgroupent", "l_cap_setgroupent"); ("setgrent", "l_cap_setgrent");
   ("endgrent", "l_cap_endgrent"); ("limit_cmds", "l_cap_grp_limit_cmds");
   ("limit_fields", "l_cap_grp_limit_fields"); ("limit_groups", "l_cap_grp_limit_groups")].

Definition luaopen_casper_grp (L : nat) : prog Z :=
  luaL_newlib L l_grp_funcs;;
  mret 1.

Definition cap_grp_wrappers : list wrapped := [
  Wrapped "l_cap_setgrent" l_cap_setgrent "cap_setgrent" [ACookie CAP_CHANNEL_METATABLE] [] (or_errno 0 Succeeds);
  Wrapped "l_cap_endgrent" l_cap_endgrent "cap_endgrent" [ACookie CAP_CHANNEL_METATABLE] [] RNone].

Lemma cap_grp_wrappers_ok : Forall wrapped_ok cap_grp_wrappers.
Proof. wrapped_table. Qed.
End grp.

(** ** casper.sysctl *)

Section sysctl.
Context `{Consts}.

Definition CAP_MIB_METATABLE : string := "struct cap_mib *".
Definition CAP_SYSCTL_LIMIT_METATABLE : string := "cap_sysctl_limit_t *".

(** [cap_sysctl(mib->chan, ...)] *)
Definition cap_sysctl (m : mib) (args : list carg) : prog cret := call "cap_sysctl" (AZ (mib_chan m) :: args).

Definition sizeof_cap_mib : Z := sizeof_ptr + sizeof_mib.

(** the metatable is set at the end *)
Definition l_cap_sysctl (L : nat) : prog Z :=
  chan ← checkcookie L 1 CAP_CHANNEL_METATABLE;
  name ← luaL_optstring L 2;
  mib ← lua_newuserdatauv L sizeof_cap_mib (OMib zero_mib) 0;
  load mib (mib_set zero_mib);;
  let done_ :=
    update mib (with_chan chan);;
    luaL_setmetatable L CAP_MIB_METATABLE;;
    mret 1 in
  match name with
  | None =>
      update mib (fun m => with_prefix 0 (with_oidlen 1 (with_oid [cst "CTL_KERN"] m)));;
      done_
  | Some name =>
      update mib (with_oidlen (cst "CTL_MAXNAME"));;
      error ← call "sysctlnametomib" [AS name; AZ (cst "CTL_MAXNAME")];
      if negb (rc error =? 0) then
        e ← errno;
        fail L e
      else
        update mib (fun m => with_oidlen (out_int 0 error) (with_oid (ints_of (drop 1 (outs error))) m));;
        update mib (fun m => with_prefix (to_size (mib_oidlen m * sizeof_int)) m);;
        p ← strdup name;
        update mib (with_name p);;
        if p =? 0 then
          e ← errno;
          fatal L "strdup" e
        else done_
  end.

Definition l_cap_mib_gc : nat -> prog Z := node_gc CAP_MIB_METATABLE.
Definition l_cap_mib_oid : nat -> prog Z := node_oid CAP_MIB_METATABLE.
Definition l_cap_mib_format : nat -> prog Z := node_format CAP_MIB_METATABLE cap_sysctl.
Definition l_cap_mib_name : nat -> prog Z := node_name CAP_MIB_METATABLE cap_sysctl.
Definition l_cap_mib_description : nat -> prog Z := node_description CAP_MIB_METATABLE cap_sysctl.
Definition l_cap_mib_value : nat -> nat -> prog Z := node_value CAP_MIB_METATABLE cap_sysctl.

(** [which] is the upvalue of the closure; the call is [sysctl], not [cap_sysctl] *)
Definition l_cap_mib_iter_next (which : Z) (L : nat) : prog Z :=
  prev ← luaL_testudata L 2 CAP_MIB_METATABLE;
  if prev =? 0 then
    lua_pushvalue L 1;;
    mret 1
  else
    next ← lua_newuserdatauv L sizeof_cap_mib (OMib zero_mib) 0;
    load next (mib_set zero_mib);;
    prev_ ← load prev mib_get;
    update next (with_prefix (mib_prefix prev_));;
    oid ← oid_of prev_;
    error ← call "sysctl" (AZ (mib_oidlen prev_ + 2) :: AZ (cst "CTL_SYSCTL") :: AZ (to_int which) :: (AZ <$> oid) ++
                           [AZ (4 * cst "CTL_MAXNAME"); AZ 0; AZ 0]);
    if negb (rc error =? 0) then
      e ← errno;
      if e =? cst "ENOENT" then
        lua_pushnil L;;
        mret 1
      else
        e ← errno;
        fail L e
    else
      update next (with_oid (ints_of (drop 1 (outs error))));;
      next_ ← load next mib_get;
      let n := Z.to_nat (mib_prefix prev_ / 4) in
      if negb (bool_decide (take n (mib_oid prev_) = take n (mib_oid next_))) then
        lua_pushnil L;;
        mret 1
      else
        update next (fun m => with_chan (mib_chan prev_) (with_oidlen (out_int 0 error / 4) m));;
        luaL_setmetatable L CAP_MIB_METATABLE;;
        mret 1.

Definition l_cap_mib_iter (L : nat) : prog Z :=
  node_iter CAP_MIB_METATABLE "l_cap_mib_iter_next" L (cst "CTL_SYSCTL_NEXT").
Definition l_cap_mib_iter_noskip (L : nat) : prog Z :=
  node_iter CAP_MIB_METATABLE "l_cap_mib_iter_next" L (cst "CTL_SYSCTL_NEXTNOSKIP").

Definition l_cap_sysctl_limit_init (L : nat) : prog Z :=
  chan ← checkcookie L 1 CAP_CHANNEL_METATABLE;
  limit ← call "cap_sysctl_limit_init" [AZ chan];
  if rc limit =? 0 then
    e ← errno;
    fail L e
  else
    new L (rc limit) CAP_SYSCTL_LIMIT_METATABLE.

(** [impl]: a channel and a name/value list *)
Definition cap_sysctl_limit_free (limit : Z) : prog unit :=
  if limit =? 0 then mret tt
  else
    nv ← arr_load limit 1;
    call "nvlist_destroy" [AZ nv];;
    free limit.

Definition l_cap_sysctl_limit_free (L : nat) : prog Z :=
  limit ← checkcookienull L 1 CAP_SYSCTL_LIMIT_METATABLE;
  cap_sysctl_limit_free limit;;
  setcookie L 1 0;;
  mret 0.

Definition l_cap_sysctl_limit_name (L : nat) : prog Z :=
  limit ← checkcookie L 1 CAP_SYSCTL_LIMIT_METATABLE;
  name ← luaL_checkstring L 2;
  flags ← luaL_checkinteger L 3;
  r ← call "cap_sysctl_limit_name" [AZ limit; AS name; AZ (to_int flags)];
  if rc r =? 0 then
    e ← errno;
    fail L e
  else
    lua_pushvalue L 1;;
    mret 1.

Definition l_cap_sysctl_limit (L : nat) : prog Z :=
  limit ← checkcookie L 1 CAP_SYSCTL_LIMIT_METATABLE;
  setcookie L 1 0;;
  r ← call "cap_sysctl_limit" [AZ limit];
  if rc r =? -1 then
    e ← errno;
    fail L e
  else
    success L.

Definition l_cap_sysctl_funcs : list (string * string) :=
  [
   ("sysctl", "l_cap_sysctl")].

Definition l_cap_mib_meta : list (string * string) :=
  [
   ("__gc", "l_cap_mib_gc"); ("oid", "l_cap_mib_oid"); ("format", "l_cap_mib_format");
   ("name", "l_cap_mib_name"); ("description", "l_cap_mib_description");
   ("value", "l_cap_mib_value"); ("iter", "l_cap_mib_iter");
   ("iter_noskip", "l_cap_mib_iter_noskip"); ("limit_init", "l_cap_sysctl_limit_init")].

Definition l_cap_sysctl_limit_meta : list (string * string) :=
  [
   ("__gc", "l_cap_sysctl_limit_free"); ("name", "l_cap_sysctl_limit_name");
   ("limit", "l_cap_sysctl_limit")].

Definition cap_sysctl_consts : list (string * Z) := idents_of "CAP_SYSCTL_" ["READ"; "WRITE"; "RDWR"; "RECURSIVE"].

Definition luaopen_casper_sysctl (L : nat) : prog Z :=
  register_types L [(CAP_MIB_METATABLE, l_cap_mib_meta); (CAP_SYSCTL_LIMIT_METATABLE, l_cap_sysctl_limit_meta)];;
  luaL_newlib L l_cap_sysctl_funcs;;
  define_all L cap_sysctl_consts;;
  mret 1.

Definition cap_sysctl_wrappers : list wrapped := [
  Wrapped "l_cap_sysctl_limit_init" l_cap_sysctl_limit_init "cap_sysctl_limit_init" [ACookie CAP_CHANNEL_METATABLE] [] (or_errno 0 (New CAP_SYSCTL_LIMIT_METATABLE))].

Lemma cap_sysctl_wrappers_ok : Forall wrapped_ok cap_sysctl_wrappers.
Proof. wrapped_table. Qed.
End sysctl.
