(* ===== verification/Be.v ===== *)
(** * lua_be.c: boot environments

    A handle is a cookie of type "libbe_handle_t *"; errors are those of the library
    ([befail]).  Property lists become tables at once ([push_nvlist]): a value is pushed by
    its type ([be_types]), a list in a list as a table in a table.  [fuel] bounds the pairs of
    a list plus those of the lists in it. *)

From S2P Require Import Prelude LuaApi Machine Capi Utils Modules Cmem Wrapper.

Section be.
Context `{Consts}.

Definition LIBBE_METATABLE : string := "libbe_handle_t *".

Definition befail (L : nat) (hdl : Z) : prog Z :=
  luaL_pushfail L;;
  r ← call "libbe_error_description" [AZ hdl];
  push_ret_string L r;;
  r ← call "libbe_errno" [AZ hdl];
  lua_pushinteger L (rc r);;
  mret 3.

Definition befailwith (L : nat) (hdl error : Z) : prog Z :=
  call "set_error" [AZ hdl; AZ error];;
  befail L hdl.

Definition l_be_init (L : nat) : prog Z :=
  root ← opt_tostring L 1;
  hdl ← call "libbe_init" [null_or root];
  if rc hdl =? 0 then luaL_error L "libbe_init"
  else new L (rc hdl) LIBBE_METATABLE.

Definition l_be_close (L : nat) : prog Z :=
  hdl ← checkcookienull L 1 LIBBE_METATABLE;
  if hdl =? 0 then mret 0
  else
    call "libbe_close" [AZ hdl];;
    setcookie L 1 0;;
    mret 0.

Definition l_be_active_name (L : nat) : prog Z :=
  hdl ← checkcookie L 1 LIBBE_METATABLE;
  name ← call "be_active_name" [AZ hdl];
  push_ret_string L name;;
  mret 1.

Definition l_be_active_path (L : nat) : prog Z :=
  hdl ← checkcookie L 1 LIBBE_METATABLE;
  path ← call "be_active_path" [AZ hdl];
  push_ret_string L path;;
  mret 1.

Definition l_be_nextboot_name (L : nat) : prog Z :=
  hdl ← checkcookie L 1 LIBBE_METATABLE;
  name ← call "be_nextboot_name" [AZ hdl];
  push_ret_string L name;;
  mret 1.

Definition l_be_nextboot_path (L : nat) : prog Z :=
  hdl ← checkcookie L 1 LIBBE_METATABLE;
  path ← call "be_nextboot_path" [AZ hdl];
  push_ret_string L path;;
  mret 1.

Definition l_be_root_path (L : nat) : prog Z :=
  hdl ← checkcookie L 1 LIBBE_METATABLE;
  path ← call "be_root_path" [AZ hdl];
  push_ret_string L path;;
  mret 1.

(** ** push_nvlist *)

(** what is pushed of a value: the outs of the call are the value, or the elements *)
Inductive be_kind :=
  | BTrue                    (** no value: true *)
  | BInt (conv : Z -> Z)
  | BBool
  | BString
  | BBytes
  | BDouble
  | BInts (conv : Z -> Z)
  | BBools
  | BStrings
  | BNvlist
  | BNvlists.

(** the cases of the switch: the type, the call, the kind *)
Definition be_types : list (string * (string * be_kind)) := [
  ("DATA_TYPE_BOOLEAN", ("", BTrue));
  ("DATA_TYPE_BYTE", ("nvpair_value_byte", BInt to_uchar));
  ("DATA_TYPE_INT16", ("nvpair_value_int16", BInt (wraps 16)));
  ("DATA_TYPE_UINT16", ("nvpair_value_uint16", BInt to_ushort));
  ("DATA_TYPE_INT32", ("nvpair_value_int32", BInt to_int));
  ("DATA_TYPE_UINT32", ("nvpair_value_uint32", BInt to_uint));
  ("DATA_TYPE_INT64", ("nvpair_value_int64", BInt to_long));
  ("DATA_TYPE_UINT64", ("nvpair_value_uint64", BInt to_long));
  ("DATA_TYPE_STRING", ("nvpair_value_string", BString));
  ("DATA_TYPE_BYTE_ARRAY", ("nvpair_value_byte_array", BBytes));
  ("DATA_TYPE_INT16_ARRAY", ("nvpair_value_int16_array", BInts (wraps 16)));
  ("DATA_TYPE_UINT16_ARRAY", ("nvpair_value_uint16_array", BInts to_ushort));
  ("DATA_TYPE_INT32_ARRAY", ("nvpair_value_int32_array", BInts to_int));
  ("DATA_TYPE_UINT32_ARRAY", ("nvpair_value_uint32_array", BInts to_uint));
  ("DATA_TYPE_INT64_ARRAY", ("nvpair_value_int64_array", BInts to_long));
  ("DATA_TYPE_UINT64_ARRAY", ("nvpair_value_uint64_array", BInts to_long));
  ("DATA_TYPE_STRING_ARRAY", ("nvpair_value_string_array", BStrings));
  ("DATA_TYPE_HRTIME", ("nvpair_value_hrtime", BInt to_long));
  ("DATA_TYPE_NVLIST", ("nvpair_value_nvlist", BNvlist));
  ("DATA_TYPE_NVLIST_ARRAY", ("nvpair_value_nvlist_array", BNvlists));
  ("DATA_TYPE_BOOLEAN_VALUE", ("nvpair_value_boolean_value", BBool));
  ("DATA_TYPE_INT8", ("nvpair_value_int8", BInt (wraps 8)));
  ("DATA_TYPE_UINT8", ("nvpair_value_uint8", BInt to_uchar));
  ("DATA_TYPE_BOOLEAN_ARRAY", ("nvpair_value_boolean_array", BBools));
  ("DATA_TYPE_INT8_ARRAY", ("nvpair_value_int8_array", BInts (wraps 8)));
  ("DATA_TYPE_UINT8_ARRAY", ("nvpair_value_uint8_array", BInts to_uchar));
  ("DATA_TYPE_DOUBLE", ("nvpair_value_double", BDouble))].

Fixpoint be_type (type : Z) (l : list (string * (string * be_kind))) : option (string * be_kind) :=
  match l with
  | [] => None
  | (name, d) :: l => if type =? cst name then Some d else be_type type l
  end.

(** the elements of an array, one after the other *)
Fixpoint push_elements (L : nat) (push : carg -> prog unit) (i : Z) (l : list carg) : prog unit :=
  match l with
  | [] => mret tt
  | x :: l =>
      push x;;
      lua_rawseti L (-2) (i + 1);;
      push_elements L push (i + 1) l
  end.

Definition elt_int (x : carg) : Z := match x with AZ z => z | _ => 0 end.
Definition elt_str (x : carg) : string := match x with AS s => s | _ => "" end.

Definition push_array (L : nat) (push : carg -> prog unit) (r : cret) : prog unit :=
  lua_newtable L;;
  push_elements L push 0 (outs r).

(** [push_nvl]: the recursive calls *)
Definition push_value (push_nvl : Z -> prog unit) (L : nat) (f : string) (kind : be_kind) (nvp : Z) : prog unit :=
  match kind with
  | BTrue => lua_pushboolean L true
  | _ =>
      r ← call f [AZ nvp];
      match kind with
      | BTrue => lua_pushboolean L true
      | BInt conv => lua_pushinteger L (conv (out_int 0 r))
      | BBool => lua_pushboolean L (negb (out_int 0 r =? 0))
      | BString => lua_pushstring L (out_str 0 r)
      | BBytes => lua_pushlstring L (out_str 0 r)
      | BDouble => lua_pushnumber L (out_num 0 r)
      | BInts conv => push_array L (fun x => lua_pushinteger L (conv (elt_int x))) r
      | BBools => push_array L (fun x => lua_pushboolean L (negb (elt_int x =? 0))) r
      | BStrings => push_array L (fun x => lua_pushstring L (elt_str x)) r
      | BNvlist => push_nvl (out_int 0 r)
      | BNvlists => push_array L (fun x => push_nvl (elt_int x)) r
      end
  end.

(** the loop of [push_nvlist] *)
Fixpoint push_pairs (fuel : nat) (L : nat) (nvl nvp : Z) : prog unit :=
  match fuel with
  | O => halts (EHalt Diverge)
  | S fuel =>
      nvp ← call "nvlist_next_nvpair" [AZ nvl; AZ nvp];
      if rc nvp =? 0 then mret tt
      else
        name ← call "nvpair_name" [AZ (rc nvp)];
        push_ret_string L name;;
        type ← call "nvpair_type" [AZ (rc nvp)];
        match be_type (rc type) be_types with
        | Some (f, kind) => push_value (fun nvl => lua_newtable L;; push_pairs fuel L nvl 0) L f kind (rc nvp)
        | None => lua_pushnil L
        end;;
        lua_rawset L (-3);;
        push_pairs fuel L nvl (rc nvp)
  end.

Definition push_nvlist (fuel : nat) (L : nat) (nvl : Z) : prog unit :=
  lua_newtable L;;
  push_pairs fuel L nvl 0.

(** a new list that a call fills *)
Definition with_props (fuel : nat) (L : nat) (hdl : Z) (f : string) (args : list carg) : prog Z :=
  r ← call "be_prop_list_alloc" [];
  if negb (rc r =? 0) then fatal L "be_prop_list_alloc" (rc r)
  else
    let props := out_int 0 r in
    error ← call f (args ++ [AZ props]);
    if negb (rc error =? 0) then
      call "be_prop_list_free" [AZ props];;
      befailwith L hdl (rc error)
    else
      push_nvlist fuel L props;;
      call "be_prop_list_free" [AZ props];;
      mret 1.

Definition l_be_get_bootenv_props (fuel : nat) (L : nat) : prog Z :=
  hdl ← checkcookie L 1 LIBBE_METATABLE;
  with_props fuel L hdl "be_get_bootenv_props" [AZ hdl].

Definition l_be_get_dataset_props (fuel : nat) (L : nat) : prog Z :=
  hdl ← checkcookie L 1 LIBBE_METATABLE;
  name ← luaL_checkstring L 2;
  with_props fuel L hdl "be_get_dataset_props" [AZ hdl; AS name].

Definition l_be_get_dataset_snapshots (fuel : nat) (L : nat) : prog Z :=
  hdl ← checkcookie L 1 LIBBE_METATABLE;
  name ← luaL_checkstring L 2;
  with_props fuel L hdl "be_get_dataset_snapshots" [AZ hdl; AS name].

(** ** Boot environments *)

Definition l_be_activate (L : nat) : prog Z :=
  hdl ← checkcookie L 1 LIBBE_METATABLE;
  name ← luaL_checkstring L 2;
  temp ← lua_toboolean L 3;
  r ← call "be_activate" [AZ hdl; AS name; AZ (Z_of_bool temp)];
  if negb (rc r =? 0) then
    befail L hdl
  else
    success L.

Definition l_be_deactivate (L : nat) : prog Z :=
  hdl ← checkcookie L 1 LIBBE_METATABLE;
  name ← luaL_checkstring L 2;
  temp ← lua_toboolean L 3;
  r ← call "be_deactivate" [AZ hdl; AS name; AZ (Z_of_bool temp)];
  if negb (rc r =? 0) then
    befail L hdl
  else
    success L.

Definition l_be_is_auto_snapshot_name (L : nat) : prog Z :=
  hdl ← checkcookie L 1 LIBBE_METATABLE;
  name ← luaL_checkstring L 2;
  isauto ← call "be_is_auto_snapshot_name" [AZ hdl; AS name];
  lua_pushboolean L (negb (rc isauto =? 0));;
  mret 1.

Definition l_be_create (L : nat) : prog Z :=
  hdl ← checkcookie L 1 LIBBE_METATABLE;
  name ← luaL_checkstring L 2;
  r ← call "be_create" [AZ hdl; AS name];
  if negb (rc r =? 0) then
    befail L hdl
  else
    success L.

Definition l_be_create_depth (L : nat) : prog Z :=
  hdl ← checkcookie L 1 LIBBE_METATABLE;
  name ← luaL_checkstring L 2;
  snap ← luaL_checkstring L 3;
  depth ← luaL_checkinteger L 4;
  r ← call "be_create_depth" [AZ hdl; AS name; AS snap; AZ (to_int depth)];
  if negb (rc r =? 0) then
    befail L hdl
  else
    success L.

Definition l_be_create_from_existing (L : nat) : prog Z :=
  hdl ← checkcookie L 1 LIBBE_METATABLE;
  name ← luaL_checkstring L 2;
  existing ← luaL_checkstring L 3;
  r ← call "be_create_from_existing" [AZ hdl; AS name; AS existing];
  if negb (rc r =? 0) then
    befail L hdl
  else
    success L.

Definition l_be_create_from_existing_snap (L : nat) : prog Z :=
  hdl ← checkcookie L 1 LIBBE_METATABLE;
  name ← luaL_checkstring L 2;
  snap ← luaL_checkstring L 3;
  r ← call "be_create_from_existing_snap" [AZ hdl; AS name; AS snap];
  if negb (rc r =? 0) then
    befail L hdl
  else
    success L.

Definition l_be_snapshot (L : nat) : prog Z :=
  hdl ← checkcookie L 1 LIBBE_METATABLE;
  source ← luaL_checkstring L 2;
  snap ← opt_tostring L 3;
  recursive ← lua_toboolean L 4;
  r ← call "be_snapshot" [AZ hdl; AS source; null_or snap; AZ (Z_of_bool recursive)];
  if negb (rc r =? 0) then
    befail L hdl
  else
    lua_pushstring L (out_str 0 r);;
    mret 1.

Definition l_be_rename (L : nat) : prog Z :=
  hdl ← checkcookie L 1 LIBBE_METATABLE;
  oldname ← luaL_checkstring L 2;
  newname ← luaL_checkstring L 3;
  r ← call "be_rename" [AZ hdl; AS oldname; AS newname];
  if negb (rc r =? 0) then
    befail L hdl
  else
    success L.

Definition l_be_destroy (L : nat) : prog Z :=
  hdl ← checkcookie L 1 LIBBE_METATABLE;
  name ← luaL_checkstring L 2;
  options ← luaL_checkinteger L 3;
  r ← call "be_destroy" [AZ hdl; AS name; AZ (to_int options)];
  if negb (rc r =? 0) then
    befail L hdl
  else
    success L.

Definition l_be_mount (L : nat) : prog Z :=
  hdl ← checkcookie L 1 LIBBE_METATABLE;
  name ← luaL_checkstring L 2;
  mountpoint ← opt_tostring L 3;
  options ← luaL_checkinteger L 4;
  r ← call "be_mount" [AZ hdl; AS name; null_or mountpoint; AZ (to_int options)];
  if negb (rc r =? 0) then
    befail L hdl
  else
    lua_pushstring L (out_str 0 r);;
    mret 1.

Definition l_be_unmount (L : nat) : prog Z :=
  hdl ← checkcookie L 1 LIBBE_METATABLE;
  name ← luaL_checkstring L 2;
  options ← luaL_checkinteger L 3;
  r ← call "be_unmount" [AZ hdl; AS name; AZ (to_int options)];
  if negb (rc r =? 0) then
    befail L hdl
  else
    success L.

(** the list is lost when the call fails *)
Definition l_be_mounted_at (fuel : nat) (L : nat) : prog Z :=
  hdl ← checkcookie L 1 LIBBE_METATABLE;
  path ← luaL_checkstring L 2;
  get_details ← lua_toboolean L 3;
  if negb get_details then
    error ← call "be_mounted_at" [AZ hdl; AS path; AZ 0];
    if negb (rc error =? 0) && negb (rc error =? 1) then befail L hdl
    else
      lua_pushboolean L (rc error =? 0);;
      mret 1
  else
    r ← call "be_prop_list_alloc" [];
    if negb (rc r =? 0) then fatal L "be_pro_list_alloc" (rc r)
    else
      let details := out_int 0 r in
      error ← call "be_mounted_at" [AZ hdl; AS path; AZ details];
      if negb (rc error =? 0) && negb (rc error =? 1) then befail L hdl
      else
        lua_pushboolean L (rc error =? 0);;
        push_nvlist fuel L details;;
        call "be_prop_list_free" [AZ details];;
        mret 2.

Definition l_be_errno (L : nat) : prog Z :=
  hdl ← checkcookie L 1 LIBBE_METATABLE;
  r ← call "libbe_errno" [AZ hdl];
  lua_pushinteger L (rc r);;
  mret 1.

Definition l_be_error_description (L : nat) : prog Z :=
  hdl ← checkcookie L 1 LIBBE_METATABLE;
  r ← call "libbe_error_description" [AZ hdl];
  push_ret_string L r;;
  mret 1.

Definition l_be_print_on_error (L : nat) : prog Z :=
  hdl ← checkcookie L 1 LIBBE_METATABLE;
  value ← lua_toboolean L 2;
  call "libbe_print_on_error" [AZ hdl; AZ (Z_of_bool value)];;
  mret 0.

Definition l_be_root_concat (L : nat) : prog Z :=
  hdl ← checkcookie L 1 LIBBE_METATABLE;
  name ← luaL_checkstring L 2;
  error ← call "be_root_concat" [AZ hdl; AS name];
  if negb (rc error =? 0) then
    befailwith L hdl (rc error)
  else
    lua_pushstring L (out_str 0 error);;
    mret 1.

Definition l_be_validate_name (L : nat) : prog Z :=
  hdl ← checkcookie L 1 LIBBE_METATABLE;
  name ← luaL_checkstring L 2;
  error ← call "be_validate_name" [AZ hdl; AS name];
  if negb (rc error =? 0) then
    befailwith L hdl (rc error)
  else
    success L.

Definition l_be_validate_snap (L : nat) : prog Z :=
  hdl ← checkcookie L 1 LIBBE_METATABLE;
  snap ← luaL_checkstring L 2;
  error ← call "be_validate_snap" [AZ hdl; AS snap];
  if negb (rc error =? 0) then
    befailwith L hdl (rc error)
  else
    success L.

Definition l_be_exists (L : nat) : prog Z :=
  hdl ← checkcookie L 1 LIBBE_METATABLE;
  name ← luaL_checkstring L 2;
  error ← call "be_exists" [AZ hdl; AS name];
  if negb (rc error =? 0) && negb (rc error =? 1) then befailwith L hdl (rc error)
  else
    lua_pushboolean L (rc error =? 0);;
    mret 1.

Definition l_be_export (L : nat) : prog Z :=
  hdl ← checkcookie L 1 LIBBE_METATABLE;
  name ← luaL_checkstring L 2;
  fd ← checkfd L 3;
  r ← call "be_export" [AZ hdl; AS name; AZ fd];
  if negb (rc r =? 0) then
    befail L hdl
  else
    success L.

Definition l_be_import (L : nat) : prog Z :=
  hdl ← checkcookie L 1 LIBBE_METATABLE;
  name ← luaL_checkstring L 2;
  fd ← checkfd L 3;
  r ← call "be_import" [AZ hdl; AS name; AZ fd];
  if negb (rc r =? 0) then
    befail L hdl
  else
    success L.

Definition l_be_nicenum (L : nat) : prog Z :=
  num ← luaL_checkinteger L 1;
  r ← call "be_nicenum" [AZ (to_size num); AZ 32];
  lua_pushstring L (out_str 0 r);;
  mret 1.

Definition l_be_funcs : list (string * string) :=
  [
   ("init", "l_be_init"); ("nicenum", "l_be_nicenum")].

Definition l_be_meta : list (string * string) :=
  [
   ("__close", "l_be_close"); ("__gc", "l_be_close"); ("close", "l_be_close");
   ("active_name", "l_be_active_name"); ("active_path", "l_be_active_path");
   ("nextboot_name", "l_be_nextboot_name"); ("nextboot_path", "l_be_nextboot_path");
   ("root_path", "l_be_root_path"); ("get_bootenv_props", "l_be_get_bootenv_props");
   ("get_dataset_props", "l_be_get_dataset_props");
   ("get_dataset_snapshots", "l_be_get_dataset_snapshots"); ("activate", "l_be_activate");
   ("deactivate", "l_be_deactivate"); ("is_auto_snapshot_name", "l_be_is_auto_snapshot_name");
   ("create", "l_be_create"); ("create_depth", "l_be_create_depth");
   ("create_from_existing", "l_be_create_from_existing");
   ("create_from_existing_snap", "l_be_create_from_existing_snap"); ("snapshot", "l_be_snapshot");
   ("rename", "l_be_rename"); ("destroy", "l_be_destroy"); ("mount", "l_be_mount");
   ("unmount", "l_be_unmount"); ("mounted_at", "l_be_mounted_at"); ("errno", "l_be_errno");
   ("error_description", "l_be_error_description"); ("print_on_error", "l_be_print_on_error");
   ("root_concat", "l_be_root_concat"); ("validate_name", "l_be_validate_name");
   ("validate_snap", "l_be_validate_snap"); ("exists", "l_be_exists"); ("export", "l_be_export");
   ("import", "l_be_import")].

Definition be_consts : list (string * Z) :=
  idents_of "BE_" [
     "MAXPATHLEN"; "ERR_SUCCESS"; "ERR_INVALIDNAME"; "ERR_EXISTS"; "ERR_NOENT"; "ERR_PERMS";
     "ERR_DESTROYACT"; "ERR_DESTROYMNT"; "ERR_BADPATH"; "ERR_PATHBUSY"; "ERR_NOORIGIN";
     "ERR_MOUNTED"; "ERR_NOMOUNT"; "ERR_ZFSOPEN"; "ERR_ZFSCLONE"; "ERR_IO"; "ERR_NOPOOL";
     "ERR_NOMEM"; "ERR_UNKNOWN"; "ERR_INVORIGIN"; "ERR_HASCLONES"; "DESTROY_FORCE";
     "DESTROY_ORIGIN"; "DESTROY_AUTOORIGIN"; "MNT_FORCE"; "MNT_DEEP"].

Definition luaopen_be (L : nat) : prog Z :=
  register_type L LIBBE_METATABLE l_be_meta;;
  luaL_newlib L l_be_funcs;;
  define_all L be_consts;;
  mret 1.

Definition be_wrappers : list wrapped := [
  Wrapped "l_be_active_name" l_be_active_name "be_active_name" [ACookie LIBBE_METATABLE] [] RStr;
  Wrapped "l_be_active_path" l_be_active_path "be_active_path" [ACookie LIBBE_METATABLE] [] RStr;
  Wrapped "l_be_nextboot_name" l_be_nextboot_name "be_nextboot_name" [ACookie LIBBE_METATABLE] [] RStr;
  Wrapped "l_be_nextboot_path" l_be_nextboot_path "be_nextboot_path" [ACookie LIBBE_METATABLE] [] RStr;
  Wrapped "l_be_root_path" l_be_root_path "be_root_path" [ACookie LIBBE_METATABLE] [] RStr;
  Wrapped "l_be_is_auto_snapshot_name" l_be_is_auto_snapshot_name "be_is_auto_snapshot_name" [ACookie LIBBE_METATABLE; AStr] [] (Pushed [v_bool]);
  Wrapped "l_be_errno" l_be_errno "libbe_errno" [ACookie LIBBE_METATABLE] [] (Pushed [v_int]);
  Wrapped "l_be_error_description" l_be_error_description "libbe_error_description" [ACookie LIBBE_METATABLE] [] RStr;
  Wrapped "l_be_print_on_error" l_be_print_on_error "libbe_print_on_error" [ACookie LIBBE_METATABLE; ABool] [] RNone;
  Wrapped "l_be_nicenum" l_be_nicenum "be_nicenum" [AInt to_size; AConst (AZ 32)] [] (Pushed [v_outs 0])].

Lemma be_wrappers_ok : Forall wrapped_ok be_wrappers.
Proof. wrapped_table. Qed.
End be.
