(* ===== verification/ZfsCore.v ===== *)
(** * lua_zfs_core.c: the calls of libzfs_core

    The functions of the [zfs.core] module, which take the names of datasets and name/value
    lists (ZfsBase's and Nvpair's cookies), report the errno of the library ([fail]) and,
    where the library gives one, the list that says what went wrong with each name
    ([errlist_done], [receive_done]).  What a call writes is in its outs. *)

From S2P Require Import Prelude LuaApi Machine Capi Utils Modules Cmem Wrapper Nvpair ZfsBase.

Section zcore.
Context `{Consts}.

(** [luaL_optlstring] with [NULL] as the default, which has the length 0 *)
Definition opt_lstring (L : nat) (arg : Z) : prog (option string) :=
  absent ← lua_isnoneornil L arg;
  if absent : bool then mret None
  else
    s ← luaL_checklstring L arg;
    mret (Some s).

Definition opt_length (s : option string) : Z :=
  match s with Some s => Z.of_nat (String.length s) | None => 0 end.

Definition sizeof_dmu_replay_record : Z := cst "sizeof(dmu_replay_record_t)".

(** how the functions with a list of errors finish; the list is the call's out *)
Definition errlist_done (L : nat) (r : cret) : prog Z :=
  let errlist := out_int 0 r in
  if negb (rc r =? 0) then
    fail L (rc r);;
    (if errlist =? 0 then mret tt
     else
       pushnvlist L errlist;;
       lua_replace L (-3));;
    mret 3
  else if errlist =? 0 then success L
  else
    pushnvlist L errlist;;
    mret 1.

(** the same for a stream received, whose bytes and error flags come first *)
Definition receive_done (L : nat) (r : cret) : prog Z :=
  let read_bytes := to_long (out_int 0 r) in
  let errflags := to_long (out_int 1 r) in
  let errlist := out_int 2 r in
  if negb (rc r =? 0) then
    fail L (rc r);;
    (if errlist =? 0 then mret tt
     else
       pushnvlist L errlist;;
       lua_replace L (-3));;
    lua_pushinteger L errflags;;
    mret 4
  else
    lua_pushinteger L read_bytes;;
    lua_pushinteger L errflags;;
    if errlist =? 0 then mret 2
    else
      pushnvlist L errlist;;
      mret 3.

Definition l_lzc_init (L : nat) : prog Z :=
  call "libzfs_core_init" [];;
  mret 0.

Definition l_lzc_fini (L : nat) : prog Z :=
  call "libzfs_core_fini" [];;
  mret 0.

Definition l_lzc_snapshot (L : nat) : prog Z :=
  snaps ← checknvlist L 1;
  props ← optnvlist L 2;
  error ← call "lzc_snapshot" [AZ snaps; AZ props];
  errlist_done L error.

Definition l_lzc_create (L : nat) : prog Z :=
  dsname ← luaL_checkstring L 1;
  type_ ← luaL_checkinteger L 2;
  props ← checknvlist L 3;
  wkeydata ← opt_lstring L 4;
  error ← call "lzc_create" [AS dsname; AZ (to_uint type_); AZ props; null_or wkeydata; AZ (opt_length wkeydata)];
  if negb (rc error =? 0) then
    fail L (rc error)
  else
    success L.

(** the buffer is empty unless the library writes the name that conflicts *)
Definition l_lzc_promote (L : nat) : prog Z :=
  dsname ← luaL_checkstring L 1;
  error ← call "lzc_promote" [AS dsname; AZ (cst "ZFS_MAX_DATASET_NAME_LEN")];
  if negb (rc error =? 0) then
    fail L (rc error);;
    lua_pushstring L (out_str 0 error);;
    lua_replace L (-3);;
    mret 3
  else success L.

Definition l_lzc_destroy_snaps (L : nat) : prog Z :=
  snaps ← checknvlist L 1;
  defer ← lua_toboolean L 2;
  error ← call "lzc_destroy_snaps" [AZ snaps; AZ (Z_of_bool defer)];
  errlist_done L error.

Definition l_lzc_bookmark (L : nat) : prog Z :=
  bookmarks ← checknvlist L 1;
  error ← call "lzc_bookmark" [AZ bookmarks];
  errlist_done L error.

Definition l_lzc_get_bookmarks (L : nat) : prog Z :=
  dsname ← luaL_checkstring L 1;
  props ← checknvlist L 2;
  error ← call "lzc_get_bookmarks" [AS dsname; AZ props];
  if negb (rc error =? 0) then
    zassert (out_int 0 error =? 0) "bookmarks == 0";;
    fail L (rc error)
  else
    zassert (negb (out_int 0 error =? 0)) "bookmarks != NULL";;
    pushnvlist L (out_int 0 error);;
    mret 1.

Definition l_lzc_get_bookmark_props (L : nat) : prog Z :=
  bookmark ← luaL_checkstring L 1;
  error ← call "lzc_get_bookmark_props" [AS bookmark];
  if negb (rc error =? 0) then
    zassert (out_int 0 error =? 0) "props == 0";;
    fail L (rc error)
  else
    zassert (negb (out_int 0 error =? 0)) "props != NULL";;
    pushnvlist L (out_int 0 error);;
    mret 1.

Definition l_lzc_destroy_bookmarks (L : nat) : prog Z :=
  bookmarks ← checknvlist L 1;
  error ← call "lzc_destroy_bookmarks" [AZ bookmarks];
  errlist_done L error.

Definition l_lzc_load_key (L : nat) : prog Z :=
  dsname ← luaL_checkstring L 1;
  noop ← lua_toboolean L 2;
  wkeydata ← luaL_checklstring L 3;
  error ← call "lzc_load_key" [AS dsname; AZ (Z_of_bool noop); AS wkeydata; AZ (Z.of_nat (String.length wkeydata))];
  if negb (rc error =? 0) then
    fail L (rc error)
  else
    success L.

Definition l_lzc_unload_key (L : nat) : prog Z :=
  dsname ← luaL_checkstring L 1;
  error ← call "lzc_unload_key" [AS dsname];
  if negb (rc error =? 0) then
    fail L (rc error)
  else
    success L.

Definition l_lzc_change_key (L : nat) : prog Z :=
  dsname ← luaL_checkstring L 1;
  crypt_cmd ← luaL_checkinteger L 2;
  props ← optnvlist L 3;
  wkeydata ← opt_lstring L 4;
  error ← call "lzc_change_key" [AS dsname; AZ (to_size crypt_cmd); AZ props; null_or wkeydata; AZ (opt_length wkeydata)];
  if negb (rc error =? 0) then
    fail L (rc error)
  else
    success L.

Definition l_lzc_initialize (L : nat) : prog Z :=
  poolname ← luaL_checkstring L 1;
  cmd_type ← luaL_checkinteger L 2;
  vdevs ← checknvlist L 3;
  error ← call "lzc_initialize" [AS poolname; AZ (to_int cmd_type); AZ vdevs];
  errlist_done L error.

Definition l_lzc_trim (L : nat) : prog Z :=
  poolname ← luaL_checkstring L 1;
  cmd_type ← luaL_checkinteger L 2;
  rate ← luaL_checkinteger L 3;
  secure ← lua_toboolean L 4;
  vdevs ← checknvlist L 5;
  error ← call "lzc_trim" [AS poolname; AZ (to_int cmd_type); AZ (to_size rate); AZ (Z_of_bool secure); AZ vdevs];
  errlist_done L error.

Definition l_lzc_redact (L : nat) : prog Z :=
  snapshot ← luaL_checkstring L 1;
  bookname ← luaL_checkstring L 2;
  snapnv ← checknvlist L 3;
  error ← call "lzc_redact" [AS snapshot; AS bookname; AZ snapnv];
  if negb (rc error =? 0) then
    fail L (rc error)
  else
    success L.

Definition l_lzc_snaprange_space (L : nat) : prog Z :=
  firstsnap ← luaL_checkstring L 1;
  lastsnap ← luaL_checkstring L 2;
  error ← call "lzc_snaprange_space" [AS firstsnap; AS lastsnap];
  if negb (rc error =? 0) then
    fail L (rc error)
  else
    lua_pushinteger L (to_long (out_int 0 error));;
    mret 1.

(** the argument tested is the second, the one read is the third *)
Definition l_lzc_hold (L : nat) : prog Z :=
  holds ← checknvlist L 1;
  absent ← lua_isnoneornil L 2;
  cleanup_fd ← (if absent : bool then mret (-1) else checkfd L 3);
  error ← call "lzc_hold" [AZ holds; AZ cleanup_fd];
  errlist_done L error.

Definition l_lzc_release (L : nat) : prog Z :=
  holds ← checknvlist L 1;
  error ← call "lzc_release" [AZ holds];
  errlist_done L error.

Definition l_lzc_get_holds (L : nat) : prog Z :=
  snapname ← luaL_checkstring L 1;
  error ← call "lzc_get_holds" [AS snapname];
  if negb (rc error =? 0) then
    zassert (out_int 0 error =? 0) "holds == 0";;
    fail L (rc error)
  else
    zassert (negb (out_int 0 error =? 0)) "holds != NULL";;
    pushnvlist L (out_int 0 error);;
    mret 1.

Definition l_lzc_get_props (L : nat) : prog Z :=
  poolname ← luaL_checkstring L 1;
  error ← call "lzc_get_props" [AS poolname];
  if negb (rc error =? 0) then
    zassert (out_int 0 error =? 0) "props == 0";;
    fail L (rc error)
  else
    zassert (negb (out_int 0 error =? 0)) "props != NULL";;
    pushnvlist L (out_int 0 error);;
    mret 1.

Definition l_lzc_send (L : nat) : prog Z :=
  snapname ← luaL_checkstring L 1;
  from ← luaL_optstring L 2;
  fd ← checkfd L 3;
  flags ← luaL_optinteger L 4 0;
  error ← call "lzc_send" [AS snapname; null_or from; AZ fd; AZ (to_uint flags)];
  if negb (rc error =? 0) then
    fail L (rc error)
  else
    success L.

Definition l_lzc_send_resume (L : nat) : prog Z :=
  snapname ← luaL_checkstring L 1;
  from ← luaL_optstring L 2;
  fd ← checkfd L 3;
  flags ← luaL_optinteger L 4 0;
  resumeobj ← luaL_checkinteger L 5;
  resumeoff ← luaL_checkinteger L 6;
  error ← call "lzc_send_resume" [AS snapname; null_or from; AZ fd; AZ (to_uint flags); AZ (to_size resumeobj); AZ (to_size resumeoff)];
  if negb (rc error =? 0) then
    fail L (rc error)
  else
    success L.

Definition l_lzc_send_redacted (L : nat) : prog Z :=
  snapname ← luaL_checkstring L 1;
  from ← luaL_optstring L 2;
  fd ← checkfd L 3;
  flags ← luaL_optinteger L 4 0;
  redactbook ← luaL_optstring L 5;
  error ← call "lzc_send_redacted" [AS snapname; null_or from; AZ fd; AZ (to_uint flags); null_or redactbook];
  if negb (rc error =? 0) then
    fail L (rc error)
  else
    success L.

Definition l_lzc_send_resume_redacted (L : nat) : prog Z :=
  snapname ← luaL_checkstring L 1;
  from ← luaL_optstring L 2;
  fd ← checkfd L 3;
  flags ← luaL_optinteger L 4 0;
  resumeobj ← luaL_optinteger L 5 0;
  resumeoff ← luaL_optinteger L 6 0;
  redactbook ← luaL_optstring L 7;
  error ← call "lzc_send_resume_redacted" [AS snapname; null_or from; AZ fd; AZ (to_uint flags); AZ (to_size resumeobj); AZ (to_size resumeoff); null_or redactbook];
  if negb (rc error =? 0) then
    fail L (rc error)
  else
    success L.

Definition l_lzc_send_space (L : nat) : prog Z :=
  snapname ← luaL_checkstring L 1;
  from ← luaL_optstring L 2;
  flags ← luaL_optinteger L 3 0;
  error ← call "lzc_send_space" [AS snapname; null_or from; AZ (to_uint flags)];
  if negb (rc error =? 0) then
    fail L (rc error)
  else
    lua_pushinteger L (to_long (out_int 0 error));;
    mret 1.

(** a descriptor that is given is not read, one that is not given is *)
Definition l_lzc_send_space_resume_redacted (L : nat) : prog Z :=
  snapname ← luaL_checkstring L 1;
  from ← luaL_optstring L 2;
  flags ← luaL_optinteger L 3 0;
  resumeobj ← luaL_optinteger L 4 0;
  resumeoff ← luaL_optinteger L 5 0;
  resume_bytes ← luaL_optinteger L 6 0;
  redactbook ← luaL_optstring L 7;
  absent ← lua_isnoneornil L 8;
  fd ← (if negb absent then mret (-1) else checkfd L 8);
  error ← call "lzc_send_space_resume_redacted" [AS snapname; null_or from; AZ (to_uint flags); AZ (to_size resumeobj);
    AZ (to_size resumeoff); AZ (to_size resume_bytes); null_or redactbook; AZ fd];
  if negb (rc error =? 0) then fail L (rc error)
  else
    lua_pushinteger L (to_long (out_int 0 error));;
    mret 1.

Definition l_lzc_send_progress (L : nat) : prog Z :=
  snapname ← luaL_checkstring L 1;
  fd ← checkfd L 2;
  error ← call "lzc_send_progress" [AS snapname; AZ fd];
  if negb (rc error =? 0) then
    fail L (rc error)
  else
    lua_pushinteger L (to_long (out_int 0 error));;
    lua_pushinteger L (to_long (out_int 1 error));;
    mret 2.

Definition l_lzc_receive (L : nat) : prog Z :=
  snapname ← luaL_checkstring L 1;
  props ← optnvlist L 2;
  origin ← luaL_optstring L 3;
  force ← lua_toboolean L 4;
  raw ← lua_toboolean L 5;
  fd ← checkfd L 6;
  error ← call "lzc_receive" [AS snapname; AZ props; null_or origin; AZ (Z_of_bool force); AZ (Z_of_bool raw); AZ fd];
  if negb (rc error =? 0) then
    fail L (rc error)
  else
    success L.

Definition l_lzc_receive_resumable (L : nat) : prog Z :=
  snapname ← luaL_checkstring L 1;
  props ← optnvlist L 2;
  origin ← luaL_optstring L 3;
  force ← lua_toboolean L 4;
  raw ← lua_toboolean L 5;
  fd ← checkfd L 6;
  error ← call "lzc_receive" [AS snapname; AZ props; null_or origin; AZ (Z_of_bool force); AZ (Z_of_bool raw); AZ fd];
  if negb (rc error =? 0) then
    fail L (rc error)
  else
    success L.

Definition l_lzc_receive_with_header (L : nat) : prog Z :=
  snapname ← luaL_checkstring L 1;
  props ← optnvlist L 2;
  origin ← luaL_optstring L 3;
  force ← lua_toboolean L 4;
  resumable ← lua_toboolean L 5;
  raw ← lua_toboolean L 6;
  fd ← checkfd L 7;
  header ← luaL_checklstring L 8;
  luaL_argcheck L (Z.of_nat (String.length header) =? sizeof_dmu_replay_record) 8 "invalid header";;
  error ← call "lzc_receive_with_header" [AS snapname; AZ props; null_or origin; AZ (Z_of_bool force); AZ (Z_of_bool resumable); AZ (Z_of_bool raw); AZ fd; AS header];
  if negb (rc error =? 0) then
    fail L (rc error)
  else
    success L.

Definition l_lzc_receive_one (L : nat) : prog Z :=
  snapname ← luaL_checkstring L 1;
  props ← optnvlist L 2;
  origin ← luaL_optstring L 3;
  force ← lua_toboolean L 4;
  resumable ← lua_toboolean L 5;
  raw ← lua_toboolean L 6;
  fd ← checkfd L 7;
  header ← luaL_checklstring L 8;
  luaL_argcheck L (Z.of_nat (String.length header) =? sizeof_dmu_replay_record) 8 "invalid header";;
  error ← call "lzc_receive_one" [AS snapname; AZ props; null_or origin; AZ (Z_of_bool force); AZ (Z_of_bool resumable); AZ (Z_of_bool raw); AZ fd; AS header; AZ (-1); AZ 0];
  receive_done L error.

Definition l_lzc_receive_with_cmdprops (L : nat) : prog Z :=
  snapname ← luaL_checkstring L 1;
  props ← optnvlist L 2;
  cmdprops ← optnvlist L 3;
  wkeydata ← opt_lstring L 4;
  origin ← luaL_optstring L 5;
  force ← lua_toboolean L 6;
  resumable ← lua_toboolean L 7;
  raw ← lua_toboolean L 8;
  fd ← checkfd L 9;
  header ← luaL_checklstring L 10;
  luaL_argcheck L (Z.of_nat (String.length header) =? sizeof_dmu_replay_record) 10 "invalid header";;
  error ← call "lzc_receive_with_cmdprops" [AS snapname; AZ props; AZ cmdprops; null_or wkeydata; AZ (opt_length wkeydata); null_or origin; AZ (Z_of_bool force); AZ (Z_of_bool resumable); AZ (Z_of_bool raw); AZ fd; AS header; AZ (-1); AZ 0];
  receive_done L error.

Definition l_lzc_receive_with_heal (L : nat) : prog Z :=
  snapname ← luaL_checkstring L 1;
  props ← optnvlist L 2;
  cmdprops ← optnvlist L 3;
  wkeydata ← luaL_checklstring L 4;
  origin ← luaL_optstring L 5;
  force ← lua_toboolean L 6;
  heal ← lua_toboolean L 7;
  resumable ← lua_toboolean L 8;
  raw ← lua_toboolean L 9;
  fd ← checkfd L 10;
  header ← luaL_checklstring L 11;
  luaL_argcheck L (Z.of_nat (String.length header) =? sizeof_dmu_replay_record) 11 "invalid header";;
  error ← call "lzc_receive_with_heal" [AS snapname; AZ props; AZ cmdprops; AS wkeydata; AZ (Z.of_nat (String.length wkeydata)); null_or origin; AZ (Z_of_bool force); AZ (Z_of_bool heal); AZ (Z_of_bool resumable); AZ (Z_of_bool raw); AZ fd; AS header; AZ (-1); AZ 0];
  receive_done L error.

Definition l_lzc_exists (L : nat) : prog Z :=
  dsname ← luaL_checkstring L 1;
  r ← call "lzc_exists" [AS dsname];
  lua_pushboolean L (negb (rc r =? 0));;
  mret 1.

Definition l_lzc_rollback (L : nat) : prog Z :=
  dsname ← luaL_checkstring L 1;
  error ← call "lzc_rollback" [AS dsname; AZ (cst "ZFS_MAX_DATASET_NAME_LEN")];
  if negb (rc error =? 0) then
    fail L (rc error)
  else
    lua_pushstring L (out_str 0 error);;
    mret 1.

Definition l_lzc_rollback_to (L : nat) : prog Z :=
  dsname ← luaL_checkstring L 1;
  snapname ← luaL_checkstring L 2;
  error ← call "lzc_rollback_to" [AS dsname; AS snapname];
  if negb (rc error =? 0) then
    fail L (rc error)
  else
    success L.

Definition l_lzc_rename (L : nat) : prog Z :=
  source ← luaL_checkstring L 1;
  target ← luaL_checkstring L 2;
  error ← call "lzc_rename" [AS source; AS target];
  if negb (rc error =? 0) then
    fail L (rc error)
  else
    success L.

Definition l_lzc_destroy (L : nat) : prog Z :=
  dsname ← luaL_checkstring L 1;
  error ← call "lzc_destroy" [AS dsname];
  if negb (rc error =? 0) then
    fail L (rc error)
  else
    success L.

Definition l_lzc_channel_program (L : nat) : prog Z :=
  pool ← luaL_checkstring L 1;
  program ← luaL_checkstring L 2;
  instrlimit ← luaL_optinteger L 3 (cst "ZCP_DEFAULT_INSTRLIMIT");
  memlimit ← luaL_optinteger L 4 (cst "ZCP_DEFAULT_MEMLIMIT");
  argnvl ← checknvlist L 5;
  error ← call "lzc_channel_program" [AS pool; AS program; AZ (to_size instrlimit); AZ (to_size memlimit); AZ argnvl];
  errlist_done L error.

Definition l_lzc_channel_program_nosync (L : nat) : prog Z :=
  pool ← luaL_checkstring L 1;
  program ← luaL_checkstring L 2;
  instrlimit ← luaL_optinteger L 3 (cst "ZCP_DEFAULT_INSTRLIMIT");
  memlimit ← luaL_optinteger L 4 (cst "ZCP_DEFAULT_MEMLIMIT");
  argnvl ← checknvlist L 5;
  error ← call "lzc_channel_program_nosync" [AS pool; AS program; AZ (to_size instrlimit); AZ (to_size memlimit); AZ argnvl];
  errlist_done L error.

Definition l_lzc_sync (L : nat) : prog Z :=
  pool ← luaL_checkstring L 1;
  args ← optnvlist L 2;
  error ← call "lzc_sync" [AS pool; AZ args];
  errlist_done L error.

Definition l_lzc_reopen (L : nat) : prog Z :=
  pool ← luaL_checkstring L 1;
  scrub_restart ← lua_toboolean L 2;
  error ← call "lzc_reopen" [AS pool; AZ (Z_of_bool scrub_restart)];
  if negb (rc error =? 0) then
    fail L (rc error)
  else
    success L.

Definition l_lzc_pool_checkpoint (L : nat) : prog Z :=
  pool ← luaL_checkstring L 1;
  error ← call "lzc_pool_checkpoint" [AS pool];
  if negb (rc error =? 0) then
    fail L (rc error)
  else
    success L.

Definition l_lzc_pool_checkpoint_discard (L : nat) : prog Z :=
  pool ← luaL_checkstring L 1;
  error ← call "lzc_pool_checkpoint_discard" [AS pool];
  if negb (rc error =? 0) then
    fail L (rc error)
  else
    success L.

Definition l_lzc_wait (L : nat) : prog Z :=
  pool ← luaL_checkstring L 1;
  activity ← luaL_checkinteger L 2;
  error ← call "lzc_wait" [AS pool; AZ (to_int activity)];
  if negb (rc error =? 0) then
    fail L (rc error)
  else
    lua_pushboolean L (negb (out_int 0 error =? 0));;
    mret 1.

Definition l_lzc_wait_tag (L : nat) : prog Z :=
  pool ← luaL_checkstring L 1;
  activity ← luaL_checkinteger L 2;
  tag ← luaL_optinteger L 3 0;
  error ← call "lzc_wait_tag" [AS pool; AZ (to_int activity); AZ (to_size tag)];
  if negb (rc error =? 0) then
    fail L (rc error)
  else
    lua_pushboolean L (negb (out_int 0 error =? 0));;
    mret 1.

Definition l_lzc_pool_prefetch (L : nat) : prog Z :=
  pool ← luaL_checkstring L 1;
  type_ ← luaL_checkinteger L 2;
  error ← call "lzc_pool_prefetch" [AS pool; AZ (to_int type_)];
  if negb (rc error =? 0) then
    fail L (rc error)
  else
    success L.

Definition l_lzc_wait_fs (L : nat) : prog Z :=
  fsname ← luaL_checkstring L 1;
  activity ← luaL_checkinteger L 2;
  error ← call "lzc_wait_fs" [AS fsname; AZ (to_int activity)];
  if negb (rc error =? 0) then
    fail L (rc error)
  else
    lua_pushboolean L (negb (out_int 0 error =? 0));;
    mret 1.

Definition l_lzc_set_bootenv (L : nat) : prog Z :=
  pool ← luaL_checkstring L 1;
  props ← checknvlist L 2;
  error ← call "lzc_set_bootenv" [AS pool; AZ props];
  if negb (rc error =? 0) then
    fail L (rc error)
  else
    success L.

Definition l_lzc_get_bootenv (L : nat) : prog Z :=
  pool ← luaL_checkstring L 1;
  error ← call "lzc_get_bootenv" [AS pool];
  if negb (rc error =? 0) then
    zassert (out_int 0 error =? 0) "props == 0";;
    fail L (rc error)
  else
    zassert (negb (out_int 0 error =? 0)) "props != NULL";;
    pushnvlist L (out_int 0 error);;
    mret 1.

Definition l_lzc_get_vdev_prop (L : nat) : prog Z :=
  pool ← luaL_checkstring L 1;
  innvl ← checknvlist L 2;
  error ← call "lzc_get_vdev_prop" [AS pool; AZ innvl];
  errlist_done L error.

Definition l_lzc_set_vdev_prop (L : nat) : prog Z :=
  pool ← luaL_checkstring L 1;
  innvl ← checknvlist L 2;
  error ← call "lzc_set_vdev_prop" [AS pool; AZ innvl];
  errlist_done L error.

Definition l_lzc_scrub (L : nat) : prog Z :=
  pool ← luaL_checkstring L 1;
  args ← checknvlist L 2;
  error ← call "lzc_scrub" [AZ (cst "ZFS_IOC_POOL_SCRUB"); AS pool; AZ args];
  errlist_done L error.

Definition l_lzc_ddt_prune (L : nat) : prog Z :=
  pool ← luaL_checkstring L 1;
  unit ← luaL_checkinteger L 2;
  amount ← luaL_checkinteger L 3;
  error ← call "lzc_ddt_prune" [AS pool; AZ (to_int unit); AZ (to_size amount)];
  if negb (rc error =? 0) then
    fail L (rc error)
  else
    success L.

(** ** Registration *)

Definition l_lzc_funcs : list (string * string) :=
  [
   ("init", "l_lzc_init"); ("fini", "l_lzc_fini"); ("snapshot", "l_lzc_snapshot");
   ("create", "l_lzc_create"); ("promote", "l_lzc_promote");
   ("destroy_snaps", "l_lzc_destroy_snaps"); ("bookmark", "l_lzc_bookmark");
   ("get_bookmarks", "l_lzc_get_bookmarks"); ("get_bookmark_props", "l_lzc_get_bookmark_props");
   ("destroy_bookmarks", "l_lzc_destroy_bookmarks"); ("load_key", "l_lzc_load_key");
   ("unload_key", "l_lzc_unload_key"); ("change_key", "l_lzc_change_key");
   ("initialize", "l_lzc_initialize"); ("trim", "l_lzc_trim"); ("redact", "l_lzc_redact");
   ("snaprange_space", "l_lzc_snaprange_space"); ("hold", "l_lzc_hold");
   ("release", "l_lzc_release"); ("get_holds", "l_lzc_get_holds")] ++
  (if 1500035 <? cst "__FreeBSD_version" then [
   ("get_props", "l_lzc_get_props")] else []) ++
  [
   ("send", "l_lzc_send"); ("send_resume", "l_lzc_send_resume");
   ("send_redacted", "l_lzc_send_redacted"); ("send_resume_redacted", "l_lzc_send_resume_redacted");
   ("send_space", "l_lzc_send_space");
   ("send_space_resume_redacted", "l_lzc_send_space_resume_redacted")] ++
  (if 1600013 <? cst "__FreeBSD_version" then [
   ("send_progress", "l_lzc_send_progress")] else []) ++
  [
   ("receive", "l_lzc_receive"); ("receive_resumable", "l_lzc_receive_resumable");
   ("receive_with_header", "l_lzc_receive_with_header"); ("receive_one", "l_lzc_receive_one");
   ("receive_with_cmdprops", "l_lzc_receive_with_cmdprops");
   ("receive_with_heal", "l_lzc_receive_with_heal"); ("exists", "l_lzc_exists");
   ("rollback", "l_lzc_rollback"); ("rollback_to", "l_lzc_rollback_to"); ("rename", "l_lzc_rename");
   ("destroy", "l_lzc_destroy"); ("channel_program", "l_lzc_channel_program");
   ("channel_program_nosync", "l_lzc_channel_program_nosync"); ("sync", "l_lzc_sync");
   ("reopen", "l_lzc_reopen"); ("pool_checkpoint", "l_lzc_pool_checkpoint");
   ("pool_checkpoint_discard", "l_lzc_pool_checkpoint_discard"); ("wait", "l_lzc_wait");
   ("wait_tag", "l_lzc_wait_tag")] ++
  (if 1500023 <? cst "__FreeBSD_version" then [
   ("pool_prefetch", "l_lzc_pool_prefetch")] else []) ++
  [
   ("wait_fs", "l_lzc_wait_fs"); ("set_bootenv", "l_lzc_set_bootenv");
   ("get_bootenv", "l_lzc_get_bootenv"); ("get_vdev_prop", "l_lzc_get_vdev_prop");
   ("set_vdev_prop", "l_lzc_set_vdev_prop"); ("scrub", "l_lzc_scrub")] ++
  (if 1500023 <? cst "__FreeBSD_version" then [
   ("ddt_prune", "l_lzc_ddt_prune")] else []).

Definition zcore_consts : list (string * Z) :=
  idents [
     "LZC_DATSET_TYPE_ZFS"; "LZC_DATSET_TYPE_ZVOL"; "LZC_SEND_FLAG_EMBED_DATA";
     "LZC_SEND_FLAG_LARGE_BLOCK"; "LZC_SEND_FLAG_COMPRESS"; "LZC_SEND_FLAG_RAW";
     "LZC_SEND_FLAG_SAVED"; "POOL_INITIALIZE_START"; "POOL_INITIALIZE_CANCEL";
     "POOL_INITIALIZE_SUSPEND"; "POOL_INITIALIZE_UNINIT"; "POOL_INITIALIZE_FUNCS";
     "POOL_TRIM_START"; "POOL_TRIM_CANCEL"; "POOL_TRIM_SUSPEND"; "POOL_TRIM_FUNCS";
     "ZPOOL_WAIT_CKPT_DISCARD"; "ZPOOL_WAIT_FREE"; "ZPOOL_WAIT_INITIALIZE"; "ZPOOL_WAIT_REPLACE";
     "ZPOOL_WAIT_REMOVE"; "ZPOOL_WAIT_RESILVER"; "ZPOOL_WAIT_SCRUB"; "ZPOOL_WAIT_TRIM"] ++
  (if 1500003 <? cst "__FreeBSD_version" then idents [
     "ZPOOL_WAIT_RAIDZ_EXPAND"] else []) ++
  idents [
     "ZPOOL_WAIT_NUM_ACTIVITIES"; "ZFS_WAIT_DELETEQ"; "ZFS_WAIT_NUM_ACTIVITIES"] ++
  (if 1500023 <? cst "__FreeBSD_version" then idents [
     "ZPOOL_PREFETCH_NONE"; "ZPOOL_PREFETCH_DDT"] else []) ++
  (if (1500023 <? cst "__FreeBSD_version") && (1600004 <? cst "__FreeBSD_version") then idents [
     "ZPOOL_PREFETCH_BRT"] else []) ++
  (if 1500023 <? cst "__FreeBSD_version" then idents [
     "ZPOOL_DDT_PRUNE_NONE"; "ZPOOL_DDT_PRUNE_AGE"; "ZPOOL_DDT_PRUNE_PERCENTAGE"] else []).

Definition luaopen_zfs_core (L : nat) : prog Z :=
  luaL_newlib L l_lzc_funcs;;
  define_all L zcore_consts;;
  mret 1.

Definition zcore_wrappers : list wrapped := [
  Wrapped "l_lzc_init" l_lzc_init "libzfs_core_init" [] [] RNone;
  Wrapped "l_lzc_fini" l_lzc_fini "libzfs_core_fini" [] [] RNone;
  Wrapped "l_lzc_load_key" l_lzc_load_key "lzc_load_key" [AStr; ABool; ALStr] [] (or_code Succeeds);
  Wrapped "l_lzc_unload_key" l_lzc_unload_key "lzc_unload_key" [AStr] [] (or_code Succeeds);
  Wrapped "l_lzc_redact" l_lzc_redact "lzc_redact" [AStr; AStr; ACookie NVLIST_METATABLE] [] (or_code Succeeds);
  Wrapped "l_lzc_snaprange_space" l_lzc_snaprange_space "lzc_snaprange_space" [AStr; AStr] [] (or_code (Pushed [(fun r => VInt (to_long (out_int 0 r)))]));
  Wrapped "l_lzc_send" l_lzc_send "lzc_send" [AStr; AOptStr; AFd id; AOptInt 0 to_uint] [] (or_code Succeeds);
  Wrapped "l_lzc_send_resume" l_lzc_send_resume "lzc_send_resume" [AStr; AOptStr; AFd id; AOptInt 0 to_uint; AInt to_size; AInt to_size] [] (or_code Succeeds);
  Wrapped "l_lzc_send_redacted" l_lzc_send_redacted "lzc_send_redacted" [AStr; AOptStr; AFd id; AOptInt 0 to_uint; AOptStr] [] (or_code Succeeds);
  Wrapped "l_lzc_send_resume_redacted" l_lzc_send_resume_redacted "lzc_send_resume_redacted" [AStr; AOptStr; AFd id; AOptInt 0 to_uint; AOptInt 0 to_size; AOptInt 0 to_size; AOptStr] [] (or_code Succeeds);
  Wrapped "l_lzc_send_space" l_lzc_send_space "lzc_send_space" [AStr; AOptStr; AOptInt 0 to_uint] [] (or_code (Pushed [(fun r => VInt (to_long (out_int 0 r)))]));
  Wrapped "l_lzc_send_progress" l_lzc_send_progress "lzc_send_progress" [AStr; AFd id] [] (or_code (Pushed [(fun r => VInt (to_long (out_int 0 r))); (fun r => VInt (to_long (out_int 1 r)))]));
  Wrapped "l_lzc_receive" l_lzc_receive "lzc_receive" [AStr; AOptCookie NVLIST_METATABLE; AOptStr; ABool; ABool; AFd id] [] (or_code Succeeds);
  Wrapped "l_lzc_receive_resumable" l_lzc_receive_resumable "lzc_receive" [AStr; AOptCookie NVLIST_METATABLE; AOptStr; ABool; ABool; AFd id] [] (or_code Succeeds);
  Wrapped "l_lzc_exists" l_lzc_exists "lzc_exists" [AStr] [] (Pushed [v_bool]);
  Wrapped "l_lzc_rollback" l_lzc_rollback "lzc_rollback" [AStr; AConst (AZ (cst "ZFS_MAX_DATASET_NAME_LEN"))] [] (or_code (Pushed [v_outs 0]));
  Wrapped "l_lzc_rollback_to" l_lzc_rollback_to "lzc_rollback_to" [AStr; AStr] [] (or_code Succeeds);
  Wrapped "l_lzc_rename" l_lzc_rename "lzc_rename" [AStr; AStr] [] (or_code Succeeds);
  Wrapped "l_lzc_destroy" l_lzc_destroy "lzc_destroy" [AStr] [] (or_code Succeeds);
  Wrapped "l_lzc_reopen" l_lzc_reopen "lzc_reopen" [AStr; ABool] [] (or_code Succeeds);
  Wrapped "l_lzc_pool_checkpoint" l_lzc_pool_checkpoint "lzc_pool_checkpoint" [AStr] [] (or_code Succeeds);
  Wrapped "l_lzc_pool_checkpoint_discard" l_lzc_pool_checkpoint_discard "lzc_pool_checkpoint_discard" [AStr] [] (or_code Succeeds);
  Wrapped "l_lzc_wait" l_lzc_wait "lzc_wait" [AStr; AInt to_int] [] (or_code (Pushed [v_outb 0]));
  Wrapped "l_lzc_wait_tag" l_lzc_wait_tag "lzc_wait_tag" [AStr; AInt to_int; AOptInt 0 to_size] [] (or_code (Pushed [v_outb 0]));
  Wrapped "l_lzc_pool_prefetch" l_lzc_pool_prefetch "lzc_pool_prefetch" [AStr; AInt to_int] [] (or_code Succeeds);
  Wrapped "l_lzc_wait_fs" l_lzc_wait_fs "lzc_wait_fs" [AStr; AInt to_int] [] (or_code (Pushed [v_outb 0]));
  Wrapped "l_lzc_set_bootenv" l_lzc_set_bootenv "lzc_set_bootenv" [AStr; ACookie NVLIST_METATABLE] [] (or_code Succeeds);
  Wrapped "l_lzc_ddt_prune" l_lzc_ddt_prune "lzc_ddt_prune" [AStr; AInt to_int; AInt to_size] [] (or_code Succeeds)].

Lemma zcore_wrappers_ok : Forall wrapped_ok zcore_wrappers.
Proof. wrapped_table. Qed.
End zcore.
