(* ===== verification/Foreign.v ===== *)
(** * Structures and callbacks of foreign libraries

    A structure whose layout is in a header of the system is asked for its members by name
    ([member_int], [member_str]): the answer is a parameter, as the result of a call is.  A
    library function that calls back is a conversation ([converse]): its first result and the
    answer to every callback ([.resume]) say whether another callback follows, with its
    arguments, or the function returns. *)

From S2P Require Import Prelude LuaApi Machine Capi Utils Modules Cmem.

(** ** Members *)

(** the value of a member, as the signed integer of the same bits that Lua gets *)
Definition member_int (p : Z) (m : string) : prog Z :=
  r ← call ("->" +:+ m) [AZ p];
  mret (to_long (rc r)).

(** an element of a member that is an array *)
Definition element_int (p : Z) (m : string) (i : Z) : prog Z :=
  r ← call ("->" +:+ m) [AZ p; AZ i];
  mret (to_long (rc r)).

(** a string, or the bytes, of a member *)
Definition member_str (p : Z) (m : string) : prog string :=
  r ← call ("->" +:+ m) [AZ p];
  mret (out_str 0 r).

Definition element_str (p : Z) (m : string) (i : Z) : prog string :=
  r ← call ("->" +:+ m) [AZ p; AZ i];
  mret (out_str 0 r).

(** access through a pointer *)
Definition deref {A} (p : Z) (k : prog A) : prog A :=
  if p =? 0 then undefined "access through a null pointer" else k.

(** fields of the table on the top with the members of these names, [prefix] being what the
    members have in front *)
Fixpoint member_fields (L : nat) (p : Z) (prefix : string) (names : list string) : prog unit :=
  match names with
  | [] => mret tt
  | name :: names =>
      v ← member_int p (prefix +:+ name);
      int_field L name v;;
      member_fields L p prefix names
  end.

(** a table with the elements of an array *)
Definition member_array (L : nat) (p : Z) (m : string) (len : Z) : prog unit :=
  lua_createtable L len 0;;
  for_ (Z.to_nat len) 0 (fun i =>
    v ← element_int p m i;
    lua_pushinteger L v;;
    lua_rawseti L (-2) (i + 1)).

(** ** Callbacks *)

(** the rounds of a conversation: 1, with what is passed to the callback, or 0, with the result *)
Fixpoint converse (fuel : nat) (f : string) (cb : cret -> prog (list carg)) (r : cret) : prog cret :=
  match fuel with
  | O => halts (EHalt Diverge)
  | S fuel =>
      if rc r =? 0 then mret r
      else
        x ← cb r;
        r ← call (f +:+ ".resume") x;
        converse fuel f cb r
  end.

(** [lua_call(L, nargs, 1)] *)
Definition lua_call1 (L : nat) (nargs : Z) : prog unit :=
  fa ← lua L (Popcall nargs);
  r ← trigger (ECallfn L fa.1 fa.2);
  if r.1 : bool then lua L (Pushresults [default VNil (head r.2)])
  else lua L (Pushresults r.2);; lua_error L.
