(* ===== verification/Kvm.v ===== *)
(** * lua_kvm.c: kernel memory

    A kernel is a cookie of type "kvm_t *"; errors come from the library ([kvmfail]).  The
    members of the structures of the kernel are asked for by name ([member_int]), as their
    layout is in the headers of the system: the tables [pcpu_fields] and [kinfo_proc_fields]
    list the members of the two index functions with their kind, in the order of the macros,
    and [push_field] is what the macros expand to. *)

From Stdlib Require Import Ascii.
From S2P Require Import Prelude LuaApi Machine Capi Utils Modules Cmem Wrapper Foreign.

Section kvm.
Context `{Consts}.

Definition KVM_METATABLE : string := "kvm_t *".
Definition PCPU_METATABLE : string := "struct pcpu *".
Definition KINFO_PROC_METATABLE : string := "struct kinfo_proc *".
Definition KINFO_PROCS_METATABLE : string := "struct kinfo_proc[]".

Definition kvmfail (L : nat) (kd : Z) : prog Z :=
  luaL_pushfail L;;
  r ← call "kvm_geterr" [AZ kd];
  push_ret_string L r;;
  mret 2.

(** ** Callbacks *)

(** the out is the name of a symbol; the answer is the address *)
Definition resolver_wrapper (L : nat) (r : cret) : prog (list carg) :=
  lua_pushvalue L (-1);;
  lua_pushstring L (out_str 0 r);;
  ok ← lua_pcall1 L 1;
  isint ← (if ok : bool then lua_isinteger L (-1) else mret false);
  res ← (if isint : bool then
           addr ← lua_tointeger L (-1);
           mret [AZ 0; AZ (to_size addr)]
         else mret [AZ (-1)]);
  lua_pop L 1;;
  mret (res : list carg).

(** ** Opening *)

(** the outs: the kernel, the message *)
Definition opened (L : nat) (kd : cret) : prog Z :=
  if out_int 0 kd =? 0 then
    luaL_pushfail L;;
    lua_pushstring L (out_str 1 kd);;
    mret 2
  else new L (out_int 0 kd) KVM_METATABLE.

Definition l_kvm_open2 (fuel : nat) (L : nat) : prog Z :=
  execfile ← luaL_optstring L 1;
  corefile ← luaL_optstring L 2;
  flags ← luaL_optinteger L 3 0;
  isfun ← lua_is L 4 TFUNCTION;
  (if isfun : bool then luaL_checktype L 5 TNONE else mret tt);;
  kd ← call "kvm_open2" [null_or execfile; null_or corefile; AZ (to_int flags); AZ (Z_of_bool isfun)];
  kd ← converse fuel "kvm_open2" (resolver_wrapper L) kd;
  opened L kd.

Definition l_kvm_openfiles (L : nat) : prog Z :=
  execfile ← luaL_optstring L 1;
  corefile ← luaL_optstring L 2;
  swapfile ← luaL_optstring L 3;
  flags ← luaL_optinteger L 4 0;
  kd ← call "kvm_openfiles" [null_or execfile; null_or corefile; null_or swapfile; AZ (to_int flags)];
  opened L kd.

Definition l_kvm_close (L : nat) : prog Z :=
  kd ← checkcookienull L 1 KVM_METATABLE;
  if kd =? 0 then mret 0
  else
    r ← call "kvm_close" [AZ kd];
    if rc r =? -1 then
      e ← errno;
      fail L e
    else
      setcookie L 1 0;;
      success L.

(** ** CPUs *)

Definition l_kvm_dpcpu_setcpu (L : nat) : prog Z :=
  kd ← checkcookie L 1 KVM_METATABLE;
  cpu ← luaL_checkinteger L 2;
  r ← call "kvm_dpcpu_setcpu" [AZ kd; AZ (to_uint cpu)];
  if rc r =? -1 then kvmfail L kd else success L.

Definition l_kvm_getmaxcpu (L : nat) : prog Z :=
  kd ← checkcookie L 1 KVM_METATABLE;
  maxcpu ← call "kvm_getmaxcpu" [AZ kd];
  if rc maxcpu =? -1 then kvmfail L kd
  else
    lua_pushinteger L (rc maxcpu);;
    mret 1.

Definition l_kvm_getncpus (L : nat) : prog Z :=
  kd ← checkcookie L 1 KVM_METATABLE;
  ncpus ← call "kvm_getncpus" [AZ kd];
  if rc ncpus =? -1 then kvmfail L kd
  else
    lua_pushinteger L (rc ncpus);;
    mret 1.

Definition l_kvm_getpcpu (L : nat) : prog Z :=
  kd ← checkcookie L 1 KVM_METATABLE;
  cpu ← luaL_checkinteger L 2;
  pcpu ← call "kvm_getpcpu" [AZ kd; AZ (to_int cpu)];
  if rc pcpu =? -1 then kvmfail L kd
  else if rc pcpu =? 0 then mret 0
  else new L (rc pcpu) PCPU_METATABLE.

Definition l_pcpu_gc (L : nat) : prog Z :=
  pcpu ← checkcookie L 1 PCPU_METATABLE;
  free pcpu;;
  setcookie L 1 0;;
  mret 0.

(** ** Members of structures *)

Definition pushlock (L : nat) (p : Z) (lo : string) : prog unit :=
  lua_createtable L 0 4;;
  name ← member_str p (lo +:+ ".lo_name");
  str_field L "name" name;;
  member_fields L p (lo +:+ ".lo_") ["flags"; "data"];;
  member_fields L p (lo +:+ ".lo_") ["witness"].

Definition pushmtx (L : nat) (p : Z) (mtx : string) : prog unit :=
  lua_createtable L 0 2;;
  pushlock L p (mtx +:+ ".lock_object");;
  lua_setfield L (-2) "lock_object";;
  member_fields L p (mtx +:+ ".mtx_") ["lock"].

Definition pushtimeval (L : nat) (p : Z) (tv : string) : prog unit :=
  lua_createtable L 0 2;;
  member_fields L p (tv +:+ ".tv_") ["sec"; "usec"].

Definition pushrusage (L : nat) (p : Z) (ru : string) : prog unit :=
  lua_newtable L;;
  pushtimeval L p (ru +:+ ".ru_utime");;
  lua_setfield L (-2) "utime";;
  pushtimeval L p (ru +:+ ".ru_stime");;
  lua_setfield L (-2) "stime";;
  member_fields L p (ru +:+ ".ru_") [
    "maxrss"; "ixrss"; "idrss"; "isrss"; "minflt"; "majflt"; "nswap"; "inblock"; "oublock"; "msgsnd"; "msgrcv";
    "nsignals"; "nvcsw"; "nivcsw"].

(** what the macros of the index functions push *)
Inductive field_kind :=
  | FInt                                        (** INTFIELD, PTRFIELD *)
  | FInts (len : Z)                             (** INTSFIELD *)
  | FStr
  | FSigset
  | FTimeval
  | FRusage
  | FTable (prefix : string) (names : list string)          (** FIELDs in a table *)
  | FRows (n : Z) (member : string) (prefix : string) (names : list string)
  | FPush (push : nat -> Z -> prog unit).

(** FIELDs of the element [i] of an array of structures *)
Fixpoint row_fields (L : nat) (p i : Z) (member prefix : string) (names : list string) : prog unit :=
  match names with
  | [] => mret tt
  | name :: names =>
      v ← element_int p (member +:+ "[]." +:+ prefix +:+ name) i;
      int_field L name v;;
      row_fields L p i member prefix names
  end.

(** [m] is the name of the member: the field with the prefix of the structure *)
Definition push_field (L : nat) (p : Z) (m : string) (k : field_kind) : prog unit :=
  match k with
  | FInt => v ← member_int p m; lua_pushinteger L v
  | FInts len => member_array L p m len
  | FStr => s ← member_str p m; lua_pushstring L s
  | FSigset => s ← member_str p m; lua_pushlstring L s
  | FTimeval => pushtimeval L p m
  | FRusage => pushrusage L p m
  | FTable prefix names =>
      lua_createtable L 0 (Z.of_nat (length names));;
      member_fields L p (m +:+ prefix) names
  | FRows n member prefix names =>
      lua_createtable L n 0;;
      for_ (Z.to_nat n) 0 (fun i =>
        lua_newtable L;;
        row_fields L p i member prefix names;;
        lua_rawseti L (-2) (i + 1))
  | FPush push => push L p
  end.

Fixpoint find_field (field : string) (l : list (string * field_kind)) : option field_kind :=
  match l with
  | [] => None
  | (name, k) :: l => if String.eqb field name then Some k else find_field field l
  end.

(** ** pcpu *)

(** the fields every machine has *)
Definition pcpu_mi : list (string * field_kind) :=
  [
   ("curthread", FInt); ("idlethread", FInt); ("fpcurthread", FInt); ("deadthread", FInt); ("curpcb", FInt);
   ("sched", FInt); ("switchtime", FInt); ("switchticks", FInt); ("cpuid", FInt)] ++
  [("allcpu", FTable ".stqe_" ["next"])] ++
  [
   ("spinlocks", FInt); ("cp_time", FInts (cst "CPUSTATES")); ("device", FInt); ("netisr", FInt);
   ("vfs_freevnodes", FInt); ("domain", FInt)] ++
  [("rm_queue", FTable ".rmq_" ["next"; "prev"])] ++
  [
   ("dynamic", FInt); ("early_dummy_counter", FInt); ("zpcpu_offset", FInt)].

Definition on (macro : string) (l : list (string * field_kind)) : list (string * field_kind) :=
  if cst ("#ifdef " +:+ macro) =? 0 then [] else l.

(** [#if __FreeBSD_version > v] *)
Definition since (v : Z) (l : list (string * field_kind)) : list (string * field_kind) :=
  if v <? cst "__FreeBSD_version" then l else [].

Definition pcpu_aarch64 : list (string * field_kind) :=
  on "__aarch64__" (
  [
   ("acpi_id", FInt); ("midr", FInt); ("clock", FInt); ("bp_harden", FInt); ("ssbd", FInt); ("curpmap", FInt);
   ("curvmpmap", FInt)] ++
  (if 1400087 <? cst "__FreeBSD_version" then [
   ("mpidr", FInt)] else [
   ("mpidr_low", FInt); ("mpidr_high", FInt)]) ++
  [
   ("bcast_tlbi_workaround", FInt)] ++
  since 1600002 [
   ("release_addr", FInt)]).

Definition pcpu_amd64 : list (string * field_kind) :=
  on "__amd64__" (
  [("monitorbuf", FTable "." ["idle_state"; "stop_state"])] ++
  [
   ("prvspace", FInt); ("curpmap", FInt); ("tssp", FInt); ("kcr3", FInt); ("ucr3", FInt);
   ("saved_ucr3", FInt); ("rsp0", FInt); ("scratch_rsp", FInt); ("scratch_rax", FInt); ("apic_id", FInt);
   ("acpi_id", FInt); ("fs32p", FInt); ("gs32p", FInt); ("ldt", FInt); ("tss", FInt); ("cmci_mask", FInt);
   ("dbreg", FInts 16); ("pti_stack", FInts (cst "PC_PTI_STACK_SZ")); ("pti_rsp0", FInt); ("dbreg_cmd", FInt);
   ("vcpu_id", FInt); ("pcid_next", FInt); ("pcid_gen", FInt); ("ibpb_set", FInt); ("mds_buf", FInt);
   ("mds_buf64", FInt); ("mds_tmp", FInts 64); ("ipi_bitmap", FInt)]).

Definition pcpu_amd64_tables : list (string * field_kind) :=
  on "__amd64__" (
  [("common_tss", FTable ".tss_" [
      "rsvd0"; "rsp0"; "rsp1"; "rsp2"; "rsvd1"; "rsvd2"; "ist1"; "ist2"; "ist3"; "ist4"; "ist5"; "ist6"; "ist7";
      "rsvd3"; "rsvd4"; "rsvd5"; "iobase"]);
   ("gdt", FRows (cst "NGDT") "pc_gdt" "sd_" [
      "lolimit"; "lobase"; "type"; "dpl"; "p"; "hilimit"; "xx"; "long"; "def32"; "gran"; "hibase"])] ++
  [
   ("smp_tlb_pmap", FInt); ("smp_tlb_addr1", FInt); ("smp_tlb_addr2", FInt); ("smp_tlb_gen", FInt);
   ("smp_tlb_op", FInt); ("ucr3_load_mask", FInt); ("small_core", FInt); ("pcid_invlpg_workaround", FInt)] ++
  since 1400088 [("kpmap_store", FTable ".pm_" ["pcid"; "gen"])]).

Definition pcpu_arm : list (string * field_kind) :=
  on "__arm__" (
  [
   ("vfpsid", FInt); ("vfpmvfr0", FInt); ("vfpmvfr1", FInt); ("curpmap", FInt)] ++
  [("cmap_lock", FPush (fun L p => pushmtx L p "pc_cmap_lock"))] ++
  [
   ("cmap1_pte2p", FInt); ("cmap2_pte2p", FInt); ("cmap1_addr", FInt); ("cmap2_addr", FInt);
   ("qmap_addr", FInt); ("qmap_pte2p", FInt); ("dbreg", FInts 32); ("dbreg_cmd", FInt);
   ("bp_harden_kind", FInt); ("original_actlr", FInt); ("clock", FInt); ("mpidr", FInt)]).

(** [AINTSFIELD], [BINTSFIELD] *)
Definition array_field (L : nat) (p : Z) (m name : string) (len : Z) : prog unit :=
  member_array L p (m +:+ name) len;;
  lua_setfield L (-2) name.

(** the block of [aim]; on [__powerpc64__] the elements of [slb] come first *)
Definition push_aim (L : nat) (p : Z) : prog unit :=
  lua_newtable L;;
  if cst "#ifdef __powerpc64__" =? 0 then
    member_fields L p "pc_aim." ["qmap_pvo"];;
    pushmtx L p "pc_aim.qmap_lock";;
    lua_setfield L (-2) "qmap_lock"
  else
    lua_createtable L (cst "nitems(pcpu->pc_aim.slb)") 0;;
    for_ (Z.to_nat (cst "nitems(pcpu->pc_aim.slb)")) 0 (fun i =>
      lua_createtable L 0 2;;
      member_fields L p "pc_aim.slb." ["slbv"; "slbe"];;
      lua_rawseti L (-2) (i + 1));;
    member_fields L p "pc_aim." ["userslb"];;
    array_field L p "pc_aim." "slbsave" 18;;
    array_field L p "pc_aim." "slbstack" 1024;;
    member_fields L p "pc_aim." ["qmap_pvo"];;
    pushmtx L p "pc_aim.qmap_lock";;
    lua_setfield L (-2) "qmap_lock";;
    member_fields L p "pc_aim." ["opal_hmi_flags"].

Definition push_booke (L : nat) (p : Z) : prog unit :=
  lua_newtable L;;
  array_field L p "pc_booke." "critsave" (cst "BOOKE_CRITSAVE_LEN");;
  array_field L p "pc_booke." "mchksave" (cst "CPUSAVE_LEN");;
  array_field L p "pc_booke." "tlbsave" (cst "BOOKE_TLBSAVE_LEN");;
  member_fields L p "pc_booke." ["tlb_level"; "tlb_lock"; "tid_next"].

Definition pcpu_powerpc : list (string * field_kind) :=
  (fun l => on "__powerpc__" l ++ (if cst "#ifdef __powerpc__" =? 0 then on "__powerpc64__" l else [])) (
  [
   ("inside_intr", FInt); ("curpmap", FInt); ("fputhread", FInt); ("vecthread", FInt); ("htmthread", FInt);
   ("hwref", FInt); ("bsp", FInt); ("awake", FInt); ("ipimask", FInt); ("flags", FInt);
   ("tempsave", FInts (cst "CPUSAVE_LEN")); ("disisave", FInts (cst "CPUSAVE_LEN"));
   ("dbsave", FInts (cst "CPUSAVE_LEN")); ("restore", FInt); ("qmap_addr", FInt)] ++
  [("aim", FPush push_aim); ("booke", FPush push_booke)]).

Definition pcpu_riscv : list (string * field_kind) :=
  on "__riscv__" (
  [
   ("curpmap", FInt); ("pending_ipis", FInt); ("hart", FInt)] ++
  since 1500030 [
   ("clock", FInt)]).

Definition pcpu_fields : list (string * field_kind) :=
  pcpu_mi ++ pcpu_aarch64 ++ pcpu_amd64 ++ pcpu_amd64_tables ++ pcpu_arm ++ pcpu_powerpc ++ pcpu_riscv.

Definition l_pcpu_index (L : nat) : prog Z :=
  pcpu ← checkcookie L 1 PCPU_METATABLE;
  field ← luaL_checkstring L 2;
  match find_field field pcpu_fields with
  | Some k =>
      push_field L pcpu ("pc_" +:+ field) k;;
      mret 1
  | None => mret 0
  end.

(** ** Counters *)

Definition l_kvm_read_zpcpu (L : nat) : prog Z :=
  kd ← checkcookie L 1 KVM_METATABLE;
  base ← luaL_checkinteger L 2;
  size ← luaL_checkinteger L 3;
  cpu ← luaL_checkinteger L 4;
  luaL_buffinit L;;
  result ← call "kvm_read_zpcpu" [AZ kd; AZ (to_size base); AZ (to_size size); AZ (to_int cpu)];
  if rc result =? -1 then kvmfail L kd
  else
    prefix_of (out_str 0 result) (rc result) (fun s => luaL_pushresult L s);;
    mret 1.

Definition l_kvm_counter_u64_fetch (L : nat) : prog Z :=
  kd ← checkcookie L 1 KVM_METATABLE;
  base ← luaL_checkinteger L 2;
  r ← call "kvm_counter_u64_fetch" [AZ kd; AZ (to_size base)];
  lua_pushinteger L (to_long (rc r));;
  mret 1.

Definition l_kvm_getcptime (L : nat) : prog Z :=
  kd ← checkcookie L 1 KVM_METATABLE;
  cp_time ← call "kvm_getcptime" [AZ kd];
  if rc cp_time =? -1 then kvmfail L kd
  else
    lua_createtable L (cst "CPUSTATES") 0;;
    for_ (Z.to_nat (cst "CPUSTATES")) 0 (fun i =>
      lua_pushinteger L (out_int (Z.to_nat i) cp_time);;
      lua_rawseti L (-2) (i + 1));;
    mret 1.

Definition l_kvm_getcptime_clearcache (L : nat) : prog Z :=
  call "kvm_getcptime" [AZ 0; AZ 0];;
  mret 0.

Definition l_kvm_getloadavg (L : nat) : prog Z :=
  kd ← checkcookie L 1 KVM_METATABLE;
  samples ← call "kvm_getloadavg" [AZ kd; AZ 3];
  if rc samples =? -1 then kvmfail L kd
  else
    assert_ (rc samples <=? 3) "samples <= nitems(loadavg)";;
    lua_createtable L (rc samples) 0;;
    for_ (Z.to_nat (rc samples)) 0 (fun i =>
      lua_pushnumber L (out_num (Z.to_nat i) samples);;
      lua_rawseti L (-2) (i + 1));;
    mret 1.

(** ** Processes *)

Definition CNT : nat := 1.
Definition sizeof_kinfo_proc : Z := cst "sizeof(struct kinfo_proc)".

(** the outs: the number, and the bytes of the structures.  No table has this function. *)
Definition l_kvm_getprocs (L : nat) : prog Z :=
  kd ← checkcookie L 1 KVM_METATABLE;
  op ← luaL_checkinteger L 2;
  arg ← luaL_checkinteger L 3;
  procs ← call "kvm_getprocs" [AZ kd; AZ (to_int op); AZ (to_int arg)];
  if rc procs =? 0 then kvmfail L kd
  else
    let cnt := out_int 0 procs in
    let size := to_size (cnt * sizeof_kinfo_proc) in
    lua_newuserdatauv L size (OBuf size (out_str 1 procs)) 1;;
    lua_pushinteger L cnt;;
    lua_setiuservalue L (-2) CNT;;
    luaL_setmetatable L KINFO_PROCS_METATABLE;;
    mret 1.

Definition l_kinfo_procs_index (L : nat) : prog Z :=
  procs ← luaL_checkudata L 1 KINFO_PROCS_METATABLE;
  i ← luaL_checkinteger L 2;
  let i := to_size i in
  lua_getiuservalue L 1 CNT;;
  cnt ← lua_tointeger L (-1);
  let cnt := to_size cnt in
  if (i =? 0) || (cnt <? i) then mret 0
  else newref L 1 (procs + (i - 1) * sizeof_kinfo_proc) KINFO_PROC_METATABLE.

Definition l_kinfo_procs_len (L : nat) : prog Z :=
  luaL_checkudata L 1 KINFO_PROCS_METATABLE;;
  lua_getiuservalue L 1 CNT;;
  mret 1.

Definition kinfo_proc_fields : list (string * field_kind) :=
  [
   ("structsize", FInt); ("layout", FInt); ("args", FInt); ("paddr", FInt); ("addr", FInt); ("tracep", FInt);
   ("textvp", FInt); ("fd", FInt); ("vmspace", FInt); ("wchan", FInt); ("pid", FInt); ("ppid", FInt);
   ("pgid", FInt); ("tpgid", FInt); ("sid", FInt); ("tsid", FInt); ("jobc", FInt); ("tdev_freebsd11", FInt);
   ("siglist", FSigset); ("sigmask", FSigset); ("sigignore", FSigset); ("sigcatch", FSigset); ("uid", FInt);
   ("ruid", FInt); ("svuid", FInt); ("rgid", FInt); ("svgid", FInt); ("ngroups", FInt);
   ("groups", FInts (cst "KI_NGROUPS")); ("size", FInt); ("rssize", FInt); ("swrss", FInt); ("tsize", FInt);
   ("dsize", FInt); ("ssize", FInt); ("xstat", FInt); ("acflag", FInt); ("pctcpu", FInt); ("estcpu", FInt);
   ("slptime", FInt); ("swtime", FInt); ("cow", FInt); ("runtime", FInt); ("start", FTimeval);
   ("childtime", FTimeval); ("flag", FInt); ("kiflag", FInt); ("traceflag", FInt); ("stat", FInt);
   ("nice", FInt); ("lock", FInt); ("rqindex", FInt); ("oncpu_old", FInt); ("lastcpu_old", FInt);
   ("tdname", FStr); ("wmesg", FStr); ("login", FStr); ("lockname", FStr); ("comm", FStr); ("emul", FStr);
   ("loginclass", FStr); ("moretdname", FStr); ("tdev", FInt); ("oncpu", FInt); ("lastcpu", FInt);
   ("tracer", FInt); ("flag2", FInt); ("fibnum", FInt); ("cr_flags", FInt); ("jid", FInt);
   ("numthreads", FInt); ("tid", FInt)] ++
  [("pri", FTable ".pri_" ["class"; "level"; "native"; "user"])] ++
  [
   ("rusage", FRusage); ("rusage_ch", FRusage); ("pcb", FInt); ("kstack", FInt); ("udata", FInt);
   ("tdaddr", FInt); ("pd", FInt)] ++
  since 1500044 [
   ("uerrmsg", FInt)] ++
  [
   ("sflag", FInt); ("tdflags", FInt)].

Definition l_kinfo_proc_index (L : nat) : prog Z :=
  p ← checkcookie L 1 KINFO_PROC_METATABLE;
  field ← luaL_checkstring L 2;
  match find_field field kinfo_proc_fields with
  | Some k =>
      push_field L p ("ki_" +:+ field) k;;
      mret 1
  | None => mret 0
  end.

(** the loop over the strings of a vector, which are the outs *)
Fixpoint push_vector (L : nat) (v : list carg) (i : Z) : prog unit :=
  match v with
  | AS s :: v =>
      lua_pushstring L s;;
      lua_rawseti L (-2) (i + 1);;
      push_vector L v (i + 1)
  | _ => mret tt
  end.

(** [l_kvm_getargv] and [l_kvm_getenvv] *)
Definition process_strings (L : nat) (f : string) : prog Z :=
  kd ← checkcookie L 1 KVM_METATABLE;
  p ← checkcookie L 2 KINFO_PROC_METATABLE;
  nchr ← luaL_optinteger L 3 0;
  argv ← call f [AZ kd; AZ p; AZ (to_int nchr)];
  if rc argv =? 0 then kvmfail L kd
  else
    lua_newtable L;;
    push_vector L (outs argv) 0;;
    mret 1.

Definition l_kvm_getargv (L : nat) : prog Z := process_strings L "kvm_getargv".
Definition l_kvm_getenvv (L : nat) : prog Z := process_strings L "kvm_getenvv".

(** ** Swap *)

Definition sizeof_kvm_swap : Z := cst "sizeof(struct kvm_swap)".

(** element [i] of the array of [maxswap] elements: the outs are devname, total, used and
    flags of the elements that were written *)
Definition swap_at (ksi : cret) (maxswap i : Z) : prog (list carg) :=
  if (0 <=? i) && (i <? maxswap) then
    match drop (4 * Z.to_nat i) (outs ksi) with
    | [] => halts (EHalt (Unspec "the contents of uninitialised memory"))
    | swap => mret (take 4 swap)
    end
  else undefined "access outside of an object".

Definition pushswap (L : nat) (swap : list carg) : prog unit :=
  lua_newtable L;;
  str_field L "devname" (out_str 0 (Cret 0 swap));;
  int_fields L (Cret 0 swap) 1 ["total"; "used"; "flags"].

Definition l_kvm_getswapinfo (L : nat) : prog Z :=
  kd ← checkcookie L 1 KVM_METATABLE;
  n ← luaL_optinteger L 2 0;
  let maxswap := to_int (1 + n) in
  flags ← luaL_optinteger L 3 0;
  let size := to_size (maxswap * sizeof_kvm_swap) in
  p ← malloc size (OBuf size "");
  if p =? 0 then fatal L "malloc" (cst "ENOMEM")
  else
    ksi ← call "kvm_getswapinfo" [AZ kd; AZ p; AZ maxswap; AZ (to_int flags)];
    let nswap := rc ksi in
    if nswap =? -1 then
      free p;;
      kvmfail L kd
    else
      total ← swap_at ksi maxswap (nswap - 1);
      pushswap L total;;
      lua_createtable L (nswap - 1) 0;;
      for_ (Z.to_nat (nswap - 1)) 0 (fun i =>
        swap ← swap_at ksi maxswap i;
        pushswap L swap;;
        lua_rawseti L (-2) (i + 1));;
      free p;;
      mret 2.

Definition l_kvm_getswapinfo_clearcache (L : nat) : prog Z :=
  call "kvm_getswapinfo" [AZ 0; AZ 0; AZ 0; AZ 0];;
  mret 0.

Definition l_kvm_native (L : nat) : prog Z :=
  kd ← checkcookie L 1 KVM_METATABLE;
  r ← call "kvm_native" [AZ kd];
  lua_pushboolean L (negb (rc r =? 0));;
  mret 1.

(** ** Symbols and memory *)

Definition sizeof_kvm_nlist : Z := cst "sizeof(struct kvm_nlist)".

Definition pushnlist (L : nat) (n_name : string) (n_type n_value : Z) : prog unit :=
  lua_newtable L;;
  str_field L "name" n_name;;
  int_field L "type" n_type;;
  int_field L "value" (to_long n_value).

(** the names; every string stays on the stack *)
Fixpoint nlist_names (L : nat) (nl : Z) (k : nat) (i : Z) : prog (list string) :=
  match k with
  | O => mret []
  | S k =>
      ty ← lua_geti L 2 (i + 1);
      if negb (is_type ty TSTRING) then
        free nl;;
        luaL_argerror L 2 "expected strings"
      else
        s ← lua_tolstring L (-1);
        rest ← nlist_names L nl k (i + 1);
        mret (cstr s :: rest)
  end.

(** the outs are type and value of every symbol *)
Fixpoint push_nlists (L : nat) (names : list string) (vs : list carg) : prog unit :=
  match names, vs with
  | name :: names, AZ n_type :: AZ n_value :: vs =>
      (if n_value =? 0 then mret tt
       else
         pushnlist L name n_type n_value;;
         k ← luaL_len L (-2);
         lua_rawseti L (-2) (k + 1));;
      push_nlists L names vs
  | _, _ => mret tt
  end.

Definition l_kvm_nlist2 (L : nat) : prog Z :=
  kd ← checkcookie L 1 KVM_METATABLE;
  luaL_checktype L 2 TTABLE;;
  n ← luaL_len L 2;
  let size := to_size ((n + 1) * sizeof_kvm_nlist) in
  nl ← calloc size (OBuf size "");
  if nl =? 0 then fatal L "calloc" (cst "ENOMEM")
  else
    names ← nlist_names L nl (Z.to_nat n) 0;
    ninvalid ← call "kvm_nlist2" (AZ kd :: (AS <$> (names : list string)));
    if rc ninvalid =? -1 then
      free nl;;
      kvmfail L kd
    else
      lua_createtable L n 0;;
      push_nlists L names (outs ninvalid);;
      free nl;;
      lua_pushinteger L (rc ninvalid);;
      mret 2.

Definition l_kvm_read2 (L : nat) : prog Z :=
  kd ← checkcookie L 1 KVM_METATABLE;
  addr ← luaL_checkinteger L 2;
  nbytes ← luaL_checkinteger L 3;
  luaL_buffinit L;;
  n ← call "kvm_read2" [AZ kd; AZ (to_size addr); AZ (to_size nbytes)];
  if rc n =? -1 then kvmfail L kd
  else
    prefix_of (out_str 0 n) (rc n) (fun s => luaL_pushresult L s);;
    mret 1.

Definition l_kvm_write (L : nat) : prog Z :=
  kd ← checkcookie L 1 KVM_METATABLE;
  addr ← luaL_checkinteger L 2;
  buf ← luaL_checklstring L 3;
  n ← call "kvm_write" [AZ kd; AZ (to_size addr); AS buf; AZ (Z.of_nat (String.length buf))];
  if rc n =? -1 then kvmfail L kd
  else
    lua_pushinteger L (rc n);;
    mret 1.

Definition l_kvm_kerndisp (L : nat) : prog Z :=
  kd ← checkcookie L 1 KVM_METATABLE;
  r ← call "kvm_kerndisp" [AZ kd];
  lua_pushinteger L (to_long (rc r));;
  mret 1.

(** ** Pages *)

(** the outs are the members *)
Definition pushpage (L : nat) (kp : cret) : prog unit :=
  lua_newtable L;;
  int_fields L kp 0 ["version"; "paddr"; "kmap_vaddr"; "dmap_vaddr"; "prot"; "offset"; "len"].

Definition walk_cb_wrapper (L : nat) (kp : cret) : prog (list carg) :=
  lua_pushvalue L (-1);;
  pushpage L kp;;
  ok ← lua_pcall1 L 1;
  more ← (if ok : bool then lua_toboolean L (-1) else mret false);
  lua_pop L 1;;
  mret [AZ (Z_of_bool more)].

Definition l_kvm_walk_pages (fuel : nat) (L : nat) : prog Z :=
  kd ← checkcookie L 1 KVM_METATABLE;
  luaL_checktype L 2 TFUNCTION;;
  luaL_checktype L 3 TNONE;;
  r ← call "kvm_walk_pages" [AZ kd];
  r ← converse fuel "kvm_walk_pages" (walk_cb_wrapper L) r;
  lua_pushboolean L (negb (out_int 0 r =? 0));;
  mret 1.

Definition l_kvm_funcs : list (string * string) :=
  [
   ("open2", "l_kvm_open2"); ("openfiles", "l_kvm_openfiles");
   ("getcptime_clearcache", "l_kvm_getcptime_clearcache");
   ("getswapinfo_clearcache", "l_kvm_getswapinfo_clearcache")].

Definition l_kvm_meta : list (string * string) :=
  [
   ("__close", "l_kvm_close"); ("__gc", "l_kvm_close"); ("close", "l_kvm_close");
   ("dpcpu_setcpu", "l_kvm_dpcpu_setcpu"); ("getmaxcpu", "l_kvm_getmaxcpu");
   ("getncpus", "l_kvm_getncpus"); ("getpcpu", "l_kvm_getpcpu"); ("read_zpcpu", "l_kvm_read_zpcpu");
   ("counter_u64_fetch", "l_kvm_counter_u64_fetch"); ("getcptime", "l_kvm_getcptime");
   ("getloadavg", "l_kvm_getloadavg"); ("getargv", "l_kvm_getargv"); ("getenvv", "l_kvm_getenvv");
   ("getswapinfo", "l_kvm_getswapinfo"); ("native", "l_kvm_native"); ("nlist2", "l_kvm_nlist2");
   ("read2", "l_kvm_read2"); ("write", "l_kvm_write"); ("kerndisp", "l_kvm_kerndisp");
   ("walk_pages", "l_kvm_walk_pages")].

Definition l_pcpu_meta : list (string * string) :=
  [
   ("__gc", "l_pcpu_gc"); ("__index", "l_pcpu_index")].

Definition l_kinfo_proc_meta : list (string * string) :=
  [
   ("__index", "l_kinfo_proc_index")].

Definition l_kinfo_procs_meta : list (string * string) :=
  [
   ("__index", "l_kinfo_procs_index"); ("__len", "l_kinfo_procs_len")].

Definition kvm_consts : list (string * Z) :=
  idents [
     "SWIF_DEV_PREFIX"; "LIBKVM_WALK_PAGES_VERSION"].

(** [luaL_newmetatable] and [luaL_setfuncs] *)
Definition index_type (L : nat) (metatable : string) (meta : list (string * string)) : prog unit :=
  luaL_newmetatable L metatable;;
  luaL_setfuncs L meta.

Definition luaopen_kvm (L : nat) : prog Z :=
  luaL_newmetatable L KVM_METATABLE;;
  lua_pushvalue L (-1);;
  lua_setfield L (-2) "__index";;
  luaL_setfuncs L l_kvm_meta;;
  index_type L PCPU_METATABLE l_pcpu_meta;;
  index_type L KINFO_PROC_METATABLE l_kinfo_proc_meta;;
  index_type L KINFO_PROCS_METATABLE l_kinfo_procs_meta;;
  luaL_newlib L l_kvm_funcs;;
  define_all L kvm_consts;;
  mret 1.
End kvm.
