(* ===== verification/Ifconfig.v ===== *)
(** * lua_ifconfig.c: network interfaces

    A handle is a userdata with the pointer of libifconfig, NULL once closed; an interface
    address is a userdata with a pointer into the list libifconfig iterates over.  Flags are
    arrays of names, found in the "%b" strings of the kernel ([push_flags_array],
    [pop_flags_array]).  The names of the system's headers that are arrays of strings are
    [harr]. *)

From Stdlib Require Import Ascii SpecFloat.
From S2P Require Import Prelude LuaApi Machine Capi Utils Modules Cmem Wrapper Foreign Net.

(** arrays of strings in the headers of the system *)
Class HeaderArrays := harr : string -> list string.

Section ifconfig.
Context `{Consts} `{SConsts} `{HeaderArrays}.

Definition IFCONFIG_HANDLE_META : string := "ifconfig_handle_t".
Definition STRUCT_IFADDRS_META : string := "struct ifaddrs *".
Definition SFP_DUMP_META : string := "struct ifconfig_sfp_dump".

(** [#if __FreeBSD_version > v] *)
Definition newer (v : Z) : bool := v <? cst "__FreeBSD_version".
Definition if_newer (v : Z) (p : prog unit) : prog unit := if newer v then p else mret tt.

(** ** Flags *)

(** a "%b" string: the base, then every name with the number of its bit in front *)
Fixpoint bit_names (l : list (Z * string)) : string :=
  match l with
  | [] => EmptyString
  | (i, name) :: l => String (ascii_of_nat (Z.to_nat i)) (name +:+ bit_names l)
  end.
Definition bits (base : Z) (l : list (Z * string)) : string := String (ascii_of_nat (Z.to_nat base)) (bit_names l).

Definition IFFBITS : string :=
  bits 16 [
   (1, "UP"); (2, "BROADCAST"); (3, "DEBUG"); (4, "LOOPBACK"); (5, "POINTOPOINT"); (7, "RUNNING");
   (8, "NOARP"); (9, "PROMISC"); (10, "ALLMULTI"); (11, "OACTIVE"); (12, "SIMPLEX"); (13, "LINK0");
   (14, "LINK1"); (15, "LINK2"); (16, "MULTICAST"); (18, "PPROMISC"); (19, "MONITOR"); (20, "STATICARP")].

Definition IFCAP_NAMES : list (Z * string) := [
   (1, "RXCSUM"); (2, "TXCSUM"); (3, "NETCONS"); (4, "VLAN_MTU"); (5, "VLAN_HWTAGGING"); (6, "JUMBO_MTU");
   (7, "POLLING"); (8, "VLAN_HWCSUM"); (9, "TSO4"); (10, "TSO6"); (11, "LRO"); (12, "WOL_UCAST");
   (13, "WOL_MCAST"); (14, "WOL_MAGIC"); (15, "TOE4"); (16, "TOE6"); (17, "VLAN_HWFILTER");
   (19, "VLAN_HWTSO"); (20, "LINKSTATE"); (21, "NETMAP"); (22, "RXCSUM_IPV6"); (23, "TXCSUM_IPV6");
   (25, "TXRTLMT"); (26, "HWRXTSTMP"); (27, "NOMAP"); (28, "TXTLS4"); (29, "TXTLS6")].

Definition IFCAPBITS : string := bits 16 IFCAP_NAMES.

Definition IN6BITS : string :=
  bits 16 [
   (1, "anycast"); (2, "tenative"); (3, "duplicated"); (4, "detached"); (5, "deprecated"); (7, "nodad");
   (8, "autoconf"); (9, "temporary"); (10, "prefer_source")].

Definition ND6BITS : string :=
  bits 16 [
   (1, "nud"); (2, "accept_rtadv"); (3, "prefer_source"); (4, "ifdisabled"); (5, "dont_set_ifroute");
   (6, "auto_linklocal"); (7, "no_radr"); (8, "no_prefer_iface"); (9, "no_dad"); (10, "ipv6_only");
   (11, "ipv6_only")].

Definition LAGGHASHBITS : string :=
  bits 16 [
   (1, "l2"); (2, "l3"); (3, "l4")].

(** [for (len = 0; bits[len] > 32; ++len);]: the name at the start, and what follows *)
Fixpoint span_name (s : string) : string * string :=
  match s with
  | EmptyString => (EmptyString, EmptyString)
  | String c s' =>
      if 32 <? to_char (Z.of_nat (nat_of_ascii c)) then
        let '(name, rest) := span_name s' in (String c name, rest)
      else (EmptyString, s)
  end.

(** [1 << (i - 1)] *)
Definition flag_bit (i : Z) : prog Z :=
  if (1 <=? i) && (i <=? 32) then mret (Z.shiftl 1 (i - 1)) else undefined "shift count out of range".

(** every round takes the number of a bit off [s] *)
Fixpoint push_flags_loop (n : nat) (L : nat) (v : Z) (s : string) : prog unit :=
  match n, s with
  | S n, String c s =>
      let i := to_char (Z.of_nat (nat_of_ascii c)) in
      bit ← flag_bit i;
      let '(name, rest) := span_name s in
      (if negb (Z.land v bit =? 0) then
         lua_pushlstring L name;;
         lua_rawseti L (-2) i
       else mret tt);;
      push_flags_loop n L v rest
  | _, _ => mret tt
  end.

Definition skip_base (s : string) : string := match s with String _ s => s | EmptyString => EmptyString end.

Definition push_flags_array (L : nat) (v : Z) (bits : string) : prog unit :=
  lua_newtable L;;
  push_flags_loop (String.length bits) L v (skip_base bits).

(** the inner loop: the number of the first name that [flag] starts with ([strncmp]) *)
Fixpoint find_flag (n : nat) (flag s : string) : option Z :=
  match n, s with
  | S n, String c s =>
      let '(name, rest) := span_name s in
      if String.prefix name flag then Some (to_char (Z.of_nat (nat_of_ascii c))) else find_flag n flag rest
  | _, _ => None
  end.

(** [fuel] bounds the entries of the table *)
Fixpoint pop_flags_loop (fuel : nat) (L : nat) (index : Z) (flags : string) (v : Z) : prog Z :=
  match fuel with
  | O => halts (EHalt Diverge)
  | S fuel =>
      more ← lua_next L index;
      if more : bool then
        luaL_checkstring L (index + 2);;
        flag ← lua_tostring L (index + 2);
        lua_pop L 1;;
        v ← match find_flag (String.length flags) flag flags with
            | Some i => bit ← flag_bit i; mret (to_int (Z.lor v bit))
            | None => mret v
            end;
        pop_flags_loop fuel L index flags v
      else mret v
  end.

Definition pop_flags_array (fuel : nat) (L : nat) (index : Z) (bits : string) : prog Z :=
  lua_pushnil L;;
  pop_flags_loop fuel L index (skip_base bits) 0.

(** ** Media *)

(** a field with a string that may be NULL *)
Definition opt_str_field (L : nat) (name : string) (r : cret) : prog unit :=
  if rc r =? 0 then mret tt else str_field L name (out_str 0 r).

(** [lua_rawseti(L, -2, i)] for i = [i], ... *)
Fixpoint push_strings_from (L : nat) (v : list carg) (i : Z) : prog unit :=
  match v with
  | AS s :: v =>
      lua_pushstring L s;;
      lua_rawseti L (-2) i;;
      push_strings_from L v (i + 1)
  | _ => mret tt
  end.

Definition push_media_info (L : nat) (media : Z) : prog unit :=
  lua_newtable L;;
  name ← call "ifconfig_media_get_type" [AZ media];
  opt_str_field L "type" name;;
  name ← call "ifconfig_media_get_subtype" [AZ media];
  opt_str_field L "subtype" name;;
  name ← call "ifconfig_media_get_mode" [AZ media];
  opt_str_field L "mode" name;;
  lua_newtable L;;
  opts ← call "ifconfig_media_get_options" [AZ media];
  (if rc opts =? 0 then mret tt
   else
     push_strings_from L (outs opts) 0;;
     free (rc opts));;
  lua_setfield L (-2) "options".

(** ** Addresses *)

(** [inet_ntop], [inet_ntoa_r] and the like: a string made of an address *)
Definition addr_string (f : string) (args : list carg) : prog string :=
  r ← call f args;
  mret (out_str 0 r).

Definition addr_field (L : nat) (key f : string) (args : list carg) : prog unit :=
  s ← addr_string f args;
  str_field L key s.

(** the outs: the pointers sin, dst, netmask and broadcast, and vhid *)
Definition push_inet4_addrinfo (L : nat) (h ifa : Z) : prog unit :=
  name ← member_str ifa "ifa_name";
  addr ← call "ifconfig_inet_get_addrinfo" [AZ h; AS name; AZ ifa];
  if negb (rc addr =? 0) then lua_pushnil L
  else
    lua_newtable L;;
    deref (out_int 0 addr) (addr_field L "inet" "inet_ntop" [AZ (cst "AF_INET"); AZ (out_int 0 addr)]);;
    (if out_int 1 addr =? 0 then mret tt else addr_field L "destination" "inet_ntoa_r" [AZ (out_int 1 addr)]);;
    deref (out_int 2 addr) (addr_field L "netmask" "inet_ntoa_r" [AZ (out_int 2 addr)]);;
    (if out_int 3 addr =? 0 then mret tt else addr_field L "broadcast" "inet_ntoa_r" [AZ (out_int 3 addr)]);;
    (if out_int 4 addr =? 0 then mret tt else int_field L "vhid" (out_int 4 addr)).

(** [MAX(0l, t - now.tv_sec)] *)
Definition remaining (t now : Z) : Z := Z.max 0 (to_long (t - now)).

(** the outs: the pointers sin6 and dstin6, prefixlen, flags, ia6t_preferred, ia6t_expire, vhid *)
Definition push_inet6_addrinfo (L : nat) (h ifa : Z) : prog unit :=
  name ← member_str ifa "ifa_name";
  addr ← call "ifconfig_inet6_get_addrinfo" [AZ h; AS name; AZ ifa];
  if negb (rc addr =? 0) then lua_pushnil L
  else
    lua_newtable L;;
    let sin6 := out_int 0 addr in
    deref sin6 (
      r ← call "getnameinfo" [AZ sin6; AZ (cst "NI_NUMERICHOST")];
      s ← (if negb (rc r =? 0) then addr_string "inet_ntop" [AZ (cst "AF_INET6"); AZ sin6] else mret (out_str 0 r));
      str_field L "inet6" s);;
    (if out_int 1 addr =? 0 then mret tt
     else addr_field L "destination" "inet_ntop" [AZ (cst "AF_INET6"); AZ (out_int 1 addr)]);;
    int_field L "prefixlen" (out_int 2 addr);;
    scope ← member_int sin6 "sin6_scope_id";
    (if scope =? 0 then mret tt else int_field L "scopeid" scope);;
    push_flags_array L (to_uint (out_int 3 addr)) IN6BITS;;
    lua_setfield L (-2) "flags";;
    now ← call "clock_gettime" [AZ (cst "CLOCK_MONOTONIC_FAST")];
    (if negb (out_int 4 addr =? 0) || negb (out_int 5 addr =? 0) then
       int_field L "preferred_lifetime" (remaining (out_int 4 addr) (out_int 0 now));;
       int_field L "valid_lifetime" (remaining (out_int 5 addr) (out_int 0 now))
     else mret tt);;
    (if out_int 6 addr =? 0 then mret tt else int_field L "vhid" (out_int 6 addr)).

(** the string from its character [n] on *)
Definition string_from (s : string) (n : Z) : prog string :=
  if (0 <=? n) && (n <=? Z.of_nat (String.length s)) then
    mret (String.substring (Z.to_nat n) (String.length s - Z.to_nat n) s)
  else undefined "access outside of an object".

Definition push_link_addrinfo (L : nat) (ifa : Z) : prog unit :=
  dl ← member_int ifa "ifa_addr";
  alen ← (if dl =? 0 then mret 0 else member_int dl "sdl_alen");
  if alen <=? 0 then lua_pushnil L
  else
    lua_newtable L;;
    type ← member_int dl "sdl_type";
    if (type =? cst "IFT_ETHER") || (type =? cst "IFT_L2VLAN") || (type =? cst "IFT_BRIDGE") then
      if negb (alen =? cst "ETHER_ADDR_LEN") then mret tt
      else addr_field L "ether" "ether_ntoa_r" [AZ dl]
    else
      nlen ← member_int dl "sdl_nlen";
      let n := if 0 <? nlen then nlen + 1 else 0 in
      s ← addr_string "link_ntoa" [AZ dl];
      s ← string_from s n;
      str_field L "lladdr" s.

Definition push_local_addrinfo (L : nat) (ifa : Z) : prog unit :=
  lua_newtable L;;
  un ← member_int ifa "ifa_addr";
  path ← deref un (member_str un "sun_path");
  (if String.eqb (cstr path) "" then lua_pushstring L "-" else lua_pushstring L path);;
  lua_setfield L (-2) "path".

(** ** SFP channels *)

Definition num_field (L : nat) (name f : string) (v : Z) : prog unit :=
  r ← call f [AZ v];
  lua_pushnumber L (out_num 0 r);;
  lua_setfield L (-2) name.

Definition push_channel_power (L : nat) (power : Z) : prog unit :=
  lua_newtable L;;
  int_field L "value" power;;
  num_field L "mW" "power_mW" power;;
  num_field L "dBm" "power_dBm" power.

Definition push_channel_bias (L : nat) (bias : Z) : prog unit :=
  lua_newtable L;;
  int_field L "raw" bias;;
  num_field L "mA" "bias_mA" bias.

(** ** Handles *)

(** [assert(hp != NULL)]: [luaL_checkudata] never returns NULL for a userdata *)
Definition l_ifconfig_checkhandle (L : nat) (index : Z) : prog Z :=
  hp ← luaL_checkudata L index IFCONFIG_HANDLE_META;
  assert_ (negb (hp =? 0)) "hp != NULL";;
  h ← arr_load hp 0;
  luaL_argcheck L (negb (h =? 0)) index "invalid ifconfig handle";;
  mret h.

Definition l_ifconfig_checkifaddrs (L : nat) (index : Z) : prog Z :=
  ifap ← luaL_checkudata L index STRUCT_IFADDRS_META;
  assert_ (negb (ifap =? 0)) "ifap != NULL";;
  ifa ← arr_load ifap 0;
  luaL_argcheck L (negb (ifa =? 0)) index "invalid ifaddr";;
  mret ifa.

(** the out is the address *)
Definition foreach_cb (L : nat) (ifa : cret) : prog (list carg) :=
  lua_pushvalue L 1;;
  lua_pushvalue L 2;;
  lua_insert L 3;;
  lua_insert L 4;;
  ifap ← lua_newuserdatauv L sizeof_ptr (OArr [None]) 0;
  luaL_setmetatable L STRUCT_IFADDRS_META;;
  load ifap (arr_set 0 (AZ (out_int 0 ifa)));;
  lua_insert L 5;;
  lua_call1 L 3;;
  mret [].

Definition l_ifconfig_handle_close (L : nat) : prog Z :=
  hp ← luaL_checkudata L 1 IFCONFIG_HANDLE_META;
  assert_ (negb (hp =? 0)) "hp != NULL";;
  h ← arr_load hp 0;
  (if h =? 0 then mret tt
   else
     call "ifconfig_close" [AZ h];;
     load hp (arr_set 0 (AZ 0)));;
  mret 0.

Definition l_ifconfig_handle_error (L : nat) : prog Z :=
  h ← l_ifconfig_checkhandle L 1;
  errtype ← call "ifconfig_err_errtype" [AZ h];
  if rc errtype =? cst "OK" then
    lua_pushnil L;;
    mret 1
  else
    lua_pushstring L
      (if rc errtype =? cst "OTHER" then "OTHER"
       else if rc errtype =? cst "IOCTL" then "IOCTL"
       else if rc errtype =? cst "SOCKET" then "SOCKET"
       else "<unknown>");;
    r ← call "ifconfig_err_errno" [AZ h];
    lua_pushinteger L (rc r);;
    if rc errtype =? cst "IOCTL" then
      req ← call "ifconfig_err_ioctlreq" [AZ h];
      r ← call "sysdecode_ioctlname" [AZ (to_size (rc req))];
      push_ret_string L r;;
      mret 3
    else mret 2.

(** the arguments: [maxargs] of them, with nil for the last or without the others *)
Definition exact_args (L : nat) (maxargs : Z) : prog unit :=
  n ← lua_gettop L;
  if n =? maxargs - 1 then lua_pushnil L
  else if maxargs <? n then lua_pop L (n - maxargs)
  else mret tt.

Definition l_ifconfig_foreach_iface (fuel : nat) (L : nat) : prog Z :=
  h ← l_ifconfig_checkhandle L 1;
  luaL_checktype L 2 TFUNCTION;;
  exact_args L 3;;
  r ← call "ifconfig_foreach_iface" [AZ h];
  r ← converse fuel "ifconfig_foreach_iface" (foreach_cb L) r;
  if negb (out_int 0 r =? 0) then luaL_error L "iteration failed"
  else mret 1.

Definition l_ifconfig_foreach_ifaddr (fuel : nat) (L : nat) : prog Z :=
  h ← l_ifconfig_checkhandle L 1;
  ifa ← l_ifconfig_checkifaddrs L 2;
  luaL_checktype L 3 TFUNCTION;;
  exact_args L 4;;
  lua_remove L 2;;
  r ← call "ifconfig_foreach_ifaddr" [AZ h; AZ ifa];
  converse fuel "ifconfig_foreach_ifaddr" (foreach_cb L) r;;
  mret 1.

(** ** Functions of a handle and a name *)

(** the common start *)
Definition named (L : nat) (k : Z -> string -> prog Z) : prog Z :=
  h ← l_ifconfig_checkhandle L 1;
  name ← luaL_checkstring L 2;
  k h name.

(** true, or false for an error *)
Definition done_or_false (L : nat) (r : cret) : prog Z :=
  lua_pushboolean L (rc r =? 0);;
  mret 1.

(** nil for an error *)
Definition or_nil (L : nat) (r : cret) (push : prog unit) : prog Z :=
  (if negb (rc r =? 0) then lua_pushnil L else push);;
  mret 1.

Definition l_ifconfig_get_description (L : nat) : prog Z :=
  named L (fun h name =>
    desc ← call "ifconfig_get_description" [AZ h; AS name];
    or_nil L desc (lua_pushstring L (out_str 0 desc))).

Definition l_ifconfig_set_description (L : nat) : prog Z :=
  named L (fun h name =>
    desc ← luaL_checkstring L 3;
    r ← call "ifconfig_set_description" [AZ h; AS name; AS desc];
    done_or_false L r).

Definition l_ifconfig_unset_description (L : nat) : prog Z :=
  named L (fun h name =>
    r ← call "ifconfig_unset_description" [AZ h; AS name];
    done_or_false L r).

Definition l_ifconfig_set_name (L : nat) : prog Z :=
  named L (fun h name =>
    newname ← luaL_checkstring L 3;
    r ← call "ifconfig_set_name" [AZ h; AS name; AS newname];
    done_or_false L r).

Definition l_ifconfig_get_orig_name (L : nat) : prog Z :=
  named L (fun h name =>
    orig_name ← call "ifconfig_get_orig_name" [AZ h; AS name];
    or_nil L orig_name (lua_pushstring L (out_str 0 orig_name))).

Definition l_ifconfig_get_fib (L : nat) : prog Z :=
  named L (fun h name =>
    fib ← call "ifconfig_get_fib" [AZ h; AS name];
    or_nil L fib (lua_pushinteger L (out_int 0 fib))).

Definition INT_MIN : Z := - 2 ^ 31.
Definition INT_MAX : Z := 2 ^ 31 - 1.

Definition l_ifconfig_set_mtu (L : nat) : prog Z :=
  named L (fun h name =>
    mtu ← luaL_checkinteger L 3;
    luaL_argcheck L ((INT_MIN <=? mtu) && (mtu <=? INT_MAX)) 3 "mtu out of range";;
    r ← call "ifconfig_set_mtu" [AZ h; AS name; AZ mtu];
    done_or_false L r).

Definition l_ifconfig_get_mtu (L : nat) : prog Z :=
  named L (fun h name =>
    mtu ← call "ifconfig_get_mtu" [AZ h; AS name];
    or_nil L mtu (lua_pushinteger L (out_int 0 mtu))).

Definition l_ifconfig_get_nd6 (L : nat) : prog Z :=
  named L (fun h name =>
    nd ← call "ifconfig_get_nd6" [AZ h; AS name];
    or_nil L nd (push_flags_array L (to_uint (out_int 0 nd)) ND6BITS)).

(** the condition is the one for the range outside *)
Definition l_ifconfig_set_metric (L : nat) : prog Z :=
  named L (fun h name =>
    metric ← luaL_checkinteger L 3;
    luaL_argcheck L ((INT_MAX <? metric) || (metric <? INT_MIN)) 3 "metric out of range";;
    r ← call "ifconfig_set_metric" [AZ h; AS name; AZ (to_int metric)];
    done_or_false L r).

Definition l_ifconfig_get_metric (L : nat) : prog Z :=
  named L (fun h name =>
    metric ← call "ifconfig_get_metric" [AZ h; AS name];
    or_nil L metric (lua_pushinteger L (out_int 0 metric))).

Definition l_ifconfig_set_capabilities (fuel : nat) (L : nat) : prog Z :=
  named L (fun h name =>
    luaL_checktype L 3 TTABLE;;
    capability ← pop_flags_array fuel L 3 IFCAPBITS;
    r ← call "ifconfig_set_capability" [AZ h; AS name; AZ capability];
    done_or_false L r).

(** the outs: curcap and reqcap; the table is at index 3 *)
Definition l_ifconfig_get_capabilities (L : nat) : prog Z :=
  named L (fun h name =>
    capability ← call "ifconfig_get_capability" [AZ h; AS name];
    or_nil L capability (
      lua_newtable L;;
      lua_pushstring L "enabled";;
      push_flags_array L (to_uint (out_int 0 capability)) IFCAPBITS;;
      lua_rawset L 3;;
      lua_pushstring L "supported";;
      push_flags_array L (to_uint (out_int 1 capability)) IFCAPBITS;;
      lua_rawset L 3)).

(** [lua_rawseti(L, i, lua_rawlen(L, i) + 1)]: [luaL_len] is [lua_rawlen], as the table has
    no metatable *)
Definition append_at (L : nat) (i : Z) : prog unit :=
  n ← luaL_len L i;
  lua_rawseti L i (n + 1).

Fixpoint push_groups (L : nat) (groups : list carg) : prog unit :=
  match groups with
  | AS group :: groups =>
      (if String.eqb (cstr group) "all" then mret tt
       else
         lua_pushstring L group;;
         append_at L 3);;
      push_groups L groups
  | _ => mret tt
  end.

Definition l_ifconfig_get_groups (L : nat) : prog Z :=
  named L (fun h name =>
    ifgr ← call "ifconfig_get_groups" [AZ h; AS name];
    or_nil L ifgr (
      lua_newtable L;;
      push_groups L (outs ifgr))).

Definition l_ifconfig_get_status (L : nat) : prog Z :=
  named L (fun h name =>
    status ← call "ifconfig_get_ifstatus" [AZ h; AS name];
    or_nil L status (lua_pushstring L (out_str 0 status))).

(** the outs of [get_mediareq]: the request; of [get_downreason]: the reason, the message,
    the vendor *)
Definition push_media (L : nat) (h : Z) (name : string) (ifmr : Z) : prog unit :=
  lua_newtable L;;
  current ← member_int ifmr "ifm_current";
  push_media_info L current;;
  lua_setfield L 3 "current";;
  active ← member_int ifmr "ifm_active";
  push_media_info L active;;
  lua_setfield L 3 "active";;
  lua_newtable L;;
  count ← member_int ifmr "ifm_count";
  for_ (Z.to_nat count) 0 (fun i =>
    media ← element_int ifmr "ifm_ulist" i;
    push_media_info L media;;
    append_at L 4);;
  lua_setfield L 3 "supported";;
  status ← call "ifconfig_media_get_status" [AZ ifmr];
  lua_pushstring L (out_str 0 status);;
  lua_setfield L 3 "status";;
  (if String.eqb (cstr (out_str 0 status)) "no carrier" then
     ifdr ← call "ifconfig_media_get_downreason" [AZ h; AS name];
     if negb (rc ifdr =? 0) then mret tt
     else if out_int 0 ifdr =? cst "IFDR_REASON_MSG" then
       lua_pushstring L (out_str 1 ifdr);;
       lua_setfield L 3 "down_reason"
     else if out_int 0 ifdr =? cst "IFDR_REASON_VENDOR" then
       lua_pushinteger L (out_int 2 ifdr);;
       lua_setfield L 3 "down_reason"
     else mret tt
   else mret tt);;
  free ifmr.

Definition l_ifconfig_get_media (L : nat) : prog Z :=
  named L (fun h name =>
    ifmr ← call "ifconfig_media_get_mediareq" [AZ h; AS name];
    or_nil L ifmr (push_media L h name (out_int 0 ifmr))).

(** ** CARP *)

(** the members of [struct ifconfig_carp] among the outs: count, state, vhid, advbase,
    advskew, key, addr, addr6, version, vrrp_prio, vrrp_adv_inter *)
Definition carp_members : nat := 11.

(** an element of an array of strings *)
Definition array_at (l : list string) (i : Z) : prog string :=
  match (if i <? 0 then None else l !! Z.to_nat i) with
  | Some s => mret s
  | None => undefined "access outside of an object"
  end.

Definition push_inet4_addr (L : nat) (addr : string) : prog unit :=
  s ← addr_string "inet_ntop" [AZ (cst "AF_INET"); AS addr];
  lua_pushstring L s.

Definition push_inet6_addr (L : nat) (addr : string) : prog unit :=
  s ← addr_string "inet_ntop" [AZ (cst "AF_INET6"); AS addr];
  lua_pushstring L s.

Definition push_carp (L : nat) (carpr : cret) : prog unit :=
  lua_newtable L;;
  state ← array_at (harr "CARP_STATES") (out_int 1 carpr);
  str_field L "state" state;;
  int_fields L carpr 2 ["vhid"; "advbase"; "advskew"];;
  if_newer 1400083 (
    lua_pushlstring L (out_str 5 carpr);;
    lua_setfield L (-2) "key";;
    push_inet4_addr L (out_str 6 carpr);;
    lua_setfield L (-2) "addr";;
    push_inet6_addr L (out_str 7 carpr);;
    lua_setfield L (-2) "addr6");;
  if_newer 1500018 (int_fields L carpr 8 ["version"; "vrrp_prio"; "vrrp_adv_inter"]).

(** element [i] of the array of CARP_MAXVHID structures, of which the call wrote some *)
Definition carp_at (carpr : cret) (i : Z) : prog cret :=
  if (0 <=? i) && (i <? cst "CARP_MAXVHID") then
    match drop (carp_members * Z.to_nat i) (outs carpr) with
    | [] => halts (EHalt (Unspec "the contents of uninitialised memory"))
    | l => mret (Cret 0 (take carp_members l))
    end
  else undefined "access outside of an object".

Definition l_ifconfig_get_carp (L : nat) : prog Z :=
  named L (fun h name =>
    carpr ← call "ifconfig_carp_get_info" [AZ h; AS name; AZ (cst "CARP_MAXVHID")];
    or_nil L carpr (
      lua_newtable L;;
      first ← carp_at carpr 0;
      for_ (Z.to_nat (out_int 0 first)) 0 (fun i =>
        c ← carp_at carpr i;
        push_carp L c;;
        append_at L 3))).

(** in no table *)
Definition l_ifconfig_get_carp_vhid (L : nat) : prog Z :=
  named L (fun h name =>
    vhid ← luaL_checkinteger L 3;
    carpr ← call "ifconfig_carp_get_vhid" [AZ h; AS name; AZ (to_uint vhid)];
    or_nil L carpr (push_carp L carpr)).

(** a member of the table at 3 *)
Definition carp_int (L : nat) (key : string) : prog Z :=
  lua_getfield L 3 key;;
  v ← lua_tointeger L (-1);
  lua_pop L 1;;
  mret v.

Fixpoint index_of (s : string) (l : list string) (i : Z) : option Z :=
  match l with
  | [] => None
  | x :: l => if String.eqb s x then Some i else index_of s l (i + 1)
  end.

(** in no table; [getaddrinfo] is compared with 1, and the list it allocates is kept *)
Definition l_ifconfig_set_carp_info (L : nat) : prog Z :=
  named L (fun h name =>
    luaL_checktype L 3 TTABLE;;
    vhid ← carp_int L "vhid";
    lua_getfield L 3 "state";;
    state ← opt_tostring L (-1);
    state ← match state with
            | None => luaL_error L "invalid state"
            | Some s => match index_of s (harr "CARP_STATES") 0 with
                        | Some i => mret i
                        | None => luaL_error L ("unknown state " +:+ s)
                        end
            end;
    lua_pop L 1;;
    advbase ← carp_int L "advbase";
    advskew ← carp_int L "advskew";
    lua_getfield L 3 "key";;
    key ← (lua_tolstring_null L (-1) : prog (option string));
    key ← match key with
          | Some k => if Z.of_nat (String.length k) =? cst "CARP_KEY_LEN" then mret k else luaL_error L "invalid key"
          | None => luaL_error L "invalid key"
          end;
    lua_pop L 1;;
    lua_getfield L 3 "addr";;
    addr ← opt_tostring L (-1);
    addr ← match addr with
           | Some a => r ← call "inet_addr" [AS a]; mret (rc r)
           | None => luaL_error L "invalid addr"
           end;
    lua_pop L 1;;
    lua_getfield L 3 "addr6";;
    addr6 ← opt_tostring L (-1);
    addr6 ← match addr6 with
            | Some a =>
                res ← call "getaddrinfo" [AS a; AZ (cst "AF_INET6"); AZ (cst "AI_NUMERICHOST")];
                if rc res =? 1 then luaL_error L "invalid addr6"
                else if negb (rc res =? 0) then halts (EHalt (Unspec "the contents of uninitialised memory"))
                else member_str (out_int 0 res) "ai_addr->sin6_addr"
            | None => luaL_error L "invalid addr6"
            end;
    lua_pop L 1;;
    vrrp ← (if newer 1500018 then
              version ← carp_int L "version";
              prio ← carp_int L "vrrp_prio";
              adv ← carp_int L "vrrp_adv_inter";
              mret [AZ (to_uchar version); AZ (to_uchar prio); AZ (to_ushort adv)]
            else mret []);
    r ← call "ifconfig_carp_set_info"
      ([AZ h; AS name; AZ (to_int vhid); AZ (state : Z); AZ (to_int advbase); AZ (to_int advskew); AS (key : string);
        AZ (addr : Z); AS (addr6 : string)] ++ vrrp);
    done_or_false L r).

(** ** Addresses, bridges, aggregations *)

Definition l_ifconfig_addr_info (L : nat) : prog Z :=
  h ← l_ifconfig_checkhandle L 1;
  ifa ← l_ifconfig_checkifaddrs L 2;
  addr ← member_int ifa "ifa_addr";
  family ← deref addr (member_int addr "sa_family");
  (if family =? cst "AF_INET" then push_inet4_addrinfo L h ifa
   else if family =? cst "AF_INET6" then push_inet6_addrinfo L h ifa
   else if family =? cst "AF_LINK" then push_link_addrinfo L ifa
   else if family =? cst "AF_LOCAL" then push_local_addrinfo L ifa
   else lua_pushnil L);;
  mret 1.

(** a name of the array, or the number *)
Definition name_or_number (L : nat) (l : list string) (v : Z) : prog unit :=
  match l !! Z.to_nat v with
  | Some s => lua_pushstring L s
  | None => lua_pushinteger L v
  end.

Definition named_field (L : nat) (key arr : string) (p : Z) (m : string) : prog unit :=
  v ← member_int p m;
  name_or_number L (harr arr) v;;
  lua_setfield L (-2) key.

(** a member with another name *)
Definition member_as (L : nat) (key : string) (p : Z) (m : string) : prog unit :=
  v ← member_int p m;
  int_field L key v.

(** [PV2ID] and [ether_ntoa_r]: the priority is the result *)
Definition id_field (L : nat) (key : string) (p : Z) (m : string) : prog Z :=
  pv ← member_int p m;
  r ← call "PV2ID" [AZ pv];
  addr_field L key "ether_ntoa_r" [AS (out_str 1 r)];;
  mret (out_int 0 r).

(** element [i] of an array: its address *)
Definition element_at (p : Z) (m : string) (i : Z) : prog Z := element_int p ("&" +:+ m) i.

Fixpoint set_bits (L : nat) (l : list carg) : prog unit :=
  match l with
  | AZ bit :: l =>
      lua_pushboolean L true;;
      lua_rawseti L (-2) bit;;
      set_bits L l
  | _ => mret tt
  end.

Definition push_bridge_member (L : nat) (bridge i : Z) : prog unit :=
  member ← element_at bridge "members" i;
  lua_newtable L;;
  flags ← member_int member "ifbr_ifsflags";
  push_flags_array L (to_uint flags) (scst "IFBIFBITS");;
  lua_setfield L (-2) "flags";;
  member_as L "ifmaxaddr" member "ifbr_addrmax";;
  member_as L "port" member "ifbr_portno";;
  member_as L "priority" member "ifbr_priority";;
  member_as L "path_cost" member "ifbr_path_cost";;
  (if negb (Z.land flags (cst "IFBIF_STP") =? 0) then
     named_field L "protocol" "STP_PROTOS" member "ifbr_proto";;
     named_field L "role" "STP_ROLES" member "ifbr_role";;
     named_field L "state" "STP_STATES" member "ifbr_state"
   else mret tt);;
  if_newer 1500051 (
    vlans ← element_at bridge "member_vlans" i;
    count ← call "BIT_COUNT" [AZ (cst "BRVLAN_SETSIZE"); AZ vlans];
    lua_createtable L 0 (rc count);;
    r ← call "BIT_FOREACH_ISSET" [AZ (cst "BRVLAN_SETSIZE"); AZ vlans];
    set_bits L (outs r);;
    lua_setfield L (-2) "vlans");;
  name ← member_str member "ifbr_ifsname";
  lua_setfield L (-2) (cstr name).

Definition push_bridge (L : nat) (bridge : Z) : prog unit :=
  lua_newtable L;;
  member_as L "address_cache_size" bridge "cache_size";;
  member_as L "address_cache_lifetime" bridge "cache_lifetime";;
  params ← member_int bridge "params";
  member_as L "priority" params "ifbop_priority";;
  named_field L "protocol" "STP_PROTOS" params "ifbop_protocol";;
  member_as L "hello_time" params "ifbop_hellotime";;
  member_as L "forward_delay" params "ifbop_fwddelay";;
  member_as L "hold_count" params "ifbop_holdcount";;
  member_as L "max_age" params "ifbop_maxage";;
  id_field L "id" params "ifbop_bridgeid";;
  bprio ← id_field L "root_id" params "ifbop_designated_root";
  int_field L "root_priority" bprio;;
  member_as L "root_path_cost" params "ifbop_root_path_cost";;
  port ← member_int params "ifbop_root_port";
  int_field L "root_port" (Z.land port 4095);;
  lua_newtable L;;
  count ← member_int bridge "members_count";
  for_ (Z.to_nat count) 0 (push_bridge_member L bridge);;
  lua_setfield L (-2) "members";;
  if_newer 1500056 (
    flags ← member_int bridge "flags";
    push_flags_array L (to_uint flags) (scst "IFBRFBITS");;
    lua_setfield L (-2) "flags";;
    defpvid ← member_int bridge "defpvid";
    if defpvid =? 0 then mret tt else int_field L "default_pvid" defpvid);;
  call "ifconfig_bridge_free_bridge_status" [AZ bridge];;
  mret tt.

Definition l_ifconfig_get_bridge_status (L : nat) : prog Z :=
  named L (fun h name =>
    bridge ← call "ifconfig_bridge_get_bridge_status" [AZ h; AS name];
    or_nil L bridge (push_bridge L (out_int 0 bridge))).

(** [lagg_protos]: the names, and the number of each *)
Fixpoint proto_name (proto : Z) (l : list string) : string :=
  match l with
  | [] => "<unknown>"
  | name :: l => if proto =? cst ("lpr_proto " +:+ name) then name else proto_name proto l
  end.

Definition push_lagg_port (L : nat) (status proto i : Z) : prog unit :=
  lagg_port ← element_at status "ra->ra_port" i;
  lua_newtable L;;
  flags ← member_int lagg_port "rp_flags";
  push_flags_array L (to_uint flags) (scst "LAGG_PORT_BITS");;
  lua_setfield L (-2) "flags";;
  (if proto =? cst "LAGG_PROTO_LACP" then
     state ← member_int lagg_port "rp_lacpreq.actor_state";
     push_flags_array L (to_uint state) (scst "LACP_STATE_BITS");;
     lua_setfield L (-2) "lacp_state"
   else mret tt);;
  name ← member_str lagg_port "rp_portname";
  lua_setfield L (-2) (cstr name).

Definition push_lagg (L : nat) (status : Z) : prog unit :=
  lua_newtable L;;
  proto ← member_int status "ra->ra_proto";
  str_field L "laggproto" (proto_name proto (harr "LAGG_PROTOS"));;
  rf_flags ← member_int status "rf->rf_flags";
  push_flags_array L (to_uint (Z.land rf_flags (cst "LAGG_F_HASHMASK"))) LAGGHASHBITS;;
  lua_setfield L (-2) "lagghash";;
  lua_newtable L;;
  opts ← member_int status "ro->ro_opts";
  push_flags_array L (to_uint opts) (scst "LAGG_OPT_BITS");;
  lua_setfield L (-2) "flags";;
  member_as L "flowid_shift" status "ro->ro_flowid_shift";;
  (if proto =? cst "LAGG_PROTO_ROUNDROBIN" then member_as L "rr_limit" status "ro->ro_bkt" else mret tt);;
  lua_setfield L (-2) "options";;
  lua_newtable L;;
  member_as L "active" status "ro->ro_active";;
  member_as L "flapping" status "ro->ro_flapping";;
  lua_setfield L (-2) "stats";;
  lua_newtable L;;
  ports ← member_int status "ra->ra_ports";
  for_ (Z.to_nat ports) 0 (push_lagg_port L status proto);;
  lua_setfield L (-2) "ports";;
  call "ifconfig_lagg_free_lagg_status" [AZ status];;
  mret tt.

Definition l_ifconfig_get_lagg_status (L : nat) : prog Z :=
  named L (fun h name =>
    lagg_status ← call "ifconfig_lagg_get_lagg_status" [AZ h; AS name];
    or_nil L lagg_status (push_lagg L (out_int 0 lagg_status))).

Definition l_ifconfig_get_laggport_laggdev (L : nat) : prog Z :=
  named L (fun h name =>
    lagg_port ← call "ifconfig_lagg_get_laggport_status" [AZ h; AS name];
    or_nil L lagg_port (lua_pushstring L (out_str 0 lagg_port))).

(** ** Creating and destroying *)

Definition l_ifconfig_destroy (L : nat) : prog Z :=
  named L (fun h name =>
    r ← call "ifconfig_destroy_interface" [AZ h; AS name];
    done_or_false L r).

Definition l_ifconfig_create (L : nat) : prog Z :=
  named L (fun h name =>
    ifname ← call "ifconfig_create_interface" [AZ h; AS name];
    or_nil L ifname (lua_pushstring L (out_str 0 ifname))).

Definition UINT16_MAX : Z := 2 ^ 16 - 1.

Definition l_ifconfig_create_vlan (L : nat) : prog Z :=
  named L (fun h name =>
    vlandev ← luaL_checkstring L 3;
    vlantag ← luaL_checkinteger L 4;
    luaL_argcheck L ((0 <=? vlantag) && (vlantag <=? UINT16_MAX)) 4 "vlantag out of range";;
    ifname ← call "ifconfig_create_interface_vlan" [AZ h; AS name; AS vlandev; AZ vlantag];
    or_nil L ifname (lua_pushstring L (out_str 0 ifname))).

Definition l_ifconfig_set_vlantag (L : nat) : prog Z :=
  named L (fun h name =>
    vlandev ← luaL_checkstring L 3;
    vlantag ← luaL_checkinteger L 4;
    luaL_argcheck L ((0 <=? vlantag) && (vlantag <=? UINT16_MAX)) 4 "vlantag out of range";;
    r ← call "ifconfig_set_vlantag" [AZ h; AS name; AS vlandev; AZ vlantag];
    done_or_false L r).

(** the outs: the array, the number of names, and the names *)
Definition l_ifconfig_list_cloners (L : nat) : prog Z :=
  h ← l_ifconfig_checkhandle L 1;
  cloners ← call "ifconfig_list_cloners" [AZ h];
  or_nil L cloners (
    lua_newtable L;;
    push_strings_from L (take (Z.to_nat (out_int 1 cloners)) (drop 2 (outs cloners))) 0;;
    free (out_int 0 cloners)).

Definition l_ifconfig_set_up (L : nat) : prog Z :=
  named L (fun h name =>
    up ← lua_toboolean L 3;
    r ← call "ifconfig_set_up" [AZ h; AS name; AZ (Z_of_bool up)];
    done_or_false L r).

(** ** SFP modules *)

Definition sfp_enums : list string :=
  ["id"; "conn"; "eth_10g"; "eth"; "fc_len"; "cab_tech"; "fc_media"; "eth_1040g"; "eth_ext"; "rev"].

(** the values and their strings *)
Fixpoint push_sfp_enums (L : nat) (sfp strings : cret) (i : nat) (l : list string) : prog unit :=
  match l with
  | [] => mret tt
  | enu :: l =>
      (if out_int i sfp =? 0 then mret tt
       else
         lua_newtable L;;
         r ← call ("ifconfig_enum_sfp_" +:+ enu +:+ "_description") [];
         push_ret_string L r;;
         lua_setfield L (-2) "description";;
         str_field L "string" (out_str i strings);;
         int_field L "value" (out_int i sfp);;
         lua_setfield L (-2) ("sfp_" +:+ enu));;
      push_sfp_enums L sfp strings (S i) l
  end.

Definition l_ifconfig_get_sfp_info (L : nat) : prog Z :=
  named L (fun h name =>
    sfp ← call "ifconfig_sfp_get_sfp_info" [AZ h; AS name];
    or_nil L sfp (
      strings ← call "ifconfig_sfp_get_sfp_info_strings" (outs sfp);
      lua_newtable L;;
      push_sfp_enums L sfp strings 0 sfp_enums)).

Definition l_ifconfig_get_sfp_vendor_info (L : nat) : prog Z :=
  named L (fun h name =>
    vendor ← call "ifconfig_sfp_get_sfp_vendor_info" [AZ h; AS name];
    or_nil L vendor (
      lua_newtable L;;
      str_fields L vendor 0 ["name"; "part_number"; "serial_number"; "date"])).

(** the outs: temp, voltage and bitrate, then rx and tx of the channels *)
Definition push_channel (L : nat) (status : cret) (chan : Z) : prog unit :=
  lua_newtable L;;
  push_channel_power L (out_int (3 + 2 * Z.to_nat chan) status);;
  lua_setfield L (-2) "rx_power";;
  push_channel_bias L (out_int (4 + 2 * Z.to_nat chan) status);;
  lua_setfield L (-2) "tx_bias";;
  lua_rawseti L (-2) (chan + 1).

Definition push_sfp_status (L : nat) (status : cret) : prog unit :=
  lua_newtable L;;
  let temp := out_num 0 status in
  (if SFleb (integer_to_float (-40)) temp && SFleb temp (integer_to_float 125) then
     lua_pushnumber L temp;;
     lua_setfield L (-2) "temperature"
   else mret tt);;
  lua_pushnumber L (out_num 1 status);;
  lua_setfield L (-2) "voltage";;
  let bitrate := out_num 2 status in
  channels ← (if negb (SFeqb bitrate (integer_to_float 0)) then
                lua_pushnumber L bitrate;;
                lua_setfield L (-2) "bitrate";;
                mret 4
              else mret 1);
  lua_newtable L;;
  for_ (Z.to_nat channels) 0 (push_channel L status);;
  lua_setfield L (-2) "channels".

Definition l_ifconfig_get_sfp_status (L : nat) : prog Z :=
  named L (fun h name =>
    status ← call "ifconfig_sfp_get_sfp_status" [AZ h; AS name];
    or_nil L status (push_sfp_status L status)).

(** [data] of [struct ifconfig_sfp_dump] *)
Definition SFF_DUMP_SIZE : Z := cst "SFF_DUMP_SIZE".

Definition l_ifconfig_get_sfp_dump (L : nat) : prog Z :=
  h ← l_ifconfig_checkhandle L 1;
  luaL_checkstring L 2;;
  dump ← lua_newuserdatauv L SFF_DUMP_SIZE (OBuf SFF_DUMP_SIZE "") 0;
  luaL_setmetatable L SFP_DUMP_META;;
  name ← lua_tostring L 2;
  r ← call "ifconfig_sfp_get_sfp_dump" [AZ h; AS name; AZ dump];
  (if negb (rc r =? 0) then lua_pushnil L else mret tt);;
  mret 1.

Definition l_ifconfig_handle : list (string * string) :=
  [
   ("close", "l_ifconfig_handle_close"); ("error", "l_ifconfig_handle_error");
   ("foreach_iface", "l_ifconfig_foreach_iface"); ("foreach_ifaddr", "l_ifconfig_foreach_ifaddr");
   ("get_description", "l_ifconfig_get_description");
   ("set_description", "l_ifconfig_set_description");
   ("unset_description", "l_ifconfig_unset_description"); ("set_name", "l_ifconfig_set_name");
   ("get_orig_name", "l_ifconfig_get_orig_name")] ++
  [
   ("get_fib", "l_ifconfig_get_fib"); ("set_mtu", "l_ifconfig_set_mtu");
   ("get_mtu", "l_ifconfig_get_mtu"); ("get_nd6", "l_ifconfig_get_nd6");
   ("set_metric", "l_ifconfig_set_metric"); ("get_metric", "l_ifconfig_get_metric");
   ("set_capabilities", "l_ifconfig_set_capabilities");
   ("get_capabilities", "l_ifconfig_get_capabilities"); ("get_groups", "l_ifconfig_get_groups");
   ("get_status", "l_ifconfig_get_status"); ("get_media", "l_ifconfig_get_media");
   ("get_carp", "l_ifconfig_get_carp"); ("addr_info", "l_ifconfig_addr_info");
   ("get_bridge_status", "l_ifconfig_get_bridge_status");
   ("get_lagg_status", "l_ifconfig_get_lagg_status");
   ("get_laggport_laggdev", "l_ifconfig_get_laggport_laggdev"); ("destroy", "l_ifconfig_destroy");
   ("create", "l_ifconfig_create"); ("create_vlan", "l_ifconfig_create_vlan");
   ("set_vlantag", "l_ifconfig_set_vlantag"); ("list_cloners", "l_ifconfig_list_cloners")] ++
  (if 1500062 <? cst "__FreeBSD_version" then [
   ("set_up", "l_ifconfig_set_up")] else []) ++
  [
   ("get_sfp_info", "l_ifconfig_get_sfp_info");
   ("get_sfp_vendor_info", "l_ifconfig_get_sfp_vendor_info");
   ("get_sfp_status", "l_ifconfig_get_sfp_status"); ("get_sfp_dump", "l_ifconfig_get_sfp_dump")].

Definition l_ifconfig_handle_meta (L : nat) : prog unit :=
  luaL_newmetatable L IFCONFIG_HANDLE_META;;
  lua_pushvalue L (-1);;
  lua_setfield L (-2) "__index";;
  lua_pushcfunction L "l_ifconfig_handle_close";;
  lua_setfield L (-2) "__gc";;
  luaL_setfuncs L l_ifconfig_handle;;
  lua_pop L 1.

(** ** Interface addresses *)

Definition l_struct_ifaddrs_name (L : nat) : prog Z :=
  ifa ← l_ifconfig_checkifaddrs L 1;
  name ← member_str ifa "ifa_name";
  lua_pushstring L name;;
  mret 1.

Definition l_struct_ifaddrs_flags (L : nat) : prog Z :=
  ifa ← l_ifconfig_checkifaddrs L 1;
  flags ← member_int ifa "ifa_flags";
  push_flags_array L (to_uint flags) IFFBITS;;
  mret 1.

(** [pushaddr] of a member that is a pointer: the bytes are those of the address *)
Definition push_ifaddr (L : nat) (m : string) : prog Z :=
  ifa ← l_ifconfig_checkifaddrs L 1;
  addr ← member_int ifa m;
  pushaddr L (fun off n => deref addr (r ← call "->bytes" [AZ addr; AZ off; AZ n]; mret (out_str 0 r)));;
  mret 1.

Definition l_struct_ifaddrs_addr (L : nat) : prog Z := push_ifaddr L "ifa_addr".
Definition l_struct_ifaddrs_netmask (L : nat) : prog Z := push_ifaddr L "ifa_netmask".
Definition l_struct_ifaddrs_dstaddr (L : nat) : prog Z := push_ifaddr L "ifa_dstaddr".

Definition l_struct_ifaddrs : list (string * string) :=
  [
   ("name", "l_struct_ifaddrs_name"); ("flags", "l_struct_ifaddrs_flags");
   ("addr", "l_struct_ifaddrs_addr"); ("netmask", "l_struct_ifaddrs_netmask");
   ("dstaddr", "l_struct_ifaddrs_dstaddr")].

(** [l_struct_ifaddrs_meta] and [l_sfp_dump_meta] *)
Definition index_self (L : nat) (metatable : string) (meta : list (string * string)) : prog unit :=
  luaL_newmetatable L metatable;;
  lua_pushvalue L (-1);;
  lua_setfield L (-2) "__index";;
  luaL_setfuncs L meta;;
  lua_pop L 1.

Definition l_struct_ifaddrs_meta (L : nat) : prog unit := index_self L STRUCT_IFADDRS_META l_struct_ifaddrs.

(** ** Dumps as text *)

(** "%02X" *)
Definition hex_digit (z : Z) : ascii := ascii_of_nat (Z.to_nat (if z <? 10 then 48 + z else 55 + z)).
Definition hex_byte (c : ascii) : string :=
  let z := Z.of_nat (nat_of_ascii c) in String (hex_digit (z / 16)) (String (hex_digit (z mod 16)) "").

Definition NL : ascii := ascii_of_nat 10.
Definition SP : ascii := ascii_of_nat 32.

(** the loop of [hex_dump] from byte [i] on; [src] is what is left of the [len] bytes *)
Fixpoint hex_dump (i len : Z) (src : string) : string :=
  match src with
  | EmptyString => EmptyString
  | String c src =>
      let sep := if i =? len - 1 then NL else if negb ((i + 1) mod 16 =? 0) then SP else NL in
      (hex_byte c +:+ String sep "") +:+ hex_dump (i + 1) len src
  end.

(** what is printed behind [acc], of the size of which the buffer has [cap] bytes: a character
    is left for the terminator *)
Definition sprintf_ (cap : Z) (acc s : string) : prog string :=
  if Z.of_nat (String.length acc) + Z.of_nat (String.length s) + 1 <=? cap then mret (acc +:+ s)
  else undefined "access outside of an object".

Definition dump_range (cap dump : Z) (acc title : string) (start size : Z) : prog string :=
  acc ← sprintf_ cap acc (title +:+ String NL "");
  data ← load_bytes dump start size;
  sprintf_ cap acc (hex_dump 0 size data).

Definition l_sfp_dump_tostring (L : nat) : prog Z :=
  dump ← luaL_checkudata L 1 SFP_DUMP_META;
  assert_ (negb (dump =? 0)) "dump != NULL";;
  let cap := SFF_DUMP_SIZE * 4 in
  buf ← malloc (to_size cap) (OBuf cap "");
  assert_ (negb (buf =? 0)) "p != NULL";;
  count ← call "ifconfig_sfp_dump_region_count" [AZ dump];
  text ← (if rc count =? 2 then
            acc ← dump_range cap dump "" "SFF8436 DUMP (0xA0 0..81 range):" (cst "QSFP_DUMP0_START") (cst "QSFP_DUMP0_SIZE");
            dump_range cap dump acc "SFF8436 DUMP (0xA0 128..255 range):" (cst "QSFP_DUMP1_START") (cst "QSFP_DUMP1_SIZE")
          else if rc count =? 1 then
            dump_range cap dump "" "SFF8472 DUMP (0xA0 0..127 range):" (cst "SFP_DUMP_START") (cst "SFP_DUMP_SIZE")
          else
            dump_range cap dump "" "UNIDENTIFIED DUMP (0xA0 0..255 range):" 0 SFF_DUMP_SIZE);
  lua_pushstring L text;;
  free buf;;
  mret 1.

Definition l_sfp_dump : list (string * string) :=
  [
   ("__tostring", "l_sfp_dump_tostring")].

Definition l_sfp_dump_meta (L : nat) : prog unit := index_self L SFP_DUMP_META l_sfp_dump.

(** ** Opening *)

Definition l_ifconfig_open (L : nat) : prog Z :=
  h ← call "ifconfig_open" [];
  if rc h =? 0 then
    lua_pushnil L;;
    mret 1
  else
    hp ← lua_newuserdatauv L sizeof_ptr (OArr [None]) 0;
    luaL_setmetatable L IFCONFIG_HANDLE_META;;
    load hp (arr_set 0 (AZ (rc h)));;
    mret 1.

Definition l_ifconfig : list (string * string) :=
  [
   ("open", "l_ifconfig_open")].

Definition luaopen_ifconfig (L : nat) : prog Z :=
  l_ifconfig_handle_meta L;;
  l_struct_ifaddrs_meta L;;
  l_sfp_dump_meta L;;
  lua_newtable L;;
  luaL_setfuncs L l_ifconfig;;
  mret 1.
End ifconfig.
