(* ===== verification/Fetch.v ===== *)
(** * lua_fetch.c: files over the network

    The functions open a URL and return a file of the io library ([newstream]); errors come
    from variables of libfetch ([fetcherr]), which are asked for like the result of a call. *)

From S2P Require Import Prelude LuaApi Machine Capi Utils Modules Cmem Wrapper Casper.

Section fetch.
Context `{Consts}.

Definition closestream (L : nat) : prog Z :=
  stream ← luaL_checkudata L 1 LUA_FILEHANDLE;
  f ← load stream stream_f;
  r ← call "fclose" [AZ f];
  luaL_fileresult L (rc r =? 0).

(** [closef] is not kept: it is [closestream] *)
Definition newstream (L : nat) (f : Z) : prog unit :=
  stream ← lua_newuserdatauv L sizeof_stream (OStream 0) 0;
  luaL_setmetatable L LUA_FILEHANDLE;;
  load stream (set_stream f).

Definition fetcherr (L : nat) : prog Z :=
  luaL_pushfail L;;
  msg ← call "fetchLastErrString" [];
  lua_pushstring L (out_str 0 msg);;
  code ← call "fetchLastErrCode" [];
  lua_pushinteger L (out_int 0 code);;
  mret 3.

(** the stream, or the error *)
Definition fetched (L : nat) (f : cret) (k : prog Z) : prog Z :=
  if rc f =? 0 then fetcherr L
  else
    newstream L (rc f);;
    k.

Definition l_fetch_get (L : nat) : prog Z :=
  URL ← luaL_checkstring L 1;
  flags ← luaL_optstring L 2;
  f ← call "fetchGetURL" [AS URL; null_or flags];
  fetched L f (mret 1).

Definition l_fetch_put (L : nat) : prog Z :=
  URL ← luaL_checkstring L 1;
  flags ← luaL_optstring L 2;
  f ← call "fetchPutURL" [AS URL; null_or flags];
  fetched L f (mret 1).

(** the members of [struct url_stat] are outs from number [i] on *)
Fixpoint stat_fields (L : nat) (stat : list carg) (names : list string) : prog unit :=
  match names, stat with
  | name :: names, AZ v :: stat =>
      lua_pushstring L name;;
      lua_pushinteger L v;;
      lua_rawset L (-3);;
      stat_fields L stat names
  | _, _ => mret tt
  end.

Definition newurlstat (L : nat) (stat : list carg) : prog unit :=
  lua_newtable L;;
  stat_fields L stat ["size"; "atime"; "mtime"].

Definition l_fetch_xget (L : nat) : prog Z :=
  URL ← luaL_checkstring L 1;
  flags ← luaL_optstring L 2;
  f ← call "fetchXGetURL" [AS URL; null_or flags];
  fetched L f (
    newurlstat L (outs f);;
    mret 2).

Definition l_fetch_stat (L : nat) : prog Z :=
  URL ← luaL_checkstring L 1;
  flags ← luaL_optstring L 2;
  res ← call "fetchStatURL" [AS URL; null_or flags];
  if rc res =? -1 then fetcherr L
  else
    newurlstat L (outs res);;
    mret 1.

(** the loop: an entry is its name and its stat; an empty name ends the list *)
Fixpoint push_ents (L : nat) (ents : list carg) (i : Z) : prog unit :=
  match ents with
  | AS name :: size :: atime :: mtime :: ents =>
      if String.eqb (cstr name) "" then mret tt
      else
        lua_newtable L;;
        lua_pushstring L "name";;
        lua_pushstring L name;;
        lua_rawset L (-3);;
        lua_pushstring L "stat";;
        newurlstat L [size; atime; mtime];;
        lua_rawset L (-3);;
        lua_rawseti L (-2) (i + 1);;
        push_ents L ents (i + 1)
  | _ => mret tt
  end.

Definition newentlist (L : nat) (ents : list carg) : prog unit :=
  lua_newtable L;;
  push_ents L ents 0.

Definition l_fetch_list (L : nat) : prog Z :=
  URL ← luaL_checkstring L 1;
  flags ← luaL_optstring L 2;
  ents ← call "fetchListURL" [AS URL; null_or flags];
  if rc ents =? 0 then fetcherr L
  else
    newentlist L (outs ents);;
    free (rc ents);;
    mret 1.

Definition l_fetch_request (L : nat) : prog Z :=
  URL ← luaL_checkstring L 1;
  method ← luaL_checkstring L 2;
  flags ← luaL_optstring L 3;
  content_type ← luaL_optstring L 4;
  body ← luaL_optstring L 5;
  u ← call "fetchParseURL" [AS URL];
  if rc u =? 0 then fetcherr L
  else
    f ← call "fetchReqHTTP" [AZ (rc u); AS method; null_or flags; null_or content_type; null_or body];
    call "fetchFreeURL" [AZ (rc u)];;
    fetched L f (mret 1).

Definition l_fetch_funcs : list (string * string) :=
  [
   ("get", "l_fetch_get"); ("put", "l_fetch_put"); ("xget", "l_fetch_xget");
   ("stat", "l_fetch_stat"); ("list", "l_fetch_list"); ("request", "l_fetch_request")].

Definition fetch_consts : list (string * Z) :=
  idents_of "FETCH_" [
     "ABORT"; "AUTH"; "DOWN"; "EXISTS"; "FULL"; "INFO"; "MEMORY"; "MOVED"; "NETWORK"; "OK"; "PROTO";
     "RESOLV"; "SERVER"; "TEMP"; "TIMEOUT"; "UNAVAIL"; "UNKNOWN"; "URL"].

Definition luaopen_fetch (L : nat) : prog Z :=
  luaL_newlib L l_fetch_funcs;;
  define_all L fetch_consts;;
  mret 1.
End fetch.
