(* ===== verification/Sctp.v ===== *)
(** * lua_sctp.c: SCTP

    Lists of addresses are records one behind the other in one block ([checkaddrs],
    [pushaddrs]).  [closer] wraps a block in a userdata with a [__close] metamethod and marks
    it with [lua_toclose]: when the function returns or raises an error, Lua calls
    [closer_close] for it, which is here a function of its own, as the marks of Lua are
    outside of the model of its stack. *)

From Stdlib Require Import Ascii.
From S2P Require Import Prelude LuaApi Machine Capi Utils Modules Cmem Uio Wrapper Net.

Section sctp.
Context `{Consts}.

Definition CLOSER_METATABLE : string := "netinet.sctp closer".

(** ** Lists of addresses *)

(** bytes from [off] on are overwritten *)
Definition write_at (off : Z) (s : string) (o : obj) : option (unit * obj) :=
  match o with
  | OBuf len s0 =>
      let n := (Z.to_nat off + String.length s)%nat in
      if (0 <=? off) && (off <=? Z.of_nat (String.length s0)) && (Z.of_nat n <=? len) then
        Some (tt, OBuf len (String.substring 0 (Z.to_nat off) s0 +:+ s +:+
                            String.substring n (String.length s0 - n) s0))
      else None
  | _ => None
  end.

(** the first loop: the size of the block *)
Fixpoint addrs_size (L : nat) (idx : Z) (n : nat) (i size : Z) : prog Z :=
  match n with
  | O => mret size
  | S n =>
      lua_geti L idx i;;
      t ← lua_getfield L (-1) "data";
      if negb (is_type t TSTRING) then luaL_argerror L idx "invalid sockaddr"
      else
        data ← lua_tolstring L (-1);
        lua_pop L 2;;
        addrs_size L idx n (i + 1) (to_size (size + Z.of_nat (String.length data)))
  end.

(** the second loop; the next record starts [sa_len] bytes behind the start of this one *)
Fixpoint fill_addrs (L : nat) (idx addrs : Z) (n : nat) (i off : Z) : prog unit :=
  match n with
  | O => mret tt
  | S n =>
      lua_geti L idx i;;
      lua_getfield L (-1) "family";;
      isint ← lua_isinteger L (-1);
      if negb isint then
        free addrs;;
        luaL_argerror L idx "invalid sockaddr"
      else
        family ← lua_tointeger L (-1);
        lua_pop L 1;;
        lua_getfield L (-1) "data";;
        data ← lua_tolstring L (-1);
        lua_pop L 1;;
        let sa_len := to_uchar (offsetof_sa_data + Z.of_nat (String.length data)) in
        load addrs (write_at off (saddr_bytes sa_len family data));;
        lua_pop L 1;;
        fill_addrs L idx addrs n (i + 1) (off + sa_len)
  end.

Definition checkaddrs (L : nat) (idx : Z) : prog (Z * Z) :=
  luaL_checktype L idx TTABLE;;
  n ← luaL_len L idx;
  let n := to_size n in
  if n =? 0 then luaL_argerror L 2 "must give at least one address"
  else
    size ← addrs_size L idx (Z.to_nat n) 1 (to_size (n * offsetof_sa_data));
    addrs ← malloc size (OBuf size "");
    if addrs =? 0 then fatal L "malloc" (cst "ENOMEM")
    else
      fill_addrs L idx addrs (Z.to_nat n) 1 0;;
      mret (addrs, n).

(** bytes of the list of the system at [p] *)
Definition addr_bytes (p off n : Z) : prog string :=
  r ← call "->bytes" [AZ p; AZ off; AZ n];
  mret (out_str 0 r).

Fixpoint push_addrs_loop (L : nat) (sa : Z) (n : nat) (i off : Z) : prog unit :=
  match n with
  | O => mret tt
  | S n =>
      pushaddr L (fun o k => addr_bytes sa (off + o) k);;
      lua_rawseti L (-2) i;;
      sa_len ← addr_bytes sa off 1;
      push_addrs_loop L sa n (i + 1) (off + le_value sa_len)
  end.

Definition pushaddrs (L : nat) (sa n : Z) : prog unit :=
  lua_createtable L n 0;;
  push_addrs_loop L sa (Z.to_nat n) 1 0.

(** ** Macros of the header *)

(** a macro that is a test, and one that is a number *)
Definition sctp_test (L : nat) (macro : string) : prog Z :=
  x ← luaL_checkinteger L 1;
  r ← call macro [AZ x];
  lua_pushboolean L (negb (rc r =? 0));;
  mret 1.

Definition l_invalid_sinfo_flag (L : nat) : prog Z := sctp_test L "INVALID_SINFO_FLAG".

Definition l_pr_sctp_policy (L : nat) : prog Z :=
  x ← luaL_checkinteger L 1;
  r ← call "PR_SCTP_POLICY" [AZ x];
  lua_pushinteger L (rc r);;
  mret 1.

Definition l_pr_sctp_enabled (L : nat) : prog Z := sctp_test L "PR_SCTP_ENABLED".
Definition l_pr_sctp_ttl_enabled (L : nat) : prog Z := sctp_test L "PR_SCTP_TTL_ENABLED".
Definition l_pr_sctp_buf_enabled (L : nat) : prog Z := sctp_test L "PR_SCTP_BUF_ENABLED".
Definition l_pr_sctp_rtx_enabled (L : nat) : prog Z := sctp_test L "PR_SCTP_RTX_ENABLED".
Definition l_pr_sctp_invalid_policy (L : nat) : prog Z := sctp_test L "PR_SCTP_INVALID_POLICY".
Definition l_pr_sctp_valid_policy (L : nat) : prog Z := sctp_test L "PR_SCTP_VALID_POLICY".

(** ** Sockets *)

Definition l_sctp_peeloff (L : nat) : prog Z :=
  s ← checkfd L 1;
  id ← luaL_checkinteger L 2;
  new_s ← call "sctp_peeloff" [AZ s; AZ (to_uint id)];
  if rc new_s =? -1 then
    e ← errno;
    fail L e
  else
    lua_pushinteger L (rc new_s);;
    mret 1.

(** what both functions do with the list after the call *)
Definition addrs_done (L : nat) (addrs : Z) (r : cret) (k : prog Z) : prog Z :=
  if rc r =? -1 then
    error ← errno;
    free addrs;;
    fail L error
  else
    free addrs;;
    k.

Definition l_sctp_bindx (L : nat) : prog Z :=
  s ← checkfd L 1;
  a ← checkaddrs L 2;
  let '(addrs, num) := a in
  type ← luaL_checkinteger L 3;
  r ← call "sctp_bindx" [AZ s; AZ addrs; AZ (to_int num); AZ (to_int type)];
  addrs_done L addrs r (success L).

Definition l_sctp_connectx (L : nat) : prog Z :=
  s ← checkfd L 1;
  a ← checkaddrs L 2;
  let '(addrs, addrcnt) := a in
  luaL_argcheck L (0 <? addrcnt) 2 "must give at least one address";;
  r ← call "sctp_connectx" [AZ s; AZ addrs; AZ (to_int addrcnt)];
  addrs_done L addrs r (
    lua_pushinteger L (out_int 0 r);;
    mret 1).

Definition l_sctp_getaddrlen (L : nat) : prog Z :=
  family ← luaL_checkinteger L 1;
  len ← call "sctp_getaddrlen" [AZ (to_uchar family)];
  if rc len =? -1 then
    e ← errno;
    fail L e
  else
    lua_pushinteger L (rc len);;
    mret 1.

Definition l_sctp_getpaddrs (L : nat) : prog Z :=
  s ← checkfd L 1;
  id ← luaL_checkinteger L 2;
  naddrs ← call "sctp_getpaddrs" [AZ s; AZ (to_uint id)];
  if rc naddrs =? -1 then
    e ← errno;
    fail L e
  else
    pushaddrs L (out_int 0 naddrs) (rc naddrs);;
    call "sctp_freepaddrs" [AZ (out_int 0 naddrs)];;
    mret 1.

Definition l_sctp_getladdrs (L : nat) : prog Z :=
  s ← checkfd L 1;
  id ← luaL_checkinteger L 2;
  naddrs ← call "sctp_getladdrs" [AZ s; AZ (to_uint id)];
  if rc naddrs =? -1 then
    e ← errno;
    fail L e
  else
    pushaddrs L (out_int 0 naddrs) (rc naddrs);;
    call "sctp_freeladdrs" [AZ (out_int 0 naddrs)];;
    mret 1.

Definition l_sctp_getassocid (L : nat) : prog Z :=
  s ← checkfd L 1;
  ss ← checkaddr L 2;
  id ← call "sctp_getassocid" [AZ s; AS (ss.1 : string)];
  if rc id =? 0 then
    e ← errno;
    fail L e
  else
    lua_pushinteger L (rc id);;
    mret 1.

(** ** Sending *)

(** the fields of the table on the top, with the widths of the members *)
Fixpoint info_fields (L : nat) (idx : Z) (what : string) (fields : list (string * Z)) : prog (list carg) :=
  match fields with
  | [] => mret []
  | (name, bits) :: fields =>
      lua_getfield L (-1) name;;
      isint ← lua_isinteger L (-1);
      luaL_argcheck L isint idx ("invalid " +:+ what);;
      v ← lua_tointeger L (-1);
      lua_pop L 1;;
      rest ← info_fields L idx what fields;
      mret (AZ (wrapu bits v) :: rest)
  end.

Definition checksndinfo (L : nat) (idx : Z) : prog (list carg) :=
  info_fields L idx "sndinfo" [("sid", 16); ("flags", 16); ("ppid", 32); ("context", 32); ("assoc_id", 32)].
Definition checkprinfo (L : nat) (idx : Z) : prog (list carg) :=
  info_fields L idx "prinfo" [("policy", 16); ("value", 32)].
Definition checkauthinfo (L : nat) (idx : Z) : prog (list carg) :=
  info_fields L idx "authinfo" [("keynumber", 16)].

(** a group of members: its flag and what was read, if the table has it *)
Definition spa_group (L : nat) (idx : Z) (name flag : string) (check : nat -> Z -> prog (list carg)) :
  prog (Z * list carg) :=
  t ← lua_getfield L idx name;
  r ← (if is_type t TTABLE then
         v ← check L idx;
         mret (cst flag, v)
       else mret (0, []));
  lua_pop L 1;;
  mret (r : Z * list carg).

(** [sendv_flags], and the members that are set *)
Definition checksendvspa (L : nat) (idx : Z) : prog (Z * list carg) :=
  snd ← spa_group L idx "sndinfo" "SCTP_SEND_SNDINFO_VALID" checksndinfo;
  pr ← spa_group L idx "prinfo" "SCTP_SEND_PRINFO_VALID" checkprinfo;
  auth ← spa_group L idx "authinfo" "SCTP_SEND_AUTHINFO_VALID" checkauthinfo;
  mret (Z.lor (Z.lor snd.1 pr.1) auth.1, snd.2 ++ pr.2 ++ auth.2).

(** *** Blocks to free *)

Definition POINTER : nat := 0.
Definition LEN : nat := 1.
Definition FUNCTION : nat := 2.

Definition free_closer (p len : Z) : prog unit := free p.
Definition freeriovecs_closer (p len : Z) : prog unit := freeriovecs p len.

(** the addresses of the two functions *)
Definition free_closer_at : Z := cst "&free_closer".
Definition freeriovecs_closer_at : Z := cst "&freeriovecs_closer".

Definition call_closer (closer p len : Z) : prog unit :=
  if closer =? 0 then undefined "call of a null pointer"
  else if closer =? free_closer_at then free_closer p len
  else if closer =? freeriovecs_closer_at then freeriovecs_closer p len
  else undefined "call of what is no function".

Definition closer_close (L : nat) : prog Z :=
  luaL_checkudata L 1 CLOSER_METATABLE;;
  lua_getiuservalue L 1 POINTER;;
  p ← lua_touserdata L (-1);
  lua_getiuservalue L 1 LEN;;
  len ← lua_tointeger L (-1);
  lua_getiuservalue L 1 FUNCTION;;
  closer ← lua_touserdata L (-1);
  call_closer closer p (to_size len);;
  mret 0.

(** up to [lua_toclose] *)
Definition closer (L : nat) (p len closer_at : Z) : prog unit :=
  lua_newuserdata0 L 3;;
  lua_pushlightuserdata L p;;
  lua_setiuservalue L (-2) POINTER;;
  lua_pushinteger L len;;
  lua_setiuservalue L (-2) LEN;;
  lua_pushlightuserdata L closer_at;;
  lua_setiuservalue L (-2) FUNCTION;;
  luaL_setmetatable L CLOSER_METATABLE.

(** the arguments of the call behind the addresses: [infop], [infolen] and [infotype] *)
Definition sendv_info (info : Z * list carg) : list carg :=
  if info.1 =? 0 then [AZ 0; AZ 0; AZ (cst "SCTP_SENDV_NOINFO")]
  else AZ info.1 :: info.2 ++ [AZ (cst "sizeof(struct sctp_sendv_spa)"); AZ (cst "SCTP_SENDV_SPA")].

Definition l_sctp_sendv (L : nat) : prog Z :=
  s ← checkfd L 1;
  v ← checkwiovecs L 2;
  let '(iov, strs) := v in
  let iovcnt := Z.of_nat (length strs) in
  closer L iov iovcnt free_closer_at;;
  a ← checkaddrs L 3;
  let '(addrs, addrcnt) := a in
  closer L addrs addrcnt free_closer_at;;
  info ← checksendvspa L 4;
  flags ← luaL_optinteger L 5 0;
  len ← call "sctp_sendv"
    ([AZ s; AZ iov] ++ (AS <$> (strs : list string)) ++ [AZ (to_int iovcnt); AZ addrs; AZ (to_int addrcnt)] ++
     sendv_info info ++ [AZ (to_int flags)]);
  if rc len =? -1 then
    e ← errno;
    fail L e
  else
    lua_pushinteger L (rc len);;
    mret 1.

(** ** Receiving *)

(** members of the union [info], which is what the call wrote: a structure is read from its
    bytes whichever of them was written *)
Fixpoint union_fields (L : nat) (info : string) (prefix : string) (names : list string) : prog unit :=
  match names with
  | [] => mret tt
  | name :: names =>
      r ← call ("->" +:+ prefix +:+ name) [AS info];
      int_field L name (rc r);;
      union_fields L info prefix names
  end.

Definition pushrcvinfo (L : nat) (info : string) : prog unit :=
  lua_newtable L;;
  union_fields L info "rcv.rcv_" ["sid"; "ssn"; "flags"; "ppid"; "tsn"; "cumtsn"; "context"; "assoc_id"].

Definition pushnxtinfo (L : nat) (info : string) : prog unit :=
  lua_newtable L;;
  union_fields L info "nxt.nxt_" ["sid"; "flags"; "ppid"; "length"; "assoc_id"].

Definition pushrecvvinfo (L : nat) (info : string) (infotype : Z) : prog unit :=
  lua_newtable L;;
  if infotype =? cst "SCTP_RECVV_NOINFO" then mret tt
  else if infotype =? cst "SCTP_RECVV_NXTINFO" then
    pushnxtinfo L info;;
    lua_setfield L (-2) "nxtinfo"
  else if infotype =? cst "SCTP_RECVV_RCVINFO" then
    pushrcvinfo L info;;
    lua_setfield L (-2) "rcvinfo"
  else if infotype =? cst "SCTP_RECVV_RN" then
    pushnxtinfo L info;;
    lua_setfield L (-2) "nxtinfo";;
    pushrcvinfo L info;;
    lua_setfield L (-2) "rcvinfo"
  else
    lua_pushstring L "unknown infotype";;
    lua_setfield L (-2) "error".

(** the outs: the address of the sender, the bytes of [info], [infotype], [flags] *)
Definition l_sctp_recvv (L : nat) : prog Z :=
  s ← checkfd L 1;
  v ← checkriovecs L 2;
  let '(iov, iovlen) := v in
  closer L iov iovlen freeriovecs_closer_at;;
  from ← checkaddr L 3;
  len ← call "sctp_recvv" [AZ s; AZ iov; AZ (to_int iovlen); AS (from.1 : string); AZ (from.2 : Z); AZ (cst "sizeof(union sctp_recvvinfo)")];
  if rc len =? -1 then
    e ← errno;
    fail L e
  else
    pushriovecs L iov iovlen;;
    freeriovecs iov iovlen;;
    lua_pushinteger L (rc len);;
    pushaddr_local L (out_str 0 len);;
    pushrecvvinfo L (out_str 1 len) (to_uint (out_int 2 len));;
    lua_pushinteger L (out_int 3 len);;
    mret 5.

(** ** Opening *)

(** APIREG *)
Definition apireg (name : string) : string * string := (name, "l_sctp_" +:+ name).

Definition l_sctp_funcs : list (string * string) :=
  [
   ("invalid_sinfo_flag", "l_invalid_sinfo_flag"); ("pr_sctp_policy", "l_pr_sctp_policy");
   ("pr_sctp_enabled", "l_pr_sctp_enabled"); ("pr_sctp_ttl_enabled", "l_pr_sctp_ttl_enabled");
   ("pr_sctp_buf_enabled", "l_pr_sctp_buf_enabled"); ("pr_sctp_rtx_enabled", "l_pr_sctp_rtx_enabled");
   ("pr_sctp_invalid_policy", "l_pr_sctp_invalid_policy");
   ("pr_sctp_valid_policy", "l_pr_sctp_valid_policy")] ++
  (apireg <$> [
   "peeloff"; "bindx"; "connectx"; "getaddrlen"; "getpaddrs"; "getladdrs"; "getassocid"; "sendv"; "recvv"]).

Definition sctp_consts1 : list (string * Z) :=
  idents_of "SCTP_" [
     "RTOINFO"; "ASSOCINFO"; "INITMSG"; "NODELAY"; "AUTOCLOSE"; "SET_PEER_PRIMARY_ADDR";
     "PRIMARY_ADDR"; "ADAPTATION_LAYER"; "DISABLE_FRAGMENTS"; "PEER_ADDR_PARAMS";
     "DEFAULT_SEND_PARAM"; "I_WANT_MAPPED_V4_ADDR"; "MAXSEG"; "DELAYED_SACK"; "FRAGMENT_INTERLEAVE";
     "PARTIAL_DELIVERY_POINT"; "AUTH_CHUNK"; "AUTH_KEY"; "HMAC_IDENT"; "AUTH_ACTIVE_KEY";
     "AUTH_DELETE_KEY"; "USE_EXT_RCVINFO"; "AUTO_ASCONF"; "MAX_BURST"; "CONTEXT"; "EXPLICIT_EOR";
     "REUSE_PORT"; "AUTH_DEACTIVATE_KEY"; "EVENT"; "RECVRCVINFO"; "RECVNXTINFO"; "DEFAULT_SNDINFO";
     "DEFAULT_PRINFO"; "PEER_ADDR_THLDS"; "REMOTE_UDP_ENCAPS_PORT"; "ECN_SUPPORTED"; "PR_SUPPORTED";
     "AUTH_SUPPORTED"; "ASCONF_SUPPORTED"; "RECONFIG_SUPPORTED"; "NRSACK_SUPPORTED";
     "PKTDROP_SUPPORTED"; "MAX_CWND"] ++
  (if cst "#ifdef SCTP_ACCEPT_ZERO_CHECKSUM" =? 0 then [] else idents_of "SCTP_" [
     "ACCEPT_ZERO_CHECKSUM"]) ++
  idents_of "SCTP_" [
     "STATUS"; "GET_PEER_ADDR_INFO"; "PEER_AUTH_CHUNKS"; "LOCAL_AUTH_CHUNKS"; "GET_ASSOC_NUMBER";
     "GET_ASSOC_ID_LIST"; "TIMEOUTS"; "PR_STREAM_STATUS"; "PR_ASSOC_STATUS"; "ENABLE_STREAM_RESET";
     "RESET_STREAMS"; "RESET_ASSOC"; "ADD_STREAMS"; "ENABLE_RESET_STREAM_REQ";
     "ENABLE_RESET_ASSOC_REQ"; "ENABLE_CHANGE_ASSOC_REQ"; "ENABLE_VALUE_MASK";
     "STREAM_RESET_INCOMING"; "STREAM_RESET_OUTGOING"; "SET_DEBUG_LEVEL"; "CLR_STAT_LOG";
     "CMT_ON_OFF"; "CMT_USE_DAC"; "PLUGGABLE_CC"; "STREAM_SCHEDULER"; "STREAM_SCHEDULER_VALUE";
     "CC_OPTION"; "INTERLEAVING_SUPPORTED"; "GET_SNDBUF_USE"; "GET_STAT_LOG"; "PCB_STATUS";
     "GET_NONCE_VALUES"; "SET_DYNAMIC_PRIMARY"; "VRF_ID"; "ADD_VRF_ID"; "GET_VRF_IDS";
     "GET_ASOC_VRF"; "DEL_VRF_ID"; "GET_PACKET_LOG"; "CC_RFC2581"; "CC_HSTCP"; "CC_HTCP"; "CC_RTCC";
     "CC_OPT_RTCC_SETMODE"; "CC_OPT_USE_DCCC_ECN"; "CC_OPT_STEADY_STEP"; "CMT_OFF"; "CMT_BASE";
     "CMT_RPV1"; "CMT_RPV2"; "CMT_MPTCP"; "CMT_MAX"; "SS_DEFAULT"; "SS_RR"; "SS_RR_PKT"; "SS_PRIO";
     "SS_FB"; "SS_FCFS"; "FRAG_LEVEL_0"; "FRAG_LEVEL_1"; "FRAG_LEVEL_2"; "CLOSED"; "BOUND";
     "LISTEN"; "COOKIE_WAIT"; "COOKIE_ECHOED"; "ESTABLISHED"; "SHUTDOWN_SENT"; "SHUTDOWN_RECEIVED";
     "SHUTDOWN_ACK_SENT"; "SHUTDOWN_PENDING"].

Definition sctp_consts2 : list (string * Z) :=
  idents_of "SCTP_" [
     "CAUSE_NO_ERROR"; "CAUSE_INVALID_STREAM"; "CAUSE_MISSING_PARAM"; "CAUSE_STALE_COOKIE";
     "CAUSE_OUT_OF_RESC"; "CAUSE_UNRESOLVABLE_ADDR"; "CAUSE_UNRECOG_CHUNK"; "CAUSE_INVALID_PARAM";
     "CAUSE_UNRECOG_PARAM"; "CAUSE_NO_USER_DATA"; "CAUSE_COOKIE_IN_SHUTDOWN";
     "CAUSE_RESTART_W_NEWADDR"; "CAUSE_USER_INITIATED_ABT"; "CAUSE_PROTOCOL_VIOLATION";
     "CAUSE_DELETING_LAST_ADDR"; "CAUSE_RESOURCE_SHORTAGE"; "CAUSE_DELETING_SRC_ADDR";
     "CAUSE_ILLEGAL_ASCONF_ACK"; "CAUSE_REQUEST_REFUSED"; "CAUSE_NAT_COLLIDING_STATE";
     "CAUSE_NAT_MISSING_STATE"; "CAUSE_UNSUPPORTED_HMACID"; "HAD_NO_TCB"; "FROM_MIDDLE_BOX";
     "BADCRC"; "PACKET_TRUNCATED"; "CWR_REDUCE_OVERRIDE"; "CWR_IN_SAME_WINDOW"; "SAT_NETWORK_MIN";
     "SAT_NETWORK_BURST_INCR"; "DATA_FRAG_MASK"; "DATA_MIDDLE_FRAG"; "DATA_LAST_FRAG";
     "DATA_FIRST_FRAG"; "DATA_NOT_FRAG"; "DATA_UNORDERED"; "DATA_SACK_IMMEDIATELY";
     "SACK_NONCE_SUM"; "SACK_CMT_DAC"; "PCB_FLAGS_UDPTYPE"; "PCB_FLAGS_TCPTYPE";
     "PCB_FLAGS_BOUNDALL"; "PCB_FLAGS_ACCEPTING"; "PCB_FLAGS_UNBOUND"; "PCB_FLAGS_SND_ITERATOR_UP";
     "PCB_FLAGS_CLOSE_IP"; "PCB_FLAGS_WAS_CONNECTED"; "PCB_FLAGS_WAS_ABORTED";
     "PCB_FLAGS_CONNECTED"; "PCB_FLAGS_IN_TCPPOOL"; "PCB_FLAGS_DONT_WAKE"; "PCB_FLAGS_WAKEOUTPUT";
     "PCB_FLAGS_WAKEINPUT"; "PCB_FLAGS_BOUND_V6"; "PCB_FLAGS_BLOCKING_IO"; "PCB_FLAGS_SOCKET_GONE";
     "PCB_FLAGS_SOCKET_ALLGONE"; "PCB_FLAGS_SOCKET_CANT_READ"; "PCB_COPY_FLAGS";
     "PCB_FLAGS_DO_NOT_PMTUD"; "PCB_FLAGS_DONOT_HEARTBEAT"; "PCB_FLAGS_FRAG_INTERLEAVE";
     "PCB_FLAGS_INTERLEAVE_STRMS"; "PCB_FLAGS_DO_ASCONF"; "PCB_FLAGS_AUTO_ASCONF";
     "PCB_FLAGS_NODELAY"; "PCB_FLAGS_AUTOCLOSE"; "PCB_FLAGS_RECVASSOCEVNT";
     "PCB_FLAGS_RECVPADDREVNT"; "PCB_FLAGS_RECVPEERERR"; "PCB_FLAGS_RECVSHUTDOWNEVNT";
     "PCB_FLAGS_ADAPTATIONEVNT"; "PCB_FLAGS_PDAPIEVNT"; "PCB_FLAGS_AUTHEVNT";
     "PCB_FLAGS_STREAM_RESETEVNT"; "PCB_FLAGS_NO_FRAGMENT"; "PCB_FLAGS_EXPLICIT_EOR";
     "PCB_FLAGS_NEEDS_MAPPED_V4"; "PCB_FLAGS_MULTIPLE_ASCONFS"; "PCB_FLAGS_PORTREUSE";
     "PCB_FLAGS_DRYEVNT"; "PCB_FLAGS_RECVRCVINFO"; "PCB_FLAGS_RECVNXTINFO";
     "PCB_FLAGS_ASSOC_RESETEVNT"; "PCB_FLAGS_STREAM_CHANGEEVNT"; "PCB_FLAGS_RECVNSENDFAILEVNT";
     "MOBILITY_BASE"; "MOBILITY_FASTHANDOFF"; "MOBILITY_PRIM_DELETED"; "SMALLEST_PMTU";
     "LARGEST_PMTU"].

Definition sctp_consts3 : list (string * Z) :=
  idents_of "SCTP_" [
     "FUTURE_ASSOC"; "CURRENT_ASSOC"; "ALL_ASSOC"; "INIT"; "SNDRCV"; "EXTRCV"; "SNDINFO"; "RCVINFO";
     "NXTINFO"; "PRINFO"; "AUTHINFO"; "DSTADDRV4"; "DSTADDRV6"; "ALIGN_RESV_PAD";
     "ALIGN_RESV_PAD_SHORT"; "NO_NEXT_MSG"; "NEXT_MSG_AVAIL"; "NEXT_MSG_ISCOMPLETE";
     "NEXT_MSG_IS_UNORDERED"; "NEXT_MSG_IS_NOTIFICATION"; "RECVV_NOINFO"; "RECVV_RCVINFO";
     "RECVV_NXTINFO"; "RECVV_RN"; "SENDV_NOINFO"; "SENDV_SNDINFO"; "SENDV_PRINFO"; "SENDV_AUTHINFO";
     "SENDV_SPA"; "SEND_SNDINFO_VALID"; "SEND_PRINFO_VALID"; "SEND_AUTHINFO_VALID"; "NOTIFICATION";
     "COMPLETE"; "EOF"; "ABORT"; "UNORDERED"; "ADDR_OVER"; "SENDALL"; "EOR"; "SACK_IMMEDIATELY";
     "PR_SCTP_NONE"; "PR_SCTP_TTL"; "PR_SCTP_PRIO"; "PR_SCTP_BUF"; "PR_SCTP_RTX"; "PR_SCTP_MAX";
     "PR_SCTP_ALL"; "COMM_UP"; "COMM_LOST"; "RESTART"; "SHUTDOWN_COMP"; "CANT_STR_ASSOC";
     "ASSOC_SUPPORTS_PR"; "ASSOC_SUPPORTS_AUTH"; "ASSOC_SUPPORTS_ASCONF"; "ASSOC_SUPPORTS_MULTIBUF";
     "ASSOC_SUPPORTS_RE_CONFIG"; "ASSOC_SUPPORTS_INTERLEAVING"; "ASSOC_SUPPORTS_MAX";
     "ADDR_AVAILABLE"; "ADDR_UNREACHABLE"; "ADDR_REMOVED"; "ADDR_ADDED"; "ADDR_MADE_PRIM";
     "ADDR_CONFIRMED"; "ACTIVE"; "INACTIVE"; "UNCONFIRMED"; "DATA_UNSENT"; "DATA_SENT";
     "PARTIAL_DELIVERY_ABORTED"; "AUTH_NEW_KEY"; "AUTH_NO_AUTH"; "AUTH_FREE_KEY";
     "STREAM_RESET_INCOMING_SSN"; "STREAM_RESET_OUTGOING_SSN"; "STREAM_RESET_DENIED";
     "STREAM_RESET_FAILED"; "ASSOC_RESET_DENIED"; "ASSOC_RESET_FAILED"; "STREAM_CHANGE_DENIED";
     "STREAM_CHANGE_FAILED"; "ASSOC_CHANGE"; "PEER_ADDR_CHANGE"; "REMOTE_ERROR"; "SEND_FAILED";
     "SHUTDOWN_EVENT"; "ADAPTATION_INDICATION"; "PARTIAL_DELIVERY_EVENT"; "AUTHENTICATION_EVENT";
     "STREAM_RESET_EVENT"; "SENDER_DRY_EVENT"; "NOTIFICATIONS_STOPPED_EVENT"; "ASSOC_RESET_EVENT";
     "STREAM_CHANGE_EVENT"; "SEND_FAILED_EVENT"; "AUTH_HMAC_ID_RSVD"; "AUTH_HMAC_ID_SHA1";
     "AUTH_HMAC_ID_SHA256"; "MAX_EXPLICT_STR_RESET"] ++
  (if cst "#ifdef SCTP_EDMID_NONE" =? 0 then [] else idents_of "SCTP_" [
     "EDMID_NONE"]) ++
  (if cst "#ifdef SCTP_EDMID_LOWER_LAYER_DTLS" =? 0 then [] else idents_of "SCTP_" [
     "EDMID_LOWER_LAYER_DTLS"]) ++
  idents_of "SCTP_" [
     "MAX_LOGGING_SIZE"; "TRACE_PARAMS"; "PACKET_LOG_SIZE"; "MAX_SACK_DELAY"; "MAX_HB_INTERVAL";
     "MIN_COOKIE_LIFE"; "MAX_COOKIE_LIFE"].

Definition sctp_consts4 : list (string * Z) :=
  idents_of "SCTP_" [
     "BLK_LOGGING_ENABLE"; "CWND_MONITOR_ENABLE"; "CWND_LOGGING_ENABLE"; "FLIGHT_LOGGING_ENABLE";
     "FR_LOGGING_ENABLE"; "LOCK_LOGGING_ENABLE"; "MAP_LOGGING_ENABLE"; "MBCNT_LOGGING_ENABLE";
     "MBUF_LOGGING_ENABLE"; "NAGLE_LOGGING_ENABLE"; "RECV_RWND_LOGGING_ENABLE";
     "RTTVAR_LOGGING_ENABLE"; "SACK_LOGGING_ENABLE"; "SACK_RWND_LOGGING_ENABLE";
     "SB_LOGGING_ENABLE"; "STR_LOGGING_ENABLE"; "WAKE_LOGGING_ENABLE"; "LOG_MAXBURST_ENABLE";
     "LOG_RWND_ENABLE"; "LOG_SACK_ARRIVALS_ENABLE"; "LTRACE_CHUNK_ENABLE"; "LTRACE_ERROR_ENABLE";
     "LAST_PACKET_TRACING"; "THRESHOLD_LOGGING"; "LOG_AT_SEND_2_SCTP"; "LOG_AT_SEND_2_OUTQ";
     "LOG_TRY_ADVANCE"].

Definition sctp_consts : list (string * Z) := sctp_consts1 ++ sctp_consts2 ++ sctp_consts3 ++ sctp_consts4.

Definition sctp_flag_consts : list (string * Z) :=
  idents [
     "SPP_HB_ENABLE"; "SPP_HB_DISABLE"; "SPP_HB_DEMAND"; "SPP_PMTUD_ENABLE"; "SPP_PMTUD_DISABLE";
     "SPP_HB_TIME_IS_ZERO"; "SPP_IPV6_FLOWLABEL"; "SPP_DSCP"; "SPP_IPV4_TOS"].

Definition luaopen_netinet_sctp (L : nat) : prog Z :=
  luaL_newmetatable L CLOSER_METATABLE;;
  lua_pushcfunction L "closer_close";;
  lua_setfield L (-2) "__close";;
  luaL_newlib L l_sctp_funcs;;
  define_all L (sctp_consts ++ sctp_flag_consts);;
  mret 1.
End sctp.
