(* ===== verification/Dpv.v ===== *)
(** * lua_dpv.c: progress of files

    [l_dpv] builds the configuration and the list of files of libdpv from tables and shows
    the progress; libdpv calls [action] for a file again and again, which calls the Lua
    function with the file as a table and reads the changed table back.  The nodes of the
    list are one block of [NODE] cells each ([file_node]); a pointer to a node is the
    address of the block and a multiple of the size.  The configuration is passed as the
    list of the members that are set, in the order in which they are set. *)

From Stdlib Require Import Ascii.
From S2P Require Import Prelude LuaApi Machine Capi Utils Modules Cmem Wrapper Casper Foreign.

Section dpv.
Context `{Consts}.

(** ** Nodes *)

(** the members of [struct file_node], [file] first *)
Definition STATUS : Z := 0.
Definition MSG : Z := 1.
Definition NAME : Z := 2.
Definition PATH : Z := 3.
Definition LENGTH : Z := 4.
Definition READ : Z := 5.
Definition NEXT : Z := 6.
Definition LSTATE : Z := 7.
Definition OUTREF : Z := 8.
Definition NODE : Z := 9.

Definition LUA_NOREF : Z := -2.
Definition sizeof_file_node : Z := cst "sizeof(struct file_node)".

Definition node_get (nodes i m : Z) : prog Z := arr_load nodes (Z.to_nat (i * NODE + m)).
Definition node_set (nodes i m v : Z) : prog unit := set_elt nodes (i * NODE + m) (AZ v).

(** [&nodes[i].file], and the [i] of such a pointer *)
Definition node_at (nodes i : Z) : Z := nodes + i * sizeof_file_node.
Definition node_of (nodes file : Z) : Z := (file - nodes) / sizeof_file_node.

(** [free(file->m); file->m = s] *)
Definition replace_str (nodes i m s : Z) : prog unit :=
  old ← node_get nodes i m;
  free old;;
  node_set nodes i m s.

Definition closestream (L : nat) : prog Z :=
  stream ← luaL_checkudata L 1 LUA_FILEHANDLE;
  f ← load stream stream_f;
  res ← call "fclose" [AZ f];
  luaL_fileresult L (rc res =? 0).

(** [asprintf(&s, "...: %m")]: the message of errno *)
Definition fail_msg (nodes i : Z) (what : string) : prog unit :=
  node_set nodes i STATUS (cst "DPV_STATUS_FAILED");;
  e ← errno;
  m ← strerror_r e;
  s ← strdup (what +:+ ": " +:+ cstr m);
  if s =? 0 then mret tt else replace_str nodes i MSG s.

(** the end of all failures *)
Definition action_fails (L : nat) (top : Z) : prog (list carg) :=
  call "dpv_abort =" [AZ 1];;
  lua_settop L top;;
  mret [AZ (-1)].

(** the label strdupfail *)
Definition strdupfail (L : nat) (nodes i top : Z) : prog (list carg) :=
  fail_msg nodes i "strdup";;
  action_fails L top.

(** [strdup(lua_tostring(L, -1))] *)
Definition strdup_top (L : nat) : prog Z :=
  s ← opt_tostring L (-1);
  match s with
  | Some s => strdup s
  | None => undefined "access through a null pointer"
  end.

(** the table for the file *)
Definition push_file (L : nat) (nodes i idx : Z) : prog unit :=
  status ← node_get nodes i STATUS;
  lua_pushinteger L status;;
  lua_setfield L idx "status";;
  msg ← node_get nodes i MSG;
  (if msg =? 0 then mret tt
   else
     push_cstr L msg;;
     lua_setfield L idx "msg");;
  name ← node_get nodes i NAME;
  push_cstr L name;;
  lua_setfield L idx "name";;
  path ← node_get nodes i PATH;
  push_cstr L path;;
  lua_setfield L idx "path";;
  length ← node_get nodes i LENGTH;
  lua_pushinteger L length;;
  lua_setfield L idx "length";;
  read ← node_get nodes i READ;
  lua_pushinteger L read;;
  lua_setfield L idx "read".

(** the stream of [out], made once per node; false: there is none *)
Definition push_out (L : nat) (nodes i out top : Z) : prog bool :=
  if 0 <? out then
    outref ← node_get nodes i OUTREF;
    if outref =? LUA_NOREF then
      outs ← lua_newuserdatauv L sizeof_stream (OStream 0) 0;
      f ← call "fdopen" [AZ out; AS "w"];
      load outs (set_stream (rc f));;
      if rc f =? 0 then
        fail_msg nodes i "fdopen";;
        mret false
      else
        luaL_setmetatable L LUA_FILEHANDLE;;
        lua_pushvalue L (-1);;
        ref ← luaL_ref L;
        node_set nodes i OUTREF ref;;
        mret true
    else
      lua_rawgetref L outref;;
      mret true
  else
    lua_pushnil L;;
    mret true.

(** a string of the table at [idx] into a member, in the action; false: no memory *)
Definition update_str (L : nat) (nodes i m : Z) : prog bool :=
  s ← strdup_top L;
  if s =? 0 then mret false
  else
    replace_str nodes i m s;;
    mret true.

(** what follows the call: the members from the table *)
Definition update_file (L : nat) (nodes i idx top pct : Z) : prog (list carg) :=
  lua_getfield L idx "status";;
  status ← lua_tointeger L (-1);
  node_set nodes i STATUS (to_uint status);;
  t ← lua_getfield L idx "msg";
  ok ← (if is_type t TSTRING then update_str L nodes i MSG else mret true);
  if negb ok then strdupfail L nodes i top
  else
    lua_getfield L idx "name";;
    ok ← update_str L nodes i NAME;
    if negb ok then strdupfail L nodes i top
    else
      lua_getfield L idx "path";;
      ok ← update_str L nodes i PATH;
      if negb ok then strdupfail L nodes i top
      else
        lua_getfield L idx "length";;
        length ← lua_tointeger L (-1);
        node_set nodes i LENGTH length;;
        lua_getfield L idx "read";;
        read ← lua_tointeger L (-1);
        node_set nodes i READ read;;
        lua_settop L top;;
        mret [AZ (to_int pct)].

(** the outs: the file and the descriptor; the answer is what the function returns *)
Definition action (L : nat) (nodes : Z) (r : cret) : prog (list carg) :=
  let i := node_of nodes (out_int 0 r) in
  top ← lua_gettop L;
  isfun ← lua_is L top TFUNCTION;
  assert_ isfun "lua_isfunction(L, top)";;
  lua_newtable L;;
  idx ← lua_gettop L;
  push_file L nodes i idx;;
  lua_pushvalue L top;;
  lua_pushvalue L idx;;
  pushed ← push_out L nodes i (out_int 1 r) top;
  if negb pushed then action_fails L top
  else
    ok ← lua_pcall1 L 2;
    if negb ok then
      node_set nodes i STATUS (cst "DPV_STATUS_FAILED");;
      s ← strdup_top L;
      if s =? 0 then strdupfail L nodes i top
      else
        replace_str nodes i MSG s;;
        action_fails L top
    else
      pct ← lua_tointeger L (-1);
      update_file L nodes i idx top pct.

Definition freenodes (L : nat) (nodes n : Z) : prog unit :=
  for_ (Z.to_nat n) 0 (fun i =>
    outref ← node_get nodes i OUTREF;
    luaL_unref L outref;;
    msg ← node_get nodes i MSG;
    free msg;;
    name ← node_get nodes i NAME;
    free name;;
    path ← node_get nodes i PATH;
    free path);;
  free nodes.

(** ** The configuration *)

(** the three kinds of switches on a field of the table at 1 *)
Definition config_bool (L : nat) (name : string) : prog Z :=
  t ← lua_getfield L 1 name;
  v ← (if is_type t TNIL then mret 0
       else if is_type t TBOOLEAN then
         b ← lua_toboolean L (-1);
         mret (Z_of_bool b)
       else luaL_argerror L 1 (name +:+ ": boolean expected"));
  lua_pop L 1;;
  mret (v : Z).

(** [None] for nil *)
Definition config_int (L : nat) (name : string) : prog (option Z) :=
  t ← lua_getfield L 1 name;
  isint ← (if is_type t TNUMBER then lua_isinteger L (-1) else mret false);
  v ← (if is_type t TNIL then mret None
       else if isint : bool then
         v ← lua_tointeger L (-1);
         mret (Some v)
       else luaL_argerror L 1 (name +:+ ": integer expected"));
  lua_pop L 1;;
  mret (v : option Z).

(** the string stays on the stack *)
Definition config_str (L : nat) (name : string) (default : carg) : prog carg :=
  t ← lua_getfield L 1 name;
  if is_type t TNIL then
    lua_pop L 1;;
    mret default
  else if is_type t TSTRING then
    s ← lua_tostring L (-1);
    mret (AS s)
  else luaL_argerror L 1 (name +:+ ": string expected").

Fixpoint config_strs (L : nat) (names : list (string * carg)) : prog (list carg) :=
  match names with
  | [] => mret []
  | (name, default) :: names =>
      v ← config_str L name default;
      rest ← config_strs L names;
      mret (AS name :: v :: rest)
  end.

Definition of_option (v : option Z) (default : Z) : Z := match v with Some v => v | None => default end.

(** the members that are no strings; an integer [output_type] goes to [display_type] *)
Definition config_numbers (L : nat) : prog (list carg) :=
  keep_tite ← config_bool L "keep_tite";
  display_type ← config_int L "display_type";
  let display_type := of_option display_type (cst "DPV_DISPLAY_LIBDIALOG") in
  output_type ← config_int L "output_type";
  let display_type := of_option output_type display_type in
  let output_type := match output_type with None => cst "DPV_OUTPUT_NONE" | Some _ => 0 end in
  debug ← config_bool L "debug";
  display_limit ← config_int L "display_limit";
  label_size ← config_int L "label_size";
  pbar_size ← config_int L "pbar_size";
  dialog_updates ← config_int L "dialog_updates_per_second";
  status_updates ← config_int L "status_updates_per_second";
  options ← config_int L "options";
  mret [AS "keep_tite"; AZ keep_tite; AS "display_type"; AZ (to_uint display_type); AS "output_type"; AZ output_type;
        AS "debug"; AZ debug; AS "display_limit"; AZ (to_int (of_option display_limit 0));
        AS "label_size"; AZ (to_int (of_option label_size 28)); AS "pbar_size"; AZ (to_int (of_option pbar_size 17));
        AS "dialog_updates_per_second";
        AZ (to_int (of_option dialog_updates (if to_uint display_type =? cst "DPV_DISPLAY_XDIALOG" then 4 else 16)));
        AS "status_updates_per_second"; AZ (to_int (of_option status_updates 2));
        AS "options"; AZ (of_option options 0)].

Definition config_strings : list (string * carg) :=
  [("title", AZ 0); ("backtitle", AZ 0); ("aprompt", AZ 0); ("pprompt", AZ 0); ("msg_done", AZ 0); ("msg_fail", AZ 0);
   ("msg_pending", AZ 0); ("output", AZ 0); ("status_solo", AS "DPV_STATUS_SOLO"); ("status_many", AS "DPV_STATUS_MANY")].

(** the index of the function, which stays on the stack *)
Definition config_action (L : nat) : prog (option Z) :=
  t ← lua_getfield L 1 "action";
  if is_type t TNIL then
    lua_pop L 1;;
    mret None
  else if is_type t TFUNCTION then
    top ← lua_gettop L;
    mret (Some top)
  else luaL_argerror L 1 "action: function expected".

Definition read_config (L : nat) : prog (list carg * option Z) :=
  numbers ← config_numbers L;
  strs ← config_strs L config_strings;
  fidx ← config_action L;
  mret (numbers ++ strs ++ [AS "action"; AZ (match fidx with Some _ => 1 | None => 0 end)], fidx).

(** ** The files *)

(** a node that is refused: those before it are released *)
Definition refuse {A} (L : nat) (nodes i : Z) (msg : string) : prog A :=
  freenodes L nodes i;;
  luaL_argerror L 2 msg.

Definition file_int (L : nat) (nodes i idx : Z) (name : string) (default : Z) : prog Z :=
  t ← lua_getfield L idx name;
  isint ← (if is_type t TNUMBER then lua_isinteger L (-1) else mret false);
  v ← (if is_type t TNIL then mret default
       else if isint : bool then lua_tointeger L (-1)
       else refuse L nodes i (name +:+ ": integer expected"));
  lua_pop L 1;;
  mret (v : Z).

(** a copy of the string; nil is NULL where it is allowed *)
Definition file_str (L : nat) (nodes i idx m : Z) (name : string) (optional : bool) : prog unit :=
  t ← lua_getfield L idx name;
  (if is_type t TNIL && optional then node_set nodes i m 0
   else if is_type t TSTRING then
     s ← lua_tostring L (-1);
     p ← strdup s;
     node_set nodes i m p;;
     if p =? 0 then
       freenodes L nodes i;;
       fatal L "strdup" (cst "ENOMEM")
     else mret tt
   else refuse L nodes i (name +:+ ": string expected"));;
  lua_pop L 1.

(** element [i] of the list; its table stays on the stack *)
Definition read_file (L : nat) (nodes n i : Z) : prog unit :=
  node_set nodes i LSTATE (Z.of_nat L);;
  node_set nodes i OUTREF LUA_NOREF;;
  t ← lua_geti L 2 (i + 1);
  if negb (is_type t TTABLE) then refuse L nodes i "tables expected"
  else
    idx ← lua_gettop L;
    status ← file_int L nodes i idx "status" (cst "DPV_STATUS_RUNNING");
    node_set nodes i STATUS (to_uint status);;
    file_str L nodes i idx MSG "msg" true;;
    file_str L nodes i idx NAME "name" false;;
    file_str L nodes i idx PATH "path" false;;
    length ← file_int L nodes i idx "length" (-1);
    node_set nodes i LENGTH length;;
    read ← file_int L nodes i idx "read" 0;
    node_set nodes i READ read;;
    node_set nodes i NEXT (if i + 1 =? n then 0 else node_at nodes (i + 1)).

(** the array of [n] nodes: NULL for none *)
Definition new_nodes (L : nat) (n : Z) : prog Z :=
  if n =? 0 then mret 0
  else
    nodes ← calloc (to_size (n * sizeof_file_node)) (OArr (replicate (Z.to_nat (n * NODE)) (Some (AZ 0))));
    if nodes =? 0 then fatal L "calloc" (cst "ENOMEM") else mret nodes.

(** [fuel] bounds the calls of the action *)
Definition l_dpv (fuel : nat) (L : nat) : prog Z :=
  lua_remove L 1;;
  istable ← lua_is L 2 TTABLE;
  luaL_argexpected L istable 2 "table";;
  isnil ← lua_is L 1 TNIL;
  config ← (if isnil : bool then mret ([AZ 0], None)
            else
              istable ← lua_is L 1 TTABLE;
              luaL_argexpected L istable 1 "table or nil";;
              read_config L);
  let '(configp, fidx) := config : list carg * option Z in
  n ← luaL_len L 2;
  nodes ← new_nodes L n;
  for_ (Z.to_nat n) 0 (read_file L nodes n);;
  match fidx with Some fidx => lua_pushvalue L fidx | None => mret tt end;;
  r ← call "dpv" (AZ nodes :: configp);
  r ← converse fuel "dpv" (action L nodes) r;
  lua_pushboolean L (out_int 0 r =? 0);;
  freenodes L nodes n;;
  call "dpv_free" [];;
  mret 1.

(** ** Variables of libdpv *)

(** a boolean sets the variable *)
Definition bool_var (L : nat) (var : string) : prog Z :=
  isbool ← lua_is L 1 TBOOLEAN;
  (if isbool : bool then
     b ← lua_toboolean L 1;
     call (var +:+ " =") [AZ (Z_of_bool b)];;
     mret tt
   else mret tt);;
  v ← call var [];
  lua_pushboolean L (negb (rc v =? 0));;
  mret 1.

Definition l_dpv_abort (L : nat) : prog Z := bool_var L "dpv_abort".
Definition l_dpv_interrupt (L : nat) : prog Z := bool_var L "dpv_interrupt".

Definition l_dpv_overall_read (L : nat) : prog Z :=
  isint ← lua_isinteger L 1;
  (if isint : bool then
     v ← lua_tointeger L 1;
     call "dpv_overall_read =" [AZ v];;
     mret tt
   else mret tt);;
  v ← call "dpv_overall_read" [];
  lua_pushinteger L (to_long (rc v));;
  mret 1.

Definition l_dpv_funcs : list (string * string) :=
  [
   ("__call", "l_dpv"); ("abort", "l_dpv_abort"); ("interrupt", "l_dpv_interrupt");
   ("overall_read", "l_dpv_overall_read")].

(** a table of constants in the one on the top *)
Definition const_table (L : nat) (key prefix : string) (names : list string) : prog unit :=
  lua_newtable L;;
  define_all L (idents_of prefix names);;
  lua_setfield L (-2) key.

Definition luaopen_dpv (L : nat) : prog Z :=
  lua_newtable L;;
  luaL_newlib L l_dpv_funcs;;
  lua_pushvalue L (-1);;
  lua_setfield L (-2) "__index";;
  const_table L "display" "DPV_DISPLAY_" ["LIBDIALOG"; "STDOUT"; "DIALOG"; "XDIALOG"];;
  const_table L "options" "DPV_" ["TEST_MODE"; "WIDE_MODE"; "NO_LABELS"; "USE_COLOR"; "NO_OVERRUN"];;
  const_table L "output" "DPV_OUTPUT_" ["NONE"; "FILE"; "SHELL"];;
  const_table L "status" "DPV_STATUS_" ["RUNNING"; "DONE"; "FAILED"];;
  lua_setmetatable L (-2);;
  mret 1.
End dpv.
