(* ===== verification/Bsddialog.v ===== *)
(** * lua_bsddialog.c: dialogs on the terminal

    A configuration is a userdata with [struct bsddialog_conf] ([OStruct]); its strings are
    copies of its own.  The tables [conf_reads] and [conf_writes] list the fields with their
    kind in the order of the source, with the types that the manual of libbsddialog gives.
    Lists of items are arrays of structures, with so many cells each ([ITEM], [FORM],
    [GROUP]), that are freed after the call. *)

From Stdlib Require Import Ascii.
From S2P Require Import Prelude LuaApi Machine Capi Utils Modules Cmem Wrapper Foreign.

Section bsddialog.
Context `{Consts} `{SConsts}.

Definition BSDDIALOG_CONF_METATABLE : string := "struct bsddialog_conf *".

(** [#if LIBBSDDIALOG_VERSION_MAJOR > 0] *)
Definition major : bool := 0 <? cst "LIBBSDDIALOG_VERSION_MAJOR".

Definition bsd_error {A} (L : nat) (f : string) : prog A :=
  r ← call "bsddialog_geterror" [];
  luaL_error L (f +:+ ": " +:+ cstr (out_str 0 r)).

(** the end of all functions: the error, or what follows *)
Definition or_error {A} (L : nat) (f : string) (r : cret) (k : prog A) : prog A :=
  if rc r =? cst "BSDDIALOG_ERROR" then bsd_error L f else k.

(** a function without arguments and results *)
Definition plain (L : nat) (f : string) : prog Z :=
  r ← call f [];
  or_error L f r (mret 0).

Definition l_bsddialog_init (L : nat) : prog Z := plain L "bsddialog_init".
Definition l_bsddialog_init_notheme (L : nat) : prog Z := plain L "bsddialog_init_notheme".

Definition l_bsddialog_inmode (L : nat) : prog Z :=
  r ← call "bsddialog_inmode" [];
  lua_pushboolean L (negb (rc r =? 0));;
  mret 1.

Definition l_bsddialog_clear (L : nat) : prog Z :=
  y ← luaL_checkinteger L 1;
  call "bsddialog_clear" [AZ (to_uint y)];;
  mret 0.

Definition l_bsddialog_refresh (L : nat) : prog Z :=
  call "bsddialog_refresh" [];;
  mret 0.

Definition l_bsddialog_end (L : nat) : prog Z := plain L "bsddialog_end".

(** ** Configurations *)

Definition sizeof_conf : Z := cst "sizeof(struct bsddialog_conf)".

(** the call fills the structure *)
Definition l_bsddialog_initconf (L : nat) : prog Z :=
  conf ← lua_newuserdatauv L sizeof_conf (OStruct []) 0;
  luaL_setmetatable L BSDDIALOG_CONF_METATABLE;;
  r ← call "bsddialog_initconf" [AZ conf];
  or_error L "bsddialog_initconf" r (mret 1).

Definition l_bsddialog_backtitle (L : nat) : prog Z :=
  conf ← luaL_checkudata L 1 BSDDIALOG_CONF_METATABLE;
  backtitle ← luaL_checkstring L 2;
  r ← call "bsddialog_backtitle" [AZ conf; AS backtitle];
  or_error L "bsddialog_backtitle" r (mret 0).

(** ** Dialogs *)

(** the first four arguments: the configuration, a text, rows and columns *)
Definition dialog_args (L : nat) : prog (list carg) :=
  conf ← luaL_checkudata L 1 BSDDIALOG_CONF_METATABLE;
  text ← luaL_checkstring L 2;
  rows ← luaL_checkinteger L 3;
  cols ← luaL_checkinteger L 4;
  mret [AZ conf; AS text; AZ (to_int rows); AZ (to_int cols)].

Fixpoint push_all_ints (L : nat) (l : list Z) : prog unit :=
  match l with
  | [] => mret tt
  | z :: l =>
      lua_pushinteger L z;;
      push_all_ints L l
  end.

Definition push_ints (L : nat) (l : list Z) : prog Z :=
  push_all_ints L l;;
  mret (Z.of_nat (length l)).

(** the dialogs that have these arguments only *)
Definition message (L : nat) (f : string) : prog Z :=
  args ← dialog_args L;
  rv ← call f args;
  or_error L f rv (push_ints L [rc rv]).

(** those with three numbers that the dialog changes *)
Definition three_numbers (L : nat) (f : string) : prog Z :=
  args ← dialog_args L;
  a ← luaL_checkinteger L 5;
  b ← luaL_checkinteger L 6;
  c ← luaL_checkinteger L 7;
  rv ← call f (args ++ [AZ (to_uint a); AZ (to_uint b); AZ (to_uint c)]);
  or_error L f rv (push_ints L [rc rv; out_int 0 rv; out_int 1 rv; out_int 2 rv]).

Definition l_bsddialog_calendar (L : nat) : prog Z := three_numbers L "bsddialog_calendar".
Definition l_bsddialog_datebox (L : nat) : prog Z := three_numbers L "bsddialog_datebox".
Definition l_bsddialog_timebox (L : nat) : prog Z := three_numbers L "bsddialog_timebox".
Definition l_bsddialog_infobox (L : nat) : prog Z := message L "bsddialog_infobox".
Definition l_bsddialog_msgbox (L : nat) : prog Z := message L "bsddialog_msgbox".
Definition l_bsddialog_textbox (L : nat) : prog Z := message L "bsddialog_textbox".
Definition l_bsddialog_yesno (L : nat) : prog Z := message L "bsddialog_yesno".

(** *** Items of menus *)

(** prefix, name, desc, bottomdesc, on, depth *)
Definition ITEM : Z := 6.
Definition sizeof_item : Z := cst "sizeof(struct bsddialog_menuitem)".

(** a member of the structure at [base]; the array has no holes *)
Definition cell (p i : Z) : prog Z := arr_load p (Z.to_nat i).

(** an array of [n] structures of [cells] members, with zeros *)
Definition calloc_items (L : nat) (n size cells : Z) : prog Z :=
  items ← calloc (to_size (n * size)) (OArr (replicate (Z.to_nat (n * cells)) (Some (AZ 0))));
  if items =? 0 then luaL_error L "no memory" else mret items.

(** COPYSTRING *)
Definition copystring (L : nat) (items i : Z) (field : string) : prog unit :=
  lua_getfield L (-1) field;;
  s ← opt_tostring L (-1);
  match s with
  | None => set_elt items i (AZ 0)
  | Some s =>
      p ← strdup s;
      set_elt items i (AZ p);;
      if p =? 0 then luaL_error L "no memory" else mret tt
  end;;
  lua_pop L 1.

Fixpoint copystrings (L : nat) (items i : Z) (fields : list string) : prog unit :=
  match fields with
  | [] => mret tt
  | field :: fields =>
      copystring L items i field;;
      copystrings L items (i + 1) fields
  end.

Definition uint_member (L : nat) (items i : Z) (field : string) : prog unit :=
  lua_getfield L (-1) field;;
  v ← lua_tointeger L (-1);
  set_elt items i (AZ (to_uint v));;
  lua_pop L 1.

(** the array and its length *)
Definition checkmenuitems (L : nat) (index : Z) : prog (Z * Z) :=
  luaL_checktype L index TTABLE;;
  len ← luaL_len L index;
  items ← calloc_items L len sizeof_item ITEM;
  for_ (Z.to_nat len) 0 (fun i =>
    lua_geti L index (i + 1);;
    luaL_checktype L (-1) TTABLE;;
    copystrings L items (i * ITEM) ["prefix"; "name"; "desc"; "bottomdesc"];;
    lua_getfield L (-1) "on";;
    on ← lua_toboolean L (-1);
    set_elt items (i * ITEM + 4) (AZ (Z_of_bool on));;
    lua_pop L 1;;
    uint_member L items (i * ITEM + 5) "depth";;
    lua_pop L 1);;
  mret (items, to_uint len).

(** [while (n--)]: from the last one on, [free_one] of the place of every structure *)
Fixpoint free_down (n : nat) (cells : Z) (free_one : Z -> prog unit) : prog unit :=
  match n with
  | O => mret tt
  | S n =>
      free_one (Z.of_nat n * cells);;
      free_down n cells free_one
  end.

Fixpoint free_cells (items i : Z) (k : nat) : prog unit :=
  match k with
  | O => mret tt
  | S k =>
      p ← cell items i;
      free p;;
      free_cells items (i + 1) k
  end.

Definition freemenuitems (items nitems : Z) : prog unit :=
  free_down (Z.to_nat nitems) ITEM (fun i => free_cells items i 4);;
  free items.

(** checklist, menu and radiolist; [shift] is added to the number of the item on return *)
Definition menu_dialog (L : nat) (f : string) (shift : Z) : prog Z :=
  args ← dialog_args L;
  menurows ← luaL_checkinteger L 5;
  its ← checkmenuitems L 6;
  let '(items, nitems) := its : Z * Z in
  focus ← luaL_checkinteger L 7;
  rv ← call f (args ++ [AZ (to_uint menurows); AZ nitems; AZ items; AZ (to_int (focus - 1))]);
  freemenuitems items nitems;;
  or_error L f rv (push_ints L [rc rv; to_int (out_int 0 rv + shift)]).

Definition l_bsddialog_checklist (L : nat) : prog Z := menu_dialog L "bsddialog_checklist" 1.
Definition l_bsddialog_menu (L : nat) : prog Z := menu_dialog L "bsddialog_menu" 1.
Definition l_bsddialog_radiolist (L : nat) : prog Z := menu_dialog L "bsddialog_radiolist" 0.

(** *** Forms *)

(** value, label, init, bottomdesc, and seven numbers *)
Definition FORM : Z := 11.
Definition sizeof_formitem : Z := cst "sizeof(struct bsddialog_formitem)".

Fixpoint uint_members (L : nat) (items i : Z) (fields : list string) : prog unit :=
  match fields with
  | [] => mret tt
  | field :: fields =>
      uint_member L items i field;;
      uint_members L items (i + 1) fields
  end.

Definition checkformitems (L : nat) (index : Z) : prog (Z * Z) :=
  luaL_checktype L index TTABLE;;
  len ← luaL_len L index;
  items ← calloc_items L len sizeof_formitem FORM;
  for_ (Z.to_nat len) 0 (fun i =>
    lua_geti L index (i + 1);;
    luaL_checktype L (-1) TTABLE;;
    copystrings L items (i * FORM + 1) ["label"; "init"; "bottomdesc"];;
    uint_members L items (i * FORM + 4) ["ylabel"; "xlabel"; "yfield"; "xfield"; "fieldlen"; "maxvaluelen"; "flags"];;
    lua_pop L 1);;
  mret (items, to_uint len).

(** [lua_seti] of a new table, which has no metatable, is [lua_rawseti] *)
Definition pushformitems (L : nat) (items nitems : Z) : prog unit :=
  lua_createtable L nitems 0;;
  for_ (Z.to_nat nitems) 0 (fun i =>
    value ← cell items (i * FORM);
    push_cstr L value;;
    lua_rawseti L (-2) (i + 1)).

Definition freeformitems (items nitems : Z) : prog unit :=
  free_down (Z.to_nat nitems) FORM (fun i => free_cells items i 4);;
  free items.

Definition l_bsddialog_form (L : nat) : prog Z :=
  args ← dialog_args L;
  formrows ← luaL_checkinteger L 5;
  its ← checkformitems L 6;
  let '(items, nitems) := its : Z * Z in
  focus ← (if major then
             focus ← luaL_checkinteger L 7;
             mret [AZ (to_int (focus - 1))]
           else mret []);
  rv ← call "bsddialog_form" (args ++ [AZ (to_uint formrows); AZ nitems; AZ items] ++ (focus : list carg));
  if rc rv =? cst "BSDDIALOG_ERROR" then
    freeformitems items nitems;;
    bsd_error L "bsddialog_form"
  else
    lua_pushinteger L (rc rv);;
    pushformitems L items nitems;;
    freeformitems items nitems;;
    if major then
      lua_pushinteger L (to_int (out_int 0 rv + 1));;
      mret 3
    else mret 2.

(** *** Gauges *)

Definition l_bsddialog_gauge (L : nat) : prog Z :=
  args ← dialog_args L;
  perc ← luaL_checkinteger L 5;
  top ← lua_gettop L;
  more ← (if top =? 5 then mret (AZ (-1) :: AZ 0 :: (if major then [AZ 0] else []))
          else
            fd ← checkfd L 6;
            sep ← luaL_checkstring L 7;
            if major then
              end_ ← luaL_checkstring L 8;
              mret [AZ fd; AS sep; AS end_]
            else mret [AZ fd; AS sep]);
  rv ← call "bsddialog_gauge" (args ++ AZ (to_uint perc) :: (more : list carg));
  or_error L "bsddialog_gauge" rv (push_ints L [rc rv]).

(** the labels, the percentages, and their number *)
Definition checkminibars (L : nat) (index : Z) : prog (Z * Z * Z) :=
  luaL_checktype L index TTABLE;;
  len ← luaL_len L index;
  minilabels ← calloc (to_size (len * sizeof_ptr)) (OArr (replicate (Z.to_nat len) (Some (AZ 0))));
  minipercs ← calloc (to_size (len * sizeof_int)) (OArr (replicate (Z.to_nat len) (Some (AZ 0))));
  if (minilabels =? 0) || (minipercs =? 0) then luaL_error L "no memory"
  else
    for_ (Z.to_nat len) 0 (fun i =>
      lua_geti L index (i + 1);;
      luaL_checktype L (-1) TTABLE;;
      lua_geti L (-1) 1;;
      label ← luaL_checkstring L (-1);
      p ← strdup label;
      set_elt minilabels i (AZ p);;
      lua_pop L 1;;
      lua_geti L (-1) 2;;
      perc ← luaL_checkinteger L (-1);
      set_elt minipercs i (AZ (to_int perc));;
      lua_pop L 1;;
      lua_pop L 1);;
    mret (minilabels, minipercs, to_uint len).

Definition freeminibars (minilabels minipercs nminibars : Z) : prog unit :=
  free_down (Z.to_nat nminibars) 1 (fun i => free_cells minilabels i 1);;
  free minilabels;;
  free minipercs.

Definition l_bsddialog_mixedgauge (L : nat) : prog Z :=
  args ← dialog_args L;
  mainperc ← luaL_checkinteger L 5;
  bars ← checkminibars L 6;
  let '(minilabels, minipercs, nminibars) := bars : Z * Z * Z in
  rv ← call "bsddialog_mixedgauge" (args ++ [AZ (to_uint mainperc); AZ nminibars; AZ minilabels; AZ minipercs]);
  freeminibars minilabels minipercs nminibars;;
  or_error L "bsddialog_mixedgauge" rv (push_ints L [rc rv]).

(** *** Groups of menus *)

(** type, nitems, items *)
Definition GROUP : Z := 3.
Definition sizeof_group : Z := cst "sizeof(struct bsddialog_menugroup)".

Definition checkmenugroups (L : nat) (index : Z) : prog (Z * Z) :=
  luaL_checktype L index TTABLE;;
  len ← luaL_len L index;
  groups ← calloc_items L len sizeof_group GROUP;
  for_ (Z.to_nat len) 0 (fun i =>
    lua_geti L index (i + 1);;
    luaL_checktype L (-1) TTABLE;;
    uint_member L groups (i * GROUP) "type";;
    lua_getfield L (-1) "items";;
    its ← checkmenuitems L (-1);
    let '(items, nitems) := its : Z * Z in
    set_elt groups (i * GROUP + 1) (AZ nitems);;
    set_elt groups (i * GROUP + 2) (AZ items);;
    lua_pop L 1;;
    lua_pop L 1);;
  mret (groups, to_uint len).

Definition freemenugroups (groups ngroups : Z) : prog unit :=
  free_down (Z.to_nat ngroups) GROUP (fun i =>
    items ← cell groups (i + 2);
    nitems ← cell groups (i + 1);
    freemenuitems items nitems);;
  free groups.

Definition l_bsddialog_mixedlist (L : nat) : prog Z :=
  args ← dialog_args L;
  menurows ← luaL_checkinteger L 5;
  grs ← checkmenugroups L 6;
  let '(groups, ngroups) := grs : Z * Z in
  focuslist ← luaL_checkinteger L 7;
  focusitem ← luaL_checkinteger L 8;
  rv ← call "bsddialog_mixedlist"
    (args ++ [AZ (to_uint menurows); AZ ngroups; AZ groups; AZ (to_int focuslist); AZ (to_int focusitem)]);
  freemenugroups groups ngroups;;
  or_error L "bsddialog_mixedlist" rv (push_ints L [rc rv; out_int 0 rv; out_int 1 rv]).

(** *** Others *)

Definition l_bsddialog_pause (L : nat) : prog Z :=
  args ← dialog_args L;
  seconds ← luaL_checkinteger L 5;
  rv ← call "bsddialog_pause" (args ++ [AZ (to_uint seconds)]);
  or_error L "bsddialog_pause" rv (push_ints L (rc rv :: (if major then [out_int 0 rv] else []))).

Definition l_bsddialog_rangebox (L : nat) : prog Z :=
  args ← dialog_args L;
  min ← luaL_checkinteger L 5;
  max ← luaL_checkinteger L 6;
  value ← luaL_checkinteger L 7;
  rv ← call "bsddialog_rangebox" (args ++ [AZ (to_int min); AZ (to_int max); AZ (to_int value)]);
  or_error L "bsddialog_rangebox" rv (push_ints L [rc rv; out_int 0 rv]).

(** ** Fields of a configuration *)

(** a table whose metamethods are closures of the configuration and the name of the group *)
Definition pushconfproxy (L : nat) : prog unit :=
  lua_createtable L 0 0;;
  lua_createtable L 0 2;;
  lua_pushvalue L 1;;
  lua_pushvalue L 2;;
  lua_pushcclosure L "l_bsddialog_conf_proxy_index" 2;;
  lua_setfield L (-2) "__index";;
  lua_pushvalue L 1;;
  lua_pushvalue L 2;;
  lua_pushcclosure L "l_bsddialog_conf_proxy_newindex" 2;;
  lua_setfield L (-2) "__newindex";;
  lua_setmetatable L (-2).

(** the metamethods get their upvalues, the configuration and the name of the group *)
Definition upvalue (ups : list value) (i : nat) : value := default VNil (ups !! (i - 1)%nat).

(** [luaL_checkstring] of an upvalue; [pushconfproxy] leaves a string there, as the caller has
    checked argument 2 *)
Definition checkstring_up (ups : list value) (i : nat) : prog string :=
  match upvalue ups i with
  | VStr s => mret (cstr s)
  | _ => halts (EHalt (Unspec "luaL_checkstring of an upvalue that is not a string"))
  end.

(** what [lua_gettable] and [lua_settable] do with a userdata: the function in this field of its
    metatable, to be called with it *)
Definition conf_metamethod (L : nat) (conf : value) (event : string) : prog unit :=
  lua L (Push conf);;
  lua_getmetatable L (-1);;
  lua_getfield L (-1) event;;
  lua_remove L (-2);;
  lua_insert L (-2).

Definition l_bsddialog_conf_proxy_index (ups : list value) (L : nat) : prog Z :=
  parent ← checkstring_up ups 2;
  child ← luaL_checkstring L 2;
  lua_pushstring L (parent +:+ "." +:+ child);;
  conf_metamethod L (upvalue ups 1) "__index";;
  lua_pushvalue L (-3);;
  lua_remove L (-4);;
  lua_call1 L 2;;
  mret 1.

Definition l_bsddialog_conf_proxy_newindex (ups : list value) (L : nat) : prog Z :=
  parent ← checkstring_up ups 2;
  child ← luaL_checkstring L 2;
  lua_pushstring L (parent +:+ "." +:+ child);;
  lua_pushvalue L 3;;
  conf_metamethod L (upvalue ups 1) "__newindex";;
  lua_pushvalue L (-4);;
  lua_remove L (-5);;
  lua_pushvalue L (-4);;
  lua_remove L (-5);;
  lua_call1 L 3;;
  lua_pop L 1;;
  mret 0.

Inductive conf_kind :=
  | CBool
  | CInt        (** an [int] *)
  | CUint       (** an [unsigned int] *)
  | CStr
  | CChar       (** a character, as a string *)
  | CProxy.

Definition if_major {A} (l : list A) : list A := if major then l else [].
Definition unless_major {A} (l : list A) : list A := if major then [] else l.

(** the fields of both functions; of [l_bsddialog_conf_index] the groups as well *)
Definition conf_writes : list (string * conf_kind) :=
  [("ascii_lines", CBool); ("auto_minheight", CUint); ("auto_minwidth", CUint); ("auto_topmargin", CUint);
   ("auto_downmargin", CUint); ("bottomtitle", CStr); ("clear", CBool); ("no_lines", CBool); ("shadow", CBool);
   ("sleep", CUint); ("title", CStr); ("y", CInt); ("x", CInt); ("key.enable_esc", CBool); ("key.f1_file", CStr);
   ("key.f1_message", CStr); ("text.cols_per_row", CUint)] ++
  if_major [("text.escape", CBool)] ++
  [("text.tablen", CUint); ("menu.align_left", CBool); ("menu.no_desc", CBool); ("menu.no_name", CBool);
   ("menu.shortcut_buttons", CBool); ("form.securech", CChar)] ++
  if_major [("date.format", CStr)] ++
  [("button.always_active", CBool)] ++
  if_major [("button.left1_label", CStr); ("button.left2_label", CStr); ("button.left3_label", CStr)] ++
  [("button.without_ok", CBool); ("button.ok_label", CStr); ("button.with_extra", CBool); ("button.extra_label", CStr);
   ("button.without_cancel", CBool); ("button.cancel_label", CStr); ("button.default_cancel", CBool);
   ("button.with_help", CBool); ("button.help_label", CStr)] ++
  if_major [("button.right1_label", CStr); ("button.right2_label", CStr); ("button.right3_label", CStr)] ++
  unless_major [("button.generic1_label", CStr); ("button.generic2_label", CStr)] ++
  [("button.default_label", CStr)].

Definition conf_reads_top : list (string * conf_kind) :=
  [("ascii_lines", CBool); ("auto_minheight", CUint); ("auto_minwidth", CUint); ("auto_topmargin", CUint);
   ("auto_downmargin", CUint); ("bottomtitle", CStr); ("clear", CBool); ("no_lines", CBool); ("shadow", CBool);
   ("sleep", CUint); ("title", CStr); ("y", CInt); ("x", CInt); ("key", CProxy); ("key.enable_esc", CBool);
   ("key.f1_file", CStr); ("key.f1_message", CStr); ("text", CProxy); ("text.cols_per_row", CUint)] ++
  if_major [("text.escape", CBool)] ++
  [("text.tablen", CUint); ("menu", CProxy); ("menu.align_left", CBool); ("menu.no_desc", CBool);
   ("menu.no_name", CBool); ("menu.shortcut_buttons", CBool); ("form", CProxy); ("form.securech", CChar)] ++
  if_major [("date", CProxy); ("date.format", CStr)].

Definition conf_reads_button : list (string * conf_kind) :=
  [("button", CProxy); ("button.always_active", CBool)] ++
  if_major [("button.left1_label", CStr); ("button.left2_label", CStr); ("button.left3_label", CStr)] ++
  [("button.without_ok", CBool); ("button.ok_label", CStr); ("button.with_extra", CBool); ("button.extra_label", CStr);
   ("button.without_cancel", CBool); ("button.cancel_label", CStr); ("button.default_cancel", CBool);
   ("button.with_help", CBool); ("button.help_label", CStr)] ++
  if_major [("button.right1_label", CStr); ("button.right2_label", CStr); ("button.right3_label", CStr)] ++
  unless_major [("button.generic1_label", CStr); ("button.generic2_label", CStr)] ++
  [("button.default_label", CStr)].

Definition conf_reads : list (string * conf_kind) := conf_reads_top ++ conf_reads_button.

Fixpoint find_kind (key : string) (l : list (string * conf_kind)) : option conf_kind :=
  match l with
  | [] => None
  | (name, k) :: l => if String.eqb key name then Some k else find_kind key l
  end.

(** the string with the byte [z] only, or none for the terminator *)
Definition char_string (z : Z) : string :=
  if z =? 0 then EmptyString else String (ascii_of_nat (Z.to_nat (to_uchar z))) EmptyString.

Definition push_conf (L : nat) (conf : Z) (key : string) (k : conf_kind) : prog unit :=
  match k with
  | CBool => v ← load conf (struct_int key); lua_pushboolean L (negb (v =? 0))
  | CInt | CUint => v ← load conf (struct_int key); lua_pushinteger L v
  | CStr => p ← load conf (struct_int key); push_cstr L p
  | CChar => v ← load conf (struct_int key); lua_pushstring L (char_string v)
  | CProxy => pushconfproxy L
  end.

Definition l_bsddialog_conf_index (L : nat) : prog Z :=
  conf ← luaL_checkudata L 1 BSDDIALOG_CONF_METATABLE;
  key ← luaL_checkstring L 2;
  match find_kind key conf_reads with
  | Some k => push_conf L conf key k
  | None => lua_pushnil L
  end;;
  mret 1.

(** the first character of a string, the terminator included *)
Definition first_char (s : string) : Z :=
  match s with String c _ => to_char (Z.of_nat (nat_of_ascii c)) | EmptyString => 0 end.

Definition set_conf (L : nat) (conf : Z) (key : string) (k : conf_kind) : prog unit :=
  match k with
  | CBool => b ← lua_toboolean L 3; load conf (struct_set key (AZ (Z_of_bool b)))
  | CInt => v ← lua_tointeger L 3; load conf (struct_set key (AZ (to_int v)))
  | CUint => v ← lua_tointeger L 3; load conf (struct_set key (AZ (to_uint v)))
  | CStr =>
      old ← load conf (struct_int key);
      free old;;
      s ← opt_tostring L 3;
      match s with
      | None => load conf (struct_set key (AZ 0))
      | Some s =>
          p ← strdup s;
          load conf (struct_set key (AZ p));;
          if p =? 0 then luaL_error L "no memory" else mret tt
      end
  | CChar =>
      s ← opt_tostring L 3;
      match s with
      | None => undefined "access through a null pointer"
      | Some s => load conf (struct_set key (AZ (first_char s)))
      end
  | CProxy => mret tt
  end.

Definition l_bsddialog_conf_newindex (L : nat) : prog Z :=
  conf ← luaL_checkudata L 1 BSDDIALOG_CONF_METATABLE;
  key ← luaL_checkstring L 2;
  match find_kind key conf_writes with
  | Some k =>
      set_conf L conf key k;;
      mret 0
  | None => luaL_error L ("no such config field `" +:+ key +:+ "'")
  end.

(** the strings that [l_bsddialog_conf_gc] frees, in its order *)
Definition conf_strings : list string :=
  ["bottomtitle"; "title"; "key.f1_file"; "key.f1_message"] ++
  if_major ["date.format"; "button.left1_label"; "button.left2_label"; "button.left3_label"] ++
  ["button.ok_label"; "button.extra_label"; "button.cancel_label"; "button.help_label"] ++
  if_major ["button.right1_label"; "button.right2_label"; "button.right3_label"] ++
  unless_major ["button.generic1_label"; "button.generic2_label"] ++
  ["button.default_label"].

Fixpoint free_fields (conf : Z) (fields : list string) : prog unit :=
  match fields with
  | [] => mret tt
  | field :: fields =>
      p ← load conf (struct_int field);
      free p;;
      free_fields conf fields
  end.

Definition l_bsddialog_conf_gc (L : nat) : prog Z :=
  conf ← luaL_checkudata L 1 BSDDIALOG_CONF_METATABLE;
  free_fields conf conf_strings;;
  mret 0.

(** ** Colors and themes *)

Definition l_bsddialog_color (L : nat) : prog Z :=
  foreground ← luaL_checkinteger L 1;
  background ← luaL_checkinteger L 2;
  flags ← luaL_checkinteger L 3;
  color ← call "bsddialog_color" [AZ (to_uint foreground); AZ (to_uint background); AZ (to_uint flags)];
  or_error L "bsddialog_color" color (push_ints L [rc color]).

Definition l_bsddialog_color_attrs (L : nat) : prog Z :=
  color ← luaL_checkinteger L 1;
  r ← call "bsddialog_color_attrs" [AZ (to_int color)];
  or_error L "bsddialog_color_attrs" r (push_ints L [out_int 0 r; out_int 1 r; out_int 2 r]).

Definition l_bsddialog_hascolors (L : nat) : prog Z :=
  r ← call "bsddialog_hascolors" [];
  lua_pushboolean L (negb (rc r =? 0));;
  mret 1.

Definition l_bsddialog_set_default_theme (L : nat) : prog Z :=
  theme ← luaL_checkinteger L 1;
  r ← call "bsddialog_set_default_theme" [AZ (to_uint theme)];
  or_error L "bsddialog_set_default_theme" r (mret 0).

(** the tables of a theme with their fields *)
Definition ints (l : list string) : list (string * conf_kind) := (fun name => (name, CInt)) <$> l.

Definition theme_fields : list (string * list (string * conf_kind)) :=
  [("screen", ints ["color"]);
   ("shadow", [("color", CInt); ("y", CUint); ("x", CUint)]);
   ("dialog", [("color", CInt); ("delimtitle", CBool)] ++
              ints ["titlecolor"; "lineraisecolor"; "linelowercolor"; "bottomtitlecolor"; "arrowcolor"]);
   ("menu", if_major (ints ["f_prefixcolor"; "prefixcolor"]) ++
            ints ["f_selectorcolor"; "selectorcolor"; "f_namecolor"; "namecolor"; "f_desccolor"; "desccolor";
                  "f_shortcutcolor"; "shortcutcolor"; "bottomdesccolor"] ++
            if_major (ints ["sepnamecolor"; "sepdesccolor"]));
   ("form", ints ["f_fieldcolor"; "fieldcolor"; "readonlycolor"; "bottomdesccolor"]);
   ("bar", ints ["f_color"; "color"]);
   ("button", [("minmargin", CUint); ("maxmargin", CUint); ("leftdelim", CChar); ("rightdelim", CChar)] ++
              ints ["f_delimcolor"; "delimcolor"; "f_color"; "color"; "f_shortcutcolor"; "shortcutcolor"])].

(** the members of the theme are the outs of the call, in this order; what is left *)
Fixpoint push_theme_fields (L : nat) (theme : list carg) (fields : list (string * conf_kind)) : prog (list carg) :=
  match fields, theme with
  | (name, k) :: fields, AZ v :: theme =>
      match k with
      | CBool => lua_pushboolean L (negb (v =? 0))
      | CChar => lua_pushstring L (char_string v)
      | _ => lua_pushinteger L v
      end;;
      lua_setfield L (-2) name;;
      push_theme_fields L theme fields
  | _, _ => mret theme
  end.

Fixpoint push_groups (L : nat) (theme : list carg) (groups : list (string * list (string * conf_kind))) : prog unit :=
  match groups with
  | [] => mret tt
  | (group, fields) :: groups =>
      lua_createtable L 0 (Z.of_nat (length fields));;
      theme ← push_theme_fields L theme fields;
      lua_setfield L (-2) group;;
      push_groups L theme groups
  end.

Definition pushtheme (L : nat) (theme : list carg) : prog unit :=
  lua_createtable L 0 7;;
  push_groups L theme theme_fields.

Definition l_bsddialog_get_theme (L : nat) : prog Z :=
  theme ← call "bsddialog_get_theme" [];
  or_error L "bsddialog_get_theme" theme (
    pushtheme L (outs theme);;
    mret 1).

(** [luaL_getsubtable] of lauxlib, for a positive index *)
Definition luaL_getsubtable (L : nat) (idx : Z) (fname : string) : prog bool :=
  t ← lua_getfield L idx fname;
  if is_type t TTABLE then mret true
  else
    lua_pop L 1;;
    lua_newtable L;;
    lua_pushvalue L (-1);;
    lua_setfield L idx fname;;
    mret false.

Fixpoint check_theme_fields (L : nat) (fields : list (string * conf_kind)) : prog (list carg) :=
  match fields with
  | [] => mret []
  | (name, k) :: fields =>
      lua_getfield L (-1) name;;
      v ← match k with
          | CBool => b ← lua_toboolean L (-1); mret (Z_of_bool b)
          | CChar =>
              s ← opt_tostring L (-1);
              mret (match s with Some s => first_char s | None => 0 end)
          | CUint => v ← lua_tointeger L (-1); mret (to_uint v)
          | _ => v ← lua_tointeger L (-1); mret (to_int v)
          end;
      lua_pop L 1;;
      rest ← check_theme_fields L fields;
      mret (AZ v :: rest)
  end.

Fixpoint check_groups (L : nat) (index : Z) (groups : list (string * list (string * conf_kind))) : prog (list carg) :=
  match groups with
  | [] => mret []
  | (group, fields) :: groups =>
      luaL_getsubtable L index group;;
      members ← check_theme_fields L fields;
      lua_pop L 1;;
      rest ← check_groups L index groups;
      mret (members ++ rest)
  end.

Definition checktheme (L : nat) (index : Z) : prog (list carg) :=
  luaL_checktype L index TTABLE;;
  check_groups L index theme_fields.

Definition l_bsddialog_set_theme (L : nat) : prog Z :=
  theme ← checktheme L 1;
  r ← call "bsddialog_set_theme" theme;
  or_error L "bsddialog_set_theme" r (mret 0).

(** ** Opening *)

Definition l_bsddialog_funcs : list (string * string) :=
  [("init", "l_bsddialog_init"); ("init_notheme", "l_bsddialog_init_notheme")] ++
  if_major [("inmode", "l_bsddialog_inmode"); ("clear", "l_bsddialog_clear"); ("refresh", "l_bsddialog_refresh")] ++
  [("_end", "l_bsddialog_end"); ("initconf", "l_bsddialog_initconf"); ("backtitle", "l_bsddialog_backtitle");
   ("calendar", "l_bsddialog_calendar"); ("checklist", "l_bsddialog_checklist");
   ("datebox", "l_bsddialog_datebox"); ("form", "l_bsddialog_form"); ("gauge", "l_bsddialog_gauge");
   ("infobox", "l_bsddialog_infobox"); ("menu", "l_bsddialog_menu");
   ("mixedgauge", "l_bsddialog_mixedgauge"); ("mixedlist", "l_bsddialog_mixedlist");
   ("msgbox", "l_bsddialog_msgbox"); ("pause", "l_bsddialog_pause"); ("radiolist", "l_bsddialog_radiolist");
   ("rangebox", "l_bsddialog_rangebox"); ("textbox", "l_bsddialog_textbox");
   ("timebox", "l_bsddialog_timebox"); ("yesno", "l_bsddialog_yesno"); ("color", "l_bsddialog_color");
   ("color_attrs", "l_bsddialog_color_attrs"); ("hascolors", "l_bsddialog_hascolors");
   ("set_default_theme", "l_bsddialog_set_default_theme"); ("get_theme", "l_bsddialog_get_theme");
   ("set_theme", "l_bsddialog_set_theme")].

Definition l_bsddialog_conf_meta : list (string * string) :=
  [
   ("__index", "l_bsddialog_conf_index"); ("__newindex", "l_bsddialog_conf_newindex");
   ("__gc", "l_bsddialog_conf_gc")].

Definition bsddialog_consts : list (string * Z) :=
  idents_of "BSDDIALOG_" ["ERROR"; "OK"; "YES"; "CANCEL"; "NO"; "HELP"; "EXTRA"; "TIMEOUT"; "ESC"] ++
  if_major (idents_of "BSDDIALOG_" ["LEFT1"; "LEFT2"; "LEFT3"; "RIGHT1"; "RIGHT2"; "RIGHT3"]) ++
  unless_major (idents_of "BSDDIALOG_" ["GENERIC1"; "GENERIC2"]) ++
  idents_of "BSDDIALOG_" [
     "FULLSCREEN"; "AUTOSIZE"; "CENTER"; "MG_SUCCEEDED"; "MG_FAILED"; "MG_PASSED"; "MG_COMPLETED"; "MG_CHECKED";
     "MG_DONE"; "MG_SKIPPED"; "MG_INPROGRESS"; "MG_BLANK"; "MG_NA"; "MG_PENDING"; "FIELDHIDDEN"; "FIELDREADONLY";
     "FIELDNOCOLOR"; "FIELDCURSOREND"; "FIELDEXTEND"; "FIELDSINGLEBYTE"; "CHECKLIST"; "RADIOLIST"; "SEPARATOR"].

Definition luaopen_bsddialog (L : nat) : prog Z :=
  luaL_newmetatable L BSDDIALOG_CONF_METATABLE;;
  luaL_setfuncs L l_bsddialog_conf_meta;;
  luaL_newlib L l_bsddialog_funcs;;
  define_string L "VERSION" (scst "LIBBSDDIALOG_VERSION");;
  define_all L bsddialog_consts;;
  mret 1.
End bsddialog.
