(* ===== verification/CmemProps.v ===== *)
(** * Reading parts of buffers, and the bytes of integers

    Lemmas for the theorems about modules that take apart what the kernel wrote into a
    buffer: where a part of a buffer lies ([substring_at]), what loading it gives
    ([run_load_bytes]), and integers as bytes, lowest first ([le_value_bytes]). *)

From Stdlib Require Import Ascii.
From S2P Require Import Prelude LuaApi Arrays Machine Capi Samples Utils Cmem Uio.

(** ** Strings *)

Lemma substring_prefix (s t : string) : String.substring 0 (String.length s) (s +:+ t) = s.
Proof.
  induction s as [|c s IH]; [by destruct t|].
  change (String.substring 0 (String.length (String c s)) (String c s +:+ t))
    with (String c (String.substring 0 (String.length s) (s +:+ t))). by rewrite IH.
Qed.

Lemma substring_skip (a s : string) n m :
  String.substring (String.length a + n) m (a +:+ s) = String.substring n m s.
Proof. induction a as [|c a IH]; [done|]. exact IH. Qed.

(** the part of a string behind a prefix *)
Lemma substring_at (a s b : string) :
  String.substring (String.length a) (String.length s) (a +:+ (s +:+ b)) = s.
Proof.
  replace (String.length a) with (String.length a + 0)%nat by lia.
  rewrite substring_skip. apply substring_prefix.
Qed.

Lemma string_length_cons c s : String.length (String c s) = S (String.length s).
Proof. done. Qed.

(** ** The bytes of an integer *)

Lemma nat_of_byte (n : nat) : (n < 256)%nat -> nat_of_ascii (ascii_of_nat n) = n.
Proof. apply nat_ascii_embedding. Qed.

Lemma ascii_range (c : ascii) : 0 <= Z.of_nat (nat_of_ascii c) < 256.
Proof. pose proof (nat_ascii_bounded c). lia. Qed.

Lemma le_bytes_length (n : nat) z : String.length (le_bytes n z) = n.
Proof. revert z. induction n as [|n IH]; intros z; [done|]. cbn. by rewrite IH. Qed.

(** an integer is its bytes, modulo what fits *)
Lemma le_value_bytes (n : nat) z : le_value (le_bytes n z) = z mod 256 ^ Z.of_nat n.
Proof.
  revert z. induction n as [|n IH]; intros z; cbn [le_bytes le_value]; [by rewrite Z.mod_1_r|].
  pose proof (Z.mod_pos_bound z 256 ltac:(lia)).
  rewrite nat_of_byte, Z2Nat.id, IH by lia.
  rewrite Nat2Z.inj_succ, Z.pow_succ_r, Z.rem_mul_r by lia. lia.
Qed.

Lemma le_value_range s : 0 <= le_value s < 256 ^ Z.of_nat (String.length s).
Proof.
  induction s as [|c s IH]; [done|]. cbn [le_value]. rewrite string_length_cons, Nat2Z.inj_succ, Z.pow_succ_r by lia.
  pose proof (ascii_range c). lia.
Qed.

(** the conversions only depend on the bits that are kept *)
Lemma wraps_mod k z : 0 < k -> wraps k (z mod 2 ^ k) = wraps k z.
Proof. intros Hk. unfold wraps. by rewrite Zplus_mod_idemp_l. Qed.

Lemma wrapu_mod k z : wrapu k (z mod 2 ^ k) = wrapu k z.
Proof. unfold wrapu. apply Zmod_mod. Qed.

(** ** Tables with fields *)

Definition with_fields (m : gmap key value) (kvs : list (string * value)) : gmap key value :=
  foldl (fun m kv => <[KStr kv.1 := kv.2]> m) m kvs.

Definition fields (kvs : list (string * value)) : table := Table (with_fields ∅ kvs) None.

Fixpoint str_entries (r : cret) (i : nat) (names : list string) : list (string * value) :=
  match names with [] => [] | name :: names => (name, VStr (cstr (out_str i r))) :: str_entries r (S i) names end.

Fixpoint int_entries (r : cret) (i : nat) (names : list string) : list (string * value) :=
  match names with [] => [] | name :: names => (name, VInt (out_int i r)) :: int_entries r (S i) names end.

(** ** Loading *)

Section run.
Context `{LuaSem} {S : Type} `{Libc S} (C : clib S).
Implicit Types (w : world S lstate) (L : nat) (p : Z).
Abbreviation rn := (run (documented C)).

(** [x], which lies behind [a] in the buffer *)
Lemma run_load_bytes L p len a x b st w :
  wm w !! p = Some (OBuf len (a +:+ (x +:+ b))) ->
  Z.of_nat (String.length (a +:+ (x +:+ b))) <= len ->
  rn (load_bytes p (Z.of_nat (String.length a)) (Z.of_nat (String.length x))) (put L st w) = (Ok x, put L st w).
Proof.
  intros Hm Hl. pose proof Hl as Hl'. rewrite !string_app_length, !Nat2Z.inj_add in Hl'.
  unfold load_bytes. rewrite run_bind, (run_read C p _ (OBuf len (a +:+ (x +:+ b))) (Some (Some x))); [done|done|].
  unfold bytes_at. rewrite !string_app_length, !Nat2Z.inj_add, !Nat2Z.id, substring_at.
  rewrite (proj2 (Z.leb_le 0 _)), (proj2 (Z.leb_le 0 _)), (proj2 (Z.leb_le _ len)) by lia. cbn [andb].
  by rewrite (proj2 (Z.leb_le _ _)) by lia.
Qed.

(** the same for an array on the stack *)
Lemma run_local_bytes L size s a x b st w :
  s = a +:+ (x +:+ b) -> Z.of_nat (String.length s) <= size ->
  rn (local_bytes size s (Z.of_nat (String.length a)) (Z.of_nat (String.length x))) (put L st w) = (Ok x, put L st w).
Proof.
  intros -> Hl. pose proof Hl as Hl'. rewrite !string_app_length, !Nat2Z.inj_add in Hl'.
  unfold local_bytes, bytes_at. rewrite !string_app_length, !Nat2Z.inj_add, !Nat2Z.id, substring_at.
  rewrite (proj2 (Z.leb_le 0 _)), (proj2 (Z.leb_le 0 _)), (proj2 (Z.leb_le _ size)) by lia. cbn [andb].
  by rewrite (proj2 (Z.leb_le _ _)) by lia.
Qed.

(** a negative number of bytes *)
Lemma run_load_bytes_neg L p len s off n st w :
  wm w !! p = Some (OBuf len s) -> n < 0 ->
  rn (load_bytes p off n) (put L st w) = (Halt (UB "access outside of an object"), put L st w).
Proof.
  intros Hm Hn. unfold load_bytes. rewrite run_bind, (run_read C p _ (OBuf len s) None); [apply run_undefined|done|].
  unfold bytes_at. by rewrite (proj2 (Z.leb_gt 0 n)), andb_false_r by lia.
Qed.

(** all that was written *)
Lemma run_push_all L p len s vs n h w :
  p ≠ 0 -> wm w !! p = Some (OBuf len s) -> Z.of_nat (String.length s) <= len ->
  rn (push_bytes L p (Z.of_nat (String.length s))) (put L (LS vs (1 + n) h) w) =
  (Ok tt, put L (LS (VStr s :: vs) n h) w).
Proof.
  intros Hp Hm Hl. unfold push_bytes. rewrite (proj2 (Z.eqb_neq p 0)) by done. cbn [andb].
  rewrite run_bind, (run_read C p _ (OBuf len s) (Some s)); [cbn [andthen]; by lua_run|done|].
  cbn [read_bytes]. rewrite (proj2 (Z.leb_le _ len)), (proj2 (Z.leb_le _ _)) by lia. by rewrite Nat2Z.id, substring_all.
Qed.

(** [lua_rawseti(L, -2, luaL_len(L, -2) + 1)]: the value on the top becomes the last element *)
Lemma run_append {A} L x xs t vs n h w (k : prog A) :
  x ≠ VNil -> tabs h !! t = Some (Table (arr xs) None) ->
  rn (i ← luaL_len L (-2); lua_rawseti L (-2) (i + 1);; k) (put L (LS (x :: VTab t :: vs) n h) w) =
  rn k (put L (LS (VTab t :: vs) (1 + n) (set_tab t (Table (arr (xs ++ [x])) None) h)) w).
Proof.
  intros Hx Ht. rewrite run_bind, run_lua. doc_eval. rewrite Ht. cbn [tmeta]. rewrite seq_len_arr. doc_eval.
  rewrite run_bind, run_lua. doc_eval. rewrite Ht. doc_eval. by rewrite raw_set_arr.
Qed.

(** [h'] differs from [h] in [t] and in new tables at most *)
Definition same_but (t : nat) (h h' : heap) : Prop :=
  (forall i, i ≠ t -> (i < fresh h)%nat -> tabs h' !! i = tabs h !! i) /\
  uds h' = uds h /\ funs h' = funs h /\ reg h' = reg h /\ globals h' = globals h /\ (fresh h <= fresh h')%nat.

(** [lua_rawseti(L, -2, i)] for the next element of an array of tables *)
Lemma run_rawseti_arr L k ids id t vs n h w :
  k = Z.of_nat (length ids) + 1 -> tabs h !! t = Some (Table (arr (VTab <$> ids)) None) ->
  rn (lua_rawseti L (-2) k) (put L (LS (VTab id :: VTab t :: vs) n h) w) =
  (Ok tt, put L (LS (VTab t :: vs) (1 + n) (set_tab t (Table (arr (VTab <$> ids ++ [id])) None) h)) w).
Proof.
  intros -> Ht. rewrite run_lua. doc_eval. rewrite Ht. doc_eval.
  rewrite <- (length_fmap VTab ids), raw_set_arr by done. by rewrite fmap_app.
Qed.

(** a new table *)
Lemma run_newtable L vs n h w :
  rn (lua_newtable L) (put L (LS vs (1 + n) h) w) =
  (Ok tt, put L (LS (VTab (fresh h) :: vs) n (alloc_tab (Table (arr []) None) h)) w).
Proof. rewrite run_lua. doc_eval. by rewrite arr_nil. Qed.

(** emptying the stack *)
Lemma run_clear L vs n h w :
  rn (lua_settop L 0) (put L (LS vs n h) w) = (Ok tt, put L (LS [] (n + length vs) h) w).
Proof.
  rewrite run_lua. unfold doc, doc_settop. cbn [stk room hp Z.ltb Z.compare Z.to_nat Nat.leb].
  by rewrite Nat.sub_0_r, drop_all.
Qed.

(** fields of the table on the top *)
Lemma run_int_field L k v t m vs n h w :
  tabs h !! t = Some (Table m None) ->
  rn (int_field L k v) (put L (LS (VTab t :: vs) (1 + n) h) w) =
  (Ok tt, put L (LS (VTab t :: vs) (1 + n) (set_tab t (Table (<[KStr k := VInt v]> m) None) h)) w).
Proof. intros Ht. unfold int_field. lua_run. know Ht. cbn [tmap tmeta]. by destruct (m !! KStr k). Qed.

Lemma run_str_field L k s t m vs n h w :
  tabs h !! t = Some (Table m None) ->
  rn (str_field L k s) (put L (LS (VTab t :: vs) (1 + n) h) w) =
  (Ok tt, put L (LS (VTab t :: vs) (1 + n) (set_tab t (Table (<[KStr k := VStr (cstr s)]> m) None) h)) w).
Proof. intros Ht. unfold str_field. lua_run. know Ht. cbn [tmap tmeta]. by destruct (m !! KStr k). Qed.

Lemma run_getfield L i k v t x vs n h w :
  at_ vs i = Val (VTab t) -> tabs h !! t = Some (Table x None) -> x !! KStr k = Some v ->
  rn (lua_getfield L i k) (put L (LS vs (1 + n) h) w) = (Ok (type_of v), put L (LS (v :: vs) n h) w).
Proof.
  intros Ha Ht Hx. rewrite run_lua. unfold doc. doc_eval. know Ha, Ht. cbn [tmap tmeta]. rewrite Hx.
  unfold raw_get. cbn [tmap]. by rewrite Hx.
Qed.

Lemma run_str_fields L r names : forall i t m vs n h w,
  tabs h !! t = Some (Table m None) ->
  rn (str_fields L r i names) (put L (LS (VTab t :: vs) (1 + n) h) w) =
  (Ok tt, put L (LS (VTab t :: vs) (1 + n) (set_tab t (Table (with_fields m (str_entries r i names)) None) h)) w).
Proof.
  induction names as [|name names IH]; intros i t m vs n h w Ht; cbn [str_fields]; [by rewrite run_ret, set_tab_id|].
  rewrite run_bind, (run_str_field L name _ t m) by done. cbn [andthen].
  by rewrite (IH _ _ _ _ _ _ _ (tabs_set_tab _ _ _)), set_tab_set_tab.
Qed.

Lemma run_int_fields L r names : forall i t m vs n h w,
  tabs h !! t = Some (Table m None) ->
  rn (int_fields L r i names) (put L (LS (VTab t :: vs) (1 + n) h) w) =
  (Ok tt, put L (LS (VTab t :: vs) (1 + n) (set_tab t (Table (with_fields m (int_entries r i names)) None) h)) w).
Proof.
  induction names as [|name names IH]; intros i t m vs n h w Ht; cbn [int_fields]; [by rewrite run_ret, set_tab_id|].
  rewrite run_bind, (run_int_field L name _ t m) by done. cbn [andthen].
  by rewrite (IH _ _ _ _ _ _ _ (tabs_set_tab _ _ _)), set_tab_set_tab.
Qed.

Lemma tabs_alloc_tab x h : tabs (alloc_tab x h) !! fresh h = Some x.
Proof. apply lookup_insert_eq. Qed.

Lemma set_alloc_tab x y h : set_tab (fresh h) y (alloc_tab x h) = alloc_tab y h.
Proof. unfold alloc_tab. change (set_tab (fresh h) y (bump ?g)) with (bump (set_tab (fresh h) y g)). by rewrite set_tab_set_tab. Qed.
End run.
