(* ===== verification/ExtattrProps.v ===== *)
(** * What the loops of lua_extattr.c do

    The system call reports the size of the data when it is given no buffer and fills one
    that is large enough ([attr_lib]): two rounds of [attr_read] are enough, whatever the
    size.  A list of names, each with its length in front ([name_list]), comes back as the
    array of the names; a name of 128 bytes or more is read with a negative length where
    [char] is signed. *)

From Stdlib Require Import Ascii.
From S2P Require Import Prelude LuaApi Arrays Machine Capi Samples Utils Modules Cmem CmemProps Uio Wrapper Extattr.

(** [extattr_get_*(2)], [extattr_list_*(2)] with these arguments, where [value] is the data
    there is, and [bad] a call that fails *)
Record attr_lib {S : Type} `{Libc S} (C : clib S) (f : string) (args : list carg)
  (value : S -> option string) (bad : S -> S) : Prop := {
  al_ask : forall s w, value (wx w) = Some s ->
    c_call C f (args ++ [AZ 0; AZ 0]) w = (Ok (Cret (Z.of_nat (String.length s)) []), w);
  al_get : forall s p n w, value (wx w) = Some s -> p ≠ 0 -> Z.of_nat (String.length s) <= n ->
    c_call C f (args ++ [AZ p; AZ n]) w = (Ok (Cret (Z.of_nat (String.length s)) []), poke p (OBuf n s) w);
  al_fail : forall p n w, value (wx w) = None ->
    c_call C f (args ++ [AZ p; AZ n]) w = (Ok (Cret (-1) []), set_x (bad (wx w)) w)
}.

(** the list of attribute names as the kernel writes it *)
Fixpoint name_list (names : list string) : string :=
  match names with
  | [] => EmptyString
  | s :: names => String (ascii_of_nat (String.length s)) (s +:+ name_list names)
  end.

Section extattr.
Context `{LuaSem} `{Consts} {S : Type} `{Libc S} (C : clib S).
Implicit Types (w : world S lstate) (L : nat) (h : heap) (p : Z).
Abbreviation rn := (run (documented C)).

Lemma run_attr_read fuel L f args value bad k s st w :
  attr_lib C f args value bad -> value (wx w) = Some s -> roomy w -> Z.of_nat (String.length s) < 2 ^ 62 ->
  let n := Z.of_nat (String.length s) in
  rn (attr_read (2 + fuel) L f args 0 0 k) (put L st w) =
  if n =? 0 then rn (k 0 0) (put L st w)
  else rn (k (wnext w) n) (put L st (poke (wnext w) (OBuf (n * 2) s) (set_next (wnext w + 1) w))).
Proof.
  intros HC Hv [Hp _ Ho] Hs n. cbn [attr_read Nat.add].
  rewrite run_bind, run_call, (al_ask _ _ _ _ _ HC s) by done. cbn [andthen rc]. fold n.
  rewrite (proj2 (Z.eqb_neq n (-1))) by lia. destruct (Z.eqb_spec n 0) as [->|Hn]; [done|].
  rewrite (proj2 (Z.leb_gt _ _)) by lia. rewrite run_bind, run_free_null. cbn [andthen].
  rewrite to_size_small by lia. rewrite run_bind, run_malloc_ok by done. cbn [andthen].
  rewrite (proj2 (Z.eqb_neq _ _)) by lia.
  rewrite run_bind, run_call, (al_get _ _ _ _ _ HC s) by (done || lia). cbn [andthen rc]. fold n.
  rewrite (proj2 (Z.eqb_neq n (-1))), (proj2 (Z.leb_le _ _)) by lia.
  by rewrite !poke_put, poke_poke.
Qed.

Lemma run_attr_fail fuel L f args value bad k vs m h w :
  attr_lib C f args value bad -> value (wx w) = None ->
  let e := c_errno (bad (wx w)) in
  rn (attr_read (1 + fuel) L f args 0 0 k) (put L (LS vs (3 + m) h) w) =
  (Ok 3, put L (LS (rev (failure e) ++ vs) m h) (set_x (bad (wx w)) w)).
Proof.
  intros HC Hv e. cbn [attr_read Nat.add]. rewrite run_bind, run_call, (al_fail _ _ _ _ _ HC) by done.
  cbn [andthen rc Z.eqb]. rewrite Pos.eqb_refl, run_bind, run_errno. cbn [andthen].
  rewrite set_x_put, run_bind, run_free_null. cbn [andthen].
  change (c_errno _) with e. apply (run_fail C L e vs m h).
Qed.

(** Reading an attribute of a file takes two rounds whatever its size: the result is
    exactly the bytes of the attribute, the buffer is given back, and nothing else changes;
    when the system fails, the result is nil, message and number. *)
Theorem get_file_value fuel L path ns name h w value bad :
  attr_lib C "extattr_get_file" [AS (cstr path); AZ (to_int ns); AS (cstr name)] value bad -> roomy w ->
  match value (wx w) with
  | Some s =>
      Z.of_nat (String.length s) < 2 ^ 62 ->
      exists w', executes C L (l_extattr_get_file (2 + fuel)) [VStr path; VInt ns; VStr name] h w
        (Ok [VStr s]) (put L (idle h) w') /\ wm w' = wm w /\ wx w' = wx w
  | None =>
      executes C L (l_extattr_get_file (2 + fuel)) [VStr path; VInt ns; VStr name] h w
        (Ok (failure (c_errno (bad (wx w))))) (put L (idle h) (set_x (bad (wx w)) w))
  end.
Proof.
  intros HC Hr. pose proof Hr as [Hp Hm Ho]. set (vs := [VStr path; VInt ns; VStr name]).
  assert (Hstart : rn (l_extattr_get_file (2 + fuel) L) (put L (frame vs h) w) =
    rn (attr_read (2 + fuel) L "extattr_get_file" [AS (cstr path); AZ (to_int ns); AS (cstr name)] 0 0 (get_done L))
      (put L (frame vs h) w)).
  { unfold l_extattr_get_file, luaL_checkstring, frame, vs. lua_run. done. }
  destruct (value (wx w)) as [s|] eqn:Hv.
  - intros Hs. rewrite (run_attr_read fuel L _ _ value bad _ s) in Hstart by done.
    set (n := Z.of_nat (String.length s)) in *. destruct (Z.eqb_spec n 0) as [Hn|Hn].
    + exists w. split; [|done]. destruct s; [|done].
      apply (executes_return C L _ _ h w [VStr ""] (rev vs) 19). rewrite Hstart. unfold get_done, push_bytes, frame, LUA_MINSTACK.
      cbn [Z.eqb andb]. lua_run. rewrite run_free_null. done.
    + set (q := wnext w) in *. set (w1 := poke q _ _) in *. exists (release q w1).
      assert (Hm1 : wm w1 !! q = Some (OBuf (n * 2) s)) by apply lookup_insert_eq.
      split; [|split; [|done]].
      * apply (executes_return C L _ _ h w [VStr s] (rev vs) 19). rewrite Hstart. unfold get_done, frame.
        rewrite run_bind, (run_push_all C L q (n * 2) s (rev vs) 19 h w1) by (done || lia). cbn [andthen].
        rewrite run_bind, (run_free C q (OBuf (n * 2) s)) by (done || lia). done.
      * unfold w1. rewrite release_fresh. apply delete_id, Hm. unfold q. lia.
  - apply (executes_return C L _ _ h w _ (rev vs) 17). rewrite Hstart.
    apply (run_attr_fail _ L _ _ value bad _ (rev vs) 17 h w HC Hv).
Qed.

(** ** Lists *)

Lemma name_list_long names : (length names <= String.length (name_list names))%nat.
Proof.
  induction names as [|s names IH]; [done|]. cbn [name_list]. rewrite string_length_cons, string_app_length.
  cbn [length]. lia.
Qed.

(** what a [char] holds: 255 bytes, the kernel's limit, or 127 where [char] is signed *)
Definition short (name : string) : Prop :=
  (String.length name < 256)%nat /\ (cst "CHAR_MIN" < 0 -> (String.length name < 128)%nat).

Lemma to_char_short name : short name -> to_char (Z.of_nat (String.length name)) = Z.of_nat (String.length name).
Proof.
  intros [Hl Hs]. unfold to_char. destruct (Z.ltb_spec (cst "CHAR_MIN") 0); [apply wraps_small|apply wrapu_small]; lia.
Qed.

(** the length in front of a name *)
Lemma run_length_byte L p len a name rest st w :
  wm w !! p = Some (OBuf len (a +:+ String (ascii_of_nat (String.length name)) rest)) -> (String.length name < 256)%nat ->
  Z.of_nat (String.length (a +:+ String (ascii_of_nat (String.length name)) rest)) <= len ->
  rn (load_uint p (Z.of_nat (String.length a)) 1) (put L st w) = (Ok (Z.of_nat (String.length name)), put L st w).
Proof.
  intros Hm Hs Hl. set (c := ascii_of_nat _) in *. unfold load_uint. rewrite run_bind.
  rewrite (run_load_bytes C L p len a (String c "") rest st w) by done. cbn [andthen]. rewrite run_ret.
  cbn [le_value]. unfold c. rewrite nat_of_byte by done. do 2 f_equal. lia.
Qed.

Lemma run_pushlist_loop L p len names : forall a n k done_ t vs m h w,
  Forall short names -> wm w !! p = Some (OBuf len (a +:+ name_list names)) ->
  Z.of_nat (String.length (a +:+ name_list names)) <= len -> (length names <= k)%nat ->
  tabs h !! t = Some (Table (arr (VStr <$> done_)) None) ->
  n = Z.of_nat (String.length (a +:+ name_list names)) ->
  rn (pushlist_loop k L p (Z.of_nat (String.length a)) n) (put L (LS (VTab t :: vs) (1 + m) h) w) =
  (Ok tt, put L (LS (VTab t :: vs) (1 + m) (set_tab t (Table (arr (VStr <$> done_ ++ names)) None) h)) w).
Proof.
  induction names as [|name names IH]; intros a n k done_ t vs m h w Hs Hm Hl Hk Ht Hn.
  - rewrite app_nil_r. cbn [name_list] in *. rewrite string_app_nil_r in *.
    rewrite set_tab_id by done. destruct k; [done|]. cbn [pushlist_loop].
    by rewrite (proj2 (Z.ltb_ge _ _)) by lia.
  - destruct k as [|k]; [cbn in Hk; lia|]. apply Forall_cons_iff in Hs as [Hname Hs].
    pose proof Hl as Hl'. cbn [name_list] in *. rewrite string_app_length, string_length_cons, string_app_length in Hl'.
    set (c := ascii_of_nat (String.length name)) in *. cbn [pushlist_loop].
    rewrite (proj2 (Z.ltb_lt _ _)) by (subst n; rewrite string_app_length, string_length_cons; lia).
    rewrite run_bind, (run_length_byte L p len a name (name +:+ name_list names)) by (done || destruct Hname; lia).
    cbn [andthen]. rewrite to_char_short by done.
    assert (Ha : a +:+ String c (name +:+ name_list names) = (a +:+ String c "") +:+ (name +:+ name_list names)).
    { by rewrite string_app_assoc. }
    rewrite Ha in *. assert (Hla : String.length (a +:+ String c "") = (String.length a + 1)%nat) by by rewrite string_app_length.
    replace (Z.of_nat (String.length a) + 1) with (Z.of_nat (String.length (a +:+ String c ""))) by lia.
    rewrite run_bind, (run_load_bytes C L p len (a +:+ String c "") name (name_list names)) by done. cbn [andthen].
    rewrite run_bind, run_lua. doc_eval. rewrite (run_append C L (VStr name) (VStr <$> done_)) by done.
    replace (Z.of_nat (String.length (a +:+ String c "")) + Z.of_nat (String.length name))
      with (Z.of_nat (String.length ((a +:+ String c "") +:+ name))) by (rewrite (string_app_length _ name); lia).
    change [VStr name] with (VStr <$> [name]). rewrite <- fmap_app.
    rewrite (IH ((a +:+ String c "") +:+ name) n k (done_ ++ [name]) t vs m); rewrite ?string_app_assoc in *; try done.
    + by rewrite set_tab_set_tab, <- app_assoc.
    + cbn in Hk. lia.
    + apply tabs_set_tab.
Qed.

Lemma run_list_start fuel L path ns h w :
  let vs := [VStr path; VInt ns] in
  rn (l_extattr_list_file (2 + fuel) L) (put L (frame vs h) w) =
  rn (attr_read (2 + fuel) L "extattr_list_file" [AS (cstr path); AZ (to_int ns)] 0 0 (list_done L)) (put L (frame vs h) w).
Proof. unfold l_extattr_list_file, luaL_checkstring, frame. lua_run. done. Qed.

(** C25. Listing the attributes of a file gives back the names the kernel encoded, each with
    its length in front, as an array in the same order, provided that the length of every name
    fits a [char]: up to 255 bytes, which is all the kernel allows, where [char] is unsigned,
    but only up to 127 where it is signed.  Two rounds are enough, the buffer is given back, and
    nothing else changes. *)
Theorem list_file_names fuel L path ns names h w bad :
  attr_lib C "extattr_list_file" [AS (cstr path); AZ (to_int ns)] (fun _ => Some (name_list names)) bad ->
  roomy w -> Forall short names -> Z.of_nat (String.length (name_list names)) < 2 ^ 62 ->
  exists w', executes C L (l_extattr_list_file (2 + fuel)) [VStr path; VInt ns] h w (Ok [VTab (fresh h)])
    (put L (idle (alloc_tab (Table (arr (VStr <$> names)) None) h)) w') /\ wm w' = wm w /\ wx w' = wx w.
Proof.
  intros HC [Hp Hmem Ho] Hs Hl. pose proof (run_list_start fuel L path ns h w) as Hstart. cbv zeta in Hstart.
  rewrite (run_attr_read fuel L _ _ (fun _ => Some (name_list names)) bad _ (name_list names)) in Hstart by done.
  cbv zeta in Hstart. destruct (Z.eqb_spec (Z.of_nat (String.length (name_list names))) 0) as [Hn|Hn].
  - exists w. split; [|done]. assert (names = []) as ->.
    { pose proof (name_list_long names). destruct names; [done|cbn in *; lia]. }
    apply (executes_return C L _ _ h w [VTab (fresh h)] [VInt ns; VStr path] 19). rewrite Hstart.
    unfold list_done, pushlist, frame, LUA_MINSTACK. change 20%nat with (1 + 19)%nat. rewrite !run_bind, run_newtable.
    cbn [andthen]. change (rn (pushlist_loop (Z.to_nat 0) L 0 0 0)) with (rn (mret tt)). rewrite run_ret. cbn [andthen].
    rewrite run_bind, run_free_null. done.
  - set (q := wnext w) in *. set (n := Z.of_nat _) in *. set (w1 := poke q _ _) in *. exists (release q w1).
    assert (Hm1 : wm w1 !! q = Some (OBuf (n * 2) (name_list names))) by apply lookup_insert_eq.
    split; [|split; [|done]].
    + apply (executes_return C L _ _ h w [VTab (fresh h)] [VInt ns; VStr path] 19). rewrite Hstart.
      unfold list_done, pushlist, frame, LUA_MINSTACK. change 20%nat with (1 + (1 + 18))%nat.
      rewrite !run_bind, run_newtable. cbn [andthen].
      rewrite (run_pushlist_loop L q (n * 2) names "" n _ [] (fresh h) [VInt ns; VStr path] 18); try done.
      * cbn [andthen app]. rewrite set_alloc_tab.
        rewrite run_bind, (run_free C q (OBuf (n * 2) (name_list names))) by (done || lia). done.
      * change ("" +:+ name_list names) with (name_list names). fold n. lia.
      * pose proof (name_list_long names). lia.
      * rewrite tabs_alloc_tab. done.
    + unfold w1. rewrite release_fresh. apply delete_id, Hmem. unfold q. lia.
Qed.

(** Where [char] is signed, listing a file whose first attribute has a name of 128 bytes
    or more reads outside of the buffer: the length of the name is taken as negative. *)
Theorem list_file_long fuel L path ns name names h w bad :
  attr_lib C "extattr_list_file" [AS (cstr path); AZ (to_int ns)] (fun _ => Some (name_list (name :: names))) bad ->
  roomy w -> (128 <= String.length name < 256)%nat -> cst "CHAR_MIN" < 0 ->
  Z.of_nat (String.length (name_list (name :: names))) < 2 ^ 62 ->
  (invoke C L (l_extattr_list_file (2 + fuel)) [VStr path; VInt ns] h w).1 =
  Halt (UB "access outside of an object").
Proof.
  intros HC [Hp Hmem Ho] Hs Hc Hl. pose proof (run_list_start fuel L path ns h w) as Hstart. cbv zeta in Hstart.
  rewrite (run_attr_read fuel L _ _ (fun _ => Some (name_list (name :: names))) bad _ (name_list (name :: names)))
    in Hstart by done.
  cbv zeta in Hstart. set (s := name_list (name :: names)) in *.
  assert (Hn : Z.of_nat (String.length s) ≠ 0) by (unfold s; cbn [name_list]; rewrite string_length_cons; lia).
  rewrite (proj2 (Z.eqb_neq _ _) Hn) in Hstart.
  set (q := wnext w) in *. set (n := Z.of_nat _) in *. set (w1 := poke q _ _) in *.
  assert (Hm1 : wm w1 !! q = Some (OBuf (n * 2) s)) by apply lookup_insert_eq.
  unfold invoke. rewrite Hstart. unfold list_done, pushlist, frame, LUA_MINSTACK. change 20%nat with (1 + 19)%nat.
  rewrite !run_bind, run_newtable. cbn [andthen].
  destruct (Z.to_nat n) as [|k] eqn:Hk; [lia|]. cbn [pushlist_loop]. rewrite (proj2 (Z.ltb_lt 0 n)) by lia.
  unfold s in Hm1. cbn [name_list] in Hm1.
  rewrite run_bind, (run_length_byte L q (n * 2) "" name (name +:+ name_list names)) by
    (done || lia || (change (Z.of_nat (String.length s) <= n * 2); lia)).
  cbn [andthen]. assert (Hneg : to_char (Z.of_nat (String.length name)) < 0).
  { unfold to_char. rewrite (proj2 (Z.ltb_lt _ _) Hc). unfold wraps.
    replace (Z.of_nat (String.length name) + 2 ^ (8 - 1)) with (Z.of_nat (String.length name) - 128 + 1 * 2 ^ 8) by lia.
    rewrite Z.mod_add, Z.mod_small by lia. lia. }
  rewrite run_bind, (run_load_bytes_neg C L q (n * 2) (name_list (name :: names))) by done.
  cbn [andthen finish]. by rewrite wl_put.
Qed.
End extattr.

(** ** Witnesses *)

(** a system whose files all have this attribute, or list of attributes *)
Definition attr_system (v : option string) : clib Z := {|
  c_call := fun f args w =>
    match v, rev args with
    | Some s, AZ n :: AZ p :: _ =>
        (Ok (Cret (Z.of_nat (String.length s)) []), if p =? 0 then w else poke p (OBuf n s) w)
    | _, _ => (Ok (Cret (-1) []), set_x 2 w)
    end;
  c_fn := fun _ _ args w => (Ok (true, args), w) |}.

Lemma attr_system_lib v f args : attr_lib (attr_system v) f args (fun _ => v) (fun _ => 2).
Proof.
  split.
  - intros s w ->. cbn [c_call attr_system]. by rewrite rev_app_distr.
  - intros s p n w -> Hp _. cbn [c_call attr_system]. rewrite rev_app_distr. cbn [rev app].
    by rewrite (proj2 (Z.eqb_neq p 0)).
  - intros p n w ->. done.
Qed.

Lemma sample_roomy : roomy (sample_world ∅).
Proof. by split. Qed.

Lemma get_file_value_witness :
  exists w', executes (attr_system (Some "v1")) 0 (l_extattr_get_file 2) [VStr "/f"; VInt 1; VStr "a"]
    (sample_heap "" [] 0) (sample_world ∅) (Ok [VStr "v1"]) (put 0%nat (idle (sample_heap "" [] 0)) w') /\
    wm w' = ∅ /\ wx w' = 0.
Proof.
  exact (get_file_value (attr_system (Some "v1")) 0 0 "/f" 1 "a" (sample_heap "" [] 0) (sample_world ∅) (fun _ => Some "v1")
    (fun _ => 2) (attr_system_lib _ _ _) sample_roomy eq_refl).
Defined.

Lemma list_file_names_witness :
  exists w', executes (attr_system (Some (name_list ["ab"; "c"]))) 0 (l_extattr_list_file 2) [VStr "/f"; VInt 1]
    (sample_heap "" [] 0) (sample_world ∅) (Ok [VTab 10])
    (put 0%nat (idle (alloc_tab (Table (arr [VStr "ab"; VStr "c"]) None) (sample_heap "" [] 0))) w') /\
    wm w' = ∅ /\ wx w' = 0.
Proof.
  apply (list_file_names (attr_system (Some (name_list ["ab"; "c"]))) 0 0 "/f" 1 ["ab"; "c"] (sample_heap "" [] 0)
    (sample_world ∅) (fun _ => 2) (attr_system_lib _ _ _) sample_roomy).
  - repeat (apply Forall_cons; [split; cbn; lia|]). apply Forall_nil.
  - reflexivity.
Defined.

(** a machine where [char] is signed *)
Definition signed_char : Consts := fun name => if String.eqb name "CHAR_MIN" then -128 else 0.

Definition long_name : string := String.concat "" (replicate 128 "x").

Lemma list_file_long_witness :
  (invoke (attr_system (Some (name_list [long_name]))) 0 (@l_extattr_list_file signed_char 2) [VStr "/f"; VInt 1]
    (sample_heap "" [] 0) (sample_world ∅)).1 = Halt (UB "access outside of an object").
Proof.
  apply (@list_file_long _ signed_char _ _ (attr_system (Some (name_list [long_name]))) 0 0 "/f" 1 long_name []
    (sample_heap "" [] 0) (sample_world ∅) (fun _ => 2) (attr_system_lib _ _ _) sample_roomy).
  - vm_compute. lia.
  - reflexivity.
  - reflexivity.
Defined.
