(* ===== verification/KernelProps.v ===== *)
(** * What the functions of lua_sysctl.c and lua_inotify.c do

    Writing a value to a node and reading the node back gives the value converted to the type
    of the node ([value_roundtrip]), whatever the type; reading takes two rounds.

    The kernel writes events of inotify one behind the other ([event_encode]);
    [l_inotify_read] takes them apart and returns them as an array of tables, in order
    ([inotify_read_events]). *)

From stdpp Require Import pretty.
From S2P Require Import Prelude LuaApi Arrays Machine Capi Samples Utils Modules Cmem Wrapper Uio Descriptors.
From S2P Require Import Sysctl CmemProps.

(** [sysctl(3)]: the size without a buffer, the data with one that is large enough, and
    storing; what was stored is there afterwards *)
Record sysctl_lib {S : Type} `{Libc S} (C : clib S) (get : list Z -> S -> option string)
  (set : list Z -> string -> S -> S) : Prop := {
  sy_ask : forall oid s w, get oid (wx w) = Some s ->
    c_call C "sysctl" (AZ (Z.of_nat (length oid)) :: (AZ <$> oid) ++ [AZ 0; AZ 0; AZ 0; AZ 0]) w =
    (Ok (Cret 0 [AZ (Z.of_nat (String.length s))]), w);
  sy_get : forall oid s p n w, get oid (wx w) = Some s -> p ≠ 0 -> Z.of_nat (String.length s) <= n ->
    c_call C "sysctl" (AZ (Z.of_nat (length oid)) :: (AZ <$> oid) ++ [AZ p; AZ n; AZ 0; AZ 0]) w =
    (Ok (Cret 0 [AZ (Z.of_nat (String.length s))]), poke p (OBuf n s) w);
  sy_set : forall oid s w,
    c_call C "sysctl"
      (AZ (Z.of_nat (length oid)) :: (AZ <$> oid) ++ [AZ 0; AZ 0; AS s; AZ (Z.of_nat (String.length s))]) w =
    (Ok (Cret 0 []), set_x (set oid s (wx w)) w);
  sy_kept : forall oid s x, get oid (set oid s x) = Some s
}.

Section sysctl.
Context `{LuaSem} `{Consts} {S : Type} `{Libc S} (C : clib S).
Implicit Types (w : world S lstate) (L : nat) (h : heap) (p : Z).
Abbreviation rn := (run (documented C)).

(** the types of [sysctl(9)]: integers of so many bytes, with a sign or without, and texts *)
Inductive ctl_type := CInt (bytes : nat) (signed : bool) | CString | COpaque.

Definition ctl_types : list (string * ctl_type) := [
  ("CTLTYPE_INT", CInt 4 true); ("CTLTYPE_UINT", CInt 4 false);
  ("CTLTYPE_LONG", CInt 8 true); ("CTLTYPE_ULONG", CInt 8 false);
  ("CTLTYPE_S8", CInt 1 true); ("CTLTYPE_U8", CInt 1 false);
  ("CTLTYPE_S16", CInt 2 true); ("CTLTYPE_U16", CInt 2 false);
  ("CTLTYPE_S32", CInt 4 true); ("CTLTYPE_U32", CInt 4 false);
  ("CTLTYPE_S64", CInt 8 true); ("CTLTYPE_U64", CInt 8 false);
  ("CTLTYPE_STRING", CString); ("CTLTYPE_OPAQUE", COpaque)].

(** the integer of [n] bytes that agrees with [z] in its low bytes; Lua has no unsigned integers
    of 8 bytes, they come out with a sign *)
Definition narrow (n : nat) (signed : bool) (z : Z) : Z :=
  let size := 2 ^ (8 * Z.of_nat n) in
  let m := z mod size in
  if (signed || (n =? 8)%nat) && (size / 2 <=? m) then m - size else m.

Lemma narrow_in_range n signed z :
  (0 < n)%nat -> (if signed : bool then - 2 ^ (8 * Z.of_nat n - 1) <= z < 2 ^ (8 * Z.of_nat n - 1)
    else 0 <= z < 2 ^ (8 * Z.of_nat n) /\ n ≠ 8%nat) -> narrow n signed z = z.
Proof.
  intros Hn Hz. unfold narrow. set (k := 8 * Z.of_nat n) in *.
  assert (E : 2 ^ k = 2 * 2 ^ (k - 1)) by (rewrite <- Z.pow_succ_r by lia; f_equal; lia).
  assert (Hh : 2 ^ k / 2 = 2 ^ (k - 1)) by (rewrite E, Z.mul_comm; by apply Z.div_mul).
  rewrite Hh. destruct signed; cbn [orb andb].
  - destruct (Z.leb_spec 0 z) as [Hp|Hp].
    + rewrite Z.mod_small by lia. by rewrite (proj2 (Z.leb_gt _ _)) by lia.
    + rewrite <- (Z.mod_unique z (2 ^ k) (-1) (z + 2 ^ k)) by lia. rewrite (proj2 (Z.leb_le _ _)) by lia. lia.
  - destruct Hz as [Hz H8]. rewrite (proj2 (Nat.eqb_neq n 8) H8). cbn [andb]. by apply Z.mod_small.
Qed.

(** how a value is stored in a node of this type, and what reading it gives *)
Definition ctl_repr (t : ctl_type) (v : value) : option (string * value) :=
  match t, v with
  | CInt n signed, VInt z => Some (le_bytes n z, VInt (narrow n signed z))
  | CString, VStr s => Some (s +:+ String NUL "", VStr s)
  | COpaque, VStr s => Some (s, VStr s)
  | _, _ => None
  end.

(** the cases of a C [switch] have different values *)
Definition distinct_types : Prop := NoDup ((fun x => cst x.1) <$> ctl_types).

(** a node whose format is known *)
Record known_node (h : heap) (u : nat) (p : Z) (m : mib) w : Prop := {
  kn_udata : exists d t, uds h !! u = Some d /\ ud_meta d = Some t /\ ud_blk d = p /\
    reg_get (inl MIB_METATABLE) h = VTab t;
  kn_mem : wm w !! p = Some (OMib m);
  kn_format : mib_format m ≠ 0;
  kn_oidlen : 0 <= mib_oidlen m <= Z.of_nat (length (mib_oid m));
  kn_type : Z.land (mib_kind m) (cst "CTLTYPE") ≠ cst "CTLTYPE_NODE"
}.

Definition node_oid_of (m : mib) : list Z := take (Z.to_nat (mib_oidlen m)) (mib_oid m).

(** the case of a [switch] that is taken *)
Lemma ctl_case_in {A} (l : list (string * A)) name d :
  NoDup ((fun x => cst x.1) <$> l) -> In (name, d) l -> ctl_case (cst name) l = Some d.
Proof.
  induction l as [|[name' d'] l IH]; cbn; [done|].
  intros [Hni Hnd]%list.NoDup_cons [[= -> ->]|Hin]; [by rewrite Z.eqb_refl|].
  destruct (Z.eqb_spec (cst name) (cst name')) as [E|_]; [|by apply IH].
  destruct Hni. rewrite <- E. by apply (list_elem_of_fmap_2 (fun x => cst x.1) l (name, d)), list_elem_of_In.
Qed.

Lemma ctl_case_not_in {A} (l : list (string * A)) t :
  t ∉ ((fun x => cst x.1) <$> l) -> ctl_case t l = None.
Proof.
  induction l as [|[name d] l IH]; cbn; [done|]. intros [Hne Hni]%not_elem_of_cons.
  by rewrite (proj2 (Z.eqb_neq _ _) Hne), IH.
Qed.

(** the integers come first *)
Lemma distinct_split : distinct_types ->
  NoDup ((fun x => cst x.1) <$> ctl_reads) /\ NoDup ((fun x => cst x.1) <$> ctl_writes) /\
  cst "CTLTYPE_STRING" ∉ ((fun x => cst x.1) <$> ctl_reads) /\
  cst "CTLTYPE_OPAQUE" ∉ ((fun x => cst x.1) <$> ctl_reads) /\
  cst "CTLTYPE_OPAQUE" ≠ cst "CTLTYPE_STRING".
Proof.
  unfold distinct_types. rewrite <- (take_drop 12 (_ <$> _)). intros (Hr & Hd & Ht)%list.NoDup_app.
  split_all; [exact Hr|exact Hr|intros Hin; apply (Hd _ Hin); left|intros Hin; apply (Hd _ Hin); right; left|].
  apply list.NoDup_cons in Ht as [Ht _]. intros E. apply Ht. cbn. rewrite E. left.
Qed.

Lemma wraps_narrow k m : 0 < k -> 0 <= m < 2 ^ k -> wraps k m = if 2 ^ k / 2 <=? m then m - 2 ^ k else m.
Proof.
  intros Hk Hm. unfold wraps. assert (E : 2 ^ k = 2 * 2 ^ (k - 1)).
  { rewrite <- Z.pow_succ_r by lia. f_equal. lia. }
  rewrite E at 2. rewrite Z.mul_comm, Z.div_mul by done.
  destruct (Z.leb_spec (2 ^ (k - 1)) m) as [Hl|Hl].
  - rewrite <- (Z.mod_unique (m + 2 ^ (k - 1)) (2 ^ k) 1 (m + 2 ^ (k - 1) - 2 ^ k)); lia.
  - rewrite Z.mod_small; lia.
Qed.

(** the two tables of the source against [ctl_types] *)
Lemma ctl_tables_int name n signed :
  distinct_types -> In (name, CInt n signed) ctl_types ->
  ctl_case (cst name) ctl_writes = Some n /\
  exists conv, ctl_case (cst name) ctl_reads = Some (n, conv) /\
    forall z, conv (le_value (le_bytes n z)) = narrow n signed z.
Proof.
  intros (Hr & Hw & _)%distinct_split Hin. unfold ctl_types in Hin. cbn [In] in Hin. split.
  - apply ctl_case_in; [done|]. unfold ctl_writes. cbn [In]. destruct_or? Hin; simplify_eq; tauto.
  - destruct_or? Hin; simplify_eq; (eexists; split; [apply ctl_case_in; [done|unfold ctl_reads; cbn [In]; tauto]|]);
      intros z; rewrite le_value_bytes; unfold narrow; cbv zeta;
      first [apply wraps_narrow; [lia|apply Z.mod_pos_bound; lia]|apply Zmod_mod].
Qed.

(** and for the texts *)
Lemma ctl_tables_text name :
  distinct_types -> In name ["CTLTYPE_STRING"; "CTLTYPE_OPAQUE"] ->
  ctl_case (cst name) ctl_writes = None /\ ctl_case (cst name) ctl_reads = None /\
  (cst name =? cst "CTLTYPE_STRING") = (name =? "CTLTYPE_STRING")%string.
Proof.
  intros (_ & _ & Hs & Ho & Hne)%distinct_split Hin. cbn in Hin.
  destruct Hin as [<-|[<-|[]]]; (split_all; [by apply (ctl_case_not_in ctl_writes)|by apply ctl_case_not_in|]).
  - by rewrite Z.eqb_refl.
  - by apply Z.eqb_neq.
Qed.

Lemma run_node h u p m w L vs n :
  known_node h u p m w -> at_ (rev vs) 1 = Val (VUd u) ->
  forall k : Z -> mib -> prog Z,
  rn (mib ← luaL_checkudata L 1 MIB_METATABLE; m ← load mib mib_get; k mib m) (put L (LS (rev vs) n h) w) =
  rn (k p m) (put L (LS (rev vs) n h) w).
Proof.
  intros [(d & t & Hu & Hmeta & Hb & Hr) Hm _ _ _] Ha k.
  assert (Hud : udata_of (rev vs) h 1 MIB_METATABLE = Some (u, d)).
  { unfold udata_of. rewrite Ha. cbn. rewrite Hu, Hmeta, Hr. by rewrite decide_True. }
  rewrite run_bind, run_lua. cbn [doc]. rewrite (doc_checkudata_ok _ _ _ _ _ _ _ Hud). cbn [andthen].
  rewrite Hb, run_bind, (run_read C p _ (OMib m) m) by done. done.
Qed.

(** reading what is stored *)
Lemma run_push_repr name t v bytes v' L q vs n h w :
  distinct_types -> In (name, t) ctl_types ->
  ctl_repr t v = Some (bytes, v') -> q ≠ 0 -> wm w !! q = Some (OBuf (Z.of_nat (String.length bytes) * 2) bytes) ->
  Z.of_nat (String.length bytes) < 2 ^ 62 ->
  rn (push_value L (cst name) q (Z.of_nat (String.length bytes))) (put L (LS vs (1 + n) h) w) =
  (Ok tt, put L (LS (v' :: vs) n h) w).
Proof.
  unfold push_value. intros Hd Hin Hv Hq Hm Hl. destruct t as [k sgn| |].
  - destruct (ctl_tables_int name k sgn Hd Hin) as (_ & conv & -> & Hconv).
    destruct v as [| |z| | | | | |]; try done. injection Hv as <- <-.
    rewrite le_bytes_length in *. unfold load_uint. rewrite !run_bind.
    pose proof (run_load_bytes C L q (Z.of_nat k * 2) "" (le_bytes k z) "" (LS vs (1 + n) h) w) as Hload.
    rewrite string_app_nil_r, le_bytes_length in Hload.
    change (Z.of_nat (String.length "")) with 0 in Hload.
    change ("" +:+ le_bytes k z) with (le_bytes k z) in Hload. rewrite le_bytes_length in Hload.
    rewrite Hload by (done || lia). cbn [andthen]. rewrite run_ret. cbn [andthen].
    rewrite Hconv. by lua_run.
  - assert (name = "CTLTYPE_STRING") as -> by (cbn in Hin; destruct_or? Hin; by simplify_eq).
    destruct (ctl_tables_text "CTLTYPE_STRING" Hd ltac:(cbn; tauto)) as (_ & -> & ->).
    destruct v as [| | | |s| | | |]; try done. injection Hv as <- <-.
    change ("CTLTYPE_STRING" =? "CTLTYPE_STRING")%string with true. cbv iota.
    rewrite string_app_length in *. cbn [String.length] in *.
    rewrite to_size_small by lia. replace (_ - 1) with (Z.of_nat (String.length s)) by lia.
    unfold push_bytes. rewrite (proj2 (Z.eqb_neq q 0)) by done. cbn [andb].
    rewrite run_bind, (run_read C q _ (OBuf (Z.of_nat (String.length s + 1) * 2) (s +:+ String NUL "")) (Some s)); [by lua_run|done|].
    cbn [read_bytes]. rewrite string_app_length. cbn [String.length].
    rewrite !(proj2 (Z.leb_le _ _)) by lia. by rewrite Nat2Z.id, substring_prefix.
  - assert (name = "CTLTYPE_OPAQUE") as -> by (cbn in Hin; destruct_or? Hin; by simplify_eq).
    destruct (ctl_tables_text "CTLTYPE_OPAQUE" Hd ltac:(cbn; tauto)) as (_ & -> & ->).
    destruct v as [| | | |s| | | |]; try done. injection Hv as <- <-.
    change ("CTLTYPE_OPAQUE" =? "CTLTYPE_STRING")%string with false. cbv iota. rewrite Z.eqb_refl.
    apply (run_push_all C L q _ s vs n h w Hq Hm). lia.
Qed.

Lemma run_sysctl m args w : rn (sysctl m args) w = c_call C "sysctl" args w.
Proof. apply run_call. Qed.

Lemma run_read_node fuel L m oid s get set k st w :
  sysctl_lib C get set -> get oid (wx w) = Some s -> roomy w -> Z.of_nat (String.length s) < 2 ^ 62 ->
  rn (read_value sysctl (2 + fuel) L m oid 0 0 k) (put L st w) =
  rn (k (wnext w) (Z.of_nat (String.length s)))
    (put L st (poke (wnext w) (OBuf (Z.of_nat (String.length s) * 2) s) (set_next (wnext w + 1) w))).
Proof.
  intros HC Hs [Hp _ Ho] Hl. cbn [read_value Nat.add].
  rewrite run_bind, run_sysctl, (sy_ask _ _ _ HC oid s) by done. cbn [andthen rc Z.eqb negb out_int outs lookup list_lookup].
  rewrite run_bind, run_free_null. cbn [andthen]. rewrite to_size_small by lia.
  rewrite run_bind, run_malloc_ok by done. cbn [andthen]. rewrite (proj2 (Z.eqb_neq _ _)) by lia.
  rewrite run_bind, run_sysctl, (sy_get _ _ _ HC oid s) by (done || lia).
  cbn [andthen rc]. change (0 =? -1) with false. cbn [out_int outs lookup list_lookup].
  cbn [negb]. by rewrite !poke_put, poke_poke.
Qed.

Lemma run_set_value name t v bytes v' L m oid get set u n h w :
  distinct_types -> In (name, t) ctl_types -> sysctl_lib C get set -> ctl_repr t v = Some (bytes, v') ->
  rn (set_value sysctl L m (cst name) oid) (put L (LS [v; VUd u] n h) w) =
  (Ok (Cret 0 []), put L (LS [v; VUd u] n h) (set_x (set oid bytes (wx w)) w)).
Proof.
  intros Hd Hin HC Hv. unfold set_value. destruct t as [k sgn| |].
  - destruct (ctl_tables_int name k sgn Hd Hin) as (-> & _).
    destruct v as [| |z| | | | | |]; try done. injection Hv as <- <-. rewrite run_bind, run_lua. doc_eval.
    unfold write_value. rewrite run_sysctl. pose proof (sy_set _ _ _ HC oid (le_bytes k z)) as Hset.
    rewrite le_bytes_length in Hset. by rewrite Hset.
  - assert (name = "CTLTYPE_STRING") as -> by (cbn in Hin; destruct_or? Hin; by simplify_eq).
    destruct (ctl_tables_text "CTLTYPE_STRING" Hd ltac:(cbn; tauto)) as (-> & _ & ->).
    destruct v as [| | | |s| | | |]; try done. injection Hv as <- <-.
    change ("CTLTYPE_STRING" =? "CTLTYPE_STRING")%string with true. cbv iota.
    rewrite run_bind, run_lua. doc_eval. unfold write_value. rewrite run_sysctl.
    pose proof (sy_set _ _ _ HC oid (s +:+ String NUL "")) as Hset. rewrite string_app_length, Nat2Z.inj_add in Hset.
    by rewrite Hset.
  - assert (name = "CTLTYPE_OPAQUE") as -> by (cbn in Hin; destruct_or? Hin; by simplify_eq).
    destruct (ctl_tables_text "CTLTYPE_OPAQUE" Hd ltac:(cbn; tauto)) as (-> & _ & ->).
    destruct v as [| | | |s| | | |]; try done. injection Hv as <- <-.
    change ("CTLTYPE_OPAQUE" =? "CTLTYPE_STRING")%string with false. cbv iota. rewrite Z.eqb_refl.
    rewrite run_bind, run_lua. doc_eval. unfold write_value. rewrite run_sysctl. by rewrite (sy_set _ _ _ HC oid s).
Qed.

Lemma run_oid_of m st L w :
  0 <= mib_oidlen m <= Z.of_nat (length (mib_oid m)) ->
  rn (oid_of m) (put L st w) = (Ok (node_oid_of m), put L st w).
Proof. intros Hl. unfold oid_of. by rewrite (proj2 (Z.leb_le _ _)) by lia. Qed.

(** C21. A value written to a node of any of the fourteen types is stored in the representation of
    that type ([ctl_types]), and reading the node gives it back: of an integer the low bytes,
    as many as the type has, are stored in the order of the machine, and reading gives the
    integer of that type, signed or not, with these bytes, hence the same integer if it was in
    the range of the type; a string, stored with its terminator, or opaque value is unchanged.
    Reading takes two rounds and gives its buffer back. *)
Theorem value_roundtrip fuel fuel' L u p m name t v bytes v' get set h w :
  sysctl_lib C get set -> known_node h u p m w -> roomy w ->
  let oid := node_oid_of m in
  distinct_types -> In (name, t) ctl_types -> Z.land (mib_kind m) (cst "CTLTYPE") = cst name ->
  ctl_repr t v = Some (bytes, v') -> Z.of_nat (String.length bytes) < 2 ^ 62 ->
  let w1 := set_x (set oid bytes (wx w)) w in
  executes C L (l_mib_value fuel) [VUd u; v] h w (Ok []) (put L (idle h) w1) /\
  exists w2, executes C L (l_mib_value (2 + fuel')) [VUd u] h w1 (Ok [v']) (put L (idle h) w2) /\
    wm w2 = wm w /\ wx w2 = wx w1.
Proof.
  intros HC Hk Hr oid Hd Hin Hty Hv Hl w1. pose proof Hk as [_ Hmem Hf Ho Ht].
  assert (Hlen : length oid = Z.to_nat (mib_oidlen m)) by (unfold oid, node_oid_of; rewrite length_take; lia).
  split.
  - apply (executes_return C L _ _ h w [] [v; VUd u] 20). unfold l_mib_value, node_value, frame, LUA_MINSTACK.
    rewrite run_bind, run_lua. doc_eval.
    rewrite (run_node h u p m w L [VUd u; v] 20 Hk eq_refl). rewrite run_bind.
    rewrite (proj2 (Z.eqb_neq _ _) Hf), run_ret. cbn [andthen].
    rewrite run_bind, (run_read C p _ (OMib m) m) by done. cbn [andthen].
    change (Z.of_nat 2 =? 1) with false. rewrite (proj2 (Z.eqb_neq _ _) Ht), run_bind, run_oid_of by done. cbn [andthen]. fold oid.
    change (rev [VUd u; v]) with [v; VUd u].
    rewrite Hty, run_bind, (run_set_value name t v bytes v' L m oid get set u 20 h w Hd Hin HC Hv). done.
  - assert (Hk1 : known_node h u p m w1) by by destruct Hk.
    assert (Hr1 : roomy w1) by by destruct Hr.
    set (q := wnext w1). set (n := Z.of_nat (String.length bytes)) in *.
    set (w2 := poke q (OBuf (n * 2) bytes) (set_next (q + 1) w1)).
    assert (Hm2 : wm w2 !! q = Some (OBuf (n * 2) bytes)) by apply lookup_insert_eq.
    destruct Hr as [Hp Hfree _]. assert (Hq : q ≠ 0) by (change q with (wnext w); lia).
    exists (release q w2). split; [|split; [|done]].
    + apply (executes_return C L _ _ h w1 [v'] [VUd u] 19). unfold l_mib_value, node_value, frame, LUA_MINSTACK.
      rewrite run_bind, run_lua. doc_eval.
      rewrite (run_node h u p m w1 L [VUd u] 20 Hk1 eq_refl). rewrite run_bind.
      rewrite (proj2 (Z.eqb_neq _ _) Hf), run_ret. cbn [andthen].
      rewrite run_bind, (run_read C p _ (OMib m) m) by done. cbn [andthen].
      change (Z.of_nat 1 =? 1) with true. rewrite (proj2 (Z.eqb_neq _ _) Ht), run_bind, run_oid_of by done. cbn [andthen]. fold oid.
      rewrite (run_read_node fuel' L m oid bytes get set) by (done || apply (sy_kept _ _ _ HC)).
      fold n q w2. change (rev [VUd u]) with [VUd u]. rewrite Hty, run_bind.
      pose proof (run_push_repr name t v bytes v' L q [VUd u] 19 h w2 Hd Hin Hv Hq Hm2 Hl) as Hpush.
      cbn [Nat.add] in Hpush. fold n in Hpush. rewrite Hpush. cbn [andthen].
      rewrite run_bind, (run_free C q (OBuf (n * 2) bytes)) by done. done.
    + unfold w2. rewrite release_fresh. apply delete_id. change (wm w !! wnext w = None). apply Hfree. lia.
Qed.
End sysctl.

(** ** Witness: a kernel with one node, which holds bytes *)

#[export] Instance node_libc : Libc string := {| c_errno := fun _ => 0; c_strerror := fun _ => "" |}.

Definition node_kernel : clib string := {|
  c_call := fun _ args w =>
    match rev args with
    | AZ _ :: AS v :: _ => (Ok (Cret 0 []), set_x v w)
    | AZ _ :: AZ _ :: AZ n :: AZ p :: _ =>
        (Ok (Cret 0 [AZ (Z.of_nat (String.length (wx w)))]), if p =? 0 then w else poke p (OBuf n (wx w)) w)
    | _ => (Ok (Cret 0 []), w)
    end;
  c_fn := fun _ _ args w => (Ok (true, args), w) |}.

Lemma node_kernel_lib : sysctl_lib node_kernel (fun _ x => Some x) (fun _ v _ => v).
Proof.
  split.
  - intros oid s w [= <-]. unfold node_kernel; cbn [c_call]. by rewrite app_comm_cons, rev_app_distr.
  - intros oid s p n w [= <-] Hp _. unfold node_kernel; cbn [c_call]. rewrite app_comm_cons, rev_app_distr.
    cbn [rev app]. by rewrite (proj2 (Z.eqb_neq p 0)).
  - intros oid s w. unfold node_kernel; cbn [c_call]. by rewrite app_comm_cons, rev_app_distr.
  - done.
Qed.

(** the numbers of FreeBSD *)
Definition ctl_consts : Consts := fun name =>
  match list_find (fun x => x = name)
    ["CTLTYPE_NODE"; "CTLTYPE_INT"; "CTLTYPE_STRING"; "CTLTYPE_S64"; "CTLTYPE_OPAQUE"; "CTLTYPE_UINT";
     "CTLTYPE_LONG"; "CTLTYPE_ULONG"; "CTLTYPE_U64"; "CTLTYPE_U8"; "CTLTYPE_U16"; "CTLTYPE_S8"; "CTLTYPE_S16";
     "CTLTYPE_S32"; "CTLTYPE_U32"] with
  | Some (i, _) => Z.of_nat i + 1
  | None => if String.eqb name "CTLTYPE" then 15 else 0
  end.

(** kern.x, an unsigned integer *)
Definition uint_node : mib := Mib 0 [1; 77] 2 8 6 4001 4002 0.
Definition node_world : world string lstate := World ∅ 10 {[ 4000 := OMib uint_node ]} 4096 (fun _ _ => false) "".

Lemma value_roundtrip_witness :
  executes node_kernel 0 (@l_mib_value ctl_consts 0) [VUd 2; VInt (-1)] (sample_heap MIB_METATABLE [] 4000) node_world
    (Ok []) (put 0%nat (idle (sample_heap MIB_METATABLE [] 4000)) (set_x (le_bytes 4 (-1)) node_world)) /\
  exists w2, executes node_kernel 0 (@l_mib_value ctl_consts 2) [VUd 2] (sample_heap MIB_METATABLE [] 4000)
      (set_x (le_bytes 4 (-1)) node_world) (Ok [VInt 4294967295])
      (put 0%nat (idle (sample_heap MIB_METATABLE [] 4000)) w2) /\
    wm w2 = wm node_world /\ wx w2 = le_bytes 4 (-1).
Proof.
  apply (@value_roundtrip _ ctl_consts _ _ node_kernel 0 0 0 2 4000 uint_node "CTLTYPE_UINT" (CInt 4 false) (VInt (-1)) (le_bytes 4 (-1)) (VInt 4294967295)
    (fun _ x => Some x) (fun _ v _ => v) (sample_heap MIB_METATABLE [] 4000) node_world node_kernel_lib).
  - split; [|reflexivity|done|cbn; lia|done].
    exists (Udata (Some 1%nat) [] 4000), 1%nat. done.
  - split; [done| |done]. intros p Hp. cbn in *. apply lookup_singleton_None. lia.
  - apply (bool_decide_unpack _). vm_compute. exact I.
  - cbn. tauto.
  - reflexivity.
  - reflexivity.
  - reflexivity.
Defined.

(** an event; a name is followed by [1 + pad] NUL characters *)
Record inotify_event := InotifyEvent {
  ie_wd : Z; ie_mask : Z; ie_cookie : Z; ie_name : option (string * nat) }.

Fixpoint nuls (n : nat) : string := match n with O => EmptyString | S n => String NUL (nuls n) end.

Definition event_name (e : inotify_event) : string :=
  match ie_name e with Some (s, pad) => s +:+ String NUL (nuls pad) | None => "" end.

(** [struct inotify_event] as the kernel writes it *)
Definition event_encode (e : inotify_event) : string :=
  le_bytes 4 (ie_wd e) +:+ (le_bytes 4 (ie_mask e) +:+ (le_bytes 4 (ie_cookie e) +:+
    (le_bytes 4 (Z.of_nat (String.length (event_name e))) +:+ event_name e))).

Fixpoint events_encode (es : list inotify_event) : string :=
  match es with [] => EmptyString | e :: es => event_encode e +:+ events_encode es end.

(** the fields that fit their types, and a name that is a C string *)
Definition event_ok (e : inotify_event) : Prop :=
  - 2 ^ 31 <= ie_wd e < 2 ^ 31 /\ 0 <= ie_mask e < 2 ^ 32 /\
  Z.of_nat (String.length (event_name e)) < 2 ^ 32 /\
  match ie_name e with Some (s, _) => cstr s = s | None => True end.

(** the table of an event *)
Definition event_table (e : inotify_event) : table :=
  let m := <[KStr "mask" := VInt (ie_mask e)]> (<[KStr "wd" := VInt (ie_wd e)]> ∅) in
  Table (match ie_name e with Some (s, _) => <[KStr "name" := VStr s]> m | None => m end) None.

Lemma cstr_app_rest s rest : cstr s = s -> cstr (s +:+ String NUL rest) = s.
Proof.
  induction s as [|c s IH]; [done|]. change (String c s +:+ String NUL rest) with (String c (s +:+ String NUL rest)).
  cbn [cstr]. destruct (Ascii.eqb c NUL) eqn:E; [done|]. intros [= Hs]. f_equal. by apply IH.
Qed.

Lemma has_nul_rest s rest : has_nul (s +:+ String NUL rest) = true.
Proof.
  induction s as [|c s IH]; [done|]. change (String c s +:+ String NUL rest) with (String c (s +:+ String NUL rest)).
  by rewrite has_nul_cons, IH, orb_true_r.
Qed.

Section inotify.
Context `{LuaSem} `{Consts} {S : Type} `{Libc S} (C : clib S).
Implicit Types (w : world S lstate) (L : nat) (h : heap) (p : Z).
Abbreviation rn := (run (documented C)).

Lemma run_event_bytes a x b st L w :
  Z.of_nat (String.length (a +:+ (x +:+ b))) <= sizeof_event ->
  rn (event_bytes (a +:+ (x +:+ b)) (Z.of_nat (String.length a)) (Z.of_nat (String.length x))) (put L st w) =
  (Ok x, put L st w).
Proof. intros Hl. by apply (run_local_bytes C L _ _ a x b). Qed.

(** four bytes of an integer behind [a] *)
Lemma run_event_uint s a z b off st L w :
  s = a +:+ (le_bytes 4 z +:+ b) -> off = Z.of_nat (String.length a) -> Z.of_nat (String.length s) <= sizeof_event ->
  rn (event_uint s off 4) (put L st w) = (Ok (z mod 2 ^ 32), put L st w).
Proof.
  intros -> -> Hl. unfold event_uint. rewrite run_bind.
  pose proof (run_event_bytes a (le_bytes 4 z) b st L w Hl) as Hb. rewrite le_bytes_length in Hb.
  change (Z.of_nat 4) with 4 in Hb. rewrite Hb. cbn [andthen]. rewrite run_ret. by rewrite le_value_bytes.
Qed.

Lemma run_event_cstr s a x rest off st L w :
  s = a +:+ (x +:+ String NUL rest) -> off = Z.of_nat (String.length a) -> cstr x = x ->
  Z.of_nat (String.length s) <= sizeof_event ->
  rn (event_cstr s off) (put L st w) = (Ok x, put L st w).
Proof.
  intros -> -> Hs Hl. unfold event_cstr. rewrite run_bind.
  pose proof (run_event_bytes a (x +:+ String NUL rest) "" st L w) as Hb. rewrite string_app_nil_r in Hb.
  specialize (Hb Hl).
  assert (Hn : Z.of_nat (String.length (a +:+ (x +:+ String NUL rest))) - Z.of_nat (String.length a) =
    Z.of_nat (String.length (x +:+ String NUL rest))) by (rewrite (string_app_length a); lia).
  rewrite Hn, Hb. cbn [andthen]. rewrite has_nul_rest, run_ret. by rewrite cstr_app_rest.
Qed.

Lemma event_encode_length e : String.length (event_encode e) = (16 + String.length (event_name e))%nat.
Proof. unfold event_encode. by rewrite !string_app_length, !le_bytes_length. Qed.

(** one event, behind [a] *)
Lemma run_pushevent L s a e rest resid st n h w :
  s = a +:+ (event_encode e +:+ rest) -> event_ok e -> Z.of_nat (String.length s) <= sizeof_event ->
  let len := Z.of_nat (String.length (event_encode e)) in
  rn (pushevent L s (Z.of_nat (String.length a)) resid) (put L (LS st (2 + n) h) w) =
  (Ok (Z.of_nat (String.length a) + len, resid - len),
   put L (LS (VTab (fresh h) :: st) (1 + n) (alloc_tab (event_table e) h)) w).
Proof.
  intros Hs (Hwd & Hmask & Hlen & Hname) Hl len. unfold len. rewrite event_encode_length. clear len.
  unfold event_encode in Hs. rewrite !string_app_assoc in Hs. set (nl := Z.of_nat (String.length (event_name e))) in *.
  assert (Ewd : forall st, rn (event_uint s (Z.of_nat (String.length a)) 4) (put L st w) = (Ok (ie_wd e mod 2 ^ 32), put L st w)).
  { intros st0. by eapply run_event_uint. }
  assert (Emask : forall st, rn (event_uint s (Z.of_nat (String.length a) + 4) 4) (put L st w) = (Ok (ie_mask e), put L st w)).
  { intros st0. rewrite (run_event_uint s (a +:+ le_bytes 4 (ie_wd e)) (ie_mask e) (le_bytes 4 (ie_cookie e) +:+
      (le_bytes 4 nl +:+ (event_name e +:+ rest)))); [by rewrite Z.mod_small| | |done].
    - by rewrite !string_app_assoc.
    - rewrite string_app_length, le_bytes_length. lia. }
  assert (Elen : forall st, rn (event_uint s (Z.of_nat (String.length a) + 12) 4) (put L st w) = (Ok nl, put L st w)).
  { intros st0. rewrite (run_event_uint s (a +:+ le_bytes 4 (ie_wd e) +:+ le_bytes 4 (ie_mask e) +:+ le_bytes 4 (ie_cookie e))
      nl (event_name e +:+ rest)); [rewrite Z.mod_small by lia; done| | |done].
    - by rewrite !string_app_assoc.
    - rewrite !string_app_length, !le_bytes_length. lia. }
  unfold pushevent. rewrite run_bind, Elen. cbn [andthen]. change (2 + n)%nat with (1 + (1 + n))%nat.
  rewrite run_bind, run_newtable. cbn [andthen]. rewrite run_bind, Ewd. cbn [andthen].
  assert (Hw : to_int (ie_wd e mod 2 ^ 32) = ie_wd e).
  { unfold to_int. rewrite wraps_mod by lia. by apply to_int_small. }
  rewrite run_bind, (run_int_field C L "wd" _ (fresh h) (arr [])), Hw, set_alloc_tab by apply tabs_alloc_tab. cbn [andthen].
  rewrite run_bind, Emask. cbn [andthen].
  rewrite run_bind, (run_int_field C L "mask" _ (fresh h) (<[KStr "wd" := VInt (ie_wd e)]> (arr []))), set_alloc_tab
    by apply tabs_alloc_tab.
  cbn [andthen]. unfold event_table. rewrite arr_nil in *. unfold nl, event_name. rewrite run_bind.
  destruct (ie_name e) as [[x pad]|] eqn:Hn.
  - rewrite (proj2 (Z.ltb_lt _ _)) by (rewrite string_app_length, string_length_cons; lia).
    rewrite run_bind, (run_event_cstr s (a +:+ le_bytes 4 (ie_wd e) +:+ le_bytes 4 (ie_mask e) +:+
      le_bytes 4 (ie_cookie e) +:+ le_bytes 4 nl) x (nuls pad +:+ rest)); [|  | |done|done].
    + cbn [andthen].
      rewrite (run_str_field C L "name" _ (fresh h) (<[KStr "mask" := VInt (ie_mask e)]> (<[KStr "wd" := VInt (ie_wd e)]> ∅))),
        set_alloc_tab by apply tabs_alloc_tab.
      cbn [andthen]. rewrite run_ret, Hname. unfold sizeof_inotify_event. repeat f_equal; lia.
    + rewrite Hs. unfold event_name. rewrite Hn. by rewrite !string_app_assoc.
    + rewrite !string_app_length, !le_bytes_length. lia.
  - change (0 <? Z.of_nat (String.length "")) with false. cbv iota. rewrite run_ret. cbn [andthen]. rewrite run_ret.
    unfold sizeof_inotify_event. repeat f_equal; lia.
Qed.

(** the tables of the events, made one after the other; the last is in [t] *)
Definition event_tables (h h' : heap) (ids : list nat) (es : list inotify_event) : Prop :=
  Forall2 (fun id e => tabs h' !! id = Some (event_table e)) ids es /\
  Forall (fun id => fresh h <= id < fresh h')%nat ids /\ (fresh h <= fresh h')%nat.

Lemma run_pushevents L s es : forall n k a t ids0 vs m h w,
  s = a +:+ events_encode es -> Forall event_ok es -> Z.of_nat (String.length s) <= sizeof_event ->
  (length es <= n)%nat -> k = Z.of_nat (length ids0) + 1 ->
  tabs h !! t = Some (Table (arr (VTab <$> ids0)) None) -> (t < fresh h)%nat ->
  exists h' ids,
    rn (pushevents n L s (Z.of_nat (String.length a)) (Z.of_nat (String.length (events_encode es))) k)
      (put L (LS (VTab t :: vs) (2 + m) h) w) = (Ok tt, put L (LS (VTab t :: vs) (2 + m) h') w) /\
    tabs h' !! t = Some (Table (arr (VTab <$> ids0 ++ ids)) None) /\ event_tables h h' ids es /\ same_but t h h'.
Proof.
  induction es as [|e es IH]; intros n k a t ids0 vs m h w Hs Hok Hl Hn Hk Ht Hlt.
  - exists h, []. rewrite app_nil_r. split; [|split; [done|split; [by split_all|by split_all]]].
    destruct n; [done|]. cbn [pushevents]. by change (0 <? Z.of_nat (String.length (events_encode []))) with false.
  - destruct n as [|n]; [cbn in Hn; lia|]. apply Forall_cons_iff in Hok as [He Hok]. cbn [events_encode] in *.
    pose proof (event_encode_length e) as Hle. cbn [pushevents].
    rewrite (proj2 (Z.ltb_lt _ _)) by (rewrite string_app_length; lia).
    rewrite run_bind, (run_pushevent L s a e (events_encode es)) by done. cbn [andthen fst snd].
    set (h1 := alloc_tab (event_table e) h). set (h2 := set_tab t (Table (arr (VTab <$> ids0 ++ [fresh h])) None) h1).
    assert (Ht1 : tabs h1 !! t = Some (Table (arr (VTab <$> ids0)) None)).
    { unfold h1, alloc_tab, bump, set_tab. cbn [tabs]. rewrite lookup_insert_ne by lia. done. }
    assert (Hset : rn (lua_rawseti L (-2) k) (put L (LS (VTab (fresh h) :: VTab t :: vs) (1 + m) h1) w) =
      (Ok tt, put L (LS (VTab t :: vs) (2 + m) h2) w)).
    { rewrite Hk. unfold h2. by rewrite (run_rawseti_arr C L _ ids0). }
    rewrite run_bind, Hset. cbn [andthen].
    destruct (IH n (k + 1) (a +:+ event_encode e) t (ids0 ++ [fresh h]) vs m h2 w) as (h' & ids & Hrun & Htab & (Hev & Hids & Hf) & Hsame);
      try done.
    + by rewrite string_app_assoc.
    + cbn in Hn. lia.
    + rewrite length_app. cbn [length]. lia.
    + apply tabs_set_tab.
    + cbn. lia.
    + exists h', (fresh h :: ids). split; [|split].
      * rewrite !string_app_length in *. rewrite <- Hrun. do 3 f_equal; lia.
      * by rewrite <- app_assoc in Htab.
      * destruct Hsame as (Htabs & ? & ? & ? & ? & ?). change (fresh h2) with (1 + fresh h)%nat in *.
        split; [split; [|split; [|lia]]|split].
        { apply Forall2_cons; [|done]. rewrite Htabs by lia. unfold h2, set_tab. cbn [tabs].
          rewrite lookup_insert_ne by lia. apply tabs_alloc_tab. }
        { apply Forall_cons; [lia|]. eapply list.Forall_impl; [exact Hids|]. cbn. lia. }
        { intros i Hi Hlti. rewrite Htabs by lia. unfold h2, h1, alloc_tab, bump, set_tab. cbn [tabs].
          by rewrite !lookup_insert_ne by lia. }
        { split_all; try done; lia. }
Qed.

(** an open descriptor *)
Definition open_inotify (h : heap) (vs : list value) (fd : Z) : Prop :=
  exists u d, udata_of vs h 1 INOTIFY_METATABLE = Some (u, d) /\ ud_uv d = [VInt fd].

Lemma run_checkinotify L h vs fd n w :
  open_inotify h (rev vs) fd ->
  rn (checkinotify L 1) (put L (LS (rev vs) (1 + n) h) w) = (Ok (to_int fd), put L (LS (rev vs) (1 + n) h) w).
Proof.
  intros (u & d & Hu & Hv). destruct (udata_of_at _ _ _ _ _ _ Hu) as [Ha Hd].
  unfold checkinotify, checkinotifynil. rewrite run_bind, run_bind, run_lua. cbn [doc].
  rewrite (doc_checkudata_ok _ _ _ _ _ _ _ Hu). cbn [andthen]. rewrite run_bind, run_lua.
  doc_eval. rewrite Ha, Hd, Hv. cbn [FILEDESC lookup list_lookup]. doc_eval. rewrite run_ret. cbn [andthen].
  lua_run. unfold luaL_argcheck. rewrite run_ret. cbn [andthen]. lua_run. done.
Qed.

(** C22. Reading an inotify descriptor returns the events the system reported, whatever their
    number, as an array of tables in the same order: watch, mask and, when there is one, the
    name without its padding.  No other table changes. *)
Theorem inotify_read_events L vs fd es h w w1 :
  open_inotify h (rev vs) fd -> Forall event_ok es -> Z.of_nat (String.length (events_encode es)) <= sizeof_event ->
  (forall st, c_call C "read" [AZ (to_int fd); AZ sizeof_event] (put L st w) =
    (Ok (Cret (Z.of_nat (String.length (events_encode es))) [AS (events_encode es)]), put L st w1)) ->
  exists h' ids,
    executes C L l_inotify_read vs h w (Ok [VTab (fresh h)]) (put L (idle h') w1) /\
    tabs h' !! fresh h = Some (Table (arr (VTab <$> ids)) None) /\
    Forall2 (fun id e => tabs h' !! id = Some (event_table e)) ids es /\
    (forall i, (i < fresh h)%nat -> tabs h' !! i = tabs h !! i).
Proof.
  intros Ho Hok Hl Hread. set (h1 := alloc_tab (Table (arr []) None) h). set (s := events_encode es) in *.
  destruct (run_pushevents L s es (String.length s) 1 "" (fresh h) [] (rev vs) 17 h1 w1)
    as (h' & ids & Hrun & Htab & (Hev & _) & Hsame & _); try done.
  - unfold s. clear. induction es as [|e es IH]; [done|]. cbn [events_encode length].
    rewrite string_app_length, event_encode_length. lia.
  - apply tabs_alloc_tab.
  - cbn. lia.
  - change (Z.of_nat (String.length "")) with 0 in Hrun. fold s in Hrun.
    exists h', ids. split; [|split; [done|split; [done|]]].
    + apply (executes_return C L _ _ h w [VTab (fresh h)] (rev vs) 19). unfold l_inotify_read, frame, LUA_MINSTACK.
      change 20%nat with (1 + 19)%nat. rewrite run_bind, (run_checkinotify L h vs fd) by done. cbn [andthen].
      rewrite run_bind, run_call, Hread. cbn [andthen rc]. rewrite (proj2 (Z.eqb_neq _ _)) by lia.
      rewrite run_bind, run_newtable. cbn [andthen]. change 19%nat with (2 + 17)%nat in *. fold h1 s.
      change (out_str 0 _) with s. rewrite Nat2Z.id. rewrite run_bind, Hrun. done.
    + intros i Hi. rewrite Hsame by (cbn; lia). unfold h1, alloc_tab, bump, set_tab. cbn [tabs].
      by rewrite lookup_insert_ne by lia.
Qed.
End inotify.

(** ** Witness: a file is made and another moved away *)

Definition sample_events : list inotify_event :=
  [InotifyEvent 1 256 0 (Some ("a.txt", 2%nat)); InotifyEvent (-1) 16384 0 None; InotifyEvent 2 64 7 (Some ("b", 0%nat))].

Definition name_max : Consts := fun name => if String.eqb name "NAME_MAX" then 255 else 0.

Definition inotify_kernel : clib Z := {|
  c_call := fun f _ w =>
    let s := events_encode sample_events in (Ok (Cret (Z.of_nat (String.length s)) [AS s]), w);
  c_fn := fun _ _ args w => (Ok (true, args), w) |}.

Lemma inotify_read_events_witness :
  exists h' ids,
    executes inotify_kernel 0 (@l_inotify_read name_max) [VUd 2] (sample_heap INOTIFY_METATABLE [VInt 5] 0) (sample_world ∅)
      (Ok [VTab 10]) (put 0%nat (idle h') (sample_world ∅)) /\
    tabs h' !! 10%nat = Some (Table (arr (VTab <$> ids)) None) /\
    Forall2 (fun id e => tabs h' !! id = Some (event_table e)) ids sample_events /\
    (forall i, (i < 10)%nat -> tabs h' !! i = tabs (sample_heap INOTIFY_METATABLE [VInt 5] 0) !! i).
Proof.
  apply (@inotify_read_events _ name_max _ _ inotify_kernel 0 [VUd 2] 5 sample_events (sample_heap INOTIFY_METATABLE [VInt 5] 0)
    (sample_world ∅) (sample_world ∅)).
  - exists 2%nat, (Udata (Some 1%nat) [VInt 5] 0). split; reflexivity.
  - unfold sample_events, event_ok, event_name. repeat (apply Forall_cons; [cbn; split_all; try done; lia|]). apply Forall_nil.
  - vm_compute. discriminate.
  - reflexivity.
Defined.
