(* ===== verification/SystemProps.v ===== *)
(** * What the functions of lua_b64.c, lua_mqueue.c, lua_pwd.c and lua_grp.c do

    [b64_ntop(3)] needs room for the text and its terminator, [b64_pton(3)] for the data
    ([b64_lib]); the sizes the module computes are always enough ([b64_roundtrip]).

    [l_mq_open] pops the arguments while it reads the attributes, so that creating a queue with
    attributes always fails ([open_attr_raises]); a message is returned but its buffer is never freed ([receive_leaks]).

    The databases of users and groups answer ERANGE while the buffer is too small for the
    entry ([db_lib]): the loop ends after as many rounds as doublings of a page are needed,
    with the entry as a table or with nothing when there is none, and gives every buffer
    back ([getpwnam_value]). *)

From Stdlib Require Import SpecFloat.
From S2P Require Import Prelude LuaApi Arrays Machine Capi Samples Utils Modules Cmem Wrapper Xor Uio Signal.
From S2P Require Import Libc Passwd Mqueue CmemProps.

(** the functions of libresolv for one string [s] and its encoding [e]: four characters for
    every three bytes *)
Record b64_lib {S : Type} `{Libc S} (C : clib S) (s e : string) : Prop := {
  b64_size : (String.length e = 4 * ((String.length s + 2) / 3))%nat;
  b64_text : cstr e = e;
  b64_ntop : forall p n w, p ≠ 0 -> Z.of_nat (String.length e) < n ->
    c_call C "b64_ntop" [AS s; AZ (Z.of_nat (String.length s)); AZ p; AZ n] w =
    (Ok (Cret (Z.of_nat (String.length e)) []), poke p (OBuf n (e +:+ String NUL "")) w);
  b64_pton : forall p n w, p ≠ 0 -> Z.of_nat (String.length s) <= n ->
    c_call C "b64_pton" [AS e; AZ p; AZ n] w =
    (Ok (Cret (Z.of_nat (String.length s)) []), poke p (OBuf n s) w)
}.

Section b64.
Context `{LuaSem} `{Consts} {S : Type} `{Libc S} (C : clib S).
Implicit Types (w : world S lstate) (L : nat) (h : heap).
Abbreviation rn := (run (documented C)).

(** a prefix of what a buffer holds *)
Lemma run_push_prefix L p len s rest vs n h w :
  p ≠ 0 -> wm w !! p = Some (OBuf len (s +:+ rest)) -> Z.of_nat (String.length (s +:+ rest)) <= len ->
  rn (push_bytes L p (Z.of_nat (String.length s))) (put L (LS vs (1 + n) h) w) =
  (Ok tt, put L (LS (VStr s :: vs) n h) w).
Proof.
  intros Hp Hm Hl. pose proof Hl as Hl'. rewrite string_app_length, Nat2Z.inj_add in Hl'.
  unfold push_bytes. rewrite (proj2 (Z.eqb_neq p 0)) by done. cbn [andb].
  rewrite run_bind, (run_read C p _ (OBuf len (s +:+ rest)) (Some s)); [cbn [andthen]; by lua_run|done|].
  cbn [read_bytes]. rewrite string_app_length, !(proj2 (Z.leb_le _ _)) by lia.
  by rewrite Nat2Z.id, substring_prefix.
Qed.

Lemma pushed_freed L p len s rest vs n h w :
  p ≠ 0 -> wm w !! p = Some (OBuf len (s +:+ rest)) -> Z.of_nat (String.length (s +:+ rest)) <= len ->
  rn (push_bytes L p (Z.of_nat (String.length s));; free p;; mret 1) (put L (LS vs (1 + n) h) w) =
  (Ok 1, put L (LS (VStr s :: vs) n h) (release p w)).
Proof.
  intros Hp Hm Hl. rewrite run_bind, (run_push_prefix L p len s rest) by done. cbn [andthen].
  by rewrite run_bind, (run_free C p (OBuf len (s +:+ rest))).
Qed.

(** C26. Encoding and then decoding gives back the same bytes, whatever they are: the two
    buffers are always large enough, and both are given back. *)
Theorem b64_roundtrip L s e h w :
  b64_lib C s e -> roomy w -> Z.of_nat (String.length s) < 2 ^ 60 ->
  exists w1 w2,
    executes C L l_b64_encode [VStr s] h w (Ok [VStr e]) (put L (idle h) w1) /\ wm w1 = wm w /\
    executes C L l_b64_decode [VStr e] h w1 (Ok [VStr s]) (put L (idle h) w2) /\ wm w2 = wm w.
Proof.
  intros HC [Hp Hm Ho] Hl. pose proof HC as [Hsize Htext _ _].
  set (ls := Z.of_nat (String.length s)) in *. set (le := Z.of_nat (String.length e)).
  assert (Hle : le = 4 * ((ls + 2) / 3)).
  { unfold le, ls. rewrite Hsize, Nat2Z.inj_mul, Nat2Z.inj_div, Nat2Z.inj_add. done. }
  assert (Hbytes : 0 <= ls) by (unfold ls; lia). 
  assert (Hsizes : le < 4 * (ls + 2) / 3 + 1 /\ ls <= 3 * le / 4 /\ le <= 4 * (ls + 2)).
  { clear - Hle Hbytes. Z.to_euclidean_division_equations. lia. }
  destruct Hsizes as (Hroom & Hback & Hlong).
  set (q := wnext w). assert (Hq : q ≠ 0) by (unfold q; lia). set (w1 := release q (poke q (OBuf (4 * (ls + 2) / 3 + 1) (e +:+ String NUL "")) (set_next (q + 1) w))).
  assert (Hmem1 : wm w1 = wm w).
  { unfold w1. rewrite release_fresh. apply delete_id, Hm. unfold q. lia. }
  set (q1 := wnext w1). set (w2 := release q1 (poke q1 (OBuf (3 * le / 4) s) (set_next (q1 + 1) w1))).
  assert (Hq1 : q1 ≠ 0) by (cbn; lia). exists w1, w2. split; [|split; [done|split]].
  - apply (executes_return C L _ _ h w [VStr e] [VStr s] 19). unfold l_b64_encode, frame, LUA_MINSTACK.
    rewrite run_bind, run_lua. doc_eval. fold ls. rewrite to_size_small by lia.
    rewrite run_bind, run_malloc_ok by done. cbn [andthen]. fold q. rewrite (proj2 (Z.eqb_neq q 0)) by done.
    rewrite run_bind, run_call. unfold ls at 1. rewrite (b64_ntop _ _ _ HC) by done.
    cbn [andthen rc]. rewrite (proj2 (Z.eqb_neq _ (-1))) by lia. cbn [negb]. rewrite run_bind.
    change (rn (assert_ true ?m)) with (rn (mret tt)). rewrite run_ret. cbn [andthen].
    rewrite !poke_put, poke_poke. apply (pushed_freed L q (4 * (ls + 2) / 3 + 1) e (String NUL "") [VStr s] 19 h).
    + done.
    + apply lookup_insert_eq.
    + rewrite string_app_length, Nat2Z.inj_add. fold le. cbn [String.length]. lia.
  - apply (executes_return C L _ _ h w1 [VStr s] [VStr e] 19). unfold l_b64_decode, frame, LUA_MINSTACK.
    rewrite run_bind, run_lua. doc_eval. fold le. rewrite to_size_small by lia.
    rewrite run_bind, run_malloc_ok by exact (Ho _ _). cbn [andthen]. fold q1. rewrite (proj2 (Z.eqb_neq q1 0)) by done.
    rewrite run_bind, run_call, Htext, (b64_pton _ _ _ HC) by done.
    cbn [andthen rc]. rewrite (proj2 (Z.eqb_neq _ (-1))) by lia.
    rewrite !poke_put, poke_poke. apply (pushed_freed L q1 (3 * le / 4) s "" [VStr e] 19 h).
    + done.
    + rewrite string_app_nil_r. apply lookup_insert_eq.
    + rewrite string_app_nil_r. fold ls. lia.
  - unfold w2. rewrite release_fresh, Hmem1. apply delete_id, Hm. cbn. lia.
Qed.
End b64.

(** ** Witness *)

Definition b64_hi : clib Z := {|
  c_call := fun f args w =>
    match rev args with
    | AZ n :: AZ p :: _ =>
        if String.eqb f "b64_ntop" then (Ok (Cret 4 []), poke p (OBuf n ("SGk=" +:+ String NUL "")) w)
        else (Ok (Cret 2 []), poke p (OBuf n "Hi") w)
    | _ => (Ok (Cret (-1) []), w)
    end;
  c_fn := fun _ _ args w => (Ok (true, args), w) |}.

Lemma b64_hi_lib : b64_lib b64_hi "Hi" "SGk=".
Proof. by split. Qed.

Lemma b64_roundtrip_witness :
  exists w1 w2,
    executes b64_hi 0 l_b64_encode [VStr "Hi"] (sample_heap "" [] 0) (sample_world ∅) (Ok [VStr "SGk="])
      (put 0%nat (idle (sample_heap "" [] 0)) w1) /\ wm w1 = ∅ /\
    executes b64_hi 0 l_b64_decode [VStr "SGk="] (sample_heap "" [] 0) w1 (Ok [VStr "Hi"])
      (put 0%nat (idle (sample_heap "" [] 0)) w2) /\ wm w2 = ∅.
Proof.
  exact (b64_roundtrip b64_hi 0 "Hi" "SGk=" (sample_heap "" [] 0) (sample_world ∅) b64_hi_lib
    (ltac:(by split) : roomy (sample_world ∅)) (ltac:(cbn; lia) : Z.of_nat (String.length "Hi") < 2 ^ 60)).
Defined.

Section mqueue.
Context `{LuaSem} `{Consts} {S : Type} `{Libc S} (C : clib S).
Implicit Types (w : world S lstate) (L : nat) (h : heap).
Abbreviation rn := (run (documented C)).

(** the number that [lua_tonumber] gives: 0 for what is not one; numbers in strings are left out *)
Definition number_of (v : value) : option spec_float :=
  match v with
  | VInt z => Some (integer_to_float z) | VNum f => Some f
  | VStr _ => None | _ => Some (S754_zero false)
  end.

Lemma run_tonumber L v f vs n h w :
  number_of v = Some f ->
  rn (lua_tonumber L (-1)) (put L (LS (v :: vs) n h) w) = (Ok f, put L (LS (v :: vs) n h) w).
Proof. destruct v; intros [= <-]; rewrite run_lua; by doc_eval. Qed.

(** the queue [l_mq_open] makes first: a userdata with no queue in it *)
Definition no_queue (mt : nat) (p : Z) (h : heap) : heap :=
  set_ud (fresh h) (Udata (Some mt) [] p) (bump (set_ud (fresh h) (Udata None [] p) h)).

(** reading an attribute after the arguments are gone *)
Lemma run_attr_gone L key n h w :
  rn (attr_number L key) (put L (LS [] (Datatypes.S n) h) w) =
  (Halt (Raise (EOp "index")), put L (LS [VStr (cstr key)] n h) w).
Proof. unfold attr_number. by lua_run. Qed.

(** C28. Creating a queue with a table of attributes always raises an error, whatever the
    attributes, and [mq_open] is never called: reading the first attribute pops every value off
    the stack, so that index 4 holds nothing when the second one is read from it. *)
Theorem open_attr_raises L name oflag mode t x f m h w mt :
  Z.land (to_int oflag) (cst "O_CREAT") ≠ 0 ->
  reg_get (inl MQD_METATABLE) h = VTab mt -> tabs h !! t = Some (Table x None) ->
  number_of (raw_get (KStr "maxmsg") (Table x None)) = Some f -> float_trunc f = Some m ->
  woom w sizeof_mqd (wnext w) = false -> wnext w ≠ 0 ->
  executes C L l_mq_open [VStr name; VInt oflag; VInt mode; VTab t] h w (Halt (Raise (EOp "index")))
    (put L (idle (no_queue mt (wnext w) h)) (poke (wnext w) (mqd_obj (-1)) (set_next (wnext w + 1) w))).
Proof.
  intros Hf Hmt Ht Hv Hm Ho Hz. apply (executes_halt C L _ _ h w _ [VStr "msgsize"] 23); [|done].
  unfold l_mq_open, frame, LUA_MINSTACK, lua_newuserdatauv.
  rewrite !run_bind, run_malloc_ok by done. cbn [andthen]. rewrite (proj2 (Z.eqb_neq _ _)) by done. lua_run.
  change (reg_get (inl MQD_METATABLE) (bump _)) with (reg_get (inl MQD_METATABLE) h).
  rewrite Hmt. cbn [uds bump]. rewrite uds_set_ud. lua_run.
  unfold luaL_checkstring. lua_run. rewrite (proj2 (Z.eqb_neq _ _)) by done. cbn [negb]. rewrite run_bind. lua_run.
  change (Z.of_nat 5 =? 5) with true. cbv iota. rewrite run_bind. unfold attr_number at 1. lua_run.
  set (h1 := set_ud (fresh h) _ _). assert (Eh : h1 = no_queue mt (wnext w) h) by done.
  assert (Ht1 : tabs h1 !! t = Some (Table x None)) by done. rewrite <- Eh. clearbody h1.
  unfold doc_gettable. doc_eval. know Ht1. change (cstr "maxmsg") with "maxmsg". cbn [key_of tmap tmeta].
  set (v := raw_get (KStr "maxmsg") (Table x None)) in *. clearbody v.
  destruct (x !! KStr "maxmsg"); (cbn [andthen]; rewrite run_bind, run_tonumber with (f := f) by done; cbn [andthen];
    change (- (-1) - 1) with 0; rewrite run_bind, run_clear; cbn [andthen length]; rewrite Hm, run_ret;
    cbn [andthen]; by rewrite run_bind, (run_attr_gone L "msgsize" 23)).
Qed.

(** Receiving a message returns its bytes and its priority, but the buffer it was
    received into stays allocated, and nothing refers to it any more. *)
Theorem receive_leaks L u d mqp mq n s prio h w :
  udata_of [VInt n; VUd u] h 1 MQD_METATABLE = Some (u, d) -> ud_blk d = mqp -> wm w !! mqp = Some (carray [mq]) ->
  roomy w -> 0 <= n < 2 ^ 63 -> Z.of_nat (String.length s) <= n -> mqp < wnext w ->
  (forall p v, p ≠ 0 ->
    c_call C "mq_receive" [AZ mq; AZ p; AZ n] v = (Ok (Cret (Z.of_nat (String.length s)) [AZ prio]), poke p (OBuf n s) v)) ->
  let w1 := set_next (wnext w + 1) (poke (wnext w) (OBuf n s) w) in
  executes C L l_mq_receive [VUd u; VInt n] h w (Ok [VStr s; VInt prio]) (put L (idle h) w1) /\
  wm w1 = <[wnext w := OBuf n s]> (wm w).
Proof.
  intros Hu Hb Hm [Hp Hfree Ho] Hn Hs Hlt Hrecv w1. split; [|done]. set (q := wnext w) in *.
  apply (executes_return C L _ _ h w [VStr s; VInt prio] [VInt n; VUd u] 18). unfold l_mq_receive, frame, LUA_MINSTACK.
  change (rev [VUd u; VInt n]) with [VInt n; VUd u].
  rewrite run_bind, run_lua. cbn [doc]. rewrite (doc_checkudata_ok _ _ _ _ _ _ _ Hu). cbn [andthen]. rewrite Hb.
  rewrite run_bind, run_lua. doc_eval. rewrite to_size_small by lia.
  rewrite run_bind, run_malloc_ok by done. cbn [andthen]. fold q. rewrite (proj2 (Z.eqb_neq q 0)) by (unfold q; lia).
  rewrite run_bind, (run_arr_load C L mqp [mq] 0 mq).
  - cbn [andthen]. rewrite run_bind, run_call, Hrecv by (unfold q; lia). cbn [andthen]. rewrite !poke_put, poke_poke. unfold received. cbn [rc].
    rewrite (proj2 (Z.eqb_neq _ _)) by lia. change 20%nat with (1 + (1 + 18))%nat.
    rewrite run_bind, (run_push_all C L q n s) by (apply lookup_insert_eq || unfold q; lia).
    cbn [andthen]. by lua_run.
  - cbn. rewrite lookup_insert_ne by (unfold q; lia). exact Hm.
  - done.
Qed.
End mqueue.

(** ** Witnesses *)

Definition o_creat : Consts := fun name => if String.eqb name "O_CREAT" then 512 else 0.

(** table 3 is an attribute: [maxmsg = 10] *)
Definition attr_heap : heap :=
  set_tab 3 (Table {[ KStr "maxmsg" := VInt 10 ]} None) (sample_heap MQD_METATABLE [] 0).

Lemma open_attr_raises_witness :
  executes (sample_clib []) 0 (@l_mq_open o_creat) [VStr "/q"; VInt 514; VInt 420; VTab 3] attr_heap (sample_world ∅)
    (Halt (Raise (EOp "index")))
    (put 0%nat (idle (no_queue 1 4096 attr_heap)) (poke 4096 (mqd_obj (-1)) (set_next 4097 (sample_world ∅)))).
Proof.
  apply (@open_attr_raises _ o_creat _ _ (sample_clib []) 0 "/q" 514 420 3 {[ KStr "maxmsg" := VInt 10 ]}
    (integer_to_float 10) 10 attr_heap (sample_world ∅) 1); done.
Defined.

Definition receive_hi : clib Z := {|
  c_call := fun f args w =>
    match args with
    | [_; AZ p; AZ n] => (Ok (Cret 2 [AZ 7]), poke p (OBuf n "hi") w)
    | _ => (Ok (Cret (-1) []), w)
    end;
  c_fn := fun _ _ args w => (Ok (true, args), w) |}.

Lemma receive_leaks_witness :
  let h := sample_heap MQD_METATABLE [] 4000 in
  let w := sample_world {[ 4000 := carray [5] ]} in
  let w1 := set_next 4097 (poke 4096 (OBuf 16 "hi") w) in
  executes receive_hi 0 l_mq_receive [VUd 2; VInt 16] h w (Ok [VStr "hi"; VInt 7]) (put 0%nat (idle h) w1) /\
  wm w1 = <[4096 := OBuf 16 "hi"]> (wm w).
Proof.
  apply (receive_leaks receive_hi 0 2 (Udata (Some 1%nat) [] 4000) 4000 5 16 "hi" 7 (sample_heap MQD_METATABLE [] 4000)
    (sample_world {[ 4000 := carray [5] ]})); try done.
  - split; [done| |done]. intros p Hp. cbn in *. apply lookup_singleton_None. lia.
Defined.

(** [f(args, ..., buffer, size, &result)] when the entry needs [need] bytes; the members of
    the entry are [outs], there is none for [None] *)
Record db_lib `{Consts} {S : Type} `{Libc S} (C : clib S) (f : string) (args : list carg) (page need : Z)
  (entry : option (list carg)) : Prop := {
  db_page : forall w, c_call C "getpagesize" [] w = (Ok (Cret page []), w);
  db_small : forall p n w, p ≠ 0 -> n < need ->
    c_call C f (args ++ [AZ p; AZ n]) w = (Ok (Cret (cst "ERANGE") []), w);
  db_fits : forall p n w, p ≠ 0 -> need <= n ->
    c_call C f (args ++ [AZ p; AZ n]) w =
    (Ok (Cret 0 (match entry with Some outs => AZ 1 :: outs | None => [AZ 0] end)), w)
}.

Section retry.
Context `{LuaSem} `{Consts} {S : Type} `{Libc S} (C : clib S).
Implicit Types (w : world S lstate) (L : nat) (h : heap) (p : Z).
Abbreviation rn := (run (documented C)).

(** a world that differs in the addresses that have been used *)
Definition same_mem w w' : Prop := wm w' = wm w /\ wx w' = wx w /\ wl w' = wl w /\ roomy w'.

Lemma same_mem_refl w : roomy w -> same_mem w w.
Proof. by split_all. Qed.

Lemma same_mem_trans w w1 w2 : same_mem w w1 -> same_mem w1 w2 -> same_mem w w2.
Proof. intros (? & ? & ? & _) (? & ? & ? & ?). unfold same_mem. split_all; congruence || done. Qed.

(** allocating and freeing *)
Lemma same_mem_freed w o : roomy w -> same_mem w (release (wnext w) (poke (wnext w) o (set_next (wnext w + 1) w))).
Proof.
  intros [Hp Hm Ho]. assert (Hd : wm (release (wnext w) (poke (wnext w) o (set_next (wnext w + 1) w))) = wm w).
  { rewrite release_fresh. apply delete_id, Hm. lia. }
  split; [done|split; [done|split; [done|]]]. split; [cbn; lia| |done].
  intros p Hq. rewrite Hd. apply Hm. cbn in Hq. lia.
Qed.

(** one round *)
Lemma run_db_round L f args page need entry push st b n w :
  db_lib C f args page need entry -> cst "ERANGE" ≠ 0 -> roomy w ->
  let w1 := poke (wnext w) (OBuf b "") (set_next (wnext w + 1) w) in
  rn (db_retry (Datatypes.S n) L f args push b) (put L st w) =
  if need <=? b then
    match entry with
    | Some outs => rn (in_buffer (wnext w);; push (Cret 0 (AZ 1 :: outs));; free (wnext w);; mret 1) (put L st w1)
    | None => (Ok 0, put L st (release (wnext w) w1))
    end
  else rn (db_retry n L f args push (to_size (b * 2))) (put L st (release (wnext w) w1)).
Proof.
  intros HC He [Hp Hm Ho] w1. assert (Hq : wnext w ≠ 0) by lia. cbn [db_retry].
  rewrite run_bind, run_malloc_ok by done. cbn [andthen]. rewrite (proj2 (Z.eqb_neq _ _)) by done.
  rewrite run_bind, run_call. destruct (Z.leb_spec need b) as [Hf|Hf].
  - rewrite (db_fits _ _ _ _ _ _ HC) by done. cbn [andthen rc]. change (negb (0 =? 0)) with false. cbv iota.
    destruct entry as [outs|]; [done|]. change (out_int 0 (Cret 0 [AZ 0]) =? 0) with true. cbv iota.
    by rewrite run_bind, (run_free C _ (OBuf b "")) by (done || apply lookup_insert_eq).
  - rewrite (db_small _ _ _ _ _ _ HC) by done. cbn [andthen rc]. rewrite (proj2 (Z.eqb_neq _ 0)) by done. cbn [negb].
    rewrite run_bind, (run_free C _ (OBuf b "")) by (done || apply lookup_insert_eq). cbn [andthen].
    by rewrite Z.eqb_refl.
Qed.

(** [k] doublings of [b] are enough *)
Lemma run_db_retry L f args page need entry push st k : forall b fuel w,
  db_lib C f args page need entry -> cst "ERANGE" ≠ 0 -> roomy w ->
  0 < b -> need <= b * 2 ^ Z.of_nat k -> b * 2 ^ Z.of_nat k < 2 ^ 62 ->
  exists w1 b1, same_mem w w1 /\
    rn (db_retry (1 + k + fuel) L f args push b) (put L st w) =
    match entry with
    | Some outs =>
        rn (in_buffer (wnext w1);; push (Cret 0 (AZ 1 :: outs));; free (wnext w1);; mret 1)
          (put L st (poke (wnext w1) (OBuf b1 "") (set_next (wnext w1 + 1) w1)))
    | None => (Ok 0, put L st w1)
    end.
Proof.
  induction k as [|k IH]; intros b fuel w HC He Hr Hb Hn Hl;
    [change (1 + 0 + fuel)%nat with (Datatypes.S fuel)|change (1 + Datatypes.S k + fuel)%nat with (Datatypes.S (1 + k + fuel))];
    rewrite (run_db_round L f args page need entry) by done; destruct (Z.leb_spec need b) as [Hf|Hf].
  1, 3: destruct entry; [exists w, b|eexists _, b]; (split; [|done]); [by apply same_mem_refl|by apply same_mem_freed].
  - cbn in Hn. lia.
  - rewrite Nat2Z.inj_succ, Z.pow_succ_r in Hn, Hl by lia.
    assert (0 < 2 ^ Z.of_nat k) by (apply Z.pow_pos_nonneg; lia). rewrite to_size_small by nia.
    destruct (IH (b * 2) fuel _ HC He (proj2 (proj2 (proj2 (same_mem_freed w (OBuf b "") Hr))))) as (w1 & b1 & Hsame & Hrun); [lia..|].
    exists w1, b1. split; [|exact Hrun]. eapply same_mem_trans; [by apply same_mem_freed|done].
Qed.

(** a function that reads an entry and pushes it as a new table *)
Lemma executes_db_get L f args page need entry push g vs k fuel h h' w :
  db_lib C f args page need entry -> cst "ERANGE" ≠ 0 -> roomy w ->
  0 < page -> need <= page * 2 ^ Z.of_nat k -> page * 2 ^ Z.of_nat k < 2 ^ 62 ->
  (forall w1, rn (g L) (put L (frame vs h) w1) = rn (db_get (1 + k + fuel) L f args push) (put L (frame vs h) w1)) ->
  (forall outs w1, entry = Some outs ->
    rn (push (Cret 0 (AZ 1 :: outs))) (put L (frame vs h) w1) =
    (Ok tt, put L (LS (VTab (fresh h) :: rev vs) 19 h') w1)) ->
  exists w', same_mem w w' /\
    executes C L g vs h w (Ok (match entry with Some _ => [VTab (fresh h)] | None => [] end))
      (put L (idle (match entry with Some _ => h' | None => h end)) w').
Proof.
  intros HC He Hr Hp Hn Hl Hg Hpush.
  destruct (run_db_retry L f args page need entry push (frame vs h) k page fuel w HC He Hr Hp Hn Hl) as (w1 & b1 & Hsame & Hrun).
  assert (Hsteps : rn (g L) (put L (frame vs h) w) = rn (db_retry (1 + k + fuel) L f args push page) (put L (frame vs h) w)).
  { assert (0 < 2 ^ Z.of_nat k) by (apply Z.pow_pos_nonneg; lia).
    rewrite Hg. unfold db_get. rewrite run_bind, run_call, (db_page _ _ _ _ _ _ HC). cbn [andthen rc].
    by rewrite to_size_small by nia. }
  rewrite Hrun in Hsteps. destruct entry as [outs|].
  - pose proof Hsame as (_ & _ & _ & Hr1). pose proof Hr1 as [Hp1 _ _].
    eexists. split; [eapply same_mem_trans; [exact Hsame|by apply (same_mem_freed w1 (OBuf b1 ""))]|].
    apply (executes_return C L _ _ h w [VTab (fresh h)] (rev vs) 19). rewrite Hsteps.
    rewrite run_bind. unfold in_buffer. erewrite run_read by (apply lookup_insert_eq || done). cbn [andthen].
    rewrite run_bind, (Hpush outs) by done. cbn [andthen].
    rewrite run_bind, (run_free C _ (OBuf b1 "")) by (lia || apply lookup_insert_eq). done.
  - exists w1. split; [done|]. by apply (executes_return C L _ _ h w [] (rev vs) 20).
Qed.

(** ** The tables *)

Record passwd := Passwd_ {
  pw_name : string; pw_passwd : string; pw_class : string; pw_gecos : string; pw_dir : string; pw_shell : string;
  pw_uid : Z; pw_gid : Z; pw_change : Z; pw_expire : Z }.

Definition passwd_members (p : passwd) : list carg :=
  [AS (pw_name p); AS (pw_passwd p); AS (pw_class p); AS (pw_gecos p); AS (pw_dir p); AS (pw_shell p);
   AZ (pw_uid p); AZ (pw_gid p); AZ (pw_change p); AZ (pw_expire p)].

Definition passwd_table (p : passwd) : table :=
  fields [
    ("name", VStr (cstr (pw_name p))); ("passwd", VStr (cstr (pw_passwd p))); ("class", VStr (cstr (pw_class p)));
    ("gecos", VStr (cstr (pw_gecos p))); ("dir", VStr (cstr (pw_dir p))); ("shell", VStr (cstr (pw_shell p)));
    ("uid", VInt (pw_uid p)); ("gid", VInt (pw_gid p));
    ("change", VInt (pw_change p)); ("expire", VInt (pw_expire p))].

Record group := Group_ { gr_name : string; gr_passwd : string; gr_gid : Z; gr_mem : list string }.

Definition group_members (g : group) : list carg :=
  AS (gr_name g) :: AS (gr_passwd g) :: AZ (gr_gid g) :: (AS <$> gr_mem g).

(** [mem] is the table of the members *)
Definition group_table (mem : nat) (g : group) : table :=
  fields [("name", VStr (cstr (gr_name g))); ("passwd", VStr (cstr (gr_passwd g))); ("gid", VInt (gr_gid g));
          ("mem", VTab mem)].

Lemma run_pushpasswd L e vs n h w :
  rn (pushpasswd L (Cret 0 (AZ 1 :: passwd_members e))) (put L (LS vs (2 + n) h) w) =
  (Ok tt, put L (LS (VTab (fresh h) :: vs) (1 + n) (alloc_tab (passwd_table e) h)) w).
Proof.
  unfold pushpasswd. change (2 + n)%nat with (1 + (1 + n))%nat. rewrite run_bind, run_newtable. cbn [andthen].
  rewrite run_bind, (run_str_fields C L _ _ _ (fresh h) (arr [])), set_alloc_tab by apply tabs_alloc_tab. cbn [andthen].
  rewrite arr_nil. erewrite run_int_fields by apply tabs_alloc_tab. by rewrite set_alloc_tab.
Qed.

Lemma run_push_members L mem : forall done_ t vs n h w,
  tabs h !! t = Some (Table (arr (VStr ∘ cstr <$> done_)) None) ->
  rn (push_members L (AS <$> mem)) (put L (LS (VTab t :: vs) (1 + n) h) w) =
  (Ok tt, put L (LS (VTab t :: vs) (1 + n) (set_tab t (Table (arr (VStr ∘ cstr <$> done_ ++ mem)) None) h)) w).
Proof.
  induction mem as [|s mem IH]; intros done_ t vs n h w Ht; cbn [push_members fmap list_fmap].
  - by rewrite run_ret, app_nil_r, set_tab_id.
  - rewrite run_bind, run_lua. doc_eval. rewrite (run_append C L (VStr (cstr s)) (VStr ∘ cstr <$> done_)) by done.
    change [VStr (cstr s)] with (VStr ∘ cstr <$> [s]). rewrite <- fmap_app.
    rewrite (IH (done_ ++ [s])) by apply tabs_set_tab. by rewrite set_tab_set_tab, <- app_assoc.
Qed.

(** setting the table before the last *)
Lemma set_before t x y h : t = fresh h -> forall z,
  set_tab t z (alloc_tab y (alloc_tab x h)) = alloc_tab y (alloc_tab z h).
Proof.
  intros -> z. unfold alloc_tab, bump, set_tab. cbn [tabs funs uds reg globals fresh]. f_equal.
  rewrite insert_insert_ne by lia. f_equal. by rewrite insert_insert_eq.
Qed.

Lemma run_pushgroup L g vs n h w :
  rn (pushgroup L (Cret 0 (AZ 1 :: group_members g))) (put L (LS vs (3 + n) h) w) =
  (Ok tt, put L (LS (VTab (fresh h) :: vs) (2 + n)
    (alloc_tab (Table (arr (VStr ∘ cstr <$> gr_mem g)) None) (alloc_tab (group_table (1 + fresh h) g) h))) w).
Proof.
  unfold pushgroup. change (3 + n)%nat with (1 + (1 + (1 + n)))%nat. rewrite run_bind, run_newtable. cbn [andthen].
  rewrite run_bind, (run_str_field C L _ _ (fresh h) (arr [])), set_alloc_tab by apply tabs_alloc_tab. cbn [andthen].
  rewrite run_bind. erewrite run_str_field by apply tabs_alloc_tab. rewrite set_alloc_tab. cbn [andthen].
  rewrite run_bind. erewrite run_int_field by apply tabs_alloc_tab. rewrite set_alloc_tab. cbn [andthen].
  rewrite run_bind, run_newtable. cbn [andthen]. set (h2 := alloc_tab _ h).
  rewrite run_bind, (run_push_members L (gr_mem g) [] (fresh h2)), set_alloc_tab by apply tabs_alloc_tab. cbn [andthen app].
  set (y := Table (arr (VStr ∘ cstr <$> gr_mem g)) None).
  erewrite run_setfield; [|unfold h2, alloc_tab, bump, set_tab; cbn [tabs]; rewrite lookup_insert_ne by (cbn; lia);
    apply lookup_insert_eq|done].
  unfold h2. by rewrite (set_before (fresh h)).
Qed.

(** C24. Looking a user up ends after as many rounds as doublings of a page are needed for the
    entry, however long it is, and returns the entry as a table with its ten members, or
    nothing when there is none; every buffer is given back. *)
Theorem getpwnam_value L name page need entry k fuel h w :
  db_lib C "getpwnam_r" [AS (cstr name)] page need (passwd_members <$> entry) -> cst "ERANGE" ≠ 0 -> roomy w ->
  0 < page -> need <= page * 2 ^ Z.of_nat k -> page * 2 ^ Z.of_nat k < 2 ^ 62 ->
  exists w', wm w' = wm w /\ wx w' = wx w /\
    match entry with
    | Some e => executes C L (l_getpwnam (1 + k + fuel)) [VStr name] h w (Ok [VTab (fresh h)])
                  (put L (idle (alloc_tab (passwd_table e) h)) w')
    | None => executes C L (l_getpwnam (1 + k + fuel)) [VStr name] h w (Ok []) (put L (idle h) w')
    end.
Proof.
  intros HC He Hr Hp Hn Hl.
  destruct (executes_db_get L "getpwnam_r" [AS (cstr name)] page need (passwd_members <$> entry) (pushpasswd L)
    (l_getpwnam (1 + k + fuel)) [VStr name] k fuel h
    (match entry with Some e => alloc_tab (passwd_table e) h | None => h end) w) as (w' & (Hm & Hx & _) & Hex); try done.
  - intros w1. unfold l_getpwnam, luaL_checkstring, frame. by lua_run.
  - intros outs w1. destruct entry as [e|]; [|done]. intros [= <-]. exact (run_pushpasswd L e [VStr name] 18 h w1).
  - exists w'. split; [done|split; [done|]]. by destruct entry.
Qed.

(** Looking a group up by its number gives its name, password, number and the array of its
    members in order, however many there are, with every buffer given back. *)
Theorem getgrgid_value L gid page need g k fuel h w :
  db_lib C "getgrgid_r" [AZ (to_uint gid)] page need (Some (group_members g)) -> cst "ERANGE" ≠ 0 -> roomy w ->
  0 < page -> need <= page * 2 ^ Z.of_nat k -> page * 2 ^ Z.of_nat k < 2 ^ 62 ->
  exists w', wm w' = wm w /\ wx w' = wx w /\
    executes C L (l_getgrgid (1 + k + fuel)) [VInt gid] h w (Ok [VTab (fresh h)])
      (put L (idle (alloc_tab (Table (arr (VStr ∘ cstr <$> gr_mem g)) None)
                      (alloc_tab (group_table (1 + fresh h) g) h))) w').
Proof.
  intros HC He Hr Hp Hn Hl.
  destruct (executes_db_get L "getgrgid_r" [AZ (to_uint gid)] page need (Some (group_members g)) (pushgroup L)
    (l_getgrgid (1 + k + fuel)) [VInt gid] k fuel h
    (alloc_tab (Table (arr (VStr ∘ cstr <$> gr_mem g)) None) (alloc_tab (group_table (1 + fresh h) g) h)) w)
    as (w' & (Hm & Hx & _) & Hex); try done.
  - intros w1. unfold l_getgrgid, frame. by lua_run.
  - intros outs w1 [= <-]. exact (run_pushgroup L g [VInt gid] 17 h w1).
  - by exists w'.
Qed.
End retry.

(** ** Witnesses *)

Definition erange : Consts := fun name => if String.eqb name "ERANGE" then 34 else 0.

(** a database with one entry of 10000 bytes *)
Definition one_entry (outs : list carg) : clib Z := {|
  c_call := fun f args w =>
    match rev args with
    | AZ n :: AZ _ :: _ => (Ok (if n <? 10000 then Cret (cst (Consts := erange) "ERANGE") [] else Cret 0 (AZ 1 :: outs)), w)
    | _ => (Ok (Cret 4096 []), w)
    end;
  c_fn := fun _ _ args w => (Ok (true, args), w) |}.

Lemma one_entry_lib f args outs : @db_lib erange _ _ (one_entry outs) f args 4096 10000 (Some outs).
Proof.
  split.
  - done.
  - intros p n w _ Hn. unfold one_entry; cbn [c_call]. rewrite rev_app_distr. cbn [rev app].
    by rewrite (proj2 (Z.ltb_lt _ _)).
  - intros p n w _ Hn. unfold one_entry; cbn [c_call]. rewrite rev_app_distr. cbn [rev app].
    by rewrite (proj2 (Z.ltb_ge _ _)).
Qed.

Definition toor : passwd := Passwd_ "toor" "*" "" "Bourne-again Superuser" "/root" "/bin/sh" 0 0 0 0.

Lemma getpwnam_value_witness :
  exists w', wm w' = ∅ /\ wx w' = 0 /\
    executes (one_entry (passwd_members toor)) 0 (@l_getpwnam erange 3) [VStr "toor"] (sample_heap "" [] 0) (sample_world ∅)
      (Ok [VTab 10]) (put 0%nat (idle (alloc_tab (passwd_table toor) (sample_heap "" [] 0))) w').
Proof.
  apply (@getpwnam_value _ erange _ _ (one_entry (passwd_members toor)) 0 "toor" 4096 10000 (Some toor) 2 0
    (sample_heap "" [] 0) (sample_world ∅) (one_entry_lib _ _ _)); done || by split.
Defined.

Definition wheel : group := Group_ "wheel" "*" 0 ["root"; "toor"].

Lemma getgrgid_value_witness :
  exists w', wm w' = ∅ /\ wx w' = 0 /\
    executes (one_entry (group_members wheel)) 0 (@l_getgrgid erange 3) [VInt 0] (sample_heap "" [] 0) (sample_world ∅)
      (Ok [VTab 10])
      (put 0%nat (idle (alloc_tab (Table (arr (VStr ∘ cstr <$> gr_mem wheel)) None)
                          (alloc_tab (group_table 11 wheel) (sample_heap "" [] 0)))) w').
Proof.
  apply (@getgrgid_value _ erange _ _ (one_entry (group_members wheel)) 0 0 4096 10000 wheel 2 0
    (sample_heap "" [] 0) (sample_world ∅) (one_entry_lib _ _ _)); done || by split.
Defined.
