(* ===== verification/NetProps.v ===== *)
(** * Addresses that go through lua_socket.h and lua_sctp.c

    What [checkaddr] makes of a table [pushaddr] turns back ([addr_roundtrip]), as long as the
    data fits into a [struct sockaddr_storage]; longer data is written behind its end
    ([addr_overflow]).  A list of addresses given to [bindx] reaches the system as one block
    and comes back from it as the same list ([addrs_roundtrip]).

    A closer of lua_sctp.c has lost the pointer it was made for ([closer_leaks]). *)

From Stdlib Require Import Ascii.
From S2P Require Import Prelude LuaApi Arrays Machine Capi Samples Utils Modules Cmem Wrapper Uio Net Sctp.
From S2P Require Import CmemProps.

(** the table of an address *)
Definition addr_table (family : Z) (data : string) : table := fields [("family", VInt family); ("data", VStr data)].

Section net.
Context `{LuaSem} `{Consts} {S : Type} `{Libc S} (C : clib S).
Implicit Types (w : world S lstate) (L : nat) (h : heap).
Abbreviation rn := (run (documented C)).

Definition is_addr (h : heap) (vs : list value) (i : Z) (family : Z) (data : string) : Prop :=
  exists t x, at_ vs i = Val (VTab t) /\ tabs h !! t = Some (Table x None) /\
    x !! KStr "family" = Some (VInt family) /\ x !! KStr "data" = Some (VStr data).

Lemma run_checkaddr L i vs n family data h w :
  1 <= i -> is_addr h vs i family data ->
  rn (checkaddr L i) (put L (LS vs (2 + n) h) w) =
  if sizeof_ss <? offsetof_sa_data + Z.of_nat (String.length data) then
    (Halt (UB "access outside of an object"), put L (LS (VStr data :: VInt family :: vs) n h) w)
  else
    (Ok (saddr_bytes (to_uchar (Z.of_nat (String.length data) + offsetof_sa_data)) family data,
         to_uchar (Z.of_nat (String.length data) + offsetof_sa_data)), put L (LS vs (2 + n) h) w).
Proof.
  intros Hi (t & x & Ha & Ht & Hf & Hd). unfold checkaddr.
  rewrite run_bind, run_lua. unfold doc. doc_eval. know Ha. change (Datatypes.S (Datatypes.S n)) with (1 + (1 + n))%nat.
  rewrite run_bind, (run_getfield C L i "family" (VInt family) t x) by done. cbn [andthen].
  rewrite run_bind, run_lua. doc_eval. rewrite run_bind, run_argcheck_true. cbn [andthen].
  rewrite run_bind, run_lua. doc_eval.
  rewrite run_bind, (run_getfield C L i "data" (VStr data) t x) by (done || apply at_cons; done || lia). cbn [andthen].
  rewrite run_bind. unfold lua_isstring. lua_run. rewrite run_argcheck_true. lua_run.
  destruct (sizeof_ss <? _); [apply run_undefined|]. lua_run. done.
Qed.

Lemma le_value_byte z : le_value (String (byte z) "") = to_uchar z.
Proof.
  cbn [le_value]. unfold byte. pose proof (wrapu_range 8 z ltac:(lia)). unfold to_uchar in *.
  rewrite nat_of_byte by lia. lia.
Qed.

(** an address of which [rd] gives the bytes *)
Lemma run_pushaddr_of L rd len family data vs n h w :
  (forall st, rn (rd 1 1) (put L st w) = (Ok (String (byte family) ""), put L st w)) ->
  (forall st, rn (rd 0 1) (put L st w) = (Ok (String (byte len) ""), put L st w)) ->
  (forall st, rn (rd offsetof_sa_data (Z.of_nat (String.length data))) (put L st w) = (Ok data, put L st w)) ->
  to_uchar len = offsetof_sa_data + Z.of_nat (String.length data) ->
  rn (pushaddr L rd) (put L (LS vs (2 + n) h) w) =
  (Ok tt, put L (LS (VTab (fresh h) :: vs) (1 + n) (alloc_tab (addr_table (to_uchar family) data) h)) w).
Proof.
  intros E1 E0 E2 Hlen. unfold pushaddr. change (2 + n)%nat with (1 + (1 + n))%nat.
  rewrite run_bind, run_newtable. cbn [andthen]. rewrite run_bind, E1. cbn [andthen]. rewrite le_value_byte.
  rewrite run_bind, run_lua. doc_eval.
  rewrite run_bind, (run_setfield C L _ _ _ (Table (arr []) None)), set_alloc_tab by (done || apply tabs_alloc_tab). cbn [andthen].
  rewrite run_bind, E0. cbn [andthen]. rewrite le_value_byte, Hlen, Z.add_simpl_l.
  pose proof (wrapu_range 8 len ltac:(lia)) as Hr. unfold to_uchar in Hlen. rewrite Hlen in Hr. unfold offsetof_sa_data in Hr.
  rewrite to_size_small by lia. rewrite run_bind, E2. cbn [andthen]. rewrite run_bind, run_lua. doc_eval.
  erewrite run_setfield by (done || apply tabs_alloc_tab). rewrite set_alloc_tab, arr_nil. done.
Qed.

Lemma run_pushaddr L len family data rest vs n h w :
  to_uchar len = offsetof_sa_data + Z.of_nat (String.length data) ->
  Z.of_nat (String.length (saddr_bytes len family (data +:+ rest))) <= sizeof_ss ->
  rn (pushaddr_local L (saddr_bytes len family (data +:+ rest))) (put L (LS vs (2 + n) h) w) =
  (Ok tt, put L (LS (VTab (fresh h) :: vs) (1 + n) (alloc_tab (addr_table (to_uchar family) data) h)) w).
Proof.
  intros Hlen Hl. set (s := saddr_bytes _ _ _) in *. apply (run_pushaddr_of L _ len); [..|done]; intros st.
  - by apply (run_local_bytes C L sizeof_ss s (String (byte len) "") (String (byte family) "") (data +:+ rest)).
  - by apply (run_local_bytes C L sizeof_ss s "" (String (byte len) "") (String (byte family) (data +:+ rest))).
  - by apply (run_local_bytes C L sizeof_ss s (String (byte len) (String (byte family) "")) data rest).
Qed.

(** [bind(2)] and [getsockname(2)]: the address that was bound is reported *)
Record bind_lib (store : Z -> string -> S -> S) (bound : Z -> S -> string) : Prop := {
  bl_bind : forall s a n w, c_call C "bind" [AZ s; AS a; AZ n] w = (Ok (Cret 0 []), set_x (store s a (wx w)) w);
  bl_name : forall s w, c_call C "getsockname" [AZ s; AZ sizeof_ss] w = (Ok (Cret 0 [AS (bound s (wx w))]), w);
  bl_kept : forall s a x, bound s (store s a x) = a
}.

(** C23. An address whose data has at most 126 bytes reaches the system with its length, and
    comes back from it as a new table with the same data and the same family, as a byte. *)
Theorem addr_roundtrip L fd t x family data store bound h w :
  bind_lib store bound -> tabs h !! t = Some (Table x None) ->
  x !! KStr "family" = Some (VInt family) -> x !! KStr "data" = Some (VStr data) -> (String.length data <= 126)%nat ->
  let w1 := set_x (store (to_int fd) (saddr_bytes (Z.of_nat (String.length data) + 2) family data) (wx w)) w in
  executes C L l_bind [VInt fd; VTab t] h w (Ok [VInt 1]) (put L (idle h) w1) /\
  executes C L l_getsockname [VInt fd] h w1 (Ok [VTab (fresh h)])
    (put L (idle (alloc_tab (addr_table (to_uchar family) data) h)) w1).
Proof.
  intros HC Ht Hf Hd Hl w1. assert (Hlen : to_uchar (Z.of_nat (String.length data) + offsetof_sa_data) =
    Z.of_nat (String.length data) + 2) by (apply wrapu_small; unfold offsetof_sa_data; lia).
  split.
  - apply (executes_return C L _ _ h w [VInt 1] [VTab t; VInt fd] 19). unfold l_bind, frame, LUA_MINSTACK, checkfd.
    lua_run. change 20%nat with (2 + 18)%nat.
    rewrite (run_checkaddr L 2 _ 18 family data) by (lia || by exists t, x).
    rewrite (proj2 (Z.ltb_ge _ _)) by (unfold sizeof_ss, offsetof_sa_data; lia). cbn [andthen fst snd].
    rewrite Hlen, run_bind, run_call, (bl_bind _ _ HC). cbn [andthen]. unfold or_fail. cbn [rc].
    change (0 =? -1) with false. cbv iota.
    rewrite set_x_put. apply (run_success C L [VTab t; VInt fd] 19).
  - apply (executes_return C L _ _ h w1 [VTab (fresh h)] [VInt fd] 19). unfold l_getsockname, frame, LUA_MINSTACK, checkfd.
    lua_run. rewrite run_call, (bl_name _ _ HC). cbn [andthen]. unfold or_fail. cbn [rc].
    change (0 =? -1) with false. cbv iota.
    change (out_str 0 _) with (bound (to_int fd) (wx w1)). unfold w1 at 1. cbn [wx set_x]. rewrite (bl_kept _ _ HC).
    rewrite <- (string_app_nil_r data) at 2. change 20%nat with (2 + 18)%nat.
    rewrite run_bind, run_pushaddr.
    + done.
    + rewrite <- Hlen. unfold to_uchar, wrapu. rewrite Zmod_mod. fold (wrapu 8 (Z.of_nat (String.length data) + offsetof_sa_data)).
      unfold to_uchar in Hlen. rewrite Hlen. unfold offsetof_sa_data. lia.
    + unfold saddr_bytes, sizeof_ss. cbn [String.length]. rewrite string_app_nil_r. lia.
Qed.

(** An address with more data than fits is copied past the end of the structure that
    holds it: there is no check. *)
Theorem addr_overflow L fd t x family data h w :
  tabs h !! t = Some (Table x None) -> x !! KStr "family" = Some (VInt family) -> x !! KStr "data" = Some (VStr data) ->
  (126 < String.length data)%nat ->
  (invoke C L l_bind [VInt fd; VTab t] h w).1 = Halt (UB "access outside of an object").
Proof.
  intros Ht Hf Hd Hl. unfold invoke, l_bind, frame, LUA_MINSTACK, checkfd.
  lua_run. change 20%nat with (2 + 18)%nat.
  rewrite (run_checkaddr L 2 _ 18 family data) by (lia || by exists t, x).
  rewrite (proj2 (Z.ltb_lt _ _)) by (unfold sizeof_ss, offsetof_sa_data; lia). cbn [andthen finish]. by rewrite wl_put.
Qed.
End net.

(** ** Witnesses: a socket bound to a path *)

#[export] Instance sock_libc : Libc string := {| c_errno := fun _ => 0; c_strerror := fun _ => "" |}.

Definition one_socket : clib string := {|
  c_call := fun f args w =>
    match args with
    | [_; AS a; _] => (Ok (Cret 0 []), set_x a w)
    | _ => (Ok (Cret 0 [AS (wx w)]), w)
    end;
  c_fn := fun _ _ args w => (Ok (true, args), w) |}.

Definition sock_world : world string lstate := World ∅ 10 ∅ 4096 (fun _ _ => false) "".

(** table 3 is the address *)
Definition addr_fields (data : string) : gmap key value := {[ KStr "family" := VInt 1; KStr "data" := VStr data ]}.
Definition addr_heap (data : string) : heap := set_tab 3 (Table (addr_fields data) None) (sample_heap "" [] 0).

Lemma addr_roundtrip_witness :
  let w1 := set_x (saddr_bytes 11 1 "/tmp/sock") sock_world in
  executes one_socket 0 l_bind [VInt 4; VTab 3] (addr_heap "/tmp/sock") sock_world (Ok [VInt 1])
    (put 0%nat (idle (addr_heap "/tmp/sock")) w1) /\
  executes one_socket 0 l_getsockname [VInt 4] (addr_heap "/tmp/sock") w1 (Ok [VTab 10])
    (put 0%nat (idle (alloc_tab (addr_table 1 "/tmp/sock") (addr_heap "/tmp/sock"))) w1).
Proof.
  apply (addr_roundtrip one_socket 0 4 3 (addr_fields "/tmp/sock") 1 "/tmp/sock" (fun _ a _ => a) (fun _ x => x)
    (addr_heap "/tmp/sock") sock_world); done || (cbn; lia).
Defined.

Definition long_path : string := String.concat "" (replicate 127 "x").

Lemma addr_overflow_witness :
  (invoke one_socket 0 l_bind [VInt 4; VTab 3] (addr_heap long_path) sock_world).1 = Halt (UB "access outside of an object").
Proof.
  apply (addr_overflow one_socket 0 4 3 (addr_fields long_path) 1 long_path (addr_heap long_path) sock_world);
    done || (vm_compute; lia).
Defined.

(** ** The list as the system sees it *)

Definition addr_record (a : Z * string) : string := saddr_bytes (offsetof_sa_data + Z.of_nat (String.length a.2)) a.1 a.2.
Definition addrs_block (al : list (Z * string)) : string := foldr (fun a s => addr_record a +:+ s) "" al.

(** the length of the data fits into [sa_len] *)
Definition addr_short (a : Z * string) : Prop := (String.length a.2 <= 253)%nat.

(** what is left of an address in a record: the family is one byte *)
Definition stored_addr (a : Z * string) : Z * string := (to_uchar a.1, a.2).

(** ** The list as a table *)

Definition addr_at (h : heap) (id : nat) (a : Z * string) : Prop :=
  exists x, tabs h !! id = Some (Table x None) /\ x !! KStr "family" = Some (VInt a.1) /\ x !! KStr "data" = Some (VStr a.2).

Definition addrs_at (h : heap) (t : nat) (al : list (Z * string)) : Prop :=
  exists ids, tabs h !! t = Some (Table (arr (VTab <$> ids)) None) /\ Forall2 (addr_at h) ids al.

Lemma addr_record_length a : Z.of_nat (String.length (addr_record a)) = 2 + Z.of_nat (String.length a.2).
Proof. unfold addr_record, saddr_bytes. cbn [String.length]. lia. Qed.

Lemma addrs_block_app al bl : addrs_block (al ++ bl) = addrs_block al +:+ addrs_block bl.
Proof.
  induction al as [|a al IH]; [done|]. cbn [app addrs_block foldr]. fold (addrs_block (al ++ bl)) (addrs_block al).
  by rewrite IH, string_app_assoc.
Qed.

Lemma substring_zero s : forall n, String.substring n 0 s = "".
Proof. induction s as [|c s IH]; intros [|n]; try done. apply IH. Qed.

(** writing behind what was written *)
Lemma write_at_end len s x :
  Z.of_nat (String.length (s +:+ x)) <= len ->
  write_at (Z.of_nat (String.length s)) x (OBuf len s) = Some (tt, OBuf len (s +:+ x)).
Proof.
  rewrite string_app_length. intros Hl. unfold write_at. rewrite Nat2Z.id.
  rewrite !(proj2 (Z.leb_le _ _)) by lia. cbn [andb]. rewrite substring_all.
  replace (String.length s - _)%nat with 0%nat by lia. by rewrite substring_zero, string_app_nil_r.
Qed.

Section sctp.
Context `{LuaSem} `{Consts} {S : Type} `{Libc S} (C : clib S).
Implicit Types (w : world S lstate) (L : nat) (h : heap) (al : list (Z * string)).
Abbreviation rn := (run (documented C)).

Lemma block_longer al : 2 * Z.of_nat (length al) <= Z.of_nat (String.length (addrs_block al)).
Proof.
  induction al as [|a al IH]; [done|]. change (addrs_block (a :: al)) with (addr_record a +:+ addrs_block al).
  rewrite string_app_length, Nat2Z.inj_add, addr_record_length. cbn [length]. lia.
Qed.

(** *** Reading the table *)

Lemma run_addrs_size L idx t ids vs n h w : 1 <= idx -> at_ vs idx = Val (VTab t) ->
  tabs h !! t = Some (Table (arr (VTab <$> ids)) None) ->
  forall al (k : nat) size, Forall2 (addr_at h) (drop k ids) al ->
  0 <= size -> size + Z.of_nat (String.length (addrs_block al)) - 2 * Z.of_nat (length al) < 2 ^ 63 ->
  exists total, total = size + Z.of_nat (String.length (addrs_block al)) - 2 * Z.of_nat (length al) /\
  rn (addrs_size L idx (length al) (Z.of_nat k + 1) size) (put L (LS vs (2 + n) h) w) =
  (Ok total, put L (LS vs (2 + n) h) w).
Proof.
  intros Hi Ha Ht al. induction al as [|a al IH]; intros k size HF Hz Hl.
  - exists size. split; [cbn; lia|]. cbn [length addrs_size]. by rewrite run_ret.
  - destruct (drop k ids) as [|id ids'] eqn:Hd; [by inversion HF|]. apply Forall2_cons_1 in HF as [Hx HF].
    assert (Hk : ids !! k = Some id) by (rewrite <- (Nat.add_0_r k), <- lookup_drop, Hd; done).
    assert (Hd' : drop (Datatypes.S k) ids = ids') by (by rewrite <- Nat.add_1_r, <- drop_drop, Hd).
    destruct Hx as (x & Htx & Hf & Hdat). change (addrs_block (a :: al)) with (addr_record a +:+ addrs_block al) in *.
    rewrite string_app_length, Nat2Z.inj_add, addr_record_length in *. pose proof (block_longer al). cbn [length] in Hl.
    destruct (IH (Datatypes.S k) (size + Z.of_nat (String.length a.2))) as (total & Hv & Hrun); [by rewrite Hd'|lia|lia|].
    exists total. split; [cbn [length]; lia|]. cbn [length addrs_size].
    change (2 + n)%nat with (1 + (1 + n))%nat.
    rewrite run_bind, (run_geti_arr C L idx t (VTab <$> ids) k (VTab id)) by (done || by rewrite list_lookup_fmap, Hk).
    cbn [andthen].
    rewrite run_bind, (run_getfield C L (-1) "data" (VStr a.2) id x) by done. cbn [andthen type_of is_type negb].
    change (negb (is_type TSTRING TSTRING)) with false. cbv iota.
    rewrite run_bind, run_lua. doc_eval. rewrite run_bind, run_pop2. cbn [andthen].
    rewrite to_size_small by lia. etransitivity; [|exact Hrun]. do 2 f_equal; lia.
Qed.

(** *** Filling the block *)

Lemma run_fill_addrs L idx t ids vs n h len p st0 : 1 <= idx -> at_ vs idx = Val (VTab t) -> p ≠ 0 ->
  tabs h !! t = Some (Table (arr (VTab <$> ids)) None) ->
  forall al (k : nat) s w, Forall2 (addr_at h) (drop k ids) al -> Forall addr_short al ->
  wm w !! p = Some (OBuf len s) -> w = poke p (OBuf len s) st0 -> Z.of_nat (String.length (s +:+ addrs_block al)) <= len ->
  rn (fill_addrs L idx p (length al) (Z.of_nat k + 1) (Z.of_nat (String.length s))) (put L (LS vs (2 + n) h) w) =
  (Ok tt, put L (LS vs (2 + n) h) (poke p (OBuf len (s +:+ addrs_block al)) st0)).
Proof.
  intros Hi Ha Hp Ht al. induction al as [|a al IH]; intros k s w HF Hs Hm Hw Hl.
  - cbn [length fill_addrs]. rewrite run_ret. change (addrs_block []) with "". by rewrite string_app_nil_r, Hw.
  - destruct (drop k ids) as [|id ids'] eqn:Hd; [by inversion HF|]. apply Forall2_cons_1 in HF as [Hx HF].
    assert (Hk : ids !! k = Some id) by (rewrite <- (Nat.add_0_r k), <- lookup_drop, Hd; done).
    assert (Hd' : drop (Datatypes.S k) ids = ids') by (by rewrite <- Nat.add_1_r, <- drop_drop, Hd).
    destruct Hx as (x & Htx & Hf & Hdat). apply Forall_cons_iff in Hs as [Ha1 Hs].
    change (addrs_block (a :: al)) with (addr_record a +:+ addrs_block al) in *.
    rewrite <- string_app_assoc in Hl |- *.
    assert (Hlen : to_uchar (offsetof_sa_data + Z.of_nat (String.length a.2)) = offsetof_sa_data + Z.of_nat (String.length a.2))
      by (apply wrapu_small; unfold addr_short, offsetof_sa_data in *; lia).
    cbn [length fill_addrs]. change (2 + n)%nat with (1 + (1 + n))%nat.
    rewrite run_bind, (run_geti_arr C L idx t (VTab <$> ids) k (VTab id)) by (done || by rewrite list_lookup_fmap, Hk).
    cbn [andthen].
    rewrite run_bind, (run_getfield C L (-1) "family" (VInt a.1) id x) by done. cbn [andthen].
    rewrite run_bind, run_lua. doc_eval. cbn [negb]. rewrite run_bind, run_lua. doc_eval.
    rewrite run_bind, run_pop1. cbn [andthen].
    rewrite run_bind, (run_getfield C L (-1) "data" (VStr a.2) id x) by done. cbn [andthen].
    rewrite run_bind, run_lua. doc_eval. rewrite run_bind, run_pop1. cbn [andthen]. rewrite Hlen.
    fold (addr_record a).
    rewrite run_bind, (run_load C p _ (OBuf len s) tt (OBuf len (s +:+ addr_record a))); [|done|].
    2:{ apply write_at_end. rewrite !string_app_length in *. lia. }
    cbn [andthen]. rewrite run_bind, run_pop1. cbn [andthen].
    specialize (IH (Datatypes.S k) (s +:+ addr_record a) (poke p (OBuf len (s +:+ addr_record a)) st0)).
    rewrite Hw, poke_poke. etransitivity; [|apply IH; [by rewrite Hd'|done|apply lookup_insert_eq|done|done]].
    rewrite string_app_length, Nat2Z.inj_add, addr_record_length. do 2 f_equal; unfold offsetof_sa_data; lia.
Qed.

(** the world with the list in a new block *)
Definition with_block al w : world S lstate :=
  poke (wnext w) (OBuf (Z.of_nat (String.length (addrs_block al))) (addrs_block al)) (set_next (wnext w + 1) w).

Lemma run_checkaddrs L idx t al vs n h w :
  1 <= idx -> at_ vs idx = Val (VTab t) -> addrs_at h t al -> al ≠ [] -> Forall addr_short al ->
  Z.of_nat (String.length (addrs_block al)) < 2 ^ 63 -> roomy w ->
  rn (checkaddrs L idx) (put L (LS vs (2 + n) h) w) =
  (Ok (wnext w, Z.of_nat (length al)), put L (LS vs (2 + n) h) (with_block al w)).
Proof.
  intros Hi Ha (ids & Ht & HF) Hne Hs Hl [Hp _ Ho]. pose proof (block_longer al) as Hlong.
  assert (Hlen : length ids = length al) by (by eapply Forall2_length).
  unfold checkaddrs. rewrite run_bind, run_lua. unfold doc. doc_eval. know Ha.
  rewrite run_bind, run_lua. doc_eval. know Ha, Ht. cbn [tmeta]. rewrite seq_len_arr. doc_eval.
  rewrite length_fmap, Hlen, to_size_small by lia.
  rewrite (proj2 (Z.eqb_neq _ 0)) by (destruct al; [done|cbn [length]; lia]).
  unfold offsetof_sa_data. rewrite to_size_small, Nat2Z.id by lia.
  destruct (run_addrs_size L idx t ids vs n h w Hi Ha Ht al 0 (Z.of_nat (length al) * 2)) as (total & -> & Hrun); [done|lia..|].
  rewrite run_bind. change (Z.of_nat 0 + 1) with 1 in Hrun. change (Datatypes.S (Datatypes.S n)) with (2 + n)%nat. rewrite Hrun. cbn [andthen].
  replace (_ - 2 * _) with (Z.of_nat (String.length (addrs_block al))) by lia.
  rewrite run_bind, run_malloc_ok by done. cbn [andthen]. rewrite (proj2 (Z.eqb_neq _ 0)) by lia.
  rewrite run_bind.
  pose proof (run_fill_addrs L idx t ids vs n h (Z.of_nat (String.length (addrs_block al))) (wnext w) (set_next (wnext w + 1) w)
    Hi Ha ltac:(lia) Ht al 0 "" (poke (wnext w) (OBuf (Z.of_nat (String.length (addrs_block al))) "") (set_next (wnext w + 1) w))) as Hf.
  change (Z.of_nat 0 + 1) with 1 in Hf. change (Z.of_nat (String.length "")) with 0 in Hf.
  rewrite Hf by (done || apply lookup_insert_eq || reflexivity). done.
Qed.

(** *** Pushing the list of the system *)

(** [sctp_bindx(3)] and [sctp_getladdrs(3)]: an endpoint without an address has afterwards those
    of the block it was given, as many as the call says; their list lies at some address *)
Record sctp_lib (unbound : Z -> S -> Prop) (bindx : Z -> Z -> string -> S -> S) (list : Z -> S -> Z) (num : Z -> S -> Z)
  (bytes : Z -> S -> string) : Prop := {
  sl_bindx : forall s p n len b w, wm w !! p = Some (OBuf len b) ->
    c_call C "sctp_bindx" [AZ s; AZ p; AZ n; AZ (to_int (cst "SCTP_BINDX_ADD_ADDR"))] w =
    (Ok (Cret 0 []), set_x (bindx s n b (wx w)) w);
  sl_get : forall s id w, c_call C "sctp_getladdrs" [AZ s; AZ id] w = (Ok (Cret (num s (wx w)) [AZ (list s (wx w))]), w);
  sl_bytes : forall s off n w, c_call C "->bytes" [AZ (list s (wx w)); AZ off; AZ n] w =
    (Ok (Cret 0 [AS (String.substring (Z.to_nat off) (Z.to_nat n) (bytes s (wx w)))]), w);
  sl_free : forall p w, c_call C "sctp_freeladdrs" [AZ p] w = (Ok (Cret 0 []), w);
  sl_num : forall s n b x, unbound s x -> num s (bindx s n b x) = n;
  sl_kept : forall s n b x, unbound s x -> bytes s (bindx s n b x) = b
}.

Section library.
Context {unbound : Z -> S -> Prop} {bindx : Z -> Z -> string -> S -> S} {list : Z -> S -> Z} {num : Z -> S -> Z}
  {bytes : Z -> S -> string}.
Hypothesis HC : sctp_lib unbound bindx list num bytes.

Lemma run_addr_bytes L s w a x b off n st :
  bytes s (wx w) = a +:+ (x +:+ b) -> off = Z.of_nat (String.length a) -> n = Z.of_nat (String.length x) ->
  rn (addr_bytes (list s (wx w)) off n) (put L st w) = (Ok x, put L st w).
Proof.
  intros Hb -> ->. unfold addr_bytes. rewrite run_bind, run_call.
  change (wx w) with (wx (put L st w)) at 1. rewrite (sl_bytes _ _ _ _ _ HC). cbn [andthen].
  rewrite run_ret, !Nat2Z.id. change (wx (put L st w)) with (wx w). rewrite Hb. cbn [out_str outs lookup list_lookup].
  by rewrite substring_at.
Qed.

Lemma run_push_addrs L s w al : forall k a t ids0 vs m h,
  bytes s (wx w) = a +:+ addrs_block al -> Forall addr_short al -> k = Z.of_nat (length ids0) + 1 ->
  tabs h !! t = Some (Table (arr (VTab <$> ids0)) None) -> (t < fresh h)%nat ->
  exists h' ids,
    rn (push_addrs_loop L (list s (wx w)) (length al) k (Z.of_nat (String.length a))) (put L (LS (VTab t :: vs) (2 + m) h) w) =
    (Ok tt, put L (LS (VTab t :: vs) (2 + m) h') w) /\
    tabs h' !! t = Some (Table (arr (VTab <$> ids0 ++ ids)) None) /\
    Forall2 (addr_at h') ids (stored_addr <$> al) /\ same_but t h h'.
Proof.
  induction al as [|a0 al IH]; intros k a t ids0 vs m h Hb Hs Hk Ht Hlt.
  - exists h, []. rewrite app_nil_r. split; [|split; [done|split; [constructor|by split_all]]].
    cbn [length push_addrs_loop]. by rewrite run_ret.
  - change (addrs_block (a0 :: al)) with (addr_record a0 +:+ addrs_block al) in Hb.
    apply Forall_cons_iff in Hs as [Ha Hs]. destruct a0 as [family data]. unfold addr_short in Ha. cbn [snd] in Ha.
    set (len := offsetof_sa_data + Z.of_nat (String.length data)).
    assert (Hlen : to_uchar len = len) by (apply wrapu_small; unfold len, offsetof_sa_data; lia).
    assert (Hrec : addr_record (family, data) = String (byte len) "" +:+ (String (byte family) "" +:+ data)) by done.
    rewrite Hrec, !string_app_assoc in Hb. cbn [length push_addrs_loop].
    assert (E0 : forall st, rn (addr_bytes (list s (wx w)) (Z.of_nat (String.length a) + 0) 1) (put L st w) =
      (Ok (String (byte len) ""), put L st w)) by (intros st; eapply run_addr_bytes; [exact Hb|lia|done]).
    rewrite run_bind, (run_pushaddr_of C L _ len family data).
    + cbn [andthen]. set (h1 := alloc_tab _ h). set (h2 := set_tab t (Table (arr (VTab <$> ids0 ++ [fresh h])) None) h1).
      assert (Ht1 : tabs h1 !! t = Some (Table (arr (VTab <$> ids0)) None)).
      { unfold h1, alloc_tab, bump, set_tab. cbn [tabs]. rewrite lookup_insert_ne by lia. done. }
      rewrite run_bind, (run_rawseti_arr C L k ids0) by done. fold h2. cbn [andthen].
      rewrite <- (Z.add_0_r (Z.of_nat (String.length a))), run_bind, E0. cbn [andthen].
      rewrite le_value_byte, Hlen.
      destruct (IH (k + 1) (a +:+ addr_record (family, data)) t (ids0 ++ [fresh h]) vs m h2)
        as (h' & ids & Hrun & Htab & Hat & Hsame); try done.
      * rewrite Hrec, !string_app_assoc. exact Hb.
      * rewrite length_app. cbn [length]. lia.
      * apply tabs_set_tab.
      * cbn. lia.
      * exists h', (fresh h :: ids). split; [|split; [|split]].
        { etransitivity; [|exact Hrun]. do 2 f_equal. rewrite string_app_length, Nat2Z.inj_add, addr_record_length. cbn [snd].
          unfold len, offsetof_sa_data. lia. }
        { by rewrite <- app_assoc in Htab. }
        { cbn [fmap list_fmap]. apply Forall2_cons; [|done]. destruct Hsame as (Htabs & _).
          exists (tmap (addr_table (to_uchar family) data)). split; [|done].
          rewrite Htabs by (cbn; lia). unfold h2, set_tab. cbn [tabs]. rewrite lookup_insert_ne by lia. apply tabs_alloc_tab. }
        { destruct Hsame as (Htabs & ? & ? & ? & ? & ?). split; [|split_all; try done; cbn in *; lia].
          intros i Hi Hlti. rewrite Htabs by (cbn; lia). unfold h2, h1, alloc_tab, bump, set_tab. cbn [tabs].
          by rewrite !lookup_insert_ne by lia. }
    + intros st. eapply (run_addr_bytes L s w (a +:+ String (byte len) "")); [by rewrite string_app_assoc|rewrite string_app_length; cbn; lia|done].
    + exact E0.
    + intros st. eapply (run_addr_bytes L s w (a +:+ String (byte len) "" +:+ String (byte family) ""));
        [by rewrite !string_app_assoc|rewrite !string_app_length; unfold offsetof_sa_data; cbn; lia|done].
    + done.
Qed.

(** C27. The addresses given to [bindx] reach the system as one block of records, which is freed
    after the call, and [getladdrs] gives them back in the same order as new tables with the
    same data and the same family, as a byte. *)
Theorem addrs_roundtrip L fd id t al h w :
  addrs_at h t al -> al ≠ [] -> Forall addr_short al -> Z.of_nat (length al) < 2 ^ 31 ->
  Z.of_nat (String.length (addrs_block al)) < 2 ^ 63 -> roomy w -> unbound (to_int fd) (wx w) ->
  exists w1 h2,
    executes C L l_sctp_bindx [VInt fd; VTab t; VInt (cst "SCTP_BINDX_ADD_ADDR")] h w (Ok [VInt 1]) (put L (idle h) w1) /\
    wx w1 = bindx (to_int fd) (Z.of_nat (length al)) (addrs_block al) (wx w) /\ wm w1 = wm w /\
    executes C L l_sctp_getladdrs [VInt fd; VInt id] h w1 (Ok [VTab (fresh h)]) (put L (idle h2) w1) /\
    addrs_at h2 (fresh h) (stored_addr <$> al) /\ (forall i, (i < fresh h)%nat -> tabs h2 !! i = tabs h !! i).
Proof.
  intros Hat Hne Hs Hn Hl Hw Hun. set (x1 := bindx _ _ _ (wx w)).
  set (w1 := release (wnext w) (set_x x1 (with_block al w))).
  assert (Hx1 : wx w1 = x1) by done.
  assert (Hbytes : bytes (to_int fd) (wx w1) = "" +:+ addrs_block al) by (rewrite Hx1; by apply (sl_kept _ _ _ _ _ HC)).
  destruct (run_push_addrs L (to_int fd) w1 al 1 "" (fresh h) [] [VInt id; VInt fd] 17 (alloc_tab (Table (arr []) None) h))
    as (h2 & ids & Hrun & Htab & Haddr & Hsame); [done|done|done|apply tabs_alloc_tab|cbn; lia|].
  exists w1, h2. split; [|split; [done|split; [|split; [|split]]]].
  - apply (executes_return C L _ _ h w [VInt 1] [VInt (cst "SCTP_BINDX_ADD_ADDR"); VTab t; VInt fd] 19).
    unfold l_sctp_bindx, frame, LUA_MINSTACK, checkfd. lua_run. change 20%nat with (2 + 18)%nat.
    rewrite (run_checkaddrs L 2 t al) by done. cbn [andthen]. rewrite run_bind, run_lua. doc_eval.
    rewrite run_bind, run_call, (sl_bindx _ _ _ _ _ HC _ _ _ (Z.of_nat (String.length (addrs_block al))) (addrs_block al))
      by apply lookup_insert_eq.
    cbn [andthen]. unfold addrs_done. cbn [rc]. change (0 =? -1) with false. cbv iota. rewrite (to_int_small (Z.of_nat (length al))) by lia.
    rewrite set_x_put, run_bind, (run_free C _ (OBuf (Z.of_nat (String.length (addrs_block al))) (addrs_block al)));
      [|destruct Hw; lia|apply lookup_insert_eq].
    cbn [andthen]. apply (run_success C L _ 19).
  - cbn. rewrite delete_insert_eq. apply delete_id. destruct Hw as [_ Hm _]. apply Hm. lia.
  - apply (executes_return C L _ _ h w1 [VTab (fresh h)] [VInt id; VInt fd] 19).
    unfold l_sctp_getladdrs, frame, LUA_MINSTACK, checkfd. lua_run. rewrite run_call, (sl_get _ _ _ _ _ HC). cbn [andthen rc].
    change (wx (put L _ w1)) with x1. unfold x1. rewrite (sl_num _ _ _ _ _ HC) by done.
    rewrite (proj2 (Z.eqb_neq _ (-1))) by lia. cbn [out_int outs lookup list_lookup].
    unfold pushaddrs. rewrite Nat2Z.id. change 20%nat with (1 + (2 + 17))%nat. rewrite run_bind, run_bind, run_newtable. cbn [andthen].
    fold x1. rewrite <- Hx1. change (Z.of_nat (String.length "")) with 0 in Hrun. rewrite Hrun. cbn [andthen].
    rewrite run_bind, run_call, (sl_free _ _ _ _ _ HC). cbn [andthen]. done.
  - exists ids. split; [exact Htab|exact Haddr].
  - intros i Hi. destruct Hsame as (Htabs & _). rewrite Htabs by (cbn; lia). unfold alloc_tab, bump, set_tab. cbn [tabs].
    by rewrite lookup_insert_ne by lia.
Qed.
End library.

(** *** Closers *)

(** a new userdata *)
Definition with_udata (d : udata) h : heap := bump (set_ud (fresh h) d h).

Lemma with_udata_lookup d h : uds (with_udata d h) !! fresh h = Some d.
Proof. apply lookup_insert_eq. Qed.

Lemma with_udata_set d d' h : set_ud (fresh h) d' (with_udata d h) = with_udata d' h.
Proof. unfold with_udata, set_ud, bump. cbn. by rewrite insert_insert_eq. Qed.

Lemma run_set_uv L v d (k : nat) vs n h w :
  rn (lua_setiuservalue L (-2) k) (put L (LS (v :: VUd (fresh h) :: vs) n (with_udata d h)) w) =
  (Ok (bool_decide (is_Some (uv_get k (ud_uv d)))),
   put L (LS (VUd (fresh h) :: vs) (1 + n) (with_udata (Udata (ud_meta d) (uv_set k v (ud_uv d)) (ud_blk d)) h)) w).
Proof.
  rewrite run_lua. doc_eval. rewrite with_udata_lookup. doc_eval. by rewrite with_udata_set.
Qed.

(** what [closer] leaves in the userdata: the user values that are set are the first two *)
Definition closer_udata (mt : nat) (len closer_at : Z) : udata := Udata (Some mt) [VInt len; VLud closer_at; VNil] 0.

Lemma run_closer L p len f mt vs n h w :
  reg_get (inl CLOSER_METATABLE) h = VTab mt ->
  rn (closer L p len f) (put L (LS vs (2 + n) h) w) =
  (Ok tt, put L (LS (VUd (fresh h) :: vs) (1 + n) (with_udata (closer_udata mt len f) h)) w).
Proof.
  intros Hr. unfold closer. rewrite run_bind, run_lua. doc_eval.
  change (bump (set_ud (fresh h) ?d h)) with (with_udata d h).
  rewrite run_bind, run_lua. doc_eval. rewrite run_bind, run_set_uv. cbn [andthen].
  rewrite run_bind, run_lua. doc_eval. rewrite run_bind, run_set_uv. cbn [andthen].
  rewrite run_bind, run_lua. doc_eval. rewrite run_bind, run_set_uv. cbn [andthen].
  rewrite run_lua. doc_eval. change (reg_get (inl CLOSER_METATABLE) (with_udata ?d h)) with (reg_get (inl CLOSER_METATABLE) h).
  rewrite Hr, with_udata_lookup. doc_eval. by rewrite with_udata_set.
Qed.

Lemma run_get_uv L i d (k : nat) vs n h w :
  at_ vs i = Val (VUd (fresh h)) ->
  rn (lua_getiuservalue L i k) (put L (LS vs (1 + n) (with_udata d h)) w) =
  (Ok (if uv_get k (ud_uv d) is Some v then type_of v else TNONE),
   put L (LS (default VNil (uv_get k (ud_uv d)) :: vs) n (with_udata d h)) w).
Proof.
  intros Ha. rewrite run_lua. unfold doc. doc_eval. rewrite Ha. doc_eval. rewrite with_udata_lookup. unfold uv_get.
  by destruct (match k with O => _ | Datatypes.S _ => _ end).
Qed.

Lemma closer_is_udata h mt len f vs :
  reg_get (inl CLOSER_METATABLE) h = VTab mt -> at_ vs 1 = Val (VUd (fresh h)) ->
  udata_of vs (with_udata (closer_udata mt len f) h) 1 CLOSER_METATABLE = Some (fresh h, closer_udata mt len f).
Proof.
  intros Hr Ha. unfold udata_of. rewrite Ha, with_udata_lookup. cbn [ud_meta closer_udata].
  change (reg_get (inl CLOSER_METATABLE) (with_udata ?d h)) with (reg_get (inl CLOSER_METATABLE) h).
  rewrite Hr. by rewrite decide_True.
Qed.

(** [closer_close] finds the length and the function, and no pointer *)
Lemma run_closer_close L mt len f h w n :
  reg_get (inl CLOSER_METATABLE) h = VTab mt ->
  let h' := with_udata (closer_udata mt len f) h in
  rn (closer_close L) (put L (LS [VNil; VUd (fresh h)] (3 + n) h') w) =
  rn (call_closer f 0 (to_size len);; mret 0) (put L (LS [VLud f; VInt len; VNil; VNil; VUd (fresh h)] n h') w).
Proof.
  intros Hr. cbv zeta. unfold closer_close.
  rewrite run_bind, run_lua. cbn [doc]. rewrite (doc_checkudata_ok _ _ _ _ _ _ _ (closer_is_udata h mt len f [VNil; VUd (fresh h)] Hr eq_refl)).
  cbn [andthen]. change (3 + n)%nat with (1 + (2 + n))%nat.
  rewrite run_bind, run_get_uv by done. cbn [andthen]. change (default VNil (uv_get POINTER _)) with VNil. rewrite run_bind, run_lua. doc_eval.
  change (Datatypes.S (Datatypes.S n)) with (1 + (1 + n))%nat.
  rewrite run_bind, run_get_uv by done. cbn [andthen]. change (default VNil (uv_get LEN _)) with (VInt len). rewrite run_bind, run_lua. doc_eval.
  change (Datatypes.S n) with (1 + n)%nat.
  rewrite run_bind, run_get_uv by done. cbn [andthen]. change (default VNil (uv_get FUNCTION _)) with (VLud f). rewrite run_bind, run_lua. by doc_eval.
Qed.

(** the functions have addresses, and different ones *)
Definition closer_functions : Prop := 0 < free_closer_at < freeriovecs_closer_at.

(** A closer is of no use: the pointer it was made for is not stored, since user values are
    numbered from 1.  The one of the blocks of [sctp_sendv] frees nothing when Lua closes it;
    that of the vectors of [sctp_recvv] reads the array at a null pointer. *)
Theorem closer_leaks L p len mt vs n h w :
  closer_functions -> reg_get (inl CLOSER_METATABLE) h = VTab mt -> 0 < to_size len -> wm w !! 0 = None ->
  let made f := with_udata (closer_udata mt len f) h in
  (forall f, rn (closer L p len f) (put L (LS vs (2 + n) h) w) =
    (Ok tt, put L (LS (VUd (fresh h) :: vs) (1 + n) (made f)) w)) /\
  executes C L closer_close [VUd (fresh h); VNil] (made free_closer_at) w (Ok [])
    (put L (idle (made free_closer_at)) w) /\
  (invoke C L closer_close [VUd (fresh h); VNil] (made freeriovecs_closer_at) w).1 =
    Halt (UB "access to memory that is not allocated").
Proof.
  intros Hf Hr Hl H00 made. split; [intros f; by apply run_closer|split].
  - apply (executes_return C L _ _ _ w [] [VLud free_closer_at; VInt len; VNil; VNil; VUd (fresh h)] 17).
    unfold frame, LUA_MINSTACK. change (rev [VUd (fresh h); VNil]) with [VNil; VUd (fresh h)]. change 20%nat with (3 + 17)%nat.
    unfold made. rewrite run_closer_close by done. unfold call_closer, closer_functions in *.
    rewrite (proj2 (Z.eqb_neq _ 0)), Z.eqb_refl by lia. done.
  - unfold invoke, frame, LUA_MINSTACK. change (rev [VUd (fresh h); VNil]) with [VNil; VUd (fresh h)]. change 20%nat with (3 + 17)%nat.
    unfold made. rewrite run_closer_close by done. unfold call_closer, closer_functions in *.
    rewrite (proj2 (Z.eqb_neq freeriovecs_closer_at 0)), (proj2 (Z.eqb_neq freeriovecs_closer_at free_closer_at)), Z.eqb_refl by lia.
    unfold freeriovecs_closer, freeriovecs. destruct (Z.to_nat (to_size len)) as [|k] eqn:Hk; [lia|].
    cbn [for_]. rewrite !run_bind, run_trigger. cbn [step]. rewrite wm_put, H00. cbn [andthen finish]. by rewrite wl_put.
Qed.
End sctp.

(** ** Witnesses *)

(** an endpoint that keeps the block it was given *)
Definition one_endpoint : clib (Z * string) := {|
  c_call := fun f args w =>
    match args with
    | [AZ s; AZ p; AZ n; AZ type] =>
        match wm w !! p with Some (OBuf _ b) => (Ok (Cret 0 []), set_x (n, b) w) | _ => (Ok (Cret (-1) []), w) end
    | [AZ p; AZ off; AZ n] => (Ok (Cret 0 [AS (String.substring (Z.to_nat off) (Z.to_nat n) (wx w).2)]), w)
    | [AZ s; AZ id] => (Ok (Cret (wx w).1 [AZ 4000]), w)
    | _ => (Ok (Cret 0 []), w)
    end;
  c_fn := fun _ _ args w => (Ok (true, args), w) |}.

#[export] Instance endpoint_libc : Libc (Z * string) := {| c_errno := fun _ => 0; c_strerror := fun _ => "" |}.

Definition endpoint_world : world (Z * string) lstate := World ∅ 10 ∅ 4096 (fun _ _ => false) (0, "").

(** table 3 holds the tables 4 and 5 *)
Definition two_addrs : list (Z * string) := [(2, "abcd"); (28, "wxyz0")].
Definition addr_entry (a : Z * string) : table := Table {[ KStr "family" := VInt a.1; KStr "data" := VStr a.2 ]} None.
Definition endpoint_heap : heap :=
  set_tab 5 (addr_entry (28, "wxyz0")) (set_tab 4 (addr_entry (2, "abcd"))
    (set_tab 3 (Table (arr [VTab 4; VTab 5]) None) (sample_heap "" [] 0))).

Lemma addrs_roundtrip_witness :
  exists w1 h2,
    executes one_endpoint 0 l_sctp_bindx [VInt 7; VTab 3; VInt 0] endpoint_heap endpoint_world (Ok [VInt 1])
      (put 0%nat (idle endpoint_heap) w1) /\
    wx w1 = (2, addrs_block two_addrs) /\ wm w1 = ∅ /\
    executes one_endpoint 0 l_sctp_getladdrs [VInt 7; VInt 0] endpoint_heap w1 (Ok [VTab 10]) (put 0%nat (idle h2) w1) /\
    addrs_at h2 10 two_addrs /\ (forall i, (i < 10)%nat -> tabs h2 !! i = tabs endpoint_heap !! i).
Proof.
  refine (addrs_roundtrip one_endpoint (unbound := fun _ _ => True) (bindx := fun _ n b _ => (n, b)) (list := fun _ _ => 4000)
    (num := fun _ x => x.1) (bytes := fun _ x => x.2) _ 0 7 0 3 two_addrs endpoint_heap endpoint_world _ _ _ _ _ _ I).
  - split; try done. intros s p n len b w Hm. cbn. by rewrite Hm.
  - exists [4; 5]%nat. split; [done|]. repeat constructor; (eexists; split; [reflexivity|done]).
  - done.
  - repeat constructor; cbn; lia.
  - done.
  - done.
  - by split.
Defined.

Definition closer_consts : Consts := fun name =>
  if String.eqb name "&free_closer" then 1000 else if String.eqb name "&freeriovecs_closer" then 2000 else 0.

Lemma closer_leaks_witness :
  let h := sample_heap CLOSER_METATABLE [] 0 in
  let made f := with_udata (closer_udata 1 5 f) h in
  (forall f, run (documented (sample_clib [])) (closer 0 4096 5 f) (put 0%nat (LS [] 2 h) (sample_world {[ 4096 := OBuf 5 "" ]})) =
    (Ok tt, put 0%nat (LS [VUd 10] 1 (made f)) (sample_world {[ 4096 := OBuf 5 "" ]}))) /\
  executes (sample_clib []) 0 (@closer_close closer_consts) [VUd 10; VNil] (made 1000) (sample_world {[ 4096 := OBuf 5 "" ]}) (Ok [])
    (put 0%nat (idle (made 1000)) (sample_world {[ 4096 := OBuf 5 "" ]})) /\
  (invoke (sample_clib []) 0 (@closer_close closer_consts) [VUd 10; VNil] (made 2000) (sample_world {[ 4096 := OBuf 5 "" ]})).1 =
    Halt (UB "access to memory that is not allocated").
Proof.
  apply (@closer_leaks _ closer_consts _ _ (sample_clib []) 0 4096 5 1 [] 0 (sample_heap CLOSER_METATABLE [] 0)
    (sample_world {[ 4096 := OBuf 5 "" ]})); done.
Defined.
