(* ===== verification/IfconfigProps.v ===== *)
(** * What the functions of lua_ifconfig.c do with flags

    A "%b" string is a list of numbered names ([push_names], [find_names]); the capabilities
    that [l_ifconfig_get_capabilities] reports can be set again, except those whose name
    starts with the name of another one. *)

From Stdlib Require Import Ascii.
From S2P Require Import Prelude LuaApi Arrays Machine Capi Samples Utils Modules Cmem CmemProps Uio Wrapper Foreign Net Ifconfig.

(** ** "%b" strings *)

Section bits.
Context `{Consts}.

(** a character that can be part of a name *)
Definition name_char (c : ascii) : bool := (32 <? nat_of_ascii c)%nat && (nat_of_ascii c <? 128)%nat.

Fixpoint all_chars (s : string) : bool :=
  match s with EmptyString => true | String c s => name_char c && all_chars s end.

Definition names_ok (l : list (Z * string)) : bool :=
  forallb (fun e => (1 <=? e.1) && (e.1 <=? 32) && all_chars e.2) l.

Lemma to_char_ascii z : 0 <= z < 128 -> to_char z = z.
Proof. intros Hz. unfold to_char. destruct (_ <? _); [apply wraps_small|apply wrapu_small]; lia. Qed.

Lemma span_name_app s rest : all_chars s = true -> (forall c r, rest = String c r -> (nat_of_ascii c <= 32)%nat) ->
  span_name (s +:+ rest) = (s, rest).
Proof.
  intros Hs Hr. induction s as [|c s IH].
  - change ("" +:+ rest) with rest. destruct rest as [|c r]; [done|]. cbn [span_name].
    specialize (Hr c r eq_refl). rewrite to_char_ascii by lia. by rewrite (proj2 (Z.ltb_ge _ _)) by lia.
  - cbn [all_chars] in Hs. apply andb_true_iff in Hs as [Hc Hs]. unfold name_char in Hc.
    apply andb_true_iff in Hc as [H1 H2]. apply Nat.ltb_lt in H1, H2.
    change (String c s +:+ rest) with (String c (s +:+ rest)). cbn [span_name].
    rewrite to_char_ascii, (proj2 (Z.ltb_lt _ _)), IH by (done || lia). done.
Qed.

(** what follows a name is the number of another one, or the end *)
Lemma bit_names_start l c r : names_ok l = true -> bit_names l = String c r -> (nat_of_ascii c <= 32)%nat.
Proof.
  destruct l as [|[i name] l]; [done|]. cbn [names_ok forallb fst snd bit_names]. intros Hl [= <- _].
  apply andb_true_iff in Hl as [Hl _]. apply andb_true_iff in Hl as [Hl _]. apply andb_true_iff in Hl as [H1 H2].
  apply Z.leb_le in H1, H2. rewrite nat_of_byte by lia. lia.
Qed.

(** the number of the first name that [flag] starts with *)
Fixpoint first_match (flag : string) (l : list (Z * string)) : option Z :=
  match l with
  | [] => None
  | (i, name) :: l => if String.prefix name flag then Some i else first_match flag l
  end.

Lemma names_ok_cons i name l :
  names_ok ((i, name) :: l) = true -> 1 <= i <= 32 /\ all_chars name = true /\ names_ok l = true.
Proof.
  cbn [names_ok forallb fst snd]. intros [Ha Hl]%andb_true_iff. apply andb_true_iff in Ha as [Ha Hn].
  apply andb_true_iff in Ha as [H1 H2]. by apply Z.leb_le in H1, H2.
Qed.

Lemma span_entry name l : all_chars name = true -> names_ok l = true ->
  span_name (name +:+ bit_names l) = (name, bit_names l).
Proof. intros Hn Hl. apply span_name_app; [done|]. intros c r. by apply bit_names_start. Qed.

Lemma entry_number i : 1 <= i <= 32 -> to_char (Z.of_nat (nat_of_ascii (ascii_of_nat (Z.to_nat i)))) = i.
Proof. intros Hi. rewrite nat_of_byte by lia. rewrite to_char_ascii; lia. Qed.

Lemma find_flag_names flag l n :
  names_ok l = true -> (length l <= n)%nat -> find_flag n flag (bit_names l) = first_match flag l.
Proof.
  revert n. induction l as [|[i name] l IH]; intros n Hl Hn; [by destruct n|].
  apply names_ok_cons in Hl as (Hi & Hname & Hl). destruct n as [|n]; [cbn in Hn; lia|].
  cbn [bit_names find_flag first_match]. rewrite span_entry by done.
  rewrite entry_number by done. destruct (String.prefix name flag); [done|]. apply IH; [done|]. cbn in Hn. lia.
Qed.

Lemma bit_names_long l : (length l <= String.length (bit_names l))%nat.
Proof.
  induction l as [|[i name] l IH]; [done|]. cbn [bit_names length]. rewrite string_length_cons, string_app_length. lia.
Qed.
End bits.

(** ** Pushing and reading flags *)

(** the entries of the table: names at the numbers of the bits that are set *)
Fixpoint set_flags (v : Z) (l : list (Z * string)) (m : gmap key value) : gmap key value :=
  match l with
  | [] => m
  | (i, name) :: l => set_flags v l (if Z.testbit v (i - 1) then <[KInt i := VStr name]> m else m)
  end.

Definition flags_table (v : Z) (l : list (Z * string)) : table := Table (set_flags v l ∅) None.

Lemma land_bit v k : 0 <= k -> (Z.land v (Z.shiftl 1 k) =? 0) = negb (Z.testbit v k).
Proof.
  intros Hk. rewrite Z.shiftl_1_l. destruct (Z.testbit v k) eqn:E; cbn [negb].
  - apply Z.eqb_neq. intros Hz. assert (Hb : Z.testbit (Z.land v (2 ^ k)) k = true).
    { by rewrite Z.land_spec, E, Z.pow2_bits_true. }
    rewrite Hz, Z.bits_0 in Hb. done.
  - apply Z.eqb_eq. apply Z.bits_inj_0. intros n. rewrite Z.land_spec.
    destruct (Z.eqb_spec k n) as [->|Hn]; [by rewrite E|]. rewrite Z.pow2_bits_false by done. apply andb_false_r.
Qed.

Section flags.
Context `{LuaSem} `{Consts} {S : Type} `{Libc S} (C : clib S).
Implicit Types (w : world S lstate) (L : nat) (h : heap).
Abbreviation rn := (run (documented C)).

Lemma run_flag_bit i w : 1 <= i <= 32 -> rn (flag_bit i) w = (Ok (Z.shiftl 1 (i - 1)), w).
Proof. intros Hi. unfold flag_bit. rewrite !(proj2 (Z.leb_le _ _)) by lia. apply run_ret. Qed.

Lemma run_push_flags_loop L v l : forall n m t vs k h w,
  names_ok l = true -> (length l <= n)%nat -> tabs h !! t = Some (Table m None) ->
  rn (push_flags_loop n L v (bit_names l)) (put L (LS (VTab t :: vs) (1 + k) h) w) =
  (Ok tt, put L (LS (VTab t :: vs) (1 + k) (set_tab t (Table (set_flags v l m) None) h)) w).
Proof.
  induction l as [|[i name] l IH]; intros n m t vs k h w Hl Hn Ht.
  - cbn [set_flags bit_names]. rewrite set_tab_id by done. by destruct n.
  - apply names_ok_cons in Hl as (Hi & Hname & Hl). destruct n as [|n]; [cbn in Hn; lia|]. cbn [length] in Hn.
    cbn [bit_names push_flags_loop set_flags]. rewrite entry_number by done.
    rewrite run_bind, run_flag_bit by done. cbn [andthen]. rewrite span_entry by done.
    rewrite land_bit, negb_involutive by lia. rewrite run_bind. destruct (Z.testbit v (i - 1)).
    + rewrite run_bind, run_lua. doc_eval. rewrite run_lua. doc_eval. rewrite Ht. doc_eval.
      rewrite (IH n (<[KInt i := VStr name]> m)) by (done || lia || apply tabs_set_tab). by rewrite set_tab_set_tab.
    + rewrite run_ret. cbn [andthen]. by rewrite (IH n m) by (done || lia).
Qed.

Lemma run_push_flags L v base l vs k h w :
  names_ok l = true ->
  rn (push_flags_array L v (bits base l)) (put L (LS vs (2 + k) h) w) =
  (Ok tt, put L (LS (VTab (fresh h) :: vs) (1 + k) (alloc_tab (flags_table v l) h)) w).
Proof.
  intros Hl. unfold push_flags_array. change (2 + k)%nat with (1 + (1 + k))%nat. rewrite run_bind, run_newtable. cbn [andthen].
  change (skip_base (bits base l)) with (bit_names l).
  rewrite (run_push_flags_loop L v l _ (arr [])), set_alloc_tab by
    (done || apply tabs_alloc_tab || (pose proof (bit_names_long l); unfold bits; rewrite string_length_cons; lia)).
  by rewrite arr_nil.
Qed.

(** *** Reading *)

Lemma after_app k pre ks : k ∉ pre -> after k (pre ++ k :: ks) = Some ks.
Proof.
  induction pre as [|x pre IH]; intros Hk; cbn [app after].
  - by rewrite bool_decide_true.
  - apply not_elem_of_cons in Hk as [Hx Hk]. rewrite bool_decide_false by done. by apply IH.
Qed.

(** what an entry adds *)
Definition flag_of (l : list (Z * string)) (m : gmap key value) (k : key) : Z :=
  match m !! k with
  | Some (VStr s) => match first_match s l with Some i => Z.shiftl 1 (i - 1) | None => 0 end
  | _ => 0
  end.

Definition flags_of (l : list (Z * string)) (m : gmap key value) (ks : list key) (v : Z) : Z :=
  foldl (fun v k => Z.lor v (flag_of l m k)) v ks.

(** the entries are C strings *)
Definition entries_ok (m : gmap key value) (ks : list key) : Prop :=
  Forall (fun k => exists s, m !! k = Some (VStr s) /\ cstr s = s) ks.

(** all flags fit an [int] that is not negative *)
Definition small_bits (l : list (Z * string)) : Prop := Forall (fun e => 1 <= e.1 <= 31) l.

Lemma first_match_range flag l i : small_bits l -> first_match flag l = Some i -> 1 <= i <= 31.
Proof.
  intros Hl. induction l as [|[j name] l IH]; [done|]. apply Forall_cons_iff in Hl as [Hj Hl]. cbn [first_match].
  destruct (String.prefix name flag); [by intros [= <-]|by apply IH].
Qed.

Lemma lor_small a b n : 0 < n -> 0 <= a < 2 ^ n -> 0 <= b < 2 ^ n -> 0 <= Z.lor a b < 2 ^ n.
Proof.
  intros Hn Ha Hb. split; [apply Z.lor_nonneg; lia|].
  assert (Hlog : forall z, 0 <= z < 2 ^ n -> Z.log2 z < n).
  { intros z Hz. destruct (Z.eq_dec z 0) as [->|Hne]; [done|]. apply Z.log2_lt_pow2; lia. }
  destruct (Z.eq_dec (Z.lor a b) 0) as [->|Hne]; [apply Z.pow_pos_nonneg; lia|].
  assert (0 <= Z.lor a b) by (apply Z.lor_nonneg; lia).
  apply Z.log2_lt_pow2; [lia|]. rewrite Z.log2_lor by lia. apply Z.max_lub_lt; by apply Hlog.
Qed.

Lemma flag_of_small l m k : small_bits l -> 0 <= flag_of l m k < 2 ^ 31.
Proof.
  intros Hl. unfold flag_of. destruct (m !! k) as [[| | | |s| | | |]|]; try (cbn; lia).
  destruct (first_match s l) as [i|] eqn:E; [|cbn; lia]. apply first_match_range in E; [|done].
  rewrite Z.shiftl_1_l. split; [apply Z.pow_nonneg; lia|apply Z.pow_lt_mono_r; lia].
Qed.

(** where [lua_next] goes from the key [kv] on the top *)
Definition next_keys (m : gmap key value) (kv : value) : option (list key) :=
  match kv with VNil => Some (ls_order m) | _ => k ← key_of kv; after k (ls_order m) end.

Lemma run_next L idx kv below t m n h w :
  at_ (kv :: below) idx = Val (VTab t) -> tabs h !! t = Some (Table m None) ->
  rn (lua_next L idx) (put L (LS (kv :: below) (1 + n) h) w) =
  match next_keys m kv with
  | Some [] => (Ok false, put L (LS below (2 + n) h) w)
  | Some (k :: _) => (Ok true, put L (LS (raw_get k (Table m None) :: val_of_key k :: below) n h) w)
  | None => (Halt (Raise (EMsg "invalid key to 'next'")), put L (LS below (2 + n) h) w)
  end.
Proof.
  intros Ha Ht. rewrite run_lua. unfold doc, doc_next. doc_eval. know Ha, Ht. cbn [tmap]. unfold next_keys.
  destruct kv; try done; cbn [key_of mbind option_bind].
  - by destruct (ls_order m).
  - by destruct (after (KInt z) (ls_order m)) as [[|]|].
  - by destruct (after (KStr s) (ls_order m)) as [[|]|].
Qed.

Lemma at_top x below idx : 0 < idx -> length below = Z.to_nat (idx - 1) -> at_ (x :: below) idx = Val x.
Proof.
  intros Hi Hl. apply at_intro; [done|cbn [length]; lia|]. cbn [length].
  by replace (Datatypes.S (length below) - Z.to_nat idx)%nat with 0%nat by lia.
Qed.

Lemma next_after m pre k ks : NoDup (pre ++ k :: ks) -> ls_order m = pre ++ k :: ks ->
  next_keys m (val_of_key k) = Some ks.
Proof.
  intros Hnd Ho. assert (Hk : k ∉ pre).
  { intros Hin. apply list.NoDup_app in Hnd as (_ & Hnd & _). apply (Hnd k Hin). by left. }
  unfold next_keys. destruct k as [z|s]; cbn [val_of_key key_of mbind option_bind]; rewrite Ho; by apply after_app.
Qed.

Lemma run_pop_flags_loop L l m t below idx ks : forall pre kv v fuel n h w,
  names_ok l = true -> small_bits l -> 0 < idx -> length below = Z.to_nat idx -> at_ below idx = Val (VTab t) ->
  tabs h !! t = Some (Table m None) -> ls_order m = pre ++ ks -> NoDup (pre ++ ks) -> next_keys m kv = Some ks ->
  entries_ok m ks -> 0 <= v < 2 ^ 31 -> (length ks < fuel)%nat ->
  rn (pop_flags_loop fuel L idx (bit_names l) v) (put L (LS (kv :: below) (1 + n) h) w) =
  (Ok (flags_of l m ks v), put L (LS below (2 + n) h) w).
Proof.
  induction ks as [|k ks IH]; intros pre kv v fuel n h w Hl Hsm Hi Hlen Ha Ht Ho Hnd Hnext Hok Hv Hf.
  - destruct fuel as [|fuel]; [cbn in Hf; lia|]. cbn [pop_flags_loop].
    rewrite run_bind, (run_next L idx kv below t m), Hnext by (done || by apply at_cons). cbn [andthen]. apply run_ret.
  - destruct fuel as [|fuel]; [cbn in Hf; lia|]. cbn [pop_flags_loop].
    rewrite run_bind, (run_next L idx kv below t m), Hnext by (done || by apply at_cons). cbn [andthen].
    apply Forall_cons_iff in Hok as [(s & Hs & Hcs) Hok].
    assert (Hraw : raw_get k (Table m None) = VStr s) by (unfold raw_get; cbn; by rewrite Hs).
    rewrite Hraw. assert (Htop : at_ (VStr s :: val_of_key k :: below) (idx + 2) = Val (VStr s)).
    { apply at_top; [lia|]. cbn [length]. lia. }
    unfold luaL_checkstring, lua_tostring. rewrite run_bind, run_bind, run_lua. unfold doc. doc_eval. know Htop.
    rewrite run_ret. cbn [andthen]. rewrite run_bind, run_bind, run_lua. unfold doc. doc_eval. know Htop.
    rewrite run_ret. cbn [andthen]. rewrite run_bind, run_pop1. cbn [andthen]. rewrite Hcs.
    rewrite find_flag_names by (done || apply bit_names_long).
    assert (Hstep : rn (match first_match s l with
                        | Some i => bit ← flag_bit i; mret (to_int (Z.lor v bit))
                        | None => mret v
                        end) (put L (LS (val_of_key k :: below) (1 + n) h) w) =
      (Ok (Z.lor v (flag_of l m k)), put L (LS (val_of_key k :: below) (1 + n) h) w)).
    { pose proof (flag_of_small l m k Hsm) as Hk. unfold flag_of in *. rewrite Hs in *.
      destruct (first_match s l) as [i|] eqn:E; [|by rewrite run_ret, Z.lor_0_r].
      apply first_match_range in E; [|done]. rewrite run_bind, run_flag_bit by lia. cbn [andthen].
      rewrite run_ret, to_int_small; [done|]. pose proof (lor_small v _ 31 ltac:(lia) Hv Hk). lia. }
    rewrite run_bind, Hstep. cbn [andthen]. change (flags_of l m (k :: ks) v) with (flags_of l m ks (Z.lor v (flag_of l m k))).
    apply (IH (pre ++ [k])); try done.
    + by rewrite <- app_assoc.
    + by rewrite <- app_assoc.
    + by apply (next_after m pre).
    + apply (lor_small v _ 31); [lia|done|by apply flag_of_small].
    + cbn in Hf. lia.
Qed.

(** what is read from a whole table *)
Definition read_flags (l : list (Z * string)) (m : gmap key value) : Z := flags_of l m (ls_order m) 0.

Lemma run_pop_flags L base l m t below idx fuel n h w :
  names_ok l = true -> small_bits l -> 0 < idx -> length below = Z.to_nat idx -> at_ below idx = Val (VTab t) ->
  tabs h !! t = Some (Table m None) -> entries_ok m (ls_order m) -> (length (ls_order m) < fuel)%nat ->
  rn (pop_flags_array fuel L idx (bits base l)) (put L (LS below (2 + n) h) w) =
  (Ok (read_flags l m), put L (LS below (2 + n) h) w).
Proof.
  intros Hl Hsm Hi Hlen Ha Ht Hok Hf. unfold pop_flags_array. rewrite run_bind, run_lua. doc_eval.
  change (skip_base (bits base l)) with (bit_names l).
  apply (run_pop_flags_loop L l m t below idx (ls_order m) [] VNil 0 fuel n); try done.
  cbn [app]. rewrite ls_order_keys. apply NoDup_fst_map_to_list.
Qed.
End flags.

(** *** What is read from a table that was pushed *)

Lemma flags_of_testbit l m ks v b :
  Z.testbit (flags_of l m ks v) b = Z.testbit v b || existsb (fun k => Z.testbit (flag_of l m k) b) ks.
Proof.
  revert v. induction ks as [|k ks IH]; intros v; cbn [flags_of foldl existsb]; [by rewrite orb_false_r|].
  change (foldl _ ?x ks) with (flags_of l m ks x). by rewrite IH, Z.lor_spec, orb_assoc.
Qed.

Lemma set_flags_lookup v l : forall m k x, NoDup l.*1 -> (forall i name, In (i, name) l -> m !! KInt i = None) ->
  set_flags v l m !! k = Some x <->
  m !! k = Some x \/ exists i name, In (i, name) l /\ Z.testbit v (i - 1) = true /\ k = KInt i /\ x = VStr name.
Proof.
  induction l as [|[i name] l IH]; intros m k x Hnd Hm; cbn [set_flags].
  - split; [by left|]. intros [Hk|(i & name & [] & _)]. done.
  - cbn [fmap list_fmap fst] in Hnd. apply list.NoDup_cons in Hnd as [Hni Hnd]. rewrite IH; [|done|].
    + destruct (Z.testbit v (i - 1)) eqn:E.
      * rewrite lookup_insert_Some. split.
        { intros [[(<- & <-)|[_ Hk]]|(j & n & Hin & Hb & -> & ->)]; [right; exists i, name; split_all; try done; by left|by left|].
          right. exists j, n. split_all; try done. by right. }
        { intros [Hk|(j & n & [[= <- <-]|Hin] & Hb & -> & ->)]; [|by left; left|right; by exists j, n].
          left. right. split; [|done]. intros <-. rewrite (Hm i name) in Hk by by left. done. }
      * split; [intros [Hk|(j & n & Hin & Hb & -> & ->)]; [by left|right; exists j, n; split_all; try done; by right]|].
        intros [Hk|(j & n & [[= <- <-]|Hin] & Hb & -> & ->)]; [by left|congruence|right; by exists j, n].
    + intros j n Hin. assert (Hne : i ≠ j).
      { intros ->. apply Hni, list_elem_of_In, in_map_iff. by exists (j, n). }
      destruct (Z.testbit v (i - 1)); [rewrite lookup_insert_ne by by intros [= ?]|]; apply (Hm j n); by right.
Qed.

(** the bits of what is read: those of the names the entries are taken for *)
Lemma read_set_flags `{LuaSem} v l b : NoDup l.*1 -> small_bits l ->
  Z.testbit (flags_of l (set_flags v l ∅) (ls_order (set_flags v l ∅)) 0) b = true <->
  exists i name j, In (i, name) l /\ Z.testbit v (i - 1) = true /\ first_match name l = Some j /\ b = j - 1.
Proof.
  intros Hnd Hsm. rewrite flags_of_testbit, Z.bits_0. cbn [orb]. rewrite existsb_exists.
  assert (Hlook := fun k x => set_flags_lookup v l ∅ k x Hnd ltac:(done)).
  assert (Hbit : forall i, 1 <= i <= 31 -> Z.testbit (Z.shiftl 1 (i - 1)) b = true <-> b = i - 1).
  { intros i Hi. rewrite Z.shiftl_1_l. destruct (Z.eq_dec b (i - 1)) as [->|Hne].
    - rewrite Z.pow2_bits_true by lia. by split.
    - rewrite Z.pow2_bits_false by lia. split; [done|lia]. }
  split.
  - intros (k & Hin & Hb). unfold flag_of in Hb. destruct (set_flags v l ∅ !! k) as [x|] eqn:E; [|by rewrite Z.bits_0 in Hb].
    apply Hlook in E as [E|(i & name & Hl & Hv & -> & ->)]; [done|].
    destruct (first_match name l) as [j|] eqn:Ej; [|by rewrite Z.bits_0 in Hb].
    exists i, name, j. split_all; try done. by apply Hbit in Hb; [|by eapply first_match_range].
  - intros (i & name & j & Hl & Hv & Hj & Hb). exists (KInt i). split.
    + apply list_elem_of_In. rewrite ls_order_keys. apply list_elem_of_fmap. exists (KInt i, VStr name). split; [done|].
      apply elem_of_map_to_list, Hlook. right. by exists i, name.
    + unfold flag_of. assert (E : set_flags v l ∅ !! KInt i = Some (VStr name)) by (apply Hlook; right; by exists i, name).
      rewrite E, Hj. apply Hbit; [by eapply first_match_range|done].
Qed.


(** which bit every bit is read as *)
Definition read_as (l : list (Z * string)) : list (Z * Z) :=
  omap (fun e => j ← first_match e.2 l; Some (e.1 - 1, j - 1)) l.

(** the bit [b] of what is read *)
Definition read_bit (l : list (Z * string)) (f : Z -> bool) (b : Z) : bool :=
  existsb (fun e => f e.1 && (b =? e.2)) (read_as l).

Lemma read_flags_bits `{LuaSem} l v b : NoDup l.*1 -> small_bits l ->
  Z.testbit (read_flags l (set_flags v l ∅)) b = read_bit l (Z.testbit v) b.
Proof.
  intros Hnd Hsm. apply eq_true_iff_eq. unfold read_flags. rewrite read_set_flags by done.
  unfold read_bit. rewrite existsb_exists. split.
  - intros (i & name & j & Hin & Hv & Hj & ->). exists (i - 1, j - 1). split; [|cbn [fst snd]; by rewrite Hv, Z.eqb_refl].
    apply list_elem_of_In, list_elem_of_omap. exists (i, name). split; [by apply list_elem_of_In|]. cbn [snd]. by rewrite Hj.
  - intros ([i' j'] & Hin & Hv). apply list_elem_of_In, list_elem_of_omap in Hin as ([i name] & Hin & Hj).
    cbn [fst snd] in *. apply andb_true_iff in Hv as [Hv ->%Z.eqb_eq].
    destruct (first_match name l) as [j|] eqn:E; [|done]. injection Hj as <- <-. exists i, name, j.
    split_all; try done. by apply list_elem_of_In.
Qed.

(** ** Capabilities *)

(** the capabilities with a name of their own *)
Definition IFCAP_MASK : Z :=
  foldl (fun m e => if (e.1 =? 22) || (e.1 =? 23) then m else Z.lor m (Z.shiftl 1 (e.1 - 1))) 0 IFCAP_NAMES.

(** what is read of [v]: RXCSUM_IPV6 is taken for RXCSUM, and TXCSUM_IPV6 for TXCSUM *)
Definition caps_back (v : Z) : Z := Z.lor (Z.land v IFCAP_MASK) (Z.land (Z.shiftr v 21) 3).

Lemma read_as_table : read_as IFCAP_NAMES =
  [(0, 0); (1, 1); (2, 2); (3, 3); (4, 4); (5, 5); (6, 6); (7, 7); (8, 8); (9, 9); (10, 10); (11, 11); (12, 12); (13, 13);
   (14, 14); (15, 15); (16, 16); (18, 18); (19, 19); (20, 20); (21, 0); (22, 1); (24, 24); (25, 25); (26, 26); (27, 27);
   (28, 28)].
Proof. reflexivity. Qed.

Lemma IFCAP_MASK_value : IFCAP_MASK = 522059775.
Proof. reflexivity. Qed.

Lemma read_bit_low f b : 0 <= b < 29 -> read_bit IFCAP_NAMES f b = f b && Z.testbit IFCAP_MASK b || f (b + 21) && Z.testbit 3 b.
Proof.
  intros Hb. unfold read_bit. rewrite read_as_table, IFCAP_MASK_value.
  assert (Hin : In (Z.to_nat b) (seq 0 29)) by (apply in_seq; lia).
  replace b with (Z.of_nat (Z.to_nat b)) by lia. revert Hin. generalize (Z.to_nat b). clear b Hb.
  intros n Hin. cbn [seq] in Hin. repeat destruct Hin as [<-|Hin]; [..|done];
    cbv -[andb orb]; rewrite ?andb_false_r, ?andb_true_r; cbn [orb]; by rewrite ?orb_false_r.
Qed.

Lemma read_bit_high f b : 29 <= b -> read_bit IFCAP_NAMES f b = false.
Proof.
  intros Hb. unfold read_bit. rewrite read_as_table. cbn [existsb fst snd].
  rewrite !(proj2 (Z.eqb_neq b _)) by lia. by rewrite !andb_false_r.
Qed.

Lemma read_bit_back v b : 0 <= b -> read_bit IFCAP_NAMES (Z.testbit v) b = Z.testbit (caps_back v) b.
Proof.
  intros Hb. unfold caps_back. rewrite Z.lor_spec, !Z.land_spec, Z.shiftr_spec by done.
  destruct (Z.lt_ge_cases b 29) as [Hlt|Hge]; [by apply read_bit_low|].
  rewrite read_bit_high by done.
  assert (Hm : Z.testbit IFCAP_MASK b = false) by (apply Z.bits_above_log2; [done|change (Z.log2 IFCAP_MASK) with 28; lia]).
  assert (H3 : Z.testbit 3 b = false) by (apply Z.bits_above_log2; [done|change (Z.log2 3) with 1; lia]).
  by rewrite Hm, H3, !andb_false_r.
Qed.

Lemma caps_names : names_ok IFCAP_NAMES = true /\ small_bits IFCAP_NAMES /\ NoDup IFCAP_NAMES.*1.
Proof.
  split_all; [done| |].
  - apply list.Forall_forall. intros e He. apply list_elem_of_In in He. cbn in He.
    repeat destruct He as [<-|He]; (cbn; lia) || done.
  - apply (bool_decide_unpack (NoDup IFCAP_NAMES.*1)). by vm_compute.
Qed.

Lemma read_caps `{LuaSem} v : read_flags IFCAP_NAMES (set_flags v IFCAP_NAMES ∅) = caps_back v.
Proof.
  destruct caps_names as (_ & Hsm & Hnd). apply Z.bits_inj'. intros b Hb.
  rewrite read_flags_bits by done. by apply read_bit_back.
Qed.

Section capabilities.
Context `{LuaSem} `{Consts} {S : Type} `{Libc S} (C : clib S).
Implicit Types (w : world S lstate) (L : nat) (h : heap).
Abbreviation rn := (run (documented C)).

Lemma cstr_chars s : all_chars s = true -> cstr s = s.
Proof.
  induction s as [|c s IH]; [done|]. cbn [all_chars]. intros [Hc Hs]%andb_true_iff.
  cbn [cstr]. rewrite IH by done. unfold name_char in Hc. apply andb_true_iff in Hc as [Hc _]. apply Nat.ltb_lt in Hc.
  destruct (Ascii.eqb c NUL) eqn:E; [|done]. apply Ascii.eqb_eq in E as ->. change (nat_of_ascii NUL) with 0%nat in Hc. lia.
Qed.

Lemma set_flags_entries v l : names_ok l = true -> NoDup l.*1 ->
  entries_ok (set_flags v l ∅) (ls_order (set_flags v l ∅)).
Proof.
  intros Hl Hnd. apply list.Forall_forall. intros k Hk. rewrite ls_order_keys in Hk.
  apply list_elem_of_fmap in Hk as ([k' x] & -> & Hk). apply elem_of_map_to_list in Hk. cbn [fst].
  exists (match x with VStr s => s | _ => "" end). assert (Hx := Hk).
  apply set_flags_lookup in Hx as [Hx|(i & name & Hin & _ & -> & ->)]; [done| |done|done]. split; [done|]. apply cstr_chars.
  unfold names_ok in Hl. rewrite forallb_forall in Hl. specialize (Hl _ Hin). cbn [snd] in Hl.
  by apply andb_true_iff in Hl as [_ Hl].
Qed.

(** an open handle and the name of an interface are the first arguments *)
Record named_args (vs : list value) h w (hc : Z) (name : string) : Prop := {
  na_handle : exists u d, udata_of vs h 1 IFCONFIG_HANDLE_META = Some (u, d) /\ wm w !! ud_blk d = Some (carray [hc]) /\ ud_blk d ≠ 0;
  na_open : hc ≠ 0;
  na_name : at_ vs 2 = Val (VStr name)
}.

Lemma run_named L k vs h w hc name n :
  named_args vs h w hc name ->
  rn (named L k) (put L (LS vs n h) w) = rn (k hc (cstr name)) (put L (LS vs n h) w).
Proof.
  intros [(u & d & Hu & Hm & Hb) Ho Hn]. unfold named, l_ifconfig_checkhandle.
  rewrite !run_bind, run_lua. cbn [doc]. rewrite (doc_checkudata_ok _ _ _ _ _ _ _ Hu). cbn [andthen].
  rewrite (proj2 (Z.eqb_neq _ _) Hb). cbn [negb assert_]. rewrite run_bind, run_ret. cbn [andthen].
  rewrite run_bind, (run_arr_load C L _ [hc] 0 hc) by done. cbn [andthen].
  rewrite (proj2 (Z.eqb_neq _ _) Ho). cbn [negb luaL_argcheck]. rewrite run_bind, run_ret. cbn [andthen].
  rewrite run_ret. cbn [andthen]. unfold luaL_checkstring. rewrite !run_bind, run_lua. unfold doc. doc_eval. know Hn.
  rewrite run_ret. done.
Qed.

(** libifconfig reads and sets the capabilities of an interface *)
Record caps_lib (hc : Z) (name : string) (cur sup : S -> Z) (store : Z -> S -> S) : Prop := {
  cl_get : forall w, c_call C "ifconfig_get_capability" [AZ hc; AS name] w = (Ok (Cret 0 [AZ (cur (wx w)); AZ (sup (wx w))]), w);
  cl_set : forall v w, c_call C "ifconfig_set_capability" [AZ hc; AS name; AZ v] w = (Ok (Cret 0 []), set_x (store v (wx w)) w)
}.

Lemma run_caps {A} L key v vs n h w (k : prog A) :
  rn (lua_pushstring L key;; push_flags_array L v IFCAPBITS;; k) (put L (LS vs (3 + n) h) w) =
  rn k (put L (LS (VTab (fresh h) :: VStr (cstr key) :: vs) (1 + n) (alloc_tab (flags_table v IFCAP_NAMES) h)) w).
Proof.
  change (3 + n)%nat with (1 + (2 + n))%nat. rewrite run_bind, run_lua. doc_eval. rewrite run_bind. unfold IFCAPBITS.
  change (Datatypes.S (Datatypes.S n)) with (2 + n)%nat. by rewrite (run_push_flags C L v 16 IFCAP_NAMES) by apply caps_names.
Qed.

Lemma run_rawset3 L v key t m vs n h w :
  tabs h !! t = Some (Table m None) -> length vs = 2%nat -> v ≠ VNil ->
  rn (lua_rawset L 3) (put L (LS (v :: VStr key :: VTab t :: vs) n h) w) =
  (Ok tt, put L (LS (VTab t :: vs) (2 + n) (set_tab t (Table (<[KStr key := v]> m) None) h)) w).
Proof.
  intros Ht Hl Hv. rewrite run_lua. unfold doc, doc_rawset_key. destruct vs as [|a [|b [|? ?]]]; try done. doc_eval.
  know Ht. by destruct v.
Qed.

Lemma size_set_flags v l : forall m, (size (set_flags v l m) <= length l + size m)%nat.
Proof.
  induction l as [|[i name] l IH]; intros m; cbn [set_flags length]; [done|].
  etrans; [apply IH|]. destruct (Z.testbit v (i - 1)); [|lia].
  rewrite map_size_insert. destruct (m !! KInt i); cbn; lia.
Qed.

Lemma order_length (m : gmap key value) : length (ls_order m) = size m.
Proof. rewrite ls_order_keys, length_fmap. apply length_map_to_list. Qed.

(** the heap after both tables were made: [r] is the result *)
Definition caps_heap (r : nat) (cur sup : Z) h : heap :=
  let ha := alloc_tab (Table (arr []) None) h in
  let hb := set_tab r (Table (<[KStr "enabled" := VTab (fresh ha)]> (arr [])) None) (alloc_tab (flags_table cur IFCAP_NAMES) ha) in
  set_tab r (Table (<[KStr "supported" := VTab (fresh hb)]> (<[KStr "enabled" := VTab (fresh ha)]> (arr []))) None)
    (alloc_tab (flags_table sup IFCAP_NAMES) hb).

(** C34. The capabilities of an interface are reported as tables of names, and the table of
    the enabled ones can be given back: what is set is what was read, except that the IPv6
    checksum capabilities are taken for the IPv4 ones, whose names theirs begin with. *)
Theorem capabilities_again L fuel u name hc cur sup store h w :
  caps_lib hc (cstr name) cur sup store -> named_args [VStr name; VUd u] h w hc name -> (28 <= fuel)%nat ->
  let c := to_uint (cur (wx w)) in
  let h1 := caps_heap (fresh h) c (to_uint (sup (wx w))) h in
  let e := fresh (alloc_tab (Table (arr []) None) h) in
  executes C L l_ifconfig_get_capabilities [VUd u; VStr name] h w (Ok [VTab (fresh h)]) (put L (idle h1) w) /\
  executes C L (l_ifconfig_set_capabilities fuel) [VUd u; VStr name; VTab e] h1 w (Ok [VBool true])
    (put L (idle h1) (set_x (store (caps_back c) (wx w)) w)).
Proof.
  intros HC Hn Hf c h1 e. split.
  - apply (executes_return C L _ _ h w [VTab (fresh h)] [VStr name; VUd u] 19). unfold l_ifconfig_get_capabilities, frame, LUA_MINSTACK.
    change (rev [VUd u; VStr name]) with [VStr name; VUd u].
    rewrite (run_named L _ _ h w hc name) by done. rewrite run_bind, run_call, (cl_get _ _ _ _ _ HC). cbn [andthen].
    unfold or_nil. cbn [rc]. change (negb (0 =? 0)) with false. cbv iota. change 20%nat with (1 + (3 + 16))%nat.
    rewrite !run_bind, run_newtable. cbn [andthen]. 
    rewrite run_caps.
    rewrite run_bind, (run_rawset3 L _ _ (fresh h) (arr [])) by (done || cbn; rewrite lookup_insert_ne, lookup_insert_eq by lia; done). cbn [andthen].
    change (2 + (1 + 16))%nat with (3 + 16)%nat. rewrite run_caps.
    rewrite (run_rawset3 L _ _ (fresh h) (<[KStr "enabled" := VTab e]> (arr [])))
      by (done || cbn; rewrite lookup_insert_ne, lookup_insert_eq by lia; done).
    done.
  - apply (executes_return C L _ _ h1 w [VBool true] [VTab e; VStr name; VUd u] 19). unfold l_ifconfig_set_capabilities, frame, LUA_MINSTACK.
    change (rev [VUd u; VStr name; VTab e]) with [VTab e; VStr name; VUd u].
    rewrite (run_named L _ _ h1 w hc name) by (by destruct Hn). 
    rewrite run_bind.
    assert (He : tabs h1 !! e = Some (flags_table c IFCAP_NAMES)).
    { cbn. rewrite lookup_insert_ne, lookup_insert_ne, lookup_insert_ne by (cbn; lia). apply lookup_insert_eq. }
    rewrite run_lua. doc_eval. rewrite run_bind. change 20%nat with (2 + 18)%nat. unfold IFCAPBITS.
    destruct caps_names as (Hok & Hsm & Hnd).
    rewrite (run_pop_flags C L 16 IFCAP_NAMES (set_flags c IFCAP_NAMES ∅) e [VTab e; VStr name; VUd u] 3 fuel 18);
      [|done..|by apply set_flags_entries|].
    + cbn [andthen]. rewrite read_caps, run_bind, run_call, (cl_set _ _ _ _ _ HC). cbn [andthen]. rewrite set_x_put.
      unfold done_or_false. cbn [rc]. change (0 =? 0) with true. rewrite run_bind, run_lua. by doc_eval.
    + rewrite order_length. pose proof (size_set_flags c IFCAP_NAMES ∅) as Hs. rewrite map_size_empty in Hs.
      change (length IFCAP_NAMES) with 27%nat in Hs. lia.
Qed.
(** A metric in the range of an [int] is refused as out of range, and nothing is set: the
    condition that is checked is the one for the numbers outside. *)
Theorem set_metric_refused L u name hc metric h w :
  named_args [VInt metric; VStr name; VUd u] h w hc name -> INT_MIN <= metric <= INT_MAX ->
  invoke C L l_ifconfig_set_metric [VUd u; VStr name; VInt metric] h w =
  (Halt (Raise (EArg 3 "metric out of range")), put L (idle h) w).
Proof.
  intros Hn Hm. unfold invoke, l_ifconfig_set_metric, frame, LUA_MINSTACK.
  change (rev [VUd u; VStr name; VInt metric]) with [VInt metric; VStr name; VUd u].
  rewrite (run_named L _ _ h w hc name) by done. rewrite run_bind, run_lua. doc_eval.
  rewrite (proj2 (Z.ltb_ge _ _)), (proj2 (Z.ltb_ge _ _)) by lia. cbn [orb luaL_argcheck].
  rewrite run_bind, run_lua_halts. unfold doc. doc_eval. cbn [andthen finish]. by rewrite wl_put, put_put.
Qed.
End capabilities.

(** ** Witnesses *)

Definition one_interface : clib Z := {|
  c_call := fun f args w =>
    match args with
    | [_; _; AZ v] => (Ok (Cret 0 []), set_x v w)
    | _ => (Ok (Cret 0 [AZ (wx w); AZ (2 ^ 28)]), w)
    end;
  c_fn := fun _ _ args w => (Ok (true, args), w) |}.

(** RXCSUM_IPV6 and TXCSUM are enabled *)
Definition caps_world : world Z lstate := set_x (2 ^ 21 + 2) (sample_world {[ 4000 := carray [5] ]}).
Definition caps_sample : heap := sample_heap IFCONFIG_HANDLE_META [] 4000.

Lemma capabilities_again_witness :
  let h1 := caps_heap 10 (2 ^ 21 + 2) (2 ^ 28) caps_sample in
  executes one_interface 0 l_ifconfig_get_capabilities [VUd 2; VStr "em0"] caps_sample caps_world (Ok [VTab 10])
    (put 0%nat (idle h1) caps_world) /\
  executes one_interface 0 (l_ifconfig_set_capabilities 28) [VUd 2; VStr "em0"; VTab 11] h1 caps_world (Ok [VBool true])
    (put 0%nat (idle h1) (set_x 3 caps_world)).
Proof.
  apply (capabilities_again one_interface 0 28 2 "em0" 5 (fun x => x) (fun _ => 2 ^ 28) (fun v _ => v) caps_sample caps_world);
    [done| |lia].
  split; [exists 2%nat, (Udata (Some 1%nat) [] 4000)|..]; done.
Defined.

Lemma set_metric_refused_witness :
  invoke one_interface 0 l_ifconfig_set_metric [VUd 2; VStr "em0"; VInt 1] caps_sample caps_world =
  (Halt (Raise (EArg 3 "metric out of range")), put 0%nat (idle caps_sample) caps_world).
Proof.
  apply (set_metric_refused one_interface 0 2 "em0" 5 1 caps_sample caps_world); [|done].
  split; [exists 2%nat, (Udata (Some 1%nat) [] 4000)|..]; done.
Defined.
