(* ===== verification/BsddialogProps.v ===== *)
(** * What the menus of lua_bsddialog.c do

    The items of a menu reach the library as an array of structures with copies of the strings,
    and all of this memory is given back; the number of the item on return is counted from 1 by
    menus and checklists, and from 0 by radiolists ([menu_items]). *)

From S2P Require Import Prelude LuaApi Arrays Machine Capi Samples Utils Modules Cmem CmemProps Wrapper Bsddialog.

(** ** Items *)

Record item := Item { it_prefix : option string; it_name : option string; it_desc : option string;
  it_bottomdesc : option string; it_on : bool; it_depth : Z }.

Definition item_strs (it : item) : list (option string) := [it_prefix it; it_name it; it_desc it; it_bottomdesc it].
Definition item_names : list string := ["prefix"; "name"; "desc"; "bottomdesc"].

Definition opt_str (o : option string) : value := default VNil (VStr <$> o).

(** the table of an item; fields without a value may be missing *)
Definition item_table (x : gmap key value) (it : item) : Prop :=
  Forall2 (fun k o => default VNil (x !! KStr k) = opt_str o) item_names (item_strs it) /\
  x !! KStr "on" = Some (VBool (it_on it)) /\ x !! KStr "depth" = Some (VInt (it_depth it)).

Definition items_at (h : heap) (t : nat) (its : list item) : Prop :=
  exists ids, tabs h !! t = Some (Table (arr (VTab <$> ids)) None) /\
    Forall2 (fun id it => exists x, tabs h !! id = Some (Table x None) /\ item_table x it) ids its.

(** ** Items in memory *)

(** the strings up to their first NUL, the depth as an unsigned int *)
Definition cut (o : option string) : option string := cstr <$> o.
Definition item_cut (it : item) : item :=
  Item (cut (it_prefix it)) (cut (it_name it)) (cut (it_desc it)) (cut (it_bottomdesc it)) (it_on it) (to_uint (it_depth it)).

Definition str_obj (s : string) : obj := OBuf (Z.of_nat (String.length s) + 1) (s +:+ String NUL "").

Definition str_ptr (m : gmap Z obj) (p : Z) (o : option string) : Prop :=
  match o with None => p = 0 | Some s => p ≠ 0 /\ cstr s = s /\ m !! p = Some (str_obj s) end.

(** the six cells of an item *)
Definition item_cells (m : gmap Z obj) (it : item) (c : list Z) : Prop :=
  exists ps, c = ps ++ [Z_of_bool (it_on it); it_depth it] /\ Forall2 (str_ptr m) ps (item_strs it).

(** the array of the items, of which these are the cells *)
Definition items_in (m : gmap Z obj) (p : Z) (its : list item) (cs : list (list Z)) : Prop :=
  m !! p = Some (carray (concat cs)) /\ Forall2 (item_cells m) its cs.

(** the cells with another flag, which is the one after the four strings *)
Definition mark (on : bool) (c : list Z) : list Z := <[4%nat := Z_of_bool on]> c.

(** an array of which the last [n] cells are still zeros *)
Definition filled (zs : list Z) (n : nat) : obj := OArr ((Some ∘ AZ <$> zs) ++ replicate n (Some (AZ 0))).

Lemma arr_set_filled zs n z : arr_set (length zs) (AZ z) (filled zs (1 + n)) = Some (tt, filled (zs ++ [z]) n).
Proof.
  unfold arr_set, filled. rewrite (proj2 (Nat.ltb_lt _ _)).
  2:{ rewrite length_app, length_fmap, length_replicate. lia. }
  do 2 f_equal. rewrite insert_app_r_alt by by rewrite length_fmap.
  rewrite length_fmap, Nat.sub_diag. cbn [replicate Nat.add]. by rewrite fmap_app, <- app_assoc.
Qed.

Section worlds.
Context {S : Type}.
Implicit Types (w : world S lstate).

(** the copies of a list of strings *)
Fixpoint copies (os : list (option string)) w : list Z * world S lstate :=
  match os with
  | [] => ([], w)
  | None :: os => let '(ps, w') := copies os w in (0 :: ps, w')
  | Some s :: os =>
      let '(ps, w') := copies os (poke (wnext w) (str_obj s) (set_next (wnext w + 1) w)) in (wnext w :: ps, w')
  end.

Lemma copies_app os os' w :
  copies (os ++ os') w =
  let '(ps, w1) := copies os w in let '(ps', w2) := copies os' w1 in (ps ++ ps', w2).
Proof.
  revert w. induction os as [|[s|] os IH]; intros w; cbn [app copies]; [by destruct (copies os' w)|..].
  - rewrite IH. destruct (copies os _) as [ps w1]. by destruct (copies os' w1).
  - rewrite IH. destruct (copies os _) as [ps w1]. by destruct (copies os' w1).
Qed.

(** where the copies are, and what else the world holds *)
Record copied (os : list (option string)) w (ps : list Z) w' : Prop := {
  cp_ptrs : Forall2 (str_ptr (wm w')) ps os;
  cp_range : Forall (fun p => p = 0 \/ wnext w <= p < wnext w') ps;
  cp_nodup : NoDup (filter (fun p => p ≠ 0) ps);
  cp_next : wnext w <= wnext w';
  cp_frame : forall p, p = 0 \/ p ∉ ps -> wm w' !! p = wm w !! p;
  cp_rest : w' = set_next (wnext w') (set_mem (wm w') w)
}.

Definition whole (o : option string) : Prop := cut o = o.

Lemma copies_copied os : forall w, Forall whole os -> roomy w -> copied os w (copies os w).1 (copies os w).2.
Proof.
  induction os as [|[s|] os IH]; intros w Hos Hr; cbn [copies];
    try apply Forall_cons_iff in Hos as [Hwh Hos].
  - split; [constructor|constructor|apply base.NoDup_nil_2|done|done|by destruct w].
  - set (w1 := poke (wnext w) (str_obj s) (set_next (wnext w + 1) w)). destruct Hr as [Hp Hm Ho].
    assert (Hr1 : roomy w1).
    { split; [cbn; lia| |done]. intros p Hq. cbn in Hq |- *. rewrite lookup_insert_ne by lia. apply Hm. lia. }
    specialize (IH w1 Hos Hr1). destruct (copies os w1) as [ps w']. cbn [fst snd] in *.
    destruct IH as [H1 H2 H3 H4 H5 H6]. change (wnext w1) with (wnext w + 1) in *.
    assert (Hnin : wnext w ∉ ps).
    { intros Hin. apply (proj1 (list.Forall_forall _ _) H2) in Hin. cbn in Hin. lia. }
    split.
    + constructor; [|done]. split; [lia|]. split; [by injection Hwh|]. rewrite H5 by by right. apply lookup_insert_eq.
    + constructor; [right; lia|]. eapply list.Forall_impl; [exact H2|]. cbn. lia.
    + rewrite filter_cons_True by lia. apply list.NoDup_cons. split; [|done].
      intros Hin. by apply list_elem_of_filter in Hin as [_ Hin].
    + lia.
    + intros p Hq. rewrite not_elem_of_cons in Hq. rewrite H5 by tauto. cbn. apply lookup_insert_ne. lia.
    + rewrite H6. by destruct w.
  - specialize (IH w Hos Hr). destruct (copies os w) as [ps w']. cbn [fst snd] in *. destruct IH as [H1 H2 H3 H4 H5 H6].
    split; [by constructor|by constructor; [left|]|done|done| |done].
    intros p Hq. rewrite not_elem_of_cons in Hq. apply H5. tauto.
Qed.

Lemma copied_roomy os w ps w' : roomy w -> copied os w ps w' -> roomy w'.
Proof.
  intros [Hp Hm Ho] [H1 H2 H3 H4 H5 H6]. split; [lia| |by rewrite H6].
  intros p Hq. rewrite H5; [apply Hm; lia|]. right. intros Hin. apply (proj1 (list.Forall_forall _ _) H2) in Hin. lia.
Qed.

(** the copies for a list of items: the pointers of each *)
Fixpoint copies_items (its : list item) w : list (list Z) * world S lstate :=
  match its with
  | [] => ([], w)
  | it :: its =>
      let '(ps, w1) := copies (item_strs it) w in
      let '(pss, w2) := copies_items its w1 in
      (ps :: pss, w2)
  end.

Lemma copies_items_concat its : forall w,
  copies (concat (item_strs <$> its)) w = (concat (copies_items its w).1, (copies_items its w).2).
Proof.
  induction its as [|it its IH]; intros w; [done|]. cbn [fmap list_fmap concat copies_items]. rewrite copies_app.
  destruct (copies (item_strs it) w) as [ps w1]. rewrite IH. by destruct (copies_items its w1) as [pss w2].
Qed.

Lemma poke_swap_next p q o o' n w : p ≠ q -> poke p o (set_next n (poke q o' w)) = poke q o' (poke p o (set_next n w)).
Proof. intros Hne. unfold poke, set_mem, set_next. cbn. by rewrite insert_insert_ne. Qed.

(** memory after some pointers were freed *)
Definition freed (ps : list Z) w w' : Prop :=
  w' = set_mem (wm w') w /\ forall p, wm w' !! p = if decide (p ≠ 0 /\ p ∈ ps) then None else wm w !! p.

Lemma freed_nil w : freed [] w w.
Proof. split; [by destruct w|]. intros p. case_decide as Hd; [|done]. destruct Hd as [_ Hin]. by apply elem_of_nil in Hin. Qed.

Lemma freed_app ps ps' w w1 w2 : freed ps w w1 -> freed ps' w1 w2 -> freed (ps' ++ ps) w w2.
Proof.
  intros [E1 M1] [E2 M2]. split; [rewrite E2, E1 at 1; done|]. intros p. rewrite M2, M1.
  repeat case_decide; rewrite ?elem_of_app in *; tauto || done.
Qed.

(** the pointers can be freed one by one *)
Definition freeable (ps : list Z) w : Prop :=
  NoDup (filter (fun p => p ≠ 0) ps) /\ forall p, p ∈ ps -> p ≠ 0 -> is_Some (wm w !! p).

Lemma freeable_app ps ps' w w1 : freeable (ps ++ ps') w -> freed ps' w w1 -> freeable ps w1.
Proof.
  intros [Hnd Hp] [_ Hm]. rewrite list.filter_app in Hnd. apply list.NoDup_app in Hnd as (H1 & H2 & _). split; [done|].
  intros p Hin Hne. rewrite Hm. rewrite decide_False; [apply Hp; [by apply elem_of_app; left|done]|].
  intros [_ Hin']. apply (H2 p); by apply list_elem_of_filter.
Qed.

Lemma freeable_r ps ps' w : freeable (ps ++ ps') w -> freeable ps' w.
Proof.
  intros [Hnd Hp]. rewrite list.filter_app in Hnd. apply list.NoDup_app in Hnd as (_ & _ & H3). split; [done|].
  intros p Hin. apply Hp. apply elem_of_app. by right.
Qed.
End worlds.

(** the cells of an item with these pointers *)
Definition cells (it : item) (ps : list Z) : list Z := ps ++ [Z_of_bool (it_on it); to_uint (it_depth it)].

Definition turn (on : bool) (it : item) : item :=
  Item (it_prefix it) (it_name it) (it_desc it) (it_bottomdesc it) on (it_depth it).

Lemma mark_cells on it ps : length ps = 4%nat -> mark on (cells it ps) = cells (turn on it) ps.
Proof. intros Hl. unfold mark, cells. by rewrite insert_app_r_alt, Hl by lia. Qed.

Lemma mark_all ons its pss : Forall (fun ps => length ps = 4%nat) pss ->
  zip_with mark ons (zip_with cells its pss) = zip_with cells (zip_with turn ons its) pss.
Proof.
  intros HF. revert ons its. induction HF as [|ps pss Hl HF IH]; intros [|on ons] [|it its]; cbn [zip_with]; try done.
  by rewrite mark_cells, IH.
Qed.

Section bsddialog.
Context `{LuaSem} `{Consts} {S : Type} `{Libc S} (C : clib S).
Implicit Types (w : world S lstate) (L : nat) (h : heap) (q : Z).
Abbreviation rn := (run (documented C)).

(** a field that may be missing *)
Lemma run_getfield_opt L i k t x vs n h w :
  at_ vs i = Val (VTab t) -> tabs h !! t = Some (Table x None) ->
  rn (lua_getfield L i k) (put L (LS vs (1 + n) h) w) =
  (Ok (type_of (default VNil (x !! KStr k))), put L (LS (default VNil (x !! KStr k) :: vs) n h) w).
Proof.
  intros Ha Ht. destruct (x !! KStr k) as [v|] eqn:Hx; [by apply (run_getfield C L i k v t x)|].
  rewrite run_lua. unfold doc. doc_eval. know Ha, Ht. cbn [tmap tmeta]. rewrite Hx. unfold raw_get. cbn [tmap]. by rewrite Hx.
Qed.

Lemma run_opt_tostring L o vs n h w :
  rn (opt_tostring L (-1)) (put L (LS (opt_str o :: vs) n h) w) = (Ok (cut o), put L (LS (opt_str o :: vs) n h) w).
Proof. unfold opt_tostring. rewrite run_bind, run_lua. doc_eval. by destruct o. Qed.

Lemma run_set_filled L zs m z q st w :
  rn (set_elt q (Z.of_nat (length zs)) (AZ z)) (put L st (poke q (filled zs (1 + m)) w)) =
  (Ok tt, put L st (poke q (filled (zs ++ [z]) m) w)).
Proof.
  unfold set_elt. rewrite (proj2 (Z.ltb_ge _ 0)), Nat2Z.id by lia.
  rewrite (run_load C q _ (filled zs (1 + m)) tt (filled (zs ++ [z]) m)); [by rewrite poke_poke|apply lookup_insert_eq|].
  apply arr_set_filled.
Qed.

Lemma run_copystrings L q id x vs n h : tabs h !! id = Some (Table x None) -> forall fields os zs m w,
  roomy w -> q < wnext w -> Forall2 (fun k o => default VNil (x !! KStr k) = opt_str o) fields os ->
  rn (copystrings L q (Z.of_nat (length zs)) fields)
    (put L (LS (VTab id :: vs) (1 + n) h) (poke q (filled zs (length fields + m)) w)) =
  (Ok tt, put L (LS (VTab id :: vs) (1 + n) h)
    (poke q (filled (zs ++ (copies (cut <$> os) w).1) m) (copies (cut <$> os) w).2)).
Proof.
  intros Ht fields os zs m w Hr Hq HF. revert zs w Hr Hq. induction HF as [|k o fields os Hx HF IH]; intros zs w Hr Hq.
  - cbn [copystrings length fmap list_fmap copies fst snd]. by rewrite run_ret, app_nil_r.
  - cbn [copystrings length Nat.add]. unfold copystring.
    rewrite !run_bind, (run_getfield_opt L (-1) k id x), Hx by done. cbn [andthen].
    rewrite run_bind, run_opt_tostring. cbn [andthen]. rewrite run_bind.
    assert (Hlen : forall z, Z.of_nat (length zs) + 1 = Z.of_nat (length (zs ++ [z]))) by (intros z; rewrite length_app; cbn; lia).
    destruct o as [s|]; cbn [cut fmap option_fmap option_map list_fmap copies].
    + set (w1 := poke (wnext w) (str_obj (cstr s)) (set_next (wnext w + 1) w)).
      assert (Hstep : rn (strdup (cstr s)) (put L (LS (opt_str (Some s) :: VTab id :: vs) n h) (poke q (filled zs (Datatypes.S (length fields + m))) w)) =
        (Ok (wnext w), put L (LS (opt_str (Some s) :: VTab id :: vs) n h) (poke q (filled zs (1 + (length fields + m))) w1))).
      { unfold strdup. rewrite run_malloc_ok by apply (ro_oom _ Hr). cbn [wnext poke set_mem]. by rewrite poke_swap_next by lia. }
      rewrite run_bind, Hstep. cbn [andthen]. rewrite run_bind, run_set_filled. cbn [andthen].
      destruct Hr as [Hp Hm Ho]. rewrite (proj2 (Z.eqb_neq _ 0)) by lia. rewrite run_ret. cbn [andthen].
      rewrite run_pop1. cbn [andthen]. rewrite (Hlen (wnext w)). 
      assert (Hr1 : roomy w1).
      { split; [cbn; lia| |done]. intros p Hpq. cbn in Hpq |- *. rewrite lookup_insert_ne by lia. apply Hm. lia. }
      rewrite (IH (zs ++ [wnext w]) w1 Hr1) by (cbn; lia). destruct (copies _ w1) as [ps w']. cbn [fst snd].
      by rewrite <- app_assoc.
    + rewrite (run_set_filled L zs (length fields + m)). cbn [andthen]. rewrite run_pop1. cbn [andthen]. rewrite (Hlen 0).
      rewrite (IH (zs ++ [0]) w Hr) by done. destruct (copies _ w) as [ps w']. cbn [fst snd]. by rewrite <- app_assoc.
Qed.

(** *** Reading the table of items *)

Definition copy_item (L : nat) (index items i : Z) : prog unit :=
  lua_geti L index (i + 1);;
  luaL_checktype L (-1) TTABLE;;
  copystrings L items (i * ITEM) item_names;;
  lua_getfield L (-1) "on";;
  on ← lua_toboolean L (-1);
  set_elt items (i * ITEM + 4) (AZ (Z_of_bool on));;
  lua_pop L 1;;
  uint_member L items (i * ITEM + 5) "depth";;
  lua_pop L 1.

Lemma copies_length os : forall w, length (copies os w).1 = length os.
Proof.
  induction os as [|[s|] os IH]; intros w; cbn [copies length]; [done|..].
  - specialize (IH (poke (wnext w) (str_obj s) (set_next (wnext w + 1) w))). destruct (copies os _) as [ps w'].
    cbn [fst length] in *. by rewrite IH.
  - specialize (IH w). destruct (copies os _) as [ps w']. cbn [fst length] in *. by rewrite IH.
Qed.

Lemma run_copy_item L idx t ids (k : nat) id x it vs n h zs m q w :
  at_ vs idx = Val (VTab t) -> tabs h !! t = Some (Table (arr (VTab <$> ids)) None) -> ids !! k = Some id ->
  tabs h !! id = Some (Table x None) -> item_table x it -> roomy w -> q < wnext w -> length zs = (6 * k)%nat ->
  rn (copy_item L idx q (Z.of_nat k)) (put L (LS vs (2 + n) h) (poke q (filled zs (6 + m)) w)) =
  (Ok tt, put L (LS vs (2 + n) h)
    (poke q (filled (zs ++ cells it (copies (item_strs (item_cut it)) w).1) m) (copies (item_strs (item_cut it)) w).2)).
Proof.
  intros Ha Ht Hk Hx (Hs & Hon & Hd) Hr Hq Hlen. unfold copy_item.
  change (2 + n)%nat with (1 + (1 + n))%nat.
  rewrite run_bind, (run_geti_arr C L idx t (VTab <$> ids) k (VTab id)) by (done || by rewrite list_lookup_fmap, Hk).
  cbn [andthen]. rewrite run_bind, run_lua. unfold doc. doc_eval.
  replace (Z.of_nat k * ITEM) with (Z.of_nat (length zs)) by (unfold ITEM; lia).
  change (Datatypes.S n) with (1 + n)%nat. change (filled zs _) with (filled zs (length item_names + (2 + m))).
  rewrite run_bind, (run_copystrings L q id x vs n h Hx item_names (item_strs it)) by done. cbn [andthen].
  change (cut <$> item_strs it) with (item_strs (item_cut it)).
  pose proof (copies_length (item_strs (item_cut it)) w) as Hl. destruct (copies _ w) as [ps w1]. cbn [fst snd] in *.
  change (length (item_strs (item_cut it))) with 4%nat in Hl.
  rewrite run_bind, (run_getfield C L (-1) "on" (VBool (it_on it)) id x) by done. cbn [andthen].
  rewrite run_bind, run_lua. doc_eval. replace (truthy (VBool (it_on it))) with (it_on it) by by destruct (it_on it).
  replace (Z.of_nat (length zs) + 4) with (Z.of_nat (length (zs ++ ps))) by (rewrite length_app; lia).
  rewrite run_bind, run_set_filled. cbn [andthen]. rewrite run_bind, run_pop1. cbn [andthen]. unfold uint_member.
  rewrite !run_bind, (run_getfield C L (-1) "depth" (VInt (it_depth it)) id x) by done. cbn [andthen].
  rewrite run_bind, run_lua. doc_eval.
  replace (Z.of_nat (length zs) + 5) with (Z.of_nat (length ((zs ++ ps) ++ [Z_of_bool (it_on it)]))) by (rewrite !length_app; cbn; lia).
  rewrite run_bind, run_set_filled. cbn [andthen]. rewrite run_pop1. cbn [andthen]. rewrite run_pop1.
  unfold cells. by rewrite <- !app_assoc.
Qed.

Definition all_cells (its : list item) (pss : list (list Z)) : list Z := concat (zip_with cells its pss).

Lemma run_copy_items L idx t ids vs n h q :
  at_ vs idx = Val (VTab t) -> tabs h !! t = Some (Table (arr (VTab <$> ids)) None) ->
  forall its (k : nat) zs w,
  Forall2 (fun id it => exists x, tabs h !! id = Some (Table x None) /\ item_table x it) (drop k ids) its ->
  roomy w -> q < wnext w -> length zs = (6 * k)%nat ->
  let r := copies_items (item_cut <$> its) w in
  rn (for_ (length its) (Z.of_nat k) (copy_item L idx q)) (put L (LS vs (2 + n) h) (poke q (filled zs (6 * length its)) w)) =
  (Ok tt, put L (LS vs (2 + n) h) (poke q (filled (zs ++ all_cells its r.1) 0) r.2)).
Proof.
  intros Ha Ht its. induction its as [|it its IH]; intros k zs w HF Hr Hq Hlen.
  - cbn [length for_ Nat.mul fmap list_fmap copies_items fst snd]. unfold all_cells. cbn [zip_with concat].
    by rewrite run_ret, app_nil_r.
  - destruct (drop k ids) as [|id ids'] eqn:Hd; [by inversion HF|]. apply Forall2_cons_1 in HF as [(x & Hx & Hit) HF].
    assert (Hk : ids !! k = Some id) by (rewrite <- (Nat.add_0_r k), <- lookup_drop, Hd; done).
    assert (Hd' : drop (Datatypes.S k) ids = ids') by (by rewrite <- Nat.add_1_r, <- drop_drop, Hd).
    cbn [length for_]. replace (6 * Datatypes.S (length its))%nat with (6 + 6 * length its)%nat by lia.
    rewrite run_bind, (run_copy_item L idx t ids k id x it) by done. cbn [andthen]. cbn [fmap list_fmap copies_items].
    assert (Hw : forall o, In o (item_strs (item_cut it)) -> whole o).
    { intros o Hin. cbn [item_strs item_cut it_prefix it_name it_desc it_bottomdesc In] in Hin.
      assert (Hc : forall o', whole (cut o')) by (intros [s|]; unfold whole, cut; cbn; [by rewrite cstr_idemp|done]).
      destruct Hin as [<-|[<-|[<-|[<-|[]]]]]; apply Hc. }
    assert (Hwf : Forall whole (item_strs (item_cut it))) by (apply list.Forall_forall; intros o Ho; apply Hw; by apply list_elem_of_In).
    pose proof (copies_copied _ w Hwf Hr) as Hc. pose proof (copied_roomy _ _ _ _ Hr Hc) as Hr1.
    pose proof (copies_length (item_strs (item_cut it)) w) as Hl. destruct (copies _ w) as [ps w1]. cbn [fst snd] in *.
    replace (Z.of_nat k + 1) with (Z.of_nat (Datatypes.S k)) by lia.
    destruct Hc as [_ _ _ Hnext _ _].
    rewrite (IH (Datatypes.S k) (zs ++ cells it ps) w1); [|by rewrite Hd'|done|lia|].
    + destruct (copies_items _ w1) as [pss w2]. cbn [fst snd]. unfold all_cells. cbn [zip_with concat]. by rewrite <- app_assoc.
    + unfold cells. rewrite !length_app. cbn [length item_strs] in *. lia.
Qed.

(** *** Freeing the items *)

Lemma run_free_cells L q zs st : forall ps (i : nat) w,
  wm w !! q = Some (carray zs) -> take (length ps) (drop i zs) = ps -> q ∉ ps -> freeable ps w ->
  exists w', rn (free_cells q (Z.of_nat i) (length ps)) (put L st w) = (Ok tt, put L st w') /\ freed ps w w'.
Proof.
  induction ps as [|p ps IH]; intros i w Hm Hps Hq [Hnd Hp].
  - exists w. split; [done|]. by apply freed_nil.
  - cbn [length] in Hps. destruct (drop i zs) as [|z rest] eqn:Hd; [done|]. cbn [take] in Hps. injection Hps as -> Hps.
    assert (Hi : zs !! i = Some p) by (rewrite <- (Nat.add_0_r i), <- lookup_drop, Hd; done).
    assert (Hd' : drop (Datatypes.S i) zs = rest) by (by rewrite <- Nat.add_1_r, <- drop_drop, Hd).
    rewrite not_elem_of_cons in Hq. destruct Hq as [Hqp Hq].
    cbn [length free_cells]. unfold cell. rewrite Nat2Z.id, run_bind, (run_arr_load C L q zs i p) by done. cbn [andthen].
    replace (Z.of_nat i + 1) with (Z.of_nat (Datatypes.S i)) by lia. rewrite run_bind.
    destruct (decide (p = 0)) as [->|Hne].
    + rewrite run_free_null. cbn [andthen].
      destruct (IH (Datatypes.S i) w) as (w' & Hrun & He & Hf); [done|by rewrite Hd'|done| |].
      { split; [done|]. intros p Hin. apply Hp. by right. }
      exists w'. split; [exact Hrun|]. split; [done|]. intros p. rewrite Hf. 
      repeat case_decide; rewrite ?elem_of_cons in *; tauto || done.
    + rewrite filter_cons_True in Hnd by done. apply list.NoDup_cons in Hnd as [Hnin Hnd].
      assert (Hnp : p ∉ ps) by (intros Hin; apply Hnin; by apply list_elem_of_filter).
      destruct (Hp p) as [o Ho]; [by left|done|]. rewrite (run_free C p o) by done. cbn [andthen].
      destruct (IH (Datatypes.S i) (release p w)) as (w' & Hrun & Hf); [cbn; by rewrite lookup_delete_ne|by rewrite Hd'|done| |].
      { split; [done|]. intros p' Hin Hne'. cbn. rewrite lookup_delete_ne by (intros ->; done). apply Hp; [by right|done]. }
      exists w'. split; [exact Hrun|]. apply (freed_app [p] ps w (release p w)) in Hf.
      * destruct Hf as [He Hf]. split; [done|]. intros p'. rewrite Hf.
        repeat case_decide; rewrite ?elem_of_app, ?elem_of_cons, ?elem_of_nil in *; tauto || done.
      * split; [done|]. intros p'. cbn. case_decide as Hd0.
        { destruct Hd0 as [_ Hin]. apply list_elem_of_singleton in Hin as ->. apply lookup_delete_eq. }
        { apply lookup_delete_ne. intros ->. apply Hd0. split; [done|by left]. }
Qed.

Lemma cells_lookup its pss : Forall (fun ps => length ps = 4%nat) pss -> forall n ps,
  length its = length pss -> pss !! n = Some ps -> take 4 (drop (6 * n) (all_cells its pss)) = ps.
Proof.
  intros HF. revert its. induction HF as [|ps0 pss Hl HF IH]; intros its n ps Hlen Hn; [done|].
  destruct its as [|it its]; [done|]. unfold all_cells. cbn [zip_with concat]. fold (all_cells its pss).
  destruct n as [|n].
  - injection Hn as <-. cbn [Nat.mul]. rewrite drop_0. unfold cells. rewrite <- !app_assoc. by rewrite <- Hl, take_app_length.
  - replace (6 * Datatypes.S n)%nat with (length (cells it ps0) + 6 * n)%nat by (unfold cells; rewrite length_app, Hl; cbn; lia).
    rewrite <- drop_drop, drop_app_length. apply IH; [by injection Hlen|done].
Qed.

Lemma run_free_items L q its pss st : Forall (fun ps => length ps = 4%nat) pss -> length its = length pss -> forall n w,
  wm w !! q = Some (carray (all_cells its pss)) -> (n <= length pss)%nat -> q ∉ concat pss -> freeable (concat (take n pss)) w ->
  q ≠ 0 ->
  exists w', rn (free_down n ITEM (fun i => free_cells q i 4)) (put L st w) = (Ok tt, put L st w') /\
    freed (concat (take n pss)) w w'.
Proof.
  intros HF Hlen. induction n as [|n IH]; intros w Hm Hn Hq Hf Hq0.
  - exists w. split; [done|]. by apply freed_nil.
  - destruct (lookup_lt_is_Some_2 pss n) as [ps Hps]; [lia|]. rewrite (take_S_r _ _ ps) in * by done.
    rewrite concat_app in *. cbn [concat] in *. rewrite app_nil_r in *.
    assert (Hl : length ps = 4%nat) by exact (proj1 (Forall_lookup _ _) HF n ps Hps).
    assert (Hqps : q ∉ ps). { intros Hin. apply Hq, list_elem_of_In, in_concat. exists ps. split; apply list_elem_of_In; [|done]. by eapply list_elem_of_lookup_2. }
    cbn [free_down]. rewrite run_bind. replace (Z.of_nat n * ITEM) with (Z.of_nat (6 * n)) by (unfold ITEM; lia).
    destruct (run_free_cells L q (all_cells its pss) st ps (6 * n) w) as (w1 & Hrun & Hf1); [done| |done|by eapply freeable_r|].
    { rewrite Hl. by apply cells_lookup. }
    rewrite Hl in Hrun. rewrite Hrun. cbn [andthen].
    destruct (IH w1) as (w2 & Hrun2 & Hf2); [| lia|done|by eapply freeable_app|done|].
    + destruct Hf1 as [_ Hf1]. rewrite Hf1, decide_False; [done|]. by intros [_ ?].
    + exists w2. split; [done|]. by eapply freed_app.
Qed.

Lemma Forall2_concat {A B} (P : A -> B -> Prop) pss oss :
  Forall2 P (concat pss) (concat oss) -> Forall2 (fun ps os => length ps = length os) pss oss ->
  Forall2 (Forall2 P) pss oss.
Proof.
  intros HF Hlen. induction Hlen as [|ps os pss oss Hl Hlen IH]; [constructor|]. cbn [concat] in HF.
  apply list.Forall2_app_inv in HF as [HF1 HF2]; [|done]. constructor; [done|by apply IH].
Qed.

Lemma copies_items_lengths its : forall w,
  Forall2 (fun ps it => length ps = length (item_strs it)) (copies_items its w).1 its.
Proof.
  induction its as [|it its IH]; intros w; cbn [copies_items]; [constructor|].
  pose proof (copies_length (item_strs it) w) as Hl. destruct (copies _ w) as [ps w1].
  specialize (IH w1). destruct (copies_items its w1) as [pss w2]. by constructor.
Qed.

Lemma items_whole its : Forall whole (concat (item_strs <$> (item_cut <$> its))).
Proof.
  assert (Hc : forall o', whole (cut o')) by (intros [s|]; unfold whole, cut; cbn; [by rewrite cstr_idemp|done]).
  induction its as [|it its IH]; [constructor|]. cbn [fmap list_fmap concat]. apply list.Forall_app. split; [|done].
  repeat constructor; apply Hc.
Qed.

(** the world after [checkmenuitems] *)
Definition with_items (its : list item) w : world S lstate :=
  let r := copies_items (item_cut <$> its) (set_next (wnext w + 1) w) in
  poke (wnext w) (carray (all_cells its r.1)) r.2.

Lemma run_checkmenuitems L idx t its vs n h w :
  at_ vs idx = Val (VTab t) -> items_at h t its -> roomy w -> Z.of_nat (length its) < 2 ^ 32 ->
  rn (checkmenuitems L idx) (put L (LS vs (2 + n) h) w) =
  (Ok (wnext w, Z.of_nat (length its)), put L (LS vs (2 + n) h) (with_items its w)).
Proof.
  intros Ha (ids & Ht & HF) [Hp Hm Ho] Hl. assert (Hlen : length ids = length its) by (by eapply Forall2_length).
  unfold checkmenuitems. rewrite run_bind, run_lua. unfold doc. doc_eval. know Ha.
  rewrite run_bind, run_lua. doc_eval. know Ha, Ht. cbn [tmeta]. rewrite seq_len_arr. doc_eval.
  rewrite length_fmap, Hlen. unfold calloc_items. rewrite !run_bind, run_malloc_ok by done. cbn [andthen].
  rewrite (proj2 (Z.eqb_neq _ 0)), run_ret by lia. cbn [andthen]. rewrite run_bind, Nat2Z.id.
  change (Datatypes.S (Datatypes.S n)) with (2 + n)%nat.
  replace (Z.to_nat (Z.of_nat (length its) * ITEM)) with (6 * length its)%nat by (unfold ITEM; lia).
  pose proof (run_copy_items L idx t ids vs n h (wnext w) Ha Ht its 0 [] (set_next (wnext w + 1) w) HF) as Hrun.
  cbv zeta in Hrun. unfold filled in Hrun at 1. cbn [fmap list_fmap app] in Hrun.
  change (fun i : Z => _) with (copy_item L idx (wnext w)). change (Z.of_nat 0) with 0 in Hrun. rewrite Hrun; [|split|cbn; lia|done].
  - cbn [andthen]. rewrite run_ret. unfold with_items, filled. rewrite app_nil_r.
    by rewrite (wrapu_small 32) by lia.
  - cbn. lia.
  - intros q Hq. cbn in Hq |- *. apply Hm. lia.
  - done.
Qed.

Lemma items_cells m q o its : forall pss,
  Forall2 (Forall2 (str_ptr m)) pss (item_strs <$> (item_cut <$> its)) -> (forall p, p ∈ concat pss -> p = 0 \/ q < p) ->
  Forall2 (item_cells (<[q := o]> m)) (item_cut <$> its) (zip_with cells its pss).
Proof.
  induction its as [|it its IH]; intros pss HF Hrange; [constructor|]. cbn [fmap list_fmap] in HF.
  inversion HF as [|ps os pss' oss Hps HF' E1 E2]; subst. cbn [zip_with fmap list_fmap]. cbn [concat] in Hrange.
  constructor; [|apply IH; [done|]; intros p Hin; apply Hrange; apply elem_of_app; by right].
  exists ps. split; [done|]. assert (Hr : Forall (fun p => p = 0 \/ q < p) ps).
  { apply list.Forall_forall. intros p Hin. apply Hrange, elem_of_app. by left. }
  clear - Hps Hr. induction Hps as [|p s ps ss Hp Hps IH]; [constructor|]. apply Forall_cons_iff in Hr as [Hq Hr].
  constructor; [|by apply IH]. destruct s as [s|]; [|done]. destruct Hp as (Hne & Hc & Hm). split; [done|split; [done|]].
  rewrite lookup_insert_ne by lia. done.
Qed.

(** what is there then, and that it can be freed *)
Lemma with_items_ok its w : roomy w ->
  let pss := (copies_items (item_cut <$> its) (set_next (wnext w + 1) w)).1 in
  items_in (wm (with_items its w)) (wnext w) (item_cut <$> its) (zip_with cells its pss) /\
  Forall (fun ps => length ps = 4%nat) pss /\ length its = length pss /\ wnext w ∉ concat pss /\
  freeable (concat pss) (with_items its w) /\ wx (with_items its w) = wx w /\
  (forall p, p ≠ wnext w -> (p = 0 \/ p ∉ concat pss) -> wm (with_items its w) !! p = wm w !! p) /\
  (forall p, p ∈ concat pss -> p ≠ 0 -> wm w !! p = None).
Proof.
  intros Hr. cbv zeta. assert (Hr1 : roomy (set_next (wnext w + 1) w)).
  { destruct Hr as [Hp Hm Ho]. split; [cbn; lia| |done]. intros p Hq. cbn in Hq |- *. apply Hm. lia. }
  pose proof (copies_copied _ _ (items_whole its) Hr1) as Hc. rewrite copies_items_concat in Hc. cbn [fst snd] in Hc.
  unfold with_items. pose proof (copies_items_lengths (item_cut <$> its) (set_next (wnext w + 1) w)) as Hlens.
  destruct (copies_items _ _) as [pss w2]. cbn [fst snd] in *. destruct Hc as [C1 C2 C3 C4 C5 C6].
  change (wnext (set_next _ w)) with (wnext w + 1) in *. change (wm (set_next _ w)) with (wm w) in *.
  destruct Hr as [Hp Hm Ho].
  assert (Hrange : forall p, p ∈ concat pss -> p = 0 \/ wnext w + 1 <= p) by
    (intros p Hin; apply (proj1 (list.Forall_forall _ _) C2) in Hin; lia).
  assert (Hnin : wnext w ∉ concat pss) by (intros Hin; apply Hrange in Hin; lia).
  split; [|split; [|split; [|split; [done|split; [|split; [|split]]]]]].
  - split; [apply lookup_insert_eq|].
    assert (Hptrs : Forall2 (Forall2 (str_ptr (wm w2))) pss (item_strs <$> (item_cut <$> its))).
    { apply Forall2_concat; [done|]. apply Forall2_fmap_r. exact Hlens. }
    apply items_cells; [|by intros p Hin; apply Hrange in Hin; lia]. exact Hptrs.
  - eapply list.Forall_impl; [|intros ps Hps; exact Hps]. apply list.Forall_forall. intros ps Hin.
    apply list_elem_of_lookup_1 in Hin as [i Hi]. destruct (Forall2_lookup_l _ _ _ _ _ Hlens Hi) as (it & _ & ->). done.
  - apply Forall2_length in Hlens. by rewrite Hlens, length_fmap.
  - split; [done|]. intros p Hin Hne. cbn. rewrite lookup_insert_ne by (intros <-; done).
    apply list_elem_of_lookup_1 in Hin as [i Hi]. destruct (Forall2_lookup_l _ _ _ _ _ C1 Hi) as (o & _ & Ho').
    destruct o as [s|]; [by destruct Ho' as (_ & _ & ->)|by cbn in Ho'].
  - cbn. rewrite C6. done.
  - intros p Hne Hp'. cbn. rewrite lookup_insert_ne by done. by apply C5.
  - intros p Hin Hne. apply Hrange in Hin. apply Hm. lia.
Qed.

(** the world after a dialog that set the flags of the items *)
Definition with_marks (ons : list bool) (its : list item) w : world S lstate :=
  let pss := (copies_items (item_cut <$> its) (set_next (wnext w + 1) w)).1 in
  poke (wnext w) (carray (concat (zip_with mark ons (zip_with cells its pss)))) (with_items its w).

Lemma run_freemenuitems L ons its x w st : roomy w -> length ons = length its ->
  exists w', rn (freemenuitems (wnext w) (Z.of_nat (length its))) (put L st (set_x x (with_marks ons its w))) = (Ok tt, put L st w') /\
    wm w' = wm w /\ wx w' = x.
Proof.
  intros Hr Hons. destruct (with_items_ok its w Hr) as (_ & Hlens & Hlen & Hq & Hfree & Hx & Hframe & Hnew).
  unfold with_marks. destruct (copies_items _ _) as [pss w2] eqn:E. cbn [fst snd] in *. rewrite mark_all by done.
  set (its' := zip_with turn ons its). assert (Hlen' : length its' = length pss) by (unfold its'; rewrite length_zip_with; lia).
  set (w0 := poke (wnext w) _ (with_items its w)). destruct Hr as [Hp Hmem Ho].
  assert (Hw0 : forall p, p ≠ wnext w -> wm w0 !! p = wm (with_items its w) !! p) by (intros p Hne; by apply lookup_insert_ne).
  destruct (run_free_items L (wnext w) its' pss st Hlens Hlen' (length pss) (set_x x w0)) as (w1 & Hrun & He & Hf);
    [apply lookup_insert_eq|done|done| |lia|].
  { rewrite firstn_all. destruct Hfree as [Hnd Hp']. split; [done|]. intros p Hin Hne. cbn.
    rewrite lookup_insert_ne by (intros <-; done). by apply Hp'. }
  rewrite firstn_all in Hf.
  exists (release (wnext w) w1). unfold freemenuitems. rewrite run_bind, Nat2Z.id, Hlen, Hrun. cbn [andthen]. split; [|split].
  - eapply run_free; [lia|]. rewrite Hf, decide_False; [apply lookup_insert_eq|]. by intros [_ ?].
  - apply map_eq. intros p. cbn. destruct (decide (p = wnext w)) as [->|Hne].
    { rewrite lookup_delete_eq. symmetry. apply Hmem. lia. }
    rewrite lookup_delete_ne by done. rewrite Hf. case_decide as Hd.
    + symmetry. apply Hnew; tauto.
    + cbn. rewrite lookup_insert_ne by done.
      apply Hframe; [done|]. destruct (decide (p = 0)); [by left|right]. intros Hin'. by apply Hd.
  - cbn. rewrite He. done.
Qed.

(** ** The menus *)

(** a dialog reads the items and the number of the one in focus, from 0, and answers with the
    button, the new number, from 0, which items are on, and its new state; it writes the flags
    into the array of the items, where the caller finds the choice of the user *)
Definition menu_lib (f : string) (answer : list item -> Z -> S -> Z * Z * list bool * S) : Prop :=
  forall conf text rows cols menurows its cs p focus w, items_in (wm w) p its cs ->
    let '(rv, focus', ons, x) := answer its focus (wx w) in
    length ons = length its /\
    c_call C f [AZ conf; AS text; AZ rows; AZ cols; AZ menurows; AZ (Z.of_nat (length its)); AZ p; AZ focus] w =
      (Ok (Cret rv [AZ focus']), set_x x (poke p (carray (concat (zip_with mark ons cs))) w)).

(** the functions, and what they add to the number on return *)
Definition menus : list (string * (nat -> prog Z) * Z) :=
  [("bsddialog_checklist", l_bsddialog_checklist, 1); ("bsddialog_menu", l_bsddialog_menu, 1);
   ("bsddialog_radiolist", l_bsddialog_radiolist, 0)].

Lemma run_dialog_args L u d text rows cols vs n h w :
  udata_of vs h 1 BSDDIALOG_CONF_METATABLE = Some (u, d) -> at_ vs 2 = Val (VStr text) ->
  at_ vs 3 = Val (VInt rows) -> at_ vs 4 = Val (VInt cols) ->
  rn (dialog_args L) (put L (LS vs n h) w) =
  (Ok [AZ (ud_blk d); AS (cstr text); AZ (to_int rows); AZ (to_int cols)], put L (LS vs n h) w).
Proof.
  intros Hud Ht Hr Hc. unfold dialog_args. rewrite run_bind, run_lua. cbn [doc]. rewrite (doc_checkudata_ok _ _ _ _ _ _ _ Hud).
  cbn [andthen]. rewrite run_bind, (run_checkstring C L 2 text) by done. cbn [andthen]. rewrite run_bind, run_lua. unfold doc. doc_eval. know Hr.
  rewrite run_bind, run_lua. unfold doc. doc_eval. know Hc. by rewrite run_ret.
Qed.

(** C32. A menu, a checklist or a radiolist gives the library its items in order, with their strings,
    flag and depth, whatever their number; whichever flags the dialog sets, all the memory they
    took is free again afterwards, each block freed once.  The script gets the button and the
    item in focus: menus and checklists count it from 1 as on entry, a radiolist from 0.  It
    gets nothing else: the flags [ons], which are the choice of the user, are freed unread,
    and the tables of the items keep the flags they had. *)
Theorem menu_items L f fn shift answer u d conf text rows cols menurows t its focus rv focus' ons x h w :
  In (f, fn, shift) menus -> menu_lib f answer -> roomy w -> items_at h t its -> Z.of_nat (length its) < 2 ^ 32 ->
  uds h !! u = Some d /\ ud_blk d = conf /\ (exists m, ud_meta d = Some m /\ reg_get (inl BSDDIALOG_CONF_METATABLE) h = VTab m) ->
  answer (item_cut <$> its) (to_int (focus - 1)) (wx w) = (rv, focus', ons, x) -> rv ≠ cst "BSDDIALOG_ERROR" ->
  exists w', executes C L fn [VUd u; VStr text; VInt rows; VInt cols; VInt menurows; VTab t; VInt focus] h w
      (Ok [VInt rv; VInt (to_int (focus' + shift))]) (put L (idle h) w') /\ wm w' = wm w /\ wx w' = x.
Proof.
  intros Hin HC Hr Hits Hl (Hu & Hb & m & Hmeta & Hreg) Hans Hrv.
  destruct (with_items_ok its w Hr) as (Hitems & _ & _ & _ & _ & Hx & _).
  set (vs := [VInt focus; VTab t; VInt menurows; VInt cols; VInt rows; VStr text; VUd u]).
  assert (Hud : udata_of vs h 1 BSDDIALOG_CONF_METATABLE = Some (u, d)).
  { unfold udata_of. change (at_ vs 1) with (Val (VUd u)). cbv iota beta. rewrite Hu, Hmeta, Hreg. by rewrite decide_True. }
  assert (Hfn : fn = fun L => menu_dialog L f shift) by (cbn [menus In] in Hin; by destruct Hin as [[= <- <- <-]|[[= <- <- <-]|[[= <- <- <-]|[]]]]).
  pose proof (HC conf (cstr text) (to_int rows) (to_int cols) (to_uint menurows) (item_cut <$> its) _ (wnext w) (to_int (focus - 1))
    (put L (LS vs 20 h) (with_items its w)) Hitems) as Hcall.
  change (wx (put L (LS vs 20 h) (with_items its w))) with (wx (with_items its w)) in Hcall.
  rewrite Hx, Hans, length_fmap in Hcall. destruct Hcall as [Hons Hcall].
  destruct (run_freemenuitems L ons its x w (LS vs 20 h) Hr Hons) as (w' & Hfree & Hm' & Hx').
  exists w'. split; [|done].
  apply (executes_return C L _ _ h w [VInt rv; VInt (to_int (focus' + shift))] vs 18). subst fn. unfold menu_dialog, frame, LUA_MINSTACK.
  change (rev [VUd u; VStr text; VInt rows; VInt cols; VInt menurows; VTab t; VInt focus]) with vs.
  rewrite run_bind, (run_dialog_args L u d text rows cols), Hb by done. cbn [andthen]. unfold vs.
  rewrite run_bind, run_lua. doc_eval. change 20%nat with (2 + 18)%nat.
  rewrite run_bind, (run_checkmenuitems L 6 t its) by done. cbn [andthen]. rewrite run_bind, run_lua. doc_eval.
  change (Datatypes.S (Datatypes.S 18)) with 20%nat. rewrite run_bind, run_call. cbn [app].
  fold vs. rewrite Hcall. cbn [andthen]. rewrite poke_put. fold (with_marks ons its w).
  rewrite set_x_put, run_bind, Hfree. cbn [andthen].
  unfold or_error. cbn [rc]. rewrite (proj2 (Z.eqb_neq rv _)) by done. cbn [out_int outs lookup list_lookup].
  unfold push_ints. cbn [push_all_ints]. rewrite run_bind, run_bind, run_lua. doc_eval. rewrite run_bind, run_lua. doc_eval.
  rewrite run_ret. cbn [andthen]. done.
Qed.
End bsddialog.

(** ** Witness: a library that turns on the item in focus, and the others off *)

Fixpoint choose (focus : Z) (c : list (option carg)) : list (option carg) :=
  match c with
  | c0 :: c1 :: c2 :: c3 :: _ :: c5 :: c => c0 :: c1 :: c2 :: c3 :: Some (AZ (Z_of_bool (focus =? 0))) :: c5 :: choose (focus - 1) c
  | _ => c
  end.

Fixpoint chosen (focus : Z) (n : nat) : list bool :=
  match n with O => [] | S n => (focus =? 0) :: chosen (focus - 1) n end.

Definition choosing : clib Z := {|
  c_call := fun _ args w =>
    match rev args with
    | AZ focus :: AZ p :: _ =>
        match wm w !! p with
        | Some (OArr c) => (Ok (Cret 0 [AZ focus]), set_x (wx w + 1) (poke p (OArr (choose focus c)) w))
        | _ => (Ok (Cret 0 []), w)
        end
    | _ => (Ok (Cret 0 []), w)
    end;
  c_fn := fun _ _ args w => (Ok (true, args), w) |}.

Lemma choosing_lib f : menu_lib choosing f (fun its focus x => (0, focus, chosen focus (length its), x + 1)).
Proof.
  intros conf text rows cols menurows its cs p focus w [Hp HF]. split.
  - generalize focus. induction (length its) as [|n IH]; intros k; cbn [chosen length]; [done|by rewrite IH].
  - cbn. rewrite Hp. cbn [carray]. do 2 f_equal. unfold poke. do 2 f_equal. unfold carray. f_equal.
    clear Hp. generalize focus. induction HF as [|it c its cs (ps & -> & Hps) HF IH]; intros k; [done|].
    apply Forall2_length in Hps. change (length (item_strs it)) with 4%nat in Hps.
    destruct ps as [|p0 [|p1 [|p2 [|p3 []]]]]; try discriminate Hps.
    cbn [concat app fmap list_fmap compose choose length chosen zip_with mark]. by rewrite IH.
Qed.

Definition dialog_consts : Consts := fun name => if String.eqb name "BSDDIALOG_ERROR" then -1 else 0.

(** table 3 holds the tables 4 and 5 *)
Definition two_items : list item :=
  [Item None (Some "one") (Some "first") None true 0; Item None (Some "two") None (Some "the second") false 1].
Definition item_fields (name : string) (k v : string) (on : bool) (depth : Z) : table :=
  Table {[ KStr "name" := VStr name; KStr k := VStr v; KStr "on" := VBool on; KStr "depth" := VInt depth ]} None.
Definition menu_heap : heap :=
  set_tab 5 (item_fields "two" "bottomdesc" "the second" false 1) (set_tab 4 (item_fields "one" "desc" "first" true 0)
    (set_tab 3 (Table (arr [VTab 4; VTab 5]) None) (sample_heap BSDDIALOG_CONF_METATABLE [] 4000))).

(** the second item is chosen, and the script gets its number as the one in focus *)
Lemma menu_items_witness :
  exists w', executes choosing 0 (@l_bsddialog_radiolist dialog_consts)
      [VUd 2; VStr "Which?"; VInt 0; VInt 0; VInt 0; VTab 3; VInt 2] menu_heap (sample_world ∅)
      (Ok [VInt 0; VInt 1]) (put 0%nat (idle menu_heap) w') /\ wm w' = ∅ /\ wx w' = 1.
Proof.
  refine (@menu_items _ dialog_consts Z _ choosing 0 "bsddialog_radiolist" (@l_bsddialog_radiolist dialog_consts) 0
    (fun its focus x => (0, focus, chosen focus (length its), x + 1)) 2 (Udata (Some 1%nat) [] 4000) 4000 "Which?" 0 0 0 3 two_items 2
    0 1 [false; true] 1 menu_heap (sample_world ∅) _ _ _ _ _ _ _ _).
  - right. right. by left.
  - apply choosing_lib.
  - by split.
  - exists [4; 5]%nat. split; [done|]. repeat constructor; (eexists; split; [reflexivity|split; [by repeat constructor|done]]).
  - done.
  - split; [done|split; [done|]]. by exists 1%nat.
  - done.
  - done.
Defined.
