(* ===== verification/Lifecycle.v ===== *)
(** * Handles that are closed

    A handle keeps the address of an object of a library, or a descriptor, until it is closed.
    It is closed by its method, by [__close] or by the collector, any number of times and in
    any order, which are one function for the nine types here.  The call may fail: four of the
    functions look at its result, and leave the handle as it is then.  [handle_closed_once] says
    that a close succeeds at most once, whatever else happens in between, and not at all for an
    object that was taken out of its handle, as [cap_unwrap] does ([unwrap_gives]). *)

From S2P Require Import Prelude LuaApi Machine Capi Samples Utils Modules Cmem Wrapper Nvpair ZfsBase Libzfs Zfs Zpool.
From S2P Require Import Descriptors Casper Be Kvm.

(** a type: its name, its function, the call and whether the function looks at its result, what
    the userdata holds while the object is open and afterwards, which objects there are, and
    what closing returns when it succeeds and when the handle is empty *)
Record closable := Closable {
  cl_type : string; cl_fn : nat -> prog Z; cl_call : string; cl_reports : bool;
  cl_full : Z -> value; cl_empty : value; cl_valid : Z -> Prop;
  cl_ok : list value; cl_again : list value }.

(** a cookie, which is null afterwards *)
Definition cookie_type (mt : string) (fn : nat -> prog Z) (call : string) (reports : bool) (ok : list value) : closable :=
  Closable mt fn call reports VLud (VLud 0) (fun p => p ≠ 0) ok [].

(** a descriptor, which is nil afterwards *)
Definition fd_type (mt : string) (fn : nat -> prog Z) : closable :=
  Closable mt fn "close" true VInt VNil (fun fd => to_int fd = fd) [VInt 1] [VInt 1].

Definition cookie_types `{Consts} : list closable := [
  cookie_type Be.LIBBE_METATABLE Be.l_be_close "libbe_close" false [];
  cookie_type Casper.CAP_CHANNEL_METATABLE Casper.l_cap_close "cap_close" false [];
  cookie_type Kvm.KVM_METATABLE Kvm.l_kvm_close "kvm_close" true [VInt 1];
  cookie_type LIBZFS_HANDLE_METATABLE l_libzfs_fini "libzfs_fini" false [];
  cookie_type ZFS_HANDLE_METATABLE l_zfs_close "zfs_close" false [];
  cookie_type ZPOOL_HANDLE_METATABLE l_zpool_close "zpool_close" false []].

Definition fd_types `{Consts} : list closable := [
  fd_type EVENTFD_METATABLE l_eventfd_close;
  fd_type PROCDESC_METATABLE l_procdesc_close;
  fd_type INOTIFY_METATABLE l_inotify_close].

Section lifecycle.
Context `{LuaSem} `{Consts} {S : Type} `{Libc S} (C : clib S).
Implicit Types (w : world S lstate) (L : nat) (h : heap) (p : Z) (k : closable).
Abbreviation rn := (run (documented C)).

Context (k : closable) (L u : nat) (fails : Z -> S -> bool) (close : Z -> S -> S) (count : Z -> S -> Z) (p : Z).

(** a close that the function takes for a failed one *)
Definition refused (c : Z) (x : S) : bool := cl_reports k && fails c x.

(** closing succeeds or fails, as [fails] says; [count c] is how often [c] was closed *)
Definition close_lib : Prop :=
  (forall c w, c_call C (cl_call k) [AZ c] w = (Ok (Cret (if fails c (wx w) then -1 else 0) []), set_x (close c (wx w)) w)) /\
  (forall c x, count c (close c x) = count c x + (if refused c x then 0 else 1)).

(** *** What the handle holds *)

Definition holding (mt : string) (d : udata) (v : value) h : Prop :=
  udata_of [VUd u] h 1 mt = Some (u, d) /\ ud_uv d !! 0%nat = Some v.

Definition holds (mt : string) (v : value) h : Prop := exists d, holding mt d v h.

Definition with_value (v : value) (d : udata) : udata := Udata (ud_meta d) (<[0%nat := v]> (ud_uv d)) (ud_blk d).

Lemma holds_set mt d v v' h : holding mt d v h -> holds mt v' (set_ud u (with_value v' d) h).
Proof.
  intros [Hu Hv]. destruct (udata_of_at _ _ _ _ _ _ Hu) as [_ Hd]. exists (with_value v' d).
  split; [|destruct d as [m [|v0 vs] b]; done].
  unfold udata_of in *. change (at_ [VUd u] 1) with (Val (VUd u)) in *. cbv iota beta in *.
  rewrite uds_set_ud. change (reg_get (inl mt) (set_ud _ _ h)) with (reg_get (inl mt) h).
  rewrite Hd in Hu. cbn [ud_meta with_value]. destruct (ud_meta d), (reg_get (inl mt) h); try done. by case_decide.
Qed.

Lemma holds_other h h' mt v :
  uds h' !! u = uds h !! u -> reg_get (inl mt) h' = reg_get (inl mt) h -> holds mt v h -> holds mt v h'.
Proof.
  intros E1 E2 (d & Hu & Hv). exists d. split; [|done]. unfold udata_of in *.
  change (at_ [VUd u] 1) with (Val (VUd u)) in *. cbv iota beta in *. by rewrite E1, E2.
Qed.

(** what can happen to the handle and the world from [h0] and [w0] on: the handle is closed, the
    object is taken out of the handle, or something else happens that does not close the object
    and leaves the handle as it is; the flag says whether the object was taken out *)
Inductive life (h0 : heap) (w0 : world S lstate) : bool -> heap -> world S lstate -> Prop :=
  | life_start : life h0 w0 false h0 w0
  | life_close g h w o h' w' : life h0 w0 g h w ->
      invoke C L (cl_fn k) [VUd u] h w = (o, put L (idle h') w') -> life h0 w0 g h' (put L (idle h') w')
  | life_given g h w h' w' : life h0 w0 g h w ->
      holds (cl_type k) (cl_full k p) h -> holds (cl_type k) (cl_empty k) h' ->
      count p (wx w') = count p (wx w) -> life h0 w0 true h' w'
  | life_other g h w h' w' : life h0 w0 g h w ->
      uds h' !! u = uds h !! u -> reg_get (inl (cl_type k)) h' = reg_get (inl (cl_type k)) h ->
      count p (wx w') = count p (wx w) -> life h0 w0 g h' w'.

Lemma holds_inj mt v v' h : holds mt v h -> holds mt v' h -> v = v'.
Proof. intros (d & Hu & Hv) (d' & Hu' & Hv'). rewrite Hu in Hu'. injection Hu' as ->. rewrite Hv in Hv'. by injection Hv'. Qed.

Lemma full_not_empty : In k (cookie_types ++ fd_types) -> cl_valid k p -> cl_full k p ≠ cl_empty k.
Proof.
  intros Hin. cbn [cookie_types fd_types app In] in Hin.
  by repeat (destruct Hin as [<-|Hin]; [cbn; congruence|]).
Qed.

(** *** One call *)

(** what a failed close returns *)
Definition failure (x : S) : list value := [VNil; VStr (cstr (c_strerror (c_errno x))); VInt (c_errno x)].

(** [fn] closes a full handle and returns [cl_ok], or the error when that failed, and leaves an
    empty one alone *)
Definition closes : Prop :=
  forall h w d,
    (forall c, cl_valid k c -> holding (cl_type k) d (cl_full k c) h ->
      let ok := negb (refused c (wx w)) in
      let rs := if ok then cl_ok k else failure (close c (wx w)) in
      let h' := if ok then set_ud u (with_value (cl_empty k) d) h else h in
      exists vs n, rn (cl_fn k L) (put L (frame [VUd u] h) w) =
        (Ok (Z.of_nat (length rs)), put L (LS (rev rs ++ vs) n h') (set_x (close c (wx w)) w))) /\
    (holding (cl_type k) d (cl_empty k) h ->
      exists vs n, rn (cl_fn k L) (put L (frame [VUd u] h) w) =
        (Ok (Z.of_nat (length (cl_again k))), put L (LS (rev (cl_again k) ++ vs) n h) w)).

Lemma cookies_close : In k cookie_types -> close_lib -> closes.
Proof.
  intros Hin [HC _] h w d. unfold refused. split.
  - intros c Hc [Hud Hv]. pose proof (udata_of_at _ _ _ _ _ _ Hud) as [Ha Hd].
    assert (Hh : cl_full k = VLud -> handle [VUd u] h 1 (cl_type k) c) by (intros E; rewrite E in Hv; by exists u, d).
    assert (Hset : forall w, rn (setcookie L 1 0) (put L (frame [VUd u] h) w) =
      (Ok tt, put L (frame [VUd u] (set_ud u (with_value (VLud 0) d) h)) w)) by (intros w1; by apply (run_setcookie C L 1 0 u d [VUd u] 19)).
    assert (Hcall : forall st, rn (call (cl_call k) [AZ c]) (put L st w) =
      (Ok (Cret (if fails c (wx w) then -1 else 0) []), put L st (set_x (close c (wx w)) w))).
    { intros st. rewrite run_call, HC. change (wx (put L st w)) with (wx w). by rewrite set_x_put. }
    cbn [cookie_types In] in Hin. repeat (destruct Hin as [<-|Hin]; [|]); [..|done]; cbn [cl_fn cl_type cl_call cl_reports cl_ok cl_valid cl_full cl_empty cookie_type andb negb] in *.
    all: specialize (Hh eq_refl); unfold l_be_close, l_cap_close, l_kvm_close, l_libzfs_fini, l_zfs_close, l_zpool_close;
      rewrite run_bind, (run_checkcookienull_frame C L 1 _ c) by done; cbn [andthen];
      rewrite (proj2 (Z.eqb_neq c 0)) by done; cbn [negb].
    3: { rewrite run_bind, Hcall. cbn [andthen rc]. destruct (fails c (wx w)).
      - change (-1 =? -1) with true. cbv iota. rewrite run_bind, run_errno. cbn [andthen negb].
        exists [VUd u], 17%nat. apply (run_fail C L _ [VUd u] 17).
      - change (0 =? -1) with false. cbv iota. cbn [negb].
        rewrite run_bind, Hset. cbn [andthen]. exists [VUd u], 19%nat. apply (run_success C L [VUd u] 19). }
    1-2: exists [VUd u], 20%nat; rewrite run_bind, Hcall; cbn [andthen]; by rewrite run_bind, Hset.
    all: exists [VUd u], 20%nat; rewrite !run_bind, Hcall; cbn [andthen]; rewrite run_bind, Hset; cbn [andthen];
      by rewrite run_ret.
  - intros [Hud Hv]. exists [VUd u], 20%nat.
    assert (Hh : cl_empty k = VLud 0 -> handle [VUd u] h 1 (cl_type k) 0) by (intros E; rewrite E in Hv; by exists u, d).
    cbn [cookie_types In] in Hin. repeat (destruct Hin as [<-|Hin]; [|]); [..|done]; cbn [cl_fn cl_type cl_empty cl_again cookie_type] in *.
    all: specialize (Hh eq_refl); unfold l_be_close, l_cap_close, l_kvm_close, l_libzfs_fini, l_zfs_close, l_zpool_close;
      rewrite run_bind, (run_checkcookienull_frame C L 1 _ 0) by done; done.
Qed.

(** the three functions for descriptors, which differ in the type *)
Definition fd_close (mt : string) (L : nat) : prog Z :=
  (luaL_checkudata L 1 mt;; lua_getiuservalue L 1 FILEDESC;; mret tt);;
  isnil ← lua_is L (-1) TNIL;
  if isnil : bool then success L
  else
    fd ← lua_tointeger L (-1);
    r ← call "close" [AZ (to_int fd)];
    if rc r =? -1 then
      e ← errno;
      fail L e
    else
      lua_pushnil L;;
      lua_setiuservalue L 1 FILEDESC;;
      success L.

Lemma run_fd_get {A} mt d v h w (g : prog A) : holding mt d v h ->
  rn ((luaL_checkudata L 1 mt;; lua_getiuservalue L 1 FILEDESC;; mret tt);; g) (put L (frame [VUd u] h) w) =
  rn g (put L (LS [v; VUd u] 19 h) w).
Proof.
  intros [Hud Hv]. destruct (udata_of_at _ _ _ _ _ _ Hud) as [Ha Hd].
  rewrite run_bind, run_bind, run_lua. unfold frame, LUA_MINSTACK. cbn [doc rev app]. rewrite (doc_checkudata_ok _ _ _ _ _ _ _ Hud). cbn [andthen].
  rewrite run_bind, run_lua. doc_eval. rewrite Hd. unfold uv_get, FILEDESC. rewrite Hv. doc_eval. by rewrite run_ret.
Qed.

Lemma fds_close : In k fd_types -> close_lib -> closes.
Proof.
  intros Hin [HC _] h w d.
  assert (Hk : k = fd_type (cl_type k) (fd_close (cl_type k))) by
    (cbn [fd_types In] in Hin; by repeat (destruct Hin as [<-|Hin]; [|])).
  unfold refused. rewrite Hk in HC |- *. cbn [cl_fn cl_type cl_call cl_reports cl_ok cl_again cl_valid cl_full cl_empty fd_type andb] in *. split.
  - intros c Hc Hh. cbv zeta. unfold fd_close. rewrite (run_fd_get _ d (VInt c)) by done.
    destruct Hh as [Hud Hv]. destruct (udata_of_at _ _ _ _ _ _ Hud) as [Ha Hd].
    unfold lua_is. rewrite run_bind, run_bind, run_lua. doc_eval. rewrite run_ret. cbn [andthen].
    change (is_type TNUMBER TNIL) with false. cbv iota. rewrite run_bind, run_lua. doc_eval. rewrite Hc.
    rewrite run_bind, run_call, HC. cbn [andthen rc]. change (wx (put L _ w)) with (wx w).
    rewrite set_x_put. destruct (fails c (wx w)); cbn [negb].
    + exists [VInt c; VUd u], 16%nat. change (-1 =? -1) with true. cbv iota. rewrite run_bind, run_errno. cbn [andthen].
      apply (run_fail C L _ [VInt c; VUd u] 16).
    + exists [VInt c; VUd u], 18%nat. change (0 =? -1) with false. cbv iota. rewrite run_bind, run_lua. doc_eval.
      rewrite run_bind, run_lua. unfold doc. doc_eval. rewrite Hd. doc_eval.
      apply (run_success C L [VInt c; VUd u] 18).
  - intros Hh. exists [VNil; VUd u], 18%nat. unfold fd_close. rewrite (run_fd_get _ d VNil) by done.
    unfold lua_is. rewrite run_bind, run_bind, run_lua. doc_eval. rewrite run_ret. cbn [andthen].
    change (is_type TNIL TNIL) with true. cbv iota. apply (run_success C L [VNil; VUd u] 18).
Qed.

Lemma all_close : In k (cookie_types ++ fd_types) -> close_lib -> closes.
Proof. intros [Hin|Hin]%in_app_iff HC; [by apply cookies_close|by apply fds_close]. Qed.

Lemma put_inj st st' w w' : put L st w = put L st' w' -> st = st' /\ wx w = wx w'.
Proof.
  intros Hw. split; [|by apply (f_equal wx) in Hw]. apply (f_equal (fun w => wl w !! L)) in Hw.
  rewrite !wl_put in Hw. by injection Hw.
Qed.

(** *** The life of a handle *)

(** the handle holds [p], which was not taken out and was closed [n] times; or it is empty, and [p]
    was either taken out or closed once more *)
Definition accounted (n : Z) (given : bool) h w : Prop :=
  holds (cl_type k) (cl_full k p) h /\ given = false /\ count p (wx w) = n \/
  holds (cl_type k) (cl_empty k) h /\ count p (wx w) + Z.b2z given = n + 1.

(** closing a full handle either succeeds and empties it, or fails and leaves it as it was; closing
    an empty one does nothing *)
Definition closing h w (rs : list value) h' w' : Prop :=
  holds (cl_type k) (cl_full k p) h /\ refused p (wx w) = false /\
    rs = cl_ok k /\ holds (cl_type k) (cl_empty k) h' /\ wx w' = close p (wx w) \/
  holds (cl_type k) (cl_full k p) h /\ refused p (wx w) = true /\
    rs = failure (close p (wx w)) /\ h' = h /\ wx w' = close p (wx w) \/
  holds (cl_type k) (cl_empty k) h /\ rs = cl_again k /\ h' = h /\ wx w' = wx w.

Lemma close_step n g h w : closes -> (forall x, count p (close p x) = count p x + (if refused p x then 0 else 1)) ->
  cl_valid k p -> accounted n g h w ->
  exists rs h' w', invoke C L (cl_fn k) [VUd u] h w = (Ok rs, put L (idle h') w') /\
    closing h w rs h' w' /\ accounted n g h' w'.
Proof.
  intros Hcl Hcount Hp [([d Hd] & Hg & Hn)|[[d Hd] Hn]]; destruct (Hcl h w d) as [Hfull Hempty].
  - assert (Hh : holds (cl_type k) (cl_full k p) h) by by exists d.
    destruct (Hfull p Hp Hd) as (vs & m & Hrun). cbv zeta in Hrun. specialize (Hcount (wx w)).
    do 3 eexists. split; [by apply (invoke_returns C L _ _ h w _ vs m)|]. unfold closing, accounted.
    destruct (refused p (wx w)); cbn [negb wx set_x].
    + split; [right; by left|]. left. rewrite Hcount. split; [done|split; [done|lia]].
    + assert (He : holds (cl_type k) (cl_empty k) (set_ud u (with_value (cl_empty k) d) h)) by by eapply holds_set.
      split; [by left|]. right. rewrite Hcount, Hg. split; [done|cbn; lia].
  - assert (Hh : holds (cl_type k) (cl_empty k) h) by by exists d. destruct (Hempty Hd) as (vs & m & Hrun).
    exists (cl_again k), h, w. split; [by apply (invoke_returns C L _ _ h w _ vs m)|].
    split; [by right; right|by right].
Qed.

Lemma life_accounted h0 w0 g h w :
  In k (cookie_types ++ fd_types) -> close_lib -> cl_valid k p ->
  holds (cl_type k) (cl_full k p) h0 -> life h0 w0 g h w -> accounted (count p (wx w0)) g h w.
Proof.
  intros Hin HC Hp Hh0 Hlife. pose proof (all_close Hin HC) as Hcl. destruct HC as [_ HC].
  induction Hlife as [|g h w o h' w' Hlife IH Hi|g h w h' w' Hlife IH Hf He Ec|g h w h' w' Hlife IH E1 E2 Ec].
  - by left.
  - destruct (close_step _ g h w Hcl (HC p) Hp IH) as (rs & h1 & w1 & Hi1 & _ & Hoc). rewrite Hi in Hi1.
    apply (f_equal snd) in Hi1. cbn [snd] in Hi1. apply put_inj in Hi1 as [Hst Hx]. injection Hst as ->.
    unfold accounted in *. cbn [put wx set_wl]. by rewrite Hx.
  - right. split; [done|]. destruct IH as [(_ & _ & Hn)|[He' _]]; [rewrite Ec, Hn; cbn; lia|].
    destruct (full_not_empty Hin Hp). by eapply holds_inj.
  - destruct IH as [(Hh & Hg & Hn)|[Hh Hn]]; [left|right]; (split; [by eapply holds_other|by rewrite Ec]).
Qed.

End lifecycle.

(** ** Taking an object out of its handle *)

Definition channel_type `{Consts} : closable := cookie_type Casper.CAP_CHANNEL_METATABLE Casper.l_cap_close "cap_close" false [].

(** [cap_unwrap] empties the handle of a channel, closing nothing, and returns its descriptor and flags *)
Lemma unwrap_gives `{LuaSem} `{Consts} {S : Type} `{Libc S} (C : clib S) (L u : nat) (count : Z -> S -> Z) (c fd flags : Z) (x : S)
    h0 w0 g h w :
  holds u (cl_type channel_type) (cl_full channel_type c) h -> c ≠ 0 ->
  c_call C "cap_unwrap" [AZ c] = (fun w => (Ok (Cret fd [AZ flags]), set_x x w)) -> count c x = count c (wx w) ->
  life C channel_type L u count c h0 w0 g h w ->
  exists h' w', executes C L Casper.l_cap_unwrap [VUd u] h w (Ok [VInt fd; VInt flags]) (put L (idle h') w') /\
    life C channel_type L u count c h0 w0 true h' (put L (idle h') w').
Proof.
  intros (d & Hud & Hv) Hc HC Hx Hlife. pose proof (udata_of_at _ _ _ _ _ _ Hud) as [Ha Hd].
  exists (set_ud u (with_value (VLud 0) d) h), (set_x x w). split.
  - apply (executes_return C L _ _ h w [VInt fd; VInt flags] [VUd u] 18). unfold Casper.l_cap_unwrap.
    rewrite run_bind, (run_checkcookie_frame C L 1 _ c) by (done || by exists u, d). cbn [andthen].
    change (frame [VUd u] h) with (LS [VUd u] (1 + 19) h).
    rewrite run_bind, (run_setcookie C L 1 0 u d [VUd u] 19) by done. cbn [andthen].
    rewrite run_bind, run_call, HC. cbn [andthen]. rewrite set_x_put. cbn [rc out_int outs lookup list_lookup].
    rewrite run_bind, run_lua. doc_eval. rewrite run_bind, run_lua. doc_eval. by rewrite run_ret.
  - eapply life_given; [exact Hlife|by exists d| |exact Hx]. by eapply holds_set.
Qed.

(** ** Witness: an eventfd that could not be closed the first time *)

(** the state counts the calls; the first one fails *)
Definition counting : clib Z := {|
  c_call := fun _ _ w => (Ok (Cret (if wx w =? 0 then -1 else 0) []), set_x (wx w + 1) w);
  c_fn := fun _ _ args w => (Ok (true, args), w) |}.

Definition eventfd_closable `{Consts} : closable := fd_type EVENTFD_METATABLE l_eventfd_close.
Definition open_heap : heap := sample_heap EVENTFD_METATABLE [VInt 5] 0.
Definition tried_world : world Z lstate := put 0%nat (idle open_heap) (set_x 1 (sample_world ∅)).

Definition successes (x : Z) : Z := if x <=? 0 then x else x - 1.

