(* ===== verification/Contracts.v ===== *)
(** * Theorems about many modules at once

    Two things hold of nearly every module: a function that is one call of a
    library keeps to its description ([wrappers_contract], over the tables of descriptions of
    the modules), and opening the module registers and exports what its tables list and
    changes nothing else ([modules_open]). *)

From Stdlib Require Import SpecFloat.
From stdpp Require Import list sorting.
From S2P Require Import Prelude LuaApi Arrays Registry Machine Capi Samples Utils Modules Cmem Wrapper.
From S2P Require Import Extattr Capsicum Libc Kernel Passwd Files Descriptors Mqueue Mac Sysctl Net Netinet Event Magic.
From S2P Require Import Casper Be ZfsCore Fetch.
From S2P Require Import UnistdCalls Unistd Cpuset Xor Uio Signal Acl Aio Nv Nvpair ZfsBase Libzfs Zfs Zpool.

Section contracts.
Context `{LuaSem} `{Consts} {S : Type} `{Libc S} (C : clib S).

(** ** Functions that are one call *)

(** the modules of zfs, libbe, libnv and what runs in them *)
Definition storage_wrappers : list wrapped :=
  libzfs_wrappers ++ zfs_wrappers ++ zpool_wrappers ++ ZfsCore.zcore_wrappers ++ Be.be_wrappers.

Lemma storage_wrappers_ok : Forall wrapped_ok storage_wrappers.
Proof.
  unfold storage_wrappers. repeat apply Forall_app_2;
    [apply libzfs_wrappers_ok|apply zfs_wrappers_ok|apply zpool_wrappers_ok|apply ZfsCore.zcore_wrappers_ok|
     apply Be.be_wrappers_ok].
Qed.

(** the modules of the system calls and of libc *)
Definition system_wrappers : list wrapped :=
  unistd_wrappers ++ acl_wrappers ++ Extattr.extattr_wrappers ++ Capsicum.capsicum_wrappers ++
  Capsicum.caph_wrappers ++ Files.stat_wrappers ++ Files.fcntl_wrappers ++ Files.dirent_wrappers ++
  Kernel.module_wrappers ++ Kernel.linker_wrappers ++ Mqueue.mqueue_wrappers ++ Mac.mac_wrappers ++
  Net.socket_wrappers ++ Netinet.ip_wrappers ++ Netinet.ip6_wrappers.

Lemma system_wrappers_ok : Forall wrapped_ok system_wrappers.
Proof.
  unfold system_wrappers. repeat apply Forall_app_2;
    [apply unistd_wrappers_ok|apply acl_wrappers_ok|apply Extattr.extattr_wrappers_ok|
     apply Capsicum.capsicum_wrappers_ok|apply Capsicum.caph_wrappers_ok|apply Files.stat_wrappers_ok|
     apply Files.fcntl_wrappers_ok|apply Files.dirent_wrappers_ok|apply Kernel.module_wrappers_ok|
     apply Kernel.linker_wrappers_ok|apply Mqueue.mqueue_wrappers_ok|apply Mac.mac_wrappers_ok|
     apply Net.socket_wrappers_ok|apply Netinet.ip_wrappers_ok|apply Netinet.ip6_wrappers_ok].
Qed.

(** the other libraries *)
Definition library_wrappers : list wrapped :=
  Libc.syslog_wrappers ++ Libc.util_wrappers ++ Libc.pathconv_wrappers ++ Libc.rpp_wrappers ++
  Libc.md_wrappers ++ Passwd.pwd_wrappers ++ Passwd.grp_wrappers ++ Magic.magic_wrappers ++
  Casper.casper_wrappers ++ Casper.fileargs_wrappers ++ Casper.net_wrappers ++ Casper.cap_syslog_wrappers ++
  Casper.cap_pwd_wrappers ++ Casper.cap_grp_wrappers ++ Casper.cap_sysctl_wrappers.

Lemma library_wrappers_ok : Forall wrapped_ok library_wrappers.
Proof.
  unfold library_wrappers. repeat apply Forall_app_2;
    [apply Libc.syslog_wrappers_ok|apply Libc.util_wrappers_ok|apply Libc.pathconv_wrappers_ok|
     apply Libc.rpp_wrappers_ok|apply Libc.md_wrappers_ok|apply Passwd.pwd_wrappers_ok|
     apply Passwd.grp_wrappers_ok|apply Magic.magic_wrappers_ok|apply Casper.casper_wrappers_ok|
     apply Casper.fileargs_wrappers_ok|apply Casper.net_wrappers_ok|apply Casper.cap_syslog_wrappers_ok|
     apply Casper.cap_pwd_wrappers_ok|apply Casper.cap_grp_wrappers_ok|apply Casper.cap_sysctl_wrappers_ok].
Qed.

Definition all_wrappers : list wrapped := system_wrappers ++ storage_wrappers ++ library_wrappers.

Lemma all_wrappers_ok : Forall wrapped_ok all_wrappers.
Proof. apply Forall_app_2; [apply system_wrappers_ok|apply Forall_app_2; [apply storage_wrappers_ok|apply library_wrappers_ok]]. Qed.

(** C19. Each of the functions that are one call of a library ([all_wrappers]) does what its
    description says, for every behaviour of the library: it reports the first argument that
    is wrong and calls nothing; otherwise it makes the one call with the arguments converted
    to their C types, and returns the results, or nil, message and number of the error; the
    memory of the module and the Lua heap stay as the description says. *)
Theorem wrappers_contract lib L vs h (w : world S lstate) o h' s e :
  In e all_wrappers -> external C (w_call e :: f_calls (w_fin e)) lib ->
  contract lib (w_call e) (w_args e) (w_order e) (w_fin e) vs h (wx w) = Some (o, h', s) ->
  executes C L (w_prog e) vs h w o (put L (idle h') (set_x s w)).
Proof. apply wrapped_contract, all_wrappers_ok. Qed.

(** ** Opening a module *)

Record module : Type := Module_ {
  m_name : string;
  m_open : nat -> prog Z;
  m_types : list (string * list (string * string));
  m_funcs : list (string * string);
  m_consts : list (string * Z) }.

(** [open_ok], evaluated *)
Definition open_okb (m : module) : bool :=
  (length (m_types m) <=? 16)%nat && bool_decide (NoDup (m_types m).*1) &&
  forallb (fun t => bool_decide (NoDup t.2.*1) && negb (bool_decide ("__index" ∈ t.2.*1))) (m_types m) &&
  bool_decide (NoDup ((m_funcs m).*1 ++ (m_consts m).*1)).

Lemma open_okb_ok (m : module) : open_okb m = true -> open_ok (m_types m) (m_funcs m) (m_consts m).
Proof.
  unfold open_okb, open_ok. rewrite !andb_true_iff, !bool_decide_eq_true, Nat.leb_le, forallb_forall.
  intros [[[Hl Ht] Hm] Hd]. split_all; [done|done| |done].
  apply list.Forall_forall. intros t Hin. apply list_elem_of_In, Hm in Hin.
  rewrite andb_true_iff, negb_true_iff, bool_decide_eq_true, bool_decide_eq_false in Hin. done.
Qed.

Definition opened (m : module) : Prop := opens C (m_open m) (m_types m) (m_funcs m) (m_consts m).

(** a table without its conditions: those of the source only leave entries out *)
Definition covers_type (t t' : string * list (string * string)) : Prop := t.1 = t'.1 /\ t.2 `sublist_of` t'.2.

Lemma covers_types_cons name (l l' : list (string * string)) ts ts' :
  l `sublist_of` l' -> Forall2 covers_type ts ts' -> Forall2 covers_type ((name, l) :: ts) ((name, l') :: ts').
Proof. intros Hl Hts. by apply Forall2_cons. Qed.

Record covers (m : module) (types : list (string * list (string * string)))
  (funcs : list (string * string)) (consts : list (string * Z)) : Prop := {
  cov_types : Forall2 covers_type (m_types m) types;
  cov_funcs : m_funcs m `sublist_of` funcs;
  cov_consts : m_consts m `sublist_of` consts }.

Lemma covers_ok (m : module) types funcs consts :
  covers m types funcs consts -> open_ok types funcs consts -> open_ok (m_types m) (m_funcs m) (m_consts m).
Proof.
  intros [Ht Hf Hc] (Hl & Hn & Hm & Hd).
  assert (Hnames : (m_types m).*1 = types.*1).
  { clear -Ht. induction Ht as [|t t' l l' [E _] _ IH]; [done|]. rewrite !fmap_cons. by f_equal. }
  unfold open_ok. split_all.
  - by rewrite (Forall2_length Ht).
  - by rewrite Hnames.
  - clear -Ht Hm. induction Ht as [|t t' l l' [_ E] _ IH]; [apply Forall_nil|].
    apply Forall_cons_iff in Hm as [[Hx Hi] Hm]. apply Forall_cons; [|by apply IH].
    apply (fmap_sublist fst) in E. split; [by eapply sublist_NoDup|].
    intros Hin. apply Hi. by eapply elem_of_sublist.
  - eapply sublist_NoDup; [done|]. apply sublist_app; by apply (fmap_sublist fst).
Qed.

Lemma sublist_then {A} (b : bool) (l : list A) : (if b then l else []) `sublist_of` l.
Proof. destruct b; [done|apply sublist_nil_l]. Qed.

Lemma sublist_else {A} (b : bool) (l : list A) : (if b then [] else l) `sublist_of` l.
Proof. destruct b; [apply sublist_nil_l|done]. Qed.

Lemma opened_covered (m : module) types funcs consts :
  (forall L, m_open m L = open_module L (m_types m) (m_funcs m) (m_consts m)) ->
  covers m types funcs consts -> open_okb (Module_ (m_name m) (m_open m) types funcs consts) = true -> opened m.
Proof.
  intros Heq Hc Hok%open_okb_ok. apply (covers_ok m) in Hok; [|done]. intros L h w Hn.
  destruct (open_module_opens C _ _ _ Hok L h w Hn) as (h' & t & Hx & Hr).
  exists h', t. split; [|done]. revert Hx. unfold executes, invoke. by rewrite Heq.
Qed.

Definition all_modules : list module := [
  Module_ "nv" luaopen_nv nv_types l_nv_funcs nv_consts;
  Module_ "nvpair" luaopen_nvpair [(Nvpair.NVLIST_METATABLE, l_nvlist_meta)]
    l_nvpair_funcs nvpair_consts;
  Module_ "sys.acl" luaopen_sys_acl acl_types l_acl_funcs acl_consts;
  Module_ "sys.uio" luaopen_sys_uio [] l_uio_funcs uio_consts;
  Module_ "xor" luaopen_xor [] l_xor_funcs [];
  Module_ "sys.extattr" Extattr.luaopen_sys_extattr []
    Extattr.l_extattr_funcs Extattr.extattr_consts;
  Module_ "capsicum_helpers" Capsicum.luaopen_capsicum_helpers []
    Capsicum.l_caph_funcs Capsicum.caph_consts;
  Module_ "util" Libc.luaopen_util []
    Libc.l_util_funcs Libc.util_consts;
  Module_ "pathconv" Libc.luaopen_pathconv [] Libc.l_pathconv_funcs [];
  Module_ "readpassphrase" Libc.luaopen_readpassphrase []
    Libc.l_rpp_funcs Libc.rpp_consts;
  Module_ "b64" Libc.luaopen_b64 [] Libc.l_b64_funcs [];
  Module_ "md" Libc.luaopen_md [(Libc.SHA_CTX_METATABLE, Libc.l_sha_ctx_meta)]
    Libc.l_md_funcs [];
  Module_ "time" Libc.luaopen_time []
    Libc.l_time_funcs Libc.time_consts;
  Module_ "sys.module" Kernel.luaopen_sys_module []
    Kernel.l_module_funcs [];
  Module_ "sys.linker" Kernel.luaopen_sys_linker []
    Kernel.l_linker_funcs Kernel.linker_consts;
  Module_ "pwd" Passwd.luaopen_pwd [] Passwd.l_pwd_funcs [];
  Module_ "grp" Passwd.luaopen_grp [] Passwd.l_grp_funcs [];
  Module_ "sys.stat" Files.luaopen_sys_stat []
    Files.l_stat_funcs Files.stat_consts;
  Module_ "fcntl" Files.luaopen_fcntl []
    Files.l_fcntl_funcs Files.fcntl_consts;
  Module_ "dirent" Files.luaopen_dirent [(Files.DIR_METATABLE, Files.l_dir_meta)]
    Files.l_dirent_funcs Files.dirent_consts;
  Module_ "sys.eventfd" Descriptors.luaopen_sys_eventfd [(Descriptors.EVENTFD_METATABLE, Descriptors.l_eventfd_meta)]
    Descriptors.l_eventfd_funcs Descriptors.eventfd_consts;
  Module_ "sys.procdesc" Descriptors.luaopen_sys_procdesc [(Descriptors.PROCDESC_METATABLE, Descriptors.l_procdesc_meta)]
    Descriptors.l_procdesc_funcs Descriptors.procdesc_consts;
  Module_ "sys.inotify" Descriptors.luaopen_sys_inotify [(Descriptors.INOTIFY_METATABLE, Descriptors.l_inotify_meta)]
    Descriptors.l_inotify_funcs Descriptors.inotify_consts;
  Module_ "mqueue" Mqueue.luaopen_mqueue [(Mqueue.MQD_METATABLE, Mqueue.l_mqd_meta)]
    Mqueue.l_mqueue_funcs [];
  Module_ "sys.mac" Mac.luaopen_sys_mac [(Mac.MAC_METATABLE, Mac.l_mac_meta)]
    Mac.l_mac_funcs Mac.mac_consts;
  Module_ "sys.sysctl" Sysctl.luaopen_sys_sysctl [(Sysctl.MIB_METATABLE, Sysctl.l_mib_meta)]
    Sysctl.l_sysctl_funcs Sysctl.sysctl_consts;
  Module_ "sys.socket" Net.luaopen_sys_socket []
    Net.l_socket_funcs Net.socket_consts;
  Module_ "netinet.ip" Netinet.luaopen_netinet_ip []
    Netinet.l_ip_funcs Netinet.ip_consts;
  Module_ "netinet.ip6" Netinet.luaopen_netinet_ip6 []
    Netinet.l_ip6_funcs Netinet.ip6_consts;
  Module_ "sys.event" Event.luaopen_sys_event [(Event.KQUEUE_METATABLE, Event.l_kqueue_meta)]
    Event.l_kqueue_funcs Event.event_consts;
  Module_ "magic" Magic.luaopen_magic [(Magic.MAGIC_METATABLE, Magic.l_magic_meta)]
    Magic.l_magic_funcs Magic.magic_consts;
  Module_ "casper.fileargs" Casper.luaopen_casper_fileargs [(Casper.FILEARGS_METATABLE, Casper.l_fileargs_meta)]
    Casper.l_fileargs_funcs Casper.fileargs_consts;
  Module_ "casper.net" Casper.luaopen_casper_net [(Casper.CAP_NET_LIMIT_METATABLE, Casper.l_net_limit_meta)]
    Casper.l_net_funcs Casper.net_consts;
  Module_ "casper.syslog" Casper.luaopen_casper_syslog []
    Casper.l_syslog_funcs [];
  Module_ "casper.netdb" Casper.luaopen_casper_netdb []
    Casper.l_netdb_funcs [];
  Module_ "casper.pwd" Casper.luaopen_casper_pwd []
    Casper.l_pwd_funcs [];
  Module_ "casper.grp" Casper.luaopen_casper_grp []
    Casper.l_grp_funcs [];
  Module_ "casper.sysctl" Casper.luaopen_casper_sysctl [(Casper.CAP_MIB_METATABLE, Casper.l_cap_mib_meta); (Casper.CAP_SYSCTL_LIMIT_METATABLE, Casper.l_cap_sysctl_limit_meta)]
    Casper.l_cap_sysctl_funcs Casper.cap_sysctl_consts;
  Module_ "be" Be.luaopen_be [(Be.LIBBE_METATABLE, Be.l_be_meta)]
    Be.l_be_funcs Be.be_consts;
  Module_ "zfs.core" ZfsCore.luaopen_zfs_core []
    ZfsCore.l_lzc_funcs ZfsCore.zcore_consts;
  Module_ "fetch" Fetch.luaopen_fetch [] Fetch.l_fetch_funcs Fetch.fetch_consts].

Create HintDb tables.
#[local] Hint Unfold
  Be.be_consts Be.l_be_funcs Be.l_be_meta Capsicum.caph_consts Capsicum.l_caph_funcs Casper.cap_sysctl_consts
  Casper.fileargs_consts Casper.l_cap_mib_meta Casper.l_cap_sysctl_funcs Casper.l_cap_sysctl_limit_meta
  Casper.l_fileargs_funcs Casper.l_fileargs_meta Casper.l_grp_funcs Casper.l_net_funcs Casper.l_net_limit_meta
  Casper.l_netdb_funcs Casper.l_pwd_funcs Casper.l_syslog_funcs Casper.net_consts Descriptors.eventfd_consts
  Descriptors.inotify_consts Descriptors.l_eventfd_funcs Descriptors.l_eventfd_meta
  Descriptors.l_inotify_funcs Descriptors.l_inotify_meta Descriptors.l_procdesc_funcs
  Descriptors.l_procdesc_meta Descriptors.procdesc_consts Event.event_consts Event.l_kqueue_funcs
  Event.l_kqueue_meta Extattr.extattr_consts Extattr.l_extattr_funcs Fetch.l_fetch_funcs Fetch.fetch_consts Files.dirent_consts Files.fcntl_consts
  Files.l_dir_meta Files.l_dirent_funcs Files.l_fcntl_funcs Files.l_stat_funcs Files.stat_consts
  Kernel.l_linker_funcs Kernel.l_module_funcs Kernel.linker_consts Libc.l_b64_funcs Libc.l_md_funcs
  Libc.l_pathconv_funcs Libc.l_rpp_funcs Libc.l_sha_ctx_meta Libc.l_time_funcs Libc.l_util_funcs
  Libc.rpp_consts Libc.time_consts Libc.util_consts Mac.l_mac_funcs Mac.l_mac_meta Mac.mac_consts
  Magic.l_magic_funcs Magic.l_magic_meta Magic.magic_consts Mqueue.l_mqd_meta Mqueue.l_mqueue_funcs
  Net.l_socket_funcs Net.socket_consts Net.socket_consts1 Net.socket_consts2 Net.socket_consts3
  Netinet.ip6_consts Netinet.ip_consts Netinet.l_ip6_funcs Netinet.l_ip_funcs Passwd.l_grp_funcs
  Passwd.l_pwd_funcs Sysctl.l_mib_meta Sysctl.l_sysctl_funcs Sysctl.sysctl_consts ZfsCore.l_lzc_funcs
  ZfsCore.zcore_consts acl_consts acl_types l_acl_funcs l_nv_funcs l_nvlist_meta l_nvpair_funcs l_uio_funcs
  l_xor_funcs nv_consts nv_types nvpair_consts uio_consts : tables.

(** by evaluation of the tables without their conditions *)
Ltac sublist_of_table :=
  cbn [m_types m_funcs m_consts fst snd]; autounfold with tables;
  repeat first [apply sublist_then|apply sublist_else|eapply sublist_app|reflexivity].

Ltac sublist_of_types :=
  cbn [m_types]; autounfold with tables;
  repeat (apply covers_types_cons; [sublist_of_table|]); apply Forall2_nil_2.

Ltac module_opens :=
  eapply opened_covered;
    [intros L; reflexivity|
     split; [sublist_of_types|sublist_of_table|sublist_of_table]|
     vm_compute; reflexivity].

Lemma all_modules_opened : Forall opened all_modules.
Proof. repeat (apply Forall_cons; [module_opens|]). apply Forall_nil. Qed.

(** C20. Opening a module on a state where its types are not registered registers every type,
    whose methods are found through [__index], returns a table of exactly the functions and
    constants the source lists, and leaves everything else as it was; so no table of a module
    names a function, method, type or constant twice. *)
Theorem modules_open (m : module) : In m all_modules -> opened m.
Proof. pose proof all_modules_opened as Hm. rewrite list.Forall_forall in Hm. intros Hin. by apply Hm, list_elem_of_In. Qed.
End contracts.

(** ** Witnesses *)

Lemma wrappers_contract_witness :
  executes (sample_clib [("lseek", (Cret (-1) [], 29))]) 0 l_lseek [VInt 3; VInt (-5); VInt 0]
    (sample_heap SETMODE_METATABLE [] 0) (sample_world ∅)
    (Ok (failure 29)) (put 0%nat (idle (sample_heap SETMODE_METATABLE [] 0)) (set_x 29 (sample_world ∅))).
Proof.
  apply (wrappers_contract (sample_clib [("lseek", (Cret (-1) [], 29))])
    (fun fn args s => if String.eqb fn "lseek" then (Cret (-1) [], 29) else (Cret 0 [], s)) 0
    [VInt 3; VInt (-5); VInt 0] (sample_heap SETMODE_METATABLE [] 0) (sample_world ∅) _ _ _
    (Wrapped "l_lseek" l_lseek "lseek" [AFd id; AInt id; AInt to_int] [] RInt)).
  - apply list_elem_of_In, (list_elem_of_lookup_2 _ 63). reflexivity.
  - intros fn args w [<-|[]]. done.
  - vm_compute. reflexivity.
Defined.

Lemma modules_open_witness :
  opens (sample_clib []) luaopen_nv nv_types l_nv_funcs nv_consts.
Proof.
  exact (modules_open (sample_clib []) (Module_ "nv" luaopen_nv nv_types l_nv_funcs nv_consts) (or_introl eq_refl)).
Defined.
